(* ===== verification/_CoqProject ===== *)
-Q . S2P
Prelude.v
Monad.v
Ring.v
Uprog.v
Riscv.v
Kstring.v
Kstate.v
Hart.v
Hartspec.v
Spinlock.v
Printf.v
Ulib.v
Grep.v
Umalloc.v
Sh.v
Uprogs.v
Usertests.v
Kalloc.v
Vm.v
Pagetable.v
Uvm.v
Ucopy.v
Sched.v
Schedspec.v
Smpsched.v
Smpproto.v
Smpspec.v
Bio.v
Diskspec.v
Cachespec.v
Log.v
Logspec.v
Fs.v
Txnspec.v
Inodespec.v
Dirspec.v
Pathspec.v
Console.v
File.v
Proc.v
Exec.v
Syscall.v
Trap.v
Pipespec.v
Consolespec.v
Procspec.v
Forkspec.v
Exitspec.v
Growspec.v
Examples.v
Procexamples.v
Ioexamples.v
Uexamples.v
Diskexamples.v
Fsexamples.v
Hartexamples.v
Smpexamples.v
