(* ===== verification/Prelude.v ===== *)
(** * A verification of xv6-riscv-container

    The program is the xv6 teaching kernel for RISC-V, extended with containers, and
    its user programs.  This development is a shallow embedding of it: C functions are
    Rocq functions on explicit state, and the theorems are about those functions.

    ** The program and the model

    The kernel is one state, the record [kst] of Kstate.v, with the tables that the C
    code keeps in static variables: processes, containers, open files, inodes, buffers,
    the log, pipes, consoles, the disk driver, and physical memory as a map from
    addresses to bytes.  A pointer to an element of a static table is its index; page
    tables, trapframes, the free list and user memory are at their addresses in memory.
    A C function is a value of [M S A] (Monad.v): a function of the state and of an
    environment, whose outcome is a result, a panic, undefined behaviour, a loop without
    end or a thread still waiting.  The environment is the sequence of the changes that
    other threads, interrupts and devices make each time the thread gives the CPU up;
    spinning and sleeping consume it.  Integers keep their C width: [u32], [i32] and
    the like are written where C converts or wraps around.

    - Monad.v: outcomes, the loops of C and the judgements [runs] and [panics].
    - Riscv.v, Kstring.v, Kstate.v: the macros of riscv.h, memlayout.h and param.h;
      memory and string.c; the structures and the state.
    - Hart.v, Hartspec.v: one RISC-V hart with its control registers; riscv.h, entry.S,
      start.c, plic.c, swtch.S, kernelvec.S, trampoline.S.
    - Spinlock.v: spinlock.c twice, on several harts with atomic swaps (module [Smp])
      and as the interface that the other files use, the set of the locks held.
    - Printf.v: printf.c.  Kalloc.v: kalloc.c.  Vm.v: vm.c, with what a page table in
      memory means in Pagetable.v and the theorems in Pagetable.v, Uvm.v and Ucopy.v.
    - Sched.v and Proc.v: proc.c, below and above the file system; Schedspec.v,
      with Forkspec.v for the beginning of a process, Growspec.v for a change of its
      size, Exitspec.v for its exit and Procspec.v for its end.
    - Smpsched.v: the scheduler, sleep, wakeup, kill, the sleep locks and timer interrupts
      once more, on several harts (module [Harts]): code as a tree of commands, each one
      access to what the harts share, run in any order.  Smpproto.v: what each function
      may do with the locks, as a weakest precondition; Smpspec.v: the invariant of the
      machine and the theorems; Smpexamples.v: runs.
    - Bio.v: sleeplock.c, virtio_disk.c and bio.c; Diskspec.v and Cachespec.v.
    - Log.v: log.c; Logspec.v.  Fs.v: fs.c, with its theorems by layer: transactions and
      blocks in Txnspec.v, inodes and files in Inodespec.v, the inode cache and
      directories in Dirspec.v, path names in Pathspec.v.
    - Console.v: console.c and uartintr; Consolespec.v.  File.v: file.c and pipe.c;
      Pipespec.v.  Exec.v: exec.c.  Syscall.v: syscall.c, sysproc.c, sysfile.c.
      Trap.v: trap.c and main.c.
    - Uprog.v: a user program is a tree of system calls; what answers them is a
      parameter.  Ulib.v: ulib.c and printf.c.  Umalloc.v: umalloc.c.  Sh.v: sh.c.
      Grep.v: grep.c.  Uprogs.v: the other programs.  Usertests.v: usertests.c, each
      test as a program and the main loop that runs them.
    - Ring.v: rings of bytes, shared by pipes and consoles.
    - Examples.v, Procexamples.v, Ioexamples.v, Diskexamples.v, Fsexamples.v,
      Hartexamples.v, Uexamples.v, Smpexamples.v: concrete states, on which each theorem with hypotheses is applied.

    ** What the theorems show

    - Memory: the free list in memory is the list of the free pages, and kalloc and
      kfree take and give pages of it within the quota of the container; mappages,
      uvmalloc and uvmcopy change the tree of a page table as meant and are undone when
      pages are lacking, which happens only when fewer are free, or left in the quota,
      than the number that each of them can need; the copies between kernel and user memory, which go page by
      page, are the copies byte by byte through the page table.
    - Locks and processes: acquire excludes other harts; the code with atomic swaps
      implements the set of held locks; on any number of harts, with their steps and
      timer interrupts in any order, no process sleeps for a sleep lock that has been
      released, no process is on two harts, and the container of a process that runs was
      found running before; kill does not leave the container;
      fork makes a child with a copy of the memory and the registers of its parent; exit
      does not return, and once the files are closed and the directory is left, however
      long that takes, it leaves a zombie, its children to init and its parent awake;
      wait reaps a child that has exited and gives back every page it had; growproc keeps
      the address space one of the size it returns with.
    - Storage: with a device that serves requests as a virtio disk does (class
      [VirtioDevice] of Diskspec.v), the driver transfers blocks, the buffer cache
      implements an array of blocks, a transaction becomes visible in one step
      whichever write a crash comes after, recovery gives the state before or after it
      and may itself be interrupted, and balloc and bfree change one bit of the bitmap
      as the process sees it.
    - Files: on such transactions, iupdate and ilock are inverse; a file is an array of
      bytes that readi reads and writei splices into, through direct and indirect blocks
      and within its bounds, with no effect on other files; the inode cache has one entry
      for each inode; a directory is a map from names to inode numbers, that dirlookup
      reads and dirlink extends; namex resolves every path on the tree of directories,
      confined to the root of a container, and gives back what it takes on the way.
    - Devices: pipes and consoles, rings with counters that wrap around, are queues; the
      console is a line editor; printed numbers read back as what they were.
    - Hart: traps, context switches and timer interrupts give the interrupted code its
      registers back; a hart boots into main with its timer armed.
    - Programs: the parser of the shell inverts a printer of commands, returns on every
      line and makes words of it; malloc and free keep a heap of disjoint blocks; the
      matcher of grep decides the language of its patterns and grep prints the matching
      lines; usertests reports each test as it ended.
    - Some theorems say where the code fails: fork panics at a memory limit and leaves
      open files in an unused slot at the limit of processes, kill misses
      a process, the console switch leaves the array of consoles, absolute paths in a
      container lose references to its root.  Runs of Smpexamples.v show that suspend
      and kill put a process on two harts, and that a scheduler may still run a process
      of a container that has just been suspended; the theorems of Smpspec.v leave
      suspend out.

    ** Bounds and fuel

    Loops over tables are over the lists of their indices.  A loop of C whose length
    depends on data is [loop] with a bound that the length of the data gives, and the
    theorems about it show that it returns; only loops that C itself does not end
    (waiting for a lock, a disk, a child, a character) consume the environment and may be
    left waiting.  The parser of the shell runs on fuel that the length of the line
    bounds, and is shown to need no more.  The loops of Smpsched.v that C does not end
    take a number of rounds, after which the hart waits for ever; the theorems hold for
    every such number.

    ** What is not modelled

    - The registers of the uart (uart.c): a byte sent is appended to the output, and the
      bytes received are an argument of uartintr.  The registers that virtio_disk_init
      probes are a parameter.
    - Translation buffers and fences: memory is always what was last written, and
      translation is always that of the current page table.
    - Interrupts of the kernel between two instructions, but for timer interrupts in
      Smpsched.v: what they change is seen when a thread gives up the CPU.  Processes that
      begin or end while others run are not in Smpsched.v.  The theorems on transactions follow one process; other
      processes take no step while it waits for the disk.
    - Sectors: a block is written to the disk whole or not at all.
    - The linker script and the layout of the kernel image (addresses of functions are
      parameters), mkfs, and the shell scripts of the build.
    - ramdisk.c, sctest.c and alarmtest.c, which the build does not use. *)

From Stdlib Require Export ZArith Lia.
From stdpp Require Export base tactics numbers strings gmap.
From stdpp Require Export list.

#[global] Open Scope Z_scope.

(** ** Machine integers

    A w-bit C integer is a [Z]; the wrap-around of an assignment to a
    variable of that type is written out with these functions. *)

Definition u8 (z : Z) : Z := z mod 2 ^ 8.
Definition u16 (z : Z) : Z := z mod 2 ^ 16.
Definition u32 (z : Z) : Z := z mod 2 ^ 32.
Definition u64 (z : Z) : Z := z mod 2 ^ 64.

Definition i16 (z : Z) : Z := (z + 2 ^ 15) mod 2 ^ 16 - 2 ^ 15.
Definition i32 (z : Z) : Z := (z + 2 ^ 31) mod 2 ^ 32 - 2 ^ 31.

(** The bytes of a Rocq string literal, as a C string without its NUL. *)

Fixpoint bytes_of_string (s : string) : list Z :=
  match s with
  | EmptyString => []
  | String c s' => Z.of_N (Ascii.N_of_ascii c) :: bytes_of_string s'
  end.

(** A string literal as the C array it denotes, with the closing NUL. *)

Definition cstr (s : string) : list Z := bytes_of_string s ++ [0].

(** ** Tactics and hint databases *)

Create HintDb kernel.

(** Case analysis on the boolean tests of [Z] and [nat] that guard the code. *)

Ltac zcase :=
  repeat match goal with
  | |- context [Z.eqb ?a ?b] => destruct (Z.eqb_spec a b); try lia
  | |- context [Z.ltb ?a ?b] => destruct (Z.ltb_spec a b); try lia
  | |- context [Z.leb ?a ?b] => destruct (Z.leb_spec a b); try lia
  | |- context [Nat.eqb ?a ?b] => destruct (Nat.eqb_spec a b); try lia
  end.

(** Linear arithmetic with [/] and [mod] by constants. *)

Ltac dlia := Z.to_euclidean_division_equations; lia.

(** ** Generic lemmas on machine integers *)

Lemma u32_small z : 0 <= z < 2 ^ 32 -> u32 z = z.
Proof. apply Z.mod_small. Qed.

Lemma u64_small z : 0 <= z < 2 ^ 64 -> u64 z = z.
Proof. apply Z.mod_small. Qed.

Lemma i32_small z : - 2 ^ 31 <= z < 2 ^ 31 -> i32 z = z.
Proof. intros ?. unfold i32. rewrite Z.mod_small; lia. Qed.

Lemma i32_add_l a b : i32 (i32 a + b) = i32 (a + b).
Proof.
  unfold i32. f_equal. replace ((a + 2 ^ 31) mod 2 ^ 32 - 2 ^ 31 + b + 2 ^ 31)
    with ((a + 2 ^ 31) mod 2 ^ 32 + b) by lia.
  rewrite Zplus_mod_idemp_l. f_equal. lia.
Qed.

Lemma u32_range z : 0 <= u32 z < 2 ^ 32.
Proof. apply Z.mod_pos_bound; lia. Qed.

Lemma u64_range z : 0 <= u64 z < 2 ^ 64.
Proof. apply Z.mod_pos_bound; lia. Qed.

Lemma i32_range z : - 2 ^ 31 <= i32 z < 2 ^ 31.
Proof. unfold i32. pose proof (Z.mod_pos_bound (z + 2 ^ 31) (2 ^ 32)). lia. Qed.

#[export] Hint Resolve u32_range u64_range i32_range : kernel.

(** A part of a list after a part of it was overwritten. *)

Lemma take_drop_inserts {A} (k l : list A) (i n : nat) :
  (i + length k <= length l)%nat -> n = length k -> take n (drop i (list_inserts i k l)) = k.
Proof.
  intros Hl ->. apply list_eq. intros j. destruct (decide (j < length k)%nat).
  - rewrite lookup_take_lt, lookup_drop, list_lookup_inserts by lia. f_equal. lia.
  - rewrite lookup_take_ge by lia. symmetry. apply lookup_ge_None. lia.
Qed.

Lemma take_drop_inserts_other {A} (k l : list A) (i j n : nat) :
  (j + n <= i \/ i + length k <= j)%nat -> take n (drop j (list_inserts i k l)) = take n (drop j l).
Proof.
  intros H. apply list_eq. intros m. destruct (decide (m < n)%nat).
  - rewrite !lookup_take_lt, !lookup_drop by lia. destruct H; [by apply list_lookup_inserts_lt; lia|by apply list_lookup_inserts_ge; lia].
  - by rewrite !lookup_take_ge by lia.
Qed.

#[global] Arguments u8 : simpl never.
#[global] Arguments u16 : simpl never.
#[global] Arguments u32 : simpl never.
#[global] Arguments u64 : simpl never.
#[global] Arguments i16 : simpl never.
#[global] Arguments i32 : simpl never.
