(* ===== verification/Monad.v ===== *)
(** * The monad the kernel code is written in

    A C function of the kernel becomes a value of [M S A]: it threads a state
    of type [S], returns an [A], and may instead call [panic], run into
    undefined behaviour, block in [sleep] or spin for ever.

    What the other processes do while a thread is off the CPU is an argument
    of the run: a list of functions on the state, one for each time the thread
    gives the CPU up and gets it back.  A thread that gives the CPU up when the
    list is empty has not been resumed yet and is [Blocked]. *)

From S2P Require Import Prelude.

(** ** Outcomes, computations and loops *)

Section Monad.
Context {S : Type}.

Definition env : Type := list (S -> S).

Inductive outcome (A : Type) : Type :=
| Ok (a : A) (e : env) (s : S)   (* the function returned [a] *)
| Panic (msg : string)           (* panic(msg): the machine stops *)
| Fault                          (* undefined behaviour: wild pointer, index out of range *)
| Blocked (s : S)                (* still waiting to be given the CPU back *)
| Spin.                          (* a busy loop that no iteration of ends *)

#[global] Arguments Ok {A} a e s.
#[global] Arguments Panic {A} msg.
#[global] Arguments Fault {A}.
#[global] Arguments Blocked {A} s.
#[global] Arguments Spin {A}.

Definition M (A : Type) : Type := env -> S -> outcome A.

Definition ret {A} (a : A) : M A := fun e s => Ok a e s.

Definition bind {A B} (m : M A) (k : A -> M B) : M B :=
  fun e s =>
    match m e s with
    | Ok a e' s' => k a e' s'
    | Panic msg => Panic msg
    | Fault => Fault
    | Blocked s' => Blocked s'
    | Spin => Spin
    end.

Definition gets {A} (f : S -> A) : M A := fun e s => Ok (f s) e s.
Definition modify (f : S -> S) : M unit := fun e s => Ok tt e (f s).
Definition panic {A} (msg : string) : M A := fun _ _ => Panic msg.
Definition fault {A} : M A := fun _ _ => Fault.
Definition spin {A} : M A := fun _ _ => Spin.

(** Give the CPU up; the next element of the environment is what happens to
    the state until this thread runs again. *)

Definition yield_cpu : M unit :=
  fun e s => match e with [] => Blocked s | f :: e' => Ok tt e' (f s) end.

(** A pointer or index that must be valid. *)

Definition valid {A} (o : option A) : M A :=
  match o with Some a => ret a | None => fault end.

(** [for(x in l) body], whose body may leave the loop with a value (a [return],
    a [break] or a [goto] out of it). *)

Fixpoint for_ret {A R} (l : list A) (body : A -> M (option R)) : M (option R) :=
  match l with
  | [] => ret None
  | x :: l' =>
      bind (body x) (fun r =>
        match r with Some v => ret (Some v) | None => for_ret l' body end)
  end.

(** [for(..) body] with a variable that the rounds pass on. *)

Fixpoint for_acc {A X} (l : list A) (body : A -> X -> M X) (x : X) : M X :=
  match l with
  | [] => ret x
  | a :: l' => bind (body a x) (for_acc l' body)
  end.

Fixpoint for_each {A} (l : list A) (body : A -> M unit) : M unit :=
  match l with
  | [] => ret tt
  | x :: l' => bind (body x) (fun _ => for_each l' body)
  end.

(** [for(;;) body] with loop variables [x]: the body gives their next values
    ([inl]) or leaves the loop with a result ([inr]).  [fuel] bounds the number
    of iterations; a run that uses it up is a [Spin]. *)

Fixpoint loop {X R} (fuel : nat) (body : X -> M (X + R)) (x : X) : M R :=
  match fuel with
  | O => spin
  | Datatypes.S n =>
      bind (body x) (fun r =>
        match r with inl x' => loop n body x' | inr v => ret v end)
  end.

(** The same loop with the bound written in binary, so that a bound of 2^52
    iterations can be evaluated. *)

Fixpoint loop_pos {X R} (fuel : positive) (body : X -> M (X + R)) (x : X) : M (X + R) :=
  let twice p x :=
    bind (loop_pos p body x) (fun r =>
      match r with inl x' => loop_pos p body x' | inr v => ret (inr v) end) in
  match fuel with
  | xH => body x
  | xO p => twice p x
  | xI p =>
      bind (body x) (fun r =>
        match r with inl x' => twice p x' | inr v => ret (inr v) end)
  end.

Definition loopz {X R} (fuel : Z) (body : X -> M (X + R)) (x : X) : M R :=
  match fuel with
  | Zpos p =>
      bind (loop_pos p body x) (fun r =>
        match r with inl _ => spin | inr v => ret v end)
  | _ => spin
  end.

(** A loop that gives the CPU up in every iteration but its last: [while(cond)
    sleep(...)].  It ends or waits for the CPU, so the number of times the thread
    is resumed bounds it. *)

Definition wait_loop {X R} (body : X -> M (X + R)) (x : X) : M R :=
  fun e s => loop (Datatypes.S (length e)) body x e s.

End Monad.

#[global] Arguments env S : clear implicits.
#[global] Arguments outcome S A : clear implicits.
#[global] Arguments M S A : clear implicits.

Declare Scope kernel_scope.
Delimit Scope kernel_scope with K.
#[global] Open Scope kernel_scope.

Notation "x <- m ;; k" := (bind m (fun x => k))
  (at level 100, m at next level, right associativity) : kernel_scope.
Notation "m ;; k" := (bind m (fun _ => k))
  (at level 100, k at level 200, right associativity) : kernel_scope.
Notation "'if*' c 'then' m" := (if c then m else ret tt)
  (at level 200, c at level 200, m at level 200) : kernel_scope.

(** Unfold the combinators of the monad. *)

Ltac monad := unfold bind, gets, modify, ret, valid, panic, fault; simpl.

(** ** Runs that return without giving the CPU up *)

Section Runs.
Context {S : Type}.

(** [runs m s a s']: from [s], whatever the environment, [m] returns [a] in
    [s'] and never gives the CPU up. *)

Definition runs {A} (m : M S A) (s : S) (a : A) (s' : S) : Prop :=
  forall e, m e s = Ok a e s'.

Lemma runs_ret {A} (a : A) s : runs (ret a) s a s.
Proof. done. Qed.

Lemma runs_gets {A} (f : S -> A) s : runs (gets f) s (f s) s.
Proof. done. Qed.

Lemma runs_modify (f : S -> S) s : runs (modify f) s tt (f s).
Proof. done. Qed.

Lemma runs_valid {A} (o : option A) a s : o = Some a -> runs (valid o) s a s.
Proof. by intros ->. Qed.

Lemma runs_bind {A B} (m : M S A) (k : A -> M S B) s a s' b s'' :
  runs m s a s' -> runs (k a) s' b s'' -> runs (bind m k) s b s''.
Proof. intros Hm Hk e. unfold bind. by rewrite Hm, Hk. Qed.

Lemma runs_det {A} (m : M S A) s a s' a' s'' :
  runs m s a s' -> runs m s a' s'' -> a = a' /\ s' = s''.
Proof. intros H1 H2. pose proof (H1 []) as E. rewrite (H2 []) in E. by injection E. Qed.

Lemma runs_for_ret_skip {A R} (x : A) l (body : A -> M S (option R)) s s' r s'' :
  runs (body x) s None s' -> runs (for_ret l body) s' r s'' ->
  runs (for_ret (x :: l) body) s r s''.
Proof. intros. eapply runs_bind; [eassumption|done]. Qed.

Lemma runs_for_ret_stop {A R} (x : A) l (body : A -> M S (option R)) s s' (r : R) :
  runs (body x) s (Some r) s' -> runs (for_ret (x :: l) body) s (Some r) s'.
Proof. intros. eapply runs_bind; [eassumption|done]. Qed.

(** A search loop that leaves the state alone until the first hit. *)

Lemma runs_for_ret_none {A R} (l : list A) (body : A -> M S (option R)) s :
  (forall x, x ∈ l -> runs (body x) s None s) -> runs (for_ret l body) s None s.
Proof.
  induction l as [|x l IH]; intros H; [done|].
  eapply runs_for_ret_skip; [apply H; set_solver|apply IH; set_solver].
Qed.

Lemma runs_for_ret_first {A R} (l1 l2 : list A) (x : A) (body : A -> M S (option R)) s s' r :
  (forall y, y ∈ l1 -> runs (body y) s None s) ->
  runs (body x) s (Some r) s' ->
  runs (for_ret (l1 ++ x :: l2) body) s (Some r) s'.
Proof.
  induction l1 as [|y l1 IH]; intros H Hx; simpl app.
  - by apply runs_for_ret_stop.
  - eapply runs_for_ret_skip; [apply H; set_solver|apply IH; [set_solver|done]].
Qed.

Lemma runs_for_each_cons {A} (x : A) l (body : A -> M S unit) s s' s'' :
  runs (body x) s tt s' -> runs (for_each l body) s' tt s'' ->
  runs (for_each (x :: l) body) s tt s''.
Proof. intros. eapply runs_bind; [eassumption|done]. Qed.

(** A loop whose body acts on the state as a function runs as the fold of it. *)

Lemma runs_for_each_fold {A} (l : list A) (body : A -> M S unit) (f : S -> A -> S)
    (I : S -> Prop) s :
  I s ->
  (forall x s, x ∈ l -> I s -> runs (body x) s tt (f s x) /\ I (f s x)) ->
  runs (for_each l body) s tt (fold_left f l s) /\ I (fold_left f l s).
Proof.
  revert s; induction l as [|x l IH]; intros s Hs H; [done|].
  destruct (H x s) as [Hx HI]; [by left|done|].
  destruct (IH (f s x)) as [Hl HIl]; [done|intros; apply H; [by right|done]|].
  split; [eapply runs_for_each_cons; eassumption|done].
Qed.

Lemma runs_loop_stop {X R} n (body : X -> M S (X + R)) x s r s' :
  runs (body x) s (inr r) s' -> runs (loop (Datatypes.S n) body x) s r s'.
Proof. intros. eapply runs_bind; [eassumption|done]. Qed.

Lemma runs_loop_next {X R} n (body : X -> M S (X + R)) x x' s r s' s'' :
  runs (body x) s (inl x') s' -> runs (loop n body x') s' r s'' ->
  runs (loop (Datatypes.S n) body x) s r s''.
Proof. intros. eapply runs_bind; [eassumption|done]. Qed.

Lemma runs_wait_stop {X R} (body : X -> M S (X + R)) x s r s' :
  runs (body x) s (inr r) s' -> runs (wait_loop body x) s r s'.
Proof. intros H e. by apply runs_loop_stop. Qed.

(** [panics m s msg]: from [s], whatever the environment, [m] panics. *)

Definition panics {A} (m : M S A) (s : S) (msg : string) : Prop := forall e, m e s = Panic msg.

Lemma panics_panic {A} msg s : panics (panic (A:=A) msg) s msg.
Proof. done. Qed.

Lemma panics_bind_l {A B} (m : M S A) (k : A -> M S B) s msg :
  panics m s msg -> panics (bind m k) s msg.
Proof. intros H e. unfold bind. by rewrite H. Qed.

Lemma panics_bind {A B} (m : M S A) (k : A -> M S B) s a s' msg :
  runs m s a s' -> panics (k a) s' msg -> panics (bind m k) s msg.
Proof. intros Hm Hk e. unfold bind. by rewrite Hm. Qed.

(** [n] iterations of a loop. *)

Fixpoint iters {X R} (n : nat) (body : X -> M S (X + R)) (x : X) : M S (X + R) :=
  match n with
  | O => ret (inl x)
  | Datatypes.S n' =>
      bind (body x) (fun r =>
        match r with inl x' => iters n' body x' | inr v => ret (inr v) end)
  end.

Lemma iters_add {X R} n k (body : X -> M S (X + R)) x e s :
  iters (n + k) body x e s =
    bind (iters n body x) (fun r =>
      match r with inl x' => iters k body x' | inr v => ret (inr v) end) e s.
Proof.
  revert x e s; induction n as [|n IH]; intros x e s; [done|].
  simpl. unfold bind. destruct (body x e s) as [[x'|v] e' s'| | | |]; done.
Qed.

Lemma loop_pos_iters {X R} p (body : X -> M S (X + R)) x e s :
  loop_pos p body x e s = iters (Pos.to_nat p) body x e s.
Proof.
  revert x e s; induction p as [p IH|p IH|]; intros x e s.
  - rewrite Pos2Nat.inj_xI. cbn [iters loop_pos]. unfold bind at 1 3.
    destruct (body x e s) as [[x'|v] e' s'| | | |]; try done.
    replace (2 * Pos.to_nat p)%nat with (Pos.to_nat p + Pos.to_nat p)%nat by lia.
    rewrite iters_add. unfold bind. rewrite IH.
    destruct (iters _ body x' e' s') as [[y|v] e2 s2| | | |]; done.
  - rewrite Pos2Nat.inj_xO. cbn [loop_pos].
    replace (2 * Pos.to_nat p)%nat with (Pos.to_nat p + Pos.to_nat p)%nat by lia.
    rewrite iters_add. unfold bind. rewrite IH.
    destruct (iters _ body x e s) as [[y|v] e2 s2| | | |]; done.
  - cbn [loop_pos]. change (Pos.to_nat 1) with 1%nat. cbn [iters]. unfold bind.
    destruct (body x e s) as [[y|v] e2 s2| | | |]; done.
Qed.

Lemma loop_iters {X R} n (body : X -> M S (X + R)) x e s :
  loop n body x e s =
    bind (iters n body x) (fun r => match r with inl _ => spin | inr v => ret v end) e s.
Proof.
  revert x e s; induction n as [|n IH]; intros x e s; [done|].
  simpl. unfold bind. destruct (body x e s) as [[x'|v] e' s'| | | |]; done.
Qed.

(** The bound in binary is the bound. *)

Lemma loopz_eq {X R} z (body : X -> M S (X + R)) x e s :
  loopz z body x e s = loop (Z.to_nat z) body x e s.
Proof.
  destruct z as [|p|p]; [done| |done].
  rewrite loop_iters. unfold loopz, bind. rewrite loop_pos_iters. done.
Qed.

Lemma runs_loopz {X R} z (body : X -> M S (X + R)) x s r s' :
  runs (loop (Z.to_nat z) body x) s r s' -> runs (loopz z body x) s r s'.
Proof. intros H e. by rewrite loopz_eq. Qed.

Lemma panics_loopz {X R} z (body : X -> M S (X + R)) x s msg :
  0 < z -> panics (body x) s msg -> panics (loopz z body x) s msg.
Proof.
  intros Hz H e. rewrite loopz_eq.
  replace (Z.to_nat z) with (Datatypes.S (Z.to_nat (z - 1))) by lia.
  simpl. unfold bind. by rewrite H.
Qed.

End Runs.

Create HintDb runs.
#[export] Hint Resolve runs_ret runs_gets runs_modify : runs.

(** Run the next statement of a sequence, by the [runs] lemmas. *)

Ltac run1 := eapply runs_bind; [solve [eauto 3 with runs]|]; cbv beta.

(** ** What a computation may do to the state

    [steps R m]: every state that [m] returns in or blocks in is related to the
    one it started in by the preorder [R], provided the environment respects
    [R] too.  This is how the frame of an operation and the invariants it keeps
    are proved: rule by rule along the syntax of the code. *)

Section Steps.
Context {S : Type} (R : S -> S -> Prop) `{!PreOrder R}.

Definition steps {A} (m : M S A) : Prop :=
  forall e s, Forall (fun f => forall t, R t (f t)) e ->
    match m e s with
    | Ok _ e' s' => R s s' /\ Forall (fun f => forall t, R t (f t)) e'
    | Blocked s' => R s s'
    | _ => True
    end.

Lemma steps_ret {A} (a : A) : steps (ret a).
Proof. intros e s He. split; [reflexivity|done]. Qed.

Lemma steps_gets {A} (f : S -> A) : steps (gets f).
Proof. intros e s He. split; [reflexivity|done]. Qed.

Lemma steps_panic {A} msg : steps (panic (A:=A) msg).
Proof. by intros e s He. Qed.

Lemma steps_fault {A} : steps (fault (A:=A)).
Proof. by intros e s He. Qed.

Lemma steps_spin {A} : steps (spin (A:=A)).
Proof. by intros e s He. Qed.

Lemma steps_valid {A} (o : option A) : steps (valid o).
Proof. destruct o; [apply steps_ret|apply steps_fault]. Qed.

Lemma steps_modify f : (forall s, R s (f s)) -> steps (modify f).
Proof. intros H e s He. split; [apply H|done]. Qed.

Lemma steps_yield_cpu : steps yield_cpu.
Proof.
  intros e s He. destruct e as [|f e]; simpl; [reflexivity|].
  apply Forall_cons_1 in He as [? ?]. auto.
Qed.

Lemma steps_bind {A B} (m : M S A) (k : A -> M S B) :
  steps m -> (forall a, steps (k a)) -> steps (bind m k).
Proof.
  intros Hm Hk e s He. unfold bind. specialize (Hm e s He).
  destruct (m e s) as [a e' s'| | | |]; try done. destruct Hm as [Hs He'].
  specialize (Hk a e' s' He').
  destruct (k a e' s') as [b e'' s''| | | |]; try done.
  - destruct Hk. split; [by transitivity s'|done].
  - by transitivity s'.
Qed.

Lemma steps_for_ret {A B} (l : list A) (body : A -> M S (option B)) :
  (forall x, x ∈ l -> steps (body x)) -> steps (for_ret l body).
Proof.
  induction l as [|x l IH]; intros H; simpl; [apply steps_ret|].
  apply steps_bind; [apply H; set_solver|]. intros [v|]; [apply steps_ret|].
  apply IH. set_solver.
Qed.

Lemma steps_for_each {A} (l : list A) (body : A -> M S unit) :
  (forall x, x ∈ l -> steps (body x)) -> steps (for_each l body).
Proof.
  induction l as [|x l IH]; intros H; simpl; [apply steps_ret|].
  apply steps_bind; [apply H; set_solver|]. intros _. apply IH. set_solver.
Qed.

Lemma steps_loop {X B} n (body : X -> M S (X + B)) x :
  (forall x, steps (body x)) -> steps (loop n body x).
Proof.
  intros H. revert x. induction n as [|n IH]; intros x; simpl; [apply steps_spin|].
  apply steps_bind; [apply H|]. intros [x'|v]; [apply IH|apply steps_ret].
Qed.

Lemma steps_loopz {X B} z (body : X -> M S (X + B)) x :
  (forall x, steps (body x)) -> steps (loopz z body x).
Proof. intros H e s He. rewrite loopz_eq. by apply steps_loop. Qed.

(** The effect of a computation that returned. *)

Lemma steps_Ok {A} (m : M S A) s a e' s' :
  steps m -> m [] s = Ok a e' s' -> R s s'.
Proof. intros Hm E. specialize (Hm [] s (Forall_nil_2 _)). rewrite E in Hm. apply Hm. Qed.

Lemma steps_runs {A} (m : M S A) s a s' : steps m -> runs m s a s' -> R s s'.
Proof. intros Hm Hr. exact (steps_Ok _ _ _ _ _ Hm (Hr [])). Qed.

End Steps.

Create HintDb steps.
#[export] Hint Resolve steps_ret steps_gets steps_panic steps_fault steps_spin
  steps_valid steps_yield_cpu : steps.
#[export] Hint Extern 1 (PreOrder _) => typeclasses eauto : steps.

(** Follow the syntax of a computation with the [steps] rules; what is left
    are the primitive updates. *)

Ltac steps_tac :=
  repeat first
    [ solve [eauto 2 with steps]
    | match goal with |- forall _, _ => intro end
    | match goal with
      | |- steps _ (bind _ _) => apply steps_bind; [assumption || typeclasses eauto| |]
      | |- steps _ (for_ret _ _) => apply steps_for_ret; [assumption || typeclasses eauto|]
      | |- steps _ (for_each _ _) => apply steps_for_each; [assumption || typeclasses eauto|]
      | |- steps _ (loop _ _ _) => apply steps_loop; [assumption || typeclasses eauto|]
      | |- steps _ (loopz _ _ _) => apply steps_loopz; [assumption || typeclasses eauto|]
      | |- steps _ (match ?x with _ => _ end) => destruct x
      end ].
