(* ===== verification/Ring.v ===== *)
(** * Ring buffers with counters that wrap around

    The rings of pipes and consoles: an array and two counters of 32 bits that
    are only ever incremented and indexed modulo the size of the array, a power
    of two.  [ring] is the sequence of bytes between the counters. *)

From S2P Require Import Prelude.

Definition ring (size : Z) (data : list Z) (r : Z) (n : nat) : list Z :=
  (fun i => default 0 (data !! Z.to_nat ((r + Z.of_nat i) mod size))) <$> seq 0 n.

(** The number of bytes between two counters. *)

Definition used (r w : Z) : Z := u32 (w - r).

Lemma used_range r w : 0 <= used r w < 2 ^ 32.
Proof. unfold used, u32. apply Z.mod_pos_bound. lia. Qed.

Lemma length_ring size data r n : length (ring size data r n) = n.
Proof. unfold ring. by rewrite length_fmap, length_seq. Qed.

Section Ring.
Context (size : Z) (bits : Z).
Hypothesis size_pow : size = 2 ^ bits.
Hypothesis bits_range : 0 <= bits <= 32.

Local Lemma size_pos : 0 < size.
Proof. rewrite size_pow. apply Z.pow_pos_nonneg; lia. Qed.

Lemma u32_mod_size x : u32 x mod size = x mod size.
Proof.
  unfold u32. rewrite size_pow. replace 32 with (bits + (32 - bits)) by lia.
  rewrite Z.pow_add_r, Z.rem_mul_r by lia. rewrite Z.mul_comm, Z_mod_plus_full.
  apply Z.mod_mod. lia.
Qed.

(** Store at the end. *)

Lemma ring_put data r w c :
  length data = Z.to_nat size -> used r w < size -> 0 <= w < 2 ^ 32 ->
  ring size (<[Z.to_nat (w mod size) := c]> data) r (S (Z.to_nat (used r w))) =
  ring size data r (Z.to_nat (used r w)) ++ [c].
Proof.
  intros Hlen Hu Hw. pose proof size_pos. pose proof (used_range r w) as Hur.
  assert (forall x, 0 <= x mod size < size) as Hm by (intros; apply Z.mod_pos_bound; lia).
  assert (w mod size = (r + used r w) mod size) as Ew.
  { rewrite <- Zplus_mod_idemp_r. unfold used. rewrite u32_mod_size, Zplus_mod_idemp_r. f_equal. lia. }
  unfold ring. rewrite seq_S, fmap_app. simpl. f_equal.
  - apply list_fmap_ext. intros j i Hj. apply lookup_seq in Hj as [-> Hj].
    rewrite list_lookup_insert_ne; [done|]. rewrite Ew. intros E%Z2Nat.inj; try apply Hm.
    apply (f_equal (fun z => (z - (r + Z.of_nat (0 + j)) mod size) mod size)) in E.
    rewrite Z.sub_diag, Z.mod_0_l, <- Zminus_mod in E by lia.
    replace (r + used r w - (r + Z.of_nat (0 + j))) with (used r w - Z.of_nat j) in E by lia.
    rewrite Z.mod_small in E by lia. lia.
  - f_equal. rewrite Z2Nat.id, <- Ew by lia. rewrite list_lookup_insert_eq; [done|].
    rewrite Hlen. specialize (Hm w). lia.
Qed.

(** Take from the front. *)

Lemma ring_get data r n :
  length data = Z.to_nat size ->
  exists c, data !! Z.to_nat (r mod size) = Some c /\
    ring size data r (S n) = c :: ring size data (u32 (r + 1)) n.
Proof.
  intros Hlen. pose proof size_pos.
  destruct (lookup_lt_is_Some_2 data (Z.to_nat (r mod size))) as [c Hc].
  { rewrite Hlen. pose proof (Z.mod_pos_bound r size). lia. }
  exists c. split; [done|]. unfold ring. rewrite <- cons_seq, fmap_cons. f_equal.
  - by rewrite Z.add_0_r, Hc.
  - rewrite <- fmap_S_seq, <- list_fmap_compose. apply list_fmap_ext. intros j i _. simpl.
    do 3 f_equal. rewrite <- (Zplus_mod_idemp_l (u32 (r + 1))), u32_mod_size, Zplus_mod_idemp_l.
    f_equal. lia.
Qed.

(** Drop from the end. *)

Lemma ring_S data r n :
  ring size data r (S n) = ring size data r n ++ [default 0 (data !! Z.to_nat ((r + Z.of_nat n) mod size))].
Proof. unfold ring. by rewrite seq_S, fmap_app. Qed.

(** Two stretches of the ring. *)

Lemma ring_app data r n k :
  ring size data r (n + k) = ring size data r n ++ ring size data (u32 (r + Z.of_nat n)) k.
Proof.
  unfold ring. rewrite seq_app, fmap_app. f_equal.
  replace (seq (0 + n) k) with (Nat.add n <$> seq 0 k) by (rewrite fmap_add_seq; f_equal; lia).
  rewrite <- list_fmap_compose.
  apply list_fmap_ext. intros j i _. simpl. do 3 f_equal.
  rewrite <- (Zplus_mod_idemp_l (u32 _)), u32_mod_size, Zplus_mod_idemp_l. f_equal. lia.
Qed.

End Ring.
