(* ===== verification/Uprog.v ===== *)
(** * User programs

    A user program (user/user.h) is a computation that makes system calls: a tree
    whose nodes are the calls and whose branches are what the kernel may answer.
    What answers them is a parameter, a [kernel]: a function from the state of the
    world and a call to the result and the next state. *)

From S2P Require Import Prelude.

(** struct stat (kernel/stat.h). *)

Record stat := mk_stat {
  st_dev : Z;
  st_ino : Z;
  st_type : Z;
  st_nlink : Z;
  st_size : Z;
}.

(** The tables that psinfo and cinfo fill in (user/user.h); a name is an array of
    characters. *)

Record proc_info := mk_proc_info {
  pi_pid : Z;
  pi_vpid : Z;
  pi_mem : Z;
  pi_name : list Z;
  pi_parent : list Z;
  pi_container : list Z;
}.

Record container_info := mk_container_info {
  ci_name : list Z;
  ci_state : list Z;
  ci_current_container : Z;
  ci_numproc : Z;
  ci_maxproc : Z;
  ci_memused : Z;
  ci_memlimit : Z;
  ci_diskused : Z;
  ci_disklimit : Z;
  ci_root : list Z;
  ci_ptable : list proc_info;
}.

Definition T_DIR : Z := 1.
Definition T_FILE : Z := 2.

(** kernel/fcntl.h *)

Definition O_RDONLY : Z := 0x000.
Definition O_WRONLY : Z := 0x001.
Definition O_RDWR : Z := 0x002.
Definition O_CREATE : Z := 0x200.

(** ** The system calls

    A string is the list of its characters, without the closing NUL.  A call that
    stores through a pointer returns what it stores.  A few programs also pass pointers
    of their own making, call the allocator of umalloc.c, or access memory at an
    address; these are questions to the world as well, and an access that is not allowed
    has no answer. *)

Inductive sys : Type -> Type :=
| Sfork : sys Z
| Swait : sys (Z * Z)                                (* the status is stored *)
| Spipe : sys (Z * (Z * Z))
| Swrite (fd : Z) (bs : list Z) : sys Z
| Sread (fd n : Z) : sys (Z * list Z)
| Sclose (fd : Z) : sys Z
| Skill (pid : Z) : sys Z
| Sexec (path : list Z) (argv : list (list Z)) : sys Z
| Sopen (path : list Z) (mode : Z) : sys Z
| Smknod (path : list Z) (major minor : Z) : sys Z
| Sunlink (path : list Z) : sys Z
| Sfstat (fd : Z) : sys (Z * stat)
| Slink (old new : list Z) : sys Z
| Smkdir (path : list Z) : sys Z
| Schdir (path : list Z) : sys Z
| Sdup (fd : Z) : sys Z
| Ssbrk (n : Z) : sys Z
| Ssleep (n : Z) : sys Z
| Straceon : sys Z
| Ssuspend (pid fd : Z) : sys Z
| Sresume (path : list Z) : sys Z
| Scinit (name root : list Z) (maxproc maxpage maxdisk : Z) : sys Z
| Scpause (name : list Z) : sys Z
| Scresume (name : list Z) : sys Z
| Scstop (name : list Z) : sys Z
| Sgetpid : sys Z
| Spsinfo : sys (Z * list proc_info)
| Scinfo : sys (Z * list container_info)
| Swrite_at (fd p n : Z) : sys Z
| Sread_at (fd p n : Z) : sys Z
| Spipe_at (p : Z) : sys Z
| Slink_at (old : list Z) (p : Z) : sys Z
| Sexec_at (path : list Z + Z) (argv : list Z) : sys Z
| Smalloc (n : Z) : sys Z
| Sfree (p : Z) : sys unit
| Sload (n : nat) (a : Z) : sys (option Z)
| Sstore (n : nat) (a v : Z) : sys (option unit).

(** ** Programs *)

Inductive prog (A : Type) : Type :=
| Done (a : A)
| Exit (status : Z)                             (* exit(status) *)
| Crash                                         (* undefined behaviour *)
| More                                          (* the bound of a loop is used up *)
| Sys {R : Type} (c : sys R) (k : R -> prog A).

#[global] Arguments Done {A} a.
#[global] Arguments Exit {A} status.
#[global] Arguments Crash {A}.
#[global] Arguments More {A}.
#[global] Arguments Sys {A R} c k.

Fixpoint pbind {A B} (p : prog A) (f : A -> prog B) : prog B :=
  match p with
  | Done a => f a
  | Exit n => Exit n
  | Crash => Crash
  | More => More
  | Sys c k => Sys c (fun r => pbind (k r) f)
  end.

Declare Scope prog_scope.
Delimit Scope prog_scope with P.

Notation "x <- m ;; k" := (pbind m (fun x => k))
  (at level 100, m at next level, right associativity) : prog_scope.
Notation "m ;; k" := (pbind m (fun _ => k))
  (at level 100, k at level 200, right associativity) : prog_scope.

Definition sys_call {R} (c : sys R) : prog R := Sys c Done.

(** An access that is not allowed ends the program: usertrap kills it, with status -1. *)

Definition load_at (n : nat) (a : Z) : prog Z :=
  Sys (Sload n a) (fun r => match r with Some v => Done v | None => Exit (-1) end).

Definition store_at (n : nat) (a v : Z) : prog unit :=
  Sys (Sstore n a v) (fun r => match r with Some _ => Done tt | None => Exit (-1) end).

(** [for(x in l) body] *)

Fixpoint pfor {A} (l : list A) (body : A -> prog unit) : prog unit :=
  match l with
  | [] => Done tt
  | x :: l' => pbind (body x) (fun _ => pfor l' body)
  end.

(** [for(;;) body], at most [fuel] times: a program that reads a file needs one
    round for each time that [read] returns data, and a last one. *)

Fixpoint ploop {X R} (fuel : nat) (body : X -> prog (X + R)) (x : X) : prog R :=
  match fuel with
  | O => More
  | S n => pbind (body x) (fun r => match r with inl x' => ploop n body x' | inr v => Done v end)
  end.

(** ** Running a program *)

Section Run.
Context {W : Type}.

Definition kernel : Type := forall R, sys R -> W -> R * W.

Inductive result (A : Type) : Type :=
| RDone (a : A) (w : W)
| RExit (status : Z) (w : W)
| RCrash
| RMore (w : W).

#[global] Arguments RDone {A} a w.
#[global] Arguments RExit {A} status w.
#[global] Arguments RCrash {A}.
#[global] Arguments RMore {A} w.

Fixpoint prun {A} (h : kernel) (p : prog A) (w : W) : result A :=
  match p with
  | Done a => RDone a w
  | Exit n => RExit n w
  | Crash => RCrash
  | More => RMore w
  | Sys c k => let '(r, w') := h _ c w in prun h (k r) w'
  end.

Lemma prun_bind {A B} (h : kernel) (p : prog A) (f : A -> prog B) w :
  prun h (pbind p f) w =
    match prun h p w with
    | RDone a w' => prun h (f a) w'
    | RExit n w' => RExit n w'
    | RCrash => RCrash
    | RMore w' => RMore w'
    end.
Proof.
  revert w. induction p as [a|n| | |R c k IH]; intros w; simpl; try done.
  destruct (h R c w) as [r w']. apply IH.
Qed.

Lemma prun_bind_Done {A B} (h : kernel) (p : prog A) (f : A -> prog B) w a w' :
  prun h p w = RDone a w' -> prun h (pbind p f) w = prun h (f a) w'.
Proof. intros H. by rewrite prun_bind, H. Qed.

Lemma prun_call {A R} (h : kernel) (c : sys R) (f : R -> prog A) w r w' :
  h R c w = (r, w') -> prun h (pbind (sys_call c) f) w = prun h (f r) w'.
Proof. intros H. simpl. by rewrite H. Qed.

End Run.

#[global] Arguments kernel W : clear implicits.
#[global] Arguments result W A : clear implicits.
