(* ===== verification/Riscv.v ===== *)
(** * Constants and macros of the machine

    The macros of kernel/riscv.h and kernel/memlayout.h and the table sizes of
    kernel/param.h, at the widths the C expressions have, and the arithmetic
    facts about page rounding, the three Sv39 indices of a virtual address and
    the fields of a page-table entry that the paging code relies on. *)

From S2P Require Import Prelude.

(** ** kernel/param.h *)

Definition NPROC : nat := 64.
Definition NCPU : nat := 8.
Definition NOFILE : nat := 16.
Definition NFILE : nat := 100.
Definition NINODE : nat := 50.
Definition NDEV : Z := 10.
Definition ROOTDEV : Z := 1.
Definition MAXARG : nat := 32.
Definition MAXOPBLOCKS : Z := 10.
Definition LOGSIZE : Z := MAXOPBLOCKS * 3.
Definition NBUF : nat := Z.to_nat (MAXOPBLOCKS * 3).
Definition MAXPATH : Z := 128.
Definition NCONS : nat := 5.
Definition NCONTS : nat := 5.

(** ** kernel/riscv.h *)

Definition SSTATUS_SPP : Z := Z.shiftl 1 8.
Definition SSTATUS_SPIE : Z := Z.shiftl 1 5.
Definition SSTATUS_SIE : Z := Z.shiftl 1 1.

Definition SATP_SV39 : Z := Z.shiftl 8 60.
Definition MAKE_SATP (pagetable : Z) : Z := Z.lor SATP_SV39 (Z.shiftr (u64 pagetable) 12).

Definition PGSIZE : Z := 4096.
Definition PGSHIFT : Z := 12.

Definition PGROUNDUP (sz : Z) : Z := Z.land (u64 (sz + PGSIZE - 1)) (u64 (Z.lnot (PGSIZE - 1))).
Definition PGROUNDDOWN (a : Z) : Z := Z.land (u64 a) (u64 (Z.lnot (PGSIZE - 1))).

Definition PTE_V : Z := Z.shiftl 1 0.
Definition PTE_R : Z := Z.shiftl 1 1.
Definition PTE_W : Z := Z.shiftl 1 2.
Definition PTE_X : Z := Z.shiftl 1 3.
Definition PTE_U : Z := Z.shiftl 1 4.

Definition PA2PTE (pa : Z) : Z := u64 (Z.shiftl (Z.shiftr (u64 pa) 12) 10).
Definition PTE2PA (pte : Z) : Z := u64 (Z.shiftl (Z.shiftr pte 10) 12).
Definition PTE_FLAGS (pte : Z) : Z := Z.land pte 0x3FF.

Definition PXMASK : Z := 0x1FF.
Definition PXSHIFT (level : Z) : Z := PGSHIFT + 9 * level.
Definition PX (level va : Z) : Z := Z.land (Z.shiftr (u64 va) (PXSHIFT level)) PXMASK.

Definition MAXVA : Z := Z.shiftl 1 (9 + 9 + 9 + 12 - 1).

(** ** kernel/memlayout.h *)

Definition UART0 : Z := 0x10000000.
Definition UART0_IRQ : Z := 10.
Definition VIRTIO0 : Z := 0x10001000.
Definition VIRTIO0_IRQ : Z := 1.
Definition CLINT : Z := 0x2000000.
Definition PLIC : Z := 0x0c000000.
Definition KERNBASE : Z := 0x80000000.
Definition PHYSTOP : Z := KERNBASE + 128 * 1024 * 1024.
Definition TRAMPOLINE : Z := MAXVA - PGSIZE.
Definition KSTACK (p : Z) : Z := TRAMPOLINE - (p + 1) * 2 * PGSIZE.
Definition TRAPFRAME : Z := TRAMPOLINE - PGSIZE.

(** ** The symbols of the linked image

    [end] and [etext] are placed by the linker (kernel/kernel.ld), [trampoline]
    is a page of the text (kernel/trampoline.S), [forkret] is an address of the
    text, [initcode] is an array of the data section.  [buf0_off] is where the
    local variable buf0 of virtio_disk_rw lies in a kernel stack, [hdr_off]
    where hdr of suspend does. *)

Class KernelImage := {
  kend : Z;
  etext : Z;
  trampoline : Z;
  forkret_addr : Z;
  initcode_addr : Z;
  buf0_off : Z;
  hdr_off : Z;
  kend_range : KERNBASE <= kend < PHYSTOP;
  etext_range : KERNBASE <= etext <= kend;
  etext_aligned : etext mod PGSIZE = 0;
  trampoline_aligned : trampoline mod PGSIZE = 0;
  trampoline_range : KERNBASE <= trampoline < etext;
  initcode_range : etext <= initcode_addr < kend;
  buf0_range : 0 <= buf0_off < PGSIZE;
  hdr_range : 0 <= hdr_off < PGSIZE;
}.

(** ** Page rounding *)

Lemma lor_add a b n : 0 <= n -> 0 <= b < 2 ^ n -> Z.lor (a * 2 ^ n) b = a * 2 ^ n + b.
Proof.
  intros Hn Hb.
  assert (Z.land (a * 2 ^ n) b = 0) as H0.
  { apply Z.bits_inj'. intros i Hi. rewrite Z.land_spec, Z.bits_0.
    destruct (Z.ltb_spec i n).
    - by rewrite Z.mul_pow2_bits_low.
    - rewrite andb_false_iff. right.
      destruct (Z.eq_dec b 0) as [->|]; [apply Z.bits_0|].
      apply Z.bits_above_log2; [lia|].
      apply Z.log2_lt_pow2; [lia|].
      assert (2 ^ n <= 2 ^ i) by (apply Z.pow_le_mono_r; lia). lia. }
  by rewrite <- Z.lxor_lor, <- Z.add_nocarry_lxor.
Qed.

Lemma land_round a : 0 <= a < 2 ^ 64 -> Z.land a (u64 (Z.lnot (PGSIZE - 1))) = a - a mod PGSIZE.
Proof.
  intros Ha. unfold PGSIZE, u64.
  replace (Z.lnot (4096 - 1) mod 2 ^ 64) with (Z.ldiff (Z.ones 64) (Z.ones 12)) by reflexivity.
  rewrite Z.ldiff_land, Z.land_assoc, (Z.land_ones a) by lia.
  rewrite (Z.mod_small a) by lia.
  rewrite <- Z.ldiff_land, Z.ldiff_ones_r, Z.shiftl_mul_pow2, Z.shiftr_div_pow2 by lia.
  change (2 ^ 12) with 4096. rewrite (Z.mod_eq a 4096) by lia. lia.
Qed.

Lemma PGROUNDDOWN_eq a : 0 <= a < 2 ^ 64 -> PGROUNDDOWN a = a - a mod PGSIZE.
Proof. intros Ha. unfold PGROUNDDOWN. rewrite (u64_small a) by lia. by apply land_round. Qed.

Lemma PGROUNDUP_eq sz :
  0 <= sz <= 2 ^ 64 - PGSIZE ->
  PGROUNDUP sz = sz + PGSIZE - 1 - (sz + PGSIZE - 1) mod PGSIZE.
Proof.
  intros H. unfold PGROUNDUP. rewrite (u64_small (sz + PGSIZE - 1)) by (unfold PGSIZE in *; lia).
  apply land_round. unfold PGSIZE in *. lia.
Qed.

Lemma PGROUNDDOWN_aligned a : 0 <= a < 2 ^ 64 -> PGROUNDDOWN a mod PGSIZE = 0.
Proof. intros. rewrite PGROUNDDOWN_eq by done. unfold PGSIZE. dlia. Qed.

Lemma PGROUNDUP_aligned sz : 0 <= sz <= 2 ^ 64 - PGSIZE -> PGROUNDUP sz mod PGSIZE = 0.
Proof. intros. rewrite PGROUNDUP_eq by done. unfold PGSIZE. dlia. Qed.

Lemma PGROUNDUP_bounds sz :
  0 <= sz <= 2 ^ 64 - PGSIZE -> sz <= PGROUNDUP sz < sz + PGSIZE.
Proof. intros. rewrite PGROUNDUP_eq by done. unfold PGSIZE. dlia. Qed.

Lemma PGROUNDDOWN_bounds a : 0 <= a < 2 ^ 64 -> a - PGSIZE < PGROUNDDOWN a <= a.
Proof. intros. rewrite PGROUNDDOWN_eq by done. unfold PGSIZE. dlia. Qed.

(** Rounding leaves a page-aligned address alone. *)

Lemma PGROUNDDOWN_id a : 0 <= a < 2 ^ 64 -> a mod PGSIZE = 0 -> PGROUNDDOWN a = a.
Proof. intros ? H. rewrite PGROUNDDOWN_eq, H by done. lia. Qed.

Lemma PGROUNDUP_id a : 0 <= a <= 2 ^ 64 - PGSIZE -> a mod PGSIZE = 0 -> PGROUNDUP a = a.
Proof. intros ? H. rewrite PGROUNDUP_eq by done. unfold PGSIZE in *. dlia. Qed.

(** ** The Sv39 indices of a virtual address *)

Lemma PX_eq level va :
  0 <= level -> 0 <= va < 2 ^ 64 -> PX level va = (va / 2 ^ (12 + 9 * level)) mod 512.
Proof.
  intros Hl Hva. unfold PX, PXMASK, PXSHIFT, PGSHIFT. rewrite u64_small by lia.
  rewrite Z.shiftr_div_pow2 by lia. change 0x1FF with (Z.ones 9).
  by rewrite Z.land_ones.
Qed.

Lemma PX_range level va : 0 <= level -> 0 <= va < 2 ^ 64 -> 0 <= PX level va < 512.
Proof. intros. rewrite PX_eq by done. apply Z.mod_pos_bound. lia. Qed.

(** An address below MAXVA is its three indices and its offset. *)

Lemma PX_split va :
  0 <= va < MAXVA ->
  va = PX 2 va * 2 ^ 30 + PX 1 va * 2 ^ 21 + PX 0 va * 2 ^ 12 + va mod PGSIZE.
Proof.
  intros H. change MAXVA with (2 ^ 38) in H. rewrite !PX_eq by lia. unfold PGSIZE.
  change (12 + 9 * 2) with 30. change (12 + 9 * 1) with 21. change (12 + 9 * 0) with 12.
  change (2 ^ 30) with 1073741824. change (2 ^ 21) with 2097152. change (2 ^ 12) with 4096.
  change (2 ^ 38) with 274877906944 in H. dlia.
Qed.

Lemma PX_inj va va' :
  0 <= va < MAXVA -> 0 <= va' < MAXVA ->
  PX 2 va = PX 2 va' -> PX 1 va = PX 1 va' -> PX 0 va = PX 0 va' ->
  va - va mod PGSIZE = va' - va' mod PGSIZE.
Proof.
  intros H H' E2 E1 E0. pose proof (PX_split va H). pose proof (PX_split va' H'). lia.
Qed.

(** ** The fields of a page-table entry *)

Lemma PA2PTE_eq pa : 0 <= pa < 2 ^ 56 -> PA2PTE pa = pa / PGSIZE * 2 ^ 10.
Proof.
  intros H. unfold PA2PTE, PGSIZE. rewrite (u64_small pa) by lia.
  rewrite Z.shiftl_mul_pow2, Z.shiftr_div_pow2 by lia.
  rewrite u64_small; change (2 ^ 12) with 4096; change (2 ^ 10) with 1024; dlia.
Qed.

Lemma PTE_make pa perm :
  0 <= pa < 2 ^ 56 -> 0 <= perm < 2 ^ 10 ->
  Z.lor (PA2PTE pa) perm = pa / PGSIZE * 2 ^ 10 + perm.
Proof. intros. rewrite PA2PTE_eq by done. by apply lor_add. Qed.

Lemma PTE2PA_make pa perm :
  0 <= pa < 2 ^ 56 -> pa mod PGSIZE = 0 -> 0 <= perm < 2 ^ 10 ->
  PTE2PA (Z.lor (PA2PTE pa) perm) = pa.
Proof.
  intros Hpa Hal Hp. rewrite PTE_make by done. unfold PTE2PA, PGSIZE in *.
  rewrite Z.shiftl_mul_pow2, Z.shiftr_div_pow2 by lia.
  change (2 ^ 10) with 1024 in *. change (2 ^ 12) with 4096 in *.
  rewrite u64_small; dlia.
Qed.

Lemma PTE_FLAGS_make pa perm :
  0 <= pa < 2 ^ 56 -> 0 <= perm < 2 ^ 10 -> PTE_FLAGS (Z.lor (PA2PTE pa) perm) = perm.
Proof.
  intros Hpa Hp. rewrite PTE_make by done. unfold PTE_FLAGS.
  change 0x3FF with (Z.ones 10). rewrite Z.land_ones by lia.
  change (2 ^ 10) with 1024 in *. dlia.
Qed.

Lemma PTE_make_range pa perm :
  0 <= pa < 2 ^ 56 -> 0 <= perm < 2 ^ 10 -> 0 <= Z.lor (PA2PTE pa) perm < 2 ^ 64.
Proof.
  intros. rewrite PTE_make by done. unfold PGSIZE.
  change (2 ^ 10) with 1024 in *. dlia.
Qed.

(** A flag bit of an entry is the flag bit of its permission field. *)

Lemma PTE_land_make pa perm bit :
  0 <= pa < 2 ^ 56 -> 0 <= perm < 2 ^ 10 -> 0 <= bit < 2 ^ 10 ->
  Z.land (Z.lor (PA2PTE pa) perm) bit = Z.land perm bit.
Proof.
  intros Hpa Hp Hb.
  rewrite <- (PTE_FLAGS_make pa perm) at 2 by done.
  unfold PTE_FLAGS. rewrite <- Z.land_assoc. f_equal.
  change 0x3FF with (Z.ones 10). rewrite Z.land_comm, Z.land_ones by lia.
  by rewrite Z.mod_small.
Qed.
