(* ===== verification/Kstring.v ===== *)
(** * Memory and kernel/string.c

    The physical memory is a map from addresses to bytes; what an address that was
    never written holds is not used.  The routines of kernel/string.c that the kernel
    runs on memory ([memset], [memcmp], [memmove]) are functions on it, loop by
    loop.  The string routines that run on character arrays of kernel
    structures take the array that starts where the pointer points; reading or
    writing past its end gives [None].  [char] is unsigned on RISC-V. *)

From S2P Require Import Prelude.

(** ** Byte memory *)

Abbreviation mem := (gmap Z Z).

(** Little-endian words of [n] bytes. *)

Fixpoint load (n : nat) (m : mem) (a : Z) : Z :=
  match n with
  | O => 0
  | S n' => m !!! a + 256 * load n' m (a + 1)
  end.

Fixpoint store (n : nat) (m : mem) (a v : Z) : mem :=
  match n with
  | O => m
  | S n' => store n' (<[a := v mod 256]> m) (a + 1) (v / 256)
  end.

Abbreviation load64 := (load 8).
Abbreviation store64 := (store 8).

(** The [n] bytes at [a]. *)

Definition bytes_at (m : mem) (a : Z) (n : nat) : list Z :=
  (fun i => m !!! (a + Z.of_nat i)) <$> seq 0 n.

(** Write the bytes [bs] at [a]. *)

Fixpoint write_bytes (m : mem) (a : Z) (bs : list Z) : mem :=
  match bs with
  | [] => m
  | b :: bs' => write_bytes (<[a := b]> m) (a + 1) bs'
  end.

(** Little-endian words of [n] bytes inside an array of bytes; out of its range
    there is none. *)

Fixpoint le_value (bs : list Z) : Z :=
  match bs with [] => 0 | b :: bs' => b + 256 * le_value bs' end.

Fixpoint le_bytes (n : nat) (v : Z) : list Z :=
  match n with O => [] | S n' => v mod 256 :: le_bytes n' (v / 256) end.

Definition le_get (n : nat) (bs : list Z) (off : Z) : option Z :=
  if (off <? 0) || (Z.of_nat (length bs) <? off + Z.of_nat n) then None
  else Some (le_value (take n (drop (Z.to_nat off) bs))).

Definition le_put (n : nat) (bs : list Z) (off v : Z) : option (list Z) :=
  if (off <? 0) || (Z.of_nat (length bs) <? off + Z.of_nat n) then None
  else Some (list_inserts (Z.to_nat off) (le_bytes n v) bs).

(** ** kernel/string.c on memory *)

(** [for(i = 0; i < n; i++) cdst[i] = c;] *)

Fixpoint memset_from (m : mem) (dst c : Z) (n : nat) : mem :=
  match n with
  | O => m
  | S n' => memset_from (<[dst := u8 c]> m) (dst + 1) c n'
  end.

Definition memset (m : mem) (dst c n : Z) : mem := memset_from m dst c (Z.to_nat (u32 n)).

Fixpoint memcmp_from (m : mem) (s1 s2 : Z) (n : nat) : Z :=
  match n with
  | O => 0
  | S n' =>
      if negb (m !!! s1 =? m !!! s2) then m !!! s1 - m !!! s2
      else memcmp_from m (s1 + 1) (s2 + 1) n'
  end.

Definition memcmp (m : mem) (v1 v2 n : Z) : Z := memcmp_from m v1 v2 (Z.to_nat (u32 n)).

(** [while(n-- > 0) *--d = *--s;] *)

Fixpoint copy_down (m : mem) (d s : Z) (n : nat) : mem :=
  match n with
  | O => m
  | S n' => copy_down (<[d - 1 := m !!! (s - 1)]> m) (d - 1) (s - 1) n'
  end.

(** [while(n-- > 0) *d++ = *s++;] *)

Fixpoint copy_up (m : mem) (d s : Z) (n : nat) : mem :=
  match n with
  | O => m
  | S n' => copy_up (<[d := m !!! s]> m) (d + 1) (s + 1) n'
  end.

Definition memmove (m : mem) (dst src n : Z) : mem :=
  let n := u32 n in
  if (src <? dst) && (dst <? src + n)
  then copy_down m (dst + n) (src + n) (Z.to_nat n)
  else copy_up m dst src (Z.to_nat n).

(** ** kernel/string.c on character arrays *)

Fixpoint strncmp_from (p q : list Z) (n : nat) : option Z :=
  match n with
  | O => Some 0
  | S n' =>
      match p, q with
      | a :: p', b :: q' =>
          if negb (a =? 0) && (a =? b) then strncmp_from p' q' n' else Some (a - b)
      | _, _ => None
      end
  end.

Definition strncmp (p q : list Z) (n : Z) : option Z := strncmp_from p q (Z.to_nat (u32 n)).

(** [while(n-- > 0) *s++ = 0;] *)

Fixpoint zero_pad (s : list Z) (n : nat) : option (list Z) :=
  match n with
  | O => Some s
  | S n' =>
      match s with
      | [] => None
      | _ :: s' => r ← zero_pad s' n'; Some (0 :: r)
      end
  end.

Fixpoint strncpy_from (s t : list Z) (n : nat) : option (list Z) :=
  match n with
  | O => Some s
  | S n' =>
      match s, t with
      | _ :: s', c :: t' =>
          if c =? 0 then r ← zero_pad s' n'; Some (0 :: r)
          else r ← strncpy_from s' t' n'; Some (c :: r)
      | _, _ => None
      end
  end.

Definition strncpy (s t : list Z) (n : Z) : option (list Z) := strncpy_from s t (Z.to_nat n).

(** The loop of safestrcpy, entered with [n] more characters allowed, and the
    closing [*s = 0]. *)

Fixpoint safestrcpy_from (s t : list Z) (n : nat) : option (list Z) :=
  match n with
  | O => match s with [] => None | _ :: s' => Some (0 :: s') end
  | S n' =>
      match s, t with
      | _ :: s', c :: t' =>
          if c =? 0 then
            match s' with [] => None | _ :: s'' => Some (c :: 0 :: s'') end
          else r ← safestrcpy_from s' t' n'; Some (c :: r)
      | _, _ => None
      end
  end.

Definition safestrcpy (s t : list Z) (n : Z) : option (list Z) :=
  if n <=? 0 then Some s else safestrcpy_from s t (Z.to_nat (n - 1)).

Fixpoint strlen (s : list Z) : option Z :=
  match s with
  | [] => None
  | c :: s' => if c =? 0 then Some 0 else n ← strlen s'; Some (n + 1)
  end.

(** ** The C string an array holds *)

(** The characters before the first NUL (all of them when there is none). *)

Fixpoint cstring (s : list Z) : list Z :=
  match s with
  | [] => []
  | c :: s' => if c =? 0 then [] else c :: cstring s'
  end.

(** ** Lemmas: words in memory *)

Lemma load_ext n m m' a :
  (forall x, a <= x < a + Z.of_nat n -> m !!! x = m' !!! x) -> load n m a = load n m' a.
Proof.
  revert a; induction n as [|n IH]; intros a H; [done|].
  cbn [load]. rewrite (H a) by lia. rewrite (IH (a + 1)); [done|].
  intros x Hx. apply H. lia.
Qed.

Lemma store_other n m a v x :
  x < a \/ a + Z.of_nat n <= x -> store n m a v !!! x = m !!! x.
Proof.
  revert m a v; induction n as [|n IH]; intros m a v H; [done|].
  cbn [store]. rewrite IH by lia. apply lookup_total_insert_ne. lia.
Qed.

Lemma store_range n m a v x :
  a <= x < a + Z.of_nat n -> 0 <= store n m a v !!! x < 256.
Proof.
  revert m a v; induction n as [|n IH]; intros m a v H; [lia|].
  cbn [store]. destruct (Z.eq_dec x a) as [->|].
  - rewrite store_other by lia. rewrite lookup_total_insert_eq.
    apply Z.mod_pos_bound. lia.
  - apply IH. lia.
Qed.

Lemma load_store_eq n m a v : load n (store n m a v) a = v mod 256 ^ Z.of_nat n.
Proof.
  revert m a v; induction n as [|n IH]; intros m a v.
  - by rewrite Z.mod_1_r.
  - cbn [load store]. rewrite IH, store_other, lookup_total_insert_eq by lia.
    rewrite Nat2Z.inj_succ, Z.pow_succ_r by lia.
    rewrite (Z.rem_mul_r v 256) by lia. done.
Qed.

Lemma load_store_ne n k m a b v :
  a + Z.of_nat n <= b \/ b + Z.of_nat k <= a -> load n (store k m b v) a = load n m a.
Proof. intros H. apply load_ext. intros x Hx. apply store_other. lia. Qed.

Lemma load64_store64 m a v : load64 (store64 m a v) a = u64 v.
Proof. rewrite load_store_eq. done. Qed.

Lemma load_0 n m a :
  (forall x, a <= x < a + Z.of_nat n -> m !!! x = 0) -> load n m a = 0.
Proof.
  revert a; induction n as [|n IH]; intros a H; [done|].
  cbn [load]. rewrite (H a), IH by (lia || (intros; apply H; lia)). done.
Qed.

(** ** Lemmas: words inside arrays *)

Lemma le_value_bytes n v : le_value (le_bytes n v) = v mod 256 ^ Z.of_nat n.
Proof.
  revert v; induction n as [|n IH]; intros v; [by rewrite Z.mod_1_r|].
  cbn [le_bytes le_value]. rewrite IH, Nat2Z.inj_succ, Z.pow_succ_r by lia.
  rewrite (Z.rem_mul_r v 256) by lia. done.
Qed.

Lemma length_le_bytes n v : length (le_bytes n v) = n.
Proof. revert v; induction n as [|n IH]; intros v; [done|]. simpl. by rewrite IH. Qed.

(** Reading back a word that was stored. *)

Lemma le_get_put n bs off v bs' :
  le_put n bs off v = Some bs' -> le_get n bs' off = Some (v mod 256 ^ Z.of_nat n).
Proof.
  unfold le_put, le_get. destruct (_ || _) eqn:E; [done|]. intros [= <-].
  rewrite length_inserts, E. f_equal. rewrite <- le_value_bytes. f_equal.
  apply orb_false_elim in E as [?%Z.ltb_ge ?%Z.ltb_ge].
  apply list_eq. intros i. destruct (decide (i < n)%nat) as [Hi|Hi].
  - rewrite lookup_take_lt, lookup_drop by done.
    rewrite list_lookup_inserts; rewrite ?length_le_bytes; [f_equal; lia|lia..].
  - rewrite lookup_take_ge by lia. symmetry. apply lookup_ge_None_2. rewrite length_le_bytes. lia.
Qed.

(** ** Lemmas: the memory routines *)

Lemma memset_from_lookup m dst c n x :
  memset_from m dst c n !!! x =
    if (dst <=? x) && (x <? dst + Z.of_nat n) then u8 c else m !!! x.
Proof.
  revert m dst; induction n as [|n IH]; intros m dst; cbn [memset_from].
  - zcase; done.
  - rewrite IH. destruct (Z.eq_dec x dst) as [->|].
    + rewrite lookup_total_insert_eq. zcase; done.
    + rewrite lookup_total_insert_ne by lia. zcase; done.
Qed.

Lemma memset_lookup m dst c n x :
  0 <= n < 2 ^ 32 ->
  memset m dst c n !!! x = if (dst <=? x) && (x <? dst + n) then u8 c else m !!! x.
Proof.
  intros Hn. unfold memset. rewrite memset_from_lookup, u32_small by lia.
  by rewrite Z2Nat.id by lia.
Qed.

Lemma copy_up_lookup m d s n x :
  d <= s \/ s + Z.of_nat n <= d ->
  copy_up m d s n !!! x =
    if (d <=? x) && (x <? d + Z.of_nat n) then m !!! (s + (x - d)) else m !!! x.
Proof.
  revert m d s; induction n as [|n IH]; intros m d s H; cbn [copy_up].
  - zcase; done.
  - rewrite IH by lia. destruct (Z.eq_dec x d) as [->|].
    + rewrite lookup_total_insert_eq. zcase; simpl; f_equal; lia.
    + rewrite (lookup_total_insert_ne m d x) by lia.
      zcase; simpl; try done.
      rewrite lookup_total_insert_ne by lia. f_equal. lia.
Qed.

Lemma copy_down_lookup m d s n x :
  s <= d ->
  copy_down m d s n !!! x =
    if (d - Z.of_nat n <=? x) && (x <? d) then m !!! (s + (x - d)) else m !!! x.
Proof.
  revert m d s; induction n as [|n IH]; intros m d s H; cbn [copy_down].
  - zcase; done.
  - rewrite IH by lia. destruct (Z.eq_dec x (d - 1)) as [->|].
    + rewrite lookup_total_insert_eq. zcase; simpl; f_equal; lia.
    + rewrite (lookup_total_insert_ne m (d - 1) x) by lia.
      zcase; simpl; try done.
      rewrite lookup_total_insert_ne by lia. f_equal. lia.
Qed.

(** memmove copies as if through a temporary buffer, overlapping or not. *)

Lemma memmove_lookup m dst src n x :
  0 <= n < 2 ^ 32 ->
  memmove m dst src n !!! x =
    if (dst <=? x) && (x <? dst + n) then m !!! (src + (x - dst)) else m !!! x.
Proof.
  intros Hn. unfold memmove. rewrite u32_small by lia.
  destruct (Z.ltb_spec src dst); simpl; [destruct (Z.ltb_spec dst (src + n))|].
  - rewrite copy_down_lookup by lia. rewrite Z2Nat.id by lia.
    replace (dst + n - n) with dst by lia.
    replace (src + n + (x - (dst + n))) with (src + (x - dst)) by lia. done.
  - rewrite copy_up_lookup by lia. by rewrite Z2Nat.id by lia.
  - rewrite copy_up_lookup by lia. by rewrite Z2Nat.id by lia.
Qed.

Lemma load_memset m dst c n a k :
  0 <= n < 2 ^ 32 -> a + Z.of_nat k <= dst \/ dst + n <= a ->
  load k (memset m dst c n) a = load k m a.
Proof.
  intros Hn H. apply load_ext. intros x Hx. rewrite memset_lookup by lia. zcase; done.
Qed.

Lemma load_memset_0 m dst n a k :
  0 <= n < 2 ^ 32 -> dst <= a -> a + Z.of_nat k <= dst + n ->
  load k (memset m dst 0 n) a = 0.
Proof.
  intros Hn H1 H2. apply load_0. intros x Hx. rewrite memset_lookup by lia. zcase; done.
Qed.

#[global] Arguments load : simpl never.
#[global] Arguments store : simpl never.
#[global] Arguments memset : simpl never.
#[global] Arguments memmove : simpl never.
#[global] Opaque load store memset memmove.
