(* ===== verification/Kstate.v ===== *)
(** * The data of the kernel

    The structures of kernel/proc.h, sleeplock.h, file.h, buf.h, fs.h, log.c,
    console.c and pipe.c as records with the fields of the C structures (the
    spin lock inside a structure is a name in the set of locks held, see
    Spinlock.v), the state of the whole kernel, the accessors of its tables, and
    the trapframe, which lives in a page of physical memory. *)

From S2P Require Import Prelude Monad Riscv Kstring.

(** ** Enumerations and names of kernel objects *)

Inductive procstate := UNUSED | SLEEPING | RUNNABLE | RUNNING | ZOMBIE | SUSPENDED.

Inductive containerstate := CUNUSED | CSUSPENDED | CRUNNING.

Inductive filetype := FD_NONE | FD_PIPE | FD_INODE | FD_DEVICE.

(** The structures that contain a sleep lock. *)

Inductive slock := SBuf (i : nat) | SInode (i : nat).

(** The spin locks of the kernel, by the structure that holds them. *)

Inductive lock :=
| Lpid                    (* pid_lock (proc.c) *)
| Lproc (i : nat)         (* proc[i].lock *)
| Lcont (i : nat)         (* containers[i].lock *)
| Lvpid (i : nat)         (* containers[i].vpid_lock *)
| Lkmem                   (* kmem.lock (kalloc.c) *)
| Lpr                     (* pr.lock (printf.c) *)
| Lticks                  (* tickslock (trap.c) *)
| Lcons (i : nat)         (* consoles[i].lock (console.c) *)
| Lftable                 (* ftable.lock (file.c) *)
| Lpipe (a : Z)           (* the lock of the struct pipe at [a] *)
| Licache                 (* icache.lock (fs.c) *)
| Lbcache                 (* bcache.lock (bio.c) *)
| Llog                    (* log.lock (log.c) *)
| Ldisk                   (* disk.vdisk_lock (virtio_disk.c) *)
| Lsleep (l : slock).     (* the spin lock inside a sleep lock *)

(** The addresses processes sleep on. *)

Inductive chan :=
| ChProc (i : nat)        (* a struct proc: wait() *)
| ChTicks                 (* &ticks *)
| ChLog                   (* &log *)
| ChCons (i : nat)        (* &consoles[i].r *)
| ChPipeR (a : Z)         (* &pi->nread *)
| ChPipeW (a : Z)         (* &pi->nwrite *)
| ChBuf (i : nat)         (* a struct buf: virtio_disk_rw() *)
| ChDisk                  (* &disk.free[0] *)
| ChSleep (l : slock).    (* a sleep lock *)

#[export] Instance procstate_eq_dec : EqDecision procstate.
Proof. solve_decision. Defined.
#[export] Instance containerstate_eq_dec : EqDecision containerstate.
Proof. solve_decision. Defined.
#[export] Instance filetype_eq_dec : EqDecision filetype.
Proof. solve_decision. Defined.
#[export] Instance slock_eq_dec : EqDecision slock.
Proof. solve_decision. Defined.
#[export] Instance lock_eq_dec : EqDecision lock.
Proof. solve_decision. Defined.
#[export] Instance chan_eq_dec : EqDecision chan.
Proof. solve_decision. Defined.

(** A lock as a pair of numbers, for the sets of locks. *)

Definition lock_code (l : lock) : nat * Z :=
  match l with
  | Lpid => (0%nat, 0)
  | Lproc i => (1%nat, Z.of_nat i)
  | Lcont i => (2%nat, Z.of_nat i)
  | Lvpid i => (3%nat, Z.of_nat i)
  | Lkmem => (4%nat, 0)
  | Lpr => (5%nat, 0)
  | Lticks => (6%nat, 0)
  | Lcons i => (7%nat, Z.of_nat i)
  | Lftable => (8%nat, 0)
  | Lpipe a => (9%nat, a)
  | Licache => (10%nat, 0)
  | Lbcache => (11%nat, 0)
  | Llog => (12%nat, 0)
  | Ldisk => (13%nat, 0)
  | Lsleep (SBuf i) => (14%nat, Z.of_nat i)
  | Lsleep (SInode i) => (15%nat, Z.of_nat i)
  end.

Definition lock_decode (c : nat * Z) : option lock :=
  match c with
  | (0%nat, _) => Some Lpid
  | (1%nat, i) => Some (Lproc (Z.to_nat i))
  | (2%nat, i) => Some (Lcont (Z.to_nat i))
  | (3%nat, i) => Some (Lvpid (Z.to_nat i))
  | (4%nat, _) => Some Lkmem
  | (5%nat, _) => Some Lpr
  | (6%nat, _) => Some Lticks
  | (7%nat, i) => Some (Lcons (Z.to_nat i))
  | (8%nat, _) => Some Lftable
  | (9%nat, a) => Some (Lpipe a)
  | (10%nat, _) => Some Licache
  | (11%nat, _) => Some Lbcache
  | (12%nat, _) => Some Llog
  | (13%nat, _) => Some Ldisk
  | (14%nat, i) => Some (Lsleep (SBuf (Z.to_nat i)))
  | (15%nat, i) => Some (Lsleep (SInode (Z.to_nat i)))
  | _ => None
  end.

#[export] Instance lock_countable : Countable lock.
Proof.
  apply (inj_countable lock_code lock_decode).
  intros [|i|i|i| | | |i| |a| | | | |[i|i]]; simpl; rewrite ?Nat2Z.id; done.
Defined.

(** ** The structures *)

(** struct context (kernel/proc.h): saved registers for kernel context switches.
    *)

Record context := mk_context {
  ctx_ra : Z;
  ctx_sp : Z;
  ctx_s0 : Z;
  ctx_s1 : Z;
  ctx_s2 : Z;
  ctx_s3 : Z;
  ctx_s4 : Z;
  ctx_s5 : Z;
  ctx_s6 : Z;
  ctx_s7 : Z;
  ctx_s8 : Z;
  ctx_s9 : Z;
  ctx_s10 : Z;
  ctx_s11 : Z;
}.

(** struct proc (kernel/proc.h). A pointer to another structure is the index of
    its slot; [None] is the null pointer. The trapframe and the page table are
    addresses of physical pages. *)

Record proc := mk_proc {
  p_state : procstate;
  p_parent : option nat;
  p_chan : option chan;
  p_killed : Z;
  p_xstate : Z;
  p_pid : Z;
  p_kstack : Z;
  p_sz : Z;
  p_pagetable : Z;
  p_tf : Z;
  p_context : context;
  p_ofile : list (option nat);
  p_cwd : option nat;
  p_name : list Z;
  p_strace : Z;
  p_container : option nat;
  p_vpid : Z;
}.

Definition set_p_state (v : procstate) (r : proc) : proc :=
  mk_proc v (p_parent r) (p_chan r) (p_killed r) (p_xstate r) (p_pid r) (p_kstack r) (p_sz
    r) (p_pagetable r) (p_tf r) (p_context r) (p_ofile r) (p_cwd r) (p_name r) (p_strace
    r) (p_container r) (p_vpid r).
Definition set_p_parent (v : option nat) (r : proc) : proc :=
  mk_proc (p_state r) v (p_chan r) (p_killed r) (p_xstate r) (p_pid r) (p_kstack r) (p_sz
    r) (p_pagetable r) (p_tf r) (p_context r) (p_ofile r) (p_cwd r) (p_name r) (p_strace
    r) (p_container r) (p_vpid r).
Definition set_p_chan (v : option chan) (r : proc) : proc :=
  mk_proc (p_state r) (p_parent r) v (p_killed r) (p_xstate r) (p_pid r) (p_kstack r)
    (p_sz r) (p_pagetable r) (p_tf r) (p_context r) (p_ofile r) (p_cwd r) (p_name r)
    (p_strace r) (p_container r) (p_vpid r).
Definition set_p_killed (v : Z) (r : proc) : proc :=
  mk_proc (p_state r) (p_parent r) (p_chan r) v (p_xstate r) (p_pid r) (p_kstack r) (p_sz
    r) (p_pagetable r) (p_tf r) (p_context r) (p_ofile r) (p_cwd r) (p_name r) (p_strace
    r) (p_container r) (p_vpid r).
Definition set_p_xstate (v : Z) (r : proc) : proc :=
  mk_proc (p_state r) (p_parent r) (p_chan r) (p_killed r) v (p_pid r) (p_kstack r) (p_sz
    r) (p_pagetable r) (p_tf r) (p_context r) (p_ofile r) (p_cwd r) (p_name r) (p_strace
    r) (p_container r) (p_vpid r).
Definition set_p_pid (v : Z) (r : proc) : proc :=
  mk_proc (p_state r) (p_parent r) (p_chan r) (p_killed r) (p_xstate r) v (p_kstack r)
    (p_sz r) (p_pagetable r) (p_tf r) (p_context r) (p_ofile r) (p_cwd r) (p_name r)
    (p_strace r) (p_container r) (p_vpid r).
Definition set_p_kstack (v : Z) (r : proc) : proc :=
  mk_proc (p_state r) (p_parent r) (p_chan r) (p_killed r) (p_xstate r) (p_pid r) v (p_sz
    r) (p_pagetable r) (p_tf r) (p_context r) (p_ofile r) (p_cwd r) (p_name r) (p_strace
    r) (p_container r) (p_vpid r).
Definition set_p_sz (v : Z) (r : proc) : proc :=
  mk_proc (p_state r) (p_parent r) (p_chan r) (p_killed r) (p_xstate r) (p_pid r)
    (p_kstack r) v (p_pagetable r) (p_tf r) (p_context r) (p_ofile r) (p_cwd r) (p_name r)
    (p_strace r) (p_container r) (p_vpid r).
Definition set_p_pagetable (v : Z) (r : proc) : proc :=
  mk_proc (p_state r) (p_parent r) (p_chan r) (p_killed r) (p_xstate r) (p_pid r)
    (p_kstack r) (p_sz r) v (p_tf r) (p_context r) (p_ofile r) (p_cwd r) (p_name r)
    (p_strace r) (p_container r) (p_vpid r).
Definition set_p_tf (v : Z) (r : proc) : proc :=
  mk_proc (p_state r) (p_parent r) (p_chan r) (p_killed r) (p_xstate r) (p_pid r)
    (p_kstack r) (p_sz r) (p_pagetable r) v (p_context r) (p_ofile r) (p_cwd r) (p_name r)
    (p_strace r) (p_container r) (p_vpid r).
Definition set_p_context (v : context) (r : proc) : proc :=
  mk_proc (p_state r) (p_parent r) (p_chan r) (p_killed r) (p_xstate r) (p_pid r)
    (p_kstack r) (p_sz r) (p_pagetable r) (p_tf r) v (p_ofile r) (p_cwd r) (p_name r)
    (p_strace r) (p_container r) (p_vpid r).
Definition set_p_ofile (v : list (option nat)) (r : proc) : proc :=
  mk_proc (p_state r) (p_parent r) (p_chan r) (p_killed r) (p_xstate r) (p_pid r)
    (p_kstack r) (p_sz r) (p_pagetable r) (p_tf r) (p_context r) v (p_cwd r) (p_name r)
    (p_strace r) (p_container r) (p_vpid r).
Definition set_p_cwd (v : option nat) (r : proc) : proc :=
  mk_proc (p_state r) (p_parent r) (p_chan r) (p_killed r) (p_xstate r) (p_pid r)
    (p_kstack r) (p_sz r) (p_pagetable r) (p_tf r) (p_context r) (p_ofile r) v (p_name r)
    (p_strace r) (p_container r) (p_vpid r).
Definition set_p_name (v : list Z) (r : proc) : proc :=
  mk_proc (p_state r) (p_parent r) (p_chan r) (p_killed r) (p_xstate r) (p_pid r)
    (p_kstack r) (p_sz r) (p_pagetable r) (p_tf r) (p_context r) (p_ofile r) (p_cwd r) v
    (p_strace r) (p_container r) (p_vpid r).
Definition set_p_strace (v : Z) (r : proc) : proc :=
  mk_proc (p_state r) (p_parent r) (p_chan r) (p_killed r) (p_xstate r) (p_pid r)
    (p_kstack r) (p_sz r) (p_pagetable r) (p_tf r) (p_context r) (p_ofile r) (p_cwd r)
    (p_name r) v (p_container r) (p_vpid r).
Definition set_p_container (v : option nat) (r : proc) : proc :=
  mk_proc (p_state r) (p_parent r) (p_chan r) (p_killed r) (p_xstate r) (p_pid r)
    (p_kstack r) (p_sz r) (p_pagetable r) (p_tf r) (p_context r) (p_ofile r) (p_cwd r)
    (p_name r) (p_strace r) v (p_vpid r).
Definition set_p_vpid (v : Z) (r : proc) : proc :=
  mk_proc (p_state r) (p_parent r) (p_chan r) (p_killed r) (p_xstate r) (p_pid r)
    (p_kstack r) (p_sz r) (p_pagetable r) (p_tf r) (p_context r) (p_ofile r) (p_cwd r)
    (p_name r) (p_strace r) (p_container r) v.

(** struct container (kernel/proc.h). *)

Record container := mk_container {
  c_name : list Z;
  c_root : option nat;
  c_root_dir : list Z;
  c_nextvpid : Z;
  c_maxproc : Z;
  c_memused : Z;
  c_memlimit : Z;
  c_diskused : Z;
  c_disklimit : Z;
  c_state : containerstate;
}.

Definition set_c_name (v : list Z) (r : container) : container :=
  mk_container v (c_root r) (c_root_dir r) (c_nextvpid r) (c_maxproc r) (c_memused r)
    (c_memlimit r) (c_diskused r) (c_disklimit r) (c_state r).
Definition set_c_root (v : option nat) (r : container) : container :=
  mk_container (c_name r) v (c_root_dir r) (c_nextvpid r) (c_maxproc r) (c_memused r)
    (c_memlimit r) (c_diskused r) (c_disklimit r) (c_state r).
Definition set_c_root_dir (v : list Z) (r : container) : container :=
  mk_container (c_name r) (c_root r) v (c_nextvpid r) (c_maxproc r) (c_memused r)
    (c_memlimit r) (c_diskused r) (c_disklimit r) (c_state r).
Definition set_c_nextvpid (v : Z) (r : container) : container :=
  mk_container (c_name r) (c_root r) (c_root_dir r) v (c_maxproc r) (c_memused r)
    (c_memlimit r) (c_diskused r) (c_disklimit r) (c_state r).
Definition set_c_maxproc (v : Z) (r : container) : container :=
  mk_container (c_name r) (c_root r) (c_root_dir r) (c_nextvpid r) v (c_memused r)
    (c_memlimit r) (c_diskused r) (c_disklimit r) (c_state r).
Definition set_c_memused (v : Z) (r : container) : container :=
  mk_container (c_name r) (c_root r) (c_root_dir r) (c_nextvpid r) (c_maxproc r) v
    (c_memlimit r) (c_diskused r) (c_disklimit r) (c_state r).
Definition set_c_memlimit (v : Z) (r : container) : container :=
  mk_container (c_name r) (c_root r) (c_root_dir r) (c_nextvpid r) (c_maxproc r)
    (c_memused r) v (c_diskused r) (c_disklimit r) (c_state r).
Definition set_c_diskused (v : Z) (r : container) : container :=
  mk_container (c_name r) (c_root r) (c_root_dir r) (c_nextvpid r) (c_maxproc r)
    (c_memused r) (c_memlimit r) v (c_disklimit r) (c_state r).
Definition set_c_disklimit (v : Z) (r : container) : container :=
  mk_container (c_name r) (c_root r) (c_root_dir r) (c_nextvpid r) (c_maxproc r)
    (c_memused r) (c_memlimit r) (c_diskused r) v (c_state r).
Definition set_c_state (v : containerstate) (r : container) : container :=
  mk_container (c_name r) (c_root r) (c_root_dir r) (c_nextvpid r) (c_maxproc r)
    (c_memused r) (c_memlimit r) (c_diskused r) (c_disklimit r) v.

(** struct sleeplock (kernel/sleeplock.h), without its name. *)

Record sleeplock := mk_sleeplock {
  sl_locked : Z;
  sl_pid : Z;
}.

(** struct file (kernel/file.h). *)

Record file := mk_file {
  f_type : filetype;
  f_ref : Z;
  f_readable : Z;
  f_writable : Z;
  f_pipe : Z;
  f_ip : option nat;
  f_off : Z;
  f_major : Z;
}.

Definition set_f_type (v : filetype) (r : file) : file :=
  mk_file v (f_ref r) (f_readable r) (f_writable r) (f_pipe r) (f_ip r) (f_off r) (f_major
    r).
Definition set_f_ref (v : Z) (r : file) : file :=
  mk_file (f_type r) v (f_readable r) (f_writable r) (f_pipe r) (f_ip r) (f_off r)
    (f_major r).
Definition set_f_readable (v : Z) (r : file) : file :=
  mk_file (f_type r) (f_ref r) v (f_writable r) (f_pipe r) (f_ip r) (f_off r) (f_major r).
Definition set_f_writable (v : Z) (r : file) : file :=
  mk_file (f_type r) (f_ref r) (f_readable r) v (f_pipe r) (f_ip r) (f_off r) (f_major r).
Definition set_f_pipe (v : Z) (r : file) : file :=
  mk_file (f_type r) (f_ref r) (f_readable r) (f_writable r) v (f_ip r) (f_off r) (f_major
    r).
Definition set_f_ip (v : option nat) (r : file) : file :=
  mk_file (f_type r) (f_ref r) (f_readable r) (f_writable r) (f_pipe r) v (f_off r)
    (f_major r).
Definition set_f_off (v : Z) (r : file) : file :=
  mk_file (f_type r) (f_ref r) (f_readable r) (f_writable r) (f_pipe r) (f_ip r) v
    (f_major r).
Definition set_f_major (v : Z) (r : file) : file :=
  mk_file (f_type r) (f_ref r) (f_readable r) (f_writable r) (f_pipe r) (f_ip r) (f_off r)
    v.

(** struct inode (kernel/file.h). *)

Record inode := mk_inode {
  i_dev : Z;
  i_inum : Z;
  i_ref : Z;
  i_lock : sleeplock;
  i_valid : Z;
  i_type : Z;
  i_major : Z;
  i_minor : Z;
  i_nlink : Z;
  i_size : Z;
  i_addrs : list Z;
}.

Definition set_i_dev (v : Z) (r : inode) : inode :=
  mk_inode v (i_inum r) (i_ref r) (i_lock r) (i_valid r) (i_type r) (i_major r) (i_minor
    r) (i_nlink r) (i_size r) (i_addrs r).
Definition set_i_inum (v : Z) (r : inode) : inode :=
  mk_inode (i_dev r) v (i_ref r) (i_lock r) (i_valid r) (i_type r) (i_major r) (i_minor r)
    (i_nlink r) (i_size r) (i_addrs r).
Definition set_i_ref (v : Z) (r : inode) : inode :=
  mk_inode (i_dev r) (i_inum r) v (i_lock r) (i_valid r) (i_type r) (i_major r) (i_minor
    r) (i_nlink r) (i_size r) (i_addrs r).
Definition set_i_lock (v : sleeplock) (r : inode) : inode :=
  mk_inode (i_dev r) (i_inum r) (i_ref r) v (i_valid r) (i_type r) (i_major r) (i_minor r)
    (i_nlink r) (i_size r) (i_addrs r).
Definition set_i_valid (v : Z) (r : inode) : inode :=
  mk_inode (i_dev r) (i_inum r) (i_ref r) (i_lock r) v (i_type r) (i_major r) (i_minor r)
    (i_nlink r) (i_size r) (i_addrs r).
Definition set_i_type (v : Z) (r : inode) : inode :=
  mk_inode (i_dev r) (i_inum r) (i_ref r) (i_lock r) (i_valid r) v (i_major r) (i_minor r)
    (i_nlink r) (i_size r) (i_addrs r).
Definition set_i_major (v : Z) (r : inode) : inode :=
  mk_inode (i_dev r) (i_inum r) (i_ref r) (i_lock r) (i_valid r) (i_type r) v (i_minor r)
    (i_nlink r) (i_size r) (i_addrs r).
Definition set_i_minor (v : Z) (r : inode) : inode :=
  mk_inode (i_dev r) (i_inum r) (i_ref r) (i_lock r) (i_valid r) (i_type r) (i_major r) v
    (i_nlink r) (i_size r) (i_addrs r).
Definition set_i_nlink (v : Z) (r : inode) : inode :=
  mk_inode (i_dev r) (i_inum r) (i_ref r) (i_lock r) (i_valid r) (i_type r) (i_major r)
    (i_minor r) v (i_size r) (i_addrs r).
Definition set_i_size (v : Z) (r : inode) : inode :=
  mk_inode (i_dev r) (i_inum r) (i_ref r) (i_lock r) (i_valid r) (i_type r) (i_major r)
    (i_minor r) (i_nlink r) v (i_addrs r).
Definition set_i_addrs (v : list Z) (r : inode) : inode :=
  mk_inode (i_dev r) (i_inum r) (i_ref r) (i_lock r) (i_valid r) (i_type r) (i_major r)
    (i_minor r) (i_nlink r) (i_size r) v.

(** struct buf (kernel/buf.h). [b_prev] and [b_next] are slot numbers; the list
    head has number NBUF. *)

Record buf := mk_buf {
  b_valid : Z;
  b_disk : Z;
  b_dev : Z;
  b_blockno : Z;
  b_lock : sleeplock;
  b_refcnt : Z;
  b_prev : nat;
  b_next : nat;
  b_data : list Z;
}.

Definition set_b_valid (v : Z) (r : buf) : buf :=
  mk_buf v (b_disk r) (b_dev r) (b_blockno r) (b_lock r) (b_refcnt r) (b_prev r) (b_next
    r) (b_data r).
Definition set_b_disk (v : Z) (r : buf) : buf :=
  mk_buf (b_valid r) v (b_dev r) (b_blockno r) (b_lock r) (b_refcnt r) (b_prev r) (b_next
    r) (b_data r).
Definition set_b_dev (v : Z) (r : buf) : buf :=
  mk_buf (b_valid r) (b_disk r) v (b_blockno r) (b_lock r) (b_refcnt r) (b_prev r) (b_next
    r) (b_data r).
Definition set_b_blockno (v : Z) (r : buf) : buf :=
  mk_buf (b_valid r) (b_disk r) (b_dev r) v (b_lock r) (b_refcnt r) (b_prev r) (b_next r)
    (b_data r).
Definition set_b_lock (v : sleeplock) (r : buf) : buf :=
  mk_buf (b_valid r) (b_disk r) (b_dev r) (b_blockno r) v (b_refcnt r) (b_prev r) (b_next
    r) (b_data r).
Definition set_b_refcnt (v : Z) (r : buf) : buf :=
  mk_buf (b_valid r) (b_disk r) (b_dev r) (b_blockno r) (b_lock r) v (b_prev r) (b_next r)
    (b_data r).
Definition set_b_prev (v : nat) (r : buf) : buf :=
  mk_buf (b_valid r) (b_disk r) (b_dev r) (b_blockno r) (b_lock r) (b_refcnt r) v (b_next
    r) (b_data r).
Definition set_b_next (v : nat) (r : buf) : buf :=
  mk_buf (b_valid r) (b_disk r) (b_dev r) (b_blockno r) (b_lock r) (b_refcnt r) (b_prev r)
    v (b_data r).
Definition set_b_data (v : list Z) (r : buf) : buf :=
  mk_buf (b_valid r) (b_disk r) (b_dev r) (b_blockno r) (b_lock r) (b_refcnt r) (b_prev r)
    (b_next r) v.

(** struct superblock (kernel/fs.h). *)

Record superblock := mk_superblock {
  sb_magic : Z;
  sb_size : Z;
  sb_nblocks : Z;
  sb_ninodes : Z;
  sb_nlog : Z;
  sb_logstart : Z;
  sb_inodestart : Z;
  sb_bmapstart : Z;
}.

(** struct log and struct logheader (kernel/log.c). *)

Record log := mk_log {
  l_start : Z;
  l_size : Z;
  l_outstanding : Z;
  l_committing : Z;
  l_dev : Z;
  l_n : Z;
  l_block : list Z;
}.

Definition set_l_start (v : Z) (r : log) : log :=
  mk_log v (l_size r) (l_outstanding r) (l_committing r) (l_dev r) (l_n r) (l_block r).
Definition set_l_size (v : Z) (r : log) : log :=
  mk_log (l_start r) v (l_outstanding r) (l_committing r) (l_dev r) (l_n r) (l_block r).
Definition set_l_outstanding (v : Z) (r : log) : log :=
  mk_log (l_start r) (l_size r) v (l_committing r) (l_dev r) (l_n r) (l_block r).
Definition set_l_committing (v : Z) (r : log) : log :=
  mk_log (l_start r) (l_size r) (l_outstanding r) v (l_dev r) (l_n r) (l_block r).
Definition set_l_dev (v : Z) (r : log) : log :=
  mk_log (l_start r) (l_size r) (l_outstanding r) (l_committing r) v (l_n r) (l_block r).
Definition set_l_n (v : Z) (r : log) : log :=
  mk_log (l_start r) (l_size r) (l_outstanding r) (l_committing r) (l_dev r) v (l_block
    r).
Definition set_l_block (v : list Z) (r : log) : log :=
  mk_log (l_start r) (l_size r) (l_outstanding r) (l_committing r) (l_dev r) (l_n r) v.

(** struct input (kernel/console.c). *)

Record input := mk_input {
  in_buf : list Z;
  in_r : Z;
  in_w : Z;
  in_e : Z;
}.

Definition set_in_buf (v : list Z) (r : input) : input :=
  mk_input v (in_r r) (in_w r) (in_e r).
Definition set_in_r (v : Z) (r : input) : input :=
  mk_input (in_buf r) v (in_w r) (in_e r).
Definition set_in_w (v : Z) (r : input) : input :=
  mk_input (in_buf r) (in_r r) v (in_e r).
Definition set_in_e (v : Z) (r : input) : input :=
  mk_input (in_buf r) (in_r r) (in_w r) v.

(** struct pipe (kernel/pipe.c). *)

Record pipe := mk_pipe {
  pi_data : list Z;
  pi_nread : Z;
  pi_nwrite : Z;
  pi_readopen : Z;
  pi_writeopen : Z;
}.

Definition set_pi_data (v : list Z) (r : pipe) : pipe :=
  mk_pipe v (pi_nread r) (pi_nwrite r) (pi_readopen r) (pi_writeopen r).
Definition set_pi_nread (v : Z) (r : pipe) : pipe :=
  mk_pipe (pi_data r) v (pi_nwrite r) (pi_readopen r) (pi_writeopen r).
Definition set_pi_nwrite (v : Z) (r : pipe) : pipe :=
  mk_pipe (pi_data r) (pi_nread r) v (pi_readopen r) (pi_writeopen r).
Definition set_pi_readopen (v : Z) (r : pipe) : pipe :=
  mk_pipe (pi_data r) (pi_nread r) (pi_nwrite r) v (pi_writeopen r).
Definition set_pi_writeopen (v : Z) (r : pipe) : pipe :=
  mk_pipe (pi_data r) (pi_nread r) (pi_nwrite r) (pi_readopen r) v.

(** What a descriptor points at: the request header on a kernel stack (its type and
    sector), the data of a buffer, or the status byte of a chain. *)

Inductive daddr := ANull | AHdr (ty sector : Z) | AData (i : nat) | AStatus (i : nat).

(** struct VRingDesc (kernel/virtio.h). *)

Record vdesc := mk_vdesc {
  vd_addr : daddr;
  vd_len : Z;
  vd_flags : Z;
  vd_next : Z;
}.

Definition set_vd_addr (v : daddr) (r : vdesc) : vdesc :=
  mk_vdesc v (vd_len r) (vd_flags r) (vd_next r).
Definition set_vd_len (v : Z) (r : vdesc) : vdesc :=
  mk_vdesc (vd_addr r) v (vd_flags r) (vd_next r).
Definition set_vd_flags (v : Z) (r : vdesc) : vdesc :=
  mk_vdesc (vd_addr r) (vd_len r) v (vd_next r).
Definition set_vd_next (v : Z) (r : vdesc) : vdesc :=
  mk_vdesc (vd_addr r) (vd_len r) (vd_flags r) v.

(** struct disk (kernel/virtio_disk.c): the descriptors, the ring of requests
    made available to the device and the ring it has used, and the driver's own
    book-keeping. *)

Record vdisk := mk_vdisk {
  dk_desc : list vdesc;   (* disk.desc[NUM] *)
  dk_avail_idx : Z;   (* disk.avail[1] *)
  dk_avail : list Z;   (* disk.avail[2..] *)
  dk_used_id : Z;   (* disk.used->id *)
  dk_used : list Z;   (* disk.used->elems[].id *)
  dk_free : list Z;   (* disk.free[NUM] *)
  dk_used_idx : Z;   (* disk.used_idx *)
  dk_info_b : list (option nat);   (* disk.info[].b *)
  dk_info_status : list Z;   (* disk.info[].status *)
}.

Definition set_dk_desc (v : list vdesc) (r : vdisk) : vdisk :=
  mk_vdisk v (dk_avail_idx r) (dk_avail r) (dk_used_id r) (dk_used r) (dk_free r)
    (dk_used_idx r) (dk_info_b r) (dk_info_status r).
Definition set_dk_avail_idx (v : Z) (r : vdisk) : vdisk :=
  mk_vdisk (dk_desc r) v (dk_avail r) (dk_used_id r) (dk_used r) (dk_free r) (dk_used_idx
    r) (dk_info_b r) (dk_info_status r).
Definition set_dk_avail (v : list Z) (r : vdisk) : vdisk :=
  mk_vdisk (dk_desc r) (dk_avail_idx r) v (dk_used_id r) (dk_used r) (dk_free r)
    (dk_used_idx r) (dk_info_b r) (dk_info_status r).
Definition set_dk_used_id (v : Z) (r : vdisk) : vdisk :=
  mk_vdisk (dk_desc r) (dk_avail_idx r) (dk_avail r) v (dk_used r) (dk_free r)
    (dk_used_idx r) (dk_info_b r) (dk_info_status r).
Definition set_dk_used (v : list Z) (r : vdisk) : vdisk :=
  mk_vdisk (dk_desc r) (dk_avail_idx r) (dk_avail r) (dk_used_id r) v (dk_free r)
    (dk_used_idx r) (dk_info_b r) (dk_info_status r).
Definition set_dk_free (v : list Z) (r : vdisk) : vdisk :=
  mk_vdisk (dk_desc r) (dk_avail_idx r) (dk_avail r) (dk_used_id r) (dk_used r) v
    (dk_used_idx r) (dk_info_b r) (dk_info_status r).
Definition set_dk_used_idx (v : Z) (r : vdisk) : vdisk :=
  mk_vdisk (dk_desc r) (dk_avail_idx r) (dk_avail r) (dk_used_id r) (dk_used r) (dk_free
    r) v (dk_info_b r) (dk_info_status r).
Definition set_dk_info_b (v : list (option nat)) (r : vdisk) : vdisk :=
  mk_vdisk (dk_desc r) (dk_avail_idx r) (dk_avail r) (dk_used_id r) (dk_used r) (dk_free
    r) (dk_used_idx r) v (dk_info_status r).
Definition set_dk_info_status (v : list Z) (r : vdisk) : vdisk :=
  mk_vdisk (dk_desc r) (dk_avail_idx r) (dk_avail r) (dk_used_id r) (dk_used r) (dk_free
    r) (dk_used_idx r) (dk_info_b r) v.

(** The state of the kernel, as one CPU sees it while it runs a kernel thread:
    physical memory, the globals of each file of kernel/, the locks this CPU
    holds and the devices. *)

Record kst := mk_kst {
  k_mem : mem;   (* physical memory, by byte *)
  k_held : gset lock;   (* spin locks held by this CPU *)
  k_cur : option nat;   (* mycpu()->proc *)
  k_freelist : Z;   (* kmem.freelist (kalloc.c) *)
  k_kpagetable : Z;   (* kernel_pagetable (vm.c) *)
  k_started : Z;   (* started (proc.c) *)
  k_procs : list proc;   (* proc[NPROC] (proc.c) *)
  k_conts : list container;   (* containers[NCONTS] (proc.c) *)
  k_initproc : option nat;   (* initproc (proc.c) *)
  k_nextpid : Z;   (* nextpid (proc.c) *)
  k_ticks : Z;   (* ticks (trap.c) *)
  k_prlocking : Z;   (* pr.locking (printf.c) *)
  k_out : list Z;   (* bytes sent to the uart *)
  k_consoles : list input;   (* consoles[NCONS] (console.c) *)
  k_active : Z;   (* active (console.c) *)
  k_devsw : list bool;   (* devsw[NDEV] (file.c): is the console driver installed? *)
  k_ftable : list file;   (* ftable.file[NFILE] (file.c) *)
  k_pipes : gmap Z pipe;   (* the struct pipes, by the page they live in *)
  k_icache : list inode;   (* icache.inode[NINODE] (fs.c) *)
  k_sb : superblock;   (* sb (fs.c) *)
  k_log : log;   (* log (log.c) *)
  k_bufs : list buf;   (* bcache.buf[NBUF] and bcache.head (bio.c) *)
  k_vdisk : vdisk;   (* disk (virtio_disk.c) *)
  k_first : Z;   (* first (forkret in proc.c) *)
}.

Definition set_k_mem (v : mem) (r : kst) : kst :=
  mk_kst v (k_held r) (k_cur r) (k_freelist r) (k_kpagetable r) (k_started r) (k_procs r)
    (k_conts r) (k_initproc r) (k_nextpid r) (k_ticks r) (k_prlocking r) (k_out r)
    (k_consoles r) (k_active r) (k_devsw r) (k_ftable r) (k_pipes r) (k_icache r) (k_sb r)
    (k_log r) (k_bufs r) (k_vdisk r) (k_first r).
Definition set_k_held (v : gset lock) (r : kst) : kst :=
  mk_kst (k_mem r) v (k_cur r) (k_freelist r) (k_kpagetable r) (k_started r) (k_procs r)
    (k_conts r) (k_initproc r) (k_nextpid r) (k_ticks r) (k_prlocking r) (k_out r)
    (k_consoles r) (k_active r) (k_devsw r) (k_ftable r) (k_pipes r) (k_icache r) (k_sb r)
    (k_log r) (k_bufs r) (k_vdisk r) (k_first r).
Definition set_k_cur (v : option nat) (r : kst) : kst :=
  mk_kst (k_mem r) (k_held r) v (k_freelist r) (k_kpagetable r) (k_started r) (k_procs r)
    (k_conts r) (k_initproc r) (k_nextpid r) (k_ticks r) (k_prlocking r) (k_out r)
    (k_consoles r) (k_active r) (k_devsw r) (k_ftable r) (k_pipes r) (k_icache r) (k_sb r)
    (k_log r) (k_bufs r) (k_vdisk r) (k_first r).
Definition set_k_freelist (v : Z) (r : kst) : kst :=
  mk_kst (k_mem r) (k_held r) (k_cur r) v (k_kpagetable r) (k_started r) (k_procs r)
    (k_conts r) (k_initproc r) (k_nextpid r) (k_ticks r) (k_prlocking r) (k_out r)
    (k_consoles r) (k_active r) (k_devsw r) (k_ftable r) (k_pipes r) (k_icache r) (k_sb r)
    (k_log r) (k_bufs r) (k_vdisk r) (k_first r).
Definition set_k_kpagetable (v : Z) (r : kst) : kst :=
  mk_kst (k_mem r) (k_held r) (k_cur r) (k_freelist r) v (k_started r) (k_procs r)
    (k_conts r) (k_initproc r) (k_nextpid r) (k_ticks r) (k_prlocking r) (k_out r)
    (k_consoles r) (k_active r) (k_devsw r) (k_ftable r) (k_pipes r) (k_icache r) (k_sb r)
    (k_log r) (k_bufs r) (k_vdisk r) (k_first r).
Definition set_k_started (v : Z) (r : kst) : kst :=
  mk_kst (k_mem r) (k_held r) (k_cur r) (k_freelist r) (k_kpagetable r) v (k_procs r)
    (k_conts r) (k_initproc r) (k_nextpid r) (k_ticks r) (k_prlocking r) (k_out r)
    (k_consoles r) (k_active r) (k_devsw r) (k_ftable r) (k_pipes r) (k_icache r) (k_sb r)
    (k_log r) (k_bufs r) (k_vdisk r) (k_first r).
Definition set_k_procs (v : list proc) (r : kst) : kst :=
  mk_kst (k_mem r) (k_held r) (k_cur r) (k_freelist r) (k_kpagetable r) (k_started r) v
    (k_conts r) (k_initproc r) (k_nextpid r) (k_ticks r) (k_prlocking r) (k_out r)
    (k_consoles r) (k_active r) (k_devsw r) (k_ftable r) (k_pipes r) (k_icache r) (k_sb r)
    (k_log r) (k_bufs r) (k_vdisk r) (k_first r).
Definition set_k_conts (v : list container) (r : kst) : kst :=
  mk_kst (k_mem r) (k_held r) (k_cur r) (k_freelist r) (k_kpagetable r) (k_started r)
    (k_procs r) v (k_initproc r) (k_nextpid r) (k_ticks r) (k_prlocking r) (k_out r)
    (k_consoles r) (k_active r) (k_devsw r) (k_ftable r) (k_pipes r) (k_icache r) (k_sb r)
    (k_log r) (k_bufs r) (k_vdisk r) (k_first r).
Definition set_k_initproc (v : option nat) (r : kst) : kst :=
  mk_kst (k_mem r) (k_held r) (k_cur r) (k_freelist r) (k_kpagetable r) (k_started r)
    (k_procs r) (k_conts r) v (k_nextpid r) (k_ticks r) (k_prlocking r) (k_out r)
    (k_consoles r) (k_active r) (k_devsw r) (k_ftable r) (k_pipes r) (k_icache r) (k_sb r)
    (k_log r) (k_bufs r) (k_vdisk r) (k_first r).
Definition set_k_nextpid (v : Z) (r : kst) : kst :=
  mk_kst (k_mem r) (k_held r) (k_cur r) (k_freelist r) (k_kpagetable r) (k_started r)
    (k_procs r) (k_conts r) (k_initproc r) v (k_ticks r) (k_prlocking r) (k_out r)
    (k_consoles r) (k_active r) (k_devsw r) (k_ftable r) (k_pipes r) (k_icache r) (k_sb r)
    (k_log r) (k_bufs r) (k_vdisk r) (k_first r).
Definition set_k_ticks (v : Z) (r : kst) : kst :=
  mk_kst (k_mem r) (k_held r) (k_cur r) (k_freelist r) (k_kpagetable r) (k_started r)
    (k_procs r) (k_conts r) (k_initproc r) (k_nextpid r) v (k_prlocking r) (k_out r)
    (k_consoles r) (k_active r) (k_devsw r) (k_ftable r) (k_pipes r) (k_icache r) (k_sb r)
    (k_log r) (k_bufs r) (k_vdisk r) (k_first r).
Definition set_k_prlocking (v : Z) (r : kst) : kst :=
  mk_kst (k_mem r) (k_held r) (k_cur r) (k_freelist r) (k_kpagetable r) (k_started r)
    (k_procs r) (k_conts r) (k_initproc r) (k_nextpid r) (k_ticks r) v (k_out r)
    (k_consoles r) (k_active r) (k_devsw r) (k_ftable r) (k_pipes r) (k_icache r) (k_sb r)
    (k_log r) (k_bufs r) (k_vdisk r) (k_first r).
Definition set_k_out (v : list Z) (r : kst) : kst :=
  mk_kst (k_mem r) (k_held r) (k_cur r) (k_freelist r) (k_kpagetable r) (k_started r)
    (k_procs r) (k_conts r) (k_initproc r) (k_nextpid r) (k_ticks r) (k_prlocking r) v
    (k_consoles r) (k_active r) (k_devsw r) (k_ftable r) (k_pipes r) (k_icache r) (k_sb r)
    (k_log r) (k_bufs r) (k_vdisk r) (k_first r).
Definition set_k_consoles (v : list input) (r : kst) : kst :=
  mk_kst (k_mem r) (k_held r) (k_cur r) (k_freelist r) (k_kpagetable r) (k_started r)
    (k_procs r) (k_conts r) (k_initproc r) (k_nextpid r) (k_ticks r) (k_prlocking r)
    (k_out r) v (k_active r) (k_devsw r) (k_ftable r) (k_pipes r) (k_icache r) (k_sb r)
    (k_log r) (k_bufs r) (k_vdisk r) (k_first r).
Definition set_k_active (v : Z) (r : kst) : kst :=
  mk_kst (k_mem r) (k_held r) (k_cur r) (k_freelist r) (k_kpagetable r) (k_started r)
    (k_procs r) (k_conts r) (k_initproc r) (k_nextpid r) (k_ticks r) (k_prlocking r)
    (k_out r) (k_consoles r) v (k_devsw r) (k_ftable r) (k_pipes r) (k_icache r) (k_sb r)
    (k_log r) (k_bufs r) (k_vdisk r) (k_first r).
Definition set_k_devsw (v : list bool) (r : kst) : kst :=
  mk_kst (k_mem r) (k_held r) (k_cur r) (k_freelist r) (k_kpagetable r) (k_started r)
    (k_procs r) (k_conts r) (k_initproc r) (k_nextpid r) (k_ticks r) (k_prlocking r)
    (k_out r) (k_consoles r) (k_active r) v (k_ftable r) (k_pipes r) (k_icache r) (k_sb r)
    (k_log r) (k_bufs r) (k_vdisk r) (k_first r).
Definition set_k_ftable (v : list file) (r : kst) : kst :=
  mk_kst (k_mem r) (k_held r) (k_cur r) (k_freelist r) (k_kpagetable r) (k_started r)
    (k_procs r) (k_conts r) (k_initproc r) (k_nextpid r) (k_ticks r) (k_prlocking r)
    (k_out r) (k_consoles r) (k_active r) (k_devsw r) v (k_pipes r) (k_icache r) (k_sb r)
    (k_log r) (k_bufs r) (k_vdisk r) (k_first r).
Definition set_k_pipes (v : gmap Z pipe) (r : kst) : kst :=
  mk_kst (k_mem r) (k_held r) (k_cur r) (k_freelist r) (k_kpagetable r) (k_started r)
    (k_procs r) (k_conts r) (k_initproc r) (k_nextpid r) (k_ticks r) (k_prlocking r)
    (k_out r) (k_consoles r) (k_active r) (k_devsw r) (k_ftable r) v (k_icache r) (k_sb r)
    (k_log r) (k_bufs r) (k_vdisk r) (k_first r).
Definition set_k_icache (v : list inode) (r : kst) : kst :=
  mk_kst (k_mem r) (k_held r) (k_cur r) (k_freelist r) (k_kpagetable r) (k_started r)
    (k_procs r) (k_conts r) (k_initproc r) (k_nextpid r) (k_ticks r) (k_prlocking r)
    (k_out r) (k_consoles r) (k_active r) (k_devsw r) (k_ftable r) (k_pipes r) v (k_sb r)
    (k_log r) (k_bufs r) (k_vdisk r) (k_first r).
Definition set_k_sb (v : superblock) (r : kst) : kst :=
  mk_kst (k_mem r) (k_held r) (k_cur r) (k_freelist r) (k_kpagetable r) (k_started r)
    (k_procs r) (k_conts r) (k_initproc r) (k_nextpid r) (k_ticks r) (k_prlocking r)
    (k_out r) (k_consoles r) (k_active r) (k_devsw r) (k_ftable r) (k_pipes r) (k_icache
    r) v (k_log r) (k_bufs r) (k_vdisk r) (k_first r).
Definition set_k_log (v : log) (r : kst) : kst :=
  mk_kst (k_mem r) (k_held r) (k_cur r) (k_freelist r) (k_kpagetable r) (k_started r)
    (k_procs r) (k_conts r) (k_initproc r) (k_nextpid r) (k_ticks r) (k_prlocking r)
    (k_out r) (k_consoles r) (k_active r) (k_devsw r) (k_ftable r) (k_pipes r) (k_icache
    r) (k_sb r) v (k_bufs r) (k_vdisk r) (k_first r).
Definition set_k_bufs (v : list buf) (r : kst) : kst :=
  mk_kst (k_mem r) (k_held r) (k_cur r) (k_freelist r) (k_kpagetable r) (k_started r)
    (k_procs r) (k_conts r) (k_initproc r) (k_nextpid r) (k_ticks r) (k_prlocking r)
    (k_out r) (k_consoles r) (k_active r) (k_devsw r) (k_ftable r) (k_pipes r) (k_icache
    r) (k_sb r) (k_log r) v (k_vdisk r) (k_first r).
Definition set_k_vdisk (v : vdisk) (r : kst) : kst :=
  mk_kst (k_mem r) (k_held r) (k_cur r) (k_freelist r) (k_kpagetable r) (k_started r)
    (k_procs r) (k_conts r) (k_initproc r) (k_nextpid r) (k_ticks r) (k_prlocking r)
    (k_out r) (k_consoles r) (k_active r) (k_devsw r) (k_ftable r) (k_pipes r) (k_icache
    r) (k_sb r) (k_log r) (k_bufs r) v (k_first r).
Definition set_k_first (v : Z) (r : kst) : kst :=
  mk_kst (k_mem r) (k_held r) (k_cur r) (k_freelist r) (k_kpagetable r) (k_started r)
    (k_procs r) (k_conts r) (k_initproc r) (k_nextpid r) (k_ticks r) (k_prlocking r)
    (k_out r) (k_consoles r) (k_active r) (k_devsw r) (k_ftable r) (k_pipes r) (k_icache
    r) (k_sb r) (k_log r) (k_bufs r) (k_vdisk r) v.

(** The kernel computations. *)

Abbreviation K := (M kst).

(** ** Tables *)

(** Access to slot [i] of a table; a pointer outside it is a fault. *)

Definition get_proc (i : nat) : K proc := s <- gets k_procs ;; valid (s !! i).
Definition mod_proc (i : nat) (f : proc -> proc) : K unit :=
  p <- get_proc i ;; modify (fun s => set_k_procs (<[i := f p]> (k_procs s)) s).

Definition get_cont (i : nat) : K container := s <- gets k_conts ;; valid (s !! i).
Definition mod_cont (i : nat) (f : container -> container) : K unit :=
  c <- get_cont i ;; modify (fun s => set_k_conts (<[i := f c]> (k_conts s)) s).

(** ** Memory *)

Definition mload64 (a : Z) : K Z := gets (fun s => load64 (k_mem s) a).
Definition mstore64 (a v : Z) : K unit := modify (fun s => set_k_mem (store64 (k_mem s) a v) s).
Definition mmemset (dst c n : Z) : K unit := modify (fun s => set_k_mem (memset (k_mem s) dst c n) s).
Definition mmemmove (dst src n : Z) : K unit :=
  modify (fun s => set_k_mem (memmove (k_mem s) dst src n) s).

(** struct trapframe (kernel/proc.h): the offsets of the fields that the C code
    uses, in the page at [p_tf]. *)

Definition TF_kernel_satp : Z := 0.
Definition TF_kernel_sp : Z := 8.
Definition TF_kernel_trap : Z := 16.
Definition TF_epc : Z := 24.
Definition TF_kernel_hartid : Z := 32.
Definition TF_sp : Z := 48.
Definition TF_a (n : Z) : Z := 112 + 8 * n.   (* a0 .. a7 *)
Definition sizeof_trapframe : Z := 288.

(** ** Lemmas: writing back what is there *)

Lemma set_k_held_id s : set_k_held (k_held s) s = s.
Proof. by destruct s. Qed.

Lemma set_k_mem_id s : set_k_mem (k_mem s) s = s.
Proof. by destruct s. Qed.

Lemma set_k_procs_id s : set_k_procs (k_procs s) s = s.
Proof. by destruct s. Qed.

Lemma set_k_conts_id s : set_k_conts (k_conts s) s = s.
Proof. by destruct s. Qed.

#[export] Hint Rewrite set_k_held_id set_k_mem_id set_k_procs_id set_k_conts_id : kernel.

(** ** Lemmas: tables *)

Lemma get_proc_eq i e s :
  get_proc i e s = match k_procs s !! i with Some p => Ok p e s | None => Fault end.
Proof. unfold get_proc, bind, gets, valid. by destruct (k_procs s !! i). Qed.

Lemma mod_proc_eq i f e s :
  mod_proc i f e s =
    match k_procs s !! i with
    | Some p => Ok tt e (set_k_procs (<[i := f p]> (k_procs s)) s)
    | None => Fault
    end.
Proof. unfold mod_proc, bind. rewrite get_proc_eq. by destruct (k_procs s !! i). Qed.

Lemma get_cont_eq i e s :
  get_cont i e s = match k_conts s !! i with Some c => Ok c e s | None => Fault end.
Proof. unfold get_cont, bind, gets, valid. by destruct (k_conts s !! i). Qed.

Lemma mod_cont_eq i f e s :
  mod_cont i f e s =
    match k_conts s !! i with
    | Some c => Ok tt e (set_k_conts (<[i := f c]> (k_conts s)) s)
    | None => Fault
    end.
Proof. unfold mod_cont, bind. rewrite get_cont_eq. by destruct (k_conts s !! i). Qed.

Lemma runs_get_proc i p s : k_procs s !! i = Some p -> runs (get_proc i) s p s.
Proof. intros H. eapply runs_bind; [apply runs_gets|by apply runs_valid]. Qed.

Lemma runs_mod_proc i f p s :
  k_procs s !! i = Some p ->
  runs (mod_proc i f) s tt (set_k_procs (<[i := f p]> (k_procs s)) s).
Proof. intros H. eapply runs_bind; [by apply runs_get_proc|done]. Qed.

Lemma runs_get_cont i c s : k_conts s !! i = Some c -> runs (get_cont i) s c s.
Proof. intros H. eapply runs_bind; [apply runs_gets|by apply runs_valid]. Qed.

Lemma runs_mod_cont i f c s :
  k_conts s !! i = Some c ->
  runs (mod_cont i f) s tt (set_k_conts (<[i := f c]> (k_conts s)) s).
Proof. intros H. eapply runs_bind; [by apply runs_get_cont|done]. Qed.

Lemma runs_mload64 a s : runs (mload64 a) s (load64 (k_mem s) a) s.
Proof. intros e. reflexivity. Qed.

Lemma runs_mstore64 a v s : runs (mstore64 a v) s tt (set_k_mem (store64 (k_mem s) a v) s).
Proof. intros e. reflexivity. Qed.

Lemma runs_mmemset d c n s : runs (mmemset d c n) s tt (set_k_mem (memset (k_mem s) d c n) s).
Proof. intros e. reflexivity. Qed.

Lemma runs_mmemmove d c n s :
  runs (mmemmove d c n) s tt (set_k_mem (memmove (k_mem s) d c n) s).
Proof. intros e. reflexivity. Qed.

#[export] Hint Resolve runs_get_proc runs_mod_proc runs_get_cont runs_mod_cont
  runs_mload64 runs_mstore64 runs_mmemset runs_mmemmove : runs.

Lemma steps_get_proc R `{!PreOrder R} i : steps R (get_proc i).
Proof. unfold get_proc. steps_tac. Qed.

Lemma steps_get_cont R `{!PreOrder R} i : steps R (get_cont i).
Proof. unfold get_cont. steps_tac. Qed.

#[export] Hint Resolve steps_get_proc steps_get_cont : steps.
