(* ===== verification/Hart.v ===== *)
(** * A hart: the assembly of the kernel, the control registers and machine mode
    (kernel/riscv.h, kernel/start.c, kernel/plic.c, kernel/entry.S,
    kernel/kernelvec.S, kernel/swtch.S, kernel/trampoline.S, and kvminithart and
    trapinithart of kernel/vm.c and kernel/trap.c)

    The state is that of one RISC-V hart: its registers, its control and status
    registers, physical memory, the privilege mode and the program counter.  The
    assembly is a list of instructions; the C functions are programs over the
    registers.  Translation of addresses by the page table that satp names is a
    parameter. *)

From S2P Require Import Prelude Monad Riscv Kstring Kstate.

(** ** Registers *)

Inductive reg :=
| Zero | Ra | Sp | Gp | Tp | T0 | T1 | T2 | S0 | S1
| A0 | A1 | A2 | A3 | A4 | A5 | A6 | A7
| S2 | S3 | S4 | S5 | S6 | S7 | S8 | S9 | S10 | S11 | T3 | T4 | T5 | T6.

#[export] Instance reg_eq_dec : EqDecision reg.
Proof. solve_decision. Defined.

Inductive csr :=
| Mhartid | Mstatus | Mepc | Medeleg | Mideleg | Mie | Mip | Mtvec | Mscratch | Mcounteren
| Sstatus | Sip | Sie | Sepc | Stvec | Satp | Sscratch | Scause | Stval | Time.

#[export] Instance csr_eq_dec : EqDecision csr.
Proof. solve_decision. Defined.

Inductive mode := User | Supervisor | Machine.

Record hart := mk_hart {
  h_regs : reg -> Z;
  h_csrs : csr -> Z;
  h_mem : mem;
  h_mode : mode;
  h_pc : Z;
}.

Definition set_h_mem (v : mem) (h : hart) : hart := mk_hart (h_regs h) (h_csrs h) v (h_mode h) (h_pc h).
Definition set_h_pc (v : Z) (h : hart) : hart := mk_hart (h_regs h) (h_csrs h) (h_mem h) (h_mode h) v.
Definition set_h_mode (v : mode) (h : hart) : hart := mk_hart (h_regs h) (h_csrs h) (h_mem h) v (h_pc h).

Definition put {X} `{EqDecision X} (f : X -> Z) (x : X) (v : Z) : X -> Z :=
  fun y => if decide (y = x) then v else f y.

Definition get_reg (r : reg) (h : hart) : Z := if decide (r = Zero) then 0 else h_regs h r.
Definition set_reg (r : reg) (v : Z) (h : hart) : hart :=
  mk_hart (put (h_regs h) r v) (h_csrs h) (h_mem h) (h_mode h) (h_pc h).
Definition put_csr (c : csr) (v : Z) (h : hart) : hart :=
  mk_hart (h_regs h) (put (h_csrs h) c v) (h_mem h) (h_mode h) (h_pc h).

(** sstatus shows some bits of mstatus, sie and sip those of mie and mip whose
    interrupts are delegated; of sip only the software interrupt can be written, and
    only the three interrupts of supervisor mode can be delegated. *)

Definition SSTATUS_MASK : Z := 0x80000003000DE133.

Definition blend (mask old new : Z) : Z := Z.lor (Z.ldiff old mask) (Z.land new mask).

Definition read_csr (c : csr) (h : hart) : Z :=
  match c with
  | Sstatus => Z.land (h_csrs h Mstatus) SSTATUS_MASK
  | Sie => Z.land (h_csrs h Mie) (h_csrs h Mideleg)
  | Sip => Z.land (h_csrs h Mip) (h_csrs h Mideleg)
  | c => h_csrs h c
  end.

Definition write_csr (c : csr) (v : Z) (h : hart) : hart :=
  match c with
  | Sstatus => put_csr Mstatus (blend SSTATUS_MASK (h_csrs h Mstatus) v) h
  | Sie => put_csr Mie (blend (h_csrs h Mideleg) (h_csrs h Mie) v) h
  | Sip => put_csr Mip (blend (Z.land (h_csrs h Mideleg) 2) (h_csrs h Mip) v) h
  | Mideleg => put_csr Mideleg (Z.land v 0x222) h
  | c => put_csr c v h
  end.

(** Returns from traps: the mode, the program counter and the stack of
    interrupt-enable bits in mstatus. *)

Definition status_bit (k : Z) (h : hart) : bool := Z.testbit (h_csrs h Mstatus) k.
Definition put_bit (k : Z) (b : bool) (x : Z) : Z := if b then Z.setbit x k else Z.clearbit x k.

Definition mret (h : hart) : hart :=
  let x := h_csrs h Mstatus in
  let m := if Z.testbit x 12 then Machine else if Z.testbit x 11 then Supervisor else User in
  set_h_pc (h_csrs h Mepc) (set_h_mode m
    (put_csr Mstatus (put_bit 12 false (put_bit 11 false (put_bit 7 true (put_bit 3 (Z.testbit x 7) x)))) h)).

Definition sret (h : hart) : hart :=
  let x := h_csrs h Mstatus in
  let m := if Z.testbit x 8 then Supervisor else User in
  set_h_pc (h_csrs h Sepc) (set_h_mode m
    (put_csr Mstatus (put_bit 8 false (put_bit 5 true (put_bit 1 (Z.testbit x 5) x))) h)).

(** ** kernel/riscv.h *)

Abbreviation H := (M hart).

Definition MSTATUS_MPP_MASK : Z := Z.shiftl 3 11.
Definition MSTATUS_MPP_S : Z := Z.shiftl 1 11.
Definition MSTATUS_MIE : Z := Z.shiftl 1 3.
Definition SIE_SEIE : Z := Z.shiftl 1 9.
Definition SIE_STIE : Z := Z.shiftl 1 5.
Definition SIE_SSIE : Z := Z.shiftl 1 1.
Definition MIE_MTIE : Z := Z.shiftl 1 7.

Definition r_mhartid : H Z := gets (read_csr Mhartid).
Definition r_mstatus : H Z := gets (read_csr Mstatus).
Definition w_mstatus (x : Z) : H unit := modify (write_csr Mstatus x).
Definition w_mepc (x : Z) : H unit := modify (write_csr Mepc x).
Definition r_sstatus : H Z := gets (read_csr Sstatus).
Definition w_sstatus (x : Z) : H unit := modify (write_csr Sstatus x).
Definition r_sip : H Z := gets (read_csr Sip).
Definition w_sip (x : Z) : H unit := modify (write_csr Sip x).
Definition r_sie : H Z := gets (read_csr Sie).
Definition w_sie (x : Z) : H unit := modify (write_csr Sie x).
Definition r_mie : H Z := gets (read_csr Mie).
Definition w_mie (x : Z) : H unit := modify (write_csr Mie x).
Definition w_sepc (x : Z) : H unit := modify (write_csr Sepc x).
Definition r_sepc : H Z := gets (read_csr Sepc).
Definition r_medeleg : H Z := gets (read_csr Medeleg).
Definition w_medeleg (x : Z) : H unit := modify (write_csr Medeleg x).
Definition r_mideleg : H Z := gets (read_csr Mideleg).
Definition w_mideleg (x : Z) : H unit := modify (write_csr Mideleg x).
Definition w_stvec (x : Z) : H unit := modify (write_csr Stvec x).
Definition r_stvec : H Z := gets (read_csr Stvec).
Definition w_mtvec (x : Z) : H unit := modify (write_csr Mtvec x).
Definition w_satp (x : Z) : H unit := modify (write_csr Satp x).
Definition r_satp : H Z := gets (read_csr Satp).
Definition w_sscratch (x : Z) : H unit := modify (write_csr Sscratch x).
Definition w_mscratch (x : Z) : H unit := modify (write_csr Mscratch x).
Definition r_scause : H Z := gets (read_csr Scause).
Definition r_stval : H Z := gets (read_csr Stval).
Definition w_mcounteren (x : Z) : H unit := modify (write_csr Mcounteren x).
Definition r_mcounteren : H Z := gets (read_csr Mcounteren).
Definition r_time : H Z := gets (read_csr Time).

Definition intr_on : H unit :=
  x <- r_sie ;;
  w_sie (Z.lor (Z.lor (Z.lor x SIE_SEIE) SIE_STIE) SIE_SSIE) ;;
  y <- r_sstatus ;;
  w_sstatus (Z.lor y SSTATUS_SIE).

Definition intr_off : H unit :=
  x <- r_sstatus ;;
  w_sstatus (Z.land x (Z.lnot SSTATUS_SIE)).

Definition intr_get : H bool :=
  x <- r_sstatus ;;
  ret (negb (Z.land x SSTATUS_SIE =? 0)).

Definition r_sp : H Z := gets (get_reg Sp).
Definition r_tp : H Z := gets (get_reg Tp).
Definition w_tp (x : Z) : H unit := modify (set_reg Tp x).
Definition r_ra : H Z := gets (get_reg Ra).

(** The buffer of translations is not part of the state: translation is always that
    of the page table that satp names. *)

Definition sfence_vma : H unit := ret tt.

(** ** Memory-mapped devices

    The kernel maps the registers of the devices at their physical addresses; a
    register is read as what memory holds at that moment. *)

Definition hload (n : nat) (a : Z) : H Z := gets (fun h => load n (h_mem h) a).
Definition hstore (n : nat) (a v : Z) : H unit := modify (fun h => set_h_mem (store n (h_mem h) a v) h).

Definition CLINT_MTIMECMP (hartid : Z) : Z := CLINT + 0x4000 + 8 * hartid.
Definition CLINT_MTIME : Z := CLINT + 0xBFF8.
Definition PLIC_PENDING : Z := PLIC + 0x1000.
Definition PLIC_SENABLE (hart : Z) : Z := PLIC + 0x2080 + hart * 0x100.
Definition PLIC_SPRIORITY (hart : Z) : Z := PLIC + 0x201000 + hart * 0x2000.
Definition PLIC_SCLAIM (hart : Z) : Z := PLIC + 0x201004 + hart * 0x2000.

(** cpuid of kernel/proc.c. *)

Definition cpuid : H Z := id <- r_tp ;; ret (i32 id).

(** ** kernel/plic.c *)

Definition plicinit : H unit :=
  hstore 4 (PLIC + UART0_IRQ * 4) 1 ;;
  hstore 4 (PLIC + VIRTIO0_IRQ * 4) 1.

Definition plicinithart : H unit :=
  hart <- cpuid ;;
  hstore 4 (PLIC_SENABLE hart) (Z.lor (Z.shiftl 1 UART0_IRQ) (Z.shiftl 1 VIRTIO0_IRQ)) ;;
  hstore 4 (PLIC_SPRIORITY hart) 0.

Definition plic_pending : H Z := hload 8 PLIC_PENDING.

Definition plic_claim : H Z :=
  hart <- cpuid ;;
  irq <- hload 4 (PLIC_SCLAIM hart) ;;
  ret (i32 irq).

Definition plic_complete (irq : Z) : H unit :=
  hart <- cpuid ;;
  hstore 4 (PLIC_SCLAIM hart) (u32 irq).

(** ** kernel/start.c and the other set-up of a hart

    The addresses of functions and arrays are those of the linked kernel. *)

Section Start.
Variable main_addr timervec_addr kernelvec_addr mscratch0 stack0 start_addr : Z.

Definition timerinit : H unit :=
  id <- (x <- r_mhartid ;; ret (i32 x)) ;;
  let interval := 1000000 in
  t <- hload 8 CLINT_MTIME ;;
  hstore 8 (CLINT_MTIMECMP id) (u64 (t + interval)) ;;
  let scratch := mscratch0 + 8 * (32 * id) in
  hstore 8 (scratch + 8 * 4) (CLINT_MTIMECMP id) ;;
  hstore 8 (scratch + 8 * 5) interval ;;
  w_mscratch scratch ;;
  w_mtvec timervec_addr ;;
  x <- r_mstatus ;;
  w_mstatus (Z.lor x MSTATUS_MIE) ;;
  y <- r_mie ;;
  w_mie (Z.lor y MIE_MTIE).

Definition start : H unit :=
  x <- r_mstatus ;;
  w_mstatus (Z.lor (Z.land x (Z.lnot MSTATUS_MPP_MASK)) MSTATUS_MPP_S) ;;
  w_mepc main_addr ;;
  w_satp 0 ;;
  w_medeleg 0xffff ;;
  w_mideleg 0xffff ;;
  timerinit ;;
  id <- (x <- r_mhartid ;; ret (i32 x)) ;;
  w_tp (u64 id) ;;
  modify mret.

Definition kvminithart (kernel_pagetable : Z) : H unit :=
  w_satp (MAKE_SATP kernel_pagetable) ;;
  sfence_vma.

Definition trapinithart : H unit := w_stvec kernelvec_addr.

(** What main does on a hart other than the first, once the first has booted, before
    it enters the scheduler, apart from the line it prints. *)

Definition main_other_hart (kernel_pagetable : Z) : H unit :=
  kvminithart kernel_pagetable ;;
  trapinithart ;;
  plicinithart.

End Start.

(** ** Instructions *)

Inductive instr :=
| SD (rs : reg) (off : Z) (base : reg)
| LD (rd : reg) (off : Z) (base : reg)
| CSRR (rd : reg) (c : csr)
| CSRW (c : csr) (rs : reg)
| CSRRW (rd : reg) (c : csr) (rs : reg)
| LI (rd : reg) (v : Z)
| ADD (rd rs1 rs2 : reg)
| ADDI (rd rs : reg) (v : Z)
| MUL (rd rs1 rs2 : reg)
| SFENCE_VMA
| JR (rs : reg)
| SRET
| MRET.

Section Exec.

(** The physical address of a virtual one, with the page table of satp. *)

Variable translate : Z -> Z -> Z.

Definition phys (h : hart) (va : Z) : Z :=
  match h_mode h with
  | Machine => va
  | _ => if Z.shiftr (h_csrs h Satp) 60 =? 0 then va else translate (h_csrs h Satp) va
  end.

Definition exec1 (h : hart) (i : instr) : hart :=
  match i with
  | SD rs off base => set_h_mem (store64 (h_mem h) (phys h (u64 (get_reg base h + off))) (get_reg rs h)) h
  | LD rd off base => set_reg rd (load64 (h_mem h) (phys h (u64 (get_reg base h + off)))) h
  | CSRR rd c => set_reg rd (read_csr c h) h
  | CSRW c rs => write_csr c (get_reg rs h) h
  | CSRRW rd c rs => set_reg rd (read_csr c h) (write_csr c (get_reg rs h) h)
  | LI rd v => set_reg rd (u64 v) h
  | ADD rd rs1 rs2 => set_reg rd (u64 (get_reg rs1 h + get_reg rs2 h)) h
  | ADDI rd rs v => set_reg rd (u64 (get_reg rs h + v)) h
  | MUL rd rs1 rs2 => set_reg rd (u64 (get_reg rs1 h * get_reg rs2 h)) h
  | SFENCE_VMA => h
  | JR rs => set_h_pc (get_reg rs h) h
  | SRET => sret h
  | MRET => mret h
  end.

Definition exec (code : list instr) (h : hart) : hart := foldl exec1 h code.

End Exec.

(** ** kernel/entry.S, up to the call of start *)

Definition entry (stack0 : Z) : list instr :=
  [LI Sp stack0; LI A0 (1024 * 4); CSRR A1 Mhartid; ADDI A1 A1 1; MUL A0 A0 A1; ADD Sp Sp A0].

(** ** kernel/swtch.S *)

Definition swtch : list instr :=
  [SD Ra 0 A0; SD Sp 8 A0; SD S0 16 A0; SD S1 24 A0; SD S2 32 A0; SD S3 40 A0; SD S4 48 A0; SD S5 56 A0;
   SD S6 64 A0; SD S7 72 A0; SD S8 80 A0; SD S9 88 A0; SD S10 96 A0; SD S11 104 A0;
   LD Ra 0 A1; LD Sp 8 A1; LD S0 16 A1; LD S1 24 A1; LD S2 32 A1; LD S3 40 A1; LD S4 48 A1; LD S5 56 A1;
   LD S6 64 A1; LD S7 72 A1; LD S8 80 A1; LD S9 88 A1; LD S10 96 A1; LD S11 104 A1;
   JR Ra].

(** ** kernel/kernelvec.S: before the call of kerneltrap and after it *)

Definition kernelvec_save : list instr :=
  [ADDI Sp Sp (-256);
   SD Ra 0 Sp; SD Sp 8 Sp; SD Gp 16 Sp; SD Tp 24 Sp; SD T0 32 Sp; SD T1 40 Sp; SD T2 48 Sp; SD S0 56 Sp;
   SD S1 64 Sp; SD A0 72 Sp; SD A1 80 Sp; SD A2 88 Sp; SD A3 96 Sp; SD A4 104 Sp; SD A5 112 Sp; SD A6 120 Sp;
   SD A7 128 Sp; SD S2 136 Sp; SD S3 144 Sp; SD S4 152 Sp; SD S5 160 Sp; SD S6 168 Sp; SD S7 176 Sp;
   SD S8 184 Sp; SD S9 192 Sp; SD S10 200 Sp; SD S11 208 Sp; SD T3 216 Sp; SD T4 224 Sp; SD T5 232 Sp; SD T6 240 Sp].

Definition kernelvec_restore : list instr :=
  [LD Ra 0 Sp; LD Sp 8 Sp; LD Gp 16 Sp; LD T0 32 Sp; LD T1 40 Sp; LD T2 48 Sp; LD S0 56 Sp;
   LD S1 64 Sp; LD A0 72 Sp; LD A1 80 Sp; LD A2 88 Sp; LD A3 96 Sp; LD A4 104 Sp; LD A5 112 Sp; LD A6 120 Sp;
   LD A7 128 Sp; LD S2 136 Sp; LD S3 144 Sp; LD S4 152 Sp; LD S5 160 Sp; LD S6 168 Sp; LD S7 176 Sp;
   LD S8 184 Sp; LD S9 192 Sp; LD S10 200 Sp; LD S11 208 Sp; LD T3 216 Sp; LD T4 224 Sp; LD T5 232 Sp; LD T6 240 Sp;
   ADDI Sp Sp 256; SRET].

(** The machine-mode timer interrupt. *)

Definition timervec : list instr :=
  [CSRRW A0 Mscratch A0; SD A1 0 A0; SD A2 8 A0; SD A3 16 A0;
   LD A1 32 A0; LD A2 40 A0; LD A3 0 A1; ADD A3 A3 A2; SD A3 0 A1;
   LI A1 2; CSRW Sip A1;
   LD A3 16 A0; LD A2 8 A0; LD A1 0 A0; CSRRW A0 Mscratch A0; MRET].

(** ** kernel/trampoline.S *)

Definition uservec : list instr :=
  [CSRRW A0 Sscratch A0;
   SD Ra 40 A0; SD Sp 48 A0; SD Gp 56 A0; SD Tp 64 A0; SD T0 72 A0; SD T1 80 A0; SD T2 88 A0; SD S0 96 A0;
   SD S1 104 A0; SD A1 120 A0; SD A2 128 A0; SD A3 136 A0; SD A4 144 A0; SD A5 152 A0; SD A6 160 A0; SD A7 168 A0;
   SD S2 176 A0; SD S3 184 A0; SD S4 192 A0; SD S5 200 A0; SD S6 208 A0; SD S7 216 A0; SD S8 224 A0; SD S9 232 A0;
   SD S10 240 A0; SD S11 248 A0; SD T3 256 A0; SD T4 264 A0; SD T5 272 A0; SD T6 280 A0;
   CSRR T0 Sscratch; SD T0 112 A0;
   LD Sp 8 A0; LD Tp 32 A0; LD T0 16 A0; LD T1 0 A0; CSRW Satp T1; SFENCE_VMA; JR T0].

Definition userret : list instr :=
  [CSRW Satp A1; SFENCE_VMA; LD T0 112 A0; CSRW Sscratch T0;
   LD Ra 40 A0; LD Sp 48 A0; LD Gp 56 A0; LD Tp 64 A0; LD T0 72 A0; LD T1 80 A0; LD T2 88 A0; LD S0 96 A0;
   LD S1 104 A0; LD A1 120 A0; LD A2 128 A0; LD A3 136 A0; LD A4 144 A0; LD A5 152 A0; LD A6 160 A0; LD A7 168 A0;
   LD S2 176 A0; LD S3 184 A0; LD S4 192 A0; LD S5 200 A0; LD S6 208 A0; LD S7 216 A0; LD S8 224 A0; LD S9 232 A0;
   LD S10 240 A0; LD S11 248 A0; LD T3 256 A0; LD T4 264 A0; LD T5 272 A0; LD T6 280 A0;
   CSRRW A0 Sscratch A0; SRET].
