(* ===== verification/Hartspec.v ===== *)
(** * What the assembly and the start-up code achieve

    A trap from user space and the return from it give the program its registers
    back; a context switch saves and loads a struct context; the handler of
    interrupts in the kernel restores every register but tp; the timer interrupt
    changes no register and arms the timer again; start enters main in supervisor
    mode with the timer armed. *)

From S2P Require Import Prelude Monad Riscv Kstring Kstate Hart.

(** ** Blocks of stores and loads *)

Definition slots : Type := list (reg * Z).

Definition saves (base : reg) (l : slots) : list instr := (fun x => SD x.1 x.2 base) <$> l.
Definition loads (base : reg) (l : slots) : list instr := (fun x => LD x.1 x.2 base) <$> l.

(** Memory with the registers stored from address [p] on. *)

Definition saved (m : mem) (p : Z) (f : reg -> Z) (l : slots) : mem :=
  foldl (fun m x => store64 m (p + x.2) (f x.1)) m l.

(** The words do not overlap, and each register is stored once. *)

Definition slots_ok (l : slots) : Prop :=
  NoDup l.*1 /\ NoDup l.*2 /\ Forall (fun o => o mod 8 = 0) l.*2.

Lemma load_saved_other m p f l a :
  (forall x, x ∈ l -> a + 8 <= p + x.2 \/ p + x.2 + 8 <= a) -> load64 (saved m p f l) a = load64 m a.
Proof.
  revert m; induction l as [|x l IH]; intros m H; [done|]. cbn. fold (saved (store64 m (p + x.2) (f x.1)) p f l).
  rewrite IH by (intros y Hy; apply H; by right). apply load_store_ne. specialize (H x (list_elem_of_here _ _)). lia.
Qed.

Lemma load_saved m p f l r o :
  slots_ok l -> (r, o) ∈ l -> load64 (saved m p f l) (p + o) = u64 (f r).
Proof.
  intros (_ & Hd & H8). revert m; induction l as [|x l IH]; intros m Hin; [by apply elem_of_nil in Hin|].
  cbn in Hd, H8 |- *. fold (saved (store64 m (p + x.2) (f x.1)) p f l).
  apply NoDup_cons in Hd as [Hx Hd]. apply Forall_cons in H8 as [Hx8 H8].
  apply elem_of_cons in Hin as [<-|Hin]; [|by apply IH].
  rewrite load_saved_other; [apply load64_store64|]. intros y Hy. cbn.
  assert (Hy2 : y.2 ∈ l.*2) by (apply list_elem_of_fmap; by exists y).
  rewrite Forall_forall in H8. specialize (H8 _ Hy2). assert (o <> y.2) by (intros ->; done). cbn in Hx8. dlia.
Qed.

Section Exec.
Variable translate : Z -> Z -> Z.
Abbreviation phys := (phys translate).
Abbreviation exec := (exec translate).

(** The virtual addresses [b + o] of a block are the physical ones [p + o]. *)

Definition window (h : hart) (b p : Z) (l : slots) : Prop :=
  forall x, x ∈ l -> phys h (u64 (b + x.2)) = p + x.2.

Lemma exec_app c1 c2 h : exec (c1 ++ c2) h = exec c2 (exec c1 h).
Proof. apply foldl_app. Qed.

Lemma exec_saves base l : forall h p,
  window h (get_reg base h) p l ->
  exec (saves base l) h = set_h_mem (saved (h_mem h) p (fun r => get_reg r h) l) h.
Proof.
  induction l as [|x l IH]; intros h p Hw; [by destruct h|].
  change (exec (saves base l) (exec1 translate h (SD x.1 x.2 base)) = set_h_mem (saved (h_mem h) p (fun r => get_reg r h) (x :: l)) h).
  cbn [exec1]. rewrite (Hw x) by (by left).
  rewrite (IH _ p); [done|]. intros y Hy. apply (Hw y). by right.
Qed.

(** A hart that differs in its general registers only. *)

Record same_but_regs (h h' : hart) : Prop := {
  sr_csrs : h_csrs h' = h_csrs h;
  sr_mem : h_mem h' = h_mem h;
  sr_mode : h_mode h' = h_mode h;
  sr_pc : h_pc h' = h_pc h;
}.

Lemma same_phys h h' va : h_csrs h' = h_csrs h -> h_mode h' = h_mode h -> phys h' va = phys h va.
Proof. intros E1 E2. unfold Hart.phys. by rewrite E1, E2. Qed.

Lemma get_set_reg r v h r' : r <> Zero -> get_reg r' (set_reg r v h) = if decide (r' = r) then v else get_reg r' h.
Proof.
  intros Hr. unfold get_reg, set_reg, put. cbn. destruct (decide (r' = Zero)) as [->|]; [by rewrite decide_False|done].
Qed.

Lemma exec_loads base l : forall h p,
  NoDup l.*1 -> Zero ∉ l.*1 -> window h (get_reg base h) p l ->
  (forall o, (base, o) ∈ l -> load64 (h_mem h) (p + o) = get_reg base h) ->
  let h' := exec (loads base l) h in
  same_but_regs h h' /\ (forall r o, (r, o) ∈ l -> get_reg r h' = load64 (h_mem h) (p + o)) /\
  (forall r, r ∉ l.*1 -> get_reg r h' = get_reg r h).
Proof.
  induction l as [|[r o] l IH]; intros h p Hd Hz Hw Hb h'; [split; [done|split; [by intros r o ?%elem_of_nil|done]]|].
  cbn in Hd, Hz. apply NoDup_cons in Hd as [Hr Hd]. assert (Hr0 : r <> Zero) by set_solver.
  set (h1 := set_reg r (load64 (h_mem h) (p + o)) h).
  assert (E1 : exec1 translate h (LD r o base) = h1).
  { cbn [exec1]. unfold h1. do 2 f_equal. apply (Hw (r, o)). by left. }
  assert (Eb : get_reg base h1 = get_reg base h).
  { unfold h1. rewrite get_set_reg by done. destruct (decide (base = r)) as [->|]; [apply Hb; by left|done]. }
  destruct (IH h1 p Hd) as ([S1 S2 S3 S4] & H1 & H2); [set_solver| | |].
  { intros x Hx. rewrite Eb. rewrite (same_phys h) by done. apply Hw. by right. }
  { intros o' Ho'. rewrite Eb. apply Hb. by right. }
  assert (Eh : h' = exec (loads base l) h1) by (unfold h'; change (exec (loads base l) (exec1 translate h (LD r o base)) = exec (loads base l) h1); by rewrite E1).
  rewrite Eh. split; [by split|]. split.
  - intros r' o' [[= -> ->]|Hin]%elem_of_cons; [|by apply H1].
    rewrite H2 by done. unfold h1. by rewrite get_set_reg, decide_True.
  - intros r' Hr'. cbn in Hr'. rewrite H2 by set_solver. unfold h1. rewrite get_set_reg by done.
    by rewrite decide_False by set_solver.
Qed.

(** ** The trampoline *)

Definition regs_ok (h : hart) : Prop := forall r, 0 <= h_regs h r < 2 ^ 64.

Lemma get_reg_range h r : regs_ok h -> 0 <= get_reg r h < 2 ^ 64.
Proof. intros H. unfold get_reg. destruct (decide _); [lia|apply H]. Qed.

(** Where the registers are in a trapframe. *)

Definition user_slots : slots :=
  [(Ra, 40); (Sp, 48); (Gp, 56); (Tp, 64); (T0, 72); (T1, 80); (T2, 88); (S0, 96); (S1, 104);
   (A1, 120); (A2, 128); (A3, 136); (A4, 144); (A5, 152); (A6, 160); (A7, 168);
   (S2, 176); (S3, 184); (S4, 192); (S5, 200); (S6, 208); (S7, 216); (S8, 224); (S9, 232);
   (S10, 240); (S11, 248); (T3, 256); (T4, 264); (T5, 272); (T6, 280)].

Lemma user_slots_ok : slots_ok user_slots.
Proof. unfold slots_ok. apply (bool_decide_unpack _). vm_compute. exact I. Qed.

Lemma user_slots_range r o : (r, o) ∈ user_slots -> 40 <= o < 288 /\ o <> 112 /\ o mod 8 = 0 /\ r <> A0 /\ r <> Zero.
Proof.
  intros H. assert (Hall : Forall (fun x : reg * Z => (40 <= x.2 < 288 /\ x.2 <> 112 /\ x.2 mod 8 = 0) /\ x.1 <> A0 /\ x.1 <> Zero) user_slots).
  { apply (bool_decide_unpack _). vm_compute. exact I. }
  rewrite Forall_forall in Hall. specialize (Hall _ H). cbn in Hall. tauto.
Qed.

Lemma user_slots_all r : r <> Zero -> r <> A0 -> exists o, (r, o) ∈ user_slots.
Proof.
  intros H1 H2. assert (Hin : r ∈ user_slots.*1).
  { destruct r; try done; apply (bool_decide_unpack _); vm_compute; exact I. }
  apply list_elem_of_fmap in Hin as ([r' o] & -> & Hin). by exists o.
Qed.

Lemma user_slots_not : Zero ∉ user_slots.*1 /\ A0 ∉ user_slots.*1.
Proof. split; apply (bool_decide_unpack _); vm_compute; exact I. Qed.

(** The page of the trapframe [tf] is mapped at TRAPFRAME. *)

Definition tf_mapped (satp tf : Z) : Prop :=
  Z.shiftr satp 60 <> 0 /\ forall o, 0 <= o < 288 -> translate satp (TRAPFRAME + o) = tf + o.

Lemma tf_phys h tf o :
  h_mode h = Supervisor -> tf_mapped (h_csrs h Satp) tf -> 0 <= o < 288 -> phys h (u64 (TRAPFRAME + o)) = tf + o.
Proof.
  intros Hm [Hs Ht] Ho. unfold Hart.phys. rewrite Hm. apply Z.eqb_neq in Hs. rewrite Hs.
  assert (u64 (TRAPFRAME + o) = TRAPFRAME + o) as ->; [|by apply Ht].
  apply Z.mod_small. assert (E : TRAPFRAME = 2 ^ 38 - 8192) by reflexivity. rewrite E. lia.
Qed.

Lemma tf_window h tf :
  h_mode h = Supervisor -> tf_mapped (h_csrs h Satp) tf -> window h TRAPFRAME tf user_slots.
Proof. intros Hm Ht [r o] Hin. apply user_slots_range in Hin. apply tf_phys; [done|done|]. cbn. lia. Qed.

(** A trap from user space: the hart is in supervisor mode, with the page table of
    the process and the address of the trapframe in sscratch. *)

Record user_trap (h : hart) (tf : Z) : Prop := {
  ut_mode : h_mode h = Supervisor;
  ut_scratch : h_csrs h Sscratch = TRAPFRAME;
  ut_mapped : tf_mapped (h_csrs h Satp) tf;
  ut_regs : regs_ok h;
}.

(** Memory after uservec. *)

Definition trapped (h : hart) (tf : Z) : mem :=
  store64 (saved (h_mem h) tf (fun r => get_reg r h) user_slots) (tf + 112) (get_reg A0 h).

Lemma trapped_reg h tf r o :
  regs_ok h -> (r, o) ∈ (A0, 112) :: user_slots -> load64 (trapped h tf) (tf + o) = get_reg r h.
Proof.
  intros Hr. assert (Hsm : forall r, u64 (get_reg r h) = get_reg r h) by (intros x; apply Z.mod_small, get_reg_range, Hr).
  intros [[= -> ->]|Hin]%elem_of_cons; unfold trapped; [by rewrite load64_store64|].
  pose proof (user_slots_range _ _ Hin) as (H1 & H2 & H3 & _).
  rewrite load_store_ne by dlia. rewrite (load_saved _ _ _ _ r o user_slots_ok Hin). apply Hsm.
Qed.

Lemma trapped_kernel h tf o : 0 <= o <= 32 -> load64 (trapped h tf) (tf + o) = load64 (h_mem h) (tf + o).
Proof.
  intros Ho. unfold trapped. rewrite load_store_ne by lia. apply load_saved_other.
  intros [r x] Hin. apply user_slots_range in Hin. cbn. lia.
Qed.

Lemma exec_cons i c h : exec (i :: c) h = exec c (exec1 translate h i).
Proof. done. Qed.

(** a0 points to the trapframe. *)

Record tf_ready (h : hart) (tf : Z) : Prop := {
  tr_mode : h_mode h = Supervisor;
  tr_a0 : get_reg A0 h = TRAPFRAME;
  tr_mapped : tf_mapped (h_csrs h Satp) tf;
}.

Lemma tf_ready_reg h tf r v : tf_ready h tf -> r <> A0 -> r <> Zero -> tf_ready (set_reg r v h) tf.
Proof. intros [H1 H2 H3] Hr Hz. split; [done| |done]. by rewrite get_set_reg, decide_False. Qed.

Lemma tf_ready_mem h tf m : tf_ready h tf -> tf_ready (set_h_mem m h) tf.
Proof. intros [H1 H2 H3]. by split. Qed.

Lemma exec_ld h tf r o :
  tf_ready h tf -> 0 <= o < 288 -> exec1 translate h (LD r o A0) = set_reg r (load64 (h_mem h) (tf + o)) h.
Proof. intros [H1 H2 H3] Ho. cbn [exec1]. by rewrite H2, (tf_phys h tf o). Qed.

Lemma exec_sd h tf r o :
  tf_ready h tf -> 0 <= o < 288 -> exec1 translate h (SD r o A0) = set_h_mem (store64 (h_mem h) (tf + o) (get_reg r h)) h.
Proof. intros [H1 H2 H3] Ho. cbn [exec1]. by rewrite H2, (tf_phys h tf o). Qed.

(** uservec: the registers are in the trapframe, and the hart is about to enter
    usertrap with the stack, the page table and the hart number of the kernel. *)

Lemma exec_uservec h tf :
  user_trap h tf ->
  let h' := exec uservec h in
  h_mem h' = trapped h tf /\ h_mode h' = Supervisor /\
  get_reg Sp h' = load64 (h_mem h) (tf + TF_kernel_sp) /\ get_reg Tp h' = load64 (h_mem h) (tf + TF_kernel_hartid) /\
  h_csrs h' Satp = load64 (h_mem h) (tf + TF_kernel_satp) /\ h_pc h' = load64 (h_mem h) (tf + TF_kernel_trap).
Proof.
  intros [Hm Hs Hmap Hok]. set (h0 := set_reg A0 TRAPFRAME (put_csr Sscratch (get_reg A0 h) h)).
  assert (H0 : tf_ready h0 tf) by (by split).
  assert (E0 : exec1 translate h (CSRRW A0 Sscratch A0) = h0) by (cbn [exec1 read_csr write_csr]; by rewrite Hs).
  set (m1 := saved (h_mem h) tf (fun r => get_reg r h) user_slots).
  assert (E1 : exec (saves A0 user_slots) h0 = set_h_mem m1 h0).
  { rewrite (exec_saves A0 user_slots h0 tf) by (rewrite (tr_a0 _ _ H0); apply tf_window; apply H0).
    reflexivity. }
  set (h1 := set_reg T0 (get_reg A0 h) (set_h_mem m1 h0)).
  assert (H1 : tf_ready h1 tf) by (apply tf_ready_reg; [by apply tf_ready_mem|done|done]).
  set (h2 := set_h_mem (trapped h tf) h1). assert (H2 : tf_ready h2 tf) by (by apply tf_ready_mem).
  change uservec with ([CSRRW A0 Sscratch A0] ++ saves A0 user_slots ++ [CSRR T0 Sscratch; SD T0 112 A0;
    LD Sp 8 A0; LD Tp 32 A0; LD T0 16 A0; LD T1 0 A0; CSRW Satp T1; SFENCE_VMA; JR T0]).
  rewrite exec_app. change (exec [CSRRW A0 Sscratch A0] h) with (exec1 translate h (CSRRW A0 Sscratch A0)).
  rewrite E0, exec_app, E1. rewrite exec_cons. change (exec1 _ _ (CSRR T0 Sscratch)) with h1.
  rewrite exec_cons, (exec_sd h1 tf) by (done || lia). change (set_h_mem _ h1) with h2.
  rewrite exec_cons, (exec_ld h2 tf) by (done || lia). set (h3 := set_reg Sp _ h2).
  assert (H3 : tf_ready h3 tf) by (by apply tf_ready_reg). rewrite exec_cons, (exec_ld h3 tf) by (done || lia).
  set (h4 := set_reg Tp _ h3). assert (H4 : tf_ready h4 tf) by (by apply tf_ready_reg).
  rewrite exec_cons, (exec_ld h4 tf) by (done || lia). set (h5 := set_reg T0 _ h4).
  assert (H5 : tf_ready h5 tf) by (by apply tf_ready_reg). rewrite exec_cons, (exec_ld h5 tf) by (done || lia).
  rewrite <- !(trapped_kernel h tf) by (unfold TF_kernel_sp, TF_kernel_hartid, TF_kernel_satp, TF_kernel_trap; lia).
  by split_and!.
Qed.

(** The end of userret. *)

Lemma exec_userret_end h :
  let h' := exec [CSRRW A0 Sscratch A0; SRET] h in
  get_reg A0 h' = h_csrs h Sscratch /\ (forall r, r <> A0 -> get_reg r h' = get_reg r h) /\
  h_csrs h' Sscratch = get_reg A0 h /\ h_csrs h' Satp = h_csrs h Satp /\ h_mem h' = h_mem h /\
  h_pc h' = h_csrs h Sepc /\ h_mode h' = if Z.testbit (h_csrs h Mstatus) 8 then Supervisor else User.
Proof.
  split_and!; [done| |done..]. intros r Hr. change (get_reg r (set_reg A0 (h_csrs h Sscratch) (put_csr Sscratch (get_reg A0 h) h)) = get_reg r h).
  by rewrite get_set_reg, decide_False.
Qed.

(** userret: the registers are those of the trapframe. *)

Lemma exec_userret h tf :
  h_mode h = Supervisor -> get_reg A0 h = TRAPFRAME -> tf_mapped (get_reg A1 h) tf ->
  let h' := exec userret h in
  (forall r o, (r, o) ∈ (A0, 112) :: user_slots -> get_reg r h' = load64 (h_mem h) (tf + o)) /\
  h_csrs h' Sscratch = TRAPFRAME /\ h_csrs h' Satp = get_reg A1 h /\ h_mem h' = h_mem h /\
  h_pc h' = h_csrs h Sepc /\ h_mode h' = if Z.testbit (h_csrs h Mstatus) 8 then Supervisor else User.
Proof.
  intros Hm Ha Hmap. set (h1 := put_csr Satp (get_reg A1 h) h).
  assert (H1 : tf_ready h1 tf) by (by split). set (h3 := put_csr Sscratch (load64 (h_mem h) (tf + 112)) (set_reg T0 (load64 (h_mem h) (tf + 112)) h1)).
  assert (H3 : tf_ready h3 tf) by (by split).
  destruct (exec_loads A0 user_slots h3 tf) as ([S1 S2 S3 S4] & Hin & Hout).
  { apply user_slots_ok. }
  { apply user_slots_not. }
  { rewrite (tr_a0 _ _ H3). apply tf_window; apply H3. }
  { intros o Ho. by destruct (user_slots_range _ _ Ho) as (_ & _ & _ & ? & _). }
  change userret with ([CSRW Satp A1; SFENCE_VMA; LD T0 112 A0; CSRW Sscratch T0] ++ loads A0 user_slots ++
    [CSRRW A0 Sscratch A0; SRET]).
  rewrite exec_app. assert (E3 : exec [CSRW Satp A1; SFENCE_VMA; LD T0 112 A0; CSRW Sscratch T0] h = h3).
  { rewrite exec_cons. change (exec1 _ _ (CSRW Satp A1)) with h1. rewrite exec_cons. change (exec1 _ _ SFENCE_VMA) with h1.
    rewrite exec_cons, (exec_ld h1 tf) by (done || lia). reflexivity. }
  rewrite E3, exec_app. set (h4 := exec (loads A0 user_slots) h3) in *.
  assert (Ea : get_reg A0 h4 = TRAPFRAME).
  { rewrite Hout; [apply H3|]. apply user_slots_not. }
  destruct (exec_userret_end h4) as (G1 & G2 & G3 & G4 & G5 & G6 & G7). rewrite S1 in G1, G4, G6, G7. rewrite Ea in G3.
  rewrite S2 in G5. clearbody h4. split_and!; [|exact G3|exact G4|exact G5|exact G6|exact G7].
  intros r o [[= -> ->]|Hr]%elem_of_cons; [exact G1|].
  rewrite G2 by (by destruct (user_slots_range _ _ Hr) as (_ & _ & _ & ? & _)). by apply Hin.
Qed.

(** C29: a trap into the kernel and the return from it are transparent to a user
    program.  uservec stores every register where the C code finds it in the trapframe
    and enters usertrap on the kernel's stack and page table; when the kernel then
    returns with userret, having changed at most the word of a0 among the saved
    registers, the program has every register it had, a0 being what the kernel left
    there, its page table, and sscratch is ready for the next trap. *)

Theorem trampoline_roundtrip h h2 tf :
  user_trap h tf ->
  let h1 := exec uservec h in
  h_mode h2 = Supervisor -> get_reg A0 h2 = TRAPFRAME -> get_reg A1 h2 = h_csrs h Satp ->
  Z.testbit (h_csrs h2 Mstatus) 8 = false ->
  (forall r o, (r, o) ∈ user_slots -> load64 (h_mem h2) (tf + o) = load64 (h_mem h1) (tf + o)) ->
  let h3 := exec userret h2 in
  (get_reg Sp h1 = load64 (h_mem h) (tf + TF_kernel_sp) /\ h_csrs h1 Satp = load64 (h_mem h) (tf + TF_kernel_satp) /\
   get_reg Tp h1 = load64 (h_mem h) (tf + TF_kernel_hartid) /\ h_pc h1 = load64 (h_mem h) (tf + TF_kernel_trap)) /\
  (forall k r, [A0; A1; A2; A3; A4; A5; A6; A7] !! k = Some r ->
    load64 (h_mem h1) (tf + TF_a (Z.of_nat k)) = get_reg r h) /\
  (forall r, r <> A0 -> get_reg r h3 = get_reg r h) /\ get_reg A0 h3 = load64 (h_mem h2) (tf + TF_a 0) /\
  h_mode h3 = User /\ h_pc h3 = h_csrs h2 Sepc /\ h_csrs h3 Satp = h_csrs h Satp /\ h_csrs h3 Sscratch = TRAPFRAME.
Proof.
  intros Hut h1 Hm2 Ha2 Hs2 Hspp Hmem h3. pose proof Hut as [Hm Hsc Hmap Hok].
  destruct (exec_uservec h tf Hut) as (E1 & _ & E2 & E3 & E4 & E5). fold h1 in E1, E2, E3, E4, E5.
  destruct (exec_userret h2 tf Hm2 Ha2) as (F1 & F2 & F3 & _ & F4 & F5); [by rewrite Hs2|]. fold h3 in F1, F2, F3, F4, F5.
  split; [done|]. split; [|split; [|split; [apply (F1 A0 112); by left|]]].
  - intros k r Hk. rewrite E1. apply trapped_reg; [done|].
    do 8 (destruct k as [|k]; [injection Hk as <-; apply (bool_decide_unpack _); vm_compute; exact I|]). done.
  - intros r Hr. destruct (decide (r = Zero)) as [->|Hz]; [done|]. destruct (user_slots_all r Hz Hr) as [o Ho].
    rewrite (F1 r o) by (by right). rewrite (Hmem r o Ho), E1. apply trapped_reg; [done|]. by right.
  - rewrite F5, Hspp. by rewrite Hs2 in F3.
Qed.

(** ** swtch *)

Definition context_slots : slots :=
  [(Ra, 0); (Sp, 8); (S0, 16); (S1, 24); (S2, 32); (S3, 40); (S4, 48); (S5, 56);
   (S6, 64); (S7, 72); (S8, 80); (S9, 88); (S10, 96); (S11, 104)].

Lemma context_slots_ok : slots_ok context_slots.
Proof. unfold slots_ok. apply (bool_decide_unpack _). vm_compute. exact I. Qed.

Lemma context_slots_not : Zero ∉ context_slots.*1 /\ A0 ∉ context_slots.*1 /\ A1 ∉ context_slots.*1.
Proof. split_and!; apply (bool_decide_unpack _); vm_compute; exact I. Qed.

Lemma context_slots_range r o : (r, o) ∈ context_slots -> 0 <= o /\ o + 8 <= 112.
Proof.
  intros H. assert (Hall : Forall (fun x : reg * Z => 0 <= x.2 /\ x.2 + 8 <= 112) context_slots).
  { apply (bool_decide_unpack _). vm_compute. exact I. }
  rewrite Forall_forall in Hall. by specialize (Hall _ H).
Qed.

(** The struct context at an address, and the one that a hart would save. *)

Definition context_at (m : mem) (a : Z) : context :=
  mk_context (load64 m (a + 0)) (load64 m (a + 8)) (load64 m (a + 16)) (load64 m (a + 24)) (load64 m (a + 32))
    (load64 m (a + 40)) (load64 m (a + 48)) (load64 m (a + 56)) (load64 m (a + 64)) (load64 m (a + 72))
    (load64 m (a + 80)) (load64 m (a + 88)) (load64 m (a + 96)) (load64 m (a + 104)).

Definition context_of (h : hart) : context :=
  mk_context (get_reg Ra h) (get_reg Sp h) (get_reg S0 h) (get_reg S1 h) (get_reg S2 h) (get_reg S3 h) (get_reg S4 h)
    (get_reg S5 h) (get_reg S6 h) (get_reg S7 h) (get_reg S8 h) (get_reg S9 h) (get_reg S10 h) (get_reg S11 h).

Lemma context_eq m a h :
  (forall r o, (r, o) ∈ context_slots -> load64 m (a + o) = get_reg r h) -> context_at m a = context_of h.
Proof.
  intros H. unfold context_at, context_of. f_equal; apply H; apply (bool_decide_unpack _); vm_compute; exact I.
Qed.

(** swtch(old, new), of two contexts in memory that the kernel maps at its own
    addresses. *)

Record switching (h : hart) (old new : Z) : Prop := {
  sw_old : get_reg A0 h = old;
  sw_new : get_reg A1 h = new;
  sw_old_mapped : window h old old context_slots;
  sw_new_mapped : window h new new context_slots;
  sw_apart : old + 112 <= new \/ new + 112 <= old;
  sw_regs : regs_ok h;
}.

Lemma swtch_code : swtch = saves A0 context_slots ++ loads A1 context_slots ++ [JR Ra].
Proof. reflexivity. Qed.

Lemma swtch_saved h old a :
  a + 8 <= old \/ old + 112 <= a ->
  load64 (saved (h_mem h) old (fun r => get_reg r h) context_slots) a = load64 (h_mem h) a.
Proof.
  intros Ha. apply load_saved_other. intros [r o] Hin. apply context_slots_range in Hin. cbn [snd]. lia.
Qed.

Lemma exec_jr r h : exec [JR r] h = set_h_pc (get_reg r h) h.
Proof. reflexivity. Qed.

Lemma context_of_pc v h : context_of (set_h_pc v h) = context_of h.
Proof. reflexivity. Qed.

Lemma swtch_loads h old new :
  switching h old new ->
  let h1 := set_h_mem (saved (h_mem h) old (fun r => get_reg r h) context_slots) h in
  let h2 := exec (loads A1 context_slots) h1 in
  same_but_regs h1 h2 /\
  (forall r o, (r, o) ∈ context_slots -> load64 (h_mem h) (new + o) = get_reg r h2) /\
  (forall r, r ∉ context_slots.*1 -> get_reg r h2 = get_reg r h).
Proof.
  intros [Ho Hn Hwo Hwn Hap Hok] h1. assert (Ea1 : get_reg A1 h1 = new) by exact Hn.
  destruct (exec_loads A1 context_slots h1 new) as (HL & Hin & Hout);
    [apply context_slots_ok|apply context_slots_not|rewrite Ea1; exact Hwn| |].
  { intros o Hb. exfalso. apply context_slots_not. apply list_elem_of_fmap. by exists (A1, o). }
  split; [exact HL|]. split; [|exact Hout]. intros r o Hr. rewrite (Hin r o Hr). symmetry.
  apply swtch_saved. apply context_slots_range in Hr. lia.
Qed.

Lemma exec_swtch h old new :
  switching h old new ->
  let h' := exec swtch h in
  context_at (h_mem h') old = context_of h /\ context_of h' = context_at (h_mem h) new /\
  h_pc h' = ctx_ra (context_at (h_mem h) new) /\ h_csrs h' = h_csrs h /\ h_mode h' = h_mode h /\
  (forall r, r ∉ context_slots.*1 -> get_reg r h' = get_reg r h) /\
  (forall a, a + 8 <= old \/ old + 112 <= a -> load64 (h_mem h') a = load64 (h_mem h) a).
Proof.
  intros Hsw h'. destruct (swtch_loads h old new Hsw) as ([L1 L2 L3 L4] & Hload & Hout).
  destruct Hsw as [Ho Hn Hwo Hwn Hap Hok].
  assert (Eh : h' = set_h_pc (get_reg Ra (exec (loads A1 context_slots) (set_h_mem (saved (h_mem h) old (fun r => get_reg r h) context_slots) h)))
     (exec (loads A1 context_slots) (set_h_mem (saved (h_mem h) old (fun r => get_reg r h) context_slots) h))).
  { unfold h'. rewrite swtch_code, !exec_app, exec_jr. rewrite (exec_saves A0 context_slots h old) by (by rewrite Ho). done. }
  clearbody h'. revert L1 L2 L3 L4 Hload Hout Eh.
  generalize (exec (loads A1 context_slots) (set_h_mem (saved (h_mem h) old (fun r => get_reg r h) context_slots) h)).
  intros h2 L1 L2 L3 L4 Hload Hout ->. split_and!.
  - change (h_mem (set_h_pc _ h2)) with (h_mem h2). rewrite L2. apply context_eq. intros r o Hr.
    rewrite <- (Z.mod_small (get_reg r h) (2 ^ 64)) by (by apply get_reg_range).
    exact (load_saved (h_mem h) old (fun r => get_reg r h) context_slots r o context_slots_ok Hr).
  - rewrite context_of_pc. symmetry. exact (context_eq _ _ h2 Hload).
  - symmetry. apply (Hload Ra 0). by left.
  - exact L1.
  - exact L3.
  - exact Hout.
  - intros a Ha. change (h_mem (set_h_pc _ h2)) with (h_mem h2). rewrite L2. by apply swtch_saved.
Qed.

(** C30: swtch(old, new) stores the registers that a C function must keep as the struct
    context of the old thread, at the offsets of the struct, and continues where the
    struct context of the new one says; when a hart later switches to the old thread,
    its context in memory being as it was left, the call of swtch returns there with
    each of those registers and the stack as at the call. *)

Theorem swtch_roundtrip h g old new old' :
  switching h old new -> switching g old' old ->
  context_at (h_mem g) old = context_at (h_mem (exec swtch h)) old ->
  context_at (h_mem (exec swtch h)) old = context_of h /\
  context_of (exec swtch h) = context_at (h_mem h) new /\ h_pc (exec swtch h) = ctx_ra (context_at (h_mem h) new) /\
  context_of (exec swtch g) = context_of h /\ h_pc (exec swtch g) = get_reg Ra h /\
  h_csrs (exec swtch g) = h_csrs g /\ h_mode (exec swtch g) = h_mode g /\ get_reg Tp (exec swtch g) = get_reg Tp g.
Proof.
  intros Hh Hg Hm. destruct (exec_swtch h old new Hh) as (E1 & E2 & E3 & _).
  destruct (exec_swtch g old' old Hg) as (F1 & F2 & F3 & F4 & F5 & F6 & _).
  rewrite E1 in Hm. rewrite Hm in F2, F3. split_and!; [exact E1|exact E2|exact E3|exact F2|exact F3|exact F4|exact F5|].
  apply F6. apply (bool_decide_unpack _). vm_compute. exact I.
Qed.

(** ** kernelvec *)

Definition kv_slots : slots :=
  [(Ra, 0); (Sp, 8); (Gp, 16); (T0, 32); (T1, 40); (T2, 48); (S0, 56); (S1, 64);
   (A0, 72); (A1, 80); (A2, 88); (A3, 96); (A4, 104); (A5, 112); (A6, 120); (A7, 128);
   (S2, 136); (S3, 144); (S4, 152); (S5, 160); (S6, 168); (S7, 176); (S8, 184); (S9, 192);
   (S10, 200); (S11, 208); (T3, 216); (T4, 224); (T5, 232); (T6, 240)].

Definition kv_all : slots := take 3 kv_slots ++ [(Tp, 24)] ++ drop 3 kv_slots.

Lemma kv_slots_ok : slots_ok kv_all /\ slots_ok kv_slots.
Proof. unfold slots_ok. apply (bool_decide_unpack _). vm_compute. exact I. Qed.

Lemma kv_slots_not : Zero ∉ kv_slots.*1 /\ Tp ∉ kv_slots.*1.
Proof. split; apply (bool_decide_unpack _); vm_compute; exact I. Qed.

Lemma kv_all_in x : x ∈ kv_slots -> x ∈ kv_all.
Proof.
  intros Hx. rewrite <- (take_drop 3 kv_slots) in Hx. unfold kv_all. rewrite !elem_of_app in *. tauto.
Qed.

Lemma kv_slots_all r : r <> Zero -> r <> Tp -> exists o, (r, o) ∈ kv_slots.
Proof.
  intros H1 H2. assert (Hin : r ∈ kv_slots.*1).
  { destruct r; try done; apply (bool_decide_unpack _); vm_compute; exact I. }
  apply list_elem_of_fmap in Hin as ([r' o] & -> & Hin). by exists o.
Qed.

Lemma kernelvec_code :
  kernelvec_save = [ADDI Sp Sp (-256)] ++ saves Sp kv_all /\
  kernelvec_restore = loads Sp kv_slots ++ [ADDI Sp Sp 256; SRET].
Proof. split; reflexivity. Qed.

(** The stack of the kernel below sp, 256 bytes of it at physical address [p]. *)

Definition kv_frame (h : hart) (p : Z) : Prop := window h (u64 (get_reg Sp h - 256)) p kv_all.

Lemma exec_kernelvec_save h p :
  regs_ok h -> kv_frame h p ->
  let h' := exec kernelvec_save h in
  get_reg Sp h' = u64 (get_reg Sp h - 256) /\ load64 (h_mem h') (p + 8) = u64 (get_reg Sp h - 256) /\
  (forall r o, r <> Sp -> (r, o) ∈ kv_slots -> load64 (h_mem h') (p + o) = get_reg r h) /\
  h_csrs h' = h_csrs h /\ h_mode h' = h_mode h.
Proof.
  intros Hok Hw h'. set (h1 := set_reg Sp (u64 (get_reg Sp h - 256)) h).
  assert (Eh : h' = set_h_mem (saved (h_mem h) p (fun r => get_reg r h1) kv_all) h1).
  { unfold h'. rewrite (proj1 kernelvec_code), exec_app. change (exec [ADDI Sp Sp (-256)] h) with h1.
    apply (exec_saves Sp kv_all h1 p). exact Hw. }
  clearbody h'. subst h'. cbn [h_mem set_h_mem]. split; [reflexivity|]. split.
  - rewrite (load_saved _ _ _ _ Sp 8 (proj1 kv_slots_ok)) by (apply (bool_decide_unpack _); vm_compute; exact I).
    change (get_reg Sp h1) with (u64 (get_reg Sp h - 256)). apply Z.mod_mod. lia.
  - split; [|by split]. intros r o Hr Hin. rewrite (load_saved _ _ _ _ r o (proj1 kv_slots_ok)) by (by apply kv_all_in).
    unfold h1. rewrite get_set_reg, decide_False by done. apply Z.mod_small. by apply get_reg_range.
Qed.

Lemma exec_kernelvec_end h :
  let h' := exec [ADDI Sp Sp 256; SRET] h in
  get_reg Sp h' = u64 (get_reg Sp h + 256) /\ (forall r, r <> Sp -> get_reg r h' = get_reg r h) /\
  h_mem h' = h_mem h /\ h_csrs h' Satp = h_csrs h Satp /\ h_pc h' = h_csrs h Sepc /\
  h_mode h' = (if Z.testbit (h_csrs h Mstatus) 8 then Supervisor else User) /\
  Z.testbit (h_csrs h' Mstatus) 1 = Z.testbit (h_csrs h Mstatus) 5.
Proof.
  split_and!; [done| |done..|].
  - intros r Hr. change (get_reg r (set_reg Sp (u64 (get_reg Sp h + 256)) h) = get_reg r h). by rewrite get_set_reg, decide_False.
  - change (Z.testbit (put_bit 8 false (put_bit 5 true (put_bit 1 (Z.testbit (h_csrs h Mstatus) 5) (h_csrs h Mstatus)))) 1 = Z.testbit (h_csrs h Mstatus) 5).
    unfold put_bit. rewrite Z.clearbit_neq, Z.setbit_neq by lia.
    destruct (Z.testbit (h_csrs h Mstatus) 5); [apply Z.setbit_eq; lia|apply Z.clearbit_eq].
Qed.

Lemma phys_satp h h' va : h_csrs h' Satp = h_csrs h Satp -> h_mode h' = h_mode h -> phys h' va = phys h va.
Proof. intros E1 E2. unfold Hart.phys. by rewrite E1, E2. Qed.

Lemma exec_kernelvec_restore h p b :
  get_reg Sp h = b -> window h b p kv_slots -> load64 (h_mem h) (p + 8) = b ->
  let h' := exec kernelvec_restore h in
  get_reg Sp h' = u64 (b + 256) /\ get_reg Tp h' = get_reg Tp h /\
  (forall r o, r <> Sp -> (r, o) ∈ kv_slots -> get_reg r h' = load64 (h_mem h) (p + o)) /\
  h_mem h' = h_mem h /\ h_csrs h' Satp = h_csrs h Satp /\ h_pc h' = h_csrs h Sepc /\
  h_mode h' = (if Z.testbit (h_csrs h Mstatus) 8 then Supervisor else User) /\
  Z.testbit (h_csrs h' Mstatus) 1 = Z.testbit (h_csrs h Mstatus) 5.
Proof.
  intros Hb Hw Hsp h'.
  destruct (exec_loads Sp kv_slots h p) as ([L1 L2 L3 L4] & Hin & Hout);
    [apply kv_slots_ok|apply kv_slots_not|by rewrite Hb| |].
  { intros o Ho. assert (o = 8) as ->; [|by rewrite Hb].
    assert (Hall : Forall (fun x : reg * Z => x.1 = Sp -> x.2 = 8) kv_slots).
    { repeat constructor; done. }
    rewrite Forall_forall in Hall. by apply (Hall _ Ho). }
  assert (Eh : h' = exec [ADDI Sp Sp 256; SRET] (exec (loads Sp kv_slots) h)).
  { unfold h'. by rewrite (proj2 kernelvec_code), exec_app. }
  clearbody h'. revert L1 L2 L3 L4 Hin Hout Eh. generalize (exec (loads Sp kv_slots) h).
  intros h2 L1 L2 L3 L4 Hin Hout ->. destruct (exec_kernelvec_end h2) as (G1 & G2 & G3 & G4 & G5 & G6 & G7).
  rewrite L1 in G4, G5, G6, G7. split_and!; [|rewrite G2 by done; apply Hout, kv_slots_not| |by rewrite G3|done..].
  - rewrite G1, (Hin Sp 8), Hsp by (apply (bool_decide_unpack _); vm_compute; exact I). done.
  - intros r o Hr Ho. rewrite G2 by done. by apply Hin.
Qed.

(** C31: an interrupt or exception while in the kernel is transparent to the code it
    interrupts.  kernelvec stores the registers below sp; when kerneltrap returns, the
    stack pointer and those 248 bytes as they were (it is C code, which keeps both),
    every register but tp is what it was at the trap, tp is that of the hart that
    resumes, and control is back at sepc with interrupts enabled as before. *)

Theorem kernelvec_transparent h h2 p :
  regs_ok h -> kv_frame h p ->
  let h1 := exec kernelvec_save h in
  get_reg Sp h2 = get_reg Sp h1 -> h_mode h2 = h_mode h1 -> h_csrs h2 Satp = h_csrs h1 Satp ->
  (forall r o, (r, o) ∈ kv_slots -> load64 (h_mem h2) (p + o) = load64 (h_mem h1) (p + o)) ->
  Z.testbit (h_csrs h2 Mstatus) 8 = true ->
  let h3 := exec kernelvec_restore h2 in
  (forall r, r <> Tp -> get_reg r h3 = get_reg r h) /\ get_reg Tp h3 = get_reg Tp h2 /\
  h_mem h3 = h_mem h2 /\ h_csrs h3 Satp = h_csrs h Satp /\ h_mode h3 = Supervisor /\ h_pc h3 = h_csrs h2 Sepc /\
  Z.testbit (h_csrs h3 Mstatus) 1 = Z.testbit (h_csrs h2 Mstatus) 5.
Proof.
  intros Hok Hf h1 Hsp Hm Hsatp Hmem Hspp h3. destruct (exec_kernelvec_save h p Hok Hf) as (E1 & E2 & E3 & E4 & E5).
  fold h1 in E1, E2, E3, E4, E5. clearbody h1. rewrite E1 in Hsp. rewrite E4 in Hsatp. rewrite E5 in Hm.
  destruct (exec_kernelvec_restore h2 p _ Hsp) as (F1 & F2 & F3 & F4 & F5 & F6 & F7 & F8).
  { intros x Hx. rewrite (phys_satp h) by done. by apply Hf, kv_all_in. }
  { rewrite (Hmem Sp 8), E2 by (apply (bool_decide_unpack _); vm_compute; exact I). done. }
  fold h3 in F1, F2, F3, F4, F5, F6, F7, F8. clearbody h3. rewrite Hspp in F7.
  split_and!; [|exact F2|exact F4|by rewrite F5|exact F7|exact F6|exact F8].
  intros r Hr. destruct (decide (r = Zero)) as [->|Hz]; [done|]. destruct (decide (r = Sp)) as [->|Hs].
  - rewrite F1. pose proof (get_reg_range h Sp Hok). unfold u64. rewrite Zplus_mod_idemp_l.
    replace (get_reg Sp h - 256 + 256) with (get_reg Sp h) by lia. by apply Z.mod_small.
  - destruct (kv_slots_all r Hz Hr) as [o Ho]. rewrite (F3 r o Hs Ho), (Hmem r o Ho). by apply E3.
Qed.

(** ** timervec

    In machine mode addresses are physical. *)

Lemma exec_ld_m h r o base b :
  h_mode h = Machine -> get_reg base h = b -> 0 <= b + o < 2 ^ 64 ->
  exec1 translate h (LD r o base) = set_reg r (load64 (h_mem h) (b + o)) h.
Proof. intros Hm Hb Hr. cbn [exec1]. unfold Hart.phys. rewrite Hm, Hb. unfold u64. by rewrite Z.mod_small. Qed.

Lemma exec_sd_m h r o base b :
  h_mode h = Machine -> get_reg base h = b -> 0 <= b + o < 2 ^ 64 ->
  exec1 translate h (SD r o base) = set_h_mem (store64 (h_mem h) (b + o) (get_reg r h)) h.
Proof. intros Hm Hb Hr. cbn [exec1]. unfold Hart.phys. rewrite Hm, Hb. unfold u64. by rewrite Z.mod_small. Qed.

(** The scratch area of a hart, as timerinit leaves it: the address of the hart's
    MTIMECMP register and the interval in its fifth and sixth word. *)

Record timer_armed (h : hart) (sc cmp iv : Z) : Prop := {
  ta_scratch : h_csrs h Mscratch = sc;
  ta_cmp : load64 (h_mem h) (sc + 32) = cmp;
  ta_interval : load64 (h_mem h) (sc + 40) = iv;
  ta_range : 0 <= sc /\ sc + 48 < 2 ^ 64 /\ 0 <= cmp < 2 ^ 64;
  ta_apart : cmp + 8 <= sc \/ sc + 48 <= cmp;
}.

Definition timer_saved (h : hart) (sc : Z) : mem :=
  store64 (store64 (store64 (h_mem h) (sc + 0) (get_reg A1 h)) (sc + 8) (get_reg A2 h)) (sc + 16) (get_reg A3 h).

Lemma exec_timervec_save h sc :
  h_mode h = Machine -> h_csrs h Mscratch = sc -> 0 <= sc -> sc + 48 < 2 ^ 64 ->
  exec [CSRRW A0 Mscratch A0; SD A1 0 A0; SD A2 8 A0; SD A3 16 A0] h =
  set_h_mem (timer_saved h sc) (set_reg A0 sc (put_csr Mscratch (get_reg A0 h) h)).
Proof.
  intros Hm Hsc H1 H2. rewrite exec_cons. cbn [exec1 read_csr write_csr]. rewrite Hsc.
  set (h1 := set_reg A0 sc (put_csr Mscratch (get_reg A0 h) h)).
  rewrite exec_cons, (exec_sd_m h1 A1 0 A0 sc) by (done || lia).
  set (h2 := set_h_mem _ h1). rewrite exec_cons, (exec_sd_m h2 A2 8 A0 sc) by (done || lia).
  set (h3 := set_h_mem _ h2). rewrite exec_cons, (exec_sd_m h3 A3 16 A0 sc) by (done || lia). reflexivity.
Qed.

Lemma exec_timervec_rearm h sc cmp iv :
  h_mode h = Machine -> get_reg A0 h = sc -> load64 (h_mem h) (sc + 32) = cmp -> load64 (h_mem h) (sc + 40) = iv ->
  0 <= sc -> sc + 48 < 2 ^ 64 -> 0 <= cmp < 2 ^ 64 ->
  exists f, exec [LD A1 32 A0; LD A2 40 A0; LD A3 0 A1; ADD A3 A3 A2; SD A3 0 A1; LI A1 2; CSRW Sip A1] h =
    mk_hart f (put (h_csrs h) Mip (blend (Z.land (h_csrs h Mideleg) 2) (h_csrs h Mip) 2))
      (store64 (h_mem h) cmp (u64 (load64 (h_mem h) cmp + iv))) (h_mode h) (h_pc h) /\
    (forall r, r <> A1 -> r <> A2 -> r <> A3 -> f r = h_regs h r).
Proof.
  intros Hm Ha Hc Hi H1 H2 H3.
  rewrite exec_cons, (exec_ld_m h A1 32 A0 sc), Hc by (done || lia). set (h1 := set_reg A1 cmp h).
  rewrite exec_cons, (exec_ld_m h1 A2 40 A0 sc) by (done || lia). change (h_mem h1) with (h_mem h). rewrite Hi.
  set (h2 := set_reg A2 iv h1). rewrite exec_cons, (exec_ld_m h2 A3 0 A1 cmp) by (done || lia).
  change (h_mem h2) with (h_mem h). rewrite Z.add_0_r. set (h3 := set_reg A3 (load64 (h_mem h) cmp) h2).
  rewrite exec_cons. change (exec1 translate h3 (ADD A3 A3 A2)) with (set_reg A3 (u64 (load64 (h_mem h) cmp + iv)) h3).
  set (h4 := set_reg A3 _ h3). rewrite exec_cons, (exec_sd_m h4 A3 0 A1 cmp), Z.add_0_r by (done || lia).
  eexists. split; [reflexivity|]. intros r Hr1 Hr2 Hr3. cbn. unfold put. by rewrite !decide_False.
Qed.

Lemma exec_timervec_restore h sc :
  h_mode h = Machine -> get_reg A0 h = sc -> 0 <= sc -> sc + 48 < 2 ^ 64 ->
  let h' := exec [LD A3 16 A0; LD A2 8 A0; LD A1 0 A0; CSRRW A0 Mscratch A0; MRET] h in
  get_reg A0 h' = h_csrs h Mscratch /\ get_reg A1 h' = load64 (h_mem h) (sc + 0) /\
  get_reg A2 h' = load64 (h_mem h) (sc + 8) /\ get_reg A3 h' = load64 (h_mem h) (sc + 16) /\
  (forall r, r ∉ [A0; A1; A2; A3] -> get_reg r h' = get_reg r h) /\
  h_mem h' = h_mem h /\ h_csrs h' Mscratch = sc /\ h_csrs h' Mip = h_csrs h Mip /\ h_pc h' = h_csrs h Mepc.
Proof.
  intros Hm Ha H1 H2 h'.
  assert (Eh : h' = exec [CSRRW A0 Mscratch A0; MRET] (set_reg A1 (load64 (h_mem h) (sc + 0))
    (set_reg A2 (load64 (h_mem h) (sc + 8)) (set_reg A3 (load64 (h_mem h) (sc + 16)) h)))).
  { unfold h'. rewrite exec_cons, (exec_ld_m h A3 16 A0 sc) by (done || lia). set (h1 := set_reg A3 _ h).
    rewrite exec_cons, (exec_ld_m h1 A2 8 A0 sc) by (done || lia). set (h2 := set_reg A2 _ h1).
    by rewrite exec_cons, (exec_ld_m h2 A1 0 A0 sc) by (done || lia). }
  rewrite Eh. clear Eh h'. split_and!; [reflexivity..| |reflexivity|exact Ha|reflexivity|reflexivity].
  intros r Hr. rewrite !not_elem_of_cons in Hr. cbn. unfold get_reg. cbn. unfold put.
  destruct (decide (r = Zero)); [done|]. by rewrite !decide_False by tauto.
Qed.

Lemma timervec_code :
  timervec = [CSRRW A0 Mscratch A0; SD A1 0 A0; SD A2 8 A0; SD A3 16 A0] ++
    [LD A1 32 A0; LD A2 40 A0; LD A3 0 A1; ADD A3 A3 A2; SD A3 0 A1; LI A1 2; CSRW Sip A1] ++
    [LD A3 16 A0; LD A2 8 A0; LD A1 0 A0; CSRRW A0 Mscratch A0; MRET].
Proof. reflexivity. Qed.

Lemma timer_saved_other h sc a :
  a + 8 <= sc \/ sc + 24 <= a -> load64 (timer_saved h sc) a = load64 (h_mem h) a.
Proof. intros Ha. unfold timer_saved. by rewrite !load_store_ne by lia. Qed.

Lemma blend_bit mask old new k :
  Z.testbit (blend mask old new) k = if Z.testbit mask k then Z.testbit new k else Z.testbit old k.
Proof.
  unfold blend. rewrite Z.lor_spec, Z.ldiff_spec, Z.land_spec.
  destruct (Z.testbit mask k), (Z.testbit old k), (Z.testbit new k); reflexivity.
Qed.

Lemma exec_timervec h sc cmp iv :
  h_mode h = Machine -> timer_armed h sc cmp iv ->
  let h' := exec timervec h in
  h_mem h' = store64 (timer_saved h sc) cmp (u64 (load64 (h_mem h) cmp + iv)) /\
  get_reg A0 h' = get_reg A0 h /\ get_reg A1 h' = load64 (h_mem h') (sc + 0) /\
  get_reg A2 h' = load64 (h_mem h') (sc + 8) /\ get_reg A3 h' = load64 (h_mem h') (sc + 16) /\
  (forall r, r ∉ [A0; A1; A2; A3] -> get_reg r h' = get_reg r h) /\ h_csrs h' Mscratch = sc /\
  h_csrs h' Mip = blend (Z.land (h_csrs h Mideleg) 2) (h_csrs h Mip) 2 /\ h_pc h' = h_csrs h Mepc.
Proof.
  intros Hm [Hsc Hc Hi (H1 & H2 & H3) Hap] h'.
  set (h1 := set_h_mem (timer_saved h sc) (set_reg A0 sc (put_csr Mscratch (get_reg A0 h) h))).
  assert (E1 : h' = exec [LD A3 16 A0; LD A2 8 A0; LD A1 0 A0; CSRRW A0 Mscratch A0; MRET]
    (exec [LD A1 32 A0; LD A2 40 A0; LD A3 0 A1; ADD A3 A3 A2; SD A3 0 A1; LI A1 2; CSRW Sip A1] h1)).
  { unfold h'. by rewrite timervec_code, !exec_app, (exec_timervec_save h sc). }
  destruct (exec_timervec_rearm h1 sc cmp iv) as (f & E2 & Hf); [done|done|..];
    [cbn [h1 h_mem set_h_mem]; by rewrite timer_saved_other by lia..|done|done|done|].
  rewrite E2 in E1. set (h2 := mk_hart f _ _ _ _) in E1.
  destruct (exec_timervec_restore h2 sc) as (G0 & G1 & G2 & G3 & G4 & G5 & G6 & G7 & G8); [done| |done|done|].
  { change (get_reg A0 h2) with (f A0). by rewrite Hf. }
  rewrite <- E1 in G0, G1, G2, G3, G4, G5, G6, G7, G8. clear E1 E2. clearbody h'.
  assert (Hm2 : h_mem h2 = store64 (timer_saved h sc) cmp (u64 (load64 (h_mem h) cmp + iv))).
  { cbn [h2 h_mem h1 set_h_mem]. by rewrite timer_saved_other by lia. }
  assert (Hip : h_csrs h2 Mip = blend (Z.land (h_csrs h Mideleg) 2) (h_csrs h Mip) 2) by reflexivity.
  assert (Hsp : h_csrs h2 Mscratch = get_reg A0 h) by reflexivity.
  assert (Hep : h_csrs h2 Mepc = h_csrs h Mepc) by reflexivity.
  assert (Hregs : forall r, r ∉ [A0; A1; A2; A3] -> get_reg r h2 = get_reg r h).
  { intros r Hr. rewrite !not_elem_of_cons in Hr. unfold get_reg. destruct (decide (r = Zero)); [done|].
    change (h_regs h2 r) with (f r). rewrite Hf by tauto. cbn. unfold put. by rewrite decide_False by tauto. }
  rewrite Hsp in G0. rewrite Hip in G7. rewrite Hep in G8. rewrite <- G5 in G1, G2, G3. rewrite Hm2 in G5.
  split_and!; [done..| |done|done|done]. intros r Hr. by rewrite G4, Hregs.
Qed.

(** The timer interrupt, which machine mode takes at any instruction of the kernel
    or of a program, changes no general register and returns to the instruction it
    interrupted; it adds the interval to the hart's MTIMECMP, raises a supervisor
    software interrupt, for which devintr yields, changes memory only in the scratch
    area and leaves that ready for the next interrupt. *)

Theorem timervec_ticks h sc cmp iv :
  h_mode h = Machine -> regs_ok h -> timer_armed h sc cmp iv -> Z.testbit (h_csrs h Mideleg) 1 = true ->
  let h' := exec timervec h in
  (forall r, get_reg r h' = get_reg r h) /\ h_pc h' = h_csrs h Mepc /\
  load64 (h_mem h') cmp = u64 (load64 (h_mem h) cmp + iv) /\ Z.testbit (h_csrs h' Mip) 1 = true /\
  (forall k, k <> 1 -> Z.testbit (h_csrs h' Mip) k = Z.testbit (h_csrs h Mip) k) /\
  timer_armed h' sc cmp iv /\
  (forall a, a + 8 <= sc \/ sc + 24 <= a -> a + 8 <= cmp \/ cmp + 8 <= a -> load64 (h_mem h') a = load64 (h_mem h) a).
Proof.
  intros Hm Hok Hta Hdel h'. destruct (exec_timervec h sc cmp iv Hm Hta) as (E1 & G0 & G1 & G2 & G3 & G4 & G5 & G6 & G7).
  fold h' in E1, G0, G1, G2, G3, G4, G5, G6, G7. clearbody h'. destruct Hta as [Hsc Hc Hi (H1 & H2 & H3) Hap].
  assert (Hsm : forall r, u64 (get_reg r h) = get_reg r h) by (intros r; by apply Z.mod_small, get_reg_range).
  assert (Hother : forall a, a + 8 <= sc \/ sc + 24 <= a -> a + 8 <= cmp \/ cmp + 8 <= a -> load64 (h_mem h') a = load64 (h_mem h) a).
  { intros a Ha1 Ha2. by rewrite E1, load_store_ne, timer_saved_other by lia. }
  split_and!; [|exact G7| | | | |exact Hother].
  - intros r. destruct (decide (r ∈ [A0; A1; A2; A3])) as [Hr|Hr]; [|by apply G4].
    rewrite E1, !load_store_ne in G1, G2, G3 by lia. unfold timer_saved in G1, G2, G3.
    rewrite !load_store_ne, load64_store64, Hsm in G1 by lia. rewrite load_store_ne, load64_store64, Hsm in G2 by lia.
    rewrite load64_store64, Hsm in G3. rewrite !elem_of_cons, elem_of_nil in Hr. by destruct Hr as [->|[->|[->|[->|[]]]]].
  - rewrite E1, load64_store64. apply Z.mod_mod. lia.
  - rewrite G6, blend_bit, Z.land_spec, Hdel. done.
  - intros k Hk. rewrite G6, blend_bit, Z.land_spec. change 2 with (2 ^ 1). rewrite Z.pow2_bits_false, andb_false_r by done. done.
  - split; [done|by rewrite Hother by lia..|done|done].
Qed.

End Exec.

(** ** The interrupt-enable bit *)

Definition sie (h : hart) : bool := status_bit 1 h.

Lemma sstatus_sie x : Z.land (Z.land x SSTATUS_MASK) SSTATUS_SIE = if Z.testbit x 1 then SSTATUS_SIE else 0.
Proof.
  apply Z.bits_inj'. intros k Hk. change SSTATUS_SIE with (2 ^ 1). rewrite !Z.land_spec.
  destruct (decide (k = 1)) as [->|Hne].
  - destruct (Z.testbit x 1); reflexivity.
  - rewrite Z.pow2_bits_false, andb_false_r by lia. destruct (Z.testbit x 1); [by rewrite Z.pow2_bits_false by lia|by rewrite Z.bits_0].
Qed.

(** What the C functions do to the bit: intr_get reads it, intr_off clears it, and
    intr_on sets it and enables the three interrupts of supervisor mode; the state of
    interrupts that the spin locks keep is this bit. *)

Theorem intr_bit h :
  runs intr_get h (sie h) h /\
  (exists h', runs intr_off h tt h' /\ sie h' = false /\ forall k, k <> 1 -> status_bit k h' = status_bit k h) /\
  (exists h', runs intr_on h tt h' /\ sie h' = true /\ (forall k, k <> 1 -> status_bit k h' = status_bit k h) /\
    forall k, k = 1 \/ k = 5 \/ k = 9 -> Z.testbit (h_csrs h' Mie) k = Z.testbit (h_csrs h Mie) k || Z.testbit (h_csrs h Mideleg) k).
Proof.
  split; [|split].
  - intros e. unfold intr_get, bind, r_sstatus, gets, ret. cbn [read_csr]. rewrite sstatus_sie.
    unfold sie, status_bit. by destruct (Z.testbit _ 1).
  - eexists. split; [intros e; reflexivity|]. unfold sie, status_bit. cbn [h_csrs put_csr write_csr read_csr].
    change (put (h_csrs h) Mstatus ?v Mstatus) with v. split; [by rewrite blend_bit, !Z.land_spec, andb_false_r|].
    intros k Hk. rewrite blend_bit, !Z.land_spec. destruct (Z.testbit SSTATUS_MASK k) eqn:Em; [|done].
    assert (0 <= k) by (destruct (decide (0 <= k)); [done|by rewrite Z.testbit_neg_r in Em by lia]).
    rewrite Z.lnot_spec by done. change SSTATUS_SIE with (2 ^ 1). rewrite Z.pow2_bits_false by lia. by rewrite !andb_true_r.
  - eexists. split; [intros e; reflexivity|]. unfold sie, status_bit. cbn [h_csrs put_csr write_csr read_csr].
    change (put ?f Mstatus ?v Mstatus) with v. change (put (put (h_csrs h) Mie ?u) Mstatus ?v Mie) with u.
    change (put (h_csrs h) Mie ?u Mstatus) with (h_csrs h Mstatus).
    split; [by rewrite blend_bit, Z.lor_spec, orb_true_r|split].
    + intros k Hk. rewrite blend_bit, Z.lor_spec, Z.land_spec. destruct (Z.testbit SSTATUS_MASK k) eqn:Em; [|done].
      change SSTATUS_SIE with (2 ^ 1). rewrite Z.pow2_bits_false by lia. by rewrite orb_false_r, andb_true_r.
    + intros k Hk. rewrite blend_bit, !Z.lor_spec, Z.land_spec.
      destruct Hk as [->|[->| ->]]; destruct (Z.testbit (h_csrs h Mideleg) _), (Z.testbit (h_csrs h Mie) _); reflexivity.
Qed.

(** ** start *)

Lemma deleg_bits k : Z.testbit 0x222 k = true <-> k = 1 \/ k = 5 \/ k = 9.
Proof.
  split; [|by intros [->|[->| ->]]]. intros Hk. destruct (decide (0 <= k < 10)) as [Hr|Hr].
  - assert (k = 0 \/ k = 1 \/ k = 2 \/ k = 3 \/ k = 4 \/ k = 5 \/ k = 6 \/ k = 7 \/ k = 8 \/ k = 9) as Hc by lia.
    destruct Hc as [->|[->|[->|[->|[->|[->|[->|[->|[->| ->]]]]]]]]]; (discriminate || auto).
  - destruct (decide (k < 0)); [by rewrite Z.testbit_neg_r in Hk|]. rewrite Z.bits_above_log2 in Hk; [done|done|].
    change (Z.log2 0x222) with 9. lia.
Qed.

Section Start.
Variable translate : Z -> Z -> Z.
Variable main_addr timervec_addr mscratch0 stack0 : Z.

Definition scratch_of (id : Z) : Z := mscratch0 + 8 * (32 * id).

Definition start_mem (h : hart) (id : Z) : mem :=
  store64 (store64 (store64 (h_mem h) (CLINT_MTIMECMP id) (u64 (load64 (h_mem h) CLINT_MTIME + 1000000)))
    (scratch_of id + 8 * 4) (CLINT_MTIMECMP id)) (scratch_of id + 8 * 5) 1000000.

(** mstatus when mret is executed. *)

Definition start_status (x : Z) : Z :=
  Z.lor (Z.lor (Z.land x (Z.lnot MSTATUS_MPP_MASK)) MSTATUS_MPP_S) MSTATUS_MIE.

Lemma start_status_mpp x : Z.testbit (start_status x) 12 = false /\ Z.testbit (start_status x) 11 = true.
Proof.
  unfold start_status. rewrite !Z.lor_spec, !Z.land_spec, !Z.lnot_spec by lia.
  split; [|by rewrite orb_true_r]. by rewrite andb_false_r.
Qed.

Lemma runs_timerinit h id :
  h_csrs h Mhartid = id -> i32 id = id ->
  runs (timerinit timervec_addr mscratch0) h tt
    (put_csr Mie (Z.lor (h_csrs h Mie) MIE_MTIE) (put_csr Mstatus (Z.lor (h_csrs h Mstatus) MSTATUS_MIE)
      (put_csr Mtvec timervec_addr (put_csr Mscratch (scratch_of id) (set_h_mem (start_mem h id) h))))).
Proof.
  intros Hid H32 e. unfold timerinit, bind, r_mhartid, gets, ret. cbn [read_csr]. by rewrite Hid, H32.
Qed.

Lemma start_runs h id :
  h_csrs h Mhartid = id -> 0 <= id < Z.of_nat NCPU ->
  exists h2, runs (start main_addr timervec_addr mscratch0) h tt (mret h2) /\
    h_csrs h2 Mstatus = start_status (h_csrs h Mstatus) /\ h_csrs h2 Mepc = main_addr /\ h_csrs h2 Satp = 0 /\
    h_csrs h2 Medeleg = 0xffff /\ h_csrs h2 Mideleg = 0x222 /\ h_csrs h2 Mtvec = timervec_addr /\
    h_csrs h2 Mscratch = scratch_of id /\ h_csrs h2 Mie = Z.lor (h_csrs h Mie) MIE_MTIE /\
    h_mem h2 = start_mem h id /\ get_reg Tp h2 = id /\ (forall r, r <> Tp -> get_reg r h2 = get_reg r h).
Proof.
  intros Hid Hr. unfold NCPU in Hr. assert (E32 : i32 id = id) by (apply i32_small; lia).
  assert (E64 : u64 id = id) by (apply u64_small; lia).
  set (h1 := put_csr Mideleg 0x222 (put_csr Medeleg 0xffff (put_csr Satp 0 (put_csr Mepc main_addr
    (put_csr Mstatus (Z.lor (Z.land (h_csrs h Mstatus) (Z.lnot MSTATUS_MPP_MASK)) MSTATUS_MPP_S) h))))).
  pose proof (runs_timerinit h1 id Hid E32) as Ht. set (h2 := put_csr Mie _ _) in Ht.
  assert (Eid : h_csrs h2 Mhartid = id) by exact Hid.
  exists (set_reg Tp id h2). split_and!; [|reflexivity..|].
  - intros e. change (bind (timerinit timervec_addr mscratch0) (fun _ => bind (bind r_mhartid (fun x => ret (i32 x)))
      (fun i => bind (w_tp (u64 i)) (fun _ => modify mret))) e h1 = Ok tt e (mret (set_reg Tp id h2))).
    unfold bind at 1. rewrite Ht. unfold bind, r_mhartid, gets, ret. cbn [read_csr]. by rewrite Eid, E32, E64.
  - intros r Hne. rewrite get_set_reg by done. by rewrite decide_False.
Qed.

Lemma exec_entry h id :
  h_csrs h Mhartid = id -> 0 <= id < Z.of_nat NCPU -> 0 <= stack0 -> stack0 + 4096 * 8 < 2 ^ 64 ->
  let h' := exec translate (entry stack0) h in
  get_reg Sp h' = stack0 + 4096 * (id + 1) /\ (forall r, r ∉ [Sp; A0; A1] -> get_reg r h' = get_reg r h) /\
  h_csrs h' = h_csrs h /\ h_mem h' = h_mem h.
Proof.
  intros Hid Hr H1 H2 h'. unfold NCPU in Hr. split_and!; [| |done..].
  - change (u64 (u64 stack0 + u64 (u64 (1024 * 4) * u64 (h_csrs h Mhartid + 1))) = stack0 + 4096 * (id + 1)).
    rewrite Hid, (u64_small stack0), (u64_small (id + 1)), (u64_small (1024 * 4)) by lia.
    rewrite (u64_small (1024 * 4 * (id + 1))) by lia. rewrite u64_small; lia.
  - intros r Hn. rewrite !not_elem_of_cons in Hn. unfold get_reg. destruct (decide (r = Zero)); [done|].
    cbn. unfold put. by rewrite !decide_False by tauto.
Qed.

(** C32: a hart boots, from _entry in machine mode, into main in supervisor mode, on a
    stack of its own, with paging off and its number in tp; every exception and the interrupts of
    supervisor mode go to supervisor mode, the timer interrupt is enabled and goes to
    timervec in machine mode, and the scratch area and MTIMECMP are those that timervec
    works with. *)

Theorem start_enters_main h id :
  h_csrs h Mhartid = id -> 0 <= id < Z.of_nat NCPU -> 0 <= stack0 -> stack0 + 4096 * 8 < 2 ^ 64 ->
  CLINT + 0x10000 <= mscratch0 -> mscratch0 + 8 * (32 * 8) < 2 ^ 64 ->
  exists h', runs (start main_addr timervec_addr mscratch0) (exec translate (entry stack0) h) tt h' /\
    h_mode h' = Supervisor /\ h_pc h' = main_addr /\ h_csrs h' Satp = 0 /\ get_reg Tp h' = id /\
    get_reg Sp h' = stack0 + 4096 * (id + 1) /\
    h_csrs h' Medeleg = 0xffff /\ (forall k, Z.testbit (h_csrs h' Mideleg) k = true <-> k = 1 \/ k = 5 \/ k = 9) /\
    h_csrs h' Mtvec = timervec_addr /\ Z.testbit (h_csrs h' Mie) 7 = true /\
    timer_armed h' (scratch_of id) (CLINT_MTIMECMP id) 1000000 /\
    load64 (h_mem h') (CLINT_MTIMECMP id) = u64 (load64 (h_mem h) CLINT_MTIME + 1000000).
Proof.
  intros Hid Hr Hs1 Hs2 Hlo Hhi. destruct (exec_entry h id Hid Hr Hs1 Hs2) as (D1 & _ & D2 & D3).
  set (h0 := exec translate (entry stack0) h) in *. clearbody h0. rewrite <- D2 in Hid. rewrite <- D3. clear D2 D3.
  destruct (start_runs h0 id Hid Hr) as (h2 & Hrun & E1 & E2 & E3 & E4 & E5 & E6 & E7 & E8 & E9 & E10 & E11).
  unfold NCPU in Hr. exists (mret h2). destruct (start_status_mpp (h_csrs h0 Mstatus)) as [M12 M11].
  assert (Hcm : CLINT_MTIMECMP id = 0x2004000 + 8 * id) by (unfold CLINT_MTIMECMP, CLINT; lia).
  unfold CLINT in Hlo. assert (Hsc : scratch_of id = mscratch0 + 256 * id) by (unfold scratch_of; lia).
  split_and!; [exact Hrun| |exact E2|exact E3|exact E10|rewrite <- D1; by apply E11|exact E4| |exact E6| | |].
  - change (h_mode (mret h2)) with (if Z.testbit (h_csrs h2 Mstatus) 12 then Machine else if Z.testbit (h_csrs h2 Mstatus) 11 then Supervisor else User).
    by rewrite E1, M12, M11.
  - intros k. change (h_csrs (mret h2) Mideleg) with (h_csrs h2 Mideleg). rewrite E5. apply deleg_bits.
  - change (h_csrs (mret h2) Mie) with (h_csrs h2 Mie). rewrite E8, Z.lor_spec. apply orb_true_r.
  - split; change (h_mem (mret h2)) with (h_mem h2); [exact E7| | |lia|lia]; rewrite E9; unfold start_mem.
    + rewrite load_store_ne by lia. rewrite load64_store64, u64_small by lia. done.
    + by rewrite load64_store64.
  - change (h_mem (mret h2)) with (h_mem h2). rewrite E9. unfold start_mem.
    rewrite !load_store_ne by lia. rewrite load64_store64. apply Z.mod_mod. lia.
Qed.

End Start.
