(* ===== verification/Spinlock.v ===== *)
(** * Spin locks (kernel/spinlock.c)

    Two descriptions of the same code.  [Smp] is the code of kernel/spinlock.c
    on a machine with several harts: the lock words, the per-CPU [noff] and
    [intena], the interrupt-enable bit of each hart, and the other harts as the
    environment of the spinning loop.  The rest of the development, which
    follows one kernel thread, uses the interface below: the set of the locks
    this CPU holds, with [acquire] and [release] panicking when the code does.
    The refinement theorems say that [Smp] implements it. *)

From S2P Require Import Prelude Monad Riscv Kstring Kstate.

(** ** The interface: the locks held by this CPU *)

Definition holding (l : lock) : K bool := gets (fun s => bool_decide (l ∈ k_held s)).

Definition acquire (l : lock) : K unit :=
  h <- holding l ;;
  if h then panic "acquire" else modify (fun s => set_k_held ({[l]} ∪ k_held s) s).

Definition release (l : lock) : K unit :=
  h <- holding l ;;
  if negb h then panic "release" else modify (fun s => set_k_held (k_held s ∖ {[l]}) s).

Lemma acquire_eq l e s :
  acquire l e s =
    if bool_decide (l ∈ k_held s) then Panic "acquire"
    else Ok tt e (set_k_held ({[l]} ∪ k_held s) s).
Proof. unfold acquire, holding. monad. by case_bool_decide. Qed.

Lemma release_eq l e s :
  release l e s =
    if bool_decide (l ∈ k_held s) then Ok tt e (set_k_held (k_held s ∖ {[l]}) s)
    else Panic "release".
Proof. unfold release, holding. monad. by case_bool_decide. Qed.

Lemma runs_acquire l s :
  l ∉ k_held s -> runs (acquire l) s tt (set_k_held ({[l]} ∪ k_held s) s).
Proof. intros H e. by rewrite acquire_eq, bool_decide_false. Qed.

Lemma runs_release l s :
  l ∈ k_held s -> runs (release l) s tt (set_k_held (k_held s ∖ {[l]}) s).
Proof. intros H e. by rewrite release_eq, bool_decide_true. Qed.

Lemma runs_release_to l s s' :
  l ∈ k_held s -> set_k_held (k_held s ∖ {[l]}) s = s' -> runs (release l) s tt s'.
Proof. intros H <-. by apply runs_release. Qed.

Lemma runs_holding l s : runs (holding l) s (bool_decide (l ∈ k_held s)) s.
Proof. done. Qed.

Lemma held_release (l : lock) (H : gset lock) : l ∉ H -> ({[l]} ∪ H) ∖ {[l]} = H.
Proof. set_solver. Qed.

Lemma held_in (l : lock) (H : gset lock) : l ∈ {[l]} ∪ H.
Proof. set_solver. Qed.

(** A critical section: [m] runs between the acquire and the release of [l], and
    leaves the set of the locks held as it found it. *)

Lemma runs_critical {A} (l : lock) (m : K A) (a : A) s s' :
  l ∉ k_held s ->
  runs m (set_k_held ({[l]} ∪ k_held s) s) a s' ->
  k_held s' = {[l]} ∪ k_held s ->
  runs (acquire l ;; x <- m ;; release l ;; ret x) s a (set_k_held (k_held s) s').
Proof.
  intros Hl Hm Hh. eapply runs_bind; [by apply runs_acquire|].
  eapply runs_bind; [exact Hm|]. eapply runs_bind.
  - apply runs_release. rewrite Hh. apply held_in.
  - rewrite Hh, held_release by done. apply runs_ret.
Qed.

(** ** The code, on several harts *)

Module Smp.

Record spinlock := mk_spinlock { lk_locked : Z; lk_cpu : option nat }.

Record cpu := mk_cpu { noff : Z; intena : Z }.

#[global] Instance spinlock_inhabited : Inhabited spinlock := populate (mk_spinlock 0 None).
#[global] Instance cpu_inhabited : Inhabited cpu := populate (mk_cpu 0 0).

(** The lock words, the per-CPU structures and the SIE bit of every hart. *)

Record smp := mk_smp {
  locks : gmap lock spinlock;
  cpus : gmap nat cpu;
  sie : gmap nat bool;
}.

Definition set_lock (l : lock) (v : spinlock) : M smp unit :=
  modify (fun s => mk_smp (<[l := v]> (locks s)) (cpus s) (sie s)).
Definition set_cpu (h : nat) (c : cpu) : M smp unit :=
  modify (fun s => mk_smp (locks s) (<[h := c]> (cpus s)) (sie s)).

Definition intr_on (h : nat) : M smp unit :=
  modify (fun s => mk_smp (locks s) (cpus s) (<[h := true]> (sie s))).
Definition intr_off (h : nat) : M smp unit :=
  modify (fun s => mk_smp (locks s) (cpus s) (<[h := false]> (sie s))).
Definition intr_get (h : nat) : M smp bool := gets (fun s => sie s !!! h).
Definition mycpu (h : nat) : M smp cpu := gets (fun s => cpus s !!! h).

Definition initlock (l : lock) : M smp unit := set_lock l (mk_spinlock 0 None).

Definition push_off (h : nat) : M smp unit :=
  old <- intr_get h ;;
  intr_off h ;;
  c <- mycpu h ;;
  (if* noff c =? 0 then set_cpu h (mk_cpu (noff c) (Z.b2z old))) ;;
  c <- mycpu h ;;
  set_cpu h (mk_cpu (noff c + 1) (intena c)).

Definition pop_off (h : nat) : M smp unit :=
  i <- intr_get h ;;
  if (i : bool) then panic "pop_off - interruptible" else
  c <- mycpu h ;;
  set_cpu h (mk_cpu (noff c - 1) (intena c)) ;;
  c <- mycpu h ;;
  if noff c <? 0 then panic "pop_off" else
  if* (noff c =? 0) && negb (intena c =? 0) then intr_on h.

Definition holding (h : nat) (l : lock) : M smp bool :=
  push_off h ;;
  lk <- gets (fun s => locks s !!! l) ;;
  let r := negb (lk_locked lk =? 0) && bool_decide (lk_cpu lk = Some h) in
  pop_off h ;;
  ret r.

(** [__sync_lock_test_and_set(&lk->locked, 1)]: an atomic swap. *)

Definition test_and_set (l : lock) : M smp Z :=
  lk <- gets (fun s => locks s !!! l) ;;
  set_lock l (mk_spinlock 1 (lk_cpu lk)) ;;
  ret (lk_locked lk).

(** The other harts act between two rounds of the spinning loop; [tries] bounds
    the number of rounds. *)

Definition acquire (tries : nat) (h : nat) (l : lock) : M smp unit :=
  push_off h ;;
  b <- holding h l ;;
  if (b : bool) then panic "acquire" else
  loop tries (fun _ : unit =>
    old <- test_and_set l ;;
    if old =? 0 then ret (inr tt) else yield_cpu ;; ret (inl tt)) tt ;;
  lk <- gets (fun s => locks s !!! l) ;;
  set_lock l (mk_spinlock (lk_locked lk) (Some h)).

Definition release (h : nat) (l : lock) : M smp unit :=
  b <- holding h l ;;
  if negb b then panic "release" else
  lk <- gets (fun s => locks s !!! l) ;;
  set_lock l (mk_spinlock (lk_locked lk) None) ;;
  lk <- gets (fun s => locks s !!! l) ;;
  set_lock l (mk_spinlock 0 (lk_cpu lk)) ;;
  pop_off h.

(** ** What the states of a run satisfy *)

(** Hart [h] holds [l]. *)

Definition held_by (s : smp) (h : nat) (l : lock) : Prop :=
  lk_locked (locks s !!! l) <> 0 /\ lk_cpu (locks s !!! l) = Some h.

(** Interrupts are off on [h] whenever it is inside push_off, and the saved
    interrupt state is a boolean. *)

Definition cpu_ok (s : smp) (h : nat) : Prop :=
  0 <= noff (cpus s !!! h) /\ (0 < noff (cpus s !!! h) -> sie s !!! h = false).

(** A lock word is set exactly when a hart is recorded as its holder. *)

Definition locks_ok (s : smp) : Prop :=
  forall l, lk_locked (locks s !!! l) <> 0 <-> lk_cpu (locks s !!! l) <> None.

(** The state after push_off and pop_off of hart [h]. *)

Definition pushed (h : nat) (s : smp) : smp :=
  let c := cpus s !!! h in
  mk_smp (locks s)
    (<[h := mk_cpu (noff c + 1) (if noff c =? 0 then Z.b2z (sie s !!! h) else intena c)]> (cpus s))
    (<[h := false]> (sie s)).

Definition popped (h : nat) (s : smp) : smp :=
  let c := cpus s !!! h in
  mk_smp (locks s) (<[h := mk_cpu (noff c - 1) (intena c)]> (cpus s))
    (if (noff c - 1 =? 0) && negb (intena c =? 0) then <[h := true]> (sie s) else sie s).

Definition with_lock (l : lock) (v : spinlock) (s : smp) : smp :=
  mk_smp (<[l := v]> (locks s)) (cpus s) (sie s).

(** ** Lemmas *)

Lemma runs_push_off h s : runs (push_off h) s tt (pushed h s).
Proof.
  intros e. unfold push_off, pushed, intr_get, intr_off, mycpu, set_cpu. monad.
  destruct (noff (cpus s !!! h) =? 0); simpl; [|done].
  by rewrite lookup_total_insert_eq, insert_insert_eq.
Qed.

Lemma runs_pop_off h s :
  cpu_ok s h -> 0 < noff (cpus s !!! h) -> runs (pop_off h) s tt (popped h s).
Proof.
  intros [_ Hs] Hn e.
  unfold pop_off, popped, intr_get, intr_on, mycpu, set_cpu. monad.
  rewrite Hs by done. rewrite lookup_total_insert_eq; simpl.
  destruct (Z.ltb_spec (noff (cpus s !!! h) - 1) 0); [lia|].
  by destruct ((_ =? _) && negb _).
Qed.

Lemma pushed_ok h s : cpu_ok s h -> cpu_ok (pushed h s) h.
Proof.
  intros [? ?]. split; simpl; rewrite lookup_total_insert_eq; simpl; [lia|].
  intros _. by rewrite lookup_total_insert_eq.
Qed.

Lemma pushed_noff h s : cpu_ok s h -> 0 < noff (cpus (pushed h s) !!! h).
Proof. intros [? ?]. simpl. rewrite lookup_total_insert_eq. simpl. lia. Qed.

(** A pop_off undoes the push_off before it: the nesting depth and the
    interrupt-enable bit are back (and nothing else has changed but the saved
    bit). *)

Lemma popped_pushed h s :
  cpu_ok s h ->
  locks (popped h (pushed h s)) = locks s /\
  noff (cpus (popped h (pushed h s)) !!! h) = noff (cpus s !!! h) /\
  sie (popped h (pushed h s)) !!! h = sie s !!! h.
Proof.
  intros [H0 Hs]. unfold popped, pushed; simpl.
  rewrite !lookup_total_insert_eq; simpl. rewrite Z.add_simpl_r.
  split_and!; [done|done|].
  destruct (Z.eqb_spec (noff (cpus s !!! h)) 0); simpl.
  - destruct (sie s !!! h) eqn:E; simpl; by rewrite lookup_total_insert_eq.
  - rewrite lookup_total_insert_eq. symmetry. apply Hs. lia.
Qed.

Lemma popped_pushed_ok h s : cpu_ok s h -> cpu_ok (popped h (pushed h s)) h.
Proof.
  intros Hok. destruct (popped_pushed h s Hok) as (_ & Hn & Hs). destruct Hok as [? ?].
  split; [rewrite Hn; done|rewrite Hn, Hs; done].
Qed.

Definition is_held (h : nat) (l : lock) (s : smp) : bool :=
  negb (lk_locked (locks s !!! l) =? 0) && bool_decide (lk_cpu (locks s !!! l) = Some h).

Lemma is_held_spec h l s : is_held h l s = true <-> held_by s h l.
Proof.
  unfold is_held, held_by. rewrite andb_true_iff, negb_true_iff, Z.eqb_neq, bool_decide_eq_true.
  done.
Qed.

Lemma smp_runs_holding h l s :
  cpu_ok s h -> runs (holding h l) s (is_held h l s) (popped h (pushed h s)).
Proof.
  intros Hok. unfold holding. eapply runs_bind; [apply runs_push_off|].
  eapply runs_bind; [apply runs_gets|].
  eapply runs_bind; [by apply runs_pop_off; [apply pushed_ok|apply pushed_noff]|].
  apply runs_ret.
Qed.

(** What acquire does before it spins: interrupts are off and the depth is one
    more; the lock words are as they were. *)

Definition entered (h : nat) (s : smp) : smp := popped h (pushed h (pushed h s)).

Lemma entered_spec h s :
  cpu_ok s h ->
  locks (entered h s) = locks s /\
  noff (cpus (entered h s) !!! h) = noff (cpus s !!! h) + 1 /\
  sie (entered h s) !!! h = false.
Proof.
  intros Hok. destruct (popped_pushed h (pushed h s) (pushed_ok h s Hok)) as (Hl & Hn & Hs).
  unfold entered. rewrite Hl, Hn, Hs. simpl. by rewrite !lookup_total_insert_eq.
Qed.

Lemma entered_ok h s : cpu_ok s h -> cpu_ok (entered h s) h.
Proof.
  intros Hok. destruct (entered_spec h s Hok) as (_ & Hn & Hs). destruct Hok.
  split; [rewrite Hn; lia|done].
Qed.

Lemma acquire_enter n h l s e :
  cpu_ok s h ->
  acquire n h l e s =
    if is_held h l s then Panic "acquire"
    else (loop n (fun _ : unit =>
            old <- test_and_set l ;;
            if old =? 0 then ret (inr tt) else yield_cpu ;; ret (inl tt)) tt ;;
          lk <- gets (fun s => locks s !!! l) ;;
          set_lock l (mk_spinlock (lk_locked lk) (Some h))) e (entered h s).
Proof.
  intros Hok. unfold acquire. unfold bind at 1. rewrite runs_push_off.
  unfold bind at 1. rewrite smp_runs_holding by by apply pushed_ok.
  change (is_held h l (pushed h s)) with (is_held h l s).
  by destruct (is_held h l s).
Qed.

Lemma release_spec h l s :
  cpu_ok s h -> 0 < noff (cpus s !!! h) ->
  held_by s h l ->
  runs (release h l) s tt
    (popped h (with_lock l (mk_spinlock 0 None) (popped h (pushed h s)))).
Proof.
  intros Hok Hn Hh. unfold release.
  eapply runs_bind; [by apply smp_runs_holding|].
  rewrite (proj2 (is_held_spec h l s) Hh). simpl negb. cbv iota.
  destruct (popped_pushed h s Hok) as (_ & Hn' & _).
  do 4 (eapply runs_bind; [by intros e|]); cbv beta. cbn [locks lk_cpu].
  rewrite lookup_total_insert_eq, insert_insert_eq. cbn [lk_cpu].
  apply (runs_pop_off h (with_lock l (mk_spinlock 0 None) (popped h (pushed h s)))).
  - apply (popped_pushed_ok h s Hok).
  - unfold with_lock; cbn [cpus]. lia.
Qed.

Lemma release_panic h l s e :
  cpu_ok s h -> ~ held_by s h l -> release h l e s = Panic "release".
Proof.
  intros Hok Hh. unfold release, bind at 1. rewrite smp_runs_holding by done.
  destruct (is_held h l s) eqn:E; [|done]. by apply is_held_spec in E.
Qed.

(** The spinning loop ends only in a state where the lock word was clear. *)

Lemma spin_inv n h l (P : smp -> Prop) e s :
  (forall t, P t -> lk_locked (locks t !!! l) <> 0 ->
     P (with_lock l (mk_spinlock 1 (lk_cpu (locks t !!! l))) t)) ->
  Forall (fun f => forall t, P t -> P (f t)) e -> P s ->
  match (loop n (fun _ : unit =>
            old <- test_and_set l ;;
            if old =? 0 then ret (inr tt) else yield_cpu ;; ret (inl tt)) tt ;;
          lk <- gets (fun s => locks s !!! l) ;;
          set_lock l (mk_spinlock (lk_locked lk) (Some h))) e s with
  | Ok _ _ s' => exists t, P t /\ lk_locked (locks t !!! l) = 0 /\
                   s' = with_lock l (mk_spinlock 1 (Some h)) t
  | Blocked s' => P s'
  | Spin => True
  | _ => False
  end.
Proof.
  intros Htas. revert e s. induction n as [|n IH]; intros e s He Hs; [done|].
  cbn [loop]. unfold test_and_set, set_lock. monad.
  destruct (Z.eqb_spec (lk_locked (locks s !!! l)) 0) as [E|E].
  - exists s. unfold with_lock; simpl.
    rewrite lookup_total_insert_eq, insert_insert_eq. done.
  - specialize (Htas s Hs E). destruct e as [|f e]; simpl; [done|].
    apply Forall_cons_1 in He as [Hf He].
    exact (IH e (f (with_lock l (mk_spinlock 1 (lk_cpu (locks s !!! l))) s)) He (Hf _ Htas)).
Qed.

(** ** The refinement of the interface *)

(** What hart [h] owns: it holds exactly the locks of [H], its nesting depth is
    [n], and its interrupts are off while the depth is positive.  The other
    harts cannot change any of it. *)

Definition own (h : nat) (H : gset lock) (n : Z) (s : smp) : Prop :=
  (forall l, l ∈ H <-> held_by s h l) /\
  noff (cpus s !!! h) = n /\ 0 <= n /\ (0 < n -> sie s !!! h = false).

Definition respects_own (h : nat) (e : env smp) : Prop :=
  Forall (fun f => forall H n t, own h H n t -> own h H n (f t)) e.

Lemma own_cpu_ok h H n s : own h H n s -> cpu_ok s h.
Proof. intros (_ & <- & ? & ?). done. Qed.

Lemma own_entered h H n s : own h H n s -> own h H (n + 1) (entered h s).
Proof.
  intros Hown. pose proof (own_cpu_ok _ _ _ _ Hown) as Hok.
  destruct (entered_spec h s Hok) as (Hl & Hn & Hs). destruct Hown as (Hh & <- & ? & ?).
  split_and!; [|by rewrite Hn|lia|done].
  intros l. unfold held_by. rewrite Hl. apply Hh.
Qed.

Lemma own_tas h H n l s :
  own h H n s -> lk_locked (locks s !!! l) <> 0 ->
  own h H n (with_lock l (mk_spinlock 1 (lk_cpu (locks s !!! l))) s).
Proof.
  intros (Hh & ?) Hl. split; [|done]. intros l'. rewrite Hh. unfold held_by; simpl.
  destruct (decide (l = l')) as [<-|].
  - rewrite lookup_total_insert_eq. simpl. naive_solver.
  - by rewrite lookup_total_insert_ne.
Qed.

Lemma own_locked h H n l s :
  own h H n s -> lk_locked (locks s !!! l) = 0 ->
  own h ({[l]} ∪ H) n (with_lock l (mk_spinlock 1 (Some h)) s).
Proof.
  intros (Hh & ?) Hl. split; [|done]. intros l'. rewrite elem_of_union, elem_of_singleton, Hh.
  unfold held_by; simpl. destruct (decide (l = l')) as [<-|].
  - rewrite lookup_total_insert_eq. simpl. naive_solver.
  - rewrite lookup_total_insert_ne by done. naive_solver.
Qed.

Lemma own_unlocked h H n l s :
  own h H n s -> own h (H ∖ {[l]}) n (with_lock l (mk_spinlock 0 None) s).
Proof.
  intros (Hh & ?). split; [|done]. intros l'.
  rewrite elem_of_difference, elem_of_singleton, Hh.
  unfold held_by; simpl. destruct (decide (l = l')) as [<-|].
  - rewrite lookup_total_insert_eq. simpl. naive_solver.
  - rewrite lookup_total_insert_ne by done. naive_solver.
Qed.

Lemma own_popped_pushed h H n s : own h H n s -> own h H n (popped h (pushed h s)).
Proof.
  intros Hown. destruct (popped_pushed h s (own_cpu_ok _ _ _ _ Hown)) as (Hl & Hn & Hs).
  destruct Hown as (Hh & ? & ? & ?).
  split_and!; [|congruence|done|by rewrite Hs]. intros l. unfold held_by. rewrite Hl. apply Hh.
Qed.

Lemma own_popped h H n s : own h H n s -> 0 < n -> own h H (n - 1) (popped h s).
Proof.
  intros (Hh & Hn & ? & Hs) Hpos. split_and!; [done| |lia|].
  - simpl. rewrite lookup_total_insert_eq. simpl. lia.
  - intros ?. simpl. destruct (Z.eqb_spec (noff (cpus s !!! h) - 1) 0); [lia|]. simpl. auto.
Qed.

Lemma is_held_own h H n s l : own h H n s -> is_held h l s = bool_decide (l ∈ H).
Proof.
  intros (Hh & _). destruct (is_held h l s) eqn:E.
  - apply is_held_spec, Hh in E. by rewrite bool_decide_true.
  - rewrite bool_decide_false; [done|]. rewrite Hh, <- is_held_spec. by rewrite E.
Qed.

(** C25: while one hart holds a lock, no acquire of it by another hart returns,
    however the other harts interleave, as long as the holder does not release
    it: the acquiring hart spins. *)
Theorem acquire_mutual_exclusion n h h' l e s :
  h <> h' -> cpu_ok s h -> held_by s h' l ->
  Forall (fun f => forall t, held_by t h' l -> held_by (f t) h' l) e ->
  match acquire n h l e s with
  | Blocked s' => held_by s' h' l
  | Spin => True
  | _ => False
  end.
Proof.
  intros Hne Hok Hh He. rewrite acquire_enter by done.
  destruct (is_held h l s) eqn:E.
  { apply is_held_spec in E as [_ E]. destruct Hh as [_ Hh]. congruence. }
  assert (held_by (entered h s) h' l) as Hh'.
  { unfold held_by. by rewrite (proj1 (entered_spec h s Hok)). }
  pose proof (spin_inv n h l (fun t => held_by t h' l) e (entered h s)) as Hspin.
  lapply Hspin; [clear Hspin; intros Hspin|].
  - specialize (Hspin He Hh'). destruct ((loop _ _ _ ;; _) e (entered h s)); try done.
    destruct Hspin as (t & [Ht _] & Ht0 & _). congruence.
  - intros t [Ht1 Ht2] _. split; simpl; by rewrite lookup_total_insert_eq.
Qed.

(** Acquire on the hardware implements the acquire of the interface: it
    panics exactly when this CPU holds the lock already, and when it returns the
    CPU owns one lock more, its interrupts are off and its nesting depth is the
    number of locks it holds; it returns at once when the lock is free. *)
Theorem acquire_refines n h l e s k :
  own h (k_held k) (Z.of_nat (size (k_held k))) s -> respects_own h e ->
  match Smp.acquire (S n) h l e s, Spinlock.acquire l [] k with
  | Ok _ _ s', Ok _ _ k' => own h (k_held k') (Z.of_nat (size (k_held k'))) s'
  | Panic msg, Panic msg' => msg = msg'
  | Blocked _, Ok _ _ _ | Spin, Ok _ _ _ => lk_locked (locks s !!! l) <> 0
  | _, _ => False
  end.
Proof.
  intros Hown He. pose proof (own_cpu_ok _ _ _ _ Hown) as Hok.
  rewrite acquire_enter by done. rewrite (is_held_own _ _ _ _ _ Hown).
  rewrite acquire_eq. destruct (bool_decide_reflect (l ∈ k_held k)) as [Hin|Hin]; [done|].
  apply own_entered in Hown. pose proof (proj1 (entered_spec h s Hok)) as Hl.
  revert Hown Hl. generalize (entered h s). intros s1 Hown Hl. rewrite <- Hl. clear s Hok Hl.
  destruct (decide (lk_locked (locks s1 !!! l) = 0)) as [E|E].
  { cbn [loop]. unfold test_and_set, set_lock. monad.
    rewrite E. simpl. rewrite lookup_total_insert_eq, insert_insert_eq. simpl.
    rewrite size_union, size_singleton by set_solver.
    rewrite Nat2Z.inj_add, Z.add_comm. by apply own_locked. }
  pose proof (spin_inv (S n) h l (own h (k_held k) (Z.of_nat (size (k_held k)) + 1)) e
                s1 (fun t => own_tas h _ _ l t)) as Hspin.
  lapply Hspin; [clear Hspin; intros Hspin|].
  2: { eapply Forall_impl; [exact He|]. intros f Hf t. apply Hf. }
  specialize (Hspin Hown). destruct ((loop _ _ _ ;; _) e s1); try done.
  destruct Hspin as (t & Ht & Ht0 & ->). simpl.
  rewrite size_union, size_singleton by set_solver.
  rewrite Nat2Z.inj_add, Z.add_comm. by apply own_locked.
Qed.

(** The release on the hardware implements the release of the interface: it
    panics exactly when this CPU does not hold the lock, and otherwise returns
    with the lock free and the nesting depth again the number of locks held. *)
Theorem release_refines h l e s k :
  own h (k_held k) (Z.of_nat (size (k_held k))) s ->
  match Smp.release h l e s, Spinlock.release l [] k with
  | Ok _ _ s', Ok _ _ k' =>
      own h (k_held k') (Z.of_nat (size (k_held k'))) s' /\ lk_locked (locks s' !!! l) = 0
  | Panic msg, Panic msg' => msg = msg'
  | _, _ => False
  end.
Proof.
  intros Hown. pose proof (own_cpu_ok _ _ _ _ Hown) as Hok.
  rewrite release_eq. destruct (bool_decide_reflect (l ∈ k_held k)) as [Hin|Hin].
  - assert (size (k_held k) = S (size (k_held k ∖ {[l]}))) as Hsz.
    { rewrite (union_difference_singleton_L l (k_held k)) at 1 by done.
      rewrite size_union, size_singleton by set_solver. done. }
    destruct Hown as (Hh & Hn & Hrest).
    rewrite release_spec; [|done|rewrite Hn; lia|by apply Hh].
    split; [|simpl; by rewrite lookup_total_insert_eq].
    cbn [k_held set_k_held].
    assert (Z.of_nat (size (k_held k ∖ {[l]})) = Z.of_nat (size (k_held k)) - 1) as ->
      by (rewrite Hsz; lia).
    apply own_popped; [|rewrite Hsz; lia]. apply own_unlocked, own_popped_pushed. done.
  - rewrite release_panic; [done|done|]. destruct Hown as (Hh & _). by rewrite <- Hh.
Qed.

(** [n] matched pairs of push_off and pop_off, nested. *)

Fixpoint nest (h : nat) (n : nat) : M smp unit :=
  match n with
  | O => ret tt
  | S n' => push_off h ;; nest h n' ;; pop_off h
  end.

(** Push_off and pop_off are matched: [n] nested pairs return (pop_off does
    not panic) with the nesting depth and the interrupt-enable bit they started
    with, whether interrupts were on or off. *)
Theorem push_pop_nest h n s :
  cpu_ok s h ->
  exists s', runs (nest h n) s tt s' /\ locks s' = locks s /\ cpu_ok s' h /\
    noff (cpus s' !!! h) = noff (cpus s !!! h) /\ sie s' !!! h = sie s !!! h /\
    (0 < noff (cpus s !!! h) -> intena (cpus s' !!! h) = intena (cpus s !!! h)).
Proof.
  revert s; induction n as [|n IH]; intros s Hok.
  { exists s. by split_and!. }
  destruct (IH (pushed h s)) as (t & Hr & Hl & Htok & Hn & Hs & Hi); [by apply pushed_ok|].
  specialize (Hi (pushed_noff h s Hok)). pose proof (pushed_noff h s Hok) as Hpos.
  assert (runs (nest h (S n)) s tt (popped h t)) as Hrun.
  { eapply runs_bind; [apply runs_push_off|]. eapply runs_bind; [exact Hr|].
    apply runs_pop_off; [done|]. lia. }
  exists (popped h t). destruct Hok as [H0 H1].
  assert (sie (popped h t) !!! h = sie s !!! h) as Hsie.
  { unfold popped; cbn [sie]. rewrite Hn, Hi. unfold pushed; cbn [cpus].
    rewrite lookup_total_insert_eq; cbn [noff intena]. rewrite Z.add_simpl_r.
    destruct (Z.eqb_spec (noff (cpus s !!! h)) 0) as [E|E].
    - destruct (sie s !!! h) eqn:Es; simpl; [by rewrite lookup_total_insert_eq|].
      rewrite Hs. simpl. by rewrite lookup_total_insert_eq.
    - simpl. rewrite Hs. simpl. rewrite lookup_total_insert_eq, H1 by lia. done. }
  assert (noff (cpus (popped h t) !!! h) = noff (cpus s !!! h)) as Hnoff.
  { simpl. rewrite lookup_total_insert_eq. simpl. rewrite Hn. simpl.
    rewrite lookup_total_insert_eq. simpl. lia. }
  split_and!; [done|exact Hl| |done|done|].
  - split; [by rewrite Hnoff|]. rewrite Hnoff, Hsie. done.
  - intros Hp. simpl. rewrite lookup_total_insert_eq. simpl. rewrite Hi. simpl.
    rewrite lookup_total_insert_eq. simpl. destruct (Z.eqb_spec (noff (cpus s !!! h)) 0); [lia|done].
Qed.

End Smp.
