(* ===== verification/Printf.v ===== *)
(** * Formatted output (kernel/printf.c, with consputc of console.c and
    uartputc of uart.c)

    The output device is the list of the bytes written to the transmit
    register.  [printf] is the code of kernel/printf.c: it walks the format and
    sends characters one by one, inside the lock of the printer.  [format] is
    what a call means: the text it prints. *)

From S2P Require Import Prelude Monad Riscv Kstring Kstate Spinlock.

(** ** The code *)

Definition BACKSPACE : Z := 0x100.

(** The wait for the transmit-holding-empty bit is the device's business. *)

Definition uartputc (c : Z) : K unit := modify (fun s => set_k_out (k_out s ++ [u8 c]) s).

(** '\b' is 8, ' ' is 32.  After a panic the machine has stopped: there is no
    state in which [panicked] is set. *)

Definition consputc (c : Z) : K unit :=
  if c =? BACKSPACE then uartputc 8 ;; uartputc 32 ;; uartputc 8 else uartputc c.

Definition digits : list Z := bytes_of_string "0123456789abcdef".

(** [do { buf[i++] = digits[x % base]; } while((x /= base) != 0);] with room for
    [fuel] characters; the result is the contents of [buf], first digit last.  The
    table is an argument: the user library has the same function with its own. *)

Fixpoint printint_digits (digits : list Z) (fuel : nat) (x base : Z) : option (list Z) :=
  match fuel with
  | O => None
  | S n =>
      d ← digits !! Z.to_nat (x mod base);
      if x / base =? 0 then Some [d] else ds ← printint_digits digits n (x / base) base; Some (d :: ds)
  end.

Definition printint_buf (digits : list Z) (xx base sign : Z) : option (list Z) :=
  let neg := negb (sign =? 0) && (xx <? 0) in
  let x := if neg then u32 (- xx) else u32 xx in
  ds ← printint_digits digits 16 x base;
  if neg : bool then if (length ds <? 16)%nat then Some (ds ++ [45]) else None else Some ds.

Definition printint (xx base sign : Z) : K unit :=
  buf <- valid (printint_buf digits xx base sign) ;;
  for_each (rev buf) consputc.

(** [for(i = 0; i < 16; i++, x <<= 4) consputc(digits[x >> 60]);] *)

Definition printptr (x : Z) : K unit :=
  consputc 48 ;; consputc 120 ;;
  for_each (seq 0 16) (fun i =>
    d <- valid (digits !! Z.to_nat (Z.shiftr (u64 (Z.shiftl x (4 * Z.of_nat i))) 60)) ;;
    consputc d).

(** A variadic argument: a register-sized word or a string. *)

Inductive vararg := VWord (w : Z) | VStr (s : option (list Z)).

Definition arg_word (args : list vararg) : option (Z * list vararg) :=
  match args with VWord w :: args' => Some (w, args') | _ => None end.

Definition arg_str (args : list vararg) : option (option (list Z) * list vararg) :=
  match args with VStr s :: args' => Some (s, args') | _ => None end.

(** '%' is 37, 'd' 100, 'x' 120, 'p' 112, 's' 115. *)

Fixpoint printf_from (fmt : list Z) (args : list vararg) : K unit :=
  match fmt with
  | [] => fault
  | c :: fmt1 =>
      if c =? 0 then ret tt
      else if negb (c =? 37) then consputc c ;; printf_from fmt1 args
      else
        match fmt1 with
        | [] => fault
        | c :: fmt2 =>
            if c =? 0 then ret tt
            else if c =? 100 then
              w <- valid (arg_word args) ;; printint (i32 (fst w)) 10 1 ;; printf_from fmt2 (snd w)
            else if c =? 120 then
              w <- valid (arg_word args) ;; printint (i32 (fst w)) 16 1 ;; printf_from fmt2 (snd w)
            else if c =? 112 then
              w <- valid (arg_word args) ;; printptr (u64 (fst w)) ;; printf_from fmt2 (snd w)
            else if c =? 115 then
              w <- valid (arg_str args) ;;
              (for_each (cstring (default (cstr "(null)") (fst w))) consputc) ;;
              printf_from fmt2 (snd w)
            else if c =? 37 then consputc 37 ;; printf_from fmt2 args
            else consputc 37 ;; consputc c ;; printf_from fmt2 args
        end
  end.

Definition printf (fmt : string) (args : list vararg) : K unit :=
  locking <- gets k_prlocking ;;
  (if* negb (locking =? 0) then acquire Lpr) ;;
  printf_from (cstr fmt) args ;;
  if* negb (locking =? 0) then release Lpr.

Definition printfinit : K unit := modify (set_k_prlocking 1).

(** ** What a call prints *)

Definition format_ptr (x : Z) : option (list Z) :=
  ds ← mapM (fun i => digits !! Z.to_nat (Z.shiftr (u64 (Z.shiftl x (4 * Z.of_nat i))) 60)) (seq 0 16);
  Some (48 :: 120 :: ds).

Fixpoint format (fmt : list Z) (args : list vararg) : option (list Z) :=
  match fmt with
  | [] => None
  | c :: fmt1 =>
      if c =? 0 then Some []
      else if negb (c =? 37) then r ← format fmt1 args; Some (c :: r)
      else
        match fmt1 with
        | [] => None
        | c :: fmt2 =>
            if c =? 0 then Some []
            else if c =? 100 then
              w ← arg_word args; b ← printint_buf digits (i32 (fst w)) 10 1;
              r ← format fmt2 (snd w); Some (rev b ++ r)
            else if c =? 120 then
              w ← arg_word args; b ← printint_buf digits (i32 (fst w)) 16 1;
              r ← format fmt2 (snd w); Some (rev b ++ r)
            else if c =? 112 then
              w ← arg_word args; b ← format_ptr (u64 (fst w));
              r ← format fmt2 (snd w); Some (b ++ r)
            else if c =? 115 then
              w ← arg_str args;
              r ← format fmt2 (snd w); Some (cstring (default (cstr "(null)") (fst w)) ++ r)
            else if c =? 37 then r ← format fmt2 args; Some (37 :: r)
            else r ← format fmt2 args; Some (37 :: c :: r)
        end
  end.

(** ** Lemmas *)

Definition is_byte (c : Z) : Prop := 0 <= c < 256.

Definition emit (bs : list Z) (s : kst) : kst := set_k_out (k_out s ++ bs) s.

Lemma emit_app b1 b2 s : emit b2 (emit b1 s) = emit (b1 ++ b2) s.
Proof. unfold emit; simpl. by rewrite app_assoc. Qed.

Lemma emit_nil s : emit [] s = s.
Proof. destruct s. unfold emit; simpl. by rewrite app_nil_r. Qed.

Lemma runs_consputc c s : is_byte c -> runs (consputc c) s tt (emit [c] s).
Proof.
  intros [? ?] e. unfold consputc, BACKSPACE.
  destruct (Z.eqb_spec c 0x100); [lia|]. unfold uartputc, modify, emit.
  unfold u8. by rewrite Z.mod_small by lia.
Qed.

Lemma runs_put_bytes bs s : Forall is_byte bs -> runs (for_each bs consputc) s tt (emit bs s).
Proof.
  intros H. revert s; induction H as [|b bs Hb _ IH]; intros s.
  - rewrite emit_nil. apply runs_ret.
  - eapply runs_for_each_cons; [by apply runs_consputc|].
    change (b :: bs) with ([b] ++ bs). rewrite <- emit_app. apply IH.
Qed.

Lemma digits_bytes : Forall is_byte digits.
Proof. repeat constructor; done. Qed.

Lemma printint_digits_bytes tbl n x base ds :
  Forall is_byte tbl -> printint_digits tbl n x base = Some ds -> Forall is_byte ds.
Proof.
  intros Ht. revert x ds; induction n as [|n IH]; intros x ds; simpl; [done|].
  destruct (tbl !! Z.to_nat (x mod base)) as [d|] eqn:Ed; simpl; [|done].
  eapply Forall_lookup in Ed; [|exact Ht]. destruct (x / base =? 0).
  - intros [= <-]. by apply Forall_singleton.
  - destruct (printint_digits tbl n (x / base) base) eqn:E; simpl; [|done].
    intros [= <-]. constructor; [done|by eapply IH].
Qed.

Lemma printint_buf_bytes tbl xx base sign b :
  Forall is_byte tbl -> printint_buf tbl xx base sign = Some b -> Forall is_byte b.
Proof.
  intros Ht. unfold printint_buf. destruct (printint_digits _ _ _ _) eqn:E; simpl; [|done].
  apply printint_digits_bytes in E; [|done].
  destruct (_ && _); [|by intros [= <-]].
  destruct (_ <? _)%nat; [|done]. intros [= <-]. apply Forall_app. split; [done|by apply Forall_singleton].
Qed.

Lemma runs_printint xx base sign b s :
  printint_buf digits xx base sign = Some b -> runs (printint xx base sign) s tt (emit (rev b) s).
Proof.
  intros H. eapply runs_bind; [by apply runs_valid|]. apply runs_put_bytes.
  apply printint_buf_bytes in H; [|exact digits_bytes]. apply Forall_rev. done.
Qed.

Lemma runs_put_digits (l : list nat) (f : nat -> Z) ds s :
  mapM (fun i => digits !! Z.to_nat (f i)) l = Some ds ->
  runs (for_each l (fun i => d <- valid (digits !! Z.to_nat (f i)) ;; consputc d)) s tt (emit ds s).
Proof.
  revert ds s; induction l as [|i l IH]; intros ds s; simpl.
  - intros [= <-]. rewrite emit_nil. apply runs_ret.
  - intros H. apply bind_Some in H as (d & Hd & H). apply bind_Some in H as (ds' & Hds & [= <-]).
    eapply runs_bind.
    { eapply runs_bind; [by apply runs_valid|]. apply runs_consputc. exact (Forall_lookup_1 _ _ _ _ digits_bytes Hd). }
    change (d :: ds') with ([d] ++ ds'). rewrite <- emit_app. by apply IH.
Qed.

Lemma runs_printptr x b s : format_ptr x = Some b -> runs (printptr x) s tt (emit b s).
Proof.
  unfold format_ptr. intros H. apply bind_Some in H as (ds & Hds & [= <-]).
  eapply runs_bind; [by apply runs_consputc|]. eapply runs_bind; [by apply runs_consputc|].
  change (48 :: 120 :: ds) with ([48] ++ [120] ++ ds). rewrite <- !emit_app.
  by apply runs_put_digits.
Qed.

(** The strings among the arguments hold bytes. *)

Definition arg_ok (a : vararg) : Prop :=
  match a with VStr (Some t) => Forall is_byte t | _ => True end.

Lemma cstring_bytes t : Forall is_byte t -> Forall is_byte (cstring t).
Proof.
  induction 1 as [|c t Hc Ht IH]; simpl; [constructor|]. destruct (c =? 0); by constructor.
Qed.

Lemma runs_emit_seq (m k : K unit) b r s :
  runs m s tt (emit b s) -> (forall t, runs k t tt (emit r t)) ->
  runs (m ;; k) s tt (emit (b ++ r) s).
Proof. intros Hm Hk. rewrite <- emit_app. eapply runs_bind; [exact Hm|apply Hk]. Qed.

Lemma arg_word_ok args w args' :
  Forall arg_ok args -> arg_word args = Some (w, args') -> Forall arg_ok args'.
Proof. intros H. destruct H as [|[]]; simpl; intros [=]; by subst. Qed.

Lemma arg_str_ok args t args' :
  Forall arg_ok args -> arg_str args = Some (t, args') ->
  Forall is_byte (cstring (default (cstr "(null)") t)) /\ Forall arg_ok args'.
Proof.
  intros H. destruct H as [|[|t'] ? Ht]; simpl; intros [=]; subst. split; [|done].
  destruct t as [t|]; simpl; [by apply cstring_bytes|].
  repeat (constructor; [unfold is_byte; lia|]). constructor.
Qed.

(** The walk over the format prints what [format] says. *)

Lemma runs_printf_from n fmt args b :
  (length fmt <= n)%nat -> Forall is_byte fmt -> Forall arg_ok args ->
  format fmt args = Some b -> forall s, runs (printf_from fmt args) s tt (emit b s).
Proof.
  revert fmt args b; induction n as [|n IH]; intros [|c fmt1] args b Hlen Hf Ha;
    cbn [format printf_from]; intros H s; try discriminate; [simpl in Hlen; lia|].
  simpl in Hlen. apply Forall_cons_1 in Hf as [Hc Hf].
  destruct (c =? 0). { injection H as <-. rewrite emit_nil. apply runs_ret. }
  destruct (negb (c =? 37)).
  { apply bind_Some in H as (r & Hr & [= <-]). apply (runs_emit_seq _ _ [c]).
    - by apply runs_consputc.
    - apply IH; auto with lia. }
  destruct fmt1 as [|c2 fmt2]; [discriminate|]. simpl in Hlen.
  apply Forall_cons_1 in Hf as [Hc2 Hf].
  destruct (c2 =? 0). { injection H as <-. rewrite emit_nil. apply runs_ret. }
  destruct (c2 =? 100); [|destruct (c2 =? 120); [|destruct (c2 =? 112); [|destruct (c2 =? 115);
    [|destruct (c2 =? 37)]]]].
  1-3: apply bind_Some in H as ([w args'] & E & H); apply bind_Some in H as (d & Hd & H);
    apply bind_Some in H as (r & Hr & [= <-]); apply arg_word_ok in E as Ha'; [|exact Ha];
    (eapply runs_bind; [apply runs_valid; exact E|]);
    (apply runs_emit_seq; [|apply IH; auto with lia]).
  1-2: apply runs_printint; exact Hd.
  1: apply runs_printptr; exact Hd.
  - apply bind_Some in H as ([w args'] & E & H). apply bind_Some in H as (r & Hr & [= <-]).
    destruct (arg_str_ok _ _ _ Ha E). eapply runs_bind; [apply runs_valid; exact E|].
    apply runs_emit_seq; [by apply runs_put_bytes|apply IH; auto with lia].
  - apply bind_Some in H as (r & Hr & [= <-]).
    apply (runs_emit_seq _ _ [37]); [by apply runs_consputc|apply IH; auto with lia].
  - apply bind_Some in H as (r & Hr & [= <-]).
    apply (runs_emit_seq _ _ [37] (c2 :: r)); [by apply runs_consputc|]. intros t.
    apply (runs_emit_seq _ _ [c2]); [by apply runs_consputc|apply IH; auto with lia].
Qed.

Lemma string_bytes fmt : Forall is_byte (bytes_of_string fmt).
Proof.
  induction fmt as [|a fmt IH]; simpl; constructor; [|done].
  unfold is_byte. pose proof (Ascii.N_ascii_bounded a). lia.
Qed.

Lemma cstr_bytes fmt : Forall is_byte (cstr fmt).
Proof. apply Forall_app. split; [apply string_bytes|by apply Forall_singleton]. Qed.

(** The call prints its text, inside its lock, and does nothing else. *)

Lemma runs_printf fmt args b s :
  Forall arg_ok args -> format (cstr fmt) args = Some b ->
  (k_prlocking s <> 0 -> Lpr ∉ k_held s) ->
  runs (printf fmt args) s tt (emit b s).
Proof.
  intros Ha Hb Hl. unfold printf. eapply runs_bind; [apply runs_gets|].
  pose proof (runs_printf_from _ _ _ b (Nat.le_refl _) (cstr_bytes fmt) Ha Hb) as Hp.
  destruct (Z.eqb_spec (k_prlocking s) 0) as [E|E]; simpl negb; cbv iota.
  - eapply runs_bind; [apply runs_ret|]. eapply runs_bind; [apply Hp|apply runs_ret].
  - eapply runs_bind; [by apply runs_acquire, Hl|]. eapply runs_bind; [apply Hp|].
    intros e. rewrite release_eq. simpl. rewrite bool_decide_true by apply held_in.
    unfold emit; simpl. by rewrite held_release by auto.
Qed.

(** ** The numerals *)

(** The value of a digit, and of a numeral whose last digit comes first. *)

Definition digit_value (c : Z) : Z :=
  if c <? 58 then c - 48 else if c <? 97 then c - 55 else c - 87.

Fixpoint value_le (base : Z) (ds : list Z) : Z :=
  match ds with [] => 0 | d :: ds' => digit_value d + base * value_le base ds' end.

(** Reading a numeral as it is printed. *)

Definition numeral (base : Z) (t : list Z) : Z :=
  match t with
  | c :: t' => if c =? 45 then - value_le base (rev t') else value_le base (rev t)
  | [] => 0
  end.

(** A table of the sixteen digits. *)

Definition digit_table (tbl : list Z) : Prop :=
  length tbl = 16%nat /\ forall i d, tbl !! i = Some d -> digit_value d = Z.of_nat i /\ d <> 45.

(** Is the table one? *)

Definition is_digit_table (tbl : list Z) : bool :=
  (length tbl =? 16)%nat &&
  forallb (fun i => match tbl !! i with
                    | Some d => (digit_value d =? Z.of_nat i) && negb (d =? 45)
                    | None => false
                    end) (seq 0 16).

Lemma is_digit_table_spec tbl : is_digit_table tbl = true -> digit_table tbl.
Proof.
  unfold is_digit_table. intros [Hl H]%andb_true_iff. apply Nat.eqb_eq in Hl. split; [done|].
  intros i d Hd. rewrite forallb_forall in H. specialize (H i).
  rewrite Hd in H. assert (In i (seq 0 16)) as Hi by (apply in_seq; apply lookup_lt_Some in Hd; lia).
  apply H, andb_true_iff in Hi as [H1 H2]. apply Z.eqb_eq in H1. split; [done|].
  by destruct (Z.eqb_spec d 45).
Qed.

Section Numerals.
Context (tbl : list Z).
Hypothesis Htbl : digit_table tbl.

Lemma printint_digits_value n k x base :
  2 <= base <= 16 -> 0 <= x < base ^ Z.of_nat k -> (0 < k <= n)%nat ->
  exists ds, printint_digits tbl n x base = Some ds /\ value_le base ds = x /\
    Forall (fun d => d <> 45) ds /\ (0 < length ds <= k)%nat.
Proof.
  destruct Htbl as [Hl Ht].
  intros Hb. revert k x. induction n as [|n IH]; intros k x Hx Hk; [lia|]. cbn [printint_digits].
  assert (0 <= x mod base < base) as Hm by (apply Z.mod_pos_bound; lia).
  destruct (lookup_lt_is_Some_2 tbl (Z.to_nat (x mod base))) as [d Hd]; [lia|].
  destruct (Ht _ _ Hd) as [Hv Hne]. rewrite Hd. cbn [mbind option_bind].
  pose proof (Z.div_mod x base ltac:(lia)) as Hdm.
  destruct (Z.eqb_spec (x / base) 0) as [E|E].
  - exists [d]. split; [done|]. split; [|split; [by apply Forall_singleton|simpl; lia]].
    cbn [value_le]. lia.
  - destruct k as [|k]; [lia|]. rewrite Nat2Z.inj_succ, Z.pow_succ_r in Hx by lia.
    assert (0 <= x / base < base ^ Z.of_nat k) as Hq.
    { split; [apply Z.div_pos; lia|]. apply Z.div_lt_upper_bound; lia. }
    destruct k as [|k]; [simpl in Hq; lia|].
    destruct (IH (S k) (x / base)) as (ds & Hds & Hval & Hall & Hlen); [lia..|].
    rewrite Hds. exists (d :: ds). split; [done|].
    split; [cbn [value_le]; lia|]. split; [by constructor|simpl; lia].
Qed.

(** The digits of an int fit the buffer and stand for it. *)

Lemma printint_buf_value xx base sign :
  (if sign =? 0 then 0 <= xx < 2 ^ 32 else - 2 ^ 31 <= xx < 2 ^ 31) -> base = 10 \/ base = 16 ->
  exists b, printint_buf tbl xx base sign = Some b /\ numeral base (rev b) = xx.
Proof.
  intros Hxx Hbase. unfold printint_buf. set (neg := negb (sign =? 0) && (xx <? 0)).
  set (x := if neg then u32 (- xx) else u32 xx).
  assert (x = Z.abs xx /\ neg = (xx <? 0) /\ 0 <= x < 2 ^ 32) as (Hx & Hneg & Hx32).
  { subst x neg. destruct (Z.eqb_spec sign 0), (Z.ltb_spec xx 0); simpl; unfold u32;
      rewrite ?Z.mod_small; repeat split; try lia. }
  destruct (printint_digits_value 16 10 x base) as (ds & -> & Hv & Hall & Hlen).
  { lia. }
  { destruct Hbase as [-> | ->]; simpl; lia. }
  { lia. }
  cbn [mbind option_bind]. rewrite Hneg. destruct (Z.ltb_spec xx 0).
  - destruct (Nat.ltb_spec (length ds) 16); [|lia]. eexists. split; [done|].
    rewrite rev_app_distr. cbn. rewrite rev_involutive. lia.
  - eexists. split; [done|]. unfold numeral. rewrite <- (rev_involutive ds) in Hall, Hlen, Hv.
    destruct (rev ds) as [|c t]; [simpl in Hlen; lia|].
    assert (c <> 45) as Hc.
    { simpl in Hall. apply Forall_app in Hall as [_ Hall]. by apply Forall_cons_1 in Hall as [? _]. }
    destruct (Z.eqb_spec c 45); [done|]. lia.
Qed.

End Numerals.

(** Printing an int with %d or %x prints its numeral, in base 10 or 16: the
    text, read back, is the number, for every int, the smallest included; the
    16 characters of the buffer are enough. *)
Theorem printint_numeral xx base s :
  - 2 ^ 31 <= xx < 2 ^ 31 -> base = 10 \/ base = 16 ->
  exists t, runs (printint xx base 1) s tt (emit t s) /\ numeral base t = xx.
Proof.
  intros Hxx Hbase. destruct (printint_buf_value digits (is_digit_table_spec digits eq_refl) xx base 1 Hxx Hbase) as (b & Hb & Hv).
  exists (rev b). split; [by apply runs_printint|exact Hv].
Qed.
