(* ===== verification/Ulib.v ===== *)
(** * The user library (user/ulib.c and user/printf.c)

    A string argument is the list of the characters before its NUL; a buffer is
    the array that starts where the pointer points, and writing past its end gives
    [None].  Output goes through write, a character at a time. *)

From S2P Require Import Prelude Monad Kstring Printf Uprog.

#[local] Open Scope prog_scope.

(** ** user/ulib.c *)

Fixpoint strcpy (s t : list Z) : option (list Z) :=
  match s with
  | [] => None
  | _ :: s' =>
      match t with
      | [] => Some (0 :: s')
      | c :: t' => r ← strcpy s' t'; Some (c :: r)
      end
  end.

Fixpoint strcmp (p q : list Z) : Z :=
  match p, q with
  | a :: p', b :: q' => if a =? b then strcmp p' q' else a - b
  | a :: _, [] => a
  | [], b :: _ => - b
  | [], [] => 0
  end.

Definition strlen (s : list Z) : Z := u32 (Z.of_nat (length s)).

Definition memset (dst : list Z) (c n : Z) : option (list Z) :=
  if Z.of_nat (length dst) <? u32 n then None
  else Some (replicate (Z.to_nat (u32 n)) (u8 c) ++ drop (Z.to_nat (u32 n)) dst).

(** The rest of the string from the first occurrence of [c]. *)

Fixpoint strchr (s : list Z) (c : Z) : option (list Z) :=
  match s with
  | [] => None
  | a :: s' => if a =? c then Some s else strchr s' c
  end.

(** [gets(buf, max)]: [n] more characters fit; the result is the string that is
    stored in buf. *)

Fixpoint gets_from (n : nat) : prog (list Z) :=
  match n with
  | O => Done []
  | S n' =>
      r <- sys_call (Sread 0 1) ;;
      if r.1 <? 1 then Done [] else
      match r.2 with
      | c :: _ =>
          if (c =? 10) || (c =? 13) then Done [c]
          else s <- gets_from n' ;; Done (c :: s)
      | [] => Crash
      end
  end.

Definition gets (max : Z) : prog (list Z) := gets_from (Z.to_nat (max - 1)).

Definition stat_path (n : list Z) : prog (Z * option stat) :=
  fd <- sys_call (Sopen n O_RDONLY) ;;
  if fd <? 0 then Done (-1, None) else
  r <- sys_call (Sfstat fd) ;;
  sys_call (Sclose fd) ;;
  Done (r.1, Some r.2).

(** An int that overflows wraps around. *)

Fixpoint atoi_from (n : Z) (s : list Z) : Z :=
  match s with
  | c :: s' => if (48 <=? c) && (c <=? 57) then atoi_from (i32 (n * 10 + c - 48)) s' else n
  | [] => n
  end.

Definition atoi (s : list Z) : Z := atoi_from 0 s.

(** Always from the low end, unlike the memmove of the kernel. *)

Definition memmove (m : mem) (vdst vsrc n : Z) : mem := copy_up m vdst vsrc (Z.to_nat n).

(** ** user/printf.c *)

Definition digits : list Z := bytes_of_string "0123456789ABCDEF".

Definition putc (fd c : Z) : prog unit := sys_call (Swrite fd [u8 c]) ;; Done tt.

Definition put_all (fd : Z) (bs : list Z) : prog unit := pfor bs (putc fd).

Definition or_crash {A} (o : option A) : prog A :=
  match o with Some a => Done a | None => Crash end.

Definition printint (fd xx base sgn : Z) : prog unit :=
  buf <- or_crash (printint_buf digits xx base sgn) ;;
  put_all fd (rev buf).

Definition printptr (fd x : Z) : prog unit :=
  putc fd 48 ;; putc fd 120 ;;
  pfor (seq 0 16) (fun i =>
    d <- or_crash (digits !! Z.to_nat (Z.shiftr (u64 (Z.shiftl x (4 * Z.of_nat i))) 60)) ;;
    putc fd d).

(** vprintf: [pct] is true when the last character was a percent sign. *)

Fixpoint vprintf (fd : Z) (pct : bool) (fmt : list Z) (args : list vararg) : prog unit :=
  match fmt with
  | [] => Done tt
  | c :: fmt' =>
      if negb pct then
        (if c =? 37 then vprintf fd true fmt' args
         else putc fd c ;; vprintf fd false fmt' args)
      else if c =? 100 then
        w <- or_crash (arg_word args) ;;
        printint fd (i32 w.1) 10 1 ;; vprintf fd false fmt' w.2
      else if c =? 108 then
        w <- or_crash (arg_word args) ;;
        printint fd (i32 w.1) 10 0 ;; vprintf fd false fmt' w.2
      else if c =? 120 then
        w <- or_crash (arg_word args) ;;
        printint fd (i32 w.1) 16 0 ;; vprintf fd false fmt' w.2
      else if c =? 112 then
        w <- or_crash (arg_word args) ;;
        printptr fd (u64 w.1) ;; vprintf fd false fmt' w.2
      else if c =? 115 then
        w <- or_crash (arg_str args) ;;
        put_all fd (default (bytes_of_string "(null)") w.1) ;; vprintf fd false fmt' w.2
      else if c =? 99 then
        w <- or_crash (arg_word args) ;;
        putc fd (u32 w.1) ;; vprintf fd false fmt' w.2
      else if c =? 37 then putc fd c ;; vprintf fd false fmt' args
      else putc fd 37 ;; putc fd c ;; vprintf fd false fmt' args
  end.

Definition fprintf (fd : Z) (fmt : string) (args : list vararg) : prog unit :=
  vprintf fd false (bytes_of_string fmt) args.

Definition printf (fmt : string) (args : list vararg) : prog unit := fprintf 1 fmt args.
