(* ===== verification/Grep.v ===== *)
(** * grep (user/grep.c)

    The regular expression matcher and the loop over the lines of a file.  The
    reference for the matcher is the set of texts that a pattern denotes. *)

From S2P Require Import Prelude Monad Kstring Printf Uprog Ulib.

#[local] Open Scope prog_scope.

(** ** The matcher

    [matchstar] and [matchhere] are mutually recursive in C; the recursive call of
    matchhere on the rest of the pattern is an argument of [matchstar].  '*' is 42,
    '.' 46, '$' 36, '^' 94. *)

Fixpoint matchstar (here : list Z -> bool) (c : Z) (text : list Z) : bool :=
  here text ||
  match text with
  | [] => false
  | t :: text' => ((t =? c) || (c =? 46)) && matchstar here c text'
  end.

Fixpoint matchhere (re text : list Z) : bool :=
  match re with
  | [] => true
  | r0 :: re1 =>
      let step :=
        match text with
        | t :: text' => ((r0 =? 46) || (r0 =? t)) && matchhere re1 text'
        | [] => false
        end in
      match re1 with
      | r1 :: re2 => if r1 =? 42 then matchstar (matchhere re2) r0 text else step
      | [] => if r0 =? 36 then (match text with [] => true | _ => false end) else step
      end
  end.

(** The loop of match over the suffixes of the text. *)

Fixpoint match_from (re text : list Z) : bool :=
  matchhere re text || match text with [] => false | _ :: text' => match_from re text' end.

Definition re_match (re text : list Z) : bool :=
  match re with
  | r0 :: re' => if r0 =? 94 then matchhere re' text else match_from re text
  | [] => match_from re text
  end.

(** ** The loop over the lines

    [data] is buf[0..m].  strchr looks for a newline up to the first NUL; the lines
    that end are matched and printed, the rest is moved to the front of the buffer. *)

Fixpoint grep_lines (fuel : nat) (pattern data : list Z) : prog (list Z) :=
  match fuel with
  | O => More
  | S n =>
      match strchr (cstring data) 10 with
      | None => Done data
      | Some q =>
          let k := (length (cstring data) - length q)%nat in
          let p := take k data in
          (if re_match pattern p then sys_call (Swrite 1 (p ++ [10])) ;; Done tt else Done tt) ;;
          grep_lines n pattern (drop (S k) data)
      end
  end.

Definition sizeof_buf : Z := 1024.

Definition grep_round (pattern : list Z) (fd : Z) (data : list Z) : prog (list Z + unit) :=
  r <- sys_call (Sread fd (sizeof_buf - Z.of_nat (length data) - 1)) ;;
  if r.1 <=? 0 then Done (inr tt) else
  let data := data ++ take (Z.to_nat r.1) r.2 in
  rest <- grep_lines (S (length data)) pattern data ;;
  Done (inl rest).

Definition grep (fuel : nat) (pattern : list Z) (fd : Z) : prog unit :=
  ploop fuel (grep_round pattern fd) [].

Definition grep_main (fuel : nat) (argv : list (list Z)) : prog unit :=
  match argv with
  | _ :: pattern :: files =>
      match files with
      | [] => grep fuel pattern 0 ;; Exit 0
      | _ =>
          pfor files (fun f =>
            fd <- sys_call (Sopen f 0) ;;
            if fd <? 0 then printf "grep: cannot open %s
" [VStr (Some f)] ;; Exit 1 else
            grep fuel pattern fd ;;
            sys_call (Sclose fd) ;;
            Done tt) ;;
          Exit 0
      end
  | _ => fprintf 2 "usage: grep pattern [file ...]
" [] ;; Exit 1
  end.

(** ** What a pattern denotes *)

(** A pattern is a sequence of characters, each once or repeated, with an optional
    dollar sign at its end. *)

Inductive item := One (c : Z) | Many (c : Z).

Fixpoint items (re : list Z) : list item * bool :=
  match re with
  | [] => ([], false)
  | r0 :: re1 =>
      match re1 with
      | r1 :: re2 =>
          if r1 =? 42 then (Many r0 :: (items re2).1, (items re2).2)
          else (One r0 :: (items re1).1, (items re1).2)
      | [] => if r0 =? 36 then ([], true) else ([One r0], false)
      end
  end.

(** A dot stands for any character. *)

Definition accepts (c t : Z) : Prop := t = c \/ c = 46.

Inductive lang : list item -> list Z -> Prop :=
| lang_nil : lang [] []
| lang_one c t its w : accepts c t -> lang its w -> lang (One c :: its) (t :: w)
| lang_many c ts its w : Forall (accepts c) ts -> lang its w -> lang (Many c :: its) (ts ++ w).

(** [at_start re text]: a prefix of the text is in the language of the pattern, the
    whole text when the pattern ends in a dollar sign. *)

Definition at_start (re text : list Z) : Prop :=
  exists w post, text = w ++ post /\ lang (items re).1 w /\ ((items re).2 = true -> post = []).

(** What a file holds: its lines and what follows the last newline. *)

Fixpoint lines (data : list Z) : list (list Z) * list Z :=
  match data with
  | [] => ([], [])
  | c :: data' =>
      let '(ls, r) := lines data' in
      if c =? 10 then ([] :: ls, r)
      else match ls with [] => ([], c :: r) | l :: ls' => ((c :: l) :: ls', r) end
  end.

(** The lines that match, as they are printed. *)

Definition printed (re : list Z) (ls : list (list Z)) : list Z :=
  flat_map (fun l => if re_match re l then l ++ [10] else []) ls.

(** Every line fits the buffer of grep, with its newline and the NUL. *)

Definition short_lines (data : list Z) : Prop :=
  Forall (fun l => Z.of_nat (length l) < sizeof_buf - 1) (lines data).1 /\
  Z.of_nat (length (lines data).2) < sizeof_buf - 1.

(** What grep relies on of read and write: read gives at least one byte and no
    more than asked for while there are some, write appends to the output. *)

Record file_kernel {W} (h : kernel W) (fd : Z) (remaining output : W -> list Z) : Prop := {
  fk_read : forall n w, 0 < n -> remaining w <> [] ->
    exists k w', (0 < k <= length (remaining w))%nat /\ Z.of_nat k <= n /\
      h _ (Sread fd n) w = ((Z.of_nat k, take k (remaining w)), w') /\
      remaining w' = drop k (remaining w) /\ output w' = output w;
  fk_eof : forall n w, n <= 0 \/ remaining w = [] ->
    exists w', h _ (Sread fd n) w = ((0, []), w') /\ remaining w' = remaining w /\ output w' = output w;
  fk_write : forall bs w,
    exists w', h _ (Swrite 1 bs) w = (Z.of_nat (length bs), w') /\
      remaining w' = remaining w /\ output w' = output w ++ bs;
}.

(** ** Lemmas: the matcher *)

Lemma acceptsb c t : (t =? c) || (c =? 46) = true <-> accepts c t.
Proof. unfold accepts. rewrite orb_true_iff, !Z.eqb_eq. done. Qed.

Lemma matchstar_spec here c text :
  matchstar here c text = true <->
  exists ts rest, text = ts ++ rest /\ Forall (accepts c) ts /\ here rest = true.
Proof.
  induction text as [|t text IH]; simpl; rewrite orb_true_iff.
  - split.
    + intros [H|?]; [|done]. by exists [], [].
    + intros ([|] & rest & E & _ & H); [|done]. left. by simpl in E; subst.
  - rewrite andb_true_iff, acceptsb, IH. split.
    + intros [H|[Hc (ts & rest & -> & Hts & H)]]; [by exists [], (t :: text)|].
      exists (t :: ts), rest. split; [done|]. split; [by constructor|done].
    + intros (ts & rest & E & Hts & H). destruct ts as [|t' ts]; simplify_eq/=; [by left|].
      apply Forall_cons_1 in Hts as [? ?]. right. split; [done|]. by exists ts, rest.
Qed.

Lemma at_start_nil text : at_start [] text.
Proof. exists [], text. split; [done|]. split; [constructor|done]. Qed.

Lemma at_start_end text : at_start [36] text <-> text = [].
Proof.
  unfold at_start. simpl. split.
  - intros (w & post & -> & Hw & Hp). inversion Hw; subst. by rewrite Hp.
  - intros ->. exists [], []. split; [done|]. split; [constructor|done].
Qed.

Lemma at_start_many c re text :
  at_start (c :: 42 :: re) text <->
  exists ts rest, text = ts ++ rest /\ Forall (accepts c) ts /\ at_start re rest.
Proof.
  unfold at_start. simpl. split.
  - intros (w & post & -> & Hw & Hp). inversion Hw as [| |c' ts its w' Hts Hl]; subst.
    exists ts, (w' ++ post). split; [by rewrite app_assoc|]. split; [done|]. by exists w', post.
  - intros (ts & rest & -> & Hts & w & post & -> & Hw & Hp). exists (ts ++ w), post.
    split; [by rewrite app_assoc|]. split; [by constructor|done].
Qed.

Lemma at_start_one c re text :
  (items (c :: re)).1 = One c :: (items re).1 -> (items (c :: re)).2 = (items re).2 ->
  at_start (c :: re) text <-> exists t text', text = t :: text' /\ accepts c t /\ at_start re text'.
Proof.
  intros E1 E2. unfold at_start. rewrite E1, E2. split.
  - intros (w & post & -> & Hw & Hp). inversion Hw as [|c' t its w' Ht Hl|]; subst.
    exists t, (w' ++ post). split; [done|]. split; [done|]. by exists w', post.
  - intros (t & text' & -> & Ht & w & post & -> & Hw & Hp). exists (t :: w), post.
    split; [done|]. split; [by constructor|done].
Qed.

(** The step of matchhere for one character. *)

Lemma match_one c re text :
  (forall text, matchhere re text = true <-> at_start re text) ->
  match text with
  | t :: text' => ((c =? 46) || (c =? t)) && matchhere re text'
  | [] => false
  end = true <-> exists t text', text = t :: text' /\ accepts c t /\ at_start re text'.
Proof.
  intros IH. destruct text as [|t text'].
  - split; [done|]. by intros (? & ? & ? & _).
  - rewrite orb_comm, (Z.eqb_sym c t), andb_true_iff, acceptsb, IH. split.
    + intros [? ?]. by exists t, text'.
    + by intros (? & ? & [= <- <-] & ? & ?).
Qed.

Lemma matchhere_spec n re text :
  (length re <= n)%nat -> matchhere re text = true <-> at_start re text.
Proof.
  revert re text. induction n as [|n IH]; intros [|r0 re1] text Hn; simpl in Hn;
    try (split; [intros _; apply at_start_nil|done]); [lia|].
  destruct re1 as [|r1 re2]; cbn [matchhere].
  - destruct (Z.eqb_spec r0 36) as [->|H].
    + rewrite at_start_end. by destruct text.
    + rewrite at_start_one by (simpl; destruct (Z.eqb_spec r0 36); done).
      apply (match_one r0 []). intros t. split; [intros _; apply at_start_nil|done].
  - destruct (Z.eqb_spec r1 42) as [->|H].
    + rewrite at_start_many, matchstar_spec. apply exist_proper. intros ts. apply exist_proper. intros rest.
      rewrite IH by (simpl in Hn; lia). done.
    + rewrite at_start_one by (simpl; destruct (Z.eqb_spec r1 42); done).
      apply (match_one r0 (r1 :: re2)). intros t. apply IH. lia.
Qed.

Lemma match_from_spec re text :
  match_from re text = true <-> exists pre rest, text = pre ++ rest /\ at_start re rest.
Proof.
  induction text as [|t text IH]; simpl; rewrite orb_true_iff, (matchhere_spec (length re)) by done.
  - split.
    + intros [H|?]; [|done]. by exists [], [].
    + intros ([|] & rest & E & H); [|done]. left. by simpl in E; subst.
  - rewrite IH. split.
    + intros [H|(pre & rest & -> & H)]; [by exists [], (t :: text)|by exists (t :: pre), rest].
    + intros ([|t' pre] & rest & E & H); simplify_eq/=; [by left|]. right. by exists pre, rest.
Qed.

(** ** Lemmas: lines *)

Lemma lines_app a b :
  lines (a ++ b) = ((lines a).1 ++ (lines ((lines a).2 ++ b)).1, (lines ((lines a).2 ++ b)).2).
Proof.
  induction a as [|c a IH]; [simpl; by destruct (lines b)|]. cbn [app lines]. rewrite IH.
  destruct (lines a) as [ls r]. simpl. destruct (c =? 10) eqn:E; [done|].
  destruct ls as [|l ls]; simpl; [|done]. rewrite E. by destruct (lines (r ++ b)) as [[|l ls] r'].
Qed.

Lemma lines_plain data : Forall (fun c => c <> 10) data -> lines data = ([], data).
Proof.
  induction 1 as [|c data Hc H IH]; [done|]. simpl. rewrite IH.
  by destruct (Z.eqb_spec c 10).
Qed.

Lemma lines_rest data : Forall (fun c => c <> 10) (lines data).2.
Proof.
  induction data as [|c data IH]; [constructor|]. simpl. destruct (lines data) as [ls r].
  destruct (Z.eqb_spec c 10); [done|]. destruct ls as [|l ls]; [|done]. by constructor.
Qed.

Lemma lines_head p data :
  Forall (fun c => c <> 10) p -> lines (p ++ 10 :: data) = (p :: (lines data).1, (lines data).2).
Proof.
  induction 1 as [|c p Hc Hp IH]; simpl; [by destruct (lines data)|]. rewrite IH.
  by destruct (Z.eqb_spec c 10).
Qed.

Lemma strchr_None s c : strchr s c = None -> Forall (fun a => a <> c) s.
Proof.
  induction s as [|a s IH]; [constructor|]. simpl. destruct (Z.eqb_spec a c); [done|].
  intros H. constructor; auto.
Qed.

Lemma strchr_Some s c q :
  strchr s c = Some q -> exists p r, s = p ++ c :: r /\ q = c :: r /\ Forall (fun a => a <> c) p.
Proof.
  induction s as [|a s IH]; [done|]. simpl. destruct (Z.eqb_spec a c) as [->|Hne].
  - intros [= <-]. exists [], s. split; [done|]. split; [done|constructor].
  - intros (p & r & -> & -> & Hp)%IH. exists (a :: p), r. split; [done|]. split; [done|by constructor].
Qed.

Lemma cstring_nonul s : Forall (fun c => c <> 0) s -> cstring s = s.
Proof.
  induction 1 as [|c s Hc Hs IH]; [done|]. simpl. rewrite IH. by destruct (Z.eqb_spec c 0).
Qed.

Lemma lines_rest_Forall (P : Z -> Prop) data : Forall P data -> Forall P (lines data).2.
Proof.
  induction 1 as [|c d Hc Hd IH]; [constructor|]. simpl. destruct (lines d) as [ls r].
  destruct (c =? 10); [done|]. destruct ls; [by constructor|done].
Qed.

(** The start of a line is shorter than the buffer. *)

Lemma short_lines_room d x :
  Forall (fun c => c <> 10) d -> short_lines (d ++ x) -> Z.of_nat (length d) < sizeof_buf - 1.
Proof.
  intros Hd [H1 H2].
  assert ((exists l ls, (lines (d ++ x)).1 = (d ++ l) :: ls) \/
    (lines (d ++ x)).1 = [] /\ exists r, (lines (d ++ x)).2 = d ++ r) as [(l & ls & E)|(_ & r & E)].
  { clear H1 H2. induction Hd as [|c d Hc Hd IH]; simpl.
    - destruct (lines x) as [[|l ls] r]; [right; split; [done|by exists r]|left; by exists l, ls].
    - destruct (lines (d ++ x)) as [ls r]. destruct (Z.eqb_spec c 10); [done|].
      destruct IH as [(l & ls' & E)|(E & r' & E')]; simpl in *; subst; [left; by exists l, ls'|].
      right. split; [done|by exists r']. }
  - rewrite E in H1. apply Forall_cons_1 in H1 as [H1 _]. rewrite length_app in H1. lia.
  - rewrite E, length_app in H2. lia.
Qed.

Lemma short_lines_app a b : short_lines (a ++ b) -> short_lines ((lines a).2 ++ b).
Proof. unfold short_lines. rewrite lines_app. simpl. by intros [[_ ?]%Forall_app ?]. Qed.

Section Grep.
Context {W : Type} (h : kernel W) (fd : Z) (remaining output : W -> list Z).
Hypothesis Hk : file_kernel h fd remaining output.

Lemma grep_lines_run n re data w :
  (length data < n)%nat -> Forall (fun c => c <> 0) data ->
  exists w', prun h (grep_lines n re data) w = RDone (lines data).2 w' /\
    remaining w' = remaining w /\ output w' = output w ++ printed re (lines data).1.
Proof.
  revert data w. induction n as [|n IH]; intros data w Hn Hz; [lia|]. cbn [grep_lines].
  rewrite cstring_nonul by done. destruct (strchr data 10) as [q|] eqn:E.
  - apply strchr_Some in E as (p & r & -> & -> & Hp). rewrite length_app in *.
    replace (length p + length (10 :: r)%Z - length (10 :: r)%Z)%nat with (length p) by lia.
    rewrite take_app_length. replace (drop (S (length p)) (p ++ 10 :: r)) with r
      by (by rewrite <- Nat.add_1_r, drop_app_add).
    rewrite (lines_head p r Hp). cbn [fst snd printed flat_map].
    apply Forall_app in Hz as [_ Hz]. apply Forall_cons_1 in Hz as [_ Hz]. simpl in Hn.
    destruct (re_match re p).
    + destruct (fk_write _ _ _ _ Hk (p ++ [10]) w) as (w1 & Hw & Hr & Ho).
      destruct (IH r w1) as (w2 & H2 & Hr2 & Ho2); [lia|done|]. exists w2.
      split; [|split; [congruence|by rewrite Ho2, Ho, <- !app_assoc]].
      simpl. by rewrite Hw.
    + destruct (IH r w) as (w2 & H2 & Hr2 & Ho2); [lia|done|]. by exists w2.
  - apply strchr_None in E. rewrite lines_plain by done. exists w. simpl. by rewrite app_nil_r.
Qed.

(** A round that reads [k] bytes. *)

Lemma grep_round_run re data w k w1 :
  (0 < k <= length (remaining w))%nat -> Forall (fun c => c <> 0) (data ++ take k (remaining w)) ->
  h _ (Sread fd (sizeof_buf - Z.of_nat (length data) - 1)) w = ((Z.of_nat k, take k (remaining w)), w1) ->
  let data1 := data ++ take k (remaining w) in
  exists w2, prun h (grep_round re fd data) w = RDone (inl (lines data1).2) w2 /\
    remaining w2 = remaining w1 /\ output w2 = output w1 ++ printed re (lines data1).1.
Proof.
  intros Hk1 Hz Hr data1.
  destruct (grep_lines_run (S (length data1)) re data1 w1) as (w2 & H2 & Hr2 & Ho2); [lia|done|].
  exists w2. split; [|done]. unfold grep_round. rewrite (prun_call h _ _ _ _ _ Hr). cbn [fst snd].
  destruct (Z.leb_spec (Z.of_nat k) 0); [lia|]. rewrite Nat2Z.id, take_take, Nat.min_id. fold data1.
  by rewrite (prun_bind_Done _ _ _ _ _ _ H2).
Qed.

(** The loop, from a buffer that holds [data]. *)

Lemma grep_loop_run n re data w :
  (length (remaining w) < n)%nat -> Forall (fun c => c <> 0) (data ++ remaining w) ->
  Forall (fun c => c <> 10) data -> short_lines (data ++ remaining w) ->
  exists w', prun h (ploop n (grep_round re fd) data) w = RDone tt w' /\
    remaining w' = [] /\ output w' = output w ++ printed re (lines (data ++ remaining w)).1.
Proof.
  revert data w. induction n as [|n IH]; intros data w Hn Hz Hd Hl; [lia|]. cbn [ploop].
  pose proof (short_lines_room _ _ Hd Hl) as Hroom. destruct (decide (remaining w = [])) as [E|Hne].
  - destruct (fk_eof _ _ _ _ Hk (sizeof_buf - Z.of_nat (length data) - 1) w (or_intror E)) as (w' & Hr & Hr' & Ho).
    exists w'. rewrite E, app_nil_r, lines_plain by done. rewrite prun_bind. unfold grep_round at 1.
    rewrite (prun_call h _ _ _ _ _ Hr). split; [done|]. split; [congruence|]. by rewrite app_nil_r.
  - destruct (fk_read _ _ _ _ Hk (sizeof_buf - Z.of_nat (length data) - 1) w ltac:(lia) Hne)
      as (k & w1 & Hk1 & Hk2 & Hr & Hr1 & Ho1).
    set (data1 := data ++ take k (remaining w)).
    assert (data ++ remaining w = data1 ++ drop k (remaining w)) as Hsplit
      by (unfold data1; by rewrite <- app_assoc, take_drop).
    rewrite Hsplit in Hz, Hl |- *. apply Forall_app in Hz as [Hz1 Hz2].
    destruct (grep_round_run re data w k w1 Hk1 Hz1 Hr) as (w2 & H2 & Hr2 & Ho2). fold data1 in H2, Ho2.
    rewrite Hr1 in Hr2. destruct (IH (lines data1).2 w2) as (w3 & H3 & Hr3 & Ho3); rewrite ?Hr2.
    { rewrite length_drop. lia. }
    { apply Forall_app. split; [by apply lines_rest_Forall|done]. }
    { apply lines_rest. }
    { by apply (short_lines_app data1). }
    exists w3. split; [|split; [exact Hr3|]].
    + by rewrite (prun_bind_Done _ _ _ _ _ _ H2).
    + rewrite Ho3, Ho2, Ho1, <- app_assoc, Hr2, (lines_app data1 (drop k (remaining w))). cbn [fst].
      unfold printed. by rewrite flat_map_app.
Qed.

(** The loop on a line that does not end. *)

Lemma grep_long_loop n re data v :
  (1023 - length data < n)%nat -> (length data <= 1023)%nat -> (1023 <= length (data ++ remaining v))%nat ->
  Forall (fun c => c <> 0 /\ c <> 10) (take 1023 (data ++ remaining v)) ->
  exists w', prun h (ploop n (grep_round re fd) data) v = RDone tt w' /\
    remaining w' = drop (1023 - length data) (remaining v) /\ output w' = output v.
Proof.
  revert data v. induction n as [|n IH]; intros data v Hn Hd Hlen Hc; [lia|]. cbn [ploop].
  rewrite length_app in Hlen.
  destruct (decide (length data = 1023)%nat) as [E|Hne].
  - destruct (fk_eof _ _ _ _ Hk (sizeof_buf - Z.of_nat (length data) - 1) v) as (w' & Hr & Hr' & Ho).
    { left. unfold sizeof_buf. lia. }
    exists w'. rewrite prun_bind. unfold grep_round at 1. rewrite (prun_call h _ _ _ _ _ Hr). rewrite E. done.
  - destruct (fk_read _ _ _ _ Hk (sizeof_buf - Z.of_nat (length data) - 1) v) as (k & w1 & Hk1 & Hk2 & Hr & Hr1 & Ho1).
    { unfold sizeof_buf. lia. } { intros E. rewrite E in Hlen. simpl in Hlen. lia. }
    unfold sizeof_buf in Hk2. set (data1 := data ++ take k (remaining v)).
    assert (length data1 = (length data + k)%nat) as Hl1 by (unfold data1; rewrite length_app, length_take; lia).
    assert (data1 ++ remaining w1 = data ++ remaining v) as Hsame
      by (unfold data1; by rewrite Hr1, <- app_assoc, take_drop).
    assert (Forall (fun c => c <> 0 /\ c <> 10) data1) as Hc1.
    { rewrite <- Hsame, take_app_ge in Hc by lia. by apply Forall_app in Hc as [? _]. }
    destruct (grep_round_run re data v k w1 Hk1) as (w2 & H2 & Hr2 & Ho2); [|done|].
    { fold data1. eapply Forall_impl; [exact Hc1|]. by intros ? [? _]. }
    fold data1 in H2, Ho2. rewrite lines_plain in H2, Ho2 by (eapply Forall_impl; [exact Hc1|]; by intros ? [_ ?]).
    cbn [fst snd printed flat_map] in H2, Ho2. rewrite app_nil_r in Ho2.
    destruct (IH data1 w2) as (w3 & H3 & Hr3 & Ho3); rewrite ?Hr2, ?Hsame, ?length_app; try lia; [done|].
    exists w3. rewrite (prun_bind_Done _ _ _ _ _ _ H2). split; [exact H3|].
    rewrite Hr3, Hr2, Hr1, drop_drop. split; [f_equal; lia|congruence].
Qed.

End Grep.

(** ** The properties *)

(** C40: the matcher of grep is correct and complete for the patterns it reads: match
    returns true exactly when some part of the text is in the language of the
    pattern, at the start of the text when the pattern starts with a caret, up to
    its end when it ends in a dollar sign. *)
Theorem re_match_spec re text :
  re_match re text = true <->
  match re with
  | r0 :: re' => if r0 =? 94 then at_start re' text
                 else exists pre rest, text = pre ++ rest /\ at_start re rest
  | [] => True
  end.
Proof.
  destruct re as [|r0 re']; cbn [re_match].
  - rewrite match_from_spec. split; [done|]. intros _. exists [], text. split; [done|apply at_start_nil].
  - destruct (r0 =? 94); [apply (matchhere_spec (length re')); done|apply match_from_spec].
Qed.

(** Grep prints the lines of a file that match, each with its newline and in
    their order, and then stops, however the file is cut into pieces by read,
    provided that every line fits its buffer and the file holds no NUL. *)
Theorem grep_prints {W} (h : kernel W) fd remaining output re w :
  file_kernel h fd remaining output ->
  Forall (fun c => c <> 0) (remaining w) -> short_lines (remaining w) ->
  exists w', prun h (grep (S (length (remaining w))) re fd) w = RDone tt w' /\
    remaining w' = [] /\ output w' = output w ++ printed re (lines (remaining w)).1.
Proof.
  intros Hk Hz Hs. apply (grep_loop_run h fd remaining output Hk); [lia|done|constructor|done].
Qed.

(** A line of 1023 characters or more ends grep: when no line ends in the first
    1023 bytes that are left of a file, grep returns without reading further and
    without an error, and nothing more of the file is matched or printed. *)
Theorem grep_long_line {W} (h : kernel W) fd remaining output re w :
  file_kernel h fd remaining output -> (1023 <= length (remaining w))%nat ->
  Forall (fun c => c <> 0 /\ c <> 10) (take 1023 (remaining w)) ->
  exists w', prun h (grep 1024 re fd) w = RDone tt w' /\
    remaining w' = drop 1023 (remaining w) /\ output w' = output w.
Proof.
  intros Hk Hlen Hc.
  destruct (grep_long_loop h fd remaining output Hk 1024 re [] w) as (w' & ?); simpl; try lia; [done|].
  by exists w'.
Qed.
