(* ===== verification/Umalloc.v ===== *)
(** * The user memory allocator (user/umalloc.c)

    The allocator of Kernighan and Ritchie: a circular list of free blocks in the
    order of their addresses, which starts at the static header [base]; malloc is
    first fit from where the last search ended, free puts a block back in its place
    and joins it with its neighbours.

    A heap is the headers that have been written, by address, with freep and the
    break.  The payload of blocks is not modelled: a program that writes outside
    the blocks it got may destroy headers. *)

From S2P Require Import Prelude Monad.

(** union header. *)

Record header := mk_header {
  h_ptr : Z;
  h_size : Z;
}.

Record heap := mk_heap {
  hp_mem : gmap Z header;
  hp_freep : Z;
  hp_brk : Z;
}.

Definition set_hp_mem (v : gmap Z header) (s : heap) : heap := mk_heap v (hp_freep s) (hp_brk s).
Definition set_hp_freep (v : Z) (s : heap) : heap := mk_heap (hp_mem s) v (hp_brk s).
Definition set_hp_brk (v : Z) (s : heap) : heap := mk_heap (hp_mem s) (hp_freep s) v.

Definition sizeof_Header : Z := 16.

(** Pointer arithmetic on Header*. *)

Definition hdr_add (p n : Z) : Z := p + sizeof_Header * n.

Section Umalloc.

(** The address of [base], the start of the heap, and whether the kernel grants
    [n] more bytes when the break is at [brk]. *)

Context (base heap0 : Z) (grants : Z -> Z -> bool).

Definition in_heap (s : heap) (a : Z) : bool :=
  (a =? base) || ((heap0 <=? a) && (a + sizeof_Header <=? hp_brk s)).

Definition get_hdr (a : Z) : M heap header := m <- gets hp_mem ;; valid (m !! a).

Definition mod_hdr (a : Z) (f : header -> header) : M heap unit :=
  ok <- gets (fun s => in_heap s a) ;;
  if negb ok then fault else
  modify (fun s => set_hp_mem (<[a := f (default (mk_header 0 0) (hp_mem s !! a))]> (hp_mem s)) s).

Definition set_ptr (a v : Z) : M heap unit := mod_hdr a (fun h => mk_header v (h_size h)).
Definition set_size (a v : Z) : M heap unit := mod_hdr a (fun h => mk_header (h_ptr h) (u32 v)).

(** The system call; its argument is an int. *)

Definition sbrk (n : Z) : M heap Z :=
  brk <- gets hp_brk ;;
  if grants brk (i32 n) then modify (set_hp_brk (brk + i32 n)) ;; ret brk else ret (-1).

(** The number of headers bounds a walk around the list. *)

Definition nheaders : M heap nat := gets (fun s => size (hp_mem s)).

Definition free (ap : Z) : M heap unit :=
  let bp := hdr_add ap (-1) in
  p0 <- gets hp_freep ;;
  n <- nheaders ;;
  p <- loop (S n) (fun p =>
    h <- get_hdr p ;;
    if (p <? bp) && (bp <? h_ptr h) then ret (inr p)
    else if (h_ptr h <=? p) && ((p <? bp) || (bp <? h_ptr h)) then ret (inr p)
    else ret (inl (h_ptr h))) p0 ;;
  hp <- get_hdr p ;;
  hb <- get_hdr bp ;;
  (if hdr_add bp (h_size hb) =? h_ptr hp then
     hn <- get_hdr (h_ptr hp) ;;
     set_size bp (h_size hb + h_size hn) ;;
     set_ptr bp (h_ptr hn)
   else set_ptr bp (h_ptr hp)) ;;
  hp <- get_hdr p ;;
  (if hdr_add p (h_size hp) =? bp then
     hb <- get_hdr bp ;;
     set_size p (h_size hp + h_size hb) ;;
     set_ptr p (h_ptr hb)
   else set_ptr p bp) ;;
  modify (set_hp_freep p).

Definition morecore (nu : Z) : M heap Z :=
  let nu := if nu <? 4096 then 4096 else nu in
  p <- sbrk (nu * sizeof_Header) ;;
  if p =? -1 then ret 0 else
  set_size p nu ;;
  free (hdr_add p 1) ;;
  gets hp_freep.

(** Taking [nunits] units from the block [p], the one after [prevp]. *)

Definition take_block (nunits prevp p : Z) : M heap Z :=
  h <- get_hdr p ;;
  p <- (if h_size h =? nunits then set_ptr prevp (h_ptr h) ;; ret p
        else
          set_size p (h_size h - nunits) ;;
          h <- get_hdr p ;;
          let p := hdr_add p (h_size h) in
          set_size p nunits ;;
          ret p) ;;
  modify (set_hp_freep prevp) ;;
  ret (hdr_add p 1).

(** One round of the loop of malloc, at [st = (prevp, p)]. *)

Definition malloc_round (nunits : Z) (st : Z * Z) : M heap (Z * Z + Z) :=
  let '(prevp, p) := st in
  h <- get_hdr p ;;
  if nunits <=? h_size h then r <- take_block nunits prevp p ;; ret (inr r) else
  freep <- gets hp_freep ;;
  if p =? freep then
    p <- morecore nunits ;;
    if p =? 0 then ret (inr 0) else
    h <- get_hdr p ;;
    ret (inl (p, h_ptr h))
  else ret (inl (p, h_ptr h)).

Definition malloc_units (nbytes : Z) : Z := u32 ((nbytes + sizeof_Header - 1) / sizeof_Header + 1).

(** The list is walked at most twice, the second time with a block more. *)

Definition malloc (nbytes : Z) : M heap Z :=
  let nunits := malloc_units nbytes in
  prevp <- gets hp_freep ;;
  prevp <- (if prevp =? 0 then
              set_ptr base base ;;
              modify (set_hp_freep base) ;;
              set_size base 0 ;;
              ret base
            else ret prevp) ;;
  n <- nheaders ;;
  h <- get_hdr prevp ;;
  loop (2 * n + 4) (malloc_round nunits) (prevp, h_ptr h).

(** ** The heap as blocks

    A block is a pair of the address of its header and its number of units, the
    header included. *)

Definition first (l : list (Z * Z)) (endp : Z) : Z :=
  match l with [] => endp | x :: _ => x.1 end.

(** The headers of a list of blocks: each holds its size and points to the next,
    the last to [endp]. *)

Fixpoint links (m : gmap Z header) (l : list (Z * Z)) (endp : Z) : Prop :=
  match l with
  | [] => True
  | x :: l' => m !! x.1 = Some (mk_header (first l' endp) x.2) /\ links m l' endp
  end.

(** Blocks in the order of their addresses, after [lo] and with a gap before each,
    up to [hi]. *)

Fixpoint sorted (lo hi : Z) (l : list (Z * Z)) : Prop :=
  match l with
  | [] => lo <= hi
  | x :: l' => lo < x.1 /\ 0 <= x.2 /\ sorted (hdr_add x.1 x.2) hi l'
  end.

(** Two blocks do not overlap. *)

Definition apart (x y : Z * Z) : Prop :=
  hdr_add x.1 x.2 <= y.1 \/ hdr_add y.1 y.2 <= x.1.

(** The units of a list of blocks, and of the allocated blocks. *)

Definition units (l : list (Z * Z)) : Z := foldr (fun x n => x.2 + n) 0 l.
Definition alloc_units (al : gmap Z Z) : Z := map_fold (fun _ n t => n + t) 0 al.

(** [arena s fl al]: the free blocks are [fl], the allocated ones [al], by the
    address of their header, and together they are the whole heap. *)

Record arena (s : heap) (fl : list (Z * Z)) (al : gmap Z Z) : Prop := {
  ar_list : hp_freep s = 0 /\ fl = [] /\ al = ∅ \/
            links (hp_mem s) ((base, 0) :: fl) base /\ hp_freep s ∈ base :: fl.*1;
  ar_sorted : sorted base (hp_brk s) fl;
  ar_bounds : 0 < base /\ base + sizeof_Header <= heap0 /\ heap0 <= hp_brk s <= 2 ^ 36;
  ar_free : Forall (fun x => heap0 <= x.1 /\ 0 < x.2) fl;
  ar_alloc : forall b n, al !! b = Some n ->
    0 < n /\ heap0 <= b /\ hdr_add b n <= hp_brk s /\ h_size <$> hp_mem s !! b = Some n;
  ar_apart : forall b n, al !! b = Some n -> Forall (apart (b, n)) fl;
  ar_apart2 : forall b n c k, al !! b = Some n -> al !! c = Some k -> b <> c -> apart (b, n) (c, k);
  ar_all : hdr_add heap0 (units fl + alloc_units al) = hp_brk s;
}.

(** Putting a block before the next one, or joining the two. *)

Definition join (x : Z * Z) (l : list (Z * Z)) : list (Z * Z) :=
  match l with
  | y :: l' => if hdr_add x.1 x.2 =? y.1 then (x.1, x.2 + y.2) :: l' else x :: l
  | [] => [x]
  end.

(** ** Lemmas: lists of blocks *)

Lemma first_app l1 l2 e : first (l1 ++ l2) e = first l1 (first l2 e).
Proof. by destruct l1. Qed.

Lemma links_app m l1 l2 e : links m (l1 ++ l2) e <-> links m l1 (first l2 e) /\ links m l2 e.
Proof.
  induction l1 as [|x l1 IH]; simpl; [tauto|]. rewrite first_app, IH. tauto.
Qed.

Lemma links_insert m a h l e : a ∉ l.*1 -> links m l e -> links (<[a := h]> m) l e.
Proof.
  induction l as [|x l IH]; [done|]. rewrite fmap_cons, not_elem_of_cons. simpl.
  intros [Hne Hl] [Hx Hr]. split; [by rewrite lookup_insert_ne|auto].
Qed.

Lemma links_ext m m' l e :
  (forall a, a ∈ l.*1 -> m' !! a = m !! a) -> links m l e -> links m' l e.
Proof.
  induction l as [|x l IH]; [done|]. rewrite fmap_cons. simpl. intros H [Hx Hl].
  split; [rewrite H; [done|by left]|]. apply IH; [|done]. intros a Ha. apply H. by right.
Qed.

Lemma links_lookup m l e x :
  links m l e -> x ∈ l -> exists q, m !! x.1 = Some (mk_header q x.2).
Proof.
  induction l as [|y l IH]; [by intros _ ?%elem_of_nil|]. simpl. intros [Hy Hl] [->|Hx]%elem_of_cons; eauto.
Qed.

Lemma links_size m l e : links m l e -> NoDup l.*1 -> (length l <= size m)%nat.
Proof.
  intros Hl Hn. rewrite <- (length_fmap fst l), <- (size_list_to_set (C:=gset Z)) by done.
  rewrite <- size_dom. apply subseteq_size. intros a [x [-> Hx]]%elem_of_list_to_set%list_elem_of_fmap.
  destruct (links_lookup m l e x Hl Hx) as [q Hq]. by apply elem_of_dom_2 in Hq.
Qed.

(** The end of the last block. *)

Fixpoint end_of (lo : Z) (l : list (Z * Z)) : Z :=
  match l with [] => lo | x :: l' => end_of (hdr_add x.1 x.2) l' end.

Lemma sorted_app lo hi l1 l2 :
  sorted lo hi (l1 ++ l2) <-> sorted lo (end_of lo l1) l1 /\ sorted (end_of lo l1) hi l2.
Proof.
  revert lo. induction l1 as [|x l1 IH]; intros lo; simpl; [split; [split; [lia|done]|tauto]|].
  rewrite IH. tauto.
Qed.

Lemma sorted_le lo hi l : sorted lo hi l -> lo <= hi.
Proof.
  revert lo. induction l as [|x l IH]; intros lo; simpl; [done|].
  intros (H1 & H2 & H3%IH). unfold hdr_add, sizeof_Header in *. lia.
Qed.

Lemma sorted_bounds lo hi l x :
  sorted lo hi l -> x ∈ l -> lo < x.1 /\ 0 <= x.2 /\ hdr_add x.1 x.2 <= hi.
Proof.
  revert lo. induction l as [|y l IH]; intros lo; [by intros _ ?%elem_of_nil|]. simpl.
  intros (H1 & H2 & H3) [->|Hx]%elem_of_cons.
  - apply sorted_le in H3. done.
  - destruct (IH _ H3 Hx) as (H4 & H5 & H6). unfold hdr_add, sizeof_Header in *. lia.
Qed.

Lemma sorted_lower lo lo' hi l : sorted lo hi l -> lo' <= lo -> sorted lo' hi l.
Proof. destruct l; simpl; intros; [lia|]. intuition lia. Qed.

Lemma sorted_upper lo hi hi' l : sorted lo hi l -> hi <= hi' -> sorted lo hi' l.
Proof.
  revert lo. induction l as [|x l IH]; intros lo; simpl; [lia|]. intros (? & ? & ?) ?. auto.
Qed.

Lemma sorted_nodup lo hi l : sorted lo hi l -> NoDup l.*1.
Proof.
  revert lo. induction l as [|x l IH]; intros lo; simpl; [constructor|].
  intros (H1 & H2 & H3). constructor; [|by eapply IH].
  intros [y [E Hy]]%list_elem_of_fmap. destruct (sorted_bounds _ _ _ _ H3 Hy) as (H4 & _).
  unfold hdr_add, sizeof_Header in H4. lia.
Qed.

Lemma units_app l1 l2 : units (l1 ++ l2) = units l1 + units l2.
Proof. induction l1 as [|x l1 IH]; simpl; [done|]. rewrite IH. lia. Qed.

Lemma units_nonneg lo hi l : sorted lo hi l -> 0 <= units l.
Proof.
  revert lo. induction l as [|x l IH]; intros lo; simpl; [lia|].
  intros (_ & ? & Hl). specialize (IH _ Hl). lia.
Qed.

Lemma units_join x l : units (join x l) = x.2 + units l.
Proof. destruct l as [|y l]; simpl; [lia|]. destruct (_ =? _); simpl; lia. Qed.

Lemma first_join x l e : first (join x l) e = x.1.
Proof. destruct l as [|y l]; simpl; [done|]. by destruct (_ =? _). Qed.

(** A block may touch the next one before they are joined. *)

Definition loose (lo hi : Z) (l : list (Z * Z)) : Prop :=
  match l with
  | [] => lo <= hi
  | x :: l' => lo <= x.1 /\ 0 <= x.2 /\ sorted (hdr_add x.1 x.2) hi l'
  end.

Lemma sorted_loose lo hi l : sorted lo hi l -> loose lo hi l.
Proof. destruct l; simpl; [done|]. intuition lia. Qed.

Lemma sorted_join lo hi x l :
  lo < x.1 -> 0 <= x.2 -> loose (hdr_add x.1 x.2) hi l -> sorted lo hi (join x l).
Proof.
  intros Hx Hn Hl. destruct l as [|y l]; simpl in *; [done|]. destruct Hl as (H1 & H2 & H3).
  destruct (Z.eqb_spec (hdr_add x.1 x.2) y.1) as [E|E]; simpl.
  - split; [done|]. split; [lia|]. unfold hdr_add, sizeof_Header in *.
    replace (x.1 + 16 * (x.2 + y.2)) with (y.1 + 16 * y.2) by lia. done.
  - split; [done|]. split; [done|]. split; [lia|done].
Qed.

Lemma loose_join lo hi x l :
  lo <= x.1 -> 0 <= x.2 -> loose (hdr_add x.1 x.2) hi l -> loose lo hi (join x l).
Proof.
  intros Hx Hn Hl. pose proof (sorted_join (x.1 - 1) hi x l ltac:(lia) Hn Hl) as Hs.
  pose proof (first_join x l (x.1 - 1)) as Hf. destruct (join x l) as [|z l']; simpl in *; [lia|].
  destruct Hs as (_ & ? & ?). split; [lia|done].
Qed.

(** A property of blocks that holds of the joined ones. *)

Lemma Forall_join (P : Z * Z -> Prop) x l :
  P x -> Forall P l ->
  (forall y, P y -> hdr_add x.1 x.2 = y.1 -> P (x.1, x.2 + y.2)) -> Forall P (join x l).
Proof.
  intros Hx Hl Hj. destruct Hl as [|y l Hy Hl]; simpl; [by apply Forall_singleton|].
  destruct (Z.eqb_spec (hdr_add x.1 x.2) y.1); constructor; auto.
Qed.

Lemma apart_join z x y :
  0 < z.2 -> hdr_add x.1 x.2 = y.1 -> apart z x -> apart z y -> apart z (x.1, x.2 + y.2).
Proof. unfold apart, hdr_add, sizeof_Header. simpl. intros; lia. Qed.

(** ** Lemmas: the operations on headers *)

Lemma runs_get_hdr a h s : hp_mem s !! a = Some h -> runs (get_hdr a) s h s.
Proof. intros H. eapply runs_bind; [apply runs_gets|by apply runs_valid]. Qed.

Lemma runs_set_ptr a v h s :
  in_heap s a = true -> hp_mem s !! a = Some h ->
  runs (set_ptr a v) s tt (set_hp_mem (<[a := mk_header v (h_size h)]> (hp_mem s)) s).
Proof.
  intros Hin Ha. eapply runs_bind; [apply runs_gets|]. rewrite Hin. simpl. intros e. unfold modify.
  by rewrite Ha.
Qed.

Lemma runs_set_size a v h s :
  in_heap s a = true -> hp_mem s !! a = Some h -> 0 <= v < 2 ^ 32 ->
  runs (set_size a v) s tt (set_hp_mem (<[a := mk_header (h_ptr h) v]> (hp_mem s)) s).
Proof.
  intros Hin Ha Hv. eapply runs_bind; [apply runs_gets|]. rewrite Hin. simpl. intros e. unfold modify.
  by rewrite Ha, u32_small.
Qed.

Lemma in_heap_block s a n :
  heap0 <= a -> 0 < n -> hdr_add a n <= hp_brk s -> in_heap s a = true.
Proof.
  intros. unfold in_heap, hdr_add, sizeof_Header in *. apply orb_true_intro. right.
  apply andb_true_intro. split; apply Z.leb_le; lia.
Qed.

Lemma in_heap_base s : in_heap s base = true.
Proof. unfold in_heap. by rewrite Z.eqb_refl. Qed.

(** The code that sets the pointer of the block [a] to the block [nx] after it, or
    joins the two. *)

Lemma runs_join s a n g l e :
  in_heap s a = true -> hp_mem s !! a = Some (mk_header g n) -> links (hp_mem s) l e ->
  a ∉ l.*1 -> hdr_add a n <> e \/ l <> [] -> 0 <= n -> Forall (fun y => 0 <= y.2) l ->
  n + units l < 2 ^ 32 ->
  exists k l', join (a, n) l = (a, k) :: l' /\
    let s' := set_hp_mem (<[a := mk_header (first l' e) k]> (hp_mem s)) s in
    runs (if hdr_add a n =? first l e then
            hn <- get_hdr (first l e) ;;
            set_size a (n + h_size hn) ;;
            set_ptr a (h_ptr hn)
          else set_ptr a (first l e)) s tt s' /\
    links (hp_mem s') l' e.
Proof.
  intros Hin Ha Hl Hna Hend Hn Hpos Hu. destruct l as [|y l].
  - destruct Hend as [Hend|]; [|done]. simpl. apply Z.eqb_neq in Hend. rewrite Hend.
    exists n, []. split; [done|]. split; [|done]. by apply (runs_set_ptr a e _ s Hin Ha).
  - destruct Hl as [Hy Hl]. rewrite fmap_cons, not_elem_of_cons in Hna. destruct Hna as [Hay Hna].
    cbn [join first fst snd] in *. destruct (Z.eqb_spec (hdr_add a n) y.1) as [E|E].
    + exists (n + y.2), l. split; [done|]. split; [|by apply links_insert].
      eapply runs_bind; [by apply runs_get_hdr|]. cbn [h_size h_ptr].
      eapply runs_bind; [apply (runs_set_size a _ _ s Hin Ha)|].
      * apply Forall_cons_1 in Hpos as [Hy0 Hpos]. assert (0 <= units l).
        { clear -Hpos. induction Hpos as [|z l Hz Hpos IH]; simpl; lia. }
        simpl in Hu. lia.
      * pose proof (runs_set_ptr a (first l e) _ (set_hp_mem (<[a := mk_header g (n + y.2)]> (hp_mem s)) s)
          Hin (lookup_insert_eq _ _ _)) as H.
        unfold set_hp_mem in H. simpl in H. rewrite insert_insert_eq in H. exact H.
    + exists n, (y :: l). split; [done|]. split; [by apply (runs_set_ptr a y.1 _ s Hin Ha)|].
      cbn. split; [by rewrite lookup_insert_ne|by apply links_insert].
Qed.

(** ** Lemmas: the walk of free *)

(** The test of the loop, for a block at [p] whose pointer is [q]. *)

Definition stops (bp p q : Z) : bool :=
  (p <? bp) && (bp <? q) || (q <=? p) && ((p <? bp) || (bp <? q)).

Definition walk_round (bp p : Z) : M heap (Z + Z) :=
  h <- get_hdr p ;;
  if (p <? bp) && (bp <? h_ptr h) then ret (inr p)
  else if (h_ptr h <=? p) && ((p <? bp) || (bp <? h_ptr h)) then ret (inr p)
  else ret (inl (h_ptr h)).

Lemma runs_walk_round bp p q n s :
  hp_mem s !! p = Some (mk_header q n) ->
  runs (walk_round bp p) s (if stops bp p q then inr p else inl q) s.
Proof.
  intros H. eapply runs_bind; [by apply runs_get_hdr|]. unfold stops. cbn [h_ptr].
  destruct ((p <? bp) && (bp <? q)); [apply runs_ret|]. simpl.
  destruct ((q <=? p) && _); apply runs_ret.
Qed.

(** A path of blocks where the walk does not stop, to one where it does. *)

Fixpoint passes (bp : Z) (path : list (Z * Z)) (e : Z) : Prop :=
  match path with [] => True | x :: path' => stops bp x.1 (first path' e) = false /\ passes bp path' e end.

Lemma passes_app bp l1 l2 e : passes bp (l1 ++ l2) e <-> passes bp l1 (first l2 e) /\ passes bp l2 e.
Proof. induction l1 as [|x l1 IH]; simpl; [tauto|]. rewrite first_app, IH. tauto. Qed.

Lemma runs_free_walk bp path p q n s fuel :
  links (hp_mem s) path p -> passes bp path p -> hp_mem s !! p = Some (mk_header q n) ->
  stops bp p q = true -> (length path < fuel)%nat ->
  runs (loop fuel (walk_round bp) (first path p)) s p s.
Proof.
  revert fuel. induction path as [|x path IH]; intros [|fuel] Hl Hp Hq Hs Hf; simpl in Hf; try lia.
  - apply runs_loop_stop. pose proof (runs_walk_round bp p q n s Hq) as H. by rewrite Hs in H.
  - destruct Hl as [Hx Hl], Hp as [Hns Hp]. eapply runs_loop_next.
    + pose proof (runs_walk_round bp x.1 _ _ s Hx) as H. rewrite Hns in H. exact H.
    + apply IH; try done. lia.
Qed.

(** Blocks before [bp] and blocks after it are passed. *)

Lemma passes_before bp lo hi l p :
  sorted lo hi l -> hi < p -> p < bp -> passes bp l p.
Proof.
  revert lo. induction l as [|x l IH]; intros lo; simpl; [done|]. intros (H1 & H2 & H3) Hhi Hp.
  split; [|by eapply IH]. apply sorted_le in H3 as Hle.
  assert (x.1 < first l p < bp) as Hf.
  { destruct l as [|y l]; simpl in *; [unfold hdr_add, sizeof_Header in *; lia|].
    destruct H3 as (H4 & H5 & H6%sorted_le). unfold hdr_add, sizeof_Header in *. lia. }
  unfold stops. destruct (Z.ltb_spec bp (first l p)); [lia|]. destruct (Z.leb_spec (first l p) x.1); [lia|].
  by rewrite andb_false_r.
Qed.

Lemma passes_after bp lo hi l e :
  sorted lo hi l -> Forall (fun x => bp < x.1) l -> e < bp -> passes bp l e.
Proof.
  revert lo. induction l as [|x l IH]; intros lo; simpl; [done|].
  intros (H1 & H2 & H3) [Hx Hl]%Forall_cons_1 He. split; [|by eapply IH].
  unfold stops. destruct (Z.ltb_spec x.1 bp); [lia|]. simpl. destruct l as [|y l]; simpl in *.
  - destruct (Z.ltb_spec bp e); [lia|]. apply andb_false_r.
  - destruct (Z.leb_spec y.1 x.1); [unfold hdr_add, sizeof_Header in *; lia|done].
Qed.

(** The place of a block that is apart from the free ones. *)

Lemma place_of lo hi l bp n :
  sorted lo hi l -> Forall (fun x => 0 < x.2) l -> Forall (apart (bp, n)) l -> 0 < n ->
  exists l1 l2, l = l1 ++ l2 /\ Forall (fun x => hdr_add x.1 x.2 <= bp) l1 /\
    Forall (fun x => hdr_add bp n <= x.1) l2.
Proof.
  revert lo. induction l as [|x l IH]; intros lo; simpl; [by exists [], []|].
  intros (H1 & H2 & H3) [Hx Hl]%Forall_cons_1 [Ha Hal]%Forall_cons_1 Hn. destruct Ha as [Ha|Ha].
  - exists [], (x :: l). split; [done|]. split; [constructor|]. constructor; [done|].
    apply Forall_forall. intros y Hy. destruct (sorted_bounds _ _ _ _ H3 Hy) as (H4 & _).
    simpl in *. unfold hdr_add, sizeof_Header in *. lia.
  - destruct (IH _ H3 Hl Hal Hn) as (l1 & l2 & -> & Hl1 & Hl2). exists (x :: l1), l2.
    split; [done|]. split; [by constructor|done].
Qed.

(** The way from any block of the circle to the one before [bp]. *)

Lemma path_to bp lo hi A p k l2 f m :
  sorted lo hi (A ++ (p, k) :: l2) -> links m (A ++ (p, k) :: l2) base -> first (A ++ [(p, k)]) 0 = base ->
  f ∈ (A ++ (p, k) :: l2).*1 -> p < bp -> base < bp -> Forall (fun x => bp < x.1) l2 -> 0 <= k ->
  exists path, first path p = f /\ links m path p /\ passes bp path p /\
    (length path <= length (A ++ (p, k) :: l2))%nat.
Proof.
  intros Hs Hl Hb Hf Hp Hbb H2 Hk. apply sorted_app in Hs as [HsA (Hs1 & Hs2 & Hs3)].
  apply links_app in Hl as [HlA [Hlp Hl2]]. simpl in HlA, Hs1, Hs2, Hs3.
  pose proof (passes_before bp _ _ A p HsA Hs1 Hp) as HpA.
  pose proof (passes_after bp _ _ l2 base Hs3 H2 Hbb) as Hp2.
  rewrite fmap_app, fmap_cons, elem_of_app, elem_of_cons in Hf. destruct Hf as [Hf|[->|Hf]].
  - apply list_elem_of_fmap in Hf as (x & -> & Hx). apply list_elem_of_split in Hx as (X & Y & ->).
    exists (x :: Y). apply links_app in HlA as [_ HlA]. apply passes_app in HpA as [_ HpA].
    split; [done|]. split; [done|]. split; [done|]. rewrite !length_app. simpl. lia.
  - exists []. split; [done|]. split; [done|]. split; [done|]. simpl. lia.
  - apply list_elem_of_fmap in Hf as (x & -> & Hx). apply list_elem_of_split in Hx as (X & Y & ->).
    apply links_app in Hl2 as [_ Hl2]. apply passes_app in Hp2 as [_ Hp2].
    assert (first A p = base) as HA by (rewrite <- Hb, first_app; done).
    exists ((x :: Y) ++ A). split; [done|]. rewrite links_app, passes_app, HA. split; [done|].
    split; [done|]. rewrite !length_app. simpl. rewrite length_app. simpl. lia.
Qed.

(** ** Lemmas: free

    A list of free blocks that is in order, without the allocated ones. *)

Record free_list (s : heap) (fl : list (Z * Z)) : Prop := {
  fr_links : links (hp_mem s) ((base, 0) :: fl) base;
  fr_freep : hp_freep s ∈ base :: fl.*1;
  fr_sorted : sorted base (hp_brk s) fl;
  fr_bounds : 0 < base /\ base + sizeof_Header <= heap0 /\ heap0 <= hp_brk s <= 2 ^ 36;
  fr_free : Forall (fun x => heap0 <= x.1 /\ 0 < x.2) fl;
}.

(** A block that is not in the list. *)

Record loose_block (s : heap) (fl : list (Z * Z)) (bp n : Z) : Prop := {
  lb_size : h_size <$> hp_mem s !! bp = Some n;
  lb_pos : 0 < n;
  lb_lo : heap0 <= bp;
  lb_hi : hdr_add bp n <= hp_brk s;
  lb_apart : Forall (apart (bp, n)) fl;
}.

(** The block joined into the list. *)

Definition inserted (A : list (Z * Z)) (p k bp n : Z) (l2 : list (Z * Z)) : list (Z * Z) :=
  A ++ join (p, k) (join (bp, n) l2).

Lemma Forall_inserted (P : Z * Z -> Prop) A p k bp n l2 :
  Forall P (A ++ (p, k) :: l2) -> P (bp, n) ->
  (forall x y, P x -> P y -> hdr_add x.1 x.2 = y.1 -> P (x.1, x.2 + y.2)) ->
  Forall P (inserted A p k bp n l2).
Proof.
  intros [HA [Hp Hl]%Forall_cons_1]%Forall_app Hb Hj. apply Forall_app. split; [done|].
  apply Forall_join; [done| |intros; by apply Hj]. apply Forall_join; [done|done|intros; by apply Hj].
Qed.

Lemma sorted_inserted lo hi A p k bp n l2 :
  sorted lo hi (A ++ (p, k) :: l2) -> hdr_add p k <= bp -> 0 < n -> hdr_add bp n <= hi ->
  Forall (fun x => hdr_add bp n <= x.1) l2 -> sorted lo hi (inserted A p k bp n l2).
Proof.
  intros [HA (H1 & H2 & H3)]%sorted_app Hp Hn Hhi Hl2. apply sorted_app. split; [done|].
  apply sorted_join; [done|done|]. apply loose_join; [done|simpl; lia|].
  destruct l2 as [|y l2]; simpl in *; [done|]. apply Forall_cons_1 in Hl2 as [Hy _]. tauto.
Qed.

Lemma units_inserted A p k bp n l2 :
  units (inserted A p k bp n l2) = units (A ++ (p, k) :: l2) + n.
Proof. unfold inserted. rewrite !units_app, !units_join. simpl. lia. Qed.

Lemma length_inserted A p k bp n l2 :
  (length (inserted A p k bp n l2) <= S (length (A ++ (p, k) :: l2)))%nat.
Proof.
  assert (forall x l, (length (join x l) <= S (length l))%nat) as H.
  { intros x [|y l]; simpl; [lia|]. destruct (_ =? _); simpl; lia. }
  unfold inserted. rewrite !length_app. simpl. pose proof (H (p, k) (join (bp, n) l2)).
  pose proof (H (bp, n) l2). lia.
Qed.

Lemma first_inserted A p k bp n l2 e : first (inserted A p k bp n l2) e = first (A ++ [(p, k)]) e.
Proof. unfold inserted. rewrite !first_app, first_join. done. Qed.

(** The two joins of free, and what they leave alone. *)

Lemma runs_joins s A p k bp n g l2 :
  sorted (base - 1) (hp_brk s) (A ++ (p, k) :: l2) -> links (hp_mem s) (A ++ (p, k) :: l2) base ->
  in_heap s p = true -> in_heap s bp = true -> hp_mem s !! bp = Some (mk_header g n) ->
  hdr_add p k <= bp -> p < bp -> 0 < n -> base < bp -> Forall (fun x => hdr_add bp n <= x.1) l2 ->
  k + (n + units l2) < 2 ^ 32 ->
  exists s', runs (
      hp <- get_hdr p ;;
      hb <- get_hdr bp ;;
      (if hdr_add bp (h_size hb) =? h_ptr hp then
         hn <- get_hdr (h_ptr hp) ;;
         set_size bp (h_size hb + h_size hn) ;;
         set_ptr bp (h_ptr hn)
       else set_ptr bp (h_ptr hp)) ;;
      hp <- get_hdr p ;;
      (if hdr_add p (h_size hp) =? bp then
         hb <- get_hdr bp ;;
         set_size p (h_size hp + h_size hb) ;;
         set_ptr p (h_ptr hb)
       else set_ptr p bp) ;;
      modify (set_hp_freep p)) s tt s' /\
    links (hp_mem s') (inserted A p k bp n l2) base /\ hp_freep s' = p /\ hp_brk s' = hp_brk s /\
    (forall b, b <> p -> b <> bp -> hp_mem s' !! b = hp_mem s !! b).
Proof.
  intros Hs Hl Hip Hib Hb Hpk Hpb Hn Hbase Hl2 Hu.
  pose proof (sorted_nodup _ _ _ Hs) as Hnd. rewrite fmap_app, fmap_cons in Hnd.
  apply NoDup_app in Hnd as (_ & HdA & [Hp2 _]%NoDup_cons). simpl in Hp2.
  assert (p ∉ A.*1) as HpA by (intros H; apply (HdA p H); by left).
  apply sorted_app in Hs as [HsA (Hs1 & Hs2 & Hs3)]. simpl in Hs1, Hs2, Hs3.
  apply links_app in Hl as [HlA [Hlp Hll]]. simpl in HlA, Hlp.
  assert (bp ∉ A.*1) as HbA.
  { intros (x & -> & Hx)%list_elem_of_fmap. destruct (sorted_bounds _ _ _ _ HsA Hx) as (_ & ? & ?).
    unfold hdr_add, sizeof_Header in *. lia. }
  assert (bp ∉ l2.*1) as Hb2.
  { intros (x & -> & Hx)%list_elem_of_fmap. rewrite Forall_forall in Hl2. specialize (Hl2 x Hx).
    unfold hdr_add, sizeof_Header in *. lia. }
  assert (Forall (fun y => 0 <= y.2) l2) as Hpos.
  { apply Forall_forall. intros y Hy. by destruct (sorted_bounds _ _ _ _ Hs3 Hy) as (_ & ? & _). }
  destruct (runs_join s bp n g l2 base Hib Hb Hll Hb2) as (k1 & l1 & E1 & Hr1 & Hl1); [|lia|done|lia|].
  { left. unfold hdr_add, sizeof_Header. lia. }
  set (s1 := set_hp_mem (<[bp := mk_header (first l1 base) k1]> (hp_mem s)) s) in *.
  assert (hp_mem s1 !! p = Some (mk_header (first l2 base) k)) as Hp1
    by (cbn; by rewrite lookup_insert_ne by lia).
  assert (links (hp_mem s1) ((bp, k1) :: l1) base) as Hlj by (split; [cbn; by rewrite lookup_insert_eq|done]).
  assert (0 <= k1 /\ Forall (fun y => 0 <= y.2) l1) as [Hk1 Hpos1].
  { apply (Forall_cons_1 (fun y => 0 <= y.2) (bp, k1)). rewrite <- E1.
    apply Forall_join; [simpl; lia|done|simpl; intros; lia]. }
  assert (p ∉ ((bp, k1) :: l1).*1) as Hpj.
  { rewrite <- E1. intros H. cut (p ∈ bp :: l2.*1); [intros [?|?]%elem_of_cons; [lia|done]|].
    destruct l2 as [|y l2]; simpl in H; [done|]. destruct (_ =? _); simpl in H |- *; set_solver. }
  assert (units ((bp, k1) :: l1) = n + units l2) as Hu1 by (rewrite <- E1; apply units_join).
  destruct (runs_join s1 p k _ ((bp, k1) :: l1) base Hip Hp1 Hlj Hpj)
    as (k2 & l3 & E2 & Hr2 & Hl3); [by right|done|by constructor|lia|].
  eexists. split.
  - eapply runs_bind; [apply (runs_get_hdr p); exact Hlp|].
    eapply runs_bind; [apply (runs_get_hdr bp); exact Hb|].
    eapply runs_bind; [exact Hr1|]. eapply runs_bind; [apply (runs_get_hdr p); exact Hp1|].
    eapply runs_bind; [exact Hr2|]. apply runs_modify.
  - cbn [hp_mem set_hp_freep set_hp_mem hp_freep hp_brk] in *. unfold inserted. rewrite E1, E2.
    split; [|split; [done|split; [done|]]].
    + apply links_app. split; [|split; [cbn; by rewrite lookup_insert_eq|done]].
      simpl. do 2 (apply links_insert; [done|]). exact HlA.
    + intros b Hbp Hbb. unfold s1. cbn. by rewrite !lookup_insert_ne by congruence.
Qed.

(** The block [p] before the place of [bp], and the ones on both sides. *)

Lemma free_place s fl bp n :
  free_list s fl -> loose_block s fl bp n ->
  exists A p k l2, (base, 0) :: fl = A ++ (p, k) :: l2 /\ sorted (base - 1) (hp_brk s) (A ++ (p, k) :: l2) /\
    hdr_add p k <= bp /\ p < bp /\ 0 <= k /\ Forall (fun x => hdr_add bp n <= x.1) l2 /\
    in_heap s p = true /\ k + units l2 <= units fl.
Proof.
  intros [Hlk Hfp Hso [Hb0 [Hb1 Hb2]] Hfr] [Hsz Hn Hlo Hhi Hap].
  assert (Forall (fun x => 0 < x.2) fl) as Hfr2 by (eapply Forall_impl; [exact Hfr|]; by intros ? [_ ?]).
  destruct (place_of base (hp_brk s) fl bp n Hso Hfr2 Hap Hn) as (l1 & l2 & Efl & Hl1 & Hl2).
  destruct (exists_last (l:=(base, 0) :: l1)) as (A & [p k] & EA); [done|].
  assert ((base, 0) :: fl = A ++ (p, k) :: l2) as EN by (by rewrite Efl, app_comm_cons, EA, <- app_assoc).
  assert (sorted (base - 1) (hp_brk s) (A ++ (p, k) :: l2)) as HsN.
  { rewrite <- EN. simpl. split; [lia|]. split; [lia|].
    unfold hdr_add, sizeof_Header. by rewrite Z.mul_0_r, Z.add_0_r. }
  assert ((p, k) = (base, 0) \/ (p, k) ∈ l1) as Hpl.
  { apply elem_of_cons. rewrite EA. apply elem_of_app. right. by left. }
  assert (forall x, x ∈ l1 -> heap0 <= x.1 /\ 0 < x.2 /\ hdr_add x.1 x.2 <= hp_brk s /\ hdr_add x.1 x.2 <= bp) as Hin.
  { intros x Hx. assert (x ∈ fl) as Hx' by (rewrite Efl; apply elem_of_app; by left).
    rewrite Forall_forall in Hl1, Hfr. destruct (Hfr x Hx') as [? ?].
    destruct (sorted_bounds _ _ _ _ Hso Hx') as (_ & _ & ?). pose proof (Hl1 x Hx) as Hx2. simpl in Hx2.
    repeat split; assumption. }
  exists A, p, k, l2. split; [done|]. split; [done|].
  assert (0 <= units A /\ units fl = units A + (k + units l2)) as [HuA Hu].
  { split; [|change (units fl) with (units ((base, 0) :: fl)); rewrite EN, units_app; done].
    apply sorted_app in HsN as [HsA _]. by eapply units_nonneg. }
  destruct Hpl as [[= -> ->]|Hpl].
  - unfold hdr_add, sizeof_Header in *. repeat (split; [lia|]). split; [done|]. split; [apply in_heap_base|lia].
  - destruct (Hin _ Hpl) as (H1 & H2 & H3 & H4). simpl in *. split; [done|].
    split; [unfold hdr_add, sizeof_Header in *; lia|]. split; [lia|]. split; [done|].
    split; [by apply (in_heap_block s p k)|lia].
Qed.

(** The list after the joins starts with [base] again. *)

Lemma inserted_base A p k bp n l2 fl :
  (base, 0) :: fl = A ++ (p, k) :: l2 -> base < bp -> exists fl', inserted A p k bp n l2 = (base, 0) :: fl'.
Proof.
  intros E Hb. destruct A as [|x A]; simpl in E.
  - injection E as <- <- ->. unfold inserted. simpl. pose proof (first_join (bp, n) l2 0) as Hf.
    destruct (join (bp, n) l2) as [|y l]; [by exists []|]. simpl in Hf.
    exists (y :: l). simpl. destruct (Z.eqb_spec (hdr_add base 0) y.1); [|done].
    unfold hdr_add, sizeof_Header in *. lia.
  - injection E as <- _. by exists (inserted A p k bp n l2).
Qed.

Lemma exists_inserted A p k bp n l2 :
  0 <= k -> Forall (fun x => 0 <= x.2) l2 -> Exists (fun x => n <= x.2) (inserted A p k bp n l2).
Proof.
  intros Hk Hl. apply Exists_app. right. destruct l2 as [|y l2]; simpl; [|apply Forall_cons_1 in Hl as [Hy Hl]].
  - destruct (_ =? _); [left; simpl; lia|right; by left].
  - destruct (_ =? _); simpl; destruct (_ =? _); simpl; first [left; simpl; lia|right; left; simpl; lia].
Qed.

(** The walk ends at [p]. *)

Lemma free_stops bp p k n lo hi A l2 :
  sorted lo hi (A ++ (p, k) :: l2) -> base - 1 <= lo -> p < bp -> 0 < n ->
  Forall (fun x => hdr_add bp n <= x.1) l2 -> stops bp p (first l2 base) = true.
Proof.
  intros Hs Hlo Hpb Hn Hl2. unfold stops. destruct (Z.ltb_spec p bp); [|lia]. destruct l2 as [|y l2]; simpl.
  - destruct (sorted_bounds _ _ _ (p, k) Hs ltac:(apply elem_of_app; right; by left)) as (? & _). simpl in *.
    destruct (Z.leb_spec base p); [apply orb_true_r|lia].
  - apply Forall_cons_1 in Hl2 as [Hy _]. unfold hdr_add, sizeof_Header in Hy.
    destruct (Z.ltb_spec bp y.1); [done|lia].
Qed.

(** The list after the joins is in order. *)

Lemma free_list_inserted s s' fl fl' bp n A p k l2 :
  free_list s fl -> loose_block s fl bp n -> (base, 0) :: fl = A ++ (p, k) :: l2 ->
  sorted (base - 1) (hp_brk s) (A ++ (p, k) :: l2) -> hdr_add p k <= bp ->
  Forall (fun x => hdr_add bp n <= x.1) l2 -> inserted A p k bp n l2 = (base, 0) :: fl' ->
  links (hp_mem s') (inserted A p k bp n l2) base -> hp_freep s' = p -> hp_brk s' = hp_brk s ->
  free_list s' fl'.
Proof.
  intros [Hlk Hfp Hso Hb Hfr] [Hsz Hn Hlo Hhi Hap] EN HsN Hpk Hl2 Efl' Hlk' Hfp' Hbrk.
  pose proof (sorted_inserted _ _ _ _ _ _ _ _ HsN Hpk Hn Hhi Hl2) as Hsi. rewrite Efl' in Hsi, Hlk'.
  assert (sorted base (hp_brk s) fl') as Hs'.
  { destruct Hsi as (_ & _ & Hsi). unfold hdr_add, sizeof_Header in Hsi. by rewrite Z.mul_0_r, Z.add_0_r in Hsi. }
  split; rewrite ?Hbrk; try done.
  - rewrite Hfp'. change (p ∈ ((base, 0) :: fl').*1). rewrite <- Efl'. unfold inserted. rewrite fmap_app.
    apply elem_of_app. right. pose proof (first_join (p, k) (join (bp, n) l2) (p - 1)) as Hf.
    destruct (join (p, k) _) as [|y l]; simpl in Hf; [lia|]. rewrite fmap_cons, Hf. by left.
  - assert (Forall (fun x => x = (base, 0) \/ heap0 <= x.1 /\ 0 < x.2) ((base, 0) :: fl')) as H.
    { rewrite <- Efl'. apply Forall_inserted; [rewrite <- EN; constructor; [by left|]| |].
      - eapply Forall_impl; [exact Hfr|]. by right.
      - right. by split.
      - intros x y [->|[? ?]] [->|[? ?]]; simpl; unfold hdr_add, sizeof_Header in *; intros; [by left|lia..]. }
    apply Forall_cons_1 in H as [_ H]. apply Forall_forall. intros x Hx. rewrite Forall_forall in H.
    destruct (H x Hx) as [->|?]; [|done]. destruct (sorted_bounds _ _ _ _ Hs' Hx) as (? & _). simpl in *. lia.
Qed.

(** free puts a block into the list. *)

Lemma runs_free s fl bp n :
  free_list s fl -> loose_block s fl bp n -> units fl + n < 2 ^ 32 ->
  exists s' fl', runs (free (hdr_add bp 1)) s tt s' /\ free_list s' fl' /\
    units fl' = units fl + n /\ hp_brk s' = hp_brk s /\ Exists (fun x => n <= x.2) fl' /\
    (length fl' <= S (length fl))%nat /\
    (forall z, 0 < z.2 -> heap0 <= z.1 -> apart z (bp, n) -> Forall (apart z) fl -> Forall (apart z) fl') /\
    (forall b, b ∉ bp :: base :: fl.*1 -> hp_mem s' !! b = hp_mem s !! b).
Proof.
  intros Hfl Hlb Hu.
  destruct (free_place s fl bp n Hfl Hlb) as (A & p & k & l2 & EN & HsN & Hpk & Hpb & Hk & Hl2 & Hip & Hku).
  pose proof Hfl as [Hlk Hfp Hso (Hb0 & Hb1 & Hb2) Hfr]. pose proof Hlb as [Hsz Hn Hlo Hhi Hap].
  assert (base < bp) as Hbb by (unfold sizeof_Header in *; lia).
  destruct (hp_mem s !! bp) as [[g n']|] eqn:Hbp; [|done]. simpl in Hsz. injection Hsz as ->.
  rewrite EN in Hlk. assert (first (A ++ [(p, k)]) 0 = base) as Hfb
    by (destruct A as [|x A]; simpl in EN; by injection EN as <- _).
  destruct (path_to bp _ _ A p k l2 (hp_freep s) (hp_mem s) HsN Hlk Hfb) as (path & Hpf & Hpl & Hpp & Hplen);
    try done; [by rewrite <- EN| |].
  { eapply Forall_impl; [exact Hl2|]. intros x. unfold hdr_add, sizeof_Header. simpl. lia. }
  destruct (runs_joins s A p k bp n g l2 HsN Hlk Hip) as (s' & Hr & Hlk' & Hfp' & Hbrk & Hfr'); try done; try lia;
    [by apply (in_heap_block s bp n)|].
  destruct (inserted_base A p k bp n l2 fl EN Hbb) as [fl' Efl']. exists s', fl'. split; [|split].
  - unfold free. replace (hdr_add (hdr_add bp 1) (-1)) with bp by (unfold hdr_add, sizeof_Header; lia).
    eapply runs_bind; [apply runs_gets|]. eapply runs_bind; [apply runs_gets|].
    eapply runs_bind; [|exact Hr]. rewrite <- Hpf. apply links_app in Hlk as [_ [Hp _]].
    apply (runs_free_walk bp path p (first l2 base) k s); [done|done|exact Hp| |].
    + by apply (free_stops bp p k n _ _ A l2 HsN).
    + pose proof (links_size _ _ _ (fr_links _ _ Hfl)) as Hsize. rewrite EN in Hsize.
      specialize (Hsize (sorted_nodup _ _ _ HsN)). lia.
  - by apply (free_list_inserted s s' fl fl' bp n A p k l2).
  - assert (units ((base, 0) :: fl') = units ((base, 0) :: fl) + n) as Hun
      by (rewrite <- Efl', EN; apply units_inserted).
    split; [exact Hun|]. split; [done|]. split; [|split; [|split]].
    + assert (Exists (fun x => n <= x.2) ((base, 0) :: fl')) as Hex.
      { rewrite <- Efl'. apply exists_inserted; [done|]. apply sorted_app in HsN as [_ (_ & _ & HsN)].
        apply Forall_forall. intros x Hx. by destruct (sorted_bounds _ _ _ _ HsN Hx) as (_ & ? & _). }
      apply Exists_cons in Hex as [Hex|]; [simpl in Hex; lia|done].
    + apply (f_equal length) in EN, Efl'. pose proof (length_inserted A p k bp n l2). simpl in *. lia.
    + intros z Hz Hz0 Hzb Hzf. assert (Forall (apart z) ((base, 0) :: fl')) as H;
        [|by apply Forall_cons_1 in H as [_ H]].
      rewrite <- Efl'. apply Forall_inserted; [rewrite <- EN; constructor; [|done]|done|].
      * right. unfold hdr_add, sizeof_Header in *. simpl. lia.
      * intros x y Hx Hy E. by apply apart_join.
    + intros b Hb. apply Hfr'; intros ->; apply Hb; [|by left]. right.
      change (p ∈ ((base, 0) :: fl).*1). rewrite EN, fmap_app. apply elem_of_app. right. by left.
Qed.

(** ** Lemmas: malloc *)

Lemma edge_split s fl q b n :
  free_list s fl -> q ∈ base :: fl.*1 -> hp_mem s !! q = Some (mk_header b n) -> b <> base ->
  exists X k Y, (base, 0) :: fl = X ++ (q, n) :: (b, k) :: Y.
Proof.
  intros Hfl Hq Hm Hb. change (q ∈ ((base, 0) :: fl).*1) in Hq.
  apply list_elem_of_fmap in Hq as ([q' n'] & -> & Hq). apply list_elem_of_split in Hq as (X & Y & E).
  pose proof (fr_links _ _ Hfl) as Hl. rewrite E in Hl. apply links_app in Hl as [_ [Hl _]].
  simpl in Hl, Hm. rewrite Hm in Hl. injection Hl as -> ->. destruct Y as [|[b' k] Y]; [done|].
  by exists X, k, Y.
Qed.

(** What taking [nunits] units of the block [(b, k)] leaves. *)

Definition left_over (b k nunits : Z) : list (Z * Z) := if k =? nunits then [] else [(b, k - nunits)].

Lemma Forall_left_over (P : Z * Z -> Prop) X b k nunits Y :
  Forall P X -> Forall P Y -> (k <> nunits -> P (b, k - nunits)) ->
  Forall P (X ++ left_over b k nunits ++ Y).
Proof.
  intros HX HY HP. apply Forall_app. split; [done|]. apply Forall_app. split; [|done].
  unfold left_over. destruct (Z.eqb_spec k nunits); [constructor|]. apply Forall_singleton. auto.
Qed.

Lemma sorted_left_over lo hi X b k nunits Y :
  sorted lo hi (X ++ (b, k) :: Y) -> 0 < nunits <= k -> sorted lo hi (X ++ left_over b k nunits ++ Y).
Proof.
  intros [HX (H1 & H2 & H3)]%sorted_app Hn. apply sorted_app. split; [done|]. simpl in *. unfold left_over.
  destruct (Z.eqb_spec k nunits); simpl.
  - apply (sorted_lower _ _ _ _ H3). unfold hdr_add, sizeof_Header. lia.
  - split; [done|]. split; [lia|]. apply (sorted_lower _ _ _ _ H3). unfold hdr_add, sizeof_Header. lia.
Qed.

Lemma units_left_over X b k nunits Y :
  units (X ++ left_over b k nunits ++ Y) = units (X ++ (b, k) :: Y) - nunits.
Proof. unfold left_over. rewrite !units_app. destruct (Z.eqb_spec k nunits); simpl; lia. Qed.

(** The memory after the block is taken. *)

Lemma runs_take_block s q kq b k g nunits :
  hp_mem s !! q = Some (mk_header b kq) -> hp_mem s !! b = Some (mk_header g k) ->
  in_heap s q = true -> in_heap s b = true -> 0 < nunits <= k -> k < 2 ^ 32 -> heap0 <= b ->
  hdr_add b k <= hp_brk s -> q <> b ->
  let c := hdr_add b (k - nunits) in
  exists m', runs (take_block nunits q b) s (hdr_add c 1) (mk_heap m' q (hp_brk s)) /\
    h_size <$> m' !! c = Some nunits /\
    (k = nunits -> m' = <[q := mk_header g kq]> (hp_mem s)) /\
    (k <> nunits -> m' !! b = Some (mk_header g (k - nunits)) /\
       forall a, a <> b -> a <> c -> m' !! a = hp_mem s !! a).
Proof.
  intros Hq Hb Hiq Hib Hn Hk Hlo Hhi Hne c. unfold take_block.
  destruct (Z.eqb_spec k nunits) as [->|Hkn].
  - exists (<[q := mk_header g kq]> (hp_mem s)). assert (c = b) as Ec by (unfold c, hdr_add; lia). split; [|split].
    + eapply runs_bind; [by apply (runs_get_hdr b)|]. cbn [h_size h_ptr]. rewrite Z.eqb_refl.
      eapply runs_bind; [eapply runs_bind; [by apply (runs_set_ptr q g _ s Hiq Hq)|apply runs_ret]|].
      eapply runs_bind; [apply runs_modify|]. rewrite Ec. apply runs_ret.
    + rewrite Ec, lookup_insert_ne by done. by rewrite Hb.
    + split; [done|lia].
  - assert (b < c) as Hbc by (unfold c, hdr_add, sizeof_Header; lia).
    set (m1 := <[b := mk_header g (k - nunits)]> (hp_mem s)).
    exists (<[c := mk_header (h_ptr (default (mk_header 0 0) (m1 !! c))) nunits]> m1). split; [|split; [|split; [done|]]].
    + eapply runs_bind; [by apply (runs_get_hdr b)|]. cbn [h_size h_ptr].
      destruct (Z.eqb_spec k nunits); [done|]. eapply runs_bind.
      { eapply runs_bind; [apply (runs_set_size b (k - nunits) _ s Hib Hb); lia|].
        eapply runs_bind; [apply (runs_get_hdr b); apply lookup_insert_eq|]. cbn [h_size]. fold c.
        eapply runs_bind; [|apply runs_ret]. eapply runs_bind; [apply runs_gets|].
        assert (in_heap s c = true) as Hic.
        { apply (in_heap_block s c nunits); unfold c, hdr_add, sizeof_Header in *; lia. }
        change (in_heap (set_hp_mem _ s) c) with (in_heap s c). rewrite Hic. apply runs_modify. }
      eapply runs_bind; [apply runs_modify|]. rewrite u32_small by lia. apply runs_ret.
    + by rewrite lookup_insert_eq.
    + intros _. split; [rewrite lookup_insert_ne by lia; apply lookup_insert_eq|].
      intros a Hab Hac. rewrite lookup_insert_ne by congruence. unfold m1. by rewrite lookup_insert_ne by congruence.
Qed.

(** The links after a block was taken. *)

Lemma links_taken m m' X q kq b k g nunits Y :
  links m (X ++ (q, kq) :: (b, k) :: Y) base -> NoDup (X ++ (q, kq) :: (b, k) :: Y).*1 ->
  m !! b = Some (mk_header g k) -> hdr_add b (k - nunits) ∉ X.*1 ++ q :: Y.*1 ->
  (k = nunits -> m' = <[q := mk_header g kq]> m) ->
  (k <> nunits -> m' !! b = Some (mk_header g (k - nunits)) /\
     forall a, a <> b -> a <> hdr_add b (k - nunits) -> m' !! a = m !! a) ->
  links m' (X ++ (q, kq) :: left_over b k nunits ++ Y) base.
Proof.
  intros Hl Hnd Hb Hc He Hne. apply links_app in Hl as [HX (Hq & Hb' & HY)]. simpl in HX, Hq, Hb'.
  rewrite Hb in Hb'. injection Hb' as ->. rewrite fmap_app, !fmap_cons in Hnd. simpl in Hnd.
  apply NoDup_app in Hnd as (_ & HdX & [Hqn [Hbn _]%NoDup_cons]%NoDup_cons).
  assert (q <> b /\ q ∉ Y.*1 /\ b ∉ X.*1 /\ q ∉ X.*1) as (Hqb & HqY & HbX & HqX) by set_solver.
  unfold left_over. destruct (Z.eqb_spec k nunits) as [E|E].
  - rewrite (He E). apply links_app. split; [by apply links_insert|]. simpl.
    split; [by rewrite lookup_insert_eq|by apply links_insert].
  - destruct (Hne E) as [Hmb Hfr]. assert (forall a, a ∈ X.*1 ++ q :: Y.*1 -> m' !! a = m !! a) as Heq.
    { intros a Ha. apply Hfr; [set_solver|]. intros ->. done. }
    apply links_app. split; [|split; [|split]].
    + apply (links_ext m); [|done]. intros a Ha. apply Heq. set_solver.
    + simpl. rewrite Heq by set_solver. done.
    + done.
    + apply (links_ext m); [|done]. intros a Ha. apply Heq. set_solver.
Qed.

(** The blocks on both sides of a block of the list. *)

Lemma sorted_sides lo hi X b k Y :
  sorted lo hi (X ++ (b, k) :: Y) ->
  Forall (fun x => hdr_add x.1 x.2 < b) X /\ Forall (fun y => hdr_add b k < y.1) Y.
Proof.
  intros [HX (H1 & H2 & H3)]%sorted_app. split; apply Forall_forall; intros x Hx.
  - destruct (sorted_bounds _ _ _ _ HX Hx) as (_ & _ & ?). simpl in *. lia.
  - by destruct (sorted_bounds _ _ _ _ H3 Hx) as (? & _).
Qed.

Lemma free_list_in_heap s fl q : free_list s fl -> q ∈ base :: fl.*1 -> in_heap s q = true.
Proof.
  intros [_ _ Hso _ Hfr] [->|([q' n] & -> & Hx)%list_elem_of_fmap]%elem_of_cons; [apply in_heap_base|].
  rewrite Forall_forall in Hfr. destruct (Hfr _ Hx), (sorted_bounds _ _ _ _ Hso Hx) as (_ & _ & ?).
  by apply (in_heap_block s q' n).
Qed.

Lemma units_elem lo hi l x : sorted lo hi l -> x ∈ l -> x.2 <= units l.
Proof.
  intros Hs Hx. apply list_elem_of_split in Hx as (X & Y & ->). apply sorted_app in Hs as [HX (_ & _ & HY)].
  apply units_nonneg in HX, HY. rewrite units_app. simpl. lia.
Qed.

(** The blocks after [nunits] units were taken from the end of [(b, k)]. *)

Lemma taken_blocks lo hi X b k nunits Y :
  let c := hdr_add b (k - nunits) in
  let fl := X ++ (b, k) :: Y in
  let fl' := X ++ left_over b k nunits ++ Y in
  sorted lo hi fl -> Forall (fun x => heap0 <= x.1 /\ 0 < x.2) fl -> 0 < nunits <= k ->
  sorted lo hi fl' /\ Forall (fun x => heap0 <= x.1 /\ 0 < x.2) fl' /\ heap0 <= c /\
  hdr_add c nunits <= hi /\ c ∉ X.*1 ++ Y.*1 /\ Forall (apart (c, nunits)) fl' /\
  (forall z, 0 < z.2 -> Forall (apart z) fl -> apart z (c, nunits) /\ Forall (apart z) fl').
Proof.
  intros c fl fl' Hso Hfr Hn. destruct (sorted_sides _ _ _ _ _ _ Hso) as [HX HY].
  pose proof Hfr as Hfr0. apply Forall_app in Hfr0 as [HfX [[Hb1 Hb2] HfY]%Forall_cons_1]. simpl in Hb1, Hb2.
  assert (b <= c /\ hdr_add c nunits = hdr_add b k) as [Hbc Hce] by (unfold c, hdr_add, sizeof_Header; lia).
  assert (hdr_add b k <= hi) as Hhi.
  { destruct (sorted_bounds _ _ _ (b, k) Hso) as (_ & _ & ?); [apply elem_of_app; right; by left|done]. }
  split; [by apply sorted_left_over|]. split; [|split; [lia|split; [lia|split; [|split]]]].
  - apply Forall_left_over; [done|done|]. simpl. lia.
  - rewrite Forall_forall in HX, HY, HfX.
    intros [(x & E & Hx)%list_elem_of_fmap|(x & E & Hx)%list_elem_of_fmap]%elem_of_app.
    + specialize (HX x Hx). destruct (HfX x Hx). unfold hdr_add, sizeof_Header in *. lia.
    + specialize (HY x Hx). unfold hdr_add, sizeof_Header in *. lia.
  - apply Forall_left_over.
    + eapply Forall_impl; [exact HX|]. intros x Hx. right. simpl in *. lia.
    + eapply Forall_impl; [exact HY|]. intros x Hx. left. simpl in *. lia.
    + intros _. right. simpl. lia.
  - intros z Hz [HzX [Hzb HzY]%Forall_cons_1]%Forall_app. split.
    + destruct Hzb as [H|H]; [left|right]; simpl in *; lia.
    + apply Forall_left_over; [done|done|]. intros _.
      destruct Hzb as [H|H]; [by left|right]. simpl in *. unfold hdr_add, sizeof_Header in *. lia.
Qed.

(** malloc takes a block out of the list. *)

Record taken (s : heap) (fl : list (Z * Z)) (nunits : Z) (s' : heap) (fl' : list (Z * Z)) (c : Z) : Prop := {
  tk_list : free_list s' fl';
  tk_units : units fl' = units fl - nunits;
  tk_brk : hp_brk s' = hp_brk s;
  tk_size : h_size <$> hp_mem s' !! c = Some nunits;
  tk_lo : heap0 <= c;
  tk_hi : hdr_add c nunits <= hp_brk s;
  tk_apart : Forall (apart (c, nunits)) fl';
  tk_others : forall z, 0 < z.2 -> Forall (apart z) fl -> apart z (c, nunits) /\ Forall (apart z) fl';
  tk_frame : forall a, a ∉ c :: base :: fl.*1 -> hp_mem s' !! a = hp_mem s !! a;
}.

Lemma take_free_list s fl q b k kq g nunits :
  free_list s fl -> q ∈ base :: fl.*1 -> hp_mem s !! q = Some (mk_header b kq) ->
  hp_mem s !! b = Some (mk_header g k) -> b <> base -> 0 < nunits <= k -> units fl < 2 ^ 32 ->
  exists s' fl' c, runs (take_block nunits q b) s (hdr_add c 1) s' /\ taken s fl nunits s' fl' c.
Proof.
  intros Hfl Hq Hmq Hmb Hbb Hn Hu. destruct (edge_split s fl q b kq Hfl Hq Hmq Hbb) as (X & k' & Y & EN).
  pose proof Hfl as [Hlk Hfp Hso Hbd Hfr]. rewrite EN in Hlk.
  assert (k' = k) as ->.
  { apply links_app in Hlk as [_ (_ & Hb & _)]. simpl in Hb. rewrite Hmb in Hb. congruence. }
  assert (exists X', X ++ [(q, kq)] = (base, 0) :: X' /\ fl = X' ++ (b, k) :: Y) as (X' & EX & Efl).
  { destruct X as [|x X]; simpl in EN.
    - injection EN as <- <- ->. by exists [].
    - injection EN as <- ->. exists (X ++ [(q, kq)]). split; [done|]. by rewrite <- app_assoc. }
  assert ((b, k) ∈ fl) as Hin by (rewrite Efl; apply elem_of_app; right; by left).
  assert (b ∈ base :: fl.*1) as Hbn by (right; apply list_elem_of_fmap; by exists (b, k)).
  pose proof (units_elem _ _ _ _ Hso Hin) as Hku. simpl in Hku.
  destruct (sorted_bounds _ _ _ _ Hso Hin) as (_ & _ & Hbhi). simpl in Hbhi.
  assert (heap0 <= b) as Hblo by (rewrite Forall_forall in Hfr; by destruct (Hfr _ Hin)).
  assert (NoDup (X ++ (q, kq) :: (b, k) :: Y).*1) as Hnd.
  { rewrite <- EN. apply (sorted_nodup (base - 1) (hp_brk s)). simpl. split; [lia|]. split; [lia|].
    unfold hdr_add, sizeof_Header. by rewrite Z.mul_0_r, Z.add_0_r. }
  assert (q <> b) as Hqb.
  { rewrite fmap_app, !fmap_cons in Hnd. apply NoDup_app in Hnd as (_ & _ & [Hnd' _]%NoDup_cons).
    intros ->. apply Hnd'. by left. }
  destruct (runs_take_block s q kq b k g nunits Hmq Hmb (free_list_in_heap _ _ _ Hfl Hq)
    (free_list_in_heap _ _ _ Hfl Hbn) Hn ltac:(lia) Hblo Hbhi Hqb) as (m' & Hr & Hsz & He & Hne).
  rewrite Efl in Hso, Hfr. destruct (taken_blocks base (hp_brk s) X' b k nunits Y Hso Hfr Hn)
    as (Hso' & Hfr' & Hclo & Hchi & Hcn & Hcap & Hz). set (c := hdr_add b (k - nunits)) in *.
  assert ((base, 0) :: X' ++ left_over b k nunits ++ Y = X ++ (q, kq) :: left_over b k nunits ++ Y) as EN'
    by (by rewrite app_comm_cons, <- EX, <- app_assoc).
  exists (mk_heap m' q (hp_brk s)), (X' ++ left_over b k nunits ++ Y), c. split; [exact Hr|].
  split; try done; [|by rewrite units_left_over, <- Efl|by rewrite Efl|].
  - split; try done.
    + change (links m' ((base, 0) :: X' ++ left_over b k nunits ++ Y) base). rewrite EN'.
      apply (links_taken (hp_mem s) m' X q kq b k g nunits Y); try done. fold c.
      change (X.*1 ++ q :: Y.*1) with (X.*1 ++ [(q, kq)].*1 ++ Y.*1). rewrite app_assoc, <- fmap_app, EX.
      intros [E|Hc]%elem_of_cons; [|done]. simpl in E. unfold sizeof_Header in *. lia.
    + change (q ∈ ((base, 0) :: X' ++ left_over b k nunits ++ Y).*1). rewrite EN', fmap_app, fmap_cons.
      apply elem_of_app. right. by left.
  - intros a Ha. simpl. destruct (Z.eq_dec k nunits) as [E|E].
    + rewrite (He E), lookup_insert_ne; [done|]. intros ->. apply Ha. by right.
    + destruct (Hne E) as [_ Hfra]. apply Hfra; intros ->; apply Ha; [by right|by left].
Qed.

(** The search of malloc around the circle, from the block after [q] to freep. *)

Definition grow (nunits : Z) : M heap (Z * Z + Z) :=
  p <- morecore nunits ;;
  if p =? 0 then ret (inr 0) else
  h <- get_hdr p ;;
  ret (inl (p, h_ptr h)).

Definition edge (s : heap) (q b : Z) : Prop := exists n, hp_mem s !! q = Some (mk_header b n).

Lemma runs_scan s nunits n0 R q nq fuel :
  links (hp_mem s) ((q, nq) :: R) (hp_freep s) -> h_size <$> hp_mem s !! hp_freep s = Some n0 ->
  hp_freep s ∉ R.*1 -> (length R < fuel)%nat ->
  (exists q' b k g, q' ∈ q :: R.*1 /\ edge s q' b /\ hp_mem s !! b = Some (mk_header g k) /\ nunits <= k /\
     forall r s', runs (take_block nunits q' b) s r s' ->
       runs (loop fuel (malloc_round nunits) (q, first R (hp_freep s))) s r s') \/
  (n0 < nunits /\ Forall (fun x => x.2 < nunits) R /\ exists fuel', fuel = S (fuel' + length R) /\
     forall r s', runs (x <- grow nunits ;;
         match x with inl x' => loop fuel' (malloc_round nunits) x' | inr v => ret v end) s r s' ->
       runs (loop fuel (malloc_round nunits) (q, first R (hp_freep s))) s r s').
Proof.
  revert q nq fuel. induction R as [|[b k] R IH]; intros q nq [|fuel] Hl Hf Hn Hlen; simpl in Hlen; try lia.
  - destruct Hl as [Hq _]. simpl in Hq. destruct (hp_mem s !! hp_freep s) as [[g k]|] eqn:Ef; [|done].
    simpl in Hf. injection Hf as <-. destruct (Z.leb_spec nunits k) as [Hk|Hk].
    + left. exists q, (hp_freep s), k, g. split; [by left|]. split; [by eexists|]. split; [done|]. split; [done|].
      intros r s' Hr. apply runs_loop_stop. eapply runs_bind; [by apply runs_get_hdr|]. cbn [h_size].
      destruct (Z.leb_spec nunits k); [|lia]. eapply runs_bind; [exact Hr|apply runs_ret].
    + right. split; [done|]. split; [constructor|]. exists fuel. split; [simpl; lia|]. intros r s' Hr.
      intros e. cbn [loop first]. specialize (Hr e). unfold bind at 1 in Hr. unfold bind at 1.
      replace (malloc_round nunits (q, hp_freep s) e s) with (grow nunits e s); [exact Hr|].
      symmetry. unfold malloc_round. unfold bind at 1. rewrite (runs_get_hdr _ _ _ Ef e). cbn [h_size].
      destruct (Z.leb_spec nunits k); [lia|]. unfold bind at 1, gets. by rewrite Z.eqb_refl.
  - destruct Hl as [Hq [Hb Hl]]. simpl in Hq, Hb. rewrite fmap_cons, not_elem_of_cons in Hn. destruct Hn as [Hne Hn].
    destruct (Z.leb_spec nunits k) as [Hk|Hk].
    + left. exists q, b, k, (first R (hp_freep s)). split; [by left|]. split; [by eexists|]. split; [done|].
      split; [done|]. intros r s' Hr. apply runs_loop_stop. eapply runs_bind; [by apply runs_get_hdr|].
      cbn [h_size]. destruct (Z.leb_spec nunits k); [|lia]. eapply runs_bind; [exact Hr|apply runs_ret].
    + assert (forall r s', runs (loop fuel (malloc_round nunits) (b, first R (hp_freep s))) s r s' ->
        runs (loop (S fuel) (malloc_round nunits) (q, b)) s r s') as Hstep.
      { intros r s' Hr. eapply runs_loop_next; [|exact Hr]. eapply runs_bind; [by apply runs_get_hdr|].
        cbn [h_size]. destruct (Z.leb_spec nunits k); [lia|]. eapply runs_bind; [apply runs_gets|].
        destruct (Z.eqb_spec b (hp_freep s)); [by destruct Hne|]. apply runs_ret. }
      destruct (IH b k fuel) as [(q' & b' & k' & g & Hq' & He & Hb' & Hk' & Hr)|(Hn0 & Hall & fuel' & Ef & Hr)];
        [by split|done|done|lia| |].
      * left. exists q', b', k', g. split; [rewrite fmap_cons; by right|]. split; [done|]. split; [done|].
        split; [done|]. intros r s' H. by apply Hstep, Hr.
      * right. split; [done|]. split; [by constructor|]. exists fuel'. split; [simpl; lia|].
        intros r s' H. by apply Hstep, Hr.
Qed.

(** The circle, cut open at freep. *)

Lemma open_circle s fl :
  free_list s fl -> exists n0 R, links (hp_mem s) ((hp_freep s, n0) :: R) (hp_freep s) /\
    ((hp_freep s, n0) :: R) ≡ₚ (base, 0) :: fl.
Proof.
  intros [Hlk Hfp _ _ _]. change (hp_freep s ∈ ((base, 0) :: fl).*1) in Hfp.
  apply list_elem_of_fmap in Hfp as ([f n0] & Ef & Hin). simpl in Ef. subst f.
  apply list_elem_of_split in Hin as (X & Y & E). exists n0, (Y ++ X). rewrite E in Hlk |- *.
  apply links_app in Hlk as [HX HY]. simpl in HX. split.
  - rewrite app_comm_cons. apply links_app. split; [|done].
    replace (first X (hp_freep s)) with base; [done|].
    destruct X as [|x X]; simpl in E |- *; by injection E as <-.
  - rewrite app_comm_cons. apply Permutation_app_comm.
Qed.

(** A search finds a block, or all are too small and it comes to the end. *)

Lemma runs_search s fl nunits fuel :
  free_list s fl -> 0 < nunits -> units fl < 2 ^ 32 -> (length fl < fuel)%nat ->
  exists h, hp_mem s !! hp_freep s = Some h /\
   ((exists s' fl' c, runs (loop fuel (malloc_round nunits) (hp_freep s, h_ptr h)) s (hdr_add c 1) s' /\
       taken s fl nunits s' fl' c) \/
    (Forall (fun x => x.2 < nunits) fl /\ exists fuel', fuel = S (fuel' + length fl) /\
       forall r s', runs (x <- grow nunits ;;
         match x with inl x' => loop fuel' (malloc_round nunits) x' | inr v => ret v end) s r s' ->
       runs (loop fuel (malloc_round nunits) (hp_freep s, h_ptr h)) s r s')).
Proof.
  intros Hfl Hn Hu Hf. destruct (open_circle s fl Hfl) as (n0 & R & Hl & HR).
  pose proof Hl as [Hf0 _]. simpl in Hf0. exists (mk_header (first R (hp_freep s)) n0). split; [done|]. cbn [h_ptr].
  assert (length R = length fl) as HlR by (apply Permutation_length in HR; simpl in HR; lia).
  assert (NoDup (((hp_freep s, n0) :: R).*1)) as Hnd.
  { rewrite HR. apply (sorted_nodup (base - 1) (hp_brk s)). simpl. split; [lia|]. split; [lia|].
    unfold hdr_add, sizeof_Header. rewrite Z.mul_0_r, Z.add_0_r. apply Hfl. }
  rewrite fmap_cons in Hnd. apply NoDup_cons in Hnd as [Hnf _].
  destruct (runs_scan s nunits n0 R (hp_freep s) n0 fuel Hl) as
    [(q & b & k & g & Hq & [kq He] & Hb & Hk & Hr)|(Hn0 & Hall & fuel' & Ef & Hr)];
    [by rewrite Hf0|done|lia| |].
  - left. assert (q ∈ base :: fl.*1) as Hq'.
    { change (q ∈ ((base, 0) :: fl).*1). by rewrite <- HR. }
    destruct (take_free_list s fl q b k kq g nunits) as (s' & fl' & c & Htk & Ht); try done.
    { intros ->. pose proof (fr_links _ _ Hfl) as [Hb0 _]. simpl in Hb0. rewrite Hb in Hb0.
      injection Hb0 as _ ->. lia. }
    exists s', fl', c. split; [by apply Hr|done].
  - right. split; [|exists fuel'; split; [lia|exact Hr]].
    assert (Forall (fun x => x.2 < nunits) ((base, 0) :: fl)) as H by (rewrite <- HR; by constructor).
    by apply Forall_cons_1 in H as [_ H].
Qed.

Lemma sorted_units lo hi l : sorted lo hi l -> hdr_add lo (units l) <= hi.
Proof.
  revert lo. induction l as [|x l IH]; intros lo; simpl.
  - unfold hdr_add, sizeof_Header. lia.
  - intros (H1 & H2 & H3%IH). unfold hdr_add, sizeof_Header in *. lia.
Qed.

Definition core_units (nunits : Z) : Z := if nunits <? 4096 then 4096 else nunits.

(** More memory from the kernel. *)

Record grown (s : heap) (fl : list (Z * Z)) (nu : Z) (s' : heap) (fl' : list (Z * Z)) : Prop := {
  gr_list : free_list s' fl';
  gr_units : units fl' = units fl + nu;
  gr_brk : hp_brk s' = hdr_add (hp_brk s) nu;
  gr_fit : Exists (fun x => nu <= x.2) fl';
  gr_length : (length fl' <= S (length fl))%nat;
  gr_others : forall z, 0 < z.2 -> heap0 <= z.1 -> hdr_add z.1 z.2 <= hp_brk s ->
    Forall (apart z) fl -> Forall (apart z) fl';
  gr_frame : forall b, b < hp_brk s -> b ∉ base :: fl.*1 -> hp_mem s' !! b = hp_mem s !! b;
}.

Hypothesis grants_bound : forall brk n, grants brk n = true -> brk + n <= 2 ^ 36.

Lemma runs_morecore s fl nunits :
  free_list s fl -> 0 < nunits -> nunits * sizeof_Header < 2 ^ 31 ->
  let nu := core_units nunits in
  (grants (hp_brk s) (nu * sizeof_Header) = false /\ runs (morecore nunits) s 0 s) \/
  exists s' fl', runs (morecore nunits) s (hp_freep s') s' /\ grown s fl nu s' fl'.
Proof.
  intros Hfl Hn Hmax nu. assert (0 < nu * sizeof_Header < 2 ^ 31 /\ 0 < nu) as [Hnu Hnu0].
  { unfold nu, core_units, sizeof_Header in *. destruct (Z.ltb_spec nunits 4096); lia. }
  assert (i32 (nu * sizeof_Header) = nu * sizeof_Header) as Hi by (apply i32_small; lia).
  unfold morecore. fold (core_units nunits). fold nu. unfold sbrk.
  destruct (grants (hp_brk s) (nu * sizeof_Header)) eqn:Hg.
  - right. apply grants_bound in Hg as Hmx. set (bp := hp_brk s).
    pose proof Hfl as [Hlk Hfp Hso (Hb0 & Hb1 & Hb2) Hfr].
    set (s1 := mk_heap (<[bp := mk_header (h_ptr (default (mk_header 0 0) (hp_mem s !! bp))) nu]> (hp_mem s))
      (hp_freep s) (bp + nu * sizeof_Header)).
    assert (bp ∉ base :: fl.*1) as Hbn.
    { intros [E|(x & E & Hx)%list_elem_of_fmap]%elem_of_cons; [unfold bp, sizeof_Header in *; lia|].
      rewrite Forall_forall in Hfr. destruct (Hfr x Hx), (sorted_bounds _ _ _ _ Hso Hx) as (_ & _ & ?).
      unfold bp, hdr_add, sizeof_Header in *. lia. }
    assert (free_list s1 fl) as Hfl1.
    { split; try done.
      - by apply (links_insert (hp_mem s) bp _ ((base, 0) :: fl)).
      - apply (sorted_upper _ (hp_brk s)); [done|]. simpl. unfold bp. lia.
      - simpl. unfold bp. lia. }
    destruct (runs_free s1 fl bp nu Hfl1) as (s' & fl' & Hr & Hfl' & Hun & Hbrk & Hex & Hlen & Hap & Hframe).
    { split; try done; [simpl; by rewrite lookup_insert_eq|unfold bp; lia|simpl; unfold hdr_add; lia|].
      apply Forall_forall. intros x Hx. destruct (sorted_bounds _ _ _ _ Hso Hx) as (_ & _ & ?). by right. }
    { apply sorted_units in Hso. unfold hdr_add, sizeof_Header in *. lia. }
    exists s', fl'. split.
    + eapply runs_bind; [eapply runs_bind; [apply runs_gets|]|]; rewrite ?Hi, ?Hg.
      { eapply runs_bind; [apply runs_modify|apply runs_ret]. }
      destruct (Z.eqb_spec (hp_brk s) (-1)); [unfold sizeof_Header in *; lia|].
      eapply runs_bind.
      { eapply runs_bind; [apply runs_gets|].
        rewrite (in_heap_block (set_hp_brk _ s) (hp_brk s) nu); [|lia|lia|simpl; unfold hdr_add; lia].
        apply runs_modify. }
      rewrite u32_small by (unfold sizeof_Header in *; lia).
      eapply runs_bind; [exact Hr|apply runs_gets].
    + split; try done; [rewrite Hbrk; simpl; unfold hdr_add; lia| |].
      * intros z Hz Hz0 Hzb Hzf. apply Hap; [done|done|by left|done].
      * intros b Hb Hbf. rewrite Hframe; [simpl; rewrite lookup_insert_ne; [done|unfold bp; lia]|].
        intros [->|?]%elem_of_cons; [unfold bp in *; lia|done].
  - left. split; [done|]. eapply runs_bind; [eapply runs_bind; [apply runs_gets|]|]; rewrite ?Hi, ?Hg;
      [apply runs_ret|]. apply runs_ret.
Qed.

(** ** Lemmas: the arena *)

Lemma alloc_units_insert al b n :
  al !! b = None -> alloc_units (<[b := n]> al) = n + alloc_units al.
Proof. intros H. unfold alloc_units. rewrite map_fold_insert_L; [done|intros; lia|done]. Qed.

Lemma alloc_units_delete al b n :
  al !! b = Some n -> alloc_units al = n + alloc_units (delete b al).
Proof.
  intros H. rewrite <- (alloc_units_insert (delete b al) b n) by apply lookup_delete_eq. by rewrite insert_delete_id.
Qed.

Lemma alloc_units_nonneg al : (forall b n, al !! b = Some n -> 0 < n) -> 0 <= alloc_units al.
Proof.
  induction al as [|b n al Hb IH] using map_ind; intros H; [unfold alloc_units; by rewrite map_fold_empty|].
  rewrite alloc_units_insert by done. pose proof (H b n (lookup_insert_eq _ _ _)).
  assert (0 <= alloc_units al); [|lia]. apply IH. intros c k Hc. apply (H c k).
  rewrite lookup_insert_ne; [done|]. intros ->. congruence.
Qed.

Lemma arena_units s fl al : arena s fl al -> units fl + alloc_units al < 2 ^ 32 /\ 0 <= alloc_units al.
Proof.
  intros H. pose proof (ar_all _ _ _ H) as Ha. pose proof (ar_bounds _ _ _ H) as Hb.
  unfold hdr_add, sizeof_Header in *. split; [lia|]. apply alloc_units_nonneg. intros b n Hn.
  by destruct (ar_alloc _ _ _ H b n Hn).
Qed.

Lemma free_list_freep s fl : free_list s fl -> hp_freep s <> 0.
Proof.
  intros [_ Hf _ Hb Hfr] E. rewrite E in Hf.
  apply elem_of_cons in Hf as [?|(x & Ex & Hx)%list_elem_of_fmap]; [lia|].
  rewrite Forall_forall in Hfr. destruct (Hfr x Hx). unfold sizeof_Header in *. lia.
Qed.

Lemma arena_free_list s fl al : arena s fl al -> hp_freep s <> 0 -> free_list s fl.
Proof. intros Har Hne. destruct Har as [Hls Hs Hb Hfr _ _ _ _]. destruct Hls as [[? _]|[Hl Hf]]; [done|]. by split. Qed.

(** The header of an allocated block is none of the headers of the list. *)

Lemma alloc_not_free s fl al b n : arena s fl al -> al !! b = Some n -> b ∉ base :: fl.*1.
Proof.
  intros Har Hb [->|(x & -> & Hx)%list_elem_of_fmap]%elem_of_cons.
  - destruct (ar_alloc _ _ _ Har _ _ Hb) as (_ & ? & _). pose proof (ar_bounds _ _ _ Har).
    unfold sizeof_Header in *. lia.
  - destruct (ar_alloc _ _ _ Har _ _ Hb) as (? & _). pose proof (ar_free _ _ _ Har) as Hf.
    pose proof (ar_apart _ _ _ Har _ _ Hb) as Ha. rewrite Forall_forall in Hf, Ha.
    destruct (Hf x Hx) as [? ?]; destruct (Ha x Hx); unfold hdr_add, sizeof_Header in *; simpl in *; lia.
Qed.

(** The list is set up by the first call of malloc. *)

Lemma arena_init s fl al :
  arena s fl al ->
  exists s1, runs (prevp <- gets hp_freep ;;
      if prevp =? 0 then
        set_ptr base base ;;
        modify (set_hp_freep base) ;;
        set_size base 0 ;;
        ret base
      else ret prevp) s (hp_freep s1) s1 /\
    arena s1 fl al /\ hp_freep s1 <> 0 /\ hp_brk s1 = hp_brk s.
Proof.
  intros Har. destruct (Z.eq_dec (hp_freep s) 0) as [E|E].
  - destruct (ar_list _ _ _ Har) as [(_ & -> & ->)|[Hl Hf]].
    2:{ destruct (free_list_freep s fl); [|done]. destruct Har. by split. }
    exists (mk_heap (<[base := mk_header base 0]> (hp_mem s)) base (hp_brk s)). split; [|split; [|split; [|done]]].
    + eapply runs_bind; [apply runs_gets|]. rewrite E. simpl. eapply runs_bind.
      { eapply runs_bind; [apply runs_gets|]. rewrite in_heap_base. apply runs_modify. }
      eapply runs_bind; [apply runs_modify|]. eapply runs_bind.
      { apply (runs_set_size base 0 (mk_header base (h_size (default (mk_header 0 0) (hp_mem s !! base)))));
          [apply in_heap_base|apply lookup_insert_eq|lia]. }
      intros e. unfold ret. unfold set_hp_mem. simpl. by rewrite insert_insert_eq.
    + destruct Har as [_ Hs Hb Hfr Hal Hap Hap2 Hall]. split; try done.
      right. simpl. rewrite lookup_insert_eq. split; [done|]. by left.
    + simpl. pose proof (ar_bounds _ _ _ Har). lia.
  - exists s. split; [|done]. eapply runs_bind; [apply runs_gets|].
    destruct (Z.eqb_spec (hp_freep s) 0); [done|]. apply runs_ret.
Qed.

(** malloc comes to its loop, with fuel for two rounds of the list. *)

Lemma malloc_start s fl al nbytes :
  arena s fl al ->
  exists s1 h N, arena s1 fl al /\ hp_freep s1 <> 0 /\ hp_brk s1 = hp_brk s /\
    hp_mem s1 !! hp_freep s1 = Some h /\ (S (length fl) <= N)%nat /\
    forall r s', runs (loop (2 * N + 4) (malloc_round (malloc_units nbytes)) (hp_freep s1, h_ptr h)) s1 r s' ->
      runs (malloc nbytes) s r s'.
Proof.
  intros Har. destruct (arena_init s fl al Har) as (s1 & Hinit & Har1 & Hf1 & Hbrk1).
  pose proof (arena_free_list _ _ _ Har1 Hf1) as Hfl1.
  destruct (open_circle s1 fl Hfl1) as (n0 & R & [Hf0 _] & _). simpl in Hf0.
  exists s1, (mk_header (first R (hp_freep s1)) n0), (size (hp_mem s1)). split; [done|]. split; [done|].
  split; [done|]. split; [done|]. split.
  { apply (links_size (hp_mem s1) ((base, 0) :: fl) base); [apply Hfl1|].
    apply (sorted_nodup (base - 1) (hp_brk s1)). simpl. split; [lia|]. split; [lia|].
    unfold hdr_add, sizeof_Header. rewrite Z.mul_0_r, Z.add_0_r. apply Hfl1. }
  intros r s' Hr e. specialize (Hinit e). unfold malloc. unfold bind at 1. unfold bind at 1 in Hinit.
  unfold gets at 1 in Hinit. unfold gets at 1. unfold bind at 1. rewrite Hinit. clear Hinit. revert e.
  eapply runs_bind; [apply runs_gets|]. eapply runs_bind; [by apply runs_get_hdr|]. exact Hr.
Qed.

(** Arenas after a block was taken, and after the heap grew. *)

Lemma arena_taken s fl al nunits s' fl' c :
  arena s fl al -> taken s fl nunits s' fl' c -> 0 < nunits ->
  al !! c = None /\ arena s' fl' (<[c := nunits]> al).
Proof.
  intros Har [Hl Hu Hbrk Hsz Hlo Hhi Hap Hoth Hframe] Hn.
  assert (forall b n, al !! b = Some n -> b <> c /\ apart (b, n) (c, nunits)) as Hnew.
  { intros b n Hb. destruct (ar_alloc _ _ _ Har b n Hb) as (Hn0 & _).
    destruct (Hoth (b, n)) as [H _]; [done|by apply (ar_apart _ _ _ Har)|]. split; [|done].
    intros ->. destruct H; unfold hdr_add, sizeof_Header in *; simpl in *; lia. }
  assert (al !! c = None) as Hc by (destruct (al !! c) eqn:E; [by destruct (Hnew _ _ E)|done]).
  split; [done|]. destruct Hl as [Hlk Hfp Hso Hbd Hfr]. split; try done.
  - by right.
  - intros b n Hb. rewrite Hbrk. apply lookup_insert_Some in Hb as [[<- <-]|[Hne Hb]]; [done|].
    rewrite Hframe; [by apply (ar_alloc _ _ _ Har)|].
    intros [->|Hin]%elem_of_cons; [done|]. by eapply alloc_not_free.
  - intros b n Hb. apply lookup_insert_Some in Hb as [[<- <-]|[Hne Hb]]; [done|].
    apply Hoth; [by destruct (ar_alloc _ _ _ Har b n Hb)|by apply (ar_apart _ _ _ Har)].
  - intros b n d k Hb Hd Hbd'.
    apply lookup_insert_Some in Hb as [[<- <-]|[Hne Hb]]; apply lookup_insert_Some in Hd as [[<- <-]|[Hne' Hd]].
    + done.
    + destruct (Hnew _ _ Hd) as [_ [?|?]]; [by right|by left].
    + by destruct (Hnew _ _ Hb).
    + by apply (ar_apart2 _ _ _ Har).
  - rewrite alloc_units_insert, Hbrk by done. pose proof (ar_all _ _ _ Har) as Ha.
    rewrite <- Ha. f_equal. lia.
Qed.

Lemma arena_grown s fl al nu s' fl' : arena s fl al -> grown s fl nu s' fl' -> 0 < nu -> arena s' fl' al.
Proof.
  intros Har [[Hlk Hfp Hso Hbd Hfr] Hu Hbrk Hex Hlen Hap Hframe] Hnu. split; try done.
  - by right.
  - intros b n Hb. destruct (ar_alloc _ _ _ Har b n Hb) as (H1 & H2 & H3 & H4).
    rewrite Hbrk. split; [done|]. split; [done|]. split; [unfold hdr_add, sizeof_Header in *; lia|].
    rewrite Hframe; [done|unfold hdr_add, sizeof_Header in *; lia|]. by eapply alloc_not_free.
  - intros b n Hb. destruct (ar_alloc _ _ _ Har b n Hb) as (H1 & H2 & H3 & H4).
    apply Hap; [done|done|done|by apply (ar_apart _ _ _ Har)].
  - apply (ar_apart2 _ _ _ Har).
  - rewrite Hbrk, Hu, <- (ar_all _ _ _ Har). unfold hdr_add. lia.
Qed.

(** ** The properties *)

(** Free puts an allocated block back: it always returns, accesses no memory but
    the headers, and afterwards the block is free, joined with its neighbours, no
    block overlaps another and every unit of the heap is accounted for. *)
Theorem free_spec s fl al b n :
  arena s fl al -> al !! b = Some n ->
  exists s' fl', runs (free (hdr_add b 1)) s tt s' /\ arena s' fl' (delete b al) /\
    units fl' = units fl + n /\ hp_brk s' = hp_brk s.
Proof.
  intros Har Hb. destruct (ar_alloc _ _ _ Har b n Hb) as (Hn & Hlo & Hhi & Hsz).
  pose proof (alloc_units_delete al b n Hb) as Hdel. destruct (arena_units _ _ _ Har) as [Hu _].
  assert (0 <= alloc_units (delete b al)) as Hd0.
  { apply alloc_units_nonneg. intros c k [_ Hc]%lookup_delete_Some. by destruct (ar_alloc _ _ _ Har c k Hc). }
  assert (free_list s fl) as Hfl.
  { destruct Har as [[(_ & _ & ->)|[Hlk Hfp]] Hs Hbd Hfr _ _ _ _]; [by rewrite lookup_empty in Hb|by split]. }
  destruct (runs_free s fl b n Hfl) as (s' & fl' & Hr & [Hlk' Hfp' Hso' Hbd' Hfr'] & Hun & Hbrk & _ & _ & Hap & Hframe).
  { split; try done. by apply (ar_apart _ _ _ Har). }
  { lia. }
  exists s', fl'. split; [exact Hr|]. split; [|done]. split; try done.
  - by right.
  - intros c k [Hne Hc]%lookup_delete_Some. rewrite Hbrk, Hframe; [by apply (ar_alloc _ _ _ Har)|].
    intros [->|Hin]%elem_of_cons; [done|]. by eapply alloc_not_free.
  - intros c k [Hne Hc]%lookup_delete_Some. destruct (ar_alloc _ _ _ Har c k Hc) as (? & ? & _).
    apply Hap; [done|done| |by apply (ar_apart _ _ _ Har)]. by apply (ar_apart2 _ _ _ Har).
  - intros c k d j [_ Hc]%lookup_delete_Some [_ Hd]%lookup_delete_Some. by apply (ar_apart2 _ _ _ Har).
  - rewrite Hbrk, Hun, <- (ar_all _ _ _ Har), Hdel. f_equal. lia.
Qed.

(** Malloc of less than 2 GiB always returns.  It returns null only when the
    kernel refuses more memory, and then no block has changed; otherwise it
    returns the address after the header of a new block with room for the bytes
    asked for, which overlaps no block that is free or allocated. *)
Theorem malloc_spec s fl al nbytes :
  arena s fl al -> 0 <= nbytes <= 2 ^ 31 - 32 ->
  let nunits := malloc_units nbytes in
  nbytes <= sizeof_Header * (nunits - 1) /\
  ((exists s', runs (malloc nbytes) s 0 s' /\ arena s' fl al /\
      grants (hp_brk s) (core_units nunits * sizeof_Header) = false) \/
   (exists s' fl' c, runs (malloc nbytes) s (hdr_add c 1) s' /\
      al !! c = None /\ arena s' fl' (<[c := nunits]> al))).
Proof.
  intros Har Hnb nunits. assert (0 < nunits /\ nunits * sizeof_Header < 2 ^ 31 /\
    nbytes <= sizeof_Header * (nunits - 1)) as (Hn0 & Hnmax & Hroom).
  { unfold nunits, malloc_units, sizeof_Header, u32. dlia. }
  split; [exact Hroom|].
  destruct (malloc_start s fl al nbytes Har) as (s1 & h & N & Har1 & Hf1 & Hbrk1 & Hh & HN & Hpre).
  pose proof (arena_free_list _ _ _ Har1 Hf1) as Hfl1. destruct (arena_units _ _ _ Har1) as [Hu1 Hu1'].
  destruct (runs_search s1 fl nunits (2 * N + 4) Hfl1 Hn0) as (h' & Hh' & Hsearch); [lia|lia|].
  rewrite Hh in Hh'. injection Hh' as <-.
  destruct Hsearch as [(s' & fl' & c & Hr & Ht)|(Hsmall & fuel' & Ef & Hr)].
  - right. destruct (arena_taken _ _ _ _ _ _ _ Har1 Ht Hn0) as [Hc Har']. exists s', fl', c. auto.
  - destruct (runs_morecore s1 fl nunits Hfl1 Hn0 Hnmax) as [[Hg Hm]|(s2 & fl2 & Hm & Hgr)].
    + left. exists s1. rewrite Hbrk1 in Hg. split; [|done]. apply Hpre, Hr.
      eapply runs_bind; [eapply runs_bind; [exact Hm|apply runs_ret]|]. apply runs_ret.
    + right. assert (nunits <= core_units nunits) as Hcore
        by (unfold core_units; destruct (Z.ltb_spec nunits 4096); lia).
      pose proof (arena_grown _ _ _ _ _ _ Har1 Hgr ltac:(lia)) as Har2.
      destruct Hgr as [Hfl2 Hun2 Hbrk2 Hex Hlen _ _].
      destruct (arena_units _ _ _ Har2) as [Hu2 Hu2'].
      destruct (runs_search s2 fl2 nunits fuel' Hfl2 Hn0) as (h2 & Hh2 & [(s' & fl' & c & Hr2 & Ht)|(Hsmall2 & _)]);
        [lia|lia| |].
      2:{ exfalso. apply Exists_exists in Hex as (x & Hx & Hxn). rewrite Forall_forall in Hsmall2.
          specialize (Hsmall2 x Hx). lia. }
      destruct (arena_taken _ _ _ _ _ _ _ Har2 Ht Hn0) as [Hc Har']. exists s', fl', c.
      split; [|done]. apply Hpre, Hr. eapply (runs_bind _ _ _ (inl (hp_freep s2, h_ptr h2))); [|exact Hr2].
      eapply runs_bind; [exact Hm|].
      destruct (Z.eqb_spec (hp_freep s2) 0) as [E|_]; [by destruct (free_list_freep _ _ Hfl2)|].
      eapply runs_bind; [by apply runs_get_hdr|apply runs_ret].
Qed.

(** A call of malloc for 2^32 - 15 bytes on a fresh heap returns a pointer although the
    kernel was asked for 16 bytes only: the number of bytes of 2^28 + 1 units is
    truncated to an int on its way to sbrk.  The pointer it returns is the break,
    where no memory is. *)
Theorem malloc_truncated s :
  arena s [] ∅ -> hp_brk s = heap0 -> grants heap0 16 = true ->
  exists s', runs (malloc (2 ^ 32 - 15)) s (hp_brk s') s' /\ hp_brk s' = heap0 + 16.
Proof.
  intros Har Hbrk Hg. pose proof (ar_bounds _ _ _ Har) as Hb. unfold sizeof_Header in Hb.
  destruct (malloc_start s [] ∅ (2 ^ 32 - 15) Har) as (s1 & h & N & Har1 & Hf1 & Hbrk1 & Hh & HN & Hpre).
  pose proof (arena_free_list _ _ _ Har1 Hf1) as [Hlk Hfp _ _ _].
  apply elem_of_cons in Hfp as [Hfp|Hfp]; [|by apply elem_of_nil in Hfp].
  destruct Hlk as [Hm _]. simpl in Hm. rewrite Hfp, Hm in Hh. injection Hh as <-.
  change (malloc_units (2 ^ 32 - 15)) with (2 ^ 28 + 1) in Hpre. rewrite Hfp in Hpre. cbn [h_ptr] in Hpre.
  rewrite Hbrk in Hbrk1.
  set (n := 2 ^ 28 + 1) in *. set (g := h_ptr (default (mk_header 0 0) (hp_mem s1 !! heap0))).
  set (s2 := mk_heap (<[heap0 := mk_header g n]> (hp_mem s1)) base (heap0 + 16)).
  assert (hp_mem s2 !! base = Some (mk_header base 0)) as Hm2 by (simpl; rewrite lookup_insert_ne by lia; done).
  destruct (runs_joins s2 [] base 0 heap0 n g []) as (s3 & Hr & Hl3 & Hf3 & Hb3 & _); try done;
    try (simpl; unfold hdr_add, sizeof_Header, n; lia).
  { apply in_heap_base. }
  { unfold in_heap. apply orb_true_intro. right. simpl. unfold sizeof_Header.
    by rewrite !Z.leb_refl. }
  { simpl. by rewrite lookup_insert_eq. }
  assert (inserted [] base 0 heap0 n [] = [(base, 0); (heap0, n)]) as Ei.
  { unfold inserted. simpl. destruct (Z.eqb_spec (hdr_add base 0) heap0); [|done].
    unfold hdr_add, sizeof_Header in *. lia. }
  rewrite Ei in Hl3. destruct Hl3 as (Hl3 & Hl3' & _). simpl in Hl3, Hl3', Hb3.
  assert (runs (free (hdr_add heap0 1)) s2 tt s3) as Hfree.
  { unfold free. replace (hdr_add (hdr_add heap0 1) (-1)) with heap0 by (unfold hdr_add, sizeof_Header; lia).
    eapply runs_bind; [apply runs_gets|]. eapply runs_bind; [apply runs_gets|].
    eapply runs_bind; [|exact Hr]. apply (runs_free_walk heap0 [] base base 0 s2); try done; [|simpl; lia].
    unfold stops. destruct (Z.ltb_spec base heap0); [|lia]. rewrite Z.leb_refl. apply orb_true_r. }
  exists (mk_heap (<[base := mk_header base 0]> (hp_mem s3)) base (heap0 + 16)). split; [|done]. apply Hpre.
  destruct N as [|N]; [lia|]. replace (2 * S N + 4)%nat with (S (S (2 * N + 4))) by lia.
  eapply (runs_loop_next _ _ _ (base, heap0)).
  - eapply runs_bind; [by apply runs_get_hdr|]. cbn [h_size]. destruct (Z.leb_spec n 0); [unfold n in *; lia|].
    eapply runs_bind; [apply runs_gets|]. rewrite Hfp, Z.eqb_refl. eapply (runs_bind _ _ _ base s3).
    + unfold morecore. destruct (Z.ltb_spec n 4096); [unfold n in *; lia|]. eapply runs_bind.
      { eapply runs_bind; [apply runs_gets|]. change (i32 (n * sizeof_Header)) with 16. rewrite Hbrk1, Hg.
        eapply runs_bind; [apply runs_modify|apply runs_ret]. }
      destruct (Z.eqb_spec heap0 (-1)); [lia|]. eapply runs_bind.
      { eapply runs_bind; [apply runs_gets|].
        rewrite (in_heap_block (set_hp_brk _ s1) heap0 1) by (simpl; unfold hdr_add, sizeof_Header; lia).
        apply runs_modify. }
      rewrite <- Hf3. eapply runs_bind; [|apply runs_gets].
      replace (set_hp_mem _ (set_hp_brk _ s1)) with s2; [exact Hfree|].
      unfold s2, set_hp_mem, set_hp_brk. simpl. by rewrite Hfp.
    + destruct (Z.eqb_spec base 0); [lia|]. eapply runs_bind; [by apply runs_get_hdr|]. apply runs_ret.
  - apply runs_loop_stop. eapply runs_bind; [by apply runs_get_hdr|]. cbn [h_size].
    rewrite Z.leb_refl. eapply (runs_bind _ _ _ (heap0 + 16)); [|apply runs_ret].
    eapply runs_bind; [by apply runs_get_hdr|]. cbn [h_size h_ptr]. rewrite Z.eqb_refl.
    eapply runs_bind; [eapply runs_bind; [apply (runs_set_ptr base base _ s3 (in_heap_base s3) Hl3)|apply runs_ret]|].
    eapply runs_bind; [apply runs_modify|]. intros e. unfold ret. rewrite <- Hb3.
    f_equal. rewrite Hb3. unfold hdr_add, sizeof_Header. lia.
Qed.

End Umalloc.
