(* ===== verification/Sh.v ===== *)
(** * The shell (user/sh.c)

    The parser and the commands it makes, and what running them does.  A pointer
    into the line is the number of characters from it to the end of the line, and
    a word is the pair of the pointers to its first character and past its last;
    nulterminate then cuts the line into strings.  malloc is taken to succeed. *)

From S2P Require Import Prelude Monad Kstring Printf Uprog Ulib.

#[local] Open Scope prog_scope.

Definition MAXARGS : nat := 10.

(** struct cmd and its variants, over the type of words. *)

Inductive cmd (T : Type) : Type :=
| EXEC (argv : list T)
| REDIR (c : cmd T) (file : T) (mode fd : Z)
| PIPE (left right : cmd T)
| LIST (left right : cmd T)
| BACK (c : cmd T).

#[global] Arguments EXEC {T} argv.
#[global] Arguments REDIR {T} c file mode fd.
#[global] Arguments PIPE {T} left right.
#[global] Arguments LIST {T} left right.
#[global] Arguments BACK {T} c.

Definition word : Type := nat * nat.

(** ** Tokens *)

Definition whitespace : list Z := [32; 9; 13; 10; 11].
Definition symbols : list Z := bytes_of_string "<|>&;()".

Definition is_in (c : Z) (s : list Z) : bool :=
  match strchr s c with Some _ => true | None => false end.

(** [while(s < es && strchr(whitespace, *s)) s++;] *)

Fixpoint skip (l : list Z) : list Z :=
  match l with
  | c :: l' => if is_in c whitespace then skip l' else l
  | [] => []
  end.

(** [while(s < es && !strchr(whitespace, *s) && !strchr(symbols, *s)) s++;] *)

Fixpoint skip_word (l : list Z) : list Z :=
  match l with
  | c :: l' => if negb (is_in c whitespace) && negb (is_in c symbols) then skip_word l' else l
  | [] => []
  end.

(** The token: its kind, where it starts and ends, and the line after it.  '>' is
    62, '+' 43, 'a' 97. *)

Definition gettoken (l : list Z) : Z * word * list Z :=
  let s := skip l in
  let '(ret, e) :=
    match s with
    | [] => (0, s)
    | c :: s1 =>
        if c =? 0 then (0, s)
        else if is_in c (bytes_of_string "|();&<") then (c, s1)
        else if c =? 62 then
          match s1 with
          | c1 :: s2 => if c1 =? 62 then (43, s2) else (c, s1)
          | [] => (c, s1)
          end
        else (97, skip_word s)
    end in
  (ret, (length s, length e), skip e).

Definition peek (l : list Z) (toks : string) : bool * list Z :=
  let s := skip l in
  (match s with c :: _ => negb (c =? 0) && is_in c (bytes_of_string toks) | [] => false end, s).

(** ** The parser *)

Inductive parsed (A : Type) : Type :=
| Parsed (a : A) (l : list Z)
| Syntax (msg : string)                         (* panic(msg): exit(1) *)
| NoFuel.

#[global] Arguments Parsed {A} a l.
#[global] Arguments Syntax {A} msg.
#[global] Arguments NoFuel {A}.

Definition redir : Type := word * Z * Z.

(** The loop of parseredirs: the redirections found, in their order. *)

Fixpoint redirs (fuel : nat) (l : list Z) : parsed (list redir) :=
  match fuel with
  | O => NoFuel
  | S n =>
      let '(found, l) := peek l "<>" in
      if negb found then Parsed [] l else
      let '(tok, _, l) := gettoken l in
      let '(tok2, w, l) := gettoken l in
      if negb (tok2 =? 97) then Syntax "missing file for redirection" else
      match redirs n l with
      | Parsed rs l =>
          if tok =? 60 then Parsed ((w, O_RDONLY, 0) :: rs) l
          else if (tok =? 62) || (tok =? 43) then Parsed ((w, Z.lor O_WRONLY O_CREATE, 1) :: rs) l
          else Parsed rs l
      | Syntax m => Syntax m
      | NoFuel => NoFuel
      end
  end.

Definition redirect (c : cmd word) (rs : list redir) : cmd word :=
  fold_left (fun c r => REDIR c r.1.1 r.1.2 r.2) rs c.

Definition parseredirs (c : cmd word) (l : list Z) : parsed (cmd word) :=
  match redirs (S (length l)) l with
  | Parsed rs l => Parsed (redirect c rs) l
  | Syntax m => Syntax m
  | NoFuel => NoFuel
  end.

(** The loop of parseexec: [argv] are the words so far, [rs] the redirections.  The
    execcmd that the redirections wrap is filled in as the words come. *)

Fixpoint parseargs (fuel : nat) (argv : list word) (rs : list redir) (l : list Z)
    : parsed (list word * list redir) :=
  match fuel with
  | O => NoFuel
  | S n =>
      let '(stop, l) := peek l "|)&;" in
      if stop : bool then Parsed (argv, rs) l else
      let '(tok, w, l) := gettoken l in
      if tok =? 0 then Parsed (argv, rs) l else
      if negb (tok =? 97) then Syntax "syntax" else
      let argv := argv ++ [w] in
      if (MAXARGS <=? length argv)%nat then Syntax "too many args" else
      match redirs (S (length l)) l with
      | Parsed rs' l => parseargs n argv (rs ++ rs') l
      | Syntax m => Syntax m
      | NoFuel => NoFuel
      end
  end.

(** The loop of parseline over the ampersands. *)

Fixpoint backs (fuel : nat) (c : cmd word) (l : list Z) : parsed (cmd word) :=
  match fuel with
  | O => NoFuel
  | S n =>
      let '(found, l) := peek l "&" in
      if negb found then Parsed c l else
      let '(_, _, l) := gettoken l in
      backs n (BACK c) l
  end.

Fixpoint parseline (fuel : nat) (l : list Z) : parsed (cmd word) :=
  match fuel with
  | O => NoFuel
  | S n =>
      match parsepipe n l with
      | Parsed c l =>
          match backs (S (length l)) c l with
          | Parsed c l =>
              let '(found, l) := peek l ";" in
              if negb found then Parsed c l else
              let '(_, _, l) := gettoken l in
              match parseline n l with
              | Parsed c2 l => Parsed (LIST c c2) l
              | r => r
              end
          | r => r
          end
      | r => r
      end
  end
with parsepipe (fuel : nat) (l : list Z) : parsed (cmd word) :=
  match fuel with
  | O => NoFuel
  | S n =>
      match parseexec n l with
      | Parsed c l =>
          let '(found, l) := peek l "|" in
          if negb found then Parsed c l else
          let '(_, _, l) := gettoken l in
          match parsepipe n l with
          | Parsed c2 l => Parsed (PIPE c c2) l
          | r => r
          end
      | r => r
      end
  end
with parseexec (fuel : nat) (l : list Z) : parsed (cmd word) :=
  match fuel with
  | O => NoFuel
  | S n =>
      let '(found, l) := peek l "(" in
      if found : bool then parseblock n l else
      match redirs (S (length l)) l with
      | Parsed rs l =>
          match parseargs (S (length l)) [] rs l with
          | Parsed (argv, rs) l => Parsed (redirect (EXEC argv) rs) l
          | Syntax m => Syntax m
          | NoFuel => NoFuel
          end
      | Syntax m => Syntax m
      | NoFuel => NoFuel
      end
  end
with parseblock (fuel : nat) (l : list Z) : parsed (cmd word) :=
  match fuel with
  | O => NoFuel
  | S n =>
      let '(found, l) := peek l "(" in
      if negb found then Syntax "parseblock" else
      let '(_, _, l) := gettoken l in
      match parseline n l with
      | Parsed c l =>
          let '(found, l) := peek l ")" in
          if negb found then Syntax "syntax - missing )" else
          let '(_, _, l) := gettoken l in
          parseredirs c l
      | r => r
      end
  end.

(** ** The strings of a command *)

(** Store a NUL at the pointer [e] into a line. *)

Definition put_nul (buf : list Z) (e : nat) : list Z := <[(length buf - 1 - e)%nat := 0]> buf.

Fixpoint nulterminate (c : cmd word) (buf : list Z) : list Z :=
  match c with
  | EXEC argv => fold_left (fun b w => put_nul b w.2) argv buf
  | REDIR c f _ _ => put_nul (nulterminate c buf) f.2
  | PIPE l r => nulterminate r (nulterminate l buf)
  | LIST l r => nulterminate r (nulterminate l buf)
  | BACK c => nulterminate c buf
  end.

(** The bound of 4 * (n + 1) calls of the parser for a line of n characters: each
    of the four functions is called at most once before a character is consumed. *)

Definition parse_fuel (l : list Z) : nat := (4 * (length l + 1))%nat.

(** parsecmd on the line [s]: the command and the line as it is left, with its
    closing NUL; or what is printed before the exit. *)

Inductive parse_result : Type :=
| Cmd (c : cmd word) (buf : list Z)
| Leftovers (s : list Z)
| Panicked (msg : string)
| Unfinished.

Definition parsecmd (s : list Z) : parse_result :=
  match parseline (parse_fuel s) s with
  | Parsed c l =>
      let '(_, l) := peek l "" in
      match l with
      | [] => Cmd c (nulterminate c (s ++ [0]))
      | _ => Leftovers l
      end
  | Syntax m => Panicked m
  | NoFuel => Unfinished
  end.

(** The string at a pointer, and a command with its strings. *)

Definition string_at (buf : list Z) (q : nat) : list Z := cstring (drop (length buf - 1 - q) buf).

Fixpoint with_strings {A B} (f : A -> B) (c : cmd A) : cmd B :=
  match c with
  | EXEC argv => EXEC (f <$> argv)
  | REDIR c w mode fd => REDIR (with_strings f c) (f w) mode fd
  | PIPE l r => PIPE (with_strings f l) (with_strings f r)
  | LIST l r => LIST (with_strings f l) (with_strings f r)
  | BACK c => BACK (with_strings f c)
  end.

Definition strings (buf : list Z) : cmd word -> cmd (list Z) := with_strings (fun w => string_at buf w.1).

(** ** Running a command *)

Definition sh_panic {A} (s : string) : prog A := fprintf 2 "%s
" [VStr (Some (bytes_of_string s))] ;; Exit 1.

Definition fork1 : prog Z :=
  pid <- sys_call Sfork ;; if pid =? -1 then sh_panic "fork" else Done pid.

Fixpoint runcmd (c : cmd (list Z)) : prog unit :=
  match c with
  | EXEC argv =>
      match argv with
      | [] => Exit 1
      | a :: _ =>
          sys_call (Sexec a argv) ;;
          fprintf 2 "exec %s failed
" [VStr (Some a)] ;;
          Exit 0
      end
  | REDIR c file mode fd =>
      sys_call (Sclose fd) ;;
      r <- sys_call (Sopen file mode) ;;
      (if r <? 0 then fprintf 2 "open %s failed
" [VStr (Some file)] ;; Exit 1 else Done tt) ;;
      runcmd c ;;
      Exit 0
  | LIST l r =>
      pid <- fork1 ;;
      (if pid =? 0 then runcmd l else Done tt) ;;
      sys_call Swait ;;
      runcmd r ;;
      Exit 0
  | PIPE l r =>
      p <- sys_call Spipe ;;
      (if p.1 <? 0 then sh_panic "pipe" else Done tt) ;;
      pid <- fork1 ;;
      (if pid =? 0 then
         sys_call (Sclose 1) ;; sys_call (Sdup p.2.2) ;;
         sys_call (Sclose p.2.1) ;; sys_call (Sclose p.2.2) ;;
         runcmd l
       else Done tt) ;;
      pid <- fork1 ;;
      (if pid =? 0 then
         sys_call (Sclose 0) ;; sys_call (Sdup p.2.1) ;;
         sys_call (Sclose p.2.1) ;; sys_call (Sclose p.2.2) ;;
         runcmd r
       else Done tt) ;;
      sys_call (Sclose p.2.1) ;; sys_call (Sclose p.2.2) ;;
      sys_call Swait ;; sys_call Swait ;;
      Exit 0
  | BACK c =>
      pid <- fork1 ;;
      (if pid =? 0 then runcmd c else Done tt) ;;
      Exit 0
  end.

(** getcmd: the line, or [None] at the end of the input. *)

Definition getcmd (nbuf : Z) : prog (option (list Z)) :=
  fprintf 2 "$ " [] ;;
  s <- gets nbuf ;;
  Done (match s with [] => None | c :: _ => if c =? 0 then None else Some (cstring s) end).

(** The run of a line by the child. *)

Definition run_line (s : list Z) : prog unit :=
  match parsecmd s with
  | Cmd c buf => runcmd (strings buf c)
  | Leftovers l => fprintf 2 "leftovers: %s
" [VStr (Some l)] ;; sh_panic "syntax"
  | Panicked m => sh_panic m
  | Unfinished => More
  end.

Definition sh_main (fuel : nat) : prog unit :=
  ploop fuel (fun _ : unit =>
    fd <- sys_call (Sopen (bytes_of_string "console") O_RDWR) ;;
    if fd <? 0 then Done (inr tt)
    else if 3 <=? fd then sys_call (Sclose fd) ;; Done (inr tt)
    else Done (inl tt)) tt ;;
  ploop fuel (fun _ : unit =>
    o <- getcmd 100 ;;
    match o with
    | None => Done (inr tt)
    | Some s =>
        match s with
        | 99 :: 100 :: 32 :: dir =>
            let dir := removelast dir in
            r <- sys_call (Schdir dir) ;;
            (if r <? 0 then fprintf 2 "cannot cd %s
" [VStr (Some dir)] else Done tt) ;;
            Done (inl tt)
        | _ =>
            pid <- fork1 ;;
            (if pid =? 0 then run_line s else Done tt) ;;
            sys_call Swait ;;
            Done (inl tt)
        end
    end) tt ;;
  Exit 0.

(** ** What the tokens are *)

Definition wordch (c : Z) : bool := negb (is_in c whitespace) && negb (is_in c symbols).

Lemma is_in_spec c s : is_in c s = bool_decide (c ∈ s).
Proof.
  unfold is_in. induction s as [|a s IH]; [done|].
  cbn [strchr]. destruct (Z.eqb_spec a c) as [->|E].
  - symmetry. apply bool_decide_eq_true. set_solver.
  - rewrite IH. apply bool_decide_ext. set_solver.
Qed.

Lemma wordch_spec c :
  wordch c = bool_decide (c ∉ [32; 9; 13; 10; 11; 60; 124; 62; 38; 59; 40; 41]).
Proof.
  unfold wordch. rewrite !is_in_spec, <- !bool_decide_not, <- bool_decide_and.
  apply bool_decide_ext. change (bytes_of_string "") with (@nil Z).
  change symbols with [60; 124; 62; 38; 59; 40; 41]. set_solver.
Qed.

(** The text of a word of the line [s]. *)

Definition text (s : list Z) (w : word) : list Z :=
  take (w.1 - w.2) (drop (length s - w.1) s).

(** A maximal run of word characters of the line. *)

Definition word_ok (s : list Z) (w : word) : Prop :=
  exists pre u post, s = pre ++ u ++ post /\ w = (length (u ++ post), length post) /\
    Forall (fun c => wordch c = true) u /\ u <> [] /\
    match post with c :: _ => wordch c = false | [] => True end.

Lemma word_text s pre u post :
  s = pre ++ u ++ post -> text s (length (u ++ post), length post) = u.
Proof.
  intros ->. unfold text. cbn [fst snd].
  replace (length (pre ++ u ++ post) - length (u ++ post))%nat with (length pre)
    by (rewrite length_app; lia).
  rewrite drop_app_length. replace (length (u ++ post) - length post)%nat with (length u)
    by (rewrite length_app; lia).
  apply take_app_length.
Qed.

Lemma skip_spec l :
  exists ws, l = ws ++ skip l /\ match skip l with c :: _ => is_in c whitespace = false | [] => True end.
Proof.
  induction l as [|c l (ws & E & H)]; [by exists []|]. cbn [skip].
  destruct (is_in c whitespace) eqn:Ec.
  - exists (c :: ws). split; [|done]. cbn. by f_equal.
  - by exists [].
Qed.

Lemma skip_suffix l : skip l `suffix_of` l.
Proof. destruct (skip_spec l) as (ws & E & _). by exists ws. Qed.

Lemma skip_skip l : skip (skip l) = skip l.
Proof.
  destruct (skip_spec l) as (_ & _ & H). destruct (skip l) as [|c l']; [done|].
  cbn [skip]. by rewrite H.
Qed.

Lemma skip_word_spec l :
  exists u, l = u ++ skip_word l /\ Forall (fun c => wordch c = true) u /\
    match skip_word l with c :: _ => wordch c = false | [] => True end.
Proof.
  induction l as [|c l (u & E & Hu & H)]; [by exists []|]. cbn [skip_word].
  change (negb (is_in c whitespace) && negb (is_in c symbols)) with (wordch c).
  destruct (wordch c) eqn:Ec.
  - exists (c :: u). split; [cbn; by f_equal|]. split; [by constructor|done].
  - exists []. by rewrite Ec.
Qed.

Lemma suffix_length (l1 l2 : list Z) : l1 `suffix_of` l2 -> (length l1 <= length l2)%nat.
Proof. intros [k ->]. rewrite length_app. lia. Qed.

(** A token other than the end is at least one character; a word is a maximal run. *)

Lemma gettoken_spec s l tok w l' :
  l `suffix_of` s -> Forall (fun c => c <> 0) s -> gettoken l = (tok, w, l') ->
  l' `suffix_of` l /\ (tok <> 0 -> (length l' < length l)%nat) /\
  (tok = 97 -> word_ok s w) /\ (skip l <> [] -> tok <> 0).
Proof.
  intros Hs H0. unfold gettoken. destruct (skip_spec l) as (ws & El & Hhd).
  destruct (skip l) as [|c s1] eqn:Esk.
  - intros [= <- <- <-]. split; [apply suffix_nil|]. done.
  - assert (Hc : c <> 0).
    { destruct Hs as [k ->]. apply Forall_app in H0 as [_ H0]. rewrite El in H0.
      apply Forall_app in H0 as [_ H0]. by apply Forall_cons_1 in H0 as [? _]. }
    assert (step : forall e, e `suffix_of` s1 -> skip e `suffix_of` l /\ (length (skip e) < length l)%nat).
    { intros e He. assert (Hk := transitivity (skip_suffix e) He). split.
      - rewrite El. destruct Hk as [k ->]. exists (ws ++ c :: k). by rewrite <- app_assoc.
      - apply suffix_length in Hk. rewrite El, length_app. cbn. lia. }
    apply Z.eqb_neq in Hc as Hc'. rewrite Hc'.
    destruct (is_in c (bytes_of_string "|();&<")) eqn:Esy.
    { intros [= <- <- <-]. destruct (step s1) as [? ?]; [done|]. split; [done|].
      split; [done|]. split; [|done]. intros ->. done. }
    destruct (Z.eqb_spec c 62) as [->|Egt].
    { destruct s1 as [|c1 s2]; [|destruct (Z.eqb_spec c1 62) as [->|]];
        intros [= <- <- <-].
      - destruct (step []) as [? ?]; [done|]. done.
      - destruct (step s2) as [? ?]; [by exists [62]|]. done.
      - destruct (step (c1 :: s2)) as [? ?]; [done|]. done. }
    destruct (skip_word_spec (c :: s1)) as (u & Eu & Hu & Hp).
    generalize dependent (skip_word (c :: s1)). intros p Eu Hp [= <- <- <-].
    assert (Hw : wordch c = true).
    { rewrite wordch_spec. apply bool_decide_eq_true. rewrite is_in_spec in Hhd, Esy.
      apply bool_decide_eq_false in Hhd. apply bool_decide_eq_false in Esy.
      change (bytes_of_string "|();&<") with [124; 40; 41; 59; 38; 60] in Esy.
      unfold whitespace in Hhd. set_solver. }
    assert (Hu0 : u <> []).
    { intros ->. cbn [app] in Eu. subst p. by rewrite Hw in Hp. }
    destruct u as [|c0 u]; [done|]. injection Eu as <- Eu.
    destruct (step p) as [? ?]; [by exists u|].
    split; [done|]. split; [done|]. split; [|done]. intros _.
    destruct Hs as [k ->]. exists (k ++ ws), (c :: u), p.
    rewrite El, Eu. cbn [app length]. by rewrite <- app_assoc.
Qed.

(** ** The parser ends, and its words are words of the line *)

Fixpoint words {A} (c : cmd A) : list A :=
  match c with
  | EXEC argv => argv
  | REDIR c w _ _ => words c ++ [w]
  | PIPE l r => words l ++ words r
  | LIST l r => words l ++ words r
  | BACK c => words c
  end.

Section Parser.

Variable s : list Z.
Hypothesis no_nul : Forall (fun c => c <> 0) s.

Definition cmd_ok (c : cmd word) : Prop := Forall (word_ok s) (words c).

(** The result of a parser on the line from [l]. *)

Definition parses {A} (l : list Z) (P : A -> Prop) (r : parsed A) : Prop :=
  match r with
  | Parsed a l' => l' `suffix_of` l /\ P a
  | Syntax _ => True
  | NoFuel => False
  end.

Lemma parses_weaken {A} l l' (P : A -> Prop) r : l' `suffix_of` l -> parses l' P r -> parses l P r.
Proof. destruct r as [a l2| |]; cbn; [|done..]. intros H [H2 HP]. split; [by trans l'|done]. Qed.

Lemma peek_spec l toks b l' :
  peek l toks = (b, l') -> l' `suffix_of` l /\ skip l' = l' /\ (b = true -> l' <> []).
Proof.
  unfold peek. intros [= <- <-]. split; [apply skip_suffix|]. split; [apply skip_skip|].
  by destruct (skip l).
Qed.

(** A token read after a successful peek makes the line shorter. *)

Lemma gettoken_peeked l0 toks l tok w l' :
  l0 `suffix_of` s -> peek l0 toks = (true, l) -> gettoken l = (tok, w, l') ->
  l' `suffix_of` l0 /\ (length l' < length l0)%nat.
Proof.
  intros Hs Hp Hg. destruct (peek_spec _ _ _ _ Hp) as (H1 & H2 & H3).
  destruct (gettoken_spec s l tok w l') as (G1 & G2 & _ & G4); [by trans l0|done|done|].
  rewrite H2 in G4. split; [by trans l|]. apply suffix_length in H1.
  specialize (G2 (G4 (H3 eq_refl))). lia.
Qed.

Lemma redirs_parses fuel l :
  l `suffix_of` s -> (length l < fuel)%nat ->
  parses l (Forall (fun r : redir => word_ok s r.1.1)) (redirs fuel l).
Proof.
  revert l. induction fuel as [|n IH]; intros l Hs Hf; [lia|]. cbn [redirs].
  destruct (peek l "<>") as [b l1] eqn:Ep. destruct (peek_spec _ _ _ _ Ep) as (H1 & _ & _).
  destruct b; cbn [negb]; [|by split].
  destruct (gettoken l1) as [[tok w] l2] eqn:Eg. destruct (gettoken_peeked _ _ _ _ _ _ Hs Ep Eg) as [H2 H3].
  destruct (gettoken l2) as [[tok2 w2] l3] eqn:Eg2.
  destruct (gettoken_spec s _ _ _ _ (transitivity H2 Hs) no_nul Eg2) as (G1 & _ & G3 & _).
  destruct (Z.eqb_spec tok2 97) as [->|]; cbn [negb]; [|done]. specialize (G3 eq_refl).
  assert (H4 := transitivity G1 H2). specialize (IH l3 (transitivity H4 Hs)).
  apply suffix_length in G1 as Hl. destruct (redirs n l3) as [rs l4|m|]; [|done|apply IH; lia].
  destruct IH as [H5 H6]; [lia|].
  assert (H7 := transitivity H5 H4). repeat case_match; split; try done; by constructor.
Qed.

Lemma words_redirect c rs :
  words (redirect c rs) = words c ++ ((fun r : redir => r.1.1) <$> rs).
Proof.
  unfold redirect. revert c. induction rs as [|r rs IH]; intros c; cbn [fold_left].
  - by rewrite app_nil_r.
  - rewrite IH. cbn. by rewrite <- app_assoc.
Qed.

Lemma redirect_ok c rs :
  cmd_ok c -> Forall (fun r : redir => word_ok s r.1.1) rs -> cmd_ok (redirect c rs).
Proof.
  intros Hc Hr. unfold cmd_ok. rewrite words_redirect. apply Forall_app. split; [done|].
  by apply Forall_fmap.
Qed.

Lemma parseredirs_parses c l :
  l `suffix_of` s -> cmd_ok c -> parses l cmd_ok (parseredirs c l).
Proof.
  intros Hs Hc. unfold parseredirs. assert (H := redirs_parses (S (length l)) l Hs (Nat.lt_succ_diag_r _)).
  destruct (redirs _ l) as [rs l'|m|]; [|done..]. destruct H as [H Hr]. split; [done|].
  by apply redirect_ok.
Qed.

Lemma parseargs_parses fuel argv rs l :
  l `suffix_of` s -> (length l < fuel)%nat ->
  Forall (word_ok s) argv -> Forall (fun r : redir => word_ok s r.1.1) rs ->
  parses l (fun p => Forall (word_ok s) p.1 /\ Forall (fun r : redir => word_ok s r.1.1) p.2)
    (parseargs fuel argv rs l).
Proof.
  revert argv rs l. induction fuel as [|n IH]; intros argv rs l Hs Hf Ha Hr; [lia|]. cbn [parseargs].
  destruct (peek l "|)&;") as [b l1] eqn:Ep. destruct (peek_spec _ _ _ _ Ep) as (H1 & _ & _).
  destruct b; [by split|].
  destruct (gettoken l1) as [[tok w] l2] eqn:Eg.
  destruct (gettoken_spec s _ _ _ _ (transitivity H1 Hs) no_nul Eg) as (G1 & G2 & G3 & _).
  assert (H2 := transitivity G1 H1).
  destruct (Z.eqb_spec tok 0) as [E0|E0]; [by split|].
  destruct (Z.eqb_spec tok 97) as [Ea|]; cbn [negb]; [|done].
  case_match; [done|].
  assert (R := redirs_parses (S (length l2)) l2 (transitivity H2 Hs) (Nat.lt_succ_diag_r _)).
  destruct (redirs _ l2) as [rs' l3|m|]; [|done..]. destruct R as [R1 R2].
  assert (H3 := transitivity R1 H2). specialize (G2 E0).
  apply suffix_length in R1, H1. eapply parses_weaken; [exact H3|].
  apply IH; [by trans l|lia| |].
  - apply Forall_app. split; [done|]. constructor; [|done]. by apply G3.
  - by apply Forall_app.
Qed.

Lemma backs_parses fuel c l :
  l `suffix_of` s -> (length l < fuel)%nat -> cmd_ok c -> parses l cmd_ok (backs fuel c l).
Proof.
  revert c l. induction fuel as [|n IH]; intros c l Hs Hf Hc; [lia|]. cbn [backs].
  destruct (peek l "&") as [b l1] eqn:Ep. destruct (peek_spec _ _ _ _ Ep) as (H1 & _ & _).
  destruct b; cbn [negb]; [|by split].
  destruct (gettoken l1) as [[tok w] l2] eqn:Eg. destruct (gettoken_peeked _ _ _ _ _ _ Hs Ep Eg) as [H2 H3].
  eapply parses_weaken; [exact H2|]. apply IH; [by trans l|lia|done].
Qed.

(** The number of calls that is enough for each of the four functions. *)

Definition line_ok (n : nat) : Prop := forall l,
  l `suffix_of` s -> (4 * length l + 3 <= n)%nat -> parses l cmd_ok (parseline n l).
Definition pipe_ok (n : nat) : Prop := forall l,
  l `suffix_of` s -> (4 * length l + 2 <= n)%nat -> parses l cmd_ok (parsepipe n l).
Definition exec_ok (n : nat) : Prop := forall l,
  l `suffix_of` s -> (4 * length l + 1 <= n)%nat -> parses l cmd_ok (parseexec n l).
Definition block_ok (n : nat) : Prop := forall l,
  l `suffix_of` s -> l <> [] -> (4 * length l <= n)%nat -> parses l cmd_ok (parseblock n l).

Lemma parseline_parses n : pipe_ok n -> line_ok n -> line_ok (S n).
Proof.
  intros IHp IHl l Hs Hn. cbn [parseline].
  assert (H := IHp l Hs ltac:(lia)). destruct (parsepipe n l) as [c l1|m|]; [|done..].
  destruct H as [H1 Hc].
  assert (H := backs_parses (S (length l1)) c l1 (transitivity H1 Hs) (Nat.lt_succ_diag_r _) Hc).
  destruct (backs _ c l1) as [c1 l2|m|]; [|done..]. destruct H as [H2 Hc1].
  assert (H3 := transitivity H2 H1).
  destruct (peek l2 ";") as [b l3] eqn:Ep. destruct (peek_spec _ _ _ _ Ep) as (H4 & _ & _).
  destruct b; cbn [negb]; [|split; [by trans l2|done]].
  destruct (gettoken l3) as [[tok w] l4] eqn:Eg.
  destruct (gettoken_peeked _ _ _ _ _ _ (transitivity H3 Hs) Ep Eg) as [H5 H6].
  assert (H7 := transitivity H5 H3). apply suffix_length in H3.
  assert (H := IHl l4 (transitivity H7 Hs) ltac:(lia)).
  destruct (parseline n l4) as [c2 l5|m|]; [|done..]. destruct H as [H8 Hc2].
  split; [by trans l4|]. by apply Forall_app.
Qed.

Lemma parsepipe_parses n : exec_ok n -> pipe_ok n -> pipe_ok (S n).
Proof.
  intros IHe IHp l Hs Hn. cbn [parsepipe].
  assert (H := IHe l Hs ltac:(lia)). destruct (parseexec n l) as [c l1|m|]; [|done..].
  destruct H as [H1 Hc].
  destruct (peek l1 "|") as [b l3] eqn:Ep. destruct (peek_spec _ _ _ _ Ep) as (H4 & _ & _).
  destruct b; cbn [negb]; [|split; [by trans l1|done]].
  destruct (gettoken l3) as [[tok w] l4] eqn:Eg.
  destruct (gettoken_peeked _ _ _ _ _ _ (transitivity H1 Hs) Ep Eg) as [H5 H6].
  assert (H7 := transitivity H5 H1). apply suffix_length in H1.
  assert (H := IHp l4 (transitivity H7 Hs) ltac:(lia)).
  destruct (parsepipe n l4) as [c2 l5|m|]; [|done..]. destruct H as [H8 Hc2].
  split; [by trans l4|]. by apply Forall_app.
Qed.

Lemma parseexec_parses n : block_ok n -> exec_ok (S n).
Proof.
  intros IHb l Hs Hn. cbn [parseexec].
  destruct (peek l "(") as [b l1] eqn:Ep. destruct (peek_spec _ _ _ _ Ep) as (H1 & _ & H0).
  apply suffix_length in H1 as Hl.
  destruct b.
  { eapply parses_weaken; [exact H1|]. apply IHb; [by trans l|by apply H0|lia]. }
  assert (R := redirs_parses (S (length l1)) l1 (transitivity H1 Hs) (Nat.lt_succ_diag_r _)).
  destruct (redirs _ l1) as [rs l2|m|]; [|done..]. destruct R as [R1 R2].
  assert (H2 := transitivity R1 H1).
  assert (H := parseargs_parses (S (length l2)) [] rs l2 (transitivity H2 Hs)
    (Nat.lt_succ_diag_r _) (Forall_nil_2 _) R2).
  destruct (parseargs _ [] rs l2) as [[argv rs'] l3|m|]; [|done..]. destruct H as [H3 [Ha Hr]].
  split; [by trans l2|]. by apply redirect_ok.
Qed.

Lemma parseblock_parses n : line_ok n -> block_ok (S n).
Proof.
  intros IHl l Hs Hne Hn. cbn [parseblock].
  destruct (peek l "(") as [b l1] eqn:Ep.
  destruct b; cbn [negb]; [|done].
  destruct (gettoken l1) as [[tok w] l2] eqn:Eg.
  destruct (gettoken_peeked _ _ _ _ _ _ Hs Ep Eg) as [H1 H2].
  assert (H := IHl l2 (transitivity H1 Hs) ltac:(lia)).
  destruct (parseline n l2) as [c l3|m|]; [|done..]. destruct H as [H3 Hc].
  assert (H4 := transitivity H3 H1).
  destruct (peek l3 ")") as [b l4] eqn:Ep2. destruct b; cbn [negb]; [|done].
  destruct (gettoken l4) as [[tok2 w2] l5] eqn:Eg2.
  destruct (gettoken_peeked _ _ _ _ _ _ (transitivity H4 Hs) Ep2 Eg2) as [H5 _].
  assert (H6 := transitivity H5 H4). eapply parses_weaken; [exact H6|].
  apply parseredirs_parses; [by trans l|done].
Qed.

Lemma parsers_parse n : line_ok n /\ pipe_ok n /\ exec_ok n /\ block_ok n.
Proof.
  induction n as [|n (IHl & IHp & IHe & IHb)].
  - split_and!; intros l ?; destruct l; cbn [length]; intros; done || lia.
  - auto using parseline_parses, parsepipe_parses, parseexec_parses, parseblock_parses.
Qed.

End Parser.

(** ** The strings *)

Lemma nulterminate_words c buf :
  nulterminate c buf = fold_left (fun b w => put_nul b w.2) (words c) buf.
Proof.
  revert buf. induction c as [argv|c IH w mode fd|c1 IH1 c2 IH2|c1 IH1 c2 IH2|c IH]; intros buf;
    cbn [nulterminate words]; rewrite ?fold_left_app;
    repeat match goal with H : forall b, nulterminate _ b = _ |- _ => rewrite H end; done.
Qed.

Lemma put_nuls_length ws buf :
  length (fold_left (fun b (w : word) => put_nul b w.2) ws buf) = length buf.
Proof.
  revert buf. induction ws as [|w ws IH]; intros buf; [done|]. cbn [fold_left]. rewrite IH.
  unfold put_nul. apply length_insert.
Qed.

Lemma put_nuls_lookup (ws : list word) s i :
  (i <= length s)%nat ->
  fold_left (fun b (w : word) => put_nul b w.2) ws (s ++ [0]) !! i =
    if decide (i ∈ (fun w : word => length s - w.2)%nat <$> ws) then Some 0 else (s ++ [0]) !! i.
Proof.
  intros Hi. assert (Hl : length (s ++ [0]) = S (length s)) by (rewrite length_app; cbn; lia).
  revert Hl. generalize (s ++ [0]). induction ws as [|w ws IH]; intros b Hb; cbn [fold_left].
  - by rewrite decide_False by (apply not_elem_of_nil).
  - rewrite IH by (unfold put_nul; by rewrite length_insert).
    unfold put_nul. rewrite Hb. cbn [Nat.sub]. rewrite Nat.sub_0_r, fmap_cons.
    destruct (decide (i = length s - w.2)%nat) as [->|E].
    + rewrite list_lookup_insert_eq by lia.
      rewrite (decide_True (P := _ ∈ _ :: _)) by left. by case_decide.
    + rewrite list_lookup_insert_ne by done. apply decide_ext. set_solver.
Qed.

Lemma cstring_app u l : Forall (fun c => c <> 0) u -> cstring (u ++ 0 :: l) = u.
Proof.
  induction 1 as [|c u Hc _ IH]; [done|]. cbn [app cstring].
  apply Z.eqb_neq in Hc. rewrite Hc. by f_equal.
Qed.

(** The end of a word is on a character of no word. *)

Lemma word_end_apart s pre u post w i :
  s = pre ++ u ++ post -> Forall (fun c => wordch c = true) u -> (i < length u)%nat ->
  word_ok s w -> (length pre + i)%nat <> (length s - w.2)%nat.
Proof.
  intros Es Hu Hi (pre' & u' & post' & Es' & -> & _ & _ & Hp') Ew.
  cbn [snd] in Ew. destruct (lookup_lt_is_Some_2 u i ltac:(lia)) as [c Hc].
  assert (Hsc : s !! (length pre + i)%nat = Some c).
  { rewrite Es, lookup_app_r by lia. rewrite Nat.add_comm, Nat.add_sub. by rewrite lookup_app_l by lia. }
  rewrite Ew in Hsc. rewrite Es' in Hsc at 2. rewrite app_assoc in Hsc.
  rewrite lookup_app_r in Hsc by (rewrite Es', !length_app; lia).
  replace (length s - length post' - length (pre' ++ u'))%nat with 0%nat in Hsc
    by (rewrite Es', !length_app; lia).
  destruct post' as [|c' post']; [done|]. injection Hsc as ->.
  rewrite Forall_lookup in Hu. specialize (Hu i c Hc). congruence.
Qed.

Lemma nulterminate_text s ws w :
  Forall (fun c => c <> 0) s -> Forall (word_ok s) ws -> w ∈ ws ->
  string_at (fold_left (fun b (w : word) => put_nul b w.2) ws (s ++ [0])) w.1 = text s w.
Proof.
  intros H0 Hws Hw. rewrite Forall_forall in Hws.
  destruct (Hws w Hw) as (pre & u & post & Es & -> & Hu & Hne & Hp).
  rewrite (word_text _ _ _ _ Es). unfold string_at. cbn [fst].
  rewrite put_nuls_length, length_app. cbn [length].
  assert (Hls : length s = (length pre + length (u ++ post))%nat) by (by rewrite Es, length_app).
  replace (length s + 1 - 1 - length (u ++ post))%nat with (length pre) by lia.
  set (b := fold_left _ ws (s ++ [0])).
  assert (Hb : forall i, (i <= length u)%nat -> b !! (length pre + i)%nat = (u ++ [0]) !! i).
  { intros i Hi. unfold b. rewrite length_app in Hls. rewrite put_nuls_lookup by lia.
    destruct (decide (i = length u)) as [->|Ei].
    - rewrite decide_True; [by rewrite list_lookup_middle|]. apply list_elem_of_fmap.
      exists (length (u ++ post), length post). split; [cbn [snd]; lia|done].
    - rewrite decide_False.
      + rewrite Es, <- !app_assoc, lookup_app_r by lia.
        rewrite Nat.add_comm, Nat.add_sub. rewrite !lookup_app_l by lia. done.
      + intros Hin. apply list_elem_of_fmap in Hin as (w' & Ew & Hw'). revert Ew.
        eapply word_end_apart; [exact Es|exact Hu|lia|by apply Hws]. }
  assert (Hd : take (S (length u)) (drop (length pre) b) = u ++ [0]).
  { apply list_eq. intros i. destruct (decide (i <= length u)%nat) as [Hi|Hi].
    - rewrite lookup_take_lt by lia. rewrite lookup_drop. by apply Hb.
    - rewrite lookup_take_ge by lia. symmetry. apply lookup_ge_None_2. rewrite length_app. cbn. lia. }
  rewrite <- (take_drop (S (length u)) (drop (length pre) b)), Hd, <- app_assoc. cbn [app].
  apply cstring_app. rewrite Es in H0. apply Forall_app in H0 as [_ H0]. by apply Forall_app in H0 as [H0 _].
Qed.

Lemma with_strings_ext {A B} (f g : A -> B) c :
  (forall w, w ∈ words c -> f w = g w) -> with_strings f c = with_strings g c.
Proof.
  induction c as [argv|c IH w mode fd|c1 IH1 c2 IH2|c1 IH1 c2 IH2|c IH]; cbn [words with_strings]; intros H.
  - f_equal. apply list_fmap_ext. intros i w Hi. apply H. by eapply list_elem_of_lookup_2.
  - rewrite IH, (H w) by set_solver. done.
  - rewrite IH1, IH2 by set_solver. done.
  - rewrite IH1, IH2 by set_solver. done.
  - by rewrite IH.
Qed.

Lemma nulterminate_strings s c :
  Forall (fun c => c <> 0) s -> cmd_ok s c ->
  strings (nulterminate c (s ++ [0])) c = with_strings (text s) c.
Proof.
  intros H0 Hc. apply with_strings_ext. intros w Hw. rewrite nulterminate_words.
  by apply nulterminate_text.
Qed.

(** C38: parsecmd returns on every line, within the bound: with a command, with what
    is left over, or with a message.  The words of the command are maximal runs of
    word characters of the line, and the NULs that nulterminate stores make each of
    its strings exactly its word, although all the strings share the line. *)
Theorem parsecmd_words (s : list Z) :
  Forall (fun c => c <> 0) s ->
  match parsecmd s with
  | Cmd c buf => strings buf c = with_strings (text s) c /\ Forall (word_ok s) (words c)
  | Leftovers l => l `suffix_of` s /\ l <> []
  | Panicked _ => True
  | Unfinished => False
  end.
Proof.
  intros H0. unfold parsecmd.
  destruct (parsers_parse s H0 (parse_fuel s)) as (Hl & _).
  assert (H := Hl s ltac:(done) ltac:(unfold parse_fuel; lia)).
  destruct (parseline (parse_fuel s) s) as [c l|m|]; [|done..]. destruct H as [Hsuf Hc].
  destruct (peek l "") as [b l'] eqn:Ep. destruct (peek_spec _ _ _ _ Ep) as (H1 & _ & _).
  destruct l' as [|x l'].
  - split; [by apply nulterminate_strings|done].
  - split; [by trans l|done].
Qed.

(** ** Printing a command

    A command can be written down: [print lv c] is what the parser of level [lv]
    (0 parseline, 1 its part before the semicolon, 2 parsepipe, 3 parseexec) reads
    as [c]. *)

Definition paren (b : bool) (l : list Z) : list Z := if b then 40 :: 32 :: l ++ [41; 32] else l.

Definition print_words (argv : list (list Z)) : list Z := concat ((fun w => w ++ [32]) <$> argv).

Definition print_redir (f : list Z) (fd : Z) : list Z :=
  (if fd =? 0 then 60 else 62) :: 32 :: f ++ [32].

Fixpoint print (lv : nat) (c : cmd (list Z)) : list Z :=
  match c with
  | EXEC argv => print_words argv
  | REDIR c f _ fd => print 3 c ++ print_redir f fd
  | PIPE l r => paren (3 <=? lv)%nat (print 3 l ++ 124 :: 32 :: print 2 r)
  | LIST l r => paren (1 <=? lv)%nat (print 1 l ++ 59 :: 32 :: print 0 r)
  | BACK c => paren (2 <=? lv)%nat (print 1 c ++ [38; 32])
  end.

(** The commands that have a text: words are nonempty, an EXEC has less than
    MAXARGS of them, and the two ways to open a file are those of parseredirs. *)

Definition is_word (w : list Z) : Prop := w <> [] /\ Forall (fun c => wordch c = true /\ c <> 0) w.

Fixpoint printable (c : cmd (list Z)) : Prop :=
  match c with
  | EXEC argv => Forall is_word argv /\ (length argv < MAXARGS)%nat
  | REDIR c f mode fd =>
      printable c /\ is_word f /\
      (mode = O_RDONLY /\ fd = 0 \/ mode = Z.lor O_WRONLY O_CREATE /\ fd = 1)
  | PIPE l r => printable l /\ printable r
  | LIST l r => printable l /\ printable r
  | BACK c => printable c
  end.

Section Print.

Variable s : list Z.

(** What follows a command: the end, or one of the characters [stops]. *)

Definition follows (stops : list Z) (rest : list Z) : Prop :=
  match rest with [] => True | c :: _ => c ∈ stops end.

Lemma skip_space l : skip (32 :: l) = skip l.
Proof. done. Qed.

Lemma skip_nonspace c l : c ∉ whitespace -> skip (c :: l) = c :: l.
Proof.
  intros H. cbn [skip]. rewrite is_in_spec, bool_decide_eq_false_2 by done. done.
Qed.

Lemma follows_skip stops rest :
  follows stops rest -> (forall c, c ∈ stops -> c ∉ whitespace) -> skip rest = rest.
Proof. destruct rest as [|c rest]; [done|]. cbn [follows]. intros H Hs. by apply skip_nonspace, Hs. Qed.

Lemma peek_cons c l toks :
  c ∉ whitespace -> c <> 0 -> peek (c :: l) toks = (bool_decide (c ∈ bytes_of_string toks), c :: l).
Proof.
  intros Hw H0. unfold peek. rewrite skip_nonspace by done. apply Z.eqb_neq in H0. rewrite H0.
  cbn [negb andb]. by rewrite is_in_spec.
Qed.

Lemma peek_space l toks : peek (32 :: l) toks = peek l toks.
Proof. done. Qed.

Lemma peek_skip l toks : peek (skip l) toks = peek l toks.
Proof. unfold peek. by rewrite skip_skip. Qed.

Lemma wordch_facts c : wordch c = true -> c ∉ [32; 9; 13; 10; 11; 60; 124; 62; 38; 59; 40; 41].
Proof. rewrite wordch_spec. apply bool_decide_eq_true. Qed.

Lemma skip_word_app u l : Forall (fun c => wordch c = true /\ c <> 0) u -> skip_word (u ++ 32 :: l) = 32 :: l.
Proof.
  induction 1 as [|c u [Hc _] _ IH]; [done|]. cbn [app skip_word].
  change (negb (is_in c whitespace) && negb (is_in c symbols)) with (wordch c). by rewrite Hc.
Qed.

(** A printed word is read back. *)

Lemma gettoken_word u l :
  is_word u -> (u ++ 32 :: l) `suffix_of` s ->
  exists w, gettoken (u ++ 32 :: l) = (97, w, skip l) /\ text s w = u.
Proof.
  intros [Hne Hu] [pre Es]. destruct u as [|c u]; [done|].
  exists (length ((c :: u) ++ 32 :: l), length (32 :: l)). split; [|by eapply word_text].
  assert (Hc := Hu). apply Forall_cons_1 in Hc as [[Hc H0] _]. apply wordch_facts in Hc.
  unfold gettoken. change ((c :: u) ++ 32 :: l) with (c :: (u ++ 32 :: l)).
  rewrite skip_nonspace by (unfold whitespace; set_solver).
  rewrite (proj2 (Z.eqb_neq _ _) H0).
  rewrite is_in_spec, bool_decide_eq_false_2
    by (change (bytes_of_string "|();&<") with [124; 40; 41; 59; 38; 60]; set_solver).
  rewrite (proj2 (Z.eqb_neq c 62)) by set_solver.
  change (c :: u ++ 32 :: l) with ((c :: u) ++ 32 :: l). by rewrite skip_word_app by done.
Qed.

Lemma gettoken_symbol c l :
  c ∈ [60; 124; 62; 38; 59; 40; 41] -> exists w, gettoken (c :: 32 :: l) = (c, w, skip l).
Proof.
  intros H. repeat (apply elem_of_cons in H as [->|H]; [eexists; reflexivity|]). by apply elem_of_nil in H.
Qed.

Lemma peek_word u l toks :
  is_word u -> (forall c, c ∈ bytes_of_string toks -> c ∈ symbols) ->
  peek (u ++ 32 :: l) toks = (false, u ++ 32 :: l).
Proof.
  intros [Hne Hu] Ht. destruct u as [|c u]; [done|]. apply Forall_cons_1 in Hu as [[Hc H0] _].
  apply wordch_facts in Hc. cbn [app]. rewrite peek_cons by (done || unfold whitespace; set_solver).
  f_equal. apply bool_decide_eq_false. intros E%Ht.
  change symbols with [60; 124; 62; 38; 59; 40; 41] in E. set_solver.
Qed.

Lemma peek_follows stops rest toks :
  follows stops rest ->
  forallb (fun c => negb (is_in c whitespace) && negb (c =? 0) &&
                    negb (is_in c (bytes_of_string toks))) stops = true ->
  peek rest toks = (false, rest).
Proof.
  intros Hf Ha. destruct rest as [|c rest]; [done|]. cbn [follows] in Hf.
  rewrite forallb_forall in Ha. specialize (Ha c (proj1 (list_elem_of_In _ _) Hf)).
  rewrite !is_in_spec in Ha. apply andb_prop in Ha as [[Hw H0]%andb_prop Ht].
  apply negb_true_iff in Hw, H0, Ht. apply bool_decide_eq_false in Hw. apply Z.eqb_neq in H0.
  rewrite peek_cons by done. by rewrite Ht.
Qed.

(** A symbol that a peek finds and gettoken takes. *)

Lemma peek_symbol c l toks :
  c ∈ [60; 124; 62; 38; 59; 40; 41] -> c ∈ bytes_of_string toks -> peek (c :: l) toks = (true, c :: l).
Proof.
  intros Hc Ht. rewrite peek_cons by (unfold whitespace; set_solver).
  by rewrite bool_decide_eq_true_2.
Qed.

Definition file : Type := list Z * Z * Z.

Definition print_redirs (fs : list file) : list Z :=
  concat ((fun f : file => print_redir f.1.1 f.2) <$> fs).

Definition file_ok (f : file) : Prop :=
  is_word f.1.1 /\ (f.1.2 = O_RDONLY /\ f.2 = 0 \/ f.1.2 = Z.lor O_WRONLY O_CREATE /\ f.2 = 1).

Definition spelled (r : redir) : file := (text s r.1.1, r.1.2, r.2).

Lemma skip_words_app argv rest :
  Forall is_word argv -> skip rest = rest -> skip (print_words argv ++ rest) = print_words argv ++ rest.
Proof.
  intros Ha Hr. destruct argv as [|w argv]; [done|]. apply Forall_cons_1 in Ha as [[Hne Hw] _].
  destruct w as [|c w]; [done|]. apply Forall_cons_1 in Hw as [[Hc _] _]. apply wordch_facts in Hc.
  cbn. unfold is_in. apply skip_nonspace. unfold whitespace. set_solver.
Qed.

Lemma skip_redirs_app fs rest :
  skip rest = rest -> skip (print_redirs fs ++ rest) = print_redirs fs ++ rest.
Proof.
  destruct fs as [|[[f m] fd] fs]; [done|]. intros _. cbn. unfold print_redir.
  destruct (fd =? 0); reflexivity.
Qed.

Lemma suffix_drop (l1 l2 : list Z) : (l1 ++ l2) `suffix_of` s -> l2 `suffix_of` s.
Proof. intros [k ->]. exists (k ++ l1). by rewrite app_assoc. Qed.

Lemma redirs_print fs rest n :
  Forall file_ok fs -> peek rest "<>" = (false, rest) ->
  (print_redirs fs ++ rest) `suffix_of` s -> (length (print_redirs fs ++ rest) < n)%nat ->
  exists rs, redirs n (print_redirs fs ++ rest) = Parsed rs rest /\ spelled <$> rs = fs.
Proof.
  intros Hfs Hp. revert n. induction fs as [|x fs IH]; intros n Hs Hn.
  - destruct n as [|n]; [lia|]. cbn [print_redirs fmap list_fmap concat app redirs] in *. rewrite Hp.
    by exists [].
  - apply Forall_cons_1 in Hfs as [[Hf Hm] Hfs]. destruct n as [|n]; [lia|].
    set (f := x.1.1) in *. set (sym := if x.2 =? 0 then 60 else 62).
    assert (El : print_redirs (x :: fs) ++ rest =
                 sym :: 32 :: f ++ 32 :: (print_redirs fs ++ rest)).
    { unfold print_redirs. cbn. fold sym f. by rewrite <- !app_assoc. }
    rewrite El in Hs, Hn |- *.
    assert (Hsym : sym ∈ [60; 62]) by (unfold sym; case_match; set_solver).
    assert (Hsf : (f ++ 32 :: print_redirs fs ++ rest) `suffix_of` s) by exact (suffix_drop [_; _] _ Hs).
    assert (Hsr : (print_redirs fs ++ rest) `suffix_of` s).
    { apply (suffix_drop (f ++ [32])). by rewrite <- app_assoc. }
    cbn [redirs]. rewrite peek_symbol by (set_solver || exact Hsym). cbn [negb].
    destruct (gettoken_symbol sym (f ++ 32 :: print_redirs fs ++ rest)) as [w0 ->]; [set_solver|].
    assert (Hskf : skip (f ++ 32 :: print_redirs fs ++ rest) = f ++ 32 :: print_redirs fs ++ rest).
    { assert (E := peek_word f (print_redirs fs ++ rest) "" Hf ltac:(set_solver)).
      by injection E. }
    rewrite Hskf. destruct (gettoken_word f (print_redirs fs ++ rest) Hf Hsf) as (w & -> & Hw).
    assert (Hskr : skip rest = rest) by (by injection Hp).
    rewrite skip_redirs_app by done. cbn [Z.eqb Pos.eqb negb].
    destruct (IH Hfs n Hsr) as (rs & -> & Hrs).
    { cbn [length] in Hn. rewrite length_app in Hn. cbn [length] in Hn. lia. }
    unfold sym. unfold f in Hw. destruct x as [[f' mode] fd]. cbn [fst snd] in *.
    destruct Hm as [[-> ->]|[-> ->]]; cbn [Z.eqb Pos.eqb orb];
      (eexists; split; [reflexivity|]); rewrite fmap_cons; unfold spelled at 1; cbn [fst snd]; by rewrite Hw, Hrs.
Qed.

Definition exec_stops : list Z := [124; 41; 38; 59].

Lemma parseargs_stop n argv rs rest :
  follows exec_stops rest -> parseargs (S n) argv rs rest = Parsed (argv, rs) rest.
Proof.
  intros Hf. destruct rest as [|c rest]; [done|]. cbn [follows] in Hf. cbn [parseargs].
  unfold exec_stops in Hf. rewrite peek_symbol; [done|set_solver|].
  change (bytes_of_string "|)&;") with [124; 41; 38; 59]. set_solver.
Qed.

Lemma print_words_cons w argv l : print_words (w :: argv) ++ l = w ++ 32 :: print_words argv ++ l.
Proof. unfold print_words. cbn. by rewrite <- !app_assoc. Qed.

(** A word and what follows it, up to the next word. *)

Lemma parseargs_word n argv rs w l :
  is_word w -> (S (length argv) < MAXARGS)%nat -> (w ++ 32 :: l) `suffix_of` s ->
  exists t, text s t = w /\
    parseargs (S n) argv rs (w ++ 32 :: l) =
      match redirs (S (length (skip l))) (skip l) with
      | Parsed rs' l => parseargs n (argv ++ [t]) (rs ++ rs') l
      | Syntax m => Syntax m
      | NoFuel => NoFuel
      end.
Proof.
  intros Hw Hlen Hs. destruct (gettoken_word w l Hw Hs) as (t & Ht & Hx). exists t. split; [done|].
  cbn [parseargs]. rewrite peek_word by (done || set_solver).
  rewrite Ht. cbn [Z.eqb Pos.eqb negb].
  rewrite (proj2 (Nat.leb_gt _ _)) by (rewrite length_app; cbn; lia). done.
Qed.

Lemma parseargs_print ws : forall w n argv rs fs rest,
  Forall is_word (w :: ws) -> Forall file_ok fs -> follows exec_stops rest ->
  (length argv + length (w :: ws) < MAXARGS)%nat ->
  let l := print_words (w :: ws) ++ print_redirs fs ++ rest in
  l `suffix_of` s -> (length l < n)%nat ->
  exists ts rs', parseargs n argv rs l = Parsed (argv ++ ts, rs ++ rs') rest /\
    text s <$> ts = w :: ws /\ spelled <$> rs' = fs.
Proof.
  induction ws as [|w2 ws IH]; intros w n argv rs fs rest Hws Hfs Hr Hlen l Hs Hn; subst l.
  - rewrite print_words_cons in Hs, Hn |- *. destruct n as [|n]; [lia|].
    apply Forall_cons_1 in Hws as [Hw _].
    destruct (parseargs_word n argv rs w _ Hw ltac:(cbn in Hlen; lia) Hs) as (t & Ht & ->).
    cbn [print_words fmap list_fmap concat app] in *.
    assert (Hp : peek rest "<>" = (false, rest)) by (by eapply peek_follows; [exact Hr|]).
    assert (Hsk : skip rest = rest) by (by injection Hp).
    rewrite skip_redirs_app by done.
    destruct (redirs_print fs rest (S (length (print_redirs fs ++ rest)))) as (rs' & -> & Hrs);
      [done|done|by apply (suffix_drop (w ++ [32])); rewrite <- app_assoc|lia|].
    destruct n as [|n]; [rewrite length_app in Hn; cbn [length] in Hn; lia|].
    rewrite parseargs_stop by done. exists [t], rs'. cbn. by rewrite Ht.
  - rewrite print_words_cons in Hs, Hn |- *. destruct n as [|n]; [lia|].
    apply Forall_cons_1 in Hws as [Hw Hws].
    destruct (parseargs_word n argv rs w _ Hw ltac:(cbn in Hlen; lia) Hs) as (t & Ht & ->).
    assert (Hsw : (print_words (w2 :: ws) ++ print_redirs fs ++ rest) `suffix_of` s)
      by (apply (suffix_drop (w ++ [32])); by rewrite <- app_assoc).
    assert (Hsk : skip (print_redirs fs ++ rest) = print_redirs fs ++ rest).
    { apply skip_redirs_app. assert (Hp : peek rest "<>" = (false, rest)) by (by eapply peek_follows; [exact Hr|]).
      by injection Hp. }
    rewrite skip_words_app by done.
    assert (Hnr : forall k, redirs (S k) (print_words (w2 :: ws) ++ print_redirs fs ++ rest) =
                    Parsed [] (print_words (w2 :: ws) ++ print_redirs fs ++ rest)).
    { intros k. rewrite print_words_cons. cbn [redirs]. apply Forall_cons_1 in Hws as [Hw2 _].
      rewrite peek_word; [done|done|set_solver]. }
    rewrite Hnr, app_nil_r.
    destruct (IH w2 n (argv ++ [t]) rs fs rest Hws Hfs Hr) as (ts & rs' & -> & Hts & Hrs).
    + rewrite length_app. cbn in *. lia.
    + done.
    + rewrite length_app in Hn. cbn [length] in Hn. lia.
    + exists (t :: ts), rs'. rewrite <- app_assoc. cbn. by rewrite Ht, Hts.
Qed.

(** *** The four levels *)

Definition redirected (c : cmd (list Z)) (fs : list file) : cmd (list Z) :=
  fold_left (fun c f => REDIR c f.1.1 f.1.2 f.2) fs c.

Definition amps (k : nat) : list Z := concat (replicate k [38; 32]).

Definition exec_prints (c : cmd (list Z)) : Prop := forall n fs rest,
  Forall file_ok fs -> follows exec_stops rest ->
  (print 3 c ++ print_redirs fs ++ rest) `suffix_of` s ->
  (4 * length (print 3 c ++ print_redirs fs ++ rest) + 1 <= n)%nat ->
  exists t, parseexec n (print 3 c ++ print_redirs fs ++ rest) = Parsed t rest /\
    with_strings (text s) t = redirected c fs.

Definition pipe_prints (c : cmd (list Z)) : Prop := forall n rest,
  follows [41; 38; 59] rest -> (print 2 c ++ rest) `suffix_of` s ->
  (4 * length (print 2 c ++ rest) + 2 <= n)%nat ->
  exists t, parsepipe n (print 2 c ++ rest) = Parsed t rest /\ with_strings (text s) t = c.

Definition back_prints (c : cmd (list Z)) : Prop := forall n k rest,
  follows [41; 59] rest -> (print 1 c ++ amps k ++ rest) `suffix_of` s ->
  (4 * length (print 1 c ++ amps k ++ rest) + 2 <= n)%nat ->
  exists t0 l t, parsepipe n (print 1 c ++ amps k ++ rest) = Parsed t0 l /\
    backs (S (length l)) t0 l = Parsed t rest /\ with_strings (text s) t = Nat.iter k BACK c.

Definition line_prints (c : cmd (list Z)) : Prop := forall n rest,
  follows [41] rest -> (print 0 c ++ rest) `suffix_of` s ->
  (4 * length (print 0 c ++ rest) + 3 <= n)%nat ->
  exists t, parseline n (print 0 c ++ rest) = Parsed t rest /\ with_strings (text s) t = c.

Lemma follows_weaken st st' rest : follows st rest -> (forall c, c ∈ st -> c ∈ st') -> follows st' rest.
Proof. destruct rest; cbn; auto. Qed.

Lemma with_redirect {B} (f : word -> B) t rs :
  with_strings f (redirect t rs) = fold_left (fun c r => REDIR c (f r.1.1) r.1.2 r.2) rs (with_strings f t).
Proof. unfold redirect. revert t. induction rs as [|r rs IH]; intros t; [done|]. cbn [fold_left]. by rewrite IH. Qed.

Lemma with_redirect_spelled t rs fs c :
  spelled <$> rs = fs -> with_strings (text s) t = c ->
  with_strings (text s) (redirect t rs) = redirected c fs.
Proof.
  intros <- <-. rewrite with_redirect. unfold redirected.
  generalize (with_strings (text s) t). induction rs as [|r rs IH]; intros c; [done|]. cbn. by rewrite IH.
Qed.

Lemma exec_prints_EXEC argv : printable (EXEC argv) -> exec_prints (EXEC argv).
Proof.
  intros [Ha Hlen] n fs rest Hfs Hr Hs Hn. destruct n as [|n]; [lia|]. cbn [print] in *.
  assert (Hp : peek rest "<>" = (false, rest)) by (by eapply peek_follows; [exact Hr|]).
  assert (Hsk : skip rest = rest) by (by injection Hp).
  cbn [parseexec]. destruct argv as [|w ws].
  - assert (Eh : peek (print_redirs fs ++ rest) "(" = (false, print_redirs fs ++ rest)).
    { destruct fs as [|f fs].
      - by eapply peek_follows; [exact Hr|].
      - cbn. unfold print_redir. destruct (f.2 =? 0); reflexivity. }
    cbn [print_words fmap list_fmap concat app] in *. rewrite Eh.
    destruct (redirs_print fs rest (S (length (print_redirs fs ++ rest)))) as (rs & -> & Hrs);
      [done|done|done|lia|].
    rewrite parseargs_stop by done. eexists. split; [reflexivity|]. by apply with_redirect_spelled.
  - assert (Hw := Ha). apply Forall_cons_1 in Hw as [Hw _].
    assert (Epk : forall toks, (forall c, c ∈ bytes_of_string toks -> c ∈ symbols) ->
      peek (print_words (w :: ws) ++ print_redirs fs ++ rest) toks =
        (false, print_words (w :: ws) ++ print_redirs fs ++ rest)).
    { intros toks Ht. rewrite print_words_cons. by apply peek_word. }
    rewrite Epk by set_solver. cbn [redirs]. rewrite Epk by set_solver. cbn [negb].
    destruct (parseargs_print ws w (S (length (print_words (w :: ws) ++ print_redirs fs ++ rest)))
      [] [] fs rest) as (ts & rs & -> & Hts & Hrs); [done..|lia|].
    eexists. split; [reflexivity|]. apply with_redirect_spelled; [done|]. cbn. by rewrite Hts.
Qed.

Lemma exec_prints_REDIR c f mode fd :
  printable (REDIR c f mode fd) -> exec_prints c -> exec_prints (REDIR c f mode fd).
Proof.
  intros (_ & Hf & Hm) Hc n fs rest Hfs Hr.
  assert (E : print 3 (REDIR c f mode fd) ++ print_redirs fs ++ rest =
              print 3 c ++ print_redirs ((f, mode, fd) :: fs) ++ rest).
  { cbn [print print_redirs fmap list_fmap concat fst snd]. by rewrite <- !(app_assoc (_ : list Z)). }
  rewrite E. intros Hs Hn. destruct (Hc n ((f, mode, fd) :: fs) rest) as (t & Ht & Hx);
    [by constructor|exact Hr|exact Hs|exact Hn|].
  exists t. split; [exact Ht|exact Hx].
Qed.

Lemma pipe_prints_exec c : print 2 c = print 3 c -> exec_prints c -> pipe_prints c.
Proof.
  intros E Hc n rest Hr. rewrite E. intros Hs Hn. destruct n as [|n]; [lia|]. cbn [parsepipe].
  destruct (Hc n [] rest) as (t & Ht & Hx); [done| |done|cbn [print_redirs fmap list_fmap concat app]; lia|].
  { eapply follows_weaken; [exact Hr|]. unfold exec_stops. set_solver. }
  cbn [print_redirs fmap list_fmap concat app] in Ht. rewrite Ht.
  rewrite (peek_follows [41; 38; 59]) by done. by exists t.
Qed.

Lemma exec_prints_paren c :
  print 3 c = paren true (print 0 c) -> (forall rest, skip rest = rest -> skip (print 0 c ++ rest) = print 0 c ++ rest) ->
  line_prints c -> exec_prints c.
Proof.
  intros E Hsk Hc n fs rest Hfs Hr. rewrite E. cbn [paren].
  assert (El : (40 :: 32 :: print 0 c ++ [41; 32]) ++ print_redirs fs ++ rest =
               40 :: 32 :: (print 0 c ++ 41 :: 32 :: print_redirs fs ++ rest)).
  { cbn. by rewrite <- app_assoc. }
  rewrite El. intros Hs Hn. destruct n as [|[|n]]; [cbn [length] in Hn; lia..|].
  cbn [parseexec parseblock]. rewrite !peek_symbol by set_solver. cbn [negb].
  destruct (gettoken_symbol 40 (print 0 c ++ 41 :: 32 :: print_redirs fs ++ rest)) as [w ->]; [set_solver|].
  rewrite Hsk by done.
  destruct (Hc n (41 :: 32 :: print_redirs fs ++ rest)) as (t & -> & Ht).
  - cbn. set_solver.
  - exact (suffix_drop [_; _] _ Hs).
  - cbn [length] in Hn. lia.
  - rewrite peek_symbol by set_solver. cbn [negb].
    destruct (gettoken_symbol 41 (print_redirs fs ++ rest)) as [w' ->]; [set_solver|].
    assert (Hp : peek rest "<>" = (false, rest)) by (by eapply peek_follows; [exact Hr|]).
    assert (Hskr : skip rest = rest) by (by injection Hp).
    rewrite skip_redirs_app by done. unfold parseredirs.
    destruct (redirs_print fs rest (S (length (print_redirs fs ++ rest)))) as (rs & -> & Hrs);
      [done|done| |lia|].
    + apply (suffix_drop (40 :: 32 :: print 0 c ++ [41; 32])). by rewrite El.
    + eexists. split; [reflexivity|]. by apply with_redirect_spelled.
Qed.

Lemma backs_amps k : forall t rest n,
  follows [41; 59] rest -> (length (amps k ++ rest) < n)%nat ->
  exists t', backs n t (amps k ++ rest) = Parsed t' rest /\
    with_strings (text s) t' = Nat.iter k BACK (with_strings (text s) t).
Proof.
  induction k as [|k IH]; intros t rest n Hr Hn; (destruct n as [|n]; [lia|]); cbn [backs].
  - cbn [amps replicate concat app]. rewrite (peek_follows [41; 59]) by done. by exists t.
  - change (amps (S k) ++ rest) with (38 :: 32 :: (amps k ++ rest)) in *.
    rewrite peek_symbol by set_solver. cbn [negb].
    destruct (gettoken_symbol 38 (amps k ++ rest)) as [w ->]; [set_solver|].
    assert (Hsk : skip (amps k ++ rest) = amps k ++ rest).
    { destruct k as [|k]; [|done]. cbn. assert (Hp := peek_follows _ rest "" Hr eq_refl). by injection Hp. }
    rewrite Hsk. destruct (IH (BACK t) rest n Hr) as (t' & -> & Ht); [cbn [length] in Hn; lia|].
    exists t'. split; [done|]. rewrite Ht. cbn [with_strings]. symmetry. apply Nat.iter_succ_r.
Qed.

Lemma follows_amps k rest : follows [41; 59] rest -> follows [41; 38; 59] (amps k ++ rest).
Proof.
  intros Hr. destruct k as [|k]; cbn.
  - eapply follows_weaken; [exact Hr|]. set_solver.
  - set_solver.
Qed.

Lemma back_prints_pipe c : print 1 c = print 2 c -> pipe_prints c -> back_prints c.
Proof.
  intros E Hc n k rest Hr. rewrite E. intros Hs Hn.
  destruct (Hc n (amps k ++ rest)) as (t & -> & Ht); [by apply follows_amps|done|done|].
  destruct (backs_amps k t rest (S (length (amps k ++ rest)))) as (t' & Hb & Ht'); [done|lia|].
  exists t, (amps k ++ rest), t'. rewrite Ht', Ht. done.
Qed.

Lemma back_prints_BACK c : back_prints c -> back_prints (BACK c).
Proof.
  intros Hc n k rest Hr.
  assert (E : print 1 (BACK c) ++ amps k ++ rest = print 1 c ++ amps (S k) ++ rest).
  { cbn. by rewrite <- app_assoc. }
  rewrite E. intros Hs Hn. destruct (Hc n (S k) rest Hr Hs Hn) as (t0 & l & t & H1 & H2 & H3).
  exists t0, l, t. split; [done|]. split; [done|]. rewrite H3. apply Nat.iter_succ_r.
Qed.

Lemma line_prints_back c : print 0 c = print 1 c -> back_prints c -> line_prints c.
Proof.
  intros E Hc n rest Hr. rewrite E. intros Hs Hn. destruct n as [|n]; [lia|]. cbn [parseline].
  destruct (Hc n 0%nat rest) as (t0 & l & t & H1 & H2 & H3); [|done|cbn [amps replicate concat app]; lia|].
  { eapply follows_weaken; [exact Hr|]. set_solver. }
  cbn [amps replicate concat app] in H1. rewrite H1, H2, (peek_follows [41]) by done. by exists t.
Qed.

Lemma skip_print c : printable c -> forall lv rest,
  skip rest = rest -> skip (print lv c ++ rest) = print lv c ++ rest.
Proof.
  induction c as [argv|c IH f mode fd|c1 IH1 c2 IH2|c1 IH1 c2 IH2|c IH]; cbn [printable];
    intros Hc lv rest Hr; cbn [print].
  - apply skip_words_app; [apply Hc|done].
  - rewrite <- app_assoc. apply IH; [apply Hc|]. unfold print_redir. by destruct (fd =? 0).
  - unfold paren. case_match; [done|]. rewrite <- app_assoc. apply IH1; [apply Hc|done].
  - unfold paren. case_match; [done|]. rewrite <- app_assoc. apply IH1; [apply Hc|done].
  - unfold paren. case_match; [done|]. rewrite <- app_assoc. apply IH; [apply Hc|done].
Qed.

Lemma pipe_prints_PIPE c1 c2 :
  printable c2 -> exec_prints c1 -> pipe_prints c2 -> pipe_prints (PIPE c1 c2).
Proof.
  intros Hp2 H1 H2 n rest Hr.
  assert (E : print 2 (PIPE c1 c2) ++ rest = print 3 c1 ++ print_redirs [] ++ 124 :: 32 :: print 2 c2 ++ rest).
  { change (print 2 (PIPE c1 c2)) with (print 3 c1 ++ 124 :: 32 :: print 2 c2). by rewrite <- app_assoc. }
  rewrite E. intros Hs Hn. destruct n as [|n]; [lia|]. cbn [parsepipe].
  destruct (H1 n [] (124 :: 32 :: print 2 c2 ++ rest)) as (t1 & -> & Ht1); [done| |done|lia|].
  { cbn. set_solver. }
  rewrite peek_symbol by set_solver. cbn [negb].
  destruct (gettoken_symbol 124 (print 2 c2 ++ rest)) as [w ->]; [set_solver|].
  assert (Hskr : skip rest = rest) by (assert (Hp := peek_follows _ rest "" Hr eq_refl); by injection Hp).
  rewrite skip_print by done.
  destruct (H2 n rest Hr) as (t2 & -> & Ht2).
  - apply (suffix_drop (print 3 c1 ++ [124; 32])). by rewrite <- app_assoc.
  - rewrite length_app in Hn. cbn [length app print_redirs fmap list_fmap concat] in Hn. lia.
  - exists (PIPE t1 t2). split; [done|]. cbn. by rewrite Ht1, Ht2.
Qed.

Lemma line_prints_LIST c1 c2 :
  printable c2 -> back_prints c1 -> line_prints c2 -> line_prints (LIST c1 c2).
Proof.
  intros Hp2 H1 H2 n rest Hr.
  assert (E : print 0 (LIST c1 c2) ++ rest = print 1 c1 ++ amps 0 ++ 59 :: 32 :: print 0 c2 ++ rest).
  { change (print 0 (LIST c1 c2)) with (print 1 c1 ++ 59 :: 32 :: print 0 c2). by rewrite <- app_assoc. }
  rewrite E. intros Hs Hn. destruct n as [|n]; [lia|]. cbn [parseline].
  destruct (H1 n 0%nat (59 :: 32 :: print 0 c2 ++ rest)) as (t0 & l & t1 & -> & -> & Ht1); [|done|lia|].
  { cbn. set_solver. }
  rewrite peek_symbol by set_solver. cbn [negb].
  destruct (gettoken_symbol 59 (print 0 c2 ++ rest)) as [w ->]; [set_solver|].
  assert (Hskr : skip rest = rest) by (assert (Hp := peek_follows _ rest "" Hr eq_refl); by injection Hp).
  rewrite skip_print by done.
  destruct (H2 n rest Hr) as (t2 & -> & Ht2).
  - apply (suffix_drop (print 1 c1 ++ [59; 32])). by rewrite <- app_assoc.
  - rewrite length_app in Hn. cbn [length app amps replicate concat] in Hn. lia.
  - exists (LIST t1 t2). split; [done|]. cbn. by rewrite Ht1, Ht2.
Qed.

Lemma prints c :
  printable c -> exec_prints c /\ pipe_prints c /\ back_prints c /\ line_prints c.
Proof.
  assert (up : forall c, print 2 c = print 3 c -> print 1 c = print 2 c -> print 0 c = print 1 c ->
    exec_prints c -> exec_prints c /\ pipe_prints c /\ back_prints c /\ line_prints c).
  { intros d E1 E2 E3 H. auto 10 using pipe_prints_exec, back_prints_pipe, line_prints_back. }
  induction c as [argv|c IH f mode fd|c1 IH1 c2 IH2|c1 IH1 c2 IH2|c IH]; intros Hc.
  - apply up; [done..|]. by apply exec_prints_EXEC.
  - apply up; [done..|]. apply exec_prints_REDIR; [done|]. apply IH, Hc.
  - destruct Hc as [Hc1 Hc2].
    assert (Hp : pipe_prints (PIPE c1 c2)) by (apply pipe_prints_PIPE; [done|by apply IH1|by apply IH2]).
    assert (Hb := back_prints_pipe (PIPE c1 c2) eq_refl Hp). assert (Hl := line_prints_back (PIPE c1 c2) eq_refl Hb).
    split_and!; [|done..]. apply exec_prints_paren; [done| |done]. intros rest. by apply skip_print.
  - destruct Hc as [Hc1 Hc2].
    assert (Hl : line_prints (LIST c1 c2)) by (apply line_prints_LIST; [done|by apply IH1|by apply IH2]).
    assert (He : exec_prints (LIST c1 c2)).
    { apply exec_prints_paren; [done| |done]. intros rest. by apply skip_print. }
    assert (Hp := pipe_prints_exec (LIST c1 c2) eq_refl He). assert (Hb := back_prints_pipe (LIST c1 c2) eq_refl Hp). done.
  - assert (Hb : back_prints (BACK c)) by (by apply back_prints_BACK, IH).
    assert (Hl := line_prints_back (BACK c) eq_refl Hb).
    assert (He : exec_prints (BACK c)).
    { apply exec_prints_paren; [done| |done]. intros rest. by apply skip_print. }
    assert (Hp := pipe_prints_exec (BACK c) eq_refl He). done.
Qed.

End Print.

Lemma print_no_nul lv c : printable c -> Forall (fun x => x <> 0) (print lv c).
Proof.
  assert (Hw : forall w, is_word w -> Forall (fun x => x <> 0) (w ++ [32])).
  { intros w [_ H]. apply Forall_app. split; [|by repeat constructor].
    eapply Forall_impl; [exact H|]. naive_solver. }
  assert (Hparen : forall b l, Forall (fun x => x <> 0) l -> Forall (fun x => x <> 0) (paren b l)).
  { intros b l Hl. destruct b; [|done]. cbn. repeat constructor; [done..|]. apply Forall_app.
    split; [done|by repeat constructor]. }
  revert lv. induction c as [argv|c IH f mode fd|c1 IH1 c2 IH2|c1 IH1 c2 IH2|c IH]; cbn [printable];
    intros lv Hc; cbn [print].
  - destruct Hc as [Hc _]. induction Hc as [|w argv Hww _ IH]; [constructor|].
    unfold print_words. cbn [fmap list_fmap concat]. apply Forall_app. split; [by apply Hw|exact IH].
  - apply Forall_app. split; [apply IH, Hc|]. unfold print_redir.
    repeat constructor; [by case_match|done|]. apply Hw, Hc.
  - apply Hparen, Forall_app. split; [apply IH1, Hc|]. repeat constructor; [done..|]. apply IH2, Hc.
  - apply Hparen, Forall_app. split; [apply IH1, Hc|]. repeat constructor; [done..|]. apply IH2, Hc.
  - apply Hparen, Forall_app. split; [apply IH, Hc|by repeat constructor].
Qed.

(** C37: the parser inverts the printer.  Every command that can be written down,
    however its pipes, lists, background jobs and redirections nest, is the command
    that parsecmd makes of its text, string for string. *)
Theorem parsecmd_print (c : cmd (list Z)) :
  printable c -> exists t buf, parsecmd (print 0 c) = Cmd t buf /\ strings buf t = c.
Proof.
  intros Hc. set (s := print 0 c).
  assert (Es : s = print 0 c ++ []) by (by rewrite app_nil_r).
  destruct (prints s c Hc) as (_ & _ & _ & Hl).
  destruct (Hl (parse_fuel s) []) as (t & Ht & Hx); [done|by rewrite <- Es|rewrite <- Es; unfold parse_fuel; lia|].
  rewrite <- Es in Ht. exists t, (nulterminate t (s ++ [0])).
  split; [unfold parsecmd; by rewrite Ht|].
  assert (H0 : Forall (fun x => x <> 0) s) by (by apply print_no_nul).
  destruct (parsers_parse s H0 (parse_fuel s)) as (Hok & _).
  assert (Hp := Hok s ltac:(done) ltac:(unfold parse_fuel; lia)). rewrite Ht in Hp. destruct Hp as [_ Hp].
  by rewrite nulterminate_strings.
Qed.

(** ** Running *)

(** A program that ends, and one that ends with exit, whatever the system calls
    return. *)

Fixpoint settles {A} (p : prog A) : Prop :=
  match p with
  | Done _ | Exit _ => True
  | Sys _ k => forall r, settles (k r)
  | _ => False
  end.

Fixpoint always_exits {A} (p : prog A) : Prop :=
  match p with
  | Exit _ => True
  | Sys _ k => forall r, always_exits (k r)
  | _ => False
  end.

Lemma exits_bind {A B} (p : prog A) (f : A -> prog B) :
  settles p -> (forall a, always_exits (f a)) -> always_exits (pbind p f).
Proof. intros Hp Hf. induction p as [a|n| | |R c k IH]; cbn in *; auto. Qed.

Lemma exits_bind_l {A B} (p : prog A) (f : A -> prog B) : always_exits p -> always_exits (pbind p f).
Proof. induction p as [a|n| | |R c k IH]; cbn; auto. done. Qed.

Lemma exits_settles {A} (p : prog A) : always_exits p -> settles p.
Proof. induction p as [a|n| | |R c k IH]; cbn; auto. Qed.

Lemma exits_sys {A R} (c : sys R) (f : R -> prog A) :
  (forall r, always_exits (f r)) -> always_exits (pbind (sys_call c) f).
Proof. intros H r. apply H. Qed.

Lemma settles_bind {A B} (p : prog A) (f : A -> prog B) :
  settles p -> (forall a, settles (f a)) -> settles (pbind p f).
Proof. intros Hp Hf. induction p as [a|n| | |R c k IH]; cbn in *; auto. Qed.

Lemma settles_pfor {A} (l : list A) body : (forall x, settles (body x)) -> settles (pfor l body).
Proof. intros H. induction l as [|x l IH]; [done|]. cbn [pfor]. by apply settles_bind. Qed.


(** A format whose only conversions are strings, and their number. *)

Fixpoint only_strings (pct : bool) (fmt : list Z) (n : nat) : bool :=
  match fmt with
  | [] => true
  | c :: fmt' =>
      if pct then (c =? 115) && match n with S n' => only_strings false fmt' n' | O => false end
      else only_strings (c =? 37) fmt' n
  end.

Lemma vprintf_settles fd fmt : forall pct strs,
  only_strings pct fmt (length strs) = true ->
  settles (vprintf fd pct fmt ((fun s => VStr (Some s)) <$> strs)).
Proof.
  induction fmt as [|c fmt IH]; intros pct strs H; [done|]. cbn [only_strings] in H. cbn [vprintf].
  destruct pct; cbn [negb].
  - apply andb_prop in H as [->%Z.eqb_eq H]. destruct strs as [|s strs]; [done|]. cbn.
    apply settles_bind; [|intros _; by apply IH]. apply settles_pfor. by intros x r.
  - destruct (c =? 37); [by apply IH|]. intros r. by apply IH.
Qed.

Lemma fprintf_settles fd fmt strs :
  only_strings false (bytes_of_string fmt) (length strs) = true ->
  settles (fprintf fd fmt ((fun s => VStr (Some s)) <$> strs)).
Proof. apply vprintf_settles. Qed.

Lemma sh_panic_exits {A} m : always_exits (@sh_panic A m).
Proof. apply exits_bind; [by apply (fprintf_settles _ _ [bytes_of_string m])|done]. Qed.

Lemma fork1_settles : settles fork1.
Proof.
  apply settles_bind; [by intros r|]. intros pid. case_match; [|done].
  apply exits_settles, sh_panic_exits.
Qed.

(** One step of a program that ends. *)

Ltac exits_step :=
  match goal with
  | |- always_exits (Exit _) => exact I
  | H : always_exits ?p |- always_exits ?p => exact H
  | |- always_exits (pbind (sys_call _) _) => apply exits_sys; intros ?
  | |- always_exits (pbind fork1 _) => apply exits_bind; [exact fork1_settles|intros ?]
  | |- always_exits (pbind (if ?b then _ else _) _) => destruct b; cbn [pbind]
  | |- always_exits (pbind (sh_panic _) _) => apply exits_bind_l, sh_panic_exits
  | H : always_exits ?p |- always_exits (pbind ?p _) => apply exits_bind_l, H
  | |- always_exits (pbind (pbind ?p _) _) => apply exits_bind_l
  end.

Lemma runcmd_always_exits c : always_exits (runcmd c).
Proof.
  induction c as [argv|c IH f mode fd|c1 IH1 c2 IH2|c1 IH1 c2 IH2|c IH]; cbn [runcmd].
  - destruct argv as [|a argv]; [done|]. apply exits_sys. intros _.
    apply exits_bind; [by apply (fprintf_settles _ _ [a])|done].
  - repeat exits_step. apply exits_bind; [by apply (fprintf_settles _ _ [f])|done].
  - repeat exits_step.
  - repeat exits_step.
  - repeat exits_step.
Qed.

Lemma always_exits_runs {A W} (h : @kernel W) (p : prog A) w :
  always_exits p -> exists n w', prun h p w = RExit n w'.
Proof.
  revert w. induction p as [a|n| | |R c k IH]; intros w H; cbn in *; try done; [by exists n, w|].
  destruct (h R c w) as [r w']. by apply IH.
Qed.

(** C39: the child that runs a line always ends with exit: the line is parsed, the
    command is run, and no branch of runcmd returns to the loop of the shell,
    whatever the kernel answers to the system calls. *)
Theorem run_line_exits {W : Type} (h : @kernel W) (s : list Z) (w : W) :
  Forall (fun c => c <> 0) s -> exists status w', prun h (run_line s) w = RExit status w'.
Proof.
  intros H0. apply always_exits_runs. unfold run_line.
  destruct (parsers_parse s H0 (parse_fuel s)) as (Hl & _).
  assert (H := Hl s ltac:(done) ltac:(unfold parse_fuel; lia)). unfold parsecmd.
  destruct (parseline (parse_fuel s) s) as [c l|m|]; [|apply sh_panic_exits|done].
  destruct (peek l "") as [b l']. destruct l' as [|x l']; [apply runcmd_always_exits|].
  apply exits_bind; [by apply (fprintf_settles _ _ [x :: l'])|]. intros _. apply sh_panic_exits.
Qed.
