(* ===== verification/Uprogs.v ===== *)
(** * The small user programs (user/*.c)

    Each main is a program of its argument vector.  Reading an argument that is not
    there is undefined.  The loops that do not end have a bound. *)

From S2P Require Import Prelude Monad Kstring Printf Uprog Ulib Grep.

#[local] Open Scope prog_scope.

Definition arg (argv : list (list Z)) (i : nat) : prog (list Z) := or_crash (argv !! i).

Definition chars (s : string) : list Z := bytes_of_string s.

(** ** cat *)

(** The copy from [fd] to [out]: what the last read returned. *)

Definition copy_loop (fuel : nat) (fd n out : Z) : prog Z :=
  ploop fuel (fun _ : unit =>
    r <- sys_call (Sread fd n) ;;
    if r.1 <=? 0 then Done (inr r.1) else
    k <- sys_call (Swrite out (take (Z.to_nat r.1) r.2)) ;;
    if negb (k =? r.1) then printf "cat: write error
" [] ;; Exit 1 else Done (inl tt)) tt.

Definition cat (fuel : nat) (fd : Z) : prog unit :=
  n <- copy_loop fuel fd 512 1 ;;
  if n <? 0 then printf "cat: read error
" [] ;; Exit 1 else Done tt.

Definition cat_main (fuel : nat) (argv : list (list Z)) : prog unit :=
  match argv with
  | _ :: ((_ :: _) as files) =>
      pfor files (fun f =>
        fd <- sys_call (Sopen f 0) ;;
        if fd <? 0 then printf "cat: cannot open %s
" [VStr (Some f)] ;; Exit 1 else
        cat fuel fd ;; sys_call (Sclose fd) ;; Done tt) ;;
      Exit 0
  | _ => cat fuel 0 ;; Exit 1
  end.

(** ** echo *)

Fixpoint echo_args (args : list (list Z)) : prog unit :=
  match args with
  | [] => Done tt
  | a :: args' =>
      sys_call (Swrite 1 a) ;;
      sys_call (Swrite 1 (match args' with [] => [10] | _ => [32] end)) ;;
      echo_args args'
  end.

Definition echo_main (argv : list (list Z)) : prog unit := echo_args (tail argv) ;; Exit 0.

(** ** wc *)

Record counts := mk_counts { wc_l : Z; wc_w : Z; wc_c : Z; wc_inword : bool }.

Definition wc_char (k : counts) (b : Z) : counts :=
  let c := i32 (wc_c k + 1) in
  let l := if b =? 10 then i32 (wc_l k + 1) else wc_l k in
  match strchr [32; 13; 9; 10; 11] b with
  | Some _ => mk_counts l (wc_w k) c false
  | None => if negb (wc_inword k) then mk_counts l (i32 (wc_w k + 1)) c true
            else mk_counts l (wc_w k) c (wc_inword k)
  end.

Definition wc_loop (fuel : nat) (fd : Z) (k : counts) : prog (Z * counts) :=
  ploop fuel (fun k : counts =>
    r <- sys_call (Sread fd 512) ;;
    if r.1 <=? 0 then Done (inr (r.1, k))
    else Done (inl (fold_left wc_char (take (Z.to_nat r.1) r.2) k))) k.

Definition wc (fuel : nat) (fd : Z) (name : list Z) : prog unit :=
  r <- wc_loop fuel fd (mk_counts 0 0 0 false) ;;
  if r.1 <? 0 then printf "wc: read error
" [] ;; Exit 1 else
  printf "%d %d %d %s
" [VWord (wc_l r.2); VWord (wc_w r.2); VWord (wc_c r.2); VStr (Some name)].

Definition wc_main (fuel : nat) (argv : list (list Z)) : prog unit :=
  match argv with
  | _ :: ((_ :: _) as files) =>
      pfor files (fun f =>
        fd <- sys_call (Sopen f 0) ;;
        if fd <? 0 then printf "wc: cannot open %s
" [VStr (Some f)] ;; Exit 1 else
        wc fuel fd f ;; sys_call (Sclose fd) ;; Done tt) ;;
      Exit 0
  | _ => wc fuel 0 [] ;; Exit 0
  end.

(** ** kill, ln, mkdir, rm *)

Definition kill_main (argv : list (list Z)) : prog unit :=
  match argv with
  | _ :: ((_ :: _) as pids) => pfor pids (fun a => sys_call (Skill (atoi a)) ;; Done tt) ;; Exit 0
  | _ => fprintf 2 "usage: kill pid...
" [] ;; Exit 1
  end.

Definition ln_main (argv : list (list Z)) : prog unit :=
  match argv with
  | [_; old; new] =>
      r <- sys_call (Slink old new) ;;
      (if r <? 0 then fprintf 2 "link %s %s: failed
" [VStr (Some old); VStr (Some new)] else Done tt) ;;
      Exit 0
  | _ => fprintf 2 "Usage: ln old new
" [] ;; Exit 1
  end.

Fixpoint mkdir_files (files : list (list Z)) : prog unit :=
  match files with
  | [] => Done tt
  | f :: files' =>
      r <- sys_call (Smkdir f) ;;
      if r <? 0 then fprintf 2 "mkdir: %s failed to create
" [VStr (Some f)] else mkdir_files files'
  end.

Definition mkdir_main (argv : list (list Z)) : prog unit :=
  match argv with
  | _ :: ((_ :: _) as files) => mkdir_files files ;; Exit 0
  | _ => fprintf 2 "Usage: mkdir files...
" [] ;; Exit 1
  end.

Fixpoint rm_files (files : list (list Z)) : prog unit :=
  match files with
  | [] => Done tt
  | f :: files' =>
      r <- sys_call (Sunlink f) ;;
      if r <? 0 then fprintf 2 "rm: %s failed to delete
" [VStr (Some f)] else rm_files files'
  end.

Definition rm_main (argv : list (list Z)) : prog unit :=
  match argv with
  | _ :: ((_ :: _) as files) => rm_files files ;; Exit 0
  | _ => fprintf 2 "Usage: rm files...
" [] ;; Exit 1
  end.

(** ** ls *)

Definition DIRSIZ : Z := 14.

Fixpoint until_slash (l : list Z) : list Z :=
  match l with c :: l' => if c =? 47 then [] else c :: until_slash l' | [] => [] end.

(** The name after the last slash, padded with blanks.  The scan starts at the end
    of the path. *)

Definition fmtname (path : list Z) : list Z :=
  let p := rev (until_slash (rev path)) in
  if DIRSIZ <=? strlen p then p
  else p ++ replicate (Z.to_nat (DIRSIZ - strlen p)) 32.

Definition ls_entries (fuel : nat) (fd : Z) (path : list Z) : prog unit :=
  ploop fuel (fun _ : unit =>
    r <- sys_call (Sread fd 16) ;;
    if negb (r.1 =? 16) then Done (inr tt) else
    inum <- or_crash (le_get 2 r.2 0) ;;
    if inum =? 0 then Done (inl tt) else
    let buf := path ++ [47] ++ cstring (take 14 (drop 2 r.2)) in
    st <- stat_path buf ;;
    match st with
    | (k, Some st) =>
        if k <? 0 then printf "ls: cannot stat %s
" [VStr (Some buf)] ;; Done (inl tt) else
        printf "%s %d %d %d
" [VStr (Some (fmtname buf)); VWord (st_type st); VWord (st_ino st); VWord (st_size st)] ;;
        Done (inl tt)
    | (_, None) => printf "ls: cannot stat %s
" [VStr (Some buf)] ;; Done (inl tt)
    end) tt.

Definition ls (fuel : nat) (path : list Z) : prog unit :=
  fd <- sys_call (Sopen path 0) ;;
  if fd <? 0 then fprintf 2 "ls: cannot open %s
" [VStr (Some path)] else
  r <- sys_call (Sfstat fd) ;;
  if r.1 <? 0 then
    fprintf 2 "ls: cannot stat %s
" [VStr (Some path)] ;; sys_call (Sclose fd) ;; Done tt else
  let st := r.2 in
  (if st_type st =? T_FILE then
     printf "%s %d %d %l
" [VStr (Some (fmtname path)); VWord (st_type st); VWord (st_ino st); VWord (st_size st)]
   else if st_type st =? T_DIR then
     (if 512 <? strlen path + 1 + DIRSIZ + 1 then printf "ls: path too long
" [] else ls_entries fuel fd path)
   else Done tt) ;;
  sys_call (Sclose fd) ;; Done tt.

Definition ls_main (fuel : nat) (argv : list (list Z)) : prog unit :=
  match argv with
  | _ :: ((_ :: _) as paths) => pfor paths (ls fuel) ;; Exit 0
  | _ => ls fuel [46] ;; Exit 0
  end.

(** ** init *)

Definition NCONS : nat := 5.

Definition create_vcs : prog unit :=
  pfor (seq 0 NCONS) (fun i =>
    let dname := chars "vc" ++ [u8 (50 + Z.of_nat i)] in
    fd <- sys_call (Sopen dname O_RDWR) ;;
    if fd <? 0 then sys_call (Smknod dname (2 + Z.of_nat i) 0) ;; Done tt
    else sys_call (Sclose fd) ;; Done tt).

Definition init_round (fuel : nat) : prog unit :=
  printf "init: starting sh
" [] ;;
  pid <- sys_call Sfork ;;
  (if pid <? 0 then printf "init: fork failed
" [] ;; Exit 1 else Done tt) ;;
  (if pid =? 0 then
     sys_call (Sexec (chars "sh") [chars "sh"]) ;; printf "init: exec sh failed
" [] ;; Exit 1
   else Done tt) ;;
  ploop fuel (fun _ : unit =>
    w <- sys_call Swait ;;
    Done (if (0 <=? w.1) && negb (w.1 =? pid) then inl tt else inr tt)) tt.

Definition init_main (fuel : nat) : prog unit :=
  fd <- sys_call (Sopen (chars "console") O_RDWR) ;;
  (if fd <? 0 then
     sys_call (Smknod (chars "console") 1 1) ;; sys_call (Sopen (chars "console") O_RDWR) ;; Done tt
   else Done tt) ;;
  sys_call (Sdup 0) ;; sys_call (Sdup 0) ;;
  create_vcs ;;
  ploop fuel (fun _ : unit => init_round fuel ;; Done (inl tt)) tt.

(** ** The containers: cstart, ccreate, cpause, cresume, cstop *)

Definition cstart_main (argv : list (list Z)) : prog unit :=
  if negb (length argv =? 7)%nat then
    printf "usage: cstart <root_dir> <vc> <max_proc> <max_page> <max_disk> <cmd> [<arg> ...]
" [] ;; Exit (-1) else
  root <- arg argv 1 ;; a2 <- arg argv 2 ;; a3 <- arg argv 3 ;; a4 <- arg argv 4 ;;
  a5 <- arg argv 5 ;; a6 <- arg argv 6 ;;
  fd <- sys_call (Sopen a2 O_RDWR) ;;
  printf "fd = %d
" [VWord fd] ;;
  id <- sys_call Sfork ;;
  (if id =? 0 then
     sys_call (Sclose 0) ;; sys_call (Sclose 1) ;; sys_call (Sclose 2) ;;
     sys_call (Sdup fd) ;; sys_call (Sdup fd) ;; sys_call (Sdup fd) ;;
     sys_call (Scinit root root (atoi a3) (atoi a4) (atoi a5)) ;;
     sys_call (Sexec a6 (drop 6 argv)) ;;
     Exit 0
   else Done tt) ;;
  printf "%s started on %s
" [VStr (Some a2); VStr (Some a3)] ;;
  Exit 0.

(** [strcpy(filepath, path); filepath[strlen(path)] = '/';
    strcpy(&filepath[strlen(path) + 1], prog);] in an array of 100 characters. *)

Definition ccreate_path (path prog : list Z) : option (list Z) :=
  b ← strcpy (replicate 100 0) path;
  r ← strcpy (drop (S (length path)) b) prog;
  Some (cstring (take (length path) b ++ [47] ++ r)).

Definition ccreate_copy (fuel : nat) (srcfd dstfd : Z) : prog unit :=
  n <- copy_loop fuel srcfd 1000 dstfd ;;
  if n <? 0 then printf "cat: read error
" [] ;; Exit 1 else Done tt.

Definition ccreate_file (fuel : nat) (path prog : list Z) : Uprog.prog unit :=
  printf "%s
" [VStr (Some prog)] ;;
  srcfd <- sys_call (Sopen prog O_RDONLY) ;;
  if srcfd <? 0 then printf "ccreate: cannot open %s
" [VStr (Some prog)] ;; Exit 1 else
  filepath <- or_crash (ccreate_path path prog) ;;
  dstfd <- sys_call (Sopen filepath (Z.lor O_CREATE O_RDWR)) ;;
  if dstfd <? 0 then printf "ccreate: cannot open %s
" [VStr (Some prog)] ;; Exit 1 else
  ccreate_copy fuel srcfd dstfd.

(** There is nothing that main can return to: the return address of the first
    function of a program is not defined. *)

Definition ccreate_main (fuel : nat) (argv : list (list Z)) : prog unit :=
  path <- arg argv 1 ;;
  r <- sys_call (Smkdir path) ;;
  if r <? 0 then printf "mkdir: %s failed to create
" [VStr (Some path)] ;; Crash else
  pfor (drop 2 argv) (ccreate_file fuel path) ;;
  Exit 0.

Definition cpause_main (argv : list (list Z)) : prog unit :=
  match argv with
  | [_; name] => sys_call (Scpause name) ;; Exit 0
  | _ => printf "usage: cpause <name>
" [] ;; Exit (-1)
  end.

Definition cresume_main (argv : list (list Z)) : prog unit :=
  match argv with
  | [_; name] => sys_call (Scresume name) ;; Exit 0
  | _ => printf "usage: cresume <name>
" [] ;; Exit (-1)
  end.

Definition cstop_main (argv : list (list Z)) : prog unit :=
  match argv with
  | [_; name] => sys_call (Scstop name) ;; Exit 0
  | _ => printf "usage: cstop <name>
" [] ;; Exit (-1)
  end.

(** ** zombie, strace, suspend, resume, counter, forkbomb, diskbomb, vctest, helloworld *)

Definition zombie_main : prog unit :=
  pid <- sys_call Sfork ;;
  (if 0 <? pid then sys_call (Ssleep 5) ;; Done tt else Done tt) ;;
  Exit 0.

Definition strace_main (argv : list (list Z)) : prog unit :=
  id <- sys_call Sfork ;;
  (if id =? 0 then
     sys_call Straceon ;;
     progname <- arg argv 1 ;;
     sys_call (Sexec progname (drop 1 argv)) ;; Exit 0
   else sys_call Swait ;; Done tt) ;;
  Exit 0.

(** A pointer that is printed as an integer is the argument [fname_at]. *)

Definition suspend_main (fname_at : Z) (argv : list (list Z)) : prog unit :=
  a1 <- arg argv 1 ;; fname <- arg argv 2 ;;
  let pid := atoi a1 in
  fd <- sys_call (Sopen fname (Z.lor O_CREATE O_WRONLY)) ;;
  (if fd <? 0 then printf "cannot open %d" [VWord fname_at] ;; Exit (-1) else Done tt) ;;
  rv <- sys_call (Ssuspend pid fd) ;;
  sys_call (Sclose fd) ;;
  (if rv <? 0 then
     printf "suspend(%d, %s) failed
" [VWord pid; VStr (Some fname)] ;; sys_call (Sunlink fname) ;; Done tt
   else
     printf "suspend(%d, %s) success
" [VWord pid; VStr (Some fname)] ;; sys_call (Skill pid) ;; Done tt) ;;
  Exit 0.

Definition resume_main (argv : list (list Z)) : prog unit :=
  fname <- arg argv 1 ;;
  fd <- sys_call (Sopen fname O_RDONLY) ;;
  (if fd <? 0 then printf "cannot open %s" [VStr (Some fname)] ;; Exit (-1) else Done tt) ;;
  pid <- sys_call Sfork ;;
  (if negb (pid =? 0) then
     printf "resumed process %d from %s
" [VWord pid; VStr (Some fname)] ;; Exit 0
   else
     rv <- sys_call (Sresume fname) ;;
     sys_call (Sclose fd) ;;
     if rv <? 0 then printf "resume(%s) failed
" [VStr (Some fname)] else printf "resume(%s) success
" [VStr (Some fname)]) ;;
  Exit 0.

Definition counter_main (fuel : nat) (argv : list (list Z)) : prog unit :=
  let label := match argv with [_; l] => Some l | _ => None end in
  ploop fuel (fun i : Z =>
    (match label with
     | Some l => printf "[%s] i = %d
" [VStr (Some l); VWord i]
     | None => printf "i = %d
" [VWord i]
     end) ;;
    sys_call (Ssleep 30) ;;
    Done (inl (i32 (i + 1)))) 0.

Definition forkbomb_main (fuel : nat) : prog unit :=
  printf "forkbomb: started
" [] ;;
  ploop fuel (fun i : Z =>
    id <- sys_call Sfork ;;
    (if id <? 0 then printf "forkbomb: fork() failed, exiting" [] ;; Exit (-1) else Done tt) ;;
    (if id =? 0 then ploop fuel (fun _ : unit => sys_call (Ssleep 10) ;; Done (inl tt)) tt else Done tt) ;;
    let i := i32 (i + 1) in
    printf "forkbomb: fork count = %d
" [VWord i] ;;
    Done (inl i)) 0.

Definition BLOCKSIZE : Z := 512.
Definition NBLOCKS : nat := 140.

Fixpoint createfile_blocks (count : nat) (fd : Z) (buf : list Z) (total : Z) : prog Z :=
  match count with
  | O => Done total
  | S n =>
      rv <- sys_call (Swrite fd buf) ;;
      if rv <? 0 then printf "diskbomb: write() failed, exiting.
" [] ;; Exit 0 else
      let total := i32 (total + BLOCKSIZE) in
      printf "diskbomb: total blocks written: %d
" [VWord total] ;;
      createfile_blocks n fd buf total
  end.

Definition createfile (filename buf : list Z) (count : nat) (total : Z) : prog Z :=
  fd <- sys_call (Sopen filename (Z.lor O_CREATE O_WRONLY)) ;;
  if fd <? 0 then printf "diskbomb: open() failed, exiting.
" [] ;; Exit 0 else
  total <- createfile_blocks count fd buf total ;;
  sys_call (Sclose fd) ;;
  Done total.

(** The three characters that are set; [garbage] is what follows them in the array
    on the stack, which is never written. *)

Definition setfilename (garbage : list Z) (i : Z) : list Z := cstring ([68; 66; u8 (48 + i)] ++ garbage).

Definition diskbomb_main (fuel : nat) (garbage : list Z) : prog unit :=
  let buf := replicate (Z.to_nat BLOCKSIZE) 97 in
  ploop fuel (fun t : Z * Z =>
    let '(total, files) := t in
    let filename := setfilename garbage files in
    printf "diskbomb: creating %s
" [VStr (Some filename)] ;;
    total <- createfile filename buf NBLOCKS total ;;
    let files := i32 (files + 1) in
    printf "diskbomb: total files created: %d
" [VWord files] ;;
    Done (inl (total, files))) (0, 0).

Definition vctest_main (argv : list (list Z)) : prog unit :=
  if (length argv <? 3)%nat then
    printf "usage: vctest <vc> <cmd> [<arg> ...]
" [] ;; Exit (-1) else
  a1 <- arg argv 1 ;; a2 <- arg argv 2 ;;
  fd <- sys_call (Sopen a1 O_RDWR) ;;
  printf "fd = %d
" [VWord fd] ;;
  id <- sys_call Sfork ;;
  (if id =? 0 then
     sys_call (Sclose 0) ;; sys_call (Sclose 1) ;; sys_call (Sclose 2) ;;
     sys_call (Sdup fd) ;; sys_call (Sdup fd) ;; sys_call (Sdup fd) ;;
     sys_call (Sexec a2 (drop 2 argv)) ;;
     Exit 0
   else Done tt) ;;
  printf "%s started on %s
" [VStr (Some a2); VStr (Some a1)] ;;
  Exit 0.

Definition helloworld_main : prog unit := printf "HelloWorld!
" [] ;; Exit 0.

(** ** forktest and stressfs *)

Definition forktest_N : nat := 1000.

Definition print (s : string) : prog unit := sys_call (Swrite 1 (chars s)) ;; Done tt.

(** The number of children, at most [k] more. *)

Fixpoint forktest_forks (k : nat) (n : Z) : prog Z :=
  match k with
  | O => Done n
  | S k' =>
      pid <- sys_call Sfork ;;
      print "fork
" ;;
      if pid <? 0 then Done n else if pid =? 0 then Exit 0 else forktest_forks k' (n + 1)
  end.

Definition forktest : prog unit :=
  print "fork test
" ;;
  n <- forktest_forks forktest_N 0 ;;
  (if n =? Z.of_nat forktest_N then print "fork claimed to work N times!
" ;; Exit 1 else Done tt) ;;
  pfor (seq 0 (Z.to_nat n)) (fun _ =>
    w <- sys_call Swait ;;
    if w.1 <? 0 then print "wait stopped early
" ;; Exit 1 else Done tt) ;;
  w <- sys_call Swait ;;
  (if negb (w.1 =? -1) then print "wait got too many
" ;; Exit 1 else Done tt) ;;
  print "fork test OK
".

Definition forktest_main : prog unit := forktest ;; Exit 0.

(** The loop that forks: [k] more times. *)

Fixpoint stressfs_forks (k : nat) (i : Z) : prog Z :=
  match k with
  | O => Done i
  | S k' => pid <- sys_call Sfork ;; if 0 <? pid then Done i else stressfs_forks k' (i + 1)
  end.

Definition stressfs_main : prog unit :=
  printf "stressfs starting
" [] ;;
  let data := replicate 512 97 in
  i <- stressfs_forks 4 0 ;;
  printf "write %d
" [VWord i] ;;
  let path := chars "stressfs" ++ [u8 (48 + i)] in
  fd <- sys_call (Sopen path (Z.lor O_CREATE O_RDWR)) ;;
  pfor (seq 0 20) (fun _ => sys_call (Swrite fd data) ;; Done tt) ;;
  sys_call (Sclose fd) ;;
  printf "read
" [] ;;
  fd <- sys_call (Sopen path O_RDONLY) ;;
  pfor (seq 0 20) (fun _ => sys_call (Sread fd 512) ;; Done tt) ;;
  sys_call (Sclose fd) ;;
  sys_call Swait ;;
  Exit 0.

(** ** membomb, ps and cinfo *)

Definition membomb_main (fuel : nat) : prog unit :=
  printf "membomb: started
" [] ;;
  ploop fuel (fun totalmb : Z =>
    p <- sys_call (Smalloc (1024 * 1024)) ;;
    if p =? 0 then
      printf "membomb: malloc() failed, exiting
" [] ;; Exit 0
    else
      let totalmb := i32 (totalmb + 1) in
      printf "membomb: total memory allocated: %d MB
" [VWord totalmb] ;;
      Done (inl totalmb)) 0.

(** A string in an array of characters; without a NUL it runs past the array. *)

Definition in_array (a : list Z) : prog (list Z) := if bool_decide (0 ∈ a) then Done (cstring a) else Crash.

Definition print_proc (p : proc_info) : prog unit :=
  name <- in_array (pi_name p) ;; container <- in_array (pi_container p) ;; parent <- in_array (pi_parent p) ;;
  printf "	%d	%d	%dK	%s	%s	%s
" [VWord (pi_pid p); VWord (pi_vpid p); VWord (Z.quot (pi_mem p) 1000);
     VStr (Some name); VStr (Some container); VStr (Some parent)].

Definition ps_main : prog unit :=
  sys_call (Smalloc (64 * 60)) ;;
  r <- sys_call Spsinfo ;;
  printf "	PID	VPID	MEM	NAME	CONT	PARENT
" [] ;;
  pfor r.2 print_proc ;;
  Exit 0.

Definition print_container (c : container_info) : prog unit :=
  name <- in_array (ci_name c) ;; state <- in_array (ci_state c) ;; root <- in_array (ci_root c) ;;
  printf "%sNAME:%s	STATE:%s	#PROCESS:%d/%d	ROOT:%s	MEM:%d/%d blocks	DISK:%d/%d blocks
" [VStr (Some (if ci_current_container c =? 1 then [42] else [])); VStr (Some name); VStr (Some state);
     VWord (ci_numproc c); VWord (ci_maxproc c); VStr (Some root); VWord (ci_memused c); VWord (ci_memlimit c);
     VWord (ci_diskused c); VWord (ci_disklimit c)] ;;
  printf "	PID	VPID	MEM	NAME	CONT	PARENT
" [] ;;
  pfor (take (Z.to_nat (ci_numproc c)) (ci_ptable c)) print_proc ;;
  printf "
" [].

Definition cinfo_main : prog unit :=
  ctable <- sys_call (Smalloc (5 * (16 + 16 + 7 * 4 + 128 + 64 * 60))) ;;
  r <- sys_call Scinfo ;;
  if negb (r.1 =? 0) then
    printf "cinfo failed: cannot execute outside of root
" [] ;;
    sys_call (Sfree ctable) ;; Exit (-1)
  else
  pfor r.2 print_container ;;
  sys_call (Sfree ctable) ;;
  Exit 0.

(** ** What wc counts *)

Definition is_space (b : Z) : bool := match strchr [32; 13; 9; 10; 11] b with Some _ => true | None => false end.

(** Does the text start in a word? *)

Definition starts_word (data : list Z) : bool :=
  match data with c :: _ => negb (is_space c) | [] => false end.

(** The words of a text: the maximal runs of characters that are no space. *)

Fixpoint fields (data : list Z) : list (list Z) :=
  match data with
  | [] => []
  | c :: data' =>
      if is_space c then fields data'
      else if starts_word data' then
        match fields data' with f :: fs => (c :: f) :: fs | [] => [[c]] end
      else [c] :: fields data'
  end.

Definition newlines (data : list Z) : Z := Z.of_nat (length (filter (fun c => c = 10) data)).

Definition nfields (data : list Z) : Z := Z.of_nat (length (fields data)).

Lemma nfields_cons c data :
  nfields (c :: data) =
    nfields data + (if is_space c then 0 else if starts_word data then 0 else 1).
Proof.
  assert (Hne : forall d, starts_word d = true -> fields d <> []).
  { intros [|x d]; cbn [starts_word fields]; [done|]. destruct (is_space x); [done|]. intros _.
    destruct (starts_word d); [|done]. by destruct (fields d). }
  unfold nfields. cbn [fields]. destruct (is_space c); [lia|].
  specialize (Hne data). destruct (starts_word data); cbn [length]; [|lia].
  destruct (fields data) as [|f fs]; [by destruct Hne|]. cbn [length]. lia.
Qed.

(** The counters after a text. *)

Lemma wc_chars data : forall a b c inw, exists inw',
  fold_left wc_char data (mk_counts (i32 a) (i32 b) (i32 c) inw) =
    mk_counts (i32 (a + newlines data))
      (i32 (b + nfields data - (if inw && starts_word data then 1 else 0)))
      (i32 (c + Z.of_nat (length data))) inw'.
Proof.
  induction data as [|x data IH]; intros a b c inw.
  { exists inw. cbn. rewrite andb_false_r. unfold newlines, nfields. cbn. f_equal; f_equal; lia. }
  set (a' := if x =? 10 then a + 1 else a).
  set (b' := if is_space x then b else if inw then b else b + 1).
  assert (Ex : wc_char (mk_counts (i32 a) (i32 b) (i32 c) inw) x =
               mk_counts (i32 a') (i32 b') (i32 (c + 1)) (negb (is_space x))).
  { unfold wc_char, a', b', is_space. cbn [wc_l wc_w wc_c wc_inword]. rewrite !i32_add_l.
    destruct (strchr _ x); destruct (x =? 10), inw; reflexivity. }
  cbn [fold_left]. rewrite Ex. destruct (IH a' b' (c + 1) (negb (is_space x))) as [inw' ->].
  exists inw'. f_equal; f_equal.
  - unfold newlines, a'. rewrite filter_cons.
    destruct (Z.eqb_spec x 10); [rewrite decide_True by done|rewrite decide_False by done]; cbn [length]; lia.
  - rewrite nfields_cons. unfold b'. cbn [starts_word].
    destruct (is_space x), inw, (starts_word data); cbn [negb andb]; lia.
  - cbn [length]. lia.
Qed.

(** ** What a program prints

    The world keeps what was written to the standard output; what is left of it is not
    touched. *)

Definition writes_out {W T} (h : kernel W) (rest : W -> T) (output : W -> list Z) : Prop := forall bs w,
  exists w', h _ (Swrite 1 bs) w = (Z.of_nat (length bs), w') /\ rest w' = rest w /\ output w' = output w ++ bs.

Section Output.
Context {W T : Type} (h : kernel W) (rest : W -> T) (output : W -> list Z).
Hypothesis Hw : writes_out h rest output.

Definition puts (p : prog unit) (bs : list Z) : Prop := forall w,
  exists w', prun h p w = RDone tt w' /\ rest w' = rest w /\ output w' = output w ++ bs.

Lemma puts_done : puts (Done tt) [].
Proof. intros w. exists w. by rewrite app_nil_r. Qed.

Lemma puts_bind p q bs bs' : puts p bs -> puts q bs' -> puts (pbind p (fun _ => q)) (bs ++ bs').
Proof.
  intros Hp Hq w. destruct (Hp w) as (w1 & H1 & R1 & O1). destruct (Hq w1) as (w2 & H2 & R2 & O2).
  exists w2. rewrite prun_bind, H1. split; [done|]. split; [congruence|]. by rewrite O2, O1, app_assoc.
Qed.

Lemma puts_putc c : is_byte c -> puts (putc 1 c) [c].
Proof.
  intros Hc w. destruct (Hw [u8 c] w) as (w' & H & R & O).
  exists w'. cbn. rewrite H. unfold u8 in O. rewrite (Z.mod_small c) in O by (unfold is_byte in Hc; lia). done.
Qed.

Lemma puts_all bs : Forall is_byte bs -> puts (put_all 1 bs) bs.
Proof.
  induction 1 as [|b bs Hb _ IH]; [exact puts_done|]. apply (puts_bind _ _ [b]); [by apply puts_putc|done].
Qed.

Lemma puts_printint x : - 2 ^ 31 <= x < 2 ^ 31 ->
  exists t, puts (printint 1 x 10 1) t /\ numeral 10 t = x.
Proof.
  intros Hx. destruct (printint_buf_value digits (is_digit_table_spec digits eq_refl) x 10 1) as (b & Hb & Hv);
    [done|by left|].
  exists (rev b). split; [|done]. unfold printint. rewrite Hb. apply puts_all, Forall_rev.
  eapply printint_buf_bytes; [|exact Hb]. repeat constructor; done.
Qed.

End Output.

(** ** Reading a file to its end *)

Section Files.
Context {W : Type} (h : kernel W) (fd : Z) (remaining output : W -> list Z).
Hypothesis Hk : file_kernel h fd remaining output.

Lemma copy_loop_run n : forall w, (length (remaining w) < n)%nat ->
  exists w', prun h (copy_loop n fd 512 1) w = RDone 0 w' /\
    remaining w' = [] /\ output w' = output w ++ remaining w.
Proof.
  induction n as [|n IH]; intros w Hn; [lia|]. unfold copy_loop. cbn [ploop]. rewrite prun_bind.
  destruct (decide (remaining w = [])) as [E|E].
  - destruct (fk_eof _ _ _ _ Hk 512 w) as (w' & Hr & H1 & H2); [by right|].
    exists w'. rewrite (prun_call _ _ _ _ _ _ Hr). cbn [fst Z.leb Z.compare prun].
    rewrite H1, H2, E, app_nil_r. done.
  - destruct (fk_read _ _ _ _ Hk 512 w) as (k & w1 & Hkl & Hkn & Hr & H1 & H2); [lia|done|].
    destruct (fk_write _ _ _ _ Hk (take k (remaining w)) w1) as (w2 & Hw & H3 & H4).
    destruct (IH w2) as (w' & Hc & H5 & H6).
    { rewrite H3, H1, length_drop. lia. }
    exists w'. split; [|split; [done|]].
    + rewrite (prun_call _ _ _ _ _ _ Hr). cbn [fst snd]. destruct (Z.leb_spec (Z.of_nat k) 0); [lia|].
      rewrite Nat2Z.id, (take_ge (take k _)) by (rewrite length_take; lia).
      rewrite (prun_call _ _ _ _ _ _ Hw), length_take_le, Z.eqb_refl by lia. cbn [negb prun]. exact Hc.
    + rewrite H6, H4, H3, H2, H1, <- app_assoc. by rewrite take_drop.
Qed.

Lemma wc_loop_run n : forall w a b c inw, (length (remaining w) < n)%nat ->
  exists w' k, prun h (wc_loop n fd (mk_counts (i32 a) (i32 b) (i32 c) inw)) w = RDone (0, k) w' /\
    remaining w' = [] /\ output w' = output w /\
    k = fold_left wc_char (remaining w) (mk_counts (i32 a) (i32 b) (i32 c) inw).
Proof.
  induction n as [|n IH]; intros w a b c inw Hn; [lia|]. unfold wc_loop. cbn [ploop]. rewrite prun_bind.
  destruct (decide (remaining w = [])) as [E|E].
  - destruct (fk_eof _ _ _ _ Hk 512 w) as (w' & Hr & H1 & H2); [by right|].
    exists w', (mk_counts (i32 a) (i32 b) (i32 c) inw).
    rewrite (prun_call _ _ _ _ _ _ Hr). cbn [fst Z.leb Z.compare prun]. rewrite H1, H2, E. done.
  - destruct (fk_read _ _ _ _ Hk 512 w) as (k & w1 & Hkl & Hkn & Hr & H1 & H2); [lia|done|].
    destruct (wc_chars (take k (remaining w)) a b c inw) as [inw' Hf].
    destruct (IH w1 (a + newlines (take k (remaining w)))
      (b + nfields (take k (remaining w)) - (if inw && starts_word (take k (remaining w)) then 1 else 0))
      (c + Z.of_nat (length (take k (remaining w)))) inw') as (w' & kk & Hc & H5 & H6 & H7).
    { rewrite H1, length_drop. lia. }
    exists w', kk. split; [|split; [done|split; [congruence|]]].
    + rewrite (prun_call _ _ _ _ _ _ Hr). cbn [fst snd]. destruct (Z.leb_spec (Z.of_nat k) 0); [lia|].
      cbn [prun]. rewrite Nat2Z.id, (take_ge (take k _)) by (rewrite length_take; lia).
      rewrite Hf. exact Hc.
    + rewrite H7, H1, <- Hf, <- fold_left_app. by rewrite take_drop.
Qed.

(** The line that wc prints. *)

Lemma puts_counts l n c name :
  - 2 ^ 31 <= l < 2 ^ 31 -> - 2 ^ 31 <= n < 2 ^ 31 -> - 2 ^ 31 <= c < 2 ^ 31 ->
  Forall is_byte name ->
  exists tl tn tc,
    puts h remaining output (printf "%d %d %d %s
" [VWord l; VWord n; VWord c; VStr (Some name)])
      (tl ++ [32] ++ tn ++ [32] ++ tc ++ [32] ++ name ++ [10]) /\
    numeral 10 tl = l /\ numeral 10 tn = n /\ numeral 10 tc = c.
Proof.
  intros Hl Hn Hc Hb.
  pose proof (fk_write _ _ _ _ Hk) as Hw. destruct (puts_printint _ _ _ Hw l Hl) as (tl & Pl & Vl). destruct (puts_printint _ _ _ Hw n Hn) as (tn & Pn & Vn).
  destruct (puts_printint _ _ _ Hw c Hc) as (tc & Pc & Vc). exists tl, tn, tc. split; [|done].
  assert (Hsp : puts h remaining output (putc 1 32) [32]) by (by apply puts_putc).
  unfold printf, fprintf.
  change (bytes_of_string "%d %d %d %s
") with [37; 100; 32; 37; 100; 32; 37; 100; 32; 37; 115; 10].
  cbn [vprintf negb Z.eqb Pos.eqb arg_word arg_str or_crash pbind fst snd default from_option id].
  rewrite !i32_small by done.
  repeat (apply puts_bind; [done|]). apply puts_bind; [by apply puts_all|].
  rewrite <- (app_nil_r [10]). apply puts_bind; [by apply puts_putc|apply puts_done].
Qed.

End Files.

(** The program cat copies a file to the standard output, all of it and nothing else,
    however the reads cut it up. *)
Theorem cat_copies {W} (h : kernel W) fd remaining output w :
  file_kernel h fd remaining output ->
  exists w', prun h (cat (S (length (remaining w))) fd) w = RDone tt w' /\
    remaining w' = [] /\ output w' = output w ++ remaining w.
Proof.
  intros Hk. destruct (copy_loop_run h fd remaining output Hk (S (length (remaining w))) w) as (w' & H & HH); [lia|].
  exists w'. split; [|done]. unfold cat. by rewrite (prun_bind_Done _ _ _ _ _ _ H).
Qed.

(** The program wc prints the number of newlines, of words and of characters of a file,
    whatever the pieces in which the file is read: a word that is cut by the end of
    a read is counted once.  The counters are ints, and wrap around. *)
Theorem wc_counts {W} (h : kernel W) fd remaining output name w :
  file_kernel h fd remaining output -> Forall is_byte name ->
  exists w' tl tn tc,
    prun h (wc (S (length (remaining w))) fd name) w = RDone tt w' /\ remaining w' = [] /\
    output w' = output w ++ tl ++ [32] ++ tn ++ [32] ++ tc ++ [32] ++ name ++ [10] /\
    numeral 10 tl = i32 (newlines (remaining w)) /\
    numeral 10 tn = i32 (Z.of_nat (length (fields (remaining w)))) /\
    numeral 10 tc = i32 (Z.of_nat (length (remaining w))).
Proof.
  intros Hk Hn.
  destruct (wc_loop_run h fd remaining output Hk (S (length (remaining w))) w 0 0 0 false)
    as (w1 & k & Hr & Hrem & Hout & ->); [lia|].
  destruct (wc_chars (remaining w) 0 0 0 false) as [inw Hf]. rewrite Hf in Hr.
  cbn [andb] in Hr. rewrite Z.sub_0_r, !Z.add_0_l in Hr.
  destruct (puts_counts h fd remaining output Hk (i32 (newlines (remaining w))) (i32 (nfields (remaining w)))
    (i32 (Z.of_nat (length (remaining w)))) name) as (tl & tn & tc & Hp & V); [apply i32_range..|done|].
  destruct (Hp w1) as (w' & Hw & Hrem' & Hout'). exists w', tl, tn, tc.
  split; [|split; [congruence|split; [by rewrite Hout', Hout|exact V]]].
  unfold wc. change (mk_counts 0 0 0 false) with (mk_counts (i32 0) (i32 0) (i32 0) false).
  rewrite (prun_bind_Done _ _ _ _ _ _ Hr). exact Hw.
Qed.

(** A path of a container and a program that do not fit the 100 characters: the copy
    writes past the array. *)

Theorem ccreate_overflow path prog :
  (100 <= length path + length prog + 1)%nat -> ccreate_path path prog = None.
Proof.
  intros H. unfold ccreate_path.
  assert (Hs : forall s t, (length s <= length t)%nat -> strcpy s t = None).
  { induction s as [|x s IH]; intros t Ht; [done|]. destruct t as [|c t]; cbn [length strcpy] in *; [lia|].
    rewrite IH by lia. done. }
  assert (Hl : forall s t r, strcpy s t = Some r -> length r = length s).
  { induction s as [|x s IH]; intros t r E; [done|]. destruct t as [|c t]; cbn [strcpy] in E.
    - by injection E as <-.
    - destruct (strcpy s t) as [r'|] eqn:E'; [|done]. injection E as <-. cbn. f_equal. by eapply IH. }
  destruct (strcpy (replicate 100 0) path) as [b|] eqn:E; [|done]. cbn [mbind option_bind].
  apply Hl in E. rewrite length_replicate in E. rewrite Hs; [done|]. rewrite length_drop. lia.
Qed.
