(* ===== verification/Usertests.v ===== *)
(** * The tests of the system calls (user/usertests.c)

    Each test is a program of its name; main runs the tests, each in a child.  The
    global array buf ([zero_buf]) is zero when a test starts, since only the children touch it; a
    test that reads into it and uses it again threads its contents.  A [for(;;);] is a
    loop that uses up any bound. *)

From S2P Require Import Prelude Monad Riscv Kstring Printf Uprog Ulib Grep Uprogs.

#[local] Open Scope prog_scope.

Definition BSIZE : Z := 1024.
Definition BUFSZ : Z := (MAXOPBLOCKS + 2) * BSIZE.
Definition MAXFILE : Z := 12 + BSIZE / 4.

Definition zero_buf : list Z := replicate (Z.to_nat BUFSZ) 0.

(** [if(failed){ printf(fmt, ...); exit(1); }] *)

Definition fail_if (failed : bool) (fmt : string) (args : list vararg) : prog unit :=
  if failed then printf fmt args ;; Exit 1 else Done tt.

Definition str (s : list Z) : vararg := VStr (Some s).

(** What read leaves in an array. *)

Definition stored (r : Z * list Z) (b : list Z) : list Z :=
  let k := Z.to_nat r.1 in take k r.2 ++ drop k b.

(** [close(open(path, mode))] *)

Definition touch (path : list Z) (mode : Z) : prog unit :=
  fd <- sys_call (Sopen path mode) ;; sys_call (Sclose fd) ;; Done tt.

Definition wait0 : prog Z := r <- sys_call Swait ;; Done r.1.

Definition spin (fuel : nat) : prog unit := ploop fuel (fun _ : unit => Done (inl tt)) tt.

(** ** Inodes in transactions *)

Definition iputtest (s : list Z) : prog unit :=
  r <- sys_call (Smkdir (chars "iputdir")) ;;
  fail_if (r <? 0) "%s: mkdir failed
" [str s] ;;
  r <- sys_call (Schdir (chars "iputdir")) ;;
  fail_if (r <? 0) "%s: chdir iputdir failed
" [str s] ;;
  r <- sys_call (Sunlink (chars "../iputdir")) ;;
  fail_if (r <? 0) "%s: unlink ../iputdir failed
" [str s] ;;
  r <- sys_call (Schdir (chars "/")) ;;
  fail_if (r <? 0) "%s: chdir / failed
" [str s].

Definition exitiputtest (s : list Z) : prog unit :=
  pid <- sys_call Sfork ;;
  fail_if (pid <? 0) "%s: fork failed
" [str s] ;;
  (if pid =? 0 then
     r <- sys_call (Smkdir (chars "iputdir")) ;;
     fail_if (r <? 0) "%s: mkdir failed
" [str s] ;;
     r <- sys_call (Schdir (chars "iputdir")) ;;
     fail_if (r <? 0) "%s: child chdir failed
" [str s] ;;
     r <- sys_call (Sunlink (chars "../iputdir")) ;;
     fail_if (r <? 0) "%s: unlink ../iputdir failed
" [str s] ;;
     Exit 0
   else Done tt) ;;
  w <- sys_call Swait ;;
  Exit w.2.

Definition openiputtest (s : list Z) : prog unit :=
  r <- sys_call (Smkdir (chars "oidir")) ;;
  fail_if (r <? 0) "%s: mkdir oidir failed
" [str s] ;;
  pid <- sys_call Sfork ;;
  fail_if (pid <? 0) "%s: fork failed
" [str s] ;;
  (if pid =? 0 then
     fd <- sys_call (Sopen (chars "oidir") O_RDWR) ;;
     fail_if (0 <=? fd) "%s: open directory for write succeeded
" [str s] ;;
     Exit 0
   else Done tt) ;;
  sys_call (Ssleep 1) ;;
  r <- sys_call (Sunlink (chars "oidir")) ;;
  fail_if (negb (r =? 0)) "%s: unlink failed
" [str s] ;;
  w <- sys_call Swait ;;
  Exit w.2.

(** ** Simple file system tests *)

Definition opentest (s : list Z) : prog unit :=
  fd <- sys_call (Sopen (chars "echo") 0) ;;
  fail_if (fd <? 0) "%s: open echo failed!
" [str s] ;;
  sys_call (Sclose fd) ;;
  fd <- sys_call (Sopen (chars "doesnotexist") 0) ;;
  fail_if (0 <=? fd) "%s: open doesnotexist succeeded!
" [str s].

Definition writetest (s : list Z) : prog unit :=
  fd <- sys_call (Sopen (chars "small") (Z.lor O_CREATE O_RDWR)) ;;
  fail_if (fd <? 0) "%s: error: creat small failed!
" [str s] ;;
  pfor (seqZ 0 100) (fun i =>
    r <- sys_call (Swrite fd (chars "aaaaaaaaaa")) ;;
    fail_if (negb (r =? 10)) "%s: error: write aa %d new file failed
" [VWord i] ;;
    r <- sys_call (Swrite fd (chars "bbbbbbbbbb")) ;;
    fail_if (negb (r =? 10)) "%s: error: write bb %d new file failed
" [VWord i]) ;;
  sys_call (Sclose fd) ;;
  fd <- sys_call (Sopen (chars "small") O_RDONLY) ;;
  fail_if (fd <? 0) "%s: error: open small failed!
" [str s] ;;
  r <- sys_call (Sread fd 2000) ;;
  fail_if (negb (r.1 =? 2000)) "%s: read failed
" [str s] ;;
  sys_call (Sclose fd) ;;
  r <- sys_call (Sunlink (chars "small")) ;;
  fail_if (r <? 0) "%s: unlink small failed
" [str s].

(** The int at the start of an array. *)

Definition int0 (b : list Z) : Z := i32 (le_value (take 4 b)).

Definition writebig (fuel : nat) (s : list Z) : prog unit :=
  fd <- sys_call (Sopen (chars "big") (Z.lor O_CREATE O_RDWR)) ;;
  fail_if (fd <? 0) "%s: error: creat big failed!
" [str s] ;;
  pfor (seqZ 0 MAXFILE) (fun i =>
    r <- sys_call (Swrite fd (take (Z.to_nat BSIZE) (le_bytes 4 i ++ drop 4 zero_buf))) ;;
    fail_if (negb (r =? BSIZE)) "%s: error: write big file failed
" [VWord i]) ;;
  sys_call (Sclose fd) ;;
  fd <- sys_call (Sopen (chars "big") O_RDONLY) ;;
  fail_if (fd <? 0) "%s: error: open big failed!
" [str s] ;;
  ploop fuel (fun st : Z * list Z =>
    let '(n, b) := st in
    r <- sys_call (Sread fd BSIZE) ;;
    if r.1 =? 0 then
      fail_if (n =? MAXFILE - 1) "%s: read only %d blocks from big" [VWord n] ;;
      Done (inr tt)
    else
      fail_if (negb (r.1 =? BSIZE)) "%s: read failed %d
" [VWord r.1] ;;
      let b := stored r b in
      fail_if (negb (int0 b =? n)) "%s: read content of block %d is %d
" [VWord n; VWord (int0 b)] ;;
      Done (inl (i32 (n + 1), b))) (0, le_bytes 4 (MAXFILE - 1) ++ drop 4 zero_buf) ;;
  sys_call (Sclose fd) ;;
  r <- sys_call (Sunlink (chars "big")) ;;
  fail_if (r <? 0) "%s: unlink big failed
" [str s].

(** The name made of two characters. *)

Definition name2 (a b : Z) : list Z := [u8 a; u8 b].

Definition createtest (s : list Z) : prog unit :=
  pfor (seqZ 0 52) (fun i => touch (name2 97 (48 + i)) (Z.lor O_CREATE O_RDWR)) ;;
  pfor (seqZ 0 52) (fun i => sys_call (Sunlink (name2 97 (48 + i))) ;; Done tt).

Definition dirtest (s : list Z) : prog unit :=
  printf "mkdir test
" [] ;;
  r <- sys_call (Smkdir (chars "dir0")) ;;
  fail_if (r <? 0) "%s: mkdir failed
" [str s] ;;
  r <- sys_call (Schdir (chars "dir0")) ;;
  fail_if (r <? 0) "%s: chdir dir0 failed
" [str s] ;;
  r <- sys_call (Schdir (chars "..")) ;;
  fail_if (r <? 0) "%s: chdir .. failed
" [str s] ;;
  r <- sys_call (Sunlink (chars "dir0")) ;;
  fail_if (r <? 0) "%s: unlink dir0 failed
" [str s] ;;
  printf "%s: mkdir test ok
" [].

Definition exectest (s : list Z) : prog unit :=
  sys_call (Sunlink (chars "echo-ok")) ;;
  pid <- sys_call Sfork ;;
  fail_if (pid <? 0) "%s: fork failed
" [str s] ;;
  (if pid =? 0 then
     sys_call (Sclose 1) ;;
     fd <- sys_call (Sopen (chars "echo-ok") (Z.lor O_CREATE O_WRONLY)) ;;
     fail_if (fd <? 0) "%s: create failed
" [str s] ;;
     fail_if (negb (fd =? 1)) "%s: wrong fd
" [str s] ;;
     r <- sys_call (Sexec (chars "echo") [chars "echo"; chars "OK"]) ;;
     fail_if (r <? 0) "%s: exec echo failed
" [str s]
   else Done tt) ;;
  w <- sys_call Swait ;;
  (if negb (w.1 =? pid) then printf "%s: wait failed!
" [str s] else Done tt) ;;
  if negb (w.2 =? 0) then Exit w.2 else
  fd <- sys_call (Sopen (chars "echo-ok") O_RDONLY) ;;
  fail_if (fd <? 0) "%s: open failed
" [str s] ;;
  r <- sys_call (Sread fd 2) ;;
  fail_if (negb (r.1 =? 2)) "%s: read failed
" [str s] ;;
  sys_call (Sunlink (chars "echo-ok")) ;;
  b0 <- or_crash (r.2 !! 0%nat) ;; b1 <- or_crash (r.2 !! 1%nat) ;;
  if (b0 =? 79) && (b1 =? 75) then Exit 0 else
  printf "%s: wrong output
" [str s] ;;
  Exit 1.

(** ** Pipes and processes *)

(** The numbers from [seq] on, as characters. *)

Definition counting (seq n : Z) : list Z := (fun i => u8 (seq + i)) <$> seqZ 0 n.

(** One read of pipe1; the result is [None] when a character is wrong. *)

Definition pipe1_round (fd : Z) (s : list Z) (st : Z * Z * Z) : prog (Z * Z * Z + option Z) :=
  let '(total, cc, seq) := st in
  r <- sys_call (Sread fd cc) ;;
  if r.1 <=? 0 then Done (inr (Some total)) else
  if negb (bool_decide (take (Z.to_nat r.1) r.2 = counting seq r.1)) then
    printf "%s: pipe1 oops 2
" [str s] ;; Done (inr None)
  else Done (inl (total + r.1, if BUFSZ <? cc * 2 then BUFSZ else cc * 2, seq + r.1)).

Definition pipe1 (fuel : nat) (s : list Z) : prog unit :=
  p <- sys_call Spipe ;;
  fail_if (negb (p.1 =? 0)) "%s: pipe() failed
" [str s] ;;
  pid <- sys_call Sfork ;;
  if pid =? 0 then
    sys_call (Sclose p.2.1) ;;
    pfor (seqZ 0 5) (fun n =>
      r <- sys_call (Swrite p.2.2 (counting (n * 1033) 1033)) ;;
      fail_if (negb (r =? 1033)) "%s: pipe1 oops 1
" [str s]) ;;
    Exit 0
  else if 0 <? pid then
    sys_call (Sclose p.2.2) ;;
    t <- ploop fuel (pipe1_round p.2.1 s) (0, 1, 0) ;;
    match t with
    | None => Done tt
    | Some total =>
        fail_if (negb (total =? 5 * 1033)) "%s: pipe1 oops 3 total %d
" [VWord total] ;;
        sys_call (Sclose p.2.1) ;;
        w <- sys_call Swait ;;
        Exit w.2
    end
  else printf "%s: fork() failed
" [str s] ;; Exit 1.

Definition preempt (fuel : nat) (s : list Z) : prog unit :=
  pid1 <- sys_call Sfork ;;
  fail_if (pid1 <? 0) "%s: fork failed" [] ;;
  (if pid1 =? 0 then spin fuel else Done tt) ;;
  pid2 <- sys_call Sfork ;;
  fail_if (pid2 <? 0) "%s: fork failed
" [str s] ;;
  (if pid2 =? 0 then spin fuel else Done tt) ;;
  p <- sys_call Spipe ;;
  pid3 <- sys_call Sfork ;;
  fail_if (pid3 <? 0) "%s: fork failed
" [str s] ;;
  (if pid3 =? 0 then
     sys_call (Sclose p.2.1) ;;
     r <- sys_call (Swrite p.2.2 (chars "x")) ;;
     (if negb (r =? 1) then printf "%s: preempt write error" [] else Done tt) ;;
     sys_call (Sclose p.2.2) ;;
     spin fuel
   else Done tt) ;;
  sys_call (Sclose p.2.2) ;;
  r <- sys_call (Sread p.2.1 BUFSZ) ;;
  if negb (r.1 =? 1) then printf "%s: preempt read error" [] else
  sys_call (Sclose p.2.1) ;;
  printf "kill... " [] ;;
  sys_call (Skill pid1) ;; sys_call (Skill pid2) ;; sys_call (Skill pid3) ;;
  printf "wait... " [] ;;
  wait0 ;; wait0 ;; wait0 ;;
  Done tt.

Definition exitwait (s : list Z) : prog unit :=
  pfor (seqZ 0 100) (fun i =>
    pid <- sys_call Sfork ;;
    fail_if (pid <? 0) "%s: fork failed
" [str s] ;;
    if negb (pid =? 0) then
      w <- sys_call Swait ;;
      fail_if (negb (w.1 =? pid)) "%s: wait wrong pid
" [str s] ;;
      fail_if (negb (i =? w.2)) "%s: wait wrong exit status
" [str s]
    else Exit i).

Definition reparent (s : list Z) : prog unit :=
  master_pid <- sys_call Sgetpid ;;
  pfor (seqZ 0 200) (fun _ =>
    pid <- sys_call Sfork ;;
    fail_if (pid <? 0) "%s: fork failed
" [str s] ;;
    if negb (pid =? 0) then
      r <- wait0 ;;
      fail_if (negb (r =? pid)) "%s: wait wrong pid
" [str s]
    else
      pid2 <- sys_call Sfork ;;
      if pid2 <? 0 then sys_call (Skill master_pid) ;; Exit 1 else
      Exit 0) ;;
  Exit 0.

Definition twochildren (s : list Z) : prog unit :=
  pfor (seqZ 0 1000) (fun _ =>
    pid1 <- sys_call Sfork ;;
    fail_if (pid1 <? 0) "%s: fork failed
" [str s] ;;
    if pid1 =? 0 then Exit 0 else
    pid2 <- sys_call Sfork ;;
    fail_if (pid2 <? 0) "%s: fork failed
" [str s] ;;
    if pid2 =? 0 then Exit 0 else
    wait0 ;; wait0 ;; Done tt).

Definition forkfork (s : list Z) : prog unit :=
  pfor (seqZ 0 2) (fun _ =>
    pid <- sys_call Sfork ;;
    fail_if (pid <? 0) "%s: fork failed" [str s] ;;
    if pid =? 0 then
      pfor (seqZ 0 200) (fun _ =>
        pid1 <- sys_call Sfork ;;
        if pid1 <? 0 then Exit 1 else
        if pid1 =? 0 then Exit 0 else
        wait0 ;; Done tt) ;;
      Exit 0
    else Done tt) ;;
  pfor (seqZ 0 2) (fun _ =>
    w <- sys_call Swait ;;
    fail_if (negb (w.2 =? 0)) "%s: fork in child failed" [str s]).

Definition forkforkfork (fuel : nat) (s : list Z) : prog unit :=
  sys_call (Sunlink (chars "stopforking")) ;;
  pid <- sys_call Sfork ;;
  fail_if (pid <? 0) "%s: fork failed" [str s] ;;
  (if pid =? 0 then
     ploop fuel (fun _ : unit =>
       fd <- sys_call (Sopen (chars "stopforking") 0) ;;
       if 0 <=? fd then Exit 0 else
       r <- sys_call Sfork ;;
       (if r <? 0 then touch (chars "stopforking") (Z.lor O_CREATE O_RDWR) else Done tt) ;;
       Done (inl tt)) tt
   else Done tt) ;;
  sys_call (Ssleep 20) ;;
  touch (chars "stopforking") (Z.lor O_CREATE O_RDWR) ;;
  wait0 ;;
  sys_call (Ssleep 10) ;;
  Done tt.

Definition reparent2 (s : list Z) : prog unit :=
  pfor (seqZ 0 800) (fun _ =>
    pid1 <- sys_call Sfork ;;
    fail_if (pid1 <? 0) "fork failed
" [] ;;
    (if pid1 =? 0 then sys_call Sfork ;; sys_call Sfork ;; Exit 0 else Done tt) ;;
    wait0 ;; Done tt) ;;
  Exit 0.

(** The blocks are linked through their first eight bytes. *)

Definition mem (fuel : nat) (s : list Z) : prog unit :=
  pid <- sys_call Sfork ;;
  if pid =? 0 then
    m1 <- ploop fuel (fun m1 : Z =>
      m2 <- sys_call (Smalloc 10001) ;;
      if m2 =? 0 then Done (inr m1) else
      store_at 8 m2 m1 ;; Done (inl m2)) 0 ;;
    ploop fuel (fun m1 : Z =>
      if m1 =? 0 then Done (inr tt) else
      m2 <- load_at 8 m1 ;;
      sys_call (Sfree m1) ;;
      Done (inl m2)) m1 ;;
    m1 <- sys_call (Smalloc (1024 * 20)) ;;
    fail_if (m1 =? 0) "couldn't allocate mem?!!
" [str s] ;;
    sys_call (Sfree m1) ;;
    Exit 0
  else
    w <- sys_call Swait ;;
    Exit w.2.

(** ** More file system tests *)

Definition count_char (c : Z) (b : list Z) : Z := Z.of_nat (length (filter (fun x => x = c) b)).

Definition sharedfd (fuel : nat) (s : list Z) : prog unit :=
  sys_call (Sunlink (chars "sharedfd")) ;;
  fd <- sys_call (Sopen (chars "sharedfd") (Z.lor O_CREATE O_RDWR)) ;;
  fail_if (fd <? 0) "%s: cannot open sharedfd for writing" [str s] ;;
  pid <- sys_call Sfork ;;
  let b := replicate 10 (if pid =? 0 then 99 else 112) in
  pfor (seqZ 0 1000) (fun _ =>
    r <- sys_call (Swrite fd b) ;;
    fail_if (negb (r =? 10)) "%s: write sharedfd failed
" [str s]) ;;
  (if pid =? 0 then Exit 0 else
   w <- sys_call Swait ;;
   if negb (w.2 =? 0) then Exit w.2 else Done tt) ;;
  sys_call (Sclose fd) ;;
  fd <- sys_call (Sopen (chars "sharedfd") 0) ;;
  fail_if (fd <? 0) "%s: cannot open sharedfd for reading
" [str s] ;;
  n <- ploop fuel (fun st : list Z * (Z * Z) =>
    let '(b, (nc, np)) := st in
    r <- sys_call (Sread fd 10) ;;
    if r.1 <=? 0 then Done (inr (nc, np)) else
    let b := stored r b in
    Done (inl (b, (nc + count_char 99 b, np + count_char 112 b)))) (b, (0, 0)) ;;
  sys_call (Sclose fd) ;;
  sys_call (Sunlink (chars "sharedfd")) ;;
  if (n.1 =? 10000) && (n.2 =? 10000) then Exit 0 else
  printf "%s: nc/np test fails
" [str s] ;;
  Exit 1.

Definition fourfiles (fuel : nat) (s : list Z) : prog unit :=
  let fname i := name2 102 (48 + i) in
  pfor (seqZ 0 4) (fun pi =>
    sys_call (Sunlink (fname pi)) ;;
    pid <- sys_call Sfork ;;
    fail_if (pid <? 0) "fork failed
" [str s] ;;
    if pid =? 0 then
      fd <- sys_call (Sopen (fname pi) (Z.lor O_CREATE O_RDWR)) ;;
      fail_if (fd <? 0) "create failed
" [str s] ;;
      pfor (seqZ 0 12) (fun _ =>
        n <- sys_call (Swrite fd (replicate 500 (48 + pi))) ;;
        fail_if (negb (n =? 500)) "write failed %d
" [VWord n]) ;;
      Exit 0
    else Done tt) ;;
  pfor (seqZ 0 4) (fun _ =>
    w <- sys_call Swait ;;
    if negb (w.2 =? 0) then Exit w.2 else Done tt) ;;
  pfor (seqZ 0 4) (fun i =>
    fd <- sys_call (Sopen (fname i) 0) ;;
    total <- ploop fuel (fun total : Z =>
      r <- sys_call (Sread fd BUFSZ) ;;
      if r.1 <=? 0 then Done (inr total) else
      fail_if (existsb (fun c => negb (c =? 48 + i)) (take (Z.to_nat r.1) r.2)) "wrong char
" [str s] ;;
      Done (inl (total + r.1))) 0 ;;
    sys_call (Sclose fd) ;;
    fail_if (negb (total =? 6000)) "wrong length %d
" [VWord total] ;;
    sys_call (Sunlink (fname i)) ;;
    Done tt).

Definition createdelete (s : list Z) : prog unit :=
  pfor (seqZ 0 4) (fun pi =>
    pid <- sys_call Sfork ;;
    fail_if (pid <? 0) "fork failed
" [str s] ;;
    if pid =? 0 then
      pfor (seqZ 0 20) (fun i =>
        fd <- sys_call (Sopen (name2 (112 + pi) (48 + i)) (Z.lor O_CREATE O_RDWR)) ;;
        fail_if (fd <? 0) "%s: create failed
" [str s] ;;
        sys_call (Sclose fd) ;;
        if (0 <? i) && (i mod 2 =? 0) then
          r <- sys_call (Sunlink (name2 (112 + pi) (48 + i / 2))) ;;
          fail_if (r <? 0) "%s: unlink failed
" [str s]
        else Done tt) ;;
      Exit 0
    else Done tt) ;;
  pfor (seqZ 0 4) (fun _ =>
    w <- sys_call Swait ;;
    if negb (w.2 =? 0) then Exit 1 else Done tt) ;;
  pfor (seqZ 0 20) (fun i => pfor (seqZ 0 4) (fun pi =>
    let name := name2 (112 + pi) (48 + i) in
    fd <- sys_call (Sopen name 0) ;;
    (if ((i =? 0) || (10 <=? i)) && (fd <? 0) then
       fail_if true "%s: oops createdelete %s didn't exist
" [str s; str name]
     else fail_if (((1 <=? i) && (i <? 10)) && (0 <=? fd)) "%s: oops createdelete %s did exist
" [str s; str name]) ;;
    if 0 <=? fd then sys_call (Sclose fd) ;; Done tt else Done tt)) ;;
  pfor (seqZ 0 20) (fun i => pfor (seqZ 0 4) (fun _ =>
    sys_call (Sunlink (name2 (112 + i) (48 + i))) ;; Done tt)).

Definition unlinkread (s : list Z) : prog unit :=
  fd <- sys_call (Sopen (chars "unlinkread") (Z.lor O_CREATE O_RDWR)) ;;
  fail_if (fd <? 0) "%s: create unlinkread failed
" [str s] ;;
  sys_call (Swrite fd (chars "hello")) ;;
  sys_call (Sclose fd) ;;
  fd <- sys_call (Sopen (chars "unlinkread") O_RDWR) ;;
  fail_if (fd <? 0) "%s: open unlinkread failed
" [str s] ;;
  r <- sys_call (Sunlink (chars "unlinkread")) ;;
  fail_if (negb (r =? 0)) "%s: unlink unlinkread failed
" [str s] ;;
  fd1 <- sys_call (Sopen (chars "unlinkread") (Z.lor O_CREATE O_RDWR)) ;;
  sys_call (Swrite fd1 (chars "yyy")) ;;
  sys_call (Sclose fd1) ;;
  r <- sys_call (Sread fd BUFSZ) ;;
  fail_if (negb (r.1 =? 5)) "%s: unlinkread read failed" [str s] ;;
  let b := stored r zero_buf in
  b0 <- or_crash (b !! 0%nat) ;;
  fail_if (negb (b0 =? 104)) "%s: unlinkread wrong data
" [str s] ;;
  r <- sys_call (Swrite fd (take 10 b)) ;;
  fail_if (negb (r =? 10)) "%s: unlinkread write failed
" [str s] ;;
  sys_call (Sclose fd) ;;
  sys_call (Sunlink (chars "unlinkread")) ;;
  Done tt.

Definition linktest (s : list Z) : prog unit :=
  sys_call (Sunlink (chars "lf1")) ;;
  sys_call (Sunlink (chars "lf2")) ;;
  fd <- sys_call (Sopen (chars "lf1") (Z.lor O_CREATE O_RDWR)) ;;
  fail_if (fd <? 0) "%s: create lf1 failed
" [str s] ;;
  r <- sys_call (Swrite fd (chars "hello")) ;;
  fail_if (negb (r =? 5)) "%s: write lf1 failed
" [str s] ;;
  sys_call (Sclose fd) ;;
  r <- sys_call (Slink (chars "lf1") (chars "lf2")) ;;
  fail_if (r <? 0) "%s: link lf1 lf2 failed
" [str s] ;;
  sys_call (Sunlink (chars "lf1")) ;;
  r <- sys_call (Sopen (chars "lf1") 0) ;;
  fail_if (0 <=? r) "%s: unlinked lf1 but it is still there!
" [str s] ;;
  fd <- sys_call (Sopen (chars "lf2") 0) ;;
  fail_if (fd <? 0) "%s: open lf2 failed
" [str s] ;;
  r <- sys_call (Sread fd BUFSZ) ;;
  fail_if (negb (r.1 =? 5)) "%s: read lf2 failed
" [str s] ;;
  sys_call (Sclose fd) ;;
  r <- sys_call (Slink (chars "lf2") (chars "lf2")) ;;
  fail_if (0 <=? r) "%s: link lf2 lf2 succeeded! oops
" [str s] ;;
  sys_call (Sunlink (chars "lf2")) ;;
  r <- sys_call (Slink (chars "lf2") (chars "lf1")) ;;
  fail_if (0 <=? r) "%s: link non-existant succeeded! oops
" [str s] ;;
  r <- sys_call (Slink (chars ".") (chars "lf1")) ;;
  fail_if (0 <=? r) "%s: link . lf1 succeeded! oops
" [str s].

(** The entries of the directory: the entry read last, of which nothing is known at
    first, the files of the test seen so far, and how many. *)

Definition concreate_round (fd : Z) (s : list Z) (st : list Z * list Z * Z) : prog (list Z * list Z * Z + Z) :=
  let '(de, fa, n) := st in
  r <- sys_call (Sread fd 16) ;;
  if r.1 <=? 0 then Done (inr n) else
  let de := stored r de in
  inum <- or_crash (le_get 2 de 0) ;;
  if inum =? 0 then Done (inl (de, fa, n)) else
  let name := take 14 (drop 2 de) in
  c0 <- or_crash (name !! 0%nat) ;; c1 <- or_crash (name !! 1%nat) ;; c2 <- or_crash (name !! 2%nat) ;;
  if negb ((c0 =? 67) && (c2 =? 0)) then Done (inl (de, fa, n)) else
  let i := c1 - 48 in
  fail_if ((i <? 0) || (40 <=? i)) "%s: concreate weird file %s
" [str s; str (cstring name)] ;;
  f <- or_crash (fa !! Z.to_nat i) ;;
  fail_if (negb (f =? 0)) "%s: concreate duplicate file %s
" [str s; str (cstring name)] ;;
  Done (inl (de, <[Z.to_nat i := 1]> fa, n + 1)).

Definition concreate (fuel : nat) (s : list Z) : prog unit :=
  let file i := name2 67 (48 + i) in
  pfor (seqZ 0 40) (fun i =>
    sys_call (Sunlink (file i)) ;;
    pid <- sys_call Sfork ;;
    (if (negb (pid =? 0) && (i mod 3 =? 1)) || ((pid =? 0) && (i mod 5 =? 1)) then
       sys_call (Slink (chars "C0") (file i)) ;; Done tt
     else
       fd <- sys_call (Sopen (file i) (Z.lor O_CREATE O_RDWR)) ;;
       fail_if (fd <? 0) "concreate create %s failed
" [str (file i)] ;;
       sys_call (Sclose fd) ;; Done tt) ;;
    if pid =? 0 then Exit 0 else
    w <- sys_call Swait ;;
    if negb (w.2 =? 0) then Exit 1 else Done tt) ;;
  fd <- sys_call (Sopen (chars ".") 0) ;;
  n <- ploop fuel (concreate_round fd s) ([], replicate 40 0, 0) ;;
  sys_call (Sclose fd) ;;
  fail_if (negb (n =? 40)) "%s: concreate not enough files in directory listing
" [str s] ;;
  pfor (seqZ 0 40) (fun i =>
    pid <- sys_call Sfork ;;
    fail_if (pid <? 0) "%s: fork failed
" [str s] ;;
    (if ((i mod 3 =? 0) && (pid =? 0)) || ((i mod 3 =? 1) && negb (pid =? 0)) then
       pfor (seqZ 0 4) (fun _ => touch (file i) 0)
     else pfor (seqZ 0 4) (fun _ => sys_call (Sunlink (file i)) ;; Done tt)) ;;
    if pid =? 0 then Exit 0 else wait0 ;; Done tt).

Definition linkunlink (s : list Z) : prog unit :=
  sys_call (Sunlink (chars "x")) ;;
  pid <- sys_call Sfork ;;
  fail_if (pid <? 0) "%s: fork failed
" [str s] ;;
  (fix go (n : nat) (x : Z) : prog unit :=
     match n with
     | O => Done tt
     | S n' =>
         let x := u32 (x * 1103515245 + 12345) in
         (if x mod 3 =? 0 then touch (chars "x") (Z.lor O_RDWR O_CREATE)
          else if x mod 3 =? 1 then sys_call (Slink (chars "cat") (chars "x")) ;; Done tt
          else sys_call (Sunlink (chars "x")) ;; Done tt) ;;
         go n' x
     end) 100%nat (if negb (pid =? 0) then 1 else 97) ;;
  if negb (pid =? 0) then wait0 ;; Done tt else Exit 0.

(** The name of entry [i] of the directory. *)

Definition bigdir_name (i : Z) : list Z := [120; 48 + i / 64; 48 + i mod 64].

Definition bigdir (s : list Z) : prog unit :=
  sys_call (Sunlink (chars "bd")) ;;
  fd <- sys_call (Sopen (chars "bd") O_CREATE) ;;
  fail_if (fd <? 0) "%s: bigdir create failed
" [str s] ;;
  sys_call (Sclose fd) ;;
  pfor (seqZ 0 500) (fun i =>
    r <- sys_call (Slink (chars "bd") (bigdir_name i)) ;;
    fail_if (negb (r =? 0)) "%s: bigdir link failed
" [str s]) ;;
  sys_call (Sunlink (chars "bd")) ;;
  pfor (seqZ 0 500) (fun i =>
    r <- sys_call (Sunlink (bigdir_name i)) ;;
    fail_if (negb (r =? 0)) "%s: bigdir unlink failed" [str s]).

(** The calls of subdir that must fail. *)

Definition subdir_refused (s : list Z) : prog unit :=
  r <- sys_call (Sopen (chars "dd/dd/ff") O_RDONLY) ;;
  fail_if (0 <=? r) "%s: open (unlinked) dd/dd/ff succeeded!
" [str s] ;;
  r <- sys_call (Sopen (chars "dd/ff/ff") (Z.lor O_CREATE O_RDWR)) ;;
  fail_if (0 <=? r) "%s: create dd/ff/ff succeeded!
" [str s] ;;
  r <- sys_call (Sopen (chars "dd/xx/ff") (Z.lor O_CREATE O_RDWR)) ;;
  fail_if (0 <=? r) "%s: create dd/xx/ff succeeded!
" [str s] ;;
  r <- sys_call (Sopen (chars "dd") O_CREATE) ;;
  fail_if (0 <=? r) "%s: create dd succeeded!
" [str s] ;;
  r <- sys_call (Sopen (chars "dd") O_RDWR) ;;
  fail_if (0 <=? r) "%s: open dd rdwr succeeded!
" [str s] ;;
  r <- sys_call (Sopen (chars "dd") O_WRONLY) ;;
  fail_if (0 <=? r) "%s: open dd wronly succeeded!
" [str s] ;;
  r <- sys_call (Slink (chars "dd/ff/ff") (chars "dd/dd/xx")) ;;
  fail_if (r =? 0) "%s: link dd/ff/ff dd/dd/xx succeeded!
" [str s] ;;
  r <- sys_call (Slink (chars "dd/xx/ff") (chars "dd/dd/xx")) ;;
  fail_if (r =? 0) "%s: link dd/xx/ff dd/dd/xx succeeded!
" [str s] ;;
  r <- sys_call (Slink (chars "dd/ff") (chars "dd/dd/ffff")) ;;
  fail_if (r =? 0) "%s: link dd/ff dd/dd/ffff succeeded!
" [str s] ;;
  r <- sys_call (Smkdir (chars "dd/ff/ff")) ;;
  fail_if (r =? 0) "%s: mkdir dd/ff/ff succeeded!
" [str s] ;;
  r <- sys_call (Smkdir (chars "dd/xx/ff")) ;;
  fail_if (r =? 0) "%s: mkdir dd/xx/ff succeeded!
" [str s] ;;
  r <- sys_call (Smkdir (chars "dd/dd/ffff")) ;;
  fail_if (r =? 0) "%s: mkdir dd/dd/ffff succeeded!
" [str s] ;;
  r <- sys_call (Sunlink (chars "dd/xx/ff")) ;;
  fail_if (r =? 0) "%s: unlink dd/xx/ff succeeded!
" [str s] ;;
  r <- sys_call (Sunlink (chars "dd/ff/ff")) ;;
  fail_if (r =? 0) "%s: unlink dd/ff/ff succeeded!
" [str s] ;;
  r <- sys_call (Schdir (chars "dd/ff")) ;;
  fail_if (r =? 0) "%s: chdir dd/ff succeeded!
" [str s] ;;
  r <- sys_call (Schdir (chars "dd/xx")) ;;
  fail_if (r =? 0) "%s: chdir dd/xx succeeded!
" [str s].

Definition subdir (s : list Z) : prog unit :=
  sys_call (Sunlink (chars "ff")) ;;
  r <- sys_call (Smkdir (chars "dd")) ;;
  fail_if (negb (r =? 0)) "%s: mkdir dd failed
" [str s] ;;
  fd <- sys_call (Sopen (chars "dd/ff") (Z.lor O_CREATE O_RDWR)) ;;
  fail_if (fd <? 0) "%s: create dd/ff failed
" [str s] ;;
  sys_call (Swrite fd (chars "ff")) ;;
  sys_call (Sclose fd) ;;
  r <- sys_call (Sunlink (chars "dd")) ;;
  fail_if (0 <=? r) "%s: unlink dd (non-empty dir) succeeded!
" [str s] ;;
  r <- sys_call (Smkdir (chars "/dd/dd")) ;;
  fail_if (negb (r =? 0)) "subdir mkdir dd/dd failed
" [str s] ;;
  fd <- sys_call (Sopen (chars "dd/dd/ff") (Z.lor O_CREATE O_RDWR)) ;;
  fail_if (fd <? 0) "%s: create dd/dd/ff failed
" [str s] ;;
  sys_call (Swrite fd (chars "FF")) ;;
  sys_call (Sclose fd) ;;
  fd <- sys_call (Sopen (chars "dd/dd/../ff") 0) ;;
  fail_if (fd <? 0) "%s: open dd/dd/../ff failed
" [str s] ;;
  cc <- sys_call (Sread fd BUFSZ) ;;
  b0 <- or_crash (stored cc zero_buf !! 0%nat) ;;
  fail_if (negb (cc.1 =? 2) || negb (b0 =? 102)) "%s: dd/dd/../ff wrong content
" [str s] ;;
  sys_call (Sclose fd) ;;
  r <- sys_call (Slink (chars "dd/dd/ff") (chars "dd/dd/ffff")) ;;
  fail_if (negb (r =? 0)) "link dd/dd/ff dd/dd/ffff failed
" [str s] ;;
  r <- sys_call (Sunlink (chars "dd/dd/ff")) ;;
  fail_if (negb (r =? 0)) "%s: unlink dd/dd/ff failed
" [str s] ;;
  r <- sys_call (Sopen (chars "dd/dd/ff") O_RDONLY) ;;
  fail_if (0 <=? r) "%s: open (unlinked) dd/dd/ff succeeded
" [str s] ;;
  r <- sys_call (Schdir (chars "dd")) ;;
  fail_if (negb (r =? 0)) "%s: chdir dd failed
" [str s] ;;
  r <- sys_call (Schdir (chars "dd/../../dd")) ;;
  fail_if (negb (r =? 0)) "%s: chdir dd/../../dd failed
" [str s] ;;
  r <- sys_call (Schdir (chars "dd/../../../dd")) ;;
  fail_if (negb (r =? 0)) "chdir dd/../../dd failed
" [str s] ;;
  r <- sys_call (Schdir (chars "./..")) ;;
  fail_if (negb (r =? 0)) "%s: chdir ./.. failed
" [str s] ;;
  fd <- sys_call (Sopen (chars "dd/dd/ffff") 0) ;;
  fail_if (fd <? 0) "%s: open dd/dd/ffff failed
" [str s] ;;
  r <- sys_call (Sread fd BUFSZ) ;;
  fail_if (negb (r.1 =? 2)) "%s: read dd/dd/ffff wrong len
" [str s] ;;
  sys_call (Sclose fd) ;;
  subdir_refused s ;;
  r <- sys_call (Sunlink (chars "dd/dd/ffff")) ;;
  fail_if (negb (r =? 0)) "%s: unlink dd/dd/ff failed
" [str s] ;;
  r <- sys_call (Sunlink (chars "dd/ff")) ;;
  fail_if (negb (r =? 0)) "%s: unlink dd/ff failed
" [str s] ;;
  r <- sys_call (Sunlink (chars "dd")) ;;
  fail_if (r =? 0) "%s: unlink non-empty dd succeeded!
" [str s] ;;
  r <- sys_call (Sunlink (chars "dd/dd")) ;;
  fail_if (r <? 0) "%s: unlink dd/dd failed
" [str s] ;;
  r <- sys_call (Sunlink (chars "dd")) ;;
  fail_if (r <? 0) "%s: unlink dd failed
" [str s].

(** ** Larger files and longer names *)

Definition bigwrite (s : list Z) : prog unit :=
  sys_call (Sunlink (chars "bigwrite")) ;;
  pfor ((fun k => 499 + 471 * k) <$> seqZ 0 ((BUFSZ - 499 + 470) / 471)) (fun sz =>
    fd <- sys_call (Sopen (chars "bigwrite") (Z.lor O_CREATE O_RDWR)) ;;
    fail_if (fd <? 0) "%s: cannot create bigwrite
" [str s] ;;
    pfor (seqZ 0 2) (fun _ =>
      cc <- sys_call (Swrite fd (take (Z.to_nat sz) zero_buf)) ;;
      fail_if (negb (cc =? sz)) "%s: write(%d) ret %d
" [str s; VWord sz; VWord cc]) ;;
    sys_call (Sclose fd) ;;
    sys_call (Sunlink (chars "bigwrite")) ;;
    Done tt).

(** One read of bigfile: [i] is its number, [b] the array. *)

Definition bigfile_round (fd : Z) (s : list Z) (st : Z * Z * list Z) : prog (Z * Z * list Z + Z) :=
  let '(i, total, b) := st in
  cc <- sys_call (Sread fd 300) ;;
  fail_if (cc.1 <? 0) "%s: read bigfile failed
" [str s] ;;
  if cc.1 =? 0 then Done (inr total) else
  fail_if (negb (cc.1 =? 300)) "%s: short read bigfile
" [str s] ;;
  let b := stored cc b in
  b0 <- or_crash (b !! 0%nat) ;; b1 <- or_crash (b !! 299%nat) ;;
  fail_if (negb (b0 =? i / 2) || negb (b1 =? i / 2)) "%s: read bigfile wrong data
" [str s] ;;
  Done (inl (i + 1, total + cc.1, b)).

Definition bigfile (fuel : nat) (s : list Z) : prog unit :=
  sys_call (Sunlink (chars "bigfile")) ;;
  fd <- sys_call (Sopen (chars "bigfile") (Z.lor O_CREATE O_RDWR)) ;;
  fail_if (fd <? 0) "%s: cannot create bigfile" [str s] ;;
  pfor (seqZ 0 20) (fun i =>
    r <- sys_call (Swrite fd (replicate 600 i)) ;;
    fail_if (negb (r =? 600)) "%s: write bigfile failed
" [str s]) ;;
  sys_call (Sclose fd) ;;
  fd <- sys_call (Sopen (chars "bigfile") 0) ;;
  fail_if (fd <? 0) "%s: cannot open bigfile
" [str s] ;;
  total <- ploop fuel (bigfile_round fd s) (0, 0, replicate 600 19 ++ drop 600 zero_buf) ;;
  sys_call (Sclose fd) ;;
  fail_if (negb (total =? 12000)) "%s: read bigfile wrong total
" [str s] ;;
  sys_call (Sunlink (chars "bigfile")) ;;
  Done tt.

Definition fourteen (s : list Z) : prog unit :=
  r <- sys_call (Smkdir (chars "12345678901234")) ;;
  fail_if (negb (r =? 0)) "%s: mkdir 12345678901234 failed
" [str s] ;;
  r <- sys_call (Smkdir (chars "12345678901234/123456789012345")) ;;
  fail_if (negb (r =? 0)) "%s: mkdir 12345678901234/123456789012345 failed
" [str s] ;;
  fd <- sys_call (Sopen (chars "123456789012345/123456789012345/123456789012345") O_CREATE) ;;
  fail_if (fd <? 0) "%s: create 123456789012345/123456789012345/123456789012345 failed
" [str s] ;;
  sys_call (Sclose fd) ;;
  fd <- sys_call (Sopen (chars "12345678901234/12345678901234/12345678901234") 0) ;;
  fail_if (fd <? 0) "%s: open 12345678901234/12345678901234/12345678901234 failed
" [str s] ;;
  sys_call (Sclose fd) ;;
  r <- sys_call (Smkdir (chars "12345678901234/12345678901234")) ;;
  fail_if (r =? 0) "%s: mkdir 12345678901234/12345678901234 succeeded!
" [str s] ;;
  r <- sys_call (Smkdir (chars "123456789012345/12345678901234")) ;;
  fail_if (r =? 0) "%s: mkdir 12345678901234/123456789012345 succeeded!
" [str s].

Definition rmdot (s : list Z) : prog unit :=
  r <- sys_call (Smkdir (chars "dots")) ;;
  fail_if (negb (r =? 0)) "%s: mkdir dots failed
" [str s] ;;
  r <- sys_call (Schdir (chars "dots")) ;;
  fail_if (negb (r =? 0)) "%s: chdir dots failed
" [str s] ;;
  r <- sys_call (Sunlink (chars ".")) ;;
  fail_if (r =? 0) "%s: rm . worked!
" [str s] ;;
  r <- sys_call (Sunlink (chars "..")) ;;
  fail_if (r =? 0) "%s: rm .. worked!
" [str s] ;;
  r <- sys_call (Schdir (chars "/")) ;;
  fail_if (negb (r =? 0)) "%s: chdir / failed
" [str s] ;;
  r <- sys_call (Sunlink (chars "dots/.")) ;;
  fail_if (r =? 0) "%s: unlink dots/. worked!
" [str s] ;;
  r <- sys_call (Sunlink (chars "dots/..")) ;;
  fail_if (r =? 0) "%s: unlink dots/.. worked!
" [str s] ;;
  r <- sys_call (Sunlink (chars "dots")) ;;
  fail_if (negb (r =? 0)) "%s: unlink dots failed!
" [str s].

Definition dirfile (s : list Z) : prog unit :=
  fd <- sys_call (Sopen (chars "dirfile") O_CREATE) ;;
  fail_if (fd <? 0) "%s: create dirfile failed
" [str s] ;;
  sys_call (Sclose fd) ;;
  r <- sys_call (Schdir (chars "dirfile")) ;;
  fail_if (r =? 0) "%s: chdir dirfile succeeded!
" [str s] ;;
  fd <- sys_call (Sopen (chars "dirfile/xx") 0) ;;
  fail_if (0 <=? fd) "%s: create dirfile/xx succeeded!
" [str s] ;;
  fd <- sys_call (Sopen (chars "dirfile/xx") O_CREATE) ;;
  fail_if (0 <=? fd) "%s: create dirfile/xx succeeded!
" [str s] ;;
  r <- sys_call (Smkdir (chars "dirfile/xx")) ;;
  fail_if (r =? 0) "%s: mkdir dirfile/xx succeeded!
" [str s] ;;
  r <- sys_call (Sunlink (chars "dirfile/xx")) ;;
  fail_if (r =? 0) "%s: unlink dirfile/xx succeeded!
" [str s] ;;
  r <- sys_call (Slink (chars "README") (chars "dirfile/xx")) ;;
  fail_if (r =? 0) "%s: link to dirfile/xx succeeded!
" [str s] ;;
  r <- sys_call (Sunlink (chars "dirfile")) ;;
  fail_if (negb (r =? 0)) "%s: unlink dirfile failed!
" [str s] ;;
  fd <- sys_call (Sopen (chars ".") O_RDWR) ;;
  fail_if (0 <=? fd) "%s: open . for writing succeeded!
" [str s] ;;
  fd <- sys_call (Sopen (chars ".") 0) ;;
  r <- sys_call (Swrite fd (chars "x")) ;;
  fail_if (0 <? r) "%s: write . succeeded!
" [str s] ;;
  sys_call (Sclose fd) ;;
  Done tt.

Definition iref (s : list Z) : prog unit :=
  pfor (seq 0 (NINODE + 1)) (fun _ =>
    r <- sys_call (Smkdir (chars "irefd")) ;;
    fail_if (negb (r =? 0)) "%s: mkdir irefd failed
" [str s] ;;
    r <- sys_call (Schdir (chars "irefd")) ;;
    fail_if (negb (r =? 0)) "%s: chdir irefd failed
" [str s] ;;
    sys_call (Smkdir []) ;;
    sys_call (Slink (chars "README") []) ;;
    fd <- sys_call (Sopen [] O_CREATE) ;;
    (if 0 <=? fd then sys_call (Sclose fd) ;; Done tt else Done tt) ;;
    fd <- sys_call (Sopen (chars "xx") O_CREATE) ;;
    (if 0 <=? fd then sys_call (Sclose fd) ;; Done tt else Done tt) ;;
    sys_call (Sunlink (chars "xx")) ;;
    Done tt) ;;
  sys_call (Schdir (chars "/")) ;;
  Done tt.

(** ** Forks and memory *)

Definition forktest (s : list Z) : prog unit :=
  n <- ploop 1001 (fun n : Z =>
    if 1000 <=? n then Done (inr n) else
    pid <- sys_call Sfork ;;
    if pid <? 0 then Done (inr n) else
    if pid =? 0 then Exit 0 else Done (inl (n + 1))) 0 ;;
  fail_if (n =? 0) "%s: no fork at all!
" [str s] ;;
  fail_if (n =? 1000) "%s: fork claimed to work 1000 times!
" [str s] ;;
  pfor (seqZ 0 n) (fun _ =>
    r <- wait0 ;;
    fail_if (r <? 0) "%s: wait stopped early
" [str s]) ;;
  r <- wait0 ;;
  fail_if (negb (r =? -1)) "%s: wait got too many
" [str s].

(** [sbrk] returns a pointer. *)

Definition sbrk (n : Z) : prog Z := r <- sys_call (Ssbrk (i32 n)) ;; Done (u64 r).

Definition NOMEM : Z := 0xffffffffffffffff.

Definition sbrkbasic (s : list Z) : prog unit :=
  a <- sbrk (1024 * 1024 * 1024) ;;
  fail_if (negb (a =? NOMEM)) "%s: sbrk(<toomuch>) returned %p
" [VWord a] ;;
  a <- sbrk 0 ;;
  a <- ploop 5001 (fun st : Z * Z =>
    let '(i, a) := st in
    if 5000 <=? i then Done (inr a) else
    b <- sbrk 1 ;;
    fail_if (negb (b =? a)) "%s: sbrk test failed %d %x %x
" [VWord i; VWord a; VWord b] ;;
    store_at 1 b 1 ;;
    Done (inl (i + 1, u64 (b + 1)))) (0, a) ;;
  pid <- sys_call Sfork ;;
  fail_if (pid <? 0) "%s: sbrk test fork failed
" [str s] ;;
  sbrk 1 ;;
  c <- sbrk 1 ;;
  fail_if (negb (c =? u64 (a + 1))) "%s: sbrk test failed post-fork
" [str s] ;;
  if pid =? 0 then Exit 0 else
  w <- sys_call Swait ;;
  Exit w.2.

Definition BIG : Z := 100 * 1024 * 1024.

Definition sbrkmuch (s : list Z) : prog unit :=
  oldbrk <- sbrk 0 ;;
  a <- sbrk 0 ;;
  p <- sbrk (BIG - a) ;;
  fail_if (negb (p =? a)) "%s: sbrk test failed to grow big address space; enough phys mem?
" [str s] ;;
  store_at 1 (BIG - 1) 99 ;;
  a <- sbrk 0 ;;
  c <- sbrk (- PGSIZE) ;;
  fail_if (c =? NOMEM) "%s: sbrk could not deallocate
" [str s] ;;
  c <- sbrk 0 ;;
  fail_if (negb (c =? u64 (a - PGSIZE))) "%s: sbrk deallocation produced wrong address, a %x c %x
" [VWord a; VWord c] ;;
  a <- sbrk 0 ;;
  c <- sbrk PGSIZE ;;
  moved <- (if negb (c =? a) then Done true else r <- sbrk 0 ;; Done (negb (r =? u64 (a + PGSIZE)))) ;;
  fail_if moved "%s: sbrk re-allocation failed, a %x c %x
" [VWord a; VWord c] ;;
  v <- load_at 1 (BIG - 1) ;;
  fail_if (v =? 99) "%s: sbrk de-allocation didn't really deallocate
" [str s] ;;
  a <- sbrk 0 ;;
  r <- sbrk 0 ;;
  c <- sbrk (- (r - oldbrk)) ;;
  fail_if (negb (c =? a)) "%s: sbrk downsize failed, a %x c %x
" [VWord a; VWord c].

Definition kernmem (s : list Z) : prog unit :=
  pfor ((fun k => KERNBASE + 50000 * k) <$> seqZ 0 40) (fun a =>
    pid <- sys_call Sfork ;;
    fail_if (pid <? 0) "%s: fork failed
" [str s] ;;
    (if pid =? 0 then
       v <- load_at 1 a ;;
       printf "%s: oops could read %x = %x
" [VWord a; VWord v] ;;
       Exit 1
     else Done tt) ;;
    w <- sys_call Swait ;;
    if negb (w.2 =? -1) then Exit 1 else Done tt).

(** The ten children that fill the memory; the result is their pids. *)

Fixpoint sbrkfail_forks (fuel n : nat) (fds : Z * Z) : prog (list Z) :=
  match n with
  | O => Done []
  | S n' =>
      pid <- sys_call Sfork ;;
      (if pid =? 0 then
         a <- sbrk 0 ;;
         sbrk (BIG - a) ;;
         sys_call (Swrite fds.2 (chars "x")) ;;
         ploop fuel (fun _ : unit => sys_call (Ssleep 1000) ;; Done (inl tt)) tt
       else Done tt) ;;
      (if negb (pid =? -1) then sys_call (Sread fds.1 1) ;; Done tt else Done tt) ;;
      pids <- sbrkfail_forks fuel n' fds ;;
      Done (pid :: pids)
  end.

Definition sbrkfail (fuel : nat) (s : list Z) : prog unit :=
  p <- sys_call Spipe ;;
  fail_if (negb (p.1 =? 0)) "%s: pipe() failed
" [str s] ;;
  pids <- sbrkfail_forks fuel 10 p.2 ;;
  c <- sbrk PGSIZE ;;
  pfor pids (fun pid =>
    if pid =? -1 then Done tt else sys_call (Skill pid) ;; wait0 ;; Done tt) ;;
  fail_if (c =? NOMEM) "%s: failed sbrk leaked memory
" [str s] ;;
  pid <- sys_call Sfork ;;
  fail_if (pid <? 0) "%s: fork failed
" [str s] ;;
  (if pid =? 0 then
     a <- sbrk 0 ;;
     sbrk (10 * BIG) ;;
     n <- ploop (Z.to_nat (10 * BIG / PGSIZE + 1)) (fun st : Z * Z =>
       let '(i, n) := st in
       if 10 * BIG <=? i then Done (inr n) else
       v <- load_at 1 (u64 (a + i)) ;;
       Done (inl (i + PGSIZE, i32 (n + v)))) (0, 0) ;;
     printf "%s: allocate a lot of memory succeeded %d
" [VWord n] ;;
     Exit 1
   else Done tt) ;;
  w <- sys_call Swait ;;
  if negb (w.2 =? -1) then Exit 1 else Done tt.

Definition sbrkarg (s : list Z) : prog unit :=
  a <- sbrk PGSIZE ;;
  fd <- sys_call (Sopen (chars "sbrk") (Z.lor O_CREATE O_WRONLY)) ;;
  sys_call (Sunlink (chars "sbrk")) ;;
  fail_if (fd <? 0) "%s: open sbrk failed
" [str s] ;;
  n <- sys_call (Swrite_at fd a PGSIZE) ;;
  fail_if (n <? 0) "%s: write sbrk failed
" [str s] ;;
  sys_call (Sclose fd) ;;
  a <- sbrk PGSIZE ;;
  r <- sys_call (Spipe_at a) ;;
  fail_if (negb (r =? 0)) "%s: pipe() failed
" [str s].

Definition validatetest (s : list Z) : prog unit :=
  pfor ((fun k => PGSIZE * k) <$> seqZ 0 (1100 * 1024 / PGSIZE + 1)) (fun p =>
    r <- sys_call (Slink_at (chars "nosuchfile") p) ;;
    fail_if (negb (r =? -1)) "%s: link should not succeed
" [str s]).

(** [uninit] is the address of the array. *)

Definition bsstest (uninit : Z) (s : list Z) : prog unit :=
  pfor (seqZ 0 10000) (fun i =>
    c <- load_at 1 (uninit + i) ;;
    fail_if (negb (c =? 0)) "%s: bss test failed
" [str s]).

Definition bigargtest (s : list Z) : prog unit :=
  sys_call (Sunlink (chars "bigarg-ok")) ;;
  pid <- sys_call Sfork ;;
  (if pid =? 0 then
     sys_call (Sexec (chars "echo") (replicate (MAXARG - 1)
       (chars "bigargs test: failed
" ++ replicate 199 32))) ;;
     touch (chars "bigarg-ok") O_CREATE ;;
     Exit 0
   else fail_if (pid <? 0) "%s: bigargtest: fork failed
" [str s]) ;;
  w <- sys_call Swait ;;
  if negb (w.2 =? 0) then Exit w.2 else
  fd <- sys_call (Sopen (chars "bigarg-ok") 0) ;;
  fail_if (fd <? 0) "%s: bigarg test failed!
" [str s] ;;
  sys_call (Sclose fd) ;;
  Done tt.

(** The name of file [n] of fsfull. *)

Definition fsfull_name (n : Z) : list Z :=
  [102; u8 (48 + n / 1000); u8 (48 + n mod 1000 / 100); u8 (48 + n mod 100 / 10); u8 (48 + n mod 10)].

Definition fsfull (fuel : nat) : prog unit :=
  printf "fsfull test
" [] ;;
  nfiles <- ploop fuel (fun nfiles : Z =>
    let name := fsfull_name nfiles in
    printf "%s: writing %s
" [str name] ;;
    fd <- sys_call (Sopen name (Z.lor O_CREATE O_RDWR)) ;;
    if fd <? 0 then printf "%s: open %s failed
" [str name] ;; Done (inr nfiles) else
    total <- ploop fuel (fun total : Z =>
      cc <- sys_call (Swrite fd (take (Z.to_nat BSIZE) zero_buf)) ;;
      if cc <? BSIZE then Done (inr total) else Done (inl (i32 (total + cc)))) 0 ;;
    printf "%s: wrote %d bytes
" [VWord total] ;;
    sys_call (Sclose fd) ;;
    if total =? 0 then Done (inr nfiles) else Done (inl (i32 (nfiles + 1)))) 0 ;;
  pfor (rev (seqZ 0 (nfiles + 1))) (fun n => sys_call (Sunlink (fsfull_name n)) ;; Done tt) ;;
  printf "fsfull test finished
" [].

(** ** Bad pointers *)

Definition argptest (s : list Z) : prog unit :=
  fd <- sys_call (Sopen (chars "init") O_RDONLY) ;;
  fail_if (fd <? 0) "%s: open failed
" [str s] ;;
  a <- sbrk 0 ;;
  sys_call (Sread_at fd (u64 (a - 1)) (-1)) ;;
  sys_call (Sclose fd) ;;
  Done tt.

(** The state and the value of rand. *)

Definition rand (randstate : Z) : Z * Z :=
  let randstate := u64 (randstate * 1664525 + 1013904223) in (randstate, u32 randstate).

(** [sp] is the stack pointer. *)

Definition stacktest (sp : Z) (s : list Z) : prog unit :=
  pid <- sys_call Sfork ;;
  (if pid =? 0 then
     v <- load_at 1 (sp - PGSIZE) ;;
     printf "%s: stacktest: read below stack %p
" [VWord v] ;;
     Exit 1
   else fail_if (pid <? 0) "%s: fork failed
" [str s]) ;;
  w <- sys_call Swait ;;
  if w.2 =? -1 then Exit 0 else Exit w.2.

Definition pgbug (s : list Z) : prog unit :=
  sys_call (Sexec_at (inr 0xeaeb0b5b00002f5e) []) ;;
  sys_call (Spipe_at 0xeaeb0b5b00002f5e) ;;
  Exit 0.

(** [pc] is the address of the instruction after a call of sbrk: it may be gone. *)

Definition sbrkbugs (pc : Z) (s : list Z) : prog unit :=
  pid <- sys_call Sfork ;;
  fail_if (pid <? 0) "fork failed
" [] ;;
  (if pid =? 0 then
     sz <- sbrk 0 ;;
     sbrk (- i32 sz) ;;
     load_at 4 pc ;;
     Exit 0
   else Done tt) ;;
  wait0 ;;
  pid <- sys_call Sfork ;;
  fail_if (pid <? 0) "fork failed
" [] ;;
  (if pid =? 0 then
     sz <- sbrk 0 ;;
     sbrk (- (i32 sz - 3500)) ;;
     load_at 4 pc ;;
     Exit 0
   else Done tt) ;;
  wait0 ;;
  pid <- sys_call Sfork ;;
  fail_if (pid <? 0) "fork failed
" [] ;;
  (if pid =? 0 then
     a <- sbrk 0 ;;
     sbrk (10 * 4096 + 2048 - a) ;;
     sbrk (-10) ;;
     Exit 0
   else Done tt) ;;
  wait0 ;;
  Exit 0.

Definition badwrite (s : list Z) : prog unit :=
  sys_call (Sunlink (chars "junk")) ;;
  pfor (seqZ 0 600) (fun _ =>
    fd <- sys_call (Sopen (chars "junk") (Z.lor O_CREATE O_WRONLY)) ;;
    fail_if (fd <? 0) "open junk failed
" [] ;;
    sys_call (Swrite_at fd 0xffffffffff 1) ;;
    sys_call (Sclose fd) ;;
    sys_call (Sunlink (chars "junk")) ;;
    Done tt) ;;
  fd <- sys_call (Sopen (chars "junk") (Z.lor O_CREATE O_WRONLY)) ;;
  fail_if (fd <? 0) "open junk failed
" [] ;;
  r <- sys_call (Swrite fd (chars "x")) ;;
  fail_if (negb (r =? 1)) "write failed
" [] ;;
  sys_call (Sclose fd) ;;
  sys_call (Sunlink (chars "junk")) ;;
  Exit 0.

Definition badarg (s : list Z) : prog unit :=
  pfor (seqZ 0 50000) (fun _ => sys_call (Sexec_at (inl (chars "echo")) [0xffffffff]) ;; Done tt) ;;
  Exit 0.

(** ** The runner *)

Definition run (f : list Z -> prog unit) (s : list Z) : prog bool :=
  printf "test %s: " [str s] ;;
  pid <- sys_call Sfork ;;
  fail_if (pid <? 0) "runtest: fork error
" [] ;;
  if pid =? 0 then f s ;; Exit 0 else
  w <- sys_call Swait ;;
  (if negb (w.2 =? 0) then printf "FAILED
" [str s] else printf "OK
" [str s]) ;;
  Done (w.2 =? 0).

(** The tests that are run, with the bound of their loops and the addresses they use. *)

Definition tests (fuel : nat) (uninit sp pc : Z) : list ((list Z -> prog unit) * list Z) :=
  [(reparent2, chars "reparent2"); (pgbug, chars "pgbug"); (sbrkbugs pc, chars "sbrkbugs"); (badarg, chars "badarg");
   (reparent, chars "reparent"); (twochildren, chars "twochildren"); (forkfork, chars "forkfork");
   (forkforkfork fuel, chars "forkforkfork"); (argptest, chars "argptest"); (createdelete, chars "createdelete");
   (linkunlink, chars "linkunlink"); (linktest, chars "linktest"); (unlinkread, chars "unlinkread");
   (concreate fuel, chars "concreate"); (subdir, chars "subdir"); (fourfiles fuel, chars "fourfiles");
   (sharedfd fuel, chars "sharedfd"); (exectest, chars "exectest"); (bigargtest, chars "bigargtest");
   (bigwrite, chars "bigwrite"); (bsstest uninit, chars "bsstest"); (sbrkbasic, chars "sbrkbasic");
   (sbrkmuch, chars "sbrkmuch"); (kernmem, chars "kernmem"); (sbrkfail fuel, chars "sbrkfail"); (sbrkarg, chars "sbrkarg");
   (validatetest, chars "validatetest"); (stacktest sp, chars "stacktest"); (opentest, chars "opentest");
   (writetest, chars "writetest"); (writebig fuel, chars "writebig"); (createtest, chars "createtest");
   (openiputtest, chars "openiput"); (exitiputtest, chars "exitiput"); (iputtest, chars "iput"); (mem fuel, chars "mem");
   (pipe1 fuel, chars "pipe1"); (preempt fuel, chars "preempt"); (exitwait, chars "exitwait"); (rmdot, chars "rmdot");
   (fourteen, chars "fourteen"); (bigfile fuel, chars "bigfile"); (dirfile, chars "dirfile"); (iref, chars "iref");
   (forktest, chars "forktest"); (bigdir, chars "bigdir")].

(** Those that are selected, each once; the result is whether one failed. *)

Fixpoint run_tests (l : list ((list Z -> prog unit) * list Z)) (n : option (list Z)) (failed : bool) : prog bool :=
  match l with
  | [] => Done failed
  | (f, s) :: l' =>
      if match n with None => true | Some n => strcmp s n =? 0 end then
        ok <- run f s ;; run_tests l' n (if ok then failed else true)
      else run_tests l' n failed
  end.

Definition tests_main (l : list ((list Z -> prog unit) * list Z)) (argv : list (list Z)) : prog unit :=
  printf "usertests starting
" [] ;;
  fd <- sys_call (Sopen (chars "usertests.ran") 0) ;;
  fail_if (0 <=? fd) "already ran user tests -- rebuild fs.img (rm fs.img; make fs.img)
" [] ;;
  touch (chars "usertests.ran") O_CREATE ;;
  failed <- run_tests l (argv !! 1%nat) false ;;
  (if negb failed then printf "ALL TESTS PASSED
" [] else printf "SOME TESTS FAILED
" []) ;;
  Exit 1.

Definition usertests_main (fuel : nat) (uninit sp pc : Z) (argv : list (list Z)) : prog unit :=
  tests_main (tests fuel uninit sp pc) argv.

(** ** What main reports *)

(** A world in which fork succeeds, the parent goes on, and the children end with the
    statuses that are left. *)

Record test_kernel {W} (h : kernel W) (left : W -> list Z) (output : W -> list Z) : Prop := {
  tk_write : writes_out h left output;
  tk_fork : forall w, exists pid w', h _ Sfork w = (pid, w') /\ 0 < pid /\ left w' = left w /\ output w' = output w;
  tk_wait : forall w x l, left w = x :: l -> exists pid w', h _ Swait w = ((pid, x), w') /\ left w' = l /\ output w' = output w;
  tk_open : forall w path mode, exists fd w', h _ (Sopen path mode) w = (fd, w') /\
    (mode = 0 -> fd = -1) /\ left w' = left w /\ output w' = output w;
  tk_close : forall w fd, exists r w', h _ (Sclose fd) w = (r, w') /\ left w' = left w /\ output w' = output w;
}.

Definition selected (n : option (list Z)) (l : list (list Z)) : list (list Z) :=
  match n with None => l | Some n => filter (fun s => strcmp s n = 0) l end.

Definition report (s : list Z) (status : Z) : list Z :=
  chars "test " ++ s ++ chars ": " ++ chars (if status =? 0 then "OK
" else "FAILED
").

Section Report.
Context {W : Type} (h : kernel W) (left output : W -> list Z).
Hypothesis Hk : test_kernel h left output.

Lemma puts_plain l fmt args bs :
  Forall (fun c => is_byte c /\ c <> 37) l -> puts h left output (vprintf 1 false fmt args) bs ->
  puts h left output (vprintf 1 false (l ++ fmt) args) (l ++ bs).
Proof.
  intros Hl Hf. induction Hl as [|c l [Hc Hp] _ IH]; [done|]. cbn [app vprintf negb]. apply Z.eqb_neq in Hp. rewrite Hp.
  apply (puts_bind _ _ _ _ _ [c]); [apply puts_putc; [apply Hk|done]|done].
Qed.

Lemma puts_text t args : Forall (fun c => is_byte c /\ c <> 37) (chars t) -> puts h left output (printf t args) (chars t).
Proof.
  intros Ht. unfold printf, fprintf. rewrite <- (app_nil_r (bytes_of_string t)), <- (app_nil_r (chars t)).
  apply puts_plain; [done|apply puts_done].
Qed.

Lemma puts_test s : Forall is_byte s -> puts h left output (printf "test %s: " [str s]) (chars "test " ++ s ++ chars ": ").
Proof.
  intros Hs. unfold printf, fprintf. change (bytes_of_string "test %s: ") with (chars "test " ++ 37 :: 115 :: chars ": ").
  apply puts_plain; [repeat constructor; done|]. cbn [vprintf negb Z.eqb Pos.eqb arg_str str or_crash pbind fst snd default from_option id].
  apply puts_bind; [apply puts_all; [apply Hk|done]|].
  rewrite <- (app_nil_r (chars ": ")). apply (puts_plain (chars ": ") [] [] []); [repeat constructor; done|apply puts_done].
Qed.

Lemma run_reports f s w x l :
  Forall is_byte s -> left w = x :: l ->
  exists w', prun h (run f s) w = RDone (x =? 0) w' /\ left w' = l /\ output w' = output w ++ report s x.
Proof.
  intros Hs Hl. destruct (puts_test s Hs w) as (w1 & H1 & L1 & O1). destruct (tk_fork _ _ _ Hk w1) as (pid & w2 & H2 & Hpid & L2 & O2).
  destruct (tk_wait _ _ _ Hk w2 x l) as (p & w3 & H3 & L3 & O3); [congruence|].
  set (t := if x =? 0 then "OK
"%string else "FAILED
"%string).
  destruct (puts_text t [str s]) with (w := w3) as (w4 & H4 & L4 & O4); [unfold t; destruct (x =? 0); repeat constructor; done|].
  exists w4. split; [|split; [congruence|rewrite O4, O3, O2, O1; unfold report, t; rewrite <- !app_assoc; by destruct (x =? 0)]].
  unfold run. rewrite (prun_bind_Done _ _ _ _ _ _ H1), (prun_call _ _ _ _ _ _ H2), prun_bind. unfold fail_if.
  destruct (Z.ltb_spec pid 0); [lia|]. cbn [prun]. destruct (Z.eqb_spec pid 0); [lia|]. rewrite (prun_call _ _ _ _ _ _ H3). cbn [snd].
  assert (E : prun h (if negb (x =? 0) then printf "FAILED
" [str s] else printf "OK
" [str s]) w3 = RDone tt w4) by (unfold t in H4; destruct (x =? 0); exact H4).
  by rewrite (prun_bind_Done _ _ _ _ _ _ E).
Qed.

Lemma selected_cons n s l : selected n (s :: l) =
  if match n with None => true | Some n => strcmp s n =? 0 end then s :: selected n l else selected n l.
Proof.
  destruct n as [n|]; [|done]. cbn [selected]. rewrite filter_cons.
  destruct (Z.eqb_spec (strcmp s n) 0); [by rewrite decide_True|by rewrite decide_False].
Qed.

Lemma run_tests_reports n : forall l failed w xs,
  Forall (Forall is_byte) l.*2 -> left w = xs -> length xs = length (selected n l.*2) ->
  exists w', prun h (run_tests l n failed) w = RDone (failed || existsb (fun x => negb (x =? 0)) xs) w' /\
    output w' = output w ++ concat (zip_with report (selected n l.*2) xs).
Proof.
  induction l as [|[f s] l IH]; intros failed w xs Hb Hl Hlen.
  - destruct xs; [|by destruct n]. exists w. cbn [run_tests prun existsb]. rewrite orb_false_r. split; [done|].
    destruct n; by rewrite app_nil_r.
  - apply Forall_cons in Hb as [Hs Hb]. rewrite fmap_cons, selected_cons in *. cbn [run_tests snd] in *.
    destruct (match n with None => true | Some n => strcmp s n =? 0 end); [|by apply IH].
    destruct xs as [|x xs]; [done|]. injection Hlen as Hlen. destruct (run_reports f s w x xs Hs Hl) as (w1 & H1 & L1 & O1).
    destruct (IH (if x =? 0 then failed else true) w1 xs Hb L1 Hlen) as (w2 & H2 & O2). exists w2. split.
    + rewrite (prun_bind_Done _ _ _ _ _ _ H1), H2. f_equal. cbn [existsb]. destruct (x =? 0), failed; done.
    + rewrite O2, O1, <- app_assoc. done.
Qed.

End Report.

Definition verdict (xs : list Z) : list Z :=
  chars (if existsb (fun x => negb (x =? 0)) xs then "SOME TESTS FAILED
" else "ALL TESTS PASSED
").

(** usertests runs the tests that its argument selects, all of them without one, in the
    order of the table and each once in a child; it prints OK for exactly those whose
    child ends with status 0, and that all tests passed exactly when each did.  It exits
    with status 1 in either case. *)

Theorem tests_main_reports {W} (h : kernel W) left output l argv w xs :
  test_kernel h left output -> Forall (Forall is_byte) l.*2 -> left w = xs ->
  length xs = length (selected (argv !! 1%nat) l.*2) ->
  exists w', prun h (tests_main l argv) w = RExit 1 w' /\
    output w' = output w ++ chars "usertests starting
" ++ concat (zip_with report (selected (argv !! 1%nat) l.*2) xs) ++ verdict xs.
Proof.
  intros Hk Hb Hl Hlen.
  destruct (puts_text h left output Hk "usertests starting
" []) with (w := w) as (w1 & H1 & L1 & O1); [repeat constructor; done|].
  destruct (tk_open _ _ _ Hk w1 (chars "usertests.ran") 0) as (fd & w2 & H2 & Hfd & L2 & O2). rewrite Hfd in H2 by done.
  destruct (tk_open _ _ _ Hk w2 (chars "usertests.ran") O_CREATE) as (fd3 & w3 & H3 & _ & L3 & O3).
  destruct (tk_close _ _ _ Hk w3 fd3) as (r4 & w4 & H4 & L4 & O4).
  destruct (run_tests_reports h left output Hk (argv !! 1%nat) l false w4 xs Hb) as (w5 & H5 & O5); [congruence|done|].
  set (t := if existsb (fun x => negb (x =? 0)) xs then "SOME TESTS FAILED
"%string else "ALL TESTS PASSED
"%string).
  destruct (puts_text h left output Hk t []) with (w := w5) as (w6 & H6 & L6 & O6).
  { unfold t. destruct (existsb _ xs); repeat constructor; done. }
  exists w6. split.
  - unfold tests_main. rewrite (prun_bind_Done _ _ _ _ _ _ H1), (prun_call _ _ _ _ _ _ H2). cbn [Z.leb Z.compare fail_if pbind].
    unfold touch. rewrite prun_bind, (prun_call _ _ _ _ _ _ H3), (prun_call _ _ _ _ _ _ H4). cbn [prun].
    rewrite (prun_bind_Done _ _ _ _ _ _ H5). cbn [orb].
    assert (E : prun h (if negb (existsb (fun x => negb (x =? 0)) xs) then printf "ALL TESTS PASSED
" [] else printf "SOME TESTS FAILED
" []) w5 = RDone tt w6) by (unfold t in H6; destruct (existsb _ xs); exact H6).
    by rewrite (prun_bind_Done _ _ _ _ _ _ E).
  - rewrite O6, O5, O4, O3, O2, O1, <- !app_assoc. unfold verdict, t. done.
Qed.
