(* ===== verification/Kalloc.v ===== *)
(** * The current process and the page allocator (kernel/kalloc.c, with myproc,
    mycont and isroot of kernel/proc.c)

    The free list is threaded through the free pages themselves: the first
    eight bytes of a free page hold the address of the next one.  [kalloc] and
    [kfree] are the code, with the accounting of pages to the container of the
    current process; [freelist] is what the list in memory represents. *)

From S2P Require Import Prelude Monad Riscv Kstring Kstate Spinlock Printf.

(** ** The current process and container (kernel/proc.c) *)

(** A pointer as myproc() and mycont() return it: the constant -1 before the
    first process is set up, null, or the address of a slot. *)

Inductive ptr := Minus1 | Null | At (i : nat).

Definition ptr_of (o : option nat) : ptr := match o with Some i => At i | None => Null end.

(** Dereference. *)

Definition deref (p : ptr) : K nat := match p with At i => ret i | _ => fault end.

Definition is_minus1 (p : ptr) : bool := match p with Minus1 => true | _ => false end.

Definition myproc : K ptr :=
  st <- gets k_started ;;
  if st =? 0 then ret Minus1 else
  c <- gets k_cur ;;
  ret (ptr_of c).

Definition mycont : K ptr :=
  st <- gets k_started ;;
  if st =? 0 then ret Minus1 else
  p <- myproc ;;
  i <- deref p ;;
  pr <- get_proc i ;;
  ret (ptr_of (p_container pr)).

(** root is &containers[0]. *)

Definition isroot (c : ptr) : bool := match c with At O => true | _ => false end.

(** ** The code of kernel/kalloc.c *)

Section Kalloc.
Context `{KI : KernelImage}.

Definition kfree (pa : Z) : K unit :=
  c <- mycont ;;
  (if is_minus1 c then ret tt else
     ci <- deref c ;;
     mod_cont ci (fun c => set_c_memused (i32 (c_memused c - 1)) c)) ;;
  if negb (pa mod PGSIZE =? 0) || (pa <? kend) || (PHYSTOP <=? pa) then panic "kfree" else
  mmemset pa 1 PGSIZE ;;
  acquire Lkmem ;;
  f <- gets k_freelist ;;
  mstore64 pa f ;;
  modify (set_k_freelist pa) ;;
  release Lkmem.

(** The iterations of the loop of freerange from [p] to [pa_end]. *)

Definition freerange_pages (pa_start pa_end : Z) : list Z :=
  let p := PGROUNDUP pa_start in
  (fun i => p + Z.of_nat i * PGSIZE) <$> seq 0 (Z.to_nat ((pa_end - p) / PGSIZE)).

Definition freerange (pa_start pa_end : Z) : K unit :=
  for_each (freerange_pages pa_start pa_end) kfree.

Definition kinit : K unit := freerange kend PHYSTOP.

Definition mem_limit_msg : string := "kalloc: failed: container mem limit exceeded
".

(** Charge the page to the container of the current process; false when its
    limit is reached. *)

Definition kalloc_charge : K bool :=
  p <- myproc ;;
  if is_minus1 p then ret true else
  i <- deref p ;;
  pr <- get_proc i ;;
  let c := ptr_of (p_container pr) in
  exceeded <- (if isroot c then ret false else
                 ci <- deref c ;;
                 cr <- get_cont ci ;;
                 ret (c_memlimit cr <=? c_memused cr)) ;;
  if exceeded : bool then printf mem_limit_msg [] ;; ret false else
  ci <- deref c ;;
  mod_cont ci (fun c => set_c_memused (i32 (c_memused c + 1)) c) ;;
  ret true.

Definition kalloc : K Z :=
  ok <- kalloc_charge ;;
  if negb ok then ret 0 else
  acquire Lkmem ;;
  r <- gets k_freelist ;;
  (if* negb (r =? 0) then nxt <- mload64 r ;; modify (set_k_freelist nxt)) ;;
  release Lkmem ;;
  (if* negb (r =? 0) then mmemset r 5 PGSIZE) ;;
  ret r.

(** ** What the allocator keeps *)

(** A page the allocator may hand out. *)

Definition page_ok (a : Z) : Prop := a mod PGSIZE = 0 /\ kend <= a < PHYSTOP.

#[export] Instance page_ok_dec a : Decision (page_ok a).
Proof. unfold page_ok. apply _. Defined.

(** The linked list at [p] in memory [m] is [l]. *)

Fixpoint chain (m : mem) (p : Z) (l : list Z) : Prop :=
  match l with
  | [] => p = 0
  | a :: l' => p = a /\ chain m (load64 m a) l'
  end.

(** The free pages of [s] are [l], in the order they will be handed out. *)

Definition freelist (s : kst) (l : list Z) : Prop :=
  chain (k_mem s) (k_freelist s) l /\ NoDup l /\ Forall page_ok l.

(** The process the CPU runs and its container are slots of their tables. *)

Definition cur_cont (s : kst) (ci : nat) (c : container) : Prop :=
  exists i p, k_cur s = Some i /\ k_procs s !! i = Some p /\
    p_container p = Some ci /\ k_conts s !! ci = Some c.

(** What kalloc, kfree and the paging code built on them may change: memory, the
    free list, the console output, the locks, and the page counts of the
    containers. *)

Definition same_but_memused (c c' : container) : Prop := c' = set_c_memused (c_memused c') c.

Definition kframe (s s' : kst) : Prop :=
  exists m f c o h,
    s' = set_k_mem m (set_k_freelist f (set_k_conts c (set_k_out o (set_k_held h s)))) /\
    Forall2 same_but_memused (k_conts s) c.

(** ** Lemmas: frames *)

#[export] Instance same_but_memused_preorder : PreOrder same_but_memused.
Proof.
  split; [by intros []|]. intros a b c Hab Hbc. unfold same_but_memused in *.
  rewrite Hbc, Hab. done.
Qed.

Lemma same_conts_refl l : Forall2 same_but_memused l l.
Proof. induction l; constructor; [reflexivity|done]. Qed.

#[export] Instance kframe_preorder : PreOrder kframe.
Proof.
  split.
  - intros s. exists (k_mem s), (k_freelist s), (k_conts s), (k_out s), (k_held s).
    split; [by destruct s|apply same_conts_refl].
  - intros s1 s2 s3 (m & f & c & o & h & -> & H) (m' & f' & c' & o' & h' & -> & H').
    exists m', f', c', o', h'. split; [done|]. by transitivity c.
Qed.

Lemma kframe_procs s s' : kframe s s' -> k_procs s' = k_procs s.
Proof. by intros (m & f & c & o & h & -> & H). Qed.

Lemma kframe_cur s s' : kframe s s' -> k_cur s' = k_cur s.
Proof. by intros (m & f & c & o & h & -> & H). Qed.

Lemma kframe_started s s' : kframe s s' -> k_started s' = k_started s.
Proof. by intros (m & f & c & o & h & -> & H). Qed.

Lemma kframe_conts s s' : kframe s s' -> Forall2 same_but_memused (k_conts s) (k_conts s').
Proof. by intros (m & f & c & o & h & -> & H). Qed.

Lemma kframe_held s h : kframe s (set_k_held h s).
Proof.
  exists (k_mem s), (k_freelist s), (k_conts s), (k_out s), h.
  split; [by destruct s|apply same_conts_refl].
Qed.

Lemma kframe_mem s m : kframe s (set_k_mem m s).
Proof.
  exists m, (k_freelist s), (k_conts s), (k_out s), (k_held s).
  split; [by destruct s|apply same_conts_refl].
Qed.

Lemma kframe_freelist s f : kframe s (set_k_freelist f s).
Proof.
  exists (k_mem s), f, (k_conts s), (k_out s), (k_held s).
  split; [by destruct s|apply same_conts_refl].
Qed.

Lemma kframe_emit s b : kframe s (emit b s).
Proof.
  exists (k_mem s), (k_freelist s), (k_conts s), (k_out s ++ b), (k_held s).
  split; [by destruct s|apply same_conts_refl].
Qed.

Lemma kframe_memused s ci c v :
  k_conts s !! ci = Some c -> kframe s (set_k_conts (<[ci := set_c_memused v c]> (k_conts s)) s).
Proof.
  intros H. exists (k_mem s), (k_freelist s), (<[ci := set_c_memused v c]> (k_conts s)),
    (k_out s), (k_held s). split; [by destruct s|].
  apply Forall2_same_length_lookup_2; [by rewrite length_insert|].
  intros j x y Hx Hy. destruct (decide (ci = j)) as [<-|].
  - rewrite list_lookup_insert_eq in Hy by by eapply lookup_lt_Some. by simplify_eq.
  - rewrite list_lookup_insert_ne in Hy by done. by simplify_eq.
Qed.

#[local] Hint Resolve kframe_held kframe_mem kframe_freelist kframe_emit : kernel.

Lemma steps_acquire l : steps kframe (acquire l).
Proof.
  unfold acquire, holding. steps_tac. apply steps_modify. intros s. apply kframe_held.
Qed.

Lemma steps_release l : steps kframe (release l).
Proof.
  unfold release, holding. steps_tac. apply steps_modify. intros s. apply kframe_held.
Qed.

Lemma steps_consputc c : steps kframe (consputc c).
Proof.
  unfold consputc, uartputc. steps_tac; apply steps_modify; intros s; apply kframe_emit.
Qed.

#[local] Hint Resolve steps_acquire steps_release steps_consputc : steps.

Lemma steps_printf_from n fmt args : (length fmt <= n)%nat -> steps kframe (printf_from fmt args).
Proof.
  revert fmt args; induction n as [|n IH]; intros [|c fmt1] args Hl; simpl in *; try lia;
    [steps_tac..|].
  destruct fmt1 as [|c2 fmt2]; unfold printint, printptr; steps_tac; apply IH; simpl in *; lia.
Qed.

Lemma steps_printf fmt args : steps kframe (printf fmt args).
Proof. unfold printf. steps_tac. by eapply steps_printf_from. Qed.

#[local] Hint Resolve steps_printf : steps.

Lemma steps_memused ci (g : container -> Z) :
  steps kframe (mod_cont ci (fun c => set_c_memused (g c) c)).
Proof.
  intros e s He. unfold mod_cont, get_cont. monad.
  destruct (k_conts s !! ci) as [c|] eqn:E; [|done]. split; [by apply kframe_memused|done].
Qed.

#[local] Hint Resolve steps_memused : steps.

Lemma steps_myproc : steps kframe myproc.
Proof. unfold myproc. steps_tac. Qed.

Lemma steps_deref p : steps kframe (deref p).
Proof. unfold deref. steps_tac. Qed.

#[local] Hint Resolve steps_myproc steps_deref : steps.

Lemma steps_mycont : steps kframe mycont.
Proof. unfold mycont. steps_tac. Qed.

#[local] Hint Resolve steps_mycont : steps.

Lemma steps_mstore64 a v : steps kframe (mstore64 a v).
Proof. apply steps_modify. intros s. apply kframe_mem. Qed.

Lemma steps_mmemset d c n : steps kframe (mmemset d c n).
Proof. apply steps_modify. intros s. apply kframe_mem. Qed.

Lemma steps_mmemmove d c n : steps kframe (mmemmove d c n).
Proof. apply steps_modify. intros s. apply kframe_mem. Qed.

Lemma steps_mload64 a : steps kframe (mload64 a).
Proof. apply steps_gets. apply _. Qed.

Lemma steps_set_freelist a : steps kframe (modify (set_k_freelist a)).
Proof. apply steps_modify. intros s. apply kframe_freelist. Qed.

#[local] Hint Resolve steps_mstore64 steps_mmemset steps_mmemmove steps_mload64
  steps_set_freelist : steps.

(** kalloc and kfree change nothing but what [kframe] lists. *)

Lemma steps_kalloc : steps kframe kalloc.
Proof. unfold kalloc, kalloc_charge. steps_tac. Qed.

Lemma steps_kfree pa : steps kframe (kfree pa).
Proof. unfold kfree. steps_tac. Qed.

End Kalloc.

#[export] Hint Resolve steps_acquire steps_release steps_printf steps_memused steps_myproc
  steps_deref steps_mycont steps_mstore64 steps_mmemset steps_mmemmove steps_mload64
  steps_kalloc steps_kfree : steps.

(** ** Lemmas: the free list in memory *)

Section Kalloc_spec.
Context `{KI : KernelImage}.

Lemma page_disjoint a b x :
  a mod PGSIZE = 0 -> b mod PGSIZE = 0 -> a <> b ->
  a <= x < a + PGSIZE -> ~ (b <= x < b + PGSIZE).
Proof. unfold PGSIZE. intros. dlia. Qed.

Lemma chain_ext m m' p l :
  Forall (fun a => load64 m' a = load64 m a) l -> chain m p l -> chain m' p l.
Proof.
  intros H. revert p. induction H as [|a l Ha _ IH]; intros p; simpl; [done|].
  intros [-> Hc]. split; [done|]. rewrite Ha. auto.
Qed.

(** Changing memory outside the free pages leaves the free list alone. *)

Lemma freelist_mem s l m :
  freelist s l ->
  (forall a x, a ∈ l -> a <= x < a + PGSIZE -> m !!! x = k_mem s !!! x) ->
  freelist (set_k_mem m s) l.
Proof.
  intros (Hc & Hn & Hp) Hm. split_and!; [|done|done]. simpl.
  eapply chain_ext; [|exact Hc]. apply Forall_forall. intros a Ha.
  apply load_ext. intros x Hx. apply (Hm a); [exact Ha|unfold PGSIZE; lia].
Qed.

Lemma freelist_ext s s' l :
  k_mem s' = k_mem s -> k_freelist s' = k_freelist s -> freelist s l -> freelist s' l.
Proof. unfold freelist. by intros -> ->. Qed.

Lemma page_ok_pos a : page_ok a -> 0 < a.
Proof. intros [_ ?]. pose proof kend_range. unfold KERNBASE in *. lia. Qed.

Lemma freelist_page s l a : freelist s l -> a ∈ l -> page_ok a.
Proof. intros (_ & _ & Hp) Ha. rewrite Forall_forall in Hp. by apply Hp. Qed.

(** Pushing a page: junk, then the link to the old head. *)

Lemma freelist_push s l pa :
  freelist s l -> page_ok pa -> pa ∉ l ->
  freelist (set_k_freelist pa
    (set_k_mem (store64 (memset (k_mem s) pa 1 PGSIZE) pa (k_freelist s)) s)) (pa :: l).
Proof.
  intros Hfl Hpa Hnin. pose proof Hfl as (Hc & Hn & Hp).
  set (m := store64 _ _ _).
  assert (freelist (set_k_mem m s) l) as (Hc' & _).
  { apply freelist_mem; [done|]. intros a x Ha Hx. subst m.
    pose proof (page_disjoint a pa x (proj1 (freelist_page _ _ _ Hfl Ha)) (proj1 Hpa)
                  ltac:(set_solver) Hx) as Hd.
    unfold PGSIZE in *. rewrite store_other by lia. rewrite memset_lookup by lia. zcase; done. }
  split_and!; [|by constructor|by constructor]. simpl. split; [done|].
  assert (load64 m pa = k_freelist s) as ->; [|done].
  subst m. rewrite load64_store64. apply u64_small.
  destruct l as [|b l]; simpl in Hc; [lia|]. destruct Hc as [-> _].
  pose proof (freelist_page _ _ b Hfl ltac:(set_solver)) as Hb.
  pose proof (page_ok_pos b Hb). destruct Hb as [_ Hb]. unfold PHYSTOP, KERNBASE in Hb. lia.
Qed.

(** Popping the head, and filling it with junk. *)

Lemma freelist_pop s l a :
  freelist s (a :: l) ->
  freelist (set_k_mem (memset (k_mem s) a 5 PGSIZE)
             (set_k_freelist (load64 (k_mem s) a) s)) l.
Proof.
  intros Hfl. pose proof Hfl as ([Ha Hc] & Hn & Hp).
  apply NoDup_cons in Hn as [Hnin Hn]. apply Forall_cons_1 in Hp as [Hpa Hp].
  apply (freelist_mem (set_k_freelist (load64 (k_mem s) a) s)); [done|].
  intros b x Hb Hx. simpl.
  assert (page_ok b) as Hpb by (eapply freelist_page; [exact Hfl|set_solver]).
  pose proof (page_disjoint b a x (proj1 Hpb) (proj1 Hpa) ltac:(set_solver) Hx).
  unfold PGSIZE in *. rewrite memset_lookup by lia. zcase; done.
Qed.

(** ** Lemmas: the accounting *)

(** The state after [d] pages are charged to container [ci]. *)

Definition charge (ci : nat) (c : container) (d : Z) (s : kst) : kst :=
  set_k_conts (<[ci := set_c_memused (i32 (c_memused c + d)) c]> (k_conts s)) s.

Lemma runs_myproc s : k_started s <> 0 -> runs myproc s (ptr_of (k_cur s)) s.
Proof.
  intros H e. unfold myproc. monad. destruct (Z.eqb_spec (k_started s) 0); [done|done].
Qed.

Lemma runs_myproc_boot s : k_started s = 0 -> runs myproc s Minus1 s.
Proof. intros H e. unfold myproc. monad. by rewrite H. Qed.

Lemma runs_mycont s ci c :
  k_started s <> 0 -> cur_cont s ci c -> runs mycont s (At ci) s.
Proof.
  intros Hst (i & p & Hcur & Hp & Hpc & Hc). unfold mycont.
  eapply runs_bind; [apply runs_gets|]. destruct (Z.eqb_spec (k_started s) 0); [done|].
  eapply runs_bind; [by apply runs_myproc|]. rewrite Hcur. simpl.
  eapply runs_bind; [apply runs_ret|]. eapply runs_bind; [by apply runs_get_proc|].
  rewrite Hpc. apply runs_ret.
Qed.

Lemma runs_mycont_boot s : k_started s = 0 -> runs mycont s Minus1 s.
Proof. intros H e. unfold mycont. monad. by rewrite H. Qed.

Lemma format_mem_limit : format (cstr mem_limit_msg) [] = Some (bytes_of_string mem_limit_msg).
Proof. reflexivity. Qed.

(** The process is over its limit. *)

Definition over_limit (ci : nat) (c : container) : bool :=
  negb (ci =? 0)%nat && (c_memlimit c <=? c_memused c).

Lemma runs_kalloc_charge s ci c :
  k_started s <> 0 -> cur_cont s ci c -> Lpr ∉ k_held s ->
  runs kalloc_charge s (negb (over_limit ci c))
    (if over_limit ci c then emit (bytes_of_string mem_limit_msg) s else charge ci c 1 s).
Proof.
  intros Hst (i & p & Hcur & Hp & Hpc & Hc) Hpr. unfold kalloc_charge.
  eapply runs_bind; [by apply runs_myproc|]. rewrite Hcur. cbn [ptr_of is_minus1 deref].
  eapply runs_bind; [apply runs_ret|]. eapply runs_bind; [by apply runs_get_proc|].
  rewrite Hpc. cbn [ptr_of deref]. cbv zeta.
  assert (runs (if isroot (At ci) then ret false else
                 ci <- ret ci ;; cr <- get_cont ci ;;
                 ret (c_memlimit cr <=? c_memused cr)) s (over_limit ci c) s) as Hex.
  { unfold over_limit. destruct ci as [|ci]; cbn [isroot Nat.eqb negb andb]; [apply runs_ret|].
    eapply runs_bind; [apply runs_ret|]. eapply runs_bind; [by apply runs_get_cont|].
    apply runs_ret. }
  eapply runs_bind; [exact Hex|]. destruct (over_limit ci c).
  - eapply runs_bind; [|apply runs_ret]. apply runs_printf; [constructor|apply format_mem_limit|done].
  - eapply runs_bind; [apply runs_ret|]. eapply runs_bind; [by apply runs_mod_cont|].
    apply runs_ret.
Qed.

Lemma runs_kalloc_charge_boot s :
  k_started s = 0 -> runs kalloc_charge s true s.
Proof. intros H. unfold kalloc_charge. eapply runs_bind; [by apply runs_myproc_boot|]. apply runs_ret. Qed.

(** The part of kalloc after the charge. *)

Definition taken (l : list Z) (s : kst) : kst :=
  match l with
  | [] => s
  | a :: _ => set_k_mem (memset (k_mem s) a 5 PGSIZE) (set_k_freelist (load64 (k_mem s) a) s)
  end.

Lemma runs_kalloc_take s l :
  freelist s l -> Lkmem ∉ k_held s ->
  runs (acquire Lkmem ;;
        r <- gets k_freelist ;;
        (if* negb (r =? 0) then nxt <- mload64 r ;; modify (set_k_freelist nxt)) ;;
        release Lkmem ;;
        (if* negb (r =? 0) then mmemset r 5 PGSIZE) ;;
        ret r) s (hd 0 l) (taken l s).
Proof.
  intros Hfl Hh e. pose proof Hfl as (Hc & _ & Hp). unfold bind at 1.
  rewrite runs_acquire by done. unfold mload64, mmemset. monad.
  assert (k_freelist s = hd 0 l) as ->.
  { destruct l; simpl in *; [done|by destruct Hc]. }
  destruct l as [|a l]; simpl.
  - rewrite runs_release by apply held_in. simpl. rewrite held_release by done.
    by destruct s.
  - apply Forall_cons_1 in Hp as [Ha _]. pose proof (page_ok_pos a Ha).
    destruct (Z.eqb_spec a 0); [lia|]. simpl.
    rewrite runs_release by apply held_in. simpl. rewrite held_release by done.
    by destruct s.
Qed.

Lemma taken_freelist s l : freelist s l -> freelist (taken l s) (tail l).
Proof. destruct l as [|a l]; simpl; [done|]. apply freelist_pop. Qed.

Lemma kalloc_over s ci c :
  k_started s <> 0 -> cur_cont s ci c -> Lpr ∉ k_held s -> over_limit ci c = true ->
  runs kalloc s 0 (emit (bytes_of_string mem_limit_msg) s).
Proof.
  intros Hst Hcc Hpr Hov. pose proof (runs_kalloc_charge s ci c Hst Hcc Hpr) as Hch.
  rewrite Hov in Hch. unfold kalloc. eapply runs_bind; [exact Hch|]. apply runs_ret.
Qed.

Lemma kalloc_under s l ci c :
  k_started s <> 0 -> cur_cont s ci c -> freelist s l ->
  Lkmem ∉ k_held s -> Lpr ∉ k_held s -> over_limit ci c = false ->
  runs kalloc s (hd 0 l) (taken l (charge ci c 1 s)) /\
  freelist (taken l (charge ci c 1 s)) (tail l).
Proof.
  intros Hst Hcc Hfl Hk Hpr Hov. pose proof (runs_kalloc_charge s ci c Hst Hcc Hpr) as Hch.
  rewrite Hov in Hch. split; [|by apply taken_freelist]. unfold kalloc.
  eapply runs_bind; [exact Hch|]. by apply (runs_kalloc_take (charge ci c 1 s)).
Qed.

Lemma kalloc_boot s l :
  k_started s = 0 -> freelist s l -> Lkmem ∉ k_held s ->
  runs kalloc s (hd 0 l) (taken l s) /\ freelist (taken l s) (tail l).
Proof.
  intros Hst Hfl Hk. split; [|by apply taken_freelist]. unfold kalloc.
  eapply runs_bind; [by apply runs_kalloc_charge_boot|]. by apply runs_kalloc_take.
Qed.

(** The state after kfree of [pa], from the state in which it was discharged. *)

Definition freed (pa : Z) (s : kst) : kst :=
  set_k_freelist pa
    (set_k_mem (store64 (memset (k_mem s) pa 1 PGSIZE) pa (k_freelist s)) s).

Lemma runs_kfree_put pa s :
  page_ok pa -> Lkmem ∉ k_held s ->
  runs (if negb (pa mod PGSIZE =? 0) || (pa <? kend) || (PHYSTOP <=? pa) then panic "kfree" else
        mmemset pa 1 PGSIZE ;; acquire Lkmem ;; f <- gets k_freelist ;; mstore64 pa f ;;
        modify (set_k_freelist pa) ;; release Lkmem) s tt (freed pa s).
Proof.
  intros [Hal Hr] Hh. rewrite Hal.
  destruct (Z.ltb_spec pa kend); [lia|]. destruct (Z.leb_spec PHYSTOP pa); [lia|].
  cbn [Z.eqb negb orb].
  eapply runs_bind; [apply runs_mmemset|]. eapply runs_bind; [by apply runs_acquire|].
  eapply runs_bind; [apply runs_gets|]. eapply runs_bind; [apply runs_mstore64|].
  eapply runs_bind; [apply (runs_modify (set_k_freelist pa))|].
  eapply runs_release_to; [apply held_in|].
  cbn [k_mem k_held k_freelist set_k_mem set_k_held set_k_freelist].
  rewrite held_release by done. reflexivity.
Qed.

Lemma kfree_boot s l pa :
  k_started s = 0 -> freelist s l -> page_ok pa -> pa ∉ l -> Lkmem ∉ k_held s ->
  runs (kfree pa) s tt (freed pa s) /\ freelist (freed pa s) (pa :: l).
Proof.
  intros Hst Hfl Hpa Hnin Hh. split; [|by apply freelist_push].
  unfold kfree. eapply runs_bind; [by apply runs_mycont_boot|].
  eapply runs_bind; [apply runs_ret|]. by apply runs_kfree_put.
Qed.

Lemma runs_discharge s ci c :
  cur_cont s ci c ->
  runs (ci <- deref (At ci) ;; mod_cont ci (fun c => set_c_memused (i32 (c_memused c - 1)) c))
    s tt (charge ci c (-1) s).
Proof.
  intros (i & p & _ & _ & _ & Hc). eapply runs_bind; [apply runs_ret|].
  by apply (runs_mod_cont ci (fun c => set_c_memused (i32 (c_memused c - 1)) c) c).
Qed.

Lemma kfree_put s l ci c pa :
  k_started s <> 0 -> cur_cont s ci c -> freelist s l -> page_ok pa -> pa ∉ l ->
  Lkmem ∉ k_held s ->
  runs (kfree pa) s tt (freed pa (charge ci c (-1) s)) /\
  freelist (freed pa (charge ci c (-1) s)) (pa :: l).
Proof.
  intros Hst Hcc Hfl Hpa Hnin Hh. split; [|by apply freelist_push].
  unfold kfree. eapply runs_bind; [by eapply runs_mycont|].
  eapply runs_bind; [by apply runs_discharge|]. by apply runs_kfree_put.
Qed.

(** ** The theorems *)

(** C12: kalloc for a process of container [ci]: it always returns; over the
    container's limit it returns 0 and only prints; otherwise it counts a page
    and returns the head of the free list, which is no longer free, filled with
    5s, or 0 when no page is free.  Nothing else of the state changes. *)
Theorem kalloc_spec s l ci c :
  k_started s <> 0 -> cur_cont s ci c -> freelist s l ->
  Lkmem ∉ k_held s -> Lpr ∉ k_held s ->
  if over_limit ci c
  then runs kalloc s 0 (emit (bytes_of_string mem_limit_msg) s)
  else runs kalloc s (hd 0 l) (taken l (charge ci c 1 s)) /\
       freelist (taken l (charge ci c 1 s)) (tail l).
Proof.
  intros Hst Hcc Hfl Hk Hpr. destruct (over_limit ci c) eqn:Hov.
  - by eapply kalloc_over.
  - by eapply kalloc_under.
Qed.

(** C13: kfree of an allocated page returns it to the head of the free list and
    takes it off the count of the current container, changing nothing else; a
    pointer that is not a page of the allocator's range panics. *)
Theorem kfree_spec s l ci c pa e :
  k_started s <> 0 -> cur_cont s ci c -> freelist s l -> pa ∉ l -> Lkmem ∉ k_held s ->
  if bool_decide (page_ok pa)
  then runs (kfree pa) s tt (freed pa (charge ci c (-1) s)) /\
       freelist (freed pa (charge ci c (-1) s)) (pa :: l)
  else kfree pa e s = Panic "kfree".
Proof.
  intros Hst Hcc Hfl Hnin Hh. case_bool_decide as Hpa; [by apply kfree_put|].
  unfold kfree, bind at 1. rewrite (runs_mycont s ci c Hst Hcc). unfold bind at 1.
  cbn [is_minus1]. rewrite (runs_discharge s ci c Hcc).
  destruct (Z.eqb_spec (pa mod PGSIZE) 0), (Z.ltb_spec pa kend), (Z.leb_spec PHYSTOP pa);
    try done. exfalso. apply Hpa. split; [done|lia].
Qed.

End Kalloc_spec.
