(* ===== verification/Vm.v ===== *)
(** * Page tables and user memory (kernel/vm.c)

    The code walks three-level Sv39 page tables in physical memory, which the
    kernel addresses directly.  The first part is the code; the second says
    what a page table in memory represents, [pt m root T L]: the tree of its
    table pages [T], by the path of indices that leads to each, and its leaf
    entries [L], by virtual page.  The theorems say what each operation does to
    [T], [L], the free list and the contents of memory. *)

From S2P Require Import Prelude Monad Riscv Kstring Kstate Spinlock Printf Kalloc.

(** ** The code of kernel/vm.c *)

Section Vm.
Context `{KI : KernelImage}.

(** [&pagetable[i]] *)

Definition pte_at (pagetable i : Z) : Z := pagetable + 8 * i.

Fixpoint walk_from (levels : list Z) (pagetable va : Z) (alloc : bool) : K Z :=
  match levels with
  | [] => ret (pte_at pagetable (PX 0 va))
  | level :: levels' =>
      let pte := pte_at pagetable (PX level va) in
      w <- mload64 pte ;;
      if negb (Z.land w PTE_V =? 0) then walk_from levels' (PTE2PA w) va alloc else
      if negb alloc then ret 0 else
      pt <- kalloc ;;
      if pt =? 0 then ret 0 else
      mmemset pt 0 PGSIZE ;;
      mstore64 pte (Z.lor (PA2PTE pt) PTE_V) ;;
      walk_from levels' pt va alloc
  end.

Definition walk (pagetable va : Z) (alloc : bool) : K Z :=
  if MAXVA <=? va then panic "walk" else walk_from [2; 1] pagetable va alloc.

Definition walkaddr (pagetable va : Z) : K Z :=
  if MAXVA <=? va then ret 0 else
  pte <- walk pagetable va false ;;
  if pte =? 0 then ret 0 else
  w <- mload64 pte ;;
  if Z.land w PTE_V =? 0 then ret 0 else
  if Z.land w PTE_U =? 0 then ret 0 else
  ret (PTE2PA w).

(** The number of rounds of a [for(;;)] loop that goes from page [a] to page
    [last]. *)

Definition npages (a last : Z) : Z := u64 (last - a) / PGSIZE + 1.

(** One round of the loop of mappages, at page [a] to be mapped to [pa]. *)

Definition mappages_round (pagetable perm last : Z) (x : Z * Z) : K (Z * Z + Z) :=
  let '(a, pa) := x in
  pte <- walk pagetable a true ;;
  if pte =? 0 then ret (inr (-1)) else
  w <- mload64 pte ;;
  if negb (Z.land w PTE_V =? 0) then panic "remap" else
  mstore64 pte (Z.lor (Z.lor (PA2PTE pa) perm) PTE_V) ;;
  if a =? last then ret (inr 0) else
  ret (inl (u64 (a + PGSIZE), u64 (pa + PGSIZE))).

Definition mappages (pagetable va size pa perm : Z) : K Z :=
  let a := PGROUNDDOWN va in
  let last := PGROUNDDOWN (va + size - 1) in
  loopz (npages a last) (mappages_round pagetable perm last) (a, pa).

Definition kvmmap (va pa sz perm : Z) : K unit :=
  pt <- gets k_kpagetable ;;
  r <- mappages pt va sz pa perm ;;
  if* negb (r =? 0) then panic "kvmmap".

Definition kvminit : K unit :=
  pt <- kalloc ;;
  modify (set_k_kpagetable pt) ;;
  mmemset pt 0 PGSIZE ;;
  kvmmap UART0 UART0 PGSIZE (Z.lor PTE_R PTE_W) ;;
  kvmmap VIRTIO0 VIRTIO0 PGSIZE (Z.lor PTE_R PTE_W) ;;
  kvmmap CLINT CLINT 0x10000 (Z.lor PTE_R PTE_W) ;;
  kvmmap PLIC PLIC 0x400000 (Z.lor PTE_R PTE_W) ;;
  kvmmap KERNBASE KERNBASE (etext - KERNBASE) (Z.lor PTE_R PTE_X) ;;
  kvmmap etext etext (PHYSTOP - etext) (Z.lor PTE_R PTE_W) ;;
  kvmmap TRAMPOLINE trampoline PGSIZE (Z.lor PTE_R PTE_X).

Definition kvmpa (va : Z) : K Z :=
  let off := va mod PGSIZE in
  pt <- gets k_kpagetable ;;
  pte <- walk pt va false ;;
  if pte =? 0 then panic "kvmpa" else
  w <- mload64 pte ;;
  if Z.land w PTE_V =? 0 then panic "kvmpa" else
  ret (PTE2PA w + off).

Definition not_mapped_fmt : string := "va=%p pte=%p
".

Definition uvmunmap_round (pagetable last : Z) (do_free : bool) (a : Z) : K (Z + unit) :=
  pte <- walk pagetable a false ;;
  if pte =? 0 then panic "uvmunmap: walk" else
  w <- mload64 pte ;;
  if Z.land w PTE_V =? 0 then
    printf not_mapped_fmt [VWord a; VWord w] ;; panic "uvmunmap: not mapped" else
  if PTE_FLAGS w =? PTE_V then panic "uvmunmap: not a leaf" else
  (if* do_free then kfree (PTE2PA w)) ;;
  mstore64 pte 0 ;;
  if a =? last then ret (inr tt) else ret (inl (u64 (a + PGSIZE))).

Definition uvmunmap (pagetable va size : Z) (do_free : bool) : K unit :=
  let a := PGROUNDDOWN va in
  let last := PGROUNDDOWN (va + size - 1) in
  loopz (npages a last) (uvmunmap_round pagetable last do_free) a.

Definition uvmcreate : K Z :=
  pagetable <- kalloc ;;
  if pagetable =? 0 then panic "uvmcreate: out of memory" else
  mmemset pagetable 0 PGSIZE ;;
  ret pagetable.

Definition uvminit (pagetable src sz : Z) : K unit :=
  if PGSIZE <=? sz then panic "inituvm: more than a page" else
  mem <- kalloc ;;
  mmemset mem 0 PGSIZE ;;
  mappages pagetable 0 PGSIZE mem (Z.lor (Z.lor (Z.lor PTE_W PTE_R) PTE_X) PTE_U) ;;
  mmemmove mem src sz.

Definition uvmdealloc (pagetable oldsz newsz : Z) : K Z :=
  if oldsz <=? newsz then ret oldsz else
  let newup := PGROUNDUP newsz in
  (if* newup <? PGROUNDUP oldsz then uvmunmap pagetable newup (u64 (oldsz - newup)) true) ;;
  ret newsz.

Definition uvmalloc_round (pagetable oldsz newsz a : Z) : K (Z + Z) :=
  if negb (a <? newsz) then ret (inr newsz) else
  mem <- kalloc ;;
  if mem =? 0 then
    uvmdealloc pagetable a oldsz ;; ret (inr 0) else
  mmemset mem 0 PGSIZE ;;
  r <- mappages pagetable a PGSIZE mem
         (Z.lor (Z.lor (Z.lor PTE_W PTE_X) PTE_R) PTE_U) ;;
  if negb (r =? 0) then
    kfree mem ;; uvmdealloc pagetable a oldsz ;; ret (inr 0) else
  ret (inl (u64 (a + PGSIZE))).

Definition uvmalloc (pagetable oldsz newsz : Z) : K Z :=
  if newsz <? oldsz then ret oldsz else
  let oldsz := PGROUNDUP oldsz in
  loopz ((newsz - oldsz) / PGSIZE + 2) (uvmalloc_round pagetable oldsz newsz) oldsz.

(** [height] is the number of levels below [pagetable]. *)

Fixpoint freewalk (height : nat) (pagetable : Z) : K unit :=
  for_each (seqZ 0 512) (fun i =>
    pte <- mload64 (pte_at pagetable i) ;;
    if negb (Z.land pte PTE_V =? 0)
       && (Z.land pte (Z.lor (Z.lor PTE_R PTE_W) PTE_X) =? 0) then
      match height with
      | O => spin
      | S h => freewalk h (PTE2PA pte)
      end ;;
      mstore64 (pte_at pagetable i) 0
    else if* negb (Z.land pte PTE_V =? 0) then panic "freewalk: leaf") ;;
  kfree pagetable.

Definition uvmfree (pagetable sz : Z) : K unit :=
  uvmunmap pagetable 0 sz true ;;
  freewalk 3 pagetable.

Definition uvmcopy_round (old new sz i : Z) : K (Z + option Z) :=
  if negb (i <? sz) then ret (inr None) else
  pte <- walk old i false ;;
  if pte =? 0 then panic "uvmcopy: pte should exist" else
  w <- mload64 pte ;;
  if Z.land w PTE_V =? 0 then panic "uvmcopy: page not present" else
  let pa := PTE2PA w in
  let flags := PTE_FLAGS w in
  mem <- kalloc ;;
  if mem =? 0 then ret (inr (Some i)) else
  mmemmove mem pa PGSIZE ;;
  r <- mappages new i PGSIZE mem flags ;;
  if negb (r =? 0) then kfree mem ;; ret (inr (Some i)) else
  ret (inl (u64 (i + PGSIZE))).

Definition uvmcopy (old new sz : Z) : K Z :=
  r <- loopz (sz / PGSIZE + 2) (uvmcopy_round old new sz) 0 ;;
  match r with
  | None => ret 0
  | Some i => uvmunmap new 0 i true ;; ret (-1)   (* err: *)
  end.

Definition uvmclear (pagetable va : Z) : K unit :=
  pte <- walk pagetable va false ;;
  if pte =? 0 then panic "uvmclear" else
  w <- mload64 pte ;;
  mstore64 pte (Z.land w (Z.lnot PTE_U)).

(** *** Copies between the kernel and user memory

    The kernel side of a copy is an address of memory, or a C object that is
    modelled as a value: a local variable or a member of a structure. *)

Inductive kbuf := KMem (a : Z) | KVal (bs : list Z).

(** [memmove(pa, src + off, n)]; [memmove(dst + off, pa, n)]. *)

Definition from_kbuf (pa : Z) (src : kbuf) (off n : Z) : K unit :=
  match src with
  | KMem a => mmemmove pa (a + off) n
  | KVal bs =>
      if Z.of_nat (length bs) <? off + n then fault else
      modify (fun s => set_k_mem
        (write_bytes (k_mem s) pa (take (Z.to_nat n) (drop (Z.to_nat off) bs))) s)
  end.

Definition to_kbuf (dst : kbuf) (off pa n : Z) : K kbuf :=
  match dst with
  | KMem a => mmemmove (a + off) pa n ;; ret dst
  | KVal bs =>
      if Z.of_nat (length bs) <? off + n then fault else
      src <- gets (fun s => bytes_at (k_mem s) pa (Z.to_nat n)) ;;
      ret (KVal (list_inserts (Z.to_nat off) src bs))
  end.

(** The bytes to copy in the page of [va]: up to its end, and at most [len]. *)

Definition chunk (va len : Z) : Z := Z.min (PGSIZE - (va - PGROUNDDOWN va)) len.

Definition copyout_round (pagetable : Z) (src : kbuf) (x : Z * Z * Z) : K (Z * Z * Z + Z) :=
  let '(dstva, off, len) := x in
  if negb (0 <? len) then ret (inr 0) else
  let va0 := PGROUNDDOWN dstva in
  pa0 <- walkaddr pagetable va0 ;;
  if pa0 =? 0 then ret (inr (-1)) else
  let n := chunk dstva len in
  from_kbuf (pa0 + (dstva - va0)) src off n ;;
  ret (inl (u64 (va0 + PGSIZE), off + n, len - n)).

Definition copyout (pagetable dstva : Z) (src : kbuf) (len : Z) : K Z :=
  loopz (len / PGSIZE + 3) (copyout_round pagetable src) (dstva, 0, len).

Definition copyin_round (pagetable : Z) (x : kbuf * Z * Z * Z) :
    K (kbuf * Z * Z * Z + Z * kbuf) :=
  let '(dst, srcva, off, len) := x in
  if negb (0 <? len) then ret (inr (0, dst)) else
  let va0 := PGROUNDDOWN srcva in
  pa0 <- walkaddr pagetable va0 ;;
  if pa0 =? 0 then ret (inr (-1, dst)) else
  let n := chunk srcva len in
  dst <- to_kbuf dst off (pa0 + (srcva - va0)) n ;;
  ret (inl (dst, u64 (va0 + PGSIZE), off + n, len - n)).

Definition copyin (pagetable : Z) (dst : kbuf) (srcva len : Z) : K (Z * kbuf) :=
  loopz (len / PGSIZE + 3) (copyin_round pagetable) (dst, srcva, 0, len).

(** The inner loop of copyinstr: [n] characters of one page. *)

Fixpoint copyinstr_page (n : nat) (dst : kbuf) (off p : Z) : K (bool * kbuf * Z) :=
  match n with
  | O => ret (false, dst, off)
  | S n' =>
      c <- gets (fun s => k_mem s !!! p) ;;
      dst' <- to_kbuf dst off p 1 ;;
      if c =? 0 then ret (true, dst', off) else copyinstr_page n' dst' (off + 1) (p + 1)
  end.

Definition copyinstr_round (pagetable : Z) (x : bool * kbuf * Z * Z * Z) :
    K (bool * kbuf * Z * Z * Z + Z * kbuf) :=
  let '(got_null, dst, srcva, off, max) := x in
  if negb (negb got_null && (0 <? max)) then
    ret (inr (if got_null then 0 else -1, dst)) else
  let va0 := PGROUNDDOWN srcva in
  pa0 <- walkaddr pagetable va0 ;;
  if pa0 =? 0 then ret (inr (-1, dst)) else
  let n := chunk srcva max in
  r <- copyinstr_page (Z.to_nat n) dst off (pa0 + (srcva - va0)) ;;
  let '(got_null, dst, off') := r in
  ret (inl (got_null, dst, u64 (va0 + PGSIZE), off', max - (off' - off))).

Definition copyinstr (pagetable : Z) (dst : kbuf) (srcva max : Z) : K (Z * kbuf) :=
  loopz (max / PGSIZE + 3) (copyinstr_round pagetable) (false, dst, srcva, 0, max).

End Vm.
