(* ===== verification/Pagetable.v ===== *)
(** * What a page table represents, and the walks of kernel/vm.c

    [pt m root T L] says that the page at [root] is the root of a well-formed
    Sv39 table in memory [m]; [vm s root T L l] adds the allocator's free list
    [l].  The lemmas give the effect of each operation of Vm.v on them. *)

From S2P Require Import Prelude Monad Riscv Kstring Kstate Spinlock Printf Kalloc Vm.

(** ** Memory by pages *)

(** The page an address is in. *)

Definition pg (x : Z) : Z := x - x mod PGSIZE.

(** The memories agree outside the pages [P]. *)

Definition same_except (P : gset Z) (m m' : mem) : Prop :=
  forall x, pg x ∉ P -> m' !!! x = m !!! x.

(** ** Page tables in memory *)

Section Pt.
Context `{KI : KernelImage}.

(** The indices that lead to the leaf table of [va], and the page that a path
    of three indices maps. *)

Definition path (va : Z) : list Z := [PX 2 va; PX 1 va].

Definition va_of (i2 i1 i0 : Z) : Z := i2 * 2 ^ 30 + i1 * 2 ^ 21 + i0 * 2 ^ 12.

(** The entry that points to the table page [b]. *)

Definition node_pte (b : Z) : Z := Z.lor (PA2PTE b) PTE_V.

(** A valid leaf entry: some of R, W and X is set. *)

Definition leaf_pte (w : Z) : Prop :=
  0 <= w < 2 ^ 64 /\ Z.land w PTE_V <> 0 /\ Z.land w (Z.lor (Z.lor PTE_R PTE_W) PTE_X) <> 0.

(** The tree of table pages: [T] gives the page at the end of a path. *)

Record ptree (root : Z) (T : gmap (list Z) Z) : Prop := {
  pt_root : T !! [] = Some root;
  pt_inj p q a : T !! p = Some a -> T !! q = Some a -> p = q;
  pt_page p a : T !! p = Some a -> page_ok a;
  pt_closed p i b : T !! (p ++ [i]) = Some b ->
    0 <= i < 512 /\ (length p < 2)%nat /\ is_Some (T !! p);
}.

(** The words of the table pages are those of the tree and of the leaves [L]. *)

Record pt (m : mem) (root : Z) (T : gmap (list Z) Z) (L : gmap Z Z) : Prop := {
  pt_tree : ptree root T;
  pt_node p a i : T !! p = Some a -> (length p < 2)%nat -> 0 <= i < 512 ->
    load64 m (pte_at a i) = from_option node_pte 0 (T !! (p ++ [i]));
  pt_leaf i2 i1 i0 a : T !! [i2; i1] = Some a -> 0 <= i0 < 512 ->
    load64 m (pte_at a i0) = default 0 (L !! va_of i2 i1 i0);
  pt_dom va w : L !! va = Some w ->
    va mod PGSIZE = 0 /\ 0 <= va < MAXVA /\ leaf_pte w /\ is_Some (T !! path va);
}.

(** The pages of the tables. *)

Definition tables (T : gmap (list Z) Z) : gset Z := map_img T.

(** ** Lemmas: memory by pages *)

#[export] Instance same_except_preorder P : PreOrder (same_except P).
Proof. split; [done|]. intros m1 m2 m3 H1 H2 x Hx. by rewrite H2, H1. Qed.

Lemma same_except_mono P Q m m' : P ⊆ Q -> same_except P m m' -> same_except Q m m'.
Proof. intros HPQ H x Hx. apply H. set_solver. Qed.

Lemma same_except_trans P Q R m1 m2 m3 :
  same_except P m1 m2 -> same_except Q m2 m3 -> P ⊆ R -> Q ⊆ R -> same_except R m1 m3.
Proof.
  intros H1 H2 HP HQ. transitivity m2.
  - by apply (same_except_mono P).
  - by apply (same_except_mono Q).
Qed.

Lemma same_except_sym P m m' : same_except P m m' -> same_except P m' m.
Proof. intros H x Hx. by rewrite H. Qed.

Lemma pg_in a x : a mod PGSIZE = 0 -> a <= x < a + PGSIZE -> pg x = a.
Proof. unfold pg, PGSIZE. intros. dlia. Qed.

Lemma in_pg x : pg x <= x < pg x + PGSIZE.
Proof. unfold pg, PGSIZE. dlia. Qed.

Lemma pg_out a x : a mod PGSIZE = 0 -> pg x <> a -> ~ (a <= x < a + PGSIZE).
Proof. intros Ha Hx H. by apply Hx, pg_in. Qed.

Lemma same_memset m a c : a mod PGSIZE = 0 -> same_except {[a]} m (memset m a c PGSIZE).
Proof.
  intros Ha x Hx. pose proof (pg_out a x Ha ltac:(set_solver)).
  rewrite memset_lookup by (unfold PGSIZE; lia). zcase; done.
Qed.

Lemma same_store m a i v :
  a mod PGSIZE = 0 -> 0 <= i < 512 -> same_except {[a]} m (store64 m (pte_at a i) v).
Proof.
  intros Ha Hi x Hx. pose proof (pg_out a x Ha ltac:(set_solver)).
  apply store_other. unfold pte_at, PGSIZE in *. lia.
Qed.

Lemma same_store0 m a v : a mod PGSIZE = 0 -> same_except {[a]} m (store64 m a v).
Proof.
  intros Ha. pose proof (same_store m a 0 v Ha ltac:(lia)) as H.
  by replace (pte_at a 0) with a in H by (unfold pte_at; lia).
Qed.

Lemma load_same P m m' a i :
  same_except P m m' -> a mod PGSIZE = 0 -> 0 <= i < 512 -> a ∉ P ->
  load64 m' (pte_at a i) = load64 m (pte_at a i).
Proof.
  intros H Ha Hi Hn. apply load_ext. intros x Hx. apply H.
  rewrite (pg_in a); [done|done|]. unfold pte_at, PGSIZE in *. lia.
Qed.

(** ** Lemmas: page-table entries *)

Lemma page_phys a : page_ok a -> 0 < a < 2 ^ 32 /\ a mod PGSIZE = 0.
Proof.
  intros [Ha Hr]. pose proof kend_range. unfold PHYSTOP, KERNBASE in *. lia.
Qed.

Lemma node_pte_V b : page_ok b -> Z.land (node_pte b) PTE_V = PTE_V.
Proof.
  intros Hb. apply page_phys in Hb as [Hb _]. unfold node_pte.
  rewrite PTE_land_make; [done|lia|done|done].
Qed.

Lemma node_pte_pa b : page_ok b -> PTE2PA (node_pte b) = b.
Proof. intros Hb. apply page_phys in Hb as [Hb Ha]. unfold node_pte. rewrite PTE2PA_make; [done|lia|done|done]. Qed.

Lemma node_pte_rwx b :
  page_ok b -> Z.land (node_pte b) (Z.lor (Z.lor PTE_R PTE_W) PTE_X) = 0.
Proof.
  intros Hb. apply page_phys in Hb as [Hb _]. unfold node_pte.
  rewrite PTE_land_make; [done|lia|done|done].
Qed.

Lemma node_pte_range b : page_ok b -> 0 <= node_pte b < 2 ^ 64.
Proof. intros Hb. apply page_phys in Hb as [Hb _]. unfold node_pte. apply PTE_make_range; [lia|done]. Qed.

Lemma u64_node_pte b : page_ok b -> u64 (node_pte b) = node_pte b.
Proof. intros. by apply u64_small, node_pte_range. Qed.

Lemma va_of_path va :
  0 <= va < MAXVA -> va mod PGSIZE = 0 -> va_of (PX 2 va) (PX 1 va) (PX 0 va) = va.
Proof. intros Hva Ha. pose proof (PX_split va Hva). unfold va_of. lia. Qed.

Lemma path_va_of i2 i1 i0 :
  0 <= i2 < 512 -> 0 <= i1 < 512 -> 0 <= i0 < 512 ->
  path (va_of i2 i1 i0) = [i2; i1] /\ PX 0 (va_of i2 i1 i0) = i0.
Proof.
  intros H2 H1 H0. unfold path, va_of. rewrite !PX_eq by lia.
  change (12 + 9 * 2) with 30. change (12 + 9 * 1) with 21. change (12 + 9 * 0) with 12.
  change (2 ^ 30) with 1073741824. change (2 ^ 21) with 2097152. change (2 ^ 12) with 4096.
  split; [f_equal; [|f_equal]|]; dlia.
Qed.

Lemma PX_512 l va : 0 <= l -> 0 <= va < MAXVA -> 0 <= PX l va < 512.
Proof. intros Hl Hva. change MAXVA with (2 ^ 38) in Hva. apply PX_range; lia. Qed.

Lemma tables_spec (T : gmap (list Z) Z) a : a ∈ tables T <-> exists p, T !! p = Some a.
Proof. unfold tables. apply elem_of_map_img. Qed.

Lemma tables_insert (T : gmap (list Z) Z) p b :
  T !! p = None -> tables (<[p := b]> T) = {[b]} ∪ tables T.
Proof. intros H. unfold_leibniz. by apply map_img_insert_notin. Qed.

(** ** Lemmas: changes to a page table *)

Lemma pt_table_in m root T L p a : pt m root T L -> T !! p = Some a -> a ∈ tables T.
Proof. intros _ H. apply tables_spec. eauto. Qed.

Lemma ptree_aligned root T p a : ptree root T -> T !! p = Some a -> a mod PGSIZE = 0.
Proof. intros H Ha. by eapply page_phys, pt_page. Qed.

(** What happens outside its pages does not matter to a table. *)

Lemma pt_ext m m' root T L P :
  pt m root T L -> same_except P m m' -> tables T ## P -> pt m' root T L.
Proof.
  intros [Ht Hn Hl Hd] Hm HP.
  assert (forall p a i, T !! p = Some a -> 0 <= i < 512 ->
            load64 m' (pte_at a i) = load64 m (pte_at a i)) as Hk.
  { intros p a i Ha Hi. apply (load_same P); [done|by eapply ptree_aligned|done|].
    assert (a ∈ tables T) by (apply tables_spec; eauto). set_solver. }
  constructor; try done.
  - intros p a i Ha Hlen H. erewrite Hk by done. by apply Hn.
  - intros i2 i1 i0 a Ha H. erewrite Hk by done. by apply Hl.
Qed.

(** Two entries of tables are the same word or do not overlap. *)

Lemma pte_at_store m a b i j v :
  a mod PGSIZE = 0 -> b mod PGSIZE = 0 -> 0 <= i < 512 -> 0 <= j < 512 ->
  load64 (store64 m (pte_at b j) v) (pte_at a i) =
    if bool_decide (a = b /\ i = j) then u64 v else load64 m (pte_at a i).
Proof.
  intros Ha Hb Hi Hj. case_bool_decide as E.
  - destruct E as [-> ->]. apply load64_store64.
  - apply load_store_ne. unfold pte_at, PGSIZE in *.
    destruct (decide (a = b)) as [->|]; [|dlia]. assert (i <> j) by naive_solver. lia.
Qed.

Lemma app_snoc_inj (p q : list Z) i j : p ++ [i] = q ++ [j] -> p = q /\ i = j.
Proof. apply app_inj_tail. Qed.

(** Hanging the page [b] into the tree at path [p]. *)

Lemma snoc_ne (p q : list Z) i : (length q <= length p)%nat -> p ++ [i] <> q.
Proof. intros H E. apply (f_equal length) in E. rewrite length_app in E. simpl in E. lia. Qed.

Lemma is_Some_insert (T : gmap (list Z) Z) p q b : is_Some (T !! q) -> is_Some (<[p := b]> T !! q).
Proof. intros H. apply lookup_insert_is_Some'. by right. Qed.

Lemma ptree_none_app root T q r : ptree root T -> T !! q = None -> T !! (q ++ r) = None.
Proof.
  intros Ht Hq. induction r as [|j r IH] using rev_ind; [by rewrite app_nil_r|].
  rewrite app_assoc. destruct (T !! ((q ++ r) ++ [j])) eqn:E; [|done].
  apply (pt_closed _ _ Ht) in E as (_ & _ & H). rewrite IH in H. by destruct H.
Qed.

Lemma ptree_none root T q j : ptree root T -> T !! q = None -> T !! (q ++ [j]) = None.
Proof. apply ptree_none_app. Qed.

Lemma ptree_extend root T p a i b :
  ptree root T -> T !! p = Some a -> (length p < 2)%nat -> 0 <= i < 512 ->
  page_ok b -> b ∉ tables T -> ptree root (<[p ++ [i] := b]> T).
Proof.
  intros [Hr Hinj Hp Hc] Ha Hlen Hi Hb Hnin. rewrite tables_spec in Hnin. constructor.
  - rewrite lookup_insert_ne; [done|]. by destruct p.
  - intros q q' c. rewrite !lookup_insert_Some. naive_solver.
  - intros q c. rewrite lookup_insert_Some. naive_solver.
  - intros q j c. rewrite lookup_insert_Some. intros [[E <-]|[? Hq]].
    + apply app_snoc_inj in E as [-> ->]. split; [done|]. split; [done|]. by apply is_Some_insert.
    + apply Hc in Hq as (? & ? & ?). split; [done|]. split; [done|]. by apply is_Some_insert.
Qed.

(** No leaf hangs below a missing table. *)

Lemma pt_no_leaf m root T L i2 i1 i0 :
  pt m root T L -> T !! [i2; i1] = None -> 0 <= i2 < 512 -> 0 <= i1 < 512 -> 0 <= i0 < 512 ->
  L !! va_of i2 i1 i0 = None.
Proof.
  intros Hpt Hn H2 H1 H0. destruct (L !! _) eqn:E; [|done].
  apply (pt_dom _ _ _ _ Hpt) in E as (_ & _ & _ & HT).
  destruct (path_va_of i2 i1 i0) as [E _]; try done. rewrite E, Hn in HT. by destruct HT.
Qed.

(** The same in memory, with [b] zeroed first. *)

Lemma pt_extend m root T L p a i b :
  pt m root T L -> T !! p = Some a -> (length p < 2)%nat -> 0 <= i < 512 ->
  T !! (p ++ [i]) = None -> page_ok b -> b ∉ tables T ->
  pt (store64 (memset m b 0 PGSIZE) (pte_at a i) (node_pte b)) root (<[p ++ [i] := b]> T) L.
Proof.
  intros Hpt Ha Hlen Hi Hnone Hb Hnin. pose proof Hpt as [Ht Hn Hl Hd].
  pose proof (ptree_extend root T p a i b Ht Ha Hlen Hi Hb Hnin) as Ht'.
  rewrite tables_spec in Hnin.
  set (m' := store64 _ _ _).
  assert (forall q c j, <[p ++ [i] := b]> T !! q = Some c -> 0 <= j < 512 ->
    load64 m' (pte_at c j) =
      if bool_decide (q = p /\ j = i) then node_pte b
      else if bool_decide (q = p ++ [i]) then 0 else load64 m (pte_at c j)) as Hm'.
  { intros q c j Hq Hj. pose proof (ptree_aligned _ _ _ _ Ht' Hq) as Hcal.
    pose proof (ptree_aligned _ _ _ _ Ht Ha) as Haal. subst m'.
    rewrite pte_at_store by done. apply lookup_insert_Some in Hq as [[<- <-]|[Hne Hq]].
    - rewrite (bool_decide_false (p ++ [i] = p /\ _)) by (intros [E _]; by apply snoc_ne in E).
      rewrite (bool_decide_true (p ++ [i] = _)) by done.
      rewrite bool_decide_false by (intros [-> _]; eauto).
      apply load_memset_0; unfold pte_at, PGSIZE; lia.
    - rewrite (bool_decide_false (q = _)) by done.
      rewrite (bool_decide_ext (c = a /\ j = i) (q = p /\ j = i)).
      + case_bool_decide; [by apply u64_node_pte|].
        apply (load_same {[b]}); [|done|done|set_solver].
        apply same_memset. by eapply page_phys.
      + split; intros [-> ->]; split; try done; [by eapply (pt_inj _ _ Ht)|by simplify_eq]. }
  constructor; [done|..].
  - intros q c j Hq Hlq Hj. rewrite (Hm' q) by done. case_bool_decide as E.
    { destruct E as [-> ->]. by rewrite lookup_insert_eq. }
    rewrite lookup_insert_ne by (intros E'; apply app_snoc_inj in E' as [-> ->]; by apply E).
    case_bool_decide as E'.
    + subst q. by rewrite (ptree_none root T (p ++ [i])).
    + rewrite lookup_insert_ne in Hq by done. by apply Hn.
  - intros i2 i1 i0 c Hq Hj. rewrite (Hm' [i2; i1]) by done.
    rewrite bool_decide_false by (intros [<- _]; simpl in Hlen; lia).
    case_bool_decide as E.
    + assert (p = [i2] /\ i = i1) as [-> ->] by (by apply (app_snoc_inj p [i2])).
      destruct (pt_closed _ _ Ht [] i2 a Ha) as (Hi2 & _ & _).
      by rewrite (pt_no_leaf m root T L).
    + rewrite lookup_insert_ne in Hq by done. by apply Hl.
  - intros va w HL. apply Hd in HL as (? & ? & ? & HT). split; [done|]. split; [done|].
    split; [done|]. by apply is_Some_insert.
Qed.

(** A page of zeroes is an empty page table. *)

Lemma pt_empty m root :
  page_ok root -> (forall x, root <= x < root + PGSIZE -> m !!! x = 0) ->
  pt m root {[[] := root]} ∅.
Proof.
  intros Hok Hz. split.
  - split.
    + apply lookup_singleton_eq.
    + intros p q a [<- _]%lookup_singleton_Some [<- _]%lookup_singleton_Some. done.
    + intros p a [_ <-]%lookup_singleton_Some. done.
    + intros p i b [H _]%lookup_singleton_Some. by destruct p.
  - intros p a i [<- <-]%lookup_singleton_Some _ Hi. simpl.
    rewrite lookup_singleton_ne by done. simpl.
    assert (forall n x, root <= x -> x + Z.of_nat n <= root + PGSIZE -> load n m x = 0) as Hl.
    { induction n as [|n IH]; intros x H1 H2; [done|].
      change (m !!! x + 256 * load n m (x + 1) = 0).
      rewrite Hz, IH by lia. done. }
    apply Hl; unfold pte_at, PGSIZE in *; lia.
  - intros i2 i1 i0 a [H _]%lookup_singleton_Some. done.
  - intros va w H. by rewrite lookup_empty in H.
Qed.

(** Writing the entry of [va] in its leaf table: [o] is the new leaf, or none. *)

Definition set_leaf (L : gmap Z Z) (va : Z) (o : option Z) : gmap Z Z :=
  match o with Some w => <[va := w]> L | None => delete va L end.

Lemma set_leaf_lookup L va o va' :
  set_leaf L va o !! va' = if bool_decide (va' = va) then o else L !! va'.
Proof.
  destruct o; simpl; case_bool_decide; subst;
    by rewrite ?lookup_insert_eq, ?lookup_insert_ne, ?lookup_delete_eq, ?lookup_delete_ne.
Qed.

Lemma va_of_inj i2 i1 i0 va :
  0 <= i2 < 512 -> 0 <= i1 < 512 -> 0 <= i0 < 512 -> 0 <= va < MAXVA -> va mod PGSIZE = 0 ->
  va_of i2 i1 i0 = va <-> [i2; i1] = path va /\ i0 = PX 0 va.
Proof.
  intros H2 H1 H0 Hva Hal. split.
  - intros <-. destruct (path_va_of i2 i1 i0) as [-> ->]; done.
  - intros [[= -> ->] ->]. by apply va_of_path.
Qed.

Lemma ptree_path_range root T i2 i1 a :
  ptree root T -> T !! [i2; i1] = Some a -> 0 <= i2 < 512 /\ 0 <= i1 < 512.
Proof.
  intros Ht Ha. destruct (pt_closed _ _ Ht [i2] i1 a Ha) as (H1 & _ & [b Hb]).
  by destruct (pt_closed _ _ Ht [] i2 b Hb) as (H2 & _).
Qed.

Lemma pt_set_leaf m root T L va a o :
  pt m root T L -> T !! path va = Some a -> 0 <= va < MAXVA -> va mod PGSIZE = 0 ->
  (forall w, o = Some w -> leaf_pte w) ->
  pt (store64 m (pte_at a (PX 0 va)) (default 0 o)) root T (set_leaf L va o).
Proof.
  intros Hpt Ha Hva Hal Ho. pose proof Hpt as [Ht Hn Hl Hd].
  pose proof (PX_512 0 va ltac:(lia) Hva) as Hi.
  pose proof (ptree_aligned _ _ _ _ Ht Ha) as Haal.
  constructor; [done|..].
  - intros q c j Hq Hlq Hj. rewrite pte_at_store by (done || by eapply ptree_aligned).
    rewrite bool_decide_false; [by apply Hn|]. intros [-> _].
    assert (q = path va) as -> by (by eapply (pt_inj _ _ Ht)). simpl in Hlq. lia.
  - intros i2 i1 i0 c Hq Hj. rewrite pte_at_store by (done || by eapply ptree_aligned).
    destruct (ptree_path_range _ _ _ _ _ Ht Hq) as [H2 H1].
    rewrite set_leaf_lookup. rewrite (bool_decide_ext (c = a /\ _) (va_of i2 i1 i0 = va)).
    + case_bool_decide; [|by apply Hl]. apply u64_small.
      destruct o as [w|]; simpl; [by apply (Ho w)|lia].
    + rewrite va_of_inj by done. split; intros [E ->]; split; try done.
      * subst c. by eapply (pt_inj _ _ Ht).
      * rewrite E in Hq. by simplify_eq.
  - intros va' w. rewrite set_leaf_lookup. case_bool_decide; [|by apply Hd].
    intros ->. subst va'. split; [done|]. split; [done|]. split; [auto|by eexists].
Qed.

(** *** Following a table *)

(** The address of the leaf entry of [va], 0 when its leaf table is missing. *)

Definition leaf_addr (T : gmap (list Z) Z) (va : Z) : Z :=
  match T !! path va with Some a => pte_at a (PX 0 va) | None => 0 end.

Lemma runs_walk_from_levels s root T L va levels p a :
  pt (k_mem s) root T L -> 0 <= va < MAXVA -> Forall (fun l => 0 <= l) levels ->
  T !! p = Some a -> p ++ ((fun l => PX l va) <$> levels) = path va ->
  runs (walk_from levels a va false) s (leaf_addr T va) s.
Proof.
  intros Hpt Hva Hl. pose proof Hpt as [Ht Hn _ _]. revert p a.
  induction Hl as [|l levels Hl0 _ IH]; intros p a Ha Hp; simpl.
  - rewrite app_nil_r in Hp. subst p. unfold leaf_addr. rewrite Ha. apply runs_ret.
  - pose proof (f_equal length Hp) as Hlen. rewrite length_app in Hlen. simpl in Hlen.
    eapply runs_bind; [apply runs_mload64|]. cbv zeta.
    rewrite (Hn p a (PX l va)) by (done || lia || by apply PX_512).
    rewrite fmap_cons, cons_middle, app_assoc in Hp.
    destruct (T !! (p ++ [PX l va])) as [b|] eqn:Eb; cbn [from_option].
    + pose proof (pt_page _ _ Ht _ _ Eb) as Hb. rewrite node_pte_V, node_pte_pa by done.
      by apply (IH (p ++ [PX l va])).
    + assert (T !! path va = None) as HN. by (rewrite <- Hp; by eapply ptree_none_app).
      unfold leaf_addr. rewrite HN, Z.land_0_l. apply runs_ret.
Qed.

Lemma runs_walk s root T L va :
  pt (k_mem s) root T L -> 0 <= va < MAXVA -> runs (walk root va false) s (leaf_addr T va) s.
Proof.
  intros Hpt Hva. unfold walk. destruct (Z.leb_spec MAXVA va); [lia|].
  eapply (runs_walk_from_levels s root T L va [2; 1] [] root); try done.
  - repeat constructor; lia.
  - eapply pt_root, pt_tree, Hpt.
Qed.

Lemma leaf_addr_0 m root T L va :
  pt m root T L -> 0 <= va < MAXVA ->
  match T !! path va with Some a => 0 < leaf_addr T va | None => leaf_addr T va = 0 end.
Proof.
  intros Hpt Hva. unfold leaf_addr. destruct (T !! path va) as [a|] eqn:E; [|done].
  pose proof (page_phys a (pt_page _ _ (pt_tree _ _ _ _ Hpt) _ _ E)).
  pose proof (PX_512 0 va ltac:(lia) Hva). unfold pte_at. lia.
Qed.

Lemma load_leaf m root T L va :
  pt m root T L -> 0 <= va < MAXVA -> va mod PGSIZE = 0 -> is_Some (T !! path va) ->
  load64 m (leaf_addr T va) = default 0 (L !! va).
Proof.
  intros Hpt Hva Hal [a Ha]. unfold leaf_addr. rewrite Ha.
  rewrite (pt_leaf _ _ _ _ Hpt (PX 2 va) (PX 1 va)); [by rewrite va_of_path|done|by apply PX_512].
Qed.

(** Walking to a mapped page finds its entry. *)

Lemma runs_walk_mapped s root T L va w :
  pt (k_mem s) root T L -> L !! va = Some w ->
  runs (walk root va false) s (leaf_addr T va) s /\ leaf_addr T va <> 0 /\
  load64 (k_mem s) (leaf_addr T va) = w.
Proof.
  intros Hpt HL. destruct (pt_dom _ _ _ _ Hpt va w HL) as (Hal & Ha & _ & HT).
  split; [by eapply runs_walk|]. split.
  - pose proof (leaf_addr_0 _ _ _ _ _ Hpt Ha) as Hpos. destruct HT as [b Hb]. rewrite Hb in Hpos. lia.
  - rewrite (load_leaf _ root T L) by done. by rewrite HL.
Qed.

(** *** The allocator, as the paging code sees it *)

Definition alloc_ok (s : kst) (l : list Z) : Prop :=
  (k_started s = 0 \/ exists ci c, cur_cont s ci c) /\
  freelist s l /\ Lkmem ∉ k_held s /\ Lpr ∉ k_held s.

(** No page can be had: none is free, or the container is at its limit. *)

Definition exhausted (s : kst) (l : list Z) : Prop :=
  l = [] \/ k_started s <> 0 /\ exists ci c, cur_cont s ci c /\ over_limit ci c = true.

(** What paging code does to the rest of the state. *)

Definition kstep (s s' : kst) : Prop := kframe s s' /\ k_held s' = k_held s.

#[export] Instance kstep_preorder : PreOrder kstep.
Proof.
  split; [by split|]. intros s1 s2 s3 [H1 E1] [H2 E2]. split; [by transitivity s2|congruence].
Qed.

Lemma kframe_cur_cont s s' ci c :
  kframe s s' -> cur_cont s ci c -> exists c', cur_cont s' ci c'.
Proof.
  intros Hf (i & p & Hcur & Hp & Hpc & Hc).
  destruct (Forall2_lookup_l _ _ _ _ _ (kframe_conts _ _ Hf) Hc) as (c' & Hc' & _).
  exists c', i, p. by rewrite (kframe_cur _ _ Hf), (kframe_procs _ _ Hf).
Qed.

Lemma kstep_alloc_ok s s' l l' :
  kstep s s' -> alloc_ok s l -> freelist s' l' -> alloc_ok s' l'.
Proof.
  intros [Hf Hh] (Hc & _ & Hk & Hp) Hl. unfold alloc_ok. rewrite Hh. split; [|done].
  rewrite (kframe_started _ _ Hf). destruct Hc as [?|(ci & c & Hc)]; [by left|right].
  destruct (kframe_cur_cont _ _ _ _ Hf Hc) as [c' Hc']. eauto.
Qed.

Lemma kstep_mem s m : kstep s (set_k_mem m s).
Proof. split; [apply kframe_mem|done]. Qed.

Lemma alloc_ok_mem s l m P :
  alloc_ok s l -> same_except P (k_mem s) m -> list_to_set l ## P ->
  alloc_ok (set_k_mem m s) l.
Proof.
  intros Hok Hm HP. eapply kstep_alloc_ok; [apply kstep_mem|done|].
  pose proof Hok as (_ & Hfl & _). apply freelist_mem; [done|].
  intros a x Ha Hx. apply Hm. rewrite (pg_in a x); [|by eapply freelist_page|done].
  set_solver.
Qed.

Lemma charge_frame s ci c d : cur_cont s ci c -> kstep s (charge ci c d s).
Proof. intros (i & p & _ & _ & _ & Hc). split; [by apply kframe_memused|done]. Qed.

(** *** Accounting *)

(** The count of a container after [k] more pages were charged to it. *)

Definition used_after (used : Z) (k : nat) : Z := if (k =? 0)%nat then used else i32 (used + Z.of_nat k).

(** From [s] to [s'] the free list [l] has become shorter by [k] pages, to [l'], and they
    were charged to the container that runs. *)

Definition spent (k : nat) (s : kst) (l : list Z) (s' : kst) (l' : list Z) : Prop :=
  length l = (k + length l')%nat /\ k_started s' = k_started s /\
  (k_started s <> 0 -> forall ci c, cur_cont s ci c -> cur_cont s' ci (set_c_memused (used_after (c_memused c) k) c)).

Definition spent_upto (n : nat) (s : kst) (l : list Z) (s' : kst) (l' : list Z) : Prop :=
  exists k, (k <= n)%nat /\ spent k s l s' l'.

(** There are no more than [n] pages to be had: no more are free, or at most [n] pages
    later the container is at its limit. *)

Definition scarce (n : nat) (s : kst) (l : list Z) : Prop :=
  (length l <= n)%nat \/ k_started s <> 0 /\ exists ci c k, (k <= n)%nat /\ cur_cont s ci c /\
    over_limit ci (set_c_memused (used_after (c_memused c) k) c) = true.

Lemma used_after_add u j k : used_after (used_after u j) k = used_after u (j + k).
Proof.
  unfold used_after. destruct j as [|j], k as [|k]; cbn [Nat.eqb Nat.add]; [done|done|by rewrite Nat.add_0_r|].
  rewrite i32_add_l. f_equal. lia.
Qed.

Lemma set_memused_used c j k :
  set_c_memused (used_after (c_memused (set_c_memused (used_after (c_memused c) j) c)) k) (set_c_memused (used_after (c_memused c) j) c) =
  set_c_memused (used_after (c_memused c) (j + k)) c.
Proof. cbn [c_memused set_c_memused]. by rewrite used_after_add. Qed.

Lemma spent_refl s l : spent 0 s l s l.
Proof. split; [done|]. split; [done|]. intros _ ci c Hc. by destruct c. Qed.

Lemma spent_trans j k s1 l1 s2 l2 s3 l3 : spent j s1 l1 s2 l2 -> spent k s2 l2 s3 l3 -> spent (j + k) s1 l1 s3 l3.
Proof.
  intros (H1 & H2 & H3) (H4 & H5 & H6). split; [lia|]. split; [congruence|]. intros Hst ci c Hc.
  rewrite <- set_memused_used. apply H6; [congruence|]. by apply H3.
Qed.

Lemma spent_mem k s l s' l' m : spent k s l s' l' -> spent k s l (set_k_mem m s') l'.
Proof. intros (H1 & H2 & H3). by split. Qed.

Lemma spent_upto_mono m n s l s' l' : (m <= n)%nat -> spent_upto m s l s' l' -> spent_upto n s l s' l'.
Proof. intros Hmn (k & Hk & H). exists k. split; [lia|done]. Qed.

Lemma spent_upto_trans m n s1 l1 s2 l2 s3 l3 :
  spent_upto m s1 l1 s2 l2 -> spent_upto n s2 l2 s3 l3 -> spent_upto (m + n) s1 l1 s3 l3.
Proof. intros (j & Hj & H1) (k & Hk & H2). exists (j + k)%nat. split; [lia|by eapply spent_trans]. Qed.

Lemma scarce_mono m n s l : (m <= n)%nat -> scarce m s l -> scarce n s l.
Proof.
  intros Hmn [H|(Hst & ci & c & k & Hk & H)]; [left; lia|right]. split; [done|]. exists ci, c, k. split; [lia|done].
Qed.

Lemma cur_cont_unique s ci c ci' c' : cur_cont s ci c -> cur_cont s ci' c' -> ci = ci' /\ c = c'.
Proof. intros (i & p & H1 & H2 & H3 & H4) (i' & p' & H5 & H6 & H7 & H8). simplify_eq. by simplify_eq. Qed.

Lemma scarce_later m n s l s' l' : alloc_ok s l -> spent_upto m s l s' l' -> scarce n s' l' -> scarce (m + n) s l.
Proof.
  intros (Hcur & _) (j & Hj & H1 & H2 & H3) [H|(Hst & ci & c & k & Hk & Hc & Hov)]; [left; lia|]. right. rewrite H2 in Hst. split; [done|].
  destruct Hcur as [?|(ci0 & c0 & Hc0)]; [done|]. destruct (cur_cont_unique _ _ _ _ _ Hc (H3 Hst _ _ Hc0)) as [-> ->].
  exists ci0, c0, (j + k)%nat. split; [lia|]. split; [done|]. by rewrite set_memused_used in Hov.
Qed.

Lemma exhausted_scarce n s l : exhausted s l -> scarce n s l.
Proof.
  intros [->|(Hst & ci & c & Hc & Hov)]; [left; cbn; lia|right]. split; [done|]. exists ci, c, 0%nat. split; [lia|]. split; [done|].
  replace (set_c_memused _ c) with c; [done|]. by destruct c.
Qed.

Lemma taken_cases s s1 l :
  alloc_ok s l -> kstep s s1 -> k_mem s1 = k_mem s ->
  (k_started s <> 0 -> forall ci c, cur_cont s ci c -> cur_cont s1 ci (set_c_memused (used_after (c_memused c) 1) c)) ->
  runs kalloc s (hd 0 l) (taken l s1) -> freelist (taken l s1) (tail l) ->
  (l = [] /\ exists s', runs kalloc s 0 s' /\ kstep s s' /\ k_mem s' = k_mem s /\
     alloc_ok s' l) \/
  (exists a l' s', l = a :: l' /\ runs kalloc s a s' /\ kstep s s' /\
     k_mem s' = memset (k_mem s) a 5 PGSIZE /\ alloc_ok s' l' /\ spent 1 s l s' l').
Proof.
  intros Hok Hs1 Hm1 Hch Hr Hfl'. destruct l as [|a l]; simpl in *.
  - left. split; [done|]. exists s1. do 3 (split; [done|]). by eapply kstep_alloc_ok.
  - right. exists a, l. eexists. split; [done|]. split; [exact Hr|].
    assert (kstep s (set_k_mem (memset (k_mem s1) a 5 PGSIZE)
              (set_k_freelist (load64 (k_mem s1) a) s1))) as Hs2.
    { etransitivity; [exact Hs1|]. etransitivity; [|apply kstep_mem].
      split; [apply kframe_freelist|done]. }
    split; [exact Hs2|]. split; [cbn; by rewrite Hm1|]. split; [by eapply kstep_alloc_ok|].
    split; [done|]. split; [exact (kframe_started _ _ (proj1 Hs1))|exact Hch].
Qed.

Lemma kalloc_cases s l :
  alloc_ok s l ->
  (exhausted s l /\ exists s', runs kalloc s 0 s' /\ kstep s s' /\ k_mem s' = k_mem s /\
     alloc_ok s' l) \/
  (exists a l' s', l = a :: l' /\ runs kalloc s a s' /\ kstep s s' /\
     k_mem s' = memset (k_mem s) a 5 PGSIZE /\ alloc_ok s' l' /\ spent 1 s l s' l').
Proof.
  intros Hok. pose proof Hok as (Hc & Hfl & Hk & Hp).
  destruct (decide (k_started s = 0)) as [Hst|Hst].
  - destruct (kalloc_boot s l Hst Hfl Hk) as [Hr Hf].
    destruct (taken_cases s s l Hok ltac:(reflexivity) eq_refl ltac:(done) Hr Hf) as [[Hl H]|?]; [|by right].
    left. split; [by left|done].
  - destruct Hc as [?|(ci & c & Hc)]; [done|]. destruct (over_limit ci c) eqn:Hov.
    + left. split; [right; eauto|].
      exists (emit (bytes_of_string mem_limit_msg) s).
      assert (kstep s (emit (bytes_of_string mem_limit_msg) s)) as Hs
        by (split; [apply kframe_emit|done]).
      split; [by eapply kalloc_over|]. split; [exact Hs|]. split; [reflexivity|]. by eapply kstep_alloc_ok.
    + destruct (kalloc_under s l ci c Hst Hc Hfl Hk Hp Hov) as [Hr Hf].
      destruct (taken_cases s (charge ci c 1 s) l Hok (charge_frame _ _ _ _ Hc) eq_refl) as [[Hl H]|?]; [|done|done| |by right].
      * intros _ ci' c' Hc'. destruct (cur_cont_unique _ _ _ _ _ Hc' Hc) as [-> ->]. destruct Hc as (i & p & H1 & H2 & H3 & H4).
        exists i, p. split_and!; try done. apply list_lookup_insert_eq. by eapply lookup_lt_Some.
      * left. split; [by left|done].
Qed.

Lemma kfree_step s l pa :
  alloc_ok s l -> page_ok pa -> pa ∉ l ->
  exists s', runs (kfree pa) s tt s' /\ kstep s s' /\ alloc_ok s' (pa :: l) /\
    same_except {[pa]} (k_mem s) (k_mem s').
Proof.
  intros Hok Hpa Hnin. pose proof Hok as (Hc & Hfl & Hk & Hp).
  assert (forall s1, kstep s s1 -> k_mem s1 = k_mem s ->
    kstep s (freed pa s1) /\ same_except {[pa]} (k_mem s) (k_mem (freed pa s1))) as Hfr.
  { intros s1 Hs1 Hm1. split.
    - etransitivity; [exact Hs1|]. etransitivity; [apply kstep_mem|].
      split; [apply kframe_freelist|done].
    - cbn. rewrite Hm1. apply page_phys in Hpa as [_ Ha].
      etransitivity; [apply same_memset, Ha|]. by apply same_store0. }
  destruct (decide (k_started s = 0)) as [Hst|Hst].
  - destruct (kfree_boot s l pa Hst Hfl Hpa Hnin Hk) as [Hr Hf].
    destruct (Hfr s ltac:(reflexivity) eq_refl) as [Hs Hm]. exists (freed pa s).
    split; [exact Hr|]. split; [exact Hs|]. split; [by eapply kstep_alloc_ok|exact Hm].
  - destruct Hc as [?|(ci & c & Hc)]; [done|].
    destruct (kfree_put s l ci c pa Hst Hc Hfl Hpa Hnin Hk) as [Hr Hf].
    destruct (Hfr (charge ci c (-1) s) (charge_frame _ _ _ _ Hc) eq_refl) as [Hs Hm].
    exists (freed pa (charge ci c (-1) s)).
    split; [exact Hr|]. split; [exact Hs|]. split; [by eapply kstep_alloc_ok|exact Hm].
Qed.

End Pt.

(** Facts about sets of pages, without the hypotheses about the state. *)

Ltac sets :=
  repeat match goal with
  | H : runs _ _ _ _ |- _ => clear H
  | H : k_mem _ = _ |- _ => clear H
  | H : same_except _ _ _ |- _ => clear H
  | H : pt _ _ _ _ |- _ => clear H
  | H : alloc_ok _ _ |- _ => clear H
  | H : kstep _ _ |- _ => clear H
  | H : exhausted _ _ |- _ => clear H
  | H : page_ok _ |- _ => clear H
  | H : @eq Z _ _ |- _ => clear H
  end; set_solver.

Section Vm_state.
Context `{KI : KernelImage}.

(** ** The state of the paging code *)

Record vm (s : kst) (root : Z) (T : gmap (list Z) Z) (L : gmap Z Z) (l : list Z) : Prop := {
  vm_alloc : alloc_ok s l;
  vm_pt : pt (k_mem s) root T L;
  vm_disj : list_to_set l ## tables T;
}.

(** Tables are added to [T], from the free list; memory changes nowhere else. *)

Record grows (s : kst) (T : gmap (list Z) Z) (l : list Z)
    (s' : kst) (T' : gmap (list Z) Z) (l' : list Z) : Prop := {
  gr_step : kstep s s';
  gr_mem : same_except (list_to_set l ∪ tables T) (k_mem s) (k_mem s');
  gr_sub : T ⊆ T';
  gr_pool : list_to_set l' ∪ tables T' =@{gset Z} list_to_set l ∪ tables T;
}.

Lemma grows_refl s T l : grows s T l s T l.
Proof. split; reflexivity. Qed.

Lemma grows_trans s1 T1 l1 s2 T2 l2 s3 T3 l3 :
  grows s1 T1 l1 s2 T2 l2 -> grows s2 T2 l2 s3 T3 l3 -> grows s1 T1 l1 s3 T3 l3.
Proof.
  intros [Hs Hm HT Hp] [Hs' Hm' HT' Hp']. rewrite Hp in Hm', Hp'.
  split; [by transitivity s2|by transitivity (k_mem s2)|by transitivity T2|done].
Qed.

(** A page is taken and hung into the table at path [p]. *)

Lemma vm_extend s root T L l p a i :
  vm s root T L l -> T !! p = Some a -> (length p < 2)%nat -> 0 <= i < 512 ->
  T !! (p ++ [i]) = None ->
  (exhausted s l /\ exists s', runs kalloc s 0 s' /\ vm s' root T L l /\ grows s T l s' T l) \/
  (exists b l' s1, runs kalloc s b s1 /\ page_ok b /\
     let s' := set_k_mem (store64 (memset (k_mem s1) b 0 PGSIZE) (pte_at a i) (node_pte b)) s1 in
     vm s' root (<[p ++ [i] := b]> T) L l' /\ grows s T l s' (<[p ++ [i] := b]> T) l' /\ spent 1 s l s' l').
Proof.
  intros [Hok Hpt Hd] Ha Hlen Hi Hnone.
  destruct (kalloc_cases s l Hok) as [(Hex & s' & Hr & Hs & Hm & Hok')|
    (b & l' & s1 & -> & Hr & Hs & Hm & Hok' & Hsp)].
  - left. split; [done|]. exists s'. split; [exact Hr|].
    split; [split; [exact Hok'|rewrite Hm; exact Hpt|exact Hd]|].
    split; [exact Hs|rewrite Hm|..]; reflexivity.
  - right. exists b, l', s1. split; [done|].
    assert (page_ok b) as Hb by (eapply freelist_page; [apply Hok|apply list_elem_of_here]).
    split; [done|]. cbv zeta. pose proof (page_phys b Hb) as [_ Hbal].
    pose proof (ptree_aligned _ _ _ _ (pt_tree _ _ _ _ Hpt) Ha) as Haal.
    assert (a ∈ tables T) as HaT by (apply tables_spec; eauto).
    assert (b ∉ l' /\ b ∉ tables T) as [Hbl HbT].
    { pose proof Hok as (_ & (_ & Hnd & _) & _). apply NoDup_cons in Hnd as [? _].
      split; [done|]. sets. }
    assert (same_except {[b]} (k_mem s) (k_mem s1)) as Hsm
      by (rewrite Hm; by apply same_memset).
    assert (same_except {[a; b]} (k_mem s1)
      (store64 (memset (k_mem s1) b 0 PGSIZE) (pte_at a i) (node_pte b))) as Hsm'.
    { eapply (same_except_trans {[b]} {[a]});
        [by apply same_memset|by apply same_store|sets..]. }
    split; [|split; [|exact Hsp]]; split.
    + apply (alloc_ok_mem s1 l' _ {[a; b]}); [exact Hok'|exact Hsm'|sets].
    + apply (pt_extend _ _ _ _ _ a); [|assumption..].
      apply (pt_ext (k_mem s) _ _ _ _ {[b]}); [exact Hpt|exact Hsm|sets].
    + rewrite tables_insert by done. sets.
    + etransitivity; [exact Hs|apply kstep_mem].
    + eapply same_except_trans; [exact Hsm|exact Hsm'|sets..].
    + by apply insert_subseteq.
    + rewrite tables_insert by done. sets.
Qed.

(** *** walk with [alloc] *)

(** What a step of the allocating code that needs [n] pages at most leaves: a table
    that has grown, and [r] is 0 only when no more than these could be had. *)

Definition grown (n : nat) (s : kst) (root : Z) T (L : gmap Z Z) l (r : Z) (s' : kst) T' l' : Prop :=
  vm s' root T' L l' /\ grows s T l s' T' l' /\ (if r =? 0 then scarce n s l else spent_upto n s l s' l').

Lemma vm_walk_from s root T L l va levels p a :
  vm s root T L l -> 0 <= va < MAXVA -> Forall (fun l => 0 <= l) levels ->
  T !! p = Some a -> p ++ ((fun l => PX l va) <$> levels) = path va ->
  exists r s' T' l', runs (walk_from levels a va true) s r s' /\
    grown (length levels) s root T L l r s' T' l' /\
    (r <> 0 -> is_Some (T' !! path va) /\ r = leaf_addr T' va).
Proof.
  intros Hvm Hva Hl. revert s T l p a Hvm.
  induction Hl as [|lv levels Hl0 _ IH]; intros s T l p a Hvm Ha Hp; simpl.
  - rewrite app_nil_r in Hp. subst p.
    assert (leaf_addr T va = pte_at a (PX 0 va)) as Hla by (unfold leaf_addr; by rewrite Ha).
    exists (leaf_addr T va), s, T, l. rewrite <- Hla. split; [apply runs_ret|].
    pose proof (leaf_addr_0 _ _ _ _ _ (vm_pt _ _ _ _ _ Hvm) Hva) as Hpos. rewrite Ha in Hpos.
    split; [|intros _; split; [by eexists|done]].
    split; [exact Hvm|]. split; [apply grows_refl|]. destruct (Z.eqb_spec (leaf_addr T va) 0); [lia|].
    exists 0%nat. split; [lia|apply spent_refl].
  - pose proof (f_equal length Hp) as Hlen. rewrite length_app in Hlen. simpl in Hlen.
    rewrite fmap_cons, cons_middle, app_assoc in Hp.
    pose proof (PX_512 lv va Hl0 Hva) as Hi.
    assert (load64 (k_mem s) (pte_at a (PX lv va)) =
              from_option node_pte 0 (T !! (p ++ [PX lv va]))) as Hload
      by (apply (pt_node _ root T L); [apply Hvm|done|lia|done]).
    destruct (T !! (p ++ [PX lv va])) as [b|] eqn:Eb; cbn [from_option] in Hload.
    + pose proof (pt_page _ _ (pt_tree _ _ _ _ (vm_pt _ _ _ _ _ Hvm)) _ _ Eb) as Hb.
      destruct (IH s T l (p ++ [PX lv va]) b Hvm Eb Hp) as (r & s' & T' & l' & Hr & (H1 & H2 & H3) & H4).
      exists r, s', T', l'. split; [|split; [split; [exact H1|split; [exact H2|]]|exact H4]].
      * eapply runs_bind; [apply runs_mload64|]. rewrite Hload, node_pte_V, node_pte_pa by done. exact Hr.
      * destruct (r =? 0); [eapply scarce_mono; [|exact H3]|eapply spent_upto_mono; [|exact H3]]; lia.
    + destruct (vm_extend s root T L l p a (PX lv va) Hvm Ha ltac:(lia) Hi Eb)
        as [(Hex & s' & Hr & Hvm' & Hg)|(b & l1 & s1 & Hr & Hb & Hvm1 & Hg1 & Hsp1)].
      * exists 0, s', T, l. split; [|split; [split; [exact Hvm'|split; [exact Hg|by apply exhausted_scarce]]|done]].
        eapply runs_bind; [apply runs_mload64|]. rewrite Hload, Z.land_0_l.
        eapply runs_bind; [exact Hr|]. apply runs_ret.
      * destruct (IH _ _ _ (p ++ [PX lv va]) b Hvm1) as (r & s' & T' & l' & Hr' & (H1 & H2 & H3) & H4);
          [by rewrite lookup_insert_eq|done|].
        exists r, s', T', l'. split.
        -- eapply runs_bind; [apply runs_mload64|]. rewrite Hload, Z.land_0_l.
           eapply runs_bind; [exact Hr|]. cbn [Z.eqb negb].
           destruct (Z.eqb_spec b 0); [pose proof (page_ok_pos b Hb); lia|].
           eapply runs_bind; [apply runs_mmemset|]. eapply runs_bind; [apply runs_mstore64|].
           exact Hr'.
        -- split; [|exact H4]. split; [exact H1|]. split; [by eapply grows_trans|].
           assert (Hone : spent_upto 1 s l _ l1) by (exists 1%nat; split; [lia|exact Hsp1]).
           destruct (r =? 0); [exact (scarce_later 1 _ _ _ _ _ (vm_alloc _ _ _ _ _ Hvm) Hone H3)|].
           exact (spent_upto_trans 1 _ _ _ _ _ _ _ Hone H3).
Qed.

Lemma vm_walk s root T L l va :
  vm s root T L l -> 0 <= va < MAXVA ->
  exists r s' T' l', runs (walk root va true) s r s' /\ grown 2 s root T L l r s' T' l' /\
    (r <> 0 -> is_Some (T' !! path va) /\ r = leaf_addr T' va).
Proof.
  intros Hvm Hva. unfold walk. destruct (Z.leb_spec MAXVA va); [lia|].
  apply (vm_walk_from s root T L l va [2; 1] []); try done.
  - repeat constructor; lia.
  - apply (pt_root root T). eapply pt_tree, Hvm.
Qed.

(** *** Leaf entries *)

Lemma vm_set_leaf s root T L l va o :
  vm s root T L l -> is_Some (T !! path va) -> 0 <= va < MAXVA -> va mod PGSIZE = 0 ->
  (forall w, o = Some w -> leaf_pte w) ->
  let s' := set_k_mem (store64 (k_mem s) (leaf_addr T va) (default 0 o)) s in
  vm s' root T (set_leaf L va o) l /\ grows s T l s' T l /\
  same_except (tables T) (k_mem s) (k_mem s').
Proof.
  intros [Hok Hpt Hd] [a Ha] Hva Hal Ho. unfold leaf_addr. rewrite Ha. cbv zeta.
  pose proof (ptree_aligned _ _ _ _ (pt_tree _ _ _ _ Hpt) Ha) as Haal.
  pose proof (PX_512 0 va ltac:(lia) Hva) as Hi.
  assert (a ∈ tables T) as HaT by (apply tables_spec; eauto).
  assert (same_except {[a]} (k_mem s) (store64 (k_mem s) (pte_at a (PX 0 va)) (default 0 o)))
    as Hm by (by apply same_store).
  split; [split|split; [split|]].
  - apply (alloc_ok_mem s l _ {[a]}); [exact Hok|exact Hm|sets].
  - by apply pt_set_leaf.
  - exact Hd.
  - apply kstep_mem.
  - apply (same_except_mono {[a]}); [sets|exact Hm].
  - reflexivity.
  - reflexivity.
  - apply (same_except_mono {[a]}); [sets|exact Hm].
Qed.

(** The entry mappages makes, and a permission that makes it a leaf. *)

Definition pte_for (pa perm : Z) : Z := Z.lor (Z.lor (PA2PTE pa) perm) PTE_V.

Definition leaf_perm (perm : Z) : Prop :=
  0 <= perm < 2 ^ 10 /\ Z.land perm (Z.lor (Z.lor PTE_R PTE_W) PTE_X) <> 0.

Lemma lor_1024 perm bit : 0 <= perm < 2 ^ 10 -> 0 <= bit < 2 ^ 10 -> 0 <= Z.lor perm bit < 2 ^ 10.
Proof.
  intros Hp Hb. assert (Z.lor perm bit = Z.lor perm bit mod 2 ^ 10) as ->
    by (rewrite <- Z.land_ones, Z.land_lor_distr_l, !Z.land_ones, !Z.mod_small by lia; done).
  apply Z.mod_pos_bound. lia.
Qed.

Lemma pte_for_eq pa perm : pte_for pa perm = Z.lor (PA2PTE pa) (Z.lor perm PTE_V).
Proof. unfold pte_for. by rewrite Z.lor_assoc. Qed.

Lemma pte_for_leaf pa perm : 0 <= pa < 2 ^ 56 -> leaf_perm perm -> leaf_pte (pte_for pa perm).
Proof.
  intros Hpa [Hp Hrwx]. rewrite pte_for_eq.
  pose proof (lor_1024 perm PTE_V Hp ltac:(done)) as Hp'.
  split; [by apply PTE_make_range|]. rewrite !PTE_land_make by done.
  rewrite !Z.land_lor_distr_l. split; intros E; apply Z.lor_eq_0_iff in E as [E1 E2]; done.
Qed.

Lemma pte_for_pa pa perm :
  0 <= pa < 2 ^ 56 -> pa mod PGSIZE = 0 -> 0 <= perm < 2 ^ 10 -> PTE2PA (pte_for pa perm) = pa.
Proof.
  intros Hpa Hal Hp. rewrite pte_for_eq. rewrite PTE2PA_make; [done|done|done|].
  by apply lor_1024.
Qed.

(** The leaves after [k] pages from [a] are mapped to those from [pa]. *)

Fixpoint map_pages (L : gmap Z Z) (a pa perm : Z) (k : nat) : gmap Z Z :=
  match k with
  | O => L
  | S k' => map_pages (<[a := pte_for pa perm]> L) (a + PGSIZE) (pa + PGSIZE) perm k'
  end.

(** [n] pages from [a] are not mapped. *)

Definition unmapped (L : gmap Z Z) (a : Z) (n : nat) : Prop :=
  forall i, 0 <= i < Z.of_nat n -> L !! (a + i * PGSIZE) = None.

Lemma map_pages_lookup L a pa perm k v :
  a mod PGSIZE = 0 ->
  map_pages L a pa perm k !! v =
    if bool_decide (a <= v < a + Z.of_nat k * PGSIZE /\ v mod PGSIZE = 0)
    then Some (pte_for (pa + (v - a)) perm) else L !! v.
Proof.
  revert L a pa. induction k as [|k IH]; intros L a pa Ha.
  - simpl. rewrite bool_decide_false by lia. done.
  - cbn [map_pages]. rewrite IH by (unfold PGSIZE in *; dlia).
    destruct (decide (v = a)) as [->|Hne].
    + rewrite bool_decide_false by (unfold PGSIZE; lia).
      rewrite bool_decide_true by (unfold PGSIZE in *; lia).
      rewrite lookup_insert_eq. do 2 f_equal. lia.
    + rewrite lookup_insert_ne by done.
      rewrite (bool_decide_ext (a <= v < a + Z.of_nat (S k) * PGSIZE /\ v mod PGSIZE = 0)
        (a + PGSIZE <= v < a + PGSIZE + Z.of_nat k * PGSIZE /\ v mod PGSIZE = 0)).
      * case_bool_decide; [|done]. do 2 f_equal. lia.
      * unfold PGSIZE in *. dlia.
Qed.

(** One round of mappages at an unmapped page. *)

Lemma vm_mappages_round s root T L l perm last a pa :
  vm s root T L l -> a mod PGSIZE = 0 -> 0 <= a < MAXVA -> 0 <= pa < 2 ^ 56 ->
  leaf_perm perm -> L !! a = None ->
  (exists s' T' l', runs (mappages_round root perm last (a, pa)) s (inr (-1)) s' /\
     vm s' root T' L l' /\ grows s T l s' T' l' /\ scarce 2 s l) \/
  (exists s' T' l',
     runs (mappages_round root perm last (a, pa)) s
       (if a =? last then inr 0 else inl (u64 (a + PGSIZE), u64 (pa + PGSIZE))) s' /\
     vm s' root T' (<[a := pte_for pa perm]> L) l' /\ grows s T l s' T' l' /\ spent_upto 2 s l s' l').
Proof.
  intros Hvm Hal Ha Hpa Hperm HL.
  destruct (vm_walk s root T L l a Hvm Ha) as (r & s1 & T1 & l1 & Hr & (Hvm1 & Hg1 & Hex) & Hleaf).
  unfold mappages_round. destruct (Z.eq_dec r 0) as [->|Hr0].
  - left. exists s1, T1, l1. split; [|split; [exact Hvm1|split; [exact Hg1|exact Hex]]].
    eapply runs_bind; [exact Hr|]. apply runs_ret.
  - right. destruct (Hleaf Hr0) as [HT ->].
    destruct (vm_set_leaf s1 root T1 L l1 a (Some (pte_for pa perm)) Hvm1 HT Ha Hal)
      as (Hvm2 & Hg2 & _).
    { intros w [= <-]. by apply pte_for_leaf. }
    apply Z.eqb_neq in Hr0. rewrite Hr0 in Hex. destruct Hex as (k & Hk & Hex).
    do 3 eexists. split; [|split; [exact Hvm2|split; [by eapply grows_trans|exists k; split; [done|by apply spent_mem]]]].
    apply Z.eqb_neq in Hr0. eapply runs_bind; [exact Hr|]. destruct (Z.eqb_spec (leaf_addr T1 a) 0); [lia|].
    eapply runs_bind; [apply runs_mload64|].
    rewrite (load_leaf _ root T1 L) by (done || apply Hvm1). rewrite HL. cbn [from_option id].
    rewrite Z.land_0_l. eapply runs_bind; [apply runs_mstore64|].
    destruct (a =? last); apply runs_ret.
Qed.

Lemma vm_mappages_loop n root perm s T L l a pa :
  vm s root T L l -> a mod PGSIZE = 0 -> 0 <= a -> a + Z.of_nat (S n) * PGSIZE <= MAXVA ->
  0 <= pa -> pa + Z.of_nat (S n) * PGSIZE <= 2 ^ 56 -> leaf_perm perm ->
  unmapped L a (S n) ->
  exists r s' T' l' k,
    runs (loop (S n) (mappages_round root perm (a + Z.of_nat n * PGSIZE)) (a, pa)) s r s' /\
    vm s' root T' (map_pages L a pa perm k) l' /\ grows s T l s' T' l' /\
    (r = 0 /\ k = S n /\ spent_upto (2 * S n) s l s' l' \/ r = -1 /\ (k <= n)%nat /\ scarce (2 * S n) s l).
Proof.
  revert s T L l a pa. induction n as [|n IH]; intros s T L l a pa Hvm Hal Ha Hmax Hpa Hpm Hperm Hun.
  all: assert (MAXVA = 2 ^ 38) as HM by reflexivity.
  all: assert (L !! a = None) as HL
         by (specialize (Hun 0 ltac:(lia)); by rewrite Z.add_0_r in Hun).
  all: match goal with |- context [mappages_round _ _ ?last] =>
    destruct (vm_mappages_round s root T L l perm last a pa) as
      [(s1 & T1 & l1 & Hr & Hvm1 & Hg & Hex)|(s1 & T1 & l1 & Hr & Hvm1 & Hg & Hsp)];
      [exact Hvm|exact Hal|unfold PGSIZE in *; lia|unfold PGSIZE in *; lia|exact Hperm|exact HL|..]
    end.
  1,3: exists (-1), s1, T1, l1, 0%nat; split; [by apply runs_loop_stop|];
       split; [exact Hvm1|]; split; [exact Hg|right; split; [done|split; [lia|eapply scarce_mono; [|exact Hex]; lia]]].
  - exists 0, s1, T1, l1, 1%nat. split.
    + apply runs_loop_stop. destruct (Z.eqb_spec a (a + Z.of_nat 0 * PGSIZE)); [exact Hr|lia].
    + split; [exact Hvm1|]. split; [exact Hg|left; done].
  - destruct (Z.eqb_spec a (a + Z.of_nat (S n) * PGSIZE)); [unfold PGSIZE in *; lia|].
    rewrite !u64_small in Hr by (unfold PGSIZE in *; lia).
    destruct (IH s1 T1 (<[a := pte_for pa perm]> L) l1 (a + PGSIZE) (pa + PGSIZE)) as
      (r & s' & T' & l' & k & Hr' & Hvm' & Hg' & Hres); try done.
    1-5: unfold PGSIZE in *; dlia.
    { intros i Hi. rewrite lookup_insert_ne by (unfold PGSIZE; lia).
      rewrite <- (Hun (i + 1)) by lia. f_equal. lia. }
    replace (a + PGSIZE + Z.of_nat n * PGSIZE) with (a + Z.of_nat (S n) * PGSIZE) in Hr' by lia.
    exists r, s', T', l', (S k). split; [by eapply runs_loop_next|].
    split; [exact Hvm'|]. split; [by eapply grows_trans|].
    replace (2 * S (S n))%nat with (2 + 2 * S n)%nat by lia.
    destruct Hres as [(-> & -> & Hsp')|(-> & ? & Hsc)]; [left; do 2 (split; [done|]); by eapply spent_upto_trans|right].
    split; [done|]. split; [lia|]. by eapply (scarce_later 2); [apply Hvm|exact Hsp|].
Qed.

(** The pages of a range of virtual addresses. *)

Definition page_count (va size : Z) : nat :=
  Z.to_nat (npages (PGROUNDDOWN va) (PGROUNDDOWN (va + size - 1))).

Lemma page_count_spec va size :
  0 <= va -> 0 < size -> va + size <= MAXVA ->
  exists n, page_count va size = S n /\
    npages (PGROUNDDOWN va) (PGROUNDDOWN (va + size - 1)) = Z.of_nat (S n) /\
    PGROUNDDOWN (va + size - 1) = PGROUNDDOWN va + Z.of_nat n * PGSIZE /\
    PGROUNDDOWN va mod PGSIZE = 0 /\ 0 <= PGROUNDDOWN va <= va /\
    PGROUNDDOWN va + Z.of_nat (S n) * PGSIZE <= MAXVA /\
    PGROUNDDOWN va + Z.of_nat n * PGSIZE < va + size <= PGROUNDDOWN va + Z.of_nat (S n) * PGSIZE.
Proof.
  intros Hva Hsz Hmax. assert (MAXVA = 2 ^ 38) as HM by reflexivity.
  unfold page_count, npages. rewrite !PGROUNDDOWN_eq by lia.
  rewrite u64_small by (unfold PGSIZE; dlia).
  exists (Z.to_nat ((va + size - 1 - (va + size - 1) mod PGSIZE - (va - va mod PGSIZE)) / PGSIZE)).
  unfold PGSIZE in *. change (2 ^ 38) with 274877906944 in HM. split_and!; dlia.
Qed.

Lemma vm_mappages s root T L l va size pa perm :
  vm s root T L l -> 0 <= va -> 0 < size -> va + size <= MAXVA ->
  0 <= pa -> pa + size + 2 * PGSIZE <= 2 ^ 56 -> leaf_perm perm ->
  unmapped L (PGROUNDDOWN va) (page_count va size) ->
  exists r s' T' l' k, runs (mappages root va size pa perm) s r s' /\
    vm s' root T' (map_pages L (PGROUNDDOWN va) pa perm k) l' /\ grows s T l s' T' l' /\
    (r = 0 /\ k = page_count va size /\ spent_upto (2 * page_count va size) s l s' l' \/
     r = -1 /\ (k < page_count va size)%nat /\ scarce (2 * page_count va size) s l).
Proof.
  intros Hvm Hva Hsz Hmax Hpa Hpm Hperm Hun.
  destruct (page_count_spec va size Hva Hsz Hmax) as (n & Hn & Hnp & Hlast & Hal & Hlo & Hhi & Hcov).
  rewrite Hn in *. unfold mappages. cbv zeta. rewrite Hnp, Hlast.
  pose proof (PGROUNDDOWN_bounds va ltac:(change (2 ^ 64) with (MAXVA * 2 ^ 26); lia)).
  destruct (vm_mappages_loop n root perm s T L l (PGROUNDDOWN va) pa) as
    (r & s' & T' & l' & k & Hr & Hvm' & Hg & Hres); try done; [lia..|].
  exists r, s', T', l', k. split; [|split; [exact Hvm'|split; [exact Hg|]]].
  - apply runs_loopz. by rewrite Nat2Z.id.
  - destruct Hres as [?|(? & ? & ?)]; [by left|right; split; [done|split; [lia|done]]].
Qed.

(** *** Removing mappings *)

Fixpoint unmap_pages (L : gmap Z Z) (a : Z) (k : nat) : gmap Z Z :=
  match k with O => L | S k' => unmap_pages (delete a L) (a + PGSIZE) k' end.

(** The physical pages that [k] pages from [a] are mapped to. *)

Fixpoint frames (L : gmap Z Z) (a : Z) (k : nat) : list Z :=
  match k with O => [] | S k' => PTE2PA (L !!! a) :: frames L (a + PGSIZE) k' end.

Definition mapped (L : gmap Z Z) (a : Z) (n : nat) : Prop :=
  forall i, 0 <= i < Z.of_nat n -> is_Some (L !! (a + i * PGSIZE)).

(** Pages that can be given back: allocated, distinct, and not tables. *)

Definition freeable (fs l : list Z) (T : gmap (list Z) Z) : Prop :=
  NoDup (fs ++ l) /\ Forall page_ok fs /\ (list_to_set fs : gset Z) ## tables T.

Lemma unmap_pages_lookup L a k v :
  a mod PGSIZE = 0 ->
  unmap_pages L a k !! v =
    if bool_decide (a <= v < a + Z.of_nat k * PGSIZE /\ v mod PGSIZE = 0) then None else L !! v.
Proof.
  revert L a. induction k as [|k IH]; intros L a Ha.
  - simpl. rewrite bool_decide_false by lia. done.
  - cbn [unmap_pages]. rewrite IH by (unfold PGSIZE in *; dlia).
    destruct (decide (v = a)) as [->|Hne].
    + rewrite bool_decide_false by (unfold PGSIZE; lia).
      rewrite bool_decide_true by (unfold PGSIZE in *; lia). by rewrite lookup_delete_eq.
    + rewrite lookup_delete_ne by done.
      rewrite (bool_decide_ext (a <= v < a + Z.of_nat (S k) * PGSIZE /\ v mod PGSIZE = 0)
        (a + PGSIZE <= v < a + PGSIZE + Z.of_nat k * PGSIZE /\ v mod PGSIZE = 0)); [done|].
      unfold PGSIZE in *. dlia.
Qed.

Lemma frames_ext L L' a k :
  (forall i, 0 <= i < Z.of_nat k -> L !! (a + i * PGSIZE) = L' !! (a + i * PGSIZE)) ->
  frames L a k = frames L' a k.
Proof.
  revert a. induction k as [|k IH]; intros a H; [done|]. cbn [frames]. f_equal.
  - rewrite !lookup_total_alt. specialize (H 0 ltac:(lia)). rewrite Z.add_0_r in H. by rewrite H.
  - apply IH. intros i Hi. specialize (H (i + 1) ltac:(lia)).
    by replace (a + PGSIZE + i * PGSIZE) with (a + (i + 1) * PGSIZE) by lia.
Qed.

Lemma leaf_pte_flags w : leaf_pte w -> PTE_FLAGS w <> PTE_V.
Proof.
  intros (_ & _ & H) E. apply H. unfold PTE_FLAGS in E.
  replace (Z.lor (Z.lor PTE_R PTE_W) PTE_X)
    with (Z.land 0x3FF (Z.lor (Z.lor PTE_R PTE_W) PTE_X)) by reflexivity.
  rewrite Z.land_assoc, E. reflexivity.
Qed.

Lemma vm_unmap_round s root T L l last do_free a w :
  vm s root T L l -> L !! a = Some w ->
  (do_free = true -> page_ok (PTE2PA w) /\ PTE2PA w ∉ l /\ PTE2PA w ∉ tables T) ->
  exists s', runs (uvmunmap_round root last do_free a) s
      (if a =? last then inr tt else inl (u64 (a + PGSIZE))) s' /\
    vm s' root T (delete a L) (if do_free then PTE2PA w :: l else l) /\ kstep s s' /\
    same_except ((if do_free then {[PTE2PA w]} else ∅) ∪ tables T) (k_mem s) (k_mem s').
Proof.
  intros Hvm HL Hfree. pose proof Hvm as [Hok Hpt Hd].
  destruct (pt_dom _ _ _ _ Hpt a w HL) as (Hal & Ha & Hw & [b Hb]).
  assert (leaf_addr T a = pte_at b (PX 0 a)) as Hla by (unfold leaf_addr; by rewrite Hb).
  assert (exists s1, runs (if* do_free then kfree (PTE2PA w)) s tt s1 /\
    vm s1 root T L (if do_free then PTE2PA w :: l else l) /\ kstep s s1 /\
    same_except (if do_free then {[PTE2PA w]} else ∅) (k_mem s) (k_mem s1))
    as (s1 & Hr1 & Hvm1 & Hs1 & Hm1).
  { destruct do_free.
    - destruct (Hfree eq_refl) as (Hp & Hnl & HnT).
      destruct (kfree_step s l (PTE2PA w) Hok Hp Hnl) as (s1 & Hr & Hs & Hok1 & Hm).
      exists s1. split; [exact Hr|]. split; [|split; [exact Hs|exact Hm]].
      split; [exact Hok1| |sets]. apply (pt_ext (k_mem s) _ _ _ _ {[PTE2PA w]}); [exact Hpt|exact Hm|sets].
    - exists s. split; [apply runs_ret|]. split; [exact Hvm|]. split; reflexivity. }
  destruct (vm_set_leaf s1 root T L _ a None Hvm1 (ex_intro _ b Hb) Ha Hal ltac:(done))
    as (Hvm2 & _ & Hm2).
  eexists. split; [|split; [exact Hvm2|split]].
  - destruct (runs_walk_mapped s root T L a w Hpt HL) as (Hrw & Hne & Hld).
    unfold uvmunmap_round. eapply runs_bind; [exact Hrw|].
    destruct (Z.eqb_spec (leaf_addr T a) 0); [done|].
    eapply runs_bind; [apply runs_mload64|]. rewrite Hld.
    destruct (Z.eqb_spec (Z.land w PTE_V) 0); [by destruct Hw as (_ & ? & _)|].
    destruct (Z.eqb_spec (PTE_FLAGS w) PTE_V) as [E|_];
      [by destruct (leaf_pte_flags w Hw)|].
    eapply runs_bind; [exact Hr1|]. eapply runs_bind; [apply runs_mstore64|].
    destruct (a =? last); apply runs_ret.
  - etransitivity; [exact Hs1|]. apply kstep_mem.
  - eapply same_except_trans; [exact Hm1|exact Hm2|sets..].
Qed.

Lemma frames_S L a k w :
  L !! a = Some w -> frames L a (S k) = PTE2PA w :: frames L (a + PGSIZE) k.
Proof. intros H. cbn [frames]. by rewrite lookup_total_alt, H. Qed.

Lemma freeable_cons pa fs l T :
  freeable (pa :: fs) l T ->
  (page_ok pa /\ pa ∉ l /\ pa ∉ tables T) /\ freeable fs (pa :: l) T.
Proof.
  intros (Hnd & Hp & Hd). apply Forall_cons_1 in Hp as [Hpa Hp].
  pose proof Hnd as [Hnin _]%NoDup_cons. split; [split; [done|split; sets]|].
  split; [|split; [done|sets]]. by rewrite <- Permutation_middle.
Qed.

Lemma frames_delete L a k : frames (delete a L) (a + PGSIZE) k = frames L (a + PGSIZE) k.
Proof. apply frames_ext. intros i Hi. apply lookup_delete_ne. unfold PGSIZE. lia. Qed.

Lemma vm_unmap_loop n root do_free s T L l a :
  vm s root T L l -> a mod PGSIZE = 0 -> 0 <= a -> a + Z.of_nat (S n) * PGSIZE <= MAXVA ->
  mapped L a (S n) -> (do_free = true -> freeable (frames L a (S n)) l T) ->
  exists s',
    runs (loop (S n) (uvmunmap_round root (a + Z.of_nat n * PGSIZE) do_free) a) s tt s' /\
    vm s' root T (unmap_pages L a (S n))
      (if do_free then reverse (frames L a (S n)) ++ l else l) /\
    kstep s s' /\
    same_except ((if do_free then list_to_set (frames L a (S n)) else ∅) ∪ tables T)
      (k_mem s) (k_mem s').
Proof.
  revert s L l a. induction n as [|n IH]; intros s L l a Hvm Hal Ha Hmax Hmap Hfree.
  all: assert (MAXVA = 2 ^ 38) as HM by reflexivity.
  all: destruct (Hmap 0 ltac:(lia)) as [w HL]; rewrite Z.add_0_r in HL.
  all: rewrite (frames_S L a _ w HL) in *.
  all: match goal with |- context [uvmunmap_round _ ?last _] =>
    destruct (vm_unmap_round s root T L l last do_free a w Hvm HL) as (s1 & Hr & Hvm1 & Hs1 & Hm1)
    end.
  1,3: intros ->; by destruct (freeable_cons _ _ _ _ (Hfree eq_refl)) as [? _].
  - exists s1. split; [|split; [|split; [exact Hs1|]]].
    + apply runs_loop_stop. destruct (Z.eqb_spec a (a + Z.of_nat 0 * PGSIZE)); [exact Hr|lia].
    + by destruct do_free.
    + eapply same_except_mono; [|exact Hm1]. destruct do_free; sets.
  - destruct (Z.eqb_spec a (a + Z.of_nat (S n) * PGSIZE)); [unfold PGSIZE in *; lia|].
    rewrite !u64_small in Hr by (unfold PGSIZE in *; lia).
    rewrite <- (frames_delete L a (S n)) in *.
    destruct (IH s1 (delete a L) (if do_free then PTE2PA w :: l else l) (a + PGSIZE))
      as (s' & Hr' & Hvm' & Hs' & Hm'); [exact Hvm1|unfold PGSIZE in *; dlia..| | |].
    { intros i Hi. rewrite lookup_delete_ne by (unfold PGSIZE; lia).
      replace (a + PGSIZE + i * PGSIZE) with (a + (i + 1) * PGSIZE) by lia. apply Hmap. lia. }
    { intros ->. by destruct (freeable_cons _ _ _ _ (Hfree eq_refl)) as [_ ?]. }
    replace (a + PGSIZE + Z.of_nat n * PGSIZE) with (a + Z.of_nat (S n) * PGSIZE) in Hr' by lia.
    exists s'. split; [by eapply runs_loop_next|]. split; [|split; [by transitivity s1|]].
    + destruct do_free; [|exact Hvm']. by rewrite reverse_cons, <- app_assoc.
    + eapply same_except_trans; [exact Hm1|exact Hm'|destruct do_free; sets..].
Qed.

Lemma vm_unmap s root T L l va size do_free :
  let n := page_count va size in
  vm s root T L l -> 0 <= va -> 0 < size -> va + size <= MAXVA ->
  mapped L (PGROUNDDOWN va) n ->
  (do_free = true -> freeable (frames L (PGROUNDDOWN va) n) l T) ->
  exists s', runs (uvmunmap root va size do_free) s tt s' /\
    vm s' root T (unmap_pages L (PGROUNDDOWN va) n)
      (if do_free then reverse (frames L (PGROUNDDOWN va) n) ++ l else l) /\
    kstep s s' /\
    same_except ((if do_free then list_to_set (frames L (PGROUNDDOWN va) n) else ∅) ∪ tables T)
      (k_mem s) (k_mem s').
Proof.
  intros k Hvm Hva Hsz Hmax Hmap Hfree. subst k.
  destruct (page_count_spec va size Hva Hsz Hmax) as (n & Hn & Hnp & Hlast & Hal & Hlo & Hhi & _).
  rewrite Hn in *. unfold uvmunmap. cbv zeta. rewrite Hnp, Hlast.
  destruct (vm_unmap_loop n root do_free s T L l (PGROUNDDOWN va)) as (s' & Hr & H);
    [done|done|lia|done..|].
  exists s'. split; [|exact H]. apply runs_loopz. by rewrite Nat2Z.id.
Qed.

(** The pages of an aligned range. *)

Lemma page_count_aligned a k :
  a mod PGSIZE = 0 -> 0 <= a -> (0 < k)%nat -> a + Z.of_nat k * PGSIZE <= MAXVA ->
  page_count a (Z.of_nat k * PGSIZE) = k.
Proof.
  intros Hal Ha Hk Hmax. assert (MAXVA = 2 ^ 38) as HM by reflexivity.
  destruct (page_count_spec a (Z.of_nat k * PGSIZE)) as (n & -> & _ & _ & _ & _ & _ & Hb);
    [done|unfold PGSIZE; lia|done|].
  rewrite PGROUNDDOWN_id in Hb; [|unfold PGSIZE in *; lia|done]. unfold PGSIZE in *. lia.
Qed.

End Vm_state.
