(* ===== verification/Uvm.v ===== *)
(** * User address spaces: growing, copying and freeing them

    What uvmalloc, uvmdealloc, uvmcopy, uvmfree and the copies between kernel
    and user memory of kernel/vm.c do, over the page tables of Pagetable.v. *)

From S2P Require Import Prelude Monad Riscv Kstring Kstate Spinlock Printf Kalloc Vm Pagetable.

Section Uvm.
Context `{KI : KernelImage}.

(** The leaves after the entries [ws] are put at consecutive pages from [a]. *)

Fixpoint map_words (L : gmap Z Z) (a : Z) (ws : list Z) : gmap Z Z :=
  match ws with
  | [] => L
  | w :: ws' => map_words (<[a := w]> L) (a + PGSIZE) ws'
  end.

Lemma map_words_lookup L a ws v :
  a mod PGSIZE = 0 ->
  map_words L a ws !! v =
    if bool_decide (a <= v < a + Z.of_nat (length ws) * PGSIZE /\ v mod PGSIZE = 0)
    then ws !! Z.to_nat ((v - a) / PGSIZE) else L !! v.
Proof.
  revert L a. induction ws as [|w ws IH]; intros L a Ha; cbn [map_words length].
  - rewrite bool_decide_false by lia. done.
  - rewrite IH by (unfold PGSIZE in *; dlia). destruct (decide (v = a)) as [->|Hne].
    + rewrite bool_decide_false by (unfold PGSIZE; lia).
      rewrite bool_decide_true by (unfold PGSIZE in *; lia).
      by rewrite lookup_insert_eq, Z.sub_diag.
    + rewrite lookup_insert_ne by done.
      rewrite (bool_decide_ext (a <= v < a + Z.of_nat (S (length ws)) * PGSIZE /\ v mod PGSIZE = 0)
        (a + PGSIZE <= v < a + PGSIZE + Z.of_nat (length ws) * PGSIZE /\ v mod PGSIZE = 0)).
      * case_bool_decide as E; [|done].
        replace (Z.to_nat ((v - a) / PGSIZE)) with (S (Z.to_nat ((v - (a + PGSIZE)) / PGSIZE)));
          [done|]. unfold PGSIZE in *. dlia.
      * unfold PGSIZE in *. dlia.
Qed.

Lemma map_words_snoc L a ws w :
  map_words L a (ws ++ [w]) = <[a + Z.of_nat (length ws) * PGSIZE := w]> (map_words L a ws).
Proof.
  revert L a. induction ws as [|w' ws IH]; intros L a; cbn [map_words app length].
  - by rewrite Z.add_0_r.
  - rewrite IH. f_equal. lia.
Qed.

Lemma frames_words L a ws :
  a mod PGSIZE = 0 -> frames (map_words L a ws) a (length ws) = PTE2PA <$> ws.
Proof.
  revert L a. induction ws as [|w ws IH]; intros L a Ha; [done|].
  cbn [length map_words]. rewrite (frames_S _ _ _ w).
  - rewrite fmap_cons. f_equal. apply IH. unfold PGSIZE in *. dlia.
  - rewrite map_words_lookup by (unfold PGSIZE in *; dlia).
    rewrite bool_decide_false by (unfold PGSIZE; lia). apply lookup_insert_eq.
Qed.

Lemma mapped_words L a ws : a mod PGSIZE = 0 -> mapped (map_words L a ws) a (length ws).
Proof.
  intros Ha i Hi. rewrite map_words_lookup by done.
  rewrite bool_decide_true by (unfold PGSIZE in *; dlia).
  apply lookup_lt_is_Some. unfold PGSIZE. dlia.
Qed.

Lemma unmap_words L a ws :
  a mod PGSIZE = 0 -> unmapped L a (length ws) ->
  unmap_pages (map_words L a ws) a (length ws) = L.
Proof.
  intros Ha Hun. apply map_eq. intros v. rewrite unmap_pages_lookup, map_words_lookup by done.
  case_bool_decide as E; [|done]. specialize (Hun ((v - a) / PGSIZE)).
  replace (a + (v - a) / PGSIZE * PGSIZE) with v in Hun by (unfold PGSIZE in *; dlia).
  rewrite Hun; [done|unfold PGSIZE in *; dlia].
Qed.

(** *** One page of a growing address space *)

(** [fs] have been added to an address space at [a], out of the pool of free
    pages [l] and tables [T]: what the loops of uvmalloc and uvmcopy keep. *)

Record added (s0 : kst) (T0 : gmap (list Z) Z) (l0 : list Z) (s : kst) T (l fs : list Z) : Prop := {
  ad_step : kstep s0 s;
  ad_mem : same_except (list_to_set l0 ∪ tables T0) (k_mem s0) (k_mem s);
  ad_sub : T0 ⊆ T;
  ad_free : freeable fs l T;
  ad_pool : list_to_set fs ∪ list_to_set l ∪ tables T =@{gset Z} list_to_set l0 ∪ tables T0;
}.

Lemma added_refl s root T L l : vm s root T L l -> added s T l s T l [].
Proof.
  intros [(_ & (_ & Hnd & _) & _) _ _]. split; [reflexivity..| |set_solver].
  split; [done|]. split; [constructor|set_solver].
Qed.

(** A page of [fs] is out of the reach of the pool. *)

Lemma added_fresh s0 T0 l0 s T l fs f :
  added s0 T0 l0 s T l fs -> f ∈ fs -> f ∉ l /\ f ∉ tables T /\ f mod PGSIZE = 0.
Proof.
  intros [_ _ _ (Hnd & Hp & Hd) _] Hf. apply NoDup_app in Hnd as (_ & Hn & _).
  split; [by apply Hn|]. split; [sets|]. rewrite Forall_forall in Hp.
  by eapply page_phys, Hp.
Qed.

Lemma added_grows s0 T0 l0 s T l fs s' T' l' :
  added s0 T0 l0 s T l fs -> grows s T l s' T' l' -> NoDup l' -> added s0 T0 l0 s' T' l' fs.
Proof.
  intros Had [Hs Hm HT Hp] Hnd'. pose proof Had as [Hs0 Hm0 HT0 (Hnd & Hpf & Hd) Hp0].
  assert (forall f, f ∈ fs -> f ∉ l' /\ f ∉ tables T') as Hfs.
  { intros f Hf. destruct (added_fresh _ _ _ _ _ _ _ _ Had Hf) as (H1 & H2 & _). sets. }
  split; [by transitivity s| |by transitivity T| |].
  - eapply same_except_trans; [exact Hm0|exact Hm|done|]. rewrite <- Hp0. sets.
  - split; [|split; [exact Hpf|]].
    + apply NoDup_app. apply NoDup_app in Hnd as (? & _ & _). split; [done|]. split; [|done].
      intros f Hf. by apply Hfs.
    + intros f Hf. apply elem_of_list_to_set in Hf. by apply Hfs.
  - rewrite <- Hp0, <- !(assoc_L (∪)), Hp. done.
Qed.

Lemma added_trans s0 T0 l0 s T l fs s' T' l' fs' :
  added s0 T0 l0 s T l fs -> added s T l s' T' l' fs' -> added s0 T0 l0 s' T' l' (fs ++ fs').
Proof.
  intros Had [Hs Hm HT (Hndf & Hpf & Hdf) Hp].
  pose proof Had as [Hs0 Hm0 HT0 (Hnd & Hpfs & Hd) Hp0].
  assert (forall g, g ∈ fs -> g ∉ fs' /\ g ∉ l' /\ g ∉ tables T') as Hfs.
  { intros g Hg. destruct (added_fresh _ _ _ _ _ _ _ _ Had Hg) as (H1 & H2 & _). sets. }
  split; [by transitivity s| |by transitivity T| |].
  - eapply same_except_trans; [exact Hm0|exact Hm|done|]. rewrite <- Hp0. sets.
  - split; [|split; [by apply Forall_app|]].
    + rewrite <- app_assoc. apply NoDup_app. apply NoDup_app in Hnd as (? & _ & _).
      split; [done|]. split; [|done]. intros g Hg. destruct (Hfs g Hg) as (? & ? & ?). sets.
    + intros g Hg. rewrite list_to_set_app in Hg. apply elem_of_union in Hg as [Hg|Hg].
      * apply elem_of_list_to_set in Hg. by apply Hfs.
      * by apply Hdf.
  - rewrite list_to_set_app_L, <- Hp0, <- !(assoc_L (∪)). f_equal. rewrite <- Hp. sets.
Qed.

(** The pages spent for one more page. *)

Lemma spent_snoc s0 l0 (fs : list Z) s l f s' l' :
  spent_upto (3 * length fs) s0 l0 s l -> spent_upto 3 s l s' l' ->
  spent_upto (3 * length (fs ++ [f])) s0 l0 s' l'.
Proof.
  intros H H'. rewrite length_app. simpl length. rewrite Nat.mul_add_distr_l.
  by eapply spent_upto_trans.
Qed.

Lemma scarce_snoc s0 l0 (fs : list Z) s l :
  alloc_ok s0 l0 -> spent_upto (3 * length fs) s0 l0 s l -> scarce 3 s l ->
  scarce (3 * S (length fs)) s0 l0.
Proof.
  intros Hok H H'. rewrite Nat.mul_succ_r. by eapply scarce_later.
Qed.

(** Allocate a page, fill it, and map it at [a]; the three ways this ends.  It takes
    three pages at most, the page and two tables. *)

Inductive new_page (s : kst) root T L l a perm (fill : Z -> mem -> mem) : Prop :=
| no_page s' :
    runs kalloc s 0 s' -> vm s' root T L l -> grows s T l s' T l -> scarce 3 s l ->
    new_page s root T L l a perm fill
| no_table f s1 s2 s3 T' l' :
    f <> 0 -> runs kalloc s f s1 ->
    runs (mappages root a PGSIZE f perm) (set_k_mem (fill f (k_mem s1)) s1) (-1) s2 ->
    runs (kfree f) s2 tt s3 ->
    vm s3 root T' L l' -> grows s T l s3 T' l' -> scarce 3 s l ->
    new_page s root T L l a perm fill
| page_mapped f s1 s2 T' l' :
    f <> 0 -> runs kalloc s f s1 ->
    runs (mappages root a PGSIZE f perm) (set_k_mem (fill f (k_mem s1)) s1) 0 s2 ->
    vm s2 root T' (<[a := pte_for f perm]> L) l' -> added s T l s2 T' l' [f] -> spent_upto 3 s l s2 l' ->
    (forall x, f <= x < f + PGSIZE -> k_mem s2 !!! x = fill f (k_mem s1) !!! x) ->
    same_except {[f]} (k_mem s) (k_mem s1) ->
    new_page s root T L l a perm fill.

Lemma vm_kalloc_fill s root T L l (fill : Z -> mem -> mem) :
  vm s root T L l -> (forall f m, f mod PGSIZE = 0 -> same_except {[f]} m (fill f m)) ->
  (exists s', runs kalloc s 0 s' /\ vm s' root T L l /\ grows s T l s' T l /\ exhausted s l) \/
  (exists f l1 s1, let s' := set_k_mem (fill f (k_mem s1)) s1 in
     l = f :: l1 /\ page_ok f /\ f ∉ l1 /\ f ∉ tables T /\ runs kalloc s f s1 /\
     vm s' root T L l1 /\ kstep s s' /\ same_except {[f]} (k_mem s) (k_mem s1) /\
     same_except {[f]} (k_mem s) (k_mem s') /\ spent 1 s l s' l1).
Proof.
  intros [Hok Hpt Hd] Hfill.
  destruct (kalloc_cases s l Hok) as [(Hex & s' & Hr & Hs & Hm & Hok')|
    (f & l1 & s1 & -> & Hr & Hs & Hm & Hok1 & Hsp)].
  - left. exists s'. split; [exact Hr|]. split; [split; [exact Hok'|by rewrite Hm|exact Hd]|].
    split; [|exact Hex]. split; [exact Hs|by rewrite Hm|done|done].
  - right. exists f, l1, s1. cbv zeta. split; [done|].
    assert (page_ok f) as Hf by (eapply freelist_page; [apply Hok|apply list_elem_of_here]).
    pose proof (page_phys f Hf) as [_ Hfal].
    assert (f ∉ l1 /\ f ∉ tables T) as [Hfl HfT].
    { pose proof Hok as (_ & (_ & Hnd & _) & _). apply NoDup_cons in Hnd as [? _].
      split; [done|]. sets. }
    assert (same_except {[f]} (k_mem s) (k_mem s1)) as Hm1 by (rewrite Hm; by apply same_memset).
    pose proof (Hfill f (k_mem s1) Hfal) as Hmf.
    assert (same_except {[f]} (k_mem s) (fill f (k_mem s1))) as Hm2 by (by transitivity (k_mem s1)).
    do 4 (split; [done|]). split; [|split; [|split; [exact Hm1|split; [exact Hm2|by apply spent_mem]]]].
    + split; [apply (alloc_ok_mem s1 l1 _ {[f]}); [exact Hok1|exact Hmf|sets]| |sets].
      apply (pt_ext (k_mem s) _ _ _ _ {[f]}); [exact Hpt|exact Hm2|sets].
    + etransitivity; [exact Hs|apply kstep_mem].
Qed.

(** mappages of one page. *)

Lemma vm_mappages_one s root T L l a f perm :
  vm s root T L l -> a mod PGSIZE = 0 -> 0 <= a < MAXVA -> L !! a = None -> leaf_perm perm ->
  page_ok f ->
  exists r s' T' l', runs (mappages root a PGSIZE f perm) s r s' /\ grows s T l s' T' l' /\
    (r = 0 /\ vm s' root T' (<[a := pte_for f perm]> L) l' /\ spent_upto 2 s l s' l' \/
     r = -1 /\ vm s' root T' L l' /\ scarce 2 s l).
Proof.
  intros Hvm Hal Ha HL Hperm Hf. assert (MAXVA = 2 ^ 38) as HM by reflexivity.
  assert (PGROUNDDOWN a = a) as Hpa by (apply PGROUNDDOWN_id; [lia|done]).
  assert (a + PGSIZE <= MAXVA) as Hamax by (unfold PGSIZE in *; dlia).
  assert (page_count a PGSIZE = 1%nat) as Hpc.
  { pose proof (page_count_aligned a 1 Hal ltac:(lia) ltac:(lia) ltac:(lia)) as H.
    by rewrite Z.mul_1_l in H. }
  pose proof (page_phys f Hf) as [Hf32 _].
  destruct (vm_mappages s root T L l a PGSIZE f perm Hvm) as
    (r & s2 & T2 & l2 & k & Hr2 & Hvm2 & Hg & Hres); [unfold PGSIZE in *; lia..|done| |].
  { rewrite Hpa, Hpc. intros i Hi. assert (i = 0) as -> by lia. by rewrite Z.add_0_r. }
  rewrite Hpa, Hpc in *. exists r, s2, T2, l2. split; [exact Hr2|]. split; [exact Hg|].
  destruct Hres as [(-> & -> & Hsp)|(-> & Hk & Hex)]; [by left|right].
  split; [done|]. by assert (k = 0%nat) as -> by lia.
Qed.

Lemma vm_new_page s root T L l a perm fill :
  vm s root T L l -> a mod PGSIZE = 0 -> 0 <= a < MAXVA -> L !! a = None -> leaf_perm perm ->
  (forall f m, f mod PGSIZE = 0 -> same_except {[f]} m (fill f m)) ->
  new_page s root T L l a perm fill.
Proof.
  intros Hvm Hal Ha HL Hperm Hfill.
  destruct (vm_kalloc_fill s root T L l fill Hvm Hfill) as [(s' & Hr & Hvm' & Hg & Hex)|
    (f & l1 & s1 & -> & Hf & Hfl & HfT & Hr & Hvm1 & Hs1 & Hm1 & Hm1' & Hsp1)].
  { apply (no_page _ _ _ _ _ _ _ _ s'); try assumption. by apply exhausted_scarce. }
  pose proof (vm_alloc _ _ _ _ _ Hvm) as Hok. assert (spent_upto 1 s (f :: l1) _ l1) as Hone by (exists 1%nat; split; [lia|exact Hsp1]).
  destruct (vm_mappages_one _ root T L l1 a f perm Hvm1 Hal Ha HL Hperm Hf) as
    (r & s2 & T2 & l2 & Hr2 & [Hs2 Hm2 HT2 Hp2] & Hres). clear Hvm Hvm1.
  pose proof (page_ok_pos f Hf). pose proof (page_phys f Hf) as [_ Hfal].
  assert (f ∉ l2 /\ f ∉ tables T2) as [Hfl2 HfT2] by (split; sets).
  assert (same_except (list_to_set (f :: l1) ∪ tables T) (k_mem s) (k_mem s2)) as Hm.
  { eapply same_except_trans; [exact Hm1'|exact Hm2|sets..]. }
  assert (NoDup l2 -> added s T (f :: l1) s2 T2 l2 [f]) as Had.
  { intros Hnd. split; [by etransitivity|exact Hm|exact HT2| |sets].
    split; [by apply NoDup_cons|]. split; [by apply Forall_singleton|sets]. }
  destruct Hres as [(-> & Hvm2 & Hsp2)|(-> & Hvm2 & Hex)];
    pose proof (vm_alloc _ _ _ _ _ Hvm2) as (_ & (_ & Hnd2 & _) & _); specialize (Had Hnd2).
  - apply (page_mapped _ _ _ _ _ _ _ _ f s1 s2 T2 l2); try assumption; try lia.
    { exact (spent_upto_trans 1 2 _ _ _ _ _ _ Hone Hsp2). }
    intros x Hx. rewrite Hm2; [done|]. rewrite (pg_in f) by done. sets.
  - destruct (kfree_step s2 l2 f) as (s3 & Hr3 & Hs3 & Hok3 & Hm3); [apply Hvm2|done|done|].
    pose proof (vm_disj _ _ _ _ _ Hvm2) as Hd2.
    apply (no_table _ _ _ _ _ _ _ _ f s1 s2 s3 T2 (f :: l2)); try assumption; try lia.
    + split; [exact Hok3| |sets].
      apply (pt_ext (k_mem s2) _ _ _ _ {[f]}); [apply Hvm2|exact Hm3|sets].
    + split; [|eapply same_except_trans; [exact Hm|exact Hm3|sets..]|done|sets].
      etransitivity; [exact Hs1|]. by transitivity s2.
    + exact (scarce_later 1 2 _ _ _ _ Hok Hone Hex).
Qed.

(** *** uvmdealloc *)

(** Unmapping pages that were just added gives them back. *)

Lemma vm_unmap_words s root T L l a ws :
  vm s root T (map_words L a ws) l -> a mod PGSIZE = 0 -> 0 <= a -> ws <> [] ->
  a + Z.of_nat (length ws) * PGSIZE <= MAXVA -> unmapped L a (length ws) ->
  freeable (PTE2PA <$> ws) l T ->
  exists s', runs (uvmunmap root a (Z.of_nat (length ws) * PGSIZE) true) s tt s' /\
    vm s' root T L (reverse (PTE2PA <$> ws) ++ l) /\ kstep s s' /\
    same_except (list_to_set (PTE2PA <$> ws) ∪ tables T) (k_mem s) (k_mem s').
Proof.
  intros Hvm Hal Ha Hne Hmax Hun Hfree. assert (MAXVA = 2 ^ 38) as HM by reflexivity.
  assert (0 < length ws)%nat as Hk by (destruct ws; simpl; [done|lia]).
  set (k := length ws) in *.
  pose proof (page_count_aligned a k Hal Ha Hk Hmax) as Hpc.
  pose proof (vm_unmap s root T (map_words L a ws) l a (Z.of_nat k * PGSIZE) true) as Hu.
  cbv zeta in Hu. rewrite Hpc, PGROUNDDOWN_id in Hu by (done || (unfold PGSIZE in *; lia)).
  rewrite frames_words, unmap_words in Hu by done.
  destruct Hu as (s' & Hr & H1 & H2 & H3);
    [done|done|unfold PGSIZE; lia|done|by apply mapped_words|done|].
  exists s'. by split.
Qed.

Lemma vm_rollback s root T L l a ws :
  vm s root T (map_words L a ws) l -> a mod PGSIZE = 0 -> 0 <= a ->
  a + Z.of_nat (length ws) * PGSIZE <= MAXVA -> unmapped L a (length ws) ->
  freeable (PTE2PA <$> ws) l T ->
  exists r s', runs (uvmdealloc root (a + Z.of_nat (length ws) * PGSIZE) a) s r s' /\
    vm s' root T L (reverse (PTE2PA <$> ws) ++ l) /\ kstep s s' /\
    same_except (list_to_set (PTE2PA <$> ws) ∪ tables T) (k_mem s) (k_mem s').
Proof.
  intros Hvm Hal Ha Hmax Hun Hfree. assert (MAXVA = 2 ^ 38) as HM by reflexivity.
  unfold uvmdealloc. destruct (Z.leb_spec (a + Z.of_nat (length ws) * PGSIZE) a) as [Hle|Hlt].
  - assert (ws = []) as -> by (apply length_zero_iff_nil; unfold PGSIZE in *; lia).
    eexists _, s. split; [apply runs_ret|]. split; [exact Hvm|]. split; reflexivity.
  - destruct (vm_unmap_words s root T L l a ws) as (s' & Hr & H);
      [done|done|done|by intros ->; simpl in *; lia|done|done|done|].
    exists a, s'. split; [|exact H]. cbv zeta.
    rewrite !PGROUNDUP_id by (done || (unfold PGSIZE in *; dlia)).
    destruct (Z.ltb_spec a (a + Z.of_nat (length ws) * PGSIZE)); [|lia].
    rewrite u64_small by lia.
    replace (a + Z.of_nat (length ws) * PGSIZE - a) with (Z.of_nat (length ws) * PGSIZE) by lia.
    eapply runs_bind; [exact Hr|apply runs_ret].
Qed.

(** *** uvmalloc *)

Definition zero_page (m : mem) (f : Z) : Prop := forall x, f <= x < f + PGSIZE -> m !!! x = 0.

Definition urwx : Z := Z.lor (Z.lor (Z.lor PTE_W PTE_X) PTE_R) PTE_U.

(** The pages added are given back. *)

Lemma added_undo s0 T0 l0 s T l fs s' :
  added s0 T0 l0 s T l fs -> kstep s s' ->
  same_except (list_to_set fs ∪ tables T) (k_mem s) (k_mem s') ->
  added s0 T0 l0 s' T (reverse fs ++ l) [].
Proof.
  intros [Hs0 Hm0 HT0 (Hnd & _ & _) Hp0] Hs' Hm'. split; [by transitivity s| |done| |].
  - eapply same_except_trans; [exact Hm0|exact Hm'|done|]. rewrite <- Hp0. sets.
  - split; [|split; [constructor|sets]]. simpl. by rewrite reverse_Permutation.
  - rewrite <- Hp0, list_to_set_app_L. rewrite (list_to_set_perm_L (reverse fs) fs); [sets|].
    apply reverse_Permutation.
Qed.

(** The pages added so far keep their contents. *)

Lemma added_keep s0 T0 l0 s T l fs s' f x :
  added s0 T0 l0 s T l fs -> same_except (list_to_set l ∪ tables T) (k_mem s) (k_mem s') ->
  f ∈ fs -> f <= x < f + PGSIZE -> k_mem s' !!! x = k_mem s !!! x.
Proof.
  intros Had Hm Hf Hx. destruct (added_fresh _ _ _ _ _ _ _ _ Had Hf) as (H1 & H2 & H3).
  apply Hm. rewrite (pg_in f) by done. sets.
Qed.

Lemma urwx_leaf : leaf_perm urwx.
Proof. done. Qed.

Lemma frames_urwx fs :
  Forall page_ok fs -> PTE2PA <$> ((fun f => pte_for f urwx) <$> fs) = fs.
Proof.
  intros H. rewrite <- list_fmap_compose. rewrite <- (list_fmap_id fs) at 2.
  apply list_fmap_ext. intros i f Hf. simpl.
  assert (page_ok f) as Hp by (by eapply Forall_lookup_1).
  apply page_phys in Hp as [? ?]. apply pte_for_pa; [lia|done|done].
Qed.

(** What uvmalloc ends with: the new pages mapped and zeroed, or nothing
    mapped and every page back in the pool. *)

Definition grown_to (s0 : kst) root T0 L l0 a (n : nat) newsz (r : Z) (s : kst) : Prop :=
  (r = newsz /\ exists T l fs, length fs = n /\
     vm s root T (map_words L a ((fun f => pte_for f urwx) <$> fs)) l /\
     added s0 T0 l0 s T l fs /\ Forall (zero_page (k_mem s)) fs) \/
  (r = 0 /\ scarce (3 * n) s0 l0 /\ exists T l, vm s root T L l /\ added s0 T0 l0 s T l []).

(** The state in which the loop of uvmalloc has added [fs] is undone. *)

Lemma uvmalloc_undo s0 T0 l0 s root T L l a fs :
  vm s root T (map_words L a ((fun f => pte_for f urwx) <$> fs)) l ->
  added s0 T0 l0 s T l fs -> a mod PGSIZE = 0 -> 0 <= a ->
  a + Z.of_nat (length fs) * PGSIZE <= MAXVA -> unmapped L a (length fs) ->
  exists r s', runs (uvmdealloc root (a + Z.of_nat (length fs) * PGSIZE) a) s r s' /\
    exists l', vm s' root T L l' /\ added s0 T0 l0 s' T l' [].
Proof.
  intros Hvm Had Hal Ha Hmax Hun. pose proof (ad_free _ _ _ _ _ _ _ Had) as Hfree.
  pose proof (frames_urwx fs (proj1 (proj2 Hfree))) as Hfr.
  set (ws := (fun f => pte_for f urwx) <$> fs) in *.
  assert (length ws = length fs) as Hlen by apply length_fmap. rewrite <- Hlen in *.
  destruct (vm_rollback s root T L l a ws) as (r & s' & Hr & Hvm' & Hs' & Hm');
    [done|done|done|done|done|by rewrite Hfr|].
  rewrite Hfr in *. exists r, s'. split; [exact Hr|]. exists (reverse fs ++ l).
  split; [exact Hvm'|]. by apply (added_undo _ _ _ s).
Qed.

(** What the loop of uvmalloc keeps. *)

Definition alloc_inv s0 T0 l0 root L a s T l fs : Prop :=
  vm s root T (map_words L a ((fun f => pte_for f urwx) <$> fs)) l /\
  added s0 T0 l0 s T l fs /\ spent_upto (3 * length fs) s0 l0 s l /\ Forall (zero_page (k_mem s)) fs.

Lemma alloc_inv_push s0 T0 l0 root L a s T l fs f s1 s' T' l' :
  alloc_inv s0 T0 l0 root L a s T l fs ->
  vm s' root T' (<[a + Z.of_nat (length fs) * PGSIZE := pte_for f urwx]>
                   (map_words L a ((fun f => pte_for f urwx) <$> fs))) l' ->
  added s T l s' T' l' [f] -> spent_upto 3 s l s' l' ->
  (forall x, f <= x < f + PGSIZE -> k_mem s' !!! x = memset (k_mem s1) f 0 PGSIZE !!! x) ->
  alloc_inv s0 T0 l0 root L a s' T' l' (fs ++ [f]).
Proof.
  intros (Hvm & Had & Hsp & Hz) Hvm' Had' Hsp' Hbytes. pose proof (ad_mem _ _ _ _ _ _ _ Had') as Hm.
  split; [|split; [|split]].
  - rewrite fmap_app. cbn [fmap list_fmap]. by rewrite map_words_snoc, length_fmap.
  - by eapply added_trans.
  - by eapply spent_snoc.
  - apply Forall_app. split; [|apply Forall_singleton].
    + apply Forall_forall. intros g Hg x Hx. rewrite (added_keep _ _ _ _ _ _ _ _ g x Had Hm Hg Hx).
      rewrite Forall_forall in Hz. by apply (Hz g).
    + intros x Hx. rewrite Hbytes, memset_lookup by (done || unfold PGSIZE; lia). zcase; done.
Qed.

Lemma vm_uvmalloc_round s0 T0 l0 root L a0 newsz s T l fs :
  let a := a0 + Z.of_nat (length fs) * PGSIZE in
  alloc_ok s0 l0 -> alloc_inv s0 T0 l0 root L a0 s T l fs ->
  a0 mod PGSIZE = 0 -> 0 <= a0 -> a < newsz <= MAXVA -> unmapped L a0 (S (length fs)) ->
  (exists s' T' l', runs (uvmalloc_round root a0 newsz a) s (inr 0) s' /\
     scarce (3 * S (length fs)) s0 l0 /\ vm s' root T' L l' /\ added s0 T0 l0 s' T' l' []) \/
  (exists f s' T' l', runs (uvmalloc_round root a0 newsz a) s (inl (a + PGSIZE)) s' /\
     alloc_inv s0 T0 l0 root L a0 s' T' l' (fs ++ [f])).
Proof.
  intros a Hok Hinv Hal Ha0 Ha Hun. pose proof Hinv as (Hvm & Had & Hsp & Hz).
  assert (MAXVA = 2 ^ 38) as HM by reflexivity.
  assert (a mod PGSIZE = 0 /\ 0 <= a) as [Hala Hapos] by (subst a; unfold PGSIZE in *; dlia).
  assert (unmapped L a0 (length fs)) as Hun' by (intros i Hi; apply Hun; lia).
  assert (map_words L a0 ((fun f => pte_for f urwx) <$> fs) !! a = None) as HLa.
  { rewrite map_words_lookup, length_fmap by done. subst a.
    rewrite bool_decide_false by lia. apply Hun. lia. }
  unfold uvmalloc_round. destruct (Z.ltb_spec a newsz) as [_|?]; [|lia]. cbn [negb].
  destruct (vm_new_page s root T _ l a urwx (fun f m => memset m f 0 PGSIZE) Hvm Hala
    ltac:(lia) HLa urwx_leaf (fun f m => same_memset m f 0)) as
    [s' Hr Hvm' Hg Hout|f s1 s2 s3 T' l' Hf0 Hr Hr2 Hr3 Hvm3 Hg Hout|
     f s1 s2 T' l' Hf0 Hr Hr2 Hvm2 Had2 Hsp2 Hbytes _].
  - left. pose proof (vm_alloc _ _ _ _ _ Hvm') as (_ & (_ & Hnd & _) & _).
    destruct (uvmalloc_undo s0 T0 l0 s' root T L l a0 fs Hvm') as (r & s2 & Hr2 & l2 & H);
      [by eapply added_grows|done|done|lia|done|].
    exists s2, T, l2. split; [|split; [by eapply scarce_snoc|exact H]]. eapply runs_bind; [exact Hr|].
    eapply runs_bind; [exact Hr2|apply runs_ret].
  - left. pose proof (vm_alloc _ _ _ _ _ Hvm3) as (_ & (_ & Hnd & _) & _).
    destruct (uvmalloc_undo s0 T0 l0 s3 root T' L l' a0 fs Hvm3) as (r & s4 & Hr4 & l4 & H);
      [by eapply added_grows|done|done|lia|done|].
    exists s4, T', l4. split; [|split; [by eapply scarce_snoc|exact H]]. eapply runs_bind; [exact Hr|].
    destruct (Z.eqb_spec f 0); [done|]. eapply runs_bind; [apply runs_mmemset|].
    eapply runs_bind; [exact Hr2|]. eapply runs_bind; [exact Hr3|].
    eapply runs_bind; [exact Hr4|apply runs_ret].
  - right. exists f, s2, T', l'. split; [|by eapply alloc_inv_push].
    eapply runs_bind; [exact Hr|]. destruct (Z.eqb_spec f 0); [done|].
    eapply runs_bind; [apply runs_mmemset|]. eapply runs_bind; [exact Hr2|].
    rewrite u64_small by (unfold PGSIZE in *; lia). apply runs_ret.
Qed.

Lemma vm_uvmalloc_loop j fuel s0 T0 l0 root L a0 newsz s T l fs :
  let a := a0 + Z.of_nat (length fs) * PGSIZE in
  alloc_ok s0 l0 -> alloc_inv s0 T0 l0 root L a0 s T l fs -> a0 mod PGSIZE = 0 -> 0 <= a0 -> newsz <= MAXVA ->
  newsz <= a + Z.of_nat j * PGSIZE -> (j <> O -> a + Z.of_nat j * PGSIZE - PGSIZE < newsz) ->
  unmapped L a0 (length fs + j) -> (j < fuel)%nat ->
  exists r s', runs (loop fuel (uvmalloc_round root a0 newsz) a) s r s' /\
    grown_to s0 root T0 L l0 a0 (length fs + j) newsz r s'.
Proof.
  intros a Hok. subst a. revert fuel s T l fs.
  induction j as [|j IH]; intros [|fuel] s T l fs Hinv Hal Ha Hn Hj1 Hj2 Hun Hfuel; try lia.
  - exists newsz, s. split.
    + apply runs_loop_stop. unfold uvmalloc_round.
      destruct (Z.ltb_spec (a0 + Z.of_nat (length fs) * PGSIZE) newsz); [lia|]. apply runs_ret.
    + left. split; [done|]. exists T, l, fs. rewrite Nat.add_0_r. by destruct Hinv as (? & ? & _ & ?).
  - destruct (vm_uvmalloc_round s0 T0 l0 root L a0 newsz s T l fs) as
      [(s' & T' & l' & Hr & Hout & H)|(f & s1 & T1 & l1 & Hr & Hinv1)]; try done.
    + unfold PGSIZE in *. lia.
    + intros i Hi. apply Hun. lia.
    + exists 0, s'. split; [by apply runs_loop_stop|]. right. split; [done|]. split; [|by exists T', l'].
      eapply scarce_mono; [|exact Hout]. lia.
    + assert (length (fs ++ [f]) = S (length fs)) as Hlen by (rewrite length_app; simpl; lia).
      destruct (IH fuel s1 T1 l1 (fs ++ [f])) as (r & s' & Hr' & H); rewrite ?Hlen; try done.
      1-2: unfold PGSIZE in *; lia.
      { intros i Hi. apply Hun. lia. }
      { lia. }
      exists r, s'. rewrite Hlen in *. split.
      * eapply runs_loop_next; [exact Hr|].
        by replace (a0 + Z.of_nat (length fs) * PGSIZE + PGSIZE)
          with (a0 + Z.of_nat (S (length fs)) * PGSIZE) by lia.
      * by replace (length fs + S j)%nat with (S (length fs) + j)%nat by lia.
Qed.

(** *** uvmcopy *)

Lemma PTE2PA_aligned w : PTE2PA w mod PGSIZE = 0.
Proof.
  unfold PTE2PA, u64, PGSIZE. rewrite Z.shiftl_mul_pow2 by lia.
  change (2 ^ 12) with 4096. dlia.
Qed.

Lemma leaf_flags w : leaf_pte w -> leaf_perm (PTE_FLAGS w).
Proof.
  intros (_ & _ & H). unfold PTE_FLAGS. change 0x3FF with (Z.ones 10). split.
  - rewrite Z.land_ones by lia. apply Z.mod_pos_bound. lia.
  - rewrite <- Z.land_assoc. exact H.
Qed.

Lemma same_memmove m f pa : f mod PGSIZE = 0 -> same_except {[f]} m (memmove m f pa PGSIZE).
Proof.
  intros Hf x Hx. pose proof (pg_out f x Hf ltac:(set_solver)).
  rewrite memmove_lookup by (unfold PGSIZE; lia). zcase; done.
Qed.

(** The entries of the copy: the frames [fs] with the flags of the original. *)

Definition copy_words (Lo : gmap Z Z) (fs : list Z) : list Z :=
  imap (fun i f => pte_for f (PTE_FLAGS (Lo !!! (Z.of_nat i * PGSIZE)))) fs.

(** The frame [f] holds what page [i] of the original held. *)

Definition copied (m0 m : mem) (Lo : gmap Z Z) (i : nat) (f : Z) : Prop :=
  forall off, 0 <= off < PGSIZE ->
    m !!! (f + off) = m0 !!! (PTE2PA (Lo !!! (Z.of_nat i * PGSIZE)) + off).

(** The original: its tables and pages are not in the pool that the copy is
    made from. *)

Record original (s : kst) (T : gmap (list Z) Z) (l : list Z) (old : Z) To Lo (n : nat) : Prop := {
  og_pt : pt (k_mem s) old To Lo;
  og_mapped : mapped Lo 0 n;
  og_tables : tables To ## list_to_set l ∪ tables T;
  og_frames : (list_to_set (frames Lo 0 n) : gset Z) ## list_to_set l ∪ tables T;
}.

Definition copy_inv s0 T0 l0 new L Lo s T l fs : Prop :=
  vm s new T (map_words L 0 (copy_words Lo fs)) l /\ added s0 T0 l0 s T l fs /\
  spent_upto (3 * length fs) s0 l0 s l /\
  (forall i f, fs !! i = Some f -> copied (k_mem s0) (k_mem s) Lo i f).

Lemma frames_copy Lo fs n :
  mapped Lo 0 n -> (length fs <= n)%nat -> Forall page_ok fs ->
  (forall va w, Lo !! va = Some w -> leaf_pte w) -> PTE2PA <$> copy_words Lo fs = fs.
Proof.
  intros Hmap Hn Hp Hleaf. apply list_eq. intros i. unfold copy_words.
  rewrite list_lookup_fmap, list_lookup_imap. destruct (fs !! i) as [f|] eqn:E; [|done]. simpl.
  f_equal. pose proof (lookup_lt_Some _ _ _ E).
  destruct (Hmap (Z.of_nat i) ltac:(lia)) as [w Hw]. rewrite Z.add_0_l in Hw.
  apply Forall_lookup_1 with (i := i) (x := f) in Hp; [|done]. apply page_phys in Hp as [? ?].
  apply pte_for_pa; [lia|done|]. rewrite lookup_total_alt, Hw. by eapply leaf_flags, Hleaf.
Qed.

Lemma elem_of_frames L a k i :
  0 <= i < Z.of_nat k -> PTE2PA (L !!! (a + i * PGSIZE)) ∈ frames L a k.
Proof.
  revert a i. induction k as [|k IH]; intros a i Hi; [lia|]. cbn [frames].
  destruct (Z.eq_dec i 0) as [->|]; [rewrite Z.add_0_r; left|right].
  replace (a + i * PGSIZE) with (a + PGSIZE + (i - 1) * PGSIZE) by lia. apply IH. lia.
Qed.

Lemma original_keep s0 T0 l0 old To Lo n s T l fs :
  original s0 T0 l0 old To Lo n -> added s0 T0 l0 s T l fs ->
  pt (k_mem s) old To Lo /\
  (forall i off, 0 <= i < Z.of_nat n -> 0 <= off < PGSIZE ->
     k_mem s !!! (PTE2PA (Lo !!! (i * PGSIZE)) + off) =
     k_mem s0 !!! (PTE2PA (Lo !!! (i * PGSIZE)) + off)).
Proof.
  intros [Hpt Hmap HT HF] [_ Hm _ _ _]. split.
  - by apply (pt_ext (k_mem s0) _ _ _ _ (list_to_set l0 ∪ tables T0)).
  - intros i off Hi Hoff. apply Hm.
    rewrite (pg_in (PTE2PA (Lo !!! (i * PGSIZE)))) by (apply PTE2PA_aligned || lia).
    pose proof (elem_of_frames Lo 0 n i Hi) as He. rewrite Z.add_0_l in He. sets.
Qed.

Lemma copy_inv_push s0 T0 l0 new L Lo old To n s T l fs f s1 s' T' l' :
  original s0 T0 l0 old To Lo n -> (length fs < n)%nat ->
  copy_inv s0 T0 l0 new L Lo s T l fs ->
  let i := Z.of_nat (length fs) * PGSIZE in
  let pa := PTE2PA (Lo !!! i) in
  vm s' new T' (<[i := pte_for f (PTE_FLAGS (Lo !!! i))]> (map_words L 0 (copy_words Lo fs))) l' ->
  added s T l s' T' l' [f] -> spent_upto 3 s l s' l' ->
  (forall x, f <= x < f + PGSIZE -> k_mem s' !!! x = memmove (k_mem s1) f pa PGSIZE !!! x) ->
  same_except {[f]} (k_mem s) (k_mem s1) ->
  copy_inv s0 T0 l0 new L Lo s' T' l' (fs ++ [f]).
Proof.
  intros Hog Hlen (Hvm & Had & Hsp & Hc) i pa Hvm' Had' Hsp' Hbytes Hm1.
  pose proof Had' as [_ Hm _ _ Hpool]. split; [|split; [|split]].
  - unfold copy_words. rewrite imap_app. cbn [imap]. rewrite map_words_snoc, length_imap.
    rewrite Z.add_0_l, Nat.add_0_r. exact Hvm'.
  - by eapply added_trans.
  - by eapply spent_snoc.
  - intros j g Hg. apply lookup_snoc_Some in Hg as [[Hj Hg]|[-> <-]].
    + intros off Hoff. rewrite (added_keep _ _ _ _ _ _ _ _ g (g + off) Had Hm);
        [by apply Hc|by eapply list_elem_of_lookup_2|lia].
    + intros off Hoff. rewrite Hbytes, memmove_lookup by (unfold PGSIZE in *; lia).
      zcase. cbn [andb]. replace (pa + (f + off - f)) with (pa + off) by lia.
      destruct (original_keep _ _ _ _ _ _ _ _ _ _ _ Hog Had) as [_ Hk].
      rewrite Hm1; [apply Hk; [lia|done]|].
      rewrite (pg_in pa) by (apply PTE2PA_aligned || lia).
      pose proof (elem_of_frames Lo 0 n (Z.of_nat (length fs)) ltac:(lia)) as He.
      rewrite Z.add_0_l in He. fold i in He. fold pa in He.
      pose proof (og_frames _ _ _ _ _ _ _ Hog) as HF. pose proof (ad_pool _ _ _ _ _ _ _ Had) as Hp.
      rewrite <- Hp in HF. assert (f ∈ (list_to_set l ∪ tables T : gset Z)) by (rewrite <- Hpool; sets).
      sets.
Qed.

(** One round of uvmcopy: it fails with what was copied still mapped, or maps
    the copy of one more page. *)

Lemma vm_uvmcopy_round s0 T0 l0 old To Lo n new L sz s T l fs :
  let i := Z.of_nat (length fs) * PGSIZE in
  alloc_ok s0 l0 -> original s0 T0 l0 old To Lo n -> (length fs < n)%nat -> unmapped L 0 n ->
  copy_inv s0 T0 l0 new L Lo s T l fs -> i < sz <= MAXVA ->
  (exists s' T' l', runs (uvmcopy_round old new sz i) s (inr (Some i)) s' /\
     scarce (3 * S (length fs)) s0 l0 /\
     vm s' new T' (map_words L 0 (copy_words Lo fs)) l' /\ added s0 T0 l0 s' T' l' fs) \/
  (exists f s' T' l', runs (uvmcopy_round old new sz i) s (inl (i + PGSIZE)) s' /\
     copy_inv s0 T0 l0 new L Lo s' T' l' (fs ++ [f])).
Proof.
  intros i Hok Hog Hlen Hun Hinv Hi. pose proof Hinv as (Hvm & Had & Hsp & _).
  assert (MAXVA = 2 ^ 38) as HM by reflexivity.
  destruct (original_keep _ _ _ _ _ _ _ _ _ _ _ Hog Had) as [Hpt _].
  destruct (og_mapped _ _ _ _ _ _ _ Hog (Z.of_nat (length fs)) ltac:(lia)) as [w Hw].
  rewrite Z.add_0_l in Hw. fold i in Hw.
  destruct (pt_dom _ _ _ _ Hpt i w Hw) as (Hal & Hia & Hleaf & Hpath).
  assert (map_words L 0 (copy_words Lo fs) !! i = None) as HLi.
  { rewrite map_words_lookup by done. unfold copy_words. rewrite length_imap.
    rewrite bool_decide_false by (subst i; lia).
    rewrite <- (Hun (Z.of_nat (length fs))) by lia. f_equal. }
  assert (Lo !!! i = w) as Hwi by (by rewrite lookup_total_alt, Hw).
  destruct (runs_walk_mapped s old To Lo i w Hpt Hw) as (Hrw & Hne & Hld).
  assert (forall r s',
    runs (mem <- kalloc ;;
          if mem =? 0 then ret (inr (Some i)) else
          mmemmove mem (PTE2PA w) PGSIZE ;;
          r <- mappages new i PGSIZE mem (PTE_FLAGS w) ;;
          if negb (r =? 0) then kfree mem ;; ret (inr (Some i)) else
          ret (inl (u64 (i + PGSIZE)))) s r s' ->
    runs (uvmcopy_round old new sz i) s r s') as Hpre.
  { intros r s' Hk. unfold uvmcopy_round. destruct (Z.ltb_spec i sz) as [_|?]; [|lia].
    eapply runs_bind; [exact Hrw|]. destruct (Z.eqb_spec (leaf_addr To i) 0); [done|].
    eapply runs_bind; [apply runs_mload64|]. rewrite Hld.
    destruct (Z.eqb_spec (Z.land w PTE_V) 0); [by destruct Hleaf as (_ & ? & _)|exact Hk]. }
  destruct (vm_new_page s new T _ l i (PTE_FLAGS w) (fun f m => memmove m f (PTE2PA w) PGSIZE)
    Hvm Hal ltac:(lia) HLi (leaf_flags w Hleaf) (fun f m => same_memmove m f _)) as
    [s' Hr Hvm' Hg Hout|f s1 s2 s3 T' l' Hf0 Hr Hr2 Hr3 Hvm3 Hg Hout|
     f s1 s2 T' l' Hf0 Hr Hr2 Hvm2 Had2 Hsp2 Hbytes Hm1].
  - left. pose proof (vm_alloc _ _ _ _ _ Hvm') as (_ & (_ & Hnd & _) & _).
    exists s', T, l. split; [|split; [by eapply scarce_snoc|split; [exact Hvm'|by eapply added_grows]]].
    apply Hpre. eapply runs_bind; [exact Hr|apply runs_ret].
  - left. pose proof (vm_alloc _ _ _ _ _ Hvm3) as (_ & (_ & Hnd & _) & _).
    exists s3, T', l'. split; [|split; [by eapply scarce_snoc|split; [exact Hvm3|by eapply added_grows]]].
    apply Hpre. eapply runs_bind; [exact Hr|]. destruct (Z.eqb_spec f 0); [done|].
    eapply runs_bind; [apply runs_mmemmove|]. eapply runs_bind; [exact Hr2|].
    eapply runs_bind; [exact Hr3|apply runs_ret].
  - right. exists f, s2, T', l'. split.
    + apply Hpre. eapply runs_bind; [exact Hr|]. destruct (Z.eqb_spec f 0); [done|].
      eapply runs_bind; [apply runs_mmemmove|]. eapply runs_bind; [exact Hr2|].
      rewrite u64_small by (unfold PGSIZE in *; lia). apply runs_ret.
    + rewrite <- Hwi in *. by eapply copy_inv_push.
Qed.

Lemma vm_uvmcopy_loop j fuel s0 T0 l0 old To Lo n new L sz s T l fs :
  alloc_ok s0 l0 -> original s0 T0 l0 old To Lo n -> (length fs + j = n)%nat -> unmapped L 0 n ->
  copy_inv s0 T0 l0 new L Lo s T l fs ->
  sz <= MAXVA -> sz <= Z.of_nat n * PGSIZE < sz + PGSIZE -> (j < fuel)%nat ->
  exists r s' T' l' fs',
    runs (loop fuel (uvmcopy_round old new sz) (Z.of_nat (length fs) * PGSIZE)) s r s' /\
    vm s' new T' (map_words L 0 (copy_words Lo fs')) l' /\ added s0 T0 l0 s' T' l' fs' /\
    (r = None /\ length fs' = n /\ copy_inv s0 T0 l0 new L Lo s' T' l' fs' \/
     r = Some (Z.of_nat (length fs') * PGSIZE) /\ (length fs' < n)%nat /\ scarce (3 * S (length fs')) s0 l0).
Proof.
  intros Hok Hog Hn Hun. revert fuel s T l fs Hn.
  induction j as [|j IH]; intros [|fuel] s T l fs Hn Hinv Hmax Hsz Hfuel; try lia.
  - pose proof Hinv as (Hvm & Had & _). exists None, s, T, l, fs. split.
    + apply runs_loop_stop. unfold uvmcopy_round.
      destruct (Z.ltb_spec (Z.of_nat (length fs) * PGSIZE) sz).
      * replace (length fs) with n in * by lia. lia.
      * apply runs_ret.
    + split; [exact Hvm|]. split; [exact Had|]. left. split; [done|]. split; [lia|done].
  - destruct (vm_uvmcopy_round s0 T0 l0 old To Lo n new L sz s T l fs) as
      [(s' & T' & l' & Hr & Hout & Hvm' & Had')|(f & s1 & T1 & l1 & Hr & Hinv1)]; try done.
    + lia.
    + split; [|done]. unfold PGSIZE in *. lia.
    + eexists _, s', T', l', fs. split; [by apply runs_loop_stop|].
      split; [exact Hvm'|]. split; [exact Had'|]. right. split; [done|]. split; [lia|exact Hout].
    + assert (length (fs ++ [f]) = S (length fs)) as Hlen by (rewrite length_app; simpl; lia).
      destruct (IH fuel s1 T1 l1 (fs ++ [f])) as (r & s' & T' & l' & fs' & Hr' & Hrest);
        [lia|done|done|done|lia|].
      exists r, s', T', l', fs'. split; [|exact Hrest].
      eapply runs_loop_next; [exact Hr|]. rewrite Hlen in Hr'.
      by replace (Z.of_nat (length fs) * PGSIZE + PGSIZE)
        with (Z.of_nat (S (length fs)) * PGSIZE) by lia.
Qed.

Lemma uvmcopy_undo s0 T0 l0 old To Lo n s new T L l fs :
  original s0 T0 l0 old To Lo n -> vm s new T (map_words L 0 (copy_words Lo fs)) l ->
  added s0 T0 l0 s T l fs -> (length fs <= n)%nat -> fs <> [] ->
  Z.of_nat (length fs) * PGSIZE <= MAXVA -> unmapped L 0 (length fs) ->
  exists s', runs (uvmunmap new 0 (Z.of_nat (length fs) * PGSIZE) true) s tt s' /\
    exists l', vm s' new T L l' /\ added s0 T0 l0 s' T l' [].
Proof.
  intros [Hpt Hmap _ _] Hvm Had Hn Hne Hmax Hun. pose proof (ad_free _ _ _ _ _ _ _ Had) as Hfree.
  assert (PTE2PA <$> copy_words Lo fs = fs) as Hfr.
  { apply (frames_copy Lo fs n Hmap Hn (proj1 (proj2 Hfree))).
    intros va w Hw. by apply (pt_dom _ _ _ _ Hpt va w Hw). }
  assert (length (copy_words Lo fs) = length fs) as Hlen by apply length_imap.
  rewrite <- Hlen in *.
  destruct (vm_unmap_words s new T L l 0 (copy_words Lo fs)) as (s' & Hr & Hvm' & Hs' & Hm');
    [done|done|done| |by rewrite Z.add_0_l|done|by rewrite Hfr|].
  { intros E. rewrite E in Hlen. by destruct fs. }
  rewrite Hfr in *. exists s'. split; [exact Hr|]. exists (reverse fs ++ l).
  split; [exact Hvm'|]. by apply (added_undo _ _ _ s).
Qed.

(** Unmapping the empty range [0, 0): the loop of uvmunmap starts all the same,
    and panics at a page that is not mapped. *)

Lemma uvmunmap_empty_panics s root T L l :
  vm s root T L l -> L !! 0 = None ->
  panics (uvmunmap root 0 0 true) s
    (match T !! path 0 with None => "uvmunmap: walk" | Some _ => "uvmunmap: not mapped" end).
Proof.
  intros [(_ & _ & _ & Hpr) Hpt _] HL. assert (0 <= 0 < MAXVA) as H0 by done.
  unfold uvmunmap. apply panics_loopz; [done|]. unfold uvmunmap_round.
  change (PGROUNDDOWN 0) with 0.
  eapply panics_bind; [by eapply runs_walk|]. pose proof (leaf_addr_0 _ _ _ _ 0 Hpt H0) as Hpos.
  destruct (T !! path 0) as [b|] eqn:Eb; [|rewrite Hpos; apply panics_panic].
  destruct (Z.eqb_spec (leaf_addr T 0) 0); [lia|].
  eapply panics_bind; [apply runs_mload64|].
  rewrite (load_leaf _ root T L) by (done || by eexists). rewrite HL. cbn [from_option id].
  rewrite Z.land_0_l. eapply panics_bind; [|apply panics_panic].
  apply runs_printf; [by repeat constructor|reflexivity|done].
Qed.

(** The pages of a process of size [sz]. *)

Definition size_pages (sz : Z) : nat := Z.to_nat ((sz + PGSIZE - 1) / PGSIZE).

(** The pages between two sizes. *)

Definition grow_pages (oldsz newsz : Z) : nat :=
  Z.to_nat ((newsz - PGROUNDUP oldsz + PGSIZE - 1) / PGSIZE).

(** What uvmcopy does. *)

Lemma vm_uvmcopy s old To Lo new T L l sz :
  let n := size_pages sz in
  vm s new T L l -> original s T l old To Lo n -> unmapped L 0 n -> 0 <= sz <= MAXVA ->
  (exists s' T' l' fs, runs (uvmcopy old new sz) s 0 s' /\ length fs = n /\
     copy_inv s T l new L Lo s' T' l' fs) \/
  (exists s' T' l', scarce (3 * n) s l /\ runs (uvmcopy old new sz) s (-1) s' /\
     vm s' new T' L l' /\ added s T l s' T' l' []) \/
  (exists msg, scarce 3 s l /\ (0 < n)%nat /\ panics (uvmcopy old new sz) s msg).
Proof.
  intros n Hvm Hog Hun Hsz. assert (MAXVA = 2 ^ 38) as HM by reflexivity.
  assert (sz <= Z.of_nat n * PGSIZE < sz + PGSIZE) as Hn
    by (subst n; unfold size_pages, PGSIZE in *; dlia).
  destruct (vm_uvmcopy_loop n (Z.to_nat (sz / PGSIZE + 2)) s T l old To Lo n new L sz s T l [])
    as (r & s' & T' & l' & fs & Hr & Hvm' & Had & Hres); try done.
  { apply Hvm. }
  { split; [done|]. split; [by eapply added_refl|]. split; [|done]. exists 0%nat. split; [lia|apply spent_refl]. }
  { lia. }
  { subst n. unfold size_pages, PGSIZE in *. dlia. }
  apply runs_loopz in Hr. destruct Hres as [(-> & Hlen & Hinv)|(-> & Hlen & Hout)].
  - left. exists s', T', l', fs. split; [|by split]. unfold uvmcopy.
    eapply runs_bind; [exact Hr|apply runs_ret].
  - right. destruct (decide (fs = [])) as [->|Hne].
    + right. eexists. split; [exact Hout|]. split; [cbn in Hlen; lia|]. eapply panics_bind; [exact Hr|]. apply panics_bind_l.
      apply (uvmunmap_empty_panics s' new T' L l' Hvm').
      apply (Hun 0). simpl in Hlen. lia.
    + left. destruct (uvmcopy_undo s T l old To Lo n s' new T' L l' fs) as (s2 & Hr2 & l2 & Hvm2 & Had2);
        [done|done|done|lia|done|unfold PGSIZE in *; lia|intros i Hi; apply Hun; lia|].
      exists s2, T', l2. split; [eapply scarce_mono; [|exact Hout]; lia|]. split; [|by split].
      eapply runs_bind; [exact Hr|]. eapply runs_bind; [exact Hr2|apply runs_ret].
Qed.

(** uvmalloc, every case. *)

Lemma vm_uvmalloc s root T L l oldsz newsz :
  vm s root T L l -> 0 <= oldsz <= newsz -> newsz <= MAXVA ->
  unmapped L (PGROUNDUP oldsz) (grow_pages oldsz newsz) ->
  exists r s', runs (uvmalloc root oldsz newsz) s r s' /\
    grown_to s root T L l (PGROUNDUP oldsz) (grow_pages oldsz newsz) newsz r s'.
Proof.
  intros Hvm Hsz Hmax Hun. assert (MAXVA = 2 ^ 38) as HM by reflexivity.
  unfold uvmalloc. destruct (Z.ltb_spec newsz oldsz); [lia|]. cbv zeta.
  assert (0 <= oldsz <= 2 ^ 64 - PGSIZE) as Hr by (unfold PGSIZE; lia).
  pose proof (PGROUNDUP_aligned oldsz Hr) as Hal. pose proof (PGROUNDUP_bounds oldsz Hr) as Hb.
  set (a0 := PGROUNDUP oldsz) in *.
  destruct (vm_uvmalloc_loop (grow_pages oldsz newsz) (Z.to_nat ((newsz - a0) / PGSIZE + 2))
    s T l root L a0 newsz s T l []) as (r & s' & Hr' & Hto); simpl length; try done.
  - apply Hvm.
  - split; [done|]. split; [by eapply added_refl|]. split; [|constructor]. exists 0%nat. split; [lia|apply spent_refl].
  - lia.
  - unfold grow_pages, PGSIZE in *. fold a0. dlia.
  - unfold grow_pages, PGSIZE in *. fold a0. dlia.
  - unfold grow_pages, PGSIZE in *. fold a0. dlia.
  - exists r, s'. simpl in *. rewrite Z.add_0_r in Hr'. split; [|exact Hto]. by apply runs_loopz.
Qed.

(** C9: uvmalloc grows a process from oldsz to newsz: it returns newsz with every
    new page mapped, user accessible and zeroed, or 0 with the page table as it
    was, which happens only when no more pages were free than the three per page
    it may need (the page and two tables), or these would have taken the container
    to its memory limit; in both cases it returns, and no page is lost: those
    mapped, free and used for tables are the ones that were free or tables before. *)
Theorem uvmalloc_spec s root T L l oldsz newsz :
  vm s root T L l -> 0 <= oldsz <= newsz -> newsz <= MAXVA ->
  unmapped L (PGROUNDUP oldsz) (grow_pages oldsz newsz) ->
  exists r s', runs (uvmalloc root oldsz newsz) s r s' /\
    grown_to s root T L l (PGROUNDUP oldsz) (grow_pages oldsz newsz) newsz r s'.
Proof. exact (vm_uvmalloc s root T L l oldsz newsz). Qed.

(** C4: uvmcopy gives the child copies of the parent's pages, with the same
    contents and flags, out of the pool of free pages.  It can only fail when no
    more pages were free than the three per page it may need (the page and two
    tables), or these would have taken the container to its memory limit: it then
    returns -1 with the child's table as it was and every page back in the pool,
    or panics, which happens only when not even the three pages of the first round
    could be had.  The parent's memory does not change. *)
Theorem uvmcopy_spec s old To Lo new T L l sz :
  let n := size_pages sz in
  vm s new T L l -> original s T l old To Lo n -> unmapped L 0 n -> 0 <= sz <= MAXVA ->
  (exists s' T' l' fs, runs (uvmcopy old new sz) s 0 s' /\ length fs = n /\
     copy_inv s T l new L Lo s' T' l' fs) \/
  (exists s' T' l', scarce (3 * n) s l /\ runs (uvmcopy old new sz) s (-1) s' /\
     vm s' new T' L l' /\ added s T l s' T' l' []) \/
  (exists msg, scarce 3 s l /\ (0 < n)%nat /\ panics (uvmcopy old new sz) s msg).
Proof. exact (vm_uvmcopy s old To Lo new T L l sz). Qed.

Lemma kalloc_exhausted s l :
  alloc_ok s l -> exhausted s l ->
  exists s', runs kalloc s 0 s' /\ kstep s s' /\ k_mem s' = k_mem s /\ alloc_ok s' l.
Proof.
  intros Hok Hex.
  destruct (kalloc_cases s l Hok) as [(_ & s' & Hr & Hs & Hm & Hok')|
    (a & l' & s' & -> & Hr & _)]; [by exists s'|].
  destruct Hex as [?|(Hst & ci & c & Hc & Hov)]; [done|]. exfalso.
  pose proof (kalloc_over s ci c Hst Hc ltac:(apply Hok) Hov) as Hr0.
  destruct (runs_det _ _ _ _ _ _ Hr Hr0) as [E _].
  assert (page_ok a) as Ha by (eapply freelist_page; [apply Hok|apply list_elem_of_here]).
  pose proof (page_ok_pos a Ha). lia.
Qed.

(** Copying a process when no page can be had, because none is free or because
    the container of the caller is at its memory limit, does not fail: the cleanup
    unmaps the empty range [0, 0) and panics.  A process of a container that has
    used its memory can so stop the whole machine by calling fork. *)
Theorem uvmcopy_exhausted_panics s old To Lo new T L l sz :
  vm s new T L l -> original s T l old To Lo (size_pages sz) ->
  unmapped L 0 (size_pages sz) -> T !! path 0 = None -> 0 < sz <= MAXVA -> exhausted s l ->
  panics (uvmcopy old new sz) s "uvmunmap: walk".
Proof.
  intros Hvm Hog Hun HT Hsz Hex. assert (MAXVA = 2 ^ 38) as HM by reflexivity.
  assert (0 < size_pages sz)%nat as Hn by (unfold size_pages, PGSIZE; dlia).
  destruct (kalloc_exhausted s l (vm_alloc _ _ _ _ _ Hvm) Hex) as (s' & Hr & Hs & Hm & Hok).
  pose proof Hog as [Hpt Hmap _ _].
  destruct (Hmap 0 ltac:(lia)) as [w Hw]. change (0 + 0 * PGSIZE) with 0 in Hw.
  destruct (runs_walk_mapped s old To Lo 0 w Hpt Hw) as (Hrw & Hne & Hld).
  destruct (pt_dom _ _ _ _ Hpt 0 w Hw) as (_ & _ & Hleaf & _).
  unfold uvmcopy. eapply (panics_bind _ _ _ (Some 0) s').
  - apply runs_loopz.
    replace (Z.to_nat (sz / PGSIZE + 2)) with (S (Z.to_nat (sz / PGSIZE + 1)))
      by (unfold PGSIZE; dlia).
    apply runs_loop_stop. unfold uvmcopy_round.
    destruct (Z.ltb_spec 0 sz); [|lia]. cbn [negb].
    eapply runs_bind; [exact Hrw|]. destruct (Z.eqb_spec (leaf_addr To 0) 0); [done|].
    eapply runs_bind; [apply runs_mload64|]. rewrite Hld.
    destruct (Z.eqb_spec (Z.land w PTE_V) 0); [by destruct Hleaf as (_ & ? & _)|].
    eapply runs_bind; [exact Hr|apply runs_ret].
  - apply panics_bind_l.
    pose proof (uvmunmap_empty_panics s' new T L l) as Hp. rewrite HT in Hp. apply Hp.
    + split; [exact Hok|rewrite Hm; apply Hvm|apply Hvm].
    + apply (Hun 0). lia.
Qed.

End Uvm.
