(* ===== verification/Ucopy.v ===== *)
(** * Copies between kernel and user memory

    copyout, copyin and copyinstr of kernel/vm.c work a page at a time.  Here
    they are shown to be the obvious byte-at-a-time copies through the page
    table, which stop at the first byte that the process may not touch. *)

From S2P Require Import Prelude Monad Riscv Kstring Kstate Spinlock Printf Kalloc Vm Pagetable.

Section Ucopy.
Context `{KI : KernelImage}.

(** The physical address of the user's byte at [va]. *)

Definition utrans (L : gmap Z Z) (va : Z) : option Z :=
  w ← L !! pg va;
  if Z.land w PTE_U =? 0 then None else Some (PTE2PA w + va mod PGSIZE).

(** Write [bs] at [va] byte by byte; how it ended, and the memory. *)

Fixpoint write_user (L : gmap Z Z) (m : mem) (va : Z) (bs : list Z) : Z * mem :=
  match bs with
  | [] => (0, m)
  | b :: bs' =>
      match utrans L va with
      | Some pa => write_user L (<[pa := b]> m) (va + 1) bs'
      | None => (-1, m)
      end
  end.

(** Read [n] bytes at [va]; how it ended, and the bytes read. *)

Fixpoint read_user (L : gmap Z Z) (m : mem) (va : Z) (n : nat) : Z * list Z :=
  match n with
  | O => (0, [])
  | S n' =>
      match utrans L va with
      | Some pa => let '(r, bs) := read_user L m (va + 1) n' in (r, m !!! pa :: bs)
      | None => (-1, [])
      end
  end.

(** The pages a process may touch are not tables. *)

Definition user_ok (T : gmap (list Z) Z) (L : gmap Z Z) : Prop :=
  forall va w, L !! va = Some w -> Z.land w PTE_U <> 0 -> 0 < PTE2PA w /\ PTE2PA w ∉ tables T.

(** ** Lemmas *)

Lemma PTE2PA_page w : PTE2PA w mod PGSIZE = 0.
Proof.
  unfold PTE2PA, u64, PGSIZE. rewrite Z.shiftl_mul_pow2 by lia.
  change (2 ^ 12) with 4096. dlia.
Qed.

(** What walkaddr finds for the page of [va]. *)

Definition upage (L : gmap Z Z) (va : Z) : Z :=
  match L !! pg va with
  | Some w => if Z.land w PTE_U =? 0 then 0 else PTE2PA w
  | None => 0
  end.

Lemma runs_walkaddr s root T L va :
  pt (k_mem s) root T L -> 0 <= va < 2 ^ 64 ->
  runs (walkaddr root (PGROUNDDOWN va)) s (upage L va) s.
Proof.
  intros Hpt Hva. rewrite PGROUNDDOWN_eq by done. fold (pg va). unfold walkaddr, upage.
  assert (pg va mod PGSIZE = 0) as Hal by (unfold pg, PGSIZE; dlia).
  assert (0 <= pg va) as Hpos by (unfold pg, PGSIZE; dlia).
  destruct (L !! pg va) as [w|] eqn:EL.
  - destruct (pt_dom _ _ _ _ Hpt _ w EL) as (_ & Ha & Hleaf & _).
    destruct (Z.leb_spec MAXVA (pg va)); [lia|].
    destruct (runs_walk_mapped s root T L _ w Hpt EL) as (Hr & Hne & Hld).
    eapply runs_bind; [exact Hr|]. destruct (Z.eqb_spec (leaf_addr T (pg va)) 0); [done|].
    eapply runs_bind; [apply runs_mload64|]. rewrite Hld.
    destruct (Z.eqb_spec (Z.land w PTE_V) 0); [by destruct Hleaf as (_ & ? & _)|].
    destruct (Z.land w PTE_U =? 0); apply runs_ret.
  - destruct (Z.leb_spec MAXVA (pg va)); [apply runs_ret|].
    eapply runs_bind; [eapply runs_walk; [done|lia]|].
    pose proof (leaf_addr_0 _ _ _ _ (pg va) Hpt ltac:(lia)) as Hp.
    destruct (T !! path (pg va)) as [b|] eqn:Eb; [|rewrite Hp; apply runs_ret].
    destruct (Z.eqb_spec (leaf_addr T (pg va)) 0); [lia|].
    eapply runs_bind; [apply runs_mload64|].
    rewrite (load_leaf _ root T L) by (done || lia || by eexists). rewrite EL.
    cbn [from_option id]. rewrite Z.land_0_l. apply runs_ret.
Qed.

Lemma utrans_upage T L va :
  user_ok T L ->
  utrans L va = if upage L va =? 0 then None else Some (upage L va + va mod PGSIZE).
Proof.
  intros Hu. unfold utrans, upage. destruct (L !! pg va) as [w|] eqn:E; [|done]. simpl.
  destruct (Z.eqb_spec (Z.land w PTE_U) 0); [done|].
  destruct (Hu _ _ E) as [? _]; [done|]. destruct (Z.eqb_spec (PTE2PA w) 0); [lia|done].
Qed.

Lemma upage_page L va : upage L va mod PGSIZE = 0.
Proof.
  unfold upage. destruct (L !! pg va); [|done]. destruct (_ =? 0); [done|apply PTE2PA_page].
Qed.

Lemma upage_tables T L va : user_ok T L -> upage L va <> 0 -> upage L va ∉ tables T.
Proof.
  intros Hu. unfold upage. destruct (L !! pg va) as [w|] eqn:E; [|done].
  destruct (Z.eqb_spec (Z.land w PTE_U) 0); [done|]. intros _. by eapply Hu.
Qed.

(** The next byte of the same page. *)

Lemma pg_next va i : 0 <= i < PGSIZE - va mod PGSIZE -> pg (va + i) = pg va /\
  (va + i) mod PGSIZE = va mod PGSIZE + i.
Proof. unfold pg, PGSIZE. intros. split; dlia. Qed.

Lemma write_bytes_other m a bs x :
  x < a \/ a + Z.of_nat (length bs) <= x -> write_bytes m a bs !!! x = m !!! x.
Proof.
  revert m a. induction bs as [|b bs IH]; intros m a Hx; [done|]. cbn [write_bytes length] in *.
  rewrite IH by lia. apply lookup_total_insert_ne. lia.
Qed.

Lemma same_write_bytes m f i bs :
  f mod PGSIZE = 0 -> 0 <= i -> i + Z.of_nat (length bs) <= PGSIZE ->
  same_except {[f]} m (write_bytes m (f + i) bs).
Proof.
  intros Hf Hi Hlen x Hx. pose proof (pg_out f x Hf ltac:(set_solver)).
  apply write_bytes_other. lia.
Qed.

(** A run of bytes inside one page. *)

Lemma write_user_page T L m va bs bs' :
  user_ok T L -> upage L va <> 0 -> Z.of_nat (length bs) <= PGSIZE - va mod PGSIZE ->
  write_user L m va (bs ++ bs') =
    write_user L (write_bytes m (upage L va + va mod PGSIZE) bs) (va + Z.of_nat (length bs)) bs'.
Proof.
  intros Hu Hne. revert m va Hne. induction bs as [|b bs IH]; intros m va Hne Hlen.
  - simpl. by rewrite Z.add_0_r.
  - cbn [app write_user length write_bytes]. cbn [length] in Hlen.
    rewrite (utrans_upage T) by done. destruct (Z.eqb_spec (upage L va) 0); [done|].
    destruct bs as [|b' bs].
    + simpl. by replace (va + 1) with (va + Z.of_nat 1) by lia.
    + destruct (pg_next va 1) as [Hpg Hmod]; [cbn [length] in Hlen; lia|].
      assert (upage L (va + 1) = upage L va) as Hup by (unfold upage; by rewrite Hpg).
      rewrite (IH _ (va + 1)) by (rewrite ?Hup, ?Hmod; (done || lia)).
      rewrite Hup, Hmod. f_equal; [f_equal; lia|lia].
Qed.

Lemma chunk_eq va len : 0 <= va < 2 ^ 64 -> chunk va len = Z.min (PGSIZE - va mod PGSIZE) len.
Proof. intros H. unfold chunk. rewrite PGROUNDDOWN_eq by done. f_equal. lia. Qed.

Lemma upage_below m root T L va : pt m root T L -> 0 <= va -> upage L va <> 0 -> va < MAXVA.
Proof.
  intros Hpt Hva. unfold upage. destruct (L !! pg va) as [w|] eqn:E; [|done]. intros _.
  apply (pt_dom _ _ _ _ Hpt) in E as (_ & Hr & _). assert (MAXVA = 2 ^ 38) as HM by reflexivity.
  rewrite HM in *. change (2 ^ 38) with 274877906944 in *. unfold pg, PGSIZE in Hr. dlia.
Qed.

(** The bounds that the loops of the copies go through: [fuel] is enough. *)

Definition enough (fuel : nat) (va len : Z) : Prop :=
  (0 < fuel)%nat /\ va mod PGSIZE + len <= (Z.of_nat fuel - 1) * PGSIZE.

Lemma enough_next fuel va len :
  0 <= va < MAXVA -> 0 < len -> enough (S fuel) va len ->
  let n := Z.min (PGSIZE - va mod PGSIZE) len in
  let va' := u64 (PGROUNDDOWN va + PGSIZE) in
  0 < n <= len /\ 0 <= va' < 2 ^ 64 /\ (n < len -> va' = va + n) /\
  enough fuel va' (len - n).
Proof.
  intros Hva Hlen [_ He]. assert (MAXVA = 2 ^ 38) as HM by reflexivity. cbv zeta.
  rewrite PGROUNDDOWN_eq by lia. rewrite u64_small by (unfold PGSIZE in *; dlia).
  unfold enough, PGSIZE in *. change (2 ^ 38) with 274877906944 in *.
  split; [dlia|]. split; [dlia|]. split; [dlia|]. split; [dlia|].
  replace ((va - va mod 4096 + 4096) mod 4096) with 0 by dlia. dlia.
Qed.

Lemma take_drop_split (bs : list Z) off n len :
  0 <= off -> 0 <= n <= len -> off + len <= Z.of_nat (length bs) ->
  take (Z.to_nat len) (drop (Z.to_nat off) bs) =
    take (Z.to_nat n) (drop (Z.to_nat off) bs) ++
    take (Z.to_nat (len - n)) (drop (Z.to_nat (off + n)) bs).
Proof.
  intros Ho Hn Hl. rewrite Z2Nat.inj_add, <- drop_drop by lia.
  replace (Z.to_nat len) with (Z.to_nat n + Z.to_nat (len - n))%nat at 1 by lia.
  by rewrite take_take_drop.
Qed.

(** A round of copyout at a page that the process may not touch, and at one it
    may. *)

Lemma copyout_round_stop s root T L bs va off len :
  pt (k_mem s) root T L -> 0 <= va < 2 ^ 64 -> 0 < len -> upage L va = 0 ->
  runs (copyout_round root (KVal bs) (va, off, len)) s (inr (-1)) s.
Proof.
  intros Hpt Hva Hlen Hup. unfold copyout_round. destruct (Z.ltb_spec 0 len); [|lia]. cbn [negb].
  eapply runs_bind; [by eapply runs_walkaddr|]. rewrite Hup. apply runs_ret.
Qed.

Lemma copyout_round_next s root T L bs va off len :
  pt (k_mem s) root T L -> 0 <= va < 2 ^ 64 -> 0 < len -> upage L va <> 0 -> 0 <= off ->
  off + len <= Z.of_nat (length bs) ->
  let n := Z.min (PGSIZE - va mod PGSIZE) len in
  runs (copyout_round root (KVal bs) (va, off, len)) s
    (inl (u64 (PGROUNDDOWN va + PGSIZE), off + n, len - n))
    (set_k_mem (write_bytes (k_mem s) (upage L va + va mod PGSIZE)
       (take (Z.to_nat n) (drop (Z.to_nat off) bs))) s).
Proof.
  intros Hpt Hva Hlen Hup Hoff Hbs. cbv zeta. unfold copyout_round.
  destruct (Z.ltb_spec 0 len); [|lia]. cbn [negb].
  eapply runs_bind; [by eapply runs_walkaddr|]. destruct (Z.eqb_spec (upage L va) 0); [done|].
  rewrite chunk_eq by done. rewrite (PGROUNDDOWN_eq va) at 1 by done.
  replace (va - (va - va mod PGSIZE)) with (va mod PGSIZE) by lia.
  eapply runs_bind; [|apply runs_ret]. unfold from_kbuf.
  destruct (Z.ltb_spec (Z.of_nat (length bs)) (off + Z.min (PGSIZE - va mod PGSIZE) len)); [lia|].
  intros e. reflexivity.
Qed.

Lemma copyout_loop fuel s root T L bs va off len :
  pt (k_mem s) root T L -> user_ok T L -> 0 <= va < 2 ^ 64 -> 0 <= off -> 0 <= len ->
  off + len <= Z.of_nat (length bs) -> enough fuel va len ->
  let w := write_user L (k_mem s) va (take (Z.to_nat len) (drop (Z.to_nat off) bs)) in
  runs (loop fuel (copyout_round root (KVal bs)) (va, off, len)) s w.1 (set_k_mem w.2 s).
Proof.
  revert s va off len.
  induction fuel as [|fuel IH]; intros s va off len Hpt Hu Hva Hoff Hlen Hbs He;
    [destruct He; lia|].
  cbv zeta. destruct (Z.eq_dec len 0) as [->|Hl0].
  { change (Z.to_nat 0) with 0%nat. rewrite take_0. cbn [write_user fst snd]. rewrite set_k_mem_id. apply runs_loop_stop, runs_ret. }
  destruct (Z.eq_dec (upage L va) 0) as [Hup|Hup].
  { assert (utrans L va = None) as Hn by (rewrite (utrans_upage T), Hup by done; done).
    destruct (take (Z.to_nat len) (drop (Z.to_nat off) bs)) as [|b bs'] eqn:Eb.
    { apply (f_equal length) in Eb. rewrite length_take, length_drop in Eb. simpl in Eb. lia. }
    cbn [write_user]. rewrite Hn. cbn [fst snd]. rewrite set_k_mem_id.
    apply runs_loop_stop. eapply copyout_round_stop; (done || lia). }
  pose proof (upage_below _ _ _ _ va Hpt ltac:(lia) Hup) as Hmax.
  destruct (enough_next fuel va len) as (Hn & Hva' & Hnext & He'); [lia|lia|done|].
  eapply runs_loop_next; [eapply copyout_round_next; (done || lia)|]. cbv zeta.
  set (n := Z.min (PGSIZE - va mod PGSIZE) len) in *.
  rewrite (take_drop_split bs off n len) by lia.
  set (bs1 := take (Z.to_nat n) (drop (Z.to_nat off) bs)) in *.
  assert (Z.of_nat (length bs1) = n) as Hl1 by (subst bs1; rewrite length_take, length_drop; lia).
  rewrite (write_user_page T) by (done || lia). rewrite Hl1.
  set (m' := write_bytes _ _ _).
  assert (pt m' root T L) as Hpt'.
  { apply (pt_ext (k_mem s) _ _ _ _ {[upage L va]}); [done|..].
    - apply same_write_bytes; [apply upage_page|unfold PGSIZE; dlia|lia].
    - pose proof (upage_tables T L va Hu Hup). set_solver. }
  pose proof (IH (set_k_mem m' s) (u64 (PGROUNDDOWN va + PGSIZE)) (off + n) (len - n)
    Hpt' Hu Hva' ltac:(lia) ltac:(lia) ltac:(lia) He') as Hr. cbv zeta in Hr. cbn [k_mem set_k_mem] in Hr.
  destruct (Z.eq_dec n len) as [E|].
  - rewrite E, Z.sub_diag in Hr |- *. exact Hr.
  - rewrite <- Hnext by lia. exact Hr.
Qed.

(** *** copyin *)

Lemma read_user_page T L m va n k :
  user_ok T L -> upage L va <> 0 -> Z.of_nat n <= PGSIZE - va mod PGSIZE ->
  read_user L m va (n + k) =
    let '(r, bs) := read_user L m (va + Z.of_nat n) k in
    (r, bytes_at m (upage L va + va mod PGSIZE) n ++ bs).
Proof.
  intros Hu. revert va. induction n as [|n IH]; intros va Hne Hlen.
  - simpl. rewrite Z.add_0_r. by destruct (read_user L m va k).
  - cbn [Nat.add read_user]. rewrite (utrans_upage T) by done.
    destruct (Z.eqb_spec (upage L va) 0); [done|].
    assert (bytes_at m (upage L va + va mod PGSIZE) (S n) =
      m !!! (upage L va + va mod PGSIZE) :: bytes_at m (upage L va + va mod PGSIZE + 1) n) as ->.
    { unfold bytes_at. cbn [seq fmap list_fmap]. rewrite Z.add_0_r. f_equal.
      rewrite <- fmap_S_seq, <- list_fmap_compose. apply list_fmap_ext. intros i x _. simpl.
      f_equal. lia. }
    destruct n as [|n].
    + cbn [Nat.add]. change (Z.of_nat 1) with 1. by destruct (read_user L m (va + 1) k).
    + destruct (pg_next va 1) as [Hpg Hmod]; [lia|].
      assert (upage L (va + 1) = upage L va) as Hup by (unfold upage; by rewrite Hpg).
      rewrite (IH (va + 1)) by (rewrite ?Hup, ?Hmod; (done || lia)).
      replace (va + 1 + Z.of_nat (S n)) with (va + Z.of_nat (S (S n))) by lia.
      destruct (read_user L m (va + Z.of_nat (S (S n))) k) as [r bs].
      rewrite Hup, Hmod. cbn [app]. do 3 f_equal. f_equal. lia.
Qed.

Lemma copyin_round_stop s root T L dst va off len :
  pt (k_mem s) root T L -> 0 <= va < 2 ^ 64 -> 0 < len -> upage L va = 0 ->
  runs (copyin_round root (dst, va, off, len)) s (inr (-1, dst)) s.
Proof.
  intros Hpt Hva Hlen Hup. unfold copyin_round. destruct (Z.ltb_spec 0 len); [|lia]. cbn [negb].
  eapply runs_bind; [by eapply runs_walkaddr|]. rewrite Hup. apply runs_ret.
Qed.

Lemma copyin_round_next s root T L bs va off len :
  pt (k_mem s) root T L -> 0 <= va < 2 ^ 64 -> 0 < len -> upage L va <> 0 -> 0 <= off ->
  off + len <= Z.of_nat (length bs) ->
  let n := Z.min (PGSIZE - va mod PGSIZE) len in
  runs (copyin_round root (KVal bs, va, off, len)) s
    (inl (KVal (list_inserts (Z.to_nat off)
            (bytes_at (k_mem s) (upage L va + va mod PGSIZE) (Z.to_nat n)) bs),
          u64 (PGROUNDDOWN va + PGSIZE), off + n, len - n)) s.
Proof.
  intros Hpt Hva Hlen Hup Hoff Hbs. cbv zeta. unfold copyin_round.
  destruct (Z.ltb_spec 0 len); [|lia]. cbn [negb].
  eapply runs_bind; [by eapply runs_walkaddr|]. destruct (Z.eqb_spec (upage L va) 0); [done|].
  rewrite chunk_eq by done. rewrite (PGROUNDDOWN_eq va) at 1 by done.
  replace (va - (va - va mod PGSIZE)) with (va mod PGSIZE) by lia.
  eapply runs_bind; [|apply runs_ret]. unfold to_kbuf.
  destruct (Z.ltb_spec (Z.of_nat (length bs)) (off + Z.min (PGSIZE - va mod PGSIZE) len)); [lia|].
  intros e. reflexivity.
Qed.

Lemma copyin_loop fuel s root T L bs va off len :
  pt (k_mem s) root T L -> user_ok T L -> 0 <= va < 2 ^ 64 -> 0 <= off -> 0 <= len ->
  off + len <= Z.of_nat (length bs) -> enough fuel va len ->
  let r := read_user L (k_mem s) va (Z.to_nat len) in
  runs (loop fuel (copyin_round root) (KVal bs, va, off, len)) s
    (r.1, KVal (list_inserts (Z.to_nat off) r.2 bs)) s.
Proof.
  revert bs va off len.
  induction fuel as [|fuel IH]; intros bs va off len Hpt Hu Hva Hoff Hlen Hbs He;
    [destruct He; lia|].
  cbv zeta. destruct (Z.eq_dec len 0) as [->|Hl0].
  { cbn [Z.to_nat read_user fst snd list_inserts]. apply runs_loop_stop, runs_ret. }
  destruct (Z.eq_dec (upage L va) 0) as [Hup|Hup].
  { assert (utrans L va = None) as Hn by (rewrite (utrans_upage T), Hup by done; done).
    destruct (Z.to_nat len) as [|k] eqn:Ek; [lia|]. cbn [read_user]. rewrite Hn.
    cbn [fst snd list_inserts]. apply runs_loop_stop. eapply copyin_round_stop; (done || lia). }
  pose proof (upage_below _ _ _ _ va Hpt ltac:(lia) Hup) as Hmax.
  destruct (enough_next fuel va len) as (Hn & Hva' & Hnext & He'); [lia|lia|done|].
  eapply runs_loop_next; [eapply copyin_round_next; (done || lia)|]. cbv zeta.
  set (n := Z.min (PGSIZE - va mod PGSIZE) len) in *.
  set (bs1 := bytes_at _ _ _).
  assert (length bs1 = Z.to_nat n) as Hl1 by (unfold bs1, bytes_at; by rewrite length_fmap, length_seq).
  replace (Z.to_nat len) with (Z.to_nat n + Z.to_nat (len - n))%nat by lia.
  rewrite (read_user_page T) by (done || lia). fold bs1. rewrite Z2Nat.id by lia.
  pose proof (IH (list_inserts (Z.to_nat off) bs1 bs) (u64 (PGROUNDDOWN va + PGSIZE)) (off + n) (len - n)
    Hpt Hu Hva' ltac:(lia) ltac:(lia) ltac:(rewrite length_inserts; lia) He') as Hr. cbv zeta in Hr.
  replace (Z.to_nat (off + n)) with (Z.to_nat off + length bs1)%nat in Hr by lia.
  assert (read_user L (k_mem s) (va + n) (Z.to_nat (len - n)) =
          read_user L (k_mem s) (u64 (PGROUNDDOWN va + PGSIZE)) (Z.to_nat (len - n))) as ->.
  { destruct (Z.eq_dec n len) as [E|]; [|by rewrite Hnext by lia].
    replace (len - n) with 0 by lia. reflexivity. }
  destruct (read_user _ _ _ (Z.to_nat (len - n))).
  cbn [fst snd] in *. by rewrite list_inserts_app_l, Nat.add_comm.
Qed.

Lemma enough_fuel va len : 0 <= len -> enough (Z.to_nat (len / PGSIZE + 3)) va len.
Proof. intros H. unfold enough, PGSIZE. split; dlia. Qed.

Lemma runs_copyout s root T L va bs :
  pt (k_mem s) root T L -> user_ok T L -> 0 <= va < 2 ^ 64 ->
  let w := write_user L (k_mem s) va bs in
  runs (copyout root va (KVal bs) (Z.of_nat (length bs))) s w.1 (set_k_mem w.2 s).
Proof.
  intros Hpt Hu Hva. unfold copyout. apply runs_loopz.
  pose proof (copyout_loop (Z.to_nat (Z.of_nat (length bs) / PGSIZE + 3)) s root T L bs va 0
    (Z.of_nat (length bs)) Hpt Hu Hva ltac:(lia) ltac:(lia) ltac:(lia)
    (enough_fuel va (Z.of_nat (length bs)) ltac:(lia))) as H.
  rewrite Nat2Z.id, take_ge in H by done. exact H.
Qed.

Lemma runs_copyin s root T L va bs :
  pt (k_mem s) root T L -> user_ok T L -> 0 <= va < 2 ^ 64 ->
  let r := read_user L (k_mem s) va (length bs) in
  runs (copyin root (KVal bs) va (Z.of_nat (length bs))) s (r.1, KVal (list_inserts 0 r.2 bs)) s.
Proof.
  intros Hpt Hu Hva. unfold copyin. apply runs_loopz.
  pose proof (copyin_loop (Z.to_nat (Z.of_nat (length bs) / PGSIZE + 3)) s root T L bs va 0
    (Z.of_nat (length bs)) Hpt Hu Hva ltac:(lia) ltac:(lia) ltac:(lia)
    (enough_fuel va (Z.of_nat (length bs)) ltac:(lia))) as H.
  rewrite Nat2Z.id in H. exact H.
Qed.

(** *** Reading back what was written *)

(** Different user addresses are different bytes of memory. *)

Definition user_inj (L : gmap Z Z) : Prop :=
  forall v v' pa, utrans L v = Some pa -> utrans L v' = Some pa -> v = v'.

Lemma write_user_other L m va bs v pa :
  user_inj L -> utrans L v = Some pa -> v < va -> (write_user L m va bs).2 !!! pa = m !!! pa.
Proof.
  intros Hi Hv. revert m va. induction bs as [|b bs IH]; intros m va Hlt; [done|].
  cbn [write_user]. destruct (utrans L va) as [pa'|] eqn:E; [|done].
  rewrite IH by lia. apply lookup_total_insert_ne. intros ->.
  pose proof (Hi v va pa Hv E). lia.
Qed.

Lemma read_write_user L m va bs :
  user_inj L -> (write_user L m va bs).1 = 0 ->
  read_user L (write_user L m va bs).2 va (length bs) = (0, bs).
Proof.
  intros Hi. revert m va. induction bs as [|b bs IH]; intros m va; [done|].
  cbn [write_user length read_user]. destruct (utrans L va) as [pa|] eqn:E; [|done].
  intros H. rewrite (IH _ _ H). do 2 f_equal.
  rewrite (write_user_other L _ (va + 1) bs va pa Hi E) by lia. apply lookup_total_insert_eq.
Qed.

Lemma pt_write_user T L m root va bs :
  user_ok T L -> pt m root T L -> pt (write_user L m va bs).2 root T L.
Proof.
  intros Hu. revert m va. induction bs as [|b bs IH]; intros m va Hpt; [done|].
  cbn [write_user]. rewrite (utrans_upage T) by done.
  destruct (Z.eqb_spec (upage L va) 0) as [|Hne]; [done|]. apply IH.
  pose proof (upage_tables T L va Hu Hne).
  apply (pt_ext m _ _ _ _ {[upage L va]}); [done| |set_solver].
  pose proof (Z.mod_pos_bound va PGSIZE ltac:(done)).
  apply (same_write_bytes m (upage L va) (va mod PGSIZE) [b]); [apply upage_page|lia|simpl; lia].
Qed.

(** *** What a mapping translates to *)

Lemma upage_mapped L a pa perm k v :
  a mod PGSIZE = 0 -> a <= v < a + Z.of_nat k * PGSIZE ->
  0 <= pa -> pa + Z.of_nat k * PGSIZE <= 2 ^ 56 -> pa mod PGSIZE = 0 -> 0 <= perm < 2 ^ 10 ->
  upage (map_pages L a pa perm k) v =
    if Z.land perm PTE_U =? 0 then 0 else pa + (pg v - a).
Proof.
  intros Ha Hv Hpa Hmax Hpal Hperm. unfold upage. rewrite map_pages_lookup by done.
  rewrite bool_decide_true by (unfold pg, PGSIZE in *; dlia).
  assert (0 <= pa + (pg v - a) < 2 ^ 56) as Hr.
  { change (2 ^ 56) with 72057594037927936 in *. unfold pg, PGSIZE in *. dlia. }
  rewrite pte_for_pa by (done || unfold pg, PGSIZE in *; dlia).
  rewrite pte_for_eq, PTE_land_make by (done || by apply lor_1024).
  rewrite Z.land_lor_distr_l. change (Z.land PTE_V PTE_U) with 0. by rewrite Z.lor_0_r.
Qed.

(** ** The theorems *)

(** C11: mappages returns 0, after which walkaddr takes every page of the range to
    the physical page it was mapped to when the permission is for users, and
    refuses it otherwise; or it returns -1, which happens only when no more pages
    were free than the two tables per page it may need, or these would have taken
    the container to its memory limit. *)
Theorem mappages_walkaddr s root T L l va size pa perm :
  vm s root T L l -> 0 <= va -> 0 < size -> va + size <= MAXVA ->
  0 <= pa -> pa mod PGSIZE = 0 -> pa + size + 2 * PGSIZE <= 2 ^ 56 -> leaf_perm perm ->
  unmapped L (PGROUNDDOWN va) (page_count va size) ->
  exists r s', runs (mappages root va size pa perm) s r s' /\
    (r = 0 /\ (forall v, va <= v < va + size ->
       runs (walkaddr root (PGROUNDDOWN v)) s'
         (if Z.land perm PTE_U =? 0 then 0 else pa + (PGROUNDDOWN v - PGROUNDDOWN va)) s') \/
     r = -1 /\ scarce (2 * page_count va size) s l).
Proof.
  intros Hvm Hva Hsz Hmax Hpa Hpal Hpm Hperm Hun. assert (MAXVA = 2 ^ 38) as HM by reflexivity.
  destruct (vm_mappages s root T L l va size pa perm Hvm Hva Hsz Hmax Hpa Hpm Hperm Hun)
    as (r & s1 & T1 & l1 & k & Hr & Hvm1 & _ & Hres).
  exists r, s1. split; [exact Hr|].
  destruct Hres as [(-> & -> & _)|(-> & _ & Hsc)]; [left|by right]. split; [done|]. intros v Hv.
  destruct (page_count_spec va size Hva Hsz Hmax) as (n & Hn & _ & _ & Hal & Hlo & _ & Hcov).
  rewrite Hn in *. rewrite (PGROUNDDOWN_eq v) at 2 by lia. fold (pg v).
  rewrite <- (upage_mapped L (PGROUNDDOWN va) pa perm (S n) v); [|done|lia|done| |done|apply Hperm].
  - eapply runs_walkaddr; [apply Hvm1|lia].
  - pose proof (PGROUNDDOWN_bounds va ltac:(lia)). lia.
Qed.

(** C10: copyout and copyin, which work page by page, do exactly what the
    byte-by-byte copies through the page table do: they return 0 with all the
    bytes copied, or -1 with those before the first byte that the process may
    not touch; they always return, and copyin changes no memory. *)
Theorem copies_bytewise s root T L va bs :
  pt (k_mem s) root T L -> user_ok T L -> 0 <= va < 2 ^ 64 ->
  (let w := write_user L (k_mem s) va bs in
   runs (copyout root va (KVal bs) (Z.of_nat (length bs))) s w.1 (set_k_mem w.2 s)) /\
  (let r := read_user L (k_mem s) va (length bs) in
   runs (copyin root (KVal bs) va (Z.of_nat (length bs))) s
     (r.1, KVal (list_inserts 0 r.2 bs)) s).
Proof. split; [by eapply runs_copyout|by eapply runs_copyin]. Qed.

(** copyin gives back what copyout stored in the process's memory. *)
Theorem copyin_copyout s root T L va bs bs0 s' :
  pt (k_mem s) root T L -> user_ok T L -> user_inj L -> 0 <= va < 2 ^ 64 ->
  length bs0 = length bs ->
  runs (copyout root va (KVal bs) (Z.of_nat (length bs))) s 0 s' ->
  runs (copyin root (KVal bs0) va (Z.of_nat (length bs))) s' (0, KVal bs) s'.
Proof.
  intros Hpt Hu Hi Hva Hlen Hout.
  destruct (runs_det _ _ _ _ _ _ Hout (runs_copyout s root T L va bs Hpt Hu Hva)) as [Hw ->].
  rewrite <- Hlen.
  pose proof (runs_copyin (set_k_mem (write_user L (k_mem s) va bs).2 s) root T L va bs0
    (pt_write_user T L _ root va bs Hu Hpt) Hu Hva) as Hin.
  cbn [k_mem set_k_mem] in Hin. rewrite Hlen, read_write_user in Hin by done.
  cbv zeta in Hin. cbn [fst snd] in Hin. rewrite Hlen.
  rewrite <- (app_nil_r bs0), list_inserts_0_r, !app_nil_r in Hin by done. exact Hin.
Qed.

End Ucopy.
