(* ===== verification/Sched.v ===== *)
(** * Processes and the scheduler (kernel/proc.c, first part)

    The process table, sleep and wakeup, the scheduler with its rotation over
    the containers, kill, and what the kernel does with page tables of
    processes.  The operations of kernel/proc.c that use files are in Proc.v. *)

From S2P Require Import Prelude Monad Riscv Kstring Kstate Spinlock Printf Kalloc Vm.

#[export] Instance ptr_eq_dec : EqDecision ptr.
Proof. solve_decision. Defined.

(** [for(p = proc; p < &proc[NPROC]; p++)], [for(c = containers; ...)] *)

Definition procs : list nat := seq 0 NPROC.
Definition containers : list nat := seq 0 NCONTS.

(** ** Process numbers *)

Definition numproc (c : ptr) : K Z :=
  ps <- gets k_procs ;;
  ret (Z.of_nat (length (filter
    (fun p => p_state p <> UNUSED /\ ptr_of (p_container p) = c) (take NPROC ps)))).

Definition allocpid : K Z :=
  acquire Lpid ;;
  pid <- gets k_nextpid ;;
  modify (set_k_nextpid (i32 (pid + 1))) ;;
  release Lpid ;;
  ret pid.

Definition allocvpid (ci : nat) : K Z :=
  acquire (Lvpid ci) ;;
  c <- get_cont ci ;;
  mod_cont ci (set_c_nextvpid (i32 (c_nextvpid c + 1))) ;;
  release (Lvpid ci) ;;
  ret (c_nextvpid c).

(** ** The scheduler and sleeping *)

(** Interrupts are off while the CPU holds a spin lock. *)

Definition intr_get : K bool := gets (fun s => bool_decide (k_held s = ∅)).

(** swtch() to the scheduler of the CPU and back: what happens in between is the
    next element of the environment. *)

Definition sched : K unit :=
  p <- myproc ;;
  i <- deref p ;;
  h <- holding (Lproc i) ;;
  if negb h then panic "sched p->lock" else
  noff <- gets (fun s => size (k_held s)) ;;
  if negb (noff =? 1)%nat then panic "sched locks" else
  pr <- get_proc i ;;
  if bool_decide (p_state pr = RUNNING) then panic "sched running" else
  it <- intr_get ;;
  if (it : bool) then panic "sched interruptible" else
  yield_cpu.

Definition yield : K unit :=
  p <- myproc ;;
  i <- deref p ;;
  acquire (Lproc i) ;;
  mod_proc i (set_p_state RUNNABLE) ;;
  sched ;;
  release (Lproc i).

Definition sleep (ch : chan) (lk : lock) : K unit :=
  p <- myproc ;;
  i <- deref p ;;
  (if* negb (bool_decide (lk = Lproc i)) then acquire (Lproc i) ;; release lk) ;;
  mod_proc i (fun p => set_p_state SLEEPING (set_p_chan (Some ch) p)) ;;
  sched ;;
  mod_proc i (set_p_chan None) ;;
  if* negb (bool_decide (lk = Lproc i)) then release (Lproc i) ;; acquire lk.

Definition wakeup (ch : chan) : K unit :=
  for_each procs (fun i =>
    acquire (Lproc i) ;;
    p <- get_proc i ;;
    (if* bool_decide (p_state p = SLEEPING) && bool_decide (p_chan p = Some ch)
     then mod_proc i (set_p_state RUNNABLE)) ;;
    release (Lproc i)).

Definition wakeup1 (i : nat) : K unit :=
  h <- holding (Lproc i) ;;
  if negb h then panic "wakeup1" else
  p <- get_proc i ;;
  if* bool_decide (p_chan p = Some (ChProc i)) && bool_decide (p_state p = SLEEPING)
  then mod_proc i (set_p_state RUNNABLE).

(** [for(;;)] over the containers, from the one after [index]; it does not end
    when none is running. *)

Definition next_round (index : nat) : K (nat + nat) :=
  let index := ((index + 1) mod NCONTS)%nat in
  c <- get_cont index ;;
  if bool_decide (c_state c = CRUNNING) then ret (inr index) else ret (inl index).

Definition get_next_active_container (index : nat) : K nat := loop NCONTS next_round index.

(** The body of the loop over the process table in scheduler(): [swtch] runs the
    chosen process until it switches back. *)

Definition scheduler_try (cindex i : nat) : K nat :=
  acquire (Lproc i) ;;
  p <- get_proc i ;;
  cindex <-
    (if bool_decide (p_state p = RUNNABLE) && bool_decide (p_container p = Some cindex) then
       mod_proc i (set_p_state RUNNING) ;;
       modify (set_k_cur (Some i)) ;;
       yield_cpu ;;
       modify (set_k_cur None) ;;
       get_next_active_container cindex
     else ret cindex) ;;
  release (Lproc i) ;;
  ret cindex.

Fixpoint scheduler_pass (l : list nat) (cindex : nat) : K nat :=
  match l with
  | [] => ret cindex
  | i :: l' => cindex <- scheduler_try cindex i ;; scheduler_pass l' cindex
  end.

(** scheduler() never returns: [n] rounds of its outer loop. *)

Definition scheduler (n : nat) : K nat :=
  cindex <- get_next_active_container 0 ;;
  modify (set_k_cur None) ;;
  loop n (fun cindex =>
    cindex <- scheduler_pass procs cindex ;;
    cindex <- get_next_active_container cindex ;;
    ret (inl cindex)) cindex.

(** rand(): the state of the generator and its result. *)

Definition rand (randstate rand_max : Z) : Z * Z :=
  let randstate := u64 (randstate * 1664525 + 1013904223) in
  (randstate, u32 (randstate / 65536) mod rand_max).

(** ** kill *)

(** The body of the loop of kill. *)

Definition kill_body (c : ptr) (pid : Z) (i : nat) : K (option Z) :=
  p0 <- get_proc i ;;
  let proc_pid := if isroot c then p_pid p0 else p_vpid p0 in
  acquire (Lproc i) ;;
  p <- get_proc i ;;
  if proc_pid =? pid then
    if negb (isroot c) && negb (bool_decide (ptr_of (p_container p) = c)) then
      release (Lproc i) ;; ret (Some (-1))
    else
      mod_proc i (set_p_killed 1) ;;
      (if* bool_decide (p_state p = SLEEPING) || bool_decide (p_state p = SUSPENDED)
       then mod_proc i (set_p_state RUNNABLE)) ;;
      release (Lproc i) ;;
      ret (Some 0)
  else release (Lproc i) ;; ret None.

Definition kill (pid : Z) : K Z :=
  c <- mycont ;;
  r <- for_ret procs (kill_body c pid) ;;
  ret (default (-1) r).

(** ** Copies to and from either kind of address

    The pair of a flag and an address that either_copyout, either_copyin, readi
    and writei take: a user address, a kernel address in memory, or a C object
    of the kernel that is modelled as a value, by its bytes. *)

Inductive place := PUser (va : Z) | PKern (a : Z) | PObj (bs : list Z).

Section Sched.
Context `{KI : KernelImage}.

Definition either_copyout (dst : place) (doff : Z) (src : list Z) : K (Z * place) :=
  p <- myproc ;;
  match dst with
  | PUser va =>
      i <- deref p ;;
      pr <- get_proc i ;;
      r <- copyout (p_pagetable pr) (u64 (va + doff)) (KVal src) (Z.of_nat (length src)) ;;
      ret (r, dst)
  | PKern a => from_kbuf (a + doff) (KVal src) 0 (Z.of_nat (length src)) ;; ret (0, dst)
  | PObj bs =>
      if Z.of_nat (length bs) <? doff + Z.of_nat (length src) then fault else
      ret (0, PObj (list_inserts (Z.to_nat doff) src bs))
  end.

(** [old] is what the destination holds before. *)

Definition either_copyin (old : list Z) (src : place) (soff : Z) : K (Z * list Z) :=
  let len := Z.of_nat (length old) in
  p <- myproc ;;
  match src with
  | PUser va =>
      i <- deref p ;;
      pr <- get_proc i ;;
      r <- copyin (p_pagetable pr) (KVal old) (u64 (va + soff)) len ;;
      match r with (rc, KVal bs) => ret (rc, bs) | _ => fault end
  | PKern a =>
      d <- to_kbuf (KVal old) 0 (a + soff) len ;;
      match d with KVal bs => ret (0, bs) | _ => fault end
  | PObj bs =>
      if Z.of_nat (length bs) <? soff + len then fault else
      ret (0, take (length old) (drop (Z.to_nat soff) bs))
  end.

(** ** Page tables of processes *)

Definition proc_pagetable (tf : Z) : K Z :=
  pagetable <- uvmcreate ;;
  mappages pagetable TRAMPOLINE PGSIZE trampoline (Z.lor PTE_R PTE_X) ;;
  mappages pagetable TRAPFRAME PGSIZE tf (Z.lor PTE_R PTE_W) ;;
  ret pagetable.

Definition proc_freepagetable (pagetable sz : Z) : K unit :=
  uvmunmap pagetable TRAMPOLINE PGSIZE false ;;
  uvmunmap pagetable TRAPFRAME PGSIZE false ;;
  if* 0 <? sz then uvmfree pagetable sz.

(** The loop of allocproc: a slot that is UNUSED, with its lock held. *)

Definition find_unused : K (option nat) :=
  for_ret procs (fun i =>
    acquire (Lproc i) ;;
    p <- get_proc i ;;
    if bool_decide (p_state p = UNUSED) then ret (Some i)
    else release (Lproc i) ;; ret None).

Definition zero_context : context := mk_context 0 0 0 0 0 0 0 0 0 0 0 0 0 0.

Definition allocproc : K (option nat) :=
  o <- find_unused ;;
  match o with
  | None => ret None
  | Some i =>
      pid <- allocpid ;;
      mod_proc i (set_p_pid pid) ;;
      tf <- kalloc ;;
      mod_proc i (set_p_tf tf) ;;
      if tf =? 0 then release (Lproc i) ;; ret None else
      pagetable <- proc_pagetable tf ;;
      mod_proc i (set_p_pagetable pagetable) ;;
      p <- get_proc i ;;
      mod_proc i (set_p_context
        (mk_context forkret_addr (p_kstack p + PGSIZE) 0 0 0 0 0 0 0 0 0 0 0 0)) ;;
      ret (Some i)
  end.

Definition freeproc (i : nat) : K unit :=
  p <- get_proc i ;;
  (if* negb (p_tf p =? 0) then kfree (p_tf p)) ;;
  mod_proc i (set_p_tf 0) ;;
  p <- get_proc i ;;
  (if* negb (p_pagetable p =? 0) then proc_freepagetable (p_pagetable p) (p_sz p)) ;;
  mod_proc i (set_p_pagetable 0) ;;
  mod_proc i (set_p_sz 0) ;;
  mod_proc i (set_p_pid 0) ;;
  mod_proc i (set_p_parent None) ;;
  mod_proc i (fun p => set_p_name (<[0%nat := 0]> (p_name p)) p) ;;
  mod_proc i (set_p_chan None) ;;
  mod_proc i (set_p_killed 0) ;;
  mod_proc i (set_p_xstate 0) ;;
  mod_proc i (set_p_state UNUSED).

Definition growproc (n : Z) : K Z :=
  p <- myproc ;;
  i <- deref p ;;
  pr <- get_proc i ;;
  let sz := u32 (p_sz pr) in
  r <- (if 0 <? n then
          sz <- uvmalloc (p_pagetable pr) sz (u32 (sz + n)) ;;
          let sz := u32 sz in
          ret (if sz =? 0 then None else Some sz)
        else if n <? 0 then
          sz <- uvmdealloc (p_pagetable pr) sz (u32 (sz + n)) ;;
          ret (Some (u32 sz))
        else ret (Some sz)) ;;
  match r with
  | None => ret (-1)
  | Some sz => mod_proc i (set_p_sz sz) ;; ret 0
  end.

(** procinit(): a page for the kernel stack of every slot.  The locks need no
    code here, they are names. *)

Definition procinit : K unit :=
  for_each containers (fun ci =>
    mod_cont ci (fun c => set_c_memused 0 (set_c_maxproc 5 (set_c_nextvpid 1
      (set_c_state CUNUSED c))))) ;;
  for_each procs (fun i =>
    pa <- kalloc ;;
    if pa =? 0 then panic "kalloc" else
    let va := KSTACK (Z.of_nat i) in
    kvmmap va pa PGSIZE (Z.lor PTE_R PTE_W) ;;
    mod_proc i (set_p_kstack va)).

(** ** The process listing *)

Definition state_name (st : procstate) : string :=
  match st with
  | UNUSED => "unused"
  | SLEEPING => "sleep "
  | RUNNABLE => "runble"
  | RUNNING => "run   "
  | ZOMBIE => "zombie"
  | SUSPENDED => "suspended"
  end.

Definition newline : string := "
".

Definition procdump : K unit :=
  printf newline [] ;;
  for_each procs (fun i =>
    p <- get_proc i ;;
    if bool_decide (p_state p = UNUSED) then ret tt else
    printf "%d %s %s" [VWord (p_pid p); VStr (Some (cstr (state_name (p_state p))));
                       VStr (Some (p_name p))] ;;
    printf newline []).

End Sched.
