(* ===== verification/Schedspec.v ===== *)
(** * What the rotation of the containers, wakeup and kill guarantee

    What one thread sees of them; the scheduler, sleep and wakeup on several harts are in
    Smpsched.v. *)

From S2P Require Import Prelude Monad Riscv Kstring Kstate Spinlock Printf Kalloc Vm Sched.

(** ** Definitions used by the statements *)

(** What wakeup(ch) does to a process. *)

Definition wake (ch : chan) (p : proc) : proc :=
  if bool_decide (p_state p = SLEEPING) && bool_decide (p_chan p = Some ch)
  then set_p_state RUNNABLE p else p.

Definition running (s : kst) (ci : nat) : bool :=
  match k_conts s !! ci with Some c => bool_decide (c_state c = CRUNNING) | None => false end.

(** ** Lemmas: loops over the process table *)

Lemma foldl_alter_from {A} (f : A -> A) (l1 l2 : list A) :
  fold_left (fun l i => alter f i l) (seq (length l1) (length l2)) (l1 ++ l2) = l1 ++ (f <$> l2).
Proof.
  revert l1. induction l2 as [|x l2 IH]; intros l1; [done|].
  cbn [length seq fold_left fmap list_fmap].
  rewrite alter_app_r_alt, Nat.sub_diag by lia. cbn [alter list_alter].
  specialize (IH (l1 ++ [f x])). rewrite length_app in IH. simpl in IH.
  rewrite Nat.add_1_r, <- !app_assoc in IH. exact IH.
Qed.

Lemma foldl_alter {A} (f : A -> A) (l : list A) :
  fold_left (fun l i => alter f i l) (seq 0 (length l)) l = f <$> l.
Proof. apply (foldl_alter_from f []). Qed.

Definition upd (f : proc -> proc) (s : kst) (i : nat) : kst :=
  set_k_procs (alter f i (k_procs s)) s.

Lemma fold_upd f l s :
  fold_left (upd f) l s = set_k_procs (fold_left (fun ps i => alter f i ps) l (k_procs s)) s.
Proof.
  revert s. induction l as [|i l IH]; intros s; simpl; [by rewrite set_k_procs_id|].
  rewrite IH. done.
Qed.

(** A loop over the process table whose body changes slot [i] by [f]. *)

Lemma runs_for_procs f (body : nat -> K unit) s :
  length (k_procs s) = NPROC ->
  (forall i p s', k_procs s' !! i = Some p -> k_held s' = k_held s ->
     runs (body i) s' tt (upd f s' i)) ->
  runs (for_each procs body) s tt (set_k_procs (f <$> k_procs s) s).
Proof.
  intros Hlen Hbody.
  destruct (runs_for_each_fold procs body (upd f)
    (fun s' => length (k_procs s') = NPROC /\ k_held s' = k_held s) s) as [Hr _].
  - done.
  - intros i s' Hi [Hl Hh]. split; [|split; [cbn; by rewrite length_alter|done]].
    apply elem_of_seq in Hi. destruct (lookup_lt_is_Some_2 (k_procs s') i) as [p Hp]; [lia|].
    by eapply Hbody.
  - rewrite fold_upd in Hr. unfold procs in Hr. rewrite <- Hlen, foldl_alter, Hlen in Hr. exact Hr.
Qed.

Lemma insert_is_alter {A} (f : A -> A) (l : list A) i x :
  l !! i = Some x -> <[i := f x]> l = alter f i l.
Proof.
  intros H. rewrite list_insert_alter. apply list_eq. intros j.
  destruct (decide (i = j)) as [<-|].
  - by rewrite !list_lookup_alter_eq, H.
  - by rewrite !list_lookup_alter_ne.
Qed.

Lemma alter_id {A} (f : A -> A) (l : list A) i x : l !! i = Some x -> f x = x -> alter f i l = l.
Proof. intros H E. rewrite <- (insert_is_alter f l i x H), E. by apply list_insert_id. Qed.

(** ** wakeup *)

Lemma runs_critical_proc i (m : K unit) s s' :
  Lproc i ∉ k_held s -> runs m (set_k_held ({[Lproc i]} ∪ k_held s) s) tt s' ->
  k_held s' = {[Lproc i]} ∪ k_held s ->
  runs (acquire (Lproc i) ;; m ;; release (Lproc i)) s tt (set_k_held (k_held s) s').
Proof.
  intros Hl Hm Hh. eapply runs_bind; [by apply runs_acquire|]. eapply runs_bind; [exact Hm|].
  eapply runs_release_to; [rewrite Hh; apply held_in|]. by rewrite Hh, held_release.
Qed.

Lemma runs_wakeup ch s :
  length (k_procs s) = NPROC -> (forall i, Lproc i ∉ k_held s) ->
  runs (wakeup ch) s tt (set_k_procs (wake ch <$> k_procs s) s).
Proof.
  intros Hlen Hnh. unfold wakeup. apply runs_for_procs; [done|].
  intros i p s' Hp Hh. eapply runs_bind; [apply runs_acquire; by rewrite Hh|].
  eapply runs_bind; [by apply (runs_get_proc i p)|]. unfold upd.
  rewrite <- (insert_is_alter (wake ch) (k_procs s') i p Hp). unfold wake.
  destruct (bool_decide (p_state p = SLEEPING) && bool_decide (p_chan p = Some ch)).
  - eapply runs_bind; [by apply (runs_mod_proc i _ p)|].
    eapply runs_release_to; [apply held_in|]. cbn. rewrite Hh, held_release by done.
    rewrite <- Hh. by destruct s'.
  - eapply runs_bind; [apply runs_ret|].
    eapply runs_release_to; [apply held_in|]. cbn. rewrite Hh, held_release by done.
    rewrite list_insert_id by done. rewrite <- Hh. by destruct s'.
Qed.

(** ** The rotation over the containers *)

(** The slots from the one after [index], in the order they are tried. *)

Definition after (index k : nat) : nat := ((index + k) mod NCONTS)%nat.

Lemma after_S index k : after (after index 1) k = after index (S k).
Proof.
  unfold after. rewrite Nat.Div0.add_mod_idemp_l. f_equal. lia.
Qed.

Lemma after_lt index k : (after index k < NCONTS)%nat.
Proof. apply Nat.mod_upper_bound. done. Qed.

Lemma next_round_eq index e s :
  next_round index e s =
    match k_conts s !! after index 1 with
    | Some c => Ok (if bool_decide (c_state c = CRUNNING) then inr (after index 1)
                    else inl (after index 1)) e s
    | None => Fault
    end.
Proof.
  unfold next_round, get_cont, bind, gets, valid, after. destruct (k_conts s !! _); [|done].
  unfold ret. by destruct (bool_decide _).
Qed.

Lemma runs_next_round s index :
  length (k_conts s) = NCONTS ->
  runs (next_round index) s
    (if running s (after index 1) then inr (after index 1) else inl (after index 1)) s.
Proof.
  intros Hlen e. rewrite next_round_eq. unfold running.
  destruct (lookup_lt_is_Some_2 (k_conts s) (after index 1)) as [c ->]; [|done].
  rewrite Hlen. apply after_lt.
Qed.

Lemma next_active_loop n s index d :
  length (k_conts s) = NCONTS -> (1 <= d <= n)%nat -> running s (after index d) = true ->
  (forall j, (1 <= j < d)%nat -> running s (after index j) = false) ->
  runs (loop n next_round index) s (after index d) s.
Proof.
  intros Hlen. revert index d. induction n as [|n IH]; intros index d Hd Hrun Hbefore; [lia|].
  pose proof (runs_next_round s index Hlen) as Hr.
  destruct (decide (d = 1%nat)) as [->|].
  - rewrite Hrun in Hr. by apply runs_loop_stop.
  - rewrite (Hbefore 1%nat) in Hr by lia. eapply runs_loop_next; [exact Hr|].
    replace (after index d) with (after (after index 1) (d - 1)) by (rewrite after_S; f_equal; lia).
    apply IH; [lia| |].
    + rewrite after_S. by replace (S (d - 1)) with d by lia.
    + intros j Hj. rewrite after_S. apply Hbefore. lia.
Qed.

Lemma next_active_spin n s index e :
  length (k_conts s) = NCONTS -> (forall ci, running s ci = false) ->
  loop n next_round index e s = Spin.
Proof.
  intros Hlen Hnone. revert index e. induction n as [|n IH]; intros index e; [done|].
  cbn [loop]. unfold bind. rewrite (runs_next_round s index Hlen), Hnone. apply IH.
Qed.

(** Every slot is tried within NCONTS rounds. *)

Lemma after_covers index ci :
  (ci < NCONTS)%nat -> exists d, (1 <= d <= NCONTS)%nat /\ after index d = ci.
Proof.
  intros Hci. assert (forall d, after index d = after (index mod NCONTS) d) as Hm.
  { intros d. unfold after. by rewrite Nat.Div0.add_mod_idemp_l. }
  pose proof (Nat.mod_upper_bound index NCONTS ltac:(done)) as Hr.
  exists (S ((ci + NCONTS - 1 - index mod NCONTS) mod NCONTS)). rewrite Hm.
  generalize dependent (index mod NCONTS)%nat. intros r _ Hr. unfold NCONTS in *.
  do 5 (destruct r as [|r]; [do 5 (destruct ci as [|ci]; [vm_compute; lia|]); lia|]). lia.
Qed.

Lemma least_true (P : nat -> bool) n d :
  (1 <= d <= n)%nat -> P d = true ->
  exists d', (1 <= d' <= n)%nat /\ P d' = true /\ forall j, (1 <= j < d')%nat -> P j = false.
Proof.
  revert P d. induction n as [|n IH]; intros P d Hd HP; [lia|].
  destruct (P 1%nat) eqn:E1; [exists 1%nat; split; [lia|]; split; [done|lia]|].
  destruct d as [|[|d]]; [lia|congruence|].
  destruct (IH (fun k => P (S k)) (S d)) as (d' & Hd' & HPd & Hmin); [lia|done|].
  exists (S d'). split; [lia|]. split; [done|].
  intros [|[|j]] Hj; [lia|done|]. apply Hmin. lia.
Qed.

Lemma runs_next_active s index ci :
  length (k_conts s) = NCONTS -> running s ci = true ->
  exists d, (1 <= d <= NCONTS)%nat /\ running s (after index d) = true /\
    (forall j, (1 <= j < d)%nat -> running s (after index j) = false) /\
    runs (get_next_active_container index) s (after index d) s.
Proof.
  intros Hlen Hci. assert (ci < NCONTS)%nat as Hlt.
  { unfold running in Hci. destruct (k_conts s !! ci) eqn:E; [|done].
    rewrite <- Hlen. by eapply lookup_lt_Some. }
  destruct (after_covers index ci Hlt) as (d & Hd & <-).
  destruct (least_true (fun k => running s (after index k)) NCONTS d Hd Hci) as (d' & Hd' & HP & Hmin).
  exists d'. split; [done|]. split; [done|]. split; [done|]. by apply next_active_loop.
Qed.

(** ** sleep *)

Lemma runs_myproc_deref s i :
  k_started s <> 0 -> k_cur s = Some i -> forall {B} (k : nat -> K B) e,
  (p <- myproc ;; i <- deref p ;; k i) e s = k i e s.
Proof.
  intros Hst Hcur B k e. unfold bind at 1. rewrite (runs_myproc s Hst), Hcur. done.
Qed.

(** The state in which sleep(ch, lk) gives the CPU up. *)

Definition asleep (i : nat) (p : proc) (ch : chan) (s : kst) : kst :=
  set_k_procs (<[i := set_p_state SLEEPING (set_p_chan (Some ch) p)]> (k_procs s))
    (set_k_held {[Lproc i]} s).

Lemma sched_eq i p s e :
  k_started s <> 0 -> k_cur s = Some i -> k_procs s !! i = Some p -> p_state p <> RUNNING ->
  k_held s = {[Lproc i]} -> sched e s = yield_cpu e s.
Proof.
  intros Hst Hcur Hp Hns Hh. unfold sched. rewrite (runs_myproc_deref s i Hst Hcur).
  unfold bind at 1. rewrite runs_holding, Hh, bool_decide_true by set_solver. cbn [negb].
  unfold bind at 1, gets. rewrite Hh, size_singleton. cbn [Nat.eqb negb].
  unfold bind at 1. rewrite get_proc_eq, Hp. rewrite bool_decide_false by done.
  unfold intr_get, bind, gets. rewrite Hh, bool_decide_false; [done|]. set_solver.
Qed.

Lemma sleep_enter i p ch lk s e :
  k_started s <> 0 -> k_cur s = Some i -> k_procs s !! i = Some p ->
  lk <> Lproc i -> k_held s = {[lk]} ->
  sleep ch lk e s =
    (yield_cpu ;; mod_proc i (set_p_chan None) ;; release (Lproc i) ;; acquire lk) e (asleep i p ch s).
Proof.
  intros Hst Hcur Hp Hne Hh. unfold sleep. rewrite (runs_myproc_deref s i Hst Hcur).
  rewrite (bool_decide_false (lk = Lproc i)) by done. cbn [negb].
  unfold bind at 1 2. rewrite acquire_eq, Hh, bool_decide_false by set_solver.
  rewrite release_eq. cbn [k_held set_k_held]. rewrite bool_decide_true by set_solver.
  unfold bind at 1. rewrite mod_proc_eq. cbn [k_procs set_k_held]. rewrite Hp.
  assert (set_k_procs (<[i := set_p_state SLEEPING (set_p_chan (Some ch) p)]> (k_procs s))
    (set_k_held (({[Lproc i]} ∪ {[lk]}) ∖ {[lk]}) (set_k_held ({[Lproc i]} ∪ {[lk]}) s)) =
    asleep i p ch s) as Hs.
  { unfold asleep. f_equal. cbn. replace (({[Lproc i]} ∪ {[lk]}) ∖ {[lk]} : gset lock)
      with ({[Lproc i]} : gset lock) by set_solver. done. }
  cbn [k_procs set_k_held] in Hs |- *. rewrite Hs. unfold bind at 1 3.
  rewrite (sched_eq i (set_p_state SLEEPING (set_p_chan (Some ch) p)) (asleep i p ch s)); try done.
  cbn. apply list_lookup_insert_eq. by eapply lookup_lt_Some.
Qed.

(** ** kill *)

(** The number by which a process of container [ci] names process [p]. *)

Definition pid_in (ci : nat) (p : proc) : Z := if (ci =? 0)%nat then p_pid p else p_vpid p.

Definition kill_proc (p : proc) : proc :=
  if bool_decide (p_state p = SLEEPING) || bool_decide (p_state p = SUSPENDED)
  then set_p_state RUNNABLE (set_p_killed 1 p) else set_p_killed 1 p.

Lemma isroot_At ci : isroot (At ci) = (ci =? 0)%nat.
Proof. by destruct ci. Qed.

(** What one round does. *)

Lemma runs_kill_body ci pid i p s :
  k_procs s !! i = Some p -> Lproc i ∉ k_held s ->
  (pid_in ci p <> pid -> runs (kill_body (At ci) pid i) s None s) /\
  (pid_in ci p = pid -> ci <> O -> p_container p <> Some ci ->
     runs (kill_body (At ci) pid i) s (Some (-1)) s) /\
  (pid_in ci p = pid -> ci = O \/ p_container p = Some ci ->
     runs (kill_body (At ci) pid i) s (Some 0)
       (set_k_procs (<[i := kill_proc p]> (k_procs s)) s)).
Proof.
  intros Hp Hh.
  set (s1 := set_k_held ({[Lproc i]} ∪ k_held s) s).
  assert (forall r s', runs (if pid_in ci p =? pid then
    if negb (ci =? 0)%nat && negb (bool_decide (ptr_of (p_container p) = At ci)) then
      release (Lproc i) ;; ret (Some (-1))
    else
      mod_proc i (set_p_killed 1) ;;
      (if* bool_decide (p_state p = SLEEPING) || bool_decide (p_state p = SUSPENDED)
       then mod_proc i (set_p_state RUNNABLE)) ;;
      release (Lproc i) ;;
      ret (Some 0)
    else release (Lproc i) ;; ret None) s1 r s' -> runs (kill_body (At ci) pid i) s r s') as Hpre.
  { intros r s' H. unfold kill_body. rewrite isroot_At. eapply runs_bind; [by apply (runs_get_proc i p)|].
    cbv zeta. eapply runs_bind; [by apply runs_acquire|].
    eapply runs_bind; [by apply (runs_get_proc i p)|]. exact H. }
  assert (runs (release (Lproc i)) s1 tt s) as Hrel.
  { eapply runs_release_to; [apply held_in|]. cbn. rewrite held_release by done. by destruct s. }
  split; [|split].
  - intros Hne. apply Hpre. destruct (Z.eqb_spec (pid_in ci p) pid); [done|].
    eapply runs_bind; [exact Hrel|apply runs_ret].
  - intros Heq Hci Hc. apply Hpre. rewrite Heq, Z.eqb_refl.
    destruct (Nat.eqb_spec ci 0); [done|]. rewrite bool_decide_false.
    + eapply runs_bind; [exact Hrel|apply runs_ret].
    + destruct (p_container p); simpl; congruence.
  - intros Heq Hc. apply Hpre. rewrite Heq, Z.eqb_refl.
    assert (negb (ci =? 0)%nat && negb (bool_decide (ptr_of (p_container p) = At ci)) = false) as ->.
    { destruct Hc as [-> | ->]; [done|]. rewrite bool_decide_true by done. by rewrite andb_false_r. }
    eapply runs_bind; [by apply (runs_mod_proc i _ p)|].
    assert (i < length (k_procs s))%nat as Hlt by (by eapply lookup_lt_Some).
    eapply runs_bind with (s' := set_k_procs (<[i := kill_proc p]> (k_procs s)) s1).
    + unfold kill_proc. destruct (bool_decide _ || bool_decide _); [|apply runs_ret].
      intros e. rewrite mod_proc_eq. cbn. rewrite list_lookup_insert_eq by done.
      by rewrite list_insert_insert_eq.
    + eapply runs_bind; [|apply runs_ret]. eapply runs_release_to; [apply held_in|].
      cbn. rewrite held_release by done. by destruct s.
Qed.

(** The first process with the number decides. *)

Definition kill_target (ci : nat) (pid : Z) (s : kst) : option (nat * proc) :=
  list_find (fun p => pid_in ci p = pid) (k_procs s).

Lemma runs_kill s ci c pid :
  k_started s <> 0 -> cur_cont s ci c -> length (k_procs s) = NPROC ->
  (forall i, Lproc i ∉ k_held s) ->
  match kill_target ci pid s with
  | None => runs (kill pid) s (-1) s
  | Some (j, p) =>
      if decide (ci <> O /\ p_container p <> Some ci) then runs (kill pid) s (-1) s
      else runs (kill pid) s 0 (set_k_procs (<[j := kill_proc p]> (k_procs s)) s)
  end.
Proof.
  intros Hst Hcc Hlen Hnh. unfold kill. pose proof (runs_mycont s ci c Hst Hcc) as Hmy.
  unfold kill_target. destruct (list_find _ (k_procs s)) as [[j p]|] eqn:Ef.
  - apply list_find_Some in Ef as (Hj & Hpid & Hbefore).
    assert (j < NPROC)%nat as Hlt by (rewrite <- Hlen; by eapply lookup_lt_Some).
    assert (procs = seq 0 j ++ j :: seq (S j) (NPROC - S j)) as Hprocs.
    { unfold procs. replace NPROC with (j + S (NPROC - S j))%nat at 1 by lia.
      by rewrite seq_app. }
    assert (forall r s', runs (kill_body (At ci) pid j) s (Some r) s' ->
      runs (c <- mycont ;; r <- for_ret procs (kill_body c pid) ;; ret (default (-1) r)) s r s') as Hrun.
    { intros r s' Hr. eapply runs_bind; [exact Hmy|].
      eapply (runs_bind _ _ _ (Some r)); [|apply runs_ret].
      rewrite Hprocs. apply (runs_for_ret_first (seq 0 j)); [|exact Hr].
      intros y Hy. apply elem_of_seq in Hy.
      destruct (lookup_lt_is_Some_2 (k_procs s) y) as [q Hq]; [lia|].
      eapply runs_kill_body; [done|done|]. eapply Hbefore; [done|lia]. }
    destruct (runs_kill_body ci pid j p s Hj (Hnh j)) as (_ & H2 & H3).
    case_decide as Hd.
    + apply Hrun, H2; [done|apply Hd..].
    + apply Hrun, H3; [done|]. destruct (decide (ci = O)); [by left|right].
      destruct (decide (p_container p = Some ci)); [done|]. exfalso. by apply Hd.
  - eapply runs_bind; [exact Hmy|]. eapply (runs_bind _ _ _ None); [|apply runs_ret].
    apply runs_for_ret_none. intros i Hi. apply elem_of_seq in Hi.
    destruct (lookup_lt_is_Some_2 (k_procs s) i) as [q Hq]; [lia|].
    eapply runs_kill_body; [done|done|].
    apply list_find_None in Ef. rewrite Forall_forall in Ef. apply Ef.
    by eapply list_elem_of_lookup_2.
Qed.

(** ** The theorems *)

(** The rotation: from [index], get_next_active_container returns the first
    running container after it in cyclic order; when no container is running it
    loops for ever. *)
Theorem get_next_active_container_spec s index e :
  length (k_conts s) = NCONTS ->
  (exists d, (1 <= d <= NCONTS)%nat /\ running s (after index d) = true /\
     (forall j, (1 <= j < d)%nat -> running s (after index j) = false) /\
     runs (get_next_active_container index) s (after index d) s) \/
  ((forall ci, running s ci = false) /\ get_next_active_container index e s = Spin).
Proof.
  intros Hlen. destruct (decide (Exists (fun ci => running s ci = true) containers)) as [H|H].
  - apply Exists_exists in H as (ci & _ & Hci). left. by eapply runs_next_active.
  - right. assert (forall ci, running s ci = false) as Hn.
    { intros ci. destruct (running s ci) eqn:E; [|done]. exfalso. apply H, Exists_exists.
      exists ci. split; [|done]. apply elem_of_seq. unfold running in E.
      destruct (k_conts s !! ci) eqn:Ec; [|done]. apply lookup_lt_Some in Ec. lia. }
    split; [done|]. by apply next_active_spin.
Qed.

(** C28: kill never reaches out of a container: called in container [ci], other than
    the root, it returns and leaves every process of another container as it was;
    when it returns 0 it has marked a process of [ci] with that vpid as killed. *)
Theorem kill_isolation s ci c pid :
  k_started s <> 0 -> cur_cont s ci c -> length (k_procs s) = NPROC ->
  (forall i, Lproc i ∉ k_held s) -> ci <> O ->
  exists r s', runs (kill pid) s r s' /\
    (forall j p, k_procs s !! j = Some p -> p_container p <> Some ci -> k_procs s' !! j = Some p) /\
    (r = 0 -> exists j p, k_procs s !! j = Some p /\ p_container p = Some ci /\ p_vpid p = pid /\
       k_procs s' !! j = Some (kill_proc p)).
Proof.
  intros Hst Hcc Hlen Hnh Hci. pose proof (runs_kill s ci c pid Hst Hcc Hlen Hnh) as Hk.
  destruct (kill_target ci pid s) as [[j p]|] eqn:Et.
  - apply list_find_Some in Et as (Hj & Hpid & _). case_decide as Hd.
    + exists (-1), s. split; [done|]. split; [done|lia].
    + eexists 0, _. split; [exact Hk|].
      assert (p_container p = Some ci) as Hc
        by (destruct (decide (p_container p = Some ci)); [done|exfalso; by apply Hd]).
      split.
      * intros k q Hq Hqc. cbn. rewrite list_lookup_insert_ne; [done|]. congruence.
      * intros _. exists j, p. unfold pid_in in Hpid. destruct (Nat.eqb_spec ci 0); [done|].
        split; [done|]. split; [done|]. split; [done|]. cbn.
        apply list_lookup_insert_eq. by eapply lookup_lt_Some.
  - exists (-1), s. split; [done|]. split; [done|lia].
Qed.

(** Vpids are numbered per container, but kill looks for the first slot of the
    whole table with the vpid: when that slot belongs to another container, kill
    fails although the caller's own container has a process with that vpid. *)
Theorem kill_shadowed s ci c pid j p k q :
  k_started s <> 0 -> cur_cont s ci c -> length (k_procs s) = NPROC ->
  (forall i, Lproc i ∉ k_held s) -> ci <> O ->
  k_procs s !! k = Some q -> p_container q = Some ci -> p_vpid q = pid ->
  k_procs s !! j = Some p -> p_container p <> Some ci -> p_vpid p = pid ->
  (forall i r, (i < j)%nat -> k_procs s !! i = Some r -> p_vpid r <> pid) ->
  runs (kill pid) s (-1) s.
Proof.
  intros Hst Hcc Hlen Hnh Hci _ _ _ Hj Hpc Hpv Hfirst.
  pose proof (runs_kill s ci c pid Hst Hcc Hlen Hnh) as Hk.
  assert (kill_target ci pid s = Some (j, p)) as Ht.
  { apply list_find_Some. unfold pid_in. destruct (Nat.eqb_spec ci 0); [done|].
    split; [done|]. split; [done|]. intros i r Hr Hi. by eapply Hfirst. }
  rewrite Ht in Hk. by rewrite decide_True in Hk.
Qed.
