(* ===== verification/Smpsched.v ===== *)
(** * Processes on several harts (kernel/proc.c, kernel/sleeplock.c)

    The scheduler, sleep and wakeup, kill and the sleep locks once more, now with every
    hart at work at the same time.  The rest of the development follows one thread, for
    which acquire and release never wait and nobody else acts before it gives the CPU up;
    what the order of the locks in sleep is good for cannot be seen there.  Here the code
    is a tree of commands, each of them one access to what the harts share, and between any
    two commands of a hart the others may take any number of steps.

    A hart executes the code of its scheduler or, once swtch has loaded the context of a
    process, that of the process; acquire waits while another hart has the lock.  A timer
    interrupt may arrive whenever interrupts are on, that is whenever the hart has no
    lock. *)

From S2P Require Import Prelude Monad Riscv Kstring Kstate Sched.

Module Harts.

(** ** Commands and code *)

Inductive cmd : Type -> Type :=
| Acquire (l : lock) : cmd unit
| Release (l : lock) : cmd unit
| Holding (l : lock) : cmd bool
| Noff : cmd nat                                      (* mycpu()->noff *)
| Intr : cmd bool                                     (* intr_get() *)
| Cpuid : cmd nat                                     (* cpuid() *)
| Myproc : cmd (option nat)                           (* myproc() *)
| SetProc (o : option nat) : cmd unit                 (* cpu->proc = o *)
| GetProc (i : nat) : cmd proc                        (* fields of proc[i] *)
| SetState (i : nat) (st : procstate) : cmd unit      (* proc[i].state = st *)
| SetChan (i : nat) (ch : option chan) : cmd unit     (* proc[i].chan = ch *)
| SetKilled (i : nat) : cmd unit                      (* proc[i].killed = 1 *)
| GetCont (ci : nat) : cmd container                  (* fields of containers[ci] *)
| SetCont (ci : nat) (st : containerstate) : cmd unit (* containers[ci].state = st *)
| GetSleep (l : slock) : cmd sleeplock                (* fields of a sleep lock *)
| SetLocked (l : slock) (v : Z) : cmd unit            (* lk->locked = v *)
| SetPid (l : slock) (v : Z) : cmd unit               (* lk->pid = v *)
| Tick : cmd unit                                     (* ticks++ *)
| SwtchTo (i : nat) : cmd unit                        (* swtch(&cpu->scheduler, &proc[i].context) *)
| SwtchBack (i : nat) : cmd unit                      (* swtch(&proc[i].context, &mycpu()->scheduler) *)
| Panic (msg : string) : cmd Empty_set
| Spin : cmd Empty_set.                               (* a loop that has used its bound up *)

(** Code that returns an [A]. *)

Inductive code (A : Type) : Type :=
| Ret (a : A)
| Do {B : Type} (c : cmd B) (k : B -> code A).

#[global] Arguments Ret {A} a.
#[global] Arguments Do {A B} c k.

Fixpoint bind {A B} (m : code A) (f : A -> code B) : code B :=
  match m with
  | Ret a => f a
  | Do c k => Do c (fun b => bind (k b) f)
  end.

Definition do {A} (c : cmd A) : code A := Do c Ret.
Definition panic {A} (msg : string) : code A := Do (Panic msg) (fun e : Empty_set => match e with end).
Definition spin {A} : code A := Do Spin (fun e : Empty_set => match e with end).

Declare Scope smp_scope.
Delimit Scope smp_scope with smp.
Notation "x <- m ;; k" := (bind m (fun x => k)) (at level 100, m at next level, right associativity) : smp_scope.
Notation "m ;; k" := (bind m (fun _ => k)) (at level 100, k at level 200, right associativity) : smp_scope.
Notation "'if*' c 'then' m" := (if c then m else Ret tt) (at level 200, c at level 200, m at level 200) : smp_scope.
Local Open Scope smp_scope.

Fixpoint for_each {A} (l : list A) (body : A -> code unit) : code unit :=
  match l with [] => Ret tt | x :: l' => body x ;; for_each l' body end.

Fixpoint for_ret {A R} (l : list A) (body : A -> code (option R)) : code (option R) :=
  match l with
  | [] => Ret None
  | x :: l' => r <- body x ;; match r with Some v => Ret (Some v) | None => for_ret l' body end
  end.

(** A pointer that must not be null. *)

Definition deref (o : option nat) : code nat := match o with Some i => Ret i | None => panic "null pointer" end.

(** ** kernel/proc.c *)

Definition sched : code unit :=
  p <- do Myproc ;;
  i <- deref p ;;
  h <- do (Holding (Lproc i)) ;;
  if negb h then panic "sched p->lock" else
  noff <- do Noff ;;
  if negb (noff =? 1)%nat then panic "sched locks" else
  pr <- do (GetProc i) ;;
  if bool_decide (p_state pr = RUNNING) then panic "sched running" else
  it <- do Intr ;;
  if (it : bool) then panic "sched interruptible" else
  do (SwtchBack i).

Definition yield : code unit :=
  p <- do Myproc ;;
  i <- deref p ;;
  do (Acquire (Lproc i)) ;;
  do (SetState i RUNNABLE) ;;
  sched ;;
  do (Release (Lproc i)).

Definition sleep (ch : chan) (lk : lock) : code unit :=
  p <- do Myproc ;;
  i <- deref p ;;
  (if* negb (bool_decide (lk = Lproc i)) then
     do (Acquire (Lproc i)) ;;
     do (Release lk)) ;;
  do (SetChan i (Some ch)) ;;
  do (SetState i SLEEPING) ;;
  sched ;;
  do (SetChan i None) ;;
  if* negb (bool_decide (lk = Lproc i)) then
    do (Release (Lproc i)) ;;
    do (Acquire lk).

Definition wakeup (ch : chan) : code unit :=
  for_each procs (fun i =>
    do (Acquire (Lproc i)) ;;
    p <- do (GetProc i) ;;
    (if* bool_decide (p_state p = SLEEPING) && bool_decide (p_chan p = Some ch) then do (SetState i RUNNABLE)) ;;
    do (Release (Lproc i))).

(** mycont(): the container of the current process. *)

Definition mycont : code (option nat) :=
  p <- do Myproc ;;
  i <- deref p ;;
  pr <- do (GetProc i) ;;
  Ret (p_container pr).

Definition is_root (c : option nat) : bool := bool_decide (c = Some 0%nat).

Definition kill (pid : Z) : code Z :=
  c <- mycont ;;
  r <- for_ret procs (fun i =>
    p0 <- do (GetProc i) ;;
    let proc_pid := if is_root c then p_pid p0 else p_vpid p0 in
    do (Acquire (Lproc i)) ;;
    if proc_pid =? pid then
      p <- do (GetProc i) ;;
      if negb (is_root c) && negb (bool_decide (p_container p = c)) then
        do (Release (Lproc i)) ;; Ret (Some (-1))
      else
        do (SetKilled i) ;;
        (if* bool_decide (p_state p = SLEEPING) || bool_decide (p_state p = SUSPENDED) then do (SetState i RUNNABLE)) ;;
        do (Release (Lproc i)) ;;
        Ret (Some 0)
    else do (Release (Lproc i)) ;; Ret None) ;;
  Ret (default (-1) r).

(** The loop of suspend, up to the release of the lock: what follows writes a file. *)

Definition suspend (pid : Z) : code Z :=
  r <- for_ret procs (fun i =>
    do (Acquire (Lproc i)) ;;
    p <- do (GetProc i) ;;
    if p_pid p =? pid then
      do (SetState i SUSPENDED) ;;
      do (Release (Lproc i)) ;;
      Ret (Some 0)
    else do (Release (Lproc i)) ;; Ret None) ;;
  Ret (default (-1) r).

(** [for(;;)] with at most [n] rounds. *)

Fixpoint get_next_active_container (n : nat) (index : nat) : code nat :=
  match n with
  | O => spin
  | S n =>
      let index := ((index + 1) mod NCONTS)%nat in
      c <- do (GetCont index) ;;
      if bool_decide (c_state c = CRUNNING) then Ret index else get_next_active_container n index
  end.

(** The body of the loop over the process table in scheduler(). *)

Definition scheduler_try (n cindex i : nat) : code nat :=
  do (Acquire (Lproc i)) ;;
  p <- do (GetProc i) ;;
  cindex <-
    (if bool_decide (p_state p = RUNNABLE) && bool_decide (p_container p = Some cindex) then
       do (SetState i RUNNING) ;;
       do (SetProc (Some i)) ;;
       do (SwtchTo i) ;;
       do (SetProc None) ;;
       get_next_active_container n cindex
     else Ret cindex) ;;
  do (Release (Lproc i)) ;;
  Ret cindex.

Fixpoint scheduler_pass (n : nat) (l : list nat) (cindex : nat) : code nat :=
  match l with
  | [] => Ret cindex
  | i :: l' => cindex <- scheduler_try n cindex i ;; scheduler_pass n l' cindex
  end.

Fixpoint scheduler_loop (n rounds cindex : nat) : code unit :=
  match rounds with
  | O => spin
  | S rounds =>
      cindex <- scheduler_pass n procs cindex ;;
      cindex <- get_next_active_container n cindex ;;
      scheduler_loop n rounds cindex
  end.

(** scheduler() never returns: [n] rounds of each of its loops. *)

Definition scheduler (n : nat) : code unit :=
  cindex <- get_next_active_container n 0 ;;
  do (SetProc None) ;;
  scheduler_loop n n cindex.

(** A process that is run for the first time, up to the release of its lock: the very first
    one initialises the file system after that (Trap.v). *)

Definition forkret : code unit :=
  p <- do Myproc ;;
  i <- deref p ;;
  do (Release (Lproc i)).

(** ** kernel/sleeplock.c *)

Fixpoint acquiresleep_wait (n : nat) (l : slock) : code unit :=
  match n with
  | O => spin
  | S n =>
      v <- do (GetSleep l) ;;
      if sl_locked v =? 0 then Ret tt else
      sleep (ChSleep l) (Lsleep l) ;;
      acquiresleep_wait n l
  end.

Definition acquiresleep (n : nat) (l : slock) : code unit :=
  do (Acquire (Lsleep l)) ;;
  acquiresleep_wait n l ;;
  do (SetLocked l 1) ;;
  p <- do Myproc ;;
  i <- deref p ;;
  pr <- do (GetProc i) ;;
  do (SetPid l (p_pid pr)) ;;
  do (Release (Lsleep l)).

Definition releasesleep (l : slock) : code unit :=
  do (Acquire (Lsleep l)) ;;
  do (SetLocked l 0) ;;
  do (SetPid l 0) ;;
  wakeup (ChSleep l) ;;
  do (Release (Lsleep l)).

(** ** Timer interrupts (kernel/trap.c) *)

Definition clockintr : code unit :=
  do (Acquire Lticks) ;;
  do Tick ;;
  wakeup ChTicks ;;
  do (Release Lticks).

(** kerneltrap() of a timer interrupt.  In user mode usertrap() does the same, for a process
    that is RUNNING and has not been killed; the end of a killed process is not followed
    here. *)

Definition kerneltrap : code unit :=
  h <- do Cpuid ;;
  (if* (h =? 0)%nat then clockintr) ;;
  p <- do Myproc ;;
  match p with
  | None => Ret tt
  | Some i => pr <- do (GetProc i) ;; if* bool_decide (p_state pr = RUNNING) then yield
  end.

(** ** What processes do in the kernel

    Any sequence of these calls, after which the process is in user mode.  [Cwait] is a
    round of the other loops that sleep: wait(), sys_sleep(), pipes, the log and the
    console. *)

Inductive call :=
| Cyield
| Cacquiresleep (l : slock)
| Creleasesleep (l : slock)
| Cwait (ch : chan) (lk : lock)
| Cwakeup (ch : chan)
| Ckill (pid : Z)
| Csuspend (pid : Z)
| Ccstate (ci : nat) (st : containerstate).   (* the store of cpause() and cresume() *)

Definition call_code (n : nat) (c : call) : code unit :=
  match c with
  | Cyield => yield
  | Cacquiresleep l => acquiresleep n l
  | Creleasesleep l => releasesleep l
  | Cwait ch lk => do (Acquire lk) ;; sleep ch lk ;; do (Release lk)
  | Cwakeup ch => wakeup ch
  | Ckill pid => kill pid ;; Ret tt
  | Csuspend pid => suspend pid ;; Ret tt
  | Ccstate ci st => do (SetCont ci st)
  end.

(** ** The machine *)

Record hart := mk_hart {
  h_proc : option nat;       (* cpu->proc *)
  h_code : code unit;        (* what the hart executes *)
  h_scheduler : code unit;   (* cpu->scheduler *)
}.

Record mach := mk_mach {
  m_locks : gmap lock nat;          (* the hart that has a lock *)
  m_procs : list proc;
  m_contexts : list (code unit);    (* proc[i].context *)
  m_conts : list container;
  m_sleep : slock -> sleeplock;
  m_ticks : Z;
  m_harts : list hart;
}.

Definition set_m_locks v m := mk_mach v (m_procs m) (m_contexts m) (m_conts m) (m_sleep m) (m_ticks m) (m_harts m).
Definition set_m_procs v m := mk_mach (m_locks m) v (m_contexts m) (m_conts m) (m_sleep m) (m_ticks m) (m_harts m).
Definition set_m_contexts v m := mk_mach (m_locks m) (m_procs m) v (m_conts m) (m_sleep m) (m_ticks m) (m_harts m).
Definition set_m_conts v m := mk_mach (m_locks m) (m_procs m) (m_contexts m) v (m_sleep m) (m_ticks m) (m_harts m).
Definition set_m_sleep v m := mk_mach (m_locks m) (m_procs m) (m_contexts m) (m_conts m) v (m_ticks m) (m_harts m).
Definition set_m_ticks v m := mk_mach (m_locks m) (m_procs m) (m_contexts m) (m_conts m) (m_sleep m) v (m_harts m).
Definition set_m_harts v m := mk_mach (m_locks m) (m_procs m) (m_contexts m) (m_conts m) (m_sleep m) (m_ticks m) v.

(** The locks a hart has. *)

Definition locks_of (h : nat) (m : mach) : gset lock := dom (filter (fun p : lock * nat => p.2 = h) (m_locks m)).

(** What comes of a command: it is done, it has to wait, or the kernel stops. *)

Inductive result (B : Type) : Type :=
| Done (b : B) (m : mach)
| Waits
| Stops (msg : string).

#[global] Arguments Done {B} b m.
#[global] Arguments Waits {B}.
#[global] Arguments Stops {B} msg.

Definition upd_proc (i : nat) (f : proc -> proc) (m : mach) : result unit :=
  match m_procs m !! i with
  | Some p => Done tt (set_m_procs (<[i := f p]> (m_procs m)) m)
  | None => Stops "fault"
  end.

Definition upd_sleep (l : slock) (f : sleeplock -> sleeplock) (m : mach) : mach :=
  set_m_sleep (fun l' => if decide (l' = l) then f (m_sleep m l) else m_sleep m l') m.

Definition upd_hart (h : nat) (f : hart -> hart) (m : mach) : mach := set_m_harts (alter f h (m_harts m)) m.

(** A command of hart [h] other than swtch. *)

Definition exec (h : nat) {B} (c : cmd B) (m : mach) : result B :=
  match c in cmd B return result B with
  | Acquire l =>
      match m_locks m !! l with
      | None => Done tt (set_m_locks (<[l := h]> (m_locks m)) m)
      | Some h' => if decide (h' = h) then Stops "acquire" else Waits
      end
  | Release l =>
      if decide (m_locks m !! l = Some h) then Done tt (set_m_locks (delete l (m_locks m)) m) else Stops "release"
  | Holding l => Done (bool_decide (m_locks m !! l = Some h)) m
  | Noff => Done (size (locks_of h m)) m
  | Intr => Done (bool_decide (locks_of h m = ∅)) m
  | Cpuid => Done h m
  | Myproc => match m_harts m !! h with Some x => Done (h_proc x) m | None => Stops "fault" end
  | SetProc o => Done tt (upd_hart h (fun x => mk_hart o (h_code x) (h_scheduler x)) m)
  | GetProc i => match m_procs m !! i with Some p => Done p m | None => Stops "fault" end
  | SetState i st => upd_proc i (set_p_state st) m
  | SetChan i ch => upd_proc i (set_p_chan ch) m
  | SetKilled i => upd_proc i (set_p_killed 1) m
  | GetCont ci => match m_conts m !! ci with Some c => Done c m | None => Stops "fault" end
  | SetCont ci st =>
      match m_conts m !! ci with
      | Some c => Done tt (set_m_conts (<[ci := set_c_state st c]> (m_conts m)) m)
      | None => Stops "fault"
      end
  | GetSleep l => Done (m_sleep m l) m
  | SetLocked l v => Done tt (upd_sleep l (fun x => mk_sleeplock v (sl_pid x)) m)
  | SetPid l v => Done tt (upd_sleep l (fun x => mk_sleeplock (sl_locked x) v) m)
  | Tick => Done tt (set_m_ticks (u32 (m_ticks m + 1)) m)
  | SwtchTo _ | SwtchBack _ => Stops "swtch"
  | Panic msg => Stops msg
  | Spin => Waits
  end.

(** Code for hart [h] to go on with. *)

Definition set_code (h : nat) (k : code unit) (m : mach) : mach := upd_hart h (fun x => mk_hart (h_proc x) k (h_scheduler x)) m.

(** swtch: the rest of the code is saved in one context, and the other is loaded. *)

Definition swtch_to (h i : nat) (k : code unit) (m : mach) : result unit :=
  match m_contexts m !! i with
  | Some c => Done tt (upd_hart h (fun x => mk_hart (h_proc x) c k) m)
  | None => Stops "fault"
  end.

Definition swtch_back (h i : nat) (k : code unit) (m : mach) : result unit :=
  match m_contexts m !! i with
  | Some _ => Done tt (upd_hart h (fun x => mk_hart (h_proc x) (h_scheduler x) (h_scheduler x)) (set_m_contexts (<[i := k]> (m_contexts m)) m))
  | None => Stops "fault"
  end.

Definition exec_do (h : nat) {B} (c : cmd B) (m : mach) : (B -> code unit) -> result unit :=
  match c in cmd B return (B -> code unit) -> result unit with
  | SwtchTo i => fun k => swtch_to h i (k tt) m
  | SwtchBack i => fun k => swtch_back h i (k tt) m
  | c => fun k =>
      match exec h c m with
      | Done b m' => Done tt (set_code h (k b) m')
      | Waits => Waits
      | Stops msg => Stops msg
      end
  end.

(** The next step of hart [h]; code that has returned is in user mode and waits for an
    interrupt. *)

Definition step (h : nat) (m : mach) : result unit :=
  match m_harts m !! h with
  | None => Waits
  | Some x => match h_code x with Ret _ => Waits | Do c k => exec_do h c m k end
  end.

(** A timer interrupt of hart [h]: the code goes on after kerneltrap. *)

Definition interrupt (h : nat) (m : mach) : result unit :=
  match m_harts m !! h with
  | None => Waits
  | Some x => if decide (locks_of h m = ∅) then Done tt (set_code h (kerneltrap ;; h_code x) m) else Waits
  end.

(** What happens, in order. *)

Inductive event := Step (h : nat) | Interrupt (h : nat).

Definition happens (ev : event) (m : mach) : result unit :=
  match ev with Step h => step h m | Interrupt h => interrupt h m end.

Fixpoint play (evs : list event) (m : mach) : option mach :=
  match evs with
  | [] => Some m
  | ev :: evs => match happens ev m with Done _ m' => play evs m' | _ => None end
  end.

(** The machine when the harts enter scheduler(): [n] bounds the loops, [calls] is what each
    process will do. *)

Definition boot (n harts : nat) (ps : list proc) (conts : list container) (slocks : slock -> sleeplock) (calls : nat -> list call) : mach :=
  mk_mach ∅ ps (imap (fun i _ => forkret ;; for_each (calls i) (call_code n)) ps) conts slocks 0
    (replicate harts (mk_hart None (scheduler n) (Ret tt))).

End Harts.
