(* ===== verification/Smpproto.v ===== *)
(** * The protocol that the harts keep to

    What a hart may do next, in the code of Smpsched.v, depends on the locks it has and on
    what it knows because of them.  [rule] is this protocol, command by command, and [wp]
    says of code that it keeps to it; the functions of the kernel do.  What the protocol is
    good for is in Smpspec.v. *)

From stdpp Require Import functions.
From S2P Require Import Prelude Monad Riscv Kstring Kstate Sched Smpsched.

Import Harts.
Local Open Scope smp_scope.

#[export] Instance slock_countable : Countable slock.
Proof.
  apply (inj_countable (fun l => match l with SBuf i => inl i | SInode i => inr i end)
    (fun c => Some (match c with inl i => SBuf i | inr i => SInode i end))). by intros [].
Defined.

(** ** The protocol *)

(** What is known of a hart.  It executes the scheduler or, with [g_on], the code of a
    process; [g_proc] is its cpu->proc.  It knows the state and the channel of the processes
    whose locks it has, and of the sleep locks whose spin locks it has, the word and the
    processes that it has still to look at before these can be let go.  The scheduler claims
    the process that it is going to run; a process that has seen a sleep lock taken is
    [g_about] to sleep for it. *)

Record ghost := mk_ghost {
  g_on : option nat;
  g_proc : option nat;
  g_held : gset lock;
  g_know : gmap nat (procstate * option chan);
  g_sleep : gmap slock (Z * gset nat);
  g_claim : option nat;
  g_about : option slock;
  g_seen : gset nat;               (* the containers it has found running *)
}.

(** A process in the kernel without locks, a scheduler without locks, and both with the lock
    of the process at swtch. *)

Definition user (i : nat) : ghost := mk_ghost (Some i) (Some i) ∅ ∅ ∅ None None ∅.
Definition rescheduled (seen : gset nat) : ghost := mk_ghost None None ∅ ∅ ∅ None None seen.
Definition at_proc (i : nat) (st : procstate) (ch : option chan) : ghost :=
  mk_ghost (Some i) (Some i) {[Lproc i]} {[i := (st, ch)]} ∅ None None ∅.
Definition back (i : nat) (st : procstate) (ch : option chan) (seen : gset nat) : ghost :=
  mk_ghost None (Some i) {[Lproc i]} {[i := (st, ch)]} ∅ None None seen.

Definition set_know (j : nat) (v : procstate * option chan) (g : ghost) : ghost :=
  mk_ghost (g_on g) (g_proc g) (g_held g) (<[j := v]> (g_know g)) (g_sleep g) (g_claim g) (g_about g) (g_seen g).
Definition set_sleep (l : slock) (v : Z * gset nat) (g : ghost) : ghost :=
  mk_ghost (g_on g) (g_proc g) (g_held g) (g_know g) (<[l := v]> (g_sleep g)) (g_claim g) (g_about g) (g_seen g).
Definition set_claim (o : option nat) (g : ghost) : ghost :=
  mk_ghost (g_on g) (g_proc g) (g_held g) (g_know g) (g_sleep g) o (g_about g) (g_seen g).
Definition set_about (o : option slock) (g : ghost) : ghost :=
  mk_ghost (g_on g) (g_proc g) (g_held g) (g_know g) (g_sleep g) (g_claim g) o (g_seen g).
Definition set_proc (o : option nat) (g : ghost) : ghost :=
  mk_ghost (g_on g) o (g_held g) (g_know g) (g_sleep g) (g_claim g) (g_about g) (g_seen g).
Definition see (ci : nat) (g : ghost) : ghost :=
  mk_ghost (g_on g) (g_proc g) (g_held g) (g_know g) (g_sleep g) (g_claim g) (g_about g) ({[ci]} ∪ g_seen g).
Definition take_lock (l : lock) (g : ghost) : ghost :=
  mk_ghost (g_on g) (g_proc g) ({[l]} ∪ g_held g) (g_know g) (g_sleep g) (g_claim g) (g_about g) (g_seen g).

(** The processes that a hart still has to look at, after it has looked at [j]: it need not
    look again unless [j] sleeps for this very lock. *)

Definition looked_at (j : nat) (v : option (procstate * option chan)) (l : slock) (w : Z * gset nat) : Z * gset nat :=
  (w.1, if decide (v = Some (SLEEPING, Some (ChSleep l))) then w.2 else w.2 ∖ {[j]}).

Definition drop_proc (j : nat) (g : ghost) : ghost :=
  mk_ghost (g_on g) (g_proc g) (g_held g ∖ {[Lproc j]}) (delete j (g_know g))
    (map_imap (fun l w => Some (looked_at j (g_know g !! j) l w)) (g_sleep g)) (g_claim g) (g_about g) (g_seen g).
Definition drop_sleep (l : slock) (g : ghost) : ghost :=
  mk_ghost (g_on g) (g_proc g) (g_held g ∖ {[Lsleep l]}) (g_know g) (delete l (g_sleep g)) (g_claim g) (g_about g) (g_seen g).
Definition drop_lock (l : lock) (g : ghost) : ghost :=
  mk_ghost (g_on g) (g_proc g) (g_held g ∖ {[l]}) (g_know g) (g_sleep g) (g_claim g) (g_about g) (g_seen g).

(** A scheduler has chosen process [j] and has not been given the CPU back for good. *)

Definition claims (g : ghost) (j : nat) : Prop := g_claim g = Some j \/ g_on g = None /\ g_proc g = Some j.

Definition all_procs : gset nat := list_to_set procs.

Section Rules.
Context (home : nat -> option nat).       (* the container of a process *)

(** What a hart knows once it has the lock. *)

Definition has (l : lock) (g g' : ghost) : Prop :=
  match l with
  | Lproc j => exists st ch, (g_on g = Some j -> st = RUNNING) /\ g' = set_know j (st, ch) (take_lock l g)
  | Lsleep sl => exists v, g' = set_sleep sl (v, ∅) (take_lock l g)
  | _ => g' = take_lock l g
  end.

Definition lock_ok (l : lock) : Prop := match l with Lproc j => (j < NPROC)%nat | _ => True end.

Definition acquired (l : lock) (g : ghost) (Q : ghost -> Prop) : Prop := lock_ok l /\ forall g', has l g g' -> Q g'.

Definition released (l : lock) (g : ghost) (Q : ghost -> Prop) : Prop :=
  match l with
  | Lproc j =>
      ~ claims g j /\ (g_on g = Some j -> g_about g = None /\ exists ch, g_know g !! j = Some (RUNNING, ch)) /\ Q (drop_proc j g)
  | Lsleep sl =>
      exists v o, g_sleep g !! sl = Some (v, o) /\ (v <> 0 \/ o = ∅) /\
        (Q (drop_sleep sl g) \/
         exists i, v <> 0 /\ g_about g = None /\ g_on g = Some i /\ Lproc i ∈ g_held g /\ Q (set_about (Some sl) (drop_sleep sl g)))
  | _ => Q (drop_lock l g)
  end.

Definition rule {B} (c : cmd B) (g : ghost) : (B -> ghost -> Prop) -> Prop :=
  match c in cmd B return (B -> ghost -> Prop) -> Prop with
  | Acquire l => fun Q => l ∉ g_held g /\ acquired l g (Q tt)
  | Release l => fun Q => l ∈ g_held g /\ released l g (Q tt)
  | Holding l => fun Q => Q (bool_decide (l ∈ g_held g)) g
  | Noff => fun Q => Q (size (g_held g)) g
  | Intr => fun Q => Q (bool_decide (g_held g = ∅)) g
  | Cpuid => fun Q => forall h, Q h g
  | Myproc => fun Q => Q (g_proc g) g
  | SetProc o => fun Q => g_on g = None /\ o = g_claim g /\ (forall j, o = Some j -> exists ci, home j = Some ci /\ ci ∈ g_seen g) /\ Q tt (set_proc o g)
  | GetProc j => fun Q => (j < NPROC)%nat /\
      forall p, p_container p = home j -> (forall v, g_know g !! j = Some v -> v = (p_state p, p_chan p)) -> Q p g
  | SetState j st => fun Q => exists st0 ch, g_know g !! j = Some (st0, ch) /\
      (g_on g = Some j /\ st <> RUNNING /\ (st = SLEEPING -> forall l, ch = Some (ChSleep l) -> g_about g = Some l) /\
         Q tt (set_about None (set_know j (st, ch) g)) \/
       g_on g <> Some j /\ ~ claims g j /\ st0 <> RUNNING /\ st <> RUNNING /\ st <> SLEEPING /\ Q tt (set_know j (st, ch) g) \/
       g_on g = None /\ g_proc g = None /\ g_claim g = None /\ st0 = RUNNABLE /\ st = RUNNING /\
         Q tt (set_claim (Some j) (set_know j (st, ch) g)))
  | SetChan j ch => fun Q => exists st0 ch0, g_know g !! j = Some (st0, ch0) /\ st0 <> SLEEPING /\ Q tt (set_know j (st0, ch) g)
  | SetKilled j => fun Q => is_Some (g_know g !! j) /\ Q tt g
  | GetCont ci => fun Q => g_on g = None /\ (ci < NCONTS)%nat /\
      forall c, (c_state c = CRUNNING -> Q c (see ci g)) /\ (c_state c <> CRUNNING -> Q c g)
  | SetCont ci st => fun Q => (ci < NCONTS)%nat /\ Q tt g
  | GetSleep l => fun Q => forall x, (forall v o, g_sleep g !! l = Some (v, o) -> v = sl_locked x) -> Q x g
  | SetLocked l v => fun Q => is_Some (g_sleep g !! l) /\ Q tt (set_sleep l (v, if decide (v = 0) then all_procs else ∅) g)
  | SetPid l v => fun Q => Q tt g
  | Tick => fun Q => Q tt g
  | SwtchTo j => fun Q => exists ch seen, g = set_claim (Some j) (back j RUNNING ch seen) /\
      forall st ch, st <> RUNNING -> Q tt (back j st ch seen)
  | SwtchBack j => fun Q => exists st ch, g = at_proc j st ch /\ st <> RUNNING /\ forall ch, Q tt (at_proc j RUNNING ch)
  | Panic msg => fun Q => False
  | Spin => fun Q => True
  end.

Fixpoint wp {A} (m : code A) (Q : A -> ghost -> Prop) (g : ghost) : Prop :=
  match m with
  | Ret a => Q a g
  | Do c k => rule c g (fun b => wp (k b) Q)
  end.


(** ** The code keeps to it *)

Lemma acquired_mono l g (Q Q' : ghost -> Prop) : (forall g', Q g' -> Q' g') -> acquired l g Q -> acquired l g Q'.
Proof. intros H [Hl HQ]. split; [done|]. intros g' Hg. by apply H, HQ. Qed.

Lemma released_mono l g (Q Q' : ghost -> Prop) : (forall g', Q g' -> Q' g') -> released l g Q -> released l g Q'.
Proof. intros H. destruct l; cbn; try (by apply H); [naive_solver|]. intros (v & o & H1 & H2 & H3). exists v, o. naive_solver. Qed.

Lemma rule_mono {B} (c : cmd B) g (Q Q' : B -> ghost -> Prop) : (forall b g', Q b g' -> Q' b g') -> rule c g Q -> rule c g Q'.
Proof.
  intros H. destruct c; cbn; try naive_solver.
  - intros [? HQ]. split; [done|]. eapply acquired_mono; [|exact HQ]. apply H.
  - intros [? HQ]. split; [done|]. eapply released_mono; [|exact HQ]. apply H.
Qed.

Lemma wp_mono {A} (m : code A) (Q Q' : A -> ghost -> Prop) g : (forall a g', Q a g' -> Q' a g') -> wp m Q g -> wp m Q' g.
Proof. intros H. revert g. induction m as [a|B c k IH]; intros g; cbn; [apply H|]. apply rule_mono. intros b g'. apply IH. Qed.

Lemma wp_bind {A B} (m : code A) (f : A -> code B) Q g : wp m (fun a => wp (f a) Q) g -> wp (bind m f) Q g.
Proof. revert g. induction m as [a|C c k IH]; intros g; cbn; [done|]. apply rule_mono. intros b g'. apply IH. Qed.

Lemma wp_do {A} (c : cmd A) Q g : rule c g Q -> wp (do c) Q g.
Proof. done. Qed.

Lemma wp_for_each {A} (l : list A) body (Q : unit -> ghost -> Prop) g :
  (forall x, x ∈ l -> forall Q', Q' tt g -> wp (body x) Q' g) -> Q tt g -> wp (for_each l body) Q g.
Proof.
  intros Hb HQ. induction l as [|x l IH]; [done|]. cbn. apply wp_bind, Hb; [left|]. apply IH. intros y Hy. apply Hb. by right.
Qed.

Lemma wp_for_ret {A R} (l : list A) body (Q : option R -> ghost -> Prop) g :
  (forall x, x ∈ l -> forall Q', (forall r, Q' r g) -> wp (body x) Q' g) -> (forall r, Q r g) -> wp (for_ret l body) Q g.
Proof.
  intros Hb HQ. induction l as [|x l IH]; [apply HQ|]. cbn. apply wp_bind, Hb; [left|]. intros [r|]; [apply HQ|]. apply IH. intros y Hy. apply Hb. by right.
Qed.

(** Taking and giving back the lock of a process. *)

Lemma user_locked i st ch : set_know i (st, ch) (take_lock (Lproc i) (user i)) = at_proc i st ch.
Proof. unfold set_know, take_lock, user, at_proc. cbn. by rewrite (right_id_L ∅ (∪)). Qed.

Lemma user_unlocked i st ch : drop_proc i (at_proc i st ch) = user i.
Proof. unfold drop_proc, at_proc, user. cbn. rewrite delete_singleton_eq, map_imap_empty. f_equal. set_solver. Qed.

Lemma set_know_at i v st ch : set_know i v (at_proc i st ch) = at_proc i v.1 v.2.
Proof. unfold set_know, at_proc. cbn. rewrite insert_singleton_eq. by destruct v. Qed.

Lemma wp_sched i st ch (Q : unit -> ghost -> Prop) :
  (i < NPROC)%nat -> st <> RUNNING -> (forall ch, Q tt (at_proc i RUNNING ch)) -> wp sched Q (at_proc i st ch).
Proof.
  intros Hi Hst HQ. cbn. rewrite bool_decide_true by set_solver. cbn. rewrite size_singleton. cbn. split; [done|]. intros p _ Hk.
  rewrite lookup_singleton_eq in Hk. specialize (Hk _ eq_refl). injection Hk as ? ?. rewrite bool_decide_false by congruence. cbn.
  rewrite bool_decide_false by set_solver. cbn. exists st, ch. done.
Qed.

Lemma know_at i st ch : g_know (at_proc i st ch) !! i = Some (st, ch).
Proof. apply lookup_singleton_eq. Qed.

Lemma released_at i ch (Q : ghost -> Prop) : Q (user i) -> rule (Release (Lproc i)) (at_proc i RUNNING ch) (fun _ => Q).
Proof.
  intros HQ. split; [cbn; set_solver|]. split_and!.
  - by intros [?|[? _]].
  - intros _. split; [done|]. exists ch. apply know_at.
  - by rewrite user_unlocked.
Qed.

(** One command. *)

Ltac command := apply wp_bind; apply wp_do; cbn [rule].

Lemma wp_yield i (Q : unit -> ghost -> Prop) : (i < NPROC)%nat -> Q tt (user i) -> wp yield Q (user i).
Proof.
  intros Hi HQ. unfold yield. command. cbn [g_proc user deref bind]. command. split; [set_solver|]. split; [done|].
  intros g' (st & ch & Hst & ->). rewrite (Hst eq_refl), user_locked. command. exists RUNNING, ch. split; [apply know_at|].
  left. split_and!; [done|done|done|]. change (set_about None ?g) with g. rewrite set_know_at. apply wp_bind, wp_sched; [done|done|]. intros ch'.
  apply wp_do. by apply (released_at i ch' (Q tt)).
Qed.

(** The lock that sleep lets go of, with the lock of the process taken. *)

Lemma at_over_proc i j v c : i <> j -> drop_proc j (set_know i (RUNNING, c) (take_lock (Lproc i) (set_know j v (take_lock (Lproc j) (user i))))) = at_proc i RUNNING c.
Proof.
  intros Hne. unfold drop_proc, set_know, take_lock, user, at_proc. cbn [g_on g_proc g_held g_know g_sleep g_claim g_about g_seen]. rewrite map_imap_empty. f_equal; [set_solver|].
  rewrite delete_insert_ne by done. rewrite delete_insert_eq. by rewrite delete_empty.
Qed.

Lemma at_over_sleep i l w c : drop_sleep l (set_know i (RUNNING, c) (take_lock (Lproc i) (set_sleep l w (take_lock (Lsleep l) (user i))))) = at_proc i RUNNING c.
Proof.
  unfold drop_sleep, set_know, set_sleep, take_lock, user, at_proc. cbn [g_on g_proc g_held g_know g_sleep g_claim g_about g_seen]. f_equal; [set_solver|].
  rewrite delete_insert_eq. by rewrite delete_empty.
Qed.

Lemma at_over_lock i l c : l <> Lproc i -> drop_lock l (set_know i (RUNNING, c) (take_lock (Lproc i) (take_lock l (user i)))) = at_proc i RUNNING c.
Proof. intros Hne. unfold drop_lock, set_know, take_lock, user, at_proc. cbn [g_on g_proc g_held g_know g_sleep g_claim g_about g_seen]. f_equal. set_solver. Qed.

(** The locks that a process has got. *)

Lemma has_facts l i g : has l (user i) g -> g_on g = Some i /\ g_proc g = Some i /\ g_held g = {[l]} /\ g_claim g = None /\ g_about g = None.
Proof. destruct l; cbn [has]; intros H; naive_solver (cbn; try done; set_solver). Qed.

(** sleep gives its lock up: a process that has seen a sleep lock taken is then about to sleep
    for it. *)

Lemma released_under lk i g c (Q : ghost -> Prop) :
  lk <> Lproc i -> has lk (user i) g -> Q (at_proc i RUNNING c) -> released lk (set_know i (RUNNING, c) (take_lock (Lproc i) g)) Q.
Proof.
  intros Hne Hh HQ. destruct lk as [|j| | | | | | | | | | | | |l]; cbn [has] in Hh; cbn [released]; try (subst g; by rewrite at_over_lock).
  - destruct Hh as (st & ch & _ & ->). split; [by intros [?|[? _]]|]. split; [intros [= ->]; done|]. rewrite at_over_proc by congruence. done.
  - destruct Hh as (v & ->). exists v, ∅. split; [apply lookup_insert_eq|]. split; [by right|]. left. by rewrite at_over_sleep.
Qed.

Lemma released_about l i g v c (Q : ghost -> Prop) :
  has (Lsleep l) (user i) g -> g_sleep g !! l = Some (v, ∅) -> v <> 0 -> Q (set_about (Some l) (at_proc i RUNNING c)) ->
  released (Lsleep l) (set_know i (RUNNING, c) (take_lock (Lproc i) g)) Q.
Proof.
  intros (w & ->) Hv Hnz HQ. cbn in Hv. rewrite lookup_insert_eq in Hv. injection Hv as ->. exists v, ∅. split; [apply lookup_insert_eq|]. split; [by right|].
  right. exists i. split_and!; [done|done|done|cbn; set_solver|]. by rewrite at_over_sleep.
Qed.

(** From the moment the lock is given up to the one at which it is taken again. *)

Lemma wp_sleep_locked {B} ch i c ab (k : code B) Q :
  (i < NPROC)%nat -> (forall l, ch = ChSleep l -> ab = Some l) -> wp k Q (at_proc i RUNNING None) ->
  wp (do (SetChan i (Some ch)) ;; do (SetState i SLEEPING) ;; sched ;; do (SetChan i None) ;; k) Q (set_about ab (at_proc i RUNNING c)).
Proof.
  intros Hi Hab HQ. command. exists RUNNING, c. split; [apply know_at|]. split; [done|]. command. exists RUNNING, (Some ch).
  split; [apply lookup_insert_eq|]. left. split; [done|]. split; [done|]. split; [intros _ l [= ->]; by apply Hab|].
  replace (set_about None _) with (at_proc i SLEEPING (Some ch)).
  - apply wp_bind, wp_sched; [done|done|]. intros ch'. command. exists RUNNING, ch'. split; [apply know_at|]. split; [done|]. by rewrite set_know_at.
  - unfold set_about, set_know, at_proc. cbn [g_on g_proc g_held g_know g_sleep g_claim g_about g_seen]. by rewrite !insert_singleton_eq.
Qed.

Lemma wp_sleep ch lk i g (Q : unit -> ghost -> Prop) :
  (i < NPROC)%nat -> lock_ok lk -> lk <> Lproc i -> has lk (user i) g ->
  (forall l, ch = ChSleep l -> lk = Lsleep l /\ exists v, v <> 0 /\ g_sleep g !! l = Some (v, ∅)) ->
  (forall g', has lk (user i) g' -> Q tt g') -> wp (sleep ch lk) Q g.
Proof.
  intros Hi Hok Hne Hh Hch HQ. destruct (has_facts lk i g Hh) as (Hon & Hpr & Hhe & Hcl & Hab). unfold sleep. command. rewrite Hpr. cbn [deref bind].
  rewrite bool_decide_false by done. cbn [negb]. apply wp_bind. command. rewrite Hhe. split; [set_solver|]. split; [done|].
  intros g1 (st & c & Hst & ->). rewrite (Hst Hon).
  assert (Hrest : forall ab, (forall l, ch = ChSleep l -> ab = Some l) ->
    wp (do (SetChan i (Some ch)) ;; do (SetState i SLEEPING) ;; sched ;; do (SetChan i None) ;; do (Release (Lproc i)) ;; do (Acquire lk)) Q
      (set_about ab (at_proc i RUNNING c))).
  { intros ab Hl. apply wp_sleep_locked; [done|done|]. command. apply (released_at i None (fun g => wp _ _ g)). apply wp_do. split; [set_solver|]. done. }
  assert (Hc : (exists l, ch = ChSleep l) \/ forall l, ch <> ChSleep l) by (destruct ch; eauto).
  apply wp_do. split; [cbn [g_held set_know take_lock]; rewrite Hhe; clear; set_solver|].
  destruct Hc as [[l ->]|Hno].
  - destruct (Hch l eq_refl) as (-> & v & Hv & Hw). apply (released_about l i g v); [done|done|done|]. apply Hrest. by intros l' [= ->].
  - apply released_under; [done|done|]. apply (Hrest None). intros l ->. by destruct (Hno l).
Qed.

(** wait() sleeps with the lock of the process itself. *)

Lemma wp_sleep_own ch i c (Q : unit -> ghost -> Prop) :
  (i < NPROC)%nat -> (forall l, ch <> ChSleep l) -> Q tt (at_proc i RUNNING None) -> wp (sleep ch (Lproc i)) Q (at_proc i RUNNING c).
Proof.
  intros Hi Hch HQ. unfold sleep. command. cbn [g_proc at_proc deref bind]. rewrite bool_decide_true by done. cbn [negb bind].
  apply (wp_sleep_locked ch i c None); [done|intros l ->; by destruct (Hch l)|exact HQ].
Qed.

(** wakeup. *)

Record quiet (g : ghost) : Prop := {
  qu_held : forall j, Lproc j ∉ g_held g;
  qu_know : g_know g = ∅;
  qu_claim : g_claim g = None;
  qu_about : g_about g = None;
  qu_proc : g_on g = None -> g_proc g = None;
}.

Definition with_sleep (w : gmap slock (Z * gset nat)) (g : ghost) : ghost :=
  mk_ghost (g_on g) (g_proc g) (g_held g) (g_know g) w (g_claim g) (g_about g) (g_seen g).

(** Those that are still to be looked at, when those of [js] have been woken from [ch]. *)

Definition woken (ch : chan) (js : list nat) (w w' : gmap slock (Z * gset nat)) : Prop :=
  forall l, match w !! l with
  | None => w' !! l = None
  | Some (v, o) => exists o', w' !! l = Some (v, o') /\ forall x, x ∈ o' -> x ∈ o /\ (ch = ChSleep l -> x ∉ js)
  end.

Lemma drop_take j v g : Lproc j ∉ g_held g -> g_know g = ∅ ->
  drop_proc j (set_know j v (take_lock (Lproc j) g)) = with_sleep (map_imap (fun l w => Some (looked_at j (Some v) l w)) (g_sleep g)) g.
Proof.
  intros Hh Hk. unfold drop_proc, set_know, take_lock, with_sleep. cbn [g_on g_proc g_held g_know g_sleep g_claim g_about g_seen].
  rewrite lookup_insert_eq, delete_insert_id by (by rewrite Hk). f_equal. clear - Hh. set_solver.
Qed.

Lemma wp_wakeup_one ch j g (Q : unit -> ghost -> Prop) :
  quiet g -> (j < NPROC)%nat -> (forall w', woken ch [j] (g_sleep g) w' -> Q tt (with_sleep w' g)) ->
  wp (do (Acquire (Lproc j)) ;; p <- do (GetProc j) ;;
    (if* bool_decide (p_state p = SLEEPING) && bool_decide (p_chan p = Some ch) then do (SetState j RUNNABLE)) ;; do (Release (Lproc j))) Q g.
Proof.
  intros [H1 H2 H3 H4 H5] Hj HQ. command. split; [done|]. split; [done|]. intros g1 (st & c & Hst & ->). command. split; [done|]. intros p _ Hk.
  specialize (Hk (st, c)). cbn in Hk. rewrite lookup_insert_eq in Hk. specialize (Hk eq_refl). injection Hk as -> ->.
  assert (Hcl : ~ claims g j) by (unfold claims; rewrite H3; naive_solver).
  assert (Hrel : forall v, (g_on g = Some j -> v.1 = RUNNING) -> v <> (SLEEPING, Some ch) ->
    rule (Release (Lproc j)) (set_know j v (take_lock (Lproc j) g)) Q).
  { intros v Hv Hns. split; [cbn; set_solver|]. split; [exact Hcl|]. split.
    - intros Hon. split; [done|]. exists v.2. cbn. rewrite lookup_insert_eq. destruct v. cbn in Hv |- *. by rewrite (Hv Hon).
    - rewrite drop_take by done. apply HQ. intros l. rewrite map_lookup_imap. destruct (g_sleep g !! l) as [[w o]|]; [|done]. cbn.
      eexists. split; [done|]. intros x. case_decide as Hd; [intros Hx; split; [done|intros ->]; by destruct Hns; injection Hd|]. set_solver. }
  destruct (bool_decide (p_state p = SLEEPING) && bool_decide (p_chan p = Some ch)) eqn:E.
  - apply andb_true_iff in E as [E1%bool_decide_eq_true E2%bool_decide_eq_true]. command. exists SLEEPING, (Some ch). rewrite E1, E2 in *.
    split; [apply lookup_insert_eq|]. right. left. split; [intros Hon; by specialize (Hst Hon)|]. split; [exact Hcl|]. do 3 (split; [done|]).
    replace (set_know j (RUNNABLE, Some ch) _) with (set_know j (RUNNABLE, Some ch) (take_lock (Lproc j) g)).
    + apply wp_do, Hrel; [intros Hon; by specialize (Hst Hon)|done].
    + unfold set_know. cbn [g_on g_proc g_held g_know g_sleep g_claim g_about g_seen]. by rewrite insert_insert_eq.
  - cbn [bind]. apply wp_do, Hrel; [done|]. intros [= E1 E2]. rewrite !bool_decide_true in E by done. done.
Qed.

Lemma woken_trans ch js1 js2 w1 w2 w3 : woken ch js1 w1 w2 -> woken ch js2 w2 w3 -> woken ch (js1 ++ js2) w1 w3.
Proof.
  intros H1 H2 l. specialize (H1 l). specialize (H2 l). destruct (w1 !! l) as [[v o]|].
  - destruct H1 as (o1 & E1 & H1). rewrite E1 in H2. destruct H2 as (o2 & E2 & H2). exists o2. split; [done|]. intros x Hx.
    destruct (H2 x Hx) as [Hx1 Hn2]. destruct (H1 x Hx1) as [Hx0 Hn1]. split; [done|]. intros Hc. rewrite elem_of_app. intros [?|?]; [by apply Hn1|by apply Hn2].
  - by rewrite H1 in H2.
Qed.

Lemma quiet_with_sleep w g : quiet g -> quiet (with_sleep w g).
Proof. intros []. by split. Qed.

Lemma wp_wakeup_from ch js g (Q : unit -> ghost -> Prop) :
  quiet g -> (forall j, j ∈ js -> (j < NPROC)%nat) -> (forall w', woken ch js (g_sleep g) w' -> Q tt (with_sleep w' g)) ->
  wp (for_each js (fun j => do (Acquire (Lproc j)) ;; p <- do (GetProc j) ;;
    (if* bool_decide (p_state p = SLEEPING) && bool_decide (p_chan p = Some ch) then do (SetState j RUNNABLE)) ;; do (Release (Lproc j)))) Q g.
Proof.
  revert g Q. induction js as [|j js IH]; intros g Q Hq Hjs HQ.
  - cbn. replace g with (with_sleep (g_sleep g) g) by (by destruct g). apply HQ. intros l. destruct (g_sleep g !! l) as [[v o]|]; [|done].
    exists o. split; [done|]. intros x Hx. split; [done|]. intros _. apply not_elem_of_nil.
  - cbn [for_each]. apply wp_bind, wp_wakeup_one; [done|apply Hjs; left|]. intros w1 H1. apply IH; [by apply quiet_with_sleep|intros; apply Hjs; by right|].
    intros w2 H2. apply HQ. exact (woken_trans ch [j] js _ _ _ H1 H2).
Qed.

Lemma wp_wakeup ch g (Q : unit -> ghost -> Prop) :
  quiet g -> (forall w', woken ch procs (g_sleep g) w' -> Q tt (with_sleep w' g)) -> wp (wakeup ch) Q g.
Proof. intros Hq HQ. apply wp_wakeup_from; [done| |done]. intros j Hj%elem_of_seq. lia. Qed.

(** Nothing is to be looked at. *)

Lemma wp_wakeup_none ch g (Q : unit -> ghost -> Prop) : quiet g -> g_sleep g = ∅ -> Q tt g -> wp (wakeup ch) Q g.
Proof.
  intros Hq Hs HQ. apply wp_wakeup; [done|]. intros w' Hw. replace w' with (g_sleep g); [by destruct g|].
  apply map_eq. intros l. specialize (Hw l). by rewrite Hs, lookup_empty in *.
Qed.

Lemma quiet_user i : quiet (user i).
Proof. by split. Qed.

(** ** Sleep locks *)

Definition slept (l : slock) (i : nat) (v : Z) (o : gset nat) : ghost := set_sleep l (v, o) (take_lock (Lsleep l) (user i)).

Lemma slept_again l i v o v' o' : set_sleep l (v', o') (slept l i v o) = slept l i v' o'.
Proof. unfold slept, set_sleep. cbn. by rewrite insert_insert_eq. Qed.

Lemma slept_released l i v o (Q : unit -> ghost -> Prop) : v <> 0 \/ o = ∅ -> Q tt (user i) -> rule (Release (Lsleep l)) (slept l i v o) Q.
Proof.
  intros Hv HQ. split; [cbn; set_solver|]. exists v, o. split; [apply lookup_insert_eq|]. split; [done|]. left.
  replace (drop_sleep l (slept l i v o)) with (user i); [done|]. unfold drop_sleep, slept, user, set_sleep, take_lock. cbn [g_on g_proc g_held g_know g_sleep g_claim g_about g_seen].
  rewrite delete_insert_eq, delete_empty. f_equal. set_solver.
Qed.

Lemma wp_acquiresleep_wait n l i v (Q : unit -> ghost -> Prop) :
  (i < NPROC)%nat -> (forall v, Q tt (slept l i v ∅)) -> wp (acquiresleep_wait n l) Q (slept l i v ∅).
Proof.
  intros Hi HQ. revert v. induction n as [|n IH]; intros v; [done|]. cbn [acquiresleep_wait]. command. intros x Hx.
  specialize (Hx v ∅ (lookup_insert_eq _ _ _)). subst v. destruct (Z.eqb_spec (sl_locked x) 0) as [H0|H0]; [apply HQ|].
  apply wp_bind, (wp_sleep (ChSleep l) (Lsleep l) i); [done|done|done|by exists (sl_locked x)| |].
  - intros l' [= ->]. split; [done|]. exists (sl_locked x). split; [done|apply lookup_insert_eq].
  - intros g' (v' & ->). apply IH.
Qed.

Lemma wp_acquiresleep n l i (Q : unit -> ghost -> Prop) : (i < NPROC)%nat -> Q tt (user i) -> wp (acquiresleep n l) Q (user i).
Proof.
  intros Hi HQ. unfold acquiresleep. command. split; [set_solver|]. split; [done|]. intros g' (v & ->). apply wp_bind, (wp_acquiresleep_wait n l i v); [done|].
  intros v'. command. split; [eexists; apply lookup_insert_eq|]. rewrite slept_again. command. cbn [g_proc slept set_sleep take_lock user deref bind].
  command. split; [done|]. intros p _ _. command. apply wp_do, slept_released; [by left|done].
Qed.

Lemma wp_releasesleep l i (Q : unit -> ghost -> Prop) : Q tt (user i) -> wp (releasesleep l) Q (user i).
Proof.
  intros HQ. unfold releasesleep. command. split; [set_solver|]. split; [done|]. intros g' (v & ->). fold (slept l i v ∅).
  command. split; [eexists; apply lookup_insert_eq|]. rewrite slept_again, decide_True by done. command. apply wp_bind, wp_wakeup.
  { split; try done. intros j. cbn. set_solver. }
  intros w' Hw. assert (exists o', w' = {[l := (0, o')]} /\ o' = ∅) as (o' & -> & ->).
  { pose proof (Hw l) as Hl. cbn [g_sleep slept set_sleep take_lock user] in Hl, Hw. rewrite lookup_insert_eq in Hl. destruct Hl as (o' & E & Ho). exists o'. split.
    - apply map_eq. intros l'. destruct (decide (l' = l)) as [->|Hne]; [by rewrite E, lookup_singleton_eq|]. specialize (Hw l').
      rewrite lookup_insert_ne, lookup_empty in Hw by done. by rewrite Hw, lookup_singleton_ne.
    - apply set_eq. intros x. split; [|set_solver]. intros Hx. destruct (Ho x Hx) as [Hall Hn]. unfold all_procs in Hall. rewrite elem_of_list_to_set in Hall. by destruct (Hn eq_refl). }
  apply wp_do. apply (slept_released l i 0 ∅); [by right|done].
Qed.

(** ** The other calls of a process *)

Lemma with_sleep_none i : with_sleep ∅ (user i) = user i.
Proof. done. Qed.

Lemma released_has lk i g (Q : ghost -> Prop) : lk <> Lproc i -> has lk (user i) g -> Q (user i) -> released lk g Q.
Proof.
  intros Hne Hh HQ. assert (Hu : forall l, drop_lock l (take_lock l (user i)) = user i).
  { intros l. unfold drop_lock, take_lock, user. cbn [g_on g_proc g_held g_know g_sleep g_claim g_about g_seen]. f_equal. set_solver. }
  destruct lk as [|j| | | | | | | | | | | | |l]; cbn [has] in Hh; cbn [released]; try (subst g; by rewrite Hu).
  - destruct Hh as (st & ch & _ & ->). split; [by intros [?|[? _]]|]. split; [intros [= ->]; done|].
    rewrite drop_take by (done || apply not_elem_of_empty). cbn [g_sleep user]. by rewrite map_imap_empty.
  - destruct Hh as (v & ->). by destruct (slept_released l i v ∅ (fun _ => Q) (or_intror eq_refl) HQ).
Qed.

Lemma wp_wait ch lk i (Q : unit -> ghost -> Prop) :
  (i < NPROC)%nat -> lock_ok lk -> (forall l, ch <> ChSleep l) -> Q tt (user i) ->
  wp (do (Acquire lk) ;; sleep ch lk ;; do (Release lk)) Q (user i).
Proof.
  intros Hi Hok Hch HQ. command. split; [set_solver|]. split; [done|]. intros g Hg. destruct (decide (lk = Lproc i)) as [->|Hne].
  - destruct Hg as (st & c & Hst & ->). rewrite (Hst eq_refl), user_locked. apply wp_bind, wp_sleep_own; [done|done|]. apply wp_do. by apply (released_at i None (Q tt)).
  - apply wp_bind, (wp_sleep ch lk i); [done|done|done|done|intros l ->; by destruct (Hch l)|]. intros g' Hg'.
    destruct (has_facts lk i g' Hg') as (_ & _ & Hhe & _). apply wp_do. split; [rewrite Hhe; set_solver|]. by eapply released_has.
Qed.

Lemma wp_kill pid i (Q : Z -> ghost -> Prop) : (i < NPROC)%nat -> (forall r, Q r (user i)) -> wp (kill pid) Q (user i).
Proof.
  intros Hi HQ. unfold kill, mycont. apply wp_bind. command. cbn [g_proc user deref bind]. command. split; [done|]. intros pr _ _. cbn [wp].
  generalize (p_container pr). intros c. apply wp_bind, wp_for_ret; [|intros r; apply HQ]. intros j Hj%elem_of_seq Q' HQ'.
  command. split; [lia|]. intros p0 _ _. cbv zeta. command. split; [set_solver|]. split; [cbn; lia|]. intros g (st & ch & Hst & ->).
  assert (Hno : forall (k : code (option Z)) st, (Some i = Some j -> st = RUNNING) -> wp k Q' (user i) ->
    wp (do (Release (Lproc j)) ;; k) Q' (set_know j (st, ch) (take_lock (Lproc j) (user i)))).
  { intros k st' Hs Hk. command. split; [cbn; set_solver|]. split; [by intros [?|[? _]]|]. split.
    - intros Hon. split; [done|]. exists ch. rewrite (Hs Hon). apply lookup_insert_eq.
    - rewrite drop_take by (done || apply not_elem_of_empty). cbn [g_sleep user]. by rewrite map_imap_empty. }
  destruct (Z.eqb _ _); [|apply Hno; [exact Hst|apply HQ']]. command. split; [lia|]. intros p _ Hk. specialize (Hk (st, ch) (lookup_insert_eq _ _ _)). injection Hk as -> ->.
  destruct (negb _ && negb _); [apply Hno; [exact Hst|apply HQ']|]. command. split; [eexists; apply lookup_insert_eq|].
  destruct (bool_decide (p_state p = SLEEPING) || bool_decide (p_state p = SUSPENDED)) eqn:E; [|cbn [bind]; apply Hno; [exact Hst|apply HQ']].
  assert (Hnr : p_state p <> RUNNING) by (intros R; by rewrite R in E). assert (Hij : Some i <> Some j) by (intros Hon; by apply Hnr, Hst).
  command. exists (p_state p), (p_chan p). split; [apply lookup_insert_eq|]. right. left. split; [done|]. split; [by intros [?|[? _]]|]. do 3 (split; [done|]).
  replace (set_know j (RUNNABLE, p_chan p) _) with (set_know j (RUNNABLE, p_chan p) (take_lock (Lproc j) (user i))); [apply Hno; [done|apply HQ']|].
  unfold set_know. cbn [g_on g_proc g_held g_know g_sleep g_claim g_about g_seen]. by rewrite insert_insert_eq.
Qed.

(** The calls that the theorems are about: all but suspend, which takes the CPU from nobody
    and makes a process of another hart look as if it did not run. *)

Definition call_ok (c : call) : Prop :=
  match c with
  | Cwait ch lk => (forall l, ch <> ChSleep l) /\ lock_ok lk
  | Csuspend _ => False
  | Ccstate ci _ => (ci < NCONTS)%nat
  | _ => True
  end.

Lemma wp_call n c i (Q : unit -> ghost -> Prop) : (i < NPROC)%nat -> call_ok c -> Q tt (user i) -> wp (call_code n c) Q (user i).
Proof.
  intros Hi Hc HQ. destruct c; cbn [call_code].
  - by apply wp_yield.
  - by apply wp_acquiresleep.
  - by apply wp_releasesleep.
  - destruct Hc. by apply wp_wait.
  - apply wp_wakeup_none; [apply quiet_user|done|done].
  - by apply wp_bind, wp_kill.
  - done.
  - apply wp_do. by split.
Qed.

(** ** The scheduler and interrupts *)

Definition looking (i : nat) (st : procstate) (ch : option chan) (seen : gset nat) : ghost := set_proc None (back i st ch seen).

Lemma rescheduled_locked i st ch seen : set_know i (st, ch) (take_lock (Lproc i) (rescheduled seen)) = looking i st ch seen.
Proof. unfold set_know, take_lock, rescheduled, looking, set_proc, back. cbn. by rewrite (right_id_L ∅ (∪)). Qed.

Lemma looking_released i st ch seen (Q : ghost -> Prop) : Q (rescheduled seen) -> rule (Release (Lproc i)) (looking i st ch seen) (fun _ => Q).
Proof.
  intros HQ. split; [cbn; set_solver|]. split; [by intros [?|[_ ?]]|]. split; [done|].
  replace (drop_proc i (looking i st ch seen)) with (rescheduled seen); [done|].
  unfold drop_proc, looking, set_proc, back, rescheduled. cbn [g_on g_proc g_held g_know g_sleep g_claim g_about g_seen].
  rewrite delete_singleton_eq, map_imap_empty. f_equal. set_solver.
Qed.

Lemma wp_next n index g (Q : nat -> ghost -> Prop) : g_on g = None -> (forall ci, Q ci (see ci g)) -> wp (get_next_active_container n index) Q g.
Proof.
  intros Hon HQ. revert index. induction n as [|n IH]; intros index; [done|]. cbn [get_next_active_container]. command.
  split; [done|]. split; [by apply Nat.mod_upper_bound|]. intros c. split; intros Hc.
  - rewrite bool_decide_true by done. apply HQ.
  - rewrite bool_decide_false by done. apply IH.
Qed.

Lemma wp_scheduler_try n cindex i seen (Q : nat -> ghost -> Prop) :
  (i < NPROC)%nat -> cindex ∈ seen -> (forall ci seen', seen ⊆ seen' -> ci ∈ seen' -> Q ci (rescheduled seen')) ->
  wp (scheduler_try n cindex i) Q (rescheduled seen).
Proof.
  intros Hi Hc HQ. unfold scheduler_try. command. split; [apply not_elem_of_empty|]. split; [done|]. intros g (st & ch & _ & ->). rewrite rescheduled_locked.
  command. split; [done|]. intros p Hp Hk. specialize (Hk (st, ch) (lookup_singleton_eq _ _)). injection Hk as -> ->.
  destruct (bool_decide (p_state p = RUNNABLE) && bool_decide (p_container p = Some cindex)) eqn:E.
  - apply andb_true_iff in E as [E1%bool_decide_eq_true E2%bool_decide_eq_true]. apply wp_bind. command. exists (p_state p), (p_chan p).
    split; [apply lookup_singleton_eq|]. right. right. do 5 (split; [done|]). command. split; [done|]. split; [done|].
    split; [intros j [= <-]; exists cindex; split; [congruence|done]|]. command. exists (p_chan p), seen. split.
    { unfold set_proc, set_claim, set_know, looking, back. cbn [g_on g_proc g_held g_know g_sleep g_claim g_about g_seen set_proc]. by rewrite insert_singleton_eq. }
    intros st' ch' Hst. command. do 3 (split; [done|]). apply wp_next; [done|]. intros ci. command. change (see ci _) with (looking i st' ch' ({[ci]} ∪ seen)).
    apply (looking_released _ _ _ _ (fun g => Q _ g)). apply HQ; set_solver.
  - cbn [bind]. command. apply (looking_released _ _ _ _ (fun g => Q _ g)). by apply HQ.
Qed.

Lemma wp_scheduler_pass n l cindex seen (Q : nat -> ghost -> Prop) :
  (forall i, i ∈ l -> (i < NPROC)%nat) -> cindex ∈ seen -> (forall ci seen', seen ⊆ seen' -> ci ∈ seen' -> Q ci (rescheduled seen')) ->
  wp (scheduler_pass n l cindex) Q (rescheduled seen).
Proof.
  revert cindex seen. induction l as [|i l IH]; intros cindex seen Hl Hc HQ; [by apply HQ|]. cbn [scheduler_pass].
  apply wp_bind, wp_scheduler_try; [apply Hl; left|done|]. intros ci seen' Hs Hci. apply IH; [intros; apply Hl; by right|done|].
  intros ci' seen'' Hs' Hci'. apply HQ; [by etrans|done].
Qed.

Lemma wp_scheduler_loop n rounds cindex seen (Q : unit -> ghost -> Prop) : cindex ∈ seen -> wp (scheduler_loop n rounds cindex) Q (rescheduled seen).
Proof.
  revert cindex seen. induction rounds as [|rounds IH]; intros cindex seen Hc; [done|]. cbn [scheduler_loop].
  apply wp_bind, wp_scheduler_pass; [intros i Hi%elem_of_seq; lia|done|]. intros ci seen' _ _. apply wp_bind, wp_next; [done|]. intros ci'.
  change (see ci' (rescheduled seen')) with (rescheduled ({[ci']} ∪ seen')). apply IH. set_solver.
Qed.

Lemma wp_scheduler n (Q : unit -> ghost -> Prop) : wp (scheduler n) Q (rescheduled ∅).
Proof.
  unfold scheduler. apply wp_bind, wp_next; [done|]. intros ci. command. do 3 (split; [done|]).
  change (set_proc None (see ci (rescheduled ∅))) with (rescheduled ({[ci]} ∪ ∅)). apply wp_scheduler_loop. set_solver.
Qed.

Lemma wp_clockintr g (Q : unit -> ghost -> Prop) : quiet g -> Lticks ∉ g_held g -> g_sleep g = ∅ -> Q tt g -> wp clockintr Q g.
Proof.
  intros Hq Hl Hs HQ. unfold clockintr. command. split; [done|]. split; [done|]. intros g' ->. command.
  apply wp_bind, wp_wakeup_none; [|done|].
  { destruct Hq. split; try done. intros j. cbn. set_solver. }
  apply wp_do. split; [cbn; set_solver|]. cbn [released]. replace (drop_lock Lticks (take_lock Lticks g)) with g; [done|].
  unfold drop_lock, take_lock. cbn [g_on g_proc g_held g_know g_sleep g_claim g_about g_seen]. replace (({[Lticks]} ∪ g_held g) ∖ {[Lticks]}) with (g_held g) by set_solver. by destruct g.
Qed.

(** An interrupt leaves a hart without locks as it was. *)

Lemma wp_kerneltrap g (Q : unit -> ghost -> Prop) :
  (exists i, (i < NPROC)%nat /\ g = user i) \/ (exists seen, g = rescheduled seen) -> Q tt g -> wp kerneltrap Q g.
Proof.
  intros Hg HQ. assert (Hq : quiet g /\ g_held g = ∅ /\ g_sleep g = ∅) by (destruct Hg as [(i & _ & ->)|(seen & ->)]; done). destruct Hq as (Hq & Hh & Hs).
  assert (Hrest : wp (p <- do Myproc ;; match p with None => Ret tt | Some i => pr <- do (GetProc i) ;; if* bool_decide (p_state pr = RUNNING) then yield end) Q g).
  { destruct Hg as [(i & Hi & ->)|(seen & ->)]; command; cbn [g_proc user rescheduled]; [|done]. command. split; [done|]. intros p _ _.
    case_bool_decide; [by apply wp_yield|done]. }
  unfold kerneltrap. command. intros h. apply wp_bind. destruct (h =? 0)%nat; [|exact Hrest]. apply wp_clockintr; [done|by rewrite Hh|done|exact Hrest].
Qed.

(** A process from the first time it is run. *)

Lemma wp_forkret n cs i ch (Q : unit -> ghost -> Prop) :
  (i < NPROC)%nat -> Forall call_ok cs -> Q tt (user i) -> wp (forkret ;; for_each cs (call_code n)) Q (at_proc i RUNNING ch).
Proof.
  intros Hi Hcs HQ. apply wp_bind. unfold forkret. command. cbn [g_proc at_proc deref bind]. apply wp_do. apply (released_at i ch (fun g => wp _ _ g)).
  apply wp_for_each; [|done]. intros c Hc Q' HQ'. rewrite Forall_forall in Hcs. apply wp_call; [done|by apply Hcs|done].
Qed.

End Rules.
