(* ===== verification/Smpspec.v ===== *)
(** * What holds on several harts

    While every hart keeps to the protocol of Smpproto.v, the machine of Smpsched.v keeps an
    invariant: a process is on one hart at most, whoever has a lock is the only one to have
    it, and a process that sleeps for a sleep lock, or is about to, is not forgotten.  The
    theorems are about every interleaving of the harts, and of their timer interrupts, from
    the start of the scheduler on. *)

From stdpp Require Import functions.
From S2P Require Import Prelude Monad Riscv Kstring Kstate Sched Smpsched Smpproto.

Import Harts.
Local Open Scope smp_scope.

Section Inv.
Context (home : nat -> option nat).

(** ** The invariant *)

Definition fin : unit -> ghost -> Prop := fun _ _ => True.

(** What a hart knows is so. *)

Record ghost_ok (S : nat -> Prop) (m : mach) (g : ghost) : Prop := {
  go_on : forall i, g_on g = Some i -> g_proc g = Some i /\ g_claim g = None /\ g_seen g = ∅ /\ (i < NPROC)%nat;
  go_running : forall i p, g_on g = Some i -> Lproc i ∉ g_held g -> m_procs m !! i = Some p -> p_state p = RUNNING;
  go_know : forall j v, g_know g !! j = Some v -> exists p, m_procs m !! j = Some p /\ v = (p_state p, p_chan p);
  go_know_dom : forall j, Lproc j ∈ g_held g <-> is_Some (g_know g !! j);
  go_sleep : forall l v o, g_sleep g !! l = Some (v, o) -> v = sl_locked (m_sleep m l);
  go_sleep_dom : forall l, Lsleep l ∈ g_held g <-> is_Some (g_sleep g !! l);
  go_claim : forall j, claims g j -> Lproc j ∈ g_held g;
  go_about : forall l, g_about g = Some l -> exists i, g_on g = Some i /\ Lproc i ∈ g_held g;
  go_seen : forall ci, ci ∈ g_seen g -> S ci;
  go_ran : forall j, g_proc g = Some j -> exists ci, home j = Some ci /\ S ci;
}.

(** Process [i] sleeps for the sleep lock, or is about to. *)

Definition asleep_for (m : mach) (l : slock) (i : nat) : Prop :=
  exists p, m_procs m !! i = Some p /\ p_state p = SLEEPING /\ p_chan p = Some (ChSleep l).

Definition waiting (m : mach) (gs : nat -> ghost) (l : slock) (i : nat) : Prop :=
  asleep_for m l i \/ exists h, g_on (gs h) = Some i /\ g_about (gs h) = Some l.

(** Somebody will look at it: who has the sleep lock, or who has just released it. *)

Definition attended (m : mach) (gs : nat -> ghost) (l : slock) (i : nat) : Prop :=
  sl_locked (m_sleep m l) <> 0 \/ exists h v o, g_sleep (gs h) !! l = Some (v, o) /\ i ∈ o.

(** [hole] is a hart of which it is not said what its code does. *)

Record inv (hole : option nat) (S : nat -> Prop) (m : mach) (gs : nat -> ghost) : Prop := {
  iv_procs : length (m_procs m) = NPROC;
  iv_ctxs : length (m_contexts m) = NPROC;
  iv_conts : length (m_conts m) = NCONTS;
  iv_home : forall j p, m_procs m !! j = Some p -> p_container p = home j;
  iv_running : forall ci c, m_conts m !! ci = Some c -> c_state c = CRUNNING -> S ci;
  iv_lock : forall l h, m_locks m !! l = Some h <-> l ∈ g_held (gs h);
  iv_none : forall h, m_harts m !! h = None -> gs h = rescheduled ∅;
  iv_proc : forall h x, m_harts m !! h = Some x -> h_proc x = g_proc (gs h);
  iv_code : forall h x, m_harts m !! h = Some x -> hole <> Some h -> wp home (h_code x) fin (gs h);
  iv_sched : forall h x j, m_harts m !! h = Some x -> g_on (gs h) = Some j ->
    exists seen, (forall ci, ci ∈ seen -> S ci) /\ forall st ch, st <> RUNNING -> wp home (h_scheduler x) fin (back j st ch seen);
  iv_ctx : forall j c, m_contexts m !! j = Some c -> (forall h, g_on (gs h) <> Some j) -> forall ch, wp home c fin (at_proc j RUNNING ch);
  iv_ghost : forall h, ghost_ok S m (gs h);
  iv_unique : forall h h' j, g_on (gs h) = Some j -> g_on (gs h') = Some j -> h = h';
  iv_claim : forall h h' j, claims (gs h) j -> g_on (gs h') <> Some j;
  iv_wait : forall l i, waiting m gs l i -> attended m gs l i;
}.

(** ** Facts *)

Lemma ghost_ok_weaken S S' m g : (forall ci, S ci -> S' ci) -> ghost_ok S m g -> ghost_ok S' m g.
Proof. intros HS []. split; try done; naive_solver. Qed.

Lemma inv_weaken hole S S' m gs : (forall ci, S ci -> S' ci) -> inv hole S m gs -> inv hole S' m gs.
Proof.
  intros HS []. split; try done.
  - naive_solver.
  - intros h x j Hx Hon. destruct (iv_sched0 h x j Hx Hon) as (seen & ? & ?). exists seen. naive_solver.
  - intros h. by eapply ghost_ok_weaken.
Qed.

(** A lock has one holder. *)

Lemma held_once hole S m gs l h h' : inv hole S m gs -> l ∈ g_held (gs h) -> l ∈ g_held (gs h') -> h = h'.
Proof. intros I H H'. apply (iv_lock _ _ _ _ I) in H, H'. congruence. Qed.

Lemma locks_of_held hole S m gs h : inv hole S m gs -> locks_of h m = g_held (gs h).
Proof.
  intros I. apply set_eq. intros l. unfold locks_of. rewrite elem_of_dom. unfold is_Some. rewrite <- (iv_lock _ _ _ _ I).
  split; [intros (h' & [Hl Hh]%map_lookup_filter_Some); cbn in Hh; by subst|intros Hl; exists h; by apply map_lookup_filter_Some].
Qed.

Ltac hart h0 h := destruct (decide (h0 = h)) as [->|?]; [rewrite ?fn_lookup_insert in *|rewrite ?fn_lookup_insert_ne in * by done].

(** Memory that the invariant does not speak of. *)

Lemma inv_memory hole S m m' gs :
  inv hole S m gs -> m_locks m' = m_locks m -> m_procs m' = m_procs m -> m_contexts m' = m_contexts m -> m_conts m' = m_conts m ->
  (forall l, sl_locked (m_sleep m' l) = sl_locked (m_sleep m l)) -> m_harts m' = m_harts m -> inv hole S m' gs.
Proof.
  intros I E1 E2 E3 E4 E5 E6. destruct I. split; rewrite ?E1, ?E2, ?E3, ?E4, ?E6; try done.
  - intros h. destruct (iv_ghost0 h). split; rewrite ?E2; try done. intros l v o Hl. rewrite E5. by eapply go_sleep0.
  - unfold waiting, asleep_for, attended. intros l i. rewrite E2, E5. apply iv_wait0.
Qed.

Lemma inv_conts hole S m ci st c gs :
  inv hole S m gs -> m_conts m !! ci = Some c ->
  let m' := set_m_conts (<[ci := set_c_state st c]> (m_conts m)) m in
  inv hole (fun cj => S cj \/ exists c, m_conts m' !! cj = Some c /\ c_state c = CRUNNING) m' gs.
Proof.
  intros I Hc m'. assert (Iw : inv hole (fun cj => S cj \/ exists c, m_conts m' !! cj = Some c /\ c_state c = CRUNNING) m gs) by (eapply inv_weaken; [|exact I]; by left).
  destruct Iw. split; try done.
  - cbn. by rewrite length_insert.
  - intros cj c' Hc' Hr. right. by exists c'.
  - intros h. by destruct (iv_ghost0 h).
Qed.

(** Hart [h] has taken a step other than swtch, and knows [g'] now. *)

Lemma inv_update S m m' gs h g' :
  inv (Some h) S m gs -> is_Some (m_harts m !! h) ->
  length (m_procs m') = NPROC -> m_contexts m' = m_contexts m -> m_conts m' = m_conts m ->
  (forall j p, m_procs m' !! j = Some p -> p_container p = home j) ->
  m_harts m' = m_harts m /\ g_proc g' = g_proc (gs h) \/ m_harts m' = alter (fun x => mk_hart (g_proc g') (h_code x) (h_scheduler x)) h (m_harts m) ->
  (forall l h', m_locks m' !! l = Some h' <-> l ∈ g_held (<[h := g']> gs h')) -> g_on g' = g_on (gs h) ->
  ghost_ok S m' g' -> (forall h', h' <> h -> ghost_ok S m' (gs h')) -> (forall j h', claims g' j -> h' <> h -> g_on (gs h') <> Some j) ->
  (forall l i, waiting m' (<[h := g']> gs) l i -> attended m' (<[h := g']> gs) l i) ->
  inv (Some h) S m' (<[h := g']> gs).
Proof.
  intros I [x Hx] Hlen Hctx Hcont Hhome Hharts Hlock Hon Hok Hoks Hcl Hw. destruct I.
  assert (Hg : forall h', g_on (<[h := g']> gs h') = g_on (gs h')) by (intros h'; by hart h' h).
  assert (Hother : forall h', h' <> h -> m_harts m' !! h' = m_harts m !! h').
  { intros h' Hne. destruct Hharts as [[-> _] | -> ]; [done|]. by rewrite list_lookup_alter_ne. }
  assert (Hthis : m_harts m' !! h = Some (mk_hart (g_proc g') (h_code x) (h_scheduler x))).
  { destruct Hharts as [[-> ->] | -> ]; [rewrite Hx; f_equal; rewrite <- (iv_proc0 h x Hx); by destruct x|]. by rewrite list_lookup_alter_eq, Hx. }
  split; rewrite ?Hctx, ?Hcont; try done.
  - intros h' Hn. hart h' h; [congruence|]. rewrite Hother in Hn by done. by apply iv_none0.
  - intros h' x' Hx'. hart h' h; [rewrite Hthis in Hx'; by injection Hx' as <-|]. rewrite Hother in Hx' by done. by apply iv_proc0.
  - intros h' x' Hx' Hne. hart h' h; [done|]. rewrite Hother in Hx' by done. by apply iv_code0.
  - intros h' x' j Hx'. rewrite Hg. intros Hj. destruct (decide (h' = h)) as [->|Hne].
    + rewrite Hthis in Hx'. injection Hx' as <-. exact (iv_sched0 h x j Hx Hj).
    + rewrite Hother in Hx' by done. by eapply iv_sched0.
  - intros j c Hc Hno. apply (iv_ctx0 j c Hc). intros h'. rewrite <- Hg. apply Hno.
  - intros h'. hart h' h; [done|by apply Hoks].
  - intros h1 h2 j. rewrite !Hg. apply iv_unique0.
  - intros h1 h2 j Hc. rewrite Hg. hart h1 h; [|by apply (iv_claim0 h1 h2 j)]. destruct (decide (h2 = h)) as [->|Hne]; [|by apply Hcl].
    intros Hj. rewrite <- Hon in Hj. destruct (go_on _ _ _ Hok j Hj) as (_ & Hn & _). destruct Hc as [Hc|[Hc _]]; congruence.
Qed.

(** The processes that wait, when only the ghost of [h] has changed. *)

Lemma attended_kept S m m' gs h g' :
  inv (Some h) S m gs -> m_procs m' = m_procs m -> (forall l, sl_locked (m_sleep m' l) = sl_locked (m_sleep m l)) ->
  g_on g' = g_on (gs h) -> (forall l, g_about g' = Some l -> g_about (gs h) = Some l) ->
  (forall l v o i, g_sleep (gs h) !! l = Some (v, o) -> i ∈ o -> exists v' o', g_sleep g' !! l = Some (v', o') /\ i ∈ o') ->
  forall l i, waiting m' (<[h := g']> gs) l i -> attended m' (<[h := g']> gs) l i.
Proof.
  intros I Hp Hs Hon Hab Hsl l i Hw. assert (Hw0 : waiting m gs l i).
  { destruct Hw as [Hw|(h' & Ho & Ha)]; [left; unfold asleep_for in *; by rewrite <- Hp|]. right. exists h'. hart h' h; [|done].
    split; [congruence|by apply Hab]. }
  destruct (iv_wait _ _ _ _ I l i Hw0) as [Hl|(h' & v & o & Ho & Hi)]; [left; by rewrite Hs|]. right.
  destruct (decide (h' = h)) as [->|Hne]; [|exists h', v, o; by rewrite fn_lookup_insert_ne].
  destruct (Hsl l v o i Ho Hi) as (v' & o' & Ho' & Hi'). exists h, v', o'. by rewrite fn_lookup_insert.
Qed.

Lemma inv_see S m gs h ci :
  inv (Some h) S m gs -> is_Some (m_harts m !! h) -> S ci -> g_on (gs h) = None -> inv (Some h) S m (<[h := see ci (gs h)]> gs).
Proof.
  intros I Hx HS Hon. pose proof I as []. apply (inv_update S m m gs h (see ci (gs h)) I Hx); try done.
  - by left.
  - intros l h'. rewrite iv_lock0. by hart h' h.
  - destruct (iv_ghost0 h). split; try done; cbn; [by rewrite Hon|]. set_solver.
  - intros j h' Hc _. by apply (iv_claim0 h h').
  - apply (attended_kept S m m gs h (see ci (gs h)) I); eauto.
Qed.

Lemma inv_set_proc S m gs h o :
  inv (Some h) S m gs -> is_Some (m_harts m !! h) -> g_on (gs h) = None -> o = g_claim (gs h) ->
  (forall j, o = Some j -> exists ci, home j = Some ci /\ ci ∈ g_seen (gs h)) ->
  inv (Some h) S (upd_hart h (fun x => mk_hart o (h_code x) (h_scheduler x)) m) (<[h := set_proc o (gs h)]> gs).
Proof.
  intros I Hx Hon Ho Hseen. pose proof I as []. assert (Hcl : forall j, claims (set_proc o (gs h)) j -> claims (gs h) j).
  { intros j [Hc|[_ Hc]]; [by left|]. left. cbn in Hc. congruence. }
  apply (inv_update S m _ gs h (set_proc o (gs h)) I Hx); try done.
  - by right.
  - intros l h'. rewrite iv_lock0. by hart h' h.
  - destruct (iv_ghost0 h). split; try done; cbn; [by rewrite Hon|naive_solver|]. intros j Hj. destruct (Hseen j Hj) as (ci & ? & ?). eauto.
  - intros h' _. by destruct (iv_ghost0 h').
  - intros j h' Hc%Hcl _. by apply (iv_claim0 h h').
  - apply (attended_kept S m (upd_hart h _ m) gs h (set_proc o (gs h)) I); eauto.
Qed.

(** ** Locks

    Locks of processes, spin locks of sleep locks, and others. *)

Definition plain (l : lock) : Prop := (forall j, l <> Lproc j) /\ forall sl, l <> Lsleep sl.

Lemma lock_cases l : (exists j, l = Lproc j) \/ (exists sl, l = Lsleep sl) \/ plain l.
Proof. destruct l; eauto; right; right; by split. Qed.

Lemma has_plain l g : plain l -> has l g (take_lock l g).
Proof. intros [H1 H2]. destruct l; try done; [by destruct (H1 i)|by destruct (H2 l)]. Qed.

Lemma has_fields l g g' : has l g g' ->
  g_on g' = g_on g /\ g_proc g' = g_proc g /\ g_held g' = {[l]} ∪ g_held g /\ g_claim g' = g_claim g /\ g_about g' = g_about g /\ g_seen g' = g_seen g.
Proof. destruct l; cbn [has]; naive_solver. Qed.

Lemma has_sleep l g g' sl w : has l g g' -> l <> Lsleep sl -> g_sleep g !! sl = w -> g_sleep g' !! sl = w.
Proof.
  destruct l as [| | | | | | | | | | | | | |sl']; cbn [has]; intros H Hne <-; [naive_solver..|]. destruct H as (v & ->).
  apply lookup_insert_ne. congruence.
Qed.

(** What a hart knows once it has the lock, in this state. *)

Lemma has_exists S m h gs l :
  inv (Some h) S m gs -> l ∉ g_held (gs h) -> lock_ok l -> exists g', has l (gs h) g' /\ ghost_ok S m g'.
Proof.
  intros I Hfree Hok. pose proof (iv_ghost _ _ _ _ I h) as G. destruct (lock_cases l) as [[j ->]|[[sl ->]|Hp]].
  - destruct (lookup_lt_is_Some_2 (m_procs m) j) as [p Hp]; [rewrite (iv_procs _ _ _ _ I); exact Hok|].
    exists (set_know j (p_state p, p_chan p) (take_lock (Lproc j) (gs h))). split.
    + exists (p_state p), (p_chan p). split; [|done]. intros Hon. by apply (go_running _ _ _ G j p).
    + destruct G. split; try done; cbn.
      * intros i q Hon Hn. apply go_running0; [done|set_solver].
      * intros k v. rewrite lookup_insert_Some. intros [[<- <-]|[_ Hv]]; [by exists p|by apply go_know0].
      * intros k. rewrite lookup_insert_is_Some, <- go_know_dom0. destruct (decide (j = k)) as [->|]; set_solver.
      * intros l. rewrite <- go_sleep_dom0. set_solver.
      * intros k Hc. specialize (go_claim0 k Hc). set_solver.
      * intros l Hl. destruct (go_about0 l Hl) as (i & ? & ?). exists i. set_solver.
  - exists (set_sleep sl (sl_locked (m_sleep m sl), ∅) (take_lock (Lsleep sl) (gs h))). split; [by eexists|]. destruct G. split; try done; cbn.
    * intros i q Hon Hn. apply go_running0; [done|set_solver].
    * intros k. rewrite <- go_know_dom0. set_solver.
    * intros l v o. rewrite lookup_insert_Some. intros [[<- [= <- _]]|[_ Hv]]; [done|by eapply go_sleep0].
    * intros l. rewrite lookup_insert_is_Some, <- go_sleep_dom0. destruct (decide (sl = l)) as [->|]; set_solver.
    * intros k Hc. specialize (go_claim0 k Hc). set_solver.
    * intros l Hl. destruct (go_about0 l Hl) as (i & ? & ?). exists i. set_solver.
  - exists (take_lock l (gs h)). split; [by apply has_plain|]. destruct Hp as [Hp1 Hp2]. destruct G. split; try done; cbn.
    * intros i q Hon Hn. apply go_running0; [done|set_solver].
    * intros k. specialize (Hp1 k). rewrite <- go_know_dom0. set_solver.
    * intros k. specialize (Hp2 k). rewrite <- go_sleep_dom0. set_solver.
    * intros k Hc. specialize (go_claim0 k Hc). set_solver.
    * intros sl Hl. destruct (go_about0 sl Hl) as (i & ? & ?). exists i. set_solver.
Qed.

Lemma inv_acquire S m gs h l (Q : ghost -> Prop) :
  inv (Some h) S m gs -> is_Some (m_harts m !! h) -> m_locks m !! l = None -> acquired l (gs h) Q ->
  exists gs', Q (gs' h) /\ inv (Some h) S (set_m_locks (<[l := h]> (m_locks m)) m) gs'.
Proof.
  intros I Hx Hl [Hlo HQ]. pose proof I as []. set (m' := set_m_locks _ m).
  assert (Hfree : forall h', l ∉ g_held (gs h')) by (intros h' Hh; apply iv_lock0 in Hh; congruence).
  destruct (has_exists S m h gs l I (Hfree h) Hlo) as (g' & Hg' & Hok). exists (<[h := g']> gs). rewrite fn_lookup_insert. split; [by apply HQ|].
  destruct (has_fields l _ _ Hg') as (F1 & F2 & F3 & F4 & F5 & F6). apply (inv_update S m m' gs h g' I Hx); try done.
  - by left.
  - intros l' h'. cbn. rewrite lookup_insert_Some, iv_lock0. destruct (decide (h' = h)) as [->|Hne].
    + rewrite fn_lookup_insert, F3. destruct (decide (l = l')) as [<-|]; set_solver.
    + rewrite fn_lookup_insert_ne by done. split; [naive_solver|]. intros Hl'. right. split; [|done]. intros <-. by destruct (Hfree h').
  - by destruct Hok.
  - intros h' _. by destruct (iv_ghost0 h').
  - intros j h' Hc _. apply (iv_claim0 h h'). unfold claims in *. by rewrite F1, F2, F4 in Hc.
  - apply (attended_kept S m m' gs h g' I); try done; [congruence|]. intros sl v o i Ho Hi. exists v, o. split; [|done].
    eapply has_sleep; [done| |exact Ho]. intros ->. apply (Hfree h), (go_sleep_dom _ _ _ (iv_ghost0 h)). by eexists.
Qed.

(** A lock is given back. *)

Lemma inv_unlock S m gs h l g' :
  inv (Some h) S m gs -> is_Some (m_harts m !! h) -> g_on g' = g_on (gs h) -> g_proc g' = g_proc (gs h) -> g_claim g' = g_claim (gs h) ->
  l ∈ g_held (gs h) -> g_held g' = g_held (gs h) ∖ {[l]} -> ghost_ok S m g' ->
  (forall l i, waiting m (<[h := g']> gs) l i -> attended m (<[h := g']> gs) l i) ->
  inv (Some h) S (set_m_locks (delete l (m_locks m)) m) (<[h := g']> gs).
Proof.
  intros I Hx F1 F2 F3 Hl F4 Hok Hw. pose proof I as []. apply (inv_update S m _ gs h g' I Hx); try done.
  - by left.
  - intros l' h'. cbn. rewrite lookup_delete_Some, iv_lock0. destruct (decide (h' = h)) as [->|Hne].
    + rewrite fn_lookup_insert, F4. set_solver.
    + rewrite fn_lookup_insert_ne by done. split; [by intros [_ ?]|]. intros Hl'. split; [|done]. intros <-. by destruct Hne; eapply held_once.
  - by destruct Hok.
  - intros h' _. by destruct (iv_ghost0 h').
  - intros j h' Hc _. apply (iv_claim0 h h'). unfold claims in *. by rewrite F1, F2, F3 in Hc.
Qed.

Lemma ghost_drop_proc S m j g :
  ghost_ok S m g -> ~ claims g j -> (g_on g = Some j -> g_about g = None /\ exists ch, g_know g !! j = Some (RUNNING, ch)) -> ghost_ok S m (drop_proc j g).
Proof.
  intros [] Hcl Hown. split; try done; cbn.
  - intros i p Hon Hn Hp. destruct (decide (i = j)) as [->|Hne]; [|apply (go_running0 i p); [done|set_solver|done]].
    destruct (Hown Hon) as (_ & ch & Hk). destruct (go_know0 j _ Hk) as (p' & Hp' & [= E _]). congruence.
  - intros k v [_ Hv]%lookup_delete_Some. by apply go_know0.
  - intros k. rewrite lookup_delete_is_Some, <- go_know_dom0. set_solver.
  - intros l v o. rewrite map_lookup_imap. destruct (g_sleep g !! l) as [[v' o']|] eqn:E; [|done]. cbn. intros [= <- _]. by eapply go_sleep0.
  - intros l. rewrite map_lookup_imap. destruct (g_sleep g !! l) as [[v' o']|] eqn:E; cbn.
    + split; [by eexists|]. intros _. apply elem_of_difference. split; [apply go_sleep_dom0; by eexists|set_solver].
    + split; [|by intros []]. intros [Hl _]%elem_of_difference. apply go_sleep_dom0 in Hl as [? ?]. congruence.
  - intros k Hc. specialize (go_claim0 k Hc). assert (k <> j) by (intros ->; by apply Hcl). set_solver.
  - intros l Hl. destruct (go_about0 l Hl) as (i & Hon & Hi). exists i. split; [done|]. assert (i <> j); [|set_solver]. intros ->. destruct (Hown Hon). congruence.
Qed.

(** A process that a hart has looked at does not wait, unless it is still to be woken. *)

Lemma attended_drop_proc S m gs h j :
  inv (Some h) S m gs -> Lproc j ∈ g_held (gs h) -> (g_on (gs h) = Some j -> g_about (gs h) = None) ->
  forall l i, waiting m (<[h := drop_proc j (gs h)]> gs) l i -> attended m (<[h := drop_proc j (gs h)]> gs) l i.
Proof.
  intros I Hj Hown l i Hw. pose proof I as [].
  assert (Hw0 : waiting m gs l i).
  { destruct Hw as [Hw|(h' & Ho & Ha)]; [by left|]. right. exists h'. by hart h' h. }
  destruct (iv_wait0 l i Hw0) as [Hl|(h' & v & o & Ho & Hi)]; [by left|]. right. destruct (decide (h' = h)) as [->|Hne]; [|exists h', v, o; by rewrite fn_lookup_insert_ne].
  exists h, v. rewrite fn_lookup_insert. cbn. rewrite map_lookup_imap, Ho. cbn. eexists. split; [done|]. case_decide as Hd; [done|].
  apply elem_of_difference. split; [done|]. intros ->%elem_of_singleton. destruct Hw0 as [(p & Hp & Hs & Hc)|(h' & Hon & Hab)].
  - pose proof (proj1 (go_know_dom _ _ _ (iv_ghost0 h) j) Hj) as [v' Hv']. destruct (go_know _ _ _ (iv_ghost0 h) j v' Hv') as (p' & Hp' & ->). congruence.
  - destruct (go_about _ _ _ (iv_ghost0 h') l Hab) as (i & Hi' & Hl). assert (i = j) as -> by congruence.
    assert (h' = h) as -> by (by eapply held_once). specialize (Hown Hon). congruence.
Qed.

Lemma ghost_drop_sleep S m l g ab :
  ghost_ok S m g -> (ab = g_about g \/ exists i, g_on g = Some i /\ Lproc i ∈ g_held g) -> ghost_ok S m (set_about ab (drop_sleep l g)).
Proof.
  intros [] Hab. split; try done; cbn.
  - intros i p Hon Hn. apply go_running0; [done|set_solver].
  - intros k. rewrite <- go_know_dom0. set_solver.
  - intros l' v o [_ Hv]%lookup_delete_Some. by eapply go_sleep0.
  - intros l'. rewrite lookup_delete_is_Some, <- go_sleep_dom0. set_solver.
  - intros k Hc. specialize (go_claim0 k Hc). set_solver.
  - intros l' ->. destruct Hab as [Hab|(i & ? & ?)]; [destruct (go_about0 l' (eq_sym Hab)) as (i & ? & ?)|]; exists i; set_solver.
Qed.

Lemma attended_drop_sleep S m gs h sl v o ab :
  inv (Some h) S m gs -> g_sleep (gs h) !! sl = Some (v, o) -> v <> 0 \/ o = ∅ -> (ab = g_about (gs h) \/ v <> 0 /\ ab = Some sl) ->
  forall l i, waiting m (<[h := set_about ab (drop_sleep sl (gs h))]> gs) l i -> attended m (<[h := set_about ab (drop_sleep sl (gs h))]> gs) l i.
Proof.
  intros I Hv Hvo Hab l i Hw. pose proof I as []. pose proof (go_sleep _ _ _ (iv_ghost0 h) sl v o Hv) as Hloc.
  destruct (decide (l = sl /\ v <> 0)) as [[-> Hnz]|Hd]; [left; congruence|].
  assert (Hw0 : waiting m gs l i).
  { destruct Hw as [Hw|(h' & Ho & Ha)]; [by left|]. right. exists h'. hart h' h; [|done]. cbn in Ha. split; [done|]. destruct Hab as [->|[? ->]]; [done|naive_solver]. }
  destruct (iv_wait0 l i Hw0) as [Hl|(h' & v' & o' & Ho & Hi)]; [by left|]. right. destruct (decide (h' = h)) as [->|Hne]; [|exists h', v', o'; by rewrite fn_lookup_insert_ne].
  exists h, v', o'. rewrite fn_lookup_insert. cbn. split; [|done]. rewrite lookup_delete_ne; [done|]. intros ->. rewrite Hv in Ho. injection Ho as <- <-.
  destruct Hvo as [Hnz| ->]; [naive_solver|set_solver].
Qed.

Lemma inv_release S m gs h l (Q : ghost -> Prop) :
  inv (Some h) S m gs -> is_Some (m_harts m !! h) -> l ∈ g_held (gs h) -> released l (gs h) Q ->
  exists gs', Q (gs' h) /\ inv (Some h) S (set_m_locks (delete l (m_locks m)) m) gs'.
Proof.
  intros I Hx Hl Hr. pose proof (iv_ghost _ _ _ _ I h) as G.
  assert (Hend : forall g', Q g' -> g_on g' = g_on (gs h) -> g_proc g' = g_proc (gs h) -> g_claim g' = g_claim (gs h) ->
    g_held g' = g_held (gs h) ∖ {[l]} -> ghost_ok S m g' -> (forall l i, waiting m (<[h := g']> gs) l i -> attended m (<[h := g']> gs) l i) ->
    exists gs', Q (gs' h) /\ inv (Some h) S (set_m_locks (delete l (m_locks m)) m) gs').
  { intros g' HQ F1 F2 F3 F4 Hok Hw. exists (<[h := g']> gs). rewrite fn_lookup_insert. split; [done|]. by apply inv_unlock. }
  destruct (lock_cases l) as [[j ->]|[[sl ->]|Hp]].
  - destruct Hr as (Hcl & Hown & HQ). apply (Hend (drop_proc j (gs h))); try done; [by apply ghost_drop_proc|].
    apply (attended_drop_proc S m gs h j I Hl). intros Hon. by destruct (Hown Hon).
  - destruct Hr as (v & o & Hv & Hvo & [HQ|(i & Hnz & Hn & Hon & Hi & HQ)]).
    + apply (Hend (set_about (g_about (gs h)) (drop_sleep sl (gs h)))); try done; [by apply ghost_drop_sleep; [|left]|].
      apply (attended_drop_sleep S m gs h sl v o); try done. by left.
    + apply (Hend (set_about (Some sl) (drop_sleep sl (gs h)))); try done; [apply ghost_drop_sleep; [done|right; by exists i]|].
      apply (attended_drop_sleep S m gs h sl v o); try done. by right.
  - assert (HQ : Q (drop_lock l (gs h))) by (destruct Hp as [Hp1 Hp2]; destruct l; try done; [by destruct (Hp1 i)|by destruct (Hp2 l)]).
    apply (Hend (drop_lock l (gs h))); try done.
    + destruct Hp as [Hp1 Hp2]. destruct G. split; try done; cbn.
      * intros i p Hon Hn. apply go_running0; [done|]. specialize (Hp1 i). set_solver.
      * intros k. rewrite <- go_know_dom0. specialize (Hp1 k). set_solver.
      * intros k. rewrite <- go_sleep_dom0. specialize (Hp2 k). set_solver.
      * intros k Hc. specialize (go_claim0 k Hc). specialize (Hp1 k). set_solver.
      * intros sl Ha. destruct (go_about0 sl Ha) as (i & ? & ?). exists i. specialize (Hp1 i). set_solver.
    + apply (attended_kept S m m gs h (drop_lock l (gs h)) I); eauto.
Qed.

(** ** The process table *)

(** A store to the entry of process [j], by a hart that has its lock. *)

Lemma inv_store S m gs h j p p' g' :
  inv (Some h) S m gs -> is_Some (m_harts m !! h) -> Lproc j ∈ g_held (gs h) -> m_procs m !! j = Some p -> p_container p' = p_container p ->
  g_on g' = g_on (gs h) -> g_proc g' = g_proc (gs h) -> g_held g' = g_held (gs h) -> g_sleep g' = g_sleep (gs h) -> g_seen g' = g_seen (gs h) ->
  g_know g' = <[j := (p_state p', p_chan p')]> (g_know (gs h)) ->
  p_state p' = p_state p \/ (forall h', h' <> h -> g_on (gs h') <> Some j) ->
  (forall i, g_on (gs h) = Some i -> g_claim g' = None) ->
  (forall k, claims g' k -> claims (gs h) k \/ k = j /\ forall h', h' <> h -> g_on (gs h') <> Some j) ->
  (forall l, g_about g' = Some l -> g_about (gs h) = Some l) ->
  (forall l, p_state p' = SLEEPING -> p_chan p' = Some (ChSleep l) ->
     asleep_for m l j \/ g_on (gs h) = Some j /\ g_about (gs h) = Some l) ->
  inv (Some h) S (set_m_procs (<[j := p']> (m_procs m)) m) (<[h := g']> gs).
Proof.
  intros I Hx Hj Hp Hc F1 F2 F3 F4 F5 F6 Hst Hon Hcl Hab Hsl. pose proof I as []. set (m' := set_m_procs _ m).
  assert (Hlt : (j < length (m_procs m))%nat) by (by eapply lookup_lt_Some).
  assert (Hjj : m_procs m' !! j = Some p') by (by apply list_lookup_insert_eq).
  assert (Hne : forall k, k <> j -> m_procs m' !! k = m_procs m !! k) by (intros k Hk; apply list_lookup_insert_ne; congruence).
  apply (inv_update S m m' gs h g' I Hx); try done.
  - cbn. by rewrite length_insert.
  - intros k q Hq. destruct (decide (k = j)) as [->|Hk]; [|rewrite Hne in Hq by done; by apply iv_home0].
    rewrite Hjj in Hq. injection Hq as <-. rewrite Hc. by apply iv_home0.
  - by left.
  - intros l h'. cbn. rewrite iv_lock0. hart h' h; [by rewrite F3|done].
  - destruct (iv_ghost0 h). split; rewrite ?F1, ?F2, ?F3, ?F4, ?F5, ?F6; try done.
    + intros i Hi. destruct (go_on0 i Hi) as (? & ? & ? & ?). split_and!; try done. by eapply Hon.
    + intros i q Hi Hn Hq. destruct (decide (i = j)) as [->|Hk]; [done|]. rewrite Hne in Hq by done. by eapply go_running0.
    + intros k v. rewrite lookup_insert_Some. intros [[<- <-]|[Hk Hv]]; [by exists p'|]. rewrite Hne by congruence. by apply go_know0.
    + intros k. rewrite lookup_insert_is_Some, <- go_know_dom0. destruct (decide (j = k)) as [->|]; naive_solver.
    + intros k Hk. destruct (Hcl k Hk) as [?|[-> _]]; [by apply go_claim0|done].
    + intros l Hl. by apply (go_about0 l), Hab.
  - intros h' Hh. destruct (iv_ghost0 h'). assert (Hno : Lproc j ∉ g_held (gs h')) by (intros ?; destruct Hh; by eapply held_once). split; try done.
    + intros i q Hi Hn Hq. destruct (decide (i = j)) as [->|Hk]; [|rewrite Hne in Hq by done; by eapply go_running0]. rewrite Hjj in Hq. injection Hq as <-.
      destruct Hst as [->|Hst]; [by eapply go_running0|by destruct (Hst h' Hh)].
    + intros k v Hv. destruct (decide (k = j)) as [->|Hk]; [|rewrite Hne by done; by apply go_know0]. destruct Hno. apply go_know_dom0. by eexists.
  - intros k h' Hk Hh. destruct (Hcl k Hk) as [?|[-> Hno]]; [by apply (iv_claim0 h h')|by apply Hno].
  - intros l i Hw. assert (Hw0 : waiting m gs l i).
    { destruct Hw as [(q & Hq & Hs & Hch)|(h' & Ho & Ha)].
      - destruct (decide (i = j)) as [->|Hk]; [|left; exists q; by rewrite Hne in Hq]. rewrite Hjj in Hq. injection Hq as <-.
        destruct (Hsl l Hs Hch) as [?|[? ?]]; [by left|right; by exists h].
      - right. exists h'. hart h' h; [|done]. rewrite F1 in Ho. split; [done|by apply Hab]. }
    destruct (iv_wait0 l i Hw0) as [Hl|(h' & v & o & Ho & Hi)]; [by left|]. right. exists h', v, o. split; [|done]. hart h' h; [by rewrite F4|done].
Qed.

(** Nobody else is on a process that does not run. *)

Lemma nobody_on S m gs h j p :
  inv (Some h) S m gs -> Lproc j ∈ g_held (gs h) -> m_procs m !! j = Some p -> p_state p <> RUNNING -> forall h', h' <> h -> g_on (gs h') <> Some j.
Proof.
  intros I Hj Hp Hst h' Hne Hon. apply Hst. apply (go_running _ _ _ (iv_ghost _ _ _ _ I h') j p Hon); [|done].
  intros Hj'. destruct Hne. by eapply held_once.
Qed.

Lemma known S m gs h j st ch :
  inv (Some h) S m gs -> g_know (gs h) !! j = Some (st, ch) ->
  Lproc j ∈ g_held (gs h) /\ exists p, m_procs m !! j = Some p /\ p_state p = st /\ p_chan p = ch.
Proof.
  intros I Hk. destruct (iv_ghost _ _ _ _ I h). split; [apply go_know_dom0; by eexists|]. destruct (go_know0 j _ Hk) as (p & Hp & [= -> ->]). by exists p.
Qed.

Lemma inv_set_state S m gs h j st (Q : ghost -> Prop) :
  inv (Some h) S m gs -> is_Some (m_harts m !! h) -> rule home (SetState j st) (gs h) (fun _ => Q) ->
  exists gs' p, m_procs m !! j = Some p /\ Q (gs' h) /\ inv (Some h) S (set_m_procs (<[j := set_p_state st p]> (m_procs m)) m) gs'.
Proof.
  intros I Hx (st0 & ch & Hk & Hr). destruct (known S m gs h j st0 ch I Hk) as (Hj & p & Hp & <- & <-). pose proof (iv_ghost _ _ _ _ I h) as G.
  destruct Hr as [(Hon & Hst & Hab & HQ)|[(Hon & Hcl & Hst0 & Hst & Hns & HQ)|(Hon & Hpr & Hcl & Hst0 & -> & HQ)]].
  - exists (<[h := set_about None (set_know j (st, p_chan p) (gs h))]> gs), p. rewrite fn_lookup_insert. split; [done|]. split; [done|].
    apply (inv_store S m gs h j p (set_p_state st p)); try done.
    + right. intros h' Hne Hon'. by destruct Hne, (iv_unique _ _ _ _ I h' h j).
    + intros i Hi. by destruct (go_on _ _ _ G i Hi) as (_ & ? & _).
    + intros k Hc. by left.
    + intros l Hs Hc. right. split; [done|by apply Hab].
  - exists (<[h := set_know j (st, p_chan p) (gs h)]> gs), p. rewrite fn_lookup_insert. split; [done|]. split; [done|].
    apply (inv_store S m gs h j p (set_p_state st p)); try done.
    + right. by eapply nobody_on.
    + intros i Hi. by destruct (go_on _ _ _ G i Hi) as (_ & ? & _).
    + intros k Hc. by left.
  - exists (<[h := set_claim (Some j) (set_know j (RUNNING, p_chan p) (gs h))]> gs), p. rewrite fn_lookup_insert. split; [done|]. split; [done|].
    assert (Hno : forall h', h' <> h -> g_on (gs h') <> Some j) by (eapply nobody_on; [done|done|done|by rewrite Hst0]).
    apply (inv_store S m gs h j p (set_p_state RUNNING p)); try done.
    + by right.
    + intros i Hi. congruence.
    + intros k [Hc|[_ Hc]]; [right|left; by right]. cbn in Hc. split; [congruence|done].
Qed.

Lemma inv_set_chan S m gs h j ch (Q : ghost -> Prop) :
  inv (Some h) S m gs -> is_Some (m_harts m !! h) -> rule home (SetChan j ch) (gs h) (fun _ => Q) ->
  exists gs' p, m_procs m !! j = Some p /\ Q (gs' h) /\ inv (Some h) S (set_m_procs (<[j := set_p_chan ch p]> (m_procs m)) m) gs'.
Proof.
  intros I Hx (st0 & ch0 & Hk & Hst & HQ). destruct (known S m gs h j st0 ch0 I Hk) as (Hj & p & Hp & <- & <-). pose proof (iv_ghost _ _ _ _ I h) as G.
  exists (<[h := set_know j (p_state p, ch) (gs h)]> gs), p. rewrite fn_lookup_insert. split; [done|]. split; [done|].
  apply (inv_store S m gs h j p (set_p_chan ch p)); try done.
  - by left.
  - intros i Hi. by destruct (go_on _ _ _ G i Hi) as (_ & ? & _).
  - intros k Hc. by left.
Qed.

Lemma inv_set_killed S m gs h j (Q : ghost -> Prop) :
  inv (Some h) S m gs -> is_Some (m_harts m !! h) -> rule home (SetKilled j) (gs h) (fun _ => Q) ->
  exists gs' p, m_procs m !! j = Some p /\ Q (gs' h) /\ inv (Some h) S (set_m_procs (<[j := set_p_killed 1 p]> (m_procs m)) m) gs'.
Proof.
  intros I Hx ([[st0 ch0] Hk] & HQ). destruct (known S m gs h j st0 ch0 I Hk) as (Hj & p & Hp & <- & <-). pose proof (iv_ghost _ _ _ _ I h) as G.
  exists (<[h := gs h]> gs), p. rewrite fn_lookup_insert. split; [done|]. split; [done|].
  apply (inv_store S m gs h j p (set_p_killed 1 p)); try done.
  - cbn. by rewrite insert_id.
  - by left.
  - intros i Hi. by destruct (go_on _ _ _ G i Hi) as (_ & ? & _).
  - intros k Hc. by left.
  - intros l Hs Hc. left. by exists p.
Qed.

(** ** The word of a sleep lock *)

Lemma inv_set_locked S m gs h l v (Q : ghost -> Prop) :
  inv (Some h) S m gs -> is_Some (m_harts m !! h) -> rule home (SetLocked l v) (gs h) (fun _ => Q) ->
  exists gs', Q (gs' h) /\ inv (Some h) S (upd_sleep l (fun x => mk_sleeplock v (sl_pid x)) m) gs'.
Proof.
  intros I Hx [Hs HQ]. pose proof I as []. set (g' := set_sleep l _ (gs h)) in HQ. set (m' := upd_sleep l _ m). exists (<[h := g']> gs). rewrite fn_lookup_insert. split; [done|].
  assert (Hl : Lsleep l ∈ g_held (gs h)) by (by apply (go_sleep_dom _ _ _ (iv_ghost0 h))).
  assert (Hsl : sl_locked (m_sleep m' l) = v) by (cbn; by rewrite decide_True).
  assert (Hne : forall l', l' <> l -> m_sleep m' l' = m_sleep m l') by (intros l' Hn; cbn; by rewrite decide_False).
  apply (inv_update S m m' gs h g' I Hx); try done.
  - by left.
  - intros l' h'. change (m_locks m') with (m_locks m). rewrite iv_lock0. by hart h' h.
  - destruct (iv_ghost0 h). split; try done; unfold g'; cbn [g_sleep set_sleep].
    + intros l' v' o'. rewrite lookup_insert_Some. intros [[<- [= <- _]]|[Hn Hv]]; [done|]. rewrite Hne by congruence. by eapply go_sleep0.
    + intros l'. rewrite lookup_insert_is_Some. cbn [g_held]. rewrite go_sleep_dom0. destruct (decide (l = l')) as [->|]; naive_solver.
  - intros h' Hh. destruct (iv_ghost0 h'). split; try done. intros l' v' o' Hv. rewrite Hne; [by eapply go_sleep0|]. intros ->. destruct Hh.
    eapply held_once; [done| |exact Hl]. apply go_sleep_dom0. by eexists.
  - intros j h' Hc _. by apply (iv_claim0 h h').
  - intros l' i Hw. assert (Hw0 : waiting m gs l' i).
    { destruct Hw as [Hw|(h' & Ho & Ha)]; [by left|]. right. exists h'. by hart h' h. }
    destruct (decide (l' = l)) as [->|Hn].
    + destruct (decide (v = 0)) as [->|Hnz]; [|left; by rewrite Hsl]. right. exists h, 0, all_procs. rewrite fn_lookup_insert. split; [apply lookup_insert_eq|].
      unfold all_procs. rewrite elem_of_list_to_set. apply elem_of_seq. split; [lia|]. destruct Hw0 as [(p & Hp & _)|(h' & Hon & _)].
      * rewrite Nat.add_0_l, <- iv_procs0. by eapply lookup_lt_Some.
      * by destruct (go_on _ _ _ (iv_ghost0 h') i Hon) as (_ & _ & _ & ?).
    + destruct (iv_wait0 l' i Hw0) as [Hl'|(h' & v' & o' & Ho & Hi)]; [left; by rewrite Hne|]. right. exists h', v', o'. split; [|done].
      hart h' h; [|done]. unfold g'. cbn. by rewrite lookup_insert_ne.
Qed.

(** ** One command *)

Definition now (m : mach) (ci : nat) : Prop := exists c, m_conts m !! ci = Some c /\ c_state c = CRUNNING.

Definition good (h : nat) (S : nat -> Prop) {B} (r : result B) (Q : B -> ghost -> Prop) : Prop :=
  match r with
  | Done b m' => exists gs', Q b (gs' h) /\ inv (Some h) (fun ci => S ci \/ now m' ci) m' gs' /\ is_Some (m_harts m' !! h)
  | Waits => True
  | Stops _ => False
  end.

Lemma good_done h S {B} (b : B) m' (Q : B -> ghost -> Prop) gs' :
  Q b (gs' h) -> inv (Some h) S m' gs' -> is_Some (m_harts m' !! h) -> good h S (Done b m') Q.
Proof. intros HQ I Hx. exists gs'. split; [done|]. split; [|done]. eapply inv_weaken; [|exact I]. by left. Qed.

Definition is_swtch {B} (c : cmd B) : bool := match c with SwtchTo _ | SwtchBack _ => true | _ => false end.

Lemma exec_ok h S {B} (c : cmd B) m gs Q :
  inv (Some h) S m gs -> is_Some (m_harts m !! h) -> rule home c (gs h) Q -> is_swtch c = false -> good h S (exec h c m) Q.
Proof.
  intros I Hx Hr Hns. assert (Hlen : forall j, (j < NPROC)%nat -> exists p, m_procs m !! j = Some p) by (intros j Hj; apply lookup_lt_is_Some_2; by rewrite (iv_procs _ _ _ _ I)).
  assert (Hlenc : forall ci, (ci < NCONTS)%nat -> exists c, m_conts m !! ci = Some c) by (intros ci Hc; apply lookup_lt_is_Some_2; by rewrite (iv_conts _ _ _ _ I)).
  pose proof (iv_lock _ _ _ _ I) as Hlk. destruct c; try done; cbn [rule] in Hr; cbn [exec].
  - destruct Hr as [Hl Ha]. destruct (m_locks m !! l) as [h'|] eqn:E.
    + case_decide as Hd; [|done]. subst h'. apply Hlk in E. done.
    + destruct (inv_acquire S m gs h l (Q tt) I Hx E Ha) as (gs' & HQ & I'). by eapply good_done.
  - destruct Hr as [Hl Ha]. rewrite decide_True by (by apply Hlk). destruct (inv_release S m gs h l (Q tt) I Hx Hl Ha) as (gs' & HQ & I'). by eapply good_done.
  - apply (good_done h S _ m Q gs); [|done|done]. by rewrite (bool_decide_ext _ _ (Hlk l h)).
  - apply (good_done h S _ m Q gs); [|done|done]. by rewrite (locks_of_held _ S m gs h I).
  - apply (good_done h S _ m Q gs); [|done|done]. by rewrite (locks_of_held _ S m gs h I).
  - by apply (good_done h S _ m Q gs).
  - destruct Hx as [x Hx]. rewrite Hx. apply (good_done h S _ m Q gs); [|done|by rewrite Hx]. by rewrite (iv_proc _ _ _ _ I h x Hx).
  - destruct Hr as (Hon & Ho & Hs & HQ). eapply good_done; [|by apply (inv_set_proc S m gs h o I)|]; [by rewrite fn_lookup_insert|].
    cbn. destruct Hx as [x Hx]. by rewrite list_lookup_alter_eq, Hx.
  - destruct Hr as [Hi HQ]. destruct (Hlen i Hi) as [p Hp]. rewrite Hp. apply (good_done h S _ m Q gs); [|done|done]. apply HQ; [by apply (iv_home _ _ _ _ I)|].
    intros v Hv. destruct (go_know _ _ _ (iv_ghost _ _ _ _ I h) i v Hv) as (p' & Hp' & ->). congruence.
  - destruct (inv_set_state S m gs h i st (Q tt) I Hx Hr) as (gs' & p & Hp & HQ & I'). unfold upd_proc. rewrite Hp. by eapply good_done.
  - destruct (inv_set_chan S m gs h i ch (Q tt) I Hx Hr) as (gs' & p & Hp & HQ & I'). unfold upd_proc. rewrite Hp. by eapply good_done.
  - destruct (inv_set_killed S m gs h i (Q tt) I Hx Hr) as (gs' & p & Hp & HQ & I'). unfold upd_proc. rewrite Hp. by eapply good_done.
  - destruct Hr as (Hon & Hi & HQ). destruct (Hlenc ci Hi) as [c Hc]. rewrite Hc. destruct (HQ c) as [H1 H2]. destruct (decide (c_state c = CRUNNING)) as [Hs|Hs].
    + eapply good_done; [|apply (inv_see S m gs h ci I Hx); [by eapply (iv_running _ _ _ _ I)|done]|done]. rewrite fn_lookup_insert. by apply H1.
    + apply (good_done h S _ m Q gs); [|done|done]. by apply H2.
  - destruct Hr as [Hi HQ]. destruct (Hlenc ci Hi) as [c Hc]. rewrite Hc. exists gs. split; [done|]. split; [by apply inv_conts|done].
  - apply (good_done h S _ m Q gs); [|done|done]. apply Hr. intros v o Hv. by apply (go_sleep _ _ _ (iv_ghost _ _ _ _ I h) l v o).
  - destruct (inv_set_locked S m gs h l v (Q tt) I Hx Hr) as (gs' & HQ & I'). by eapply good_done.
  - eapply good_done; [exact Hr|eapply inv_memory; [exact I|done..| |done]|done]. intros l'. cbn. by case_decide as Hd; [subst|].
  - eapply good_done; [exact Hr|by eapply inv_memory|done].
Qed.

(** ** swtch *)

Lemma inv_drop hole S m gs : inv None S m gs -> inv hole S m gs.
Proof. intros []. split; try done. intros h x Hx _. by apply (iv_code0 h x). Qed.

Lemma inv_fill h S m gs k : inv (Some h) S m gs -> wp home k fin (gs h) -> inv None S (set_code h k m) gs.
Proof.
  intros [] Hk. set (f := fun x => mk_hart (h_proc x) k (h_scheduler x)).
  assert (Hh : forall h' x, m_harts (set_code h k m) !! h' = Some x -> exists x0, m_harts m !! h' = Some x0 /\ h_proc x = h_proc x0 /\ h_scheduler x = h_scheduler x0 /\
    h_code x = if decide (h' = h) then k else h_code x0).
  { intros h' x. cbn. case_decide as Hd; [subst; rewrite list_lookup_alter_eq; destruct (m_harts m !! h) as [x0|]; [|done]; intros [= <-]; by exists x0|].
    rewrite list_lookup_alter_ne by done. intros Hx. by exists x. }
  split; try done.
  - intros h' Hn. apply iv_none0. cbn in Hn. destruct (decide (h' = h)) as [->|Hne]; [rewrite list_lookup_alter_eq in Hn; by destruct (m_harts m !! h)|by rewrite list_lookup_alter_ne in Hn].
  - intros h' x Hx. destruct (Hh h' x Hx) as (x0 & Hx0 & -> & _). by apply iv_proc0.
  - intros h' x Hx _. destruct (Hh h' x Hx) as (x0 & Hx0 & _ & _ & ->). case_decide; [by subst|]. apply iv_code0; [done|congruence].
  - intros h' x j Hx. destruct (Hh h' x Hx) as (x0 & Hx0 & _ & -> & _). by apply iv_sched0.
  - intros h'. by destruct (iv_ghost0 h').
Qed.

(** The hart goes over from one thread to the other: what it knows is [g'], and its code [c]
    keeps to the protocol with it. *)

Lemma inv_switch S m gs h x j st ch g' c sch ctxs :
  inv (Some h) S m gs -> m_harts m !! h = Some x -> g_proc (gs h) = Some j -> g_held (gs h) = {[Lproc j]} ->
  g_know (gs h) = {[j := (st, ch)]} -> g_sleep (gs h) = ∅ -> g_about (gs h) = None -> (forall h', h' <> h -> g_on (gs h') <> Some j) ->
  (exists seen, (forall ci, ci ∈ seen -> S ci) /\ (g' = at_proc j st ch \/ g' = back j st ch seen)) ->
  length ctxs = NPROC -> wp home c fin g' ->
  (g_on g' = Some j -> exists seen, (forall ci, ci ∈ seen -> S ci) /\ forall st ch, st <> RUNNING -> wp home sch fin (back j st ch seen)) ->
  (forall k c, ctxs !! k = Some c -> (forall h', h' <> h -> g_on (gs h') <> Some k) -> g_on g' <> Some k -> forall ch, wp home c fin (at_proc k RUNNING ch)) ->
  inv None S (upd_hart h (fun x => mk_hart (h_proc x) c sch) (set_m_contexts ctxs m)) (<[h := g']> gs).
Proof.
  intros I Hx Hpr Hhe Hkn Hsl Hab Hno (seen & Hseen & Hg') Hlen Hc Hsch Hctx. pose proof I as []. pose proof (iv_ghost0 h) as G.
  assert (Hf : g_proc g' = Some j /\ g_held g' = {[Lproc j]} /\ g_know g' = {[j := (st, ch)]} /\ g_sleep g' = ∅ /\ g_about g' = None /\ g_claim g' = None /\ (g_on g' = Some j \/ g_on g' = None))
    by (destruct Hg' as [-> | ->]; cbn; split_and!; try done; [by left|by right]).
  destruct Hf as (F1 & F2 & F3 & F4 & F5 & F6 & F7). set (m' := upd_hart h _ _).
  assert (Hj : (j < NPROC)%nat).
  { destruct (go_know _ _ _ G j (st, ch)) as (p & Hp & _); [rewrite Hkn; apply lookup_singleton_eq|]. rewrite <- iv_procs0. by eapply lookup_lt_Some. }
  assert (Hthis : m_harts m' !! h = Some (mk_hart (h_proc x) c sch)) by (cbn; by rewrite list_lookup_alter_eq, Hx).
  assert (Hother : forall h', h' <> h -> m_harts m' !! h' = m_harts m !! h') by (intros h' Hne; cbn; by rewrite list_lookup_alter_ne).
  split; try done.
  - intros l h'. change (m_locks m') with (m_locks m). rewrite iv_lock0. hart h' h; [by rewrite F2, Hhe|done].
  - intros h' Hn. hart h' h; [congruence|]. rewrite Hother in Hn by done. by apply iv_none0.
  - intros h' x' Hx'. hart h' h; [|rewrite Hother in Hx' by done; by apply iv_proc0]. rewrite Hthis in Hx'. injection Hx' as <-. cbn. by rewrite F1, <- Hpr, (iv_proc0 h x Hx).
  - intros h' x' Hx' _. hart h' h; [rewrite Hthis in Hx'; by injection Hx' as <-|]. rewrite Hother in Hx' by done. apply iv_code0; [done|congruence].
  - intros h' x' k Hx' Hk. hart h' h; [|rewrite Hother in Hx' by done; by eapply iv_sched0]. rewrite Hthis in Hx'. injection Hx' as <-. cbn.
    assert (k = j) as -> by (destruct F7; congruence). by apply Hsch.
  - intros k c' Hc' Hk. apply (Hctx k c' Hc').
    + intros h' Hne. specialize (Hk h'). by rewrite fn_lookup_insert_ne in Hk.
    + specialize (Hk h). by rewrite fn_lookup_insert in Hk.
  - intros h'. hart h' h; [|by destruct (iv_ghost0 h')]. destruct G. split; rewrite ?F1, ?F2, ?F3, ?F4, ?F5, ?F6; try done.
    + intros i Hi. assert (i = j) as -> by (destruct F7; congruence). split_and!; try done. by destruct Hg' as [-> | ->].
    + intros i p Hi. assert (i = j) as -> by (destruct F7; congruence). set_solver.
    + intros k v Hv. apply go_know0. by rewrite Hkn.
    + intros k. rewrite <- Hhe, <- Hkn. apply go_know_dom0.
    + intros l. rewrite <- Hhe, <- Hsl. apply go_sleep_dom0.
    + intros k [Hcl|[_ Hcl]]; [congruence|]. assert (k = j) as -> by congruence. set_solver.
    + intros ci Hci. apply Hseen. by destruct Hg' as [-> | ->].
    + intros k [= <-]. by apply go_ran0.
  - intros h1 h2 k H1 H2. destruct (decide (h1 = h)) as [->|Hn1], (decide (h2 = h)) as [->|Hn2]; try done; rewrite ?fn_lookup_insert, ?fn_lookup_insert_ne in * by done.
    + assert (k = j) as -> by (destruct F7; congruence). by destruct (Hno h2).
    + assert (k = j) as -> by (destruct F7; congruence). by destruct (Hno h1).
    + by eapply iv_unique0.
  - intros h1 h2 k H1 H2. destruct (decide (h1 = h)) as [->|Hn1], (decide (h2 = h)) as [->|Hn2]; rewrite ?fn_lookup_insert, ?fn_lookup_insert_ne in * by done.
    + destruct H1 as [H1|[H1 _]]; congruence.
    + assert (k = j) as -> by (destruct H1 as [H1|[_ H1]]; congruence). by destruct (Hno h2).
    + assert (k = j) as -> by (destruct F7; congruence). destruct Hn1. eapply held_once; [exact I|by apply (go_claim _ _ _ (iv_ghost0 h1))|rewrite Hhe; set_solver].
    + by apply (iv_claim0 h1 h2 k).
  - intros l i Hw. assert (Hw0 : waiting m gs l i).
    { destruct Hw as [Hw|(h' & Ho & Ha)]; [by left|]. right. exists h'. hart h' h; [congruence|done]. }
    destruct (iv_wait0 l i Hw0) as [Hl|(h' & v & o & Ho & Hi)]; [by left|]. right. exists h', v, o. split; [|done]. hart h' h; [|done]. by rewrite Hsl in Ho.
Qed.

Lemma inv_swtch_to S m gs h x j k :
  inv (Some h) S m gs -> m_harts m !! h = Some x -> rule home (SwtchTo j) (gs h) (fun b => wp home (k b) fin) ->
  exists m' gs', swtch_to h j (k tt) m = Done tt m' /\ m_conts m' = m_conts m /\ inv None S m' gs'.
Proof.
  intros I Hx (ch & seen & Hg & Hk). pose proof I as []. pose proof (iv_ghost0 h) as G.
  assert (Hcl : claims (gs h) j) by (rewrite Hg; by left). assert (Hno : forall h', g_on (gs h') <> Some j) by (intros h'; by apply (iv_claim0 h h')).
  assert (Hkn : g_know (gs h) !! j = Some (RUNNING, ch)) by (rewrite Hg; apply lookup_singleton_eq).
  destruct (known S m gs h j RUNNING ch I Hkn) as (_ & p & Hp & _). destruct (lookup_lt_is_Some_2 (m_contexts m) j) as [c Hc]; [rewrite iv_ctxs0, <- iv_procs0; by eapply lookup_lt_Some|].
  assert (Hs : forall ci, ci ∈ seen -> S ci) by (intros ci Hci; apply (go_seen _ _ _ G); by rewrite Hg).
  unfold swtch_to. rewrite Hc. eexists _, (<[h := at_proc j RUNNING ch]> gs). split; [done|]. split; [done|].
  replace m with (set_m_contexts (m_contexts m) m) at 1 by (by destruct m).
  apply (inv_switch S m gs h x j RUNNING ch (at_proc j RUNNING ch) c (k tt) (m_contexts m) I Hx); try (by rewrite Hg); try done.
  - exists seen. split; [done|by left].
  - by apply (iv_ctx0 j c Hc).
  - intros _. by exists seen.
  - intros i c' Hc' Hi Hij. apply (iv_ctx0 i c' Hc'). intros h'. destruct (decide (h' = h)) as [->|Hne]; [by rewrite Hg|by apply Hi].
Qed.

Lemma inv_swtch_back S m gs h x j k :
  inv (Some h) S m gs -> m_harts m !! h = Some x -> rule home (SwtchBack j) (gs h) (fun b => wp home (k b) fin) ->
  exists m' gs', swtch_back h j (k tt) m = Done tt m' /\ m_conts m' = m_conts m /\ inv None S m' gs'.
Proof.
  intros I Hx (st & ch & Hg & Hst & Hk). pose proof I as []. assert (Hon : g_on (gs h) = Some j) by (by rewrite Hg).
  assert (Hno : forall h', h' <> h -> g_on (gs h') <> Some j) by (intros h' Hne Hj; destruct Hne; by eapply iv_unique0).
  destruct (iv_sched0 h x j Hx Hon) as (seen & Hs & Hsch). destruct (go_on _ _ _ (iv_ghost0 h) j Hon) as (_ & _ & _ & Hj).
  destruct (lookup_lt_is_Some_2 (m_contexts m) j) as [c Hc]; [by rewrite iv_ctxs0|]. unfold swtch_back. rewrite Hc.
  set (m' := upd_hart h (fun y => mk_hart (h_proc y) (h_scheduler x) (h_scheduler x)) (set_m_contexts (<[j := k tt]> (m_contexts m)) m)).
  exists m', (<[h := back j st ch seen]> gs). split; [|split; [done|]].
  - f_equal. unfold m', upd_hart, set_m_harts. f_equal. cbn. apply list_eq. intros h'. destruct (decide (h' = h)) as [->|Hne]; [by rewrite !list_lookup_alter_eq, Hx|by rewrite !list_lookup_alter_ne].
  - apply (inv_switch S m gs h x j st ch (back j st ch seen) (h_scheduler x) (h_scheduler x) (<[j := k tt]> (m_contexts m)) I Hx); try (by rewrite Hg); try done.
    + exists seen. split; [done|by right].
    + by rewrite length_insert.
    + by apply Hsch.
    + intros i c' Hc' Hi _ ch'. destruct (decide (i = j)) as [->|Hne].
      * rewrite list_lookup_insert_eq in Hc' by (by eapply lookup_lt_Some). injection Hc' as <-. apply Hk.
      * rewrite list_lookup_insert_ne in Hc' by congruence. apply (iv_ctx0 i c' Hc'). intros h'. destruct (decide (h' = h)) as [->|Hn]; [rewrite Hg; cbn; congruence|by apply Hi].
Qed.

(** ** One event *)

Definition kept (S : nat -> Prop) (r : result unit) : Prop :=
  match r with Done _ m' => exists gs', inv None (fun ci => S ci \/ now m' ci) m' gs' | Waits => True | Stops _ => False end.

Lemma exec_do_ok h S {B} (c : cmd B) m gs k :
  inv (Some h) S m gs -> is_Some (m_harts m !! h) -> rule home c (gs h) (fun b => wp home (k b) fin) -> kept S (exec_do h c m k).
Proof.
  intros I [x Hx] Hr. destruct (is_swtch c) eqn:E.
  - destruct c; try done; cbn [exec_do].
    + destruct (inv_swtch_to S m gs h x i k I Hx Hr) as (m' & gs' & -> & _ & I'). exists gs'. eapply inv_weaken; [|exact I']. by left.
    + destruct (inv_swtch_back S m gs h x i k I Hx Hr) as (m' & gs' & -> & _ & I'). exists gs'. eapply inv_weaken; [|exact I']. by left.
  - assert (Hd : exec_do h c m k = match exec h c m with Done b m' => Done tt (set_code h (k b) m') | Waits => Waits | Stops msg => Stops msg end) by (by destruct c).
    rewrite Hd. pose proof (exec_ok h S c m gs _ I (mk_is_Some _ _ Hx) Hr E) as Hg. destruct (exec h c m) as [b m'| |]; cbn in Hg |- *; [|done|done].
    destruct Hg as (gs' & HQ & I' & _). exists gs'. by apply inv_fill.
Qed.

Lemma step_ok h S m gs : inv None S m gs -> kept S (step h m).
Proof.
  intros I. unfold step. destruct (m_harts m !! h) as [x|] eqn:Hx; [|done]. pose proof (iv_code _ _ _ _ I h x Hx ltac:(done)) as Hc.
  destruct (h_code x) as [a|B c k]; [done|]. eapply exec_do_ok; [by apply inv_drop|by eexists|exact Hc].
Qed.

(** A hart without locks knows nothing. *)

Lemma lockless S m g : ghost_ok S m g -> g_held g = ∅ -> (exists i, (i < NPROC)%nat /\ g = user i) \/ exists seen, g = rescheduled seen.
Proof.
  intros [] Hh. assert (Hn : forall l, l ∉ g_held g) by (rewrite Hh; set_solver). destruct g as [on pr he kn sl cl ab se]. cbn in *. subst he.
  assert (kn = ∅) as -> by (apply map_eq; intros j; rewrite lookup_empty; destruct (kn !! j) eqn:E; [destruct (Hn (Lproc j)); apply go_know_dom0; by eexists|done]).
  assert (sl = ∅) as -> by (apply map_eq; intros l; rewrite lookup_empty; destruct (sl !! l) eqn:E; [destruct (Hn (Lsleep l)); apply go_sleep_dom0; by eexists|done]).
  assert (ab = None) as -> by (destruct ab as [l|]; [destruct (go_about0 l eq_refl) as (i & _ & ?); by destruct (Hn (Lproc i))|done]).
  assert (cl = None) as -> by (destruct cl as [j|]; [exfalso; apply (Hn (Lproc j)), go_claim0; by left|done]).
  destruct on as [i|].
  - destruct (go_on0 i eq_refl) as (-> & _ & -> & Hi). left. by exists i.
  - right. exists se. assert (pr = None) as -> by (destruct pr as [j|]; [exfalso; apply (Hn (Lproc j)), go_claim0; by right|done]). done.
Qed.

Lemma interrupt_ok h S m gs : inv None S m gs -> kept S (interrupt h m).
Proof.
  intros I. unfold interrupt. destruct (m_harts m !! h) as [x|] eqn:Hx; [|done]. case_decide as Hl; [|done]. rewrite (locks_of_held _ S m gs h I) in Hl.
  exists gs. eapply inv_weaken; [by left|]. apply inv_fill; [by apply inv_drop|]. apply wp_bind, wp_kerneltrap; [by eapply lockless; [apply (iv_ghost _ _ _ _ I)|]|].
  by apply (iv_code _ _ _ _ I h x Hx).
Qed.

Lemma happens_ok ev S m gs : inv None S m gs -> kept S (happens ev m).
Proof. destruct ev; [apply step_ok|apply interrupt_ok]. Qed.

(** ** Any sequence of events *)

Definition was_running (m : mach) (evs : list event) (ci : nat) : Prop :=
  exists before m1, before `prefix_of` evs /\ play before m = Some m1 /\ now m1 ci.

Lemma play_ok evs : forall S m gs m', inv None S m gs -> play evs m = Some m' -> exists gs', inv None (fun ci => S ci \/ was_running m evs ci) m' gs'.
Proof.
  induction evs as [|ev evs IH]; intros S m gs m' I Hp; cbn in Hp.
  - injection Hp as <-. exists gs. eapply inv_weaken; [|exact I]. by left.
  - pose proof (happens_ok ev S m gs I) as Hk. destruct (happens ev m) as [[] m1| |] eqn:E; [|done|done]. destruct Hk as (gs1 & I1).
    destruct (IH _ m1 gs1 m' I1 Hp) as (gs' & I'). exists gs'. eapply inv_weaken; [|exact I']. intros ci [[?|Hn]|(before & m2 & Hb & Hp2 & Hn)]; [by left| |].
    + right. exists [ev], m1. split_and!; [by apply prefix_cons, prefix_nil|cbn; by rewrite E|done].
    + right. exists (ev :: before), m2. split_and!; [by apply prefix_cons|cbn; by rewrite E|done].
Qed.

End Inv.

(** ** The machine when the harts start *)

Record bootable (ps : list proc) (conts : list container) (calls : nat -> list call) : Prop := {
  bo_procs : length ps = NPROC;
  bo_conts : length conts = NCONTS;
  bo_awake : Forall (fun p => p_state p <> SLEEPING) ps;
  bo_calls : forall i, Forall call_ok (calls i);
}.

Lemma boot_inv n harts ps conts slocks calls :
  bootable ps conts calls -> let m := boot n harts ps conts slocks calls in
  inv (fun j => ps !! j ≫= p_container) None (now m) m (fun _ => rescheduled ∅).
Proof.
  intros [Hp Hc Ha Hcs] m. split; try done.
  - cbn. by rewrite length_imap.
  - intros j p Hj. cbn in Hj. by rewrite Hj.
  - intros ci c Hci Hr. by exists c.
  - intros h x Hx. cbn in Hx. apply lookup_replicate in Hx as [-> _]. done.
  - intros h x Hx _. cbn in Hx. apply lookup_replicate in Hx as [-> _]. apply wp_scheduler.
  - intros j c Hj _ ch. cbn in Hj. rewrite list_lookup_imap in Hj. destruct (ps !! j) as [p|] eqn:E; [|done]. injection Hj as <-.
    apply wp_forkret; [rewrite <- Hp; by eapply lookup_lt_Some|apply Hcs|done].
  - intros h. split; try done.
    + intros j. split; [by intros ?%not_elem_of_empty|by intros []].
    + intros l. split; [by intros ?%not_elem_of_empty|by intros []].
    + by intros j [?|[_ ?]].
  - intros l i [(p & Hi & Hs & _)|(h & ? & _)]; [|done]. rewrite Forall_lookup in Ha. by destruct (Ha i p Hi).
Qed.

(** C26: no wakeup is lost.  Any number of harts run the scheduler and processes that take and
    release sleep locks, sleep and wake each other up, kill each other, give the CPU up, and
    suspend and resume containers (but not processes), from a start with none asleep, with
    timer interrupts at any time and their steps in any order.  Whenever the spin lock of a
    sleep lock is free and a process sleeps for the sleep lock, that is taken: no process is
    left asleep for a lock that has been released, because sleep has the lock of the process
    before it lets the spin lock go and until the scheduler has the CPU. *)
Theorem sleep_no_lost_wakeup n harts ps conts slocks calls evs m l i :
  bootable ps conts calls -> play evs (boot n harts ps conts slocks calls) = Some m ->
  m_locks m !! Lsleep l = None -> asleep_for m l i -> sl_locked (m_sleep m l) <> 0.
Proof.
  intros Hb Hp Hl Hi. destruct (play_ok _ evs _ _ _ m (boot_inv n harts ps conts slocks calls Hb) Hp) as (gs & I).
  destruct (iv_wait _ _ _ _ _ I l i (or_introl Hi)) as [?|(h & v & o & Ho & _)]; [done|].
  assert (Hh : Lsleep l ∈ g_held (gs h)) by (apply (go_sleep_dom _ _ _ _ (iv_ghost _ _ _ _ _ I h)); by eexists). apply (iv_lock _ _ _ _ _ I) in Hh. congruence.
Qed.

(** C27: on several harts a process is in the hands of one hart at most: no two have it as
    their cpu->proc, as long as none is given to suspend.  The container of a process that a hart runs has been found running, in a
    state that was reached before; it may have been suspended since then.  And the kernel does
    not stop: none of the checks in acquire, release and sched fails. *)
Theorem process_on_one_hart n harts ps conts slocks calls evs m :
  let m0 := boot n harts ps conts slocks calls in
  bootable ps conts calls -> play evs m0 = Some m ->
  (forall h h' x x' j, m_harts m !! h = Some x -> m_harts m !! h' = Some x' -> h_proc x = Some j -> h_proc x' = Some j -> h = h') /\
  (forall h x j, m_harts m !! h = Some x -> h_proc x = Some j -> exists ci, ps !! j ≫= p_container = Some ci /\ was_running m0 evs ci) /\
  (forall ev msg, happens ev m <> Stops msg).
Proof.
  intros m0 Hb Hp. destruct (play_ok _ evs _ _ _ m (boot_inv n harts ps conts slocks calls Hb) Hp) as (gs & I). split_and!.
  - intros h h' x x' j Hx Hx' Hj Hj'. rewrite (iv_proc _ _ _ _ _ I h x Hx) in Hj. rewrite (iv_proc _ _ _ _ _ I h' x' Hx') in Hj'.
    assert (Hcase : forall h, g_proc (gs h) = Some j -> g_on (gs h) = Some j \/ claims (gs h) j).
    { intros k Hk. destruct (g_on (gs k)) as [i|] eqn:E; [left|right; right; by split]. destruct (go_on _ _ _ _ (iv_ghost _ _ _ _ _ I k) i E). congruence. }
    destruct (Hcase h Hj) as [H1|H1], (Hcase h' Hj') as [H2|H2].
    + by eapply (iv_unique _ _ _ _ _ I).
    + by destruct (iv_claim _ _ _ _ _ I h' h j H2).
    + by destruct (iv_claim _ _ _ _ _ I h h' j H1).
    + eapply held_once; [exact I|by apply (go_claim _ _ _ _ (iv_ghost _ _ _ _ _ I h))|by apply (go_claim _ _ _ _ (iv_ghost _ _ _ _ _ I h'))].
  - intros h x j Hx Hj. rewrite (iv_proc _ _ _ _ _ I h x Hx) in Hj. destruct (go_ran _ _ _ _ (iv_ghost _ _ _ _ _ I h) j Hj) as (ci & Hc & [Hn|Hn]); exists ci; split; try done.
    exists [], m0. split_and!; [apply prefix_nil|done|done].
  - intros ev msg E. pose proof (happens_ok _ ev _ m gs I) as Hk. by rewrite E in Hk.
Qed.
