(* ===== verification/Bio.v ===== *)
(** * Sleep locks, the disk driver and the buffer cache (kernel/sleeplock.c,
    kernel/virtio_disk.c and kernel/bio.c)

    A struct sleeplock is a member of a buffer or of an inode; it is read and
    written where it lies.  The driver formats descriptor chains and waits for
    the device; the device and its interrupt are part of what happens while the
    thread sleeps.  The buffer cache is the array of buffers with its doubly
    linked list in order of use; the list head is slot NBUF. *)

From S2P Require Import Prelude Monad Riscv Kstring Kstate Spinlock Printf Kalloc Vm Sched.

(** ** kernel/fs.h *)

Definition BSIZE : Z := 1024.

(** ** Access to the tables *)

Definition get_buf (i : nat) : K buf := s <- gets k_bufs ;; valid (s !! i).
Definition mod_buf (i : nat) (f : buf -> buf) : K unit :=
  b <- get_buf i ;; modify (fun s => set_k_bufs (<[i := f b]> (k_bufs s)) s).

Definition get_inode (i : nat) : K inode := s <- gets k_icache ;; valid (s !! i).
Definition mod_inode (i : nat) (f : inode -> inode) : K unit :=
  x <- get_inode i ;; modify (fun s => set_k_icache (<[i := f x]> (k_icache s)) s).

(** ** kernel/sleeplock.c *)

Definition get_slock (l : slock) : K sleeplock :=
  match l with
  | SBuf i => b <- get_buf i ;; ret (b_lock b)
  | SInode i => x <- get_inode i ;; ret (i_lock x)
  end.

Definition set_slock (l : slock) (v : sleeplock) : K unit :=
  match l with
  | SBuf i => mod_buf i (set_b_lock v)
  | SInode i => mod_inode i (set_i_lock v)
  end.

Definition initsleeplock (l : slock) : K unit := set_slock l (mk_sleeplock 0 0).

Definition mypid : K Z :=
  p <- myproc ;;
  i <- deref p ;;
  pr <- get_proc i ;;
  ret (p_pid pr).

Definition acquiresleep (l : slock) : K unit :=
  acquire (Lsleep l) ;;
  wait_loop (fun _ : unit =>
    v <- get_slock l ;;
    if sl_locked v =? 0 then ret (inr tt) else
    sleep (ChSleep l) (Lsleep l) ;; ret (inl tt)) tt ;;
  v <- get_slock l ;;
  set_slock l (mk_sleeplock 1 (sl_pid v)) ;;
  pid <- mypid ;;
  set_slock l (mk_sleeplock 1 pid) ;;
  release (Lsleep l).

Definition releasesleep (l : slock) : K unit :=
  acquire (Lsleep l) ;;
  set_slock l (mk_sleeplock 0 0) ;;
  wakeup (ChSleep l) ;;
  release (Lsleep l).

Definition holdingsleep (l : slock) : K bool :=
  acquire (Lsleep l) ;;
  v <- get_slock l ;;
  r <- (if sl_locked v =? 0 then ret false else
          pid <- mypid ;; ret (sl_pid v =? pid)) ;;
  release (Lsleep l) ;;
  ret r.

(** ** kernel/virtio_disk.c *)

Definition NUM : nat := 8.
Definition VRING_DESC_F_NEXT : Z := 1.
Definition VRING_DESC_F_WRITE : Z := 2.
Definition VIRTIO_BLK_T_IN : Z := 0.
Definition VIRTIO_BLK_T_OUT : Z := 1.

Definition mod_vdisk (f : vdisk -> vdisk) : K unit :=
  modify (fun s => set_k_vdisk (f (k_vdisk s)) s).

Definition get_desc (i : nat) : K vdesc := d <- gets k_vdisk ;; valid (dk_desc d !! i).
Definition mod_desc (i : nat) (f : vdesc -> vdesc) : K unit :=
  x <- get_desc i ;; mod_vdisk (fun d => set_dk_desc (<[i := f x]> (dk_desc d)) d).

Definition disk_free (i : nat) : K Z := d <- gets k_vdisk ;; valid (dk_free d !! i).
Definition set_disk_free (i : nat) (v : Z) : K unit :=
  disk_free i ;; mod_vdisk (fun d => set_dk_free (<[i := v]> (dk_free d)) d).

(** virtio_disk_init(): [R] is what the device's registers read as, [pages] the
    address of disk.pages; the result is the list of register writes. *)

Definition clear_features (features : Z) : Z :=
  fold_left (fun f b => Z.land f (Z.lnot (Z.shiftl 1 b))) [5; 7; 11; 12; 27; 29; 28] features.

Definition virtio_disk_init (R : Z -> Z) (pages : Z) : K (list (Z * Z)) :=
  if negb ((R 0x000 =? 0x74726976) && (R 0x004 =? 1) && (R 0x008 =? 2) && (R 0x00c =? 0x554d4551))
  then panic "could not find virtio disk" else
  let max := R 0x034 in
  if max =? 0 then panic "virtio disk has no queue 0" else
  if max <? Z.of_nat NUM then panic "virtio disk max queue too short" else
  mod_vdisk (fun d => set_dk_used (replicate NUM 0) (set_dk_used_id 0 (set_dk_avail (replicate NUM 0)
    (set_dk_avail_idx 0 (set_dk_desc (replicate NUM (mk_vdesc ANull 0 0 0)) d))))) ;;
  for_each (seq 0 NUM) (fun i => set_disk_free i 1) ;;
  ret [(0x070, 1); (0x070, 3); (0x020, clear_features (R 0x010)); (0x070, 11); (0x070, 15);
       (0x028, PGSIZE); (0x030, 0); (0x038, Z.of_nat NUM); (0x040, Z.shiftr pages PGSHIFT)].

Definition alloc_desc : K (option nat) :=
  for_ret (seq 0 NUM) (fun i =>
    f <- disk_free i ;;
    if negb (f =? 0) then set_disk_free i 0 ;; ret (Some i) else ret None).

Definition free_desc (i : nat) : K unit :=
  if (NUM <=? i)%nat then panic "virtio_disk_intr 1" else
  f <- disk_free i ;;
  if negb (f =? 0) then panic "virtio_disk_intr 2" else
  mod_desc i (set_vd_addr ANull) ;;
  set_disk_free i 1 ;;
  wakeup ChDisk.

(** A chain is no longer than the ring, unless it is a cycle, and then free_desc
    panics at its second round. *)

Definition free_chain (i : nat) : K unit :=
  loop (S NUM) (fun i =>
    free_desc i ;;
    x <- get_desc i ;;
    if negb (Z.land (vd_flags x) VRING_DESC_F_NEXT =? 0)
    then ret (inl (Z.to_nat (vd_next x))) else ret (inr tt)) i.

Definition alloc3_desc : K (option (nat * nat * nat)) :=
  o0 <- alloc_desc ;;
  match o0 with
  | None => ret None
  | Some i0 =>
      o1 <- alloc_desc ;;
      match o1 with
      | None => free_desc i0 ;; ret None
      | Some i1 =>
          o2 <- alloc_desc ;;
          match o2 with
          | None => free_desc i0 ;; free_desc i1 ;; ret None
          | Some i2 => ret (Some (i0, i1, i2))
          end
      end
  end.

Section Bio.
Context `{KI : KernelImage}.

(** The address of buf0, in the kernel stack of the caller. *)

Definition buf0_addr : K Z :=
  p <- myproc ;;
  i <- deref p ;;
  pr <- get_proc i ;;
  ret (p_kstack pr + buf0_off).

Definition virtio_disk_rw (b : nat) (write : bool) : K unit :=
  bf <- get_buf b ;;
  let sector := u32 (b_blockno bf * (BSIZE / 512)) in
  acquire Ldisk ;;
  idx <- wait_loop (fun _ : unit =>
    r <- alloc3_desc ;;
    match r with
    | Some idx => ret (inr idx)
    | None => sleep ChDisk Ldisk ;; ret (inl tt)
    end) tt ;;
  let '(i0, i1, i2) := idx in
  a <- buf0_addr ;;
  kvmpa a ;;
  mod_desc i0 (fun _ => mk_vdesc
    (AHdr (if write then VIRTIO_BLK_T_OUT else VIRTIO_BLK_T_IN) sector)
    16 VRING_DESC_F_NEXT (Z.of_nat i1)) ;;
  mod_desc i1 (fun _ => mk_vdesc (AData b) BSIZE
    (Z.lor (if write then 0 else VRING_DESC_F_WRITE) VRING_DESC_F_NEXT) (Z.of_nat i2)) ;;
  mod_vdisk (fun d => set_dk_info_status (<[i0 := 0]> (dk_info_status d)) d) ;;
  mod_desc i2 (fun _ => mk_vdesc (AStatus i0) 1 VRING_DESC_F_WRITE 0) ;;
  mod_buf b (set_b_disk 1) ;;
  mod_vdisk (fun d => set_dk_info_b (<[i0 := Some b]> (dk_info_b d)) d) ;;
  mod_vdisk (fun d => set_dk_avail
    (<[Z.to_nat (dk_avail_idx d mod Z.of_nat NUM) := Z.of_nat i0]> (dk_avail d)) d) ;;
  mod_vdisk (fun d => set_dk_avail_idx (u16 (dk_avail_idx d + 1)) d) ;;
  wait_loop (fun _ : unit =>
    bf <- get_buf b ;;
    if b_disk bf =? 1 then sleep (ChBuf b) Ldisk ;; ret (inl tt) else ret (inr tt)) tt ;;
  mod_vdisk (fun d => set_dk_info_b (<[i0 := None]> (dk_info_b d)) d) ;;
  free_chain i0 ;;
  release Ldisk.

Definition virtio_disk_intr : K unit :=
  acquire Ldisk ;;
  loop (S NUM) (fun _ : unit =>
    d <- gets k_vdisk ;;
    if dk_used_idx d mod Z.of_nat NUM =? dk_used_id d mod Z.of_nat NUM then ret (inr tt) else
    id <- valid (dk_used d !! Z.to_nat (dk_used_idx d)) ;;
    st <- valid (dk_info_status d !! Z.to_nat id) ;;
    if negb (st =? 0) then panic "virtio_disk_intr status" else
    o <- valid (dk_info_b d !! Z.to_nat id) ;;
    b <- valid o ;;
    mod_buf b (set_b_disk 0) ;;
    wakeup (ChBuf b) ;;
    mod_vdisk (fun d => set_dk_used_idx ((dk_used_idx d + 1) mod Z.of_nat NUM) d) ;;
    ret (inl tt)) tt ;;
  release Ldisk.

(** ** kernel/bio.c *)

Definition bhead : nat := NBUF.

Definition binit : K unit :=
  mod_buf bhead (set_b_prev bhead) ;;
  mod_buf bhead (set_b_next bhead) ;;
  for_each (seq 0 NBUF) (fun b =>
    h <- get_buf bhead ;;
    mod_buf b (set_b_next (b_next h)) ;;
    mod_buf b (set_b_prev bhead) ;;
    initsleeplock (SBuf b) ;;
    h <- get_buf bhead ;;
    mod_buf (b_next h) (set_b_prev b) ;;
    mod_buf bhead (set_b_next b)).

(** The walks of bget along the list, forwards and backwards.  The list has NBUF
    elements and the head. *)

Definition bget_cached (dev blockno : Z) : K (option nat) :=
  h <- get_buf bhead ;;
  loop (S NBUF) (fun b =>
    if (b =? bhead)%nat then ret (inr None) else
    x <- get_buf b ;;
    if (b_dev x =? dev) && (b_blockno x =? blockno) then ret (inr (Some b))
    else ret (inl (b_next x))) (b_next h).

Definition bget_unused : K (option nat) :=
  h <- get_buf bhead ;;
  loop (S NBUF) (fun b =>
    if (b =? bhead)%nat then ret (inr None) else
    x <- get_buf b ;;
    if b_refcnt x =? 0 then ret (inr (Some b)) else ret (inl (b_prev x))) (b_prev h).

Definition bget (dev blockno : Z) : K nat :=
  acquire Lbcache ;;
  o <- bget_cached dev blockno ;;
  match o with
  | Some b =>
      mod_buf b (fun x => set_b_refcnt (u32 (b_refcnt x + 1)) x) ;;
      release Lbcache ;;
      acquiresleep (SBuf b) ;;
      ret b
  | None =>
      o <- bget_unused ;;
      match o with
      | Some b =>
          mod_buf b (set_b_dev dev) ;;
          mod_buf b (set_b_blockno blockno) ;;
          mod_buf b (set_b_valid 0) ;;
          mod_buf b (set_b_refcnt 1) ;;
          release Lbcache ;;
          acquiresleep (SBuf b) ;;
          ret b
      | None => panic "bget: no buffers"
      end
  end.

Definition bread (dev blockno : Z) : K nat :=
  b <- bget dev blockno ;;
  x <- get_buf b ;;
  (if* b_valid x =? 0 then
     virtio_disk_rw b false ;;
     mod_buf b (set_b_valid 1)) ;;
  ret b.

Definition bwrite (b : nat) : K unit :=
  h <- holdingsleep (SBuf b) ;;
  if negb h then panic "bwrite" else virtio_disk_rw b true.

Definition brelse (b : nat) : K unit :=
  h <- holdingsleep (SBuf b) ;;
  if negb h then panic "brelse" else
  releasesleep (SBuf b) ;;
  acquire Lbcache ;;
  mod_buf b (fun x => set_b_refcnt (u32 (b_refcnt x - 1)) x) ;;
  x <- get_buf b ;;
  (if* b_refcnt x =? 0 then
     mod_buf (b_next x) (set_b_prev (b_prev x)) ;;
     x <- get_buf b ;;
     mod_buf (b_prev x) (set_b_next (b_next x)) ;;
     h <- get_buf bhead ;;
     mod_buf b (set_b_next (b_next h)) ;;
     mod_buf b (set_b_prev bhead) ;;
     h <- get_buf bhead ;;
     mod_buf (b_next h) (set_b_prev b) ;;
     mod_buf bhead (set_b_next b)) ;;
  release Lbcache.

Definition bpin (b : nat) : K unit :=
  acquire Lbcache ;;
  mod_buf b (fun x => set_b_refcnt (u32 (b_refcnt x + 1)) x) ;;
  release Lbcache.

Definition bunpin (b : nat) : K unit :=
  acquire Lbcache ;;
  mod_buf b (fun x => set_b_refcnt (u32 (b_refcnt x - 1)) x) ;;
  release Lbcache.

End Bio.
