(* ===== verification/Diskspec.v ===== *)
(** * The disk driver with a disk

    The device is a parameter, with the behaviour of a virtio block device: it
    takes the newest request of the ring, copies a block between the disk and the
    buffer, and puts the request into the ring of used ones.  A thread that waits
    for the disk is resumed after the device has served its request, the interrupt
    handler of the driver has run and the scheduler has chosen it.  [drun] is a run
    of kernel code with the contents of the disk, and [virtio_disk_rw] reads or
    writes one block. *)

From S2P Require Import Prelude Monad Riscv Kstring Kstate Spinlock Printf Kalloc Vm Sched Schedspec Bio.

(** ** The disk and the device *)

(** The blocks of the disk. *)

Definition disk : Type := Z -> list Z.

Definition write_block (d : disk) (n : Z) (bs : list Z) : disk := fun k => if k =? n then bs else d k.

(** A request, as the device finds it in the rings: the chain of descriptors of the
    newest entry of the ring of available requests.  It follows the chain while the
    descriptors have the NEXT flag, and stores only where they have the WRITE flag. *)

Record request := mk_request {
  rq_id : nat;
  rq_type : Z;
  rq_sector : Z;
  rq_buf : nat;
}.

Definition chained (d : vdesc) : bool := negb (Z.land (vd_flags d) VRING_DESC_F_NEXT =? 0).
Definition writable (d : vdesc) : bool := negb (Z.land (vd_flags d) VRING_DESC_F_WRITE =? 0).

Definition pending (v : vdisk) : option request :=
  i0 ← dk_avail v !! Z.to_nat ((dk_avail_idx v - 1) mod Z.of_nat NUM);
  d0 ← dk_desc v !! Z.to_nat i0;
  d1 ← dk_desc v !! Z.to_nat (vd_next d0);
  d2 ← dk_desc v !! Z.to_nat (vd_next d1);
  match vd_addr d0, vd_addr d1, vd_addr d2 with
  | AHdr ty sector, AData b, AStatus j =>
      if (j =? Z.to_nat i0)%nat && (vd_len d0 =? 16) && (vd_len d1 =? BSIZE) && (vd_len d2 =? 1) &&
         chained d0 && chained d1 && negb (chained d2) &&
         negb (writable d0) && eqb (writable d1) (ty =? VIRTIO_BLK_T_IN) && writable d2
      then Some (mk_request j ty sector b) else None
  | _, _, _ => None
  end.

(** The request is done: its entry in the ring of used requests, and its status. *)

Definition used_up (r : request) (v : vdisk) : vdisk :=
  set_dk_info_status (<[rq_id r := 0]> (dk_info_status v))
  (set_dk_used_id (u16 (dk_used_id v + 1))
  (set_dk_used (<[Z.to_nat (dk_used_id v mod Z.of_nat NUM) := Z.of_nat (rq_id r)]> (dk_used v)) v)).

(** A block is two sectors. *)

Definition rq_block (r : request) : Z := rq_sector r / 2.

Class VirtioDevice := {
  device : disk -> kst -> kst * disk;
  device_in : forall d s r b, pending (k_vdisk s) = Some r -> rq_type r = VIRTIO_BLK_T_IN ->
    k_bufs s !! rq_buf r = Some b ->
    device d s = (set_k_vdisk (used_up r (k_vdisk s))
                    (set_k_bufs (<[rq_buf r := set_b_data (d (rq_block r)) b]> (k_bufs s)) s), d);
  device_out : forall d s r b, pending (k_vdisk s) = Some r -> rq_type r = VIRTIO_BLK_T_OUT ->
    k_bufs s !! rq_buf r = Some b ->
    device d s = (set_k_vdisk (used_up r (k_vdisk s)) s, write_block d (rq_block r) (b_data b));
}.

(** The scheduler gives the CPU to process [i]. *)

Definition dispatch (i : nat) (p : proc) (s : kst) : kst :=
  set_k_held {[Lproc i]} (set_k_cur (Some i)
    (set_k_procs (<[i := set_p_state RUNNING p]> (k_procs s)) s)).

(** ** The driver at rest *)

Record vd_idle (v : vdisk) : Prop := {
  vi_free : dk_free v = replicate NUM 1;
  vi_desc : length (dk_desc v) = NUM;
  vi_avail : length (dk_avail v) = NUM;
  vi_used : length (dk_used v) = NUM;
  vi_info_b : length (dk_info_b v) = NUM;
  vi_info_status : length (dk_info_status v) = NUM;
  vi_idx : dk_used_idx v = dk_used_id v mod Z.of_nat NUM;
}.

(** Address translation by the page table of the kernel, which kvmpa uses. *)

Fixpoint walk_ro (levels : list Z) (m : mem) (pagetable va : Z) : Z :=
  match levels with
  | [] => pte_at pagetable (PX 0 va)
  | level :: levels' =>
      let w := load64 m (pte_at pagetable (PX level va)) in
      if negb (Z.land w PTE_V =? 0) then walk_ro levels' m (PTE2PA w) va else 0
  end.

Definition kva_mapped (m : mem) (kpt va : Z) : bool :=
  let pte := walk_ro [2; 1] m kpt va in
  (va <? MAXVA) && negb (pte =? 0) && negb (Z.land (load64 m pte) PTE_V =? 0).

(** Process [i] runs, with number [pid] and kernel stack [ks], outside of any
    critical section. *)

Record in_proc `{KI : KernelImage} (i : nat) (pid ks : Z) (s : kst) : Prop := {
  ip_started : k_started s <> 0;
  ip_cur : k_cur s = Some i;
  ip_procs : length (k_procs s) = NPROC;
  ip_proc : exists p, k_procs s !! i = Some p /\ p_pid p = pid /\ p_kstack p = ks /\ p_state p = RUNNING;
  ip_held : k_held s = ∅;
  ip_stack : kva_mapped (k_mem s) (k_kpagetable s) (ks + buf0_off) = true;
}.

Section Disk.
Context `{KI : KernelImage} `{VD : VirtioDevice}.
Context (i : nat).

(** From the state [s] in which process [i] has given the CPU up to the state in
    which it has it back: the device serves the request, the handler of its
    interrupt runs, and the process, which it has woken up, is chosen. *)

Definition io (s : kst) (d : disk) (s' : kst) (d' : disk) : Prop :=
  exists s1 s2 p, device d s = (s1, d') /\ runs virtio_disk_intr (set_k_held ∅ s1) tt s2 /\
    k_procs s2 !! i = Some p /\ p_state p = RUNNABLE /\ s' = dispatch i p s2.

(** [drun m s d ds a s']: [m] returns [a] in [s'], and [ds] are the contents of the
    disk after each wait for it; the disk at first is [d]. *)

Definition drun {A} (m : K A) (s : kst) (d : disk) (ds : list disk) (a : A) (s' : kst) : Prop :=
  exists fs, (forall e, m (fs ++ e) s = Ok a e s') /\ length fs = length ds /\
    forall k f, fs !! k = Some f -> exists sk d1 d2,
      m (take k fs) s = Blocked sk /\ (d :: ds) !! k = Some d1 /\ ds !! k = Some d2 /\
      io sk d1 (f sk) d2.

(** The disk at the end. *)

Definition final (d : disk) (ds : list disk) : disk := default d (last ds).

Lemma final_app d ds1 ds2 : final d (ds1 ++ ds2) = final (final d ds1) ds2.
Proof. unfold final. rewrite last_app. by destruct (last ds2). Qed.

Lemma drun_runs {A} (m : K A) s d a s' : runs m s a s' -> drun m s d [] a s'.
Proof.
  intros H. exists []. split; [intros e; apply H|]. split; [done|]. intros k f Hk. by rewrite lookup_nil in Hk.
Qed.

Lemma lookup_final (d : disk) ds1 ds2 k :
  (d :: ds1 ++ ds2) !! (length ds1 + k)%nat = (final d ds1 :: ds2) !! k.
Proof.
  destruct k as [|k].
  - rewrite Nat.add_0_r. unfold final. destruct ds1 as [|x ds1] using rev_ind; [done|].
    rewrite length_app, last_snoc. cbn [length]. rewrite Nat.add_1_r, <- app_assoc. cbn [app].
    change ((ds1 ++ x :: ds2) !! length ds1 = Some x). by apply list_lookup_middle.
  - rewrite <- Nat.add_succ_comm. change ((ds1 ++ ds2) !! (length ds1 + k)%nat = ds2 !! k).
    rewrite lookup_app_r by lia. f_equal. lia.
Qed.

Lemma drun_bind {A B} (m : K A) (k : A -> K B) s d ds1 ds2 a s1 b s2 :
  drun m s d ds1 a s1 -> drun (k a) s1 (final d ds1) ds2 b s2 ->
  drun (bind m k) s d (ds1 ++ ds2) b s2.
Proof.
  intros (f1 & H1 & L1 & C1) (f2 & H2 & L2 & C2). exists (f1 ++ f2).
  split; [intros e; unfold bind; by rewrite <- app_assoc, H1, H2|].
  split; [rewrite !length_app; lia|]. intros n f Hn.
  destruct (decide (n < length f1)%nat) as [Hlt|Hge].
  - rewrite lookup_app_l in Hn by done. destruct (C1 n f Hn) as (sk & d1 & d2 & Hb & Hd1 & Hd2 & Hio).
    exists sk, d1, d2. rewrite take_app_le by lia. split; [unfold bind; by rewrite Hb|].
    split; [|split; [by rewrite lookup_app_l by lia|done]].
    change (d :: ds1 ++ ds2) with ((d :: ds1) ++ ds2). rewrite lookup_app_l by (cbn; lia). done.
  - rewrite lookup_app_r in Hn by lia.
    destruct (C2 _ f Hn) as (sk & d1 & d2 & Hb & Hd1 & Hd2 & Hio). exists sk, d1, d2.
    rewrite take_app_ge by lia. split; [unfold bind; by rewrite H1|].
    assert (n = length ds1 + (n - length f1))%nat as En by lia.
    split; [rewrite En at 1; by rewrite lookup_final|].
    split; [rewrite lookup_app_r by lia; by rewrite <- L1|done].
Qed.

Lemma drun_seq {A B} (m : K A) (k : A -> K B) s d ds a s1 b s2 :
  runs m s a s1 -> drun (k a) s1 d ds b s2 -> drun (bind m k) s d ds b s2.
Proof. intros H. apply (drun_bind _ _ _ _ [] ds). by apply drun_runs. Qed.

Lemma drun_ret_seq {A B} (m : K A) (k : A -> K B) s d ds a s1 b s2 :
  drun m s d ds a s1 -> runs (k a) s1 b s2 -> drun (bind m k) s d ds b s2.
Proof. intros H Hk. rewrite <- (app_nil_r ds). eapply drun_bind; [done|]. by apply drun_runs. Qed.

(** ** Lemmas: descriptors, buffers and processes *)

Lemma bind_runs {A B} (m : K A) (k : A -> K B) s a s1 e :
  runs m s a s1 -> bind m k e s = k a e s1.
Proof. intros H. unfold bind. by rewrite H. Qed.

Lemma runs_get_buf b x s : k_bufs s !! b = Some x -> runs (get_buf b) s x s.
Proof. intros H. eapply runs_bind; [apply runs_gets|]. by apply runs_valid. Qed.

Lemma runs_mod_buf b f x s :
  k_bufs s !! b = Some x -> runs (mod_buf b f) s tt (set_k_bufs (<[b := f x]> (k_bufs s)) s).
Proof. intros H. eapply runs_bind; [by apply runs_get_buf|]. by intros e. Qed.

Lemma runs_get_desc n x s : dk_desc (k_vdisk s) !! n = Some x -> runs (get_desc n) s x s.
Proof. intros H. eapply runs_bind; [apply runs_gets|]. by apply runs_valid. Qed.

Lemma runs_mod_desc n f x s :
  dk_desc (k_vdisk s) !! n = Some x ->
  runs (mod_desc n f) s tt
    (set_k_vdisk (set_dk_desc (<[n := f x]> (dk_desc (k_vdisk s))) (k_vdisk s)) s).
Proof. intros H. eapply runs_bind; [by apply runs_get_desc|]. by intros e. Qed.

Lemma runs_disk_free n x s : dk_free (k_vdisk s) !! n = Some x -> runs (disk_free n) s x s.
Proof. intros H. eapply runs_bind; [apply runs_gets|]. by apply runs_valid. Qed.

Lemma runs_set_disk_free n v x s :
  dk_free (k_vdisk s) !! n = Some x ->
  runs (set_disk_free n v) s tt
    (set_k_vdisk (set_dk_free (<[n := v]> (dk_free (k_vdisk s))) (k_vdisk s)) s).
Proof. intros H. eapply runs_bind; [by apply runs_disk_free|]. by intros e. Qed.

Lemma walk_from_ro levels : forall pt va s, runs (walk_from levels pt va false) s (walk_ro levels (k_mem s) pt va) s.
Proof.
  induction levels as [|l levels IH]; intros pt va s; [done|]. cbn [walk_from walk_ro].
  eapply runs_bind; [apply runs_mload64|]. destruct (negb _); [apply IH|apply runs_ret].
Qed.

Lemma runs_kvmpa s va :
  kva_mapped (k_mem s) (k_kpagetable s) va = true -> exists pa, runs (kvmpa va) s pa s.
Proof.
  unfold kva_mapped. intros [[H1 H2]%andb_prop H3]%andb_prop. eexists. unfold kvmpa.
  eapply runs_bind; [apply runs_gets|]. eapply runs_bind.
  { unfold walk. apply Z.ltb_lt in H1. destruct (Z.leb_spec MAXVA va); [lia|]. apply walk_from_ro. }
  apply negb_true_iff in H2, H3. rewrite H2. eapply runs_bind; [apply runs_mload64|].
  rewrite H3. apply runs_ret.
Qed.

(** The first descriptor that is free. *)

Lemma runs_alloc_desc n s :
  (n < NUM)%nat -> dk_free (k_vdisk s) = replicate n 0 ++ replicate (NUM - n) 1 ->
  runs alloc_desc s (Some n)
    (set_k_vdisk (set_dk_free (replicate (S n) 0 ++ replicate (NUM - S n) 1) (k_vdisk s)) s).
Proof.
  intros Hn Hf. unfold alloc_desc.
  assert (seq 0 NUM = seq 0 n ++ n :: seq (S n) (NUM - S n)) as ->.
  { change (n :: seq (S n) (NUM - S n)) with (seq (0 + n) (S (NUM - S n))).
    rewrite <- seq_app. f_equal. lia. }
  apply runs_for_ret_first.
  - intros j Hj. apply elem_of_seq in Hj. eapply runs_bind.
    + apply runs_disk_free. rewrite Hf, lookup_app_l by (rewrite length_replicate; lia).
      apply lookup_replicate. split; [done|lia].
    + apply runs_ret.
  - assert (Hl : dk_free (k_vdisk s) !! n = Some 1).
    { rewrite Hf, lookup_app_r by (rewrite length_replicate; lia). rewrite length_replicate, Nat.sub_diag.
      apply lookup_replicate. split; [done|lia]. }
    eapply runs_bind; [by apply runs_disk_free|]. cbn [Z.eqb negb].
    eapply runs_bind; [by eapply runs_set_disk_free|].
    replace (replicate (S n) 0 ++ replicate (NUM - S n) 1) with (<[n := 0]> (dk_free (k_vdisk s))).
    + apply runs_ret.
    + rewrite Hf. rewrite insert_app_r_alt by (rewrite length_replicate; lia).
      rewrite length_replicate, Nat.sub_diag. replace (NUM - n)%nat with (S (NUM - S n)) by lia.
      change (replicate n 0 ++ 0 :: replicate (NUM - S n) 1 = (0 :: replicate n 0) ++ replicate (NUM - S n) 1).
      by rewrite replicate_cons_app, <- app_assoc.
Qed.

Lemma runs_alloc3_desc s :
  dk_free (k_vdisk s) = replicate NUM 1 ->
  runs alloc3_desc s (Some (0, 1, 2)%nat)
    (set_k_vdisk (set_dk_free [0; 0; 0; 1; 1; 1; 1; 1] (k_vdisk s)) s).
Proof.
  intros Hf. unfold alloc3_desc.
  eapply runs_bind; [apply (runs_alloc_desc 0); [unfold NUM; lia|done]|]. cbv iota beta.
  eapply runs_bind; [apply (runs_alloc_desc 1); [unfold NUM; lia|done]|]. cbv iota beta.
  eapply runs_bind; [apply (runs_alloc_desc 2); [unfold NUM; lia|done]|]. apply runs_ret.
Qed.

Lemma runs_mypid_buf0 pid ks s :
  in_proc i pid ks s -> runs buf0_addr s (ks + buf0_off) s.
Proof.
  intros [Hst Hcur _ (p & Hp & _ & Hks & _) _ _]. unfold buf0_addr.
  eapply runs_bind; [by apply runs_myproc|]. rewrite Hcur. eapply runs_bind; [apply runs_ret|].
  eapply runs_bind; [by apply runs_get_proc|]. rewrite Hks. apply runs_ret.
Qed.

(** ** A request on its way *)

(** The driver after it has put the request into the ring. *)

Definition submitted (write : bool) (b : nat) (sector : Z) (v : vdisk) : vdisk :=
  mk_vdisk
    (mk_vdesc (AHdr (if write then VIRTIO_BLK_T_OUT else VIRTIO_BLK_T_IN) sector) 16 VRING_DESC_F_NEXT 1 ::
     mk_vdesc (AData b) BSIZE (Z.lor (if write then 0 else VRING_DESC_F_WRITE) VRING_DESC_F_NEXT) 2 ::
     mk_vdesc (AStatus 0) 1 VRING_DESC_F_WRITE 0 :: drop 3 (dk_desc v))
    (u16 (dk_avail_idx v + 1))
    (<[Z.to_nat (dk_avail_idx v mod Z.of_nat NUM) := 0]> (dk_avail v))
    (dk_used_id v) (dk_used v) [0; 0; 0; 1; 1; 1; 1; 1] (dk_used_idx v)
    (<[0%nat := Some b]> (dk_info_b v)) (<[0%nat := 0]> (dk_info_status v)).

Definition waiting (write : bool) (b : nat) (bf : buf) (s : kst) : kst :=
  set_k_vdisk (submitted write b (u32 (b_blockno bf * (BSIZE / 512))) (k_vdisk s))
    (set_k_bufs (<[b := set_b_disk 1 bf]> (k_bufs s)) (set_k_held {[Ldisk]} s)).

(** The part of virtio_disk_rw from the wait on. *)

Definition await (b : nat) : K unit :=
  wait_loop (fun _ : unit =>
    bf <- get_buf b ;;
    if b_disk bf =? 1 then sleep (ChBuf b) Ldisk ;; ret (inl tt) else ret (inr tt)) tt ;;
  mod_vdisk (fun d => set_dk_info_b (<[0%nat := None]> (dk_info_b d)) d) ;;
  free_chain 0 ;;
  release Ldisk.

Lemma virtio_submit pid ks b bf write s e :
  in_proc i pid ks s -> vd_idle (k_vdisk s) -> k_bufs s !! b = Some bf ->
  virtio_disk_rw b write e s = await b e (waiting write b bf s).
Proof.
  intros Hip Hid Hb. pose proof Hid as [Hf Hd _ _ _ _ _].
  destruct (dk_desc (k_vdisk s)) as [|x0 [|x1 [|x2 rest]]] eqn:Ed; [done..|].
  unfold virtio_disk_rw. rewrite (bind_runs _ _ _ _ _ _ (runs_get_buf b bf s Hb)).
  rewrite (bind_runs _ _ _ _ _ _ (runs_acquire Ldisk s ltac:(rewrite (ip_held _ _ _ _ Hip); set_solver))).
  rewrite (ip_held _ _ _ _ Hip), (right_id_L ∅ (∪)). set (s1 := set_k_held {[Ldisk]} s).
  erewrite bind_runs.
  2:{ apply runs_wait_stop. eapply runs_bind; [by apply runs_alloc3_desc|]. apply runs_ret. }
  cbv iota beta. set (s2 := set_k_vdisk _ s1).
  assert (Hst : kva_mapped (k_mem s2) (k_kpagetable s2) (ks + buf0_off) = true) by apply (ip_stack _ _ _ _ Hip).
  assert (Ha : runs buf0_addr s2 (ks + buf0_off) s2).
  { destruct Hip as [H1 H2 H3 (p & Hp & _ & Hk & _) _ _]. unfold buf0_addr.
    eapply runs_bind; [by apply runs_myproc|]. cbn [k_cur s2 s1 set_k_vdisk set_k_held]. rewrite H2.
    eapply runs_bind; [apply runs_ret|]. eapply runs_bind; [by apply runs_get_proc|]. rewrite Hk. apply runs_ret. }
  rewrite (bind_runs _ _ _ _ _ _ Ha). destruct (runs_kvmpa s2 _ Hst) as [pa Hpa].
  rewrite (bind_runs _ _ _ _ _ _ Hpa).
  erewrite bind_runs by (apply (runs_mod_desc 0 _ x0); cbn; by rewrite Ed).
  erewrite bind_runs by (apply (runs_mod_desc 1 _ x1); cbn; by rewrite Ed).
  erewrite bind_runs by (apply runs_modify).
  erewrite bind_runs by (apply (runs_mod_desc 2 _ x2); cbn; by rewrite Ed).
  erewrite bind_runs by (apply (runs_mod_buf b _ bf); done).
  do 3 (erewrite bind_runs by apply runs_modify).
  unfold await. f_equal. unfold waiting, submitted. rewrite Ed. cbn. rewrite Ed. done.
Qed.

Lemma u16_mod a c : (u16 a + c) mod Z.of_nat NUM = (a + c) mod Z.of_nat NUM.
Proof.
  unfold u16, NUM. rewrite (Z.mod_eq a (2 ^ 16)) by lia.
  replace (a - 2 ^ 16 * (a / 2 ^ 16) + c) with (a + c + (- (8192 * (a / 2 ^ 16))) * Z.of_nat 8) by lia.
  apply Z_mod_plus_full.
Qed.

Lemma pending_submitted write b sector v :
  vd_idle v ->
  pending (submitted write b sector v) =
    Some (mk_request 0 (if write then VIRTIO_BLK_T_OUT else VIRTIO_BLK_T_IN) sector b).
Proof.
  intros [_ _ Ha _ _ _ _]. unfold pending. cbn [dk_avail dk_avail_idx submitted].
  replace ((u16 (dk_avail_idx v + 1) - 1) mod Z.of_nat NUM) with (dk_avail_idx v mod Z.of_nat NUM).
  - rewrite list_lookup_insert_eq; [by destruct write|]. rewrite Ha.
    pose proof (Z.mod_pos_bound (dk_avail_idx v) (Z.of_nat NUM)). unfold NUM in *. lia.
  - rewrite <- Z.add_opp_r, u16_mod. f_equal. lia.
Qed.

(** The interrupt handler takes the request out of the ring of used ones, and wakes
    up the process that waits for the buffer. *)

Lemma runs_virtio_disk_intr s b bf :
  k_held s = ∅ -> length (k_procs s) = NPROC -> k_bufs s !! b = Some bf ->
  0 <= dk_used_idx (k_vdisk s) < Z.of_nat NUM ->
  dk_used_id (k_vdisk s) mod Z.of_nat NUM = (dk_used_idx (k_vdisk s) + 1) mod Z.of_nat NUM ->
  dk_used (k_vdisk s) !! Z.to_nat (dk_used_idx (k_vdisk s)) = Some 0 ->
  dk_info_status (k_vdisk s) !! 0%nat = Some 0 -> dk_info_b (k_vdisk s) !! 0%nat = Some (Some b) ->
  runs virtio_disk_intr s tt
    (set_k_vdisk (set_dk_used_idx ((dk_used_idx (k_vdisk s) + 1) mod Z.of_nat NUM) (k_vdisk s))
      (set_k_procs (wake (ChBuf b) <$> k_procs s) (set_k_bufs (<[b := set_b_disk 0 bf]> (k_bufs s)) s))).
Proof.
  intros Hh Hp Hb Hu Hid Hused Hst Hib. unfold virtio_disk_intr.
  assert (Hmod : (dk_used_idx (k_vdisk s) + 1) mod Z.of_nat NUM <> dk_used_idx (k_vdisk s)).
  { unfold NUM in *. destruct (decide (dk_used_idx (k_vdisk s) = 7)) as [->|]; [done|].
    rewrite Z.mod_small by lia. lia. }
  eapply runs_bind; [apply runs_acquire; rewrite Hh; set_solver|].
  eapply runs_bind.
  - eapply (runs_loop_next _ _ _ tt).
    + eapply runs_bind; [apply runs_gets|]. cbn [k_vdisk set_k_held].
      rewrite Hid, (Z.mod_small (dk_used_idx _)) by done.
      destruct (Z.eqb_spec (dk_used_idx (k_vdisk s)) ((dk_used_idx (k_vdisk s) + 1) mod Z.of_nat NUM)); [done|].
      eapply runs_bind; [by apply runs_valid|]. change (Z.to_nat 0) with 0%nat.
      eapply runs_bind; [by apply runs_valid|]. cbn [Z.eqb negb].
      eapply runs_bind; [by apply runs_valid|]. eapply runs_bind; [by apply runs_valid|].
      eapply runs_bind; [by apply runs_mod_buf|].
      eapply runs_bind; [apply runs_wakeup; [done|cbn; rewrite Hh; set_solver]|].
      eapply runs_bind; [by intros e|]. apply runs_ret.
    + apply runs_loop_stop. eapply runs_bind; [apply runs_gets|]. cbn.
      rewrite Hid, Z.mod_mod, Z.eqb_refl by (unfold NUM; lia). apply runs_ret.
  - eapply runs_release_to; [cbn; rewrite Hh; set_solver|].
    cbn. rewrite Hh. replace (({[Ldisk]} ∪ ∅) ∖ {[Ldisk]} : gset lock) with (∅ : gset lock) by set_solver.
    rewrite <- Hh. by destruct s.
Qed.

(** free_desc and free_chain give the descriptors back; processes that wait for
    one are woken up. *)

Lemma runs_free_desc n x s :
  (n < NUM)%nat -> length (k_procs s) = NPROC -> (forall j, Lproc j ∉ k_held s) ->
  dk_free (k_vdisk s) !! n = Some 0 -> dk_desc (k_vdisk s) !! n = Some x ->
  runs (free_desc n) s tt
    (set_k_procs (wake ChDisk <$> k_procs s)
      (set_k_vdisk (set_dk_free (<[n := 1]> (dk_free (k_vdisk s)))
        (set_dk_desc (<[n := set_vd_addr ANull x]> (dk_desc (k_vdisk s))) (k_vdisk s))) s)).
Proof.
  intros Hn Hp Hh Hf Hd. unfold free_desc. rewrite (proj2 (Nat.leb_gt _ _) Hn).
  eapply runs_bind; [by apply runs_disk_free|]. cbn [Z.eqb negb].
  eapply runs_bind; [by apply runs_mod_desc|]. eapply runs_bind; [by eapply runs_set_disk_free|].
  match goal with |- runs _ ?s1 _ _ => exact (runs_wakeup ChDisk s1 Hp Hh) end.
Qed.

Lemma wake_wake ch (ps : list proc) : wake ch <$> (wake ch <$> ps) = wake ch <$> ps.
Proof.
  rewrite <- list_fmap_compose. apply list_fmap_ext. intros _ p _. unfold compose, wake.
  destruct (bool_decide (p_state p = SLEEPING) && bool_decide (p_chan p = Some ch)) eqn:E; [|by rewrite E].
  cbn [p_state set_p_state]. by rewrite bool_decide_false.
Qed.

Lemma runs_free_chain x0 x1 x2 rest s :
  length (k_procs s) = NPROC -> (forall j, Lproc j ∉ k_held s) ->
  dk_free (k_vdisk s) = [0; 0; 0; 1; 1; 1; 1; 1] -> dk_desc (k_vdisk s) = x0 :: x1 :: x2 :: rest ->
  Z.land (vd_flags x0) VRING_DESC_F_NEXT <> 0 -> vd_next x0 = 1 ->
  Z.land (vd_flags x1) VRING_DESC_F_NEXT <> 0 -> vd_next x1 = 2 ->
  Z.land (vd_flags x2) VRING_DESC_F_NEXT = 0 ->
  runs (free_chain 0) s tt
    (set_k_procs (wake ChDisk <$> k_procs s)
      (set_k_vdisk (set_dk_free (replicate NUM 1)
        (set_dk_desc (set_vd_addr ANull x0 :: set_vd_addr ANull x1 :: set_vd_addr ANull x2 :: rest)
          (k_vdisk s))) s)).
Proof.
  intros Hp Hh Hf Hd Hn0 E0 Hn1 E1 Hn2. unfold free_chain.
  apply Z.eqb_neq in Hn0, Hn1. apply Z.eqb_eq in Hn2.
  eapply (runs_loop_next _ _ _ 1%nat).
  { eapply runs_bind; [apply (runs_free_desc 0 x0); [unfold NUM; lia|done|done|by rewrite Hf|by rewrite Hd]|].
    eapply runs_bind; [apply (runs_get_desc _ (set_vd_addr ANull x0)); cbn; by rewrite Hd|].
    cbn [vd_flags vd_next set_vd_addr]. rewrite Hn0, E0. apply runs_ret. }
  eapply (runs_loop_next _ _ _ 2%nat).
  { eapply runs_bind; [apply (runs_free_desc 1 x1); [unfold NUM; lia| |done|cbn; by rewrite Hf|cbn; by rewrite Hd]|].
    { cbn. by rewrite length_fmap. }
    eapply runs_bind; [apply (runs_get_desc _ (set_vd_addr ANull x1)); cbn; by rewrite Hd|].
    cbn [vd_flags vd_next set_vd_addr]. rewrite Hn1, E1. apply runs_ret. }
  apply runs_loop_stop.
  eapply runs_bind; [apply (runs_free_desc 2 x2); [unfold NUM; lia| |done|cbn; by rewrite Hf|cbn; by rewrite Hd]|].
  { cbn. by rewrite !length_fmap. }
  eapply runs_bind; [apply (runs_get_desc _ (set_vd_addr ANull x2)); cbn; by rewrite Hd|].
  cbn [vd_flags vd_next set_vd_addr]. rewrite Hn2. cbn. rewrite Hd, Hf, !wake_wake. apply runs_ret.
Qed.

(** ** One transfer *)

(** The buffer after the transfer, and the disk. *)

Definition transferred (write : bool) (d : disk) (bf : buf) : buf :=
  set_b_disk 0 (if write then bf else set_b_data (d (b_blockno bf)) bf).

Definition disk_after (write : bool) (d : disk) (bf : buf) : disk :=
  if write then write_block d (b_blockno bf) (b_data bf) else d.

Definition req (write : bool) (b : nat) (bf : buf) : request :=
  mk_request 0 (if write then VIRTIO_BLK_T_OUT else VIRTIO_BLK_T_IN)
    (u32 (b_blockno bf * (BSIZE / 512))) b.

Lemma rq_block_req write b bf : 0 <= b_blockno bf < 2 ^ 31 -> rq_block (req write b bf) = b_blockno bf.
Proof.
  intros H. unfold rq_block, req, BSIZE. cbn [rq_sector]. change (1024 / 512) with 2.
  rewrite u32_small by lia. apply Z.div_mul. lia.
Qed.

(** What the device does with the request of a process that is asleep. *)

Lemma device_asleep write b bf s p d :
  vd_idle (k_vdisk s) -> k_bufs s !! b = Some bf -> 0 <= b_blockno bf < 2 ^ 31 ->
  device d (asleep i p (ChBuf b) (waiting write b bf s)) =
    (set_k_vdisk (used_up (req write b bf) (submitted write b (rq_sector (req write b bf)) (k_vdisk s)))
      (set_k_bufs (<[b := set_b_disk 1 (transferred write d bf)]> (k_bufs s))
        (asleep i p (ChBuf b) (waiting write b bf s))),
     disk_after write d bf).
Proof.
  intros Hid Hb Hn.
  assert (Hpe : pending (k_vdisk (asleep i p (ChBuf b) (waiting write b bf s))) = Some (req write b bf))
    by (by apply pending_submitted).
  assert (Hbf : k_bufs (asleep i p (ChBuf b) (waiting write b bf s)) !! b = Some (set_b_disk 1 bf)).
  { cbn. apply list_lookup_insert_eq. by eapply lookup_lt_Some. }
  destruct write.
  - rewrite (device_out d _ _ _ Hpe eq_refl Hbf), rq_block_req by done. reflexivity.
  - rewrite (device_in d _ _ _ Hpe eq_refl Hbf), rq_block_req by done.
    cbn [rq_buf req k_bufs asleep waiting set_k_procs set_k_held set_k_vdisk set_k_bufs].
    rewrite list_insert_insert_eq. reflexivity.
Qed.

(** The state in which the process is resumed. *)

Definition handled (write : bool) (b : nat) (bf : buf) (d : disk) (p : proc) (s : kst) : kst :=
  let v := used_up (req write b bf) (submitted write b (rq_sector (req write b bf)) (k_vdisk s)) in
  set_k_vdisk (set_dk_used_idx ((dk_used_idx v + 1) mod Z.of_nat NUM) v)
    (set_k_procs (wake (ChBuf b) <$> <[i := set_p_state SLEEPING (set_p_chan (Some (ChBuf b)) p)]> (k_procs s))
      (set_k_bufs (<[b := transferred write d bf]> (k_bufs s)) (set_k_held ∅ s))).

Definition woken (b : nat) (p : proc) : proc := set_p_state RUNNABLE (set_p_state SLEEPING (set_p_chan (Some (ChBuf b)) p)).

Lemma lookup_woken b p (ps : list proc) :
  (i < length ps)%nat ->
  (wake (ChBuf b) <$> <[i := set_p_state SLEEPING (set_p_chan (Some (ChBuf b)) p)]> ps) !! i = Some (woken b p).
Proof.
  intros Hi. rewrite list_lookup_fmap, list_lookup_insert_eq by done. cbn. unfold wake. cbn [p_state p_chan set_p_state set_p_chan].
  by rewrite !bool_decide_true.
Qed.

Lemma io_request pid ks write b bf s d p :
  in_proc i pid ks s -> vd_idle (k_vdisk s) -> k_bufs s !! b = Some bf ->
  0 <= b_blockno bf < 2 ^ 31 -> k_procs s !! i = Some p ->
  io (asleep i p (ChBuf b) (waiting write b bf s)) d
     (dispatch i (woken b p) (handled write b bf d p s)) (disk_after write d bf).
Proof.
  intros Hip Hid Hb Hn Hp. exists (device d (asleep i p (ChBuf b) (waiting write b bf s))).1.
  rewrite (device_asleep _ _ _ _ _ _ Hid Hb Hn). cbn [fst].
  exists (handled write b bf d p s), (woken b p). split; [done|]. split.
  - destruct Hid as [_ _ _ Hus Hib His Hix].
    assert (Hlt : (Z.to_nat (dk_used_id (k_vdisk s) mod Z.of_nat NUM) < NUM)%nat).
    { pose proof (Z.mod_pos_bound (dk_used_id (k_vdisk s)) (Z.of_nat NUM)). unfold NUM in *. lia. }
    pose proof (runs_virtio_disk_intr (set_k_held ∅
      (set_k_vdisk (used_up (req write b bf) (submitted write b (rq_sector (req write b bf)) (k_vdisk s)))
        (set_k_bufs (<[b := set_b_disk 1 (transferred write d bf)]> (k_bufs s))
          (asleep i p (ChBuf b) (waiting write b bf s))))) b (set_b_disk 1 (transferred write d bf))) as H.
    cbn [k_vdisk k_held k_procs k_bufs set_k_held set_k_vdisk set_k_bufs asleep waiting set_k_procs] in H.
    rewrite list_insert_insert_eq in H. unfold handled.
    apply H; clear H.
    + done.
    + rewrite length_insert. apply (ip_procs _ _ _ _ Hip).
    + apply list_lookup_insert_eq. by eapply lookup_lt_Some.
    + cbn. rewrite Hix. apply Z.mod_pos_bound. unfold NUM. lia.
    + cbn. rewrite Hix. rewrite <- (Z.add_0_r (u16 _)), u16_mod, Z.add_0_r, Zplus_mod_idemp_l. done.
    + cbn. rewrite Hix. apply list_lookup_insert_eq. by rewrite Hus.
    + cbn. rewrite list_insert_insert_eq. apply list_lookup_insert_eq. rewrite His. unfold NUM. lia.
    + cbn. apply list_lookup_insert_eq. rewrite Hib. unfold NUM. lia.
  - split; [|split; reflexivity]. apply lookup_woken. by eapply lookup_lt_Some.
Qed.

(** A round of a waiting loop that sleeps once. *)

Lemma wait_loop_blocked {X R} (body : X -> K (X + R)) x s s' :
  body x [] s = Blocked s' -> wait_loop body x [] s = Blocked s'.
Proof. intros H. unfold wait_loop. cbn [length loop]. unfold bind. by rewrite H. Qed.

Lemma wait_loop_next {X R} (body : X -> K (X + R)) x x' f e s s' :
  body x (f :: e) s = Ok (inl x') e s' -> wait_loop body x (f :: e) s = wait_loop body x' e s'.
Proof.
  intros H. unfold wait_loop. cbn [length].
  change (loop (S (S (length e))) body x) with (bind (body x) (fun r =>
    match r with inl x' => loop (S (length e)) body x' | inr v => ret v end)).
  unfold bind. by rewrite H.
Qed.

(** What the process does when it is resumed. *)

Definition settled (b : nat) (p : proc) (s : kst) : kst :=
  set_k_held ∅
    (set_k_procs (wake ChDisk <$> <[i := set_p_chan None (set_p_state RUNNING (woken b p))]> (k_procs s))
      (set_k_vdisk (set_dk_free (replicate NUM 1)
        (set_dk_desc ((set_vd_addr ANull <$> take 3 (dk_desc (k_vdisk s))) ++ drop 3 (dk_desc (k_vdisk s)))
          (set_dk_info_b (<[0%nat := None]> (dk_info_b (k_vdisk s))) (k_vdisk s))))
        (set_k_cur (Some i) s))).

Lemma sleep_blocked ch lk s p :
  k_started s <> 0 -> k_cur s = Some i -> k_procs s !! i = Some p -> lk <> Lproc i -> k_held s = {[lk]} ->
  sleep ch lk [] s = Blocked (asleep i p ch s).
Proof. intros. by rewrite (sleep_enter i p). Qed.

(** A process that is resumed as [dispatch] says returns from sleep with the lock. *)

Lemma sleep_resumed ch lk s p f e q t :
  k_started s <> 0 -> k_cur s = Some i -> k_procs s !! i = Some p -> lk <> Lproc i -> k_held s = {[lk]} ->
  f (asleep i p ch s) = dispatch i q t -> (i < length (k_procs t))%nat ->
  sleep ch lk (f :: e) s =
    Ok tt e (set_k_held {[lk]} (set_k_procs (<[i := set_p_chan None (set_p_state RUNNING q)]> (k_procs t))
      (set_k_cur (Some i) t))).
Proof.
  intros Hst Hcur Hp Hne Hh Hf Hi. rewrite (sleep_enter i p) by done.
  unfold bind at 1, yield_cpu. rewrite Hf. unfold dispatch. unfold bind at 1.
  rewrite mod_proc_eq. cbn [k_procs set_k_held set_k_cur set_k_procs].
  rewrite list_lookup_insert_eq by done. unfold bind. rewrite release_eq.
  cbn [k_held set_k_procs set_k_held]. rewrite bool_decide_true by set_solver.
  rewrite acquire_eq. cbn [k_held set_k_held]. rewrite bool_decide_false by set_solver.
  f_equal. cbn. rewrite list_insert_insert_eq.
  replace ({[lk]} ∪ {[Lproc i]} ∖ {[Lproc i]} : gset lock) with ({[lk]} : gset lock) by set_solver. done.
Qed.

Lemma await_blocked pid ks write b bf s p :
  in_proc i pid ks s -> k_bufs s !! b = Some bf -> k_procs s !! i = Some p ->
  await b [] (waiting write b bf s) = Blocked (asleep i p (ChBuf b) (waiting write b bf s)).
Proof.
  intros Hip Hb Hp. unfold await. unfold bind at 1. erewrite wait_loop_blocked; [done|].
  erewrite bind_runs by (apply (runs_get_buf b (set_b_disk 1 bf)); cbn; apply list_lookup_insert_eq;
    by eapply lookup_lt_Some).
  cbn [b_disk set_b_disk Z.eqb Pos.eqb]. unfold bind at 1.
  by rewrite (sleep_blocked _ _ _ p) by (done || apply Hip).
Qed.

Lemma await_resumed pid ks write b bf s d p f e :
  in_proc i pid ks s -> vd_idle (k_vdisk s) -> k_bufs s !! b = Some bf -> k_procs s !! i = Some p ->
  f (asleep i p (ChBuf b) (waiting write b bf s)) = dispatch i (woken b p) (handled write b bf d p s) ->
  await b (f :: e) (waiting write b bf s) = Ok tt e (settled b p (handled write b bf d p s)).
Proof.
  intros Hip Hid Hb Hp Hf. assert (Hi : (i < NPROC)%nat).
  { rewrite <- (ip_procs _ _ _ _ Hip). by eapply lookup_lt_Some. }
  unfold await. unfold bind at 1. erewrite wait_loop_next.
  2:{ erewrite bind_runs by (apply (runs_get_buf b (set_b_disk 1 bf)); cbn; apply list_lookup_insert_eq;
        by eapply lookup_lt_Some).
      cbn [b_disk set_b_disk Z.eqb Pos.eqb]. unfold bind at 1.
      rewrite (sleep_resumed _ _ _ p f e (woken b p) (handled write b bf d p s)); try (done || apply Hip).
      cbn. rewrite length_fmap, length_insert. by rewrite (ip_procs _ _ _ _ Hip). }
  set (s1 := set_k_held {[Ldisk]} _).
  assert (Hdesc : dk_desc (k_vdisk (handled write b bf d p s)) =
    dk_desc (submitted write b (rq_sector (req write b bf)) (k_vdisk s))) by reflexivity.
  cbn [dk_desc submitted] in Hdesc.
  assert (Hb1 : k_bufs s1 !! b = Some (transferred write d bf)).
  { cbn. apply list_lookup_insert_eq. by eapply lookup_lt_Some. }
  erewrite runs_wait_stop.
  2:{ eapply runs_bind; [by apply runs_get_buf|]. apply runs_ret. }
  erewrite bind_runs by (by intros ?).
  erewrite bind_runs.
  2:{ eapply (runs_free_chain _ _ _ (drop 3 (dk_desc (k_vdisk s)))); cbn.
      - by rewrite length_insert, length_fmap, length_insert, (ip_procs _ _ _ _ Hip).
      - set_solver.
      - done.
      - done.
      - done.
      - done.
      - by destruct write.
      - done.
      - done. }
  rewrite release_eq. cbn [k_held set_k_procs set_k_vdisk s1 set_k_held].
  rewrite bool_decide_true by set_solver.
  replace ({[Ldisk]} ∖ {[Ldisk]} : gset lock) with (∅ : gset lock) by set_solver.
  unfold settled, s1. rewrite Hdesc. clear. generalize (handled write b bf d p s). intros h. by destruct h.
Qed.

(** What a transfer leaves alone; of a process, its container and its page table. *)

Definition proc_image (p : proc) : option nat * Z := (p_container p, p_pagetable p).

Record disk_frame (s s' : kst) : Prop := {
  df_log : k_log s' = k_log s;
  df_mem : k_mem s' = k_mem s;
  df_sb : k_sb s' = k_sb s;
  df_icache : k_icache s' = k_icache s;
  df_conts : k_conts s' = k_conts s;
  df_images : proc_image <$> k_procs s' = proc_image <$> k_procs s;
}.

#[export] Instance disk_frame_preorder : PreOrder disk_frame.
Proof. split; [by split|]. intros s1 s2 s3 [? ? ? ? ? ?] [? ? ? ? ? ?]. split; congruence. Qed.

Lemma images_wake ch (ps : list proc) : proc_image <$> (wake ch <$> ps) = proc_image <$> ps.
Proof.
  rewrite <- list_fmap_compose. apply list_fmap_ext. intros k p _. unfold compose, wake. by destruct (_ && _).
Qed.

Lemma images_insert (ps : list proc) k p q :
  ps !! k = Some p -> proc_image q = proc_image p -> proc_image <$> <[k := q]> ps = proc_image <$> ps.
Proof.
  intros Hp E. rewrite list_fmap_insert, E. apply list_insert_id. by rewrite list_lookup_fmap, Hp.
Qed.

Lemma settled_in_proc pid ks write b bf d s p :
  in_proc i pid ks s -> k_procs s !! i = Some p ->
  in_proc i pid ks (settled b p (handled write b bf d p s)).
Proof.
  intros [H1 H2 H3 (p' & Hp' & Hpid & Hks & Hst) H5 H6] Hp. rewrite Hp in Hp'. injection Hp' as <-.
  split; try done.
  - cbn. by rewrite length_fmap, length_insert, length_fmap, length_insert.
  - exists (set_p_chan None (set_p_state RUNNING (woken b p))).
    split; [|split; [exact Hpid|split; [exact Hks|reflexivity]]]. cbn.
    rewrite list_lookup_fmap, list_lookup_insert_eq; [done|]. rewrite length_fmap, length_insert.
    by eapply lookup_lt_Some.
Qed.

Lemma settled_idle write b bf d s p :
  vd_idle (k_vdisk s) -> vd_idle (k_vdisk (settled b p (handled write b bf d p s))).
Proof.
  intros [H1 H2 H3 H4 H5 H6 H7]. split; cbn; rewrite ?length_insert; try done.
  - by destruct (dk_desc (k_vdisk s)) as [|? [|? [|? ?]]].
  - rewrite H7. rewrite <- (Z.add_0_r (u16 _)), u16_mod, Z.add_0_r, Zplus_mod_idemp_l. done.
Qed.

(** virtio_disk_rw: one wait, during which the device reads or writes the block. *)

Lemma drun_virtio_disk_rw pid ks s d b bf write :
  in_proc i pid ks s -> vd_idle (k_vdisk s) -> k_bufs s !! b = Some bf ->
  0 <= b_blockno bf < 2 ^ 31 ->
  exists s', drun (virtio_disk_rw b write) s d [disk_after write d bf] tt s' /\
    in_proc i pid ks s' /\ vd_idle (k_vdisk s') /\ disk_frame s s' /\
    k_bufs s' = <[b := transferred write d bf]> (k_bufs s).
Proof.
  intros Hip Hid Hb Hn. destruct (ip_proc _ _ _ _ Hip) as (p & Hp & _).
  exists (settled b p (handled write b bf d p s)). split.
  - set (f := fun _ : kst => dispatch i (woken b p) (handled write b bf d p s)).
    exists [f]. split; [|split; [done|]].
    + intros e. cbn [app]. rewrite (virtio_submit pid ks b bf) by done. by eapply await_resumed.
    + intros [|k] f' Hf'; [|done]. injection Hf' as <-. cbn [take].
      exists (asleep i p (ChBuf b) (waiting write b bf s)), d, (disk_after write d bf).
      rewrite (virtio_submit pid ks b bf) by done.
      split; [by eapply await_blocked|]. split; [done|]. split; [done|]. by eapply io_request.
  - split; [by apply settled_in_proc|]. split; [by apply settled_idle|]. split; [|done].
    split; try done. unfold settled, handled. cbn. rewrite images_wake.
    erewrite images_insert; [|by apply lookup_woken; eapply lookup_lt_Some|done]. rewrite images_wake. by eapply images_insert.
Qed.

End Disk.
