(* ===== verification/Cachespec.v ===== *)
(** * The buffer cache

    What bread, bwrite, brelse, bpin and bunpin do, in terms of the buffers without
    their links and of the disk.  The links are a ring in the order of use; the
    cores of the buffers are everything else. *)

From S2P Require Import Prelude Monad Riscv Kstring Kstate Spinlock Printf Kalloc Vm Sched Schedspec Bio Diskspec.

(** ** Rings *)

(** [dl nx pv p l e]: the links lead from [p] through [l] to [e], and back. *)

Fixpoint dl (nx pv : nat -> nat) (p : nat) (l : list nat) (e : nat) : Prop :=
  match l with
  | [] => nx p = e /\ pv e = p
  | x :: l' => nx p = x /\ pv x = p /\ dl nx pv x l' e
  end.

Definition fupd (f : nat -> nat) (x y : nat) : nat -> nat := fun z => if (z =? x)%nat then y else f z.

Lemma fupd_eq f x y : fupd f x y x = y.
Proof. unfold fupd. by rewrite Nat.eqb_refl. Qed.

Lemma fupd_ne f x y z : z <> x -> fupd f x y z = f z.
Proof. intros H. unfold fupd. apply Nat.eqb_neq in H. by rewrite H. Qed.

Lemma dl_ext nx pv nx' pv' p l e :
  (forall x, x ∈ p :: l -> nx' x = nx x) -> (forall y, y ∈ l ++ [e] -> pv' y = pv y) ->
  dl nx pv p l e -> dl nx' pv' p l e.
Proof.
  revert p. induction l as [|x l IH]; intros p Hn Hp; cbn [dl].
  - intros [H1 H2]. rewrite Hn, Hp by set_solver. done.
  - intros (H1 & H2 & H3). rewrite Hn, Hp by set_solver. split; [done|]. split; [done|].
    apply IH; [intros; apply Hn; set_solver|intros; apply Hp; set_solver|done].
Qed.

Lemma dl_app nx pv p l1 b l2 e : dl nx pv p (l1 ++ b :: l2) e <-> dl nx pv p l1 b /\ dl nx pv b l2 e.
Proof.
  revert p. induction l1 as [|x l1 IH]; intros p; cbn [dl app]; [tauto|]. rewrite IH. tauto.
Qed.

(** Taking an element out of the ring. *)

Lemma dl_unlink_from nx pv p b l e :
  p ∉ l -> b ∉ l -> NoDup l -> e ∉ l -> nx p = b -> dl nx pv b l e ->
  dl (fupd nx p (nx b)) (fupd pv (nx b) p) p l e.
Proof.
  intros Hp Hb Hnd He Hpb Hd. destruct l as [|y l]; cbn [dl] in *.
  - destruct Hd as [-> _]. by rewrite !fupd_eq.
  - destruct Hd as (-> & _ & Hd). rewrite !fupd_eq. split; [done|]. split; [done|].
    apply NoDup_cons in Hnd as [Hy _].
    eapply dl_ext; [| |exact Hd]; intros z Hz; apply fupd_ne; set_solver.
Qed.

Lemma dl_unlink nx pv h l1 b l2 :
  NoDup (h :: l1 ++ b :: l2) -> dl nx pv h (l1 ++ b :: l2) h ->
  dl (fupd nx (pv b) (nx b)) (fupd pv (nx b) (pv b)) h (l1 ++ l2) h.
Proof.
  intros Hnd [H1 H2]%dl_app. rewrite NoDup_cons, NoDup_app, NoDup_cons in Hnd.
  destruct Hnd as (Hh & Hnd1 & Hd & Hb & Hnd2).
  destruct l1 as [|p l0] using rev_ind; [|clear IHl0].
  - destruct H1 as [H1 H1']. rewrite H1'. apply dl_unlink_from; [set_solver..|done|set_solver|done|done].
  - apply dl_app in H1 as [H1 [H3 H4]]. rewrite H4. rewrite <- app_assoc. cbn [app]. apply dl_app.
    rewrite NoDup_app in Hnd1. destruct Hnd1 as (Hnd0 & Hd0 & _). split.
    + assert (Hn : nx b = h \/ nx b ∈ l2).
      { destruct l2 as [|y l2]; cbn [dl] in H2; [by left; destruct H2|]. right. destruct H2 as [-> _]. by left. }
      eapply dl_ext; [| |exact H1]; intros z Hz; apply fupd_ne.
      * intros ->. apply elem_of_cons in Hz as [->|Hz]; [set_solver|]. specialize (Hd0 p Hz). set_solver.
      * intros ->. destruct Hn as [Hn|Hn]; [rewrite Hn in Hz; set_solver|].
        assert (nx b ∈ l0 ++ [p]) as Hz' by done. specialize (Hd _ Hz'). set_solver.
    + apply dl_unlink_from; [|set_solver|done|set_solver|done|done].
      intros Hp. apply (Hd p); [set_solver|]. by right.
Qed.

(** Putting an element behind the head. *)

Lemma dl_link nx pv h b l :
  b ∉ h :: l -> NoDup (h :: l) -> dl nx pv h l h ->
  dl (fupd (fupd nx b (nx h)) h b) (fupd (fupd pv b h) (nx h) b) h (b :: l) h.
Proof.
  intros Hb Hnd Hd. apply NoDup_cons in Hnd as [Hh Hnd]. cbn [dl].
  assert (Hbh : b <> h) by set_solver. rewrite fupd_eq. split; [done|].
  destruct l as [|y l]; cbn [dl] in *.
  - destruct Hd as [-> Hd]. rewrite (fupd_ne _ h b b), fupd_eq, fupd_eq by done.
    rewrite (fupd_ne _ h b b) by done. by rewrite fupd_eq.
  - destruct Hd as (-> & _ & Hd). assert (b <> y) by set_solver.
    rewrite (fupd_ne _ y b b), fupd_eq by done. split; [done|].
    rewrite (fupd_ne _ h b b), fupd_eq by done. split; [done|]. rewrite fupd_eq. split; [done|].
    apply NoDup_cons in Hnd as [Hy _].
    eapply dl_ext; [| |exact Hd]; intros z Hz; rewrite !fupd_ne by set_solver; done.
Qed.

(** ** The ring of buffers *)

Definition nxt (bufs : list buf) (b : nat) : nat := match bufs !! b with Some x => b_next x | None => b end.
Definition prv (bufs : list buf) (b : nat) : nat := match bufs !! b with Some x => b_prev x | None => b end.

(** The buffers from the most to the least recently used. *)

Record lru (bufs : list buf) (order : list nat) : Prop := {
  lru_len : length bufs = S NBUF;
  lru_all : order ≡ₚ seq 0 NBUF;
  lru_ring : dl (nxt bufs) (prv bufs) bhead order bhead;
}.

Lemma lru_in bufs order b : lru bufs order -> b ∈ order <-> (b < NBUF)%nat.
Proof. intros H. rewrite (lru_all _ _ H), elem_of_seq. lia. Qed.

Lemma lru_nodup bufs order : lru bufs order -> NoDup (bhead :: order).
Proof.
  intros H. apply NoDup_cons. split.
  - rewrite lru_in by done. unfold bhead. lia.
  - rewrite (lru_all _ _ H). apply NoDup_seq.
Qed.

Lemma lru_lookup bufs order b : lru bufs order -> (b <= NBUF)%nat -> exists x, bufs !! b = Some x.
Proof. intros H Hb. apply lookup_lt_is_Some_2. rewrite (lru_len _ _ H). lia. Qed.

(** A change of a buffer that leaves its links alone. *)

Lemma lru_insert bufs order b x y :
  lru bufs order -> bufs !! b = Some x -> b_next y = b_next x -> b_prev y = b_prev x ->
  lru (<[b := y]> bufs) order.
Proof.
  intros [H1 H2 H3] Hx Hn Hp. split; [by rewrite length_insert|done|].
  assert (forall z, nxt (<[b := y]> bufs) z = nxt bufs z /\ prv (<[b := y]> bufs) z = prv bufs z) as H.
  { intros z. unfold nxt, prv. destruct (decide (z = b)) as [->|].
    - rewrite list_lookup_insert_eq by (by eapply lookup_lt_Some). rewrite Hx. done.
    - by rewrite list_lookup_insert_ne. }
  eapply dl_ext; [| |exact H3]; intros z _; apply H.
Qed.

(** The first element with a property. *)

Fixpoint first_such (f : nat -> bool) (l : list nat) : option nat :=
  match l with [] => None | x :: l' => if f x then Some x else first_such f l' end.

Lemma first_such_Some f l b : first_such f l = Some b -> b ∈ l /\ f b = true.
Proof.
  induction l as [|x l IH]; cbn; [done|]. destruct (f x) eqn:E.
  - intros [= <-]. split; [left|done].
  - intros H. destruct (IH H). split; [by right|done].
Qed.

Lemma first_such_None f l : first_such f l = None -> forall x, x ∈ l -> f x = false.
Proof.
  induction l as [|x l IH]; cbn; intros H y Hy; [by apply elem_of_nil in Hy|].
  destruct (f x) eqn:E; [done|]. apply elem_of_cons in Hy as [->|Hy]; [done|]. by apply IH.
Qed.

(** Does the buffer hold the block?  Is it not in use? *)

Definition holds (bufs : list buf) (dev bno : Z) (b : nat) : bool :=
  match bufs !! b with Some x => (b_dev x =? dev) && (b_blockno x =? bno) | None => false end.

Definition unused (bufs : list buf) (b : nat) : bool :=
  match bufs !! b with Some x => b_refcnt x =? 0 | None => false end.

(** A path along one of the links. *)

Fixpoint path (g : nat -> nat) (a : nat) (l : list nat) (e : nat) : Prop :=
  match l with [] => a = e | x :: l' => a = x /\ path g (g x) l' e end.

Lemma dl_path nx pv p l e : dl nx pv p l e -> path nx (nx p) l e.
Proof.
  revert p. induction l as [|x l IH]; intros p; cbn; [by intros [? _]|]. intros (H & _ & Hd).
  split; [done|]. by apply IH.
Qed.

Lemma dl_path_rev nx pv p l e : dl nx pv p l e -> path pv (pv e) (rev l) p.
Proof.
  revert e. induction l as [|x l IH] using rev_ind; intros e; [by intros [_ ?]|].
  rewrite rev_unit. intros [Hd [_ He]]%dl_app. cbn [path]. split; [done|]. by apply IH.
Qed.

(** The search of bget along a path of buffers to the head. *)

Lemma runs_ring_walk (step : buf -> nat) (test : buf -> bool) s l : forall a n,
  path (fun b => match k_bufs s !! b with Some x => step x | None => b end) a l bhead ->
  (forall x, x ∈ l -> (x < NBUF)%nat /\ exists y, k_bufs s !! x = Some y) -> (length l < n)%nat ->
  runs (loop n (fun b =>
          if (b =? bhead)%nat then ret (inr None) else
          x <- get_buf b ;; if test x then ret (inr (Some b)) else ret (inl (step x))) a) s
    (first_such (fun b => match k_bufs s !! b with Some x => test x | None => false end) l) s.
Proof.
  induction l as [|x l IH]; intros a n Hp Hl Hn; (destruct n as [|n]; [lia|]); cbn [path first_such] in *.
  - subst a. apply runs_loop_stop. rewrite Nat.eqb_refl. apply runs_ret.
  - destruct Hp as [-> Hp]. destruct (Hl x ltac:(left)) as [Hx [y Hy]].
    assert (Hne : (x =? bhead)%nat = false) by (apply Nat.eqb_neq; unfold bhead; lia).
    rewrite Hy in Hp |- *. destruct (test y) eqn:Et.
    + apply runs_loop_stop. rewrite Hne. eapply runs_bind; [by apply runs_get_buf|]. rewrite Et. apply runs_ret.
    + eapply (runs_loop_next _ _ _ (step y)).
      * rewrite Hne. eapply runs_bind; [by apply runs_get_buf|]. rewrite Et. apply runs_ret.
      * apply IH; [done|intros z Hz; apply Hl; by right|cbn in Hn; lia].
Qed.

Lemma lru_bounds bufs order :
  lru bufs order -> (length order < S NBUF)%nat /\
  forall x, x ∈ order -> (x < NBUF)%nat /\ exists y, bufs !! x = Some y.
Proof.
  intros H. split; [rewrite (Permutation_length (lru_all _ _ H)), length_seq; lia|].
  intros x Hx. apply (lru_in _ _ _ H) in Hx. split; [done|]. eapply lru_lookup; [done|lia].
Qed.

Lemma runs_bget_cached dev bno s order :
  lru (k_bufs s) order ->
  runs (bget_cached dev bno) s (first_such (holds (k_bufs s) dev bno) order) s.
Proof.
  intros Hl. unfold bget_cached. destruct (lru_lookup _ _ bhead Hl ltac:(done)) as [h Hh].
  eapply runs_bind; [by apply runs_get_buf|]. destruct (lru_bounds _ _ Hl) as [Hn Hb].
  apply (runs_ring_walk b_next (fun x => (b_dev x =? dev) && (b_blockno x =? bno))); [|done|done].
  replace (b_next h) with (nxt (k_bufs s) bhead) by (unfold nxt; by rewrite Hh).
  eapply dl_path. apply (lru_ring _ _ Hl).
Qed.

Lemma elem_of_rev (l : list nat) x : x ∈ rev l <-> x ∈ l.
Proof. rewrite !list_elem_of_In. symmetry. apply in_rev. Qed.

Lemma runs_bget_unused s order :
  lru (k_bufs s) order -> runs bget_unused s (first_such (unused (k_bufs s)) (rev order)) s.
Proof.
  intros Hl. unfold bget_unused. destruct (lru_lookup _ _ bhead Hl ltac:(done)) as [h Hh].
  eapply runs_bind; [by apply runs_get_buf|]. destruct (lru_bounds _ _ Hl) as [Hn Hb].
  apply (runs_ring_walk b_prev (fun x => b_refcnt x =? 0)).
  - replace (b_prev h) with (prv (k_bufs s) bhead) by (unfold prv; by rewrite Hh).
    eapply dl_path_rev. apply (lru_ring _ _ Hl).
  - intros x Hx. by apply Hb, elem_of_rev.
  - by rewrite length_rev.
Qed.

(** ** Moving a buffer to the front *)

Lemma runs_alter_buf b f x s :
  k_bufs s !! b = Some x -> runs (mod_buf b f) s tt (set_k_bufs (alter f b (k_bufs s)) s).
Proof. intros H. rewrite <- (insert_is_alter f _ _ _ H). by apply runs_mod_buf. Qed.

Lemma nxt_alter_next bufs x v z :
  (x < length bufs)%nat -> nxt (alter (set_b_next v) x bufs) z = fupd (nxt bufs) x v z.
Proof.
  intros Hx. unfold nxt. destruct (decide (z = x)) as [->|Hne].
  - rewrite fupd_eq, list_lookup_alter_eq. destruct (lookup_lt_is_Some_2 _ _ Hx) as [y ->]. done.
  - by rewrite fupd_ne, list_lookup_alter_ne.
Qed.

Lemma prv_alter_prev bufs x v z :
  (x < length bufs)%nat -> prv (alter (set_b_prev v) x bufs) z = fupd (prv bufs) x v z.
Proof.
  intros Hx. unfold prv. destruct (decide (z = x)) as [->|Hne].
  - rewrite fupd_eq, list_lookup_alter_eq. destruct (lookup_lt_is_Some_2 _ _ Hx) as [y ->]. done.
  - by rewrite fupd_ne, list_lookup_alter_ne.
Qed.

Lemma nxt_alter_prev bufs x v z : nxt (alter (set_b_prev v) x bufs) z = nxt bufs z.
Proof.
  unfold nxt. destruct (decide (z = x)) as [->|Hne].
  - rewrite list_lookup_alter_eq. by destruct (bufs !! x).
  - by rewrite list_lookup_alter_ne.
Qed.

Lemma prv_alter_next bufs x v z : prv (alter (set_b_next v) x bufs) z = prv bufs z.
Proof.
  unfold prv. destruct (decide (z = x)) as [->|Hne].
  - rewrite list_lookup_alter_eq. by destruct (bufs !! x).
  - by rewrite list_lookup_alter_ne.
Qed.

(** Everything of a buffer but its links. *)

Definition core (x : buf) : buf := set_b_prev 0 (set_b_next 0 x).
Definition cores (bufs : list buf) : list buf := core <$> bufs.

Lemma cores_alter f x bufs : (forall y, core (f y) = core y) -> cores (alter f x bufs) = cores bufs.
Proof.
  intros H. unfold cores. apply list_eq. intros z. rewrite !list_lookup_fmap.
  destruct (decide (z = x)) as [->|Hne].
  - rewrite list_lookup_alter_eq. destruct (bufs !! x); cbn; [by rewrite H|done].
  - by rewrite list_lookup_alter_ne.
Qed.

(** Behind the head, and taken out from where it is first. *)

Definition linked (b : nat) (bufs : list buf) : list buf :=
  let first := nxt bufs bhead in
  alter (set_b_next b) bhead (alter (set_b_prev b) first
    (alter (set_b_prev bhead) b (alter (set_b_next first) b bufs))).

Definition unlinked (b : nat) (bufs : list buf) : list buf :=
  alter (set_b_next (nxt bufs b)) (prv bufs b) (alter (set_b_prev (prv bufs b)) (nxt bufs b) bufs).

Definition to_front (b : nat) (bufs : list buf) : list buf := linked b (unlinked b bufs).

Lemma cores_to_front b bufs : cores (to_front b bufs) = cores bufs.
Proof. unfold to_front, linked, unlinked. by rewrite !cores_alter. Qed.

Lemma ring_ends nx pv p l1 b l2 :
  dl nx pv p (l1 ++ b :: l2) p -> nx b ∈ p :: l2 /\ pv b ∈ p :: l1.
Proof.
  intros [H1 H2]%dl_app. split.
  - destruct l2 as [|y l2]; cbn in H2; destruct H2 as [-> _]; set_solver.
  - destruct l1 as [|y l1 _] using rev_ind; cbn in H1; [destruct H1 as [_ ->]; set_solver|].
    apply dl_app in H1 as [_ [_ ->]]. set_solver.
Qed.

Lemma dl_first bufs l : dl (nxt bufs) (prv bufs) bhead l bhead -> nxt bufs bhead ∈ bhead :: l.
Proof. destruct l as [|y l]; cbn [dl]; intros [-> _]; set_solver. Qed.

Lemma dl_linked bufs b l :
  (forall x, x ∈ bhead :: b :: l -> (x < length bufs)%nat) -> b ∉ bhead :: l -> NoDup (bhead :: l) ->
  dl (nxt bufs) (prv bufs) bhead l bhead -> dl (nxt (linked b bufs)) (prv (linked b bufs)) bhead (b :: l) bhead.
Proof.
  intros Hlt Hb Hnd Hd. pose proof (dl_first _ _ Hd) as Hf.
  eapply dl_ext; [| |exact (dl_link _ _ _ _ _ Hb Hnd Hd)]; intros z _; unfold linked.
  - rewrite nxt_alter_next by (rewrite !length_alter; apply Hlt; set_solver).
    unfold fupd at 1 2. destruct (z =? bhead)%nat; [done|].
    rewrite !nxt_alter_prev. apply nxt_alter_next. apply Hlt. set_solver.
  - rewrite prv_alter_next, prv_alter_prev by (rewrite !length_alter; apply Hlt; set_solver).
    unfold fupd at 1 2. destruct (z =? nxt bufs bhead)%nat; [done|].
    rewrite prv_alter_prev by (rewrite length_alter; apply Hlt; set_solver).
    unfold fupd. destruct (z =? b)%nat; [done|]. apply prv_alter_next.
Qed.

Lemma lru_to_front bufs l1 b l2 :
  lru bufs (l1 ++ b :: l2) -> lru (to_front b bufs) (b :: l1 ++ l2).
Proof.
  intros Hl. pose proof Hl as [H1 H2 H3]. pose proof (lru_nodup _ _ Hl) as Hnd.
  destruct (ring_ends _ _ _ _ _ _ H3) as [Hn Hp].
  assert (Hlt : forall x, x ∈ bhead :: l1 ++ b :: l2 -> (x < length bufs)%nat).
  { intros x Hx. rewrite H1. apply elem_of_cons in Hx as [->|Hx]; [unfold bhead; lia|].
    apply (lru_in _ _ _ Hl) in Hx. lia. }
  split.
  - unfold to_front, linked, unlinked. by rewrite !length_alter.
  - rewrite <- H2. by rewrite Permutation_middle.
  - assert (Hlu : length (unlinked b bufs) = length bufs) by (unfold unlinked; by rewrite !length_alter).
    assert (Hu : dl (nxt (unlinked b bufs)) (prv (unlinked b bufs)) bhead (l1 ++ l2) bhead).
    { eapply dl_ext; [| |exact (dl_unlink _ _ _ _ _ _ Hnd H3)]; intros z _; unfold unlinked.
      - rewrite nxt_alter_next by (rewrite length_alter; apply Hlt; set_solver).
        unfold fupd. by rewrite nxt_alter_prev.
      - rewrite prv_alter_next. apply prv_alter_prev, Hlt. set_solver. }
    rewrite <- Permutation_middle in Hnd. rewrite Permutation_swap in Hnd. apply NoDup_cons in Hnd as [Hb' Hnd'].
    apply dl_linked; [|done|done|done]. intros x Hx. rewrite Hlu. apply Hlt. set_solver.
Qed.

Lemma runs_alter s b f :
  (b < length (k_bufs s))%nat -> runs (mod_buf b f) s tt (set_k_bufs (alter f b (k_bufs s)) s).
Proof. intros H. destruct (lookup_lt_is_Some_2 _ _ H) as [x Hx]. by eapply runs_alter_buf. Qed.

Lemma runs_get_links {B} s b (k : nat -> nat -> K B) r s' :
  (b < length (k_bufs s))%nat -> runs (k (nxt (k_bufs s) b) (prv (k_bufs s) b)) s r s' ->
  runs (x <- get_buf b ;; k (b_next x) (b_prev x)) s r s'.
Proof.
  intros H Hk. destruct (lookup_lt_is_Some_2 _ _ H) as [x Hx]. eapply runs_bind; [by apply runs_get_buf|].
  unfold nxt, prv in Hk. by rewrite Hx in Hk.
Qed.

Lemma nxt_alter_ne f x bufs z : z <> x -> nxt (alter f x bufs) z = nxt bufs z.
Proof. intros H. unfold nxt. by rewrite list_lookup_alter_ne. Qed.

(** The assignments that put a buffer behind the head: first those to its own
    links, then those to its neighbours'. *)

Lemma runs_link_self {B} s b (k : K B) r s' :
  (bhead < length (k_bufs s))%nat -> (b < length (k_bufs s))%nat ->
  runs k (set_k_bufs (alter (set_b_prev bhead) b (alter (set_b_next (nxt (k_bufs s) bhead)) b (k_bufs s))) s) r s' ->
  runs (h <- get_buf bhead ;; mod_buf b (set_b_next (b_next h)) ;; mod_buf b (set_b_prev bhead) ;; k) s r s'.
Proof.
  intros Hh Hb Hk. apply (runs_get_links s bhead (fun n _ => mod_buf b (set_b_next n) ;; _)); [done|].
  eapply runs_bind; [by apply runs_alter|]. eapply runs_bind; [apply runs_alter; cbn; by rewrite length_alter|].
  exact Hk.
Qed.

Lemma runs_link_others s b :
  (bhead < length (k_bufs s))%nat -> (nxt (k_bufs s) bhead < length (k_bufs s))%nat ->
  runs (h <- get_buf bhead ;; mod_buf (b_next h) (set_b_prev b) ;; mod_buf bhead (set_b_next b)) s tt
    (set_k_bufs (alter (set_b_next b) bhead (alter (set_b_prev b) (nxt (k_bufs s) bhead) (k_bufs s))) s).
Proof.
  intros Hh Hn. apply (runs_get_links s bhead (fun n _ => mod_buf n (set_b_prev b) ;; mod_buf bhead (set_b_next b))); [done|].
  eapply runs_bind; [by apply runs_alter|].
  match goal with |- runs _ ?t _ _ => pose proof (runs_alter t bhead (set_b_next b)) as H end.
  cbn in H. rewrite length_alter in H. by apply H.
Qed.

Lemma runs_to_front s l1 b l2 x :
  lru (k_bufs s) (l1 ++ b :: l2) -> k_bufs s !! b = Some x ->
  runs (mod_buf (b_next x) (set_b_prev (b_prev x)) ;;
        x <- get_buf b ;;
        mod_buf (b_prev x) (set_b_next (b_next x)) ;;
        h <- get_buf bhead ;;
        mod_buf b (set_b_next (b_next h)) ;;
        mod_buf b (set_b_prev bhead) ;;
        h <- get_buf bhead ;;
        mod_buf (b_next h) (set_b_prev b) ;;
        mod_buf bhead (set_b_next b)) s tt (set_k_bufs (to_front b (k_bufs s)) s).
Proof.
  intros Hl Hx. pose proof (lru_nodup _ _ Hl) as Hnd. pose proof (lru_len _ _ Hl) as Hlen.
  destruct (ring_ends _ _ _ _ _ _ (lru_ring _ _ Hl)) as [Hn Hp].
  assert (Hlt : forall y, y ∈ bhead :: l1 ++ b :: l2 -> (y < length (k_bufs s))%nat).
  { intros y Hy. rewrite Hlen. apply elem_of_cons in Hy as [->|Hy]; [unfold bhead; lia|].
    apply (lru_in _ _ _ Hl) in Hy. lia. }
  rewrite NoDup_cons, NoDup_app, NoDup_cons in Hnd. destruct Hnd as (Hh & _ & _ & Hb & _).
  assert (Hbh : b <> bhead) by set_solver. assert (Hnb : nxt (k_bufs s) b <> b) by (intros E; rewrite E in Hn; set_solver).
  replace (b_next x) with (nxt (k_bufs s) b) by (unfold nxt; by rewrite Hx).
  replace (b_prev x) with (prv (k_bufs s) b) by (unfold prv; by rewrite Hx).
  eapply runs_bind; [apply runs_alter, Hlt; set_solver|].
  eapply runs_bind; [apply (runs_get_buf b x); cbn; by rewrite list_lookup_alter_ne|].
  replace (b_next x) with (nxt (k_bufs s) b) by (unfold nxt; by rewrite Hx).
  replace (b_prev x) with (prv (k_bufs s) b) by (unfold prv; by rewrite Hx).
  eapply runs_bind; [apply runs_alter; cbn; rewrite length_alter; apply Hlt; set_solver|].
  match goal with |- runs _ ?t _ _ => change t with (set_k_bufs (unlinked b (k_bufs s)) s) end.
  assert (Hlu : length (unlinked b (k_bufs s)) = length (k_bufs s)) by (unfold unlinked; by rewrite !length_alter).
  apply runs_link_self; [cbn; rewrite Hlu; apply Hlt; set_solver..|]. cbn [k_bufs set_k_bufs].
  match goal with |- runs _ ?t _ _ => pose proof (runs_link_others t b) as Ho end.
  cbn [k_bufs set_k_bufs] in Ho. rewrite !length_alter, Hlu, !nxt_alter_ne in Ho by done. apply Ho; [apply Hlt; set_solver|].
  unfold unlinked. rewrite nxt_alter_next by (rewrite length_alter; apply Hlt; set_solver).
  unfold fupd. destruct (_ =? _)%nat; [apply Hlt; set_solver|]. rewrite nxt_alter_prev. apply Hlt.
  pose proof (dl_first _ _ (lru_ring _ _ Hl)). set_solver.
Qed.

Section Cache.
Context `{KI : KernelImage} `{VD : VirtioDevice}.
Context (i : nat) (pid ks : Z).

(** [now s s' bufs]: process [i] goes on in [s'], with the buffers [bufs] and the
    driver at rest. *)

Record now (s s' : kst) (bufs : list buf) : Prop := {
  now_proc : in_proc i pid ks s';
  now_idle : vd_idle (k_vdisk s');
  now_frame : disk_frame s s';
  now_bufs : k_bufs s' = bufs;
}.

Lemma now_trans s1 s2 s3 b2 b3 : now s1 s2 b2 -> now s2 s3 b3 -> now s1 s3 b3.
Proof. intros [_ _ F _] [? ? F' ?]. split; try done. by trans s2. Qed.

Lemma now_refl s : in_proc i pid ks s -> vd_idle (k_vdisk s) -> now s s (k_bufs s).
Proof. intros. by split. Qed.

Lemma now_set_bufs s bufs :
  in_proc i pid ks s -> vd_idle (k_vdisk s) -> now s (set_k_bufs bufs s) bufs.
Proof. intros [? ? ? ? ? ?] ?. split; try done. Qed.

Lemma in_proc_wake ch s : in_proc i pid ks s -> in_proc i pid ks (set_k_procs (wake ch <$> k_procs s) s).
Proof.
  intros [H1 H2 H3 (p & Hp & E1 & E2 & E3) H5 H6]. split; try done.
  - cbn. by rewrite length_fmap.
  - exists p. cbn. rewrite list_lookup_fmap, Hp. cbn. unfold wake. rewrite E3. done.
Qed.

Lemma runs_mypid s :
  k_started s <> 0 -> k_cur s = Some i ->
  (exists p, k_procs s !! i = Some p /\ p_pid p = pid /\ p_kstack p = ks /\ p_state p = RUNNING) ->
  runs mypid s pid s.
Proof.
  intros Hst Hcur (p & Hp & Hpid & _). unfold mypid.
  eapply runs_bind; [by apply runs_myproc|]. rewrite Hcur. eapply runs_bind; [apply runs_ret|].
  eapply runs_bind; [by apply runs_get_proc|]. rewrite Hpid. apply runs_ret.
Qed.

Lemma runs_get_slock b x s : k_bufs s !! b = Some x -> runs (get_slock (SBuf b)) s (b_lock x) s.
Proof. intros H. eapply runs_bind; [by apply runs_get_buf|]. apply runs_ret. Qed.

Lemma runs_acquiresleep b x s :
  in_proc i pid ks s -> k_bufs s !! b = Some x -> sl_locked (b_lock x) = 0 ->
  runs (acquiresleep (SBuf b)) s tt
    (set_k_bufs (<[b := set_b_lock (mk_sleeplock 1 pid) x]> (k_bufs s)) s).
Proof.
  intros [H1 H2 H3 H4 H5 H6] Hx Hl. unfold acquiresleep.
  assert (Hlt : (b < length (k_bufs s))%nat) by (by eapply lookup_lt_Some).
  eapply runs_bind; [apply runs_acquire; rewrite H5; set_solver|].
  rewrite H5, (right_id_L ∅ (∪)).
  eapply runs_bind.
  { apply runs_wait_stop. eapply runs_bind; [by apply runs_get_slock|]. rewrite Hl. apply runs_ret. }
  eapply runs_bind; [by apply runs_get_slock|].
  eapply runs_bind; [by apply (runs_mod_buf b _ x)|].
  eapply runs_bind; [by apply runs_mypid|].
  eapply runs_bind; [apply (runs_mod_buf b _ (set_b_lock (mk_sleeplock 1 (sl_pid (b_lock x))) x));
    cbn; by apply list_lookup_insert_eq|].
  eapply runs_release_to; [cbn; set_solver|]. cbn. rewrite list_insert_insert_eq.
  replace ({[Lsleep (SBuf b)]} ∖ {[Lsleep (SBuf b)]} : gset lock) with (∅ : gset lock) by set_solver.
  rewrite <- H5. by destruct s.
Qed.

Lemma runs_holdingsleep b x s :
  in_proc i pid ks s -> k_bufs s !! b = Some x -> b_lock x = mk_sleeplock 1 pid ->
  runs (holdingsleep (SBuf b)) s true s.
Proof.
  intros [H1 H2 H3 H4 H5 H6] Hx Hl. unfold holdingsleep.
  eapply runs_bind; [apply runs_acquire; rewrite H5; set_solver|].
  rewrite H5, (right_id_L ∅ (∪)).
  eapply runs_bind; [by apply runs_get_slock|]. rewrite Hl. cbn [sl_locked sl_pid Z.eqb].
  eapply runs_bind; [eapply runs_bind; [by apply runs_mypid|apply runs_ret]|].
  rewrite Z.eqb_refl. eapply runs_bind; [|apply runs_ret].
  eapply runs_release_to; [cbn; set_solver|]. cbn.
  replace ({[Lsleep (SBuf b)]} ∖ {[Lsleep (SBuf b)]} : gset lock) with (∅ : gset lock) by set_solver.
  rewrite <- H5. by destruct s.
Qed.

Lemma runs_releasesleep b x s :
  in_proc i pid ks s -> k_bufs s !! b = Some x ->
  runs (releasesleep (SBuf b)) s tt
    (set_k_procs (wake (ChSleep (SBuf b)) <$> k_procs s)
      (set_k_bufs (<[b := set_b_lock (mk_sleeplock 0 0) x]> (k_bufs s)) s)).
Proof.
  intros [H1 H2 H3 H4 H5 H6] Hx. unfold releasesleep.
  eapply runs_bind; [apply runs_acquire; rewrite H5; set_solver|].
  rewrite H5, (right_id_L ∅ (∪)).
  eapply runs_bind; [by apply (runs_mod_buf b _ x)|].
  eapply runs_bind; [apply runs_wakeup; [done|cbn; set_solver]|].
  eapply runs_release_to; [cbn; set_solver|]. cbn.
  replace ({[Lsleep (SBuf b)]} ∖ {[Lsleep (SBuf b)]} : gset lock) with (∅ : gset lock) by set_solver.
  rewrite <- H5. by destruct s.
Qed.

(** ** The cache *)

Context (dev : Z).

(** The buffers, without their links, and the disk: a block is in one buffer at
    most, and a buffer that nobody uses holds what is on the disk. *)

Record buf_ok (d : disk) (x : buf) : Prop := {
  bo_disk : b_disk x = 0;
  bo_refcnt : 0 <= b_refcnt x < 2 ^ 32;
  bo_valid : b_dev x = dev -> b_valid x <> 0 /\ 0 <= b_blockno x < 2 ^ 31;
  bo_free : b_refcnt x = 0 -> sl_locked (b_lock x) = 0 -> b_dev x = dev -> b_data x = d (b_blockno x);
}.

Definition same_block (x y : buf) : Prop := b_dev x = dev /\ b_dev y = dev /\ b_blockno x = b_blockno y.

Record cache_ok (C : list buf) (d : disk) : Prop := {
  ca_len : length C = S NBUF;
  ca_buf : forall b x, (b < NBUF)%nat -> C !! b = Some x -> buf_ok d x;
  ca_uniq : forall b1 b2 x1 x2, (b1 < NBUF)%nat -> (b2 < NBUF)%nat ->
    C !! b1 = Some x1 -> C !! b2 = Some x2 -> same_block x1 x2 -> b1 = b2;
}.

(** The cache of a state. *)

Record cached (s : kst) (C : list buf) (d : disk) : Prop := {
  cd_lru : exists order, lru (k_bufs s) order;
  cd_cores : cores (k_bufs s) = C;
  cd_ok : cache_ok C d;
  cd_proc : in_proc i pid ks s;
  cd_idle : vd_idle (k_vdisk s);
}.

Lemma cache_insert C d b x y :
  cache_ok C d -> C !! b = Some x -> buf_ok d y ->
  (b_dev y = dev -> forall b' z, (b' < NBUF)%nat -> C !! b' = Some z -> same_block y z -> b' = b) ->
  cache_ok (<[b := y]> C) d.
Proof.
  intros [H1 H2 H3] Hx Hy Hu. assert (Hlt : (b < length C)%nat) by (by eapply lookup_lt_Some).
  split; [by rewrite length_insert| |].
  - intros b' z Hb' Hz. apply list_lookup_insert_Some in Hz as [(-> & <- & _)|[Hne Hz]]; [done|by eapply H2].
  - intros b1 b2 x1 x2 Hb1 Hb2 Hx1 Hx2 Hs.
    apply list_lookup_insert_Some in Hx1 as [(<- & <- & _)|[Hne1 Hx1]];
      apply list_lookup_insert_Some in Hx2 as [(<- & <- & _)|[Hne2 Hx2]]; [done|..].
    + symmetry. eapply Hu; [apply Hs|done|done|done].
    + eapply Hu; [apply Hs|done|done|]. destruct Hs as (? & ? & ?). by split.
    + by eapply H3.
Qed.

(** The block of the buffer stays. *)

Lemma cache_update C d b x y :
  cache_ok C d -> (b < NBUF)%nat -> C !! b = Some x -> buf_ok d y ->
  b_dev y = b_dev x -> b_blockno y = b_blockno x -> cache_ok (<[b := y]> C) d.
Proof.
  intros H Hb Hx Hy Ed En. eapply cache_insert; [done|done|done|]. intros _ b' z Hb' Hz (E1 & E2 & E3).
  eapply (ca_uniq _ _ H b' b z x); [done|done|done|done|]. split_and!; congruence.
Qed.

Lemma cores_lookup s C d b x :
  cached s C d -> C !! b = Some x -> exists y, k_bufs s !! b = Some y /\ core y = x.
Proof.
  intros H Hx. rewrite <- (cd_cores _ _ _ H) in Hx. unfold cores in Hx. rewrite list_lookup_fmap in Hx.
  destruct (k_bufs s !! b) as [y|]; [|done]. injection Hx as Hx. by exists y.
Qed.

Lemma cores_insert bufs b y : cores (<[b := y]> bufs) = <[b := core y]> (cores bufs).
Proof. unfold cores. by rewrite list_fmap_insert. Qed.

(** A step that leaves the links alone. *)

Lemma cached_insert s s' C d b x y z :
  cached s C d -> now s s' (<[b := z]> (k_bufs s)) -> k_bufs s !! b = Some y ->
  b_next z = b_next y -> b_prev z = b_prev y -> core z = x -> cache_ok (<[b := x]> C) d ->
  cached s' (<[b := x]> C) d.
Proof.
  intros [[order Hl] Hc _ _ _] [Hp Hi _ Hb] Hy Hn Hpv Hz Hok. split; [|..|done|done]; [| |done].
  - exists order. rewrite Hb. by eapply lru_insert.
  - by rewrite Hb, cores_insert, Hc, Hz.
Qed.

Lemma holds_cores bufs bno b :
  holds bufs dev bno b = match cores bufs !! b with
                         | Some x => (b_dev x =? dev) && (b_blockno x =? bno) | None => false end.
Proof. unfold holds, cores. rewrite list_lookup_fmap. by destruct (bufs !! b). Qed.

Lemma unused_cores bufs b :
  unused bufs b = match cores bufs !! b with Some x => b_refcnt x =? 0 | None => false end.
Proof. unfold unused, cores. rewrite list_lookup_fmap. by destruct (bufs !! b). Qed.

(** A buffer that the process has got: locked, and with one more user. *)

Definition grabbed (x : buf) : buf := set_b_lock (mk_sleeplock 1 pid) (set_b_refcnt (b_refcnt x + 1) x).

(** A block that has been read from the disk. *)

Definition loaded (d : disk) (bno : Z) : buf :=
  mk_buf 1 0 dev bno (mk_sleeplock 1 pid) 1 0 0 (d bno).

(** Does a buffer hold the block? *)

Definition missing (C : list buf) (bno : Z) : Prop :=
  forall b x, (b < NBUF)%nat -> C !! b = Some x -> b_dev x = dev -> b_blockno x <> bno.

Lemma first_holder s C d order b x :
  cached s C d -> lru (k_bufs s) order -> (b < NBUF)%nat -> C !! b = Some x -> b_dev x = dev ->
  first_such (holds (k_bufs s) dev (b_blockno x)) order = Some b.
Proof.
  intros H Hl Hb Hx Hd. destruct (first_such _ order) as [b'|] eqn:E.
  - apply first_such_Some in E as [Hin Hh]. apply (lru_in _ _ _ Hl) in Hin.
    rewrite holds_cores, (cd_cores _ _ _ H) in Hh. destruct (C !! b') as [x'|] eqn:E'; [|done].
    apply andb_prop in Hh as [H1%Z.eqb_eq H2%Z.eqb_eq]. f_equal.
    by eapply (ca_uniq _ _ (cd_ok _ _ _ H)).
  - exfalso. pose proof (first_such_None _ _ E b (proj2 (lru_in _ _ _ Hl) Hb)) as Hf.
    rewrite holds_cores, (cd_cores _ _ _ H), Hx, Hd, !Z.eqb_refl in Hf. done.
Qed.

Lemma first_holder_none s C d order bno :
  cached s C d -> lru (k_bufs s) order -> missing C bno ->
  first_such (holds (k_bufs s) dev bno) order = None.
Proof.
  intros H Hl Hm. destruct (first_such _ order) as [b'|] eqn:E; [|done]. exfalso.
  apply first_such_Some in E as [Hin Hh]. apply (lru_in _ _ _ Hl) in Hin.
  rewrite holds_cores, (cd_cores _ _ _ H) in Hh. destruct (C !! b') as [x'|] eqn:E'; [|done].
  apply andb_prop in Hh as [H1%Z.eqb_eq H2%Z.eqb_eq]. by eapply Hm.
Qed.

(** bget of a block that is in the cache. *)

Lemma runs_bget_hit s C d b x :
  cached s C d -> (b < NBUF)%nat -> C !! b = Some x -> b_dev x = dev ->
  sl_locked (b_lock x) = 0 -> b_refcnt x + 1 < 2 ^ 32 ->
  exists s', runs (bget dev (b_blockno x)) s b s' /\ disk_frame s s' /\ cached s' (<[b := grabbed x]> C) d.
Proof.
  intros H Hb Hx Hd Hlk Hrc. destruct (cd_lru _ _ _ H) as [order Hl].
  destruct (cores_lookup _ _ _ _ _ H Hx) as (y & Hy & <-).
  pose proof (ca_buf _ _ (cd_ok _ _ _ H) _ _ Hb Hx) as Hbo. pose proof (bo_refcnt _ _ Hbo) as Hr.
  set (z := set_b_lock (mk_sleeplock 1 pid) (set_b_refcnt (u32 (b_refcnt y + 1)) y)).
  exists (set_k_bufs (<[b := z]> (k_bufs s)) s). split.
  - unfold bget. eapply runs_bind; [apply runs_acquire; rewrite (ip_held _ _ _ _ (cd_proc _ _ _ H)); set_solver|].
    rewrite (ip_held _ _ _ _ (cd_proc _ _ _ H)), (right_id_L ∅ (∪)).
    eapply runs_bind; [by apply (runs_bget_cached dev (b_blockno (core y)) (set_k_held {[Lbcache]} s) order)|].
    cbn [k_bufs set_k_held]. rewrite (first_holder s C d order b (core y) H Hl Hb Hx Hd).
    eapply runs_bind; [by apply (runs_mod_buf b _ y)|].
    eapply runs_bind; [eapply runs_release_to; [cbn; set_solver|reflexivity]|]. cbn [k_held set_k_bufs set_k_held].
    replace ({[Lbcache]} ∖ {[Lbcache]} : gset lock) with (∅ : gset lock) by set_solver.
    eapply runs_bind; [|apply runs_ret].
    pose proof (runs_acquiresleep b (set_b_refcnt (u32 (b_refcnt y + 1)) y)
      (set_k_bufs (<[b := set_b_refcnt (u32 (b_refcnt y + 1)) y]> (k_bufs s)) s)) as Ha.
    cbn [k_bufs set_k_bufs] in Ha. rewrite list_insert_insert_eq in Ha.
    assert (E : set_k_held ∅ (set_k_bufs (<[b := set_b_refcnt (u32 (b_refcnt y + 1)) y]> (k_bufs s))
      (set_k_held {[Lbcache]} s)) = set_k_bufs (<[b := set_b_refcnt (u32 (b_refcnt y + 1)) y]> (k_bufs s)) s).
    { rewrite <- (ip_held _ _ _ _ (cd_proc _ _ _ H)). by destruct s. }
    cbn [k_bufs set_k_held] in E |- *. rewrite E. apply Ha; [|apply list_lookup_insert_eq; by eapply lookup_lt_Some|done].
    by apply (now_proc _ _ _ (now_set_bufs s _ (cd_proc _ _ _ H) (cd_idle _ _ _ H))).
  - split; [by split|]. eapply (cached_insert s _ C d b (grabbed (core y)) y z); try done.
    + by apply now_set_bufs; apply H.
    + unfold z, grabbed, core. cbn. rewrite u32_small by (cbn in Hr, Hrc; lia). done.
    + eapply cache_update; [apply H|done|done| |done|done]. destruct Hbo as [E1 E2 E3 E4].
      split; cbn in *; [done|lia|done|]. intros E. lia.
Qed.

(** A buffer that is taken for a block, before the block is read. *)

Definition recycled (bno : Z) (y : buf) : buf :=
  set_b_refcnt 1 (set_b_valid 0 (set_b_blockno bno (set_b_dev dev y))).

Lemma runs_recycle {B} b y bno s (k : K B) r s' :
  k_bufs s !! b = Some y -> runs k (set_k_bufs (<[b := recycled bno y]> (k_bufs s)) s) r s' ->
  runs (mod_buf b (set_b_dev dev) ;; mod_buf b (set_b_blockno bno) ;; mod_buf b (set_b_valid 0) ;;
        mod_buf b (set_b_refcnt 1) ;; k) s r s'.
Proof.
  intros Hy Hk. assert (Hlt : (b < length (k_bufs s))%nat) by (by eapply lookup_lt_Some).
  assert (step : forall f z, runs (mod_buf b f) (set_k_bufs (<[b := z]> (k_bufs s)) s) tt
    (set_k_bufs (<[b := f z]> (k_bufs s)) s)).
  { intros f z. pose proof (runs_mod_buf b f z (set_k_bufs (<[b := z]> (k_bufs s)) s)) as H.
    cbn [k_bufs set_k_bufs] in H. rewrite list_insert_insert_eq in H. apply H. by apply list_lookup_insert_eq. }
  eapply runs_bind; [by apply (runs_mod_buf b _ y)|]. do 3 (eapply runs_bind; [apply step|]). exact Hk.
Qed.

(** The buffer that bget takes for a block that is not in the cache: the least
    recently used of those that nobody uses. *)

Definition victim (s : kst) (order : list nat) (b : nat) : Prop :=
  first_such (unused (k_bufs s)) (rev order) = Some b.

Lemma victim_exists s C d order :
  cached s C d -> lru (k_bufs s) order ->
  (exists b x, (b < NBUF)%nat /\ C !! b = Some x /\ b_refcnt x = 0) ->
  exists b y, victim s order b /\ (b < NBUF)%nat /\ k_bufs s !! b = Some y /\ b_refcnt y = 0.
Proof.
  intros H Hl (b & x & Hb & Hx & Hr). unfold victim.
  destruct (first_such (unused (k_bufs s)) (rev order)) as [b'|] eqn:E.
  - pose proof (first_such_Some _ _ _ E) as [Hin Hu]. unfold unused in Hu.
    destruct (k_bufs s !! b') as [y|] eqn:Ey; [|done]. apply Z.eqb_eq in Hu.
    exists b', y. split; [done|]. split; [|done]. apply (lru_in _ _ _ Hl). by apply elem_of_rev.
  - exfalso. assert (Hf := first_such_None _ _ E b). rewrite elem_of_rev, (lru_in _ _ _ Hl) in Hf.
    specialize (Hf Hb). rewrite unused_cores, (cd_cores _ _ _ H), Hx, Hr in Hf. done.
Qed.

Lemma runs_bget_miss s C d order b y bno :
  cached s C d -> lru (k_bufs s) order -> missing C bno -> victim s order b ->
  (b < NBUF)%nat -> k_bufs s !! b = Some y -> sl_locked (b_lock y) = 0 ->
  runs (bget dev bno) s b
    (set_k_bufs (<[b := set_b_lock (mk_sleeplock 1 pid) (recycled bno y)]> (k_bufs s)) s).
Proof.
  intros H Hl Hm Hv Hb Hy Hlk. pose proof (cd_proc _ _ _ H) as Hip. pose proof (ip_held _ _ _ _ Hip) as Hh.
  unfold bget. eapply runs_bind; [apply runs_acquire; rewrite Hh; set_solver|].
  rewrite Hh, (right_id_L ∅ (∪)).
  eapply runs_bind; [by apply (runs_bget_cached dev bno (set_k_held {[Lbcache]} s) order)|].
  cbn [k_bufs set_k_held]. rewrite (first_holder_none s C d order bno H Hl Hm).
  eapply runs_bind; [by apply (runs_bget_unused (set_k_held {[Lbcache]} s) order)|].
  cbn [k_bufs set_k_held]. unfold victim in Hv. rewrite Hv.
  set (s2 := set_k_bufs (<[b := recycled bno y]> (k_bufs s)) s).
  apply (runs_recycle b y bno (set_k_held {[Lbcache]} s) _ _ _ Hy).
  match goal with |- runs _ ?st _ _ => change st with (set_k_held {[Lbcache]} s2) end.
  eapply runs_bind; [eapply (runs_release_to _ _ s2); [cbn; set_solver|]|].
  - cbn [k_held set_k_held]. replace ({[Lbcache]} ∖ {[Lbcache]} : gset lock) with (∅ : gset lock) by set_solver.
    rewrite <- Hh. by destruct s.
  - eapply runs_bind; [|apply runs_ret].
    pose proof (runs_acquiresleep b (recycled bno y) s2) as Ha. cbn [k_bufs set_k_bufs s2] in Ha.
    rewrite list_insert_insert_eq in Ha. apply Ha; [|apply list_lookup_insert_eq; by eapply lookup_lt_Some|done].
    by apply (now_proc _ _ _ (now_set_bufs s _ Hip (cd_idle _ _ _ H))).
Qed.

(** ** bread *)

Lemma drun_bread_hit s C d b x :
  cached s C d -> (b < NBUF)%nat -> C !! b = Some x -> b_dev x = dev ->
  sl_locked (b_lock x) = 0 -> b_refcnt x + 1 < 2 ^ 32 ->
  exists s', drun i (bread dev (b_blockno x)) s d [] b s' /\ disk_frame s s' /\
    cached s' (<[b := grabbed x]> C) d.
Proof.
  intros H Hb Hx Hd Hlk Hrc. destruct (runs_bget_hit s C d b x H Hb Hx Hd Hlk Hrc) as (s' & Hr & Hf & Hc).
  exists s'. split; [|done]. apply drun_runs. eapply runs_bind; [exact Hr|].
  assert (Hx' : <[b := grabbed x]> C !! b = Some (grabbed x)).
  { apply list_lookup_insert_eq. by eapply lookup_lt_Some. }
  destruct (cores_lookup _ _ _ _ _ Hc Hx') as (y & Hy & Ey).
  eapply runs_bind; [by apply runs_get_buf|].
  destruct (bo_valid _ _ (ca_buf _ _ (cd_ok _ _ _ H) _ _ Hb Hx) Hd) as [Hv _].
  assert (b_valid y = b_valid x) as -> by (change (b_valid (core y) = b_valid (grabbed x)); by rewrite Ey).
  apply Z.eqb_neq in Hv. rewrite Hv. eapply runs_bind; apply runs_ret.
Qed.

Lemma drun_bread_miss s C d bno :
  cached s C d -> 0 <= bno < 2 ^ 31 -> missing C bno ->
  (exists b x, (b < NBUF)%nat /\ C !! b = Some x /\ b_refcnt x = 0) ->
  (forall b x, (b < NBUF)%nat -> C !! b = Some x -> b_refcnt x = 0 -> sl_locked (b_lock x) = 0) ->
  exists b x s', drun i (bread dev bno) s d [d] b s' /\ disk_frame s s' /\
    (b < NBUF)%nat /\ C !! b = Some x /\ b_refcnt x = 0 /\ cached s' (<[b := loaded d bno]> C) d.
Proof.
  intros H Hbno Hm Hfree Hunl. destruct (cd_lru _ _ _ H) as [order Hl].
  destruct (victim_exists _ _ _ _ H Hl Hfree) as (b & y & Hv & Hb & Hy & Hr0).
  assert (Hx : C !! b = Some (core y)).
  { rewrite <- (cd_cores _ _ _ H). unfold cores. by rewrite list_lookup_fmap, Hy. }
  pose proof (ca_buf _ _ (cd_ok _ _ _ H) _ _ Hb Hx) as [Hdk _ _ _].
  pose proof (Hunl _ _ Hb Hx Hr0) as Hlk. assert (Hlt : (b < length (k_bufs s))%nat) by (by eapply lookup_lt_Some).
  set (z := set_b_lock (mk_sleeplock 1 pid) (recycled bno y)).
  set (s1 := set_k_bufs (<[b := z]> (k_bufs s)) s).
  assert (Hn1 : now s s1 (<[b := z]> (k_bufs s))) by (apply now_set_bufs; apply H).
  destruct (drun_virtio_disk_rw i pid ks s1 d b z false) as (s2 & Hrw & Hip2 & Hid2 & Hf2 & Hb2);
    [apply Hn1|apply Hn1|by apply list_lookup_insert_eq|done|].
  cbn [disk_after] in Hrw. cbn [k_bufs s1 set_k_bufs] in Hb2. rewrite list_insert_insert_eq in Hb2.
  set (t := transferred false d z) in *.
  exists b, (core y), (set_k_bufs (<[b := set_b_valid 1 t]> (k_bufs s)) s2).
  assert (Hbt : k_bufs s2 !! b = Some t) by (rewrite Hb2; by apply list_lookup_insert_eq).
  split; [|split; [|split; [done|split; [done|split; [done|]]]]].
  - unfold bread. eapply drun_seq; [by eapply runs_bget_miss|]. eapply drun_seq.
    { apply (runs_get_buf b z). by apply list_lookup_insert_eq. }
    cbn [b_valid z set_b_lock recycled set_b_refcnt set_b_valid Z.eqb].
    eapply drun_ret_seq; [|apply runs_ret].
    eapply drun_ret_seq; [exact Hrw|]. pose proof (runs_mod_buf b (set_b_valid 1) t s2 Hbt) as Hmv.
    rewrite Hb2, list_insert_insert_eq in Hmv. exact Hmv.
  - trans s1; [apply Hn1|]. trans s2; [done|]. by split.
  - eapply (cached_insert s _ C d b (loaded d bno) y (set_b_valid 1 t)); [done| |done|done|done|reflexivity|].
    + split; [|done| |done].
      * destruct Hip2. by split.
      * trans s1; [apply Hn1|]. trans s2; [done|]. by split.
    + eapply cache_insert; [apply H|exact Hx| |].
      * split; [reflexivity|cbn; lia| |].
        -- intros _. split; [done|exact Hbno].
        -- cbn. lia.
      * intros _ b' x' Hb' Hx' (_ & E1 & E2). exfalso. by eapply (Hm b' x').
Qed.

(** ** bwrite *)

Lemma drun_bwrite s C d b x :
  cached s C d -> (b < NBUF)%nat -> C !! b = Some x -> b_dev x = dev ->
  b_lock x = mk_sleeplock 1 pid ->
  let d' := write_block d (b_blockno x) (b_data x) in
  exists s', drun i (bwrite b) s d [d'] tt s' /\ disk_frame s s' /\ cached s' C d'.
Proof.
  intros H Hb Hx Hd Hlk d'. destruct (cores_lookup _ _ _ _ _ H Hx) as (y & Hy & <-).
  pose proof (ca_buf _ _ (cd_ok _ _ _ H) _ _ Hb Hx) as [Hdk Hrc Hv Hfr].
  destruct (drun_virtio_disk_rw i pid ks s d b y true) as (s' & Hrw & Hip & Hid & Hf & Hb');
    [apply H|apply H|done|by apply Hv|].
  cbn [disk_after] in Hrw. exists s'.
  assert (transferred true d y = y) as E.
  { unfold transferred. destruct y. cbn in Hdk. by subst. }
  rewrite E, list_insert_id in Hb' by done. split; [|split; [done|]].
  - unfold bwrite. eapply drun_seq; [eapply runs_holdingsleep; [apply H|done|done]|]. exact Hrw.
  - destruct H as [Hl Hc Hok _ _]. split; [by rewrite Hb'|by rewrite Hb'| |done|done].
    destruct Hok as [H1 H2 H3]. split; [done| |done].
    intros b' x' Hb1 Hx'. destruct (H2 b' x' Hb1 Hx') as [E1 E2 E3 E4]. split; [done|done|done|].
    intros Hr0 Hun Hdev. unfold d', write_block.
    destruct (Z.eqb_spec (b_blockno x') (b_blockno (core y))) as [En|]; [|by apply E4].
    exfalso. assert (b' = b) as -> by (eapply H3; [done|done|exact Hx'|exact Hx|by split]).
    rewrite Hx in Hx'. injection Hx' as <-. cbn in Hlk, Hun. rewrite Hlk in Hun. done.
Qed.

(** ** bpin and bunpin *)

Lemma runs_mod_refcnt b y f s :
  in_proc i pid ks s -> k_bufs s !! b = Some y ->
  runs (acquire Lbcache ;; mod_buf b (fun x => set_b_refcnt (f x) x) ;; release Lbcache) s tt
    (set_k_bufs (<[b := set_b_refcnt (f y) y]> (k_bufs s)) s).
Proof.
  intros Hip Hy. pose proof (ip_held _ _ _ _ Hip) as Hh.
  eapply runs_bind; [apply runs_acquire; rewrite Hh; set_solver|].
  rewrite Hh, (right_id_L ∅ (∪)). eapply runs_bind; [by apply (runs_mod_buf b _ y)|].
  eapply runs_release_to; [cbn; set_solver|]. cbn.
  replace ({[Lbcache]} ∖ {[Lbcache]} : gset lock) with (∅ : gset lock) by set_solver.
  rewrite <- Hh. by destruct s.
Qed.

(** A change of the number of users of a locked buffer. *)

Lemma cached_refcnt s C d b x r :
  cached s C d -> (b < NBUF)%nat -> C !! b = Some x -> 0 <= r < 2 ^ 32 ->
  (r = 0 -> sl_locked (b_lock x) = 0 -> b_dev x = dev -> b_data x = d (b_blockno x)) ->
  exists y, k_bufs s !! b = Some y /\ core y = x /\
    cached (set_k_bufs (<[b := set_b_refcnt r y]> (k_bufs s)) s) (<[b := set_b_refcnt r x]> C) d.
Proof.
  intros H Hb Hx Hr H0. destruct (cores_lookup _ _ _ _ _ H Hx) as (y & Hy & Ey). exists y.
  split; [done|]. split; [done|].
  eapply (cached_insert s _ C d b (set_b_refcnt r x) y); [done|apply now_set_bufs; apply H|done|done|done| |].
  - rewrite <- Ey. reflexivity.
  - eapply cache_update; [apply H|done|done| |done|done].
    destruct (ca_buf _ _ (cd_ok _ _ _ H) _ _ Hb Hx). by split.
Qed.

Lemma runs_bunpin s C d b x :
  cached s C d -> (b < NBUF)%nat -> C !! b = Some x -> 1 <= b_refcnt x -> sl_locked (b_lock x) <> 0 ->
  exists s', runs (bunpin b) s tt s' /\ disk_frame s s' /\
    cached s' (<[b := set_b_refcnt (b_refcnt x - 1) x]> C) d.
Proof.
  intros H Hb Hx Hr Hlk. pose proof (bo_refcnt _ _ (ca_buf _ _ (cd_ok _ _ _ H) _ _ Hb Hx)) as Hrc.
  destruct (cached_refcnt s C d b x (b_refcnt x - 1) H Hb Hx) as (y & Hy & Ey & Hc); [lia|done|].
  eexists. split; [|split; [|exact Hc]]; [|by split].
  pose proof (runs_mod_refcnt b y (fun x => u32 (b_refcnt x - 1)) s (cd_proc _ _ _ H) Hy) as Hm.
  assert (b_refcnt y = b_refcnt x) as E by (change (b_refcnt (core y) = b_refcnt x); by rewrite Ey).
  cbv beta in Hm. rewrite E, u32_small in Hm by lia. exact Hm.
Qed.

Lemma runs_bpin s C d b x :
  cached s C d -> (b < NBUF)%nat -> C !! b = Some x -> b_refcnt x + 1 < 2 ^ 32 ->
  exists s', runs (bpin b) s tt s' /\ disk_frame s s' /\
    cached s' (<[b := set_b_refcnt (b_refcnt x + 1) x]> C) d.
Proof.
  intros H Hb Hx Hr. pose proof (bo_refcnt _ _ (ca_buf _ _ (cd_ok _ _ _ H) _ _ Hb Hx)) as Hrc.
  destruct (cached_refcnt s C d b x (b_refcnt x + 1) H Hb Hx) as (y & Hy & Ey & Hc); [lia|lia|].
  eexists. split; [|split; [|exact Hc]]; [|by split].
  pose proof (runs_mod_refcnt b y (fun x => u32 (b_refcnt x + 1)) s (cd_proc _ _ _ H) Hy) as Hm.
  assert (b_refcnt y = b_refcnt x) as E by (change (b_refcnt (core y) = b_refcnt x); by rewrite Ey).
  cbv beta in Hm. rewrite E, u32_small in Hm by lia. exact Hm.
Qed.

(** ** brelse *)

Definition released (x : buf) : buf :=
  set_b_refcnt (u32 (b_refcnt x - 1)) (set_b_lock (mk_sleeplock 0 0) x).

Lemma runs_brelse s C d b x :
  cached s C d -> (b < NBUF)%nat -> C !! b = Some x -> b_lock x = mk_sleeplock 1 pid ->
  (u32 (b_refcnt x - 1) = 0 -> b_dev x = dev -> b_data x = d (b_blockno x)) ->
  exists s', runs (brelse b) s tt s' /\ disk_frame s s' /\ cached s' (<[b := released x]> C) d.
Proof.
  intros H Hb Hx Hlk Hcl. destruct (cores_lookup _ _ _ _ _ H Hx) as (y & Hy & <-).
  destruct (cd_lru _ _ _ H) as [order Hl]. pose proof (cd_proc _ _ _ H) as Hip.
  assert (Hlt : (b < length (k_bufs s))%nat) by (by eapply lookup_lt_Some).
  set (z := set_b_refcnt (u32 (b_refcnt y - 1)) (set_b_lock (mk_sleeplock 0 0) y)).
  set (s1 := set_k_procs (wake (ChSleep (SBuf b)) <$> k_procs s)
    (set_k_bufs (<[b := set_b_lock (mk_sleeplock 0 0) y]> (k_bufs s)) s)).
  assert (Hip1 : in_proc i pid ks s1).
  { apply (in_proc_wake (ChSleep (SBuf b)) (set_k_bufs (<[b := set_b_lock (mk_sleeplock 0 0) y]> (k_bufs s)) s)).
    apply (now_proc _ _ _ (now_set_bufs s _ Hip (cd_idle _ _ _ H))). }
  assert (Hok : cache_ok (<[b := released (core y)]> C) d).
  { eapply cache_update; [apply H|done|done| |done|done].
    destruct (ca_buf _ _ (cd_ok _ _ _ H) _ _ Hb Hx) as [E1 E2 E3 E4].
    split; [done|apply u32_range|done|]. intros E _ Hd. by apply Hcl. }
  assert (Hlz : lru (<[b := z]> (k_bufs s)) order) by (by eapply lru_insert).
  assert (Hcz : cores (<[b := z]> (k_bufs s)) = <[b := released (core y)]> C)
    by (rewrite cores_insert, (cd_cores _ _ _ H); reflexivity).
  set (bufs' := if b_refcnt z =? 0 then to_front b (<[b := z]> (k_bufs s)) else <[b := z]> (k_bufs s)).
  exists (set_k_bufs bufs' s1). split; [|split].
  - unfold brelse. eapply runs_bind; [by eapply runs_holdingsleep|]. cbn [negb].
    eapply runs_bind; [by apply (runs_releasesleep b y)|]. fold s1.
    eapply runs_bind; [apply runs_acquire; rewrite (ip_held _ _ _ _ Hip1); set_solver|].
    rewrite (ip_held _ _ _ _ Hip1), (right_id_L ∅ (∪)).
    eapply runs_bind; [apply (runs_mod_buf b _ (set_b_lock (mk_sleeplock 0 0) y)); by apply list_lookup_insert_eq|].
    cbn [k_bufs set_k_held s1 set_k_procs set_k_bufs]. rewrite list_insert_insert_eq. fold z.
    eapply runs_bind; [apply (runs_get_buf b z); by apply list_lookup_insert_eq|].
    eapply (runs_bind _ _ _ tt (set_k_bufs bufs' (set_k_held {[Lbcache]} s1))).
    + unfold bufs'. destruct (b_refcnt z =? 0); [|apply runs_ret].
      destruct (list_elem_of_split order b) as (l1 & l2 & Eo); [by apply (lru_in _ _ _ Hl)|]. rewrite Eo in Hlz.
      match goal with |- runs _ ?t _ _ => pose proof (runs_to_front t l1 b l2 z Hlz) as Hf end.
      apply Hf. by apply list_lookup_insert_eq.
    + eapply runs_release_to; [cbn; set_solver|]. cbn.
      replace ({[Lbcache]} ∖ {[Lbcache]} : gset lock) with (∅ : gset lock) by set_solver.
      rewrite <- (ip_held _ _ _ _ Hip). reflexivity.
  - split; try done. apply images_wake.
  - split; [| |done|by destruct Hip1|apply H].
    + cbn. unfold bufs'. destruct (b_refcnt z =? 0); [|by exists order].
      destruct (list_elem_of_split order b) as (l1 & l2 & Eo); [by apply (lru_in _ _ _ Hl)|]. rewrite Eo in Hlz.
      eexists. by apply lru_to_front.
    + cbn. unfold bufs'. destruct (b_refcnt z =? 0); [by rewrite cores_to_front|done].
Qed.

Lemma runs_set_data s C d b x v :
  cached s C d -> (b < NBUF)%nat -> C !! b = Some x -> sl_locked (b_lock x) <> 0 ->
  exists s', runs (mod_buf b (set_b_data v)) s tt s' /\ disk_frame s s' /\
    cached s' (<[b := set_b_data v x]> C) d.
Proof.
  intros H Hb Hx Hlk. destruct (cores_lookup _ _ _ _ _ H Hx) as (y & Hy & Ey).
  eexists. split; [by apply (runs_mod_buf b _ y)|]. split; [by split|].
  eapply (cached_insert s _ C d b (set_b_data v x) y); [done|apply now_set_bufs; apply H|done|done|done| |].
  - rewrite <- Ey. reflexivity.
  - eapply cache_update; [apply H|done|done| |done|done].
    destruct (ca_buf _ _ (cd_ok _ _ _ H) _ _ Hb Hx) as [E1 E2 E3 E4]. split; [done|done|done|].
    intros _ E. done.
Qed.

(** ** The cache in the abstract

    What the users of the cache see: the blocks in use, each with its buffer, the
    number of its users and its contents, and the blocks that the process has
    locked.  A block that is not in use is what the disk holds. *)

Record pin := mk_pin {
  pn_buf : nat;
  pn_ref : Z;
  pn_data : list Z;
}.

Definition unlocked (x : buf) : Prop := sl_locked (b_lock x) = 0.

Record pinned_at (C : list buf) (L : gset Z) (n : Z) (p : pin) (x : buf) : Prop := {
  pa_lt : (pn_buf p < NBUF)%nat;
  pa_lookup : C !! pn_buf p = Some x;
  pa_dev : b_dev x = dev;
  pa_blockno : b_blockno x = n;
  pa_refcnt : b_refcnt x = pn_ref p;
  pa_data : b_data x = pn_data p;
  pa_lock : if decide (n ∈ L) then b_lock x = mk_sleeplock 1 pid else unlocked x;
}.

Record users (C : list buf) (pins : gmap Z pin) (L : gset Z) : Prop := {
  us_pinned : forall n p, pins !! n = Some p -> exists x, pinned_at C L n p x;
  us_free : forall b x, (b < NBUF)%nat -> C !! b = Some x ->
    (exists p, b_dev x = dev /\ pins !! b_blockno x = Some p /\ pn_buf p = b) \/
    (b_refcnt x = 0 /\ unlocked x);
  us_locks : L ⊆ dom pins;
}.

(** [acache s d pins L]: the cache of the state is the abstract one. *)

Definition acache (s : kst) (d : disk) (pins : gmap Z pin) (L : gset Z) : Prop :=
  exists C, cached s C d /\ users C pins L.

(** The contents of a block, as a reader gets them. *)

Definition seen (d : disk) (pins : gmap Z pin) (n : Z) : list Z :=
  match pins !! n with Some p => pn_data p | None => d n end.

Definition refs (pins : gmap Z pin) (n : Z) : Z :=
  match pins !! n with Some p => pn_ref p | None => 0 end.

(** Two blocks in use are in two buffers. *)

Lemma pins_inj C pins L n1 n2 p1 p2 :
  users C pins L -> pins !! n1 = Some p1 -> pins !! n2 = Some p2 -> pn_buf p1 = pn_buf p2 -> n1 = n2.
Proof.
  intros H H1 H2 E. destruct (us_pinned _ _ _ H _ _ H1) as (x1 & [_ Hx1 _ E1 _ _ _]).
  destruct (us_pinned _ _ _ H _ _ H2) as (x2 & [_ Hx2 _ E2 _ _ _]).
  rewrite E, Hx2 in Hx1. injection Hx1 as ->. congruence.
Qed.

(** A buffer is free while fewer blocks are in use than there are buffers. *)

Lemma free_exists C pins L d :
  users C pins L -> cache_ok C d -> (size pins < NBUF)%nat ->
  exists b x, (b < NBUF)%nat /\ C !! b = Some x /\ b_refcnt x = 0.
Proof.
  intros Hu Hok Hs.
  assert (Hex : exists b, (b < NBUF)%nat /\ b ∉ (pn_buf <$> (map_to_list pins).*2)).
  { destruct (decide (Forall (fun b => b ∈ (pn_buf <$> (map_to_list pins).*2)) (seq 0 NBUF))) as [Hall|Hn].
    - exfalso. assert (seq 0 NBUF ⊆+ (pn_buf <$> (map_to_list pins).*2)) as Hsub.
      { apply NoDup_submseteq; [apply NoDup_seq|]. intros b Hb. rewrite Forall_forall in Hall. by apply Hall. }
      apply submseteq_length in Hsub. rewrite length_seq, !length_fmap, length_map_to_list in Hsub. lia.
    - apply not_Forall_Exists in Hn; [|intros ?; apply _]. apply Exists_exists in Hn as (b & Hb & Hnb).
      exists b. apply elem_of_seq in Hb. split; [lia|done]. }
  destruct Hex as (b & Hb & Hn). destruct (lookup_lt_is_Some_2 C b) as [x Hx]; [rewrite (ca_len _ _ Hok); lia|].
  exists b, x. split; [done|]. split; [done|].
  destruct (us_free _ _ _ Hu b x Hb Hx) as [(p & _ & Hp & Eb)|[Hr _]]; [|done]. exfalso. apply Hn.
  apply list_elem_of_fmap. exists p. split; [done|]. apply list_elem_of_fmap.
  exists (b_blockno x, p). split; [done|]. by apply elem_of_map_to_list.
Qed.

(** A buffer of the cache becomes the one of block [n]. *)

Lemma users_insert C pins L L' b x y n p :
  users C pins L -> (b < NBUF)%nat -> C !! b = Some x ->
  b_dev y = dev -> b_blockno y = n -> b_refcnt y = pn_ref p -> b_data y = pn_data p -> pn_buf p = b ->
  (if decide (n ∈ L') then b_lock y = mk_sleeplock 1 pid else unlocked y) ->
  (forall m, m <> n -> m ∈ L' <-> m ∈ L) ->
  (forall m q, pins !! m = Some q -> pn_buf q = b <-> m = n) ->
  users (<[b := y]> C) (<[n := p]> pins) L'.
Proof.
  intros [H1 H2 H3] Hb Hx Ed En Er Ev Eb Hlk HL Hpb.
  assert (Hlt : (b < length C)%nat) by (by eapply lookup_lt_Some). split.
  - intros m q. rewrite lookup_insert_Some. intros [[<- <-]|[Hne Hq]].
    + exists y. split; [by rewrite Eb|rewrite Eb; by apply list_lookup_insert_eq|done..].
    + destruct (H1 m q Hq) as (z & [P1 P2 P3 P4 P5 P6 P7]). exists z.
      assert (pn_buf q <> b) by (intros E; apply Hne; symmetry; by apply (Hpb m q Hq)).
      split; [done|by rewrite list_lookup_insert_ne by congruence|done..|].
      destruct (decide (m ∈ L')) as [Hi|Hi], (decide (m ∈ L)) as [Hj|Hj]; [done| | |done];
        rewrite (HL m) in Hi by congruence; done.
  - intros b' z Hb' Hz. apply list_lookup_insert_Some in Hz as [(<- & <- & _)|[Hne Hz]].
    + left. exists p. rewrite En. split; [done|]. by rewrite lookup_insert_eq.
    + destruct (H2 b' z Hb' Hz) as [(q & P1 & P2 & P3)|Hf]; [|by right]. left. exists q.
      split; [done|]. split; [|done]. rewrite lookup_insert_ne; [done|].
      intros E. apply Hne. rewrite <- P3. symmetry. by apply (Hpb _ q P2).
  - intros m Hm. destruct (decide (m = n)) as [->|Hne]; [set_solver|]. apply (HL m Hne) in Hm. set_solver.
Qed.

(** Block [n] is no longer in use. *)

Lemma users_delete C pins L b x y n p :
  users C pins L -> pins !! n = Some p -> pn_buf p = b -> (b < NBUF)%nat -> C !! b = Some x ->
  b_refcnt y = 0 -> unlocked y -> users (<[b := y]> C) (delete n pins) (L ∖ {[n]}).
Proof.
  intros Hu Hp Eb Hb Hx Hr Hl. pose proof Hu as [H1 H2 H3].
  assert (Hlt : (b < length C)%nat) by (by eapply lookup_lt_Some). split.
  - intros m q. rewrite lookup_delete_Some. intros [Hne Hq].
    destruct (H1 m q Hq) as (z & [P1 P2 P3 P4 P5 P6 P7]). exists z.
    assert (pn_buf q <> b) by (intros E; apply Hne; eapply pins_inj; [done|done|done|congruence]).
    split; [done|by rewrite list_lookup_insert_ne by congruence|done..|].
    destruct (decide (m ∈ L ∖ {[n]})), (decide (m ∈ L)); try done; set_solver.
  - intros b' z Hb' Hz. apply list_lookup_insert_Some in Hz as [(<- & <- & _)|[Hne Hz]]; [by right|].
    destruct (H2 b' z Hb' Hz) as [(q & P1 & P2 & P3)|Hf]; [|by right]. left. exists q.
    split; [done|]. split; [|done]. rewrite lookup_delete_ne; [done|]. intros E. apply Hne.
    rewrite <- E, Hp in P2. injection P2 as <-. congruence.
  - intros m Hm. set_solver.
Qed.

(** *** The operations on the abstract cache *)

Definition in_use (pins : gmap Z pin) : Prop := map_Forall (fun _ p => 1 <= pn_ref p) pins.

(** What bread needs of the cache, and the cache after it. *)

Record readable (pins : gmap Z pin) (L : gset Z) (n : Z) : Prop := {
  rd_range : 0 <= n < 2 ^ 31;
  rd_unlocked : n ∉ L;
  rd_used : in_use pins;
  rd_refs : refs pins n + 1 < 2 ^ 32;
  rd_room : n ∈ dom pins \/ (size pins < NBUF)%nat;
}.

Definition read_pin (d : disk) (pins : gmap Z pin) (n : Z) (b : nat) : pin :=
  mk_pin b (refs pins n + 1) (seen d pins n).

Lemma users_missing C pins L n :
  users C pins L -> pins !! n = None ->
  (exists b x, (b < NBUF)%nat /\ C !! b = Some x /\ b_dev x = dev /\ b_blockno x = n /\
    b_refcnt x = 0 /\ unlocked x) \/ missing C n.
Proof.
  intros Hu Hn.
  set (f b := match C !! b with Some x => (b_dev x =? dev) && (b_blockno x =? n) | None => false end).
  destruct (decide (Exists (fun b => f b = true) (seq 0 NBUF))) as [He|He].
  - left. apply Exists_exists in He as (b & Hb & Hx). apply elem_of_seq in Hb. unfold f in Hx.
    destruct (C !! b) as [x|] eqn:E; [|done]. apply andb_prop in Hx as [Hd%Z.eqb_eq En%Z.eqb_eq]. exists b, x.
    destruct (us_free _ _ _ Hu b x ltac:(lia) E) as [(p & _ & Hp & _)|[Hr Hl]]; [congruence|].
    split; [lia|]. done.
  - right. intros b x Hb Hx Hd En. apply He. apply Exists_exists. exists b.
    split; [apply elem_of_seq; lia|]. unfold f. by rewrite Hx, Hd, En, !Z.eqb_refl.
Qed.

(** The buffer of a block in use is used by that block only. *)

Lemma pin_buf_iff C pins L n p :
  users C pins L -> pins !! n = Some p ->
  forall m q, pins !! m = Some q -> pn_buf q = pn_buf p <-> m = n.
Proof. intros Hu Hp m q Hq. split; [by intros E; eapply pins_inj|]. intros ->. congruence. Qed.

Lemma free_buf_iff C pins L n b x :
  users C pins L -> pins !! n = None -> C !! b = Some x -> in_use pins -> b_refcnt x = 0 ->
  forall m q, pins !! m = Some q -> pn_buf q = b <-> m = n.
Proof.
  intros Hu Hn Hx Hin Hr m q Hq. split; [|intros ->; congruence]. intros <-. exfalso.
  destruct (us_pinned _ _ _ Hu _ _ Hq) as (z & Hz). pose proof (Hin _ _ Hq) as Hge. cbn in Hge.
  rewrite <- (pa_refcnt _ _ _ _ _ Hz) in Hge. rewrite (pa_lookup _ _ _ _ _ Hz) in Hx. injection Hx as ->. lia.
Qed.

(** bread: the block is locked and has one user more; a block that is in a buffer is
    not read from the disk. *)

Lemma drun_bread s d pins L n :
  acache s d pins L -> readable pins L n ->
  exists b s' ds, drun i (bread dev n) s d ds b s' /\ Forall (eq d) ds /\ disk_frame s s' /\
    acache s' d (<[n := read_pin d pins n b]> pins) ({[n]} ∪ L) /\
    (forall p, pins !! n = Some p -> b = pn_buf p).
Proof.
  intros (C & Hc & Hu) [Hn HL Hin Hrf Hroom]. unfold read_pin, refs, seen in *.
  assert (HL' : forall m, m <> n -> m ∈ {[n]} ∪ L <-> m ∈ L) by set_solver.
  assert (Hself : forall P Q : Prop, P -> if decide (n ∈ {[n]} ∪ L) then P else Q)
    by (intros P Q HP; destruct (decide _); [done|set_solver]).
  destruct (pins !! n) as [p|] eqn:Hp.
  - destruct (us_pinned _ _ _ Hu _ _ Hp) as (x & [P1 P2 P3 P4 P5 P6 P7]).
    destruct (decide (n ∈ L)) as [|_]; [done|].
    destruct (drun_bread_hit s C d (pn_buf p) x Hc P1 P2 P3 P7 ltac:(lia)) as (s' & Hr & Hf & Hc').
    rewrite P4 in Hr. exists (pn_buf p), s', []. split; [done|]. split; [done|]. split; [done|].
    split; [|by intros q [= <-]]. eexists. split; [exact Hc'|].
    eapply users_insert; [done|done|done|done|done|cbn; lia|done|done|by apply Hself|done|by eapply pin_buf_iff].
  - destruct (users_missing _ _ _ _ Hu Hp) as [(b & x & Hb & Hx & Hd & En & Hr0 & Hl)|Hm].
    + destruct (drun_bread_hit s C d b x Hc Hb Hx Hd Hl ltac:(lia)) as (s' & Hr & Hf & Hc').
      rewrite En in Hr. exists b, s', []. split; [done|]. split; [done|]. split; [done|].
      split; [|done]. eexists. split; [exact Hc'|].
      eapply users_insert; [done|done|done|done|done|cbn; lia| |done|by apply Hself|done|by eapply free_buf_iff].
      cbn. rewrite <- En. by apply (bo_free _ _ (ca_buf _ _ (cd_ok _ _ _ Hc) _ _ Hb Hx)).
    + assert (Hsz : (size pins < NBUF)%nat) by (destruct Hroom as [Hd|]; [by apply elem_of_dom in Hd as [? ?]; congruence|done]).
      destruct (drun_bread_miss s C d n Hc Hn Hm (free_exists _ _ _ _ Hu (cd_ok _ _ _ Hc) Hsz))
        as (b & x & s' & Hr & Hf & Hb & Hx & Hr0 & Hc').
      { intros b x Hb Hx Hr0. destruct (us_free _ _ _ Hu b x Hb Hx) as [(p & Hd & Hq & Eb)|[_ Hl]]; [|done].
        exfalso. pose proof (free_buf_iff _ _ _ n b x Hu Hp Hx Hin Hr0 _ _ Hq) as [H _]. specialize (H Eb). congruence. }
      exists b, s', [d]. split; [done|]. split; [by constructor|]. split; [done|]. split; [|done].
      eexists. split; [exact Hc'|].
      eapply users_insert; [done|done|done|done|done|done|done|done|by apply Hself|done|by eapply free_buf_iff].
Qed.

(** A block that the process holds. *)

Lemma locked_pin C pins L n p :
  users C pins L -> n ∈ L -> pins !! n = Some p ->
  exists x, pinned_at C L n p x /\ b_lock x = mk_sleeplock 1 pid.
Proof.
  intros Hu Hn Hp. destruct (us_pinned _ _ _ Hu _ _ Hp) as (x & Hx). exists x. split; [done|].
  pose proof (pa_lock _ _ _ _ _ Hx) as H. by destruct (decide (n ∈ L)).
Qed.

(** The data and the number of users of a block that the process holds change. *)

Lemma users_alter C pins L n p x y q :
  users C pins L -> n ∈ L -> pins !! n = Some p -> pinned_at C L n p x -> b_lock x = mk_sleeplock 1 pid ->
  b_dev y = b_dev x -> b_blockno y = b_blockno x -> b_lock y = b_lock x ->
  b_refcnt y = pn_ref q -> b_data y = pn_data q -> pn_buf q = pn_buf p ->
  users (<[pn_buf p := y]> C) (<[n := q]> pins) L.
Proof.
  intros Hu Hn Hp [P1 P2 P3 P4 P5 P6 P7] Hl Ed En El Er Ev Eb.
  eapply users_insert; [done|done|done|congruence|congruence|done|done|done| |done|by eapply pin_buf_iff].
  destruct (decide (n ∈ L)); [congruence|done].
Qed.

Lemma pin_lookup s d pins L n p :
  acache s d pins L -> pins !! n = Some p ->
  exists x, k_bufs s !! pn_buf p = Some x /\ b_data x = pn_data p /\ b_blockno x = n.
Proof.
  intros (C & Hc & Hu) Hp. destruct (us_pinned _ _ _ Hu _ _ Hp) as (x & [P1 P2 P3 P4 P5 P6 P7]).
  destruct (cores_lookup _ _ _ _ _ Hc P2) as (y & Hy & <-). by exists y.
Qed.

Lemma runs_get_pin s d pins L n p :
  acache s d pins L -> pins !! n = Some p ->
  exists x, runs (get_buf (pn_buf p)) s x s /\ b_data x = pn_data p /\ b_blockno x = n.
Proof.
  intros Hc Hp. destruct (pin_lookup _ _ _ _ _ _ Hc Hp) as (x & Hx & H). exists x. split; [by apply runs_get_buf|done].
Qed.

Lemma runs_fill s d pins L n p v :
  acache s d pins L -> n ∈ L -> pins !! n = Some p ->
  exists s', runs (mod_buf (pn_buf p) (set_b_data v)) s tt s' /\ disk_frame s s' /\
    acache s' d (<[n := mk_pin (pn_buf p) (pn_ref p) v]> pins) L.
Proof.
  intros (C & Hc & Hu) Hn Hp. destruct (locked_pin _ _ _ _ _ Hu Hn Hp) as (x & Hx & Hl).
  pose proof Hx as [P1 P2 P3 P4 P5 P6 P7].
  destruct (runs_set_data s C d (pn_buf p) x v Hc P1 P2) as (s' & Hr & Hf & Hc'); [by rewrite Hl|].
  exists s'. split; [done|]. split; [done|]. eexists. split; [exact Hc'|]. by eapply users_alter.
Qed.

Lemma drun_bwrite_pin s d pins L n p :
  acache s d pins L -> n ∈ L -> pins !! n = Some p ->
  let d' := write_block d n (pn_data p) in
  exists s', drun i (bwrite (pn_buf p)) s d [d'] tt s' /\ disk_frame s s' /\ acache s' d' pins L.
Proof.
  intros (C & Hc & Hu) Hn Hp d'. destruct (locked_pin _ _ _ _ _ Hu Hn Hp) as (x & [P1 P2 P3 P4 P5 P6 P7] & Hl).
  destruct (drun_bwrite s C d (pn_buf p) x Hc P1 P2 P3 Hl) as (s' & Hr & Hf & Hc').
  rewrite P4, P6 in Hr, Hc'. exists s'. split; [done|]. split; [done|]. by exists C.
Qed.

Lemma runs_bunpin_pin s d pins L n p :
  acache s d pins L -> n ∈ L -> pins !! n = Some p -> 1 <= pn_ref p ->
  exists s', runs (bunpin (pn_buf p)) s tt s' /\ disk_frame s s' /\
    acache s' d (<[n := mk_pin (pn_buf p) (pn_ref p - 1) (pn_data p)]> pins) L.
Proof.
  intros (C & Hc & Hu) Hn Hp Hr1. destruct (locked_pin _ _ _ _ _ Hu Hn Hp) as (x & Hx & Hl).
  pose proof Hx as [P1 P2 P3 P4 P5 P6 P7].
  destruct (runs_bunpin s C d (pn_buf p) x Hc P1 P2) as (s' & Hr & Hf & Hc'); [lia|by rewrite Hl|].
  exists s'. split; [done|]. split; [done|]. eexists. split; [exact Hc'|].
  eapply users_alter; [done|done|done|done|done|done|done|done|cbn; lia|done|done].
Qed.

Lemma runs_bpin_pin s d pins L n p :
  acache s d pins L -> n ∈ L -> pins !! n = Some p -> pn_ref p + 1 < 2 ^ 32 ->
  exists s', runs (bpin (pn_buf p)) s tt s' /\ disk_frame s s' /\
    acache s' d (<[n := mk_pin (pn_buf p) (pn_ref p + 1) (pn_data p)]> pins) L.
Proof.
  intros (C & Hc & Hu) Hn Hp Hr1. destruct (locked_pin _ _ _ _ _ Hu Hn Hp) as (x & Hx & Hl).
  pose proof Hx as [P1 P2 P3 P4 P5 P6 P7].
  destruct (runs_bpin s C d (pn_buf p) x Hc P1 P2) as (s' & Hr & Hf & Hc'); [lia|].
  exists s'. split; [done|]. split; [done|]. eexists. split; [exact Hc'|].
  eapply users_alter; [done|done|done|done|done|done|done|done|cbn; lia|done|done].
Qed.

(** bpin inside another critical section. *)

Lemma runs_bpin_held s d pins L n p h :
  acache s d pins L -> n ∈ L -> pins !! n = Some p -> pn_ref p + 1 < 2 ^ 32 -> Lbcache ∉ h ->
  exists bufs, runs (bpin (pn_buf p)) (set_k_held h s) tt (set_k_bufs bufs (set_k_held h s)) /\
    acache (set_k_bufs bufs s) d (<[n := mk_pin (pn_buf p) (pn_ref p + 1) (pn_data p)]> pins) L.
Proof.
  intros (C & Hc & Hu) Hn Hp Hr1 Hh. destruct (locked_pin _ _ _ _ _ Hu Hn Hp) as (x & Hx & Hl).
  pose proof Hx as [P1 P2 P3 P4 P5 P6 P7].
  pose proof (bo_refcnt _ _ (ca_buf _ _ (cd_ok _ _ _ Hc) _ _ P1 P2)) as Hrc.
  destruct (cached_refcnt s C d (pn_buf p) x (b_refcnt x + 1) Hc P1 P2) as (y & Hy & Ey & Hc'); [lia|lia|].
  assert (b_refcnt y = b_refcnt x) as E by (change (b_refcnt (core y) = b_refcnt x); by rewrite Ey).
  eexists. split; [|eexists; split; [exact Hc'|]].
  - eapply runs_bind; [by apply runs_acquire|]. eapply runs_bind; [by apply (runs_mod_buf (pn_buf p) _ y)|].
    eapply runs_release_to; [cbn; set_solver|]. cbn. rewrite E, u32_small by lia.
    replace (({[Lbcache]} ∪ h) ∖ {[Lbcache]} : gset lock) with h by set_solver. reflexivity.
  - eapply users_alter; [done|done|done|done|done|done|done|done|cbn; lia|done|done].
Qed.

(** A block with [r] users: none, and it is not in use. *)

Definition put_pin (n : Z) (b : nat) (r : Z) (v : list Z) (pins : gmap Z pin) : gmap Z pin :=
  if r =? 0 then delete n pins else <[n := mk_pin b r v]> pins.

(** brelse: the last user must leave the block as it is on the disk. *)

Lemma runs_brelse_pin s d pins L n p :
  acache s d pins L -> n ∈ L -> pins !! n = Some p ->
  (u32 (pn_ref p - 1) = 0 -> pn_data p = d n) ->
  exists s', runs (brelse (pn_buf p)) s tt s' /\ disk_frame s s' /\
    acache s' d (put_pin n (pn_buf p) (u32 (pn_ref p - 1)) (pn_data p) pins) (L ∖ {[n]}).
Proof.
  intros (C & Hc & Hu) Hn Hp Hcl. destruct (locked_pin _ _ _ _ _ Hu Hn Hp) as (x & Hx & Hl).
  pose proof Hx as [P1 P2 P3 P4 P5 P6 P7].
  destruct (runs_brelse s C d (pn_buf p) x Hc P1 P2 Hl) as (s' & Hr & Hf & Hc').
  { rewrite P5, P6, P4. intros E _. by apply Hcl. }
  exists s'. split; [done|]. split; [done|]. eexists. split; [exact Hc'|]. unfold put_pin, released.
  rewrite P5. destruct (Z.eqb_spec (u32 (pn_ref p - 1)) 0) as [E|E].
  - by eapply users_delete.
  - eapply users_insert; [done|done|done|done|done|done|done|done| |set_solver|by eapply pin_buf_iff].
    destruct (decide (n ∈ L ∖ {[n]})) as [Hd|]; [|done]. apply elem_of_difference in Hd as [_ Hd].
    exfalso. by apply Hd, elem_of_singleton.
Qed.

(** ** binit *)

(** A buffer put into the list by binit. *)

Definition entered (b : nat) (bufs : list buf) : list buf :=
  let first := nxt bufs bhead in
  alter (set_b_next b) bhead (alter (set_b_prev b) first
    (alter (set_b_lock (mk_sleeplock 0 0)) b (alter (set_b_prev bhead) b (alter (set_b_next first) b bufs)))).

Lemma nxt_alter_lock v x bufs z : nxt (alter (set_b_lock v) x bufs) z = nxt bufs z.
Proof.
  unfold nxt. destruct (decide (z = x)) as [->|Hne]; [|by rewrite list_lookup_alter_ne].
  rewrite list_lookup_alter_eq. by destruct (bufs !! x).
Qed.

Lemma prv_alter_lock v x bufs z : prv (alter (set_b_lock v) x bufs) z = prv bufs z.
Proof.
  unfold prv. destruct (decide (z = x)) as [->|Hne]; [|by rewrite list_lookup_alter_ne].
  rewrite list_lookup_alter_eq. by destruct (bufs !! x).
Qed.

Lemma cores_alter_core f x bufs :
  (forall y, core (f y) = f (core y)) -> cores (alter f x bufs) = alter f x (cores bufs).
Proof.
  intros H. unfold cores. apply list_eq. intros z. destruct (decide (z = x)) as [->|Hne].
  - rewrite list_lookup_fmap, !list_lookup_alter_eq, list_lookup_fmap. destruct (bufs !! x); cbn; [by rewrite H|done].
  - by rewrite list_lookup_fmap, !list_lookup_alter_ne, list_lookup_fmap.
Qed.

Lemma cores_entered b bufs :
  cores (entered b bufs) = alter (set_b_lock (mk_sleeplock 0 0)) b (cores bufs).
Proof.
  unfold entered. rewrite (cores_alter (set_b_next _)), (cores_alter (set_b_prev _)) by done.
  rewrite cores_alter_core by done. by rewrite !cores_alter.
Qed.

(** The list after the buffers below [j] have been entered. *)

Record entering (bufs0 : list buf) (j : nat) (bufs : list buf) : Prop := {
  en_len : length bufs = length bufs0;
  en_ring : dl (nxt bufs) (prv bufs) bhead (rev (seq 0 j)) bhead;
  en_cores : forall b, cores bufs !! b =
    (if decide (b < j)%nat then set_b_lock (mk_sleeplock 0 0) else id) <$> (cores bufs0 !! b);
}.

Lemma entering_links bufs0 b bufs :
  entering bufs0 b bufs -> length bufs0 = S NBUF -> (b < NBUF)%nat ->
  (nxt bufs bhead < length bufs)%nat /\
  dl (nxt (entered b bufs)) (prv (entered b bufs)) bhead (rev (seq 0 (S b))) bhead.
Proof.
  intros [Hl Hr _] Hlen Hb. rewrite seq_S, rev_app_distr. cbn [rev app Nat.add].
  assert (Hin : forall x, x ∈ rev (seq 0 b) -> (x < b)%nat) by (intros x Hx; apply elem_of_rev, elem_of_seq in Hx; lia).
  assert (Hlt : forall x, x ∈ bhead :: b :: rev (seq 0 b) -> (x < length bufs)%nat).
  { intros x Hx. rewrite Hl, Hlen. rewrite !elem_of_cons in Hx. unfold bhead in Hx.
    destruct Hx as [->|[->|Hx%Hin]]; lia. }
  assert (Hnb : b ∉ bhead :: rev (seq 0 b)).
  { rewrite elem_of_cons. unfold bhead. intros [->|Hx%Hin]; lia. }
  assert (Hnd : NoDup (bhead :: rev (seq 0 b))).
  { apply NoDup_cons. split; [intros Hx%Hin; unfold bhead in Hx; lia|].
    rewrite <- (Permutation_rev (seq 0 b)). apply NoDup_seq. }
  pose proof (dl_first _ _ Hr) as Hf. split; [apply Hlt; set_solver|].
  assert (Hb1 : (b < length bufs)%nat) by (apply Hlt; set_solver).
  assert (Hb2 : (bhead < length bufs)%nat) by (apply Hlt; set_solver).
  assert (Hb3 : (nxt bufs bhead < length bufs)%nat) by (apply Hlt; set_solver).
  eapply dl_ext; [| |exact (dl_linked bufs b _ Hlt Hnb Hnd Hr)]; intros z _; unfold linked, entered.
  - rewrite !(nxt_alter_next _ bhead) by (by rewrite !length_alter). unfold fupd.
    by rewrite !nxt_alter_prev, nxt_alter_lock, nxt_alter_prev.
  - rewrite !prv_alter_next, !(prv_alter_prev _ (nxt bufs bhead)) by (by rewrite !length_alter). unfold fupd.
    by rewrite prv_alter_lock.
Qed.

Lemma runs_enter s b :
  (bhead < length (k_bufs s))%nat -> (b < length (k_bufs s))%nat -> b <> bhead ->
  (nxt (k_bufs s) bhead < length (k_bufs s))%nat ->
  runs (h <- get_buf bhead ;;
        mod_buf b (set_b_next (b_next h)) ;;
        mod_buf b (set_b_prev bhead) ;;
        initsleeplock (SBuf b) ;;
        h <- get_buf bhead ;;
        mod_buf (b_next h) (set_b_prev b) ;;
        mod_buf bhead (set_b_next b)) s tt (set_k_bufs (entered b (k_bufs s)) s).
Proof.
  intros Hh Hb Hne Hn. apply runs_link_self; [done|done|].
  eapply runs_bind; [apply runs_alter; cbn; by rewrite !length_alter|]. cbn [k_bufs set_k_bufs].
  match goal with |- runs _ ?t _ _ => pose proof (runs_link_others t b) as Ho end.
  cbn [k_bufs set_k_bufs] in Ho. rewrite !length_alter, !nxt_alter_ne in Ho by done. by apply Ho.
Qed.

Lemma entering_next bufs0 b bufs :
  entering bufs0 b bufs -> length bufs0 = S NBUF -> (b < NBUF)%nat -> entering bufs0 (S b) (entered b bufs).
Proof.
  intros He Hlen Hb. pose proof He as [H1 H2 H3]. split.
  - unfold entered. by rewrite !length_alter.
  - by eapply entering_links.
  - intros z. rewrite cores_entered. destruct (decide (z = b)) as [->|Hne].
    + rewrite list_lookup_alter_eq, H3, decide_False, decide_True by lia. by destruct (cores bufs0 !! b).
    + rewrite list_lookup_alter_ne, H3 by done. destruct (decide (z < b)%nat); [by rewrite decide_True by lia|].
      by rewrite decide_False by lia.
Qed.

Lemma runs_binit_from bufs0 k : forall j s,
  length bufs0 = S NBUF -> (j + k = NBUF)%nat -> entering bufs0 j (k_bufs s) ->
  exists bufs, runs (for_each (seq j k) (fun b =>
    h <- get_buf bhead ;;
    mod_buf b (set_b_next (b_next h)) ;;
    mod_buf b (set_b_prev bhead) ;;
    initsleeplock (SBuf b) ;;
    h <- get_buf bhead ;;
    mod_buf (b_next h) (set_b_prev b) ;;
    mod_buf bhead (set_b_next b))) s tt (set_k_bufs bufs s) /\ entering bufs0 NBUF bufs.
Proof.
  induction k as [|k IH]; intros j s Hlen Hj He.
  - exists (k_bufs s). replace j with NBUF in He by lia. split; [|done]. by destruct s.
  - destruct (entering_links _ _ _ He Hlen ltac:(lia)) as [Hn _].
    destruct (IH (S j) (set_k_bufs (entered j (k_bufs s)) s)) as (bufs & Hr & Hb);
      [done|lia|apply entering_next; [done|done|lia]|].
    exists bufs. split; [|done]. pose proof (en_len _ _ _ He) as Hl. cbn [seq].
    eapply runs_for_each_cons; [apply runs_enter; unfold bhead in *; lia|]. exact Hr.
Qed.

(** What the buffers are when the kernel starts. *)

Definition blank (x : buf) : Prop := b_refcnt x = 0 /\ b_disk x = 0 /\ b_dev x <> dev.

(** A cache of which no buffer has been used. *)

Lemma acache_blank t d bufs order :
  k_bufs t = bufs -> lru bufs order ->
  (forall b x, (b < NBUF)%nat -> cores bufs !! b = Some x -> blank x /\ unlocked x) ->
  in_proc i pid ks t -> vd_idle (k_vdisk t) -> acache t d ∅ ∅.
Proof.
  intros Ht Hl Hb Hip Hid. exists (cores bufs). split; [split; [exists order; by rewrite Ht|by rewrite Ht| |done|done]|split].
  - split; [unfold cores; rewrite length_fmap; apply Hl| |].
    + intros b x Hlt Hx. destruct (Hb b x Hlt Hx) as [(H1 & H2 & H3) _]. split; [done|lia|done|done].
    + intros b1 b2 x1 x2 Hlt _ Hx _ [Hd _]. destruct (Hb b1 x1 Hlt Hx) as [(_ & _ & H3) _]. done.
  - intros n p Hp. by rewrite lookup_empty in Hp.
  - intros b x Hlt Hx. right. destruct (Hb b x Hlt Hx) as [(H1 & _) H2]. done.
  - set_solver.
Qed.

(** C24: binit makes the ring of the buffers: doubly linked, with every buffer once,
    the last one first.  The cache is then empty and well formed, for whatever disk
    the driver will be used with. *)

Theorem binit_wellformed s :
  length (k_bufs s) = S NBUF -> Forall blank (k_bufs s) ->
  exists bufs, runs binit s tt (set_k_bufs bufs s) /\ lru bufs (rev (seq 0 NBUF)) /\
    forall t d, k_bufs t = bufs -> in_proc i pid ks t -> vd_idle (k_vdisk t) -> acache t d ∅ ∅.
Proof.
  intros Hlen Hbl. set (b0 := alter (set_b_next bhead) bhead (alter (set_b_prev bhead) bhead (k_bufs s))).
  assert (Hl0 : length b0 = S NBUF) by (unfold b0; by rewrite !length_alter).
  assert (Hc0 : cores b0 = cores (k_bufs s)) by (unfold b0; by rewrite !cores_alter).
  destruct (runs_binit_from b0 NBUF 0 (set_k_bufs b0 s) Hl0 eq_refl) as (bufs & Hr & [E1 E2 E3]).
  { split; [done| |intros b; rewrite decide_False by lia; by rewrite option_fmap_id]. cbn [k_bufs set_k_bufs]. split.
    - unfold b0. rewrite nxt_alter_next by (rewrite length_alter; unfold bhead; lia). apply fupd_eq.
    - unfold b0. rewrite prv_alter_next, prv_alter_prev by (unfold bhead; lia). apply fupd_eq. }
  assert (Hlru : lru bufs (rev (seq 0 NBUF))).
  { split; [by rewrite E1|by rewrite <- Permutation_rev|done]. }
  exists bufs. split; [|split; [done|]].
  - unfold binit. eapply runs_bind; [apply runs_alter; unfold bhead; lia|].
    eapply runs_bind; [apply runs_alter; cbn; rewrite length_alter; unfold bhead; lia|]. exact Hr.
  - intros t d Ht Hip Hid. eapply acache_blank; [exact Ht|exact Hlru| |done|done].
    intros b x Hb Hx. rewrite E3, decide_True, Hc0 in Hx by done. unfold cores in Hx. rewrite list_lookup_fmap in Hx.
    destruct (k_bufs s !! b) as [y|] eqn:Ey; [|done]. injection Hx as <-.
    rewrite Forall_lookup in Hbl. split; [exact (Hbl b y Ey)|done].
Qed.

(** ** The cache refines the abstract one *)

Inductive cache_op :=
| ORead (n : Z)
| OFill (n : Z) (v : list Z)
| OWrite (n : Z)
| OPin (n : Z)
| OUnpin (n : Z)
| ORelease (n : Z).

Record acst := mk_acst {
  ac_disk : disk;
  ac_pins : gmap Z pin;
  ac_locked : gset Z;
}.

(** The operation on the buffer of the block. *)

Definition pin_of (st : acst) (n : Z) : pin := default (mk_pin 0 0 []) (ac_pins st !! n).

Definition op_code (st : acst) (o : cache_op) : K nat :=
  match o with
  | ORead n => bread dev n
  | OFill n v => let b := pn_buf (pin_of st n) in mod_buf b (set_b_data v) ;; ret b
  | OWrite n => let b := pn_buf (pin_of st n) in bwrite b ;; ret b
  | OPin n => let b := pn_buf (pin_of st n) in bpin b ;; ret b
  | OUnpin n => let b := pn_buf (pin_of st n) in bunpin b ;; ret b
  | ORelease n => let b := pn_buf (pin_of st n) in brelse b ;; ret b
  end.

(** When an operation may be used, and what it does. *)

Definition allowed (st : acst) (o : cache_op) : Prop :=
  match o with
  | ORead n => readable (ac_pins st) (ac_locked st) n
  | OFill n _ | OWrite n => n ∈ ac_locked st
  | OPin n => n ∈ ac_locked st /\ pn_ref (pin_of st n) + 1 < 2 ^ 32
  | OUnpin n => n ∈ ac_locked st /\ 1 <= pn_ref (pin_of st n)
  | ORelease n => n ∈ ac_locked st /\
      (u32 (pn_ref (pin_of st n) - 1) = 0 -> pn_data (pin_of st n) = ac_disk st n)
  end.

Definition effect (st : acst) (o : cache_op) (b : nat) : acst :=
  let '(mk_acst d pins L) := st in
  match o with
  | ORead n => mk_acst d (<[n := read_pin d pins n b]> pins) ({[n]} ∪ L)
  | OFill n v => mk_acst d (<[n := mk_pin b (pn_ref (pin_of st n)) v]> pins) L
  | OWrite n => mk_acst (write_block d n (pn_data (pin_of st n))) pins L
  | OPin n => mk_acst d (<[n := mk_pin b (pn_ref (pin_of st n) + 1) (pn_data (pin_of st n))]> pins) L
  | OUnpin n => mk_acst d (<[n := mk_pin b (pn_ref (pin_of st n) - 1) (pn_data (pin_of st n))]> pins) L
  | ORelease n => mk_acst d (put_pin n b (u32 (pn_ref (pin_of st n) - 1)) (pn_data (pin_of st n)) pins) (L ∖ {[n]})
  end.

Lemma pin_of_locked s d pins L n :
  acache s d pins L -> n ∈ L -> pins !! n = Some (pin_of (mk_acst d pins L) n).
Proof.
  intros (C & _ & Hu) Hn. apply (us_locks _ _ _ Hu), elem_of_dom in Hn as [p Hp].
  unfold pin_of. cbn. by rewrite Hp.
Qed.

(** An operation of the code that does not wait for the disk. *)

Lemma drun_op (m : K unit) (b : nat) s d s' : runs m s tt s' -> drun i (m ;; ret b) s d [] b s'.
Proof. intros H. apply drun_runs. eapply runs_bind; [exact H|apply runs_ret]. Qed.

(** C3: the buffer cache refines the abstract cache, in which a block has contents, a
    number of users and perhaps a holder.  Every operation that the abstract cache
    allows returns, does to the buffers and to the disk what it does to the abstract
    cache, and at every wait the disk is the one before or the one after it. *)

Theorem cache_refines s st o :
  acache s (ac_disk st) (ac_pins st) (ac_locked st) -> allowed st o ->
  exists b s' ds, let st' := effect st o b in
    drun i (op_code st o) s (ac_disk st) ds b s' /\ disk_frame s s' /\
    acache s' (ac_disk st') (ac_pins st') (ac_locked st') /\
    final (ac_disk st) ds = ac_disk st' /\ Forall (fun x => x = ac_disk st \/ x = ac_disk st') ds.
Proof.
  destruct st as [d pins L]. cbn [ac_disk ac_pins ac_locked]. intros Hc Ha. destruct o as [n|n v|n|n|n|n]; cbn in Ha |- *.
  - destruct (drun_bread s d pins L n Hc Ha) as (b & s' & ds & Hr & HF & Hf & Hc' & _).
    exists b, s', ds. split; [done|]. split; [done|]. split; [done|]. split.
    + unfold final. destruct (last ds) as [x|] eqn:E; [|done]. rewrite last_lookup in E.
      rewrite Forall_lookup in HF. symmetry. by eapply HF.
    + eapply Forall_impl; [exact HF|]. intros x <-. by left.
  - pose proof (pin_of_locked _ _ _ _ _ Hc Ha) as Hp.
    destruct (runs_fill _ _ _ _ _ _ v Hc Ha Hp) as (s' & Hr & Hf & Hc'). eexists _, s', []. by split; [by apply drun_op|].
  - pose proof (pin_of_locked _ _ _ _ _ Hc Ha) as Hp.
    destruct (drun_bwrite_pin _ _ _ _ _ _ Hc Ha Hp) as (s' & Hr & Hf & Hc').
    eexists _, s', [_]. split; [eapply drun_ret_seq; [exact Hr|apply runs_ret]|].
    split; [done|]. split; [done|]. split; [done|]. constructor; [by right|constructor].
  - destruct Ha as [Hn Hr1]. pose proof (pin_of_locked _ _ _ _ _ Hc Hn) as Hp.
    destruct (runs_bpin_pin _ _ _ _ _ _ Hc Hn Hp Hr1) as (s' & Hr & Hf & Hc'). eexists _, s', []. by split; [by apply drun_op|].
  - destruct Ha as [Hn Hr1]. pose proof (pin_of_locked _ _ _ _ _ Hc Hn) as Hp.
    destruct (runs_bunpin_pin _ _ _ _ _ _ Hc Hn Hp Hr1) as (s' & Hr & Hf & Hc'). eexists _, s', []. by split; [by apply drun_op|].
  - destruct Ha as [Hn Hr1]. pose proof (pin_of_locked _ _ _ _ _ Hc Hn) as Hp.
    destruct (runs_brelse_pin _ _ _ _ _ _ Hc Hn Hp Hr1) as (s' & Hr & Hf & Hc'). eexists _, s', []. by split; [by apply drun_op|].
Qed.

End Cache.
