(* ===== verification/Log.v ===== *)
(** * The write-ahead log (kernel/log.c)

    A transaction is the set of blocks that the file system calls between
    begin_op and end_op modified; commit writes them to the log area of the
    disk, writes the header, installs them and clears the header. *)

From S2P Require Import Prelude Monad Riscv Kstring Kstate Spinlock Printf Kalloc Vm Sched Bio.

Definition mod_log (f : log -> log) : K unit := modify (fun s => set_k_log (f (k_log s)) s).

(** log.lh.block[i]. *)

Definition lh_block (i : Z) : K Z := l <- gets k_log ;; valid (l_block l !! Z.to_nat i).
Definition set_lh_block (i v : Z) : K unit :=
  lh_block i ;; mod_log (fun l => set_l_block (<[Z.to_nat i := v]> (l_block l)) l).

(** Words inside a buffer's data. *)

Definition get_data (n : nat) (b : nat) (off : Z) : K Z :=
  x <- get_buf b ;; valid (le_get n (b_data x) off).
Definition put_data (n : nat) (b : nat) (off v : Z) : K unit :=
  x <- get_buf b ;;
  d <- valid (le_put n (b_data x) off v) ;;
  mod_buf b (set_b_data d).

Section Log.
Context `{KI : KernelImage}.

(** [for(i = 0; i < log.lh.n; i++) body]: log.lh.n is read every time, and an
    index out of log.lh.block ends the loop, so LOGSIZE + 1 rounds are enough. *)

Definition for_lh (body : Z -> K unit) : K unit :=
  loop (Z.to_nat LOGSIZE + 2) (fun i =>
    l <- gets k_log ;;
    if i <? l_n l then
      (if LOGSIZE <=? i then fault else body i ;; ret (inl (i + 1)))
    else ret (inr tt)) 0.

Definition install_trans : K unit :=
  for_lh (fun tail =>
    l <- gets k_log ;;
    lbuf <- bread (u32 (l_dev l)) (u32 (l_start l + tail + 1)) ;;
    l <- gets k_log ;;
    bn <- lh_block tail ;;
    dbuf <- bread (u32 (l_dev l)) (u32 bn) ;;
    x <- get_buf lbuf ;;
    mod_buf dbuf (set_b_data (b_data x)) ;;
    bwrite dbuf ;;
    bunpin dbuf ;;
    brelse lbuf ;;
    brelse dbuf).

Definition read_head : K unit :=
  l <- gets k_log ;;
  buf <- bread (u32 (l_dev l)) (u32 (l_start l)) ;;
  n <- get_data 4 buf 0 ;;
  mod_log (set_l_n (i32 n)) ;;
  for_lh (fun i =>
    v <- get_data 4 buf (4 + 4 * i) ;;
    set_lh_block i (i32 v)) ;;
  brelse buf.

Definition write_head : K unit :=
  l <- gets k_log ;;
  buf <- bread (u32 (l_dev l)) (u32 (l_start l)) ;;
  l <- gets k_log ;;
  put_data 4 buf 0 (l_n l) ;;
  for_lh (fun i =>
    v <- lh_block i ;;
    put_data 4 buf (4 + 4 * i) v) ;;
  bwrite buf ;;
  brelse buf.

Definition recover_from_log : K unit :=
  read_head ;;
  install_trans ;;
  mod_log (set_l_n 0) ;;
  write_head.

(** sizeof(struct logheader) is 4 + 4 * LOGSIZE. *)

Definition initlog (dev : Z) (sb : superblock) : K unit :=
  if BSIZE <=? 4 + 4 * LOGSIZE then panic "initlog: too big logheader" else
  mod_log (set_l_start (i32 (sb_logstart sb))) ;;
  mod_log (set_l_size (i32 (sb_nlog sb))) ;;
  mod_log (set_l_dev dev) ;;
  recover_from_log.

Definition begin_op : K unit :=
  acquire Llog ;;
  wait_loop (fun _ : unit =>
    l <- gets k_log ;;
    if negb (l_committing l =? 0) then sleep ChLog Llog ;; ret (inl tt)
    else if LOGSIZE <? l_n l + (l_outstanding l + 1) * MAXOPBLOCKS
    then sleep ChLog Llog ;; ret (inl tt)
    else
      mod_log (fun l => set_l_outstanding (l_outstanding l + 1) l) ;;
      release Llog ;;
      ret (inr tt)) tt.

Definition write_log : K unit :=
  for_lh (fun tail =>
    l <- gets k_log ;;
    to <- bread (u32 (l_dev l)) (u32 (l_start l + tail + 1)) ;;
    l <- gets k_log ;;
    bn <- lh_block tail ;;
    from <- bread (u32 (l_dev l)) (u32 bn) ;;
    x <- get_buf from ;;
    mod_buf to (set_b_data (b_data x)) ;;
    bwrite to ;;
    brelse from ;;
    brelse to).

Definition commit : K unit :=
  l <- gets k_log ;;
  if* 0 <? l_n l then
    write_log ;;
    write_head ;;
    install_trans ;;
    mod_log (set_l_n 0) ;;
    write_head.

Definition end_op : K unit :=
  acquire Llog ;;
  mod_log (fun l => set_l_outstanding (l_outstanding l - 1) l) ;;
  l <- gets k_log ;;
  if negb (l_committing l =? 0) then panic "log.committing" else
  do_commit <- (if l_outstanding l =? 0
                then mod_log (set_l_committing 1) ;; ret true
                else wakeup ChLog ;; ret false) ;;
  release Llog ;;
  if* do_commit then
    commit ;;
    acquire Llog ;;
    mod_log (set_l_committing 0) ;;
    wakeup ChLog ;;
    release Llog.

(** The index log_write's loop stops at: the first entry for the block, or
    log.lh.n. *)

Definition absorb_index (l : log) (blockno : Z) : nat :=
  match list_find (fun v => u32 v = blockno) (take (Z.to_nat (l_n l)) (l_block l)) with
  | Some (i, _) => i
  | None => Z.to_nat (l_n l)
  end.

Definition log_write (b : nat) : K unit :=
  l <- gets k_log ;;
  if (LOGSIZE <=? l_n l) || (l_size l - 1 <=? l_n l) then panic "too big a transaction" else
  if l_outstanding l <? 1 then panic "log_write outside of trans" else
  acquire Llog ;;
  x <- get_buf b ;;
  l <- gets k_log ;;
  let i := absorb_index l (b_blockno x) in
  set_lh_block (Z.of_nat i) (i32 (b_blockno x)) ;;
  (if* Z.of_nat i =? l_n l then
     bpin b ;;
     mod_log (fun l => set_l_n (l_n l + 1) l)) ;;
  release Llog.

End Log.
