(* ===== verification/Logspec.v ===== *)
(** * The write-ahead log: commit and recovery across crashes

    [wrun] is a run with the sequence of its writes of blocks; a crash leaves the
    disk after some prefix of them.  [view] is what recovery makes of a disk.
    commit changes the view in one step, whichever the crash point, and
    recover_from_log installs the view and can itself be interrupted. *)

From S2P Require Import Prelude Monad Riscv Kstring Kstate Spinlock Printf Kalloc Vm Sched Schedspec Bio Log Diskspec Cachespec.

(** ** The blocks of the disk and the log on it *)

(** The disk after a sequence of writes. *)

Definition do_writes (d : disk) (w : list (Z * list Z)) : disk :=
  foldl (fun d x => write_block d x.1 x.2) d w.

(** The header of the log: the number of blocks and the blocks. *)

Definition hdr_n (h : list Z) : Z := i32 (default 0 (le_get 4 h 0)).
Definition hdr_block (h : list Z) (i : nat) : Z := i32 (default 0 (le_get 4 h (4 + 4 * Z.of_nat i))).
Definition hdr_blocks (h : list Z) : list Z := hdr_block h <$> seq 0 (Z.to_nat (hdr_n h)).

(** The copy of block [i] in the log that starts at block [start]. *)

Definition log_block (start : Z) (i : nat) : Z := start + Z.of_nat i + 1.

(** What the log on the disk says should be written, and the disk after it. *)

Definition logged (start : Z) (d : disk) : list (Z * list Z) :=
  zip (hdr_blocks (d start)) ((fun i => d (log_block start i)) <$> seq 0 (length (hdr_blocks (d start)))).

Definition view (start : Z) (d : disk) : disk := do_writes d (logged start d).

(** A block that is not in the area of the log. *)

Definition home (start n : Z) : Prop := 0 <= n < 2 ^ 31 /\ ~ (start <= n < start + LOGSIZE).

Definition same_home (start : Z) (d1 d2 : disk) : Prop := forall n, home start n -> d1 n = d2 n.

(** A log that recovery can install: the blocks are distinct and outside of the
    log.  Recovery keeps the buffer of every block that it installs, and needs two
    more. *)

Record log_ok (start : Z) (d : disk) : Prop := {
  lo_len : length (d start) = Z.to_nat BSIZE;
  lo_n : 0 <= hdr_n (d start) < LOGSIZE;
  lo_distinct : NoDup (hdr_blocks (d start));
  lo_home : Forall (home start) (hdr_blocks (d start));
}.

(** The header that write_head writes. *)

Fixpoint put_blocks (h : list Z) (i : nat) (bns : list Z) : list Z :=
  match bns with
  | [] => h
  | bn :: bns' => put_blocks (list_inserts (4 + 4 * i) (le_bytes 4 bn) h) (S i) bns'
  end.

Definition put_header (bns : list Z) (h : list Z) : list Z :=
  put_blocks (list_inserts 0 (le_bytes 4 (Z.of_nat (length bns))) h) 0 bns.

(** ** Lemmas: writes *)

Lemma do_writes_app d w1 w2 : do_writes d (w1 ++ w2) = do_writes (do_writes d w1) w2.
Proof. apply foldl_app. Qed.

Lemma do_writes_other d w n : n ∉ w.*1 -> do_writes d w n = d n.
Proof.
  revert d; induction w as [|[m v] w IH]; intros d Hn; [done|]. cbn in *.
  rewrite IH by set_solver. unfold write_block. destruct (Z.eqb_spec n m) as [->|]; [set_solver|done].
Qed.

Lemma do_writes_at d w k n v :
  NoDup w.*1 -> w !! k = Some (n, v) -> do_writes d w n = v.
Proof.
  revert d k; induction w as [|[m u] w IH]; intros d k Hd Hk; [done|]. cbn in Hd.
  apply NoDup_cons in Hd as [Hm Hd]. destruct k as [|k].
  - injection Hk as -> ->. cbn. rewrite do_writes_other by done. unfold write_block. by rewrite Z.eqb_refl.
  - cbn. by eapply IH.
Qed.

(** A block after the writes depends on the block before them only. *)

Lemma do_writes_ext x y w n : x n = y n -> do_writes x w n = do_writes y w n.
Proof.
  revert x y; induction w as [|[m v] w IH]; intros x y E; [done|]. cbn. apply IH.
  unfold write_block. by destruct (n =? m).
Qed.

(** Writing the same to distinct blocks twice, first some of them, is writing it
    once. *)

Lemma do_writes_again d w k n : NoDup w.*1 -> do_writes (do_writes d (take k w)) w n = do_writes d w n.
Proof.
  intros Hd. destruct (decide (n ∈ w.*1)) as [Hn|Hn].
  - apply list_elem_of_fmap in Hn as ([m v] & -> & Hin). apply list_elem_of_lookup in Hin as [j Hj]. cbn.
    by rewrite !(do_writes_at _ w j m v).
  - rewrite !do_writes_other; [done|done| |done]. intros H. apply Hn.
    rewrite fmap_take in H. eapply elem_of_take in H as (j & Hj & _). by eapply list_elem_of_lookup_2.
Qed.

(** ** Lemmas: the header *)

Lemma le_get_nat n h (off : nat) :
  (off + n <= length h)%nat -> le_get n h (Z.of_nat off) = Some (le_value (take n (drop off h))).
Proof.
  intros H. unfold le_get. destruct (Z.ltb_spec (Z.of_nat off) 0); [lia|].
  destruct (Z.ltb_spec (Z.of_nat (length h)) (Z.of_nat off + Z.of_nat n)); [lia|]. by rewrite Nat2Z.id.
Qed.

Lemma length_put_blocks h i bns : length (put_blocks h i bns) = length h.
Proof. revert h i; induction bns as [|bn bns IH]; intros h i; [done|]. cbn [put_blocks]. by rewrite IH, length_inserts. Qed.

Lemma put_blocks_before n h i bns off :
  (off + n <= 4 + 4 * i)%nat -> take n (drop off (put_blocks h i bns)) = take n (drop off h).
Proof.
  revert h i; induction bns as [|bn bns IH]; intros h i H; [done|]. cbn [put_blocks].
  rewrite IH by lia. by apply take_drop_inserts_other; left.
Qed.

Lemma put_blocks_at h i bns j bn :
  (4 + 4 * (i + length bns) <= length h)%nat -> bns !! j = Some bn ->
  take 4 (drop (4 + 4 * (i + j)) (put_blocks h i bns)) = le_bytes 4 bn.
Proof.
  revert h i j; induction bns as [|b bns IH]; intros h i j Hl Hj; [done|]. cbn [put_blocks length] in *.
  destruct j as [|j].
  - injection Hj as ->. rewrite put_blocks_before by lia. rewrite Nat.add_0_r.
    apply (take_drop_inserts (le_bytes 4 bn) h); rewrite ?length_le_bytes; lia.
  - rewrite <- Nat.add_succ_comm. apply IH; [rewrite length_inserts; lia|done].
Qed.

Lemma i32_le_value z : 0 <= z < 2 ^ 31 -> i32 (le_value (le_bytes 4 z)) = z.
Proof. intros H. rewrite le_value_bytes, Z.mod_small, i32_small by lia. done. Qed.

Lemma length_put_header bns h : length (put_header bns h) = length h.
Proof. unfold put_header. by rewrite length_put_blocks, length_inserts. Qed.

Lemma hdr_n_put bns h :
  (4 + 4 * length bns <= length h)%nat -> Z.of_nat (length bns) < 2 ^ 31 ->
  hdr_n (put_header bns h) = Z.of_nat (length bns).
Proof.
  intros Hl Hn. unfold hdr_n. rewrite (le_get_nat 4 _ 0) by (rewrite length_put_header; lia). cbn [default from_option].
  unfold put_header. rewrite put_blocks_before by lia.
  rewrite (take_drop_inserts (le_bytes 4 _) h 0) by (rewrite ?length_le_bytes; lia). apply i32_le_value. lia.
Qed.

Lemma hdr_blocks_put bns h :
  (4 + 4 * length bns <= length h)%nat -> Z.of_nat (length bns) < 2 ^ 31 ->
  Forall (fun bn => 0 <= bn < 2 ^ 31) bns -> hdr_blocks (put_header bns h) = bns.
Proof.
  intros Hl Hn Hb. unfold hdr_blocks. rewrite hdr_n_put, Nat2Z.id by done. apply list_eq. intros j.
  rewrite list_lookup_fmap. destruct (bns !! j) as [bn|] eqn:E.
  - assert (Hj : (j < length bns)%nat) by (by eapply lookup_lt_Some). rewrite lookup_seq_lt by done. cbn. f_equal.
    unfold hdr_block. replace (4 + 4 * Z.of_nat j) with (Z.of_nat (4 + 4 * (0 + j))) by lia.
    rewrite le_get_nat by (rewrite length_put_header; lia). cbn [default from_option].
    unfold put_header. rewrite (put_blocks_at _ _ _ _ bn); [|rewrite length_inserts; lia|done].
    apply i32_le_value. rewrite Forall_lookup in Hb. by apply (Hb j).
  - rewrite lookup_seq_ge; [done|]. by apply lookup_ge_None.
Qed.

(** ** The writes of a commit *)

Section Commit.
Context (start : Z) (d : disk) (bns : list Z) (vs : list (list Z)).

(** To the log, to the header, to the blocks themselves, to the header. *)

Definition log_writes : list (Z * list Z) := zip (log_block start <$> seq 0 (length bns)) vs.
Definition home_writes : list (Z * list Z) := zip bns vs.

Definition commit_writes : list (Z * list Z) :=
  log_writes ++ (start, put_header bns (d start)) ::
  home_writes ++ [(start, put_header [] (put_header bns (d start)))].

Definition committed : disk := do_writes d home_writes.

Hypothesis Hlen : length vs = length bns.
Hypothesis Hmax : Z.of_nat (length bns) < LOGSIZE.
Hypothesis Hdis : NoDup bns.
Hypothesis Hhome : Forall (home start) bns.

Lemma fst_home_writes : home_writes.*1 = bns.
Proof. apply fst_zip. by rewrite Hlen. Qed.

Lemma fst_log_writes : log_writes.*1 = log_block start <$> seq 0 (length bns).
Proof. apply fst_zip. by rewrite length_fmap, length_seq, Hlen. Qed.

Lemma NoDup_log_writes : NoDup log_writes.*1.
Proof.
  rewrite fst_log_writes. apply NoDup_fmap_2; [|apply NoDup_seq]. intros x y. unfold log_block. lia.
Qed.

Lemma log_writes_area n k : n ∈ (take k log_writes).*1 -> start < n < start + LOGSIZE.
Proof.
  rewrite fmap_take, fst_log_writes. intros (j & Hj & _)%elem_of_take.
  rewrite list_lookup_fmap in Hj. destruct (seq _ _ !! j) as [x|] eqn:E; [|done]. injection Hj as <-.
  apply lookup_seq in E as [-> ?]. unfold log_block. lia.
Qed.

Lemma home_not_start : start ∉ bns.
Proof.
  intros H. rewrite Forall_forall in Hhome. apply Hhome in H as [_ H]. assert (0 < LOGSIZE) by done. lia.
Qed.

Lemma home_not_log i : (i < length bns)%nat -> log_block start i ∉ bns.
Proof.
  intros Hi H. rewrite Forall_forall in Hhome. apply Hhome in H as [_ H]. unfold log_block in H. lia.
Qed.

(** The disk before the header is written, and after it. *)

Lemma before_header k :
  let x := do_writes d (take k log_writes) in x start = d start /\ same_home start x d.
Proof.
  intros x. split.
  - apply do_writes_other. intros H%log_writes_area. lia.
  - intros n [_ Hn]. apply do_writes_other. intros H%log_writes_area. lia.
Qed.

Lemma after_header k :
  let x := do_writes d (log_writes ++ (start, put_header bns (d start)) :: take k home_writes) in
  x start = put_header bns (d start) /\
  (forall i v, vs !! i = Some v -> x (log_block start i) = v) /\
  (forall n, home start n -> x n = do_writes d (take k home_writes) n).
Proof.
  intros x. set (y := write_block (do_writes d log_writes) start (put_header bns (d start))).
  assert (Ex : x = do_writes y (take k home_writes)) by (unfold x; rewrite do_writes_app; done).
  assert (Hnot : forall n, n ∉ bns -> x n = y n).
  { intros n Hn. rewrite Ex. apply do_writes_other. rewrite fmap_take, fst_home_writes.
    intros (j & Hj & _)%elem_of_take. apply Hn. by eapply list_elem_of_lookup_2. }
  split; [|split].
  - rewrite (Hnot _ home_not_start). unfold y, write_block. by rewrite Z.eqb_refl.
  - intros i v Hi. assert (Hlt : (i < length bns)%nat) by (rewrite <- Hlen; by eapply lookup_lt_Some).
    rewrite (Hnot _ (home_not_log i Hlt)). unfold y, write_block, log_block at 1.
    destruct (Z.eqb_spec (start + Z.of_nat i + 1) start); [lia|].
    apply (do_writes_at _ _ i); [apply NoDup_log_writes|]. unfold log_writes.
    apply lookup_zip_Some. rewrite list_lookup_fmap, lookup_seq_lt by done. done.
  - intros n [_ Hn]. rewrite Ex. apply do_writes_ext. unfold y, write_block.
    destruct (Z.eqb_spec n start) as [->|_]; [assert (0 < LOGSIZE) by done; lia|].
    apply do_writes_other. intros H. rewrite <- (take_ge log_writes (length log_writes)) in H by done.
    apply log_writes_area in H. lia.
Qed.

Hypothesis Hhdr : length (d start) = Z.to_nat BSIZE.
Hypothesis Hempty : hdr_n (d start) = 0.

Lemma blocks_put : hdr_blocks (put_header bns (d start)) = bns.
Proof.
  unfold LOGSIZE, MAXOPBLOCKS, BSIZE in *. apply hdr_blocks_put; [lia|lia|].
  eapply Forall_impl; [exact Hhome|]. by intros bn [H _].
Qed.

Lemma after_header_logged k :
  let x := do_writes d (log_writes ++ (start, put_header bns (d start)) :: take k home_writes) in
  logged start x = home_writes.
Proof.
  intros x. destruct (after_header k) as (E & Hv & _). fold x in E, Hv. unfold logged. rewrite E.
  assert (Hb : hdr_blocks (put_header bns (d start)) = bns) by apply blocks_put.
  rewrite Hb. unfold home_writes. f_equal. apply list_eq. intros j. rewrite list_lookup_fmap.
  destruct (vs !! j) as [v|] eqn:Ej.
  - rewrite lookup_seq_lt by (rewrite <- Hlen; by eapply lookup_lt_Some). cbn. f_equal. by apply Hv.
  - rewrite lookup_seq_ge; [done|]. rewrite <- Hlen. by apply lookup_ge_None.
Qed.

(** The disk after the second header. *)

Lemma all_done :
  let x := do_writes d commit_writes in
  x start = put_header [] (put_header bns (d start)) /\ same_home start x committed.
Proof.
  intros x. destruct (after_header (length home_writes)) as (_ & _ & Hh). rewrite take_ge in Hh by done.
  assert (Ex : x = write_block (do_writes d (log_writes ++ (start, put_header bns (d start)) :: home_writes))
    start (put_header [] (put_header bns (d start)))).
  { unfold x, commit_writes. rewrite app_comm_cons, app_assoc, do_writes_app. done. }
  rewrite Ex. unfold write_block. split; [by rewrite Z.eqb_refl|]. intros n Hn. pose proof Hn as [_ Hs].
  destruct (Z.eqb_spec n start) as [->|]; [assert (0 < LOGSIZE) by done; lia|]. by apply Hh.
Qed.

(** Where a crash can leave the disk: before the header, after it, at the end. *)

Lemma commit_prefix k :
  (exists j, take k commit_writes = take j log_writes) \/
  (exists j, take k commit_writes = log_writes ++ (start, put_header bns (d start)) :: take j home_writes) \/
  take k commit_writes = commit_writes.
Proof.
  unfold commit_writes. destruct (decide (k <= length log_writes)%nat) as [Hk|Hk].
  { left. exists k. by rewrite take_app_le. }
  rewrite take_app_ge by lia. right. destruct (k - length log_writes)%nat as [|j] eqn:Ej; [lia|]. cbn [take].
  destruct (decide (j <= length home_writes)%nat) as [Hj|Hj].
  - left. exists j. by rewrite take_app_le.
  - right. rewrite (take_ge (home_writes ++ _)); [done|]. rewrite length_app. cbn. lia.
Qed.

Lemma no_blocks h : hdr_n h = 0 -> hdr_blocks h = [].
Proof. intros E. unfold hdr_blocks. by rewrite E. Qed.

Lemma view_empty x : hdr_n (x start) = 0 -> view start x = x.
Proof. intros E. unfold view, logged. by rewrite (no_blocks _ E). Qed.

Lemma log_ok_empty x : length (x start) = Z.to_nat BSIZE -> hdr_n (x start) = 0 -> log_ok start x.
Proof. intros Hl E. split; [done|by rewrite E|rewrite no_blocks by done; constructor..]. Qed.

(** A commit is atomic: whichever the crash point, the log can be recovered and the
    recovered disk is the one before the commit or the one after it. *)

Lemma commit_crash k :
  let x := do_writes d (take k commit_writes) in
  log_ok start x /\ (same_home start (view start x) d \/ same_home start (view start x) committed).
Proof.
  intros x. assert (Hsz : (4 + 4 * length bns <= length (d start))%nat).
  { rewrite Hhdr. unfold LOGSIZE, MAXOPBLOCKS, BSIZE in *. lia. }
  destruct (commit_prefix k) as [[j E]|[[j E]|E]]; unfold x; rewrite E.
  - destruct (before_header j) as [E1 E2]. split; [apply log_ok_empty; by rewrite E1|].
    left. rewrite view_empty by (by rewrite E1). done.
  - destruct (after_header j) as (E1 & _ & E2). set (y := do_writes d _) in *. split.
    + split; rewrite E1, ?blocks_put; [by rewrite length_put_header| |done|done].
      rewrite hdr_n_put; [lia|done|]. unfold LOGSIZE, MAXOPBLOCKS in *. lia.
    + right. intros n Hn. unfold view. rewrite after_header_logged. unfold committed.
      rewrite <- (do_writes_again d home_writes j n) by (by rewrite fst_home_writes).
      apply do_writes_ext. by apply E2.
  - destruct all_done as [E1 E2].
    assert (E0 : hdr_n (put_header [] (put_header bns (d start))) = 0).
    { rewrite hdr_n_put; [done| |done]. rewrite length_put_header, Hhdr. cbn. lia. }
    split; [apply log_ok_empty; rewrite E1; [by rewrite !length_put_header|done]|].
    right. rewrite view_empty by (by rewrite E1). done.
Qed.

End Commit.

(** ** The writes of a recovery *)

Section Recover.
Context (start : Z) (d : disk).
Hypothesis Hok : log_ok start d.

Definition recover_writes : list (Z * list Z) := logged start d ++ [(start, put_header [] (d start))].

Lemma fst_logged : (logged start d).*1 = hdr_blocks (d start).
Proof. apply fst_zip. by rewrite length_fmap, length_seq. Qed.

Lemma logged_home n k : n ∈ (take k (logged start d)).*1 -> home start n.
Proof.
  rewrite fmap_take, fst_logged. intros (j & Hj & _)%elem_of_take.
  pose proof (lo_home _ _ Hok) as H. rewrite Forall_lookup in H. by eapply H.
Qed.

Lemma start_not_home n : start <= n < start + LOGSIZE -> ~ home start n.
Proof. intros H [_ Hn]. done. Qed.

(** The log is not touched while its blocks are installed. *)

Lemma installing k :
  let x := do_writes d (take k (logged start d)) in x start = d start /\ logged start x = logged start d.
Proof.
  intros x. assert (0 < LOGSIZE) by done.
  assert (E : x start = d start).
  { apply do_writes_other. intros Hin%logged_home. eapply start_not_home; [|exact Hin]. lia. }
  split; [done|]. unfold logged. rewrite E. f_equal. apply list_fmap_ext. intros j i Hi.
  apply lookup_seq in Hi as [-> Hi]. unfold hdr_blocks in Hi. rewrite length_fmap, length_seq in Hi.
  pose proof (lo_n _ _ Hok). apply do_writes_other. intros Hin%logged_home.
  eapply start_not_home; [|exact Hin]. unfold log_block. lia.
Qed.

Lemma recovered :
  let x := do_writes d recover_writes in
  x start = put_header [] (d start) /\ same_home start x (view start d).
Proof.
  intros x. unfold x, recover_writes. rewrite do_writes_app. cbn. unfold write_block.
  split; [by rewrite Z.eqb_refl|]. intros n [_ Hn].
  destruct (Z.eqb_spec n start) as [->|]; [assert (0 < LOGSIZE) by done; lia|done].
Qed.

(** A recovery that is interrupted leaves a log that can be recovered, to the same
    disk. *)

Lemma recover_crash k :
  let x := do_writes d (take k recover_writes) in
  log_ok start x /\ same_home start (view start x) (view start d).
Proof.
  intros x. pose proof Hok as [H1 H2 H3 H4].
  destruct (decide (k <= length (logged start d))%nat) as [Hk|Hk].
  - unfold x, recover_writes. rewrite take_app_le by done.
    destruct (installing k) as [E1 E2]. set (y := do_writes d _) in *.
    split; [split; by rewrite E1|]. intros n _. unfold view. rewrite E2. apply do_writes_again. by rewrite fst_logged.
  - assert (E : take k recover_writes = recover_writes).
    { apply take_ge. unfold recover_writes. rewrite length_app. cbn. lia. }
    unfold x. rewrite E. destruct recovered as [E1 E2].
    assert (E0 : hdr_n (put_header [] (d start)) = 0) by (rewrite hdr_n_put; [done|rewrite H1; unfold BSIZE; cbn [length]; lia|done]).
    split; [apply log_ok_empty; rewrite E1; [by rewrite length_put_header|done]|].
    rewrite view_empty by (by rewrite E1). done.
Qed.

End Recover.

(** ** Runs with their writes *)

Section Runs.
Context `{KI : KernelImage} `{VD : VirtioDevice}.
Context (i : nat) (pid ks dev : Z).

(** [wrun m s d w a s']: [m] returns [a] in [s'] and writes the blocks [w]; after
    every wait the disk is the one after some of the writes. *)

Definition wrun {A} (m : K A) (s : kst) (d : disk) (w : list (Z * list Z)) (a : A) (s' : kst) : Prop :=
  exists ds, drun i m s d ds a s' /\ Forall (fun x => exists k, x = do_writes d (take k w)) ds /\
    final d ds = do_writes d w.

Lemma wrun_bind {A B} (m : K A) (k : A -> K B) s d w1 w2 a s1 b s2 :
  wrun m s d w1 a s1 -> wrun (k a) s1 (do_writes d w1) w2 b s2 -> wrun (bind m k) s d (w1 ++ w2) b s2.
Proof.
  intros (ds1 & H1 & F1 & E1) (ds2 & H2 & F2 & E2). exists (ds1 ++ ds2). rewrite <- E1 in H2.
  split; [by eapply drun_bind|]. split; [|by rewrite final_app, E1, E2, do_writes_app].
  apply Forall_app. split; (eapply Forall_impl; [eassumption|]); intros x [j ->].
  - exists (j `min` length w1)%nat. rewrite take_app_le by lia. destruct (decide (j <= length w1)%nat).
    + by rewrite Nat.min_l.
    + by rewrite Nat.min_r, !take_ge by lia.
  - exists (length w1 + j)%nat. by rewrite take_app_add, do_writes_app.
Qed.

Lemma wrun_seq {A B} (m : K A) (k : A -> K B) s d w a s1 b s2 :
  runs m s a s1 -> wrun (k a) s1 d w b s2 -> wrun (bind m k) s d w b s2.
Proof. intros H (ds & Hd & F). exists ds. split; [by eapply drun_seq|done]. Qed.

Lemma wrun_runs {A} (m : K A) s d a s' : runs m s a s' -> wrun m s d [] a s'.
Proof. intros H. exists []. split; [by apply drun_runs|]. split; [constructor|done]. Qed.

Lemma wrun_quiet {A} (m : K A) s d ds a s' : drun i m s d ds a s' -> Forall (eq d) ds -> wrun m s d [] a s'.
Proof.
  intros H F. exists ds. split; [done|]. split.
  - eapply Forall_impl; [exact F|]. intros x <-. by exists 0%nat.
  - unfold final. destruct (last ds) as [x|] eqn:E; [|done]. cbn.
    rewrite last_lookup in E. rewrite Forall_lookup in F. symmetry. by eapply F.
Qed.

Lemma wrun_write {A} (m : K A) s d n v a s' : drun i m s d [write_block d n v] a s' -> wrun m s d [(n, v)] a s'.
Proof. intros H. eexists. split; [exact H|]. split; [|done]. constructor; [by exists 1%nat|constructor]. Qed.

Lemma wrun_then {A B} (m : K A) (k : A -> K B) s d w a s1 b s2 :
  wrun m s d [] a s1 -> wrun (k a) s1 d w b s2 -> wrun (bind m k) s d w b s2.
Proof. intros H. by apply (wrun_bind _ _ _ _ [] w). Qed.

(** The loop over the blocks of the log: [I] before each round, [W] the writes of
    each round. *)

Lemma wrun_for_lh_from body n (I : nat -> kst -> disk -> Prop) W :
  Z.of_nat n <= LOGSIZE -> (forall j s d, I j s d -> l_n (k_log s) = Z.of_nat n) ->
  (forall j s d, (j < n)%nat -> I j s d ->
    exists s', wrun (body (Z.of_nat j)) s d (W j) tt s' /\ I (S j) s' (do_writes d (W j))) ->
  forall k j fuel s d, (j + k = n)%nat -> (k < fuel)%nat -> I j s d ->
  let w := concat (W <$> seq j k) in
  exists s', wrun (loop fuel (fun i =>
    l <- gets k_log ;;
    if i <? l_n l then
      (if LOGSIZE <=? i then fault else body i ;; ret (inl (i + 1)))
    else ret (inr tt)) (Z.of_nat j)) s d w tt s' /\ I n s' (do_writes d w).
Proof.
  intros Hn Hln Hbody. induction k as [|k IH]; intros j fuel s d Hj Hf HI w; (destruct fuel as [|fuel]; [lia|]).
  - exists s. assert (j = n) as -> by lia. split; [|done]. apply wrun_runs. apply runs_loop_stop.
    eapply runs_bind; [apply runs_gets|]. rewrite (Hln _ _ _ HI), Z.ltb_irrefl. apply runs_ret.
  - destruct (Hbody j s d ltac:(lia) HI) as (s1 & H1 & HI1).
    destruct (IH (S j) fuel s1 _ ltac:(lia) ltac:(lia) HI1) as (s2 & H2 & HI2).
    exists s2. cbn [seq fmap list_fmap concat] in w. split; [|unfold w; by rewrite do_writes_app].
    unfold w. cbn [loop]. eapply wrun_bind; [|].
    + eapply wrun_seq; [apply runs_gets|]. rewrite (Hln _ _ _ HI).
      destruct (Z.ltb_spec (Z.of_nat j) (Z.of_nat n)); [|lia].
      destruct (Z.leb_spec LOGSIZE (Z.of_nat j)); [lia|]. rewrite <- (app_nil_r (W j)).
      eapply wrun_bind; [exact H1|]. apply wrun_runs, runs_ret.
    + cbn. replace (Z.of_nat j + 1) with (Z.of_nat (S j)) by lia. exact H2.
Qed.

Lemma wrun_for_lh body n (I : nat -> kst -> disk -> Prop) W s d :
  Z.of_nat n <= LOGSIZE -> (forall j s d, I j s d -> l_n (k_log s) = Z.of_nat n) ->
  (forall j s d, (j < n)%nat -> I j s d ->
    exists s', wrun (body (Z.of_nat j)) s d (W j) tt s' /\ I (S j) s' (do_writes d (W j))) ->
  I 0%nat s d ->
  let w := concat (W <$> seq 0 n) in
  exists s', wrun (for_lh body) s d w tt s' /\ I n s' (do_writes d w).
Proof.
  intros Hn Hln Hbody HI. unfold for_lh.
  apply (wrun_for_lh_from body n I W Hn Hln Hbody n 0%nat); [done|unfold LOGSIZE, MAXOPBLOCKS in *; lia|done].
Qed.

Lemma concat_nils n m : concat ((fun _ => []) <$> seq m n) = ([] : list (Z * list Z)).
Proof. revert m; induction n as [|n IH]; intros m; [done|]. cbn. apply IH. Qed.

(** One write in each round. *)

Definition nth_write (w : list (Z * list Z)) (j : nat) : list (Z * list Z) := option_list (w !! j).

Lemma concat_nth_write w : concat (nth_write w <$> seq 0 (length w)) = w.
Proof.
  induction w as [|x w IH]; [done|]. cbn [length seq fmap list_fmap concat]. unfold nth_write at 1. cbn.
  f_equal. rewrite <- fmap_S_seq, <- list_fmap_compose. exact IH.
Qed.

Lemma do_nth_write d w j x : w !! j = Some x -> do_writes (do_writes d (take j w)) (nth_write w j) = do_writes d (take (S j) w).
Proof. intros Hj. unfold nth_write. by rewrite Hj, (take_S_r _ _ _ Hj), do_writes_app. Qed.

(** ** The header *)

Record log_at (start : Z) (bns : list Z) (l : log) : Prop := {
  la_dev : u32 (l_dev l) = dev;
  la_start : l_start l = start;
  la_n : l_n l = Z.of_nat (length bns);
  la_block : take (length bns) (l_block l) = bns;
  la_len : length (l_block l) = Z.to_nat LOGSIZE;
}.

Lemma put_blocks_snoc h j bns bn :
  put_blocks h j (bns ++ [bn]) = list_inserts (4 + 4 * (j + length bns)) (le_bytes 4 bn) (put_blocks h j bns).
Proof.
  revert h j; induction bns as [|b bns IH]; intros h j; cbn [put_blocks app length].
  - by rewrite Nat.add_0_r.
  - rewrite IH. do 2 f_equal. lia.
Qed.

Lemma runs_put_data s d pins L n p (off : nat) v :
  acache i pid ks dev s d pins L -> n ∈ L -> pins !! n = Some p -> (off + 4 <= length (pn_data p))%nat ->
  exists s', runs (put_data 4 (pn_buf p) (Z.of_nat off) v) s tt s' /\ disk_frame s s' /\
    acache i pid ks dev s' d
      (<[n := mk_pin (pn_buf p) (pn_ref p) (list_inserts off (le_bytes 4 v) (pn_data p))]> pins) L.
Proof.
  intros Hc Hn Hp Hoff. destruct (runs_get_pin i pid ks dev s d pins L n p Hc Hp) as (x & Hx & Ex & _).
  destruct (runs_fill i pid ks dev s d pins L n p (list_inserts off (le_bytes 4 v) (pn_data p)) Hc Hn Hp)
    as (s' & Hr & Hf & Hc').
  exists s'. split; [|done]. unfold put_data. eapply runs_bind; [exact Hx|].
  eapply runs_bind; [apply runs_valid|exact Hr]. rewrite Ex. unfold le_put.
  destruct (Z.ltb_spec (Z.of_nat off) 0); [lia|].
  destruct (Z.ltb_spec (Z.of_nat (length (pn_data p))) (Z.of_nat off + Z.of_nat 4)); [lia|].
  by rewrite Nat2Z.id.
Qed.

Context (start : Z).
Hypothesis Hstart : 0 <= start /\ start + LOGSIZE < 2 ^ 31.

Lemma runs_lh_block bns j bn s :
  log_at start bns (k_log s) -> bns !! j = Some bn -> runs (lh_block (Z.of_nat j)) s bn s.
Proof.
  intros Hl Hj. eapply runs_bind; [apply runs_gets|]. apply runs_valid. rewrite Nat2Z.id.
  rewrite <- (la_block _ _ _ Hl) in Hj. by apply lookup_take_Some in Hj as [? _].
Qed.

Lemma log_at_frame bns s s' : disk_frame s s' -> log_at start bns (k_log s) -> log_at start bns (k_log s').
Proof. intros [E _ _ _] H. by rewrite E. Qed.

(** The blocks of the header, put one after the other. *)

Lemma runs_put_blocks s d pins bns p h :
  log_at start bns (k_log s) -> acache i pid ks dev s d pins {[start]} ->
  pins !! start = Some p -> pn_data p = h -> length h = Z.to_nat BSIZE -> Z.of_nat (length bns) <= LOGSIZE ->
  exists s', wrun (for_lh (fun j => v <- lh_block j ;; put_data 4 (pn_buf p) (4 + 4 * j) v)) s d [] tt s' /\
    disk_frame s s' /\
    acache i pid ks dev s' d (<[start := mk_pin (pn_buf p) (pn_ref p) (put_blocks h 0 bns)]> pins) {[start]}.
Proof.
  intros Hl Hc Hp Eh Hh Hn.
  set (I j t d' := d' = d /\ disk_frame s t /\ acache i pid ks dev t d
    (<[start := mk_pin (pn_buf p) (pn_ref p) (put_blocks h 0 (take j bns))]> pins) {[start]}).
  destruct (wrun_for_lh (fun j => v <- lh_block j ;; put_data 4 (pn_buf p) (4 + 4 * j) v) (length bns) I
    (fun _ => []) s d Hn) as (s' & Hr & _ & Hf & Hc').
  - intros j t d' (_ & Hf & _). by apply (la_n _ _ _ (log_at_frame _ _ _ Hf Hl)).
  - intros j t d' Hj (-> & Hf & Hct). destruct (lookup_lt_is_Some_2 bns j Hj) as [bn Hbn].
    set (q := mk_pin _ _ _) in Hct.
    destruct (runs_put_data t d _ _ start q (4 + 4 * j) bn Hct) as (t' & Hr & Hf' & Hc').
    { by apply elem_of_singleton. } { by apply lookup_insert_eq. }
    { cbn. rewrite length_put_blocks, Hh. unfold LOGSIZE, MAXOPBLOCKS, BSIZE in *. lia. }
    exists t'. split; [|split; [done|split; [by trans t|]]].
    + apply wrun_runs. eapply runs_bind; [eapply runs_lh_block; [|done]; by eapply log_at_frame|].
      replace (4 + 4 * Z.of_nat j) with (Z.of_nat (4 + 4 * j)) by lia. exact Hr.
    + rewrite insert_insert_eq in Hc'. rewrite (take_S_r _ _ _ Hbn), put_blocks_snoc.
      rewrite length_take_le by lia. exact Hc'.
  - split; [done|]. split; [done|]. cbn. rewrite <- Eh. destruct p. cbn. rewrite insert_id by done. exact Hc.
  - rewrite concat_nils in Hr. rewrite take_ge in Hc' by done. by exists s'.
Qed.

Lemma u32_start j : 0 <= j <= LOGSIZE -> u32 (start + j) = start + j.
Proof. intros Hj. apply u32_small. unfold LOGSIZE, MAXOPBLOCKS in *. lia. Qed.

Lemma readable_fresh pins L n :
  0 <= n < 2 ^ 31 -> n ∉ L -> in_use pins -> pins !! n = None -> (size pins < NBUF)%nat -> readable pins L n.
Proof. intros. split; [done..| |by right]. unfold refs. by rewrite H2. Qed.

Lemma wrun_write_head s d pins bns :
  log_at start bns (k_log s) -> acache i pid ks dev s d pins ∅ -> in_use pins -> pins !! start = None ->
  (size pins < NBUF)%nat -> length (d start) = Z.to_nat BSIZE -> Z.of_nat (length bns) <= LOGSIZE ->
  let w := [(start, put_header bns (d start))] in
  exists s', wrun write_head s d w tt s' /\ disk_frame s s' /\ acache i pid ks dev s' (do_writes d w) pins ∅.
Proof.
  intros Hl Hc Hin Hns Hsz Hh Hn w. pose proof (la_dev _ _ _ Hl) as Ed. pose proof (la_start _ _ _ Hl) as Es.
  assert (Hu : u32 start = start) by (rewrite <- (Z.add_0_r start); by apply u32_start).
  destruct (drun_bread i pid ks dev s d pins ∅ start Hc) as (b & s1 & ds1 & H1 & F1 & D1 & C1 & _).
  { apply readable_fresh; [unfold LOGSIZE, MAXOPBLOCKS in *; lia|set_solver|done|done|done]. }
  rewrite (right_id_L ∅ (∪)) in C1. unfold read_pin, refs, seen in C1. rewrite Hns in C1. cbn in C1.
  set (p1 := mk_pin b 1 (d start)) in C1.
  destruct (runs_put_data s1 d _ _ start p1 0 (Z.of_nat (length bns)) C1) as (s2 & H2 & D2 & C2).
  { by apply elem_of_singleton. } { by apply lookup_insert_eq. } { cbn [p1 pn_data]. rewrite Hh. unfold BSIZE. lia. }
  rewrite insert_insert_eq in C2. cbn [p1 pn_buf pn_ref pn_data] in H2, C2. set (p2 := mk_pin _ _ _) in C2.
  destruct (runs_put_blocks s2 d (<[start := p2]> pins) bns p2 (pn_data p2)) as (s3 & H3 & D3 & C3);
    [by eapply log_at_frame, log_at_frame|exact C2|by apply lookup_insert_eq|done| |done|].
  { cbn [p2 pn_data]. by rewrite length_inserts. }
  rewrite insert_insert_eq in C3. set (p3 := mk_pin _ _ _) in C3.
  destruct (drun_bwrite_pin i pid ks dev s3 d _ _ start p3 C3) as (s4 & H4 & D4 & C4);
    [by apply elem_of_singleton|by apply lookup_insert_eq|].
  destruct (runs_brelse_pin i pid ks dev s4 _ _ _ start p3 C4) as (s5 & H5 & D5 & C5);
    [by apply elem_of_singleton|by apply lookup_insert_eq|by unfold write_block; rewrite Z.eqb_refl|].
  exists s5. split; [|split].
  - unfold write_head. eapply wrun_seq; [apply runs_gets|]. rewrite Ed, Es, Hu.
    eapply wrun_then; [by eapply wrun_quiet|]. eapply wrun_seq; [apply runs_gets|].
    assert (l_n (k_log s1) = Z.of_nat (length bns)) as -> by (by apply (la_n _ _ _ (log_at_frame _ _ _ D1 Hl))).
    eapply wrun_seq; [exact H2|]. eapply wrun_then; [exact H3|].
    change w with (w ++ []). eapply wrun_bind; [by apply wrun_write|]. by apply wrun_runs.
  - by trans s1; [|trans s2; [|trans s3; [|trans s4]]].
  - change (do_writes d w) with (write_block d start (pn_data p3)).
    unfold put_pin in C5. cbn in C5. rewrite delete_insert_eq, delete_id in C5 by done.
    by rewrite difference_diag_L in C5.
Qed.

(** ** The rounds of write_log and install_trans *)

(** Both read the block of the log and the block itself. *)

Definition two_blocks (body : nat -> nat -> K unit) (tail : Z) : K unit :=
  l <- gets k_log ;;
  lbuf <- bread (u32 (l_dev l)) (u32 (l_start l + tail + 1)) ;;
  l <- gets k_log ;;
  bn <- lh_block tail ;;
  dbuf <- bread (u32 (l_dev l)) (u32 bn) ;;
  body lbuf dbuf.

Definition log_round (to from : nat) : K unit :=
  x <- get_buf from ;;
  mod_buf to (set_b_data (b_data x)) ;;
  bwrite to ;;
  brelse from ;;
  brelse to.

Definition install_round (lbuf dbuf : nat) : K unit :=
  x <- get_buf lbuf ;;
  mod_buf dbuf (set_b_data (b_data x)) ;;
  bwrite dbuf ;;
  bunpin dbuf ;;
  brelse lbuf ;;
  brelse dbuf.

Lemma write_log_rounds : write_log = for_lh (two_blocks log_round).
Proof. reflexivity. Qed.

Lemma install_trans_rounds : install_trans = for_lh (two_blocks install_round).
Proof. reflexivity. Qed.

Lemma u32_log_block j :
  Z.of_nat j < LOGSIZE -> u32 (start + Z.of_nat j + 1) = log_block start j /\ 0 <= log_block start j < 2 ^ 31.
Proof.
  intros Hj. unfold log_block. assert (0 <= Z.of_nat j) by lia.
  replace (start + Z.of_nat j + 1) with (start + (Z.of_nat j + 1)) by lia.
  rewrite u32_start by lia. split; [done|]. unfold LOGSIZE, MAXOPBLOCKS in *. lia.
Qed.

Lemma home_neq bn j : home start bn -> Z.of_nat j + 1 < LOGSIZE -> bn <> log_block start j.
Proof. intros [_ H] Hj ->. apply H. unfold log_block. lia. Qed.

Lemma in_use_insert pins n p : in_use pins -> 1 <= pn_ref p -> in_use (<[n := p]> pins).
Proof. intros. by apply map_Forall_insert_2. Qed.

(** The cache when both blocks have been read. *)

Definition two_pins (d : disk) (pins : gmap Z pin) (t bn : Z) (a b : nat) : gmap Z pin :=
  <[bn := read_pin d pins bn b]> (<[t := mk_pin a 1 (d t)]> pins).

Lemma wrun_two_blocks s d pins bns j bn :
  log_at start bns (k_log s) -> acache i pid ks dev s d pins ∅ -> in_use pins -> (size pins < NBUF)%nat ->
  bns !! j = Some bn -> Z.of_nat j + 1 < LOGSIZE -> home start bn -> pins !! log_block start j = None ->
  refs pins bn + 1 < 2 ^ 32 -> (bn ∈ dom pins \/ (S (size pins) < NBUF)%nat) ->
  let t := log_block start j in
  exists a b s', disk_frame s s' /\ acache i pid ks dev s' d (two_pins d pins t bn a b) {[bn; t]} /\
    (forall p, pins !! bn = Some p -> b = pn_buf p) /\
    forall body w s2, wrun (body a b) s' d w tt s2 -> wrun (two_blocks body (Z.of_nat j)) s d w tt s2.
Proof.
  intros Hl Hc Hin Hsz Hbn Hj Hhm Hnone Hr Hroom t.
  destruct (u32_log_block j ltac:(lia)) as [Et Ht]. fold t in Et, Ht, Hnone.
  assert (Hne : bn <> t) by (by apply home_neq).
  destruct (drun_bread i pid ks dev s d pins ∅ t Hc) as (a & s1 & ds1 & H1 & F1 & D1 & C1 & _);
    [by apply readable_fresh; [|set_solver|..]|].
  unfold read_pin, refs, seen in C1. rewrite Hnone, (right_id_L ∅ (∪)) in C1.
  assert (Hp1 : <[t := mk_pin a (0 + 1) (d t)]> pins !! bn = pins !! bn) by (by rewrite lookup_insert_ne).
  destruct (drun_bread i pid ks dev s1 d _ _ bn C1) as (b & s2 & ds2 & H2 & F2 & D2 & C2 & Eb).
  { split; [apply Hhm|set_solver|by apply in_use_insert|unfold refs; by rewrite Hp1|].
    rewrite dom_insert, map_size_insert_None by done. destruct Hroom as [H|H]; [left; set_solver|by right]. }
  exists a, b, s2. split; [by trans s1|]. split; [|split; [intros p Hp; apply Eb; by rewrite Hp1|]].
  - unfold two_pins, read_pin, refs, seen in *. rewrite Hp1 in C2. exact C2.
  - intros body w s3 Hb. eapply wrun_seq; [apply runs_gets|]. rewrite (la_dev _ _ _ Hl), (la_start _ _ _ Hl), Et.
    eapply wrun_then; [by eapply wrun_quiet|]. eapply wrun_seq; [apply runs_gets|].
    pose proof (log_at_frame _ _ _ D1 Hl) as Hl1. rewrite (la_dev _ _ _ Hl1).
    eapply wrun_seq; [by eapply runs_lh_block|]. rewrite u32_small by (destruct Hhm; lia).
    eapply wrun_then; [by eapply wrun_quiet|]. exact Hb.
Qed.

(** Two maps that agree at two keys and elsewhere. *)

Ltac map_cases n m :=
  apply map_eq; let x := fresh "x" in intros x;
  destruct (decide (x = n)) as [->|]; [|destruct (decide (x = m)) as [->|]]; simplify_map_eq; try done.

(** The data of a block in use goes to the log. *)

Lemma wrun_log_round s d pins t bn p a :
  acache i pid ks dev s d (two_pins d pins t bn a (pn_buf p)) {[bn; t]} -> bn <> t ->
  pins !! t = None -> pins !! bn = Some p -> 1 <= pn_ref p -> pn_ref p + 1 < 2 ^ 32 ->
  let w := [(t, pn_data p)] in
  exists s', wrun (log_round a (pn_buf p)) s d w tt s' /\ disk_frame s s' /\
    acache i pid ks dev s' (do_writes d w) pins ∅.
Proof.
  intros C2 Hne Hnone Hp Hr1 Hr w. unfold two_pins, read_pin, refs, seen in C2. rewrite Hp in C2.
  set (p1 := mk_pin a 1 (d t)) in C2. set (p2 := mk_pin (pn_buf p) _ _) in C2.
  destruct (runs_get_pin i pid ks dev s d _ _ bn p2 C2) as (x & H3 & Ex & _); [by apply lookup_insert_eq|].
  destruct (runs_fill i pid ks dev s d _ _ t p1 (pn_data p) C2) as (s4 & H4 & D4 & C4);
    [set_solver|by rewrite lookup_insert_ne, lookup_insert_eq|]. set (p4 := mk_pin _ _ _) in C4.
  destruct (drun_bwrite_pin i pid ks dev s4 d _ _ t p4 C4) as (s5 & H5 & D5 & C5);
    [set_solver|by apply lookup_insert_eq|].
  destruct (runs_brelse_pin i pid ks dev s5 _ _ _ bn p2 C5) as (s6 & H6 & D6 & C6);
    [set_solver|by rewrite lookup_insert_ne, lookup_insert_eq|cbn; rewrite u32_small by lia; lia|].
  assert (E6 : put_pin bn (pn_buf p2) (u32 (pn_ref p2 - 1)) (pn_data p2)
    (<[t := p4]> (<[bn := p2]> (<[t := p1]> pins))) = <[t := p4]> pins).
  { unfold put_pin. cbn [p2 pn_ref]. replace (pn_ref p + 1 - 1) with (pn_ref p) by lia. rewrite u32_small by lia.
    destruct (Z.eqb_spec (pn_ref p) 0); [lia|]. map_cases bn t. by destruct p. }
  rewrite E6 in C6.
  destruct (runs_brelse_pin i pid ks dev s6 _ _ _ t p4 C6) as (s7 & H7 & D7 & C7);
    [set_solver|by apply lookup_insert_eq|by unfold write_block; rewrite Z.eqb_refl|].
  exists s7. split; [|split].
  - eapply wrun_seq; [exact H3|]. rewrite Ex. eapply wrun_seq; [exact H4|]. change w with (w ++ []).
    eapply wrun_bind; [by apply wrun_write|]. apply wrun_runs. by eapply runs_bind.
  - by trans s4; [|trans s5; [|trans s6]].
  - change (do_writes d w) with (write_block d t (pn_data p4)).
    unfold put_pin in C7. cbn in C7. rewrite delete_insert_eq, delete_id in C7 by done.
    replace ((({[bn; t]} ∖ {[bn]}) ∖ {[t]}) : gset Z) with (∅ : gset Z) in C7 by set_solver. exact C7.
Qed.

(** The data of the log goes to the block, which has one user less: with no user
    before, it has 2^32 - 1. *)

Lemma wrun_install_round s d pins t bn a b :
  acache i pid ks dev s d (two_pins d pins t bn a b) {[bn; t]} -> bn <> t ->
  pins !! t = None -> 0 <= refs pins bn -> refs pins bn + 1 < 2 ^ 32 ->
  let w := [(bn, d t)] in
  exists s', wrun (install_round a b) s d w tt s' /\ disk_frame s s' /\
    acache i pid ks dev s' (do_writes d w) (put_pin bn b (u32 (refs pins bn - 1)) (d t) pins) ∅.
Proof.
  intros C2 Hne Hnone Hr0 Hr w. unfold two_pins, read_pin in C2. set (r := refs pins bn) in *.
  set (p1 := mk_pin a 1 (d t)) in C2. set (p2 := mk_pin b (r + 1) _) in C2.
  destruct (runs_get_pin i pid ks dev s d _ _ t p1 C2) as (x & H3 & Ex & _);
    [by rewrite lookup_insert_ne, lookup_insert_eq|].
  destruct (runs_fill i pid ks dev s d _ _ bn p2 (d t) C2) as (s4 & H4 & D4 & C4);
    [set_solver|by apply lookup_insert_eq|]. set (p4 := mk_pin _ _ _) in C4.
  destruct (drun_bwrite_pin i pid ks dev s4 d _ _ bn p4 C4) as (s5 & H5 & D5 & C5);
    [set_solver|by apply lookup_insert_eq|].
  destruct (runs_bunpin_pin i pid ks dev s5 _ _ _ bn p4 C5) as (s6 & H6 & D6 & C6);
    [set_solver|by apply lookup_insert_eq|cbn; lia|]. set (p6 := mk_pin _ _ _) in C6.
  destruct (runs_brelse_pin i pid ks dev s6 _ _ _ t p1 C6) as (s7 & H7 & D7 & C7);
    [set_solver|by rewrite !lookup_insert_ne, lookup_insert_eq by done|..].
  { intros _. cbn. unfold write_block. by destruct (Z.eqb_spec t bn); [congruence|]. }
  unfold put_pin in C7. cbn [p1 pn_ref Z.sub Z.add Z.opp Z.pos_sub u32] in C7.
  change (u32 0 =? 0) with true in C7. cbv iota in C7.
  destruct (runs_brelse_pin i pid ks dev s7 _ _ _ bn p6 C7) as (s8 & H8 & D8 & C8);
    [set_solver|by rewrite lookup_delete_ne, lookup_insert_eq by done|..].
  { intros _. cbn. unfold write_block. by rewrite Z.eqb_refl. }
  exists s8. split; [|split].
  - eapply wrun_seq; [exact H3|]. rewrite Ex. eapply wrun_seq; [exact H4|]. change w with (w ++ []).
    eapply wrun_bind; [by apply wrun_write|]. apply wrun_runs. eapply runs_bind; [exact H6|]. by eapply runs_bind.
  - by trans s4; [|trans s5; [|trans s6; [|trans s7]]].
  - change (do_writes d w) with (write_block d bn (pn_data p4)).
    replace ((({[bn; t]} ∖ {[t]}) ∖ {[bn]}) : gset Z) with (∅ : gset Z) in C8 by set_solver.
    cbn [p6 p4 p2 pn_buf pn_ref pn_data] in C8. replace (r + 1 - 1 - 1) with (r - 1) in C8 by lia.
    match type of C8 with acache _ _ _ _ _ _ ?m _ =>
      assert (Em : m = put_pin bn b (u32 (r - 1)) (d t) pins) end; [|by rewrite Em in C8].
    unfold put_pin. destruct (u32 (r - 1) =? 0); map_cases bn t.
Qed.

(** ** write_log and install_trans *)

(** The blocks of the transaction are in use, with their new contents. *)

Definition holding (pins : gmap Z pin) (bn : Z) (v : list Z) : Prop :=
  exists p, pins !! bn = Some p /\ pn_data p = v /\ pn_ref p = 1.

Definition log_unused (pins : gmap Z pin) : Prop := forall n, start <= n < start + LOGSIZE -> pins !! n = None.

Lemma log_block_unused pins j : log_unused pins -> Z.of_nat j + 1 < LOGSIZE -> pins !! log_block start j = None.
Proof. intros H Hj. apply H. unfold log_block. lia. Qed.

Lemma lookup_log_writes bns vs j bn v :
  length vs = length bns -> bns !! j = Some bn -> vs !! j = Some v ->
  log_writes start bns vs !! j = Some (log_block start j, v) /\ home_writes bns vs !! j = Some (bn, v).
Proof.
  intros Hlen Hb Hv. unfold log_writes, home_writes. rewrite !lookup_zip_Some.
  rewrite list_lookup_fmap, lookup_seq_lt by (by eapply lookup_lt_Some). done.
Qed.

Lemma wrun_write_log s d pins bns vs :
  log_at start bns (k_log s) -> acache i pid ks dev s d pins ∅ -> in_use pins -> (size pins < NBUF)%nat ->
  log_unused pins -> Forall (home start) bns -> Forall2 (holding pins) bns vs ->
  Z.of_nat (length bns) < LOGSIZE ->
  let w := log_writes start bns vs in
  exists s', wrun write_log s d w tt s' /\ disk_frame s s' /\ acache i pid ks dev s' (do_writes d w) pins ∅.
Proof.
  intros Hl Hc Hin Hsz Hlog Hhm Hh Hn w. assert (Hlen : length vs = length bns) by (symmetry; by eapply Forall2_length).
  assert (Hw : length w = length bns).
  { unfold w, log_writes. rewrite length_zip, length_fmap, length_seq. lia. }
  set (I j t d' := d' = do_writes d (take j w) /\ disk_frame s t /\ acache i pid ks dev t d' pins ∅).
  destruct (wrun_for_lh (two_blocks log_round) (length bns) I (nth_write w) s d ltac:(lia)) as (s' & Hr & _ & Hf & Hc').
  - intros j t d' (_ & Hf & _). by apply (la_n _ _ _ (log_at_frame _ _ _ Hf Hl)).
  - intros j t d' Hj (-> & Hf & Hct). destruct (lookup_lt_is_Some_2 bns j Hj) as [bn Hbn].
    destruct (Forall2_lookup_l _ _ _ _ _ Hh Hbn) as (v & Hv & p & Hp & Ev & Er).
    destruct (lookup_log_writes bns vs j bn v Hlen Hbn Hv) as [Hwj _]. fold w in Hwj.
    assert (Hb : home start bn) by (rewrite Forall_lookup in Hhm; by eapply Hhm).
    destruct (wrun_two_blocks t _ pins bns j bn (log_at_frame _ _ _ Hf Hl) Hct Hin Hsz Hbn ltac:(lia) Hb)
      as (a & b & t1 & Hf1 & Hc1 & Eb & Htwo);
      [by apply log_block_unused; [|lia]|unfold refs; rewrite Hp; lia|left; by eapply elem_of_dom_2|].
    rewrite (Eb p Hp) in *.
    destruct (wrun_log_round t1 _ pins (log_block start j) bn p a Hc1) as (t2 & Hr2 & Hf2 & Hc2);
      [apply home_neq; [done|lia]|by apply log_block_unused; [|lia]|done|lia|lia|].
    rewrite Ev in Hr2, Hc2. exists t2. unfold I. erewrite do_nth_write by exact Hwj.
    assert (Ew : nth_write w j = [(log_block start j, v)]) by (unfold nth_write; by rewrite Hwj).
    rewrite Ew. split; [by apply Htwo|]. split; [done|]. split; [by trans t; [|trans t1]|].
    rewrite <- (do_nth_write _ _ _ _ Hwj), Ew. exact Hc2.
  - split; [done|]. split; [done|]. exact Hc.
  - rewrite <- Hw, concat_nth_write in Hr, Hc'. rewrite write_log_rounds. by exists s'.
Qed.

(** The cache before round [j] of install_trans, [P j], is such that two blocks can
    be read, and the round leads to [P (j + 1)]. *)

Record installable (pins : gmap Z pin) (bn : Z) : Prop := {
  in_used : in_use pins;
  in_size : (size pins < NBUF)%nat;
  in_log : log_unused pins;
  in_refs : refs pins bn + 1 < 2 ^ 32;
  in_room : bn ∈ dom pins \/ (S (size pins) < NBUF)%nat;
}.

Lemma refs_nonneg pins bn : in_use pins -> 0 <= refs pins bn.
Proof. intros H. unfold refs. destruct (pins !! bn) as [p|] eqn:E; [|lia]. specialize (H _ _ E). cbn in H. lia. Qed.

Lemma wrun_install_trans s d pins bns vs (P : nat -> gmap Z pin -> Prop) :
  log_at start bns (k_log s) -> acache i pid ks dev s d pins ∅ -> P 0%nat pins ->
  Forall (home start) bns -> length vs = length bns ->
  (forall j v, vs !! j = Some v -> d (log_block start j) = v) -> Z.of_nat (length bns) < LOGSIZE ->
  (forall j m bn v, bns !! j = Some bn -> vs !! j = Some v -> P j m ->
    installable m bn /\ forall b, P (S j) (put_pin bn b (u32 (refs m bn - 1)) v m)) ->
  let w := home_writes bns vs in
  exists s' pins', wrun install_trans s d w tt s' /\ disk_frame s s' /\ P (length bns) pins' /\
    acache i pid ks dev s' (do_writes d w) pins' ∅.
Proof.
  intros Hl Hc HP Hhm Hlen Hvs Hn Hstep w.
  assert (Hw : length w = length bns) by (unfold w, home_writes; rewrite length_zip; lia).
  set (I j t d' := d' = do_writes d (take j w) /\ disk_frame s t /\ exists m, P j m /\ acache i pid ks dev t d' m ∅).
  destruct (wrun_for_lh (two_blocks install_round) (length bns) I (nth_write w) s d ltac:(lia))
    as (s' & Hr & _ & Hf & m & HPm & Hc').
  - intros j t d' (_ & Hf & _). by apply (la_n _ _ _ (log_at_frame _ _ _ Hf Hl)).
  - intros j t d' Hj (-> & Hf & m & HPm & Hct). destruct (lookup_lt_is_Some_2 bns j Hj) as [bn Hbn].
    destruct (lookup_lt_is_Some_2 vs j ltac:(lia)) as [v Hv].
    destruct (lookup_log_writes bns vs j bn v Hlen Hbn Hv) as [_ Hwj]. fold w in Hwj.
    destruct (Hstep j m bn v Hbn Hv HPm) as [[Hin Hsz Hlog Hr Hroom] HPS].
    assert (Hb : home start bn) by (rewrite Forall_lookup in Hhm; by eapply Hhm).
    assert (Hnone : m !! log_block start j = None) by (apply log_block_unused; [done|lia]).
    destruct (wrun_two_blocks t _ m bns j bn (log_at_frame _ _ _ Hf Hl) Hct Hin Hsz Hbn ltac:(lia) Hb Hnone Hr Hroom)
      as (a & b & t1 & Hf1 & Hc1 & _ & Htwo).
    destruct (wrun_install_round t1 _ m (log_block start j) bn a b Hc1) as (t2 & Hr2 & Hf2 & Hc2);
      [apply home_neq; [done|lia]|done|by apply refs_nonneg|done|].
    assert (Ed : do_writes d (take j w) (log_block start j) = v).
    { rewrite do_writes_other; [by apply Hvs|]. unfold w, home_writes. rewrite fmap_take, fst_zip by lia.
      intros (k & Hk & _)%elem_of_take. rewrite Forall_lookup in Hhm. apply (home_neq (log_block start j) j); [|lia|done].
      by eapply Hhm. }
    rewrite Ed in Hr2, Hc2. exists t2. unfold I. erewrite do_nth_write by exact Hwj.
    assert (Ew : nth_write w j = [(bn, v)]) by (unfold nth_write; by rewrite Hwj).
    rewrite Ew. split; [by apply Htwo|]. split; [done|]. split; [by trans t; [|trans t1]|].
    eexists. split; [by apply HPS|]. rewrite <- (do_nth_write _ _ _ _ Hwj), Ew. exact Hc2.
  - split; [done|]. split; [done|]. by exists pins.
  - rewrite <- Hw, concat_nth_write in Hr, Hc'. rewrite install_trans_rounds. exists s', m.
    done.
Qed.

(** ** commit *)

Lemma acache_set_log l s d pins L : acache i pid ks dev s d pins L -> acache i pid ks dev (set_k_log l s) d pins L.
Proof.
  intros (C & [H1 H2 H3 [? ? ? ? ? ?] H5] & Hu). exists C. split; [|done]. split; [done|done|done|by split|done].
Qed.

Lemma disk_frame_set_log l s s' : disk_frame s s' -> disk_frame (set_k_log l s) (set_k_log l s').
Proof. intros [? ? ? ?]. by split. Qed.

(** The cache without some of its blocks. *)

Definition without (bns : list Z) (pins m : gmap Z pin) : Prop :=
  forall n, m !! n = if decide (n ∈ bns) then None else pins !! n.

Lemma without_subseteq bns pins m : without bns pins m -> m ⊆ pins.
Proof.
  intros H. apply map_subseteq_spec. intros n p Hn. rewrite H in Hn. by destruct (decide _).
Qed.

Lemma subseteq_in_use m pins : m ⊆ pins -> in_use pins -> in_use m.
Proof. intros Hs H n p Hn. apply (H n). by eapply lookup_weaken. Qed.

Lemma subseteq_log_unused m pins : m ⊆ pins -> log_unused pins -> log_unused m.
Proof. intros Hs H n Hn. eapply lookup_weaken_None; [by apply H|done]. Qed.

Lemma pins_size (m pins : gmap Z pin) : m ⊆ pins -> (size m <= size pins)%nat.
Proof. apply map_subseteq_size. Qed.

(** Each round of install_trans gives up one block. *)

Lemma install_step pins bns vs :
  in_use pins -> (size pins < NBUF)%nat -> log_unused pins -> NoDup bns -> Forall2 (holding pins) bns vs ->
  forall j m bn v, bns !! j = Some bn -> vs !! j = Some v -> without (take j bns) pins m ->
  installable m bn /\ forall b, without (take (S j) bns) pins (put_pin bn b (u32 (refs m bn - 1)) v m).
Proof.
  intros Hin Hsz Hlog Hd Hh j m bn v Hbn Hv Hm. pose proof (without_subseteq _ _ _ Hm) as Hs.
  destruct (Forall2_lookup_lr _ _ _ _ _ _ Hh Hbn Hv) as (p & Hp & _ & Er).
  assert (Hnt : bn ∉ take j bns).
  { intros (k & Hk & Hlt)%elem_of_take. pose proof (NoDup_lookup _ _ _ _ Hd Hk Hbn). lia. }
  assert (Hmp : m !! bn = Some p) by (rewrite Hm; by rewrite decide_False).
  assert (refs m bn = 1) as Erf by (unfold refs; by rewrite Hmp).
  pose proof (pins_size _ _ Hs). split.
  - split; [by eapply subseteq_in_use|lia|by eapply subseteq_log_unused|lia|left; by eapply elem_of_dom_2].
  - intros b n. rewrite Erf. unfold put_pin. change (u32 (1 - 1) =? 0) with true. cbv iota.
    rewrite (take_S_r _ _ _ Hbn). destruct (decide (n = bn)) as [->|Hne].
    + rewrite lookup_delete_eq, decide_True by set_solver. done.
    + rewrite lookup_delete_ne, Hm by done. destruct (decide (n ∈ take j bns)).
      * by rewrite decide_True by set_solver.
      * by rewrite decide_False by set_solver.
Qed.

(** What commit needs: a transaction of at least one block, whose blocks are in the
    cache, and room for the block of the log beside the blocks in use. *)

Record transaction (s : kst) (d : disk) (pins : gmap Z pin) (bns : list Z) (vs : list (list Z)) : Prop := {
  tr_log : log_at start bns (k_log s);
  tr_cache : acache i pid ks dev s d pins ∅;
  tr_used : in_use pins;
  tr_room : (size pins < NBUF)%nat;
  tr_unused : log_unused pins;
  tr_some : bns <> [];
  tr_max : Z.of_nat (length bns) < LOGSIZE;
  tr_distinct : NoDup bns;
  tr_home : Forall (home start) bns;
  tr_blocks : Forall2 (holding pins) bns vs;
  tr_header : length (d start) = Z.to_nat BSIZE;
}.

Lemma log_at_clear bns l : log_at start bns l -> log_at start [] (set_l_n 0 l).
Proof. intros [? ? ? ? ?]. by split. Qed.

Lemma wrun_commit s d pins bns vs :
  transaction s d pins bns vs ->
  let w := commit_writes start d bns vs in
  exists s' pins', wrun commit s d w tt s' /\ disk_frame (set_k_log (set_l_n 0 (k_log s)) s) s' /\
    without bns pins pins' /\ acache i pid ks dev s' (do_writes d w) pins' ∅.
Proof.
  intros [Hl Hc Hin Hsz Hlog Hne Hn Hd Hhm Hh Hhd] w. unfold commit.
  assert (Hlen : length vs = length bns) by (symmetry; by eapply Forall2_length).
  assert (Hst : forall n, n = start -> pins !! n = None) by (intros n ->; apply Hlog; unfold LOGSIZE, MAXOPBLOCKS; lia).
  destruct (wrun_write_log s d pins bns vs Hl Hc Hin Hsz Hlog Hhm Hh ltac:(lia)) as (s1 & H1 & D1 & C1).
  set (d1 := do_writes d (log_writes start bns vs)) in *.
  assert (E1 : d1 start = d start).
  { pose proof (before_header start d bns vs Hlen Hn (length (log_writes start bns vs))) as [E _].
    by rewrite take_ge in E. }
  pose proof (log_at_frame _ _ _ D1 Hl) as Hl1.
  destruct (wrun_write_head s1 d1 pins bns Hl1 C1 Hin (Hst _ eq_refl) Hsz) as (s2 & H2 & D2 & C2);
    [by rewrite E1|lia|]. rewrite E1 in H2, C2. set (d2 := do_writes d1 _) in *.
  pose proof (log_at_frame _ _ _ D2 Hl1) as Hl2.
  destruct (after_header start d bns vs Hlen Hn Hhm 0) as (_ & Hv2 & _).
  rewrite do_writes_app in Hv2. change (do_writes (do_writes d (log_writes start bns vs)) _) with d2 in Hv2.
  destruct (wrun_install_trans s2 d2 pins bns vs (fun j m => without (take j bns) pins m) Hl2 C2)
    as (s3 & m & H3 & D3 & Hm & C3); [done|done|done|done|lia|by apply install_step|].
  rewrite take_ge in Hm by done. set (d3 := do_writes d2 _) in *. pose proof (without_subseteq _ _ _ Hm) as Hs.
  assert (E3 : d3 = do_writes d (log_writes start bns vs ++ (start, put_header bns (d start)) :: home_writes bns vs)).
  { unfold d3, d2, d1. by rewrite do_writes_app. }
  destruct (after_header start d bns vs Hlen Hn Hhm (length (home_writes bns vs))) as (Es & _ & _).
  rewrite take_ge, <- E3 in Es by done.
  set (t := set_k_log (set_l_n 0 (k_log s3)) s3).
  assert (Hlt : log_at start [] (k_log t)) by (eapply log_at_clear; by eapply log_at_frame).
  pose proof (pins_size _ _ Hs).
  destruct (wrun_write_head t d3 m [] Hlt (acache_set_log _ _ _ _ _ C3)) as (s4 & H4 & D4 & C4);
    [by eapply subseteq_in_use|eapply lookup_weaken_None; [by apply Hst|done]|lia|by rewrite Es, length_put_header|done|].
  rewrite Es in H4, C4. exists s4, m. split; [|split; [|split; [done|]]].
  - eapply wrun_seq; [apply runs_gets|]. rewrite (la_n _ _ _ Hl).
    destruct (Z.ltb_spec 0 (Z.of_nat (length bns))) as [_|Hz]; [|by destruct bns; [|cbn in Hz; lia]].
    unfold w, commit_writes. eapply wrun_bind; [exact H1|].
    match goal with |- wrun _ _ _ (?x :: ?l ++ ?r) _ _ => change (x :: l ++ r) with ([x] ++ (l ++ r)) end.
    eapply wrun_bind; [exact H2|]. eapply wrun_bind; [exact H3|]. eapply wrun_seq; [apply runs_modify|]. exact H4.
  - trans t; [|done]. unfold t. assert (k_log s3 = k_log s) as ->.
    { destruct D1, D2, D3. congruence. }
    apply disk_frame_set_log. by trans s1; [|trans s2].
  - unfold w, commit_writes. rewrite app_comm_cons, app_assoc, do_writes_app, <- E3. exact C4.
Qed.

(** ** end_op *)

Lemma acache_in_proc s d pins L : acache i pid ks dev s d pins L -> in_proc i pid ks s.
Proof. intros (C & H & _). apply H. Qed.

Lemma acache_wake ch s d pins L :
  acache i pid ks dev s d pins L -> acache i pid ks dev (set_k_procs (wake ch <$> k_procs s) s) d pins L.
Proof.
  intros (C & [H1 H2 H3 H4 H5] & Hu). exists C. split; [|done]. split; [done|done|done| |done]. by apply in_proc_wake.
Qed.

(** What end_op does before the commit, when it ends the last operation, and after
    it. *)

Definition ending (s : kst) : kst :=
  set_k_log (set_l_committing 1 (set_l_outstanding (l_outstanding (k_log s) - 1) (k_log s))) s.

Definition ended (s : kst) : kst :=
  set_k_procs (wake ChLog <$> k_procs s) (set_k_log (set_l_committing 0 (k_log s)) s).

Lemma release_llog s h : k_held s = ∅ -> runs (release Llog) (set_k_held ({[Llog]} ∪ ∅) (set_k_held h s)) tt s.
Proof.
  intros Hh. eapply runs_release_to; [cbn; set_solver|]. cbn.
  replace (({[Llog]} ∪ ∅) ∖ {[Llog]} : gset lock) with (∅ : gset lock) by set_solver.
  rewrite <- Hh. by destruct s.
Qed.

Lemma wrun_end_op s d w s' :
  in_proc i pid ks s -> l_outstanding (k_log s) = 1 -> l_committing (k_log s) = 0 ->
  wrun commit (ending s) d w tt s' -> in_proc i pid ks s' ->
  wrun end_op s d w tt (ended s').
Proof.
  intros Hip Ho Hcm Hc Hip'. pose proof (ip_held _ _ _ _ Hip) as Hh. pose proof (ip_held _ _ _ _ Hip') as Hh'.
  unfold end_op. eapply wrun_seq; [apply runs_acquire; rewrite Hh; set_solver|]. rewrite Hh.
  eapply wrun_seq; [apply runs_modify|]. eapply wrun_seq; [apply runs_gets|].
  cbn [k_log set_k_log set_k_held l_committing set_l_outstanding l_outstanding]. rewrite Hcm, Ho.
  change (negb (0 =? 0)) with false. change (1 - 1 =? 0) with true. cbv iota.
  eapply wrun_seq; [eapply runs_bind; [apply runs_modify|apply runs_ret]|]. eapply wrun_seq.
  { pose proof (release_llog (ending s) ∅ Hh) as Hr. unfold ending in Hr at 1. rewrite Ho in Hr. exact Hr. }
  cbv iota. rewrite <- (app_nil_r w). eapply wrun_bind; [exact Hc|]. apply wrun_runs.
  eapply runs_bind; [apply runs_acquire; rewrite Hh'; set_solver|]. rewrite Hh'.
  eapply runs_bind; [apply runs_modify|].
  eapply runs_bind; [apply runs_wakeup; [apply Hip'|intros k; cbn; set_solver]|].
  exact (release_llog (ended s') ∅ Hh').
Qed.

Lemma transaction_ending s d pins bns vs : transaction s d pins bns vs -> transaction (ending s) d pins bns vs.
Proof.
  intros [[? ? ? ? ?] H2 H3 H4 H5 H6 H7 H8 H9 H10 H11]. split; [by split|by apply acache_set_log|done..].
Qed.

(** end_op of the last operation, from the transaction to the empty log. *)

Lemma wrun_end_op_atomic s d pins bns vs :
  transaction s d pins bns vs -> hdr_n (d start) = 0 ->
  l_outstanding (k_log s) = 1 -> l_committing (k_log s) = 0 ->
  exists w s' pins', wrun end_op s d w tt s' /\
    (forall k, let x := do_writes d (take k w) in log_ok start x /\
      (same_home start (view start x) d \/ same_home start (view start x) (committed d bns vs))) /\
    same_home start (do_writes d w) (committed d bns vs) /\ hdr_n (do_writes d w start) = 0 /\
    length (do_writes d w start) = Z.to_nat BSIZE /\
    log_at start [] (k_log s') /\ l_size (k_log s') = l_size (k_log s) /\
    l_outstanding (k_log s') = 0 /\ l_committing (k_log s') = 0 /\
    without bns pins pins' /\ acache i pid ks dev s' (do_writes d w) pins' ∅.
Proof.
  intros Ht Hem Ho Hcm. pose proof Ht as [Hl Hc Hin Hsz Hlog Hne Hn Hd Hhm Hh Hhd].
  assert (Hlen : length vs = length bns) by (symmetry; by eapply Forall2_length).
  destruct (wrun_commit (ending s) d pins bns vs (transaction_ending _ _ _ _ _ Ht)) as (s1 & m & H1 & D1 & Hm & C1).
  destruct (all_done start d bns vs Hlen Hn Hhm Hhd) as [E1 E2].
  exists (commit_writes start d bns vs), (ended s1), m.
  split; [eapply wrun_end_op; [by eapply acache_in_proc|done|done|exact H1|by eapply acache_in_proc]|].
  split; [intros k; by apply commit_crash|]. split; [done|]. split.
  { rewrite E1, hdr_n_put; [done| |done]. rewrite length_put_header, Hhd. unfold BSIZE. cbn [length]. lia. }
  split; [by rewrite E1, !length_put_header|].
  unfold ended. cbn [k_log set_k_log set_k_procs]. rewrite (df_log _ _ D1). split_and!; [|done|by cbn; rewrite Ho|done|done|].
  - destruct Hl. by split.
  - exact (acache_wake ChLog _ _ _ _ (acache_set_log _ _ _ _ _ C1)).
Qed.

(** ** Recovery *)

Lemma runs_get_data s d pins L n p (off : nat) :
  acache i pid ks dev s d pins L -> pins !! n = Some p -> (off + 4 <= length (pn_data p))%nat ->
  runs (get_data 4 (pn_buf p) (Z.of_nat off)) s (default 0 (le_get 4 (pn_data p) (Z.of_nat off))) s.
Proof.
  intros Hc Hp Hoff. destruct (runs_get_pin i pid ks dev s d pins L n p Hc Hp) as (x & Hx & Ex & _).
  eapply runs_bind; [exact Hx|]. apply runs_valid. rewrite Ex. by rewrite le_get_nat.
Qed.

Lemma runs_set_lh_block s j v :
  length (l_block (k_log s)) = Z.to_nat LOGSIZE -> Z.of_nat j < LOGSIZE ->
  runs (set_lh_block (Z.of_nat j) v) s tt
    (set_k_log (set_l_block (<[j := v]> (l_block (k_log s))) (k_log s)) s).
Proof.
  intros Hl Hj. destruct (lookup_lt_is_Some_2 (l_block (k_log s)) j) as [x Hx]; [lia|].
  unfold set_lh_block. eapply runs_bind.
  - eapply runs_bind; [apply runs_gets|]. apply runs_valid. rewrite Nat2Z.id. exact Hx.
  - intros e. unfold mod_log. cbn. by rewrite Nat2Z.id.
Qed.

Lemma length_hdr_blocks h : length (hdr_blocks h) = Z.to_nat (hdr_n h).
Proof. unfold hdr_blocks. by rewrite length_fmap, length_seq. Qed.

(** The blocks of the header, read one after the other. *)

Lemma runs_get_blocks s d pins p h :
  acache i pid ks dev s d pins {[start]} -> pins !! start = Some p -> pn_data p = h ->
  length h = Z.to_nat BSIZE -> 0 <= hdr_n h < LOGSIZE -> l_n (k_log s) = hdr_n h ->
  length (l_block (k_log s)) = Z.to_nat LOGSIZE ->
  exists s' blk, wrun (for_lh (fun j => v <- get_data 4 (pn_buf p) (4 + 4 * j) ;; set_lh_block j (i32 v))) s d [] tt s' /\
    disk_frame (set_k_log (set_l_block blk (k_log s)) s) s' /\ acache i pid ks dev s' d pins {[start]} /\
    take (length (hdr_blocks h)) blk = hdr_blocks h /\ length blk = Z.to_nat LOGSIZE.
Proof.
  intros Hc Hp Eh Hh Hn Hln Hlb. set (bns := hdr_blocks h).
  assert (Hlen : Z.of_nat (length bns) = hdr_n h) by (unfold bns; rewrite length_hdr_blocks; lia).
  set (I j t d' := d' = d /\ exists blk, length blk = Z.to_nat LOGSIZE /\ take j blk = take j bns /\
    disk_frame (set_k_log (set_l_block blk (k_log s)) s) t /\ acache i pid ks dev t d pins {[start]}).
  destruct (wrun_for_lh (fun j => v <- get_data 4 (pn_buf p) (4 + 4 * j) ;; set_lh_block j (i32 v)) (length bns) I
    (fun _ => []) s d ltac:(lia)) as (s' & Hr & _ & blk & Hbl & Htk & Hf & Hc').
  - intros j t d' (_ & blk & _ & _ & Hf & _). rewrite (df_log _ _ Hf). cbn. lia.
  - intros j t d' Hj (-> & blk & Hbl & Htk & Hf & Hct). exists (set_k_log (set_l_block (<[j := hdr_block h j]> blk) (k_log s)) t).
    split; [|split; [done|exists (<[j := hdr_block h j]> blk); split; [by rewrite length_insert|split; [|split]]]].
    + apply wrun_runs. replace (4 + 4 * Z.of_nat j) with (Z.of_nat (4 + 4 * j)) by lia.
      eapply runs_bind; [eapply runs_get_data; [done|done|]|].
      { rewrite Eh, Hh. unfold LOGSIZE, MAXOPBLOCKS, BSIZE in *. lia. }
      rewrite Eh. replace (Z.of_nat (4 + 4 * j)) with (4 + 4 * Z.of_nat j) by lia. fold (hdr_block h j).
      pose proof (runs_set_lh_block t j (hdr_block h j)) as Hs. rewrite (df_log _ _ Hf) in Hs. by apply Hs; [|lia].
    + assert (Hb : bns !! j = Some (hdr_block h j)).
      { unfold bns, hdr_blocks. rewrite list_lookup_fmap, lookup_seq_lt by (rewrite <- length_hdr_blocks; done). done. }
      rewrite (take_S_r bns j _ Hb), <- Htk. erewrite take_S_r; [by rewrite take_insert_ge|].
      apply list_lookup_insert_eq. lia.
    + destruct Hf. by split.
    + by apply acache_set_log.
  - split; [done|]. exists (l_block (k_log s)). split; [done|]. split; [done|]. split; [|done]. by split; cbn; destruct (k_log s).
  - rewrite concat_nils in Hr. rewrite (take_ge bns) in Htk by done. by exists s', blk.
Qed.

Lemma wrun_read_head s d pins :
  u32 (l_dev (k_log s)) = dev -> l_start (k_log s) = start -> length (l_block (k_log s)) = Z.to_nat LOGSIZE ->
  acache i pid ks dev s d pins ∅ -> in_use pins -> (size pins < NBUF)%nat -> pins !! start = None -> log_ok start d ->
  exists s' l, wrun read_head s d [] tt s' /\ disk_frame (set_k_log l s) s' /\
    log_at start (hdr_blocks (d start)) l /\ acache i pid ks dev s' d pins ∅.
Proof.
  intros Ed Es Hlb Hc Hin Hsz Hns Hok. pose proof Hok as [Hh Hn _ _].
  assert (Hu : u32 start = start) by (rewrite <- (Z.add_0_r start); by apply u32_start).
  destruct (drun_bread i pid ks dev s d pins ∅ start Hc) as (b & s1 & ds1 & H1 & F1 & D1 & C1 & _).
  { apply readable_fresh; [unfold LOGSIZE, MAXOPBLOCKS in *; lia|set_solver|done|done|done]. }
  rewrite (right_id_L ∅ (∪)) in C1. unfold read_pin, refs, seen in C1. rewrite Hns in C1.
  set (p1 := mk_pin b _ _) in C1. set (l1 := set_l_n (hdr_n (d start)) (k_log s1)).
  assert (Hp1 : <[start := p1]> pins !! start = Some p1) by apply lookup_insert_eq.
  destruct (runs_get_blocks (set_k_log l1 s1) d _ p1 (d start) (acache_set_log _ _ _ _ _ C1) Hp1 eq_refl Hh Hn eq_refl)
    as (s2 & blk & H2 & D2 & C2 & Hblk & Hlblk); [cbn; by rewrite (df_log _ _ D1)|].
  destruct (runs_brelse_pin i pid ks dev s2 _ _ _ start p1 C2) as (s3 & H3 & D3 & C3);
    [by apply elem_of_singleton|done|done|].
  exists s3, (set_l_block blk l1). split; [|split; [|split]].
  - unfold read_head. eapply wrun_seq; [apply runs_gets|]. rewrite Ed, Es, Hu.
    eapply wrun_then; [by eapply wrun_quiet|]. eapply wrun_seq.
    { apply (runs_get_data _ _ _ _ start p1 0 C1 Hp1). cbn [p1 pn_data]. rewrite Hh. unfold BSIZE. lia. }
    eapply wrun_seq; [apply runs_modify|]. change (set_l_n _ (k_log s1)) with l1.
    eapply wrun_then; [exact H2|]. by apply wrun_runs.
  - trans s2; [|done]. trans (set_k_log (set_l_block blk l1) s1); [by apply disk_frame_set_log|exact D2].
  - pose proof (df_log _ _ D1) as E1. split; cbn; [by rewrite E1|by rewrite E1| |done|done].
    rewrite length_hdr_blocks. lia.
  - unfold put_pin in C3. cbn in C3. rewrite delete_insert_eq, delete_id in C3 by done.
    by rewrite difference_diag_L in C3.
Qed.

(** Recovery keeps a buffer for every block that it installs. *)

Record leaked (bns : list Z) (m : gmap Z pin) : Prop := {
  lk_dom : forall n, n ∈ bns <-> n ∈ dom m;
  lk_ref : map_Forall (fun _ p => pn_ref p = 2 ^ 32 - 1) m;
}.

Lemma leaked_size bns m : NoDup bns -> leaked bns m -> (size m <= length bns)%nat.
Proof.
  intros Hd [H _]. rewrite <- size_dom, <- (size_list_to_set (C:=gset Z) bns Hd).
  apply subseteq_size. intros n Hn. apply elem_of_list_to_set. by apply H.
Qed.

Lemma leaked_in_use bns m : leaked bns m -> in_use m.
Proof. intros [_ H] n p Hn. rewrite (H _ _ Hn). lia. Qed.

Lemma leaked_log_unused bns m : Forall (home start) bns -> leaked bns m -> log_unused m.
Proof.
  intros Hb [H _] n Hn. apply not_elem_of_dom. rewrite <- H. intros Hin. rewrite Forall_forall in Hb.
  by destruct (Hb n Hin).
Qed.

Lemma leak_step bns (vs : list (list Z)) :
  NoDup bns -> Forall (home start) bns -> Z.of_nat (length bns) < LOGSIZE ->
  forall j m bn v, bns !! j = Some bn -> vs !! j = Some v -> leaked (take j bns) m ->
  installable m bn /\ forall b, leaked (take (S j) bns) (put_pin bn b (u32 (refs m bn - 1)) v m).
Proof.
  intros Hd Hhm Hn j m bn v Hbn Hv Hm. pose proof (lookup_lt_Some _ _ _ Hbn) as Hj.
  assert (Hnt : bn ∉ take j bns).
  { intros (k & Hk & Hlt)%elem_of_take. pose proof (NoDup_lookup _ _ _ _ Hd Hk Hbn). lia. }
  assert (Hnone : m !! bn = None) by (apply not_elem_of_dom; by rewrite <- (lk_dom _ _ Hm)).
  assert (Erf : refs m bn = 0) by (unfold refs; by rewrite Hnone).
  assert (Hsz : (size m <= j)%nat).
  { pose proof (leaked_size _ _ (sublist_NoDup _ _ Hd (sublist_take _ _)) Hm) as H. rewrite length_take in H. lia. }
  assert (HNB : Z.of_nat NBUF = LOGSIZE) by done. split.
  - split; [by eapply leaked_in_use|lia| |lia|right; lia].
    eapply leaked_log_unused; [|done]. by apply Forall_take.
  - intros b. rewrite Erf. unfold put_pin. change (u32 (0 - 1)) with (2 ^ 32 - 1). change (2 ^ 32 - 1 =? 0) with false.
    cbv iota. split.
    + intros n. rewrite (take_S_r _ _ _ Hbn), dom_insert. pose proof (lk_dom _ _ Hm n). set_solver.
    + apply map_Forall_insert_2; [done|apply Hm].
Qed.

Lemma wrun_recover s d :
  u32 (l_dev (k_log s)) = dev -> l_start (k_log s) = start -> length (l_block (k_log s)) = Z.to_nat LOGSIZE ->
  acache i pid ks dev s d ∅ ∅ -> log_ok start d ->
  let w := recover_writes start d in
  exists s' m, wrun recover_from_log s d w tt s' /\ log_at start [] (k_log s') /\
    leaked (hdr_blocks (d start)) m /\ acache i pid ks dev s' (do_writes d w) m ∅.
Proof.
  intros Ed Es Hlb Hc Hok w. pose proof Hok as [Hh Hn Hd Hhm].
  destruct (wrun_read_head s d ∅ Ed Es Hlb Hc) as (s1 & l & H1 & D1 & Hl & C1);
    [apply map_Forall_empty|rewrite map_size_empty; unfold NBUF, MAXOPBLOCKS; lia|done|done|].
  set (bns := hdr_blocks (d start)) in *. assert (Hlen : Z.of_nat (length bns) = hdr_n (d start)).
  { unfold bns. rewrite length_hdr_blocks. lia. }
  set (vs := (fun j => d (log_block start j)) <$> seq 0 (length bns)).
  assert (Hl1 : log_at start bns (k_log s1)) by (rewrite (df_log _ _ D1); exact Hl).
  destruct (wrun_install_trans s1 d ∅ bns vs (fun j m => leaked (take j bns) m) Hl1 C1)
    as (s2 & m & H2 & D2 & Hm & C2).
  { split; [intros n; rewrite dom_empty; cbn; set_solver|apply map_Forall_empty]. } { done. } { unfold vs. by rewrite length_fmap, length_seq. }
  { intros j v Hv. unfold vs in Hv. rewrite list_lookup_fmap in Hv. destruct (seq _ _ !! j) as [k|] eqn:E; [|done].
    apply lookup_seq in E as [-> _]. by injection Hv. }
  { lia. } { apply leak_step; [done|done|lia]. }
  rewrite take_ge in Hm by done. change (home_writes bns vs) with (logged start d) in *.
  set (t := set_k_log (set_l_n 0 (k_log s2)) s2).
  assert (Hlt : log_at start [] (k_log t)) by (eapply log_at_clear; by eapply log_at_frame).
  destruct (installing start d Hok (length (logged start d))) as [E2 _]. rewrite take_ge in E2 by done.
  pose proof (leaked_size _ _ Hd Hm). assert (HNB : Z.of_nat NBUF = LOGSIZE) by done.
  destruct (wrun_write_head t _ m [] Hlt (acache_set_log _ _ _ _ _ C2)) as (s3 & H3 & D3 & C3);
    [by eapply leaked_in_use|eapply leaked_log_unused; [exact Hhm|done|lia]|lia|by rewrite E2|done|].
  rewrite E2 in H3, C3. exists s3, m. split; [|split; [by eapply log_at_frame|split; [done|]]].
  - unfold recover_from_log. eapply wrun_then; [exact H1|]. eapply wrun_bind; [exact H2|].
    eapply wrun_seq; [apply runs_modify|]. exact H3.
  - unfold w, recover_writes. rewrite do_writes_app. exact C3.
Qed.

(** C2: initlog at boot recovers the disk.  It returns; at the end every block
    outside of the log is what the log says it should be, and the log is empty.  A
    crash during recovery is harmless: from any prefix of its writes another recovery
    gives the same disk.  The buffers of the installed blocks are left with a count
    of 2^32 - 1 users, because install_trans gives up a reference that recovery has
    not taken. *)

Theorem initlog_recovers s d sb :
  0 <= dev < 2 ^ 31 -> i32 (sb_logstart sb) = start -> length (l_block (k_log s)) = Z.to_nat LOGSIZE ->
  acache i pid ks dev s d ∅ ∅ -> log_ok start d ->
  exists w s' m, wrun (initlog dev sb) s d w tt s' /\
    (forall k, let x := do_writes d (take k w) in
      log_ok start x /\ same_home start (view start x) (view start d)) /\
    same_home start (do_writes d w) (view start d) /\ hdr_n (do_writes d w start) = 0 /\
    log_at start [] (k_log s') /\ leaked (hdr_blocks (d start)) m /\ acache i pid ks dev s' (do_writes d w) m ∅.
Proof.
  intros Hdev Hst Hlb Hc Hok. set (l := set_l_dev dev (set_l_size (i32 (sb_nlog sb)) (set_l_start start (k_log s)))).
  destruct (wrun_recover (set_k_log l s) d) as (s' & m & H1 & Hl & Hm & C1);
    [cbn; apply u32_small; lia|done|done|by apply acache_set_log|done|].
  destruct (recovered start d) as [E1 E2]. pose proof (lo_len _ _ Hok) as Hh.
  exists (recover_writes start d), s', m. split; [|split; [intros k; by apply recover_crash|split; [done|split; [|done]]]].
  - unfold initlog. change (BSIZE <=? 4 + 4 * LOGSIZE) with false. cbv iota. rewrite Hst.
    do 3 (eapply wrun_seq; [apply runs_modify|]). exact H1.
  - rewrite E1, hdr_n_put; [done| |done]. rewrite Hh. unfold BSIZE. cbn [length]. lia.
Qed.

(** ** log_write *)

(** The blocks of a transaction after a write to [n]. *)

Definition absorb (n : Z) (bns : list Z) : list Z := if decide (n ∈ bns) then bns else bns ++ [n].

Definition log_pin (n : Z) (bns : list Z) (p : pin) (pins : gmap Z pin) : gmap Z pin :=
  if decide (n ∈ bns) then pins else <[n := mk_pin (pn_buf p) (pn_ref p + 1) (pn_data p)]> pins.

Lemma absorb_index_spec bns l n :
  log_at start bns l -> Forall (fun v => 0 <= v < 2 ^ 31) bns -> 0 <= n < 2 ^ 31 ->
  if decide (n ∈ bns) then bns !! absorb_index l n = Some n else absorb_index l n = length bns.
Proof.
  intros Hl Hr Hn. unfold absorb_index. rewrite (la_n _ _ _ Hl), Nat2Z.id, (la_block _ _ _ Hl).
  rewrite Forall_lookup in Hr.
  destruct (list_find _ bns) as [[j v]|] eqn:E.
  - apply list_find_Some in E as (Hj & Hv & _). rewrite u32_small in Hv by (specialize (Hr _ _ Hj); lia). subst v.
    rewrite decide_True; [done|]. by eapply list_elem_of_lookup_2.
  - rewrite list_find_None, Forall_lookup in E. rewrite decide_False; [done|].
    intros (j & Hj)%list_elem_of_lookup. apply (E _ _ Hj). rewrite u32_small by lia. done.
Qed.

Lemma log_at_same bns l j n : log_at start bns l -> bns !! j = Some n -> <[j := n]> (l_block l) = l_block l.
Proof.
  intros Hl Hj. apply list_insert_id. rewrite <- (la_block _ _ _ Hl) in Hj. by apply lookup_take_Some in Hj as [? _].
Qed.

Lemma log_at_snoc bns l n :
  log_at start bns l -> Z.of_nat (length bns) < LOGSIZE ->
  log_at start (bns ++ [n]) (set_l_n (l_n l + 1) (set_l_block (<[length bns := n]> (l_block l)) l)).
Proof.
  intros [H1 H2 H3 H4 H5] Hn. split; cbn; [done|done|rewrite length_app; cbn; lia| |by rewrite length_insert].
  rewrite length_app, Nat.add_1_r. erewrite take_S_r; [|apply list_lookup_insert_eq; lia].
  by rewrite take_insert_ge, H4.
Qed.

(** What log_write needs: the process holds the block, and the log has room. *)

Record loggable (s : kst) (d : disk) (pins : gmap Z pin) (L : gset Z) (bns : list Z) (n : Z) (p : pin) : Prop := {
  lg_log : log_at start bns (k_log s);
  lg_cache : acache i pid ks dev s d pins L;
  lg_held : n ∈ L;
  lg_pin : pins !! n = Some p;
  lg_blocks : Forall (fun v => 0 <= v < 2 ^ 31) bns;
  lg_range : 0 <= n < 2 ^ 31;
  lg_refs : pn_ref p + 1 < 2 ^ 32;
  lg_max : Z.of_nat (length bns) < LOGSIZE;
  lg_size : Z.of_nat (length bns) < l_size (k_log s) - 1;
  lg_outstanding : 1 <= l_outstanding (k_log s);
}.

(** log_write up to the choice of the entry. *)

Lemma runs_log_write_entry s d pins L bns n p t :
  loggable s d pins L bns n p ->
  let j := absorb_index (k_log s) n in
  runs (set_lh_block (Z.of_nat j) n ;;
      (if* Z.of_nat j =? l_n (k_log s) then
         bpin (pn_buf p) ;; mod_log (fun l => set_l_n (l_n l + 1) l)) ;; release Llog) (set_k_held {[Llog]} s) tt t ->
  runs (log_write (pn_buf p)) s tt t.
Proof.
  intros [Hl Hc Hn Hp Hbr Hnr Hr Hmax Hsz Hout] j Ht.
  pose proof (ip_held _ _ _ _ (acache_in_proc _ _ _ _ Hc)) as Hh. pose proof (la_n _ _ _ Hl) as En.
  destruct (pin_lookup i pid ks dev s d pins L n p Hc Hp) as (x & Hx & _ & Ex).
  unfold log_write. eapply runs_bind; [apply runs_gets|]. rewrite En.
  destruct (Z.leb_spec LOGSIZE (Z.of_nat (length bns))); [lia|].
  destruct (Z.leb_spec (l_size (k_log s) - 1) (Z.of_nat (length bns))); [lia|].
  destruct (Z.ltb_spec (l_outstanding (k_log s)) 1); [lia|]. cbn [orb].
  eapply runs_bind; [apply runs_acquire; rewrite Hh; set_solver|]. rewrite Hh, (right_id_L ∅ (∪)).
  eapply runs_bind; [by apply (runs_get_buf _ x)|]. eapply runs_bind; [apply runs_gets|].
  cbn [k_log set_k_held]. rewrite Ex. fold j. rewrite i32_small by lia. exact Ht.
Qed.

(** The block is in the log already. *)

Lemma runs_log_write_absorb s d pins L bns n p :
  loggable s d pins L bns n p -> n ∈ bns -> runs (log_write (pn_buf p)) s tt s.
Proof.
  intros Hlg Hin. pose proof Hlg as [Hl Hc _ _ Hbr Hnr _ Hmax _ _]. eapply runs_log_write_entry; [exact Hlg|].
  pose proof (absorb_index_spec bns (k_log s) n Hl Hbr Hnr) as Hab. rewrite decide_True in Hab by done.
  set (j := absorb_index (k_log s) n) in *. assert (Hj : (j < length bns)%nat) by (by eapply lookup_lt_Some).
  eapply runs_bind; [apply runs_set_lh_block; [apply (la_len _ _ _ Hl)|lia]|].
  cbn [k_log set_k_held]. rewrite (log_at_same bns _ j n Hl Hab), (la_n _ _ _ Hl).
  destruct (Z.eqb_spec (Z.of_nat j) (Z.of_nat (length bns))); [lia|]. eapply runs_bind; [apply runs_ret|].
  eapply runs_release_to; [cbn; set_solver|]. cbn [k_held set_k_log set_k_held].
  replace ({[Llog]} ∖ {[Llog]} : gset lock) with (∅ : gset lock) by set_solver.
  rewrite <- (ip_held _ _ _ _ (acache_in_proc _ _ _ _ Hc)).
  assert (E : set_l_block (l_block (k_log s)) (k_log s) = k_log s) by (by destruct (k_log s)). rewrite E. by destruct s.
Qed.

(** The block is new. *)

Lemma runs_log_write_new s d pins L bns n p :
  loggable s d pins L bns n p -> n ∉ bns ->
  let l := set_l_n (l_n (k_log s) + 1) (set_l_block (<[length bns := n]> (l_block (k_log s))) (k_log s)) in
  exists s', runs (log_write (pn_buf p)) s tt s' /\ disk_frame (set_k_log l s) s' /\
    acache i pid ks dev s' d (<[n := mk_pin (pn_buf p) (pn_ref p + 1) (pn_data p)]> pins) L.
Proof.
  intros Hlg Hni l. pose proof Hlg as [Hl Hc Hn Hp Hbr Hnr Hr Hmax _ _].
  pose proof (ip_held _ _ _ _ (acache_in_proc _ _ _ _ Hc)) as Hh.
  pose proof (absorb_index_spec bns (k_log s) n Hl Hbr Hnr) as Hab. rewrite decide_False in Hab by done.
  set (l0 := set_l_block (<[length bns := n]> (l_block (k_log s))) (k_log s)).
  destruct (runs_bpin_held i pid ks dev (set_k_log l0 s) d pins L n p {[Llog]}) as (bufs & Hb & Hc');
    [by apply acache_set_log|done|done|done|set_solver|].
  exists (set_k_log l (set_k_bufs bufs s)). split; [|split; [by split|]].
  - eapply runs_log_write_entry; [exact Hlg|]. rewrite Hab, (la_n _ _ _ Hl), Z.eqb_refl.
    eapply runs_bind; [apply runs_set_lh_block; [apply (la_len _ _ _ Hl)|lia]|]. cbn [k_log set_k_held]. fold l0.
    eapply runs_bind; [eapply runs_bind; [exact Hb|apply runs_modify]|].
    eapply runs_release_to; [cbn; set_solver|]. cbn [k_held set_k_log set_k_bufs set_k_held k_log].
    replace ({[Llog]} ∖ {[Llog]} : gset lock) with (∅ : gset lock) by set_solver. rewrite <- Hh. reflexivity.
  - exact (acache_set_log l _ _ _ _ Hc').
Qed.

Lemma runs_log_write s d pins L bns n p :
  loggable s d pins L bns n p ->
  exists s' l, runs (log_write (pn_buf p)) s tt s' /\ disk_frame (set_k_log l s) s' /\
    log_at start (absorb n bns) l /\ l_size l = l_size (k_log s) /\ l_outstanding l = l_outstanding (k_log s) /\
    l_committing l = l_committing (k_log s) /\ acache i pid ks dev s' d (log_pin n bns p pins) L.
Proof.
  intros Hlg. unfold absorb, log_pin. destruct (decide (n ∈ bns)) as [Hin|Hni].
  - exists s, (k_log s). split; [by eapply runs_log_write_absorb|]. split; [by split|]. by destruct Hlg.
  - destruct (runs_log_write_new _ _ _ _ _ _ _ Hlg Hni) as (s' & Hr & Hf & Hc). eexists s', _.
    split; [exact Hr|]. split; [exact Hf|]. split; [by apply log_at_snoc; apply Hlg|]. done.
Qed.

(** ** A full log *)

Lemma all_in_use C pins L b x :
  users pid dev C pins L -> in_use pins -> size pins = NBUF ->
  (b < NBUF)%nat -> C !! b = Some x -> b_refcnt x <> 0.
Proof.
  intros Hu Hin Hsz Hb Hx Hr. set (f := fun e : Z * pin => pn_buf e.2). set (l := f <$> map_to_list pins).
  assert (Hnd : NoDup (b :: l)).
  { constructor.
    - intros ([n p] & Eb & Hp%elem_of_map_to_list)%list_elem_of_fmap.
      destruct (us_pinned _ _ _ _ _ Hu _ _ Hp) as (y & [_ Hy _ _ Ey _ _]). unfold f in Eb. cbn in Eb. rewrite <- Eb, Hx in Hy.
      injection Hy as <-. specialize (Hin _ _ Hp). cbn in Hin. lia.
    - apply NoDup_fmap_2_strong; [|apply NoDup_map_to_list].
      intros [n1 p1] [n2 p2] H1%elem_of_map_to_list H2%elem_of_map_to_list E. unfold f in E. cbn in E.
      assert (n1 = n2) as -> by (eapply pins_inj; [exact Hu|done..]). rewrite H1 in H2. by injection H2 as ->. }
  assert (Hsub : b :: l ⊆+ seq 0 NBUF).
  { apply NoDup_submseteq; [done|]. intros c Hc. apply elem_of_seq. apply elem_of_cons in Hc as [->|Hc]; [lia|].
    apply list_elem_of_fmap in Hc as ([n p] & -> & Hp%elem_of_map_to_list).
    destruct (us_pinned _ _ _ _ _ Hu _ _ Hp) as (y & [Hy _ _ _ _ _ _]). unfold f. cbn. lia. }
  apply submseteq_length in Hsub. cbn [length] in Hsub. unfold l in Hsub.
  rewrite length_fmap, length_map_to_list, length_seq in Hsub. lia.
Qed.

Lemma panics_bread s d pins L n :
  acache i pid ks dev s d pins L -> in_use pins -> size pins = NBUF -> pins !! n = None ->
  panics (bread dev n) s "bget: no buffers".
Proof.
  intros (C & Hc & Hu) Hin Hsz Hn. pose proof (ip_held _ _ _ _ (cd_proc _ _ _ _ _ _ _ Hc)) as Hh.
  destruct (cd_lru _ _ _ _ _ _ _ Hc) as [order Hl].
  assert (Hm : missing dev C n).
  { destruct (users_missing pid dev C pins L n Hu Hn) as [(b & x & Hb & Hx & _ & _ & Hr & _)|H]; [|done].
    exfalso. by eapply (all_in_use C pins L b x). }
  unfold bread, bget. apply panics_bind_l. eapply panics_bind; [apply runs_acquire; rewrite Hh; set_solver|].
  eapply panics_bind; [apply (runs_bget_cached dev n (set_k_held _ s) order); exact Hl|].
  cbn [k_bufs set_k_held]. rewrite (first_holder_none i pid ks dev s C d order n Hc Hl Hm).
  eapply panics_bind; [apply (runs_bget_unused (set_k_held _ s) order); exact Hl|]. cbn [k_bufs set_k_held].
  destruct (first_such (unused (k_bufs s)) (rev order)) as [b|] eqn:E; [|apply panics_panic]. exfalso.
  apply first_such_Some in E as [Hin' Hun]. apply elem_of_rev, (lru_in _ _ _ Hl) in Hin'.
  rewrite unused_cores, (cd_cores _ _ _ _ _ _ _ Hc) in Hun. destruct (C !! b) as [x|] eqn:Ex; [|done].
  apply Z.eqb_eq in Hun. by eapply (all_in_use C pins L b x).
Qed.

(** A log of LOGSIZE blocks, the most that log_write admits, cannot be committed: its
    blocks take all the NBUF buffers, and commit panics when it reads the first block
    of the log. *)

Theorem commit_full_panics s d pins bns :
  log_at start bns (k_log s) -> acache i pid ks dev s d pins ∅ -> in_use pins -> log_unused pins ->
  Z.of_nat (length bns) = LOGSIZE -> dom pins = list_to_set bns -> NoDup bns ->
  panics commit s "bget: no buffers".
Proof.
  intros Hl Hc Hin Hlog Hn Hdom Hd. unfold commit.
  assert (Hsz : size pins = NBUF).
  { rewrite <- size_dom, Hdom, size_list_to_set by done. unfold NBUF, LOGSIZE, MAXOPBLOCKS in *. lia. }
  eapply panics_bind; [apply runs_gets|]. rewrite (la_n _ _ _ Hl), Hn. change (0 <? LOGSIZE) with true. cbv iota.
  apply panics_bind_l. unfold write_log, for_lh. change (Z.to_nat LOGSIZE + 2)%nat with (S (Z.to_nat LOGSIZE + 1)).
  cbn [loop]. apply panics_bind_l. eapply panics_bind; [apply runs_gets|]. rewrite (la_n _ _ _ Hl), Hn.
  change (0 <? LOGSIZE) with true. change (LOGSIZE <=? 0) with false. cbv iota. apply panics_bind_l.
  eapply panics_bind; [apply runs_gets|]. apply panics_bind_l.
  destruct (u32_log_block 0) as [E _]; [done|]. rewrite (la_dev _ _ _ Hl), (la_start _ _ _ Hl).
  change (start + 0 + 1) with (start + Z.of_nat 0 + 1). rewrite E.
  eapply panics_bread; [done|done|done|]. by apply log_block_unused.
Qed.

End Runs.
