(* ===== verification/Fs.v ===== *)
(** * The file system (kernel/fs.c)

    Blocks and their bitmap, inodes and the inode cache, the content of inodes,
    directories and path names.  A [struct inode *] is the number of a slot of
    the inode cache; on-disk structures are read and written inside the data of
    a buffer, at their offsets. *)

From S2P Require Import Prelude Monad Riscv Kstring Kstate Spinlock Printf Kalloc Vm Sched Bio Log.

(** ** kernel/fs.h and kernel/stat.h *)

Definition ROOTINO : Z := 1.
Definition FSMAGIC : Z := 0x10203040.
Definition NDIRECT : Z := 12.
Definition NINDIRECT : Z := BSIZE / 4.
Definition MAXFILE : Z := NDIRECT + NINDIRECT.
Definition sizeof_dinode : Z := 64.
Definition IPB : Z := BSIZE / sizeof_dinode.
Definition BPB : Z := BSIZE * 8.
Definition DIRSIZ : Z := 14.
Definition sizeof_dirent : Z := 16.
Definition T_DIR : Z := 1.
Definition T_FILE : Z := 2.
Definition T_DEVICE : Z := 3.

Definition IBLOCK (i : Z) (sb : superblock) : Z := u32 (i / IPB + sb_inodestart sb).
Definition BBLOCK (b : Z) (sb : superblock) : Z := u32 (b / BPB + sb_bmapstart sb).

(** struct dinode: the offsets of its members. *)

Definition DI_type : Z := 0.
Definition DI_major : Z := 2.
Definition DI_minor : Z := 4.
Definition DI_nlink : Z := 6.
Definition DI_size : Z := 8.
Definition DI_addrs (i : Z) : Z := 12 + 4 * i.

Definition dinode_off (inum : Z) : Z := (inum mod IPB) * sizeof_dinode.

Definition get_addr (ip : nat) (i : Z) : K Z :=
  x <- get_inode ip ;; valid (i_addrs x !! Z.to_nat i).
Definition set_addr (ip : nat) (i v : Z) : K unit :=
  get_addr ip i ;; mod_inode ip (fun x => set_i_addrs (<[Z.to_nat i := v]> (i_addrs x)) x).

Definition data_set (b : nat) (off : Z) (bs : list Z) : K unit :=
  mod_buf b (fun x => set_b_data (list_inserts (Z.to_nat off) bs (b_data x)) x).

Section Fs.
Context `{KI : KernelImage}.

(** ** The superblock *)

Definition readsb (dev : Z) : K unit :=
  bp <- bread (u32 dev) 1 ;;
  magic <- get_data 4 bp 0 ;;
  size <- get_data 4 bp 4 ;;
  nblocks <- get_data 4 bp 8 ;;
  ninodes <- get_data 4 bp 12 ;;
  nlog <- get_data 4 bp 16 ;;
  logstart <- get_data 4 bp 20 ;;
  inodestart <- get_data 4 bp 24 ;;
  bmapstart <- get_data 4 bp 28 ;;
  modify (set_k_sb (mk_superblock magic size nblocks ninodes nlog logstart inodestart bmapstart)) ;;
  brelse bp.

Definition fsinit (dev : Z) : K unit :=
  readsb dev ;;
  sb <- gets k_sb ;;
  if negb (sb_magic sb =? FSMAGIC) then panic "invalid file system" else
  initlog dev sb.

(** ** Blocks *)

Definition bzero (dev bno : Z) : K unit :=
  bp <- bread (u32 dev) (u32 bno) ;;
  data_set bp 0 (replicate (Z.to_nat BSIZE) 0) ;;
  log_write bp ;;
  brelse bp.

(** What balloc does first: the quota of the container is checked and charged. *)

Definition balloc_charge : K unit :=
  p <- myproc ;;
  if is_minus1 p then ret tt else
  i <- deref p ;;
  pr <- get_proc i ;;
  let c := ptr_of (p_container pr) in
  ci <- deref c ;;
  (if isroot c then ret tt else
   x <- get_cont ci ;;
   if* c_disklimit x <=? c_diskused x then
     printf mem_limit_msg [] ;;
     kill (p_pid pr) ;;
     ret tt) ;;
  mod_cont ci (fun x => set_c_diskused (i32 (c_diskused x + 1)) x).

(** The inner loop of balloc, in the bitmap block [bp] of the blocks from [b]. *)

Definition balloc_in (dev b : Z) (bp : nat) : K (option Z) :=
  sb <- gets k_sb ;;
  for_ret (seqZ 0 (Z.min BPB (sb_size sb - b))) (fun bi =>
    let m := Z.shiftl 1 (bi mod 8) in
    v <- get_data 1 bp (bi / 8) ;;
    if Z.land v m =? 0 then
      put_data 1 bp (bi / 8) (Z.lor v m) ;;
      log_write bp ;;
      brelse bp ;;
      bzero dev (b + bi) ;;
      ret (Some (b + bi))
    else ret None).

Definition balloc (dev : Z) : K Z :=
  balloc_charge ;;
  sb <- gets k_sb ;;
  r <- for_ret (seqZ 0 ((sb_size sb + BPB - 1) / BPB)) (fun k =>
    let b := k * BPB in
    sb <- gets k_sb ;;
    bp <- bread dev (BBLOCK b sb) ;;
    r <- balloc_in dev b bp ;;
    match r with
    | Some a => ret (Some a)
    | None => brelse bp ;; ret None
    end) ;;
  match r with
  | Some a => ret a
  | None => panic "balloc: out of blocks"
  end.

Definition bfree (dev b : Z) : K unit :=
  c <- mycont ;;
  (if is_minus1 c then ret tt else
   ci <- deref c ;;
   mod_cont ci (fun x => set_c_diskused (i32 (c_diskused x - 1)) x)) ;;
  sb <- gets k_sb ;;
  bp <- bread dev (BBLOCK b sb) ;;
  let bi := b mod BPB in
  let m := Z.shiftl 1 (bi mod 8) in
  v <- get_data 1 bp (bi / 8) ;;
  if Z.land v m =? 0 then panic "freeing free block" else
  put_data 1 bp (bi / 8) (Z.land v (Z.lnot m)) ;;
  log_write bp ;;
  brelse bp.

(** ** Inodes *)

Definition iinit : K unit := for_each (seq 0 NINODE) (fun i => initsleeplock (SInode i)).

(** The search of iget: the cached inode, or else the first empty slot. *)

Fixpoint iget_scan (l : list nat) (dev inum : Z) (empty : option nat) : K (option nat + option nat) :=
  match l with
  | [] => ret (inr empty)
  | i :: l' =>
      x <- get_inode i ;;
      if (0 <? i_ref x) && (i_dev x =? dev) && (i_inum x =? inum) then ret (inl (Some i)) else
      iget_scan l' dev inum
        (match empty with None => if i_ref x =? 0 then Some i else None | Some _ => empty end)
  end.

Definition iget (dev inum : Z) : K nat :=
  acquire Licache ;;
  r <- iget_scan (seq 0 NINODE) dev inum None ;;
  match r with
  | inl o =>
      i <- valid o ;;
      mod_inode i (fun x => set_i_ref (i32 (i_ref x + 1)) x) ;;
      release Licache ;;
      ret i
  | inr None => panic "iget: no inodes"
  | inr (Some i) =>
      mod_inode i (fun x => set_i_valid 0 (set_i_ref 1 (set_i_inum inum (set_i_dev dev x)))) ;;
      release Licache ;;
      ret i
  end.

Definition ialloc (dev type : Z) : K nat :=
  sb <- gets k_sb ;;
  r <- for_ret (seqZ 1 (sb_ninodes sb - 1)) (fun inum =>
    sb <- gets k_sb ;;
    bp <- bread dev (IBLOCK inum sb) ;;
    t <- get_data 2 bp (dinode_off inum + DI_type) ;;
    if t =? 0 then
      data_set bp (dinode_off inum) (replicate (Z.to_nat sizeof_dinode) 0) ;;
      put_data 2 bp (dinode_off inum + DI_type) type ;;
      log_write bp ;;
      brelse bp ;;
      i <- iget dev inum ;;
      ret (Some i)
    else brelse bp ;; ret None) ;;
  match r with
  | Some i => ret i
  | None => panic "ialloc: no inodes"
  end.

Definition iupdate (ip : nat) : K unit :=
  x <- get_inode ip ;;
  sb <- gets k_sb ;;
  bp <- bread (i_dev x) (IBLOCK (i_inum x) sb) ;;
  x <- get_inode ip ;;
  let dip := dinode_off (i_inum x) in
  put_data 2 bp (dip + DI_type) (i_type x) ;;
  put_data 2 bp (dip + DI_major) (i_major x) ;;
  put_data 2 bp (dip + DI_minor) (i_minor x) ;;
  put_data 2 bp (dip + DI_nlink) (i_nlink x) ;;
  put_data 4 bp (dip + DI_size) (i_size x) ;;
  for_each (seqZ 0 (NDIRECT + 1)) (fun i =>
    a <- get_addr ip i ;;
    put_data 4 bp (dip + DI_addrs i) a) ;;
  log_write bp ;;
  brelse bp.

Definition idup (ip : nat) : K nat :=
  acquire Licache ;;
  mod_inode ip (fun x => set_i_ref (i32 (i_ref x + 1)) x) ;;
  release Licache ;;
  ret ip.

Definition ilock (ip : option nat) : K unit :=
  match ip with
  | None => panic "ilock"
  | Some ip =>
      x <- get_inode ip ;;
      if i_ref x <? 1 then panic "ilock" else
      acquiresleep (SInode ip) ;;
      x <- get_inode ip ;;
      if* i_valid x =? 0 then
        sb <- gets k_sb ;;
        bp <- bread (i_dev x) (IBLOCK (i_inum x) sb) ;;
        x <- get_inode ip ;;
        let dip := dinode_off (i_inum x) in
        ty <- get_data 2 bp (dip + DI_type) ;;
        ma <- get_data 2 bp (dip + DI_major) ;;
        mi <- get_data 2 bp (dip + DI_minor) ;;
        nl <- get_data 2 bp (dip + DI_nlink) ;;
        sz <- get_data 4 bp (dip + DI_size) ;;
        mod_inode ip (fun x => set_i_size sz (set_i_nlink (i16 nl) (set_i_minor (i16 mi)
          (set_i_major (i16 ma) (set_i_type (i16 ty) x))))) ;;
        for_each (seqZ 0 (NDIRECT + 1)) (fun i =>
          a <- get_data 4 bp (dip + DI_addrs i) ;;
          set_addr ip i a) ;;
        brelse bp ;;
        mod_inode ip (set_i_valid 1) ;;
        if* i16 ty =? 0 then panic "ilock: no type"
  end.

Definition iunlock (ip : option nat) : K unit :=
  match ip with
  | None => panic "iunlock"
  | Some ip =>
      h <- holdingsleep (SInode ip) ;;
      if negb h then panic "iunlock" else
      x <- get_inode ip ;;
      if i_ref x <? 1 then panic "iunlock" else
      releasesleep (SInode ip)
  end.

Definition itrunc (ip : nat) : K unit :=
  for_each (seqZ 0 NDIRECT) (fun i =>
    a <- get_addr ip i ;;
    if* negb (a =? 0) then
      x <- get_inode ip ;;
      bfree (i_dev x) a ;;
      set_addr ip i 0) ;;
  a <- get_addr ip NDIRECT ;;
  (if* negb (a =? 0) then
     x <- get_inode ip ;;
     bp <- bread (i_dev x) a ;;
     for_each (seqZ 0 NINDIRECT) (fun j =>
       v <- get_data 4 bp (4 * j) ;;
       if* negb (v =? 0) then
         x <- get_inode ip ;;
         bfree (i_dev x) v) ;;
     brelse bp ;;
     a <- get_addr ip NDIRECT ;;
     x <- get_inode ip ;;
     bfree (i_dev x) a ;;
     set_addr ip NDIRECT 0) ;;
  mod_inode ip (set_i_size 0) ;;
  iupdate ip.

Definition iput (ip : nat) : K unit :=
  acquire Licache ;;
  x <- get_inode ip ;;
  (if* (i_ref x =? 1) && negb (i_valid x =? 0) && (i_nlink x =? 0) then
     acquiresleep (SInode ip) ;;
     release Licache ;;
     itrunc ip ;;
     mod_inode ip (set_i_type 0) ;;
     iupdate ip ;;
     mod_inode ip (set_i_valid 0) ;;
     releasesleep (SInode ip) ;;
     acquire Licache) ;;
  mod_inode ip (fun x => set_i_ref (i32 (i_ref x - 1)) x) ;;
  release Licache.

Definition iunlockput (ip : nat) : K unit :=
  iunlock (Some ip) ;;
  iput ip.

(** ** Inode content *)

Definition bmap (ip : nat) (bn : Z) : K Z :=
  if bn <? NDIRECT then
    addr <- get_addr ip bn ;;
    if addr =? 0 then
      x <- get_inode ip ;;
      addr <- balloc (i_dev x) ;;
      set_addr ip bn addr ;;
      ret addr
    else ret addr
  else
  let bn := bn - NDIRECT in
  if bn <? NINDIRECT then
    addr <- get_addr ip NDIRECT ;;
    addr <- (if addr =? 0 then
               x <- get_inode ip ;;
               addr <- balloc (i_dev x) ;;
               set_addr ip NDIRECT addr ;;
               ret addr
             else ret addr) ;;
    x <- get_inode ip ;;
    bp <- bread (i_dev x) addr ;;
    addr <- get_data 4 bp (4 * bn) ;;
    addr <- (if addr =? 0 then
               x <- get_inode ip ;;
               addr <- balloc (i_dev x) ;;
               put_data 4 bp (4 * bn) addr ;;
               log_write bp ;;
               ret addr
             else ret addr) ;;
    brelse bp ;;
    ret addr
  else panic "bmap: out of range".

(** struct stat, as bytes; the padding after nlink is left zero. *)

Definition stati (ip : nat) : K (list Z) :=
  x <- get_inode ip ;;
  ret (le_bytes 4 (i_dev x) ++ le_bytes 4 (i_inum x) ++ le_bytes 2 (i_type x) ++
       le_bytes 2 (i_nlink x) ++ replicate 4 0 ++ le_bytes 8 (i_size x)).

(** One round of the loop of readi: [tot] bytes were copied so far. *)

Definition readi_round (ip : nat) (off n : Z) (st : Z * place) : K (Z * place + place) :=
  let '(tot, dst) := st in
  if n <=? tot then ret (inr dst) else
  let o := u32 (off + tot) in
  bn <- bmap ip (o / BSIZE) ;;
  x <- get_inode ip ;;
  bp <- bread (i_dev x) bn ;;
  let m := Z.min (n - tot) (BSIZE - o mod BSIZE) in
  b <- get_buf bp ;;
  r <- either_copyout dst tot (take (Z.to_nat m) (drop (Z.to_nat (o mod BSIZE)) (b_data b))) ;;
  brelse bp ;;
  if r.1 =? -1 then ret (inr r.2) else ret (inl (tot + m, r.2)).

(** The result of the C function, and what the destination became. *)

Definition readi (ip : nat) (dst : place) (off n : Z) : K (Z * place) :=
  x <- get_inode ip ;;
  if (i_size x <? off) || (u32 (off + n) <? off) then ret (-1, dst) else
  let n := if i_size x <? u32 (off + n) then u32 (i_size x - off) else n in
  dst <- loopz (n / BSIZE + 3) (readi_round ip off n) (0, dst) ;;
  ret (i32 n, dst).

(** One round of the loop of writei; its result is how much [off] advanced. *)

Definition writei_round (ip : nat) (src : place) (off n : Z) (tot : Z) : K (Z + Z) :=
  if n <=? tot then ret (inr tot) else
  let o := u32 (off + tot) in
  bn <- bmap ip (o / BSIZE) ;;
  x <- get_inode ip ;;
  bp <- bread (i_dev x) bn ;;
  let m := Z.min (n - tot) (BSIZE - o mod BSIZE) in
  b <- get_buf bp ;;
  r <- either_copyin (take (Z.to_nat m) (drop (Z.to_nat (o mod BSIZE)) (b_data b))) src tot ;;
  data_set bp (o mod BSIZE) r.2 ;;
  if r.1 =? -1 then brelse bp ;; ret (inr tot) else
  log_write bp ;;
  brelse bp ;;
  ret (inl (tot + m)).

Definition writei (ip : nat) (src : place) (off n : Z) : K Z :=
  x <- get_inode ip ;;
  if (i_size x <? off) || (u32 (off + n) <? off) then ret (-1) else
  if MAXFILE * BSIZE <? u32 (off + n) then ret (-1) else
  tot <- loopz (n / BSIZE + 3) (writei_round ip src off n) 0 ;;
  (if* 0 <? n then
     x <- get_inode ip ;;
     (if* i_size x <? u32 (off + tot) then mod_inode ip (set_i_size (u32 (off + tot)))) ;;
     iupdate ip) ;;
  ret (i32 n).

(** ** Directories

    struct dirent is a ushort inum and the characters of the name. *)

Definition namecmp (s t : list Z) : option Z := strncmp s t DIRSIZ.

Definition dirent_inum (de : list Z) : K Z := valid (le_get 2 de 0).

Definition read_dirent (dp : nat) (off : Z) (de : list Z) : K (Z * list Z) :=
  r <- readi dp (PObj de) off sizeof_dirent ;;
  match r.2 with PObj de => ret (r.1, de) | _ => fault end.

Definition dirlookup_round (dp : nat) (name : list Z) (st : Z * list Z)
    : K (Z * list Z + option (nat * Z)) :=
  let '(off, de) := st in
  x <- get_inode dp ;;
  if i_size x <=? off then ret (inr None) else
  r <- read_dirent dp off de ;;
  if negb (r.1 =? sizeof_dirent) then panic "dirlookup read" else
  inum <- dirent_inum r.2 ;;
  if inum =? 0 then ret (inl (u32 (off + sizeof_dirent), r.2)) else
  c <- valid (namecmp name (drop 2 r.2)) ;;
  if c =? 0 then
    x <- get_inode dp ;;
    i <- iget (i_dev x) inum ;;
    ret (inr (Some (i, off)))
  else ret (inl (u32 (off + sizeof_dirent), r.2)).

(** An offset that is not a multiple of 16 below 2^32 is never reached, so 2^28
    rounds are all there can be. *)

Definition dir_fuel : Z := 2 ^ 28 + 1.

Definition uninit_dirent : list Z := replicate (Z.to_nat sizeof_dirent) 0.

(** What dirlookup does to the name first: in a container, any name that begins
    with two dots names the container's root itself when looked up there. *)

Definition confine (dp : nat) (name : list Z) : K (list Z) :=
  p <- myproc ;;
  i <- deref p ;;
  pr <- get_proc i ;;
  if isroot (ptr_of (p_container pr)) then ret name else
  c <- valid (strncmp name (bytes_of_string "..") 2) ;;
  if negb (c =? 0) then ret name else
  c <- mycont ;;
  ci <- deref c ;;
  ct <- get_cont ci ;;
  if bool_decide (c_root ct = Some dp) then ret (bytes_of_string "." ++ [0]) else ret name.

(** The inode found and the offset of its entry ([*poff]). *)

Definition dirlookup (dp : nat) (name : list Z) : K (option (nat * Z)) :=
  name <- confine dp name ;;
  x <- get_inode dp ;;
  if negb (i_type x =? T_DIR) then panic "dirlookup not DIR" else
  loopz dir_fuel (dirlookup_round dp name) (0, uninit_dirent).

Definition dirlink_round (dp : nat) (st : Z * list Z) : K (Z * list Z + Z * list Z) :=
  let '(off, de) := st in
  x <- get_inode dp ;;
  if i_size x <=? off then ret (inr (off, de)) else
  r <- read_dirent dp off de ;;
  if negb (r.1 =? sizeof_dirent) then panic "dirlink read" else
  inum <- dirent_inum r.2 ;;
  if inum =? 0 then ret (inr (off, r.2)) else ret (inl (off + sizeof_dirent, r.2)).

Definition dirlink (dp : nat) (name : list Z) (inum : Z) : K Z :=
  o <- dirlookup dp name ;;
  match o with
  | Some (ip, _) => iput ip ;; ret (-1)
  | None =>
      r <- loopz dir_fuel (dirlink_round dp) (0, uninit_dirent) ;;
      let '(off, de) := r in
      nm <- valid (strncpy (drop 2 de) name DIRSIZ) ;;
      n <- writei dp (PObj (le_bytes 2 inum ++ nm)) off sizeof_dirent ;;
      if negb (n =? sizeof_dirent) then panic "dirlink" else ret 0
  end.

(** ** Path names *)

Definition slash : Z := 47.

Fixpoint skip_slashes (path : list Z) : list Z :=
  match path with
  | c :: path' => if c =? slash then skip_slashes path' else path
  | [] => []
  end.

(** The characters up to a slash or the end of the string, and the rest. *)

Fixpoint path_elem (path : list Z) : list Z * list Z :=
  match path with
  | c :: path' =>
      if (c =? slash) || (c =? 0) then ([], path)
      else let '(e, rest) := path_elem path' in (c :: e, rest)
  | [] => ([], [])
  end.

(** [name] is the array the element is copied to; the result is the name and the
    rest of the path. *)

Definition skipelem (path name : list Z) : option (list Z * list Z) :=
  let path := skip_slashes path in
  match path with
  | [] => None
  | c :: _ =>
      if c =? 0 then None else
      let '(s, rest) := path_elem path in
      let len := Z.of_nat (length s) in
      let name :=
        if DIRSIZ <=? len then list_inserts 0 (take (Z.to_nat DIRSIZ) s) name
        else <[length s := 0]> (list_inserts 0 s name) in
      Some (name, skip_slashes rest)
  end.

(** The walk of namex and namexinit, from the inode [ip].  The result is the
    inode and the last element copied to [name].  Every round takes an element
    off the path. *)

Definition namex_round (nameiparent : bool) (st : option nat * list Z * list Z)
    : K (option nat * list Z * list Z + option nat * list Z) :=
  let '(o, path, name) := st in
  match skipelem path name with
  | None =>
      if nameiparent then ip <- valid o ;; iput ip ;; ret (inr (None, name))
      else ret (inr (o, name))
  | Some (name, path) =>
      ilock o ;;
      ip <- valid o ;;
      x <- get_inode ip ;;
      if negb (i_type x =? T_DIR) then iunlockput ip ;; ret (inr (None, name)) else
      c <- valid (head path) ;;
      if nameiparent && (c =? 0) then iunlock (Some ip) ;; ret (inr (Some ip, name)) else
      o <- dirlookup ip name ;;
      iunlockput ip ;;
      match o with
      | None => ret (inr (None, name))
      | Some (next, _) => ret (inl (Some next, path, name))
      end
  end.

Definition walk_path (ip : option nat) (path : list Z) (nameiparent : bool) (name : list Z)
    : K (option nat * list Z) :=
  loop (S (length path)) (namex_round nameiparent) (ip, path, name).

(** The inode a path starts at. *)

Definition namex_start (path : list Z) : K (option nat) :=
  c <- valid (head path) ;;
  p <- myproc ;;
  i <- deref p ;;
  pr <- get_proc i ;;
  if c =? slash then
    (if isroot (ptr_of (p_container pr)) then
       ip <- iget ROOTDEV ROOTINO ;; ret (Some ip)
     else
       c <- mycont ;;
       ci <- deref c ;;
       ct <- get_cont ci ;;
       ret (c_root ct))
  else
    cwd <- valid (p_cwd pr) ;;
    ip <- idup cwd ;;
    ret (Some ip).

Definition namex (path : list Z) (nameiparent : bool) (name : list Z) : K (option nat * list Z) :=
  ip <- namex_start path ;;
  walk_path ip path nameiparent name.

Definition namexinit (path : list Z) (nameiparent : bool) (name : list Z)
    : K (option nat * list Z) :=
  ip <- iget ROOTDEV ROOTINO ;;
  walk_path (Some ip) path nameiparent name.

Definition uninit_name : list Z := replicate (Z.to_nat DIRSIZ) 0.

Definition namei (path : list Z) : K (option nat) :=
  r <- namex path false uninit_name ;;
  ret r.1.

Definition nameiparent (path name : list Z) : K (option nat * list Z) := namex path true name.

End Fs.
