(* ===== verification/Txnspec.v ===== *)
(** * Transactions of the file system

    Between begin_op and end_op a process sees the blocks as the transaction has
    left them, in the buffers, while the disk is as it was.  [txn s d D bns] says so
    of a state: [d] is the disk, [D] are the blocks as they are seen and [bns] the
    blocks in the log.  The block routines of kernel/fs.c (bzero, balloc, bfree) act
    on [D], and end_op makes [D] the disk in one step. *)

From S2P Require Import Prelude Monad Riscv Kstring Kstate Spinlock Printf Kalloc Vm Sched Schedspec Bio Log Diskspec Cachespec Logspec Fs.

Section Txn.
Context `{KI : KernelImage} `{VD : VirtioDevice}.
Context (i : nat) (pid ks dev start : Z).
Hypothesis Hdev : 0 <= dev < 2 ^ 31.
Hypothesis Hstart : 0 <= start /\ start + LOGSIZE < 2 ^ 31.

(** ** States inside a transaction *)

(** The blocks of the log are those in use, once each; the buffers have what is
    seen. *)

Record txn_pins (s : kst) (d D : disk) (bns : list Z) (pins : gmap Z pin) : Prop := {
  tx_log : log_at dev start bns (k_log s);
  tx_size : LOGSIZE <= l_size (k_log s);
  tx_outstanding : l_outstanding (k_log s) = 1;
  tx_committing : l_committing (k_log s) = 0;
  tx_max : Z.of_nat (length bns) < LOGSIZE;
  tx_distinct : NoDup bns;
  tx_home : Forall (home start) bns;
  tx_dom : forall n, n ∈ bns <-> n ∈ dom pins;
  tx_ref : map_Forall (fun _ p => pn_ref p = 1) pins;
  tx_header : length (d start) = Z.to_nat BSIZE;
  tx_empty : hdr_n (d start) = 0;
  tx_seen : forall n, D n = seen d pins n;
}.

(** The blocks that the process has locked, each in its buffer with its contents; a
    locked block has one user more than the log. *)

Abbreviation locks := (gmap Z (nat * list Z)).

Definition lock_pin (pins : gmap Z pin) (n : Z) (x : nat * list Z) : option pin := Some (mk_pin x.1 (refs pins n + 1) x.2).

Definition with_locks (pins : gmap Z pin) (L : locks) : gmap Z pin := map_imap (lock_pin pins) L ∪ pins.

Definition intxn (s : kst) (d D : disk) (bns : list Z) (L : locks) : Prop :=
  exists pins, txn_pins s d D bns pins /\ acache i pid ks dev s d (with_locks pins L) (dom L).

Definition txn (s : kst) (d D : disk) (bns : list Z) : Prop := intxn s d D bns ∅.

(** What is the same after a step inside a transaction. *)

Record fs_frame (s s' : kst) : Prop := {
  ff_mem : k_mem s' = k_mem s;
  ff_sb : k_sb s' = k_sb s;
  ff_icache : k_icache s' = k_icache s;
  ff_conts : k_conts s' = k_conts s;
  ff_images : proc_image <$> k_procs s' = proc_image <$> k_procs s;
}.

#[export] Instance fs_frame_preorder : PreOrder fs_frame.
Proof. split; [by split|]. intros s1 s2 s3 [? ? ? ? ?] [? ? ? ? ?]. split; congruence. Qed.

Lemma disk_fs_frame s s' : disk_frame s s' -> fs_frame s s'.
Proof. intros [? ? ? ? ? ?]. by split. Qed.

Lemma txn_pins_log s s' d D bns pins :
  k_log s' = k_log s -> txn_pins s d D bns pins -> txn_pins s' d D bns pins.
Proof. intros E []. split; try done; by rewrite E. Qed.

Lemma txn_in_use s d D bns pins : txn_pins s d D bns pins -> in_use pins.
Proof. intros H n p Hn. rewrite (tx_ref _ _ _ _ _ H _ _ Hn). done. Qed.

Lemma txn_size s d D bns pins : txn_pins s d D bns pins -> (size pins <= length bns)%nat.
Proof.
  intros H. rewrite <- size_dom, <- (size_list_to_set (C:=gset Z) bns) by apply (tx_distinct _ _ _ _ _ H).
  apply subseteq_size. intros n Hn. apply elem_of_list_to_set. by apply (tx_dom _ _ _ _ _ H).
Qed.

Lemma txn_refs s d D bns pins n : txn_pins s d D bns pins -> refs pins n = if decide (n ∈ bns) then 1 else 0.
Proof.
  intros H. unfold refs. pose proof (tx_dom _ _ _ _ _ H n) as Hd. destruct (pins !! n) as [p|] eqn:E.
  - rewrite decide_True; [by apply (tx_ref _ _ _ _ _ H _ _ E)|]. apply Hd. by eapply elem_of_dom_2.
  - rewrite decide_False; [done|]. rewrite Hd. by apply not_elem_of_dom.
Qed.

Lemma lookup_with_locks pins L n :
  with_locks pins L !! n = match L !! n with Some (b, v) => Some (mk_pin b (refs pins n + 1) v) | None => pins !! n end.
Proof.
  unfold with_locks. destruct (L !! n) as [[b v]|] eqn:E.
  - apply lookup_union_Some_l. by rewrite map_lookup_imap, E.
  - apply lookup_union_r. by rewrite map_lookup_imap, E.
Qed.

Lemma with_locks_empty pins : with_locks pins ∅ = pins.
Proof. apply map_eq. intros n. by rewrite lookup_with_locks, lookup_empty. Qed.

Lemma with_locks_insert pins L n b v :
  with_locks pins (<[n := (b, v)]> L) = <[n := mk_pin b (refs pins n + 1) v]> (with_locks pins L).
Proof.
  apply map_eq. intros m. rewrite lookup_with_locks. destruct (decide (m = n)) as [->|Hne]; [by rewrite !lookup_insert_eq|].
  by rewrite !lookup_insert_ne, lookup_with_locks by done.
Qed.

Lemma size_with_locks pins L : (size (with_locks pins L) <= size pins + size L)%nat.
Proof.
  rewrite <- !size_dom. assert (Hd : dom (with_locks pins L) = dom L ∪ dom pins).
  { apply set_eq. intros n. rewrite elem_of_union, !elem_of_dom, lookup_with_locks. destruct (L !! n) as [[b v]|]; cbn; [|].
    - split; [intros _; left|]; by eexists.
    - split; [intros H; by right|]. intros [[? ?]|H]; done. }
  rewrite Hd, size_union_alt. pose proof (subseteq_size (dom pins ∖ dom L) (dom pins) ltac:(set_solver)). lia.
Qed.

Lemma txn_refs_le s d D bns pins n : txn_pins s d D bns pins -> 0 <= refs pins n <= 1.
Proof. intros H. rewrite (txn_refs _ _ _ _ _ n H). destruct (decide _); lia. Qed.

Lemma locks_in_use s d D bns pins L : txn_pins s d D bns pins -> in_use (with_locks pins L).
Proof.
  intros H n p. rewrite lookup_with_locks. destruct (L !! n) as [[b v]|]; [|by apply (txn_in_use _ _ _ _ _ H)].
  intros [= <-]. pose proof (txn_refs_le _ _ _ _ _ n H). cbn. lia.
Qed.

Lemma txn_iff s d D bns : txn s d D bns <-> exists pins, txn_pins s d D bns pins /\ acache i pid ks dev s d pins ∅.
Proof.
  unfold txn, intxn. rewrite dom_empty_L.
  split; intros (pins & Ht & Hc); exists pins; (split; [done|]); by rewrite with_locks_empty in *.
Qed.

(** ** The operations on a block *)

Lemma intxn_bread s d D bns L n :
  intxn s d D bns L -> 0 <= n < 2 ^ 31 -> L !! n = None -> Z.of_nat (length bns) + Z.of_nat (size L) < LOGSIZE ->
  exists b s', wrun i (bread dev n) s d [] b s' /\ fs_frame s s' /\ intxn s' d D bns (<[n := (b, D n)]> L).
Proof.
  intros (pins & Ht & Hc) Hn HL Hroom. pose proof (txn_size _ _ _ _ _ Ht) as Hsz. pose proof (size_with_locks pins L) as Hsl.
  assert (HNB : Z.of_nat NBUF = LOGSIZE) by done. pose proof (txn_refs_le _ _ _ _ _ n Ht) as Hrf.
  assert (Er : refs (with_locks pins L) n = refs pins n) by (unfold refs at 1; by rewrite lookup_with_locks, HL).
  destruct (drun_bread i pid ks dev s d (with_locks pins L) (dom L) n Hc) as (b & s' & ds & Hr & HF & Hf & Hc' & _).
  { split; [done|by apply not_elem_of_dom|by eapply locks_in_use|lia|right; lia]. }
  exists b, s'. split; [by eapply wrun_quiet|]. split; [by apply disk_fs_frame|].
  exists pins. split; [by eapply txn_pins_log; [apply Hf|]|]. rewrite with_locks_insert, dom_insert_L.
  unfold read_pin in Hc'. rewrite Er in Hc'. replace (seen d (with_locks pins L) n) with (D n) in Hc'; [done|].
  rewrite (tx_seen _ _ _ _ _ Ht). unfold seen. by rewrite lookup_with_locks, HL.
Qed.

Lemma intxn_lookup s d D bns L n b v :
  intxn s d D bns L -> L !! n = Some (b, v) -> exists x, k_bufs s !! b = Some x /\ b_data x = v.
Proof.
  intros (pins & Ht & Hc) HL. destruct (pin_lookup _ _ _ _ _ _ _ _ n (mk_pin b (refs pins n + 1) v) Hc) as (x & Hx & Ex & _);
    [by rewrite lookup_with_locks, HL|]. by exists x.
Qed.

Lemma intxn_get_data s d D bns L n b v k off r :
  intxn s d D bns L -> L !! n = Some (b, v) -> le_get k v off = Some r -> runs (get_data k b off) s r s.
Proof.
  intros Hh HL Hr. destruct (intxn_lookup _ _ _ _ _ _ _ _ Hh HL) as (x & Hx & Ex).
  eapply runs_bind; [by apply runs_get_buf|]. apply runs_valid. by rewrite Ex.
Qed.

Lemma runs_mod_buf_ext b x f g s s' :
  k_bufs s !! b = Some x -> f x = g x -> runs (mod_buf b g) s tt s' -> runs (mod_buf b f) s tt s'.
Proof.
  intros Hx E H e. specialize (H e). unfold mod_buf, bind in *. rewrite (runs_get_buf b x s Hx) in *.
  unfold modify in *. by rewrite E.
Qed.

Lemma intxn_fill s d D bns L n b v v' f :
  intxn s d D bns L -> L !! n = Some (b, v) -> (forall x, b_data x = v -> f x = set_b_data v' x) ->
  exists s', runs (mod_buf b f) s tt s' /\ fs_frame s s' /\ intxn s' d D bns (<[n := (b, v')]> L).
Proof.
  intros Hh HL Hf. destruct (intxn_lookup _ _ _ _ _ _ _ _ Hh HL) as (x & Hx & Ex). destruct Hh as (pins & Ht & Hc).
  destruct (runs_fill _ _ _ _ _ _ _ _ n (mk_pin b (refs pins n + 1) v) v' Hc) as (s' & Hr & Hd & Hc');
    [by eapply elem_of_dom_2|by rewrite lookup_with_locks, HL|].
  exists s'. split; [|split; [by apply disk_fs_frame|]].
  - eapply runs_mod_buf_ext; [exact Hx| |exact Hr]. by apply Hf.
  - exists pins. split; [by eapply txn_pins_log; [apply Hd|]|]. rewrite with_locks_insert, dom_insert_lookup_L; done.
Qed.

Lemma intxn_put_data s d D bns L n b v v' k off r :
  intxn s d D bns L -> L !! n = Some (b, v) -> le_put k v off r = Some v' ->
  exists s', runs (put_data k b off r) s tt s' /\ fs_frame s s' /\ intxn s' d D bns (<[n := (b, v')]> L).
Proof.
  intros Hh HL Hp. destruct (intxn_lookup _ _ _ _ _ _ _ _ Hh HL) as (x & Hx & Ex).
  destruct (intxn_fill _ _ _ _ _ _ _ _ v' (set_b_data v') Hh HL) as (s' & Hr & Hf & Hh'); [done|].
  exists s'. split; [|done]. eapply runs_bind; [by apply runs_get_buf|]. rewrite Ex.
  eapply runs_bind; [by apply runs_valid|]. exact Hr.
Qed.

(** brelse of a block that is as it is seen. *)

Lemma refs_insert pins n p m : refs (<[n := p]> pins) m = if decide (m = n) then pn_ref p else refs pins m.
Proof. unfold refs. destruct (decide (m = n)) as [->|]; [by rewrite lookup_insert_eq|by rewrite lookup_insert_ne]. Qed.

Lemma with_locks_pin pins L n p : L !! n = None -> with_locks (<[n := p]> pins) L = <[n := p]> (with_locks pins L).
Proof.
  intros HL. apply map_eq. intros m. rewrite lookup_with_locks, refs_insert. destruct (decide (m = n)) as [->|Hne].
  - by rewrite HL, !lookup_insert_eq.
  - rewrite !lookup_insert_ne by done. by rewrite lookup_with_locks.
Qed.

Lemma with_locks_delete pins L n :
  with_locks pins (delete n L) = match pins !! n with Some p => <[n := p]> (with_locks pins L) | None => delete n (with_locks pins L) end.
Proof.
  apply map_eq. intros m. rewrite lookup_with_locks. destruct (decide (m = n)) as [->|Hne].
  - rewrite lookup_delete_eq. destruct (pins !! n) eqn:E; [by rewrite lookup_insert_eq|by rewrite lookup_delete_eq].
  - rewrite lookup_delete_ne by done. destruct (pins !! n); [rewrite lookup_insert_ne by done|rewrite lookup_delete_ne by done];
      by rewrite lookup_with_locks.
Qed.

Lemma txn_pins_again s d D bns pins n b :
  txn_pins s d D bns pins -> n ∈ bns -> txn_pins s d D bns (<[n := mk_pin b 1 (D n)]> pins).
Proof.
  intros [T1 T2 T3 T4 T5 T6 T7 T8 T9 T10 T11 T12] Hin. split; try done.
  - intros m. rewrite dom_insert, T8. pose proof (proj1 (T8 n) Hin). set_solver.
  - by apply map_Forall_insert_2.
  - intros m. unfold seen. destruct (decide (m = n)) as [->|Hne]; [by rewrite lookup_insert_eq|].
    rewrite lookup_insert_ne by done. apply T12.
Qed.

Lemma intxn_brelse s d D bns L n b :
  intxn s d D bns L -> L !! n = Some (b, D n) ->
  exists s', runs (brelse b) s tt s' /\ fs_frame s s' /\ intxn s' d D bns (delete n L).
Proof.
  intros (pins & Ht & Hc) HL. pose proof (txn_refs _ _ _ _ _ n Ht) as Er.
  assert (Hseen : n ∉ bns -> D n = d n).
  { intros Hn. rewrite (tx_seen _ _ _ _ _ Ht). unfold seen. rewrite (tx_dom _ _ _ _ _ Ht) in Hn.
    by apply not_elem_of_dom in Hn as ->. }
  destruct (runs_brelse_pin _ _ _ _ _ _ _ _ n (mk_pin b (refs pins n + 1) (D n)) Hc) as (s' & Hr & Hd & Hc');
    [by eapply elem_of_dom_2|by rewrite lookup_with_locks, HL| |].
  { cbn [pn_ref pn_data]. rewrite Er. destruct (decide (n ∈ bns)); [done|]. intros _. by apply Hseen. }
  exists s'. split; [exact Hr|]. split; [by apply disk_fs_frame|]. cbn [pn_buf pn_ref pn_data] in Hc'. rewrite Er in Hc'.
  rewrite <- dom_delete_L in Hc'. pose proof (txn_pins_log s s' _ _ _ _ (df_log _ _ Hd) Ht) as Ht'.
  destruct (decide (n ∈ bns)) as [Hin|Hni]; unfold put_pin in Hc'.
  - change (u32 (1 + 1 - 1) =? 0) with false in Hc'. change (u32 (1 + 1 - 1)) with 1 in Hc'. cbv iota in Hc'.
    exists (<[n := mk_pin b 1 (D n)]> pins). split; [by apply txn_pins_again|].
    rewrite with_locks_pin by apply lookup_delete_eq. rewrite with_locks_delete.
    destruct (pins !! n); [by rewrite insert_insert_eq|by rewrite insert_delete_eq].
  - change (u32 (0 + 1 - 1) =? 0) with true in Hc'. cbv iota in Hc'. exists pins. split; [done|].
    rewrite (tx_dom _ _ _ _ _ Ht) in Hni. apply not_elem_of_dom in Hni. by rewrite with_locks_delete, Hni.
Qed.

(** log_write: the contents of the buffer become what is seen. *)

Lemma absorb_length n bns : (length (absorb n bns) <= length bns + 1)%nat.
Proof. unfold absorb. destruct (decide _); [lia|]. rewrite length_app. cbn. lia. Qed.

Lemma elem_of_absorb n bns m : m ∈ absorb n bns <-> m = n \/ m ∈ bns.
Proof. unfold absorb. destruct (decide (n ∈ bns)); [|set_solver]. split; [by right|]. by intros [->|?]. Qed.

Lemma absorb_txn s d D bns pins n b v l :
  txn_pins s d D bns pins -> home start n -> Z.of_nat (length bns) + 1 < LOGSIZE ->
  log_at dev start (absorb n bns) l -> l_size l = l_size (k_log s) -> l_outstanding l = l_outstanding (k_log s) ->
  l_committing l = l_committing (k_log s) ->
  txn_pins (set_k_log l s) d (write_block D n v) (absorb n bns) (<[n := mk_pin b 1 v]> pins).
Proof.
  intros [T1 T2 T3 T4 T5 T6 T7 T8 T9 T10 T11 T12] Hn Hmax Hl E1 E2 E3. pose proof (absorb_length n bns).
  split; [done|cbn; lia|cbn; lia|cbn; lia|lia| | | |by apply map_Forall_insert_2|done|done|].
  - unfold absorb. destruct (decide (n ∈ bns)); [done|]. apply NoDup_app. split; [done|]. split; [set_solver|apply NoDup_singleton].
  - rewrite Forall_forall in T7 |- *. intros m [->|Hm]%elem_of_absorb; [done|by apply T7].
  - intros m. rewrite elem_of_absorb, dom_insert, T8. set_solver.
  - intros m. unfold seen, write_block. destruct (Z.eqb_spec m n) as [->|Hne]; [by rewrite lookup_insert_eq|].
    rewrite lookup_insert_ne by congruence. apply T12.
Qed.

Lemma intxn_log_write s d D bns L n b v :
  intxn s d D bns L -> L !! n = Some (b, v) -> home start n -> Z.of_nat (length bns) + 1 < LOGSIZE ->
  exists s', runs (log_write b) s tt s' /\ fs_frame s s' /\ intxn s' d (write_block D n v) (absorb n bns) L.
Proof.
  intros (pins & Ht & Hc) HL Hn Hmax. pose proof Ht as [T1 T2 T3 T4 T5 T6 T7 T8 T9 T10 T11 T12].
  pose proof (txn_refs _ _ _ _ _ n Ht) as Er. set (p := mk_pin b (refs pins n + 1) v).
  assert (Hlg : loggable i pid ks dev start s d (with_locks pins L) (dom L) bns n p).
  { split; [done|exact Hc|by eapply elem_of_dom_2|by rewrite lookup_with_locks, HL| |apply Hn| |lia|lia|lia].
    - eapply Forall_impl; [exact T7|]. by intros m [? _].
    - cbn. rewrite Er. destruct (decide _); lia. }
  destruct (runs_log_write _ _ _ _ _ Hstart _ _ _ _ _ _ _ Hlg) as (s' & l & Hr & Hd & Hl & E1 & E2 & E3 & Hc').
  exists s'. split; [exact Hr|]. split; [destruct Hd; by split|]. exists (<[n := mk_pin b 1 v]> pins). split.
  - eapply txn_pins_log; [|by eapply absorb_txn]. by rewrite (df_log _ _ Hd).
  - assert (EL : <[n := (b, v)]> L = L) by (by apply insert_id). unfold log_pin in Hc'. cbn [p pn_buf pn_ref pn_data] in Hc'.
    replace (with_locks (<[n := mk_pin b 1 v]> pins) L) with (<[n := mk_pin b 2 v]> (with_locks pins L)).
    + rewrite Er in Hc'. destruct (decide (n ∈ bns)); [|exact Hc']. rewrite insert_id; [exact Hc'|].
      by rewrite lookup_with_locks, HL, Er.
    + apply map_eq. intros m. rewrite lookup_with_locks, refs_insert. destruct (decide (m = n)) as [->|Hne].
      * by rewrite HL, lookup_insert_eq.
      * rewrite !lookup_insert_ne by done. by rewrite lookup_with_locks.
Qed.

(** A block is read, changed, logged and released. *)

Lemma write_block_same D n v : write_block D n v n = v.
Proof. unfold write_block. by rewrite Z.eqb_refl. Qed.

Lemma intxn_write_back s d D bns L n b v :
  intxn s d D bns L -> L !! n = Some (b, v) -> home start n -> Z.of_nat (length bns) + 1 < LOGSIZE ->
  exists s', runs (log_write b ;; brelse b) s tt s' /\ fs_frame s s' /\
    intxn s' d (write_block D n v) (absorb n bns) (delete n L).
Proof.
  intros Hh HL Hn Hmax. destruct (intxn_log_write _ _ _ _ _ _ _ _ Hh HL Hn Hmax) as (s1 & H1 & F1 & Hh1).
  destruct (intxn_brelse _ _ _ _ _ n b Hh1) as (s2 & H2 & F2 & Ht); [by rewrite write_block_same|].
  exists s2. split; [by eapply runs_bind|]. split; [by trans s1|done].
Qed.

(** ** bzero *)

Definition zero_block : list Z := replicate (Z.to_nat BSIZE) 0.

Lemma inserts_all (v w : list Z) : length v = length w -> list_inserts 0 v w = v.
Proof.
  intros H. apply list_eq. intros j. destruct (decide (j < length v)%nat).
  - rewrite list_lookup_inserts by lia. f_equal. lia.
  - rewrite !lookup_ge_None_2; [done|lia|rewrite length_inserts; lia].
Qed.

Lemma wrun_bzero s d D bns L n :
  intxn s d D bns L -> home start n -> L !! n = None -> length (D n) = Z.to_nat BSIZE ->
  Z.of_nat (length bns) + Z.of_nat (size L) + 1 < LOGSIZE ->
  exists s', wrun i (bzero dev n) s d [] tt s' /\ fs_frame s s' /\ intxn s' d (write_block D n zero_block) (absorb n bns) L.
Proof.
  intros Ht Hn HL Hlen Hmax. pose proof Hn as [Hr _].
  destruct (intxn_bread _ _ _ _ _ n Ht Hr HL) as (b & s1 & H1 & F1 & Hh1); [lia|].
  destruct (intxn_fill _ _ _ _ _ n b (D n) zero_block (fun x => set_b_data (list_inserts 0 zero_block (b_data x)) x) Hh1)
    as (s2 & H2 & F2 & Hh2); [apply lookup_insert_eq| |].
  { intros x ->. f_equal. apply inserts_all. unfold zero_block. by rewrite length_replicate. }
  destruct (intxn_write_back _ _ _ _ _ _ _ _ Hh2 (lookup_insert_eq _ _ _) Hn) as (s3 & H3 & F3 & Ht3); [lia|].
  exists s3. rewrite insert_insert_eq, delete_insert_id in Ht3 by done. split; [|split; [by trans s1; [|trans s2]|done]].
  unfold bzero. rewrite !u32_small by lia. eapply wrun_then; [exact H1|]. eapply wrun_seq; [exact H2|]. by apply wrun_runs.
Qed.

(** ** begin_op and end_op *)

(** No transaction is open, and no block is in use. *)

Record idle (s : kst) (d : disk) : Prop := {
  id_log : log_at dev start [] (k_log s);
  id_size : LOGSIZE <= l_size (k_log s);
  id_outstanding : l_outstanding (k_log s) = 0;
  id_committing : l_committing (k_log s) = 0;
  id_header : length (d start) = Z.to_nat BSIZE;
  id_empty : hdr_n (d start) = 0;
  id_cache : acache i pid ks dev s d ∅ ∅;
}.

Definition begun (s : kst) : kst := set_k_log (set_l_outstanding (l_outstanding (k_log s) + 1) (k_log s)) s.

Lemma runs_begin_op s d : idle s d -> runs begin_op s tt (begun s) /\ txn (begun s) d d [].
Proof.
  intros [Hl Hsz Ho Hcm Hhd Hem Hc]. pose proof (ip_held _ _ _ _ (acache_in_proc _ _ _ _ _ _ _ _ Hc)) as Hh. split.
  - unfold begin_op. eapply runs_bind; [apply runs_acquire; rewrite Hh; set_solver|]. rewrite Hh.
    apply runs_wait_stop. eapply runs_bind; [apply runs_gets|]. cbn [k_log set_k_held].
    rewrite Hcm, Ho, (la_n _ _ _ _ Hl). cbn [length]. change (negb (0 =? 0)) with false.
    change (LOGSIZE <? Z.of_nat 0 + (0 + 1) * MAXOPBLOCKS) with false. cbv iota.
    eapply runs_bind; [apply runs_modify|]. eapply runs_bind; [|apply runs_ret].
    exact (release_llog (begun s) ∅ Hh).
  - apply txn_iff. exists ∅. split; [|by apply acache_set_log].
    split; [by destruct Hl; split|done|cbn; lia|done|done|constructor|constructor| |apply map_Forall_empty|done|done|done].
    intros n. rewrite dom_empty. set_solver.
Qed.

(** The blocks as they are seen, and the writes of the transaction. *)

Lemma txn_committed s d D bns pins n : txn_pins s d D bns pins -> committed d bns (D <$> bns) n = D n.
Proof.
  intros [T1 T2 T3 T4 T5 T6 T7 T8 T9 T10 T11 T12]. unfold committed, home_writes.
  assert (Hf : (zip bns (D <$> bns)).*1 = bns) by (apply fst_zip; by rewrite length_fmap).
  destruct (decide (n ∈ bns)) as [Hin|Hni].
  - apply list_elem_of_lookup in Hin as [j Hj]. apply (do_writes_at _ _ j); [by rewrite Hf|].
    apply lookup_zip_Some. by rewrite list_lookup_fmap, Hj.
  - rewrite do_writes_other by (by rewrite Hf). rewrite T12. unfold seen. rewrite T8 in Hni.
    by apply not_elem_of_dom in Hni as ->.
Qed.

Lemma txn_transaction s d D bns pins :
  txn_pins s d D bns pins -> acache i pid ks dev s d pins ∅ -> bns <> [] ->
  transaction i pid ks dev start s d pins bns (D <$> bns).
Proof.
  intros Ht Hc Hne. pose proof (txn_size _ _ _ _ _ Ht). pose proof (txn_in_use _ _ _ _ _ Ht).
  destruct Ht as [T1 T2 T3 T4 T5 T6 T7 T8 T9 T10 T11 T12]. assert (HNB : Z.of_nat NBUF = LOGSIZE) by done.
  split; [done|done|done|lia| |done|done|done|done| |done].
  - intros n Hn. apply not_elem_of_dom. rewrite <- T8. intros Hin. rewrite Forall_forall in T7. by destruct (T7 n Hin).
  - apply Forall2_fmap_r, Forall_Forall2_diag, Forall_forall. intros n Hn. rewrite T8 in Hn.
    apply elem_of_dom in Hn as [p Hp]. exists p. split; [done|]. split; [|by apply (T9 _ _ Hp)].
    rewrite T12. unfold seen. by rewrite Hp.
Qed.

(** end_op of a transaction that has written nothing. *)

Lemma wrun_commit_empty s d : log_at dev start [] (k_log s) -> wrun i commit s d [] tt s.
Proof.
  intros Hl. apply wrun_runs. unfold commit. eapply runs_bind; [apply runs_gets|].
  rewrite (la_n _ _ _ _ Hl). apply runs_ret.
Qed.

Lemma end_op_nothing s d D :
  txn s d D [] -> exists s', wrun i end_op s d [] tt s' /\ idle s' d.
Proof.
  intros (pins & Ht & Hc)%txn_iff. pose proof Ht as [T1 T2 T3 T4 T5 T6 T7 T8 T9 T10 T11 T12].
  assert (pins = ∅) as ->. { apply map_empty. intros n. apply not_elem_of_dom. rewrite <- T8. set_solver. }
  pose proof (acache_in_proc _ _ _ _ _ _ _ _ Hc) as Hip.
  assert (Hc' : acache i pid ks dev (ending s) d ∅ ∅) by (by apply acache_set_log).
  exists (ended (ending s)). split.
  - eapply wrun_end_op; [exact Hstart|exact Hip|done|done| |by eapply acache_in_proc]. apply wrun_commit_empty. by destruct T1; split.
  - split; [by destruct T1; split|done|cbn; lia|done|done|done|].
    exact (acache_wake _ _ _ _ ChLog _ _ _ _ (acache_set_log _ _ _ _ _ _ _ _ _ Hc')).
Qed.

(** C1: end_op commits atomically with respect to crashes.  In a transaction in which
    the blocks are seen as [D] while the disk is [d], end_op returns, the disk is then
    [D] outside of the log, and the log is ready for the next transaction.  Wherever
    in its sequence of writes the machine stops, the log on the disk is one that
    recovery accepts, and the recovered disk is [d] or is [D]. *)

Theorem end_op_atomic s d D bns :
  txn s d D bns ->
  exists w s', wrun i end_op s d w tt s' /\ idle s' (do_writes d w) /\ same_home start (do_writes d w) D /\
    forall k, let x := do_writes d (take k w) in log_ok start x /\
      (same_home start (view start x) d \/ same_home start (view start x) D).
Proof.
  intros Htx. pose proof (proj1 (txn_iff _ _ _ _) Htx) as (pins & Ht & Hc). destruct (decide (bns = [])) as [->|Hne].
  - destruct (end_op_nothing _ _ _ Htx) as (s' & Hr & Hid). exists [], s'. pose proof Hid as [_ _ _ _ H5 H6 _].
    split; [done|]. split; [done|]. split; [intros n _; exact (txn_committed _ _ _ _ _ n Ht)|].
    intros k. rewrite take_nil. split; [by apply log_ok_empty|]. left. by rewrite view_empty.
  - pose proof Ht as [T1 T2 T3 T4 T5 T6 T7 T8 T9 T10 T11 T12].
    destruct (wrun_end_op_atomic i pid ks dev start Hstart s d pins bns (D <$> bns))
      as (w & s' & m & Hr & Hcr & Hfin & Hn0 & Hlen & Hl & Hsz & Ho & Hcm & Hm & Hc');
      [by apply txn_transaction|done|done|done|].
    assert (m = ∅) as ->.
    { apply map_empty. intros n. rewrite Hm. destruct (decide (n ∈ bns)) as [|Hni]; [done|].
      apply not_elem_of_dom. by rewrite <- T8. }
    assert (Hcom : forall y, same_home start y (committed d bns (D <$> bns)) -> same_home start y D).
    { intros y Hy n Hn. rewrite (Hy n Hn). by eapply txn_committed. }
    exists w, s'. split; [done|]. split; [by split; [|rewrite Hsz|..]|]. split; [by apply Hcom|].
    intros k. destruct (Hcr k) as [Hok [Hv|Hv]]; (split; [done|]); [by left|right; by apply Hcom].
Qed.

(** ** The bitmap *)

(** Bit [bi] of a block of the bitmap, and the block with the bit set or clear. *)

Definition byte_of (v : list Z) (bi : Z) : Z := default 0 (v !! Z.to_nat (bi / 8)).
Definition bit (v : list Z) (bi : Z) : bool := Z.testbit (byte_of v bi) (bi mod 8).
Definition bit_mask (bi : Z) : Z := Z.shiftl 1 (bi mod 8).
Definition set_bit (bi : Z) (v : list Z) : list Z := <[Z.to_nat (bi / 8) := Z.lor (byte_of v bi) (bit_mask bi)]> v.
Definition clear_bit (bi : Z) (v : list Z) : list Z :=
  <[Z.to_nat (bi / 8) := Z.land (byte_of v bi) (Z.lnot (bit_mask bi))]> v.

Definition bytes (v : list Z) : Prop := length v = Z.to_nat BSIZE /\ Forall (fun x => 0 <= x < 256) v.

Lemma byte_range v bi : bytes v -> 0 <= byte_of v bi < 256.
Proof.
  intros [_ H]. unfold byte_of. destruct (v !! _) as [x|] eqn:E; cbn; [|lia]. rewrite Forall_lookup in H. by eapply H.
Qed.

Lemma byte_index v bi : bytes v -> 0 <= bi < BPB -> (Z.to_nat (bi / 8) < length v)%nat /\ 0 <= bi / 8 < BSIZE.
Proof. intros [-> _] H. unfold BPB, BSIZE in *. dlia. Qed.

Lemma get_byte v bi : bytes v -> 0 <= bi < BPB -> le_get 1 v (bi / 8) = Some (byte_of v bi).
Proof.
  intros Hv Hb. destruct (byte_index v bi Hv Hb) as [H1 H2]. unfold le_get.
  destruct (Z.ltb_spec (bi / 8) 0); [lia|]. destruct (Z.ltb_spec (Z.of_nat (length v)) (bi / 8 + Z.of_nat 1)); [lia|].
  cbn [orb]. unfold byte_of. destruct (lookup_lt_is_Some_2 _ _ H1) as [x Hx]. rewrite Hx.
  rewrite (drop_S _ _ _ Hx). cbn [take le_value default from_option id]. rewrite take_0. cbn. f_equal. lia.
Qed.

Lemma put_byte v bi x : bytes v -> 0 <= bi < BPB -> 0 <= x < 256 ->
  le_put 1 v (bi / 8) x = Some (<[Z.to_nat (bi / 8) := x]> v).
Proof.
  intros Hv Hb Hx. destruct (byte_index v bi Hv Hb) as [H1 H2]. unfold le_put.
  destruct (Z.ltb_spec (bi / 8) 0); [lia|]. destruct (Z.ltb_spec (Z.of_nat (length v)) (bi / 8 + Z.of_nat 1)); [lia|].
  cbn [orb le_bytes list_inserts]. by rewrite Z.mod_small.
Qed.

Lemma testbit_mask bi j : 0 <= bi -> Z.testbit (bit_mask bi) j = (j =? bi mod 8).
Proof.
  intros H. unfold bit_mask. rewrite Z.shiftl_1_l. rewrite Z.pow2_bits_eqb by dlia. by rewrite Z.eqb_sym.
Qed.

Lemma bit_land v bi : 0 <= bi -> (Z.land (byte_of v bi) (bit_mask bi) =? 0) = negb (bit v bi).
Proof.
  intros H. unfold bit. destruct (Z.testbit (byte_of v bi) (bi mod 8)) eqn:E; cbn.
  - apply Z.eqb_neq. intros E0. assert (Z.testbit (Z.land (byte_of v bi) (bit_mask bi)) (bi mod 8) = true) as Ht.
    { rewrite Z.land_spec, E, testbit_mask, Z.eqb_refl by done. done. }
    by rewrite E0, Z.bits_0 in Ht.
  - apply Z.eqb_eq. apply Z.bits_inj_0. intros j. rewrite Z.land_spec, testbit_mask by done.
    destruct (Z.eqb_spec j (bi mod 8)) as [->|]; [by rewrite E|by rewrite andb_false_r].
Qed.

Lemma byte_of_insert v bi bj x :
  bytes v -> 0 <= bi < BPB -> 0 <= bj -> byte_of (<[Z.to_nat (bi / 8) := x]> v) bj = if bi / 8 =? bj / 8 then x else byte_of v bj.
Proof.
  intros Hv Hb Hj. destruct (byte_index v bi Hv Hb) as [H1 H2]. unfold byte_of.
  destruct (Z.eqb_spec (bi / 8) (bj / 8)) as [E|Hne]; [rewrite <- E; by rewrite list_lookup_insert_eq|].
  rewrite list_lookup_insert_ne; [done|]. intros E. apply Hne. assert (0 <= bj / 8) by dlia. lia.
Qed.

Lemma bit_set v bi bj : bytes v -> 0 <= bi < BPB -> 0 <= bj -> bit (set_bit bi v) bj = (bi =? bj) || bit v bj.
Proof.
  intros Hv Hb Hj. unfold bit, set_bit. rewrite byte_of_insert by done.
  destruct (Z.eqb_spec (bi / 8) (bj / 8)) as [E|E].
  - rewrite Z.lor_spec, testbit_mask by lia. assert (byte_of v bi = byte_of v bj) as -> by (unfold byte_of; by rewrite E).
    rewrite orb_comm. f_equal. destruct (Z.eqb_spec (bj mod 8) (bi mod 8)), (Z.eqb_spec bi bj); try done; dlia.
  - destruct (Z.eqb_spec bi bj); [congruence|done].
Qed.

Lemma bit_clear v bi bj : bytes v -> 0 <= bi < BPB -> 0 <= bj -> bit (clear_bit bi v) bj = negb (bi =? bj) && bit v bj.
Proof.
  intros Hv Hb Hj. unfold bit, clear_bit. rewrite byte_of_insert by done.
  destruct (Z.eqb_spec (bi / 8) (bj / 8)) as [E|E].
  - rewrite Z.land_spec, Z.lnot_spec, testbit_mask by dlia.
    assert (byte_of v bi = byte_of v bj) as -> by (unfold byte_of; by rewrite E).
    rewrite andb_comm. do 2 f_equal. destruct (Z.eqb_spec (bj mod 8) (bi mod 8)), (Z.eqb_spec bi bj); try done; dlia.
  - destruct (Z.eqb_spec bi bj); [congruence|done].
Qed.

(** ** balloc and bfree *)

(** The superblock: the bitmap lies outside of the log and of the blocks that it
    describes as free. *)

Record layout (sb : superblock) (D : disk) : Prop := {
  ly_size : 0 <= sb_size sb < 2 ^ 31;
  ly_start : 0 <= sb_bmapstart sb < 2 ^ 31;
  ly_bitmap : forall b, 0 <= b < sb_size sb -> home start (BBLOCK b sb) /\ bytes (D (BBLOCK b sb));
}.

Definition used (sb : superblock) (D : disk) (b : Z) : bool := bit (D (BBLOCK b sb)) (b mod BPB).

(** The blocks after block [b] has been allocated, and after it has been freed. *)

Definition allocated (sb : superblock) (b : Z) (D : disk) : disk :=
  write_block (write_block D (BBLOCK b sb) (set_bit (b mod BPB) (D (BBLOCK b sb)))) b zero_block.

Definition freed (sb : superblock) (b : Z) (D : disk) : disk :=
  write_block D (BBLOCK b sb) (clear_bit (b mod BPB) (D (BBLOCK b sb))).

Lemma wrun_for_ret_first {A R} (l1 l2 : list A) (x : A) (body : A -> K (option R)) s d w s' r :
  (forall y, y ∈ l1 -> runs (body y) s None s) -> wrun i (body x) s d w (Some r) s' ->
  wrun i (for_ret (l1 ++ x :: l2) body) s d w (Some r) s'.
Proof.
  intros H Hx. induction l1 as [|y l1 IH]; cbn [app for_ret].
  - rewrite <- (app_nil_r w). eapply wrun_bind; [exact Hx|]. apply wrun_runs, runs_ret.
  - eapply wrun_seq; [apply H; set_solver|]. apply IH. intros z Hz. apply H. set_solver.
Qed.

Lemma seqZ_split m k : 0 <= k < m -> seqZ 0 m = seqZ 0 k ++ k :: seqZ (k + 1) (m - k - 1).
Proof.
  intros H. assert (Ek : k :: seqZ (k + 1) (m - k - 1) = seqZ (0 + k) (m - k)).
  { rewrite (seqZ_cons (0 + k) (m - k)) by lia. rewrite Z.add_0_l. f_equal. }
  rewrite Ek. rewrite <- seqZ_app by lia. f_equal. lia.
Qed.

Lemma wrun_assoc {A B C} (m : K A) (f : A -> K B) (g : K C) s d w r s' :
  wrun i (bind (bind m f) (fun _ => g)) s d w r s' -> wrun i (bind m (fun x => bind (f x) (fun _ => g))) s d w r s'.
Proof.
  assert (E : forall e t, bind (bind m f) (fun _ => g) e t = bind m (fun x => bind (f x) (fun _ => g)) e t).
  { intros e t. unfold bind. by destruct (m e t). }
  intros (ds & (fs & H1 & H2 & H3) & H4). exists ds. split; [|done]. exists fs.
  split; [intros e; by rewrite <- E|]. split; [done|]. intros j h Hj. rewrite <- E. by apply H3.
Qed.

(** The bits of a block of the bitmap are examined one after the other. *)

Lemma runs_bit_used s d D bns L n b v bi {B} (k : Z -> K (option B)) :
  intxn s d D bns L -> L !! n = Some (b, v) -> bytes v -> 0 <= bi < BPB -> bit v bi = true ->
  runs (x <- get_data 1 b (bi / 8) ;;
        if Z.land x (Z.shiftl 1 (bi mod 8)) =? 0 then k x else ret None) s None s.
Proof.
  intros Hh HL Hv Hb Hbit. eapply runs_bind; [eapply intxn_get_data; [exact Hh|exact HL|by apply get_byte]|].
  fold (bit_mask bi). rewrite bit_land, Hbit by lia. apply runs_ret.
Qed.

Lemma high_bits x j : 0 <= x < 256 -> 8 <= j -> Z.testbit x j = false.
Proof.
  intros Hx Hj. destruct (decide (x = 0)) as [->|]; [apply Z.bits_0|]. apply Z.bits_above_log2; [lia|].
  apply Z.log2_lt_pow2; [lia|]. eapply Z.lt_le_trans; [apply Hx|]. change 256 with (2 ^ 8). apply Z.pow_le_mono_r; lia.
Qed.

Lemma small_bits x : 0 <= x -> (forall j, 8 <= j -> Z.testbit x j = false) -> x < 256.
Proof.
  intros Hx H. assert (x = x mod 2 ^ 8) as ->; [|apply Z.mod_pos_bound; done]. apply Z.bits_inj'. intros j Hj.
  destruct (Z.lt_ge_cases j 8); [by rewrite Z.mod_pow2_bits_low|]. rewrite Z.mod_pow2_bits_high by lia. by apply H.
Qed.

Lemma lor_mask_range v bi : bytes v -> 0 <= bi -> 0 <= Z.lor (byte_of v bi) (bit_mask bi) < 256.
Proof.
  intros Hv Hb. pose proof (byte_range v bi Hv) as Hr.
  assert (0 <= Z.lor (byte_of v bi) (bit_mask bi)) by (apply Z.lor_nonneg; split; [lia|apply Z.shiftl_nonneg; lia]).
  split; [done|]. apply small_bits; [done|]. intros j Hj. rewrite Z.lor_spec, high_bits, testbit_mask by lia.
  apply Z.eqb_neq. dlia.
Qed.

Lemma land_mask_range v bi : bytes v -> 0 <= Z.land (byte_of v bi) (Z.lnot (bit_mask bi)) < 256.
Proof.
  intros Hv. pose proof (byte_range v bi Hv) as Hr.
  assert (0 <= Z.land (byte_of v bi) (Z.lnot (bit_mask bi))) by (apply Z.land_nonneg; left; lia).
  split; [done|]. apply small_bits; [done|]. intros j Hj. by rewrite Z.land_spec, high_bits by lia.
Qed.

Lemma set_bit_put v bi : bytes v -> 0 <= bi < BPB ->
  le_put 1 v (bi / 8) (Z.lor (byte_of v bi) (bit_mask bi)) = Some (set_bit bi v).
Proof. intros Hv Hb. apply put_byte; [done|done|]. apply lor_mask_range; [done|lia]. Qed.

Lemma clear_bit_put v bi : bytes v -> 0 <= bi < BPB ->
  le_put 1 v (bi / 8) (Z.land (byte_of v bi) (Z.lnot (bit_mask bi))) = Some (clear_bit bi v).
Proof. intros Hv Hb. apply put_byte; [done|done|]. by apply land_mask_range. Qed.

(** balloc_in, in the block of the bitmap that has the first free bit. *)

Lemma balloc_in_found s d D bns L sb b k bp :
  let n := BBLOCK (b + k) sb in
  intxn s d D bns (<[n := (bp, D n)]> L) -> L !! n = None -> L !! (b + k) = None ->
  k_sb s = sb -> layout sb D -> 0 <= k < BPB -> 0 <= b -> b + k < sb_size sb -> n <> b + k ->
  (b + k) mod BPB = k -> bit (D n) k = false -> (forall j, 0 <= j < k -> bit (D n) j = true) ->
  home start (b + k) -> length (D (b + k)) = Z.to_nat BSIZE -> Z.of_nat (length bns) + Z.of_nat (size L) + 2 < LOGSIZE ->
  exists s' bns', wrun i (balloc_in dev b bp) s d [] (Some (b + k)) s' /\ fs_frame s s' /\
    intxn s' d (allocated sb (b + k) D) bns' L /\ (length bns' <= length bns + 2)%nat.
Proof.
  intros n Hh HLn HLa Hsb Hly Hk Hb Hsz Hna Hmod Hfree Hused Ha Hlen Hmax. pose proof (lookup_insert_eq L n (bp, D n)) as HL.
  destruct (ly_bitmap _ _ Hly (b + k)) as [Hn Hby]; [lia|]. fold n in Hn, Hby.
  pose proof (get_byte (D n) k Hby Hk) as Hget.
  destruct (intxn_put_data _ _ _ _ _ _ _ _ _ 1 _ _ Hh HL (set_bit_put (D n) k Hby Hk)) as (s1 & H1 & F1 & Hh1).
  rewrite insert_insert_eq in Hh1.
  destruct (intxn_write_back _ _ _ _ _ _ _ _ Hh1 (lookup_insert_eq _ _ _) Hn) as (s2 & H2 & F2 & Ht2); [lia|].
  rewrite delete_insert_id in Ht2 by done. pose proof (absorb_length n bns).
  destruct (wrun_bzero _ _ _ _ L (b + k) Ht2 Ha HLa) as (s3 & H3 & F3 & Ht3); [|lia|].
  { unfold write_block. destruct (Z.eqb_spec (b + k) n); [|done]. unfold set_bit. rewrite length_insert. apply Hby. }
  exists s3, (absorb (b + k) (absorb n bns)). split; [|split; [by trans s1; [|trans s2]|]].
  - unfold balloc_in. eapply wrun_seq; [apply runs_gets|]. rewrite Hsb, (seqZ_split _ k) by lia.
    apply wrun_for_ret_first.
    + intros j Hj. apply elem_of_seqZ in Hj. exact (runs_bit_used _ _ _ _ _ _ _ _ j _ Hh HL Hby ltac:(lia) (Hused j ltac:(lia))).
    + eapply wrun_seq; [eapply intxn_get_data; [exact Hh|exact HL|exact Hget]|]. fold (bit_mask k).
      rewrite bit_land, Hfree by lia. cbn [negb]. eapply wrun_seq; [exact H1|].
      apply wrun_assoc. eapply wrun_seq; [exact H2|]. eapply wrun_then; [exact H3|]. apply wrun_runs, runs_ret.
  - unfold allocated. fold n. rewrite Hmod. split; [exact Ht3|]. pose proof (absorb_length (b + k) (absorb n bns)). lia.
Qed.

Lemma balloc_in_none s d D bns L n b bp sb :
  intxn s d D bns L -> L !! n = Some (bp, D n) -> k_sb s = sb -> bytes (D n) -> (forall j, 0 <= j < BPB -> bit (D n) j = true) ->
  runs (balloc_in dev b bp) s None s.
Proof.
  intros Hh HL Hsb Hby Hused. unfold balloc_in. eapply runs_bind; [apply runs_gets|].
  apply runs_for_ret_none. intros j Hj. apply elem_of_seqZ in Hj.
  exact (runs_bit_used _ _ _ _ _ _ _ _ j _ Hh HL Hby ltac:(lia) (Hused j ltac:(lia))).
Qed.

(** The quota of the container of the process: balloc charges the block to it. *)

Definition within_quota (ci : nat) (c : container) : Prop := ci = 0%nat \/ c_diskused c < c_disklimit c.

Lemma runs_balloc_charge s ci c :
  k_started s <> 0 -> cur_cont s ci c -> within_quota ci c ->
  runs balloc_charge s tt (set_k_conts (<[ci := set_c_diskused (i32 (c_diskused c + 1)) c]> (k_conts s)) s).
Proof.
  intros Hst (j & p & Hcur & Hp & Hpc & Hc) Hq. unfold balloc_charge.
  eapply runs_bind; [by apply runs_myproc|]. rewrite Hcur. cbn [ptr_of is_minus1 deref].
  eapply runs_bind; [apply runs_ret|]. eapply runs_bind; [by apply runs_get_proc|].
  rewrite Hpc. cbn [ptr_of deref]. cbv zeta. eapply runs_bind; [apply runs_ret|].
  eapply (runs_bind _ _ _ tt s);
    [|exact (runs_mod_cont ci (fun x => set_c_diskused (i32 (c_diskused x + 1)) x) c s Hc)].
  destruct ci as [|ci]; cbn [isroot]; [apply runs_ret|]. destruct Hq as [|Hq]; [done|].
  eapply runs_bind; [by apply runs_get_cont|]. destruct (Z.leb_spec (c_disklimit c) (c_diskused c)); [lia|]. apply runs_ret.
Qed.

Lemma intxn_set_conts cs s d D bns L : intxn s d D bns L -> intxn (set_k_conts cs s) d D bns L.
Proof.
  intros (pins & Ht & (C & [H1 H2 H3 [? ? ? ? ? ?] H5] & Hu)). exists pins.
  split; [by eapply txn_pins_log; [|exact Ht]|]. exists C. split; [|done]. split; [done|done|done|by split|done].
Qed.

(** The search through the blocks of the bitmap, from block [j] of it on. *)

Definition balloc_scan (l : list Z) : K (option Z) :=
  for_ret l (fun k =>
    let b := k * BPB in
    sb <- gets k_sb ;;
    bp <- bread dev (BBLOCK b sb) ;;
    r <- balloc_in dev b bp ;;
    match r with
    | Some a => ret (Some a)
    | None => brelse bp ;; ret None
    end).

(** A free block that balloc can find. *)

Record first_free (sb : superblock) (D : disk) (a : Z) : Prop := {
  fr_range : 0 <= a < sb_size sb;
  fr_free : used sb D a = false;
  fr_least : forall b, 0 <= b < a -> used sb D b = true;
  fr_home : home start a;
  fr_data : forall b, 0 <= b < sb_size sb -> BBLOCK b sb <> a;
  fr_len : length (D a) = Z.to_nat BSIZE;
}.

Lemma BBLOCK_div a b sb : a / BPB = b / BPB -> BBLOCK a sb = BBLOCK b sb.
Proof. intros E. unfold BBLOCK. by rewrite E. Qed.

Lemma balloc_step sb D a j :
  first_free sb D a -> 0 <= j <= a / BPB ->
  (forall bi, 0 <= bi < (if j =? a / BPB then a mod BPB else BPB) -> bit (D (BBLOCK (j * BPB) sb)) bi = true) /\
  0 <= j * BPB < sb_size sb.
Proof.
  intros [Ha Hf Hl _ _ _] Hj. assert (HB : 0 < BPB) by done. pose proof (Z.div_mod a BPB ltac:(lia)) as Ed.
  pose proof (Z.mod_pos_bound a BPB HB) as Hm. split; [|nia]. intros bi Hbi.
  assert (Hdiv : (j * BPB + bi) / BPB = j /\ (j * BPB + bi) mod BPB = bi).
  { rewrite Z.add_comm. assert (0 <= bi < BPB) by (destruct (j =? a / BPB); lia).
    rewrite Z.div_add, Z.mod_add, Z.div_small, Z.mod_small by lia. lia. }
  specialize (Hl (j * BPB + bi)). unfold used in Hl. destruct Hdiv as [E1 E2]. rewrite E2 in Hl.
  rewrite (BBLOCK_div _ (j * BPB)) in Hl by (rewrite E1; by rewrite Z.div_mul by lia). apply Hl.
  destruct (Z.eqb_spec j (a / BPB)); nia.
Qed.

(** The locked blocks are none of those that balloc touches. *)

Definition unlocked_for (sb : superblock) (a : Z) (L : locks) : Prop :=
  L !! a = None /\ forall b, 0 <= b < sb_size sb -> L !! BBLOCK b sb = None.

Lemma wrun_balloc_scan sb d D bns L a m : forall j rest s,
  intxn s d D bns L -> unlocked_for sb a L -> k_sb s = sb -> layout sb D -> first_free sb D a ->
  Z.of_nat (length bns) + Z.of_nat (size L) + 2 < LOGSIZE -> 0 <= j -> j + Z.of_nat m = a / BPB ->
  exists s' bns', wrun i (balloc_scan (seqZ j (Z.of_nat m) ++ a / BPB :: rest)) s d [] (Some a) s' /\ fs_frame s s' /\
    intxn s' d (allocated sb a D) bns' L /\ (length bns' <= length bns + 2)%nat.
Proof.
  assert (HB : 0 < BPB) by done.
  induction m as [|m IH]; intros j rest s Ht [HLa HLb] Hsb Hly Hff Hmax Hj Hm; pose proof (fr_range _ _ _ Hff) as Ha;
    (destruct (balloc_step sb D a j Hff) as [Hbits Hjs]; [lia|]); destruct (ly_bitmap _ _ Hly (j * BPB) Hjs) as [Hn Hby];
    destruct (intxn_bread _ _ _ _ _ (BBLOCK (j * BPB) sb) Ht (proj1 Hn) (HLb _ Hjs) ltac:(lia)) as (bp & s1 & H1 & F1 & Hh1);
    pose proof (eq_trans (ff_sb _ _ F1) Hsb) as Hsb1.
  - assert (Ej : a / BPB = j) by lia. cbn [app]. rewrite Ej in *. change (seqZ j (Z.of_nat 0) ++ j :: rest) with (j :: rest).
    rewrite Z.eqb_refl in Hbits. pose proof (Z.div_mod a BPB ltac:(lia)) as Ed. rewrite Ej in Ed.
    pose proof (Z.mod_pos_bound a BPB HB) as Hmb. assert (Eb : BBLOCK (j * BPB) sb = BBLOCK a sb).
    { apply BBLOCK_div. rewrite Ej. by rewrite Z.div_mul by lia. }
    rewrite Eb in *. assert (Ea : j * BPB + a mod BPB = a) by lia. pose proof (HLb a Ha) as HLba. pose proof (fr_data _ _ _ Hff a Ha) as Hda.
    destruct (balloc_in_found s1 d D bns L sb (j * BPB) (a mod BPB) bp) as (s2 & bns2 & H2 & F2 & Ht2);
      rewrite ?Ea; try done; try lia; [apply (fr_free _ _ _ Hff)|apply (fr_home _ _ _ Hff)|apply (fr_len _ _ _ Hff)|].
    rewrite Ea in *. exists s2, bns2. split; [|split; [by trans s1|done]].
    unfold balloc_scan. apply (wrun_for_ret_first [] rest j); [by intros y Hy%elem_of_nil|]. cbv zeta.
    eapply wrun_seq; [apply runs_gets|]. rewrite Hsb, Eb. eapply wrun_then; [exact H1|].
    eapply wrun_then; [exact H2|]. apply wrun_runs, runs_ret.
  - assert (Hne : (j =? a / BPB) = false) by (apply Z.eqb_neq; lia). rewrite Hne in Hbits.
    destruct (intxn_brelse _ _ _ _ _ _ _ Hh1 (lookup_insert_eq _ _ _)) as (s2 & H2 & F2 & Ht2).
    rewrite delete_insert_id in Ht2 by (by apply HLb).
    destruct (IH (j + 1) rest s2 Ht2) as (s3 & bns3 & H3 & F3 & Ht3);
      [done|by rewrite (ff_sb _ _ F2)|done|done|done|lia|lia|].
    exists s3, bns3. split; [|split; [by trans s1; [|trans s2]|done]].
    rewrite seqZ_cons by lia. cbn [app]. unfold balloc_scan. cbn [for_ret]. eapply wrun_then.
    + cbv zeta. eapply wrun_seq; [apply runs_gets|]. rewrite Hsb. eapply wrun_then; [exact H1|].
      eapply wrun_seq; [eapply balloc_in_none; [exact Hh1|apply lookup_insert_eq|done..]|].
      eapply wrun_seq; [exact H2|]. apply wrun_runs, runs_ret.
    + cbn. replace (Z.succ j) with (j + 1) by lia. replace (Z.pred (Z.of_nat (S m))) with (Z.of_nat m) by lia. exact H3.
Qed.

(** The bitmap after the change of one bit of it. *)

Lemma BBLOCK_inj sb D a b :
  layout sb D -> 0 <= a < sb_size sb -> 0 <= b < sb_size sb -> BBLOCK a sb = BBLOCK b sb -> a / BPB = b / BPB.
Proof.
  intros [H1 H2 _] Ha Hb. unfold BBLOCK. assert (HB : 8192 = BPB) by done.
  assert (0 <= a / BPB < 2 ^ 31 /\ 0 <= b / BPB < 2 ^ 31) as [? ?] by (rewrite <- HB; dlia).
  rewrite !u32_small by lia. lia.
Qed.

Lemma used_flip sb D a v c :
  layout sb D -> 0 <= a < sb_size sb ->
  (forall bj, 0 <= bj -> bit v bj = if a mod BPB =? bj then c else bit (D (BBLOCK a sb)) bj) ->
  forall b, 0 <= b < sb_size sb ->
  used sb (write_block D (BBLOCK a sb) v) b = if a =? b then c else used sb D b.
Proof.
  intros Hly Ha Hf b Hb. assert (HB : 0 < BPB) by done. unfold used, write_block.
  destruct (Z.eqb_spec (BBLOCK b sb) (BBLOCK a sb)) as [E|E].
  - rewrite Hf by (apply Z.mod_pos_bound; lia). destruct (Z.eqb_spec a b) as [->|Hne]; [by rewrite Z.eqb_refl|].
    destruct (Z.eqb_spec (a mod BPB) (b mod BPB)) as [Em|]; [|by rewrite <- E].
    exfalso. pose proof (BBLOCK_inj _ _ _ _ Hly Hb Ha E) as Ed. apply Hne.
    rewrite (Z.div_mod a BPB), (Z.div_mod b BPB), Ed, Em by lia. done.
  - destruct (Z.eqb_spec a b) as [->|]; done.
Qed.

Lemma bytes_insert v k x : bytes v -> 0 <= x < 256 -> bytes (<[k := x]> v).
Proof. intros [H1 H2] Hx. split; [by rewrite length_insert|]. by apply Forall_insert. Qed.

Lemma layout_write sb D n v : layout sb D -> bytes v -> layout sb (write_block D n v).
Proof.
  intros [H1 H2 H3] Hv. split; [done|done|]. intros b Hb. destruct (H3 b Hb) as [Hh Hby]. split; [done|].
  unfold write_block. by destruct (_ =? _).
Qed.

Lemma bytes_zero_block : bytes zero_block.
Proof. split; [apply length_replicate|]. apply Forall_replicate. lia. Qed.

Lemma bytes_set_bit v bi : bytes v -> 0 <= bi -> bytes (set_bit bi v).
Proof. intros Hv Hb. apply bytes_insert; [done|]. by apply lor_mask_range. Qed.

Lemma bytes_clear_bit v bi : bytes v -> bytes (clear_bit bi v).
Proof. intros Hv. apply bytes_insert; [done|]. by apply land_mask_range. Qed.

(** The state after the block has been charged to the container. *)

Definition charged (ci : nat) (c : container) (k : Z) (s : kst) : kst :=
  set_k_conts (<[ci := set_c_diskused (i32 (c_diskused c + k)) c]> (k_conts s)) s.

Lemma intxn_started s d D bns L : intxn s d D bns L -> k_started s <> 0.
Proof. intros (pins & _ & Hc). apply (acache_in_proc _ _ _ _ _ _ _ _ Hc). Qed.

Lemma wrun_balloc s d D bns L sb a ci c :
  intxn s d D bns L -> unlocked_for sb a L -> k_sb s = sb -> layout sb D -> first_free sb D a ->
  Z.of_nat (length bns) + Z.of_nat (size L) + 2 < LOGSIZE ->
  cur_cont s ci c -> within_quota ci c ->
  exists s' bns', wrun i (balloc dev) s d [] a s' /\ fs_frame (charged ci c 1 s) s' /\
    intxn s' d (allocated sb a D) bns' L /\ (length bns' <= length bns + 2)%nat.
Proof.
  intros Ht HL Hsb Hly Hff Hmax Hcc Hq. assert (HB : 0 < BPB) by done. pose proof (fr_range _ _ _ Hff) as Ha.
  pose proof (runs_balloc_charge s ci c (intxn_started _ _ _ _ _ Ht) Hcc Hq) as Hch. fold (charged ci c 1 s) in Hch.
  destruct (wrun_balloc_scan sb d D bns L a (Z.to_nat (a / BPB)) 0
    (seqZ (a / BPB + 1) ((sb_size sb + BPB - 1) / BPB - a / BPB - 1)) (charged ci c 1 s)) as (s' & bns' & Hr & Hf & Ht');
    [by apply intxn_set_conts|done|done|done|done|done|lia|rewrite Z2Nat.id; [lia|apply Z.div_pos; lia]|].
  exists s', bns'. split; [|done]. unfold balloc. eapply wrun_seq; [exact Hch|]. eapply wrun_seq; [apply runs_gets|].
  change (k_sb (charged ci c 1 s)) with (k_sb s). rewrite Hsb, (seqZ_split _ (a / BPB)).
  - rewrite Z2Nat.id in Hr by (apply Z.div_pos; lia). eapply wrun_then; [exact Hr|]. apply wrun_runs, runs_ret.
  - split; [apply Z.div_pos; lia|]. apply Z.div_lt_upper_bound; [lia|].
    pose proof (Z.div_mod (sb_size sb + BPB - 1) BPB ltac:(lia)). pose proof (Z.mod_pos_bound (sb_size sb + BPB - 1) BPB HB). lia.
Qed.

(** What the blocks are then. *)

Lemma allocated_spec sb D a :
  layout sb D -> first_free sb D a ->
  layout sb (allocated sb a D) /\ allocated sb a D a = zero_block /\
  (forall b, 0 <= b < sb_size sb -> used sb (allocated sb a D) b = (a =? b) || used sb D b) /\
  (forall n, n <> a -> n <> BBLOCK a sb -> allocated sb a D n = D n).
Proof.
  intros Hly Hff. assert (HB : 0 < BPB) by done. pose proof (fr_range _ _ _ Hff) as Ha.
  pose proof (Z.mod_pos_bound a BPB HB) as Hmb. destruct (ly_bitmap _ _ Hly a Ha) as [_ Hby]. split_and!.
  - apply layout_write; [|apply bytes_zero_block]. apply layout_write; [done|]. apply bytes_set_bit; [done|lia].
  - unfold allocated, write_block at 1. by rewrite Z.eqb_refl.
  - intros b Hb. change ((a =? b) || used sb D b) with (if a =? b then true else used sb D b).
    rewrite <- (used_flip sb D a (set_bit (a mod BPB) (D (BBLOCK a sb))) true Hly Ha); [| |done].
    + unfold used, allocated. unfold write_block at 1. pose proof (fr_data _ _ _ Hff b Hb).
      destruct (Z.eqb_spec (BBLOCK b sb) a); done.
    + intros bj Hj. rewrite bit_set by done. by destruct (_ =? _).
  - intros n H1 H2. unfold allocated, write_block. destruct (Z.eqb_spec n a); [done|]. by destruct (Z.eqb_spec n (BBLOCK a sb)).
Qed.

(** C14: balloc, inside a transaction, takes the first block that the bitmap says is
    free.  It returns its number; after it the blocks are seen with this bit set and no
    other changed, with the block full of zeroes, and the rest as it was; nothing has
    been written to the disk yet. *)

Theorem balloc_first_free s d D bns sb a ci c :
  txn s d D bns -> k_sb s = sb -> layout sb D -> first_free sb D a -> Z.of_nat (length bns) + 2 < LOGSIZE ->
  cur_cont s ci c -> within_quota ci c ->
  exists s' D' bns', wrun i (balloc dev) s d [] a s' /\ txn s' d D' bns' /\ layout sb D' /\ D' a = zero_block /\
    (forall b, 0 <= b < sb_size sb -> used sb D' b = (a =? b) || used sb D b) /\
    (forall n, n <> a -> n <> BBLOCK a sb -> D' n = D n).
Proof.
  intros Ht Hsb Hly Hff Hmax Hcc Hq. destruct (wrun_balloc s d D bns ∅ sb a ci c Ht) as (s' & bns' & Hr & _ & Ht' & _); [done|done|done|done|rewrite map_size_empty; lia|done|done|].
  exists s', (allocated sb a D), bns'. split; [done|]. split; [done|]. by apply allocated_spec.
Qed.

Lemma wrun_bfree s d D bns L sb a ci c :
  intxn s d D bns L -> L !! BBLOCK a sb = None -> k_sb s = sb -> layout sb D -> 0 <= a < sb_size sb -> used sb D a = true ->
  Z.of_nat (length bns) + Z.of_nat (size L) + 1 < LOGSIZE -> cur_cont s ci c ->
  exists s', wrun i (bfree dev a) s d [] tt s' /\ fs_frame (charged ci c (-1) s) s' /\
    intxn s' d (freed sb a D) (absorb (BBLOCK a sb) bns) L.
Proof.
  intros Ht HL Hsb Hly Ha Hu Hmax Hcc. assert (HB : 0 < BPB) by done. pose proof (Z.mod_pos_bound a BPB HB) as Hmb.
  destruct (ly_bitmap _ _ Hly a Ha) as [Hn Hby]. pose proof (intxn_started _ _ _ _ _ Ht) as Hst.
  pose proof Hcc as (j & p & _ & _ & _ & Hc).
  pose proof (runs_mod_cont ci (fun x => set_c_diskused (i32 (c_diskused x - 1)) x) c s Hc) as Hch.
  change (set_k_conts _ s) with (charged ci c (-1) s) in Hch.
  destruct (intxn_bread (charged ci c (-1) s) d D bns L (BBLOCK a sb)) as (bp & s1 & H1 & F1 & Hh1);
    [by apply intxn_set_conts|apply Hn|done|lia|].
  destruct (intxn_put_data _ _ _ _ _ _ _ _ _ 1 _ _ Hh1 (lookup_insert_eq _ _ _) (clear_bit_put _ _ Hby Hmb)) as (s2 & H2 & F2 & Hh2).
  rewrite insert_insert_eq in Hh2.
  destruct (intxn_write_back _ _ _ _ _ _ _ _ Hh2 (lookup_insert_eq _ _ _) Hn) as (s3 & H3 & F3 & Ht3); [lia|].
  rewrite delete_insert_id in Ht3 by done.
  exists s3. split; [|split; [by trans s1; [|trans s2]|done]].
  unfold bfree. eapply wrun_seq; [by eapply runs_mycont|]. cbn [is_minus1].
  eapply wrun_seq; [eapply runs_bind; [apply runs_ret|exact Hch]|]. eapply wrun_seq; [apply runs_gets|].
  change (k_sb (charged ci c (-1) s)) with (k_sb s). rewrite Hsb. eapply wrun_then; [exact H1|].
  eapply wrun_seq; [eapply intxn_get_data; [exact Hh1|apply lookup_insert_eq|by apply get_byte]|]. fold (bit_mask (a mod BPB)).
  rewrite bit_land by lia. unfold used in Hu. rewrite Hu. cbn [negb]. eapply wrun_seq; [exact H2|]. by apply wrun_runs.
Qed.

Lemma freed_spec sb D a :
  layout sb D -> 0 <= a < sb_size sb ->
  layout sb (freed sb a D) /\
  (forall b, 0 <= b < sb_size sb -> used sb (freed sb a D) b = negb (a =? b) && used sb D b) /\
  (forall n, n <> BBLOCK a sb -> freed sb a D n = D n).
Proof.
  intros Hly Ha. assert (HB : 0 < BPB) by done. pose proof (Z.mod_pos_bound a BPB HB) as Hmb.
  destruct (ly_bitmap _ _ Hly a Ha) as [Hn Hby]. split; [|split].
  - apply layout_write; [done|]. by apply bytes_clear_bit.
  - intros b Hb. unfold freed. rewrite (used_flip sb D a _ false Hly Ha); [by destruct (a =? b)| |done].
    intros bj Hj. rewrite bit_clear by done. by destruct (_ =? _).
  - intros n H. unfold freed, write_block. by destruct (Z.eqb_spec n (BBLOCK a sb)).
Qed.

(** Bfree, inside a transaction, gives a block in use back: after it the blocks are
    seen with the bit of this block clear and no other changed, and nothing else of
    the disk differs. *)

Theorem bfree_clears s d D bns sb a ci c :
  txn s d D bns -> k_sb s = sb -> layout sb D -> 0 <= a < sb_size sb -> used sb D a = true ->
  Z.of_nat (length bns) + 1 < LOGSIZE -> cur_cont s ci c ->
  exists s' D' bns', wrun i (bfree dev a) s d [] tt s' /\ txn s' d D' bns' /\ layout sb D' /\
    (forall b, 0 <= b < sb_size sb -> used sb D' b = negb (a =? b) && used sb D b) /\
    (forall n, n <> BBLOCK a sb -> D' n = D n).
Proof.
  intros Ht Hsb Hly Ha Hu Hmax Hcc.
  destruct (wrun_bfree s d D bns ∅ sb a ci c Ht) as (s' & Hr & _ & Ht'); [done|done|done|done|done|rewrite map_size_empty; lia|done|].
  exists s', (freed sb a D), (absorb (BBLOCK a sb) bns). split; [done|]. split; [done|]. by apply freed_spec.
Qed.

End Txn.
