(* ===== verification/Inodespec.v ===== *)
(** * Inodes

    What iupdate, ilock, bmap, readi and writei of kernel/fs.c do inside a transaction,
    in terms of the blocks as the process sees them: the struct dinode in the block of
    its inode, the blocks of a file by their number, and its contents as bytes. *)

From S2P Require Import Prelude Monad Riscv Kstring Kstate Spinlock Printf Kalloc Vm Sched Schedspec Bio Log Diskspec Cachespec Logspec Fs Txnspec.

(** ** Parts of a block *)

(** The field of [n] bytes at [off] of a structure that lies at [base]. *)

Lemma le_get_inserts n (k l : list Z) (base off : nat) :
  (base + length k <= length l)%nat -> (off + n <= length k)%nat ->
  le_get n (list_inserts base k l) (Z.of_nat base + Z.of_nat off) = Some (le_value (take n (drop off k))).
Proof.
  intros Hl Ho. unfold le_get. rewrite length_inserts.
  destruct (Z.ltb_spec (Z.of_nat base + Z.of_nat off) 0); [lia|].
  destruct (Z.ltb_spec (Z.of_nat (length l)) (Z.of_nat base + Z.of_nat off + Z.of_nat n)); [lia|]. cbn [orb]. do 2 f_equal.
  apply list_eq. intros j. destruct (decide (j < n)%nat); [|by rewrite !lookup_take_ge by lia].
  rewrite !lookup_take_lt, !lookup_drop by lia. rewrite list_lookup_inserts by lia. f_equal. lia.
Qed.

(** Fields that are written one after the other. *)

Lemma le_put_next n (k l : list Z) (base : nat) v :
  (base + length k + n <= length l)%nat ->
  le_put n (list_inserts base k l) (Z.of_nat base + Z.of_nat (length k)) v =
  Some (list_inserts base (k ++ le_bytes n v) l).
Proof.
  intros Hl. unfold le_put. rewrite length_inserts.
  destruct (Z.ltb_spec (Z.of_nat base + Z.of_nat (length k)) 0); [lia|].
  destruct (Z.ltb_spec (Z.of_nat (length l)) (Z.of_nat base + Z.of_nat (length k) + Z.of_nat n)); [lia|]. cbn [orb].
  rewrite list_inserts_app_l. do 2 f_equal. lia.
Qed.

(** ** The struct dinode *)

Definition dinode_head (x : inode) : list Z :=
  le_bytes 2 (i_type x) ++ le_bytes 2 (i_major x) ++ le_bytes 2 (i_minor x) ++ le_bytes 2 (i_nlink x) ++ le_bytes 4 (i_size x).

Definition words (l : list Z) : list Z := l ≫= le_bytes 4.

Definition dinode_bytes (x : inode) : list Z := dinode_head x ++ words (i_addrs x).

Definition dinode_in (inum : Z) (x : inode) (v : list Z) : list Z :=
  list_inserts (Z.to_nat (dinode_off inum)) (dinode_bytes x) v.

Lemma length_words l : length (words l) = (4 * length l)%nat.
Proof. induction l as [|a l IH]; [done|]. change (words (a :: l)) with (le_bytes 4 a ++ words l). rewrite length_app, IH, length_le_bytes. cbn [length]. lia. Qed.

Lemma words_snoc l a : words (l ++ [a]) = words l ++ le_bytes 4 a.
Proof. unfold words. by rewrite bind_app. Qed.

Lemma length_dinode_bytes x : length (i_addrs x) = 13%nat -> length (dinode_bytes x) = 64%nat.
Proof. intros H. unfold dinode_bytes, dinode_head. by rewrite !length_app, length_words, !length_le_bytes, H. Qed.

Lemma dinode_off_range inum : 0 <= dinode_off inum /\ dinode_off inum + 64 <= BSIZE.
Proof.
  unfold dinode_off, sizeof_dinode, IPB. change (BSIZE / sizeof_dinode) with 16. change BSIZE with 1024.
  pose proof (Z.mod_pos_bound inum 16 ltac:(lia)). lia.
Qed.

Lemma bytes_le n v : Forall (fun x => 0 <= x < 256) (le_bytes n v).
Proof. revert v. induction n as [|n IH]; intros v; constructor; [apply Z.mod_pos_bound; lia|apply IH]. Qed.

Lemma bytes_words l : Forall (fun x => 0 <= x < 256) (words l).
Proof. induction l as [|a l IH]; [constructor|]. apply Forall_app. split; [apply bytes_le|exact IH]. Qed.

Lemma bytes_dinode x : Forall (fun x => 0 <= x < 256) (dinode_bytes x).
Proof. unfold dinode_bytes, dinode_head. rewrite !Forall_app. auto 7 using bytes_le, bytes_words. Qed.

Lemma take_word l : forall (j : nat) (a : Z), l !! j = Some a -> take 4 (drop (4 * j) (words l)) = le_bytes 4 a.
Proof.
  induction l as [|b l IH]; intros j a Hj; [done|]. change (words (b :: l)) with (le_bytes 4 b ++ words l).
  destruct j as [|j].
  - injection Hj as ->. reflexivity.
  - rewrite drop_app_ge by (rewrite length_le_bytes; lia). rewrite length_le_bytes.
    replace (4 * S j - 4)%nat with (4 * j)%nat by lia. by apply IH.
Qed.

(** ** Where the blocks of a file are *)

(** The word [j] of a block of addresses. *)

Definition word (v : list Z) (j : Z) : Z := le_value (take 4 (drop (Z.to_nat (4 * j)) v)).
Definition put_word (v : list Z) (j a : Z) : list Z := list_inserts (Z.to_nat (4 * j)) (le_bytes 4 a) v.

Lemma get_word v j : bytes v -> 0 <= j < NINDIRECT -> le_get 4 v (4 * j) = Some (word v j).
Proof.
  intros [Hl _] Hj. unfold NINDIRECT, BSIZE in *. change (1024 / 4) with 256 in Hj. unfold le_get.
  destruct (Z.ltb_spec (4 * j) 0); [lia|]. by destruct (Z.ltb_spec (Z.of_nat (length v)) (4 * j + Z.of_nat 4)); [lia|].
Qed.

Lemma set_word v j a : bytes v -> 0 <= j < NINDIRECT -> le_put 4 v (4 * j) a = Some (put_word v j a).
Proof.
  intros [Hl _] Hj. unfold NINDIRECT, BSIZE in *. change (1024 / 4) with 256 in Hj. unfold le_put.
  destruct (Z.ltb_spec (4 * j) 0); [lia|]. by destruct (Z.ltb_spec (Z.of_nat (length v)) (4 * j + Z.of_nat 4)); [lia|].
Qed.

Lemma word_put v j a k :
  bytes v -> 0 <= j < NINDIRECT -> 0 <= k < NINDIRECT -> 0 <= a < 2 ^ 32 ->
  word (put_word v j a) k = if k =? j then a else word v k.
Proof.
  intros [Hl _] Hj Hk Ha. unfold NINDIRECT, BSIZE in *. change (1024 / 4) with 256 in *. unfold word, put_word.
  destruct (Z.eqb_spec k j) as [->|Hne].
  - rewrite take_drop_inserts by (rewrite ?length_le_bytes; lia). rewrite le_value_bytes. by apply Z.mod_small.
  - rewrite take_drop_inserts_other; [done|]. rewrite length_le_bytes. lia.
Qed.

Lemma bytes_put_word v j a : bytes v -> bytes (put_word v j a).
Proof. intros [H1 H2]. split; [by unfold put_word; rewrite length_inserts|]. apply Forall_inserts; [done|apply bytes_le]. Qed.

Lemma word_zero_block j : word zero_block j = 0.
Proof.
  unfold word, zero_block. rewrite drop_replicate, take_replicate. induction (_ `min` _)%nat as [|n IH]; [done|].
  cbn [replicate le_value]. rewrite IH. done.
Qed.

Lemma le_value_range l : Forall (fun x => 0 <= x < 256) l -> 0 <= le_value l < 256 ^ Z.of_nat (length l).
Proof.
  induction 1 as [|b l Hb Hl IH]; [done|]. cbn [le_value length]. rewrite Nat2Z.inj_succ, Z.pow_succ_r by lia. lia.
Qed.

Lemma word_range v j : bytes v -> 0 <= j < NINDIRECT -> 0 <= word v j < 2 ^ 32.
Proof.
  intros [Hl Hf] Hj. unfold NINDIRECT, BSIZE in *. change (1024 / 4) with 256 in Hj. unfold word.
  set (l := take 4 _). assert (E : length l = 4%nat) by (unfold l; rewrite length_take, length_drop; lia).
  change (2 ^ 32) with (256 ^ Z.of_nat 4). rewrite <- E. apply le_value_range. unfold l. by apply Forall_take, Forall_drop.
Qed.

(** The address of block [bn] of a file with the addresses [addrs] in its inode; 0 when
    it has none. *)

Definition addr_at (addrs : list Z) (j : Z) : Z := default 0 (addrs !! Z.to_nat j).

Definition file_addr (D : disk) (addrs : list Z) (bn : Z) : Z :=
  if bn <? NDIRECT then addr_at addrs bn
  else if addr_at addrs NDIRECT =? 0 then 0 else word (D (addr_at addrs NDIRECT)) (bn - NDIRECT).

(** The byte at position [k] of a file, and [n] bytes from position [off] on. *)

Definition file_byte (D : disk) (addrs : list Z) (k : Z) : Z :=
  default 0 (D (file_addr D addrs (k / BSIZE)) !! Z.to_nat (k mod BSIZE)).

Definition content (D : disk) (addrs : list Z) (off n : Z) : list Z :=
  (fun k => file_byte D addrs (off + k)) <$> seqZ 0 n.

Lemma length_content D addrs off n : length (content D addrs off n) = Z.to_nat n.
Proof. unfold content. by rewrite length_fmap, length_seqZ. Qed.

Lemma lookup_content D addrs off n j :
  (j < Z.to_nat n)%nat -> content D addrs off n !! j = Some (file_byte D addrs (off + Z.of_nat j)).
Proof. intros H. unfold content. rewrite list_lookup_fmap, lookup_seqZ_lt by lia. done. Qed.

Lemma content_app D addrs off a b :
  0 <= a -> 0 <= b -> content D addrs off (a + b) = content D addrs off a ++ content D addrs (off + a) b.
Proof.
  intros Ha Hb. apply list_eq. intros j. destruct (decide (j < Z.to_nat a)%nat).
  - rewrite lookup_app_l by (rewrite length_content; lia). by rewrite !lookup_content by lia.
  - rewrite lookup_app_r by (rewrite length_content; lia). rewrite length_content.
    destruct (decide (j < Z.to_nat (a + b))%nat).
    + rewrite !lookup_content by lia. do 2 f_equal. lia.
    + rewrite !lookup_ge_None_2; [done|rewrite length_content; lia..].
Qed.

(** A part of one block. *)

Lemma content_block D addrs k m :
  0 <= k -> 0 <= m -> k mod BSIZE + m <= BSIZE -> length (D (file_addr D addrs (k / BSIZE))) = Z.to_nat BSIZE ->
  take (Z.to_nat m) (drop (Z.to_nat (k mod BSIZE)) (D (file_addr D addrs (k / BSIZE)))) = content D addrs k m.
Proof.
  intros Hk Hm Hb Hl. assert (HB : BSIZE = 1024) by done. rewrite HB in *. apply list_eq. intros j.
  destruct (decide (j < Z.to_nat m)%nat).
  - rewrite lookup_take_lt, lookup_drop, lookup_content by lia. unfold file_byte. rewrite HB.
    assert (E : (k + Z.of_nat j) / 1024 = k / 1024 /\ (k + Z.of_nat j) mod 1024 = k mod 1024 + Z.of_nat j) by dlia.
    destruct E as [-> ->]. pose proof (Z.mod_pos_bound k 1024 ltac:(lia)).
    replace (Z.to_nat (k mod 1024) + j)%nat with (Z.to_nat (k mod 1024 + Z.of_nat j)) by lia.
    destruct (lookup_lt_is_Some_2 (D (file_addr D addrs (k / 1024))) (Z.to_nat (k mod 1024 + Z.of_nat j))) as [v ->]; [lia|done].
  - rewrite lookup_take_ge by lia. symmetry. apply lookup_ge_None. rewrite length_content. lia.
Qed.

Section Inode.
Context `{KI : KernelImage} `{VD : VirtioDevice}.
Context (i : nat) (pid ks dev start : Z).
Hypothesis Hdev : 0 <= dev < 2 ^ 31.
Hypothesis Hstart : 0 <= start /\ start + LOGSIZE < 2 ^ 31.

Abbreviation txn := (txn i pid ks dev start).
Abbreviation intxn := (intxn i pid ks dev start).
Abbreviation wrun := (wrun i).
Abbreviation intxn_bread := (intxn_bread i pid ks dev start Hdev Hstart).
Abbreviation intxn_put_data := (intxn_put_data i pid ks dev start).
Abbreviation intxn_brelse := (intxn_brelse i pid ks dev start Hdev Hstart).
Abbreviation intxn_write_back := (intxn_write_back i pid ks dev start Hdev Hstart).
Abbreviation wrun_balloc := (wrun_balloc i pid ks dev start Hdev Hstart).

(** One block locked, [n], in buffer [b] with contents [v]. *)

Definition held (s : kst) (d D : disk) (bns : list Z) (n : Z) (b : nat) (v : list Z) : Prop :=
  intxn s d D bns {[n := (b, v)]}.

Lemma txn_bread s d D bns n :
  txn s d D bns -> 0 <= n < 2 ^ 31 ->
  exists b s', wrun (bread dev n) s d [] b s' /\ fs_frame s s' /\ held s' d D bns n b (D n).
Proof.
  intros Ht Hn. apply intxn_bread; [done|done|done|]. rewrite map_size_empty.
  destruct Ht as (pins & Ht & _). pose proof (tx_max _ _ _ _ _ _ _ Ht). lia.
Qed.

Lemma held_get_data s d D bns n b v k off r :
  held s d D bns n b v -> le_get k v off = Some r -> runs (get_data k b off) s r s.
Proof. intros Hh. eapply intxn_get_data; [exact Hh|]. apply lookup_singleton_eq. Qed.

Lemma held_lookup s d D bns n b v : held s d D bns n b v -> exists x, k_bufs s !! b = Some x /\ b_data x = v.
Proof. intros Hh. eapply intxn_lookup; [exact Hh|]. apply lookup_singleton_eq. Qed.

Lemma held_put_data s d D bns n b v v' k off r :
  held s d D bns n b v -> le_put k v off r = Some v' ->
  exists s', runs (put_data k b off r) s tt s' /\ fs_frame s s' /\ held s' d D bns n b v'.
Proof.
  intros Hh Hp. destruct (intxn_put_data _ _ _ _ _ _ _ _ _ k off r Hh (lookup_singleton_eq _ _) Hp) as (s' & H1 & H2 & H3).
  rewrite insert_singleton_eq in H3. by exists s'.
Qed.

Lemma held_brelse s d D bns n b :
  held s d D bns n b (D n) -> exists s', runs (brelse b) s tt s' /\ fs_frame s s' /\ txn s' d D bns.
Proof.
  intros Hh. destruct (intxn_brelse _ _ _ _ _ _ _ Hh (lookup_singleton_eq _ _)) as (s' & H1 & H2 & H3).
  rewrite delete_singleton_eq in H3. by exists s'.
Qed.

Lemma held_write_back s d D bns n b v :
  held s d D bns n b v -> home start n -> Z.of_nat (length bns) + 1 < LOGSIZE ->
  exists s', runs (log_write b ;; brelse b) s tt s' /\ fs_frame s s' /\ txn s' d (write_block D n v) (absorb n bns).
Proof.
  intros Hh Hn Hm. destruct (intxn_write_back _ _ _ _ _ _ _ _ Hh (lookup_singleton_eq _ _) Hn Hm) as (s' & H1 & H2 & H3).
  rewrite delete_singleton_eq in H3. by exists s'.
Qed.

(** ** The inode cache *)

Lemma runs_get_inode ip x s : k_icache s !! ip = Some x -> runs (get_inode ip) s x s.
Proof. intros H. eapply runs_bind; [apply runs_gets|]. by apply runs_valid. Qed.

Definition with_inode (ip : nat) (x : inode) (s : kst) : kst := set_k_icache (<[ip := x]> (k_icache s)) s.

Lemma runs_mod_inode ip f x s : k_icache s !! ip = Some x -> runs (mod_inode ip f) s tt (with_inode ip (f x) s).
Proof. intros H. eapply runs_bind; [by apply runs_get_inode|]. exact (runs_modify _ s). Qed.

Lemma lookup_with_inode ip x y s : k_icache s !! ip = Some x -> k_icache (with_inode ip y s) !! ip = Some y.
Proof. intros H. apply list_lookup_insert_eq. by eapply lookup_lt_Some. Qed.

Lemma with_inode_twice ip x y s : with_inode ip x (with_inode ip y s) = with_inode ip x s.
Proof. unfold with_inode. cbn. by rewrite list_insert_insert_eq. Qed.

Lemma runs_idup ip x s :
  Licache ∉ k_held s -> k_icache s !! ip = Some x -> 0 <= i_ref x < 2 ^ 31 - 1 ->
  runs (idup ip) s ip (with_inode ip (set_i_ref (i_ref x + 1) x) s).
Proof.
  intros Hh Hx Hr. unfold idup. eapply runs_bind; [by apply runs_acquire|].
  eapply runs_bind; [by apply (runs_mod_inode ip _ x)|]. cbv beta. rewrite i32_small by lia.
  eapply runs_bind; [|apply runs_ret]. eapply runs_release_to; [apply held_in|]. cbn. rewrite held_release by done. by destruct s.
Qed.

Lemma runs_get_addr ip x j a s :
  k_icache s !! ip = Some x -> i_addrs x !! Z.to_nat j = Some a -> runs (get_addr ip j) s a s.
Proof. intros H Ha. eapply runs_bind; [by apply runs_get_inode|]. by apply runs_valid. Qed.

(** C22: the bounds of a file.  An offset past the end, a range that wraps around at 2^32
    and one that ends past the largest file of MAXFILE blocks are refused by writei with
    -1, for any source and before anything is changed; readi refuses the first two. *)

Theorem file_bounds s ip x off n src dst :
  k_icache s !! ip = Some x -> 0 <= off < 2 ^ 32 -> 0 <= n < 2 ^ 32 ->
  (i_size x < off \/ 2 ^ 32 <= off + n -> runs (readi ip dst off n) s (-1, dst) s /\ runs (writei ip src off n) s (-1) s) /\
  (MAXFILE * BSIZE < off + n -> runs (writei ip src off n) s (-1) s).
Proof.
  intros Hx Ho Hn. assert (Hw : u32 (off + n) < off <-> 2 ^ 32 <= off + n).
  { unfold u32. destruct (decide (off + n < 2 ^ 32)); [rewrite Z.mod_small by lia; lia|].
    replace (off + n) with (off + n - 2 ^ 32 + 1 * 2 ^ 32) by lia. rewrite Z_mod_plus_full, Z.mod_small by lia. lia. }
  assert (Hbad : i_size x < off \/ 2 ^ 32 <= off + n -> ((i_size x <? off) || (u32 (off + n) <? off)) = true).
  { intros H. apply orb_true_iff. rewrite !Z.ltb_lt, Hw. done. }
  assert (Hrej : i_size x < off \/ 2 ^ 32 <= off + n -> runs (writei ip src off n) s (-1) s).
  { intros H. unfold writei. eapply runs_bind; [by apply runs_get_inode|]. rewrite Hbad by done. apply runs_ret. }
  split; [intros H; split; [|by apply Hrej]|intros H].
  - unfold readi. eapply runs_bind; [by apply runs_get_inode|]. rewrite Hbad by done. apply runs_ret.
  - destruct (decide (i_size x < off \/ 2 ^ 32 <= off + n)) as [|Hok]; [by apply Hrej|]. unfold writei.
    eapply runs_bind; [by apply runs_get_inode|]. destruct (Z.ltb_spec (i_size x) off); [lia|].
    destruct (Z.ltb_spec (u32 (off + n)) off); [lia|]. cbn [orb]. rewrite u32_small by lia.
    destruct (Z.ltb_spec (MAXFILE * BSIZE) (off + n)); [apply runs_ret|lia].
Qed.

Lemma intxn_set_icache c s d D bns L : intxn s d D bns L -> intxn (set_k_icache c s) d D bns L.
Proof.
  intros (pins & Ht & (C & [H1 H2 H3 [? ? ? ? ? ?] H5] & Hu)). exists pins.
  split; [by eapply txn_pins_log; [|exact Ht]|]. exists C. split; [|done]. split; [done|done|done|by split|done].
Qed.

(** ** iupdate *)

(** The fields written so far, of a structure at [base] of the block. *)

Lemma held_put_next s d D bns n b v k (base m : nat) r :
  held s d D bns n b (list_inserts base k v) -> (base + length k + m <= length v)%nat ->
  exists s', runs (put_data m b (Z.of_nat base + Z.of_nat (length k)) r) s tt s' /\ fs_frame s s' /\
    held s' d D bns n b (list_inserts base (k ++ le_bytes m r) v).
Proof. intros Hh Hl. eapply held_put_data; [exact Hh|]. by apply le_put_next. Qed.

Lemma runs_put_addrs ip x b base k v d D bns n : forall (m j : nat) s,
  held s d D bns n b (list_inserts base (k ++ words (take j (i_addrs x))) v) -> k_icache s !! ip = Some x ->
  length (i_addrs x) = 13%nat -> length k = 12%nat -> (base + 64 <= length v)%nat -> (j + m = 13)%nat ->
  exists s', runs (for_each (seqZ (Z.of_nat j) (Z.of_nat m)) (fun a =>
      v <- get_addr ip a ;; put_data 4 b (Z.of_nat base + DI_addrs a) v)) s tt s' /\ fs_frame s s' /\
    held s' d D bns n b (list_inserts base (k ++ words (i_addrs x)) v).
Proof.
  induction m as [|m IH]; intros j s Hh Hx H13 Hk Hl Hj.
  - exists s. rewrite take_ge in Hh by lia. split; [apply runs_ret|]. split; [done|done].
  - destruct (lookup_lt_is_Some_2 (i_addrs x) j) as [a Ha]; [lia|].
    destruct (held_put_next _ _ _ _ _ _ _ _ _ 4 a Hh) as (s1 & H1 & F1 & Hh1).
    { rewrite length_app, length_words, length_take. lia. }
    rewrite <- app_assoc, <- words_snoc, <- (take_S_r _ _ _ Ha) in Hh1.
    destruct (IH (S j) s1 Hh1) as (s2 & H2 & F2 & Hh2); [by rewrite (ff_icache _ _ F1)|done|done|done|lia|].
    exists s2. split; [|split; [by trans s1|done]]. rewrite seqZ_cons by lia. eapply runs_for_each_cons.
    + eapply runs_bind; [apply (runs_get_addr ip x); [done|by rewrite Nat2Z.id]|].
      replace (DI_addrs (Z.of_nat j)) with (Z.of_nat (length (k ++ words (take j (i_addrs x))))); [exact H1|].
      unfold DI_addrs. rewrite length_app, length_words, length_take. lia.
    + replace (Z.succ (Z.of_nat j)) with (Z.of_nat (S j)) by lia. replace (Z.pred (Z.of_nat (S m))) with (Z.of_nat m) by lia. exact H2.
Qed.

(** The block of an inode lies outside of the log. *)

Definition inode_block (sb : superblock) (D : disk) (inum : Z) : Prop :=
  home start (IBLOCK inum sb) /\ bytes (D (IBLOCK inum sb)).

Definition updated (sb : superblock) (x : inode) (D : disk) : disk :=
  write_block D (IBLOCK (i_inum x) sb) (dinode_in (i_inum x) x (D (IBLOCK (i_inum x) sb))).

Lemma runs_put_head ip x b v d D bns n s :
  let base := Z.to_nat (dinode_off (i_inum x)) in
  held s d D bns n b v -> k_icache s !! ip = Some x -> length v = Z.to_nat BSIZE -> length (i_addrs x) = 13%nat ->
  exists s', fs_frame s s' /\ held s' d D bns n b (list_inserts base (dinode_head x) v) /\
    forall (k : K unit) w t, wrun k s' d w tt t -> wrun (
      put_data 2 b (dinode_off (i_inum x) + DI_type) (i_type x) ;;
      put_data 2 b (dinode_off (i_inum x) + DI_major) (i_major x) ;;
      put_data 2 b (dinode_off (i_inum x) + DI_minor) (i_minor x) ;;
      put_data 2 b (dinode_off (i_inum x) + DI_nlink) (i_nlink x) ;;
      put_data 4 b (dinode_off (i_inum x) + DI_size) (i_size x) ;; k) s d w tt t.
Proof.
  intros base Hh Hx Hv H13. pose proof (dinode_off_range (i_inum x)) as Hr. unfold BSIZE in Hr, Hv.
  assert (Eb : Z.of_nat base = dinode_off (i_inum x)) by (unfold base; lia).
  assert (Hlen : (base + 64 <= length v)%nat) by lia.
  destruct (held_put_next s d D bns n b v [] base 2 (i_type x) Hh) as (s1 & H1 & F1 & G1); [cbn [length]; lia|].
  destruct (held_put_next _ _ _ _ _ _ _ _ _ 2 (i_major x) G1) as (s2 & H2 & F2 & G2); [rewrite !length_app, !length_le_bytes; cbn [length]; lia|].
  destruct (held_put_next _ _ _ _ _ _ _ _ _ 2 (i_minor x) G2) as (s3 & H3 & F3 & G3); [rewrite !length_app, !length_le_bytes; cbn [length]; lia|].
  destruct (held_put_next _ _ _ _ _ _ _ _ _ 2 (i_nlink x) G3) as (s4 & H4 & F4 & G4); [rewrite !length_app, !length_le_bytes; cbn [length]; lia|].
  destruct (held_put_next _ _ _ _ _ _ _ _ _ 4 (i_size x) G4) as (s5 & H5 & F5 & G5); [rewrite !length_app, !length_le_bytes; cbn [length]; lia|].
  rewrite !length_app, !length_le_bytes, Eb in *. exists s5.
  split; [by trans s1; [|trans s2; [|trans s3; [|trans s4]]]|split].
  - unfold dinode_head. rewrite <- !app_assoc in G5. exact G5.
  - intros k w t Hk. eapply wrun_seq; [exact H1|]. eapply wrun_seq; [exact H2|]. eapply wrun_seq; [exact H3|].
    eapply wrun_seq; [exact H4|]. eapply wrun_seq; [exact H5|exact Hk].
Qed.

Lemma wrun_iupdate s d D bns sb ip x :
  txn s d D bns -> k_sb s = sb -> k_icache s !! ip = Some x -> i_dev x = dev -> length (i_addrs x) = 13%nat ->
  inode_block sb D (i_inum x) -> Z.of_nat (length bns) + 1 < LOGSIZE ->
  exists s', wrun (iupdate ip) s d [] tt s' /\ fs_frame s s' /\ txn s' d (updated sb x D) (absorb (IBLOCK (i_inum x) sb) bns).
Proof.
  intros Ht Hsb Hx Hd H13 [Hh Hby] Hmax. set (n := IBLOCK (i_inum x) sb) in *. pose proof Hh as [Hn _]. destruct Hby as [Hlen _].
  destruct (txn_bread _ _ _ _ n Ht Hn) as (b & s1 & H1 & F1 & G1).
  assert (Hx1 : k_icache s1 !! ip = Some x) by (by rewrite (ff_icache _ _ F1)).
  destruct (runs_put_head ip x b (D n) d D bns n s1 G1 Hx1 Hlen H13) as (s2 & F2 & G2 & K2).
  pose proof (dinode_off_range (i_inum x)) as Hr. unfold BSIZE in Hr, Hlen.
  destruct (runs_put_addrs ip x b (Z.to_nat (dinode_off (i_inum x))) (dinode_head x) (D n) d D bns n 13 0 s2)
    as (s3 & H3 & F3 & G3); [by rewrite take_0, app_nil_r|by rewrite (ff_icache _ _ F2)|done| |lia|done|].
  { unfold dinode_head. by rewrite !length_app, !length_le_bytes. }
  destruct (held_write_back _ _ _ _ _ _ _ G3 Hh Hmax) as (s4 & H4 & F4 & G4).
  exists s4. split; [|split; [by trans s1; [|trans s2; [|trans s3]]|exact G4]].
  unfold iupdate. eapply wrun_seq; [by apply runs_get_inode|]. eapply wrun_seq; [apply runs_gets|].
  rewrite Hd, Hsb. eapply wrun_then; [exact H1|]. eapply wrun_seq; [by apply runs_get_inode|]. cbv zeta. apply K2.
  rewrite Z2Nat.id in H3 by lia. eapply wrun_seq; [exact H3|]. by apply wrun_runs.
Qed.

(** ** ilock *)

(** The fields of a struct dinode at their widths. *)

Record dinode_typed (y : inode) : Prop := {
  dt_type : - 2 ^ 15 <= i_type y < 2 ^ 15;
  dt_major : - 2 ^ 15 <= i_major y < 2 ^ 15;
  dt_minor : - 2 ^ 15 <= i_minor y < 2 ^ 15;
  dt_nlink : - 2 ^ 15 <= i_nlink y < 2 ^ 15;
  dt_size : 0 <= i_size y < 2 ^ 32;
  dt_length : length (i_addrs y) = 13%nat;
  dt_addrs : Forall (fun a => 0 <= a < 2 ^ 32) (i_addrs y);
}.

(** The inode [inum] on the disk has the fields of [y]. *)

Definition on_disk (sb : superblock) (D : disk) (inum : Z) (y : inode) : Prop :=
  take 64 (drop (Z.to_nat (dinode_off inum)) (D (IBLOCK inum sb))) = dinode_bytes y.

Lemma updated_on_disk sb x D :
  length (D (IBLOCK (i_inum x) sb)) = Z.to_nat BSIZE -> length (i_addrs x) = 13%nat -> on_disk sb (updated sb x D) (i_inum x) x.
Proof.
  intros Hl H13. unfold on_disk, updated, write_block. rewrite Z.eqb_refl. unfold dinode_in.
  pose proof (dinode_off_range (i_inum x)) as Hr. unfold BSIZE in *. pose proof (length_dinode_bytes x H13).
  apply take_drop_inserts; lia.
Qed.

Lemma le_get_part n (v k : list Z) (base off : Z) (o : nat) :
  take 64 (drop (Z.to_nat base) v) = k -> length v = Z.to_nat BSIZE -> 0 <= base -> base + 64 <= BSIZE ->
  off = Z.of_nat o -> (o + n <= 64)%nat -> le_get n v (base + off) = Some (le_value (take n (drop o k))).
Proof.
  intros <- Hl H1 H2 -> H3. unfold le_get. unfold BSIZE in *.
  destruct (Z.ltb_spec (base + Z.of_nat o) 0); [lia|].
  destruct (Z.ltb_spec (Z.of_nat (length v)) (base + Z.of_nat o + Z.of_nat n)); [lia|]. cbn [orb]. do 2 f_equal.
  apply list_eq. intros j. destruct (decide (j < n)%nat); [|by rewrite !lookup_take_ge by lia].
  rewrite !lookup_take_lt, !lookup_drop, lookup_take_lt, lookup_drop by lia. f_equal. lia.
Qed.

Lemma i16_field t : - 2 ^ 15 <= t < 2 ^ 15 -> i16 (le_value (le_bytes 2 t)) = t.
Proof.
  intros H. rewrite le_value_bytes. change (256 ^ Z.of_nat 2) with (2 ^ 16). unfold i16. rewrite Zplus_mod_idemp_l.
  rewrite Z.mod_small by lia. lia.
Qed.

Lemma u32_field a : 0 <= a < 2 ^ 32 -> le_value (le_bytes 4 a) = a.
Proof. intros H. rewrite le_value_bytes. by apply Z.mod_small. Qed.

(** The cached inode after ilock has read it. *)

Definition loaded (x y : inode) : inode :=
  mk_inode (i_dev x) (i_inum x) (i_ref x) (mk_sleeplock 1 pid) 1 (i_type y) (i_major y) (i_minor y) (i_nlink y) (i_size y) (i_addrs y).

Lemma runs_set_addr ip x j v s :
  k_icache s !! ip = Some x -> (Z.to_nat j < length (i_addrs x))%nat ->
  runs (set_addr ip j v) s tt (with_inode ip (set_i_addrs (<[Z.to_nat j := v]> (i_addrs x)) x) s).
Proof.
  intros Hx Hj. destruct (lookup_lt_is_Some_2 _ _ Hj) as [a Ha].
  eapply runs_bind; [by apply (runs_get_addr ip x j a)|].
  exact (runs_mod_inode ip (fun x => set_i_addrs (<[Z.to_nat j := v]> (i_addrs x)) x) x s Hx).
Qed.

Lemma runs_load_addrs ip b d D bns n v base y : forall (m j : nat) x s,
  held s d D bns n b v -> k_icache s !! ip = Some x -> length (i_addrs x) = 13%nat -> take j (i_addrs x) = take j (i_addrs y) ->
  dinode_typed y -> take 64 (drop (Z.to_nat base) v) = dinode_bytes y -> length v = Z.to_nat BSIZE -> 0 <= base -> base + 64 <= BSIZE ->
  (j + m = 13)%nat ->
  runs (for_each (seqZ (Z.of_nat j) (Z.of_nat m)) (fun a =>
      v <- get_data 4 b (base + DI_addrs a) ;; set_addr ip a v)) s tt (with_inode ip (set_i_addrs (i_addrs y) x) s).
Proof.
  induction m as [|m IH]; intros j x s Hh Hx H13 Hj Hy Hk Hv H1 H2 Hjm; pose proof (dt_length _ Hy) as Hy13.
  - rewrite !take_ge in Hj by lia. rewrite <- Hj. replace (with_inode ip _ s) with s; [apply runs_ret|].
    unfold with_inode. destruct x. cbn in *. rewrite list_insert_id by done. by destruct s.
  - destruct (lookup_lt_is_Some_2 (i_addrs y) j) as [a Ha]; [lia|].
    assert (Har : 0 <= a < 2 ^ 32) by (by apply (Forall_lookup_1 _ _ _ _ (dt_addrs _ Hy) Ha)).
    set (x1 := set_i_addrs (<[j := a]> (i_addrs x)) x). pose proof (lookup_with_inode ip x x1 s Hx) as Hx1.
    rewrite seqZ_cons by lia. eapply runs_for_each_cons.
    + eapply runs_bind; [eapply held_get_data; [exact Hh|]|].
      * apply (le_get_part 4 v _ base _ (12 + 4 * j) Hk Hv H1 H2); [unfold DI_addrs; lia|lia].
      * pose proof (runs_set_addr ip x (Z.of_nat j) a s Hx) as Hs. rewrite Nat2Z.id in Hs. unfold dinode_bytes.
        rewrite drop_app_ge by (unfold dinode_head; rewrite !length_app, !length_le_bytes; lia).
        replace (12 + 4 * j - length (dinode_head y))%nat with (4 * j)%nat by (unfold dinode_head; rewrite !length_app, !length_le_bytes; lia).
        rewrite (take_word _ _ _ Ha), u32_field by done. apply Hs. lia.
    + replace (Z.succ (Z.of_nat j)) with (Z.of_nat (S j)) by lia. replace (Z.pred (Z.of_nat (S m))) with (Z.of_nat m) by lia.
      fold x1. specialize (IH (S j) x1 (with_inode ip x1 s)). rewrite with_inode_twice in IH. apply IH; try done.
      * by apply intxn_set_icache.
      * cbn. by rewrite length_insert.
      * cbn. rewrite (take_S_r _ _ _ Ha), <- Hj. rewrite (take_S_r _ _ a) by (apply list_lookup_insert_eq; lia).
        by rewrite take_insert_ge by lia.
      * lia.
Qed.

Lemma runs_acquiresleep_inode ip x s :
  in_proc i pid ks s -> k_icache s !! ip = Some x -> sl_locked (i_lock x) = 0 ->
  runs (acquiresleep (SInode ip)) s tt (with_inode ip (set_i_lock (mk_sleeplock 1 pid) x) s).
Proof.
  intros [H1 H2 H3 H4 H5 H6] Hx Hl. unfold acquiresleep.
  assert (Hlt : (ip < length (k_icache s))%nat) by (by eapply lookup_lt_Some).
  assert (Hget : forall y t, k_icache t !! ip = Some y -> runs (get_slock (SInode ip)) t (i_lock y) t).
  { intros y t Hy. eapply runs_bind; [by apply runs_get_inode|apply runs_ret]. }
  eapply runs_bind; [apply runs_acquire; rewrite H5; set_solver|].
  rewrite H5, (right_id_L ∅ (∪)).
  eapply runs_bind.
  { apply runs_wait_stop. eapply runs_bind; [by apply (Hget x)|]. rewrite Hl. apply runs_ret. }
  eapply runs_bind; [by apply (Hget x)|].
  eapply runs_bind; [by apply (runs_mod_inode ip _ x)|].
  eapply runs_bind; [by apply (runs_mypid i pid ks)|].
  eapply runs_bind; [apply (runs_mod_inode ip _ (set_i_lock (mk_sleeplock 1 (sl_pid (i_lock x))) x));
    cbn; by apply list_lookup_insert_eq|].
  eapply runs_release_to; [cbn; set_solver|]. rewrite with_inode_twice. unfold with_inode. cbn.
  replace ({[Lsleep (SInode ip)]} ∖ {[Lsleep (SInode ip)]} : gset lock) with (∅ : gset lock) by set_solver.
  rewrite <- H5. by destruct s.
Qed.

Lemma intxn_in_proc s d D bns L : intxn s d D bns L -> in_proc i pid ks s.
Proof. intros (pins & _ & Hc). by eapply acache_in_proc. Qed.

(** ilock of an inode that has not been read yet. *)

Lemma wrun_ilock s d D bns sb ip x y :
  txn s d D bns -> k_sb s = sb -> k_icache s !! ip = Some x -> i_dev x = dev -> 1 <= i_ref x ->
  sl_locked (i_lock x) = 0 -> i_valid x = 0 -> length (i_addrs x) = 13%nat ->
  inode_block sb D (i_inum x) -> on_disk sb D (i_inum x) y -> dinode_typed y -> i_type y <> 0 ->
  exists s', wrun (ilock (Some ip)) s d [] tt s' /\ fs_frame (with_inode ip (loaded x y) s) s' /\ txn s' d D bns.
Proof.
  intros Ht Hsb Hx Hd Href Hl Hval H13 [Hh Hby] Hon Hy Hty. set (n := IBLOCK (i_inum x) sb) in *.
  pose proof Hh as [Hn _]. destruct Hby as [Hlen _]. pose proof (dinode_off_range (i_inum x)) as [Ho1 Ho2].
  set (x1 := set_i_lock (mk_sleeplock 1 pid) x).
  pose proof (runs_acquiresleep_inode ip x s (intxn_in_proc _ _ _ _ _ Ht) Hx Hl) as Hacq. fold x1 in Hacq.
  set (s1 := with_inode ip x1 s) in *. assert (Ht1 : txn s1 d D bns) by (by apply intxn_set_icache).
  assert (Hx1 : k_icache s1 !! ip = Some x1) by (by eapply lookup_with_inode).
  destruct (txn_bread _ _ _ _ n Ht1 Hn) as (b & s2 & H2 & F2 & G2).
  assert (Hx2 : k_icache s2 !! ip = Some x1) by (by rewrite (ff_icache _ _ F2)).
  pose proof (fun m off (o : nat) (Eo : off = Z.of_nat o) (Hl : (o + m <= 64)%nat) =>
    held_get_data _ _ _ _ _ _ _ m (dinode_off (i_inum x) + off) _ G2 (le_get_part m (D n) _ _ off o Hon Hlen Ho1 Ho2 Eo Hl)) as Hget.
  set (x3 := set_i_size (i_size y) (set_i_nlink (i_nlink y) (set_i_minor (i_minor y) (set_i_major (i_major y) (set_i_type (i_type y) x1))))).
  set (s3 := with_inode ip x3 s2). assert (Hx3 : k_icache s3 !! ip = Some x3) by (by eapply lookup_with_inode).
  pose proof (runs_load_addrs ip b d D bns n (D n) (dinode_off (i_inum x)) y 13 0 x3 s3) as Hla.
  set (s4 := with_inode ip (set_i_addrs (i_addrs y) x3) s3) in *.
  assert (Hx4 : k_icache s4 !! ip = Some (set_i_addrs (i_addrs y) x3)) by (by eapply lookup_with_inode).
  destruct (held_brelse s4 d D bns n b) as (s5 & H5 & F5 & G5); [by do 2 apply intxn_set_icache|].
  assert (Hx5 : k_icache s5 !! ip = Some (set_i_addrs (i_addrs y) x3)) by (by rewrite (ff_icache _ _ F5)).
  exists (with_inode ip (loaded x y) s5). split; [|split; [|by apply intxn_set_icache]].
  - unfold ilock. eapply wrun_seq; [by apply runs_get_inode|]. destruct (Z.ltb_spec (i_ref x) 1); [lia|].
    eapply wrun_seq; [exact Hacq|]. eapply wrun_seq; [by apply runs_get_inode|]. cbn [i_valid x1 set_i_lock]. rewrite Hval.
    cbn [Z.eqb]. eapply wrun_seq; [apply runs_gets|]. change (k_sb s1) with (k_sb s). cbn [i_dev i_inum x1 set_i_lock]. rewrite Hsb, Hd.
    eapply wrun_then; [exact H2|]. eapply wrun_seq; [by apply runs_get_inode|]. cbv zeta. cbn [i_inum x1 set_i_lock].
    eapply wrun_seq; [apply (Hget 2%nat DI_type 0%nat); [done|lia]|]. eapply wrun_seq; [apply (Hget 2%nat DI_major 2%nat); [done|lia]|].
    eapply wrun_seq; [apply (Hget 2%nat DI_minor 4%nat); [done|lia]|]. eapply wrun_seq; [apply (Hget 2%nat DI_nlink 6%nat); [done|lia]|].
    eapply wrun_seq; [apply (Hget 4%nat DI_size 8%nat); [done|lia]|].
    change (take 2 (drop 0 (dinode_bytes y))) with (le_bytes 2 (i_type y)). change (take 2 (drop 2 (dinode_bytes y))) with (le_bytes 2 (i_major y)).
    change (take 2 (drop 4 (dinode_bytes y))) with (le_bytes 2 (i_minor y)). change (take 2 (drop 6 (dinode_bytes y))) with (le_bytes 2 (i_nlink y)).
    change (take 4 (drop 8 (dinode_bytes y))) with (le_bytes 4 (i_size y)).
    rewrite !i16_field, (u32_field (i_size y)) by apply Hy. eapply wrun_seq; [apply (runs_mod_inode ip _ x1 s2 Hx2)|]. fold x3 s3.
    eapply wrun_seq; [apply Hla; try done; by apply intxn_set_icache|]. eapply wrun_seq; [exact H5|].
    eapply wrun_seq; [by apply (runs_mod_inode ip _ _ s5 Hx5)|]. apply Z.eqb_neq in Hty. rewrite Hty. apply wrun_runs.
    replace (set_i_valid 1 _) with (loaded x y) by reflexivity. apply runs_ret.
  - destruct F2 as [? ? F2i ? ?], F5 as [? ? F5i ? ?]. split; cbn in *; try congruence. rewrite F5i, F2i. cbn.
    by rewrite !list_insert_insert_eq.
Qed.

(** C20: the inode on the disk.  After iupdate in a transaction, an ilock of the inode
    from the disk, in this or a later transaction that sees the block as it was left,
    returns with exactly the type, device numbers, link count, size and block addresses
    that were in memory, at their widths; neither changes another byte of the block. *)

Theorem iupdate_ilock s d D bns sb ip x :
  txn s d D bns -> k_sb s = sb -> k_icache s !! ip = Some x -> i_dev x = dev -> dinode_typed x -> i_type x <> 0 ->
  inode_block sb D (i_inum x) -> Z.of_nat (length bns) + 1 < LOGSIZE ->
  exists s' D' bns', wrun (iupdate ip) s d [] tt s' /\ txn s' d D' bns' /\
    (forall n, n <> IBLOCK (i_inum x) sb -> D' n = D n) /\
    (forall j, (j < Z.to_nat (dinode_off (i_inum x)) \/ Z.to_nat (dinode_off (i_inum x)) + 64 <= j)%nat ->
      D' (IBLOCK (i_inum x) sb) !! j = D (IBLOCK (i_inum x) sb) !! j) /\
    forall t d2 D2 bns2 jp z, txn t d2 D2 bns2 -> k_sb t = sb -> D2 (IBLOCK (i_inum x) sb) = D' (IBLOCK (i_inum x) sb) ->
      k_icache t !! jp = Some z -> i_dev z = dev -> i_inum z = i_inum x -> 1 <= i_ref z -> sl_locked (i_lock z) = 0 ->
      i_valid z = 0 -> length (i_addrs z) = 13%nat ->
      exists t', wrun (ilock (Some jp)) t d2 [] tt t' /\ txn t' d2 D2 bns2 /\ k_icache t' !! jp = Some (loaded z x).
Proof.
  intros Ht Hsb Hx Hd Hty Ht0 Hib Hmax. pose proof (dt_length _ Hty) as H13. pose proof Hib as [Hh [Hlen Hby]].
  destruct (wrun_iupdate _ _ _ _ _ _ _ Ht Hsb Hx Hd H13 Hib Hmax) as (s' & Hr & _ & Ht').
  exists s', (updated sb x D), (absorb (IBLOCK (i_inum x) sb) bns). split; [done|]. split; [done|]. split; [|split].
  - intros n Hn. unfold updated, write_block. by destruct (Z.eqb_spec n (IBLOCK (i_inum x) sb)).
  - intros j Hj. unfold updated, write_block. rewrite Z.eqb_refl. unfold dinode_in. pose proof (length_dinode_bytes x H13).
    destruct Hj; [by apply list_lookup_inserts_lt|apply list_lookup_inserts_ge; lia].
  - intros t d2 D2 bns2 jp z Ht2 Hsb2 HD2 Hz Hdz Hin Hrz Hlz Hvz H13z.
    destruct (wrun_ilock t d2 D2 bns2 sb jp z x) as (t' & Hr' & F' & T'); try done.
    + rewrite Hin. split; [done|]. rewrite HD2. unfold updated, write_block. rewrite Z.eqb_refl. unfold dinode_in.
      split; [by rewrite length_inserts|]. apply Forall_inserts; [done|apply bytes_dinode].
    + rewrite Hin. unfold on_disk. rewrite HD2. by apply updated_on_disk.
    + exists t'. split; [done|]. split; [done|]. rewrite (ff_icache _ _ F'). by eapply lookup_with_inode.
Qed.


(** ** bmap of a block that is there *)

Lemma addr_at_lookup addrs j : length addrs = 13%nat -> 0 <= j <= NDIRECT -> addrs !! Z.to_nat j = Some (addr_at addrs j).
Proof.
  intros H Hj. unfold NDIRECT in Hj. destruct (lookup_lt_is_Some_2 addrs (Z.to_nat j)) as [a Ha]; [lia|].
  unfold addr_at. by rewrite Ha.
Qed.

Lemma wrun_bmap_there s d D bns ip x bn :
  txn s d D bns -> k_icache s !! ip = Some x -> i_dev x = dev -> length (i_addrs x) = 13%nat -> 0 <= bn < MAXFILE ->
  (NDIRECT <= bn -> 0 <= addr_at (i_addrs x) NDIRECT < 2 ^ 31 /\ bytes (D (addr_at (i_addrs x) NDIRECT))) ->
  file_addr D (i_addrs x) bn <> 0 ->
  exists s', wrun (bmap ip bn) s d [] (file_addr D (i_addrs x) bn) s' /\ fs_frame s s' /\ txn s' d D bns.
Proof.
  intros Ht Hx Hd H13 Hbn Hind Ha. assert (EM : MAXFILE = NDIRECT + NINDIRECT) by reflexivity.
  unfold bmap, file_addr in *. destruct (Z.ltb_spec bn NDIRECT) as [Hlt|Hge].
  - exists s. split; [|by split]. apply wrun_runs. eapply runs_bind; [apply (runs_get_addr ip x); [done|apply addr_at_lookup; [done|lia]]|].
    apply Z.eqb_neq in Ha. rewrite Ha. apply runs_ret.
  - destruct (Hind Hge) as [Hr Hby]. set (a := addr_at (i_addrs x) NDIRECT) in *. destruct (Z.eqb_spec a 0) as [|Hna]; [done|].
    destruct (txn_bread _ _ _ _ a Ht Hr) as (b & s1 & H1 & F1 & G1).
    destruct (held_brelse _ _ _ _ _ _ G1) as (s2 & H2 & F2 & G2).
    exists s2. split; [|split; [by trans s1|done]]. destruct (Z.ltb_spec (bn - NDIRECT) NINDIRECT); [|lia].
    eapply wrun_seq; [apply (runs_get_addr ip x); [done|apply addr_at_lookup; [done|done]]|]. fold a.
    apply Z.eqb_neq in Hna. rewrite Hna. eapply wrun_seq; [apply runs_ret|]. eapply wrun_seq; [by apply runs_get_inode|].
    rewrite Hd. eapply wrun_then; [exact H1|].
    eapply wrun_seq; [eapply held_get_data; [exact G1|apply get_word; [done|lia]]|].
    apply Z.eqb_neq in Ha. rewrite Ha. eapply wrun_seq; [apply runs_ret|]. eapply wrun_seq; [exact H2|]. apply wrun_runs, runs_ret.
Qed.

(** ** Files *)

Section File.
Variable sb : superblock.

(** A block that can hold data: neither in the log, nor in the bitmap, nor a block of
    inodes; and one that does. *)

Record spare (D : disk) (a : Z) : Prop := {
  sp_range : 0 < a < sb_size sb;
  sp_home : home start a;
  sp_bytes : bytes (D a);
  sp_bitmap : forall b, 0 <= b < sb_size sb -> BBLOCK b sb <> a;
  sp_inode : forall inum, 0 <= inum < sb_ninodes sb -> IBLOCK inum sb <> a;
}.

Definition data_block (D : disk) (a : Z) : Prop := spare D a /\ used sb D a = true.

Record file_ok (D : disk) (addrs : list Z) (size : Z) : Prop := {
  fo_length : length addrs = 13%nat;
  fo_size : 0 <= size <= MAXFILE * BSIZE;
  fo_present : forall bn, 0 <= bn -> bn * BSIZE < size -> file_addr D addrs bn <> 0;
  fo_data : forall bn, 0 <= bn < MAXFILE -> file_addr D addrs bn <> 0 -> data_block D (file_addr D addrs bn);
  fo_indirect : addr_at addrs NDIRECT <> 0 -> data_block D (addr_at addrs NDIRECT);
  fo_distinct : forall bn bn', 0 <= bn < MAXFILE -> 0 <= bn' < MAXFILE ->
    file_addr D addrs bn = file_addr D addrs bn' -> file_addr D addrs bn <> 0 -> bn = bn';
  fo_apart : forall bn, 0 <= bn < MAXFILE -> file_addr D addrs bn <> 0 -> file_addr D addrs bn <> addr_at addrs NDIRECT;
}.

Lemma fo_bmap D addrs size bn :
  file_ok D addrs size -> NDIRECT <= bn -> file_addr D addrs bn <> 0 ->
  0 <= addr_at addrs NDIRECT < 2 ^ 31 /\ bytes (D (addr_at addrs NDIRECT)).
Proof.
  intros H Hbn Ha. unfold file_addr in Ha. destruct (Z.ltb_spec bn NDIRECT); [lia|].
  destruct (Z.eqb_spec (addr_at addrs NDIRECT) 0) as [|Hne]; [done|]. destruct (fo_indirect _ _ _ H Hne) as [[_ [Hr _] Hb _ _] _]. done.
Qed.

(** ** readi *)

Definition chunk_at (off n tot : Z) : Z := Z.min (n - tot) (BSIZE - (off + tot) mod BSIZE).

Lemma chunk_at_range off n tot : 0 <= off + tot -> tot < n -> 0 < chunk_at off n tot <= BSIZE.
Proof. intros H1 H2. unfold chunk_at, BSIZE. pose proof (Z.mod_pos_bound (off + tot) 1024). lia. Qed.

Lemma wrun_readi_round s d D bns ip x off n tot buf :
  txn s d D bns -> k_icache s !! ip = Some x -> i_dev x = dev -> file_ok D (i_addrs x) (i_size x) ->
  0 <= off -> 0 <= tot < n -> off + n <= i_size x -> n <= Z.of_nat (length buf) ->
  exists s', wrun (readi_round ip off n (tot, PObj buf)) s d []
      (inl (tot + chunk_at off n tot, PObj (list_inserts (Z.to_nat tot) (content D (i_addrs x) (off + tot) (chunk_at off n tot)) buf))) s' /\
    fs_frame s s' /\ txn s' d D bns.
Proof.
  intros Ht Hx Hd Hok Hoff Htot Hsz Hbuf. set (m := chunk_at off n tot). pose proof (chunk_at_range off n tot ltac:(lia) ltac:(lia)) as Hm.
  fold m in Hm. pose proof (fo_size _ _ _ Hok) as Hs. assert (EB : BSIZE = 1024) by done. assert (EM : MAXFILE = 268) by done.
  rewrite EB, EM in Hs. set (k := off + tot). assert (Hk : 0 <= k < i_size x) by (unfold k; lia).
  assert (Hbn : 0 <= k / BSIZE < MAXFILE) by (rewrite EB, EM; dlia).
  pose proof (fo_present _ _ _ Hok (k / BSIZE) ltac:(lia) ltac:(rewrite EB; dlia)) as Ha.
  destruct (fo_data _ _ _ Hok _ Hbn Ha) as [[_ [Hr _] [Hlen _] _ _] _]. set (a := file_addr D (i_addrs x) (k / BSIZE)) in *.
  destruct (wrun_bmap_there s d D bns ip x (k / BSIZE) Ht Hx Hd (fo_length _ _ _ Hok) Hbn) as (s1 & H1 & F1 & G1); [|done|].
  { intros Hge. by eapply fo_bmap. }
  fold a in H1. assert (Hx1 : k_icache s1 !! ip = Some x) by (by rewrite (ff_icache _ _ F1)).
  destruct (txn_bread _ _ _ _ a G1 Hr) as (b & s2 & H2 & F2 & G2). destruct (held_lookup _ _ _ _ _ _ _ G2) as (y & Hy & Ey).
  destruct (held_brelse _ _ _ _ _ _ G2) as (s3 & H3 & F3 & G3). pose proof (intxn_in_proc _ _ _ _ _ G2) as Hip2.
  exists s3. split; [|split; [by trans s1; [|trans s2]|done]].
  unfold readi_round. destruct (Z.leb_spec n tot); [lia|]. fold k. rewrite (u32_small k) by lia.
  eapply wrun_then; [exact H1|]. eapply wrun_seq; [by apply runs_get_inode|]. rewrite Hd. eapply wrun_then; [exact H2|].
  change (Z.min (n - tot) (BSIZE - k mod BSIZE)) with m. cbv zeta. eapply wrun_seq; [by apply runs_get_buf|]. rewrite Ey.
  assert (Hkm : k mod BSIZE + m <= BSIZE) by (unfold m, chunk_at; fold k; lia).
  unfold a. rewrite (content_block D (i_addrs x) k m); [|lia|lia|exact Hkm|exact Hlen].
  assert (Elen : Z.of_nat (length (content D (i_addrs x) k m)) = m) by (rewrite length_content; lia).
  eapply wrun_seq.
  { unfold either_copyout. eapply runs_bind; [by apply runs_myproc, Hip2|]. rewrite Elen.
    destruct (Z.ltb_spec (Z.of_nat (length buf)) (tot + m)); [unfold m, chunk_at in *; lia|]. apply runs_ret. }
  eapply wrun_seq; [exact H3|]. cbn [fst snd]. apply wrun_runs, runs_ret.
Qed.

(** The loop, with enough rounds left: one for each block that is touched. *)

Lemma wrun_readi_loop d D bns ip x off n bufl : forall (f : nat) tot buf s,
  txn s d D bns -> k_icache s !! ip = Some x -> i_dev x = dev -> file_ok D (i_addrs x) (i_size x) ->
  0 <= off -> 0 <= tot <= n -> off + n <= i_size x -> n <= Z.of_nat bufl -> length buf = bufl ->
  tot = n \/ n - tot + (off + tot) mod BSIZE <= BSIZE * Z.of_nat f ->
  exists s', wrun (loop (S f) (readi_round ip off n) (tot, PObj buf)) s d []
      (PObj (list_inserts (Z.to_nat tot) (content D (i_addrs x) (off + tot) (n - tot)) buf)) s' /\ fs_frame s s' /\ txn s' d D bns.
Proof.
  assert (EB : BSIZE = 1024) by done. induction f as [|f IH]; intros tot buf s Ht Hx Hd Hok Hoff Htot Hsz Hbl Hl Hf.
  - assert (tot = n) as ->. { pose proof (Z.mod_pos_bound (off + tot) BSIZE). lia. }
    exists s. split; [|by split]. apply wrun_runs. cbn [loop]. unfold readi_round at 1. rewrite Z.leb_refl. rewrite Z.sub_diag. apply runs_ret.
  - destruct (decide (tot = n)) as [->|Hne].
    { exists s. split; [|by split]. apply wrun_runs. cbn [loop]. unfold readi_round at 1. rewrite Z.leb_refl. rewrite Z.sub_diag. apply runs_ret. }
    destruct (wrun_readi_round s d D bns ip x off n tot buf) as (s1 & H1 & F1 & G1); try done; try lia.
    set (m := chunk_at off n tot) in *. pose proof (chunk_at_range off n tot ltac:(lia) ltac:(lia)) as Hm. fold m in Hm.
    destruct (IH (tot + m) (list_inserts (Z.to_nat tot) (content D (i_addrs x) (off + tot) m) buf) s1) as (s2 & H2 & F2 & G2); try done.
    + by rewrite (ff_icache _ _ F1).
    + unfold m, chunk_at in *. lia.
    + by rewrite length_inserts.
    + destruct Hf as [|Hf]; [lia|]. unfold m, chunk_at. rewrite EB in *.
      destruct (Z.min_spec (n - tot) (1024 - (off + tot) mod 1024)) as [[Hc ->]|[Hc ->]]; [left; lia|right]. dlia.
    + exists s2. split; [|split; [by trans s1|done]].
      replace (content D (i_addrs x) (off + tot) (n - tot)) with
        (content D (i_addrs x) (off + tot) m ++ content D (i_addrs x) (off + (tot + m)) (n - (tot + m))).
      2:{ transitivity (content D (i_addrs x) (off + tot) (m + (n - (tot + m)))); [|f_equal; lia].
          rewrite content_app by (unfold m, chunk_at in *; lia). do 2 f_equal. lia. }
      rewrite list_inserts_app_l, length_content. replace (Z.to_nat m + Z.to_nat tot)%nat with (Z.to_nat (tot + m)) by lia.
      change (loop (S (S f)) (readi_round ip off n) (tot, PObj buf)) with
        (bind (readi_round ip off n (tot, PObj buf)) (fun r => match r with inl y => loop (S f) (readi_round ip off n) y | inr v => ret v end)).
      eapply wrun_then; [exact H1|]. exact H2.
Qed.

Lemma wrun_loopz {X R} z (body : X -> K (X + R)) x s d w r s' :
  wrun (loop (Z.to_nat z) body x) s d w r s' -> wrun (loopz z body x) s d w r s'.
Proof.
  intros (ds & (fs & H1 & H2 & H3) & H4). exists ds. split; [|done]. exists fs.
  split; [intros e; by rewrite loopz_eq|]. split; [done|]. intros j h Hj. rewrite loopz_eq. by apply H3.
Qed.

(** The bytes that readi delivers: those up to the end of the file. *)

Definition read_len (size off n : Z) : Z := Z.min n (size - off).

Lemma wrun_readi s d D bns ip x off n buf :
  txn s d D bns -> k_icache s !! ip = Some x -> i_dev x = dev -> file_ok D (i_addrs x) (i_size x) ->
  0 <= off <= i_size x -> 0 <= n < 2 ^ 31 -> n <= Z.of_nat (length buf) ->
  let m := read_len (i_size x) off n in
  exists s', wrun (readi ip (PObj buf) off n) s d [] (m, PObj (content D (i_addrs x) off m ++ drop (Z.to_nat m) buf)) s' /\
    fs_frame s s' /\ txn s' d D bns.
Proof.
  intros Ht Hx Hd Hok Hoff Hn Hbuf m. pose proof (fo_size _ _ _ Hok) as Hs. assert (EB : BSIZE = 1024) by done.
  assert (EM : MAXFILE = 268) by done. rewrite EB, EM in Hs. assert (Hm : 0 <= m <= n) by (unfold m, read_len; lia).
  destruct (wrun_readi_loop d D bns ip x off m (length buf) (Z.to_nat (m / BSIZE + 2)) 0 buf s) as (s' & Hr & F & G); try done; try lia.
  { unfold m, read_len in *. lia. }
  { right. rewrite EB, Z2Nat.id by dlia. dlia. }
  exists s'. split; [|by split]. rewrite Z.add_0_r, Z.sub_0_r in Hr.
  replace (list_inserts (Z.to_nat 0) (content D (i_addrs x) off m) buf) with (content D (i_addrs x) off m ++ drop (Z.to_nat m) buf) in Hr.
  2:{ rewrite <- (take_drop (Z.to_nat m) buf) at 2. symmetry. apply list_inserts_0_r. rewrite length_content, length_take. lia. }
  unfold readi. eapply wrun_seq; [by apply runs_get_inode|]. destruct (Z.ltb_spec (i_size x) off); [lia|].
  rewrite (u32_small (off + n)) by lia. destruct (Z.ltb_spec (off + n) off); [lia|]. cbn [orb].
  replace (if i_size x <? off + n then u32 (i_size x - off) else n) with m.
  2:{ unfold m, read_len. destruct (Z.ltb_spec (i_size x) (off + n)); [rewrite u32_small by lia; lia|lia]. }
  eapply wrun_then; [apply wrun_loopz|].
  - replace (Z.to_nat (m / BSIZE + 3)) with (S (Z.to_nat (m / BSIZE + 2))) by (rewrite EB; dlia). exact Hr.
  - rewrite i32_small by lia. apply wrun_runs, runs_ret.
Qed.

(** C21: readi copies the bytes of the file from the offset on, up to the end of the
    file, to the object it is given, and returns how many; it reads every block through
    the direct and indirect addresses of the inode and leaves all of them as they were.
    Past the end it returns -1 and touches nothing. *)

Theorem readi_content s d D bns ip x off n buf :
  txn s d D bns -> k_icache s !! ip = Some x -> i_dev x = dev -> file_ok D (i_addrs x) (i_size x) ->
  0 <= off < 2 ^ 32 -> 0 <= n < 2 ^ 31 -> n <= Z.of_nat (length buf) ->
  let m := read_len (i_size x) off n in
  exists s', fs_frame s s' /\ txn s' d D bns /\
    if i_size x <? off then runs (readi ip (PObj buf) off n) s (-1, PObj buf) s'
    else wrun (readi ip (PObj buf) off n) s d [] (m, PObj (content D (i_addrs x) off m ++ drop (Z.to_nat m) buf)) s'.
Proof.
  intros Ht Hx Hd Hok Hoff Hn Hbuf m. destruct (Z.ltb_spec (i_size x) off) as [Hlt|Hge].
  - exists s. split; [done|]. split; [done|]. unfold readi. eapply runs_bind; [by apply runs_get_inode|].
    apply Z.ltb_lt in Hlt. rewrite Hlt. apply runs_ret.
  - destruct (wrun_readi s d D bns ip x off n buf) as (s' & Hr & F & G); try done; try lia. by exists s'.
Qed.

(** ** Allocating blocks for a file *)

Record fs_ok (D : disk) : Prop := {
  fk_layout : layout start sb D;
  fk_inodes : forall inum, 0 <= inum < sb_ninodes sb -> inode_block sb D inum;
  fk_apart : forall inum b, 0 <= inum < sb_ninodes sb -> 0 <= b < sb_size sb -> BBLOCK b sb <> IBLOCK inum sb;
  fk_free : forall a, 0 <= a < sb_size sb -> used sb D a = false -> spare D a;
  fk_range : 0 <= sb_inodestart sb < 2 ^ 31 /\ sb_ninodes sb < 2 ^ 31;
}.

Definition free_list (D : disk) : list Z := filter (fun b => used sb D b = false) (seqZ 0 (sb_size sb)).

Lemma filter_cons_split (P : Z -> Prop) `{!forall x, Decision (P x)} a l : forall k,
  filter P k = a :: l -> exists k1 k2, k = k1 ++ a :: k2 /\ Forall (fun x => ~ P x) k1 /\ P a /\ filter P k2 = l.
Proof.
  induction k as [|x k IH]; [done|]. rewrite filter_cons. destruct (decide (P x)) as [Hx|Hx].
  - intros [= -> <-]. exists [], k. split; [done|]. split; [constructor|done].
  - intros Hk. destruct (IH Hk) as (k1 & k2 & -> & H1 & H2 & H3). exists (x :: k1), k2. split; [done|]. split; [by constructor|done].
Qed.

Lemma filter_none (P : Z -> Prop) `{!forall x, Decision (P x)} k : Forall (fun x => ~ P x) k -> filter P k = [].
Proof. induction 1 as [|x k Hx _ IH]; [done|]. by rewrite filter_cons, decide_False. Qed.

Lemma filter_agree (P Q : Z -> Prop) `{!forall x, Decision (P x)} `{!forall x, Decision (Q x)} (k : list Z) :
  (forall x, x ∈ k -> P x <-> Q x) -> filter P k = filter Q k.
Proof.
  induction k as [|x k IH]; intros Hk; [done|]. rewrite !filter_cons, IH by (intros y Hy; apply Hk; by right).
  pose proof (Hk x (list_elem_of_here _ _)). destruct (decide (P x)), (decide (Q x)); tauto.
Qed.

Lemma free_list_head D a l :
  fs_ok D -> free_list D = a :: l -> first_free start sb D a /\ free_list (allocated sb a D) = l.
Proof.
  intros Hfs Hl. apply filter_cons_split in Hl as (k1 & k2 & Ek & H1 & H2 & H3).
  assert (Ea : seqZ 0 (sb_size sb) !! length k1 = Some a) by (rewrite Ek, lookup_app_r, Nat.sub_diag by lia; done).
  apply lookup_seqZ in Ea as [Ea Hlt]. assert (Hr : 0 <= a < sb_size sb) by lia.
  pose proof (fk_free _ Hfs a Hr H2) as [S1 S2 [S3 _] S4 S5].
  assert (Hff : first_free start sb D a).
  { split; [done|done| |done|done|done]. intros b Hb. destruct (used sb D b) eqn:E; [done|exfalso].
    assert (Hin : seqZ 0 (sb_size sb) !! Z.to_nat b = Some b) by (apply lookup_seqZ; lia).
    rewrite Ek, lookup_app_l in Hin by lia. rewrite Forall_lookup in H1. by apply (H1 _ _ Hin). }
  split; [done|]. destruct (allocated_spec dev start Hdev sb D a (fk_layout _ Hfs) Hff) as (_ & _ & Hu & _).
  pose proof (NoDup_seqZ 0 (sb_size sb)) as Hnd. unfold free_list. rewrite Ek in Hnd |- *.
  apply NoDup_app in Hnd as (_ & Hd1 & Hnd). apply NoDup_cons in Hnd as [Hna _].
  assert (Hin : forall b, b ∈ k1 ++ a :: k2 -> 0 <= b < sb_size sb) by (intros b Hb; rewrite <- Ek in Hb; apply elem_of_seqZ in Hb; lia).
  assert (Heq : forall b, b ∈ k1 \/ b ∈ k2 -> used sb (allocated sb a D) b = used sb D b).
  { intros b Hb. rewrite Hu by (apply Hin; set_solver). destruct (Z.eqb_spec a b) as [->|]; [|done]. exfalso.
    destruct Hb as [Hb|Hb]; [|done]. apply (Hd1 _ Hb). by left. }
  rewrite filter_app, filter_cons, filter_none.
  - rewrite decide_False by (rewrite Hu by done; by rewrite Z.eqb_refl). cbn [app]. rewrite <- H3.
    apply filter_agree. intros b Hb. rewrite Heq; [done|]. by right.
  - rewrite Forall_forall in H1 |- *. intros b Hb. rewrite Heq by (by left). by apply H1.
Qed.

(** What does not touch data. *)

Record keeps (D D' : disk) : Prop := {
  kp_data : forall x, data_block D x -> data_block D' x /\ D' x = D x;
  kp_inode : forall inum, 0 <= inum < sb_ninodes sb -> D' (IBLOCK inum sb) = D (IBLOCK inum sb);
}.

Lemma keeps_trans D1 D2 D3 : keeps D1 D2 -> keeps D2 D3 -> keeps D1 D3.
Proof.
  intros [H1 H2] [H3 H4]. split.
  - intros x Hx. destruct (H1 x Hx) as [Hx2 E2]. destruct (H3 x Hx2) as [Hx3 E3]. split; [done|]. by rewrite E3.
  - intros inum Hi. by rewrite H4, H2.
Qed.

Lemma alloc_keeps D a :
  fs_ok D -> first_free start sb D a ->
  keeps D (allocated sb a D) /\ fs_ok (allocated sb a D) /\ data_block (allocated sb a D) a /\ allocated sb a D a = zero_block.
Proof.
  intros Hfs Hff. pose proof (fr_range _ _ _ _ Hff) as Ha. pose proof (fr_free _ _ _ _ Hff) as Hua.
  destruct (allocated_spec dev start Hdev sb D a (fk_layout _ Hfs) Hff) as (Hly & Hz & Hu & Hs).
  assert (Hsp : forall x, spare D x -> spare (allocated sb a D) x).
  { intros x [S1 S2 S3 S4 S5]. split; try done. destruct (decide (x = a)) as [->|Hne]; [rewrite Hz; apply bytes_zero_block|].
    rewrite Hs; [done|done|]. intros E. by apply (S4 a). }
  assert (Hda : data_block (allocated sb a D) a).
  { split; [apply Hsp, (fk_free _ Hfs); done|]. rewrite Hu by done. by rewrite Z.eqb_refl. }
  assert (Hi : forall inum, 0 <= inum < sb_ninodes sb -> allocated sb a D (IBLOCK inum sb) = D (IBLOCK inum sb)).
  { intros inum Hin. apply Hs; [intros E; symmetry in E; by apply (sp_inode _ _ (fk_free _ Hfs a Ha Hua) inum)|].
    intros E. by apply (fk_apart _ Hfs inum a). }
  split; [|split; [|split; [done|done]]].
  - split; [|done]. intros x [Hx Hux]. split; [split; [by apply Hsp|]|].
    + rewrite Hu by (destruct Hx; lia). rewrite Hux. apply orb_true_r.
    + apply Hs; [intros ->; congruence|]. intros E. by apply (sp_bitmap _ _ Hx a).
  - split; [done| |apply Hfs| |apply Hfs].
    + intros inum Hin. unfold inode_block. rewrite Hi by done. by apply (fk_inodes _ Hfs).
    + intros x Hx Hux. rewrite Hu in Hux by done. apply orb_false_iff in Hux as [_ Hux]. apply Hsp. by apply (fk_free _ Hfs).
Qed.

Lemma file_addr_keeps D D' addrs bn :
  (forall x, data_block D x -> data_block D' x /\ D' x = D x) ->
  (addr_at addrs NDIRECT <> 0 -> data_block D (addr_at addrs NDIRECT)) ->
  file_addr D' addrs bn = file_addr D addrs bn.
Proof.
  intros Hk Hi. unfold file_addr. destruct (bn <? NDIRECT); [done|].
  destruct (Z.eqb_spec (addr_at addrs NDIRECT) 0) as [|Hne]; [done|].
  by rewrite (proj2 (Hk _ (Hi Hne))).
Qed.

Lemma file_ok_keeps D D' addrs size :
  (forall x, data_block D x -> data_block D' x /\ D' x = D x) -> file_ok D addrs size -> file_ok D' addrs size.
Proof.
  intros Hk Hf. pose proof (fun bn => file_addr_keeps D D' addrs bn Hk (fo_indirect _ _ _ Hf)) as E.
  destruct Hf as [F1 F2 F3 F4 F5 F6 F7]. split; try done.
  - intros bn H1 H2. rewrite E. by apply F3.
  - intros bn H1 H2. rewrite E in *. by apply Hk, F4.
  - intros H1. by apply Hk, F5.
  - intros bn bn' H1 H2. rewrite !E. by apply F6.
  - intros bn H1. rewrite E. by apply F7.
Qed.

(** The file with a block more at [bn]: in the inode, and in the indirect block. *)

Lemma addr_at_insert addrs j a k :
  length addrs = 13%nat -> 0 <= j <= NDIRECT -> 0 <= k -> addr_at (<[Z.to_nat j := a]> addrs) k = if k =? j then a else addr_at addrs k.
Proof.
  intros Hl Hj Hk. unfold NDIRECT in Hj. unfold addr_at. destruct (Z.eqb_spec k j) as [->|Hne].
  - by rewrite list_lookup_insert_eq by lia.
  - by rewrite list_lookup_insert_ne by lia.
Qed.

(** No block of the file is [a]. *)

Definition fresh (D : disk) (addrs : list Z) (a : Z) : Prop :=
  a <> 0 /\ a <> addr_at addrs NDIRECT /\ forall bn, 0 <= bn < MAXFILE -> file_addr D addrs bn <> a.

Lemma unused_fresh D addrs size a : file_ok D addrs size -> a <> 0 -> used sb D a = false -> fresh D addrs a.
Proof.
  intros Hf H0 Hu. split; [done|]. split.
  - intros E. rewrite E in H0, Hu. destruct (fo_indirect _ _ _ Hf H0) as [_ Hu']. congruence.
  - intros bn Hbn E. rewrite <- E in H0, Hu. destruct (fo_data _ _ _ Hf bn Hbn H0) as [_ Hu']. congruence.
Qed.

Lemma file_ok_new D D' addrs addrs' size bn a :
  file_ok D addrs size -> fresh D addrs a -> 0 <= bn < MAXFILE -> length addrs' = 13%nat ->
  (forall x, data_block D x -> data_block D' x) -> data_block D' a ->
  (forall k, 0 <= k < MAXFILE -> file_addr D' addrs' k = if k =? bn then a else file_addr D addrs k) ->
  addr_at addrs' NDIRECT = addr_at addrs NDIRECT -> file_ok D' addrs' size.
Proof.
  intros [F1 F2 F3 F4 F5 F6 F7] (A0 & A1 & A2) Hbn Hl Hk Ha E Ei.
  assert (HM : forall k, k * BSIZE < size -> 0 <= k -> 0 <= k < MAXFILE).
  { intros k H1 H2. change BSIZE with 1024 in *. change MAXFILE with 268 in *. lia. }
  split; try done.
  - intros k H1 H2. rewrite E by (by apply HM). destruct (Z.eqb_spec k bn); [done|by apply F3].
  - intros k H1 H2. rewrite E in * by done. destruct (Z.eqb_spec k bn); [done|]. by apply Hk, F4.
  - intros H1. rewrite Ei in *. by apply Hk, F5.
  - intros k k' H1 H2. rewrite !E by done. destruct (Z.eqb_spec k bn), (Z.eqb_spec k' bn); try lia.
    + intros E1 _. by destruct (A2 k' H2).
    + intros E1 _. by destruct (A2 k H1).
    + by apply F6.
  - intros k H1. rewrite E, Ei by done. destruct (Z.eqb_spec k bn); [done|by apply F7].
Qed.

(** The container may take [k] blocks more. *)

Definition quota (ci : nat) (c : container) (k : Z) : Prop :=
  ci = 0%nat \/ (- 2 ^ 31 <= c_diskused c /\ c_diskused c + k <= c_disklimit c /\ c_disklimit c < 2 ^ 31).

Lemma quota_charge ci c k :
  quota ci c k -> 1 <= k -> within_quota ci c /\ quota ci (set_c_diskused (i32 (c_diskused c + 1)) c) (k - 1).
Proof.
  intros [->|(H1 & H2 & H3)] Hk; [by split; left|]. split; [right; lia|]. right. cbn. rewrite i32_small by lia. lia.
Qed.

Lemma quota_less ci c k k' : quota ci c k -> k' <= k -> quota ci c k'.
Proof. intros [->|H] Hk; [by left|]. right. lia. Qed.

Lemma cur_cont_frame s s' ci c c' :
  in_proc i pid ks s -> in_proc i pid ks s' -> proc_image <$> k_procs s' = proc_image <$> k_procs s ->
  k_conts s' !! ci = Some c' -> cur_cont s ci c -> cur_cont s' ci c'.
Proof.
  intros H1 H2 Him Hc (j & p & Hj & Hp & Hpc & _). rewrite (ip_cur _ _ _ _ H1) in Hj. injection Hj as <-.
  exists i. pose proof (list_lookup_fmap proc_image (k_procs s) i) as E. rewrite <- Him, list_lookup_fmap, Hp in E.
  destruct (k_procs s' !! i) as [q|] eqn:Eq; [|done]. cbn in E. injection E as Ec _.
  exists q. split; [apply H2|]. split; [done|]. split; [congruence|done].
Qed.

(** What the operations on a file leave alone: memory, the superblock, the programs of
    the processes, and all but one inode and one container. *)

Record file_frame (s s' : kst) (ip : nat) (x' : inode) (ci : nat) (c' : container) : Prop := {
  ffr_mem : k_mem s' = k_mem s;
  ffr_sb : k_sb s' = k_sb s;
  ffr_images : proc_image <$> k_procs s' = proc_image <$> k_procs s;
  ffr_icache : k_icache s' = <[ip := x']> (k_icache s);
  ffr_conts : k_conts s' = <[ci := c']> (k_conts s);
}.

Lemma file_frame_refl s ip x ci c :
  k_icache s !! ip = Some x -> k_conts s !! ci = Some c -> file_frame s s ip x ci c.
Proof. intros H1 H2. split; try done; by rewrite list_insert_id. Qed.

Lemma file_frame_trans s1 s2 s3 ip x2 x3 ci c2 c3 :
  file_frame s1 s2 ip x2 ci c2 -> file_frame s2 s3 ip x3 ci c3 -> file_frame s1 s3 ip x3 ci c3.
Proof.
  intros [A1 A2 A3 A4 A5] [B1 B2 B3 B4 B5]. split; try congruence.
  - by rewrite B4, A4, list_insert_insert_eq.
  - by rewrite B5, A5, list_insert_insert_eq.
Qed.

Lemma file_frame_fs s1 s2 s3 ip x ci c : file_frame s1 s2 ip x ci c -> fs_frame s2 s3 -> file_frame s1 s3 ip x ci c.
Proof. intros [A1 A2 A3 A4 A5] [B1 B2 B3 B4 B5]. split; congruence. Qed.

Lemma file_frame_inode s1 s2 ip x y ci c :
  file_frame s1 s2 ip x ci c -> file_frame s1 (with_inode ip y s2) ip y ci c.
Proof. intros [A1 A2 A3 A4 A5]. split; try done. cbn. by rewrite A4, list_insert_insert_eq. Qed.

Lemma cur_cont_lookup s ci c : cur_cont s ci c -> k_conts s !! ci = Some c.
Proof. by intros (j & p & _ & _ & _ & H). Qed.

Lemma cur_cont_fs s s' ci c d D bns L d' D' bns' L' :
  intxn s d D bns L -> intxn s' d' D' bns' L' -> fs_frame s s' -> cur_cont s ci c -> cur_cont s' ci c.
Proof.
  intros H1 H2 Hf Hcc. apply (cur_cont_frame s s' ci c c); [by eapply intxn_in_proc|by eapply intxn_in_proc|apply Hf| |done].
  rewrite (ff_conts _ _ Hf). by apply cur_cont_lookup.
Qed.

(** balloc for a file, the blocks in [L] being data. *)

Lemma file_balloc s d D bns L ip x ci c a l k :
  intxn s d D bns L -> k_sb s = sb -> k_icache s !! ip = Some x -> fs_ok D -> free_list D = a :: l ->
  (forall n, is_Some (L !! n) -> data_block D n) -> Z.of_nat (length bns) + Z.of_nat (size L) + 2 < LOGSIZE ->
  cur_cont s ci c -> quota ci c k -> 1 <= k ->
  exists s' bns' c', wrun (balloc dev) s d [] a s' /\ intxn s' d (allocated sb a D) bns' L /\ (length bns' <= length bns + 2)%nat /\
    file_frame s s' ip x ci c' /\ cur_cont s' ci c' /\ quota ci c' (k - 1) /\
    keeps D (allocated sb a D) /\ fs_ok (allocated sb a D) /\ data_block (allocated sb a D) a /\
    allocated sb a D a = zero_block /\ free_list (allocated sb a D) = l /\ used sb D a = false.
Proof.
  intros Ht Hsb Hx Hfs Hfl HL Hmax Hcc Hq Hk. destruct (free_list_head D a l Hfs Hfl) as [Hff Hl].
  destruct (quota_charge ci c k Hq Hk) as [Hwq Hq']. pose proof (fr_free _ _ _ _ Hff) as Hua.
  destruct (wrun_balloc s d D bns L sb a ci c Ht) as (s' & bns' & Hr & Hf & Ht' & Hlen); try done.
  { split; [|intros b Hb]; apply eq_None_not_Some; intros Hs; destruct (HL _ Hs) as [Hsp Hu]; [congruence|].
    by apply (sp_bitmap _ _ Hsp b). }
  { apply Hfs. }
  exists s', bns', (set_c_diskused (i32 (c_diskused c + 1)) c).
  assert (Hcs : k_conts s' !! ci = Some (set_c_diskused (i32 (c_diskused c + 1)) c)).
  { rewrite (ff_conts _ _ Hf). cbn. apply list_lookup_insert_eq. eapply lookup_lt_Some, cur_cont_lookup, Hcc. }
  split; [done|]. split; [done|]. split; [done|]. split; [|split; [|split; [done|]]].
  - destruct Hf as [B1 B2 B3 B4 B5]. split; try done. rewrite B3. cbn. by rewrite list_insert_id.
  - exact (cur_cont_frame s s' ci c _ (intxn_in_proc _ _ _ _ _ Ht) (intxn_in_proc _ _ _ _ _ Ht') (ff_images _ _ Hf) Hcs Hcc).
  - destruct (alloc_keeps D a Hfs Hff) as (? & ? & ? & ?). by split_and!.
Qed.

(** ** bmap *)

(** The blocks of a file, its indirect block included. *)

Definition in_file (D : disk) (addrs : list Z) (b : Z) : Prop :=
  b <> 0 /\ (b = addr_at addrs NDIRECT \/ exists bn, 0 <= bn < MAXFILE /\ file_addr D addrs bn = b).

(** The file after bmap has made sure that block [bn] is there. *)

Record mapped (D D' : disk) (addrs addrs' : list Z) (size bn a : Z) : Prop := {
  mp_fs : fs_ok D';
  mp_file : file_ok D' addrs' size;
  mp_addr : forall k, 0 <= k < MAXFILE -> file_addr D' addrs' k = if k =? bn then a else file_addr D addrs k;
  mp_there : a <> 0;
  mp_same : file_addr D addrs bn <> 0 -> a = file_addr D addrs bn;
  mp_data : forall x, data_block D x -> data_block D' x /\ (x <> addr_at addrs NDIRECT -> D' x = D x);
  mp_inode : forall inum, 0 <= inum < sb_ninodes sb -> D' (IBLOCK inum sb) = D (IBLOCK inum sb);
  mp_free : exists j, (j <= 2)%nat /\ free_list D' = drop j (free_list D);
  mp_in : forall x, data_block D x -> in_file D' addrs' x -> in_file D addrs x;
}.

Lemma in_file_new D D' addrs addrs' bn a x :
  (forall k, 0 <= k < MAXFILE -> file_addr D' addrs' k = if k =? bn then a else file_addr D addrs k) ->
  used sb D a = false -> data_block D x -> in_file D' addrs' x ->
  (addr_at addrs' NDIRECT = x -> in_file D addrs x) -> in_file D addrs x.
Proof.
  intros E Hua [_ Hux] [H0 [->|(k & Hk & Ek)]] Hi; [by apply Hi|]. rewrite E in Ek by done.
  destruct (Z.eqb_spec k bn); [subst; congruence|]. split; [done|]. right. by exists k.
Qed.

(** A direct block. *)

Lemma direct_mapped D addrs size bn a l :
  fs_ok D -> file_ok D addrs size -> 0 <= bn < NDIRECT -> file_addr D addrs bn = 0 -> free_list D = a :: l ->
  mapped D (allocated sb a D) addrs (<[Z.to_nat bn := a]> addrs) size bn a.
Proof.
  intros Hfs Hf Hbn H0 Hfl. destruct (free_list_head D a l Hfs Hfl) as [Hff Hl].
  destruct (alloc_keeps D a Hfs Hff) as (Hk & Hfs' & Hda & Hz). pose proof (fo_length _ _ _ Hf) as H13.
  assert (Ha0 : a <> 0) by (destruct Hda as [[? _ _ _ _] _]; lia).
  assert (HMX : MAXFILE = NDIRECT + NINDIRECT) by done. assert (HN : 0 < NINDIRECT /\ 0 < NDIRECT) by done.
  assert (Hi : addr_at (<[Z.to_nat bn := a]> addrs) NDIRECT = addr_at addrs NDIRECT).
  { rewrite addr_at_insert; [|done|lia|lia]. destruct (Z.eqb_spec NDIRECT bn); [lia|done]. }
  assert (E : forall k, 0 <= k < MAXFILE ->
    file_addr (allocated sb a D) (<[Z.to_nat bn := a]> addrs) k = if k =? bn then a else file_addr D addrs k).
  { intros k Hkr. rewrite <- (file_addr_keeps D _ addrs k (kp_data _ _ Hk) (fo_indirect _ _ _ Hf)). unfold file_addr. rewrite Hi.
    rewrite addr_at_insert by (done || lia). destruct (Z.ltb_spec k NDIRECT), (Z.eqb_spec k bn); try done; lia. }
  split; try done.
  - apply (file_ok_new D _ addrs _ size bn a Hf);
      [|lia|by rewrite length_insert|intros x Hx; by apply (kp_data _ _ Hk)|done|done|done].
    eapply unused_fresh; [exact Hf|done|apply (fr_free _ _ _ _ Hff)].
  - intros x Hx. destruct (kp_data _ _ Hk x Hx) as [H1 H2]. by split.
  - apply Hk.
  - exists 1%nat. rewrite Hfl. split; [lia|done].
  - intros x Hx Hin. eapply in_file_new; [exact E|apply (fr_free _ _ _ _ Hff)|done|exact Hin|].
    intros <-. split; [apply Hin|]. left. by rewrite Hi.
Qed.

(** The indirect block: zeroes, so that no address is there. *)

Lemma indirect_new D addrs size a l :
  fs_ok D -> file_ok D addrs size -> addr_at addrs NDIRECT = 0 -> free_list D = a :: l ->
  file_ok (allocated sb a D) (<[Z.to_nat NDIRECT := a]> addrs) size /\
  (forall k, 0 <= k < MAXFILE -> file_addr (allocated sb a D) (<[Z.to_nat NDIRECT := a]> addrs) k = file_addr D addrs k).
Proof.
  intros Hfs Hf H0 Hfl. destruct (free_list_head D a l Hfs Hfl) as [Hff Hl].
  destruct (alloc_keeps D a Hfs Hff) as (Hk & Hfs' & Hda & Hz). pose proof (fo_length _ _ _ Hf) as H13.
  assert (Ha0 : a <> 0) by (destruct Hda as [[? _ _ _ _] _]; lia).
  pose proof (unused_fresh D addrs size a Hf Ha0 (fr_free _ _ _ _ Hff)) as (_ & _ & Hfr).
  assert (Hi : addr_at (<[Z.to_nat NDIRECT := a]> addrs) NDIRECT = a) by (rewrite addr_at_insert by done; by rewrite Z.eqb_refl).
  assert (E : forall k, 0 <= k < MAXFILE ->
    file_addr (allocated sb a D) (<[Z.to_nat NDIRECT := a]> addrs) k = file_addr D addrs k).
  { intros k Hkr. unfold file_addr. rewrite Hi, H0, Hz, word_zero_block, addr_at_insert by (done || lia).
    destruct (Z.ltb_spec k NDIRECT); [destruct (Z.eqb_spec k NDIRECT); [lia|done]|]. by destruct (a =? 0). }
  split; [|done]. destruct Hf as [F1 F2 F3 F4 F5 F6 F7]. assert (HM : forall k, k * BSIZE < size -> 0 <= k -> 0 <= k < MAXFILE).
  { intros k H1 H2. change BSIZE with 1024 in *. change MAXFILE with 268 in *. lia. }
  split; [by rewrite length_insert|done| | | | |].
  - intros k H1 H2. rewrite E by (by apply HM). by apply F3.
  - intros k H1 H2. rewrite E in * by done. by apply (kp_data _ _ Hk), F4.
  - by rewrite Hi.
  - intros k k' H1 H2. rewrite !E by done. by apply F6.
  - intros k H1. rewrite E, Hi by done. intros _. by apply Hfr.
Qed.

(** Writing to a block of data. *)

Lemma write_block_other D n v m : m <> n -> write_block D n v m = D m.
Proof. intros H. unfold write_block. by destruct (Z.eqb_spec m n). Qed.

Lemma write_data D n v :
  fs_ok D -> data_block D n -> bytes v ->
  fs_ok (write_block D n v) /\ (forall x, data_block D x -> data_block (write_block D n v) x) /\
  free_list (write_block D n v) = free_list D /\
  (forall inum, 0 <= inum < sb_ninodes sb -> write_block D n v (IBLOCK inum sb) = D (IBLOCK inum sb)).
Proof.
  intros Hfs [Hn Hun] Hv. set (D' := write_block D n v).
  assert (Hu : forall b, 0 <= b < sb_size sb -> used sb D' b = used sb D b).
  { intros b Hb. unfold used, D'. rewrite write_block_other; [done|]. by apply (sp_bitmap _ _ Hn). }
  assert (Hby : forall x, bytes (D x) -> bytes (D' x)).
  { intros x Hx. unfold D'. destruct (decide (x = n)) as [->|]; [by rewrite write_block_same|by rewrite write_block_other]. }
  assert (Hsp : forall x, spare D x -> spare D' x) by (intros x [S1 S2 S3 S4 S5]; split; auto).
  assert (Hi : forall inum, 0 <= inum < sb_ninodes sb -> D' (IBLOCK inum sb) = D (IBLOCK inum sb)).
  { intros inum Hin. unfold D'. apply write_block_other. by apply (sp_inode _ _ Hn). }
  split_and!; [| | |done].
  - split; [|intros inum Hin; unfold inode_block; rewrite Hi by done; by apply (fk_inodes _ Hfs)|apply Hfs| |apply Hfs].
    + by apply layout_write; [apply Hfs|].
    + intros x Hx Hux. rewrite Hu in Hux by done. by apply Hsp, (fk_free _ Hfs).
  - intros x [Hx Hux]. split; [by apply Hsp|]. rewrite Hu; [done|]. destruct Hx. lia.
  - apply filter_agree. intros b Hb. apply elem_of_seqZ in Hb. by rewrite Hu by lia.
Qed.

(** A block in the indirect block. *)

Lemma indirect_mapped D addrs size bn a l :
  let ind := addr_at addrs NDIRECT in
  fs_ok D -> file_ok D addrs size -> NDIRECT <= bn < MAXFILE -> ind <> 0 -> file_addr D addrs bn = 0 -> free_list D = a :: l ->
  mapped D (write_block (allocated sb a D) ind (put_word (D ind) (bn - NDIRECT) a)) addrs addrs size bn a.
Proof.
  intros ind Hfs Hf Hbn Hi0 H0 Hfl. destruct (free_list_head D a l Hfs Hfl) as [Hff Hl].
  destruct (alloc_keeps D a Hfs Hff) as (Hk & Hfs1 & Hda & Hz). pose proof (fo_length _ _ _ Hf) as H13.
  pose proof (fr_range _ _ _ _ Hff) as Har. pose proof (ly_size _ _ _ (fk_layout _ Hfs)) as Hsz.
  assert (Ha0 : a <> 0) by (destruct Hda as [[? _ _ _ _] _]; lia).
  pose proof (fo_indirect _ _ _ Hf Hi0) as Hdi. fold ind in Hdi. destruct (kp_data _ _ Hk ind Hdi) as [Hdi1 Ei].
  assert (Hbi : bytes (D ind)) by (by destruct Hdi as [[_ _ ? _ _] _]).
  pose proof (unused_fresh D addrs size a Hf Ha0 (fr_free _ _ _ _ Hff)) as Hfr.
  destruct (write_data (allocated sb a D) ind (put_word (D ind) (bn - NDIRECT) a) Hfs1 Hdi1) as (Hfs2 & Hd2 & Hfl2 & Hin2).
  { by apply bytes_put_word. }
  set (D2 := write_block _ _ _) in *. assert (HMX : MAXFILE = NDIRECT + NINDIRECT) by done.
  assert (E : forall k, 0 <= k < MAXFILE -> file_addr D2 addrs k = if k =? bn then a else file_addr D addrs k).
  { intros k Hkr. unfold file_addr. fold ind. destruct (Z.ltb_spec k NDIRECT).
    - destruct (Z.eqb_spec k bn); [lia|done].
    - destruct (Z.eqb_spec ind 0); [done|]. unfold D2. rewrite write_block_same, word_put by (done || lia).
      destruct (Z.eqb_spec (k - NDIRECT) (bn - NDIRECT)), (Z.eqb_spec k bn); try done; lia. }
  split; try done.
  - apply (file_ok_new D _ addrs _ size bn a Hf); [done| |done| |by apply Hd2|done|done].
    + assert (0 <= NDIRECT) by done. lia.
    + intros x Hx. by apply Hd2, (kp_data _ _ Hk).
  - intros x Hx. destruct (kp_data _ _ Hk x Hx) as [H1 H2]. split; [by apply Hd2|].
    intros Hne. unfold D2. by rewrite write_block_other.
  - intros inum Hin. rewrite Hin2 by done. by apply (kp_inode _ _ Hk).
  - exists 1%nat. rewrite Hfl2, Hl, Hfl. split; [lia|done].
  - intros x Hx Hin. eapply in_file_new; [exact E|apply (fr_free _ _ _ _ Hff)|done|exact Hin|].
    intros <-. split; [apply Hin|]. by left.
Qed.

(** A block that is there already. *)

Lemma there_mapped D addrs size bn :
  fs_ok D -> file_ok D addrs size -> file_addr D addrs bn <> 0 -> mapped D D addrs addrs size bn (file_addr D addrs bn).
Proof.
  intros Hfs Hf H0. split; try done.
  - intros k Hk. by destruct (Z.eqb_spec k bn) as [->|].
  - exists 0%nat. split; [lia|done].
Qed.

(** The second half of bmap: the address is looked up in the indirect block. *)

Definition bmap_indirect (ip : nat) (addr bn : Z) : K Z :=
  x <- get_inode ip ;;
  bp <- bread (i_dev x) addr ;;
  addr <- get_data 4 bp (4 * bn) ;;
  addr <- (if addr =? 0 then
             x <- get_inode ip ;;
             addr <- balloc (i_dev x) ;;
             put_data 4 bp (4 * bn) addr ;;
             log_write bp ;;
             ret addr
           else ret addr) ;;
  brelse bp ;;
  ret addr.

Lemma wrun_bmap_indirect s d D bns ip x size ci c bn a l k :
  let ind := addr_at (i_addrs x) NDIRECT in
  txn s d D bns -> k_sb s = sb -> k_icache s !! ip = Some x -> i_dev x = dev -> fs_ok D -> file_ok D (i_addrs x) size ->
  NDIRECT <= bn < MAXFILE -> ind <> 0 -> file_addr D (i_addrs x) bn = 0 -> free_list D = a :: l ->
  Z.of_nat (length bns) + 3 < LOGSIZE -> cur_cont s ci c -> quota ci c k -> 1 <= k ->
  let D' := write_block (allocated sb a D) ind (put_word (D ind) (bn - NDIRECT) a) in
  exists s' bns' c', wrun (bmap_indirect ip ind (bn - NDIRECT)) s d [] a s' /\ txn s' d D' bns' /\
    (length bns' <= length bns + 3)%nat /\ file_frame s s' ip x ci c' /\ cur_cont s' ci c' /\ quota ci c' (k - 1).
Proof.
  intros ind Ht Hsb Hx Hd Hfs Hf Hbn Hi0 H0 Hfl Hmax Hcc Hq Hk D'. assert (HMX : MAXFILE = NDIRECT + NINDIRECT) by done.
  pose proof (fo_indirect _ _ _ Hf Hi0) as Hdi. fold ind in Hdi. pose proof (proj1 Hdi) as [_ Hhi Hbi _ _].
  destruct (txn_bread _ _ _ _ ind Ht (proj1 Hhi)) as (bp & s1 & H1 & F1 & G1).
  assert (Hx1 : k_icache s1 !! ip = Some x) by (by rewrite (ff_icache _ _ F1)).
  assert (Hw : word (D ind) (bn - NDIRECT) = 0).
  { unfold file_addr in H0. fold ind in H0. destruct (Z.ltb_spec bn NDIRECT); [lia|]. by destruct (Z.eqb_spec ind 0). }
  assert (Hcc1 : cur_cont s1 ci c) by exact (cur_cont_fs _ _ _ _ _ _ _ _ _ _ _ _ Ht G1 F1 Hcc).
  destruct (file_balloc s1 d D bns {[ind := (bp, D ind)]} ip x ci c a l k) as (s2 & bns2 & c2 & H2 & G2 & Hl2 & F2 & Hcc2 & Hq2 & _);
    try done; [by rewrite (ff_sb _ _ F1)| |rewrite map_size_singleton; lia|].
  { intros n [v Hn]. apply lookup_singleton_Some in Hn as [<- _]. done. }
  destruct (intxn_put_data _ _ _ _ _ _ _ _ _ 4 (4 * (bn - NDIRECT)) a G2 (lookup_singleton_eq _ _) (set_word (D ind) (bn - NDIRECT) a Hbi ltac:(lia)))
    as (s3 & H3 & F3 & G3). rewrite insert_singleton_eq in G3.
  destruct (intxn_log_write i pid ks dev start Hdev Hstart _ _ _ _ _ _ _ _ G3 (lookup_singleton_eq _ _) Hhi) as (s4 & H4 & F4 & G4); [lia|].
  destruct (held_brelse s4 d D' (absorb ind bns2) ind bp) as (s5 & H5 & F5 & G5).
  { unfold held. replace (D' ind) with (put_word (D ind) (bn - NDIRECT) a) by (unfold D'; by rewrite write_block_same). exact G4. }
  assert (F25 : fs_frame s2 s5) by (by trans s3; [|trans s4]).
  exists s5, (absorb ind bns2), c2. split; [|split; [done|split; [pose proof (absorb_length ind bns2); lia|split; [|split; [|done]]]]].
  - unfold bmap_indirect. eapply wrun_seq; [by apply runs_get_inode|]. rewrite Hd. eapply wrun_then; [exact H1|].
    eapply wrun_seq; [eapply held_get_data; [exact G1|apply get_word; [done|lia]]|]. rewrite Hw. cbn [Z.eqb].
    eapply wrun_then; [|eapply wrun_seq; [exact H5|apply wrun_runs, runs_ret]].
    eapply wrun_seq; [by apply runs_get_inode|]. rewrite Hd. eapply wrun_then; [exact H2|].
    eapply wrun_seq; [exact H3|]. eapply wrun_seq; [exact H4|]. apply wrun_runs, runs_ret.
  - eapply file_frame_fs; [|exact F25]. eapply file_frame_trans; [|exact F2].
    eapply file_frame_fs; [by eapply file_frame_refl, cur_cont_lookup|exact F1].
  - exact (cur_cont_fs _ _ _ _ _ _ _ _ _ _ _ _ G2 G5 F25 Hcc2).
Qed.

(** The indirect block and the block itself are both new. *)

Lemma both_mapped D addrs size bn a1 a2 l :
  let D1 := allocated sb a1 D in
  fs_ok D -> file_ok D addrs size -> NDIRECT <= bn < MAXFILE -> addr_at addrs NDIRECT = 0 -> free_list D = a1 :: a2 :: l ->
  mapped D (write_block (allocated sb a2 D1) a1 (put_word (D1 a1) (bn - NDIRECT) a2)) addrs (<[Z.to_nat NDIRECT := a1]> addrs) size bn a2.
Proof.
  intros D1 Hfs Hf Hbn Hi0 Hfl. destruct (free_list_head D a1 (a2 :: l) Hfs Hfl) as [Hff Hl].
  destruct (alloc_keeps D a1 Hfs Hff) as (Hk & Hfs1 & Hda & Hz). destruct (indirect_new D addrs size a1 _ Hfs Hf Hi0 Hfl) as [Hf1 E1].
  fold D1 in Hk, Hfs1, Hda, Hz, Hf1, E1, Hl. assert (0 <= NDIRECT) by done.
  assert (Ei : addr_at (<[Z.to_nat NDIRECT := a1]> addrs) NDIRECT = a1).
  { rewrite addr_at_insert; [by rewrite Z.eqb_refl|apply (fo_length _ _ _ Hf)|lia|lia]. }
  assert (Ha0 : a1 <> 0) by (destruct Hda as [[? _ _ _ _] _]; lia).
  assert (H0 : file_addr D addrs bn = 0).
  { unfold file_addr. destruct (Z.ltb_spec bn NDIRECT); [lia|]. by rewrite Hi0. }
  pose proof (indirect_mapped D1 _ size bn a2 l Hfs1 Hf1 Hbn) as Hm. rewrite Ei, E1 in Hm by lia. specialize (Hm Ha0 H0 Hl).
  destruct Hm as [M1 M2 M3 M4 M5 M6 M7 M8 M9]. rewrite Ei in M6. split; try done.
  - intros k Hkr. rewrite M3, E1 by done. done.
  - intros x Hx. destruct (kp_data _ _ Hk x Hx) as [Hx1 Ex]. destruct (M6 x Hx1) as [Hx2 Ex2]. split; [done|]. intros _.
    rewrite Ex2, Ex; [done|]. intros ->. destruct Hx as [_ Hu]. pose proof (fr_free _ _ _ _ Hff). congruence.
  - intros inum Hin. rewrite M7 by done. by apply (kp_inode _ _ Hk).
  - exists 2%nat. destruct (write_data (allocated sb a2 D1) a1 (put_word (D1 a1) (bn - NDIRECT) a2)) as (_ & _ & E3 & _).
    + apply (alloc_keeps D1 a2 Hfs1). by apply (free_list_head D1 a2 l Hfs1).
    + destruct (free_list_head D1 a2 l Hfs1 Hl) as [Hff2 _]. by apply (kp_data _ _ (proj1 (alloc_keeps D1 a2 Hfs1 Hff2))).
    + apply bytes_put_word. rewrite Hz. apply bytes_zero_block.
    + rewrite E3, (proj2 (free_list_head D1 a2 l Hfs1 Hl)), Hfl. split; [lia|done].
  - intros x Hx Hin. destruct (kp_data _ _ Hk x Hx) as [Hx1 _]. destruct (M9 x Hx1 Hin) as [Hx0 [E3|(k & Hkr & E3)]].
    + exfalso. rewrite Ei in E3. subst x. destruct Hx as [_ Hu]. pose proof (fr_free _ _ _ _ Hff). congruence.
    + split; [done|]. right. exists k. rewrite E1 in E3 by done. done.
Qed.

(** bmap of a block that is not there, in the indirect half. *)

Lemma wrun_bmap_far s d D bns ip x size ci c bn k a1 a2 l :
  txn s d D bns -> k_sb s = sb -> k_icache s !! ip = Some x -> i_dev x = dev -> fs_ok D -> file_ok D (i_addrs x) size ->
  NDIRECT <= bn < MAXFILE -> file_addr D (i_addrs x) bn = 0 -> free_list D = a1 :: a2 :: l -> Z.of_nat (length bns) + 5 < LOGSIZE ->
  cur_cont s ci c -> quota ci c k -> 2 <= k ->
  exists a s' D' bns' addrs' c', wrun (bmap ip bn) s d [] a s' /\ txn s' d D' bns' /\ (length bns' <= length bns + 5)%nat /\
    file_frame s s' ip (set_i_addrs addrs' x) ci c' /\ cur_cont s' ci c' /\ quota ci c' (k - 2) /\
    mapped D D' (i_addrs x) addrs' size bn a.
Proof.
  intros Ht Hsb Hx Hd Hfs Hf Hbn H0 Hfl Hmax Hcc Hq Hk. pose proof (fo_length _ _ _ Hf) as H13.
  assert (HMX : MAXFILE = NDIRECT + NINDIRECT) by done. assert (0 <= NDIRECT) by done.
  assert (Exx : set_i_addrs (i_addrs x) x = x) by (by destruct x).
  assert (Hhead : forall s' w r t, (forall addr, addr_at (i_addrs x) NDIRECT = addr ->
      wrun (addr <- (if addr =? 0 then
               x <- get_inode ip ;;
               addr <- balloc (i_dev x) ;;
               set_addr ip NDIRECT addr ;;
               ret addr
             else ret addr) ;; bmap_indirect ip addr (bn - NDIRECT)) s' d w r t) ->
    k_icache s' !! ip = Some x -> wrun (bmap ip bn) s' d w r t).
  { intros s' w r t Hw Hx'. unfold bmap. destruct (Z.ltb_spec bn NDIRECT); [lia|]. destruct (Z.ltb_spec (bn - NDIRECT) NINDIRECT); [|lia].
    eapply wrun_seq; [apply (runs_get_addr ip x); [done|apply addr_at_lookup; [done|lia]]|]. by apply Hw. }
  destruct (decide (addr_at (i_addrs x) NDIRECT = 0)) as [Hi0|Hi0].
  - destruct (file_balloc s d D bns ∅ ip x ci c a1 (a2 :: l) k)
      as (s1 & bns1 & c1 & H1 & G1 & Hl1 & F1 & Hcc1 & Hq1 & Hk1 & Hfs1 & Hda1 & Hz1 & Hfl1 & Hu1);
      try done; [intros n; rewrite lookup_empty; by intros []|rewrite map_size_empty; lia|lia|].
    destruct (indirect_new D (i_addrs x) size a1 _ Hfs Hf Hi0 Hfl) as [Hf1 E1].
    set (addrs' := <[Z.to_nat NDIRECT := a1]> (i_addrs x)) in *. set (x1 := set_i_addrs addrs' x).
    assert (Hx1 : k_icache s1 !! ip = Some x) by (rewrite (ffr_icache _ _ _ _ _ _ F1); apply list_lookup_insert_eq; by eapply lookup_lt_Some).
    assert (Ei : addr_at (i_addrs x1) NDIRECT = a1).
    { change (i_addrs x1) with (<[Z.to_nat NDIRECT := a1]> (i_addrs x)). rewrite addr_at_insert; [by rewrite Z.eqb_refl|done|lia|lia]. }
    assert (Ha0 : a1 <> 0) by (destruct Hda1 as [[? _ _ _ _] _]; lia).
    destruct (wrun_bmap_indirect (with_inode ip x1 s1) d (allocated sb a1 D) bns1 ip x1 size ci c1 bn a2 l (k - 1))
      as (s2 & bns2 & c2 & H2 & G2 & Hl2 & F2 & Hcc2 & Hq2); try done; try lia.
    + by apply intxn_set_icache.
    + cbn. by rewrite (ffr_sb _ _ _ _ _ _ F1).
    + by eapply lookup_with_inode.
    + rewrite <- (E1 bn) in H0 by lia. exact H0.
    + rewrite Ei in *. eexists a2, s2, _, bns2, addrs', c2. split; [|split; [exact G2|split; [lia|split; [|split; [done|split]]]]].
      * apply Hhead; [|done]. intros addr <-. rewrite Hi0. cbn [Z.eqb]. eapply wrun_then; [|exact H2].
        eapply wrun_seq; [by apply runs_get_inode|]. rewrite Hd. eapply wrun_then; [exact H1|].
        eapply wrun_seq; [apply (runs_set_addr ip x NDIRECT a1 s1 Hx1); change (Z.to_nat NDIRECT) with 12%nat; lia|]. apply wrun_runs, runs_ret.
      * eapply file_frame_trans; [|exact F2]. by eapply file_frame_inode.
      * eapply quota_less; [exact Hq2|lia].
      * by eapply both_mapped.
  - destruct (wrun_bmap_indirect s d D bns ip x size ci c bn a1 (a2 :: l) k)
      as (s2 & bns2 & c2 & H2 & G2 & Hl2 & F2 & Hcc2 & Hq2); try done; try lia.
    eexists a1, s2, _, bns2, (i_addrs x), c2. rewrite Exx. split; [|split; [exact G2|split; [lia|split; [done|split; [done|split]]]]].
    + apply Hhead; [|done]. intros addr Ea. rewrite Ea in Hi0. apply Z.eqb_neq in Hi0. rewrite Hi0. eapply wrun_seq; [apply runs_ret|].
      rewrite Ea in H2. exact H2.
    + eapply quota_less; [exact Hq2|lia].
    + by eapply indirect_mapped.
Qed.

Lemma wrun_bmap s d D bns ip x size ci c bn k :
  txn s d D bns -> k_sb s = sb -> k_icache s !! ip = Some x -> i_dev x = dev -> fs_ok D -> file_ok D (i_addrs x) size ->
  0 <= bn < MAXFILE -> (2 <= length (free_list D))%nat -> Z.of_nat (length bns) + 5 < LOGSIZE ->
  cur_cont s ci c -> quota ci c k -> 2 <= k ->
  exists a s' D' bns' addrs' c', wrun (bmap ip bn) s d [] a s' /\ txn s' d D' bns' /\ (length bns' <= length bns + 5)%nat /\
    file_frame s s' ip (set_i_addrs addrs' x) ci c' /\ cur_cont s' ci c' /\ quota ci c' (k - 2) /\
    mapped D D' (i_addrs x) addrs' size bn a.
Proof.
  intros Ht Hsb Hx Hd Hfs Hf Hbn Hfree Hmax Hcc Hq Hk. pose proof (fo_length _ _ _ Hf) as H13.
  destruct (free_list D) as [|a1 [|a2 l]] eqn:Hfl; [cbn in Hfree; lia..|]. clear Hfree.
  assert (Exx : set_i_addrs (i_addrs x) x = x) by (by destruct x).
  destruct (decide (file_addr D (i_addrs x) bn = 0)) as [H0|H0].
  2:{ destruct (wrun_bmap_there s d D bns ip x bn Ht Hx Hd H13 Hbn) as (s' & Hr & F & G); [intros ?; by eapply fo_bmap|done|].
      exists (file_addr D (i_addrs x) bn), s', D, bns, (i_addrs x), c. rewrite Exx. split; [done|]. split; [done|]. split; [lia|].
      split; [by eapply file_frame_fs; [eapply file_frame_refl, cur_cont_lookup|]|].
      split; [exact (cur_cont_fs _ _ _ _ _ _ _ _ _ _ _ _ Ht G F Hcc)|]. split; [eapply quota_less; [exact Hq|lia]|]. by apply there_mapped. }
  destruct (decide (bn < NDIRECT)) as [Hlt|Hge].
  - destruct (file_balloc s d D bns ∅ ip x ci c a1 (a2 :: l) k) as (s1 & bns1 & c1 & H1 & G1 & Hl1 & F1 & Hcc1 & Hq1 & _);
      try done; [intros n; rewrite lookup_empty; by intros []|rewrite map_size_empty; lia|lia|].
    set (addrs' := <[Z.to_nat bn := a1]> (i_addrs x)).
    assert (Hx1 : k_icache s1 !! ip = Some x) by (rewrite (ffr_icache _ _ _ _ _ _ F1); apply list_lookup_insert_eq; by eapply lookup_lt_Some).
    exists a1, (with_inode ip (set_i_addrs addrs' x) s1), (allocated sb a1 D), bns1, addrs', c1.
    split; [|split; [by apply intxn_set_icache|split; [lia|split; [by eapply file_frame_inode|split; [|split; [eapply quota_less; [exact Hq1|lia]|eapply direct_mapped; [done|done|lia|done|done]]]]]]].
    + unfold bmap. destruct (Z.ltb_spec bn NDIRECT); [|lia].
      eapply wrun_seq; [apply (runs_get_addr ip x); [done|apply addr_at_lookup; [done|lia]]|].
      assert (E0 : addr_at (i_addrs x) bn = 0) by (unfold file_addr in H0; by destruct (Z.ltb_spec bn NDIRECT); [|lia]).
      rewrite E0. cbn [Z.eqb]. eapply wrun_seq; [by apply runs_get_inode|]. rewrite Hd. eapply wrun_then; [exact H1|].
      eapply wrun_seq; [apply (runs_set_addr ip x bn a1 s1 Hx1); unfold NDIRECT in *; lia|]. apply wrun_runs, runs_ret.
    + destruct Hcc1 as (j & p & ?). by exists j, p.
  - by eapply wrun_bmap_far; try done; lia.
Qed.

(** ** writei *)

(** The file after the bytes [bs] have been written at position [k0]. *)

Record written (D D' : disk) (addrs addrs' : list Z) (size k0 : Z) (bs : list Z) : Prop := {
  wr_fs : fs_ok D';
  wr_file : file_ok D' addrs' (Z.max size (k0 + Z.of_nat (length bs)));
  wr_bytes : forall k, 0 <= k < Z.max size (k0 + Z.of_nat (length bs)) ->
    file_byte D' addrs' k = if decide (k0 <= k < k0 + Z.of_nat (length bs)) then default 0 (bs !! Z.to_nat (k - k0)) else file_byte D addrs k;
  wr_data : forall x, data_block D x -> data_block D' x /\ (~ in_file D addrs x -> D' x = D x);
  wr_inode : forall inum, 0 <= inum < sb_ninodes sb -> D' (IBLOCK inum sb) = D (IBLOCK inum sb);
  wr_in : forall x, data_block D x -> in_file D' addrs' x -> in_file D addrs x;
}.

Lemma file_ok_write D D' addrs size v n :
  file_ok D addrs size -> n <> addr_at addrs NDIRECT -> D' = write_block D n v ->
  (forall x, data_block D x -> data_block D' x) ->
  file_ok D' addrs size /\ forall k, file_addr D' addrs k = file_addr D addrs k.
Proof.
  intros Hf Hn -> Hd. assert (E : forall k, file_addr (write_block D n v) addrs k = file_addr D addrs k).
  { intros k. unfold file_addr. by rewrite write_block_other by congruence. }
  split; [|done]. destruct Hf as [F1 F2 F3 F4 F5 F6 F7]. split; try done.
  - intros bn. rewrite E. apply F3.
  - intros bn H1. rewrite E. intros H2. by apply Hd, F4.
  - intros H1. by apply Hd, F5.
  - intros bn bn'. rewrite !E. apply F6.
  - intros bn. rewrite E. apply F7.
Qed.

Lemma file_ok_longer D addrs size size' :
  file_ok D addrs size -> 0 <= size' <= MAXFILE * BSIZE ->
  (forall bn, 0 <= bn -> bn * BSIZE < size' -> file_addr D addrs bn <> 0) -> file_ok D addrs size'.
Proof. intros [F1 F2 F3 F4 F5 F6 F7] H1 H2. by split. Qed.

(** What one round writes: a part of block [bn]. *)

Lemma written_round D D1 addrs addrs' size k0 bs a :
  let m := Z.of_nat (length bs) in
  mapped D D1 addrs addrs' size (k0 / BSIZE) a -> file_ok D addrs size -> 0 <= k0 <= size -> k0 mod BSIZE + m <= BSIZE ->
  k0 + m <= MAXFILE * BSIZE -> 0 < m -> Forall (fun x => 0 <= x < 256) bs ->
  written D (write_block D1 a (list_inserts (Z.to_nat (k0 mod BSIZE)) bs (D1 a))) addrs addrs' size k0 bs.
Proof.
  intros m [M1 M2 M3 M4 M5 M6 M7 M8 M9] Hf Hk0 Ho Hmax Hm Hbs. pose proof (fo_size _ _ _ Hf) as Hsz. unfold m in *. clear m.
  assert (EB : BSIZE = 1024) by done. assert (EM : MAXFILE = 268) by done. rewrite EB, EM in *.
  set (bn := k0 / 1024) in *. set (o := Z.to_nat (k0 mod 1024)). assert (Hbn : 0 <= bn < MAXFILE) by (unfold bn; rewrite EM; dlia).
  assert (Ea : file_addr D1 addrs' bn = a) by (rewrite M3 by lia; by rewrite Z.eqb_refl).
  assert (Hda : data_block D1 a) by (rewrite <- Ea; apply (fo_data _ _ _ M2 bn Hbn); by rewrite Ea).
  assert (Hai : a <> addr_at addrs' NDIRECT) by (rewrite <- Ea; apply (fo_apart _ _ _ M2 bn Hbn); by rewrite Ea).
  pose proof (sp_bytes _ _ (proj1 Hda)) as [Hla Hba]. rewrite EB in Hla. set (v := list_inserts o bs (D1 a)).
  destruct (write_data D1 a v M1 Hda) as (W1 & W2 & W3 & W4).
  { split; [by unfold v; rewrite length_inserts|]. by apply Forall_inserts. }
  destruct (file_ok_write D1 (write_block D1 a v) addrs' size v a M2 Hai eq_refl W2) as [Hf2 E2].
  split; [done| | | |intros inum Hin; rewrite W4 by done; by apply M7|].
  - eapply file_ok_longer; [exact Hf2|lia|]. intros k H1 H2. rewrite E2, M3 by lia. destruct (Z.eqb_spec k bn); [done|].
    apply (fo_present _ _ _ Hf); [done|]. unfold bn in *. dlia.
  - intros k Hk. unfold file_byte. rewrite E2, EB. destruct (decide (k0 <= k < k0 + Z.of_nat (length bs))) as [Hin|Hout].
    + assert (Ek : k / 1024 = bn /\ k mod 1024 = k0 mod 1024 + (k - k0)) by (unfold bn; dlia). destruct Ek as [-> ->].
      rewrite Ea, write_block_same. unfold v, o. pose proof (Z.mod_pos_bound k0 1024 ltac:(lia)).
      rewrite list_lookup_inserts by lia. do 2 f_equal. lia.
    + assert (Hks : k < size) by lia. assert (Hp : file_addr D addrs (k / 1024) <> 0) by (apply (fo_present _ _ _ Hf); dlia).
      assert (Hkr : 0 <= k / 1024 < MAXFILE) by (rewrite EM; dlia).
      pose proof (fo_data _ _ _ Hf _ Hkr Hp) as Hdk. pose proof (fo_apart _ _ _ Hf _ Hkr Hp) as Hki.
      destruct (M6 _ Hdk) as [_ Hsame]. specialize (Hsame Hki). rewrite M3 by lia. destruct (Z.eqb_spec (k / 1024) bn) as [Eb|Hne].
      * rewrite Eb in Hp, Hsame |- *. rewrite <- (M5 Hp) in Hsame |- *. rewrite write_block_same, <- Hsame. unfold v. f_equal.
        destruct (decide (Z.to_nat (k mod 1024) < o)%nat); [by apply list_lookup_inserts_lt|].
        apply list_lookup_inserts_ge. unfold o in *. unfold bn in Eb.
        pose proof (Z.mod_pos_bound k0 1024 ltac:(lia)). pose proof (Z.mod_pos_bound k 1024 ltac:(lia)). dlia.
      * rewrite write_block_other; [by rewrite Hsame|]. rewrite <- Ea. intros Ex. apply Hne.
        apply (fo_distinct _ _ _ M2); [done|done| |]; rewrite M3 by lia; destruct (Z.eqb_spec (k / 1024) bn); try done.
  - intros x Hx. destruct (M6 x Hx) as [H1 H2]. split; [by apply W2|]. intros Hn. rewrite write_block_other.
    + apply H2. intros ->. apply Hn. split; [destruct Hx as [[? _ _ _ _] _]; lia|by left].
    + intros ->. apply Hn, M9; [done|]. split; [done|]. right. by exists bn.
  - intros x Hx [H0 [E3|(k & Hkr & E3)]]; apply M9; try done; (split; [done|]); [by left|]. right. exists k. by rewrite E2 in E3.
Qed.

Lemma written_nothing D addrs size k0 :
  fs_ok D -> file_ok D addrs size -> 0 <= k0 <= size -> written D D addrs addrs size k0 [].
Proof.
  intros Hfs Hf Hk. assert (E : Z.max size (k0 + Z.of_nat (length ([] : list Z))) = size) by (cbn [length]; lia).
  split; rewrite ?E; try done. intros k Hkr. rewrite decide_False; [done|]. cbn [length]. lia.
Qed.

Lemma written_trans D D1 D2 addrs addrs1 addrs2 size k0 bs1 bs2 :
  let k1 := k0 + Z.of_nat (length bs1) in
  written D D1 addrs addrs1 size k0 bs1 -> written D1 D2 addrs1 addrs2 (Z.max size k1) k1 bs2 -> 0 <= k0 <= size ->
  written D D2 addrs addrs2 size k0 (bs1 ++ bs2).
Proof.
  intros k1 [A1 A2 A3 A4 A5 A6] [B1 B2 B3 B4 B5 B6] Hk0. fold k1 in A2, A3.
  assert (El : k0 + Z.of_nat (length (bs1 ++ bs2)) = k1 + Z.of_nat (length bs2)) by (unfold k1; rewrite length_app; lia).
  assert (Em : Z.max (Z.max size k1) (k1 + Z.of_nat (length bs2)) = Z.max size (k1 + Z.of_nat (length bs2))) by lia.
  rewrite Em in B2, B3. split; rewrite ?El; try done.
  - intros k Hk. rewrite B3 by done. destruct (decide (k1 <= k < k1 + Z.of_nat (length bs2))) as [H2|H2].
    + rewrite decide_True by (unfold k1 in *; lia). f_equal. rewrite lookup_app_r by (unfold k1 in *; lia). f_equal. unfold k1. lia.
    + rewrite A3 by (unfold k1 in *; lia). destruct (decide (k0 <= k < k1)) as [H1|H1].
      * rewrite decide_True by (unfold k1 in *; lia). f_equal. rewrite lookup_app_l by (unfold k1 in *; lia). done.
      * by rewrite decide_False by (unfold k1 in *; lia).
  - intros x Hx. destruct (A4 x Hx) as [Hx1 E1]. destruct (B4 x Hx1) as [Hx2 E2]. split; [done|]. intros Hn.
    rewrite E2, E1; [done|done|]. intros Hin. by apply Hn, A6.
  - intros inum Hin. by rewrite B5, A5.
  - intros x Hx Hin. apply A6; [done|]. apply B6; [by apply A4|done].
Qed.

Lemma runs_copyin_obj s old bs tot :
  in_proc i pid ks s -> 0 <= tot -> tot + Z.of_nat (length old) <= Z.of_nat (length bs) ->
  runs (either_copyin old (PObj bs) tot) s (0, take (length old) (drop (Z.to_nat tot) bs)) s.
Proof.
  intros Hip H1 H2. unfold either_copyin. eapply runs_bind; [apply runs_myproc, Hip|].
  destruct (Z.ltb_spec (Z.of_nat (length bs)) (tot + Z.of_nat (length old))); [lia|]. apply runs_ret.
Qed.

Lemma wrun_writei_round s d D bns ip x size ci c k bs off n tot :
  let m := chunk_at off n tot in
  let part := take (Z.to_nat m) (drop (Z.to_nat tot) bs) in
  txn s d D bns -> k_sb s = sb -> k_icache s !! ip = Some x -> i_dev x = dev -> fs_ok D -> file_ok D (i_addrs x) size ->
  0 <= off -> 0 <= tot < n -> off + tot <= size -> off + n <= MAXFILE * BSIZE -> n <= Z.of_nat (length bs) ->
  Forall (fun b => 0 <= b < 256) bs -> (2 <= length (free_list D))%nat -> Z.of_nat (length bns) + 6 < LOGSIZE ->
  cur_cont s ci c -> quota ci c k -> 2 <= k ->
  exists s' D' bns' addrs' c', wrun (writei_round ip (PObj bs) off n tot) s d [] (inl (tot + m)) s' /\ txn s' d D' bns' /\
    (length bns' <= length bns + 6)%nat /\ file_frame s s' ip (set_i_addrs addrs' x) ci c' /\ cur_cont s' ci c' /\
    quota ci c' (k - 2) /\ written D D' (i_addrs x) addrs' size (off + tot) part /\
    exists j, (j <= 2)%nat /\ free_list D' = drop j (free_list D).
Proof.
  intros m part Ht Hsb Hx Hd Hfs Hf Hoff Htot Hsz Hmax Hn Hbs Hfree Hcap Hcc Hq Hk.
  pose proof (chunk_at_range off n tot ltac:(lia) ltac:(lia)) as Hm. fold m in Hm. assert (EB : BSIZE = 1024) by done.
  assert (EM : MAXFILE = 268) by done. rewrite EM, EB in Hmax. set (k0 := off + tot) in *.
  assert (Hbn : 0 <= k0 / BSIZE < MAXFILE) by (unfold k0; rewrite EB, EM; dlia).
  destruct (wrun_bmap s d D bns ip x size ci c (k0 / BSIZE) k) as (a & s1 & D1 & bns1 & addrs1 & c1 & H1 & G1 & Hl1 & F1 & Hcc1 & Hq1 & M);
    try done; [lia|]. set (x1 := set_i_addrs addrs1 x) in *.
  assert (Hx1 : k_icache s1 !! ip = Some x1) by (rewrite (ffr_icache _ _ _ _ _ _ F1); apply list_lookup_insert_eq; by eapply lookup_lt_Some).
  assert (Ea : file_addr D1 addrs1 (k0 / BSIZE) = a) by (rewrite (mp_addr _ _ _ _ _ _ _ M) by done; by rewrite Z.eqb_refl).
  assert (Hda : data_block D1 a).
  { rewrite <- Ea. apply (fo_data _ _ _ (mp_file _ _ _ _ _ _ _ M) _ Hbn). rewrite Ea. apply M. }
  pose proof (proj1 Hda) as [_ Hha [Hla _] _ _].
  destruct (txn_bread s1 d D1 bns1 a G1 (proj1 Hha)) as (bp & s2 & H2 & F2 & G2).
  destruct (held_lookup _ _ _ _ _ _ _ G2) as (y & Hy & Ey). set (o := k0 mod BSIZE) in *.
  assert (Ho : 0 <= o /\ o + m <= BSIZE) by (unfold o, m, chunk_at; fold k0; rewrite EB; pose proof (Z.mod_pos_bound k0 1024 ltac:(lia)); lia).
  assert (Hlp : length part = Z.to_nat m) by (unfold part; rewrite length_take, length_drop; unfold m, chunk_at in *; lia).
  destruct (intxn_fill i pid ks dev start s2 d D1 bns1 _ a bp (D1 a) (list_inserts (Z.to_nat o) part (D1 a))
    (fun x => set_b_data (list_inserts (Z.to_nat o) part (b_data x)) x) G2 (lookup_singleton_eq _ _)) as (s3 & H3 & F3 & G3).
  { by intros z ->. }
  rewrite insert_singleton_eq in G3.
  destruct (held_write_back s3 d D1 bns1 a bp _ G3 Hha) as (s4 & H4 & F4 & G4); [lia|].
  assert (F14 : fs_frame s1 s4) by (by trans s2; [|trans s3]).
  exists s4, (write_block D1 a (list_inserts (Z.to_nat o) part (D1 a))), (absorb a bns1), addrs1, c1.
  split; [|split; [done|split; [pose proof (absorb_length a bns1); lia|split; [by eapply file_frame_fs|
    split; [exact (cur_cont_fs _ _ _ _ _ _ _ _ _ _ _ _ G1 G4 F14 Hcc1)|split; [done|split]]]]]].
  - unfold writei_round. destruct (Z.leb_spec n tot); [lia|]. fold k0. rewrite (u32_small k0) by lia.
    eapply wrun_then; [exact H1|]. eapply wrun_seq; [by apply runs_get_inode|]. change (i_dev x1) with (i_dev x). rewrite Hd.
    eapply wrun_then; [exact H2|]. change (Z.min (n - tot) (BSIZE - k0 mod BSIZE)) with m. cbv zeta. fold o.
    eapply wrun_seq; [by apply runs_get_buf|]. rewrite Ey.
    assert (Hlo : length (take (Z.to_nat m) (drop (Z.to_nat o) (D1 a))) = Z.to_nat m) by (rewrite length_take, length_drop; lia).
    eapply wrun_seq; [apply runs_copyin_obj; [by eapply intxn_in_proc|lia|rewrite Hlo; unfold m, chunk_at in *; lia]|].
    rewrite Hlo. fold part. cbn [fst snd]. eapply wrun_seq; [exact H3|]. change (0 =? -1) with false. cbv iota.
    apply wrun_assoc; [done..|]. eapply wrun_seq; [exact H4|]. apply wrun_runs, runs_ret.
  - apply written_round; try done; rewrite ?Hlp; [lia|fold o; lia|rewrite EM, EB; unfold m, chunk_at in *; lia|lia|].
    by apply Forall_take, Forall_drop.
  - destruct (write_data D1 a (list_inserts (Z.to_nat o) part (D1 a)) (mp_fs _ _ _ _ _ _ _ M) Hda) as (_ & _ & E & _).
    { split; [by rewrite length_inserts|]. apply Forall_inserts; [by destruct Hda as [[_ _ [_ ?] _ _] _]|by apply Forall_take, Forall_drop]. }
    rewrite E. apply M.
Qed.

(** The loop of writei, when [r] blocks are still to be touched. *)

Lemma wrun_writei_loop d ip bs off n : forall (r f : nat) tot s D bns x size ci c k,
  txn s d D bns -> k_sb s = sb -> k_icache s !! ip = Some x -> i_dev x = dev -> fs_ok D -> file_ok D (i_addrs x) size ->
  0 <= off -> 0 <= tot <= n -> off + tot <= size -> off + n <= MAXFILE * BSIZE -> n <= Z.of_nat (length bs) ->
  Forall (fun b => 0 <= b < 256) bs -> (2 * r <= length (free_list D))%nat -> Z.of_nat (length bns) + 6 * Z.of_nat r < LOGSIZE ->
  cur_cont s ci c -> quota ci c k -> 2 * Z.of_nat r <= k -> (r <= f)%nat ->
  tot = n \/ n - tot + (off + tot) mod BSIZE <= BSIZE * Z.of_nat r ->
  exists s' D' bns' addrs' c', wrun (loop (S f) (writei_round ip (PObj bs) off n) tot) s d [] n s' /\ txn s' d D' bns' /\
    (length bns' <= length bns + 6 * r)%nat /\ file_frame s s' ip (set_i_addrs addrs' x) ci c' /\ cur_cont s' ci c' /\
    written D D' (i_addrs x) addrs' size (off + tot) (take (Z.to_nat (n - tot)) (drop (Z.to_nat tot) bs)).
Proof.
  assert (EB : BSIZE = 1024) by done. induction r as [|r IH];
    intros f tot s D bns x size ci c k Ht Hsb Hx Hd Hfs Hf Hoff Htot Hsz Hmax Hn Hbs Hfree Hcap Hcc Hq Hk Hrf Hr;
    (assert (Exx : set_i_addrs (i_addrs x) x = x) by (by destruct x)); destruct (decide (tot = n)) as [->|Hne];
    try (exists s, D, bns, (i_addrs x), c; rewrite Exx; split; [apply wrun_runs; cbn [loop]; unfold writei_round at 1; rewrite Z.leb_refl; apply runs_ret|];
      split; [done|split; [lia|split; [by eapply file_frame_refl, cur_cont_lookup|split; [done|]]]];
      rewrite Z.sub_diag; change (take (Z.to_nat 0) ?l) with ([] : list Z); apply written_nothing; [done|done|lia]).
  { exfalso. pose proof (Z.mod_pos_bound (off + tot) BSIZE). lia. }
  destruct f as [|f]; [lia|]. pose proof (chunk_at_range off n tot ltac:(lia) ltac:(lia)) as Hm.
  destruct (wrun_writei_round s d D bns ip x size ci c k bs off n tot)
    as (s1 & D1 & bns1 & addrs1 & c1 & H1 & G1 & Hl1 & F1 & Hcc1 & Hq1 & W1 & j & Hj & Efl); try done; try lia.
  set (m := chunk_at off n tot) in *. set (part := take (Z.to_nat m) (drop (Z.to_nat tot) bs)) in *.
  assert (Hlp : Z.of_nat (length part) = m) by (unfold part; rewrite length_take, length_drop; unfold m, chunk_at in *; lia).
  pose proof W1 as [W11 W12 _ _ _ _]. rewrite Hlp in W12. set (x1 := set_i_addrs addrs1 x) in *.
  assert (Hmn : m <= n - tot) by (unfold m, chunk_at; lia).
  destruct (IH f (tot + m) s1 D1 bns1 x1 (Z.max size (off + tot + m)) ci c1 (k - 2))
    as (s2 & D2 & bns2 & addrs2 & c2 & H2 & G2 & Hl2 & F2 & Hcc2 & W2); try done; try lia.
  - by rewrite (ffr_sb _ _ _ _ _ _ F1).
  - rewrite (ffr_icache _ _ _ _ _ _ F1). apply list_lookup_insert_eq. by eapply lookup_lt_Some.
  - rewrite Efl, length_drop. lia.
  - destruct Hr as [|Hr]; [lia|]. unfold m, chunk_at. rewrite EB in *.
    destruct (Z.min_spec (n - tot) (1024 - (off + tot) mod 1024)) as [[Hc ->]|[Hc ->]]; [left; lia|right]. dlia.
  - exists s2, D2, bns2, addrs2, c2. split; [|split; [done|split; [lia|split; [|split; [done|]]]]].
    + change (loop (S (S f)) (writei_round ip (PObj bs) off n) tot) with (bind (writei_round ip (PObj bs) off n tot)
        (fun r => match r with inl y => loop (S f) (writei_round ip (PObj bs) off n) y | inr v => ret v end)).
      eapply wrun_then; [exact H1|exact H2].
    + exact (file_frame_trans _ _ _ _ _ _ _ _ _ F1 F2).
    + replace (take (Z.to_nat (n - tot)) (drop (Z.to_nat tot) bs)) with (part ++ take (Z.to_nat (n - (tot + m))) (drop (Z.to_nat (tot + m)) bs)).
      * eapply written_trans; [exact W1| |lia]. rewrite Hlp. by replace (off + tot + m) with (off + (tot + m)) in * by lia.
      * unfold part. replace (Z.to_nat (n - tot)) with (Z.to_nat m + Z.to_nat (n - (tot + m)))%nat by lia.
        rewrite <- take_take_drop, drop_drop. do 3 f_equal. lia.
Qed.

(** ** iupdate of a file *)

Lemma IBLOCK_inj D a b :
  fs_ok D -> 0 <= a < sb_ninodes sb -> 0 <= b < sb_ninodes sb -> IBLOCK a sb = IBLOCK b sb -> a <> b ->
  dinode_off a + 64 <= dinode_off b \/ dinode_off b + 64 <= dinode_off a.
Proof.
  intros Hfs Ha Hb. pose proof (fk_range _ Hfs). unfold IBLOCK, dinode_off, sizeof_dinode. change IPB with 16.
  rewrite !u32_small by dlia. dlia.
Qed.

Lemma updated_keeps D x :
  fs_ok D -> 0 <= i_inum x < sb_ninodes sb -> length (i_addrs x) = 13%nat ->
  fs_ok (updated sb x D) /\ (forall b, data_block D b -> data_block (updated sb x D) b /\ updated sb x D b = D b) /\
  (forall inum y, 0 <= inum < sb_ninodes sb -> inum <> i_inum x -> on_disk sb D inum y -> on_disk sb (updated sb x D) inum y).
Proof.
  intros Hfs Hin H13. destruct (fk_inodes _ Hfs _ Hin) as [Hh [Hl Hb]]. set (n := IBLOCK (i_inum x) sb) in *.
  set (v := dinode_in (i_inum x) x (D n)). assert (Hv : bytes v).
  { unfold v, dinode_in. split; [by rewrite length_inserts|]. apply Forall_inserts; [done|apply bytes_dinode]. }
  change (updated sb x D) with (write_block D n v).
  assert (Hu : forall b, 0 <= b < sb_size sb -> used sb (write_block D n v) b = used sb D b).
  { intros b Hbr. unfold used. rewrite write_block_other; [done|]. by apply (fk_apart _ Hfs). }
  assert (Hby : forall b, bytes (D b) -> bytes (write_block D n v b)).
  { intros b Hbb. destruct (decide (b = n)) as [->|]; [by rewrite write_block_same|by rewrite write_block_other]. }
  assert (Hsp : forall b, spare D b -> spare (write_block D n v) b) by (intros b [S1 S2 S3 S4 S5]; split; auto).
  split; [|split].
  - split; [by apply layout_write; [apply Hfs|]| |apply Hfs| |apply Hfs].
    + intros inum Hi. destruct (fk_inodes _ Hfs _ Hi) as [H1 H2]. split; [done|by apply Hby].
    + intros b Hbr Hub. rewrite Hu in Hub by done. by apply Hsp, (fk_free _ Hfs).
  - intros b [Hs Hub]. split; [split; [by apply Hsp|]|].
    + rewrite Hu; [done|]. destruct Hs. lia.
    + apply write_block_other. intros ->. by apply (sp_inode _ _ Hs (i_inum x)).
  - intros inum y Hi Hne Hon. unfold on_disk in *. destruct (decide (IBLOCK inum sb = n)) as [E|E]; [|by rewrite write_block_other].
    rewrite E in *. rewrite write_block_same, <- Hon. unfold v, dinode_in. apply take_drop_inserts_other.
    rewrite (length_dinode_bytes x H13). pose proof (dinode_off_range inum). pose proof (dinode_off_range (i_inum x)).
    destruct (IBLOCK_inj D inum (i_inum x) Hfs Hi Hin E Hne); lia.
Qed.

Lemma file_byte_keeps D D' addrs size k :
  (forall x, data_block D x -> data_block D' x /\ D' x = D x) -> file_ok D addrs size -> 0 <= k < size ->
  file_byte D' addrs k = file_byte D addrs k.
Proof.
  intros Hk Hf Hkr. unfold file_byte. rewrite (file_addr_keeps D D' addrs _ Hk (fo_indirect _ _ _ Hf)).
  pose proof (fo_size _ _ _ Hf) as Hs. change MAXFILE with 268 in Hs. change BSIZE with 1024 in *.
  assert (Hp : file_addr D addrs (k / 1024) <> 0) by (apply (fo_present _ _ _ Hf); change BSIZE with 1024; dlia).
  assert (Hr : 0 <= k / 1024 < MAXFILE) by (change MAXFILE with 268; dlia).
  by rewrite (proj2 (Hk _ (fo_data _ _ _ Hf _ Hr Hp))).
Qed.

(** The whole contents of a file, and contents with [bs] written at [off]. *)

Definition contents (D : disk) (x : inode) : list Z := content D (i_addrs x) 0 (i_size x).

Definition splice (off : Z) (bs old : list Z) : list Z :=
  take (Z.to_nat off) old ++ bs ++ drop (Z.to_nat off + length bs) old.

Lemma splice_lookup off bs old (j : nat) :
  (Z.to_nat off <= length old)%nat -> splice off bs old !! j =
    if decide (Z.to_nat off <= j < Z.to_nat off + length bs)%nat then bs !! (j - Z.to_nat off)%nat else old !! j.
Proof.
  intros Hl. unfold splice. destruct (decide (Z.to_nat off <= j < Z.to_nat off + length bs)%nat) as [H|H].
  - rewrite lookup_app_r by (rewrite length_take; lia). rewrite length_take, lookup_app_l by lia. f_equal. lia.
  - destruct (decide (j < Z.to_nat off)%nat).
    + rewrite lookup_app_l by (rewrite length_take; lia). by rewrite lookup_take_lt.
    + rewrite lookup_app_r by (rewrite length_take; lia). rewrite length_take, lookup_app_r by lia.
      rewrite lookup_drop. f_equal. lia.
Qed.

Lemma splice_part off bs old :
  (Z.to_nat off <= length old)%nat -> take (length bs) (drop (Z.to_nat off) (splice off bs old)) = bs.
Proof.
  intros H. unfold splice. rewrite drop_app_ge by (rewrite length_take; lia).
  rewrite length_take. replace (Z.to_nat off - _)%nat with 0%nat by lia. rewrite drop_0. apply take_app_length.
Qed.

Lemma content_part D x off n :
  0 <= off -> 0 <= n -> off + n <= i_size x ->
  content D (i_addrs x) off n = take (Z.to_nat n) (drop (Z.to_nat off) (contents D x)).
Proof.
  intros H1 H2 H3. apply list_eq. intros j. destruct (decide (j < Z.to_nat n)%nat).
  - rewrite lookup_take_lt, lookup_drop, lookup_content by lia. unfold contents. rewrite lookup_content by lia. do 2 f_equal. lia.
  - rewrite lookup_take_ge by lia. apply lookup_ge_None. rewrite length_content. lia.
Qed.

(** The file system after a write to the file with inode [x], which is then [x']. *)

Record wrote (D D' : disk) (x x' : inode) (off : Z) (bs : list Z) : Prop := {
  wo_fs : fs_ok D';
  wo_file : file_ok D' (i_addrs x') (i_size x');
  wo_size : i_size x' = Z.max (i_size x) (off + Z.of_nat (length bs));
  wo_contents : contents D' x' = splice off bs (contents D x);
  wo_disk : on_disk sb D' (i_inum x) x';
  wo_data : forall b, data_block D b -> data_block D' b /\ (~ in_file D (i_addrs x) b -> D' b = D b);
  wo_inodes : forall inum y, 0 <= inum < sb_ninodes sb -> inum <> i_inum x -> on_disk sb D inum y -> on_disk sb D' inum y;
}.

Lemma written_wrote D D' x x' addrs' size' off bs :
  written D D' (i_addrs x) addrs' (i_size x) off bs -> x' = set_i_size size' (set_i_addrs addrs' x) ->
  size' = Z.max (i_size x) (off + Z.of_nat (length bs)) -> file_ok D (i_addrs x) (i_size x) -> 0 <= off <= i_size x ->
  0 <= i_inum x < sb_ninodes sb -> wrote D (updated sb x' D') x x' off bs.
Proof.
  intros [W1 W2 W3 W4 W5 W6] -> Es Hf Hoff Hin. set (x' := set_i_size size' (set_i_addrs addrs' x)). rewrite <- Es in W2, W3.
  destruct (fk_inodes _ W1 _ Hin) as [_ [Hl _]].
  destruct (updated_keeps D' x' W1 Hin (fo_length _ _ _ W2)) as (U1 & U2 & U3). pose proof (fo_size _ _ _ W2) as Hs'. pose proof (fo_size _ _ _ Hf) as Hs.
  split; [done|by eapply file_ok_keeps|done| | | |].
  - unfold contents. apply list_eq. intros j. rewrite splice_lookup by (rewrite length_content; lia).
    change (i_addrs x') with addrs'. change (i_size x') with size'. destruct (decide (j < Z.to_nat size')%nat) as [Hj|Hj].
    + rewrite lookup_content by done. rewrite Z.add_0_l. rewrite (file_byte_keeps D' _ addrs' size') by (done || lia).
      rewrite W3 by lia. destruct (decide (Z.to_nat off <= j < Z.to_nat off + length bs)%nat) as [H|H].
      * rewrite decide_True by lia. replace (Z.to_nat (Z.of_nat j - off)) with (j - Z.to_nat off)%nat by lia.
        destruct (lookup_lt_is_Some_2 bs (j - Z.to_nat off)) as [b Hb]; [lia|]. by rewrite Hb.
      * rewrite decide_False by lia. rewrite lookup_content by lia. by rewrite Z.add_0_l.
    + rewrite decide_False by lia. rewrite !lookup_ge_None_2; [done|rewrite length_content; lia..].
  - apply (updated_on_disk sb x' D'); [done|apply (fo_length _ _ _ W2)].
  - intros b Hb. destruct (W4 b Hb) as [H1 H2]. destruct (U2 b H1) as [H3 H4]. split; [done|]. intros Hn. by rewrite H4, H2.
  - intros inum y Hi Hne Hon. apply U3; [done|done|]. unfold on_disk in *. by rewrite W5.
Qed.

(** How many blocks a write touches. *)

Definition blocks_of (off n : Z) : Z := (off mod BSIZE + n + BSIZE - 1) / BSIZE.

Lemma blocks_of_bound off n :
  0 < n -> 0 < blocks_of off n <= n / BSIZE + 2 /\ n + off mod BSIZE <= BSIZE * blocks_of off n.
Proof. intros Hn. unfold blocks_of. change BSIZE with 1024. pose proof (Z.mod_pos_bound off 1024 ltac:(lia)). dlia. Qed.

(** There is room for a write: in the log, on the disk and in the quota. *)

Record room (D : disk) (bns : list Z) (ci : nat) (c : container) (r : Z) : Prop := {
  rm_log : Z.of_nat (length bns) + 6 * r + 1 < LOGSIZE;
  rm_disk : 2 * r <= Z.of_nat (length (free_list D));
  rm_quota : quota ci c (2 * r);
}.

Lemma wrun_writei s d D bns ip x ci c off bs :
  let n := Z.of_nat (length bs) in
  txn s d D bns -> k_sb s = sb -> k_icache s !! ip = Some x -> i_dev x = dev -> 0 <= i_inum x < sb_ninodes sb ->
  fs_ok D -> file_ok D (i_addrs x) (i_size x) -> 0 <= off <= i_size x -> off + n <= MAXFILE * BSIZE -> 0 < n ->
  Forall (fun b => 0 <= b < 256) bs -> cur_cont s ci c -> room D bns ci c (blocks_of off n) ->
  exists s' D' bns' x' c', wrun (writei ip (PObj bs) off n) s d [] n s' /\ txn s' d D' bns' /\
    Z.of_nat (length bns') <= Z.of_nat (length bns) + 6 * blocks_of off n + 1 /\
    (exists addrs', x' = set_i_size (i_size x') (set_i_addrs addrs' x)) /\ file_frame s s' ip x' ci c' /\ cur_cont s' ci c' /\
    wrote D D' x x' off bs.
Proof.
  intros n Ht Hsb Hx Hd Hin Hfs Hf Hoff Hmax Hn Hbs Hcc [Rl Rd Rq]. pose proof (blocks_of_bound off n Hn) as [Hr1 Hr2].
  assert (EB : BSIZE = 1024) by done. assert (EM : MAXFILE = 268) by done. pose proof (fo_size _ _ _ Hf) as Hsz. set (r := blocks_of off n) in *.
  destruct (wrun_writei_loop d ip bs off n (Z.to_nat r) (Z.to_nat (n / BSIZE + 2)) 0 s D bns x (i_size x) ci c (2 * r))
    as (s1 & D1 & bns1 & addrs1 & c1 & H1 & G1 & Hl1 & F1 & Hcc1 & W); try done; try lia.
  { rewrite Z.add_0_r, Z.sub_0_r. right. rewrite Z2Nat.id by lia. lia. }
  rewrite Z.add_0_r, Z.sub_0_r in W. change (drop (Z.to_nat 0) bs) with bs in W. rewrite take_ge in W by (unfold n; lia).
  set (x1 := set_i_addrs addrs1 x) in *. set (size' := Z.max (i_size x) (off + n)).
  assert (Hx1 : k_icache s1 !! ip = Some x1) by (rewrite (ffr_icache _ _ _ _ _ _ F1); apply list_lookup_insert_eq; by eapply lookup_lt_Some).
  set (x2 := set_i_size size' x1). set (s2 := with_inode ip x2 s1).
  pose proof (written_wrote D D1 x x2 addrs1 size' off bs W eq_refl eq_refl Hf Hoff Hin) as Hw.
  assert (Hx2 : k_icache s2 !! ip = Some x2) by (by eapply lookup_with_inode).
  destruct (wrun_iupdate s2 d D1 bns1 sb ip x2) as (s3 & H3 & F3 & G3); try done.
  { by apply intxn_set_icache. } { cbn. by rewrite (ffr_sb _ _ _ _ _ _ F1). } { apply (fo_length _ _ _ (wr_file _ _ _ _ _ _ _ W)). }
  { by apply (fk_inodes _ (wr_fs _ _ _ _ _ _ _ W)). } { lia. }
  pose proof (absorb_length (IBLOCK (i_inum x2) sb) bns1) as Hab.
  exists s3, (updated sb x2 D1), (absorb (IBLOCK (i_inum x2) sb) bns1), x2, c1.
  split; [|split; [done|split; [lia|split; [by exists addrs1|split; [|split; [|done]]]]]].
  - unfold writei. eapply wrun_seq; [by apply runs_get_inode|]. destruct (Z.ltb_spec (i_size x) off); [lia|].
    rewrite EM, EB in *. rewrite (u32_small (off + n)) by lia. destruct (Z.ltb_spec (off + n) off); [lia|]. cbn [orb].
    destruct (Z.ltb_spec (268 * 1024) (off + n)); [lia|]. eapply wrun_then.
    { apply wrun_loopz. replace (Z.to_nat (n / 1024 + 3)) with (S (Z.to_nat (n / 1024 + 2))) by dlia. exact H1. }
    destruct (Z.ltb_spec 0 n); [|lia]. rewrite i32_small by lia. eapply wrun_then; [|apply wrun_runs, runs_ret].
    eapply wrun_seq; [by apply runs_get_inode|]. rewrite (u32_small (off + n)) by lia. change (i_size x1) with (i_size x).
    assert (Hmod : runs (if* i_size x <? off + n then mod_inode ip (set_i_size (off + n))) s1 tt s2).
    { unfold s2, x2, size'. destruct (Z.ltb_spec (i_size x) (off + n)) as [Hlt|Hge].
      - rewrite Z.max_r by lia. by apply (runs_mod_inode ip _ x1).
      - rewrite Z.max_l by lia. replace (with_inode ip _ s1) with s1; [apply runs_ret|].
        unfold with_inode. replace (set_i_size (i_size x) x1) with x1 by (unfold x1; by destruct x). rewrite list_insert_id by done. by destruct s1. }
    eapply wrun_seq; [exact Hmod|exact H3].
  - eapply file_frame_fs; [|exact F3]. by eapply file_frame_inode.
  - apply (cur_cont_fs s2 s3 ci c1 d D1 bns1 ∅ d (updated sb x2 D1) (absorb (IBLOCK (i_inum x2) sb) bns1) ∅); try done.
    by apply intxn_set_icache.
Qed.

(** C15: writei of a whole buffer at an offset inside the file or at its end.  It returns
    the number of bytes; the contents of the file are then the old ones with the bytes
    spliced in at the offset, and the size is adjusted; blocks are allocated as needed,
    direct and indirect, and none of another file; the inode on the disk has the new
    size and addresses; every block of data outside the file and every other inode is
    unchanged; and reading the range back gives the bytes. *)

Theorem writei_splices s d D bns ip x ci c off bs :
  let n := Z.of_nat (length bs) in
  txn s d D bns -> k_sb s = sb -> k_icache s !! ip = Some x -> i_dev x = dev -> 0 <= i_inum x < sb_ninodes sb ->
  fs_ok D -> file_ok D (i_addrs x) (i_size x) -> 0 <= off <= i_size x -> off + n <= MAXFILE * BSIZE -> 0 < n ->
  Forall (fun b => 0 <= b < 256) bs -> cur_cont s ci c -> room D bns ci c (blocks_of off n) ->
  exists s' D' bns' x', wrun (writei ip (PObj bs) off n) s d [] n s' /\ txn s' d D' bns' /\ k_icache s' !! ip = Some x' /\
    i_size x' = Z.max (i_size x) (off + n) /\ contents D' x' = splice off bs (contents D x) /\
    fs_ok D' /\ file_ok D' (i_addrs x') (i_size x') /\ on_disk sb D' (i_inum x) x' /\
    (forall b, data_block D b -> ~ in_file D (i_addrs x) b -> D' b = D b) /\
    (forall inum y, 0 <= inum < sb_ninodes sb -> inum <> i_inum x -> on_disk sb D inum y -> on_disk sb D' inum y) /\
    exists s2, wrun (readi ip (PObj (replicate (length bs) 0)) off n) s' d [] (n, PObj bs) s2.
Proof.
  intros n Ht Hsb Hx Hd Hin Hfs Hf Hoff Hmax Hn Hbs Hcc Hroom.
  destruct (wrun_writei s d D bns ip x ci c off bs Ht Hsb Hx Hd Hin Hfs Hf Hoff Hmax Hn Hbs Hcc Hroom)
    as (s' & D' & bns' & x' & c' & Hr & Ht' & _ & (addrs' & Ex) & F & _ & [W1 W2 W3 W4 W5 W6 W7]).
  exists s', D', bns', x'. assert (Hx' : k_icache s' !! ip = Some x').
  { rewrite (ffr_icache _ _ _ _ _ _ F). apply list_lookup_insert_eq. by eapply lookup_lt_Some. }
  split_and!; try done.
  - intros b Hb Hnb. by apply W6.
  - fold n in W3. pose proof (fo_size _ _ _ W2) as Hs'. change MAXFILE with 268 in Hs'. change BSIZE with 1024 in Hs'.
    destruct (wrun_readi s' d D' bns' ip x' off n (replicate (length bs) 0)) as (s2 & Hr2 & _); try done; try lia.
    + by rewrite Ex.
    + rewrite length_replicate. unfold n. lia.
    + exists s2. replace (read_len (i_size x') off n) with n in Hr2 by (unfold read_len; lia).
      rewrite drop_ge, app_nil_r in Hr2 by (rewrite length_replicate; unfold n; lia).
      rewrite (content_part D' x' off n), W4 in Hr2 by lia. unfold n in Hr2 at 3. rewrite Nat2Z.id in Hr2.
      rewrite splice_part in Hr2; [done|]. unfold contents. rewrite length_content. lia.
Qed.

End File.

End Inode.
