(* ===== verification/Dirspec.v ===== *)
(** * The inode cache and directories

    iget finds or makes the one entry of the cache for an inode.  A directory is a file
    of struct dirents; dirlookup and dirlink of kernel/fs.c implement a map from names
    to inode numbers on its contents. *)

From S2P Require Import Prelude Monad Riscv Kstring Kstate Spinlock Printf Kalloc Vm Sched Schedspec Bio Log Diskspec Cachespec Logspec Fs Txnspec Inodespec.

(** ** Names *)

(** The name in an array: its characters up to a NUL, at most [n]. *)

Fixpoint key (n : nat) (p : list Z) : option (list Z) :=
  match n with
  | O => Some []
  | S n' =>
      match p with
      | [] => None
      | a :: p' => if a =? 0 then Some [] else cons a <$> key n' p'
      end
  end.

Lemma key_total n : forall p, (n <= length p)%nat -> is_Some (key n p).
Proof.
  induction n as [|n IH]; intros [|a p] H; cbn in *; try (by eexists); [lia|]. destruct (a =? 0); [by eexists|].
  destruct (IH p) as [k ->]; [lia|]. by eexists.
Qed.

Lemma strncmp_key n : forall p q k l,
  key n p = Some k -> key n q = Some l -> exists c, strncmp_from p q n = Some c /\ (c = 0 <-> k = l).
Proof.
  induction n as [|n IH]; intros p q k l Hp Hq; cbn in *.
  - exists 0. split; [by destruct p|]. split; [congruence|done].
  - destruct p as [|a p]; [done|]. destruct q as [|b q]; [done|]. cbn [strncmp_from]. revert Hp Hq.
    destruct (Z.eqb_spec a 0) as [->|Ha]; cbn [negb andb]; intros Hp.
    + exists (0 - b). split; [done|]. injection Hp as <-. destruct (Z.eqb_spec b 0) as [->|Hb]; [split; [congruence|done]|].
      destruct (key n q); [|done]. injection Hq as <-. split; [lia|done].
    + destruct (key n p) as [k'|] eqn:Ek; [|done]. injection Hp as <-. destruct (Z.eqb_spec a b) as [<-|Hab].
      * apply Z.eqb_neq in Ha. rewrite Ha. destruct (key n q) as [l'|] eqn:El; [|done]. intros [= <-].
        destruct (IH p q k' l' Ek El) as (c & Hc & Hz). exists c. split; [done|]. rewrite Hz. split; [by intros ->|by intros [=]].
      * intros Hq. exists (a - b). split; [done|]. split; [lia|]. intros <-. exfalso.
        destruct (b =? 0); [done|]. destruct (key n q); [|done]. by injection Hq.
Qed.

Lemma zero_pad_all s n : length s = n -> zero_pad s n = Some (replicate n 0).
Proof. revert s. induction n as [|n IH]; intros [|a s] H; try done. cbn. rewrite IH by (injection H; done). done. Qed.

Lemma strncpy_key n : forall s t k,
  key n t = Some k -> length s = n -> strncpy_from s t n = Some (k ++ replicate (n - length k) 0).
Proof.
  induction n as [|n IH]; intros s t k Ht Hs; cbn in Ht.
  - injection Ht as <-. by destruct s.
  - destruct t as [|c t]; [done|]. destruct s as [|x s]; [done|]. cbn in Hs |- *. destruct (Z.eqb_spec c 0) as [->|Hc].
    + injection Ht as <-. rewrite zero_pad_all by lia. cbn. done.
    + destruct (key n t) as [k'|] eqn:Ek; [|done]. injection Ht as <-. rewrite (IH s t k' Ek) by lia. done.
Qed.

Lemma key_padded n : forall p k, key n p = Some k -> key n (k ++ replicate (n - length k) 0) = Some k.
Proof.
  induction n as [|n IH]; intros p k Hp; cbn in *; [by injection Hp as <-|]. destruct p as [|a p]; [done|].
  destruct (Z.eqb_spec a 0) as [->|Ha]; [by injection Hp as <-|]. destruct (key n p) as [k'|] eqn:Ek; [|done]. injection Hp as <-.
  cbn. apply Z.eqb_neq in Ha. rewrite Ha. by rewrite (IH p k' Ek).
Qed.

Lemma key_length n : forall p k, key n p = Some k -> (length k <= n)%nat.
Proof.
  induction n as [|n IH]; intros p k Hp; cbn in *; [by injection Hp as <-|]. destruct p as [|a p]; [done|].
  destruct (a =? 0); [injection Hp as <-; cbn; lia|]. destruct (key n p) as [k'|] eqn:Ek; [|done]. injection Hp as <-.
  specialize (IH p k' Ek). cbn. lia.
Qed.

Lemma key_bytes n : forall p k, key n p = Some k -> Forall (fun x => 0 <= x < 256) p -> Forall (fun x => 0 <= x < 256) k.
Proof.
  induction n as [|n IH]; intros p k Hp Hb; cbn in *; [by injection Hp as <-|]. destruct p as [|a p]; [done|].
  apply Forall_cons in Hb as [Ha Hb]. destruct (a =? 0); [by injection Hp as <-|]. destruct (key n p) as [k'|] eqn:Ek; [|done].
  injection Hp as <-. constructor; [done|by eapply IH].
Qed.

(** ** iget *)

Definition cached_as (dev inum : Z) (x : inode) : bool := (0 <? i_ref x) && (i_dev x =? dev) && (i_inum x =? inum).

(** The cache: reference counts of an int, and at most one entry for an inode. *)

Record icache_ok (ic : list inode) : Prop := {
  ic_length : length ic = NINODE;
  ic_refs : Forall (fun x => 0 <= i_ref x < 2 ^ 31 - 1) ic;
  ic_unique : forall j k x y, ic !! j = Some x -> ic !! k = Some y -> 0 < i_ref x -> 0 < i_ref y ->
    i_dev x = i_dev y -> i_inum x = i_inum y -> j = k;
}.

(** The search, on the list. *)

Fixpoint scan (dev inum : Z) (l : list inode) (j : nat) (empty : option nat) : option nat + option nat :=
  match l with
  | [] => inr empty
  | x :: l' =>
      if cached_as dev inum x then inl (Some j)
      else scan dev inum l' (S j) (match empty with None => if i_ref x =? 0 then Some j else None | Some _ => empty end)
  end.

Lemma runs_iget_scan dev inum s : forall (m j : nat) empty,
  (j + m = length (k_icache s))%nat ->
  runs (iget_scan (seq j m) dev inum empty) s (scan dev inum (drop j (k_icache s)) j empty) s.
Proof.
  induction m as [|m IH]; intros j empty Hj; cbn [seq iget_scan].
  - rewrite drop_ge by lia. apply runs_ret.
  - destruct (lookup_lt_is_Some_2 (k_icache s) j) as [x Hx]; [lia|]. rewrite (drop_S _ _ _ Hx). cbn [scan].
    eapply runs_bind; [by apply runs_get_inode|]. fold (cached_as dev inum x). destruct (cached_as dev inum x); [apply runs_ret|].
    apply IH. lia.
Qed.

Lemma scan_spec dev inum : forall l j empty,
  match scan dev inum l j empty with
  | inl o => exists k x, o = Some (j + k)%nat /\ l !! k = Some x /\ cached_as dev inum x = true
  | inr o => Forall (fun x => cached_as dev inum x = false) l /\
      match empty with
      | Some e => o = Some e
      | None => match o with
                | Some e => exists k x, e = (j + k)%nat /\ l !! k = Some x /\ i_ref x = 0
                | None => Forall (fun x => i_ref x <> 0) l
                end
      end
  end.
Proof.
  induction l as [|x l IH]; intros j empty; cbn [scan].
  - split; [constructor|]. destruct empty; [done|constructor].
  - destruct (cached_as dev inum x) eqn:Ec; [exists 0%nat, x; split; [f_equal; lia|done]|].
    set (e' := match empty with None => if i_ref x =? 0 then Some j else None | Some _ => empty end).
    specialize (IH (S j) e'). destruct (scan dev inum l (S j) e') as [o|o].
    + destruct IH as (k & y & -> & Hk & Hy). exists (S k), y. split; [f_equal; lia|done].
    + destruct IH as [Hf Ho]. split; [by constructor|]. unfold e' in Ho. destruct empty as [e|]; [done|].
      destruct (Z.eqb_spec (i_ref x) 0) as [E0|E0].
      * subst o. exists 0%nat, x. split; [lia|done].
      * destruct o as [e|]; [|by constructor]. destruct Ho as (k & y & -> & Hk & Hy). exists (S k), y. split; [lia|done].
Qed.

(** What iget makes of the entry it settles on. *)

Definition iget_entry (dev inum : Z) (x : inode) : inode :=
  if cached_as dev inum x then set_i_ref (i_ref x + 1) x
  else set_i_valid 0 (set_i_ref 1 (set_i_inum inum (set_i_dev dev x))).

Definition locked_icache (s : kst) : kst := set_k_held ({[Licache]} ∪ k_held s) s.

Lemma runs_release_icache ip x s :
  k_held s = ∅ -> runs (release Licache) (with_inode ip x (locked_icache s)) tt (with_inode ip x s).
Proof.
  intros Hh. eapply runs_release_to.
  - change (Licache ∈ ({[Licache]} ∪ k_held s : gset lock)). set_solver.
  - unfold with_inode, locked_icache. cbn. rewrite Hh.
    replace (({[Licache]} ∪ ∅) ∖ {[Licache]} : gset lock) with (∅ : gset lock) by set_solver. rewrite <- Hh. by destruct s.
Qed.

Lemma runs_iget `{KI : KernelImage} dev inum s :
  k_held s = ∅ -> icache_ok (k_icache s) ->
  (exists ip x, k_icache s !! ip = Some x /\ runs (iget dev inum) s ip (with_inode ip (iget_entry dev inum x) s) /\
    (cached_as dev inum x = true \/ i_ref x = 0 /\ Forall (fun y => cached_as dev inum y = false) (k_icache s))) \/
  Forall (fun y => cached_as dev inum y = false /\ i_ref y <> 0) (k_icache s) /\ panics (iget dev inum) s "iget: no inodes".
Proof.
  intros Hh [Hl Hr Hu]. set (s1 := locked_icache s).
  assert (Hacq : runs (acquire Licache) s tt s1) by (apply runs_acquire; rewrite Hh; set_solver).
  pose proof (runs_iget_scan dev inum s1 NINODE 0 None (eq_sym Hl)) as Hs. change (drop 0 (k_icache s1)) with (k_icache s) in Hs.
  pose proof (scan_spec dev inum (k_icache s) 0 None) as Hspec. destruct (scan dev inum (k_icache s) 0 None) as [o|[e|]].
  - left. destruct Hspec as (k & x & -> & Hx & Hc). exists k, x. split; [done|]. split; [|by left].
    rewrite Forall_lookup in Hr. specialize (Hr _ _ Hx). unfold iget_entry. rewrite Hc. unfold iget.
    eapply runs_bind; [exact Hacq|]. eapply runs_bind; [exact Hs|]. eapply runs_bind; [by apply runs_valid|].
    eapply runs_bind; [by apply (runs_mod_inode k _ x)|]. cbv beta. rewrite i32_small by lia.
    eapply runs_bind; [exact (runs_release_icache k _ s Hh)|]. apply runs_ret.
  - left. destruct Hspec as [Hf (k & x & -> & Hx & H0)]. exists k, x. split; [done|]. split; [|by right].
    unfold iget_entry. rewrite Forall_lookup in Hf. rewrite (Hf _ _ Hx). unfold iget.
    eapply runs_bind; [exact Hacq|]. eapply runs_bind; [exact Hs|].
    eapply runs_bind; [by apply (runs_mod_inode k _ x)|].
    eapply runs_bind; [exact (runs_release_icache k _ s Hh)|]. apply runs_ret.
  - right. destruct Hspec as [Hf H0]. split; [by apply Forall_and|]. unfold iget.
    eapply panics_bind; [exact Hacq|]. eapply panics_bind; [exact Hs|]. apply panics_panic.
Qed.

Lemma cached_as_iff dev inum x : cached_as dev inum x = true <-> 0 < i_ref x /\ i_dev x = dev /\ i_inum x = inum.
Proof. unfold cached_as. rewrite !andb_true_iff, Z.ltb_lt, !Z.eqb_eq. tauto. Qed.

Lemma iget_entry_cached dev inum x :
  0 <= i_ref x -> i_dev (iget_entry dev inum x) = dev /\ i_inum (iget_entry dev inum x) = inum /\ 0 < i_ref (iget_entry dev inum x).
Proof.
  intros H. unfold iget_entry. destruct (cached_as dev inum x) eqn:E; [|done]. apply cached_as_iff in E. destruct x; cbn in *. lia.
Qed.

(** The references that the cache holds to an inode. *)

Fixpoint refs_to (dev inum : Z) (ic : list inode) : Z :=
  match ic with
  | [] => 0
  | x :: ic' => (if cached_as dev inum x then i_ref x else 0) + refs_to dev inum ic'
  end.

Lemma refs_to_insert dev inum ic ip x y :
  ic !! ip = Some x ->
  refs_to dev inum (<[ip := y]> ic) = refs_to dev inum ic - (if cached_as dev inum x then i_ref x else 0)
    + (if cached_as dev inum y then i_ref y else 0).
Proof.
  revert ip. induction ic as [|z ic IH]; intros [|ip] H; cbn in *; try done.
  - injection H as ->. lia.
  - rewrite IH by done. lia.
Qed.

Lemma icache_ok_iget dev inum ic ip x :
  icache_ok ic -> ic !! ip = Some x -> i_ref x + 1 < 2 ^ 31 - 1 ->
  (cached_as dev inum x = true \/ i_ref x = 0 /\ Forall (fun y => cached_as dev inum y = false) ic) ->
  icache_ok (<[ip := iget_entry dev inum x]> ic).
Proof.
  intros [H1 H2 H3] Hx Hlt Hc. rewrite Forall_lookup in H2. pose proof (H2 _ _ Hx) as Hx0.
  pose proof (iget_entry_cached dev inum x ltac:(lia)) as (E1 & E2 & E3). set (x' := iget_entry dev inum x) in *.
  assert (Hu : forall k y, ic !! k = Some y -> k <> ip -> 0 < i_ref y -> dev = i_dev y -> inum = i_inum y -> False).
  { intros k y Hk Hne Hy Ed Ei. destruct Hc as [Hc|[_ Hf]].
    - apply cached_as_iff in Hc as (? & ? & ?). apply Hne. apply (H3 _ _ y x Hk Hx); congruence || lia.
    - rewrite Forall_lookup in Hf. specialize (Hf _ _ Hk). assert (cached_as dev inum y = true) by (by apply cached_as_iff). congruence. }
  split; [by rewrite length_insert| |].
  - apply Forall_insert; [by apply Forall_lookup|]. unfold x', iget_entry in *. destruct (cached_as dev inum x); destruct x; cbn in *; lia.
  - intros j k y z [(<- & <- & _)|[Nj Hy]]%list_lookup_insert_Some [(<- & <- & _)|[Nk Hz]]%list_lookup_insert_Some Py Pz Ed Ei; [done| | |].
    + exfalso. apply (Hu k z); congruence.
    + exfalso. apply (Hu j y); congruence.
    + by apply (H3 j k y z).
Qed.

(** C19: one entry for each inode.  iget returns an entry of the inode cache that names the
    inode and is referenced, adds one to the references to that inode and changes those
    to no other; the cache still has at most one entry for each inode, so every holder
    of an inode shares its lock and its copy.  When the inode is not cached and every
    entry is in use it panics. *)

Theorem iget_shares `{KI : KernelImage} dev inum s :
  k_held s = ∅ -> icache_ok (k_icache s) -> Forall (fun x => i_ref x < 2 ^ 31 - 2) (k_icache s) ->
  (exists x, x ∈ k_icache s /\ (cached_as dev inum x = true \/ i_ref x = 0)) /\
  (exists ip x, runs (iget dev inum) s ip (with_inode ip x s) /\ icache_ok (<[ip := x]> (k_icache s)) /\
    i_dev x = dev /\ i_inum x = inum /\ 0 < i_ref x /\
    (forall dev' inum', refs_to dev' inum' (<[ip := x]> (k_icache s)) =
      refs_to dev' inum' (k_icache s) + (if decide (dev' = dev /\ inum' = inum) then 1 else 0)) /\
    (forall y, k_icache s !! ip = Some y -> 0 < i_ref y -> x = set_i_ref (i_ref y + 1) y)) \/
  Forall (fun x => cached_as dev inum x = false /\ i_ref x <> 0) (k_icache s) /\ panics (iget dev inum) s "iget: no inodes".
Proof.
  intros Hh Hic Hlt. destruct (runs_iget dev inum s Hh Hic) as [(ip & x & Hx & Hr & Hc)|?]; [left|by right].
  rewrite Forall_lookup in Hlt. specialize (Hlt _ _ Hx). pose proof (ic_refs _ Hic) as Hrf. rewrite Forall_lookup in Hrf. specialize (Hrf _ _ Hx).
  split; [exists x; split; [by eapply list_elem_of_lookup_2|tauto]|].
  pose proof (iget_entry_cached dev inum x ltac:(lia)) as (E1 & E2 & E3).
  exists ip, (iget_entry dev inum x). split_and!; try done.
  - apply icache_ok_iget; try done. lia.
  - intros dev' inum'. rewrite (refs_to_insert _ _ _ _ x _ Hx). destruct (decide (dev' = dev /\ inum' = inum)) as [[-> ->]|Hne].
    + rewrite (proj2 (cached_as_iff dev inum (iget_entry dev inum x))) by done. unfold iget_entry.
      destruct (cached_as dev inum x) eqn:E; [destruct x; cbn; lia|]. cbn. lia.
    + assert (cached_as dev' inum' (iget_entry dev inum x) = false) as ->.
      { apply not_true_iff_false. rewrite cached_as_iff. intros (_ & ? & ?). apply Hne. split; congruence. }
      destruct (cached_as dev' inum' x) eqn:E; [|lia]. exfalso. apply cached_as_iff in E as (? & ? & ?).
      destruct Hc as [Hc|[? _]]; [|lia]. apply cached_as_iff in Hc as (? & ? & ?). apply Hne. split; congruence.
  - intros y Hy Hpy. rewrite Hx in Hy. injection Hy as <-. destruct Hc as [Hc|[? _]]; [|lia]. unfold iget_entry. by rewrite Hc.
Qed.

(** ** A directory as a map

    The entries of a directory with contents [cs]; one whose inode number is zero is
    free.  A name is looked up in order. *)

Definition entries (cs : list Z) : list (list Z) := (fun j => take 16 (drop (16 * j) cs)) <$> seq 0 (length cs / 16).

Definition de_inum (e : list Z) : Z := le_value (take 2 e).

Definition named (k : list Z) (e : list Z) : Prop := de_inum e <> 0 /\ key 14 (drop 2 e) = Some k.

#[global] Instance named_dec k e : Decision (named k e).
Proof. unfold named. apply _. Defined.

Definition dir_lookup (cs k : list Z) : option Z := (fun r => de_inum r.2) <$> list_find (named k) (entries cs).

Section Dir.
Context `{KI : KernelImage} `{VD : VirtioDevice}.
Context (i : nat) (pid ks dev start : Z).
Hypothesis Hdev : 0 <= dev < 2 ^ 31.
Hypothesis Hstart : 0 <= start /\ start + LOGSIZE < 2 ^ 31.
Variable sb : superblock.

Abbreviation txn := (txn i pid ks dev start).
Abbreviation wrun := (wrun i).
Abbreviation file_ok := (file_ok start sb).

(** An inode in memory that is a directory of whole entries. *)

Record is_dir (D : disk) (x : inode) : Prop := {
  dr_dev : i_dev x = dev;
  dr_type : i_type x = T_DIR;
  dr_file : file_ok D (i_addrs x) (i_size x);
  dr_whole : (16 | i_size x);
}.

Lemma length_contents D x : length (contents D x) = Z.to_nat (i_size x).
Proof. unfold contents. by rewrite length_content. Qed.

Lemma contents_bytes D x : file_ok D (i_addrs x) (i_size x) -> Forall (fun b => 0 <= b < 256) (contents D x).
Proof.
  intros Hf. apply Forall_lookup. intros j b. pose proof (fo_size _ _ _ _ _ Hf) as Hs. assert (EB : BSIZE = 1024) by done.
  assert (EM : MAXFILE = 268) by done. rewrite EM, EB in Hs. intros Hj. pose proof (lookup_lt_Some _ _ _ Hj) as Hl. rewrite length_contents in Hl.
  unfold contents in Hj. rewrite lookup_content in Hj by done. injection Hj as <-. unfold file_byte. set (k := 0 + Z.of_nat j).
  assert (Hbn : 0 <= k / BSIZE < MAXFILE) by (rewrite EB, EM; unfold k; dlia).
  destruct (fo_data _ _ _ _ _ Hf (k / BSIZE) Hbn) as [[_ _ [_ Hb] _ _] _].
  { apply (fo_present _ _ _ _ _ Hf); [lia|]. rewrite EB. unfold k. dlia. }
  destruct (D _ !! _) as [b|] eqn:E; [|cbn; lia]. rewrite Forall_lookup in Hb. by apply (Hb _ _ E).
Qed.

Lemma lookup_entries D x (j : nat) :
  is_dir D x -> 16 * Z.of_nat j < i_size x ->
  exists e, entries (contents D x) !! j = Some e /\ content D (i_addrs x) (16 * Z.of_nat j) 16 = e /\ length e = 16%nat /\
    Forall (fun b => 0 <= b < 256) e.
Proof.
  intros [_ _ Hf [q Hq]] Hj. pose proof (contents_bytes D x Hf) as Hb. eexists. split.
  { unfold entries. rewrite list_lookup_fmap, lookup_seq_lt; [done|]. rewrite length_contents. rewrite Hq.
    replace (Z.to_nat (q * 16)) with (Z.to_nat q * 16)%nat by lia. rewrite Nat.div_mul by done. lia. }
  cbn [Nat.add]. split; [|split].
  - rewrite content_part by lia. do 2 f_equal. lia.
  - rewrite length_take, length_drop, length_contents. lia.
  - by apply Forall_take, Forall_drop.
Qed.

Lemma length_entries D x : is_dir D x -> 16 * Z.of_nat (length (entries (contents D x))) = i_size x.
Proof.
  intros [_ _ Hf [q Hq]]. pose proof (fo_size _ _ _ _ _ Hf). unfold entries. rewrite length_fmap, length_seq, length_contents, Hq.
  replace (Z.to_nat (q * 16)) with (Z.to_nat q * 16)%nat by lia. rewrite Nat.div_mul by done. lia.
Qed.

Lemma wrun_read_dirent s d D bns dp x (j : nat) e de :
  txn s d D bns -> k_icache s !! dp = Some x -> is_dir D x -> entries (contents D x) !! j = Some e -> length de = 16%nat ->
  exists s', wrun (read_dirent dp (16 * Z.of_nat j) de) s d [] (16, e) s' /\ fs_frame s s' /\ txn s' d D bns.
Proof.
  intros Ht Hx Hdir He Hde. pose proof (length_entries D x Hdir) as Hlen. pose proof (lookup_lt_Some _ _ _ He) as Hj.
  destruct (lookup_entries D x j Hdir) as (e' & He' & Ec & Hle & _); [lia|]. rewrite He in He'. injection He' as <-.
  destruct Hdir as [H1 H2 H3 [q Hq]].
  destruct (wrun_readi i pid ks dev start Hdev Hstart sb s d D bns dp x (16 * Z.of_nat j) 16 de) as (s' & Hr & F & G); try done; try lia.
  assert (Em : read_len (i_size x) (16 * Z.of_nat j) 16 = 16) by (unfold read_len; lia). rewrite Em, Ec in Hr.
  exists s'. split; [|by split]. unfold read_dirent. change sizeof_dirent with 16. eapply wrun_then; [exact Hr|].
  cbn [fst snd]. rewrite drop_ge, app_nil_r by lia. apply wrun_runs, runs_ret.
Qed.

Lemma runs_dirent_inum e s : length e = 16%nat -> runs (dirent_inum e) s (de_inum e) s.
Proof.
  intros H. apply runs_valid. unfold le_get. destruct (Z.ltb_spec (Z.of_nat (length e)) (0 + Z.of_nat 2)); [lia|]. done.
Qed.

(** A loop over the entries that goes past [n] of them. *)

Lemma wrun_skip_entries {R} (round : Z * list Z -> K (Z * list Z + R)) (P : list Z -> Prop) d D bns dp x :
  is_dir D x ->
  (forall s (j : nat) e de, txn s d D bns -> k_icache s !! dp = Some x -> entries (contents D x) !! j = Some e -> length de = 16%nat ->
    P e -> exists s', wrun (round (16 * Z.of_nat j, de)) s d [] (inl (16 * Z.of_nat (S j), e)) s' /\ fs_frame s s' /\ txn s' d D bns) ->
  forall (n j f : nat) de s, txn s d D bns -> k_icache s !! dp = Some x -> length de = 16%nat ->
    (j + n <= length (entries (contents D x)))%nat -> (forall k e, (j <= k < j + n)%nat -> entries (contents D x) !! k = Some e -> P e) ->
    exists s' de', fs_frame s s' /\ txn s' d D bns /\ length de' = 16%nat /\
      forall r s2, wrun (loop f round (16 * Z.of_nat (j + n), de')) s' d [] r s2 -> wrun (loop (n + f) round (16 * Z.of_nat j, de)) s d [] r s2.
Proof.
  intros Hdir Hround. induction n as [|n IH]; intros j f de s Ht Hx Hde Hn HP.
  - exists s, de. split; [done|]. split; [done|]. split; [done|]. by rewrite Nat.add_0_r.
  - destruct (lookup_lt_is_Some_2 (entries (contents D x)) j) as [e He]; [lia|].
    destruct (Hround s j e de Ht Hx He Hde) as (s1 & H1 & F1 & G1); [apply (HP j e); [lia|done]|].
    assert (Hle : length e = 16%nat).
    { pose proof (length_entries D x Hdir). pose proof (lookup_lt_Some _ _ _ He).
      destruct (lookup_entries D x j Hdir) as (e' & He' & _ & Hl & _); [lia|]. rewrite He in He'. by injection He' as <-. }
    destruct (IH (S j) f e s1) as (s2 & de' & F2 & G2 & Hl2 & H2); [done|by rewrite (ff_icache _ _ F1)|done|lia| |].
    { intros k e' Hk. apply HP. lia. }
    exists s2, de'. split; [by trans s1|]. split; [done|]. split; [done|]. intros r s3 H3.
    cbn [Nat.add loop]. eapply wrun_then; [exact H1|]. cbn. apply H2. by replace (S j + n)%nat with (j + S n)%nat by lia.
Qed.

Lemma wrun_dirlookup_skip s d D bns dp x (j : nat) e de name k :
  txn s d D bns -> k_icache s !! dp = Some x -> is_dir D x -> entries (contents D x) !! j = Some e -> length de = 16%nat ->
  key 14 name = Some k -> ~ named k e ->
  exists s', wrun (dirlookup_round dp name (16 * Z.of_nat j, de)) s d [] (inl (16 * Z.of_nat (S j), e)) s' /\ fs_frame s s' /\ txn s' d D bns.
Proof.
  intros Ht Hx Hdir He Hde Hk Hno. pose proof (length_entries D x Hdir) as Hlen. pose proof (lookup_lt_Some _ _ _ He) as Hj.
  destruct (lookup_entries D x j Hdir) as (e' & He' & Ec & Hle & _); [lia|]. rewrite He in He'. injection He' as <-.
  pose proof (fo_size _ _ _ _ _ (dr_file _ _ Hdir)) as Hs. change (MAXFILE * BSIZE) with 274432 in Hs.
  destruct (wrun_read_dirent s d D bns dp x j e de Ht Hx Hdir He Hde) as (s1 & H1 & F1 & G1). exists s1. split; [|done].
  unfold dirlookup_round. eapply wrun_seq; [by apply runs_get_inode|]. destruct (Z.leb_spec (i_size x) (16 * Z.of_nat j)); [lia|].
  eapply wrun_then; [exact H1|]. cbn [fst snd]. change (negb (16 =? sizeof_dirent)) with false. cbv iota.
  eapply wrun_seq; [by apply runs_dirent_inum|]. change sizeof_dirent with 16. rewrite u32_small by lia.
  replace (16 * Z.of_nat j + 16) with (16 * Z.of_nat (S j)) by lia.
  destruct (Z.eqb_spec (de_inum e) 0) as [E0|E0]; [apply wrun_runs, runs_ret|].
  destruct (key_total 14 (drop 2 e)) as [k' Hk']; [rewrite length_drop; lia|].
  destruct (strncmp_key 14 name (drop 2 e) k k' Hk Hk') as (c & Hc & Hz).
  eapply wrun_seq; [by apply runs_valid|]. destruct (Z.eqb_spec c 0) as [Ez|Ez]; [|apply wrun_runs, runs_ret].
  exfalso. apply Hno. split; [done|]. rewrite Hk'. f_equal. symmetry. by apply Hz.
Qed.

Lemma wrun_dirlookup_hit s d D bns dp x (j : nat) e de name k :
  txn s d D bns -> k_icache s !! dp = Some x -> is_dir D x -> entries (contents D x) !! j = Some e -> length de = 16%nat ->
  key 14 name = Some k -> named k e -> icache_ok (k_icache s) ->
  Exists (fun y => cached_as dev (de_inum e) y = true \/ i_ref y = 0) (k_icache s) ->
  exists s' ip y, wrun (dirlookup_round dp name (16 * Z.of_nat j, de)) s d [] (inr (Some (ip, 16 * Z.of_nat j)))
      (with_inode ip (iget_entry dev (de_inum e) y) s') /\ fs_frame s s' /\ txn s' d D bns /\ k_icache s !! ip = Some y /\
    (cached_as dev (de_inum e) y = true \/ i_ref y = 0 /\ Forall (fun z => cached_as dev (de_inum e) z = false) (k_icache s)).
Proof.
  intros Ht Hx Hdir He Hde Hk [Hin Hkey] Hic Hslot. pose proof (length_entries D x Hdir) as Hlen. pose proof (lookup_lt_Some _ _ _ He) as Hj.
  destruct (lookup_entries D x j Hdir) as (e' & He' & Ec & Hle & _); [lia|]. rewrite He in He'. injection He' as <-.
  destruct (wrun_read_dirent s d D bns dp x j e de Ht Hx Hdir He Hde) as (s1 & H1 & F1 & G1).
  pose proof (ff_icache _ _ F1) as Eic.
  destruct (runs_iget dev (de_inum e) s1) as [(ip & y & Hy & Hr & Hc)|[Hf _]]; [by eapply ip_held, intxn_in_proc|by rewrite Eic| |].
  - rewrite Eic in Hy, Hc. exists s1, ip, y. split; [|done].
    unfold dirlookup_round. eapply wrun_seq; [by apply runs_get_inode|]. destruct (Z.leb_spec (i_size x) (16 * Z.of_nat j)); [lia|].
    eapply wrun_then; [exact H1|]. cbn [fst snd]. change (negb (16 =? sizeof_dirent)) with false. cbv iota.
    eapply wrun_seq; [by apply runs_dirent_inum|]. apply Z.eqb_neq in Hin. rewrite Hin.
    destruct (strncmp_key 14 name (drop 2 e) k k Hk Hkey) as (c & Hcmp & Hz).
    eapply wrun_seq; [by apply runs_valid|]. rewrite (proj2 Hz eq_refl). cbn [Z.eqb].
    eapply wrun_seq; [apply runs_get_inode; by rewrite Eic|]. rewrite (dr_dev _ _ Hdir).
    eapply wrun_seq; [exact Hr|]. apply wrun_runs, runs_ret.
  - exfalso. rewrite Eic in Hf. apply Exists_exists in Hslot as (y & Hy & Hor). rewrite Forall_forall in Hf.
    destruct (Hf _ Hy). destruct Hor; congruence.
Qed.

(** What dirlookup answers for the name [k] and where it leaves the cache. *)

Definition looked_up (D : disk) (x : inode) (k : list Z) (s : kst) (r : option (nat * Z)) (s' : kst) : Prop :=
  match list_find (named k) (entries (contents D x)) with
  | None => r = None /\ fs_frame s s'
  | Some (j, e) => exists s1 ip y, r = Some (ip, 16 * Z.of_nat j) /\ s' = with_inode ip (iget_entry dev (de_inum e) y) s1 /\
      fs_frame s s1 /\ k_icache s !! ip = Some y /\
      (cached_as dev (de_inum e) y = true \/ i_ref y = 0 /\ Forall (fun z => cached_as dev (de_inum e) z = false) (k_icache s))
  end.

(** There is an entry in the cache for what is found. *)

Definition slot_for (D : disk) (x : inode) (k : list Z) (ic : list inode) : Prop :=
  forall inum, dir_lookup (contents D x) k = Some inum -> Exists (fun y => cached_as dev inum y = true \/ i_ref y = 0) ic.

Lemma wrun_dirlookup_loop s d D bns dp x name k (f : nat) :
  txn s d D bns -> k_icache s !! dp = Some x -> is_dir D x -> key 14 name = Some k -> icache_ok (k_icache s) ->
  slot_for D x k (k_icache s) -> (length (entries (contents D x)) < f)%nat ->
  exists r s', wrun (loop f (dirlookup_round dp name) (0, uninit_dirent)) s d [] r s' /\ looked_up D x k s r s' /\ txn s' d D bns.
Proof.
  intros Ht Hx Hdir Hk Hic Hslot Hf. pose proof (length_entries D x Hdir) as Hlen. unfold looked_up.
  pose proof (fun n m => wrun_skip_entries (dirlookup_round dp name) (fun e => ~ named k e) d D bns dp x Hdir
    (fun s j e de A1 A2 A3 A4 => wrun_dirlookup_skip s d D bns dp x j e de name k A1 A2 Hdir A3 A4 Hk) n 0%nat m uninit_dirent s Ht Hx eq_refl) as Hskip.
  unfold slot_for, dir_lookup in Hslot. destruct (list_find (named k) (entries (contents D x))) as [[j e]|] eqn:E.
  - apply list_find_Some in E as (He & Hn & Hfirst). pose proof (lookup_lt_Some _ _ _ He) as Hj.
    destruct (Hskip j (f - j)%nat) as (s1 & de & F1 & G1 & L1 & H1); [lia|intros q y Hq Hy; apply (Hfirst q y Hy); lia|].
    pose proof (ff_icache _ _ F1) as Eic.
    destruct (wrun_dirlookup_hit s1 d D bns dp x j e de name k) as (s2 & ip & y & H2 & F2 & G2 & Hy & Hc); try done; try (by rewrite Eic).
    { rewrite Eic. by apply Hslot. }
    rewrite Eic in Hy, Hc. eexists _, _. split; [|split].
    + specialize (H1 (Some (ip, 16 * Z.of_nat j)) (with_inode ip (iget_entry dev (de_inum e) y) s2)).
      replace (j + (f - j))%nat with f in H1 by lia. apply H1. clear H1. replace (f - j)%nat with (S (f - j - 1)) by lia. cbn [loop Nat.add].
      eapply wrun_then; [exact H2|]. apply wrun_runs, runs_ret.
    + exists s2, ip, y. split; [done|]. split; [done|]. split; [by trans s1|done].
    + by apply intxn_set_icache.
  - apply list_find_None in E. rewrite Forall_lookup in E.
    destruct (Hskip (length (entries (contents D x))) (f - length (entries (contents D x)))%nat) as (s1 & de & F1 & G1 & L1 & H1);
      [lia|intros q y _ Hy; by apply (E q)|]. exists None, s1. split; [|by split].
    specialize (H1 None s1). replace (length _ + (f - length _))%nat with f in H1 by lia. apply H1. clear H1.
    replace (f - length _)%nat with (S (f - length (entries (contents D x)) - 1)) by lia. cbn [loop Nat.add].
    assert (Hend : runs (dirlookup_round dp name (16 * Z.of_nat (length (entries (contents D x))), de)) s1 (inr None) s1).
    { unfold dirlookup_round. eapply runs_bind; [apply runs_get_inode; by rewrite (ff_icache _ _ F1)|]. rewrite Hlen, Z.leb_refl. apply runs_ret. }
    eapply wrun_seq; [exact Hend|]. apply wrun_runs, runs_ret.
Qed.

(** The name that is looked up for a process in container [ci]: in the container's root,
    a name that begins with two dots is the root itself. *)

Definition confined (ci : nat) (c : container) (dp : nat) (name : list Z) : list Z :=
  if decide (ci <> 0%nat /\ take 2 name = [46; 46] /\ c_root c = Some dp) then [46; 0] else name.

Lemma key_shorter m n : forall p, is_Some (key n p) -> (m <= n)%nat -> is_Some (key m p).
Proof.
  revert m. induction n as [|n IH]; intros [|m] p Hp Hm; try (by eexists); [lia|]. cbn in *. destruct p as [|a p]; [done|].
  destruct (a =? 0); [by eexists|]. apply fmap_is_Some. apply IH; [by apply fmap_is_Some in Hp|lia].
Qed.

Lemma key_dots name : key 2 name = Some [46; 46] <-> take 2 name = [46; 46].
Proof.
  destruct name as [|a [|b name]]; cbn; [done| |]; destruct (Z.eqb_spec a 0); try (split; [done|intros [=]; lia]); try done.
  destruct (Z.eqb_spec b 0); [split; [done|intros [=]; lia]|]. cbn. split; intros [=]; by subst.
Qed.

Lemma runs_confine s ci c dp name k :
  k_started s <> 0 -> cur_cont s ci c -> key 14 name = Some k -> runs (confine dp name) s (confined ci c dp name) s.
Proof.
  intros Hst (j & p & Hcur & Hp & Hpc & Hc) Hk. unfold confine, confined.
  eapply runs_bind; [by apply runs_myproc|]. rewrite Hcur. cbn [ptr_of deref]. eapply runs_bind; [apply runs_ret|].
  eapply runs_bind; [by apply runs_get_proc|]. rewrite Hpc. cbn [ptr_of isroot].
  destruct ci as [|ci]; [rewrite decide_False by tauto; apply runs_ret|].
  destruct (key_shorter 2 14 name) as [k2 Hk2]; [by eexists|lia|].
  destruct (strncmp_key 2 name (bytes_of_string "..") k2 [46; 46] Hk2 eq_refl) as (z & Hz & Hiff).
  eapply runs_bind; [by apply runs_valid|]. destruct (Z.eqb_spec z 0) as [E|E]; cbn [negb].
  - assert (Ed : take 2 name = [46; 46]) by (apply key_dots; rewrite Hk2; f_equal; by apply Hiff).
    eapply runs_bind; [apply (runs_mycont s (S ci) c); [done|by exists j, p]|]. cbn [deref]. eapply runs_bind; [apply runs_ret|].
    eapply runs_bind; [by apply runs_get_cont|]. case_bool_decide.
    + rewrite decide_True by done. apply runs_ret.
    + rewrite decide_False by tauto. apply runs_ret.
  - rewrite decide_False; [apply runs_ret|]. intros (_ & Ht & _). apply E. apply Hiff. apply key_dots in Ht. congruence.
Qed.

Lemma wrun_dirlookup s d D bns dp x ci c name k :
  txn s d D bns -> k_icache s !! dp = Some x -> is_dir D x -> icache_ok (k_icache s) -> cur_cont s ci c ->
  is_Some (key 14 name) -> key 14 (confined ci c dp name) = Some k -> slot_for D x k (k_icache s) ->
  exists r s', wrun (dirlookup dp name) s d [] r s' /\ looked_up D x k s r s' /\ txn s' d D bns.
Proof.
  intros Ht Hx Hdir Hic Hcc [k0 Hk0] Hk Hslot. pose proof (length_entries D x Hdir) as Hlen.
  pose proof (fo_size _ _ _ _ _ (dr_file _ _ Hdir)) as Hs. change (MAXFILE * BSIZE) with 274432 in Hs.
  assert (Hfuel : (length (entries (contents D x)) < Z.to_nat dir_fuel)%nat) by (unfold dir_fuel; lia).
  destruct (wrun_dirlookup_loop s d D bns dp x _ k _ Ht Hx Hdir Hk Hic Hslot Hfuel) as (r & s' & Hr & Hl & G).
  exists r, s'. split; [|by split]. unfold dirlookup. eapply wrun_seq; [apply (runs_confine s ci c dp name k0); [by eapply intxn_started|done|done]|].
  eapply wrun_seq; [by apply runs_get_inode|]. rewrite (dr_type _ _ Hdir). cbn [Z.eqb negb T_DIR]. apply wrun_loopz. exact Hr.
Qed.

(** C18: dirlookup.  In a directory of whole entries it answers by the first entry in use
    whose name has the same characters up to the first NUL, of fourteen at most: not
    found when there is none, and otherwise the offset of that entry and an entry of the
    inode cache for its inode number with one more reference; nothing is written.  For a
    process in a container the name is the confined one: from the container's root, two
    dots lead back to it. *)

Theorem dirlookup_finds s d D bns dp x ci c name k :
  txn s d D bns -> k_icache s !! dp = Some x -> is_dir D x -> icache_ok (k_icache s) ->
  Forall (fun y => i_ref y < 2 ^ 31 - 2) (k_icache s) -> cur_cont s ci c ->
  is_Some (key 14 name) -> key 14 (confined ci c dp name) = Some k -> slot_for D x k (k_icache s) ->
  exists r s', wrun (dirlookup dp name) s d [] r s' /\ txn s' d D bns /\
    match r with
    | None => dir_lookup (contents D x) k = None /\ k_icache s' = k_icache s
    | Some (ip, off) => exists j e y, off = 16 * Z.of_nat j /\ entries (contents D x) !! j = Some e /\ named k e /\
        dir_lookup (contents D x) k = Some (de_inum e) /\ k_icache s' = <[ip := y]> (k_icache s) /\ icache_ok (k_icache s') /\
        i_dev y = dev /\ i_inum y = de_inum e /\ 0 < i_ref y
    end.
Proof.
  intros Ht Hx Hdir Hic Hlt Hcc Hn Hk Hslot.
  destruct (wrun_dirlookup s d D bns dp x ci c name k Ht Hx Hdir Hic Hcc Hn Hk Hslot) as (r & s' & Hr & Hl & G).
  exists r, s'. split; [done|]. split; [done|]. unfold looked_up in Hl. unfold dir_lookup.
  destruct (list_find (named k) (entries (contents D x))) as [[j e]|] eqn:E.
  - destruct Hl as (s1 & ip & y & -> & -> & F1 & Hy & Hc). apply list_find_Some in E as (He & Hnm & _).
    rewrite Forall_lookup in Hlt. specialize (Hlt _ _ Hy). pose proof (ic_refs _ Hic) as Hrf. rewrite Forall_lookup in Hrf. specialize (Hrf _ _ Hy).
    exists j, e, (iget_entry dev (de_inum e) y). destruct (iget_entry_cached dev (de_inum e) y ltac:(lia)) as (E1 & E2 & E3).
    cbn [k_icache with_inode set_k_icache]. rewrite (ff_icache _ _ F1). split_and!; try done. apply icache_ok_iget; try done. lia.
  - destruct Hl as [-> F]. split; [done|]. apply (ff_icache _ _ F).
Qed.

(** ** Entries after a write *)

Lemma entry_splice (j q : nat) e cs :
  length e = 16%nat -> (16 * j <= length cs)%nat -> q <> j ->
  take 16 (drop (16 * q) (splice (16 * Z.of_nat j) e cs)) = take 16 (drop (16 * q) cs).
Proof.
  intros He Hj Hq. apply list_eq. intros n. destruct (decide (n < 16)%nat).
  - rewrite !lookup_take_lt, !lookup_drop by done. rewrite splice_lookup by lia. rewrite decide_False by lia. done.
  - by rewrite !lookup_take_ge by lia.
Qed.

Lemma lookup_entries_list cs (q : nat) :
  entries cs !! q = if decide (q < length cs / 16)%nat then Some (take 16 (drop (16 * q) cs)) else None.
Proof.
  unfold entries. rewrite list_lookup_fmap. destruct (decide (q < length cs / 16)%nat).
  - by rewrite lookup_seq_lt.
  - by rewrite lookup_seq_ge by lia.
Qed.

Lemma entries_splice (j : nat) e cs :
  length e = 16%nat -> (length cs mod 16 = 0)%nat -> (16 * j <= length cs)%nat ->
  entries (splice (16 * Z.of_nat j) e cs) !! j = Some e /\
  forall q, q <> j -> entries (splice (16 * Z.of_nat j) e cs) !! q = entries cs !! q.
Proof.
  intros He Hm Hj. assert (Hl : length (splice (16 * Z.of_nat j) e cs) = (length cs `max` (16 * j + 16))%nat).
  { unfold splice. rewrite !length_app, length_take, length_drop. lia. }
  pose proof (Nat.div_mod_eq (length cs) 16) as Hdm. set (n := (length cs / 16)%nat) in *.
  assert (Hdiv : (length (splice (16 * Z.of_nat j) e cs) / 16 = n `max` S j)%nat).
  { rewrite Hl. replace (length cs `max` (16 * j + 16))%nat with ((n `max` S j) * 16)%nat by lia. by apply Nat.div_mul. }
  split.
  - rewrite lookup_entries_list, Hdiv, decide_True by lia. f_equal. rewrite <- He at 1.
    replace (16 * j)%nat with (Z.to_nat (16 * Z.of_nat j)) by lia. apply splice_part. lia.
  - intros q Hq. rewrite !lookup_entries_list, Hdiv. fold n. rewrite entry_splice by done.
    destruct (decide (q < n)%nat), (decide (q < n `max` S j)%nat); try done; lia.
Qed.

Lemma list_find_new (es es' : list (list Z)) (j : nat) e k k' :
  es' !! j = Some e -> (forall q, q <> j -> es' !! q = es !! q) -> (forall y, es !! j = Some y -> de_inum y = 0) ->
  named k e -> list_find (named k) es = None ->
  (fun r : nat * list Z => de_inum r.2) <$> list_find (named k') es' =
    if decide (k' = k) then Some (de_inum e) else (fun r : nat * list Z => de_inum r.2) <$> list_find (named k') es.
Proof.
  intros Hj Ho H0 Hn Hnone. rewrite list_find_None, Forall_lookup in Hnone. destruct (decide (k' = k)) as [->|Hne].
  - assert (list_find (named k) es' = Some (j, e)) as ->; [|done]. apply list_find_Some. split_and!; [done|done|].
    intros q y Hy Hq. rewrite Ho in Hy by lia. by apply (Hnone q).
  - assert (He : ~ named k' e) by (intros [_ H]; destruct Hn as [_ Hn]; congruence).
    f_equal. destruct (list_find (named k') es) as [[q y]|] eqn:E.
    + apply list_find_Some in E as (Hq & Hy & Hf). assert (q <> j) by (intros ->; destruct Hy as [Hy _]; by apply Hy, H0).
      apply list_find_Some. split_and!; [by rewrite Ho|done|]. intros p z Hz Hp. destruct (decide (p = j)) as [->|]; [congruence|].
      rewrite Ho in Hz by done. by apply (Hf p z).
    + rewrite list_find_None, Forall_lookup in E |- *. intros p z Hz. destruct (decide (p = j)) as [->|]; [congruence|].
      rewrite Ho in Hz by done. by apply (E p).
Qed.

(** ** dirlink *)

Lemma wrun_dirlink_round s d D bns dp x (j : nat) e de :
  txn s d D bns -> k_icache s !! dp = Some x -> is_dir D x -> entries (contents D x) !! j = Some e -> length de = 16%nat ->
  exists s', wrun (dirlink_round dp (16 * Z.of_nat j, de)) s d []
    (if decide (de_inum e = 0) then inr (16 * Z.of_nat j, e) else inl (16 * Z.of_nat (S j), e)) s' /\ fs_frame s s' /\ txn s' d D bns.
Proof.
  intros Ht Hx Hdir He Hde. pose proof (length_entries D x Hdir) as Hlen. pose proof (lookup_lt_Some _ _ _ He) as Hj.
  destruct (lookup_entries D x j Hdir) as (e' & He' & Ec & Hle & _); [lia|]. rewrite He in He'. injection He' as <-.
  destruct (wrun_read_dirent s d D bns dp x j e de Ht Hx Hdir He Hde) as (s1 & H1 & F1 & G1). exists s1. split; [|done].
  unfold dirlink_round. eapply wrun_seq; [by apply runs_get_inode|]. destruct (Z.leb_spec (i_size x) (16 * Z.of_nat j)); [lia|].
  eapply wrun_then; [exact H1|]. cbn [fst snd]. change (negb (16 =? sizeof_dirent)) with false. cbv iota.
  eapply wrun_seq; [by apply runs_dirent_inum|]. change sizeof_dirent with 16. replace (16 * Z.of_nat j + 16) with (16 * Z.of_nat (S j)) by lia.
  destruct (Z.eqb_spec (de_inum e) 0); [rewrite decide_True by done|rewrite decide_False by done]; apply wrun_runs, runs_ret.
Qed.

Lemma wrun_dirlink_slot s d D bns dp x (f : nat) :
  txn s d D bns -> k_icache s !! dp = Some x -> is_dir D x -> (length (entries (contents D x)) < f)%nat ->
  exists (j : nat) de s', wrun (loop f (dirlink_round dp) (0, uninit_dirent)) s d [] (16 * Z.of_nat j, de) s' /\
    fs_frame s s' /\ txn s' d D bns /\ length de = 16%nat /\ (j <= length (entries (contents D x)))%nat /\
    (forall y, entries (contents D x) !! j = Some y -> de_inum y = 0).
Proof.
  intros Ht Hx Hdir Hf. pose proof (length_entries D x Hdir) as Hlen. set (es := entries (contents D x)) in *.
  assert (exists j : nat, (j <= length es)%nat /\ (forall y, es !! j = Some y -> de_inum y = 0) /\
    (forall q y, (q < j)%nat -> es !! q = Some y -> de_inum y <> 0)) as (j & Hj & H0 & Hpre).
  { destruct (list_find (fun e => de_inum e = 0) es) as [[j e]|] eqn:E.
    - apply list_find_Some in E as (He & E0 & Hfi). exists j. pose proof (lookup_lt_Some _ _ _ He). split; [lia|]. split; [congruence|].
      intros q y Hq Hy. by apply (Hfi q y).
    - rewrite list_find_None, Forall_lookup in E. exists (length es). split; [done|]. split; [by rewrite lookup_ge_None_2|].
      intros q y _ Hy. by apply (E q). }
  destruct (wrun_skip_entries (dirlink_round dp) (fun e => de_inum e <> 0) d D bns dp x Hdir) with (n := j) (j := 0%nat) (f := (f - j)%nat)
    (de := uninit_dirent) (s := s) as (s1 & de & F1 & G1 & L1 & H1); try done.
  { intros s1 q e de A1 A2 A3 A4 A5. destruct (wrun_dirlink_round s1 d D bns dp x q e de A1 A2 Hdir A3 A4) as (s2 & B1 & B2).
    rewrite decide_False in B1 by done. by exists s2. }
  { intros q e Hq He. apply (Hpre q); [lia|done]. }
  assert (Hx1 : k_icache s1 !! dp = Some x) by (by rewrite (ff_icache _ _ F1)).
  destruct (es !! j) as [e|] eqn:He.
  - destruct (wrun_dirlink_round s1 d D bns dp x j e de G1 Hx1 Hdir He L1) as (s2 & H2 & F2 & G2). rewrite decide_True in H2 by (by apply H0).
    destruct (lookup_entries D x j Hdir) as (e' & He' & _ & Hle & _); [pose proof (lookup_lt_Some _ _ _ He); lia|].
    fold es in He'. rewrite He in He'. injection He' as <-.
    exists j, e, s2. split; [|split; [by trans s1|by rewrite He]].
    specialize (H1 (16 * Z.of_nat j, e) s2). replace (j + (f - j))%nat with f in H1 by lia. apply H1. clear H1.
    replace (f - j)%nat with (S (f - j - 1)) by lia. cbn [loop Nat.add]. eapply wrun_then; [exact H2|]. apply wrun_runs, runs_ret.
  - apply lookup_ge_None in He. assert (j = length es) as -> by lia.
    exists (length es), de, s1. split; [|split; [done|]]; [|by rewrite lookup_ge_None_2].
    specialize (H1 (16 * Z.of_nat (length es), de) s1). replace (length es + (f - length es))%nat with f in H1 by lia. apply H1. clear H1.
    replace (f - length es)%nat with (S (f - length es - 1)) by lia. cbn [loop Nat.add].
    assert (Hend : runs (dirlink_round dp (16 * Z.of_nat (length es), de)) s1 (inr (16 * Z.of_nat (length es), de)) s1).
    { unfold dirlink_round. eapply runs_bind; [by apply runs_get_inode|]. rewrite Hlen, Z.leb_refl. apply runs_ret. }
    eapply wrun_seq; [exact Hend|]. apply wrun_runs, runs_ret.
Qed.

Lemma runs_iput s ip x :
  k_held s = ∅ -> k_icache s !! ip = Some x -> 0 < i_ref x < 2 ^ 31 ->
  (i_ref x <> 1 \/ i_valid x = 0 \/ i_nlink x <> 0) -> runs (iput ip) s tt (with_inode ip (set_i_ref (i_ref x - 1) x) s).
Proof.
  intros Hh Hx Hr Hc. unfold iput. assert (Hacq : runs (acquire Licache) s tt (locked_icache s)) by (apply runs_acquire; rewrite Hh; set_solver).
  eapply runs_bind; [exact Hacq|]. eapply runs_bind; [by apply runs_get_inode|].
  replace ((i_ref x =? 1) && negb (i_valid x =? 0) && (i_nlink x =? 0)) with false.
  2:{ symmetry. destruct (Z.eqb_spec (i_ref x) 1), (Z.eqb_spec (i_valid x) 0), (Z.eqb_spec (i_nlink x) 0); try done. lia. }
  eapply runs_bind; [apply runs_ret|]. eapply runs_bind; [by apply (runs_mod_inode ip _ x)|]. cbv beta. rewrite i32_small by lia.
  exact (runs_release_icache ip _ s Hh).
Qed.

(** The entry that dirlink writes. *)

Definition new_entry (k : list Z) (inum : Z) : list Z := le_bytes 2 inum ++ k ++ replicate (14 - length k) 0.

Lemma new_entry_spec name k inum :
  key 14 name = Some k -> Forall (fun b => 0 <= b < 256) name -> 0 < inum < 2 ^ 16 ->
  length (new_entry k inum) = 16%nat /\ de_inum (new_entry k inum) = inum /\ named k (new_entry k inum) /\
  Forall (fun b => 0 <= b < 256) (new_entry k inum).
Proof.
  intros Hk Hb Hi. pose proof (key_length _ _ _ Hk). assert (E : de_inum (new_entry k inum) = inum).
  { unfold de_inum, new_entry. change (take 2 _) with (le_bytes 2 inum). rewrite le_value_bytes. apply Z.mod_small. cbn. lia. }
  split_and!; [|done| |].
  - unfold new_entry. rewrite !length_app, length_replicate. cbn. lia.
  - split; [lia|]. unfold new_entry. change (drop 2 _) with (k ++ replicate (14 - length k) 0). by eapply key_padded.
  - unfold new_entry. apply Forall_app. split; [apply bytes_le|]. apply Forall_app. split; [by eapply key_bytes|].
    apply Forall_replicate. lia.
Qed.

Abbreviation fs_ok := (fs_ok start sb).

(** C16: dirlink adds a name that the directory does not have.  It returns 0; the directory
    then maps the name to the inode number and every other name as before, in the first
    free entry or at the end; the directory is again one of whole entries, its inode on
    the disk is up to date, and no other inode and no block of another file changes. *)

Theorem dirlink_adds s d D bns dp x ci c name k inum :
  txn s d D bns -> k_sb s = sb -> k_icache s !! dp = Some x -> is_dir D x -> fs_ok D -> 0 <= i_inum x < sb_ninodes sb ->
  icache_ok (k_icache s) -> cur_cont s ci c -> confined ci c dp name = name -> key 14 name = Some k ->
  Forall (fun b => 0 <= b < 256) name -> 0 < inum < 2 ^ 16 -> dir_lookup (contents D x) k = None ->
  i_size x + 16 <= MAXFILE * BSIZE -> room sb D bns ci c 1 ->
  exists s' D' bns' x', wrun (dirlink dp name inum) s d [] 0 s' /\ txn s' d D' bns' /\ k_icache s' = <[dp := x']> (k_icache s) /\
    is_dir D' x' /\ fs_ok D' /\ on_disk sb D' (i_inum x) x' /\
    (forall k', dir_lookup (contents D' x') k' = if decide (k' = k) then Some inum else dir_lookup (contents D x) k') /\
    (forall b, data_block start sb D b -> ~ in_file D (i_addrs x) b -> D' b = D b) /\
    (forall j y, 0 <= j < sb_ninodes sb -> j <> i_inum x -> on_disk sb D j y -> on_disk sb D' j y).
Proof.
  intros Ht Hsb Hx Hdir Hfs Hin Hic Hcc Hconf Hk Hnb Hi Hnone Hsz Hroom. set (cs := contents D x) in *.
  pose proof (length_entries D x Hdir) as Hlen. fold cs in Hlen. pose proof (fo_size _ _ _ _ _ (dr_file _ _ Hdir)) as Hs.
  change (MAXFILE * BSIZE) with 274432 in *. destruct (new_entry_spec name k inum Hk Hnb Hi) as (Nl & Ni & Nn & Nb).
  destruct (wrun_dirlookup s d D bns dp x ci c name k) as (r & s1 & H1 & L1 & G1); try done.
  { by rewrite Hconf. } { intros z Hz. fold cs in Hz. congruence. }
  unfold looked_up in L1. fold cs in L1. unfold dir_lookup in Hnone.
  destruct (list_find (named k) (entries cs)) eqn:Ef; [done|]. destruct L1 as [-> F1].
  assert (Hx1 : k_icache s1 !! dp = Some x) by (by rewrite (ff_icache _ _ F1)).
  destruct (wrun_dirlink_slot s1 d D bns dp x (Z.to_nat dir_fuel) G1 Hx1 Hdir) as (j & de & s2 & H2 & F2 & G2 & Lde & Hj & H0).
  { fold cs. unfold dir_fuel. lia. }
  fold cs in Hj, H0. assert (Hx2 : k_icache s2 !! dp = Some x) by (by rewrite (ff_icache _ _ F2)).
  assert (Hcc1 : cur_cont s1 ci c) by (apply (cur_cont_fs i pid ks dev start s s1 ci c d D bns ∅ d D bns ∅); done).
  assert (Hcc2 : cur_cont s2 ci c) by (apply (cur_cont_fs i pid ks dev start s1 s2 ci c d D bns ∅ d D bns ∅); done).
  assert (Eb : blocks_of (16 * Z.of_nat j) 16 = 1) by (unfold blocks_of; change BSIZE with 1024; dlia).
  destruct (wrun_writei i pid ks dev start Hdev Hstart sb s2 d D bns dp x ci c (16 * Z.of_nat j) (new_entry k inum))
    as (s3 & D' & bns' & x' & c' & H3 & G3 & _ & (addrs' & Ex) & F3 & Hcc3 & [W1 W2 W3 W4 W5 W6 W7]); rewrite ?Nl; try done; try lia.
  { by rewrite (ff_sb _ _ F2), (ff_sb _ _ F1). } { apply Hdir. } { apply Hdir. } { change (MAXFILE * BSIZE) with 274432. lia. }
  { change (Z.of_nat 16) with 16. by rewrite Eb. }
  rewrite Nl in H3, W3. change (Z.of_nat 16) with 16 in H3, W3. fold cs in W4.
  exists s3, D', bns', x'. split_and!; try done.
  - unfold dirlink. eapply wrun_then; [exact H1|]. cbv iota. eapply wrun_then; [apply wrun_loopz; exact H2|].
    eapply wrun_seq; [apply runs_valid; apply (strncpy_key 14 _ _ k Hk); rewrite length_drop; lia|].
    eapply wrun_then; [exact H3|]. apply wrun_runs, runs_ret.
  - rewrite (ffr_icache _ _ _ _ _ _ F3), (ff_icache _ _ F2). by rewrite (ff_icache _ _ F1).
  - destruct Hdir as [Q1 Q2 Q3 [q Hq]]. split; [by rewrite Ex|by rewrite Ex|done|]. rewrite W3, Hq. exists (Z.max q (Z.of_nat j + 1)). lia.
  - intros k'. unfold dir_lookup. rewrite W4.
    assert (Hm : (length cs mod 16 = 0)%nat).
    { unfold cs. rewrite length_contents, <- Hlen. replace (Z.to_nat _) with (length (entries cs) * 16)%nat by lia. by apply Nat.Div0.mod_mul. }
    destruct (entries_splice j (new_entry k inum) cs Nl Hm) as [E1 E2]; [unfold cs; rewrite length_contents; lia|].
    rewrite (list_find_new (entries cs) _ j (new_entry k inum) k k' E1 E2 H0 Nn Ef). by rewrite Ni.
  - intros b Hb Hnb'. by apply W6.
Qed.

Lemma icache_ok_free ic ip x : icache_ok ic -> i_ref x = 0 -> icache_ok (<[ip := x]> ic).
Proof.
  intros [H1 H2 H3] H0. split; [by rewrite length_insert|apply Forall_insert; [done|lia]|].
  intros j k y z [(<- & <- & _)|[Nj Hy]]%list_lookup_insert_Some [(<- & <- & _)|[Nk Hz]]%list_lookup_insert_Some Py Pz Ed Ei; try lia.
  by apply (H3 j k y z).
Qed.

(** dirlink of a name that the directory has already returns -1 and changes nothing:
    no block, and no reference to an inode, the one it was given by dirlookup being
    dropped again. *)

Theorem dirlink_exists s d D bns dp x ci c name k inum old :
  txn s d D bns -> k_icache s !! dp = Some x -> is_dir D x -> icache_ok (k_icache s) ->
  Forall (fun y => i_ref y < 2 ^ 31 - 2) (k_icache s) -> cur_cont s ci c ->
  is_Some (key 14 name) -> key 14 (confined ci c dp name) = Some k -> slot_for D x k (k_icache s) ->
  dir_lookup (contents D x) k = Some old ->
  exists s', wrun (dirlink dp name inum) s d [] (-1) s' /\ txn s' d D bns /\ icache_ok (k_icache s') /\
    forall dev' inum', refs_to dev' inum' (k_icache s') = refs_to dev' inum' (k_icache s).
Proof.
  intros Ht Hx Hdir Hic Hlt Hcc Hn Hk Hslot Hold.
  destruct (wrun_dirlookup s d D bns dp x ci c name k Ht Hx Hdir Hic Hcc Hn Hk Hslot) as (r & s1 & H1 & L1 & G1).
  unfold looked_up in L1. unfold dir_lookup in Hold. destruct (list_find (named k) (entries (contents D x))) as [[j e]|]; [|done].
  destruct L1 as (s0 & ip & y & -> & -> & F1 & Hy & Hc). set (z := iget_entry dev (de_inum e) y) in *.
  rewrite Forall_lookup in Hlt. specialize (Hlt _ _ Hy). pose proof (ic_refs _ Hic) as Hrf. rewrite Forall_lookup in Hrf. specialize (Hrf _ _ Hy).
  assert (Hz : k_icache (with_inode ip z s0) !! ip = Some z) by (eapply lookup_with_inode; by rewrite (ff_icache _ _ F1)).
  assert (Hzr : 0 < i_ref z < 2 ^ 31 /\ (i_ref z <> 1 \/ i_valid z = 0 \/ i_nlink z <> 0) /\
    (set_i_ref (i_ref z - 1) z = y \/ i_ref y = 0)).
  { unfold z, iget_entry. destruct Hc as [Hc|[H0 Hf]].
    - rewrite Hc. apply cached_as_iff in Hc as (Hc & _). split; [cbn; lia|]. split; [left; cbn; lia|]. left.
      destruct y as [? ? r0]. cbn in *. unfold set_i_ref. cbn. replace (r0 + 1 - 1) with r0 by lia. done.
    - rewrite Forall_lookup in Hf. rewrite (Hf _ _ Hy). cbn. split; [lia|]. split; [by right; left|by right]. }
  destruct Hzr as (Hz1 & Hz2 & Hz3).
  pose proof (runs_iput (with_inode ip z s0) ip z (ip_held _ _ _ _ (intxn_in_proc _ _ _ _ _ _ _ _ _ _ G1)) Hz Hz1 Hz2) as Hput.
  eexists. split; [|split; [|]].
  - unfold dirlink. eapply wrun_then; [exact H1|]. cbv iota. eapply wrun_seq; [exact Hput|]. apply wrun_runs, runs_ret.
  - by apply intxn_set_icache.
  - rewrite with_inode_twice. cbn [k_icache with_inode set_k_icache]. rewrite (ff_icache _ _ F1). destruct Hz3 as [->|H0].
    + rewrite list_insert_id by done. by split.
    + assert (Hzr : i_ref z - 1 = 0).
      { destruct Hc as [Hc|[_ Hf]]; [apply cached_as_iff in Hc; lia|]. rewrite Forall_lookup in Hf. unfold z, iget_entry. by rewrite (Hf _ _ Hy). }
      split; [by apply icache_ok_free|]. intros dev' inum'. rewrite (refs_to_insert _ _ _ _ y _ Hy).
      unfold cached_as. cbn [i_ref set_i_ref]. rewrite H0, Hzr. cbn. lia.
Qed.

End Dir.
