(* ===== verification/Pathspec.v ===== *)
(** * Path names

    namex of kernel/fs.c takes a path apart and looks its elements up, one directory after
    the other; ilock, dirlookup, iunlock and iput compose to a walk over the tree of
    directories on the disk. *)

From S2P Require Import Prelude Monad Riscv Kstring Kstate Spinlock Printf Kalloc Vm Sched Schedspec Bio Log Diskspec Cachespec Logspec Fs Txnspec Inodespec Dirspec.

(** ** The elements of a path

    [p] is the path without its NUL; [cur] is the element that is being read. *)

Fixpoint path_from (cur p : list Z) : list (list Z) :=
  match p with
  | [] => match cur with [] => [] | _ => [cur] end
  | c :: p' =>
      if c =? slash then match cur with [] => path_from [] p' | _ => cur :: path_from [] p' end
      else path_from (cur ++ [c]) p'
  end.

Definition path_elements (p : list Z) : list (list Z) := path_from [] p.

Definition path_char (c : Z) : Prop := c <> 0.

Lemma skip_slashes_nul p r : Forall path_char p ->
  exists q, skip_slashes (p ++ 0 :: r) = q ++ 0 :: r /\ Forall path_char q /\ path_elements q = path_elements p /\ (length q <= length p)%nat /\
    head q <> Some slash.
Proof.
  induction 1 as [|c p Hc Hp IH]; [by exists []|]. cbn [app skip_slashes]. destruct (Z.eqb_spec c slash) as [->|Hne].
  - destruct IH as (q & -> & H1 & H2 & H3 & H4). exists q. split; [done|]. split; [done|]. split; [by rewrite H2|]. split; [cbn; lia|done].
  - exists (c :: p). split; [done|]. split; [by constructor|]. split; [done|]. split; [done|]. cbn. congruence.
Qed.

Lemma path_elem_nul p r : Forall path_char p ->
  exists e q, path_elem (p ++ 0 :: r) = (e, q ++ 0 :: r) /\ p = e ++ q /\ Forall (fun c => c <> slash) e /\ (q = [] \/ head q = Some slash).
Proof.
  induction 1 as [|c p Hc Hp IH].
  - exists [], []. split; [done|]. split; [done|]. split; [constructor|by left].
  - cbn [app path_elem]. destruct (Z.eqb_spec c slash) as [->|Hne]; cbn [orb].
    + exists [], (slash :: p). split; [done|]. split; [done|]. split; [constructor|by right].
    + destruct (Z.eqb_spec c 0); [done|]. destruct IH as (e & q & -> & -> & H1 & H2). exists (c :: e), q.
      split; [done|]. split; [done|]. split; [by constructor|done].
Qed.

Lemma path_from_app cur e q :
  Forall (fun c => c <> slash) e -> path_from cur (e ++ q) = path_from (cur ++ e) q.
Proof.
  intros He. revert cur. induction He as [|c e Hc He IH]; intros cur; [by rewrite app_nil_r|].
  cbn [app path_from]. destruct (Z.eqb_spec c slash); [done|]. rewrite IH, <- app_assoc. done.
Qed.

Lemma path_elements_cons e q :
  e <> [] -> Forall (fun c => c <> slash) e -> (q = [] \/ head q = Some slash) -> path_elements (e ++ q) = e :: path_elements q.
Proof.
  intros Hne He Hq. unfold path_elements. rewrite path_from_app by done. cbn [app]. destruct q as [|c q].
  - cbn. by destruct e.
  - destruct Hq as [|[= ->]]; [done|]. cbn. by destruct e.
Qed.

Lemma path_from_cur p : forall cur, cur <> [] -> path_from cur p <> [].
Proof.
  induction p as [|c p IH]; intros cur Hc; cbn; [by destruct cur|]. destruct (c =? slash); [by destruct cur|].
  apply IH. by destruct cur.
Qed.

Lemma path_elements_nil p : head p <> Some slash -> (path_elements p = [] <-> p = []).
Proof.
  intros H. split; [|by intros ->]. destruct p as [|c p]; [done|]. unfold path_elements. cbn in *. destruct (Z.eqb_spec c slash); [congruence|].
  intros E. by apply path_from_cur in E.
Qed.

(** The element is in the array, cut to fourteen characters. *)

Lemma key_whole n e l : Forall path_char e -> (n <= length e)%nat -> key n (e ++ l) = Some (take n e).
Proof.
  intros He. revert n. induction He as [|c e Hc He IH]; intros [|n] Hn; try done; cbn in *; [lia|].
  destruct (Z.eqb_spec c 0); [done|]. rewrite IH by lia. done.
Qed.

Lemma key_short n e l : Forall path_char e -> (length e < n)%nat -> key n (e ++ 0 :: l) = Some e.
Proof.
  intros He. revert n. induction He as [|c e Hc He IH]; intros [|n] Hn; try done; cbn in *; [lia|].
  destruct (Z.eqb_spec c 0); [done|]. rewrite IH by lia. done.
Qed.

Lemma key_take m n : forall p k, key n p = Some k -> (m <= n)%nat -> key m p = Some (take m k).
Proof.
  revert n. induction m as [|m IH]; intros [|n] [|c p] k Hk Hm; cbn in *; try done; try lia. destruct (c =? 0); [by injection Hk as <-|].
  destruct (key n p) as [k'|] eqn:E; cbn in Hk; [|done]. injection Hk as <-. rewrite (IH n p k' E) by lia. done.
Qed.

Lemma skipelem_spec p r name : Forall path_char p -> length name = 14%nat ->
  match path_elements p with
  | [] => skipelem (p ++ 0 :: r) name = None
  | e :: es => exists name' q, skipelem (p ++ 0 :: r) name = Some (name', q ++ 0 :: r) /\ length name' = 14%nat /\
      key 14 name' = Some (take 14 e) /\ Forall path_char q /\ path_elements q = es /\ (q = [] <-> es = []) /\
      (length q < length p)%nat
  end.
Proof.
  intros Hp Hn. unfold skipelem. destruct (skip_slashes_nul p r Hp) as (p1 & -> & Hp1 & <- & Hl1 & Hh1).
  destruct p1 as [|c p1]; [done|]. cbn [app]. apply Forall_cons in Hp1 as Hp1'. destruct Hp1' as [Hc Hp1'].
  destruct (Z.eqb_spec c 0); [done|]. change (c :: p1 ++ 0 :: r) with ((c :: p1) ++ 0 :: r).
  destruct (path_elem_nul (c :: p1) r Hp1) as (e & q & -> & Ee & He & Hq).
  assert (Hne : e <> []) by (intros ->; cbn in Ee; destruct Hq as [->|Hq]; [done|]; rewrite <- Ee in Hq; by apply Hh1).
  rewrite Ee in Hp1 |- *. apply Forall_app in Hp1 as [Hpe Hpq]. rewrite path_elements_cons by done.
  destruct (skip_slashes_nul q r Hpq) as (q1 & -> & Hq1 & <- & Hl2 & Hh2).
  assert (Hlen : (length q1 < length p)%nat).
  { assert (length (c :: p1) = length e + length q)%nat by (rewrite Ee, length_app; done). destruct e; [done|]. cbn in *. lia. }
  destruct (Z.leb_spec DIRSIZ (Z.of_nat (length e))) as [Hlong|Hshort]; change DIRSIZ with 14 in *; change (Z.to_nat 14) with 14%nat.
  - eexists _, q1. split; [done|]. rewrite length_inserts. split; [done|]. split_and!; try done; try (by symmetry; apply path_elements_nil).
    rewrite <- (take_drop 14 name) at 1. rewrite list_inserts_0_r by (rewrite !length_take; lia).
    rewrite key_whole; [by rewrite take_take|by apply Forall_take|rewrite length_take; lia].
  - eexists _, q1. split; [done|]. rewrite length_insert, length_inserts. split; [done|]. split_and!; try done; try (by symmetry; apply path_elements_nil).
    rewrite (take_ge e) by lia. rewrite <- (take_drop (length e) name) at 1.
    rewrite list_inserts_0_r by (rewrite length_take; lia).
    destruct (drop (length e) name) as [|x l] eqn:E; [apply (f_equal length) in E; rewrite length_drop in E; cbn in E; lia|].
    rewrite insert_app_r_alt, Nat.sub_diag by lia. apply key_short; [done|lia].
Qed.

(** ** The inode cache during a walk

    Two caches with the same references: entry by entry the counts are the same, and a
    referenced entry names the same inode. *)

Definition same_ref (x y : inode) : Prop :=
  i_ref y = i_ref x /\ (0 < i_ref x -> i_dev y = i_dev x /\ i_inum y = i_inum x).

Definition same_refs (ic ic' : list inode) : Prop := Forall2 same_ref ic ic'.

#[export] Instance same_ref_preorder : PreOrder same_ref.
Proof. split; [by split|]. intros x y z [H1 H2] [H3 H4]. split; [congruence|]. intros H. destruct (H2 H), (H4 ltac:(lia)). split; congruence. Qed.

#[export] Instance same_refs_preorder : PreOrder same_refs.
Proof. change (PreOrder (Forall2 same_ref)). apply _. Qed.

Lemma same_refs_insert ic ic' ip x y :
  same_refs ic ic' -> ic !! ip = Some x -> same_ref x y -> same_refs ic (<[ip := y]> ic').
Proof. intros H Hx Hy. rewrite <- (list_insert_id ic ip x Hx). by apply Forall2_insert. Qed.

(** The cache without one reference to its entry [ip]. *)

Definition unref (ip : nat) (ic : list inode) : list inode := alter (fun x => set_i_ref (i_ref x - 1) x) ip ic.

Lemma unref_insert ip x ic : (ip < length ic)%nat -> unref ip (<[ip := x]> ic) = <[ip := set_i_ref (i_ref x - 1) x]> ic.
Proof.
  intros H. unfold unref. rewrite <- (insert_is_alter _ _ _ x) by (by apply list_lookup_insert_eq). by rewrite list_insert_insert_eq.
Qed.

Lemma unref_lookup ip x ic : ic !! ip = Some x -> unref ip ic = <[ip := set_i_ref (i_ref x - 1) x]> ic.
Proof. intros H. unfold unref. symmetry. exact (insert_is_alter (fun x => set_i_ref (i_ref x - 1) x) ic ip x H). Qed.

Lemma refs_to_same dev inum ic ic' : same_refs ic ic' -> refs_to dev inum ic' = refs_to dev inum ic.
Proof.
  induction 1 as [|x y ic ic' [H1 H2] _ IH]; [done|]. cbn [refs_to]. rewrite IH. f_equal. rewrite H1.
  destruct (cached_as dev inum x) eqn:E, (cached_as dev inum y) eqn:E'; try done; exfalso.
  - apply cached_as_iff in E as (E1 & E2 & E3). destruct (H2 E1). apply not_true_iff_false in E'. apply E', cached_as_iff.
    split; [lia|]. split; congruence.
  - apply cached_as_iff in E' as (E1 & E2 & E3). destruct (H2 ltac:(lia)). apply not_true_iff_false in E. apply E, cached_as_iff.
    split; [lia|]. split; congruence.
Qed.

(** The references to an inode with and without one of them. *)

Lemma refs_to_unref dev inum ic ip x :
  ic !! ip = Some x -> 0 < i_ref x ->
  refs_to dev inum ic = refs_to dev inum (unref ip ic) + (if decide (dev = i_dev x /\ inum = i_inum x) then 1 else 0).
Proof.
  intros Hx Hr. rewrite (unref_lookup _ _ _ Hx), (refs_to_insert _ _ _ _ x _ Hx).
  destruct (decide (dev = i_dev x /\ inum = i_inum x)) as [[-> ->]|Hn].
  - assert (cached_as (i_dev x) (i_inum x) x = true) as -> by (by apply cached_as_iff).
    unfold cached_as. cbn. rewrite !Z.eqb_refl, !andb_true_r. destruct (Z.ltb_spec 0 (i_ref x - 1)); lia.
  - assert (forall y, i_dev y = i_dev x -> i_inum y = i_inum x -> cached_as dev inum y = false) as Hf.
    { intros y E1 E2. apply not_true_iff_false. rewrite cached_as_iff. intros (_ & ? & ?). apply Hn. split; congruence. }
    rewrite !Hf by done. lia.
Qed.

Lemma icache_ok_insert ic ip x y :
  icache_ok ic -> ic !! ip = Some x -> 0 <= i_ref y < 2 ^ 31 - 1 ->
  (0 < i_ref y -> 0 < i_ref x /\ i_dev y = i_dev x /\ i_inum y = i_inum x) -> icache_ok (<[ip := y]> ic).
Proof.
  intros [H1 H2 H3] Hx Hr Hy. split; [by rewrite length_insert|by apply Forall_insert|].
  intros j k z w [(<- & <- & _)|[Nj Hz]]%list_lookup_insert_Some [(<- & <- & _)|[Nk Hw]]%list_lookup_insert_Some Pz Pw Ed Ei; [done| | |].
  - destruct (Hy Pz) as (? & ? & ?). apply (H3 _ _ x w); congruence.
  - destruct (Hy Pw) as (? & ? & ?). apply (H3 _ _ z x); congruence.
  - by apply (H3 j k z w).
Qed.

(** ** The sleep lock of an inode *)

Section Path.
Context `{KI : KernelImage} `{VD : VirtioDevice}.
Context (i : nat) (pid ks dev start : Z).
Hypothesis Hdev : 0 <= dev < 2 ^ 31.
Hypothesis Hstart : 0 <= start /\ start + LOGSIZE < 2 ^ 31.
Variable sb : superblock.

Abbreviation txn := (txn i pid ks dev start).
Abbreviation intxn := (intxn i pid ks dev start).
Abbreviation wrun := (wrun i).
Abbreviation is_dir := (is_dir dev start sb).

Lemma runs_get_slock_inode ip x s : k_icache s !! ip = Some x -> runs (get_slock (SInode ip)) s (i_lock x) s.
Proof. intros H. eapply runs_bind; [by apply runs_get_inode|]. apply runs_ret. Qed.

Lemma runs_holdingsleep_inode ip x s :
  in_proc i pid ks s -> k_icache s !! ip = Some x -> i_lock x = mk_sleeplock 1 pid ->
  runs (holdingsleep (SInode ip)) s true s.
Proof.
  intros [H1 H2 H3 H4 H5 H6] Hx Hl. unfold holdingsleep.
  eapply runs_bind; [apply runs_acquire; rewrite H5; set_solver|].
  rewrite H5, (right_id_L ∅ (∪)).
  eapply runs_bind; [by apply runs_get_slock_inode|]. rewrite Hl. cbn [sl_locked sl_pid Z.eqb].
  eapply runs_bind; [eapply runs_bind; [by apply (runs_mypid i pid ks)|apply runs_ret]|].
  rewrite Z.eqb_refl. eapply runs_bind; [|apply runs_ret].
  eapply runs_release_to; [cbn; set_solver|]. cbn.
  replace ({[Lsleep (SInode ip)]} ∖ {[Lsleep (SInode ip)]} : gset lock) with (∅ : gset lock) by set_solver.
  rewrite <- H5. by destruct s.
Qed.

Definition inode_unlocked (ip : nat) (x : inode) (s : kst) : kst :=
  set_k_procs (wake (ChSleep (SInode ip)) <$> k_procs s) (with_inode ip (set_i_lock (mk_sleeplock 0 0) x) s).

Lemma runs_releasesleep_inode ip x s :
  in_proc i pid ks s -> k_icache s !! ip = Some x -> runs (releasesleep (SInode ip)) s tt (inode_unlocked ip x s).
Proof.
  intros [H1 H2 H3 H4 H5 H6] Hx. unfold releasesleep.
  eapply runs_bind; [apply runs_acquire; rewrite H5; set_solver|].
  rewrite H5, (right_id_L ∅ (∪)).
  eapply runs_bind; [by apply (runs_mod_inode ip _ x)|].
  eapply runs_bind; [apply runs_wakeup; [done|cbn; set_solver]|].
  eapply runs_release_to; [cbn; set_solver|]. unfold inode_unlocked, with_inode. cbn.
  replace ({[Lsleep (SInode ip)]} ∖ {[Lsleep (SInode ip)]} : gset lock) with (∅ : gset lock) by set_solver.
  rewrite <- H5. by destruct s.
Qed.

Lemma runs_iunlock ip x s :
  in_proc i pid ks s -> k_icache s !! ip = Some x -> i_lock x = mk_sleeplock 1 pid -> 1 <= i_ref x ->
  runs (iunlock (Some ip)) s tt (inode_unlocked ip x s).
Proof.
  intros Hi Hx Hl Hr. unfold iunlock. eapply runs_bind; [by eapply runs_holdingsleep_inode|]. cbn [negb].
  eapply runs_bind; [by apply runs_get_inode|]. destruct (Z.ltb_spec (i_ref x) 1); [lia|]. by apply runs_releasesleep_inode.
Qed.

Lemma intxn_inode_unlocked ip x s d D bns L : intxn s d D bns L -> intxn (inode_unlocked ip x s) d D bns L.
Proof.
  intros (pins & Ht & Hc)%(intxn_set_icache _ _ _ _ _ (<[ip := set_i_lock (mk_sleeplock 0 0) x]> (k_icache s))). exists pins.
  split; [by eapply txn_pins_log; [|exact Ht]|]. exact (acache_wake _ _ _ _ (ChSleep (SInode ip)) _ _ _ _ Hc).
Qed.

(** The reference that the walk has given up. *)

Lemma runs_iunlockput ip x s :
  in_proc i pid ks s -> k_icache s !! ip = Some x -> i_lock x = mk_sleeplock 1 pid -> 1 <= i_ref x < 2 ^ 31 -> i_nlink x <> 0 ->
  runs (iunlockput ip) s tt (with_inode ip (set_i_ref (i_ref x - 1) (set_i_lock (mk_sleeplock 0 0) x)) (inode_unlocked ip x s)).
Proof.
  intros Hi Hx Hl Hr Hn. unfold iunlockput. eapply runs_bind; [apply (runs_iunlock ip x); try done; lia|].
  apply (runs_iput dev start Hdev Hstart (inode_unlocked ip x s) ip (set_i_lock (mk_sleeplock 0 0) x)); [apply Hi|by eapply lookup_with_inode|cbn; lia|by right; right].
Qed.

(** ** The tree on the disk and the cache

    [T] has the inodes that are reached, by number.  Those on the disk have its fields,
    are linked, and the entries of a directory are among them. *)

Abbreviation file_ok := (file_ok start sb).

Record tree (D : disk) (T : gmap Z inode) : Prop := {
  tr_block : forall n y, T !! n = Some y -> inode_block start sb D n /\ on_disk sb D n y;
  tr_typed : forall n y, T !! n = Some y -> dinode_typed y /\ i_type y <> 0 /\ i_nlink y <> 0;
  tr_dir : forall n y, T !! n = Some y -> i_type y = T_DIR -> file_ok D (i_addrs y) (i_size y) /\ (16 | i_size y);
  tr_closed : forall n y k m, T !! n = Some y -> i_type y = T_DIR -> dir_lookup (contents D y) k = Some m -> is_Some (T !! m);
}.

Record copy_of (x y : inode) : Prop := {
  cp_valid : i_valid x = 1;
  cp_type : i_type x = i_type y;
  cp_major : i_major x = i_major y;
  cp_minor : i_minor x = i_minor y;
  cp_nlink : i_nlink x = i_nlink y;
  cp_size : i_size x = i_size y;
  cp_addrs : i_addrs x = i_addrs y;
}.

(** A cache where nothing is locked, and what has been read is what is on the disk. *)

Record entry_ok (T : gmap Z inode) (x : inode) : Prop := {
  en_lock : sl_locked (i_lock x) = 0;
  en_addrs : length (i_addrs x) = 13%nat;
  en_copy : 0 < i_ref x -> i_dev x = dev -> i_valid x = 0 \/ exists y, T !! i_inum x = Some y /\ copy_of x y;
}.

Definition coherent (T : gmap Z inode) (ic : list inode) : Prop := icache_ok ic /\ Forall (entry_ok T) ic.

Lemma copy_loaded x y : copy_of x y -> loaded pid x y = set_i_lock (mk_sleeplock 1 pid) x.
Proof. intros [? ? ? ? ? ? ?]. unfold loaded, set_i_lock. congruence. Qed.

Lemma wrun_ilock_tree s d D bns T ip x y :
  txn s d D bns -> k_sb s = sb -> tree D T -> entry_ok T x -> k_icache s !! ip = Some x -> i_dev x = dev -> 0 < i_ref x ->
  T !! i_inum x = Some y ->
  exists s', wrun (ilock (Some ip)) s d [] tt s' /\ fs_frame (with_inode ip (loaded pid x y) s) s' /\ txn s' d D bns.
Proof.
  intros Ht Hsb Htr [Hl Ha Hc] Hx Hd Hr Hy. destruct (tr_block _ _ Htr _ _ Hy) as [Hb Ho]. destruct (tr_typed _ _ Htr _ _ Hy) as (Hty & Ht0 & _).
  destruct (Hc Hr Hd) as [Hv|(y' & Hy' & Hcp)].
  - apply (wrun_ilock i pid ks dev start Hdev Hstart s d D bns sb ip x y); try done. lia.
  - rewrite Hy in Hy'. injection Hy' as <-. rewrite (copy_loaded x y Hcp).
    pose proof (runs_acquiresleep_inode i pid ks dev start Hdev Hstart ip x s (intxn_in_proc _ _ _ _ _ _ _ _ _ _ Ht) Hx Hl) as Hacq.
    eexists. split; [|split; [reflexivity|by apply intxn_set_icache]]. apply wrun_runs. unfold ilock.
    eapply runs_bind; [by apply runs_get_inode|]. destruct (Z.ltb_spec (i_ref x) 1); [lia|]. eapply runs_bind; [exact Hacq|].
    eapply runs_bind; [apply runs_get_inode; by eapply lookup_with_inode|]. cbn [i_valid set_i_lock]. rewrite (cp_valid _ _ Hcp). apply runs_ret.
Qed.

(** The entry [x] of the cache is for the inode [y] of the tree. *)

Definition tree_entry (T : gmap Z inode) (x y : inode) : Prop := T !! i_inum x = Some y /\ length (i_addrs y) = 13%nat.

(** What iunlockput leaves of an inode that has been read and locked. *)

Definition put_back (x y : inode) (r : Z) : inode := set_i_ref r (set_i_lock (mk_sleeplock 0 0) (loaded pid x y)).

Lemma entry_put_back T x y r : tree_entry T x y -> entry_ok T (put_back x y r).
Proof. intros [Hy Hl]. split; [done|done|]. intros _ _. right. exists y. by split. Qed.

Lemma entry_iget T n x : entry_ok T x -> entry_ok T (iget_entry dev n x).
Proof.
  intros [H1 H2 H3]. unfold iget_entry. destruct (cached_as dev n x) eqn:E; [|split; [done|done|by left]].
  apply cached_as_iff in E as (E1 & E2 & _). split; [done|done|]. intros _ _. destruct (H3 E1 E2) as [?|(y & ? & [? ? ? ? ? ? ?])]; [by left|right].
  by exists y.
Qed.

(** The entry [ip] has been read, locked and put back, and nothing else has changed. *)

Lemma coherent_put ic T ip x y :
  coherent T ic -> ic !! ip = Some x -> tree_entry T x y -> 0 < i_ref x ->
  coherent T (<[ip := put_back x y (i_ref x - 1)]> ic) /\ same_refs (unref ip ic) (<[ip := put_back x y (i_ref x - 1)]> ic).
Proof.
  intros [Hic He] Hx Hy Hr. pose proof (Forall_lookup_1 _ _ _ _ (ic_refs _ Hic) Hx) as Hb. cbn in Hb. split; [split|].
  - apply (icache_ok_insert ic ip x); try done; cbn; lia.
  - apply Forall_insert; [done|by apply entry_put_back].
  - rewrite (unref_lookup _ _ _ Hx). by apply Forall2_insert.
Qed.

(** The entry [jp] has been found meanwhile, which may be [ip] again. *)

Lemma coherent_step ic T ip x y jp z n :
  coherent T ic -> ic !! ip = Some x -> i_dev x = dev -> tree_entry T x y -> 0 < i_ref x -> i_ref x < 2 ^ 31 - 2 ->
  let ic1 := <[ip := loaded pid x y]> ic in
  ic1 !! jp = Some z -> i_ref z < 2 ^ 31 - 2 ->
  (cached_as dev n z = true \/ i_ref z = 0 /\ Forall (fun w => cached_as dev n w = false) ic1) ->
  let ic2 := <[jp := iget_entry dev n z]> ic1 in
  exists r, ic2 !! ip = Some (set_i_ref r (loaded pid x y)) /\ 1 <= r < 2 ^ 31 - 1 /\
    let ic3 := <[ip := put_back x y (r - 1)]> ic2 in
    coherent T ic3 /\ same_refs (unref ip ic) (unref jp ic3) /\
    exists w, ic3 !! jp = Some w /\ i_dev w = dev /\ i_inum w = n /\ 0 < i_ref w.
Proof.
  intros Hco Hx Hd Hy Hr Hr2 ic1 Hz Hz2 Hc ic2. destruct Hco as [Hic He].
  assert (Hlip : (ip < length ic)%nat) by (by eapply lookup_lt_Some).
  assert (Hic1 : icache_ok ic1) by (apply (icache_ok_insert ic ip x); try done; cbn; lia).
  assert (Hic2 : icache_ok ic2) by (apply icache_ok_iget; try done; lia).
  pose proof (Forall_lookup_1 _ _ _ _ (ic_refs _ Hic1) Hz) as Hz0. cbn in Hz0.
  destruct (iget_entry_cached dev n z ltac:(lia)) as (E1 & E2 & E3).
  destruct (decide (jp = ip)) as [->|Hne].
  - assert (Hz' : z = loaded pid x y) by (unfold ic1 in Hz; rewrite list_lookup_insert_eq in Hz by done; congruence).
    assert (Hcz : cached_as dev n z = true) by (destruct Hc as [?|[H0 _]]; [done|subst z; cbn in H0; lia]).
    assert (Ez : iget_entry dev n z = set_i_ref (i_ref x + 1) (loaded pid x y)) by (unfold iget_entry; rewrite Hcz, Hz'; done).
    assert (Hn : i_inum x = n) by (apply cached_as_iff in Hcz; subst z; apply Hcz).
    assert (H2 : ic2 = <[ip := set_i_ref (i_ref x + 1) (loaded pid x y)]> ic) by (unfold ic2, ic1; by rewrite list_insert_insert_eq, Ez).
    exists (i_ref x + 1). rewrite H2. split; [by apply list_lookup_insert_eq|]. split; [lia|]. cbv zeta. rewrite list_insert_insert_eq.
    replace (i_ref x + 1 - 1) with (i_ref x) by lia. split_and!.
    + split; [apply (icache_ok_insert ic ip x); try done; cbn; lia|apply Forall_insert; [done|by apply entry_put_back]].
    + rewrite (unref_lookup _ _ _ Hx), unref_insert by done. by apply Forall2_insert.
    + eexists. split; [by apply list_lookup_insert_eq|]. done.
  - assert (Hz' : ic !! jp = Some z) by (unfold ic1 in Hz; by rewrite list_lookup_insert_ne in Hz by done).
    assert (H2ip : ic2 !! ip = Some (loaded pid x y)) by (unfold ic2, ic1; rewrite list_lookup_insert_ne by done; by apply list_lookup_insert_eq).
    exists (i_ref x). split; [exact H2ip|]. split; [lia|]. cbv zeta.
    assert (H3 : <[ip := put_back x y (i_ref x - 1)]> ic2 = <[jp := iget_entry dev n z]> (<[ip := put_back x y (i_ref x - 1)]> ic)).
    { unfold ic2, ic1. rewrite list_insert_insert_ne by done. by rewrite list_insert_insert_eq. }
    rewrite H3. split_and!.
    + rewrite <- H3. split; [apply (icache_ok_insert ic2 ip (loaded pid x y)); try done; cbn; lia|]. rewrite H3.
      apply Forall_insert; [apply Forall_insert; [done|by apply entry_put_back]|]. apply entry_iget. by apply (Forall_lookup_1 _ ic jp).
    + rewrite unref_insert by (rewrite length_insert; by eapply lookup_lt_Some). rewrite (unref_lookup _ _ _ Hx).
      apply (same_refs_insert _ _ _ z); [by apply Forall2_insert|by rewrite list_lookup_insert_ne|].
      unfold iget_entry. destruct Hc as [Hc|[H0 Hf]]; [rewrite Hc; split; cbn; [lia|done]|].
      rewrite (Forall_lookup_1 _ _ _ _ Hf Hz). split; cbn; lia.
    + eexists. split; [apply list_lookup_insert_eq; rewrite length_insert; by eapply lookup_lt_Some|]. done.
Qed.

(** ** Resolution

    [cr] is the number of the root of the process's container, if it is in one: from
    there a name that begins with two dots stays there.  [par] asks for the directory of
    the last element. *)

Definition confine_key (cr : option Z) (n : Z) (k : list Z) : list Z :=
  if decide (cr = Some n /\ take 2 k = [46; 46]) then [46] else k.

Fixpoint resolve (D : disk) (T : gmap Z inode) (cr : option Z) (par : bool) (n : Z) (es : list (list Z)) : option Z :=
  match es with
  | [] => if par then None else Some n
  | e :: es' =>
      y ← T !! n;
      if negb (i_type y =? T_DIR) then None
      else if par && bool_decide (es' = []) then Some n
      else m ← dir_lookup (contents D y) (confine_key cr n (take 14 e)); resolve D T cr par m es'
  end.

Section Walk.
Context (d D : disk) (bns : list Z) (T : gmap Z inode) (ci : nat) (c : container) (cr : option Z) (ic0 : list inode).

(** The cache without the reference of the walk: two entries are free, no count is near
    its limit, and the root of the container is referenced. *)

Record spacious : Prop := {
  sc_free : exists j1 j2 x1 x2, j1 <> j2 /\ ic0 !! j1 = Some x1 /\ ic0 !! j2 = Some x2 /\ i_ref x1 = 0 /\ i_ref x2 = 0;
  sc_refs : Forall (fun x => i_ref x < 2 ^ 31 - 3) ic0;
  sc_root : match cr with
            | None => ci = 0%nat
            | Some rn => ci <> 0%nat /\ exists r x, c_root c = Some r /\ ic0 !! r = Some x /\ cached_as dev rn x = true
            end;
}.

Record rested (s : kst) : Prop := {
  rs_txn : txn s d D bns;
  rs_sb : k_sb s = sb;
  rs_cont : cur_cont s ci c;
  rs_cache : coherent T (k_icache s);
  rs_refs : same_refs ic0 (k_icache s);
}.

(** The walk is at the inode [n], with a reference to the entry [ip]. *)

Record walking (s : kst) (ip : nat) (n : Z) (x y : inode) : Prop := {
  wk_txn : txn s d D bns;
  wk_sb : k_sb s = sb;
  wk_cont : cur_cont s ci c;
  wk_cache : coherent T (k_icache s);
  wk_entry : k_icache s !! ip = Some x;
  wk_cached : cached_as dev n x = true;
  wk_node : T !! n = Some y;
  wk_refs : same_refs ic0 (unref ip (k_icache s));
}.

Hypothesis Hroom : spacious.
Hypothesis Htree : tree D T.

(** An entry of the cache and what it was without the walk. *)

Lemma same_refs_entry ic ip j z :
  same_refs ic0 (unref ip ic) -> ic !! j = Some z -> exists z0, ic0 !! j = Some z0 /\
    i_ref z = i_ref z0 + (if decide (j = ip) then 1 else 0) /\ (0 < i_ref z0 -> i_dev z = i_dev z0 /\ i_inum z = i_inum z0).
Proof.
  intros H Hz. destruct (decide (j = ip)) as [->|Hne].
  - rewrite (unref_lookup _ _ _ Hz) in H.
    destruct (Forall2_lookup_r _ _ _ ip _ H (list_lookup_insert_eq _ _ _ (lookup_lt_Some _ _ _ Hz))) as (z0 & H0 & E1 & E2).
    exists z0. cbn in E1, E2. split; [done|]. split; [lia|done].
  - assert (Hz' : unref ip ic !! j = Some z) by (unfold unref; by rewrite list_lookup_alter_ne).
    destruct (Forall2_lookup_r _ _ _ j _ H Hz') as (z0 & H0 & E1 & E2). exists z0. split; [done|]. split; [lia|done].
Qed.

Lemma confined_key s ip n x y name k :
  walking s ip n x y -> key 14 name = Some k -> key 14 (confined ci c ip name) = Some (confine_key cr n k).
Proof.
  intros W Hk. unfold confined, confine_key. pose proof (sc_root Hroom) as Hr.
  assert (Hdots : take 2 name = [46; 46] <-> take 2 k = [46; 46]).
  { rewrite <- key_dots, (key_take 2 14 name k Hk) by lia. split; [by intros [= ->]|by intros ->]. }
  assert (Hroot : ci <> 0%nat /\ c_root c = Some ip <-> cr = Some n).
  { destruct cr as [rn|]; [|split; [tauto|done]]. destruct Hr as (Hci & r & x0 & Hcr & Hx0 & Hc0).
    apply cached_as_iff in Hc0 as (P0 & D0 & N0). pose proof (proj1 (cached_as_iff _ _ _) (wk_cached _ _ _ _ _ W)) as (Px & Dx & Nx).
    pose proof (Forall2_length _ _ _ (wk_refs _ _ _ _ _ W)) as Hl. unfold unref in Hl. rewrite length_alter in Hl.
    destruct (lookup_lt_is_Some_2 (k_icache s) r) as [z Hz]; [rewrite <- Hl; by eapply lookup_lt_Some|].
    destruct (same_refs_entry _ _ _ _ (wk_refs _ _ _ _ _ W) Hz) as (z0 & Hz0 & E1 & E2).
    rewrite Hx0 in Hz0. injection Hz0 as <-. destruct (E2 P0) as [E3 E4]. split.
    - intros [_ Hc]. rewrite Hcr in Hc. injection Hc as ->. rewrite (wk_entry _ _ _ _ _ W) in Hz. injection Hz as <-. congruence.
    - intros [= ->]. split; [done|]. rewrite Hcr. f_equal.
      apply (ic_unique _ (proj1 (wk_cache _ _ _ _ _ W)) r ip z x Hz (wk_entry _ _ _ _ _ W)); try congruence. destruct (decide (r = ip)); lia. }
  destruct (decide (ci <> 0%nat /\ take 2 name = [46; 46] /\ c_root c = Some ip)) as [H|H], (decide (cr = Some n /\ take 2 k = [46; 46])) as [H'|H'];
    try done; tauto.
Qed.

Lemma cur_cont_inode_unlocked ip x s : in_proc i pid ks s -> cur_cont s ci c -> cur_cont (inode_unlocked ip x s) ci c.
Proof.
  intros Hi Hc. apply (cur_cont_frame i pid ks s _ ci c c); [done| |apply images_wake|exact (cur_cont_lookup _ _ _ Hc)|done].
  apply (in_proc_wake i pid ks _ (with_inode ip _ s)). destruct Hi. by split.
Qed.

Lemma walking_entry s ip n x y :
  walking s ip n x y -> i_dev x = dev /\ i_inum x = n /\ 0 < i_ref x < 2 ^ 31 - 2 /\ tree_entry T x y /\ entry_ok T x.
Proof.
  intros [_ _ _ [Hic He] Hx Hc Hy Hr]. apply cached_as_iff in Hc as (H1 & H2 & H3). split; [done|]. split; [done|].
  destruct (same_refs_entry _ _ _ _ Hr Hx) as (x0 & Hx0 & E & _). pose proof (Forall_lookup_1 _ _ _ _ (sc_refs Hroom) Hx0) as Hb. cbn in Hb.
  rewrite decide_True in E by done. split; [lia|]. split; [|by apply (Forall_lookup_1 _ _ _ _ He Hx)].
  split; [congruence|]. apply (dt_length _ (proj1 (tr_typed _ _ Htree _ _ Hy))).
Qed.

(** The inode of the walk is locked and has been read. *)

Record walk_locked (s s1 : kst) (ip : nat) (x y : inode) : Prop := {
  wl_txn : txn s1 d D bns;
  wl_sb : k_sb s1 = sb;
  wl_cont : cur_cont s1 ci c;
  wl_cache : k_icache s1 = <[ip := loaded pid x y]> (k_icache s);
}.

Lemma walk_ilock s ip n x y :
  walking s ip n x y -> exists s1, wrun (ilock (Some ip)) s d [] tt s1 /\ walk_locked s s1 ip x y.
Proof.
  intros W. destruct (walking_entry _ _ _ _ _ W) as (Hd & Hn & Hr & [Hy _] & He). pose proof W as [Ht Hsb Hcc Hco Hx _ _ _].
  destruct (wrun_ilock_tree s d D bns T ip x y Ht Hsb Htree He Hx Hd ltac:(lia) Hy) as (s1 & H1 & F1 & G1). exists s1. split; [done|].
  split; [done| | |by rewrite (ff_icache _ _ F1)].
  - by rewrite (ff_sb _ _ F1).
  - by apply (cur_cont_fs i pid ks dev start (with_inode ip (loaded pid x y) s) s1 ci c d D bns ∅ d D bns ∅); [apply intxn_set_icache| |..].
Qed.

(** The reference is given up. *)

Lemma walk_give_up s s1 ip n x y :
  walking s ip n x y -> walk_locked s s1 ip x y -> exists s2, runs (iunlockput ip) s1 tt s2 /\ rested s2.
Proof.
  intros W [Ht1 Hsb1 Hcc1 Hc1]. destruct (walking_entry _ _ _ _ _ W) as (Hd & Hn & Hr & Hy & He). pose proof W as [Ht Hsb Hcc Hco Hx _ HT Hrf].
  pose proof (intxn_in_proc _ _ _ _ _ _ _ _ _ _ Ht1) as Hi1.
  assert (Hx1 : k_icache s1 !! ip = Some (loaded pid x y)) by (rewrite Hc1; apply list_lookup_insert_eq; by eapply lookup_lt_Some).
  pose proof (runs_iunlockput ip (loaded pid x y) s1 Hi1 Hx1 eq_refl ltac:(cbn; lia) (proj2 (proj2 (tr_typed _ _ Htree _ _ HT)))) as Hput.
  eexists. split; [exact Hput|]. destruct (coherent_put _ _ _ _ _ Hco Hx Hy ltac:(lia)) as [C1 C2].
  match goal with |- rested ?s2 => assert (E : k_icache s2 = <[ip := put_back x y (i_ref x - 1)]> (k_icache s)) end.
  { cbn. rewrite Hc1, !list_insert_insert_eq. done. }
  split; rewrite ?E.
  - by apply intxn_set_icache, intxn_inode_unlocked.
  - done.
  - exact (cur_cont_inode_unlocked ip (loaded pid x y) s1 Hi1 Hcc1).
  - done.
  - by trans (unref ip (k_icache s)).
Qed.

(** It is unlocked and kept. *)

Lemma walk_iunlock s s1 ip n x y :
  walking s ip n x y -> walk_locked s s1 ip x y ->
  exists s2, runs (iunlock (Some ip)) s1 tt s2 /\ walking s2 ip n (put_back x y (i_ref x)) y.
Proof.
  intros W [Ht1 Hsb1 Hcc1 Hc1]. destruct (walking_entry _ _ _ _ _ W) as (Hd & Hn & Hr & Hy & He). pose proof W as [Ht Hsb Hcc [Hic Hce] Hx _ HT Hrf].
  pose proof (intxn_in_proc _ _ _ _ _ _ _ _ _ _ Ht1) as Hi1. assert (Hl : (ip < length (k_icache s))%nat) by (by eapply lookup_lt_Some).
  assert (Hx1 : k_icache s1 !! ip = Some (loaded pid x y)) by (rewrite Hc1; by apply list_lookup_insert_eq).
  pose proof (runs_iunlock ip (loaded pid x y) s1 Hi1 Hx1 eq_refl ltac:(cbn; lia)) as Hput. eexists. split; [exact Hput|].
  match goal with |- walking ?s2 _ _ _ _ => assert (E : k_icache s2 = <[ip := put_back x y (i_ref x)]> (k_icache s)) end.
  { cbn. rewrite Hc1, !list_insert_insert_eq. done. }
  split; rewrite ?E.
  - by apply intxn_inode_unlocked.
  - done.
  - exact (cur_cont_inode_unlocked ip (loaded pid x y) s1 Hi1 Hcc1).
  - split; [apply (icache_ok_insert _ ip x); try done; cbn; lia|apply Forall_insert; [done|by apply entry_put_back]].
  - by apply list_lookup_insert_eq.
  - apply cached_as_iff. cbn. split; [lia|done].
  - done.
  - rewrite unref_insert by done. trans (unref ip (k_icache s)); [done|]. rewrite (unref_lookup _ _ _ Hx). by apply Forall2_insert.
Qed.

Lemma walk_iput s ip n x y : walking s ip n x y -> exists s2, runs (iput ip) s tt s2 /\ rested s2.
Proof.
  intros W. destruct (walking_entry _ _ _ _ _ W) as (Hd & Hn & Hr & Hy & He). pose proof W as [Ht Hsb Hcc [Hic Hce] Hx _ HT Hrf].
  eexists. split; [apply (runs_iput dev start Hdev Hstart s ip x)|].
  - apply (ip_held _ _ _ _ (intxn_in_proc _ _ _ _ _ _ _ _ _ _ Ht)).
  - done.
  - lia.
  - destruct (en_copy _ _ He ltac:(lia) Hd) as [?|(y' & Hy' & Hcp)]; [tauto|]. rewrite (cp_nlink _ _ Hcp). right. right.
    apply (tr_typed _ _ Htree _ _ Hy').
  - split; [by apply intxn_set_icache|done|done| |].
    + cbn. split; [apply (icache_ok_insert _ ip x); try done; cbn; lia|]. apply Forall_insert; [done|]. destruct He as [? ? Hcp].
      split; [done|done|]. intros _ ?. destruct (Hcp ltac:(lia) Hd) as [?|(y' & ? & [? ? ? ? ? ? ?])]; [by left|right; by exists y'].
    + cbn. by rewrite <- (unref_lookup _ _ _ Hx).
Qed.

(** There is an entry for what is found. *)

Lemma walk_slot s ip n x y k :
  walking s ip n x y -> slot_for dev D (loaded pid x y) k (<[ip := loaded pid x y]> (k_icache s)).
Proof.
  intros W m _. pose proof (wk_refs _ _ _ _ _ W) as Hrf. destruct (sc_free Hroom) as (j1 & j2 & x1 & x2 & Hne & H1 & H2 & R1 & R2).
  assert (Hone : forall j z0, ic0 !! j = Some z0 -> i_ref z0 = 0 -> j <> ip ->
    Exists (fun z => cached_as dev m z = true \/ i_ref z = 0) (<[ip := loaded pid x y]> (k_icache s))).
  { intros j z0 Hz0 R Hj. destruct (Forall2_lookup_l _ _ _ _ _ Hrf Hz0) as (z & Hz & E & _). unfold unref in Hz. rewrite list_lookup_alter_ne in Hz by done.
    apply Exists_exists. exists z. split; [|right; lia]. apply (list_elem_of_lookup_2 _ j). by rewrite list_lookup_insert_ne. }
  destruct (decide (j1 = ip)) as [->|Hj]; [by apply (Hone j2 x2)|by apply (Hone j1 x1)].
Qed.

(** An entry for the next inode has been found; the reference to this one is given up. *)

Lemma walk_found s s1 s1' ip n x y jp m z z' :
  walking s ip n x y -> walk_locked s s1 ip x y -> fs_frame s1 s1' -> k_icache s1 !! jp = Some z ->
  (cached_as dev m z = true \/ i_ref z = 0 /\ Forall (fun w => cached_as dev m w = false) (k_icache s1)) ->
  let s2 := with_inode jp (iget_entry dev m z) s1' in
  txn s2 d D bns -> T !! m = Some z' -> exists s3 w, runs (iunlockput ip) s2 tt s3 /\ walking s3 jp m w z'.
Proof.
  intros W [Ht1 Hsb1 Hcc1 Hc1] F Hz Hc s2 G2 Hz'. destruct (walking_entry _ _ _ _ _ W) as (Hd & Hn & Hr & Hy & He).
  pose proof W as [_ _ _ _ Hx _ HT Hrf]. rewrite Hc1 in Hz, Hc.
  assert (Hzr : i_ref z < 2 ^ 31 - 2).
  { apply list_lookup_insert_Some in Hz as [(<- & <- & _)|[Hj Hz]]; [cbn; lia|].
    destruct (same_refs_entry _ _ _ _ Hrf Hz) as (z0 & Hz0 & E & _). pose proof (Forall_lookup_1 _ _ _ _ (sc_refs Hroom) Hz0) as Hb. cbn in Hb.
    rewrite decide_False in E by done. lia. }
  destruct (coherent_step _ _ ip x y jp z m (wk_cache _ _ _ _ _ W) Hx Hd Hy ltac:(lia) ltac:(lia) Hz Hzr Hc)
    as (r & Hip & Hrr & C3 & S3 & w & Hw & W1 & W2 & W3).
  pose proof (intxn_in_proc _ _ _ _ _ _ _ _ _ _ G2) as Hi2.
  assert (E2 : k_icache s2 = <[jp := iget_entry dev m z]> (<[ip := loaded pid x y]> (k_icache s))) by (cbn; by rewrite (ff_icache _ _ F), Hc1).
  rewrite <- E2 in *. pose proof (runs_iunlockput ip _ s2 Hi2 Hip eq_refl ltac:(cbn; lia) (proj2 (proj2 (tr_typed _ _ Htree _ _ HT)))) as Hput.
  eexists _, w. split; [exact Hput|].
  match goal with |- walking ?s3 _ _ _ _ => assert (E3 : k_icache s3 = <[ip := put_back x y (r - 1)]> (k_icache s2)) end.
  { cbn [k_icache with_inode set_k_icache inode_unlocked set_k_procs]. by rewrite list_insert_insert_eq. }
  split; rewrite ?E3; try done.
  - by apply intxn_set_icache, intxn_inode_unlocked.
  - cbn. by rewrite (ff_sb _ _ F).
  - apply (cur_cont_inode_unlocked ip (set_i_ref r (loaded pid x y)) s2 Hi2).
    apply (cur_cont_frame i pid ks s1 s2 ci c c (intxn_in_proc _ _ _ _ _ _ _ _ _ _ Ht1) Hi2 (ff_images _ _ F)); [|done].
    cbn. rewrite (ff_conts _ _ F). by apply cur_cont_lookup.
  - by apply cached_as_iff.
  - by trans (unref ip (k_icache s)).
Qed.

(** The next inode is looked up and the reference to this one given up. *)

Lemma walk_next s s1 ip n x y name k :
  walking s ip n x y -> walk_locked s s1 ip x y -> i_type y = T_DIR -> key 14 name = Some k ->
  exists r s2 s3, wrun (dirlookup ip name) s1 d [] r s2 /\ runs (iunlockput ip) s2 tt s3 /\
    match dir_lookup (contents D y) (confine_key cr n k) with
    | None => r = None /\ rested s3
    | Some m => exists jp off w z, r = Some (jp, off) /\ walking s3 jp m w z
    end.
Proof.
  intros W L Hty Hk. pose proof L as [Ht1 Hsb1 Hcc1 Hc1]. destruct (walking_entry _ _ _ _ _ W) as (Hd & Hn & Hr & Hy & He).
  pose proof W as [Ht Hsb Hcc [Hic Hce] Hx _ HT Hrf]. assert (Hl : (ip < length (k_icache s))%nat) by (by eapply lookup_lt_Some).
  assert (Hx1 : k_icache s1 !! ip = Some (loaded pid x y)) by (rewrite Hc1; by apply list_lookup_insert_eq).
  destruct (tr_dir _ _ Htree _ _ HT Hty) as [Hfo Hwh]. assert (Hdir : is_dir D (loaded pid x y)) by (by split).
  assert (Hic1 : icache_ok (k_icache s1)) by (rewrite Hc1; apply (icache_ok_insert _ ip x); try done; cbn; lia).
  destruct (wrun_dirlookup i pid ks dev start Hdev Hstart sb s1 d D bns ip _ ci c name _ Ht1 Hx1 Hdir Hic1 Hcc1 ltac:(by eexists)
    (confined_key _ _ _ _ _ _ _ W Hk)) as (r & s2 & H2 & K2 & G2); [rewrite Hc1; by eapply walk_slot|].
  unfold looked_up in K2. change (contents D (loaded pid x y)) with (contents D y) in K2. unfold dir_lookup at 1.
  pose proof (tr_closed _ _ Htree n y (confine_key cr n k)) as Hcl. unfold dir_lookup in Hcl.
  destruct (list_find (named (confine_key cr n k)) (entries (contents D y))) as [[j e]|]; cbn [fmap option_fmap option_map snd] in *.
  - destruct K2 as (s1' & jp & z & -> & -> & F & Hz & Hc). destruct (Hcl _ HT Hty eq_refl) as [z' Hz'].
    destruct (walk_found s s1 s1' ip n x y jp (de_inum e) z z') as (s3 & w & H3 & W3); try done.
    eexists _, _, s3. split; [exact H2|]. split; [exact H3|]. by exists jp, (16 * Z.of_nat j), w, z'.
  - destruct K2 as [-> F].
    assert (L2 : walk_locked s s2 ip x y).
    { split; [done|by rewrite (ff_sb _ _ F)|by apply (cur_cont_fs i pid ks dev start s1 s2 ci c d D bns ∅ d D bns ∅)|by rewrite (ff_icache _ _ F)]. }
    destruct (walk_give_up s s2 ip n x y W L2) as (s3 & H3 & R3). by exists None, s2, s3.
Qed.

(** ** The walk *)

(** The name that is left: the last element, of fourteen characters at most. *)

Definition last_name (es : list (list Z)) (name name' : list Z) : Prop :=
  match last es with Some e => key 14 name' = Some (take 14 e) | None => name' = name end.

Definition arrived (par : bool) (n : Z) (es : list (list Z)) (name : list Z) (o : option nat) (name' : list Z) (s' : kst) : Prop :=
  match resolve D T cr par n es with
  | Some m => (exists jp x y, o = Some jp /\ walking s' jp m x y) /\ last_name es name name'
  | None => o = None /\ rested s'
  end.

Lemma last_name_cons e es name1 name name' :
  key 14 name1 = Some (take 14 e) -> last_name es name1 name' -> last_name (e :: es) name name'.
Proof. intros H. unfold last_name. rewrite last_cons. by destruct (last es); [|intros ->]. Qed.

Lemma walk_end par r f p name s ip n x y :
  walking s ip n x y -> path_elements p = [] -> Forall path_char p -> length name = 14%nat ->
  exists o s', wrun (loop (S f) (namex_round par) (Some ip, p ++ 0 :: r, name)) s d [] (o, name) s' /\ arrived par n [] name o name s'.
Proof.
  intros W E Hp Hn. pose proof (skipelem_spec p r name Hp Hn) as Hs. rewrite E in Hs. cbn [loop]. unfold namex_round. rewrite Hs. unfold arrived, resolve.
  destruct par; cbn [valid].
  - destruct (walk_iput _ _ _ _ _ W) as (s' & H' & R'). exists None, s'. split; [|done]. apply wrun_runs.
    eapply runs_bind; [eapply runs_bind; [apply runs_ret|eapply runs_bind; [exact H'|apply runs_ret]]|apply runs_ret].
  - exists (Some ip), s. split; [apply wrun_runs; eapply runs_bind; apply runs_ret|]. split; [by exists ip, x, y|done].
Qed.

(** One element: the walk ends, or goes on from the inode it names. *)

Definition stepped (par : bool) (n : Z) (e : list Z) (es : list (list Z)) (p r name : list Z) (b : option nat * list Z * list Z + option nat * list Z)
    (s' : kst) : Prop :=
  match b with
  | inr (o, name') => arrived par n (e :: es) name o name' s'
  | inl (o, path, name1) => exists jp m x y q, o = Some jp /\ path = q ++ 0 :: r /\ walking s' jp m x y /\
      resolve D T cr par n (e :: es) = resolve D T cr par m es /\
      Forall path_char q /\ path_elements q = es /\ (length q < length p)%nat /\ length name1 = 14%nat /\ key 14 name1 = Some (take 14 e)
  end.

Lemma walk_element par r p name s ip n x y e es :
  Forall path_char p -> length name = 14%nat -> walking s ip n x y -> path_elements p = e :: es ->
  exists b s', wrun (namex_round par (Some ip, p ++ 0 :: r, name)) s d [] b s' /\ stepped par n e es p r name b s'.
Proof.
  intros Hp Hn W Ep. pose proof (skipelem_spec p r name Hp Hn) as Hs. rewrite Ep in Hs.
  destruct Hs as (name1 & q & Es & Hn1 & Hk & Hq & Eq & Hq0 & Hlq). unfold namex_round. rewrite Es. unfold stepped, arrived. cbn [resolve].
  rewrite (wk_node _ _ _ _ _ W). cbn [mbind option_bind]. destruct (walk_ilock _ _ _ _ _ W) as (s1 & H1 & L1).
  assert (Hx1 : k_icache s1 !! ip = Some (loaded pid x y)).
  { rewrite (wl_cache _ _ _ _ _ L1). apply list_lookup_insert_eq. eapply lookup_lt_Some, (wk_entry _ _ _ _ _ W). }
  assert (Hgo : forall (k : nat -> inode -> K (option nat * list Z * list Z + option nat * list Z)) b s', wrun (k ip (loaded pid x y)) s1 d [] b s' ->
    wrun (ilock (Some ip) ;; ip <- valid (Some ip) ;; x <- get_inode ip ;; k ip x) s d [] b s').
  { intros k b s' Hr. eapply wrun_then; [exact H1|]. eapply wrun_seq; [apply runs_ret|]. eapply wrun_seq; [by apply runs_get_inode|]. exact Hr. }
  destruct (Z.eqb_spec (i_type y) T_DIR) as [Hty|Hty]; cbn [negb].
  2:{ destruct (walk_give_up _ _ _ _ _ _ W L1) as (s2 & H2 & R2). exists (inr (None, name1)), s2. split; [|done]. apply Hgo.
      cbn [i_type loaded]. apply Z.eqb_neq in Hty. rewrite Hty. eapply wrun_seq; [exact H2|apply wrun_runs, runs_ret]. }
  set (c0 := match q with [] => 0 | a :: _ => a end).
  assert (Hc0 : runs (valid (head (q ++ 0 :: r))) s1 c0 s1) by (apply runs_valid; by destruct q).
  assert (Hz0 : (c0 =? 0) = bool_decide (es = [])).
  { unfold c0. destruct q as [|a q]; [symmetry; by apply bool_decide_eq_true, Hq0|]. apply Forall_cons in Hq as [Ha _].
    rewrite bool_decide_eq_false_2 by (intros H; by apply Hq0 in H). by apply Z.eqb_neq. }
  destruct (par && bool_decide (es = [])) eqn:Epar.
  - destruct (walk_iunlock _ _ _ _ _ _ W L1) as (s2 & H2 & W2). exists (inr (Some ip, name1)), s2. split.
    + apply Hgo. cbn [i_type loaded]. rewrite Hty. cbn [Z.eqb negb T_DIR]. eapply wrun_seq; [exact Hc0|]. rewrite Hz0, Epar.
      eapply wrun_seq; [exact H2|apply wrun_runs, runs_ret].
    + apply andb_true_iff in Epar as [_ Ees%bool_decide_eq_true]. rewrite Ees. split; [by eexists _, _, _|done].
  - destruct (walk_next _ _ _ _ _ _ name1 _ W L1 Hty Hk) as (o & s2 & s3 & H2 & H3 & K).
    exists (match o with None => inr (None, name1) | Some (next, _) => inl (Some next, q ++ 0 :: r, name1) end), s3. split.
    + apply Hgo. cbn [i_type loaded]. rewrite Hty. cbn [Z.eqb negb T_DIR]. eapply wrun_seq; [exact Hc0|]. rewrite Hz0, Epar.
      eapply wrun_then; [exact H2|]. eapply wrun_seq; [exact H3|]. apply wrun_runs. destruct o as [[next off]|]; apply runs_ret.
    + destruct (dir_lookup (contents D y) (confine_key cr n (take 14 e))) as [m|]; cbn [mbind option_bind].
      * destruct K as (jp & off & w & z & -> & W3). by exists jp, m, w, z, q.
      * by destruct K as [-> R3].
Qed.

Lemma wrun_walk par r : forall f p name s ip n x y,
  Forall path_char p -> length name = 14%nat -> walking s ip n x y -> (length p < f)%nat ->
  exists o name' s', wrun (loop f (namex_round par) (Some ip, p ++ 0 :: r, name)) s d [] (o, name') s' /\
    arrived par n (path_elements p) name o name' s'.
Proof.
  induction f as [|f IH]; intros p name s ip n x y Hp Hn W Hf; [lia|].
  destruct (path_elements p) as [|e es] eqn:Ep; [destruct (walk_end par r f p name s ip n x y W Ep Hp Hn) as (o & s' & H'); by exists o, name, s'|].
  destruct (walk_element par r p name s ip n x y e es Hp Hn W Ep) as (b & s1 & H1 & K). cbn [loop].
  destruct b as [[[o path] name1]|[o name1]]; cbn [stepped] in K.
  - destruct K as (jp & m & x' & y' & q & -> & -> & W1 & Er & Hq & Eq & Hl & Hn1 & Hk).
    destruct (IH q name1 s1 jp m x' y' Hq Hn1 W1 ltac:(lia)) as (o & name' & s' & H' & A). exists o, name', s'.
    split; [eapply wrun_then; [exact H1|exact H']|]. unfold arrived in *. rewrite Eq in A. rewrite Er.
    destruct (resolve D T cr par m es); [|done]. destruct A as [A1 A2]. split; [done|by eapply last_name_cons].
  - exists o, name1, s1. split; [eapply wrun_then; [exact H1|apply wrun_runs, runs_ret]|done].
Qed.

End Walk.

(** ** The inode a path starts at *)

Lemma runs_namex_start p r s ci c pr ip s1 :
  in_proc i pid ks s -> cur_cont s ci c -> k_procs s !! i = Some pr ->
  runs (if default 0 (head (p ++ 0 :: r)) =? slash then
    (if isroot (ptr_of (Some ci)) then ip <- iget ROOTDEV ROOTINO ;; ret (Some ip) else ret (c_root c))
    else cwd <- valid (p_cwd pr) ;; ip <- idup cwd ;; ret (Some ip)) s ip s1 ->
  runs (namex_start (p ++ 0 :: r)) s ip s1.
Proof.
  intros Hi Hcc Hpr Hr. pose proof Hcc as (j & q & Hcur & Hq & Hqc & Hc). rewrite (ip_cur _ _ _ _ Hi) in Hcur. injection Hcur as <-.
  rewrite Hpr in Hq. injection Hq as <-. unfold namex_start.
  eapply runs_bind; [apply (runs_valid _ (default 0 (head (p ++ 0 :: r)))); by destruct p|].
  eapply runs_bind; [apply runs_myproc; apply Hi|]. rewrite (ip_cur _ _ _ _ Hi). cbn [ptr_of deref]. eapply runs_bind; [apply runs_ret|].
  eapply runs_bind; [by apply runs_get_proc|]. rewrite Hqc. destruct (default 0 (head (p ++ 0 :: r)) =? slash); [|exact Hr].
  destruct (isroot (ptr_of (Some ci))); [exact Hr|]. eapply runs_bind; [apply (runs_mycont s ci c); [apply Hi|done]|]. cbn [deref].
  eapply runs_bind; [apply runs_ret|]. eapply runs_bind; [by apply runs_get_cont|]. exact Hr.
Qed.

Section Start.
Context (d D : disk) (bns : list Z) (T : gmap Z inode) (ci : nat) (c : container) (cr : option Z).
Hypothesis Htree : tree D T.

Abbreviation rested := (rested d D bns T ci c).
Abbreviation walking := (walking d D bns T ci c).

(** A reference that iget or idup has added. *)

Lemma walking_added s ip x n y :
  rested (k_icache s) s -> k_icache s !! ip = Some x -> T !! n = Some y -> i_ref x < 2 ^ 31 - 3 ->
  (cached_as dev n x = true \/ i_ref x = 0 /\ Forall (fun z => cached_as dev n z = false) (k_icache s)) ->
  walking (k_icache s) (with_inode ip (iget_entry dev n x) s) ip n (iget_entry dev n x) y.
Proof.
  intros [Ht Hsb Hcc [Hic He] _] Hx Hy Hr Hc. pose proof (Forall_lookup_1 _ _ _ _ (ic_refs _ Hic) Hx) as Hr0. cbn in Hr0.
  assert (Hl : (ip < length (k_icache s))%nat) by (by eapply lookup_lt_Some).
  split; try done.
  - by apply intxn_set_icache.
  - split; [apply icache_ok_iget; try done; lia|]. apply Forall_insert; [done|]. apply entry_iget. by apply (Forall_lookup_1 _ _ _ _ He Hx).
  - by apply list_lookup_insert_eq.
  - destruct (iget_entry_cached dev n x ltac:(lia)) as (? & ? & ?). by apply cached_as_iff.
  - cbn. rewrite unref_insert by done. apply (same_refs_insert _ _ _ x); [done|done|].
    unfold iget_entry. destruct Hc as [Hc|[H0 Hf]]; [rewrite Hc; split; cbn; [lia|done]|].
    rewrite (Forall_lookup_1 _ _ _ _ Hf Hx). split; cbn; lia.
Qed.

(** The inode [n] a path starts at: the root directory for an absolute path outside of
    containers, and the current directory for a relative path. *)

Definition starts_at (s : kst) (p : list Z) (n : Z) : Prop :=
  if decide (head p = Some slash) then ci = 0%nat /\ dev = ROOTDEV /\ n = ROOTINO
  else exists pr cwd x, k_procs s !! i = Some pr /\ p_cwd pr = Some cwd /\ k_icache s !! cwd = Some x /\ cached_as dev n x = true.

Lemma walk_start s p r n y :
  rested (k_icache s) s -> spacious ci c cr (k_icache s) -> starts_at s p n -> T !! n = Some y ->
  exists ip x s1, runs (namex_start (p ++ 0 :: r)) s (Some ip) s1 /\ walking (k_icache s) s1 ip n x y.
Proof.
  intros Hrs Hsp Hat Hy. pose proof Hrs as [Ht Hsb Hcc [Hic He] _]. pose proof (intxn_in_proc _ _ _ _ _ _ _ _ _ _ Ht) as Hi.
  pose proof (sc_refs _ _ _ _ Hsp) as Hlt. destruct (ip_proc _ _ _ _ Hi) as (pr0 & Hpr0 & _).
  assert (Ehd : (default 0 (head (p ++ 0 :: r)) =? slash) = bool_decide (head p = Some slash)).
  { destruct p as [|a p]; [done|]. cbn. destruct (Z.eqb_spec a slash) as [->|Ha]; [done|]. rewrite bool_decide_eq_false_2; [done|congruence]. }
  unfold starts_at in Hat. destruct (decide (head p = Some slash)) as [Hh|Hh].
  - destruct Hat as (Hci & Hdv & ->).
    destruct (runs_iget dev ROOTINO s (ip_held _ _ _ _ Hi) Hic) as [(ip & x & Hx & Hr & Hc)|[Hf _]].
    + eexists ip, _, _. split; [|apply walking_added; try done; by apply (Forall_lookup_1 _ _ _ _ Hlt Hx)].
      eapply runs_namex_start; [done|done|done|]. rewrite Ehd, bool_decide_eq_true_2, Hci, <- Hdv by done. cbn [isroot ptr_of].
      eapply runs_bind; [exact Hr|apply runs_ret].
    + exfalso. destruct (sc_free _ _ _ _ Hsp) as (j1 & _ & x1 & _ & _ & H1 & _ & R1 & _). by apply (Forall_lookup_1 _ _ _ _ Hf H1).
  - destruct Hat as (pr & cwd & x & Hpr & Hcwd & Hx & Hc). pose proof (Forall_lookup_1 _ _ _ _ Hlt Hx) as Hb. cbn in Hb.
    pose proof (proj1 (cached_as_iff _ _ _) Hc) as (Hr0 & _). eexists cwd, _, _. split; [|apply walking_added; try done; by left].
    eapply runs_namex_start; [done|done|exact Hpr|]. rewrite Ehd, bool_decide_eq_false_2 by done. eapply runs_bind; [by apply runs_valid|].
    unfold iget_entry. rewrite Hc. eapply runs_bind; [apply (runs_idup cwd x); [replace (k_held s) with (∅ : gset lock) by (symmetry; apply Hi); apply not_elem_of_empty|done|lia]|apply runs_ret].
Qed.

(** The answer for the inode [res], the references counted from those of [ic0]. *)

Definition answered (ic0 : list inode) (es : list (list Z)) (name : list Z) (res : option Z) (o : option nat) (name' : list Z) (s' : kst) : Prop :=
  txn s' d D bns /\ coherent T (k_icache s') /\
  match res with
  | Some m => exists ip x, o = Some ip /\ k_icache s' !! ip = Some x /\ cached_as dev m x = true /\ last_name es name name' /\
      forall dev' inum', refs_to dev' inum' (k_icache s') = refs_to dev' inum' ic0 + (if decide (dev' = dev /\ inum' = m) then 1 else 0)
  | None => o = None /\ forall dev' inum', refs_to dev' inum' (k_icache s') = refs_to dev' inum' ic0
  end.

Lemma wrun_walk_path ic0 s p r par name ip n x y :
  spacious ci c cr ic0 -> walking ic0 s ip n x y -> Forall path_char p -> length name = 14%nat ->
  exists o name' s', wrun (walk_path (Some ip) (p ++ 0 :: r) par name) s d [] (o, name') s' /\
    answered ic0 (path_elements p) name (resolve D T cr par n (path_elements p)) o name' s'.
Proof.
  intros Hsp W Hp Hn.
  destruct (wrun_walk d D bns T ci c cr ic0 Hsp Htree par r (S (length (p ++ 0 :: r))) p name s ip n x y Hp Hn W) as (o & name' & s' & H & A);
    [rewrite length_app; cbn; lia|].
  exists o, name', s'. split; [exact H|]. unfold arrived in A. unfold answered. destruct (resolve D T cr par n (path_elements p)) as [m|].
  - destruct A as [(jp & z & y' & -> & [Ht _ _ Hco Hz Hc _ Hrf]) Hl]. split; [done|]. split; [done|]. exists jp, z. split_and!; try done.
    intros dev' inum'. apply cached_as_iff in Hc as (Hz0 & <- & <-).
    rewrite (refs_to_unref _ _ _ _ _ Hz Hz0), (refs_to_same _ _ _ _ Hrf). done.
  - destruct A as [-> [Ht _ _ Hco Hrf]]. split; [done|]. split; [done|]. split; [done|]. intros. by apply refs_to_same.
Qed.

(** C17: path resolution.  On a tree of directories that the cache agrees with, where no
    inode is locked and two entries of the cache are free, namex returns, whatever the
    path: it looks the elements up one after the other, each cut to fourteen characters,
    from the root directory or the current one, and answers with a cache entry of the
    inode the path names, or with 0 when an element is missing or is looked up in
    something that is no directory; for nameiparent with the directory of the last
    element and that element.  The inode it answers with has one more reference, and
    every lock and reference that the walk took on the way has been given back. *)

Theorem namex_resolves s p r par name n y :
  txn s d D bns -> k_sb s = sb -> cur_cont s ci c -> coherent T (k_icache s) -> spacious ci c cr (k_icache s) ->
  starts_at s p n -> T !! n = Some y -> Forall path_char p -> length name = 14%nat ->
  exists o name' s', wrun (namex (p ++ 0 :: r) par name) s d [] (o, name') s' /\
    answered (k_icache s) (path_elements p) name (resolve D T cr par n (path_elements p)) o name' s'.
Proof.
  intros Ht Hsb Hcc Hco Hsp Hat Hy Hp Hn. assert (Hrs : rested (k_icache s) s) by (by split).
  destruct (walk_start s p r n y Hrs Hsp Hat Hy) as (ip & x & s1 & H1 & W).
  destruct (wrun_walk_path (k_icache s) s1 p r par name ip n x y Hsp W Hp Hn) as (o & name' & s' & H & A).
  exists o, name', s'. split; [|done]. unfold namex. eapply wrun_seq; [exact H1|exact H].
Qed.

(** C23: absolute paths in a container.  They resolve from the root of the container, and
    two dots in the root lead to itself.  The walk takes no reference to the root when it
    starts there but gives one back when it leaves: after every lookup the references to
    the root are one fewer, beside the one to the inode that is returned. *)

Theorem namex_container_root s p r par name rp n x y :
  txn s d D bns -> k_sb s = sb -> cur_cont s ci c -> coherent T (k_icache s) -> ci <> 0%nat -> cr = Some n ->
  c_root c = Some rp -> k_icache s !! rp = Some x -> cached_as dev n x = true -> 2 <= i_ref x ->
  spacious ci c cr (unref rp (k_icache s)) ->
  T !! n = Some y -> head p = Some slash -> Forall path_char p -> length name = 14%nat ->
  exists o name' s', wrun (namex (p ++ 0 :: r) par name) s d [] (o, name') s' /\
    answered (unref rp (k_icache s)) (path_elements p) name (resolve D T cr par n (path_elements p)) o name' s' /\
    (forall dev' inum', refs_to dev' inum' (unref rp (k_icache s)) =
      refs_to dev' inum' (k_icache s) - (if decide (dev' = dev /\ inum' = n) then 1 else 0)).
Proof.
  intros Ht Hsb Hcc Hco Hci Hcr Hrt Hx Hc Hr Hsp Hy Hh Hp Hn. pose proof (intxn_in_proc _ _ _ _ _ _ _ _ _ _ Ht) as Hi.
  assert (W : walking (unref rp (k_icache s)) s rp n x y) by (by split).
  destruct (wrun_walk_path _ s p r par name rp n x y Hsp W Hp Hn) as (o & name' & s' & H & A). exists o, name', s'. split; [|split; [done|]].
  - destruct (ip_proc _ _ _ _ Hi) as (pr & Hpr & _). unfold namex. eapply wrun_seq; [|exact H]. eapply runs_namex_start; [done|done|done|].
    destruct p as [|a p]; [done|]. injection Hh as ->. cbn [app head default]. rewrite Z.eqb_refl. destruct ci; [done|]. rewrite Hrt. apply runs_ret.
  - intros dev' inum'. apply cached_as_iff in Hc as (Hz0 & <- & <-). rewrite (refs_to_unref dev' inum' _ _ _ Hx Hz0). lia.
Qed.

End Start.

End Path.
