(* ===== verification/Console.v ===== *)
(** * The virtual consoles (kernel/console.c and uartintr in kernel/uart.c)

    Each of the NCONS consoles has a ring of input characters with a read, a
    write and an edit index; one console is active and gets the characters the
    uart receives. *)

From S2P Require Import Prelude Monad Riscv Kstring Kstate Spinlock Printf Kalloc Vm Sched.

Definition INPUT_BUF : Z := 128.

(** The macro C(x), control-x, for the characters the driver knows. *)

Definition C_D : Z := 4.
Definition C_H : Z := 8.
Definition C_P : Z := 16.
Definition C_T : Z := 20.
Definition C_U : Z := 21.

Definition get_cons (i : nat) : K input := c <- gets k_consoles ;; valid (c !! i).
Definition mod_cons (i : nat) (f : input -> input) : K unit :=
  c <- get_cons i ;; modify (fun s => set_k_consoles (<[i := f c]> (k_consoles s)) s).

(** &consoles[n - 1], for the number of a console that counts from 1. *)

Definition cons_of (n : Z) : K nat :=
  if n <? 1 then fault else get_cons (Z.to_nat (n - 1)) ;; ret (Z.to_nat (n - 1)).

Section Console.
Context `{KI : KernelImage}.

Definition consolewrite (major : Z) (src : place) (n : Z) : K Z :=
  active <- gets k_active ;;
  cons <- cons_of active ;;
  acquire (Lcons cons) ;;
  for_ret (seqZ 0 n) (fun i =>
    r <- either_copyin [0] src i ;;
    if r.1 =? -1 then ret (Some tt) else
    c <- valid (head r.2) ;;
    active <- gets k_active ;;
    (if* major =? active then consputc c) ;;
    ret None) ;;
  release (Lcons cons) ;;
  ret n.

(** The wait of consoleread for input: true when the process was killed. *)

Definition consoleread_wait (cons : nat) : K bool :=
  wait_loop (fun _ : unit =>
    x <- get_cons cons ;;
    if negb (in_r x =? in_w x) then ret (inr false) else
    p <- myproc ;;
    i <- deref p ;;
    pr <- get_proc i ;;
    if negb (p_killed pr =? 0) then release (Lcons cons) ;; ret (inr true) else
    sleep (ChCons cons) (Lcons cons) ;;
    ret (inl tt)) tt.

(** One round of the loop of consoleread: [n] characters are still wanted. *)

Definition consoleread_round (cons : nat) (target : Z) (st : Z * place)
    : K (Z * place + option (Z * place)) :=
  let '(n, dst) := st in
  if n <=? 0 then ret (inr (Some (n, dst))) else
  killed <- consoleread_wait cons ;;
  if killed : bool then ret (inr None) else
  x <- get_cons cons ;;
  c <- valid (in_buf x !! Z.to_nat (in_r x mod INPUT_BUF)) ;;
  mod_cons cons (set_in_r (u32 (in_r x + 1))) ;;
  if c =? C_D then
    (if* n <? target then mod_cons cons (fun x => set_in_r (u32 (in_r x - 1)) x)) ;;
    ret (inr (Some (n, dst)))
  else
    r <- either_copyout dst (target - n) [c] ;;
    if r.1 =? -1 then ret (inr (Some (n, r.2))) else
    if c =? 10 then ret (inr (Some (n - 1, r.2))) else ret (inl (n - 1, r.2)).

(** [target = n] makes a negative n a large uint, but then the loop is not
    entered. *)

Definition consoleread (major : Z) (dst : place) (n : Z) : K (Z * place) :=
  cons <- cons_of major ;;
  acquire (Lcons cons) ;;
  r <- loopz (Z.max 0 n + 1) (consoleread_round cons n) (n, dst) ;;
  match r with
  | None => ret (-1, dst)
  | Some (n', dst) => release (Lcons cons) ;; ret (n - n', dst)
  end.

(** The loop of control-U; the edit index is at most INPUT_BUF past the write
    index. *)

Definition kill_line (consa : nat) : K unit :=
  loop (S (Z.to_nat INPUT_BUF)) (fun _ : unit =>
    x <- get_cons consa ;;
    if in_e x =? in_w x then ret (inr tt) else
    c <- valid (in_buf x !! Z.to_nat (u32 (in_e x - 1) mod INPUT_BUF)) ;;
    if c =? 10 then ret (inr tt) else
    mod_cons consa (set_in_e (u32 (in_e x - 1))) ;;
    consputc BACKSPACE ;;
    ret (inl tt)) tt.

(** The default case of the switch of consoleintr. *)

Definition console_input (consa : nat) (c : Z) : K unit :=
  x <- get_cons consa ;;
  if* negb (c =? 0) && (u32 (in_e x - in_r x) <? INPUT_BUF) then
    let c := if c =? 13 then 10 else c in
    consputc c ;;
    mod_cons consa (fun x => set_in_e (u32 (in_e x + 1))
      (set_in_buf (<[Z.to_nat (in_e x mod INPUT_BUF) := u8 c]> (in_buf x)) x)) ;;
    x <- get_cons consa ;;
    if* (c =? 10) || (c =? C_D) || (in_e x =? u32 (in_r x + INPUT_BUF)) then
      mod_cons consa (set_in_w (in_e x)) ;;
      wakeup (ChCons consa).

Definition active_msg : string := "
Active console now: %d
".

Definition consoleintr (c : Z) : K unit :=
  active <- gets k_active ;;
  consa <- cons_of active ;;
  acquire (Lcons consa) ;;
  (if c =? C_P then procdump
   else if c =? C_U then kill_line consa
   else if (c =? C_H) || (c =? 0x7f) then
     x <- get_cons consa ;;
     if* negb (in_e x =? in_w x) then
       mod_cons consa (set_in_e (u32 (in_e x - 1))) ;;
       consputc BACKSPACE
   else if c =? C_T then ret tt
   else console_input consa c) ;;
  release (Lcons consa) ;;
  if* c =? C_T then
    modify (fun s => set_k_active (k_active s mod (Z.of_nat NCONS + 1) + 1) s) ;;
    active <- gets k_active ;;
    printf active_msg [VWord active].

(** uartintr(): the characters the uart has received. *)

Definition uartintr (chars : list Z) : K unit := for_each chars consoleintr.

(** The local variable cons is not initialised but for its indices. *)

Definition consoleinit (garbage : list Z) : K unit :=
  for_each (seq 0 NCONS) (fun i =>
    modify (fun s => set_k_consoles (<[i := mk_input garbage 0 0 0]> (k_consoles s)) s) ;;
    modify (fun s => set_k_devsw (<[S i := true]> (k_devsw s)) s)).

End Console.
