(* ===== verification/File.v ===== *)
(** * Open files and pipes (kernel/file.c and kernel/pipe.c)

    The table of open files with its reference counts, and the pipes, each in a
    page of its own: [k_pipes] holds the struct pipes by the address of their
    page. *)

From S2P Require Import Prelude Monad Riscv Kstring Kstate Spinlock Printf Kalloc Vm Sched.
From S2P Require Import Bio Log Fs Console.

Definition PIPESIZE : Z := 512.

Definition get_file (i : nat) : K file := s <- gets k_ftable ;; valid (s !! i).
Definition mod_file (i : nat) (f : file -> file) : K unit :=
  x <- get_file i ;; modify (fun s => set_k_ftable (<[i := f x]> (k_ftable s)) s).

Definition get_pipe (pi : Z) : K pipe := s <- gets k_pipes ;; valid (s !! pi).
Definition mod_pipe (pi : Z) (f : pipe -> pipe) : K unit :=
  x <- get_pipe pi ;; modify (fun s => set_k_pipes (<[pi := f x]> (k_pipes s)) s).

Section File.
Context `{KI : KernelImage}.

(** ** kernel/pipe.c *)

Definition pipeclose (pi writable : Z) : K unit :=
  acquire (Lpipe pi) ;;
  (if negb (writable =? 0) then
     mod_pipe pi (set_pi_writeopen 0) ;;
     wakeup (ChPipeR pi)
   else
     mod_pipe pi (set_pi_readopen 0) ;;
     wakeup (ChPipeW pi)) ;;
  x <- get_pipe pi ;;
  if (pi_readopen x =? 0) && (pi_writeopen x =? 0) then
    release (Lpipe pi) ;;
    modify (fun s => set_k_pipes (delete pi (k_pipes s)) s) ;;
    kfree pi
  else release (Lpipe pi).

(** The inner loop of pipewrite: true when there is room, false when the reader
    is gone or the writer was killed. *)

Definition pipe_room (pi : Z) : K bool :=
  wait_loop (fun _ : unit =>
    x <- get_pipe pi ;;
    if negb (pi_nwrite x =? u32 (pi_nread x + PIPESIZE)) then ret (inr true) else
    p <- myproc ;;
    i <- deref p ;;
    pr <- get_proc i ;;
    if (pi_readopen x =? 0) || negb (p_killed pr =? 0) then ret (inr false) else
    wakeup (ChPipeR pi) ;;
    sleep (ChPipeW pi) (Lpipe pi) ;;
    ret (inl tt)) tt.

(** pi->data[pi->nwrite++ % PIPESIZE] = ch. *)

Definition pipe_put (c : Z) (x : pipe) : pipe :=
  set_pi_nwrite (u32 (pi_nwrite x + 1))
    (set_pi_data (<[Z.to_nat (pi_nwrite x mod PIPESIZE) := c]> (pi_data x)) x).

(** One round of the loop of pipewrite: inl to go on, inr with the result of
    the whole loop, false for the early return. *)

Definition pipewrite_round (pi : Z) (pr : nat) (addr n : Z) (i : Z) : K (Z + bool) :=
  if n <=? i then ret (inr true) else
  room <- pipe_room pi ;;
  if negb room then ret (inr false) else
  p <- get_proc pr ;;
  r <- copyin (p_pagetable p) (KVal [0]) (u64 (addr + i)) 1 ;;
  if r.1 =? -1 then ret (inr true) else
  match r.2 with
  | KVal [ch] => mod_pipe pi (pipe_put ch) ;; ret (inl (i + 1))
  | _ => fault
  end.

Definition pipewrite (pi addr n : Z) : K Z :=
  p <- myproc ;;
  pr <- deref p ;;
  acquire (Lpipe pi) ;;
  ok <- loopz (Z.max 0 n + 1) (pipewrite_round pi pr addr n) 0 ;;
  if negb ok then release (Lpipe pi) ;; ret (-1) else
  wakeup (ChPipeR pi) ;;
  release (Lpipe pi) ;;
  ret n.

(** The wait of piperead: false when the reader was killed. *)

Definition pipe_nonempty (pi : Z) : K bool :=
  wait_loop (fun _ : unit =>
    x <- get_pipe pi ;;
    if negb ((pi_nread x =? pi_nwrite x) && negb (pi_writeopen x =? 0)) then ret (inr true) else
    p <- myproc ;;
    i <- deref p ;;
    pr <- get_proc i ;;
    if negb (p_killed pr =? 0) then ret (inr false) else
    sleep (ChPipeR pi) (Lpipe pi) ;;
    ret (inl tt)) tt.

Definition piperead_round (pi : Z) (pr : nat) (addr n : Z) (i : Z) : K (Z + Z) :=
  if n <=? i then ret (inr i) else
  x <- get_pipe pi ;;
  if pi_nread x =? pi_nwrite x then ret (inr i) else
  ch <- valid (pi_data x !! Z.to_nat (pi_nread x mod PIPESIZE)) ;;
  mod_pipe pi (set_pi_nread (u32 (pi_nread x + 1))) ;;
  p <- get_proc pr ;;
  r <- copyout (p_pagetable p) (u64 (addr + i)) (KVal [ch]) 1 ;;
  if r =? -1 then ret (inr i) else ret (inl (i + 1)).

Definition piperead (pi addr n : Z) : K Z :=
  p <- myproc ;;
  pr <- deref p ;;
  acquire (Lpipe pi) ;;
  ok <- pipe_nonempty pi ;;
  if negb ok then release (Lpipe pi) ;; ret (-1) else
  i <- loopz (Z.max 0 n + 1) (piperead_round pi pr addr n) 0 ;;
  wakeup (ChPipeW pi) ;;
  release (Lpipe pi) ;;
  ret i.

(** ** kernel/file.c *)

Definition filealloc : K (option nat) :=
  acquire Lftable ;;
  r <- for_ret (seq 0 NFILE) (fun f =>
    x <- get_file f ;;
    if f_ref x =? 0 then mod_file f (set_f_ref 1) ;; ret (Some f) else ret None) ;;
  release Lftable ;;
  ret r.

Definition filedup (f : nat) : K nat :=
  acquire Lftable ;;
  x <- get_file f ;;
  if f_ref x <? 1 then panic "filedup" else
  mod_file f (set_f_ref (i32 (f_ref x + 1))) ;;
  release Lftable ;;
  ret f.

Definition fileclose (f : nat) : K unit :=
  acquire Lftable ;;
  x <- get_file f ;;
  if f_ref x <? 1 then panic "fileclose" else
  mod_file f (set_f_ref (f_ref x - 1)) ;;
  if 0 <? f_ref x - 1 then release Lftable else
  ff <- get_file f ;;
  mod_file f (set_f_ref 0) ;;
  mod_file f (set_f_type FD_NONE) ;;
  release Lftable ;;
  match f_type ff with
  | FD_PIPE => pipeclose (f_pipe ff) (f_writable ff)
  | FD_INODE | FD_DEVICE =>
      begin_op ;;
      ip <- valid (f_ip ff) ;;
      iput ip ;;
      end_op
  | FD_NONE => ret tt
  end.

Definition filestat (f : nat) (addr : Z) : K Z :=
  p <- myproc ;;
  x <- get_file f ;;
  match f_type x with
  | FD_INODE | FD_DEVICE =>
      ilock (f_ip x) ;;
      ip <- valid (f_ip x) ;;
      st <- stati ip ;;
      iunlock (f_ip x) ;;
      i <- deref p ;;
      pr <- get_proc i ;;
      r <- copyout (p_pagetable pr) addr (KVal st) (Z.of_nat (length st)) ;;
      ret (if r <? 0 then -1 else 0)
  | _ => ret (-1)
  end.

(** !devsw[major].read: is there a driver? *)

Definition has_driver (major : Z) : K bool :=
  if (major <? 0) || (NDEV <=? major) then ret false else
  d <- gets k_devsw ;;
  valid (d !! Z.to_nat major).

(** fileread and filereadfromkernel differ in the kind of destination; a pipe
    takes the address as a user address in both.  [addr] is the number of the
    address, [dst] what it stands for. *)

Definition fileread_to (f : nat) (addr : Z) (dst : place) (n : Z) : K (Z * place) :=
  x <- get_file f ;;
  if f_readable x =? 0 then ret (-1, dst) else
  match f_type x with
  | FD_PIPE => r <- piperead (f_pipe x) addr n ;; ret (r, dst)
  | FD_DEVICE =>
      d <- has_driver (f_major x) ;;
      if negb d then ret (-1, dst) else consoleread (f_major x) dst n
  | FD_INODE =>
      ilock (f_ip x) ;;
      ip <- valid (f_ip x) ;;
      x <- get_file f ;;
      r <- readi ip dst (f_off x) (u32 n) ;;
      (if* 0 <? r.1 then mod_file f (fun x => set_f_off (u32 (f_off x + r.1)) x)) ;;
      iunlock (f_ip x) ;;
      ret r
  | FD_NONE => panic "fileread"
  end.

Definition fileread (f : nat) (addr n : Z) : K Z :=
  r <- fileread_to f addr (PUser addr) n ;; ret r.1.

Definition filereadfromkernel (f : nat) (addr : Z) (dst : place) (n : Z) : K (Z * place) :=
  fileread_to f addr dst n.

(** The largest write of one transaction: 3 blocks. *)

Definition filewrite_max : Z := ((MAXOPBLOCKS - 1 - 1 - 2) / 2) * BSIZE.

(** [addr + i] for the two kinds of source. *)

Definition shift (src : place) (i : Z) : place :=
  match src with
  | PUser va => PUser (u64 (va + i))
  | PKern a => PKern (a + i)
  | PObj bs => PObj (drop (Z.to_nat i) bs)
  end.

(** One round of the loop of filewrite; the result is the final i. *)

Definition filewrite_round (f : nat) (src : place) (n : Z) (i : Z) : K (Z + Z) :=
  if n <=? i then ret (inr i) else
  let n1 := Z.min (n - i) filewrite_max in
  begin_op ;;
  x <- get_file f ;;
  ilock (f_ip x) ;;
  ip <- valid (f_ip x) ;;
  x <- get_file f ;;
  r <- writei ip (shift src i) (f_off x) n1 ;;
  (if* 0 <? r then mod_file f (fun x => set_f_off (u32 (f_off x + r)) x)) ;;
  iunlock (f_ip x) ;;
  end_op ;;
  if r <? 0 then ret (inr i) else
  if negb (r =? n1) then panic "short filewrite" else
  ret (inl (i + r)).

Definition filewrite_from (f : nat) (addr : Z) (src : place) (n : Z) : K Z :=
  x <- get_file f ;;
  if f_writable x =? 0 then ret (-1) else
  match f_type x with
  | FD_PIPE => pipewrite (f_pipe x) addr n
  | FD_DEVICE =>
      d <- has_driver (f_major x) ;;
      if negb d then ret (-1) else consolewrite (f_major x) src n
  | FD_INODE =>
      i <- loopz (Z.max 0 n / filewrite_max + 2) (filewrite_round f src n) 0 ;;
      ret (if i =? n then n else -1)
  | FD_NONE => panic "filewrite"
  end.

Definition filewrite (f : nat) (addr n : Z) : K Z := filewrite_from f addr (PUser addr) n.

Definition filewritefromkernel (f : nat) (addr : Z) (src : place) (n : Z) : K Z :=
  filewrite_from f addr src n.

(** ** pipealloc() of kernel/pipe.c

    A fresh page from kalloc is full of fives. *)

Definition new_pipe : pipe := mk_pipe (replicate (Z.to_nat PIPESIZE) 5) 0 0 1 1.

Definition pipealloc : K (option (nat * nat)) :=
  o0 <- filealloc ;;
  match o0 with
  | None => ret None
  | Some f0 =>
      o1 <- filealloc ;;
      match o1 with
      | None => fileclose f0 ;; ret None
      | Some f1 =>
          pi <- kalloc ;;
          if pi =? 0 then fileclose f0 ;; fileclose f1 ;; ret None else
          modify (fun s => set_k_pipes (<[pi := new_pipe]> (k_pipes s)) s) ;;
          mod_file f0 (fun x => set_f_pipe pi (set_f_writable 0 (set_f_readable 1
            (set_f_type FD_PIPE x)))) ;;
          mod_file f1 (fun x => set_f_pipe pi (set_f_writable 1 (set_f_readable 0
            (set_f_type FD_PIPE x)))) ;;
          ret (Some (f0, f1))
      end
  end.

End File.
