(* ===== verification/Proc.v ===== *)
(** * Processes and containers (the part of kernel/proc.c above the file system)

    fork, exit and wait, the first process, suspending a process to a file and
    resuming from one, and the containers: their creation, pausing, resuming,
    stopping and the tables that describe them to user programs. *)

From S2P Require Import Prelude Monad Riscv Kstring Kstate Spinlock Printf Kalloc Vm Sched.
From S2P Require Import Bio Log Fs Console File.

(** ** Structures that the kernel writes into memory *)

Definition mwrite (a : Z) (bs : list Z) : K unit :=
  if a <? KERNBASE then fault else modify (fun s => set_k_mem (write_bytes (k_mem s) a bs) s).

(** strncpy(dst, src, n) for a destination in memory, of at least n bytes. *)

Definition mstrncpy (dst : Z) (src : list Z) (n : Z) : K unit :=
  bs <- valid (strncpy (replicate (Z.to_nat n) 0) src n) ;;
  mwrite dst bs.

Definition sizeof_proc_info : Z := 60.
Definition sizeof_ptable : Z := Z.of_nat NPROC * sizeof_proc_info.
Definition PI_pid : Z := 0.
Definition PI_vpid : Z := 4.
Definition PI_mem : Z := 8.
Definition PI_name : Z := 12.
Definition PI_parent : Z := 28.
Definition PI_container : Z := 44.

Definition CI_name : Z := 0.
Definition CI_state : Z := 16.
Definition CI_current : Z := 32.
Definition CI_numproc : Z := 36.
Definition CI_maxproc : Z := 40.
Definition CI_memused : Z := 44.
Definition CI_memlimit : Z := 48.
Definition CI_diskused : Z := 52.
Definition CI_disklimit : Z := 56.
Definition CI_root : Z := 60.
Definition CI_ptable : Z := 60 + MAXPATH.
Definition sizeof_container_info : Z := CI_ptable + sizeof_ptable.
Definition sizeof_ctable : Z := Z.of_nat NCONTS * sizeof_container_info.

(** struct resumehdr. *)

Definition sizeof_resumehdr : Z := 32.
Definition RH_mem_sz : Z := 0.
Definition RH_code_sz : Z := 4.
Definition RH_stack_sz : Z := 8.
Definition RH_strace : Z := 12.
Definition RH_name : Z := 16.

Definition cur_proc : K nat := p <- myproc ;; deref p.

Section Proc.
Context `{KI : KernelImage}.

(** ** fork *)

Definition max_proc_msg : string := "hit max proc for container %s
".

(** The loop of fork over the open files, and its body. *)

Definition dup_file (p np fd : nat) : K unit :=
  pr <- get_proc p ;;
  o <- valid (p_ofile pr !! fd) ;;
  match o with
  | None => ret tt
  | Some f =>
      f <- filedup f ;;
      mod_proc np (fun q => set_p_ofile (<[fd := Some f]> (p_ofile q)) q)
  end.

Definition dup_files (p np : nat) : K unit := for_each (seq 0 NOFILE) (dup_file p np).

Definition fork : K Z :=
  p <- cur_proc ;;
  o <- allocproc ;;
  match o with
  | None => ret (-1)
  | Some np =>
      pr <- get_proc p ;;
      nq <- get_proc np ;;
      r <- uvmcopy (p_pagetable pr) (p_pagetable nq) (p_sz pr) ;;
      if r <? 0 then freeproc np ;; release (Lproc np) ;; ret (-1) else
      mod_proc np (set_p_sz (p_sz pr)) ;;
      mod_proc np (set_p_parent (Some p)) ;;
      mmemmove (p_tf nq) (p_tf pr) sizeof_trapframe ;;
      mstore64 (p_tf nq + TF_a 0) 0 ;;
      dup_files p np ;;
      cwd <- valid (p_cwd pr) ;;
      cwd <- idup cwd ;;
      mod_proc np (set_p_cwd (Some cwd)) ;;
      nm <- valid (safestrcpy (p_name nq) (p_name pr) 16) ;;
      mod_proc np (set_p_name nm) ;;
      let pid := p_pid nq in
      mod_proc np (set_p_state RUNNABLE) ;;
      let c := ptr_of (p_container pr) in
      n <- numproc c ;;
      ci <- deref c ;;
      ct <- get_cont ci ;;
      if c_maxproc ct <=? n then
        freeproc np ;;
        release (Lproc np) ;;
        printf max_proc_msg [VStr (Some (c_name ct))] ;;
        ret (-1)
      else
        mod_proc np (set_p_container (Some ci)) ;;
        vpid <- allocvpid ci ;;
        mod_proc np (set_p_vpid vpid) ;;
        release (Lproc np) ;;
        ret pid
  end.

(** ** exit and wait *)

Definition reparent (p : nat) : K unit :=
  for_each procs (fun pp =>
    q <- get_proc pp ;;
    if* bool_decide (p_parent q = Some p) then
      acquire (Lproc pp) ;;
      ip <- gets k_initproc ;;
      mod_proc pp (set_p_parent ip) ;;
      release (Lproc pp)).

Definition close_file (p fd : nat) : K unit :=
  pr <- get_proc p ;;
  o <- valid (p_ofile pr !! fd) ;;
  match o with
  | None => ret tt
  | Some f =>
      fileclose f ;;
      mod_proc p (fun q => set_p_ofile (<[fd := None]> (p_ofile q)) q)
  end.

Definition close_files (p : nat) : K unit := for_each (seq 0 NOFILE) (close_file p).

Definition exit (status : Z) : K unit :=
  p <- cur_proc ;;
  ip <- gets k_initproc ;;
  if bool_decide (ip = Some p) then panic "init exiting" else
  close_files p ;;
  begin_op ;;
  pr <- get_proc p ;;
  cwd <- valid (p_cwd pr) ;;
  iput cwd ;;
  end_op ;;
  mod_proc p (set_p_cwd None) ;;
  init <- valid ip ;;
  acquire (Lproc init) ;;
  wakeup1 init ;;
  release (Lproc init) ;;
  acquire (Lproc p) ;;
  pr <- get_proc p ;;
  let original_parent := p_parent pr in
  release (Lproc p) ;;
  pp <- valid original_parent ;;
  acquire (Lproc pp) ;;
  acquire (Lproc p) ;;
  reparent p ;;
  wakeup1 pp ;;
  mod_proc p (set_p_xstate status) ;;
  mod_proc p (set_p_state ZOMBIE) ;;
  release (Lproc pp) ;;
  sched ;;
  panic "zombie exit".

(** The scan of wait: the value to return, or whether there is a child. *)

Fixpoint wait_scan (p : nat) (addr : Z) (l : list nat) (havekids : bool) : K (Z + bool) :=
  match l with
  | [] => ret (inr havekids)
  | np :: l' =>
      q <- get_proc np ;;
      if negb (bool_decide (p_parent q = Some p)) then wait_scan p addr l' havekids else
      acquire (Lproc np) ;;
      q <- get_proc np ;;
      if negb (bool_decide (p_state q = ZOMBIE)) then
        release (Lproc np) ;; wait_scan p addr l' true
      else
        pr <- get_proc p ;;
        r <- (if addr =? 0 then ret 0
              else copyout (p_pagetable pr) addr (KVal (le_bytes 4 (p_xstate q))) 4) ;;
        if r <? 0 then release (Lproc np) ;; release (Lproc p) ;; ret (inl (-1)) else
        freeproc np ;;
        release (Lproc np) ;;
        release (Lproc p) ;;
        ret (inl (p_pid q))
  end.

Definition wait (addr : Z) : K Z :=
  p <- cur_proc ;;
  acquire (Lproc p) ;;
  wait_loop (fun _ : unit =>
    r <- wait_scan p addr procs false ;;
    match r with
    | inl v => ret (inr v)
    | inr havekids =>
        pr <- get_proc p ;;
        if negb havekids || negb (p_killed pr =? 0) then release (Lproc p) ;; ret (inr (-1)) else
        sleep (ChProc p) (Lproc p) ;;
        ret (inl tt)
    end) tt.

(** ** Loading a segment (the same function is in kernel/exec.c) *)

Definition loadseg_round (pagetable va : Z) (ip : nat) (offset sz : Z) (i : Z) : K (Z + Z) :=
  if sz <=? i then ret (inr 0) else
  pa <- walkaddr pagetable (u64 (va + i)) ;;
  if pa =? 0 then panic "loadseg: address should exist" else
  let n := if sz - i <? PGSIZE then sz - i else PGSIZE in
  r <- readi ip (PKern pa) (u32 (offset + i)) n ;;
  if negb (u32 r.1 =? n) then ret (inr (-1)) else ret (inl (i + PGSIZE)).

Definition loadseg (pagetable va : Z) (ip : nat) (offset sz : Z) : K Z :=
  if negb (va mod PGSIZE =? 0) then panic "loadseg: va must be page aligned" else
  loopz (sz / PGSIZE + 2) (loadseg_round pagetable va ip offset sz) 0.

(** ** Suspending and resuming a process *)

Definition resumehdr (pr : proc) : option (list Z) :=
  nm ← strncpy (replicate 16 0) (p_name pr) 16;
  Some (le_bytes 4 (p_sz pr) ++ le_bytes 4 (p_sz pr - 2 * PGSIZE) ++ le_bytes 4 PGSIZE ++
        le_bytes 4 (p_strace pr) ++ nm).

(** What suspend does with the process it found, after the release. *)

Definition suspend_write (i f : nat) : K unit :=
  pr <- get_proc i ;;
  hdr <- valid (resumehdr pr) ;;
  let code_sz := i32 (p_sz pr - 2 * PGSIZE) in
  me <- cur_proc ;;
  mp <- get_proc me ;;
  let tmp := p_pagetable mp in
  filewritefromkernel f (p_kstack mp + hdr_off) (PObj hdr) sizeof_resumehdr ;;
  pr <- get_proc i ;;
  filewritefromkernel f (p_tf pr) (PKern (p_tf pr)) sizeof_trapframe ;;
  pr <- get_proc i ;;
  mod_proc me (set_p_pagetable (p_pagetable pr)) ;;
  filewrite f 0 code_sz ;;
  filewrite f (u64 (code_sz + PGSIZE)) PGSIZE ;;
  mod_proc me (set_p_pagetable tmp).

Definition suspend (pid : Z) (f : nat) : K Z :=
  r <- for_ret procs (fun i =>
    acquire (Lproc i) ;;
    pr <- get_proc i ;;
    if p_pid pr =? pid then
      mod_proc i (set_p_state SUSPENDED) ;;
      release (Lproc i) ;;
      suspend_write i f ;;
      ret (Some 0)
    else release (Lproc i) ;; ret None) ;;
  ret (default (-1) r).

Definition resume_bad (pagetable sz : Z) (ip : nat) : K Z :=
  (if* negb (pagetable =? 0) then proc_freepagetable pagetable sz) ;;
  iunlockput ip ;;
  end_op ;;
  ret (-1).

(** The part of resume that builds the new address space: the page table, its
    size and whether it succeeded. *)

Definition resume_image (tf : Z) (ip : nat) (code_sz stack_sz : Z) : K (Z * Z * bool) :=
  let offset := sizeof_resumehdr + sizeof_trapframe in
  pagetable <- proc_pagetable tf ;;
  if pagetable =? 0 then ret (0, 0, false) else
  sz <- uvmalloc pagetable 0 (u64 code_sz) ;;
  if sz =? 0 then ret (pagetable, sz, false) else
  r <- loadseg pagetable 0 ip offset (u32 code_sz) ;;
  if r <? 0 then ret (pagetable, sz, false) else
  let offset := i32 (offset + code_sz) in
  let sz := PGROUNDUP sz in
  let stackbase := u64 (sz + PGSIZE) in
  let stackspace := sz in
  sz <- uvmalloc pagetable sz (u64 (sz + 2 * PGSIZE)) ;;
  if sz =? 0 then ret (pagetable, sz, false) else
  uvmclear pagetable stackspace ;;
  r <- loadseg pagetable stackbase ip (u32 offset) (u32 stack_sz) ;;
  ret (pagetable, sz, negb (r <? 0)).

Definition resume (filename : list Z) : K Z :=
  p <- cur_proc ;;
  pr <- get_proc p ;;
  let oldpagetable := p_pagetable pr in
  let oldsz := p_sz pr in
  begin_op ;;
  o <- namei filename ;;
  match o with
  | None => end_op ;; ret (-1)
  | Some ip =>
      ilock (Some ip) ;;
      r <- readi ip (PObj (replicate (Z.to_nat sizeof_resumehdr) 0)) 0 sizeof_resumehdr ;;
      if negb (r.1 =? sizeof_resumehdr) then resume_bad 0 0 ip else
      hdr <- (match r.2 with PObj bs => ret bs | _ => fault end) ;;
      r <- readi ip (PKern (p_tf pr)) sizeof_resumehdr sizeof_trapframe ;;
      if u64 r.1 <? sizeof_trapframe then resume_bad 0 0 ip else
      code_sz <- valid (le_get 4 hdr RH_code_sz) ;;
      stack_sz <- valid (le_get 4 hdr RH_stack_sz) ;;
      im <- resume_image (p_tf pr) ip (i32 code_sz) (i32 stack_sz) ;;
      let '(pagetable, sz, ok) := im in
      if negb ok then resume_bad pagetable sz ip else
      len <- valid (strlen (drop (Z.to_nat RH_name) hdr)) ;;
      pr <- get_proc p ;;
      nm <- valid (safestrcpy (p_name pr) (drop (Z.to_nat RH_name) hdr) (len + 1)) ;;
      mod_proc p (set_p_name nm) ;;
      mem_sz <- valid (le_get 4 hdr RH_mem_sz) ;;
      strace <- valid (le_get 4 hdr RH_strace) ;;
      mod_proc p (set_p_sz (u64 (i32 mem_sz))) ;;
      mod_proc p (set_p_strace (u64 (i32 strace))) ;;
      mod_proc p (set_p_pagetable pagetable) ;;
      proc_freepagetable oldpagetable oldsz ;;
      iunlockput ip ;;
      end_op ;;
      ret 1
  end.

(** ** Containers *)

Definition cinit (p : nat) (name root_dir : list Z) (max_proc max_page max_disk : Z) : K Z :=
  for_ret containers (fun c =>
    ct <- get_cont c ;;
    if negb (bool_decide (c_state ct = CUNUSED)) then ret None else
    mod_proc p (set_p_container (Some c)) ;;
    begin_op ;;
    root <- (if isroot (At c) then r <- namexinit (cstr "/") false [] ;; ret r.1
             else namei root_dir) ;;
    mod_cont c (set_c_root root) ;;
    end_op ;;
    ct <- get_cont c ;;
    nm <- valid (strncpy (c_name ct) name 16) ;;
    mod_cont c (set_c_name nm) ;;
    ct <- get_cont c ;;
    mod_proc p (set_p_cwd (c_root ct)) ;;
    mod_cont c (set_c_state CRUNNING) ;;
    mod_cont c (set_c_maxproc max_proc) ;;
    mod_cont c (set_c_memlimit max_page) ;;
    mod_cont c (set_c_memused 0) ;;
    mod_cont c (set_c_disklimit max_disk) ;;
    mod_cont c (set_c_diskused 0) ;;
    len <- valid (strlen root_dir) ;;
    ct <- get_cont c ;;
    rd <- valid (strncpy (c_root_dir ct) root_dir len) ;;
    mod_cont c (set_c_root_dir rd) ;;
    vpid <- allocvpid c ;;
    mod_proc p (set_p_vpid vpid) ;;
    ret (Some tt)) ;;
  modify (set_k_started 1) ;;
  ret 0.

(** strncmp(c->name, name, strlen(name)) == 0. *)

Definition name_matches (ct : container) (name : list Z) : K bool :=
  len <- valid (strlen name) ;;
  r <- valid (strncmp (c_name ct) name len) ;;
  ret (r =? 0).

(** cpause, cresume and cstop look for the container the same way. *)

Definition on_named_container (name : list Z) (act : nat -> K unit) : K Z :=
  mc <- mycont ;;
  if negb (isroot mc) then ret (-1) else
  r <- for_ret containers (fun c =>
    ct <- get_cont c ;;
    m <- name_matches ct name ;;
    if m : bool then act c ;; ret (Some 0) else ret None) ;;
  ret (default (-1) r).

Definition cpause (name : list Z) : K Z :=
  on_named_container name (fun c => mod_cont c (set_c_state CSUSPENDED)).

Definition cresume (name : list Z) : K Z :=
  on_named_container name (fun c => mod_cont c (set_c_state CRUNNING)).

Definition cstop (name : list Z) : K Z :=
  on_named_container name (fun c =>
    mod_cont c (set_c_state CUNUSED) ;;
    for_each procs (fun i =>
      pr <- get_proc i ;;
      if* bool_decide (p_container pr = Some c) then freeproc i)).

(** ** The tables for user programs *)

Definition ptable_entry (ptable : Z) (count : Z) (pr : proc) : K unit :=
  let a := ptable + sizeof_proc_info * count in
  mwrite (a + PI_pid) (le_bytes 4 (p_pid pr)) ;;
  mwrite (a + PI_vpid) (le_bytes 4 (p_vpid pr)) ;;
  mwrite (a + PI_mem) (le_bytes 4 (p_sz pr)) ;;
  mstrncpy (a + PI_name) (p_name pr) 16 ;;
  (if p_pid pr =? 1 then mstrncpy (a + PI_parent) (cstr "") 16
   else
     pp <- valid (p_parent pr) ;;
     q <- get_proc pp ;;
     mstrncpy (a + PI_parent) (p_name q) 16) ;;
  ci <- valid (p_container pr) ;;
  ct <- get_cont ci ;;
  mstrncpy (a + PI_container) (c_name ct) 16.

Definition ptableof (c : ptr) : K (Z * Z) :=
  ptable <- kalloc ;;
  count <- for_acc procs (fun i count =>
    acquire (Lproc i) ;;
    pr <- get_proc i ;;
    count <- (if negb (bool_decide (p_state pr = UNUSED)) &&
                 (isroot c || bool_decide (ptr_of (p_container pr) = c))
              then ptable_entry ptable count pr ;; ret (count + 1)
              else ret count) ;;
    release (Lproc i) ;;
    ret count) 0 ;;
  ret (ptable, count).

Definition psinfo (ptable_pt count_pt : Z) : K Z :=
  mc <- mycont ;;
  t <- ptableof mc ;;
  let '(ptable, sz) := t in
  p <- cur_proc ;;
  pr <- get_proc p ;;
  copyout (p_pagetable pr) count_pt (KVal (le_bytes 4 sz)) 4 ;;
  copyout (p_pagetable pr) ptable_pt (KMem ptable) sizeof_ptable ;;
  kfree ptable ;;
  ret 0.

Definition cstate_name (st : containerstate) : list Z :=
  match st with
  | CSUSPENDED => cstr "SUSPENDED"
  | CRUNNING => cstr "RUNNING"
  | CUNUSED => cstr "UNKNOWN"
  end.

Definition ctable_entry (ctable count : Z) (c : nat) : K unit :=
  let a := ctable + sizeof_container_info * count in
  ct <- get_cont c ;;
  mstrncpy (a + CI_name) (c_name ct) 16 ;;
  mstrncpy (a + CI_state) (cstate_name (c_state ct)) 16 ;;
  t <- ptableof (At c) ;;
  let '(ptable, proc_sz) := t in
  for_each (seqZ 0 proc_sz) (fun i =>
    s <- gets k_mem ;;
    mwrite (a + CI_ptable + sizeof_proc_info * i)
      (bytes_at s (ptable + sizeof_proc_info * i) (Z.to_nat sizeof_proc_info))) ;;
  kfree ptable ;;
  n <- numproc (At c) ;;
  mwrite (a + CI_numproc) (le_bytes 4 n) ;;
  ct <- get_cont c ;;
  mwrite (a + CI_maxproc) (le_bytes 4 (c_maxproc ct)) ;;
  len <- valid (strlen (c_root_dir ct)) ;;
  mstrncpy (a + CI_root) (c_root_dir ct) len ;;
  mc <- mycont ;;
  mwrite (a + CI_current) (le_bytes 4 (if bool_decide (mc = At c) then 1 else 0)) ;;
  ct <- get_cont c ;;
  mwrite (a + CI_memused) (le_bytes 4 (c_memused ct)) ;;
  mwrite (a + CI_memlimit) (le_bytes 4 (c_memlimit ct)) ;;
  mwrite (a + CI_diskused) (le_bytes 4 (c_diskused ct)) ;;
  mwrite (a + CI_disklimit) (le_bytes 4 (c_disklimit ct)).

Definition cinfo (ctable_pt count_pt : Z) : K Z :=
  mc <- mycont ;;
  if negb (isroot mc) then ret (-1) else
  ctable <- kalloc ;;
  count <- for_acc containers (fun c count =>
    acquire (Lcont c) ;;
    ct <- get_cont c ;;
    count <- (if bool_decide (c_state ct = CUNUSED) then ret count
              else ctable_entry ctable count c ;; ret (count + 1)) ;;
    release (Lcont c) ;;
    ret count) 0 ;;
  p <- cur_proc ;;
  pr <- get_proc p ;;
  copyout (p_pagetable pr) count_pt (KVal (le_bytes 4 count)) 4 ;;
  copyout (p_pagetable pr) ctable_pt (KMem ctable) sizeof_ctable ;;
  kfree ctable ;;
  ret 0.

(** ** The first process *)

Definition sizeof_initcode : Z := 51.

Definition userinit : K unit :=
  o <- allocproc ;;
  modify (set_k_initproc o) ;;
  p <- valid o ;;
  pr <- get_proc p ;;
  uvminit (p_pagetable pr) initcode_addr sizeof_initcode ;;
  mod_proc p (set_p_sz PGSIZE) ;;
  mstore64 (p_tf pr + TF_epc) 0 ;;
  mstore64 (p_tf pr + TF_sp) PGSIZE ;;
  nm <- valid (safestrcpy (p_name pr) (cstr "initcode") 16) ;;
  mod_proc p (set_p_name nm) ;;
  mod_proc p (set_p_state RUNNABLE) ;;
  vpid <- allocvpid 0 ;;
  mod_proc p (set_p_vpid vpid) ;;
  release (Lproc p) ;;
  cinit p (cstr "root") (cstr "/") (Z.of_nat NPROC) 256 256 ;;
  ret tt.

End Proc.
