(* ===== verification/Exec.v ===== *)
(** * Running a program (kernel/exec.c)

    exec replaces the user image of the calling process: it reads the ELF
    headers, builds a new page table with the segments and a stack that holds
    the arguments, and frees the old one. *)

From S2P Require Import Prelude Monad Riscv Kstring Kstate Spinlock Printf Kalloc Vm Sched.
From S2P Require Import Bio Log Fs Console File Proc.

(** ** kernel/elf.h *)

Definition ELF_MAGIC : Z := 0x464C457F.
Definition ELF_PROG_LOAD : Z := 1.
Definition sizeof_elfhdr : Z := 64.
Definition sizeof_proghdr : Z := 56.

(** The members of struct elfhdr and struct proghdr that exec reads. *)

Definition elf_magic (h : list Z) : option Z := le_get 4 h 0.
Definition elf_entry (h : list Z) : option Z := le_get 8 h 24.
Definition elf_phoff (h : list Z) : option Z := le_get 8 h 32.
Definition elf_phnum (h : list Z) : option Z := le_get 2 h 56.
Definition ph_type (h : list Z) : option Z := le_get 4 h 0.
Definition ph_off (h : list Z) : option Z := le_get 8 h 8.
Definition ph_vaddr (h : list Z) : option Z := le_get 8 h 16.
Definition ph_filesz (h : list Z) : option Z := le_get 8 h 32.
Definition ph_memsz (h : list Z) : option Z := le_get 8 h 40.

(** A C object of [n] bytes read from a file. *)

Section Exec.
Context `{KI : KernelImage}.

Definition read_obj (ip : nat) (off n : Z) : K (option (list Z)) :=
  r <- readi ip (PObj (replicate (Z.to_nat n) 0)) off n ;;
  if negb (r.1 =? n) then ret None else
  match r.2 with PObj bs => ret (Some bs) | _ => fault end.

(** One round of the loop over the program headers; the result is sz and whether
    to go on. *)

Definition exec_segment (pagetable : Z) (ip : nat) (phnum : Z) (st : Z * Z * Z)
    : K (Z * Z * Z + Z * bool) :=
  let '(i, off, sz) := st in
  if phnum <=? i then ret (inr (sz, true)) else
  o <- read_obj ip (u32 off) sizeof_proghdr ;;
  match o with
  | None => ret (inr (sz, false))
  | Some ph =>
      let next sz := (i + 1, i32 (off + sizeof_proghdr), sz) in
      ty <- valid (ph_type ph) ;;
      vaddr <- valid (ph_vaddr ph) ;;
      filesz <- valid (ph_filesz ph) ;;
      memsz <- valid (ph_memsz ph) ;;
      phoff <- valid (ph_off ph) ;;
      if negb (ty =? ELF_PROG_LOAD) then ret (inl (next sz)) else
      if memsz <? filesz then ret (inr (sz, false)) else
      if u64 (vaddr + memsz) <? vaddr then ret (inr (sz, false)) else
      sz <- uvmalloc pagetable sz (u64 (vaddr + memsz)) ;;
      if sz =? 0 then ret (inr (sz, false)) else
      if negb (vaddr mod PGSIZE =? 0) then ret (inr (sz, false)) else
      r <- loadseg pagetable vaddr ip (u32 phoff) (u32 filesz) ;;
      if r <? 0 then ret (inr (sz, false)) else ret (inl (next sz))
  end.

(** strlen of a string in memory that ends before the page does. *)

Definition mstrlen (a : Z) : K Z :=
  m <- gets k_mem ;;
  valid (strlen (bytes_at m a (Z.to_nat PGSIZE))).

(** One round of the loop over the arguments: the stack pointer and the
    addresses pushed so far. *)

Definition exec_arg (pagetable : Z) (argv : list Z) (stackbase : Z) (st : Z * list Z)
    : K (Z * list Z + option (Z * list Z)) :=
  let '(sp, ustack) := st in
  a <- valid (argv !! length ustack) ;;
  if a =? 0 then ret (inr (Some (sp, ustack))) else
  if (MAXARG <=? length ustack)%nat then ret (inr None) else
  len <- mstrlen a ;;
  let sp := u64 (sp - (len + 1)) in
  let sp := sp - sp mod 16 in
  if sp <? stackbase then ret (inr None) else
  r <- copyout pagetable sp (KMem a) (len + 1) ;;
  if r <? 0 then ret (inr None) else ret (inl (sp, ustack ++ [sp])).

(** Push the arguments and the array of their addresses: the final stack
    pointer and argc. *)

Definition exec_stack (pagetable : Z) (argv : list Z) (sp stackbase : Z) : K (option (Z * Z)) :=
  r <- loop (S (S MAXARG)) (exec_arg pagetable argv stackbase) (sp, []) ;;
  match r with
  | None => ret None
  | Some (sp, ustack) =>
      let argc := Z.of_nat (length ustack) in
      let sp := u64 (sp - (argc + 1) * 8) in
      let sp := sp - sp mod 16 in
      if sp <? stackbase then ret None else
      r <- copyout pagetable sp (KVal (concat (le_bytes 8 <$> (ustack ++ [0])))) ((argc + 1) * 8) ;;
      if r <? 0 then ret None else ret (Some (sp, argc))
  end.

(** [for(last=s=path; *s; s++) if( *s == '/') last = s+1;] *)

Fixpoint path_last (last s : list Z) : list Z :=
  match s with
  | [] => last
  | c :: s' => if c =? 0 then last else path_last (if c =? slash then s' else last) s'
  end.

Definition exec_bad (pagetable sz : Z) (ip : option nat) : K Z :=
  (if* negb (pagetable =? 0) then proc_freepagetable pagetable sz) ;;
  match ip with
  | None => ret (-1)
  | Some i => iunlockput i ;; end_op ;; ret (-1)
  end.

Definition exec (path : list Z) (argv : list Z) : K Z :=
  p <- cur_proc ;;
  begin_op ;;
  o <- namei path ;;
  match o with
  | None => end_op ;; ret (-1)
  | Some ip =>
      ilock (Some ip) ;;
      o <- read_obj ip 0 sizeof_elfhdr ;;
      match o with
      | None => exec_bad 0 0 (Some ip)
      | Some elf =>
          magic <- valid (elf_magic elf) ;;
          if negb (magic =? ELF_MAGIC) then exec_bad 0 0 (Some ip) else
          pr <- get_proc p ;;
          pagetable <- proc_pagetable (p_tf pr) ;;
          if pagetable =? 0 then exec_bad 0 0 (Some ip) else
          phoff <- valid (elf_phoff elf) ;;
          phnum <- valid (elf_phnum elf) ;;
          r <- loopz (phnum + 1) (exec_segment pagetable ip phnum) (0, i32 phoff, 0) ;;
          let '(sz, ok) := r in
          if negb ok then exec_bad pagetable sz (Some ip) else
          iunlockput ip ;;
          end_op ;;
          pr <- get_proc p ;;
          let oldsz := p_sz pr in
          let sz := PGROUNDUP sz in
          sz <- uvmalloc pagetable sz (u64 (sz + 2 * PGSIZE)) ;;
          if sz =? 0 then exec_bad pagetable sz None else
          uvmclear pagetable (u64 (sz - 2 * PGSIZE)) ;;
          o <- exec_stack pagetable argv sz (sz - PGSIZE) ;;
          match o with
          | None => exec_bad pagetable sz None
          | Some (sp, argc) =>
              entry <- valid (elf_entry elf) ;;
              mstore64 (p_tf pr + TF_a 1) sp ;;
              nm <- valid (safestrcpy (p_name pr) (path_last path path) 16) ;;
              mod_proc p (set_p_name nm) ;;
              pr <- get_proc p ;;
              let oldpagetable := p_pagetable pr in
              mod_proc p (set_p_pagetable pagetable) ;;
              mod_proc p (set_p_sz sz) ;;
              mstore64 (p_tf pr + TF_epc) entry ;;
              mstore64 (p_tf pr + TF_sp) sp ;;
              proc_freepagetable oldpagetable oldsz ;;
              ret argc
          end
      end
  end.

End Exec.
