(* ===== verification/Syscall.v ===== *)
(** * System calls (kernel/syscall.c, kernel/sysproc.c and kernel/sysfile.c)

    The arguments of a system call are in the registers a0 to a5 of the saved
    trap frame, its number is in a7, and its result goes to a0. *)

From S2P Require Import Prelude Monad Riscv Kstring Kstate Spinlock Printf Kalloc Vm Sched.
From S2P Require Import Bio Log Fs Console File Proc Exec.

(** ** kernel/fcntl.h and the strings that are printed *)

Definition O_RDONLY : Z := 0x000.
Definition O_WRONLY : Z := 0x001.
Definition O_RDWR : Z := 0x002.
Definition O_CREATE : Z := 0x200.

Definition quote : string := String (Ascii.ascii_of_nat 34) EmptyString.

(** A format string of the trace output: the call in brackets and a newline. *)

Definition trace_fmt (call : string) : string :=
  String.append "[%d] " (String.append call newline).

Section Syscall.
Context `{KI : KernelImage}.

(** What a local variable holds that was not assigned. *)

Variable uninit : Z.

(** ** Arguments *)

Definition argraw (n : Z) : K Z :=
  p <- cur_proc ;;
  pr <- get_proc p ;;
  if (n <? 0) || (5 <? n) then panic "argraw" else mload64 (p_tf pr + TF_a n).

Definition argint (n : Z) : K Z := v <- argraw n ;; ret (i32 v).

Definition argaddr (n : Z) : K Z := argraw n.

Definition fetchaddr (addr : Z) : K (option Z) :=
  p <- cur_proc ;;
  pr <- get_proc p ;;
  if (p_sz pr <=? addr) || (p_sz pr <? u64 (addr + 8)) then ret None else
  r <- copyin (p_pagetable pr) (KVal (replicate 8 0)) addr 8 ;;
  if negb (r.1 =? 0) then ret None else
  match r.2 with
  | KVal bs => v <- valid (le_get 8 bs 0) ;; ret (Some v)
  | _ => fault
  end.

Definition kbuf_strlen (b : kbuf) : K Z :=
  match b with
  | KVal bs => valid (strlen bs)
  | KMem a => mstrlen a
  end.

(** The length of the string or the error, and the buffer. *)

Definition fetchstr (addr : Z) (buf : kbuf) (max : Z) : K (Z * kbuf) :=
  p <- cur_proc ;;
  pr <- get_proc p ;;
  r <- copyinstr (p_pagetable pr) buf addr (u64 max) ;;
  if r.1 <? 0 then ret r else
  len <- kbuf_strlen r.2 ;;
  ret (len, r.2).

(** argstr into a local array of [max] characters. *)

Definition argstr (n max : Z) : K (Z * list Z) :=
  addr <- argaddr n ;;
  r <- fetchstr addr (KVal (replicate (Z.to_nat max) 0)) max ;;
  match r with (len, KVal bs) => ret (len, bs) | _ => fault end.

(** The trace output that a process asks for with traceon. *)

Definition trace (call : string) (args : list vararg) : K unit :=
  p <- cur_proc ;;
  pr <- get_proc p ;;
  if* p_strace pr =? 1 then printf (trace_fmt call) (VWord (p_pid pr) :: args).

(** ** kernel/sysproc.c *)

Definition sys_exit : K Z :=
  trace "sys_exit(%d)" [VWord uninit] ;;
  n <- argint 0 ;;
  exit n ;;
  ret 0.

Definition sys_getpid : K Z :=
  trace "sys_getpid()" [] ;;
  p <- cur_proc ;;
  pr <- get_proc p ;;
  ret (p_pid pr).

Definition sys_fork : K Z := trace "sys_fork()" [] ;; fork.

Definition sys_wait : K Z :=
  trace "sys_wait()" [] ;;
  p <- argaddr 0 ;;
  wait p.

Definition sys_sbrk : K Z :=
  n <- argint 0 ;;
  trace "sys_sbrk(%d)" [VWord n] ;;
  p <- cur_proc ;;
  pr <- get_proc p ;;
  let addr := i32 (p_sz pr) in
  r <- growproc n ;;
  if r <? 0 then ret (-1) else ret addr.

Definition sys_sleep : K Z :=
  n <- argint 0 ;;
  trace "sys_sleep(%d)" [VWord n] ;;
  acquire Lticks ;;
  ticks0 <- gets k_ticks ;;
  wait_loop (fun _ : unit =>
    t <- gets k_ticks ;;
    if negb (u32 (t - ticks0) <? u32 n) then release Lticks ;; ret (inr 0) else
    p <- cur_proc ;;
    pr <- get_proc p ;;
    if negb (p_killed pr =? 0) then release Lticks ;; ret (inr (-1)) else
    sleep ChTicks Lticks ;;
    ret (inl tt)) tt.

Definition sys_kill : K Z :=
  pid <- argint 0 ;;
  trace "sys_kill(%d)" [VWord pid] ;;
  kill pid.

Definition sys_uptime : K Z :=
  trace "sys_uptime()" [] ;;
  acquire Lticks ;;
  xticks <- gets k_ticks ;;
  release Lticks ;;
  ret xticks.

Definition sys_psinfo : K Z :=
  ptable_pt <- argaddr 0 ;;
  count <- argaddr 1 ;;
  psinfo ptable_pt count ;;
  ret 0.

Definition sys_cinfo : K Z :=
  ptable_pt <- argaddr 0 ;;
  count <- argaddr 1 ;;
  cinfo ptable_pt count.

Definition sys_cinit : K Z :=
  name <- argstr 0 16 ;;
  path <- argstr 1 MAXPATH ;;
  max_proc <- argint 2 ;;
  max_page <- argint 3 ;;
  max_disk <- argint 4 ;;
  p <- cur_proc ;;
  cinit p name.2 path.2 max_proc max_page max_disk.

Definition sys_cpause : K Z := name <- argstr 0 16 ;; cpause name.2.
Definition sys_cresume : K Z := name <- argstr 0 16 ;; cresume name.2.
Definition sys_cstop : K Z := name <- argstr 0 16 ;; cstop name.2.

(** ** kernel/sysfile.c: descriptors *)

Definition argfd (n : Z) : K (option (Z * nat)) :=
  fd <- argint n ;;
  if (fd <? 0) || (Z.of_nat NOFILE <=? fd) then ret None else
  p <- cur_proc ;;
  pr <- get_proc p ;;
  o <- valid (p_ofile pr !! Z.to_nat fd) ;;
  ret (f ← o; Some (fd, f)).

Definition set_ofile (p : nat) (fd : nat) (v : option nat) : K unit :=
  mod_proc p (fun pr => set_p_ofile (<[fd := v]> (p_ofile pr)) pr).

Definition fdalloc (f : nat) : K (option nat) :=
  p <- cur_proc ;;
  for_ret (seq 0 NOFILE) (fun fd =>
    pr <- get_proc p ;;
    o <- valid (p_ofile pr !! fd) ;;
    match o with
    | None => set_ofile p fd (Some f) ;; ret (Some fd)
    | Some _ => ret None
    end).

Definition sys_dup : K Z :=
  fd_id <- argint 0 ;;
  trace "sys_dup(%d)" [VWord fd_id] ;;
  o <- argfd 0 ;;
  match o with
  | None => ret (-1)
  | Some (_, f) =>
      o <- fdalloc f ;;
      match o with
      | None => ret (-1)
      | Some fd => filedup f ;; ret (Z.of_nat fd)
      end
  end.

Definition sys_read : K Z :=
  fd <- argint 0 ;;
  trace "sys_read(%d, %p, %d)" [VWord fd; VWord uninit; VWord uninit] ;;
  o <- argfd 0 ;;
  match o with
  | None => ret (-1)
  | Some (_, f) =>
      n <- argint 2 ;;
      p <- argaddr 1 ;;
      fileread f p n
  end.

Definition write_fmt : string :=
  String.append "sys_write(%d, " (String.append quote
    (String.append "%s" (String.append quote ", %d)"))).

(** The array str has n characters on the kernel stack, which is one page: an n
    that is negative or larger than the page is a fault. *)

Definition sys_write : K Z :=
  n <- argint 2 ;;
  if (n <? 0) || (PGSIZE <? n) then fault else
  fd <- argint 0 ;;
  r <- argstr 1 n ;;
  let str := r.2 in
  let buf := if default 0 (head str) =? 10 then cstr "\n" else str in
  trace write_fmt [VWord fd; VStr (Some buf); VWord n] ;;
  o <- argfd 0 ;;
  match o with
  | None => ret (-1)
  | Some (_, f) =>
      p <- argaddr 1 ;;
      filewrite f p n
  end.

Definition sys_close : K Z :=
  o <- argfd 0 ;;
  trace "sys_close(%d)" [VWord (match o with Some (fd, _) => fd | None => uninit end)] ;;
  match o with
  | None => ret (-1)
  | Some (fd, f) =>
      p <- cur_proc ;;
      set_ofile p (Z.to_nat fd) None ;;
      fileclose f ;;
      ret 0
  end.

Definition sys_fstat : K Z :=
  fd <- argint 0 ;;
  trace "sys_fstat(%d)" [VWord fd] ;;
  o <- argfd 0 ;;
  match o with
  | None => ret (-1)
  | Some (_, f) => st <- argaddr 1 ;; filestat f st
  end.

(** ** kernel/sysfile.c: directories *)

Definition quoted (s : string) : string := String.append quote (String.append s quote).

Definition add_nlink (ip : nat) (d : Z) : K unit :=
  mod_inode ip (fun x => set_i_nlink (i16 (i_nlink x + d)) x).

(** The label bad of sys_link. *)

Definition link_bad (ip : nat) : K Z :=
  ilock (Some ip) ;;
  add_nlink ip (-1) ;;
  iupdate ip ;;
  iunlockput ip ;;
  end_op ;;
  ret (-1).

Definition sys_link : K Z :=
  old <- argstr 0 MAXPATH ;;
  new <- argstr 1 MAXPATH ;;
  trace (String.append "sys_link(" (String.append (quoted "%s") (String.append ", "
           (String.append (quoted "%s") ")")))) [VStr (Some old.2); VStr (Some new.2)] ;;
  if (old.1 <? 0) || (new.1 <? 0) then ret (-1) else
  begin_op ;;
  o <- namei old.2 ;;
  match o with
  | None => end_op ;; ret (-1)
  | Some ip =>
      ilock (Some ip) ;;
      x <- get_inode ip ;;
      if i_type x =? T_DIR then iunlockput ip ;; end_op ;; ret (-1) else
      add_nlink ip 1 ;;
      iupdate ip ;;
      iunlock (Some ip) ;;
      r <- nameiparent new.2 uninit_name ;;
      match r.1 with
      | None => link_bad ip
      | Some dp =>
          ilock (Some dp) ;;
          x <- get_inode ip ;;
          d <- get_inode dp ;;
          l <- (if negb (i_dev d =? i_dev x) then ret (-1) else dirlink dp r.2 (i_inum x)) ;;
          if l <? 0 then iunlockput dp ;; link_bad ip else
          iunlockput dp ;;
          iput ip ;;
          end_op ;;
          ret 0
      end
  end.

Definition isdirempty_round (dp : nat) (st : Z * list Z) : K (Z * list Z + bool) :=
  let '(off, de) := st in
  x <- get_inode dp ;;
  if i_size x <=? off then ret (inr true) else
  r <- read_dirent dp off de ;;
  if negb (r.1 =? sizeof_dirent) then panic "isdirempty: readi" else
  inum <- dirent_inum r.2 ;;
  if negb (inum =? 0) then ret (inr false) else ret (inl (off + sizeof_dirent, r.2)).

Definition isdirempty (dp : nat) : K bool :=
  loopz dir_fuel (isdirempty_round dp) (2 * sizeof_dirent, uninit_dirent).

(** The label bad of sys_unlink. *)

Definition unlink_bad (dp : nat) : K Z := iunlockput dp ;; end_op ;; ret (-1).

Definition sys_unlink : K Z :=
  path <- argstr 0 MAXPATH ;;
  trace (String.append "sys_unlink(" (String.append (quoted "%s") ")")) [VStr (Some path.2)] ;;
  if path.1 <? 0 then ret (-1) else
  begin_op ;;
  r <- nameiparent path.2 uninit_name ;;
  match r.1 with
  | None => end_op ;; ret (-1)
  | Some dp =>
      let name := r.2 in
      ilock (Some dp) ;;
      c1 <- valid (namecmp name (cstr ".")) ;;
      c2 <- valid (namecmp name (cstr "..")) ;;
      if (c1 =? 0) || (c2 =? 0) then unlink_bad dp else
      o <- dirlookup dp name ;;
      match o with
      | None => unlink_bad dp
      | Some (ip, off) =>
          ilock (Some ip) ;;
          x <- get_inode ip ;;
          if i_nlink x <? 1 then panic "unlink: nlink < 1" else
          e <- (if i_type x =? T_DIR then isdirempty ip else ret true) ;;
          if negb e then iunlockput ip ;; unlink_bad dp else
          n <- writei dp (PObj (replicate (Z.to_nat sizeof_dirent) 0)) off sizeof_dirent ;;
          if negb (n =? sizeof_dirent) then panic "unlink: writei" else
          x <- get_inode ip ;;
          (if* i_type x =? T_DIR then add_nlink dp (-1) ;; iupdate dp) ;;
          iunlockput dp ;;
          add_nlink ip (-1) ;;
          iupdate ip ;;
          iunlockput ip ;;
          end_op ;;
          ret 0
      end
  end.

Definition create (path : list Z) (type major minor : Z) : K (option nat) :=
  r <- nameiparent path uninit_name ;;
  match r.1 with
  | None => ret None
  | Some dp =>
      let name := r.2 in
      ilock (Some dp) ;;
      o <- dirlookup dp name ;;
      match o with
      | Some (ip, _) =>
          iunlockput dp ;;
          ilock (Some ip) ;;
          x <- get_inode ip ;;
          if (type =? T_FILE) && ((i_type x =? T_FILE) || (i_type x =? T_DEVICE))
          then ret (Some ip) else
          iunlockput ip ;;
          ret None
      | None =>
          d <- get_inode dp ;;
          ip <- ialloc (i_dev d) type ;;
          ilock (Some ip) ;;
          mod_inode ip (fun x => set_i_nlink 1 (set_i_minor minor (set_i_major major x))) ;;
          iupdate ip ;;
          (if* type =? T_DIR then
             add_nlink dp 1 ;;
             iupdate dp ;;
             x <- get_inode ip ;;
             r1 <- dirlink ip (cstr ".") (i_inum x) ;;
             if r1 <? 0 then panic "create dots" else
             d <- get_inode dp ;;
             r2 <- dirlink ip (cstr "..") (i_inum d) ;;
             if* r2 <? 0 then panic "create dots") ;;
          x <- get_inode ip ;;
          r <- dirlink dp name (i_inum x) ;;
          if r <? 0 then panic "create: dirlink" else
          iunlockput dp ;;
          ret (Some ip)
      end
  end.

(** The part of sys_open that finds the inode and locks it. *)

Definition open_inode (path : list Z) (omode : Z) : K (option nat) :=
  if negb (Z.land omode O_CREATE =? 0) then create path T_FILE 0 0 else
  o <- namei path ;;
  match o with
  | None => ret None
  | Some ip =>
      ilock (Some ip) ;;
      x <- get_inode ip ;;
      if (i_type x =? T_DIR) && negb (omode =? O_RDONLY) then iunlockput ip ;; ret None
      else ret (Some ip)
  end.

(** The part that takes a file and a descriptor. *)

Definition open_file : K (option (nat * nat)) :=
  o <- filealloc ;;
  match o with
  | None => ret None
  | Some f =>
      o <- fdalloc f ;;
      match o with
      | None => fileclose f ;; ret None
      | Some fd => ret (Some (f, fd))
      end
  end.

Definition flag (b : bool) : Z := if b then 1 else 0.

Definition sys_open : K Z :=
  path <- argstr 0 MAXPATH ;;
  omode <- argint 1 ;;
  trace (String.append "sys_open(" (String.append (quoted "%s") ", %d)"))
    [VStr (Some path.2); VWord omode] ;;
  if path.1 <? 0 then ret (-1) else
  begin_op ;;
  o <- open_inode path.2 omode ;;
  match o with
  | None => end_op ;; ret (-1)
  | Some ip =>
      x <- get_inode ip ;;
      if (i_type x =? T_DEVICE) && ((i_major x <? 0) || (NDEV <=? i_major x)) then
        iunlockput ip ;; end_op ;; ret (-1)
      else
      o <- open_file ;;
      match o with
      | None => iunlockput ip ;; end_op ;; ret (-1)
      | Some (f, fd) =>
          x <- get_inode ip ;;
          (if i_type x =? T_DEVICE
           then mod_file f (fun y => set_f_major (i_major x) (set_f_type FD_DEVICE y))
           else mod_file f (fun y => set_f_off 0 (set_f_type FD_INODE y))) ;;
          mod_file f (set_f_ip (Some ip)) ;;
          mod_file f (set_f_readable (flag (Z.land omode O_WRONLY =? 0))) ;;
          mod_file f (set_f_writable (flag (negb (Z.land omode O_WRONLY =? 0) ||
                                            negb (Z.land omode O_RDWR =? 0)))) ;;
          iunlock (Some ip) ;;
          end_op ;;
          ret (Z.of_nat fd)
      end
  end.

(** The common end of sys_mkdir and sys_mknod. *)

Definition make_node (ok : bool) (path : list Z) (type major minor : Z) : K Z :=
  begin_op ;;
  o <- (if ok then create path type major minor else ret None) ;;
  match o with
  | None => end_op ;; ret (-1)
  | Some ip => iunlockput ip ;; end_op ;; ret 0
  end.

Definition sys_mkdir : K Z :=
  path <- argstr 0 MAXPATH ;;
  trace (String.append "sys_mkdir(" (String.append (quoted "%s") ")")) [VStr (Some path.2)] ;;
  make_node (0 <=? path.1) path.2 T_DIR 0 0.

Definition sys_mknod : K Z :=
  major <- argint 1 ;;
  minor <- argint 2 ;;
  path <- argstr 0 MAXPATH ;;
  trace (String.append "sys_mknod(" (String.append (quoted "%s") ", %d, %d)"))
    [VStr (Some path.2); VWord major; VWord minor] ;;
  make_node (0 <=? path.1) path.2 T_DEVICE (i16 major) (i16 minor).

Definition sys_chdir : K Z :=
  path <- argstr 0 MAXPATH ;;
  trace "sys_chdir(%s)" [VStr (Some path.2)] ;;
  begin_op ;;
  o <- (if path.1 <? 0 then ret None else namei path.2) ;;
  match o with
  | None => end_op ;; ret (-1)
  | Some ip =>
      ilock (Some ip) ;;
      x <- get_inode ip ;;
      if negb (i_type x =? T_DIR) then iunlockput ip ;; end_op ;; ret (-1) else
      iunlock (Some ip) ;;
      p <- cur_proc ;;
      pr <- get_proc p ;;
      cwd <- valid (p_cwd pr) ;;
      iput cwd ;;
      end_op ;;
      mod_proc p (set_p_cwd (Some ip)) ;;
      ret 0
  end.

(** ** kernel/sysfile.c: exec, pipe and the calls for suspended processes *)

Definition free_argv (argv : list Z) : K unit :=
  for_ret argv (fun a => if a =? 0 then ret (Some tt) else kfree a ;; ret None) ;;
  ret tt.

(** One round of the loop of sys_exec: the array so far, and whether to run. *)

Definition exec_fetch (uargv : Z) (st : nat * list Z) : K (nat * list Z + list Z * bool) :=
  let '(i, argv) := st in
  if (MAXARG <=? i)%nat then ret (inr (argv, false)) else
  o <- fetchaddr (u64 (uargv + 8 * Z.of_nat i)) ;;
  match o with
  | None => ret (inr (argv, false))
  | Some uarg =>
      if uarg =? 0 then ret (inr (<[i := 0]> argv, true)) else
      a <- kalloc ;;
      let argv := <[i := a]> argv in
      if a =? 0 then panic "sys_exec kalloc" else
      r <- fetchstr uarg (KMem a) PGSIZE ;;
      if r.1 <? 0 then ret (inr (argv, false)) else ret (inl (S i, argv))
  end.

Definition sys_exec : K Z :=
  str <- argstr 1 MAXPATH ;;
  path <- argstr 0 MAXPATH ;;
  uargv <- argaddr 1 ;;
  trace (String.append "sys_exec(" (String.append (quoted "%s") (String.append ", "
           (String.append (quoted "%s") ")")))) [VStr (Some path.2); VStr (Some str.2)] ;;
  if path.1 <? 0 then ret (-1) else
  r <- loop (S (S MAXARG)) (exec_fetch uargv) (0%nat, replicate MAXARG 0) ;;
  let '(argv, ok) := r in
  v <- (if ok : bool then exec path.2 argv else ret (-1)) ;;
  free_argv argv ;;
  ret v.

Definition sys_pipe : K Z :=
  p <- cur_proc ;;
  fdarray <- argaddr 0 ;;
  trace "sys_pipe(%d)" [VWord fdarray] ;;
  o <- pipealloc ;;
  match o with
  | None => ret (-1)
  | Some (rf, wf) =>
      o0 <- fdalloc rf ;;
      o1 <- (match o0 with None => ret None | Some _ => fdalloc wf end) ;;
      match o0, o1 with
      | Some fd0, Some fd1 =>
          pr <- get_proc p ;;
          r <- copyout (p_pagetable pr) fdarray (KVal (le_bytes 4 (Z.of_nat fd0))) 4 ;;
          r <- (if r <? 0 then ret r
                else copyout (p_pagetable pr) (u64 (fdarray + 4)) (KVal (le_bytes 4 (Z.of_nat fd1))) 4) ;;
          if r <? 0 then
            set_ofile p fd0 None ;;
            set_ofile p fd1 None ;;
            fileclose rf ;;
            fileclose wf ;;
            ret (-1)
          else ret 0
      | _, _ =>
          (match o0 with Some fd0 => set_ofile p fd0 None | None => ret tt end) ;;
          fileclose rf ;;
          fileclose wf ;;
          ret (-1)
      end
  end.

Definition sys_traceon : K Z :=
  p <- cur_proc ;;
  pr <- get_proc p ;;
  (if* p_strace pr =? 0 then mod_proc p (set_p_strace 1)) ;;
  ret 0.

Definition sys_suspend : K Z :=
  pid <- argint 0 ;;
  o <- argfd 1 ;;
  match o with
  | None => ret (-1)
  | Some (_, f) => suspend pid f
  end.

Definition sys_resume : K Z :=
  path <- argstr 0 MAXPATH ;;
  if path.1 <? 0 then ret (-1) else
  resume path.2 ;;
  ret 0.

(** ** kernel/syscall.c: the table; 26 has no entry. *)

Definition syscalls (num : Z) : option (K Z) :=
  match num with
  | 1 => Some sys_fork | 2 => Some sys_exit | 3 => Some sys_wait | 4 => Some sys_pipe
  | 5 => Some sys_read | 6 => Some sys_kill | 7 => Some sys_exec | 8 => Some sys_fstat
  | 9 => Some sys_chdir | 10 => Some sys_dup | 11 => Some sys_getpid | 12 => Some sys_sbrk
  | 13 => Some sys_sleep | 14 => Some sys_uptime | 15 => Some sys_open | 16 => Some sys_write
  | 17 => Some sys_mknod | 18 => Some sys_unlink | 19 => Some sys_link | 20 => Some sys_mkdir
  | 21 => Some sys_close | 22 => Some sys_traceon | 23 => Some sys_psinfo
  | 24 => Some sys_suspend | 25 => Some sys_resume | 27 => Some sys_cinfo
  | 28 => Some sys_cinit | 29 => Some sys_cpause | 30 => Some sys_cresume
  | 31 => Some sys_cstop
  | _ => None
  end.

Definition unknown_msg : string := "%d %s: unknown sys call %d
".

Definition syscall : K unit :=
  p <- cur_proc ;;
  pr <- get_proc p ;;
  v <- mload64 (p_tf pr + TF_a 7) ;;
  let num := i32 v in
  match syscalls num with
  | Some call =>
      r <- call ;;
      pr <- get_proc p ;;
      mstore64 (p_tf pr + TF_a 0) (u64 r)
  | None =>
      printf unknown_msg [VWord (p_pid pr); VStr (Some (p_name pr)); VWord num] ;;
      mstore64 (p_tf pr + TF_a 0) (u64 (-1))
  end.

End Syscall.
