(* ===== verification/Trap.v ===== *)
(** * Traps and booting (kernel/trap.c, forkret of kernel/proc.c and kernel/main.c)

    The supervisor registers a handler reads are arguments; what it writes to
    them is part of its result. *)

From S2P Require Import Prelude Monad Riscv Kstring Kstate Spinlock Printf Kalloc Vm Sched.
From S2P Require Import Bio Log Fs Console File Proc Exec Syscall.

(** The registers at a trap, the interrupt the PLIC reports and the characters
    the uart has. *)

Record trap_regs := mk_trap_regs {
  r_sstatus : Z;
  r_scause : Z;
  r_sepc : Z;
  r_stval : Z;
  r_satp : Z;
  r_tp : Z;
  plic_claim : Z;
  uart_chars : list Z;
}.

(** What usertrapret leaves in the registers and passes to userret. *)

Record user_regs := mk_user_regs {
  w_stvec : Z;
  w_sstatus : Z;
  w_sepc : Z;
  userret_fn : Z;
  userret_trapframe : Z;
  userret_satp : Z;
}.


Section Trap.
Context `{KI : KernelImage}.
Variable uninit : Z.

(** Addresses of the image: usertrap, and uservec and userret as offsets in the
    trampoline page. *)

Variable usertrap_addr uservec_off userret_off : Z.

Definition clockintr : K unit :=
  acquire Lticks ;;
  modify (fun s => set_k_ticks (u32 (k_ticks s + 1)) s) ;;
  wakeup ChTicks ;;
  release Lticks.

Definition devintr (r : trap_regs) : K Z :=
  if negb (Z.land (r_scause r) 0x8000000000000000 =? 0) && (Z.land (r_scause r) 0xff =? 9) then
    (if plic_claim r =? UART0_IRQ then uartintr (uart_chars r)
     else if plic_claim r =? VIRTIO0_IRQ then virtio_disk_intr
     else ret tt) ;;
    ret 1
  else if r_scause r =? 0x8000000000000001 then
    (if* r_tp r =? 0 then clockintr) ;;
    ret 2
  else ret 0.

Definition usertrapret (r : trap_regs) : K user_regs :=
  p <- cur_proc ;;
  pr <- get_proc p ;;
  mstore64 (p_tf pr + TF_kernel_satp) (r_satp r) ;;
  mstore64 (p_tf pr + TF_kernel_sp) (p_kstack pr + PGSIZE) ;;
  mstore64 (p_tf pr + TF_kernel_trap) usertrap_addr ;;
  mstore64 (p_tf pr + TF_kernel_hartid) (r_tp r) ;;
  epc <- mload64 (p_tf pr + TF_epc) ;;
  ret (mk_user_regs (TRAMPOLINE + uservec_off)
         (Z.lor (Z.land (r_sstatus r) (Z.lnot SSTATUS_SPP)) SSTATUS_SPIE)
         epc (TRAMPOLINE + userret_off) TRAPFRAME (MAKE_SATP (p_pagetable pr))).

Definition forkret (r : trap_regs) : K user_regs :=
  p <- cur_proc ;;
  release (Lproc p) ;;
  first <- gets k_first ;;
  (if* negb (first =? 0) then
     modify (set_k_first 0) ;;
     fsinit ROOTDEV) ;;
  usertrapret r.

Definition scause_msg : string := "usertrap(): unexpected scause %p pid=%d
".
Definition sepc_msg : string := "            sepc=%p stval=%p
".

Definition killed_exit (p : nat) : K unit :=
  pr <- get_proc p ;;
  if* negb (p_killed pr =? 0) then exit (-1).

(** [r] are the registers when the trap is taken, [r'] when it returns, perhaps
    on another CPU. *)

Definition usertrap (r r' : trap_regs) : K user_regs :=
  if negb (Z.land (r_sstatus r) SSTATUS_SPP =? 0) then panic "usertrap: not from user mode" else
  p <- cur_proc ;;
  pr <- get_proc p ;;
  mstore64 (p_tf pr + TF_epc) (r_sepc r) ;;
  which_dev <- (if r_scause r =? 8 then
       killed_exit p ;;
       epc <- mload64 (p_tf pr + TF_epc) ;;
       mstore64 (p_tf pr + TF_epc) (u64 (epc + 4)) ;;
       syscall uninit ;;
       ret 0
     else
       d <- devintr r ;;
       if negb (d =? 0) then ret d else
       printf scause_msg [VWord (r_scause r); VWord (p_pid pr)] ;;
       printf sepc_msg [VWord (r_sepc r); VWord (r_stval r)] ;;
       mod_proc p (set_p_killed 1) ;;
       ret 0) ;;
  killed_exit p ;;
  (if* which_dev =? 2 then yield) ;;
  usertrapret r'.

Definition kscause_msg : string := "scause %p
".
Definition ksepc_msg : string := "sepc=%p stval=%p
".

(** The registers kerneltrap restores: sepc and sstatus. *)

Definition kerneltrap (r : trap_regs) (intr : bool) : K (Z * Z) :=
  if Z.land (r_sstatus r) SSTATUS_SPP =? 0 then panic "kerneltrap: not from supervisor mode" else
  if intr then panic "kerneltrap: interrupts enabled" else
  which_dev <- devintr r ;;
  (if* which_dev =? 0 then
     printf kscause_msg [VWord (r_scause r)] ;;
     printf ksepc_msg [VWord (r_sepc r); VWord (r_stval r)] ;;
     panic "kerneltrap") ;;
  p <- myproc ;;
  (if (which_dev =? 2) && negb (bool_decide (p = Null)) then
     i <- deref p ;;
     pr <- get_proc i ;;
     if* bool_decide (p_state pr = RUNNING) then yield
   else ret tt) ;;
  ret (r_sepc r, r_sstatus r).

(** ** main() on the first CPU, up to the scheduler *)

Definition boot_msg : string := "xv6 kernel is booting
".

Definition main (garbage : list Z) (R : Z -> Z) (pages : Z) : K unit :=
  consoleinit garbage ;;
  printfinit ;;
  printf newline [] ;;
  printf boot_msg [] ;;
  printf newline [] ;;
  kinit ;;
  kvminit ;;
  procinit ;;
  binit ;;
  iinit ;;
  virtio_disk_init R pages ;;
  userinit.

End Trap.
