(* ===== verification/Pipespec.v ===== *)
(** * Pipes are queues

    The ring of a struct pipe, with its two counters that wrap around at 2^32,
    refines a queue of at most PIPESIZE bytes: pipewrite appends what it reads
    from the memory of the writer, piperead takes from the front. *)

From S2P Require Import Prelude Monad Ring Riscv Kstring Kstate Spinlock Printf Kalloc Vm Pagetable.
From S2P Require Import Uvm Ucopy Sched Schedspec Bio Log Fs Console File.

(** ** The queue *)

Definition count (x : pipe) : Z := used (pi_nread x) (pi_nwrite x).

Definition queue (x : pipe) : list Z :=
  ring PIPESIZE (pi_data x) (pi_nread x) (Z.to_nat (count x)).

Record pipe_ok (x : pipe) : Prop := {
  po_data : length (pi_data x) = Z.to_nat PIPESIZE;
  po_nread : 0 <= pi_nread x < 2 ^ 32;
  po_nwrite : 0 <= pi_nwrite x < 2 ^ 32;
  po_count : count x <= PIPESIZE;
}.

(** A process in the middle of a system call, with its address space. *)

Record caller `{KI : KernelImage} (s : kst) (i : nat) (p : proc) (T : gmap (list Z) Z) (L : gmap Z Z) : Prop := {
  ca_started : k_started s <> 0;
  ca_cur : k_cur s = Some i;
  ca_proc : k_procs s !! i = Some p;
  ca_len : length (k_procs s) = NPROC;
  ca_held : k_held s = ∅;
  ca_pt : pt (k_mem s) (p_pagetable p) T L;
  ca_user : user_ok T L;
}.

(** ** Lemmas: the ring *)

Lemma length_queue x : length (queue x) = Z.to_nat (count x).
Proof. apply length_ring. Qed.

Lemma count_range x : 0 <= count x.
Proof. apply used_range. Qed.

Lemma full_spec x :
  pipe_ok x -> pi_nwrite x = u32 (pi_nread x + PIPESIZE) <-> count x = PIPESIZE.
Proof. intros [_ Hr Hw _]. unfold count, used, u32, PIPESIZE. split; intros H; dlia. Qed.

Lemma empty_spec x : pipe_ok x -> pi_nread x = pi_nwrite x <-> count x = 0.
Proof. intros [_ Hr Hw _]. unfold count, used, u32. split; intros H; dlia. Qed.

Lemma queue_put c x :
  pipe_ok x -> count x < PIPESIZE ->
  pipe_ok (pipe_put c x) /\ queue (pipe_put c x) = queue x ++ [c] /\
  count (pipe_put c x) = count x + 1.
Proof.
  intros [Hd Hr Hw Hc] Hlt. pose proof (count_range x) as Hc0.
  assert (count (pipe_put c x) = count x + 1) as Hcount.
  { unfold count, used, pipe_put, u32, PIPESIZE in *. simpl. dlia. }
  split; [|split; [|done]].
  - split; [simpl; by rewrite length_insert|done| |lia].
    simpl. unfold u32. apply Z.mod_pos_bound. lia.
  - unfold queue. rewrite Hcount. replace (Z.to_nat (count x + 1)) with (S (Z.to_nat (count x))) by lia.
    by apply (ring_put PIPESIZE 9).
Qed.

Definition pipe_get (x : pipe) : pipe := set_pi_nread (u32 (pi_nread x + 1)) x.

Lemma queue_get x :
  pipe_ok x -> 0 < count x ->
  exists c, pi_data x !! Z.to_nat (pi_nread x mod PIPESIZE) = Some c /\
    queue x = c :: queue (pipe_get x) /\ pipe_ok (pipe_get x) /\
    count (pipe_get x) = count x - 1.
Proof.
  intros [Hd Hr Hw Hc] Hlt.
  assert (count (pipe_get x) = count x - 1) as Hcount.
  { unfold count, used, pipe_get, u32, PIPESIZE in *. simpl. dlia. }
  destruct (ring_get PIPESIZE 9 eq_refl ltac:(lia) (pi_data x) (pi_nread x)
    (Z.to_nat (count x - 1)) Hd) as (c & Hcx & Hq).
  exists c. split; [done|]. split; [|split; [|done]].
  - unfold queue. rewrite Hcount. by replace (Z.to_nat (count x)) with (S (Z.to_nat (count x - 1))) by lia.
  - split; [done| |done|lia]. simpl. unfold u32. apply Z.mod_pos_bound. lia.
Qed.

(** ** Lemmas: the operations *)

Lemma runs_get_pipe pi x s : k_pipes s !! pi = Some x -> runs (get_pipe pi) s x s.
Proof. intros H. eapply runs_bind; [apply runs_gets|]. by apply runs_valid. Qed.

Definition with_pipe (pi : Z) (x : pipe) (s : kst) : kst := set_k_pipes (<[pi := x]> (k_pipes s)) s.

Lemma runs_mod_pipe pi f x s :
  k_pipes s !! pi = Some x -> runs (mod_pipe pi f) s tt (with_pipe pi (f x) s).
Proof. intros H. eapply runs_bind; [by apply runs_get_pipe|]. apply runs_modify. Qed.

Lemma with_pipe_id pi x s : k_pipes s !! pi = Some x -> with_pipe pi x s = s.
Proof. intros H. unfold with_pipe. rewrite insert_id by done. by destruct s. Qed.

Lemma with_pipe_twice pi x y s : with_pipe pi y (with_pipe pi x s) = with_pipe pi y s.
Proof. unfold with_pipe. simpl. by rewrite insert_insert_eq. Qed.

Lemma lookup_with_pipe pi x s : k_pipes (with_pipe pi x s) !! pi = Some x.
Proof. apply lookup_insert_eq. Qed.

Section Pipespec.
Context `{KI : KernelImage}.

Lemma runs_pipe_room pi x s :
  k_pipes s !! pi = Some x -> pipe_ok x -> count x < PIPESIZE -> runs (pipe_room pi) s true s.
Proof.
  intros Hx Hok Hc. apply runs_wait_stop. eapply runs_bind; [by apply runs_get_pipe|].
  destruct (Z.eqb_spec (pi_nwrite x) (u32 (pi_nread x + PIPESIZE))) as [E|_].
  - apply full_spec in E; [lia|done].
  - apply runs_ret.
Qed.

(** Reading one byte of user memory. *)

Lemma runs_copyin1 s root T L va :
  pt (k_mem s) root T L -> user_ok T L -> 0 <= va < 2 ^ 64 ->
  runs (copyin root (KVal [0]) (u64 va) 1) s
    (match utrans L va with Some pa => (0, KVal [k_mem s !!! pa]) | None => (-1, KVal [0]) end) s.
Proof.
  intros Hpt Hu Hva. rewrite u64_small by done.
  pose proof (runs_copyin s root T L va [0] Hpt Hu Hva) as H.
  cbn [length read_user] in H. change (Z.of_nat 1) with 1 in H.
  destruct (utrans L va) as [pa|]; exact H.
Qed.

Lemma pipewrite_loop j fuel s pr p T L pi x addr n i :
  k_procs s !! pr = Some p -> pt (k_mem s) (p_pagetable p) T L -> user_ok T L ->
  k_pipes s !! pi = Some x -> pipe_ok x -> count x + Z.of_nat j <= PIPESIZE ->
  0 <= addr -> 0 <= i -> n = i + Z.of_nat j -> addr + n < 2 ^ 64 -> (j < fuel)%nat ->
  exists x', runs (loop fuel (pipewrite_round pi pr addr n) i) s true (with_pipe pi x' s) /\
    pipe_ok x' /\ queue x' = queue x ++ (read_user L (k_mem s) (addr + i) j).2.
Proof.
  revert fuel s x i. induction j as [|j IH]; intros [|fuel] s x i Hp Hpt Hu Hx Hok Hc Ha Hi Hn Hmax Hf;
    try lia.
  - exists x. split; [|by rewrite app_nil_r].
    rewrite with_pipe_id by done. apply runs_loop_stop. unfold pipewrite_round.
    destruct (Z.leb_spec n i); [apply runs_ret|lia].
  - assert (forall r s', runs (p <- get_proc pr ;;
        r <- copyin (p_pagetable p) (KVal [0]) (u64 (addr + i)) 1 ;;
        if r.1 =? -1 then ret (inr true) else
        match r.2 with
        | KVal [ch] => mod_pipe pi (pipe_put ch) ;; ret (inl (i + 1))
        | _ => fault
        end) s r s' -> runs (pipewrite_round pi pr addr n i) s r s') as Hpre.
    { intros r s' H. unfold pipewrite_round. destruct (Z.leb_spec n i); [lia|].
      eapply runs_bind; [by apply (runs_pipe_room pi x s Hx Hok); lia|]. exact H. }
    pose proof (runs_copyin1 s (p_pagetable p) T L (addr + i) Hpt Hu ltac:(lia)) as Hcp.
    cbn [read_user]. destruct (utrans L (addr + i)) as [pa|] eqn:E.
    + destruct (queue_put (k_mem s !!! pa) x Hok) as (Hok' & Hq & Hcnt); [lia|].
      destruct (IH fuel (with_pipe pi (pipe_put (k_mem s !!! pa) x) s)
        (pipe_put (k_mem s !!! pa) x) (i + 1)) as (x' & Hr & Hok2 & Hq2); try done; try lia.
      { apply lookup_with_pipe. }
      exists x'. split; [|split; [done|]].
      * eapply runs_loop_next; [|rewrite with_pipe_twice in Hr; exact Hr].
        apply Hpre. eapply runs_bind; [by apply (runs_get_proc pr p)|].
        eapply runs_bind; [exact Hcp|]. cbn [fst snd]. change (0 =? -1) with false. cbv iota.
        eapply runs_bind; [by apply runs_mod_pipe|]. apply runs_ret.
      * rewrite Hq2, Hq, <- app_assoc. f_equal. simpl.
        replace (addr + (i + 1)) with (addr + i + 1) by lia.
        by destruct (read_user L (k_mem s) (addr + i + 1) j).
    + exists x. rewrite with_pipe_id by done. simpl. rewrite app_nil_r. split; [|done].
      apply runs_loop_stop, Hpre. eapply runs_bind; [by apply (runs_get_proc pr p)|].
      eapply runs_bind; [exact Hcp|]. apply runs_ret.
Qed.

(** What piperead takes. *)

Lemma runs_copyout1 s root T L va c :
  pt (k_mem s) root T L -> user_ok T L -> 0 <= va < 2 ^ 64 ->
  runs (copyout root (u64 va) (KVal [c]) 1) s
    (match utrans L va with Some _ => 0 | None => -1 end)
    (set_k_mem (match utrans L va with Some pa => <[pa := c]> (k_mem s) | None => k_mem s end) s).
Proof.
  intros Hpt Hu Hva. rewrite u64_small by done.
  pose proof (runs_copyout s root T L va [c] Hpt Hu Hva) as H.
  cbn [length write_user] in H. change (Z.of_nat 1) with 1 in H.
  destruct (utrans L va) as [pa|]; exact H.
Qed.

Lemma write_user_cons L m va c bs pa :
  utrans L va = Some pa -> write_user L m va (c :: bs) = write_user L (<[pa := c]> m) (va + 1) bs.
Proof. intros H. simpl. by rewrite H. Qed.

Lemma piperead_loop j fuel s pr p T L pi x addr n i :
  k_procs s !! pr = Some p -> pt (k_mem s) (p_pagetable p) T L -> user_ok T L ->
  k_pipes s !! pi = Some x -> pipe_ok x ->
  0 <= addr -> 0 <= i -> n = i + Z.of_nat j -> addr + n < 2 ^ 64 -> (j < fuel)%nat ->
  let bs := take j (queue x) in
  (write_user L (k_mem s) (addr + i) bs).1 = 0 ->
  exists x', runs (loop fuel (piperead_round pi pr addr n) i) s (i + Z.of_nat (length bs))
      (with_pipe pi x' (set_k_mem (write_user L (k_mem s) (addr + i) bs).2 s)) /\
    pipe_ok x' /\ queue x' = drop j (queue x).
Proof.
  revert fuel s x i. induction j as [|j IH]; intros [|fuel] s x i Hp Hpt Hu Hx Hok Ha Hi Hn Hmax Hf bs Hw;
    try lia; subst bs.
  - exists x. split; [|by split]. rewrite with_pipe_id by done. simpl. rewrite set_k_mem_id, Z.add_0_r.
    apply runs_loop_stop. unfold piperead_round. destruct (Z.leb_spec n i); [apply runs_ret|lia].
  - destruct (Z.eq_dec (count x) 0) as [E0|Hne].
    + assert (queue x = []) as Hq by (apply nil_length_inv; rewrite length_queue; lia).
      exists x. rewrite Hq in *. simpl. split; [|by split].
      rewrite with_pipe_id by done. rewrite set_k_mem_id, Z.add_0_r.
      apply runs_loop_stop. unfold piperead_round. destruct (Z.leb_spec n i); [lia|].
      eapply runs_bind; [by apply runs_get_pipe|].
      apply (proj2 (empty_spec x Hok)) in E0. rewrite E0, Z.eqb_refl. apply runs_ret.
    + pose proof (count_range x). destruct (queue_get x Hok ltac:(lia)) as (c & Hc & Hq & Hok' & Hcnt).
      rewrite Hq in Hw |- *. cbn [take drop] in *.
      destruct (utrans L (addr + i)) as [pa|] eqn:E; [|by simpl in Hw; rewrite E in Hw].
      rewrite (write_user_cons _ _ _ _ _ pa E) in Hw |- *.
      assert (pt (<[pa := c]> (k_mem s)) (p_pagetable p) T L) as Hpt'.
      { pose proof (pt_write_user T L (k_mem s) (p_pagetable p) (addr + i) [c] Hu Hpt) as H1.
        rewrite (write_user_cons _ _ _ _ _ pa E) in H1. exact H1. }
      set (s1 := set_k_mem (<[pa := c]> (k_mem s)) (with_pipe pi (pipe_get x) s)).
      destruct (IH fuel s1 (pipe_get x) (i + 1)) as (x' & Hr & Hok2 & Hq2); try done; try lia.
      { apply lookup_with_pipe. }
      { by replace (addr + (i + 1)) with (addr + i + 1) by lia. }
      exists x'. split; [|by split].
      replace (addr + (i + 1)) with (addr + i + 1) in Hr by lia.
      eapply runs_loop_next; [|replace (i + Z.of_nat (length (c :: take j (queue (pipe_get x)))))
        with (i + 1 + Z.of_nat (length (take j (queue (pipe_get x))))) by (simpl length; lia)].
      * unfold piperead_round. destruct (Z.leb_spec n i); [lia|].
        eapply runs_bind; [by apply runs_get_pipe|].
        destruct (Z.eqb_spec (pi_nread x) (pi_nwrite x)) as [E2|_];
          [by apply empty_spec in E2|].
        eapply runs_bind; [by apply runs_valid|]. eapply runs_bind; [by apply runs_mod_pipe|].
        eapply runs_bind; [by apply (runs_get_proc pr p)|].
        eapply runs_bind; [apply (runs_copyout1 _ _ T L); [done|done|lia]|].
        rewrite E. apply runs_ret.
      * unfold s1, with_pipe in Hr |- *. cbn in Hr |- *. rewrite insert_insert_eq in Hr. exact Hr.
Qed.

(** The frame of both calls: the lock of the pipe around a loop, then a wakeup. *)

Lemma pipe_locked s i p T L pi :
  caller s i p T L ->
  let s1 := set_k_held {[Lpipe pi]} s in
  runs (acquire (Lpipe pi)) s tt s1 /\
  (forall ch s2, k_held s2 = {[Lpipe pi]} -> length (k_procs s2) = NPROC ->
     forall {A} (v : A), runs (wakeup ch ;; release (Lpipe pi) ;; ret v) s2 v
       (set_k_procs (wake ch <$> k_procs s2) (set_k_held ∅ s2))).
Proof.
  intros Hc s1. pose proof (ca_held _ _ _ _ _ Hc) as Hh. split.
  - pose proof (runs_acquire (Lpipe pi) s) as H. rewrite Hh, (right_id_L ∅ (∪)) in H.
    apply H, not_elem_of_empty.
  - intros ch s2 Hh2 Hlen A v. eapply runs_bind.
    + apply runs_wakeup; [done|]. intros j. rewrite Hh2. by intros ?%elem_of_singleton.
    + eapply runs_bind; [apply runs_release; simpl; rewrite Hh2; by apply elem_of_singleton|].
      simpl. rewrite Hh2, difference_diag_L. apply runs_ret.
Qed.

(** C33: pipewrite of n bytes to a pipe with room for them always returns n, and
    appends to the queue the bytes it reads from the memory of the caller, all n
    of them or those before the first that the caller may not read; it wakes the
    readers, and nothing else changes. *)
Theorem pipewrite_spec s i p T L pi x addr n :
  caller s i p T L -> k_pipes s !! pi = Some x -> pipe_ok x ->
  0 <= n -> count x + n <= PIPESIZE -> 0 <= addr -> addr + n < 2 ^ 64 ->
  exists x', pipe_ok x' /\ queue x' = queue x ++ (read_user L (k_mem s) addr (Z.to_nat n)).2 /\
    runs (pipewrite pi addr n) s n
      (set_k_procs (wake (ChPipeR pi) <$> k_procs s) (with_pipe pi x' s)).
Proof.
  intros Hc Hx Hok Hn Hroom Ha Hmax. destruct (pipe_locked s i p T L pi Hc) as [Hacq Hrel].
  pose proof Hc as [Hst Hcur Hp Hlen Hh Hpt Hu].
  destruct (pipewrite_loop (Z.to_nat n) (Z.to_nat (Z.max 0 n + 1)) (set_k_held {[Lpipe pi]} s)
    i p T L pi x addr n 0) as (x' & Hr & Hok' & Hq); try done; try lia.
  apply runs_loopz in Hr. exists x'. split; [done|]. split; [by rewrite Z.add_0_r in Hq|].
  unfold pipewrite. intros e. rewrite (runs_myproc_deref s i Hst Hcur). revert e.
  apply (runs_bind _ _ _ _ _ _ _ Hacq). eapply runs_bind; [exact Hr|]. cbn [negb].
  pose proof (Hrel (ChPipeR pi) (with_pipe pi x' (set_k_held {[Lpipe pi]} s)) eq_refl Hlen _ n) as H.
  destruct s. simpl in *. subst. exact H.
Qed.

(** C34: piperead from a pipe that is not empty, or has no writers left, returns
    the number of bytes it took: the first n of the queue, or all of them when
    there are fewer; they are in the caller's memory at addr, the rest stays in
    the queue, the writers are woken and nothing else changes. *)
Theorem piperead_spec s i p T L pi x addr n :
  caller s i p T L -> k_pipes s !! pi = Some x -> pipe_ok x ->
  0 < count x \/ pi_writeopen x = 0 ->
  0 <= n -> 0 <= addr -> addr + n < 2 ^ 64 ->
  let bs := take (Z.to_nat n) (queue x) in
  let w := write_user L (k_mem s) addr bs in
  w.1 = 0 ->
  exists x', pipe_ok x' /\ queue x = bs ++ queue x' /\
    runs (piperead pi addr n) s (Z.of_nat (length bs))
      (set_k_procs (wake (ChPipeW pi) <$> k_procs s) (with_pipe pi x' (set_k_mem w.2 s))).
Proof.
  intros Hc Hx Hok Hne Hn Ha Hmax bs w Hw. destruct (pipe_locked s i p T L pi Hc) as [Hacq Hrel].
  pose proof Hc as [Hst Hcur Hp Hlen Hh Hpt Hu].
  destruct (piperead_loop (Z.to_nat n) (Z.to_nat (Z.max 0 n + 1)) (set_k_held {[Lpipe pi]} s)
    i p T L pi x addr n 0) as (x' & Hr & Hok' & Hq); try done; try lia.
  { by rewrite Z.add_0_r. }
  rewrite Z.add_0_r, Z.add_0_l in Hr.
  apply runs_loopz in Hr. exists x'. split; [done|]. split; [rewrite Hq; symmetry; apply take_drop|].
  unfold piperead. intros e. rewrite (runs_myproc_deref s i Hst Hcur). revert e.
  apply (runs_bind _ _ _ _ _ _ _ Hacq). eapply (runs_bind _ _ _ true).
  - apply runs_wait_stop. eapply runs_bind; [by apply runs_get_pipe|].
    destruct (Z.eqb_spec (pi_nread x) (pi_nwrite x)) as [E|_]; [|apply runs_ret].
    apply empty_spec in E; [|done]. destruct Hne as [? | ->]; [lia|]. apply runs_ret.
  - cbn [negb]. eapply runs_bind; [exact Hr|].
    pose proof (Hrel (ChPipeW pi) (with_pipe pi x' (set_k_mem w.2 (set_k_held {[Lpipe pi]} s)))
      eq_refl Hlen _ (Z.of_nat (length bs))) as H.
    destruct s. simpl in *. subst. exact H.
Qed.

End Pipespec.
