(* ===== verification/Consolespec.v ===== *)
(** * The line editor of the consoles

    The ring of a struct input, with its three indices that wrap around at 2^32,
    refines a pair of lists: the characters committed for consoleread and the line
    that is being edited.  consoleintr is the line editor on them, consoleread
    takes a line from the first. *)

From S2P Require Import Prelude Monad Ring Riscv Kstring Kstate Spinlock Printf Kalloc Vm Pagetable.
From S2P Require Import Uvm Ucopy Sched Schedspec Bio Log Fs Console File Pipespec.

(** ** The two lists *)

Definition committed (x : input) : list Z :=
  ring INPUT_BUF (in_buf x) (in_r x) (Z.to_nat (used (in_r x) (in_w x))).

Definition line (x : input) : list Z :=
  ring INPUT_BUF (in_buf x) (in_w x) (Z.to_nat (used (in_w x) (in_e x))).

Definition ends_line (c : Z) : bool := (c =? 10) || (c =? C_D).

Record cons_ok (x : input) : Prop := {
  co_buf : length (in_buf x) = Z.to_nat INPUT_BUF;
  co_r : 0 <= in_r x < 2 ^ 32;
  co_w : 0 <= in_w x < 2 ^ 32;
  co_e : 0 <= in_e x < 2 ^ 32;
  co_fits : used (in_r x) (in_w x) + used (in_w x) (in_e x) <= INPUT_BUF;
  co_line : Forall (fun c => ends_line c = false) (line x);
}.

(** ** The editor, on the lists

    What one character does: the committed characters and the line after it, the
    echo, and whether the readers are woken. *)

Record edited := mk_edited {
  ed_committed : list Z;
  ed_line : list Z;
  ed_echo : list Z;
  ed_wake : bool;
}.

Definition rubout : list Z := [8; 32; 8].

Definition edit (com l : list Z) (c : Z) : edited :=
  if c =? C_U then mk_edited com [] (mjoin (replicate (length l) rubout)) false
  else if (c =? C_H) || (c =? 0x7f) then
    match l with
    | [] => mk_edited com [] [] false
    | _ => mk_edited com (removelast l) rubout false
    end
  else if (c =? 0) || (INPUT_BUF <=? Z.of_nat (length com + length l)) then mk_edited com l [] false
  else
    let c := if c =? 13 then 10 else c in
    if ends_line c || (Z.of_nat (length com + length l) =? INPUT_BUF - 1)
    then mk_edited (com ++ l ++ [c]) [] [c] true
    else mk_edited com (l ++ [c]) [c] false.

(** The line that consoleread takes of the committed characters when [n] are
    wanted: what it copies and what it leaves; [None] when it has to wait for
    more.  A control-D at the front is taken but not copied, one further on stays
    for the next call. *)

Fixpoint take_line (n : nat) (first : bool) (com : list Z) : option (list Z * list Z) :=
  match n with
  | O => Some ([], com)
  | S n' =>
      match com with
      | [] => None
      | c :: com' =>
          if c =? C_D then Some ([], if first then com' else com)
          else if c =? 10 then Some ([c], com')
          else r ← take_line n' false com'; Some (c :: r.1, r.2)
      end
  end.

(** ** Lemmas: the indices *)

Lemma length_committed x : length (committed x) = Z.to_nat (used (in_r x) (in_w x)).
Proof. apply length_ring. Qed.

Lemma length_line x : length (line x) = Z.to_nat (used (in_w x) (in_e x)).
Proof. apply length_ring. Qed.

Lemma used_sum x : cons_ok x -> used (in_r x) (in_e x) = used (in_r x) (in_w x) + used (in_w x) (in_e x).
Proof. intros [_ Hr Hw He Hf _]. unfold used, u32, INPUT_BUF in *. dlia. Qed.

Lemma used_zero a b : 0 <= a < 2 ^ 32 -> 0 <= b < 2 ^ 32 -> b = a <-> used a b = 0.
Proof. intros Ha Hb. unfold used, u32. split; intros H; dlia. Qed.

Lemma used_pred a b : 0 < used a b -> used a (u32 (b - 1)) = used a b - 1.
Proof. unfold used, u32. intros H. dlia. Qed.

Lemma used_succ a b : used a b < 2 ^ 32 - 1 -> used a (u32 (b + 1)) = used a b + 1.
Proof. unfold used, u32. intros H. dlia. Qed.

Lemma used_same a : used a a = 0.
Proof. unfold used. by rewrite Z.sub_diag. Qed.

Lemma used_end a b : 0 <= b < 2 ^ 32 -> u32 (a + used a b) = b.
Proof. unfold used, u32. intros H. dlia. Qed.

(** Both lists lie one after the other in the ring. *)

Lemma whole_ring x :
  cons_ok x ->
  ring INPUT_BUF (in_buf x) (in_r x) (Z.to_nat (used (in_r x) (in_e x))) = committed x ++ line x.
Proof.
  intros Hok. pose proof (used_range (in_r x) (in_w x)). pose proof (used_range (in_w x) (in_e x)).
  rewrite used_sum, Z2Nat.inj_add by (done || lia).
  rewrite (ring_app INPUT_BUF 7 eq_refl ltac:(lia)), Z2Nat.id by lia.
  by rewrite used_end by apply (co_w _ Hok).
Qed.

(** ** Lemmas: the moves of the editor *)

Definition rub (x : input) : input := set_in_e (u32 (in_e x - 1)) x.

Definition put_char (c : Z) (x : input) : input :=
  set_in_e (u32 (in_e x + 1)) (set_in_buf (<[Z.to_nat (in_e x mod INPUT_BUF) := c]> (in_buf x)) x).

Definition commit_line (x : input) : input := set_in_w (in_e x) x.

Lemma rub_spec x :
  cons_ok x -> line x <> [] ->
  cons_ok (rub x) /\ committed (rub x) = committed x /\ line (rub x) = removelast (line x).
Proof.
  intros Hok Hne. pose proof Hok as [Hb Hr Hw He Hf Hl].
  assert (0 < used (in_w x) (in_e x)) as Hu.
  { destruct (Z.eq_dec (used (in_w x) (in_e x)) 0) as [E|]; [|pose proof (used_range (in_w x) (in_e x)); lia].
    destruct Hne. apply nil_length_inv. by rewrite length_line, E. }
  pose proof (used_pred _ _ Hu) as Hp.
  assert (line (rub x) = removelast (line x)) as El.
  { unfold line. simpl. rewrite Hp.
    replace (Z.to_nat (used (in_w x) (in_e x))) with (S (Z.to_nat (used (in_w x) (in_e x) - 1))) by lia.
    by rewrite (ring_S INPUT_BUF), removelast_last. }
  split; [|done]. split; try done; [apply u32_range|simpl; rewrite Hp; lia|].
  rewrite El. rewrite removelast_firstn_len. by apply Forall_take.
Qed.

Lemma put_char_spec c x :
  cons_ok x -> Z.of_nat (length (committed x) + length (line x)) < INPUT_BUF ->
  used (in_r x) (in_w x) + used (in_w x) (in_e (put_char c x)) <= INPUT_BUF /\
  length (in_buf (put_char c x)) = Z.to_nat INPUT_BUF /\ 0 <= in_e (put_char c x) < 2 ^ 32 /\
  committed (put_char c x) = committed x /\ line (put_char c x) = line x ++ [c].
Proof.
  intros Hok. rewrite length_committed, length_line. intros Hroom. pose proof Hok as [Hb Hr Hw He Hf Hl].
  pose proof (used_range (in_r x) (in_w x)). pose proof (used_range (in_w x) (in_e x)).
  pose proof (used_sum _ Hok) as Hs. unfold INPUT_BUF in Hroom.
  pose proof (used_succ (in_w x) (in_e x) ltac:(lia)) as Hsucc.
  pose proof (used_succ (in_r x) (in_e x) ltac:(lia)) as Hsucc'.
  pose proof (ring_put INPUT_BUF 7 eq_refl ltac:(lia) (in_buf x) (in_r x) (in_e x) c Hb
    ltac:(unfold INPUT_BUF; lia) He) as Hput.
  rewrite whole_ring in Hput by done. split; [simpl; rewrite Hsucc; unfold INPUT_BUF; lia|].
  split; [simpl; by rewrite length_insert|]. split; [apply u32_range|].
  replace (S (Z.to_nat (used (in_r x) (in_e x)))) with
    (Z.to_nat (used (in_r x) (in_w x)) + Z.to_nat (used (in_w x) (in_e x) + 1))%nat in Hput by lia.
  rewrite (ring_app INPUT_BUF 7 eq_refl ltac:(lia)), Z2Nat.id, used_end, <- app_assoc in Hput by lia.
  apply app_inj_1 in Hput as [E1 E2]; [|by rewrite length_ring, length_committed].
  split; [exact E1|]. unfold line at 1. simpl. rewrite Hsucc. exact E2.
Qed.

Lemma commit_spec x :
  length (in_buf x) = Z.to_nat INPUT_BUF -> 0 <= in_r x < 2 ^ 32 -> 0 <= in_w x < 2 ^ 32 ->
  0 <= in_e x < 2 ^ 32 -> used (in_r x) (in_w x) + used (in_w x) (in_e x) <= INPUT_BUF ->
  cons_ok (commit_line x) /\ committed (commit_line x) = committed x ++ line x /\
  line (commit_line x) = [].
Proof.
  intros Hb Hr Hw He Hf.
  assert (line (commit_line x) = []) as El by (unfold line; simpl; by rewrite used_same).
  pose proof (used_range (in_r x) (in_w x)). pose proof (used_range (in_w x) (in_e x)).
  assert (used (in_r x) (in_e x) = used (in_r x) (in_w x) + used (in_w x) (in_e x)) as Hs.
  { unfold used, u32, INPUT_BUF in *. dlia. }
  split; [|split; [|done]].
  - split; try done; [simpl; rewrite used_same; lia|rewrite El; constructor].
  - unfold committed at 1. simpl. rewrite Hs, Z2Nat.inj_add by lia.
    by rewrite (ring_app INPUT_BUF 7 eq_refl ltac:(lia)), Z2Nat.id, used_end by lia.
Qed.

(** ** Lemmas: the operations *)

Definition with_cons (i : nat) (x : input) (s : kst) : kst :=
  set_k_consoles (<[i := x]> (k_consoles s)) s.

Lemma runs_get_cons i x s : k_consoles s !! i = Some x -> runs (get_cons i) s x s.
Proof. intros H. eapply runs_bind; [apply runs_gets|by apply runs_valid]. Qed.

Lemma runs_mod_cons i f x s :
  k_consoles s !! i = Some x -> runs (mod_cons i f) s tt (with_cons i (f x) s).
Proof. intros H. eapply runs_bind; [by apply runs_get_cons|]. apply runs_modify. Qed.

Lemma runs_cons_of n x s :
  1 <= n -> k_consoles s !! Z.to_nat (n - 1) = Some x -> runs (cons_of n) s (Z.to_nat (n - 1)) s.
Proof.
  intros Hn Hx. unfold cons_of. destruct (Z.ltb_spec n 1); [lia|].
  eapply runs_bind; [by apply runs_get_cons|apply runs_ret].
Qed.

Lemma with_cons_id i x s : k_consoles s !! i = Some x -> with_cons i x s = s.
Proof. intros H. unfold with_cons. rewrite list_insert_id by done. by destruct s. Qed.

Lemma with_cons_twice i x y s : with_cons i y (with_cons i x s) = with_cons i y s.
Proof. unfold with_cons. simpl. by rewrite list_insert_insert_eq. Qed.

Lemma lookup_with_cons i x y s :
  k_consoles s !! i = Some y -> k_consoles (with_cons i x s) !! i = Some x.
Proof. intros H. simpl. apply list_lookup_insert_eq. by eapply lookup_lt_Some. Qed.

Lemma runs_backspace s : runs (consputc BACKSPACE) s tt (emit rubout s).
Proof.
  intros e. unfold consputc, uartputc, emit, bind, modify. simpl. by rewrite <- !app_assoc.
Qed.

(** One step back of the cursor. *)

Lemma line_last x :
  cons_ok x -> line x <> [] ->
  in_e x <> in_w x /\
  exists c, in_buf x !! Z.to_nat (u32 (in_e x - 1) mod INPUT_BUF) = Some c /\ (c =? 10) = false.
Proof.
  intros Hok Hne. pose proof Hok as [Hb Hr Hw He Hf Hl].
  assert (in_e x <> in_w x) as Hew.
  { intros E. destruct Hne. apply nil_length_inv. by rewrite length_line, E, used_same. }
  split; [done|]. pose proof (used_range (in_w x) (in_e x)) as Hu.
  assert (0 < used (in_w x) (in_e x)) as Hpos.
  { pose proof (proj2 (used_zero (in_w x) (in_e x) Hw He)). lia. }
  destruct (lookup_lt_is_Some_2 (in_buf x) (Z.to_nat (u32 (in_e x - 1) mod INPUT_BUF))) as [c Hc].
  { rewrite Hb. pose proof (Z.mod_pos_bound (u32 (in_e x - 1)) INPUT_BUF). unfold INPUT_BUF in *. lia. }
  exists c. split; [done|]. unfold line in Hl.
  replace (Z.to_nat (used (in_w x) (in_e x))) with (S (Z.to_nat (used (in_w x) (in_e x) - 1))) in Hl by lia.
  rewrite (ring_S INPUT_BUF) in Hl. apply Forall_app in Hl as [_ Hl]. apply Forall_cons_1 in Hl as [Hl _].
  rewrite Z2Nat.id in Hl by lia.
  assert ((in_w x + (used (in_w x) (in_e x) - 1)) mod INPUT_BUF = u32 (in_e x - 1) mod INPUT_BUF) as E.
  { rewrite <- (u32_mod_size INPUT_BUF 7 eq_refl ltac:(lia)). f_equal.
    unfold used, u32. dlia. }
  rewrite E, Hc in Hl. simpl in Hl. unfold ends_line in Hl. by apply orb_false_iff in Hl as [? _].
Qed.

Lemma line_nil x : cons_ok x -> line x = [] -> in_e x = in_w x.
Proof.
  intros [_ _ Hw He _ _] H. apply (f_equal length) in H. rewrite length_line in H.
  apply used_zero; [done..|]. pose proof (used_range (in_w x) (in_e x)). simpl in H. lia.
Qed.

Lemma runs_kill_line i x s n :
  k_consoles s !! i = Some x -> cons_ok x -> (length (line x) < n)%nat ->
  exists x', cons_ok x' /\ committed x' = committed x /\ line x' = [] /\
    runs (loop n (fun _ : unit =>
      x <- get_cons i ;;
      if in_e x =? in_w x then ret (inr tt) else
      c <- valid (in_buf x !! Z.to_nat (u32 (in_e x - 1) mod INPUT_BUF)) ;;
      if c =? 10 then ret (inr tt) else
      mod_cons i (set_in_e (u32 (in_e x - 1))) ;;
      consputc BACKSPACE ;;
      ret (inl tt)) tt) s tt
      (emit (mjoin (replicate (length (line x)) rubout)) (with_cons i x' s)).
Proof.
  revert x s. induction n as [|n IH]; intros x s Hx Hok Hn; [lia|].
  destruct (decide (line x = [])) as [E|Hne].
  - exists x. rewrite E, with_cons_id, emit_nil by done. repeat split; try apply Hok.
    apply runs_loop_stop. eapply runs_bind; [by apply runs_get_cons|].
    rewrite line_nil, Z.eqb_refl by done. apply runs_ret.
  - destruct (rub_spec x Hok Hne) as (Hok1 & Hc1 & Hl1).
    destruct (line_last x Hok Hne) as (Hew & c & Hc & Hnl).
    assert (length (line x) = S (length (line (rub x)))) as Hlen.
    { rewrite Hl1. destruct (line x) as [|a l] using rev_ind; [done|].
      rewrite removelast_last, length_app. simpl. lia. }
    destruct (IH (rub x) (emit rubout (with_cons i (rub x) s))) as (x' & Hok' & Hc' & Hl' & Hr).
    { by apply (lookup_with_cons i (rub x) x). } { done. } { lia. }
    exists x'. split; [done|]. split; [congruence|]. split; [done|]. rewrite Hlen.
    eapply runs_loop_next; [|].
    + eapply runs_bind; [by apply runs_get_cons|]. destruct (Z.eqb_spec (in_e x) (in_w x)); [done|].
      eapply runs_bind; [by apply runs_valid|]. rewrite Hnl.
      eapply runs_bind; [by apply runs_mod_cons|]. eapply runs_bind; [apply runs_backspace|]. apply runs_ret.
    + change (set_in_e (u32 (in_e x - 1)) x) with (rub x).
      replace (emit _ (with_cons i x' s)) with (emit (mjoin (replicate (length (line (rub x))) rubout))
        (with_cons i x' (emit rubout (with_cons i (rub x) s)))); [exact Hr|].
      change (with_cons i x' (emit rubout (with_cons i (rub x) s)))
        with (emit rubout (with_cons i x' (with_cons i (rub x) s))).
      by rewrite with_cons_twice, emit_app.
Qed.

Definition woken (b : bool) (ch : chan) (s : kst) : kst :=
  if b then set_k_procs (wake ch <$> k_procs s) s else s.

(** [edits i x c m]: from every state with the console, [m] does to it what the
    editor does for [c]. *)

Definition edits (i : nat) (x : input) (c : Z) (m : K unit) : Prop :=
  forall s, k_consoles s !! i = Some x -> length (k_procs s) = NPROC -> (forall j, Lproc j ∉ k_held s) ->
  let d := edit (committed x) (line x) c in
  exists x', cons_ok x' /\ committed x' = ed_committed d /\ line x' = ed_line d /\
    runs m s tt (woken (ed_wake d) (ChCons i) (emit (ed_echo d) (with_cons i x' s))).

Lemma edits_kill i x : cons_ok x -> edits i x C_U (kill_line i).
Proof.
  intros Hok s Hx _ _ d. unfold kill_line.
  destruct (runs_kill_line i x s (S (Z.to_nat INPUT_BUF)) Hx Hok) as (x' & Hok' & Hc & Hl & Hr).
  { rewrite length_line. pose proof (co_fits _ Hok). pose proof (used_range (in_r x) (in_w x)). lia. }
  exists x'. split; [done|]. split; [exact Hc|]. split; [exact Hl|]. exact Hr.
Qed.

Lemma edits_rub i x c :
  cons_ok x -> (c =? C_U) = false -> (c =? C_H) || (c =? 0x7f) = true ->
  edits i x c (x <- get_cons i ;;
    if* negb (in_e x =? in_w x) then
      mod_cons i (set_in_e (u32 (in_e x - 1))) ;; consputc BACKSPACE).
Proof.
  intros Hok HU HH s Hx _ _. unfold edit. rewrite HU, HH. destruct (line x) as [|a l] eqn:El.
  - exists x. simpl. rewrite emit_nil, with_cons_id by done. repeat split; try apply Hok; [done|].
    eapply runs_bind; [by apply runs_get_cons|]. rewrite (line_nil x Hok El), Z.eqb_refl. apply runs_ret.
  - assert (line x <> []) as Hne by (by rewrite El).
    destruct (rub_spec x Hok Hne) as (Hok1 & Hc1 & Hl1). rewrite El in Hl1.
    destruct (line_last x Hok Hne) as [Hew _]. exists (rub x). split; [done|]. split; [done|]. split; [done|].
    eapply runs_bind; [by apply runs_get_cons|]. destruct (Z.eqb_spec (in_e x) (in_w x)); [done|].
    eapply runs_bind; [by apply runs_mod_cons|]. apply runs_backspace.
Qed.

(** The test for a full ring. *)

Lemma ring_full x c :
  cons_ok x -> Z.of_nat (length (committed x) + length (line x)) < INPUT_BUF ->
  (in_e (put_char c x) =? u32 (in_r x + INPUT_BUF)) =
  (Z.of_nat (length (committed x) + length (line x)) =? INPUT_BUF - 1).
Proof.
  intros Hok. rewrite length_committed, length_line. intros Hroom. pose proof (used_sum x Hok) as Hs.
  pose proof (used_range (in_r x) (in_w x)). pose proof (used_range (in_w x) (in_e x)).
  pose proof (co_e _ Hok). pose proof (co_r _ Hok). simpl. unfold INPUT_BUF in *.
  apply eq_bool_prop_intro. rewrite !Is_true_true, !Z.eqb_eq.
  replace (Z.of_nat _) with (used (in_r x) (in_e x)) by lia. unfold used, u32 in *. split; intros; dlia.
Qed.

Lemma edits_input i x c :
  cons_ok x -> 0 <= c < 256 -> (c =? C_U) = false -> (c =? C_H) || (c =? 0x7f) = false ->
  edits i x c (console_input i c).
Proof.
  intros Hok Hc HU HH s Hx Hlen Hnp. unfold edit. rewrite HU, HH. set (c' := if c =? 13 then 10 else c).
  assert (is_byte c') as Hb by (unfold is_byte, c'; destruct (c =? 13); lia).
  assert (u8 c' = c') as Hu8 by (apply Z.mod_small; unfold is_byte in Hb; lia).
  assert (u32 (in_e x - in_r x) = Z.of_nat (length (committed x) + length (line x))) as Hn.
  { rewrite length_committed, length_line. pose proof (used_sum x Hok) as Hs. unfold used at 1 in Hs.
    pose proof (used_range (in_r x) (in_w x)). pose proof (used_range (in_w x) (in_e x)). lia. }
  assert (forall d, (if negb (c =? 0) && (u32 (in_e x - in_r x) <? INPUT_BUF) then d else ret tt) =
    (if (c =? 0) || (INPUT_BUF <=? Z.of_nat (length (committed x) + length (line x))) then ret tt else d
     : K unit)) as Hif.
  { intros d. rewrite Hn, Z.leb_antisym. destruct (c =? 0), (_ <? INPUT_BUF); done. }
  destruct ((c =? 0) || _) eqn:Hg.
  { exists x. simpl. rewrite emit_nil, with_cons_id by done. repeat split; try apply Hok.
    eapply runs_bind; [by apply runs_get_cons|]. rewrite Hif. apply runs_ret. }
  apply orb_false_iff in Hg as [_ Hroom]. apply Z.leb_gt in Hroom.
  destruct (put_char_spec c' x Hok Hroom) as (Hf & Hlb & He & Hcm & Hln).
  pose proof (ring_full x c' Hok Hroom) as Hfull.
  assert (forall s', runs (x <- get_cons i ;;
      if* (c' =? 10) || (c' =? C_D) || (in_e x =? u32 (in_r x + INPUT_BUF)) then
      mod_cons i (set_in_w (in_e x)) ;; wakeup (ChCons i))
      (emit [c'] (with_cons i (put_char c' x) s)) tt s' -> runs (console_input i c) s tt s') as Hpre.
  { intros s' H. eapply runs_bind; [by apply runs_get_cons|]. rewrite Hif.
    eapply runs_bind; [by apply runs_consputc|]. eapply runs_bind; [by apply runs_mod_cons|].
    cbv beta. fold c'. rewrite Hu8. exact H. }
  assert (k_consoles (emit [c'] (with_cons i (put_char c' x) s)) !! i = Some (put_char c' x)) as Hx'
    by (by apply (lookup_with_cons i _ x)).
  unfold ends_line. rewrite <- Hfull. destruct ((c' =? 10) || (c' =? C_D) || _) eqn:Hend.
  - destruct (commit_spec (put_char c' x)) as (Hok' & Hcm' & Hln'); try done; try apply Hok.
    exists (commit_line (put_char c' x)). split; [done|]. split; [by rewrite Hcm', Hcm, Hln|]. split; [done|].
    apply Hpre. eapply runs_bind; [by apply runs_get_cons|].
    change (in_r (put_char c' x)) with (in_r x). rewrite Hend.
    eapply runs_bind; [by apply runs_mod_cons|]. cbn [ed_wake ed_echo woken].
    change (set_in_w (in_e (put_char c' x)) (put_char c' x)) with (commit_line (put_char c' x)).
    change (with_cons i (commit_line (put_char c' x)) (emit [c'] (with_cons i (put_char c' x) s)))
      with (emit [c'] (with_cons i (commit_line (put_char c' x)) (with_cons i (put_char c' x) s))).
    rewrite with_cons_twice. by apply runs_wakeup.
  - exists (put_char c' x). split; [|split; [done|split; [done|]]].
    + split; try done; try apply Hok. rewrite Hln. apply Forall_app. split; [apply Hok|].
      constructor; [|constructor]. apply orb_false_iff in Hend as [Hend _]. exact Hend.
    + apply Hpre. eapply runs_bind; [by apply runs_get_cons|].
      change (in_r (put_char c' x)) with (in_r x). rewrite Hend. apply runs_ret.
Qed.

(** ** Lemmas: consoleread *)

Definition pop (x : input) : input := set_in_r (u32 (in_r x + 1)) x.

Lemma pop_spec x :
  cons_ok x -> committed x <> [] ->
  in_r x <> in_w x /\
  exists c, in_buf x !! Z.to_nat (in_r x mod INPUT_BUF) = Some c /\ committed x = c :: committed (pop x) /\
    cons_ok (pop x) /\ line (pop x) = line x.
Proof.
  intros Hok Hne. pose proof Hok as [Hb Hr Hw He Hf Hl]. pose proof (used_range (in_r x) (in_w x)) as Hu.
  assert (used (in_r x) (in_w x) <> 0) as Hnz.
  { intros E. apply Hne, nil_length_inv. by rewrite length_committed, E. }
  assert (used (u32 (in_r x + 1)) (in_w x) = used (in_r x) (in_w x) - 1) as Hp.
  { unfold used, u32 in *. dlia. }
  split; [intros E; by rewrite E, used_same in Hnz|].
  destruct (ring_get INPUT_BUF 7 eq_refl ltac:(lia) (in_buf x) (in_r x)
    (Z.to_nat (used (in_r x) (in_w x) - 1)) Hb) as (c & Hc & Hq).
  exists c. split; [done|]. split; [|split; [|done]].
  - unfold committed. simpl. rewrite Hp, <- Hq. f_equal. lia.
  - split; try done; [apply u32_range|simpl; rewrite Hp; lia].
Qed.

(** Giving the control-D back. *)

Lemma unpop x : cons_ok x -> set_in_r (u32 (in_r (pop x) - 1)) (pop x) = x.
Proof.
  intros Hok. pose proof (co_r _ Hok). destruct x as [b r w e]. unfold pop, set_in_r. simpl in *. f_equal.
  unfold u32. dlia.
Qed.

Section Consolespec.
Context `{KI : KernelImage}.

Lemma runs_consoleread_wait i x s :
  k_consoles s !! i = Some x -> in_r x <> in_w x -> runs (consoleread_wait i) s false s.
Proof.
  intros Hx Hne. apply runs_wait_stop. eapply runs_bind; [by apply runs_get_cons|].
  destruct (Z.eqb_spec (in_r x) (in_w x)); [done|]. apply runs_ret.
Qed.

(** One byte to user memory. *)

Lemma runs_either1 s pr p T L addr off c :
  k_started s <> 0 -> k_cur s = Some pr -> k_procs s !! pr = Some p ->
  pt (k_mem s) (p_pagetable p) T L -> user_ok T L -> 0 <= addr + off < 2 ^ 64 ->
  runs (either_copyout (PUser addr) off [c]) s
    (match utrans L (addr + off) with Some _ => 0 | None => -1 end, PUser addr)
    (set_k_mem (match utrans L (addr + off) with Some pa => <[pa := c]> (k_mem s) | None => k_mem s end) s).
Proof.
  intros Hst Hcur Hp Hpt Hu Ha. unfold either_copyout. eapply runs_bind; [by apply runs_myproc|].
  rewrite Hcur. eapply runs_bind; [apply runs_ret|]. eapply runs_bind; [by apply (runs_get_proc pr p)|].
  eapply runs_bind; [by apply (runs_copyout1 s (p_pagetable p) T L)|]. apply runs_ret.
Qed.

(** A round that finds a character. *)

Lemma consoleread_round_pop s i x target n addr r s' :
  k_consoles s !! i = Some x -> cons_ok x -> 0 < n ->
  forall c, in_r x <> in_w x -> in_buf x !! Z.to_nat (in_r x mod INPUT_BUF) = Some c ->
  runs (if c =? C_D then
      (if* n <? target then mod_cons i (fun x => set_in_r (u32 (in_r x - 1)) x)) ;;
      ret (inr (Some (n, PUser addr)))
    else
      r <- either_copyout (PUser addr) (target - n) [c] ;;
      if r.1 =? -1 then ret (inr (Some (n, r.2))) else
      if c =? 10 then ret (inr (Some (n - 1, r.2))) else ret (inl (n - 1, r.2)))
      (with_cons i (pop x) s) r s' ->
  runs (consoleread_round i target (n, PUser addr)) s r s'.
Proof.
  intros Hx Hok Hn c Hne Hc H. unfold consoleread_round. destruct (Z.leb_spec n 0); [lia|].
  eapply runs_bind; [by apply (runs_consoleread_wait i x)|]. cbv iota.
  eapply runs_bind; [by apply runs_get_cons|]. eapply runs_bind; [by apply runs_valid|].
  eapply runs_bind; [by apply runs_mod_cons|]. exact H.
Qed.

(** At a control-D the loop ends; it is put back unless it is the first. *)

Lemma consoleread_eof s i x target n addr :
  k_consoles s !! i = Some x -> cons_ok x -> 0 < n <= target -> in_r x <> in_w x ->
  in_buf x !! Z.to_nat (in_r x mod INPUT_BUF) = Some C_D ->
  runs (consoleread_round i target (n, PUser addr)) s (inr (Some (n, PUser addr)))
    (with_cons i (if n =? target then pop x else x) s).
Proof.
  intros Hx Hok Hn Hne Hc. eapply consoleread_round_pop; [done..|lia|done|exact Hc|]. rewrite Z.eqb_refl.
  destruct (Z.eqb_spec n target), (Z.ltb_spec n target); try lia.
  - eapply runs_bind; [apply runs_ret|]. apply runs_ret.
  - eapply runs_bind; [apply runs_mod_cons, (lookup_with_cons i _ x), Hx|].
    cbv beta. rewrite unpop, with_cons_twice by done. apply runs_ret.
Qed.

(** Any other character goes to the reader. *)

Lemma consoleread_char s pr p T L i x addr target n c pa :
  k_started s <> 0 -> k_cur s = Some pr -> k_procs s !! pr = Some p ->
  pt (k_mem s) (p_pagetable p) T L -> user_ok T L ->
  k_consoles s !! i = Some x -> cons_ok x -> 0 < n -> 0 <= addr + (target - n) < 2 ^ 64 ->
  in_r x <> in_w x -> in_buf x !! Z.to_nat (in_r x mod INPUT_BUF) = Some c -> (c =? C_D) = false ->
  utrans L (addr + (target - n)) = Some pa ->
  runs (consoleread_round i target (n, PUser addr)) s
    (if c =? 10 then inr (Some (n - 1, PUser addr)) else inl (n - 1, PUser addr))
    (set_k_mem (<[pa := c]> (k_mem s)) (with_cons i (pop x) s)).
Proof.
  intros Hst Hcur Hp Hpt Hu Hx Hok Hn Ha Hne Hc HD Hpa.
  eapply consoleread_round_pop; [done..|exact Hc|]. rewrite HD.
  pose proof (runs_either1 (with_cons i (pop x) s) pr p T L addr (target - n) c Hst Hcur Hp Hpt Hu Ha) as Hcp.
  rewrite Hpa in Hcp. eapply runs_bind; [exact Hcp|]. cbn [fst snd]. change (0 =? -1) with false. cbv iota.
  destruct (c =? 10); apply runs_ret.
Qed.

Lemma pt_write1 T L m root va c pa :
  user_ok T L -> pt m root T L -> utrans L va = Some pa -> pt (<[pa := c]> m) root T L.
Proof.
  intros Hu Hpt E. pose proof (pt_write_user T L m root va [c] Hu Hpt) as H1.
  rewrite (write_user_cons _ _ _ _ _ pa E) in H1. exact H1.
Qed.

Lemma consoleread_loop j fuel s pr p T L i x addr target n t rest :
  k_started s <> 0 -> k_cur s = Some pr -> k_procs s !! pr = Some p ->
  pt (k_mem s) (p_pagetable p) T L -> user_ok T L ->
  k_consoles s !! i = Some x -> cons_ok x ->
  0 <= addr -> n = Z.of_nat j -> n <= target -> addr + target < 2 ^ 64 -> (j < fuel)%nat ->
  take_line j (n =? target) (committed x) = Some (t, rest) ->
  let w := write_user L (k_mem s) (addr + (target - n)) t in
  w.1 = 0 ->
  exists x', runs (loop fuel (consoleread_round i target) (n, PUser addr)) s
      (Some (n - Z.of_nat (length t), PUser addr)) (with_cons i x' (set_k_mem w.2 s)) /\
    cons_ok x' /\ committed x' = rest /\ line x' = line x.
Proof.
  revert fuel s x n t. induction j as [|j IH];
    intros [|fuel] s x n t Hst Hcur Hp Hpt Hu Hx Hok Ha Hn Hnt Hmax Hf Ht w Hw; try lia; subst w.
  - injection Ht as <- <-. exists x. cbn [length write_user snd Z.of_nat].
    rewrite set_k_mem_id, with_cons_id, Z.sub_0_r by done.
    split; [|done]. apply runs_loop_stop. unfold consoleread_round.
    destruct (Z.leb_spec n 0); [apply runs_ret|lia].
  - destruct (decide (committed x = [])) as [E|Hne]; [by rewrite E in Ht|].
    destruct (pop_spec x Hok Hne) as (Hrw & c & Hc & Hcm & Hok1 & Hl1). rewrite Hcm in Ht. cbn [take_line] in Ht.
    destruct (Z.eqb_spec c C_D) as [HD|HD].
    + rewrite HD in *. injection Ht as <- Hrest. cbn [length write_user snd Z.of_nat]. rewrite set_k_mem_id, Z.sub_0_r.
      exists (if n =? target then pop x else x).
      split; [apply runs_loop_stop, consoleread_eof; done || lia|].
      destruct (n =? target); [done|]. split; [done|]. split; [congruence|done].
    + apply Z.eqb_neq in HD. pose proof (fun pa => consoleread_char s pr p T L i x addr target n c pa
        Hst Hcur Hp Hpt Hu Hx Hok ltac:(lia) ltac:(lia) Hrw Hc HD) as Hround.
      assert (exists t', t = c :: t') as [t' ->].
      { destruct (c =? 10); [by injection Ht as <- _; eauto|].
        apply bind_Some in Ht as (r & _ & [= <- _]). eauto. }
      destruct (utrans L (addr + (target - n))) as [pa|] eqn:E; [|by simpl in Hw; rewrite E in Hw].
      specialize (Hround pa eq_refl). rewrite (write_user_cons _ _ _ _ _ pa E) in Hw |- *.
      destruct (c =? 10).
      { injection Ht as <- <-. exists (pop x). split; [apply runs_loop_stop, Hround|done]. }
      apply bind_Some in Ht as ([t1 rest1] & Ht' & [= <- <-]). cbn [fst snd] in *.
      replace (addr + (target - n) + 1) with (addr + (target - (n - 1))) in Hw |- * by lia.
      destruct (IH fuel (set_k_mem (<[pa := c]> (k_mem s)) (with_cons i (pop x) s)) (pop x) (n - 1) t1)
        as (x' & Hr & Hok2 & Hq2 & Hl2); try done; try lia.
      { by apply (pt_write1 T L (k_mem s) _ (addr + (target - n))). }
      { by apply (lookup_with_cons i _ x). }
      { by destruct (Z.eqb_spec (n - 1) target); [lia|]. }
      exists x'. split; [|split; [done|split; [done|congruence]]].
      eapply runs_loop_next; [exact Hround|].
      replace (n - Z.of_nat (length (c :: t1))) with (n - 1 - Z.of_nat (length t1)) by (simpl length; lia).
      unfold with_cons in Hr |- *. cbn in Hr |- *. rewrite list_insert_insert_eq in Hr. exact Hr.
Qed.

(** ** The properties *)

(** C35: consoleintr is a line editor.  For a character other than control-P and
    control-T it does to the active console what [edit] does to the committed
    characters and the line: control-U empties the line, backspace takes its last
    character, another character is echoed and appended while there is room, and a
    newline, a control-D or a full buffer commits the line and wakes the readers;
    all other state is unchanged. *)
Theorem consoleintr_edits s x c :
  let i := Z.to_nat (k_active s - 1) in
  1 <= k_active s -> k_consoles s !! i = Some x -> cons_ok x ->
  length (k_procs s) = NPROC -> Lcons i ∉ k_held s -> (forall j, Lproc j ∉ k_held s) ->
  0 <= c < 256 -> c <> C_P -> c <> C_T ->
  let d := edit (committed x) (line x) c in
  exists x', cons_ok x' /\ committed x' = ed_committed d /\ line x' = ed_line d /\
    runs (consoleintr c) s tt (woken (ed_wake d) (ChCons i) (emit (ed_echo d) (with_cons i x' s))).
Proof.
  intros i Ha Hx Hok Hlen Hl Hnp Hc HP HT d. apply Z.eqb_neq in HP, HT.
  set (s1 := set_k_held ({[Lcons i]} ∪ k_held s) s).
  set (body := if c =? C_P then procdump
   else if c =? C_U then kill_line i
   else if (c =? C_H) || (c =? 0x7f) then
     x <- get_cons i ;;
     if* negb (in_e x =? in_w x) then
       mod_cons i (set_in_e (u32 (in_e x - 1))) ;;
       consputc BACKSPACE
   else if c =? C_T then ret tt
   else console_input i c).
  assert (edits i x c body) as Hbody.
  { unfold body. rewrite HP, HT. destruct (Z.eqb_spec c C_U) as [->|HU]; [by apply edits_kill|].
    apply Z.eqb_neq in HU. destruct ((c =? C_H) || (c =? 0x7f)) eqn:HH;
      [by apply edits_rub|by apply edits_input]. }
  destruct (Hbody s1 Hx Hlen) as (x' & Hok' & Hcm & Hln & Hr).
  { intros j. cbn. intros [?%elem_of_singleton | ?]%elem_of_union; [done|]. by eapply Hnp. }
  exists x'. split; [done|]. split; [done|]. split; [done|].
  eapply runs_bind; [apply runs_gets|]. eapply runs_bind; [by apply (runs_cons_of _ x)|]. fold i.
  eapply runs_bind; [by apply runs_acquire|]. eapply runs_bind; [exact Hr|]. fold d. rewrite HT.
  eapply runs_bind; [|apply runs_ret]. eapply runs_release_to.
  - destruct (ed_wake d); apply held_in.
  - destruct (ed_wake d); cbn; rewrite held_release by done; by destruct s.
Qed.

(** Consoleread takes a line.  When the committed characters of the console
    hold a whole line, or as many characters as the caller wants, it returns
    without waiting the number of bytes [take_line] gives, those bytes are in the
    caller's memory, the rest stays committed, and nothing else changes. *)
Theorem consoleread_line s pr p T L major x addr n t rest :
  let i := Z.to_nat (major - 1) in
  caller s pr p T L -> 1 <= major -> k_consoles s !! i = Some x -> cons_ok x ->
  0 <= n -> 0 <= addr -> addr + n < 2 ^ 64 ->
  take_line (Z.to_nat n) true (committed x) = Some (t, rest) ->
  let w := write_user L (k_mem s) addr t in
  w.1 = 0 ->
  exists x', cons_ok x' /\ committed x' = rest /\ line x' = line x /\
    runs (consoleread major (PUser addr) n) s (Z.of_nat (length t), PUser addr)
      (with_cons i x' (set_k_mem w.2 s)).
Proof.
  intros i [Hst Hcur Hp Hlen Hh Hpt Hu] Hm Hx Hok Hn Ha Hmax Ht w Hw.
  set (s1 := set_k_held ({[Lcons i]} ∪ k_held s) s).
  destruct (consoleread_loop (Z.to_nat n) (Z.to_nat (Z.max 0 n + 1)) s1 pr p T L i x addr n n t rest)
    as (x' & Hr & Hok' & Hcm & Hln); try done; try lia.
  { by rewrite Z.eqb_refl. } { by rewrite Z.sub_diag, Z.add_0_r. }
  rewrite Z.sub_diag, Z.add_0_r in Hr. apply runs_loopz in Hr.
  exists x'. split; [done|]. split; [done|]. split; [done|].
  eapply runs_bind; [by apply (runs_cons_of _ x)|]. fold i.
  eapply runs_bind; [apply runs_acquire; rewrite Hh; apply not_elem_of_empty|]. eapply runs_bind; [exact Hr|].
  eapply runs_bind; [apply runs_release; apply held_in|].
  replace (n - (n - Z.of_nat (length t))) with (Z.of_nat (length t)) by lia.
  intros e. cbn. rewrite held_release by (rewrite Hh; apply not_elem_of_empty). by destruct s.
Qed.

(** C36: control-T at the last console makes a console active that does not exist:
    the number becomes NCONS + 1, and from then on every character received, a
    further control-T included, and every write to a console access
    consoles[NCONS], one past the end of the array. *)
Theorem console_switch_overflow s c major src n :
  k_active s = Z.of_nat NCONS -> length (k_consoles s) = NCONS -> k_held s = ∅ ->
  exists t, runs (consoleintr C_T) s tt t /\ k_active t = Z.of_nat NCONS + 1 /\
    (forall e, consoleintr c e t = Fault) /\ (forall e, consolewrite major src n e t = Fault).
Proof.
  intros Ha Hlen Hh.
  destruct (lookup_lt_is_Some_2 (k_consoles s) 4) as [x Hx]; [rewrite Hlen; unfold NCONS; lia|].
  set (t := set_k_active 6 s).
  destruct (format (cstr active_msg) [VWord 6]) as [b|] eqn:Hb; [|vm_compute in Hb; discriminate].
  assert (forall e, cons_of 6 e (emit b t) = Fault) as Hf.
  { intros e. unfold cons_of, get_cons, bind, gets, valid. simpl.
    by rewrite (lookup_ge_None_2 (k_consoles s)) by (rewrite Hlen; unfold NCONS; lia). }
  exists (emit b t). split; [|split; [done|]].
  - unfold consoleintr. eapply runs_bind; [apply runs_gets|]. rewrite Ha.
    eapply runs_bind; [by apply (runs_cons_of _ x)|].
    eapply runs_bind; [apply runs_acquire; rewrite Hh; apply not_elem_of_empty|].
    eapply runs_bind; [apply runs_ret|]. eapply runs_bind; [apply runs_release, held_in|].
    eapply runs_bind; [apply runs_modify|]. eapply runs_bind; [apply runs_gets|].
    cbn. rewrite Ha, held_release by (rewrite Hh; apply not_elem_of_empty). rewrite Hh.
    change (Z.of_nat NCONS mod (Z.of_nat NCONS + 1) + 1) with 6.
    replace (set_k_active 6 (set_k_held ∅ (set_k_held _ s))) with t by (by destruct s; simpl in *; subst).
    apply runs_printf; [repeat constructor|exact Hb|]. cbn. rewrite Hh. intros _. apply not_elem_of_empty.
  - split; intros e; unfold consoleintr, consolewrite, bind at 1 2, gets; cbn [k_active]; by rewrite Hf.
Qed.

End Consolespec.
