(* ===== verification/Procspec.v ===== *)
(** * The end of a process

    freewalk gives the pages of a page table back, freeproc all the memory of a process,
    and wait does so for a child that has exited, whose status it hands to the parent. *)

From S2P Require Import Prelude Monad Riscv Kstring Kstate Spinlock Printf Kalloc Vm Pagetable Uvm Ucopy Sched Schedspec Proc.

Section Free.
Context `{KI : KernelImage}.

(** ** The pages of a table

    Those of the subtree at path [p], [h] levels deep, in the order freewalk frees them. *)

Fixpoint pages_from (T : gmap (list Z) Z) (h : nat) (p : list Z) : list Z :=
  match T !! p with
  | None => []
  | Some a => (match h with O => [] | S h' => seqZ 0 512 ≫= fun i => pages_from T h' (p ++ [i]) end) ++ [a]
  end.

Lemma elem_of_pages_from root T h : forall p a, ptree root T ->
  a ∈ pages_from T h p <-> exists q, (length q <= h)%nat /\ T !! (p ++ q) = Some a.
Proof.
  induction h as [|h IH]; intros p a HT; cbn [pages_from]; destruct (T !! p) as [b|] eqn:Eb.
  - cbn [app]. rewrite list_elem_of_singleton. split; [intros ->; exists []; by rewrite app_nil_r|].
    intros (q & Hq & Ha). destruct q; [|cbn in Hq; lia]. rewrite app_nil_r in Ha. congruence.
  - split; [by intros ?%elem_of_nil|]. intros (q & _ & Ha). by rewrite (ptree_none_app root) in Ha.
  - rewrite elem_of_app, list_elem_of_singleton, list_elem_of_bind. split.
    + intros [(i & Hi & _)| ->]; [|exists []; split; [cbn; lia|by rewrite app_nil_r]].
      apply IH in Hi as (q & Hq & Ha); [|done]. exists (i :: q). split; [cbn; lia|]. by rewrite <- app_assoc in Ha.
    + intros (q & Hq & Ha). destruct q as [|i q]; [right; rewrite app_nil_r in Ha; congruence|]. left.
      assert (Ha' : T !! ((p ++ [i]) ++ q) = Some a) by (by rewrite <- app_assoc). exists i. split.
      * apply IH; [done|]. exists q. split; [cbn in Hq; lia|done].
      * destruct (T !! (p ++ [i])) as [c|] eqn:Ec; [|by rewrite (ptree_none_app root) in Ha'].
        apply (pt_closed _ _ HT) in Ec as [Hi _]. apply elem_of_seqZ. lia.
  - split; [by intros ?%elem_of_nil|]. intros (q & _ & Ha). by rewrite (ptree_none_app root) in Ha.
Qed.

Lemma NoDup_pages_from root T h : forall p, ptree root T -> NoDup (pages_from T h p).
Proof.
  induction h as [|h IH]; intros p HT; cbn [pages_from]; destruct (T !! p) as [b|] eqn:Eb; try apply NoDup_nil_2; [apply NoDup_singleton|].
  apply NoDup_app. split_and!.
  - apply NoDup_bind; [|by intros; apply IH|apply NoDup_seqZ].
    intros i j a _ _ (q & _ & Hi)%(elem_of_pages_from root) (q' & _ & Hj)%(elem_of_pages_from root); try done.
    pose proof (pt_inj _ _ HT _ _ _ Hi Hj) as E. rewrite <- !app_assoc in E. by apply app_inv_head in E as [= -> _].
  - intros a (i & Ha & _)%list_elem_of_bind ->%list_elem_of_singleton. apply (elem_of_pages_from root) in Ha as (q & _ & Ha); [|done].
    pose proof (pt_inj _ _ HT _ _ _ Ha Eb) as E. rewrite <- app_assoc in E. apply (f_equal length) in E. rewrite length_app in E. cbn in E. lia.
  - apply NoDup_singleton.
Qed.

Lemma ptree_depth root T p a : ptree root T -> T !! p = Some a -> (length p <= 2)%nat.
Proof.
  intros HT Ha. destruct p as [|i p _] using rev_ind; [cbn; lia|]. destruct (pt_closed _ _ HT _ _ _ Ha) as (_ & Hl & _).
  rewrite length_app. cbn. lia.
Qed.

Lemma pages_from_tables root T : ptree root T -> list_to_set (pages_from T 2 []) = tables T.
Proof.
  intros HT. apply set_eq. intros a. rewrite elem_of_list_to_set, (elem_of_pages_from root), tables_spec by done. cbn [app].
  split; [intros (q & _ & Ha); eauto|]. intros (q & Ha). exists q. split; [by eapply ptree_depth|done].
Qed.

(** ** freewalk

    [m0] is the memory with the tables before any of them is freed; all leaves have been
    unmapped. *)

Section Walk.
Context (m0 : mem) (root : Z) (T : gmap (list Z) Z).
Hypothesis Hpt : pt m0 root T ∅.

(** The entries of the pages [ps] are as they were. *)

Definition intact (ps : list Z) (m : mem) : Prop := forall a i, a ∈ ps -> 0 <= i < 512 -> load64 m (pte_at a i) = load64 m0 (pte_at a i).

Lemma intact_same ps P m m' :
  intact ps m -> same_except P m m' -> (forall a, a ∈ ps -> a mod PGSIZE = 0 /\ a ∉ P) -> intact ps m'.
Proof. intros H Hm Hd a i Ha Hi. destruct (Hd a Ha). rewrite <- H by done. by apply (load_same P). Qed.

Lemma pages_aligned h p a : a ∈ pages_from T h p -> page_ok a.
Proof.
  intros (q & _ & Ha)%(elem_of_pages_from root); [|apply Hpt]. by eapply pt_page; [apply Hpt|].
Qed.

(** What freewalk does to a page table that starts with page [a]. *)

Definition frees (ps : list Z) (m : K unit) (s : kst) (l : list Z) : Prop :=
  exists s', runs m s tt s' /\ kstep s s' /\ alloc_ok s' (reverse ps ++ l) /\ same_except (list_to_set ps) (k_mem s) (k_mem s').

Definition freewalk_entry (H : nat) (a i : Z) : K unit :=
  pte <- mload64 (pte_at a i) ;;
  if negb (Z.land pte PTE_V =? 0) && (Z.land pte (Z.lor (Z.lor PTE_R PTE_W) PTE_X) =? 0) then
    match H with O => spin | S h => freewalk h (PTE2PA pte) end ;;
    mstore64 (pte_at a i) 0
  else if* negb (Z.land pte PTE_V =? 0) then panic "freewalk: leaf".

Lemma freewalk_eq H a : freewalk H a = (for_each (seqZ 0 512) (freewalk_entry H a) ;; kfree a).
Proof. by destruct H. Qed.

(** An entry that is not in use. *)

Lemma runs_entry_zero H a i s : load64 (k_mem s) (pte_at a i) = 0 -> runs (freewalk_entry H a i) s tt s.
Proof. intros E. eapply runs_bind; [apply runs_mload64|]. rewrite E. apply runs_ret. Qed.

(** An entry with a table below it, that is freed first. *)

Lemma frees_entry_table H a i b ps s l :
  load64 (k_mem s) (pte_at a i) = node_pte b -> page_ok a -> page_ok b -> 0 <= i < 512 -> a ∉ reverse ps ++ l ->
  frees ps (freewalk H b) s l ->
  exists s', runs (freewalk_entry (S H) a i) s tt s' /\ kstep s s' /\ alloc_ok s' (reverse ps ++ l) /\
    same_except (list_to_set ps ∪ {[a]}) (k_mem s) (k_mem s') /\
    (forall j, 0 <= j < 512 -> i <> j -> a ∉ ps -> load64 (k_mem s') (pte_at a j) = load64 (k_mem s) (pte_at a j)).
Proof.
  intros E Ha Hb Hi Hn (s1 & H1 & S1 & A1 & M1). pose proof (proj2 (page_phys a Ha)) as Hal.
  set (m2 := store64 (k_mem s1) (pte_at a i) 0). pose proof (same_store (k_mem s1) a i 0 Hal Hi) as M2. fold m2 in M2.
  exists (set_k_mem m2 s1). split_and!.
  - eapply runs_bind; [apply runs_mload64|]. rewrite E, node_pte_V, node_pte_rwx, node_pte_pa by done. cbn [Z.eqb negb andb PTE_V].
    eapply runs_bind; [exact H1|]. apply runs_mstore64.
  - etransitivity; [exact S1|apply kstep_mem].
  - apply (alloc_ok_mem _ _ _ {[a]}); [done|done|set_solver].
  - eapply same_except_trans; [exact M1|exact M2|set_solver..].
  - intros j Hj Hne Ha'. change (k_mem (set_k_mem m2 s1)) with m2. unfold m2. rewrite pte_at_store, bool_decide_false by (done || naive_solver).
    apply (load_same (list_to_set ps)); [done|done|done|set_solver].
Qed.

(** The pages [p1] and [p2], the table [a] above them and the free pages [l] are apart. *)

Lemma NoDup_parts (p1 p2 l : list Z) a :
  NoDup ((p1 ++ p2) ++ a :: l) -> NoDup (p1 ++ l) /\ NoDup (p2 ++ a :: reverse p1 ++ l) /\ a ∉ p1 /\ a ∉ p2 /\ a ∉ reverse p1 ++ l /\
    (forall c, c ∈ p2 -> c ∉ p1).
Proof.
  rewrite <- app_assoc. intros (N1 & D1 & (N2 & D2 & (Nl & N3)%NoDup_cons)%NoDup_app)%NoDup_app.
  assert (NoDup (p1 ++ l)) as Hp1 by (apply NoDup_app; split_and!; [done| |done]; intros c Hc Hc'; apply (D1 c Hc); set_solver).
  assert (a ∉ p1) by (intros Hd; apply (D1 a Hd); set_solver). assert (a ∉ p2) by (intros Hd; apply (D2 a Hd); left).
  assert (a ∉ reverse p1 ++ l) by (rewrite elem_of_app, elem_of_reverse; tauto). split_and!; try done.
  - apply NoDup_app. split_and!; [done| |apply NoDup_cons; split; [done|by rewrite reverse_Permutation]].
    intros c Hc. rewrite elem_of_cons, elem_of_app, elem_of_reverse. intros [->|[Hd|Hd]]; [done|apply (D1 c Hd); set_solver|].
    apply (D2 c Hc). by right.
  - intros c Hc Hc'. apply (D1 c Hc'). set_solver.
Qed.

(** The entries [js] of the table at [p], when the tables below it are freed as they
    should. *)

Lemma frees_entries H h p a : forall js s l,
  (forall i b s l, T !! (p ++ [i]) = Some b -> alloc_ok s l -> NoDup (pages_from T h (p ++ [i]) ++ l) ->
    intact (pages_from T h (p ++ [i])) (k_mem s) -> frees (pages_from T h (p ++ [i])) (freewalk H b) s l) ->
  T !! p = Some a -> (length p < 2)%nat -> alloc_ok s l -> NoDup js -> Forall (fun i => 0 <= i < 512) js ->
  let ps := js ≫= fun i => pages_from T h (p ++ [i]) in
  NoDup (ps ++ a :: l) -> intact ps (k_mem s) ->
  (forall i, i ∈ js -> load64 (k_mem s) (pte_at a i) = load64 m0 (pte_at a i)) ->
  exists s', runs (for_each js (freewalk_entry (S H) a)) s tt s' /\ kstep s s' /\ alloc_ok s' (reverse ps ++ l) /\
    same_except (list_to_set ps ∪ {[a]}) (k_mem s) (k_mem s').
Proof.
  intros js s l Hsub Ha Hlen. revert s l. induction js as [|i js IH]; intros s l Hok Hndi Hr ps Hnd Hint Hld.
  { exists s. split; [apply runs_ret|]. split; [done|]. split; [done|]. done. }
  apply NoDup_cons in Hndi as [Hi Hndi]. apply Forall_cons in Hr as [Hr0 Hr].
  set (p1 := pages_from T h (p ++ [i])). set (p2 := js ≫= fun i => pages_from T h (p ++ [i])). change ps with (p1 ++ p2) in *.
  apply NoDup_parts in Hnd as (N1 & N2 & Na1 & Na2 & Nal & D12). clear ps.
  assert (Hpa : page_ok a) by (eapply pt_page; [apply Hpt|done]).
  assert (Hal : forall c, c ∈ p2 -> c mod PGSIZE = 0).
  { intros c (j & Hc & _)%list_elem_of_bind. by apply page_phys, (pages_aligned h (p ++ [j])). }
  assert (Hstep : exists s1, runs (freewalk_entry (S H) a i) s tt s1 /\ kstep s s1 /\ alloc_ok s1 (reverse p1 ++ l) /\
    same_except (list_to_set p1 ∪ {[a]}) (k_mem s) (k_mem s1) /\
    (forall j, 0 <= j < 512 -> i <> j -> load64 (k_mem s1) (pte_at a j) = load64 (k_mem s) (pte_at a j))).
  { pose proof (Hld i ltac:(left)) as E. rewrite (pt_node _ _ _ _ Hpt p a i Ha Hlen Hr0) in E. destruct (T !! (p ++ [i])) as [b|] eqn:Eb.
    - assert (Hb : page_ok b) by (eapply pt_page; [apply Hpt|exact Eb]).
      destruct (frees_entry_table H a i b p1 s l E Hpa Hb Hr0) as (s1 & R1 & S1 & A1 & M1 & L1).
      + done.
      + apply Hsub; try done. intros c j Hc. apply Hint. apply elem_of_app. by left.
      + exists s1. split_and!; try done. intros j Hj Hne. by apply L1.
    - assert (Ep : p1 = []) by (unfold p1; destruct h; cbn [pages_from]; by rewrite Eb). rewrite Ep. exists s.
      split; [by apply runs_entry_zero|]. split_and!; done. }
  destruct Hstep as (s1 & R1 & S1 & A1 & M1 & L1).
  destruct (IH s1 (reverse p1 ++ l)) as (s2 & R2 & S2 & A2 & M2); try done.
  - apply (intact_same _ (list_to_set p1 ∪ {[a]}) (k_mem s)); [intros c j Hc; apply Hint; apply elem_of_app; by right|done|].
    intros c Hc. split; [by apply Hal|]. rewrite elem_of_union, elem_of_list_to_set, elem_of_singleton.
    intros [H'| ->]; [by apply (D12 c)|done].
  - intros j Hj. rewrite L1; [apply Hld; by right| |congruence]. by apply (Forall_forall (fun i => 0 <= i < 512) js).
  - exists s2. split; [by eapply runs_for_each_cons|]. split; [by transitivity s1|]. fold p2 in A2, M2. split.
    + by rewrite reverse_app, <- app_assoc.
    + eapply same_except_trans; [exact M1|exact M2|clear; set_solver..].
Qed.

Lemma frees_leaf_table H p a s l :
  T !! p = Some a -> length p = 2%nat -> alloc_ok s l -> a ∉ l -> intact [a] (k_mem s) -> frees [a] (freewalk H a) s l.
Proof.
  intros Ha Hlen Hok Hn Hint. destruct p as [|i2 [|i1 [|]]]; try done. assert (Hpa : page_ok a) by (eapply pt_page; [apply Hpt|done]).
  destruct (kfree_step s l a Hok Hpa Hn) as (s1 & R1 & S1 & A1 & M1).
  assert (Hz : forall js, Forall (fun i => 0 <= i < 512) js -> runs (for_each js (freewalk_entry H a)) s tt s).
  { induction 1 as [|i js Hi _ IH]; [apply runs_ret|]. eapply runs_for_each_cons; [|exact IH]. apply runs_entry_zero.
    rewrite Hint by (done || left). rewrite (pt_leaf _ _ _ _ Hpt i2 i1 i a Ha Hi). by rewrite lookup_empty. }
  exists s1. split_and!; [|done|done|by rewrite list_to_set_singleton_L].
  rewrite freewalk_eq. eapply runs_bind; [apply Hz|exact R1]. apply Forall_forall. intros i Hi%elem_of_seqZ. lia.
Qed.

Lemma frees_freewalk h : forall H p a s l,
  (h <= H)%nat -> (length p + h = 2)%nat -> T !! p = Some a -> alloc_ok s l -> NoDup (pages_from T h p ++ l) ->
  intact (pages_from T h p) (k_mem s) -> frees (pages_from T h p) (freewalk H a) s l.
Proof.
  induction h as [|h IH]; intros H p a s l HH Hlen Ha Hok Hnd Hint; cbn [pages_from] in *; rewrite Ha in *.
  { cbn [app] in *. apply (frees_leaf_table H p); try done; [lia|]. by apply NoDup_cons in Hnd as [? _]. }
  destruct H as [|H]; [lia|]. set (ps := seqZ 0 512 ≫= fun i => pages_from T h (p ++ [i])) in *.
  rewrite <- app_assoc in Hnd. assert (Hpa : page_ok a) by (eapply pt_page; [apply Hpt|done]).
  destruct (frees_entries H h p a (seqZ 0 512) s l) as (s1 & R1 & S1 & A1 & M1); try done.
  - intros i b s' l' Hb Hok' Hnd' Hint'. apply IH; try done; [lia|rewrite length_app; cbn; lia].
  - lia.
  - apply NoDup_seqZ.
  - apply Forall_forall. intros i Hi%elem_of_seqZ. lia.
  - intros c i Hc. apply Hint. apply elem_of_app. by left.
  - intros i Hi%elem_of_seqZ. apply Hint; [apply elem_of_app; right; left|lia].
  - fold ps in R1, A1, M1. apply NoDup_app in Hnd as (_ & D & (N & _)%NoDup_cons).
    assert (Hn : a ∉ reverse ps ++ l) by (rewrite elem_of_app, elem_of_reverse; intros [Hd|Hd]; [apply (D a Hd); left|done]).
    destruct (kfree_step s1 (reverse ps ++ l) a A1 Hpa Hn) as (s2 & R2 & S2 & A2 & M2).
    exists s2. split_and!; [rewrite freewalk_eq; eapply runs_bind; [exact R1|exact R2]|by transitivity s1| |].
    + by rewrite reverse_app.
    + clearbody ps. eapply same_except_trans; [exact M1|exact M2|clear; set_solver..].
Qed.

End Walk.

#[local] Opaque pages_from.

(** freewalk of a table whose leaves are all unmapped: it returns, and every page of the
    table is free. *)

Lemma vm_freewalk s root T l :
  vm s root T ∅ l -> exists s', runs (freewalk 3 root) s tt s' /\ kstep s s' /\ alloc_ok s' (reverse (pages_from T 2 []) ++ l) /\
    same_except (tables T) (k_mem s) (k_mem s').
Proof.
  intros [Hok Hpt Hd]. rewrite <- (pages_from_tables root T (pt_tree _ _ _ _ Hpt)) in *.
  apply (frees_freewalk (k_mem s) root T Hpt 2 3 [] root s l); [lia|done|apply Hpt|done| |done].
  apply NoDup_app. split; [eapply NoDup_pages_from, Hpt|]. split; [|by destruct Hok as (_ & [_ [? _]] & _)].
  intros a Ha Hl. apply (Hd a); by apply elem_of_list_to_set.
Qed.

(** ** The memory of a process

    The page table [T], [L] of a process of size [sz]: its pages from address 0 on, the
    trampoline and the trapframe, and nothing else; the pages and the tables are allocated
    and each is used once. *)

Record addr_space (s : kst) (l : list Z) (root sz : Z) (T : gmap (list Z) Z) (L : gmap Z Z) : Prop := {
  im_vm : vm s root T L l;
  im_size : 0 <= sz <= TRAPFRAME;
  im_user : mapped L 0 (size_pages sz);
  im_high : is_Some (L !! TRAMPOLINE) /\ is_Some (L !! TRAPFRAME);
  im_only : forall va, is_Some (L !! va) -> va < TRAPFRAME -> va < Z.of_nat (size_pages sz) * PGSIZE;
  im_free : freeable (frames L 0 (size_pages sz)) l T;
}.

Lemma unmap_one L a : unmap_pages L a 1 = delete a L.
Proof. done. Qed.

Lemma high_page a :
  a = TRAMPOLINE \/ a = TRAPFRAME -> 0 <= a /\ a + PGSIZE <= MAXVA /\ a mod PGSIZE = 0 /\ PGROUNDDOWN a = a /\ page_count a PGSIZE = 1%nat.
Proof. by intros [->| ->]. Qed.

(** The trampoline or the trapframe is unmapped; no page is freed. *)

Lemma vm_unmap_high s root T L l a :
  vm s root T L l -> a = TRAMPOLINE \/ a = TRAPFRAME -> is_Some (L !! a) ->
  exists s', runs (uvmunmap root a PGSIZE false) s tt s' /\ vm s' root T (delete a L) l /\ kstep s s' /\
    same_except (tables T) (k_mem s) (k_mem s').
Proof.
  intros Hvm Ha HL. destruct (high_page a Ha) as (H1 & H2 & H3 & H4 & H5).
  destruct (vm_unmap s root T L l a PGSIZE false) as (s' & Hr & Hv & Hs & Hm); try done.
  - rewrite H4, H5. intros i Hi. replace i with 0 by lia. by rewrite Z.add_0_r.
  - rewrite H4, H5 in Hv. exists s'. split_and!; try done. eapply same_except_mono; [|exact Hm]. set_solver.
Qed.

Lemma size_pages_high sz : 0 <= sz <= TRAPFRAME -> Z.of_nat (size_pages sz) * PGSIZE <= TRAPFRAME.
Proof. intros H. assert (HT : TRAPFRAME = 2 ^ 38 - 2 * 4096) by reflexivity. unfold size_pages, PGSIZE in *. dlia. Qed.

Lemma size_pages_count sz : 0 < sz <= TRAPFRAME -> page_count 0 sz = size_pages sz.
Proof.
  intros H. assert (HM : MAXVA = 2 ^ 38) by reflexivity. assert (HT : TRAPFRAME = 2 ^ 38 - 2 * 4096) by reflexivity.
  destruct (page_count_spec 0 sz) as (n & -> & _ & _ & _ & _ & _ & Hb); [lia|lia|lia|].
  change (PGROUNDDOWN 0) with 0 in Hb. unfold size_pages, PGSIZE in *. dlia.
Qed.

(** The pages of a process that are free once it is gone. *)

Definition pages_of (T : gmap (list Z) Z) (L : gmap Z Z) (tf sz : Z) : list Z :=
  tf :: frames L 0 (size_pages sz) ++ pages_from T 2 [].

Lemma vm_freepagetable s l root sz T L :
  addr_space s l root sz T L -> 0 < sz ->
  exists s' l', runs (proc_freepagetable root sz) s tt s' /\ kstep s s' /\ alloc_ok s' l' /\
    l' ≡ₚ frames L 0 (size_pages sz) ++ pages_from T 2 [] ++ l /\
    same_except (list_to_set (frames L 0 (size_pages sz)) ∪ tables T) (k_mem s) (k_mem s').
Proof.
  intros [Hvm Hsz Hus [Hh1 Hh2] Hon Hfr] Hpos. assert (HM : MAXVA = 2 ^ 38) by reflexivity. assert (HT : TRAPFRAME = 2 ^ 38 - 2 * 4096) by reflexivity.
  assert (HTr : TRAMPOLINE = 2 ^ 38 - 4096) by reflexivity.
  destruct (vm_unmap_high s root T L l TRAMPOLINE Hvm) as (s1 & R1 & V1 & S1 & M1); [by left|done|].
  destruct (vm_unmap_high s1 root T _ l TRAPFRAME V1) as (s2 & R2 & V2 & S2 & M2); [by right|by rewrite lookup_delete_ne|].
  set (L2 := delete TRAPFRAME (delete TRAMPOLINE L)) in *. pose proof (size_pages_count sz ltac:(lia)) as Hn. set (n := size_pages sz) in *.
  assert (Hlow : forall va, va < TRAPFRAME -> L2 !! va = L !! va) by (intros va Hva; unfold L2; rewrite !lookup_delete_ne by lia; done).
  assert (Hnb : Z.of_nat n * PGSIZE <= TRAPFRAME) by (unfold n, size_pages, PGSIZE in *; dlia).
  assert (Hfs : frames L2 0 n = frames L 0 n) by (apply frames_ext; intros i Hi; apply Hlow; unfold PGSIZE in *; lia).
  destruct (vm_unmap s2 root T L2 l 0 sz true V2) as (s3 & R3 & V3 & S3 & M3); [lia|lia|lia| | |].
  - rewrite Hn. intros i Hi. change (PGROUNDDOWN 0) with 0. rewrite Hlow by (unfold PGSIZE in *; lia). by apply Hus.
  - intros _. rewrite Hn. change (PGROUNDDOWN 0) with 0. by rewrite Hfs.
  - rewrite Hn in *. change (PGROUNDDOWN 0) with 0 in *. rewrite Hfs in *.
    assert (HL3 : unmap_pages L2 0 n = ∅).
    { apply map_empty. intros va. rewrite unmap_pages_lookup by done. case_bool_decide as Hb; [done|].
      destruct (L2 !! va) as [w|] eqn:E; [|done]. exfalso. destruct (pt_dom _ _ _ _ (vm_pt _ _ _ _ _ V2) va w E) as (Hal & Hr & _).
      assert (va < TRAPFRAME).
      { unfold L2 in E. apply lookup_delete_Some in E as [E1 E]. apply lookup_delete_Some in E as [E2 _]. unfold PGSIZE in Hal. dlia. }
      apply Hb. split; [|done]. split; [lia|]. rewrite Z.add_0_l. apply Hon; [|done]. rewrite <- Hlow by done. by eexists. }
    rewrite HL3 in V3. destruct (vm_freewalk s3 root T _ V3) as (s4 & R4 & S4 & A4 & M4).
    eexists s4, _. split_and!; [| |exact A4| |].
    + unfold proc_freepagetable. eapply runs_bind; [exact R1|]. eapply runs_bind; [exact R2|]. destruct (Z.ltb_spec 0 sz); [|lia].
      unfold uvmfree. eapply runs_bind; [exact R3|exact R4].
    + transitivity s1; [done|]. transitivity s2; [done|]. by transitivity s3.
    + rewrite !reverse_Permutation. rewrite (Permutation_app_comm (pages_from T 2 [])), <- !app_assoc.
      apply Permutation_app_head. apply Permutation_app_comm.
    + assert (HT1 : tables T ⊆ list_to_set (frames L 0 n) ∪ tables T) by (clear; set_solver).
      transitivity (k_mem s1); [by apply (same_except_mono (tables T))|]. transitivity (k_mem s2); [by apply (same_except_mono (tables T))|].
      transitivity (k_mem s3); [exact M3|by apply (same_except_mono (tables T))].
Qed.

(** ** freeproc *)

(** The slot of a process that is gone; its container and its open files stay. *)

Definition freed_proc (q : proc) : proc :=
  set_p_state UNUSED (set_p_xstate 0 (set_p_killed 0 (set_p_chan None (set_p_name (<[0%nat := 0]> (p_name q))
    (set_p_parent None (set_p_pid 0 (set_p_sz 0 (set_p_pagetable 0 (set_p_tf 0 q))))))))).

Definition with_proc (i : nat) (q : proc) (s : kst) : kst := set_k_procs (<[i := q]> (k_procs s)) s.

Lemma runs_mod_proc_to i f q s : k_procs s !! i = Some q -> runs (mod_proc i f) s tt (with_proc i (f q) s).
Proof. intros H. by apply runs_mod_proc. Qed.

Lemma lookup_with_proc i q q' s : k_procs s !! i = Some q -> k_procs (with_proc i q' s) !! i = Some q'.
Proof. intros H. apply list_lookup_insert_eq. by eapply lookup_lt_Some. Qed.

Lemma with_proc_twice i q q' s : with_proc i q (with_proc i q' s) = with_proc i q s.
Proof. unfold with_proc. cbn. by rewrite list_insert_insert_eq. Qed.

Lemma alloc_ok_proc s l i q q' :
  alloc_ok s l -> k_procs s !! i = Some q -> p_container q' = p_container q -> alloc_ok (with_proc i q' s) l.
Proof.
  intros (Hc & Hf & H1 & H2) Hq Hqc. split; [|by split]. destruct Hc as [?|(ci & c & j & p & Hcur & Hp & Hpc & Hcc)]; [by left|right]. exists ci, c.
  destruct (decide (j = i)) as [->|Hne].
  - exists i, q'. split; [done|]. split; [by eapply lookup_with_proc|]. split; [congruence|done].
  - exists j, p. split; [done|]. split; [|done]. unfold with_proc. cbn. by rewrite list_lookup_insert_ne.
Qed.

(** The fields that are cleared once the memory has been given back. *)

Lemma runs_clear_proc i q s :
  k_procs s !! i = Some q ->
  runs (mod_proc i (set_p_pagetable 0) ;; mod_proc i (set_p_sz 0) ;; mod_proc i (set_p_pid 0) ;; mod_proc i (set_p_parent None) ;;
    mod_proc i (fun p => set_p_name (<[0%nat := 0]> (p_name p)) p) ;; mod_proc i (set_p_chan None) ;; mod_proc i (set_p_killed 0) ;;
    mod_proc i (set_p_xstate 0) ;; mod_proc i (set_p_state UNUSED)) s tt
    (with_proc i (set_p_state UNUSED (set_p_xstate 0 (set_p_killed 0 (set_p_chan None (set_p_name (<[0%nat := 0]> (p_name q))
      (set_p_parent None (set_p_pid 0 (set_p_sz 0 (set_p_pagetable 0 q))))))))) s).
Proof.
  intros Hq. pose proof (fun q' => lookup_with_proc i q q' s Hq) as Hl.
  assert (Hlast : forall f q', runs (mod_proc i f) (with_proc i q' s) tt (with_proc i (f q') s)).
  { intros f q'. rewrite <- (with_proc_twice i (f q') q' s). by apply runs_mod_proc_to. }
  assert (Hgo : forall f (m : K unit) q' s', runs m (with_proc i (f q') s) tt s' -> runs (mod_proc i f ;; m) (with_proc i q' s) tt s')
    by (intros f m q' s' Hm; eapply runs_bind; [apply Hlast|exact Hm]).
  assert (Es : s = with_proc i q s) by (unfold with_proc; rewrite list_insert_id by done; by destruct s).
  rewrite Es at 1. do 8 apply Hgo. exact (Hlast (set_p_state UNUSED) _).
Qed.

Lemma kstep_with_proc i q s s' : kstep s s' -> kstep (with_proc i q s) (with_proc i q s').
Proof.
  intros [(m & f & cs & o & h & -> & Hc) Hh]. split; [|done]. exists m, f, cs, o, h. split; [|done]. by destruct s.
Qed.

(** A page table that goes with a process of size 0: only the two high pages are unmapped. *)

Lemma vm_freepagetable_empty s l root T L :
  addr_space s l root 0 T L -> exists s', runs (proc_freepagetable root 0) s tt s' /\ kstep s s' /\ alloc_ok s' l /\ same_except (tables T) (k_mem s) (k_mem s').
Proof.
  intros [Hvm _ _ [Hh1 Hh2] _ _].
  destruct (vm_unmap_high s root T L l TRAMPOLINE Hvm) as (s1 & R1 & V1 & S1 & M1); [by left|done|].
  destruct (vm_unmap_high s1 root T _ l TRAPFRAME V1) as (s2 & R2 & V2 & S2 & M2); [by right|by rewrite lookup_delete_ne|].
  exists s2. split_and!; [|by transitivity s1|apply V2|by transitivity (k_mem s1)].
  unfold proc_freepagetable. eapply runs_bind; [exact R1|]. eapply runs_bind; [exact R2|]. apply runs_ret.
Qed.

(** The pages of a process that freeproc frees: with size 0 the page table is not freed. *)

Definition given_back (T : gmap (list Z) Z) (L : gmap Z Z) (tf sz : Z) : list Z :=
  if 0 <? sz then pages_of T L tf sz else [tf].

Lemma vm_freepagetable_any s l root tf sz T L :
  addr_space s l root sz T L ->
  exists s' l', runs (proc_freepagetable root sz) s tt s' /\ kstep s s' /\ alloc_ok s' l' /\ tf :: l' ≡ₚ given_back T L tf sz ++ l /\
    same_except (list_to_set (pages_of T L tf sz)) (k_mem s) (k_mem s').
Proof.
  intros Him. unfold given_back, pages_of. pose proof (pages_from_tables root T (pt_tree _ _ _ _ (vm_pt _ _ _ _ _ (im_vm _ _ _ _ _ _ Him)))) as HT.
  destruct (Z.ltb_spec 0 sz) as [Hs|Hs].
  - destruct (vm_freepagetable s l root sz T L Him Hs) as (s' & l' & R & S & A & P & M). exists s', l'. split_and!; try done.
    + cbn [app]. rewrite <- app_assoc. by f_equiv.
    + eapply same_except_mono; [|exact M]. rewrite <- HT. clear. set_solver.
  - assert (sz = 0) as -> by (destruct (im_size _ _ _ _ _ _ Him); lia). destruct (vm_freepagetable_empty s l root T L Him) as (s' & R & S & A & M).
    exists s', l. split_and!; try done. eapply same_except_mono; [|exact M]. rewrite <- HT. clear. set_solver.
Qed.

Lemma runs_freeproc s l i q T L :
  addr_space s l (p_pagetable q) (p_sz q) T L -> freeable (p_tf q :: frames L 0 (size_pages (p_sz q))) l T -> p_pagetable q <> 0 ->
  k_procs s !! i = Some q ->
  exists s' l', runs (freeproc i) s tt s' /\ kstep (with_proc i (freed_proc q) s) s' /\ alloc_ok s' l' /\
    l' ≡ₚ given_back T L (p_tf q) (p_sz q) ++ l /\ same_except (list_to_set (pages_of T L (p_tf q) (p_sz q))) (k_mem s) (k_mem s').
Proof.
  intros [Hvm Hsz Hus Hh Hon _] Hfr Hroot Hq. pose proof Hvm as [Hok Hpt Hd]. set (tf := p_tf q) in *. set (root := p_pagetable q) in *.
  destruct (freeable_cons _ _ _ _ Hfr) as ((Hptf & Htl & Htt) & Hfr').
  destruct (kfree_step s l tf Hok Hptf Htl) as (s1 & R1 & S1 & A1 & M1).
  assert (Hq1 : k_procs s1 !! i = Some q) by (by rewrite (kframe_procs _ _ (proj1 S1))).
  set (q2 := set_p_tf 0 q). set (s2 := with_proc i q2 s1). assert (Hq2 : k_procs s2 !! i = Some q2) by (by eapply lookup_with_proc).
  assert (A2 : alloc_ok s2 (tf :: l)) by (by eapply alloc_ok_proc).
  assert (V2 : vm s2 root T L (tf :: l)) by (split; [done|apply (pt_ext (k_mem s) _ _ _ _ {[tf]}); [done|done|set_solver]|set_solver]).
  destruct (vm_freepagetable_any s2 (tf :: l) root tf (p_sz q) T L) as (s3 & l' & R3 & S3 & A3 & P3 & M3); [by split|].
  assert (Hq3 : k_procs s3 !! i = Some q2) by (by rewrite (kframe_procs _ _ (proj1 S3))).
  eexists _, l'. split_and!.
  - unfold freeproc. eapply runs_bind; [by apply runs_get_proc|]. fold tf. destruct (Z.eqb_spec tf 0) as [E|_]; [pose proof (page_ok_pos tf Hptf); lia|].
    cbn [negb]. eapply runs_bind; [exact R1|]. eapply runs_bind; [by apply runs_mod_proc_to|]. eapply runs_bind; [apply runs_get_proc; exact Hq2|].
    cbn [p_pagetable p_sz q2 set_p_tf]. fold root. destruct (Z.eqb_spec root 0); [done|]. cbn [negb]. eapply runs_bind; [exact R3|].
    exact (runs_clear_proc i q2 s3 Hq3).
  - change (with_proc i _ s3) with (with_proc i (freed_proc q) s3). transitivity (with_proc i (freed_proc q) s1); [by apply kstep_with_proc|].
    rewrite <- (with_proc_twice i (freed_proc q) q2 s1). by apply kstep_with_proc.
  - by apply (alloc_ok_proc _ _ i q2).
  - apply (Permutation_cons_inv (a := tf)). rewrite P3. by rewrite Permutation_middle.
  - transitivity (k_mem s1); [|exact M3]. eapply same_except_mono; [|exact M1]. unfold pages_of. clear. set_solver.
Qed.

(** ** wait *)

(** The pages that a process can write. *)

Definition user_frames (L : gmap Z Z) : gset Z := map_img (PTE2PA <$> L).

Lemma upage_frames L va : upage L va <> 0 -> upage L va ∈ user_frames L.
Proof.
  unfold upage. destruct (L !! pg va) as [w|] eqn:E; [|done]. destruct (Z.land w PTE_U =? 0); [done|]. intros _.
  apply elem_of_map_img. exists (pg va). by rewrite lookup_fmap, E.
Qed.

Lemma same_write_user T L m va bs : user_ok T L -> same_except (user_frames L) m (write_user L m va bs).2.
Proof.
  intros Hu. revert m va. induction bs as [|b bs IH]; intros m va; [done|]. cbn [write_user]. rewrite (utrans_upage T) by done.
  destruct (Z.eqb_spec (upage L va) 0) as [|Hne]; [done|]. etransitivity; [|apply IH].
  pose proof (Z.mod_pos_bound va PGSIZE ltac:(done)). eapply same_except_mono.
  2:{ apply (same_write_bytes m (upage L va) (va mod PGSIZE) [b]); [apply upage_page|lia|simpl; lia]. }
  pose proof (upage_frames L va Hne). clear - H0. set_solver.
Qed.

Lemma alloc_ok_held s l h : alloc_ok s l -> Lkmem ∉ h -> Lpr ∉ h -> alloc_ok (set_k_held h s) l.
Proof. intros (Hc & Hf & _) H1 H2. split_and!; done. Qed.

Lemma image_mem s l root sz T L h m P :
  addr_space s l root sz T L -> Lkmem ∉ h -> Lpr ∉ h -> same_except P (k_mem s) m -> list_to_set l ∪ tables T ## P ->
  addr_space (set_k_mem m (set_k_held h s)) l root sz T L.
Proof.
  intros [[Hok Hpt Hd] H2 H3 H4 H5 H6] Hk Hp Hm HP. split; try done. split; [|apply (pt_ext (k_mem s) _ _ _ _ P); [done|done|set_solver]|done].
  apply (alloc_ok_mem _ _ _ P); [by apply alloc_ok_held|done|set_solver].
Qed.

Definition child_of (p : nat) (q : proc) : Prop := p_parent q = Some p.

Definition zombie_of (p : nat) (q : proc) : Prop := child_of p q /\ p_state q = ZOMBIE.

#[export] Instance child_of_dec p q : Decision (child_of p q).
Proof. unfold child_of. apply _. Defined.

#[export] Instance zombie_of_dec p q : Decision (zombie_of p q).
Proof. unfold zombie_of. apply _. Defined.

(** The scan goes past the slots that hold no child or one that is still alive. *)

Lemma runs_wait_skip p addr l2 r s s' : forall l1 hk,
  k_held s = {[Lproc p]} -> (forall q, k_procs s !! p = Some q -> ~ child_of p q) ->
  (forall j, j ∈ l1 -> exists q, k_procs s !! j = Some q /\ ~ zombie_of p q) ->
  runs (wait_scan p addr l2 (hk || existsb (fun j => from_option (fun q => bool_decide (child_of p q)) false (k_procs s !! j)) l1)) s r s' ->
  runs (wait_scan p addr (l1 ++ l2) hk) s r s'.
Proof.
  intros l1 hk Hh Hp. revert hk. induction l1 as [|j l1 IH]; intros hk Hl Hr; [by rewrite orb_false_r in Hr|].
  destruct (Hl j ltac:(left)) as (q & Hq & Hz). assert (Hl' : forall j, j ∈ l1 -> exists q, k_procs s !! j = Some q /\ ~ zombie_of p q)
    by (intros j' Hj'; apply Hl; by right).
  cbn [app wait_scan existsb] in *. rewrite Hq in Hr. cbn [from_option] in Hr. eapply runs_bind; [by apply runs_get_proc|].
  destruct (decide (child_of p q)) as [Hc|Hc].
  - rewrite (bool_decide_true (p_parent q = Some p)) by exact Hc. rewrite (bool_decide_true (child_of p q)) in Hr by done. cbn [negb].
    assert (Hj : Lproc j ∉ k_held s) by (rewrite Hh; intros [= ->]%elem_of_singleton; by apply (Hp q)).
    eapply runs_bind; [by apply runs_acquire|]. eapply runs_bind; [by apply runs_get_proc|].
    rewrite bool_decide_false by (intros E; by apply Hz). cbn [negb].
    assert (Hrel : runs (release (Lproc j)) (set_k_held ({[Lproc j]} ∪ k_held s) s) tt s)
      by (eapply runs_release_to; [apply held_in|]; cbn; rewrite held_release by done; by destruct s).
    eapply runs_bind; [exact Hrel|]. apply IH; [done|]. cbn [orb] in Hr |- *. by rewrite orb_true_r in Hr.
  - rewrite (bool_decide_false (p_parent q = Some p)) by exact Hc. rewrite (bool_decide_false (child_of p q)) in Hr by done. by apply IH.
Qed.

(** The process [p] calls wait. *)

Record waiter (s : kst) (p : nat) (pr : proc) : Prop := {
  wt_started : k_started s <> 0;
  wt_cur : k_cur s = Some p;
  wt_proc : k_procs s !! p = Some pr;
  wt_procs : length (k_procs s) = NPROC;
  wt_held : k_held s = ∅;
  wt_parent : ~ child_of p pr;
}.

Lemma runs_cur_proc s p pr : waiter s p pr -> runs cur_proc s p s.
Proof. intros [H1 H2 _ _ _ _]. eapply runs_bind; [by apply runs_myproc|]. rewrite H2. apply runs_ret. Qed.

(** wait returns when its first scan does. *)

Lemma runs_wait_first s p pr addr v s' :
  waiter s p pr -> runs (wait_scan p addr procs false) (set_k_held {[Lproc p]} s) (inl v) s' -> runs (wait addr) s v s'.
Proof.
  intros W Hr. unfold wait. eapply runs_bind; [by eapply runs_cur_proc|].
  eapply runs_bind; [apply runs_acquire; rewrite (wt_held _ _ _ W); apply not_elem_of_empty|]. rewrite (wt_held _ _ _ W), (right_id_L ∅ (∪)).
  apply runs_wait_stop. eapply runs_bind; [exact Hr|apply runs_ret].
Qed.

(** The slots before the first child that has exited. *)

Lemma runs_wait_find s p pr addr np q r s' :
  waiter s p pr -> list_find (zombie_of p) (k_procs s) = Some (np, q) ->
  (forall l2 hk, runs (wait_scan p addr (np :: l2) hk) (set_k_held {[Lproc p]} s) r s') ->
  runs (wait_scan p addr procs false) (set_k_held {[Lproc p]} s) r s'.
Proof.
  intros W (Hq & Hz & Hfirst)%list_find_Some Hr. pose proof (lookup_lt_Some _ _ _ Hq) as Hlt. rewrite (wt_procs _ _ _ W) in Hlt.
  assert (Ep : procs = seq 0 np ++ np :: seq (S np) (NPROC - S np)).
  { unfold procs. replace NPROC with (np + S (NPROC - S np))%nat at 1 by lia. by rewrite seq_app. }
  rewrite Ep. apply runs_wait_skip; [done| | |apply Hr].
  - intros q' Hq'. change (k_procs (set_k_held {[Lproc p]} s)) with (k_procs s) in Hq'. rewrite (wt_proc _ _ _ W) in Hq'. injection Hq' as <-. apply W.
  - intros j Hj%elem_of_seq. destruct (lookup_lt_is_Some_2 (k_procs s) j) as [q' Hq']; [rewrite (wt_procs _ _ _ W); lia|].
    exists q'. split; [done|]. apply (Hfirst j q' Hq'). lia.
Qed.

(** The status of the child, where the parent asked for it. *)

Definition status_copied (L : gmap Z Z) (m : mem) (addr xstate : Z) : Z * mem :=
  if addr =? 0 then (0, m) else write_user L m addr (le_bytes 4 xstate).

Lemma runs_copy_status s pr Tp Lp addr xstate :
  pt (k_mem s) (p_pagetable pr) Tp Lp -> user_ok Tp Lp -> 0 <= addr < 2 ^ 64 ->
  runs (if addr =? 0 then ret 0 else copyout (p_pagetable pr) addr (KVal (le_bytes 4 xstate)) 4) s
    (status_copied Lp (k_mem s) addr xstate).1 (set_k_mem (status_copied Lp (k_mem s) addr xstate).2 s).
Proof.
  intros Hpt Hu Ha. unfold status_copied. destruct (addr =? 0); [|exact (runs_copyout s _ Tp Lp addr (le_bytes 4 xstate) Hpt Hu Ha)].
  replace (set_k_mem (0, k_mem s).2 s) with s by (by destruct s). apply runs_ret.
Qed.

Lemma same_status T L m addr x : user_ok T L -> same_except (user_frames L) m (status_copied L m addr x).2.
Proof. intros Hu. unfold status_copied. destruct (addr =? 0); [done|]. by eapply same_write_user. Qed.

(** The locks of the child and of the parent are released. *)

Lemma runs_release_both {A} (v : A) p np s :
  p <> np -> k_held s = {[Lproc np]} ∪ {[Lproc p]} ->
  runs (release (Lproc np) ;; release (Lproc p) ;; ret v) s v (set_k_held ∅ s).
Proof.
  intros Hne Hh. eapply runs_bind; [apply runs_release; rewrite Hh; apply held_in|].
  assert (E : k_held s ∖ {[Lproc np]} = {[Lproc p]}) by (rewrite Hh; apply held_release; by intros [= ->]%elem_of_singleton). rewrite E.
  eapply runs_bind; [eapply runs_release_to; [cbn [k_held set_k_held]; by apply elem_of_singleton|reflexivity]|]. cbn [k_held set_k_held].
  replace ({[Lproc p]} ∖ {[Lproc p]} : gset lock) with (∅ : gset lock) by (clear; set_solver).
  replace (set_k_held ∅ (set_k_held {[Lproc p]} s)) with (set_k_held ∅ s) by (by destruct s). apply runs_ret.
Qed.

(** wait once it has found a child [np] that has exited. *)

Definition locked_both (p np : nat) (m : mem) (s : kst) : kst := set_k_mem m (set_k_held ({[Lproc np]} ∪ {[Lproc p]}) s).

Lemma runs_wait_zombie s p pr np q addr Tp Lp v s' :
  waiter s p pr -> list_find (zombie_of p) (k_procs s) = Some (np, q) ->
  pt (k_mem s) (p_pagetable pr) Tp Lp -> user_ok Tp Lp -> 0 <= addr < 2 ^ 64 ->
  let w := status_copied Lp (k_mem s) addr (p_xstate q) in
  runs (if w.1 <? 0 then release (Lproc np) ;; release (Lproc p) ;; ret (inl (-1) : Z + bool)
        else freeproc np ;; release (Lproc np) ;; release (Lproc p) ;; ret (inl (p_pid q))) (locked_both p np w.2 s) (inl v) s' ->
  runs (wait addr) s v s'.
Proof.
  intros W Hfind Hpt Hu Ha w Hr. pose proof Hfind as (Hq & [Hch Hz] & _)%list_find_Some. pose proof W as [Hst Hcur Hpr Hlen Hh Hpar].
  assert (Hne : p <> np) by (intros ->; rewrite Hpr in Hq; injection Hq as ->; done).
  eapply runs_wait_first; [done|]. eapply runs_wait_find; [done|done|]. intros l2 hk. cbn [wait_scan].
  eapply runs_bind; [by apply runs_get_proc|]. rewrite bool_decide_true by done. cbn [negb].
  eapply runs_bind; [apply runs_acquire; cbn; intros [= ->]%elem_of_singleton; done|]. eapply runs_bind; [by apply runs_get_proc|].
  rewrite (bool_decide_true (p_state q = ZOMBIE)) by done. cbn [negb]. eapply runs_bind; [by apply runs_get_proc|].
  eapply runs_bind; [by apply (runs_copy_status (set_k_held ({[Lproc np]} ∪ {[Lproc p]}) s) pr Tp Lp addr (p_xstate q))|]. exact Hr.
Qed.

(** fork calls freeproc on the child when uvmcopy fails; its size is still 0, and the page
    table is neither freed nor reachable any more. *)

Theorem freeproc_empty_leaks s l i q T L :
  addr_space s l (p_pagetable q) 0 T L -> p_sz q = 0 -> freeable [p_tf q] l T -> p_pagetable q <> 0 -> k_procs s !! i = Some q ->
  exists s' l', runs (freeproc i) s tt s' /\ alloc_ok s' l' /\ l' ≡ₚ p_tf q :: l /\ k_procs s' = <[i := freed_proc q]> (k_procs s) /\
    (forall a, a ∈ tables T -> a ∉ l').
Proof.
  intros Him Hsz Hfr Hroot Hq. rewrite <- Hsz in Him.
  destruct (runs_freeproc s l i q T L) as (s' & l' & R & S & A & P & _); try done; [by rewrite Hsz|].
  unfold given_back in P. rewrite Hsz in P. cbn in P. exists s', l'. split_and!; try done; [by rewrite (kframe_procs _ _ (proj1 S))|].
  intros a Ha. rewrite P. pose proof (vm_disj _ _ _ _ _ (im_vm _ _ _ _ _ _ Him)) as Hd. destruct Hfr as (_ & _ & Hd'). set_solver.
Qed.

(** A process without children does not wait. *)

Lemma wait_childless s p pr addr :
  waiter s p pr -> (forall j q, k_procs s !! j = Some q -> ~ child_of p q) -> runs (wait addr) s (-1) s.
Proof.
  intros W Hno. pose proof W as [Hst Hcur Hpr Hlen Hh Hpar]. unfold wait. eapply runs_bind; [by eapply runs_cur_proc|].
  eapply runs_bind; [apply runs_acquire; rewrite Hh; apply not_elem_of_empty|]. rewrite Hh, (right_id_L ∅ (∪)). apply runs_wait_stop.
  assert (Hscan : runs (wait_scan p addr procs false) (set_k_held {[Lproc p]} s) (inr false) (set_k_held {[Lproc p]} s)).
  { rewrite <- (app_nil_r procs). apply runs_wait_skip; [done|intros q; apply Hno| |].
    - intros j Hj%elem_of_seq. destruct (lookup_lt_is_Some_2 (k_procs s) j) as [q Hq]; [rewrite Hlen; lia|].
      exists q. split; [done|]. intros [Hc _]. by apply (Hno j q).
    - replace (existsb _ procs) with false; [apply runs_ret|]. symmetry. apply not_true_iff_false. rewrite existsb_exists. intros (j & _ & Hj).
      change (k_procs (set_k_held {[Lproc p]} s)) with (k_procs s) in Hj. destruct (k_procs s !! j) as [q|] eqn:E; [|done].
      cbn in Hj. apply bool_decide_eq_true in Hj. by apply (Hno j q). }
  eapply runs_bind; [exact Hscan|]. eapply runs_bind; [by apply (runs_get_proc p pr)|]. cbn [negb orb].
  eapply runs_bind; [eapply runs_release_to; [cbn [k_held set_k_held]; by apply elem_of_singleton|reflexivity]|]. cbn [k_held set_k_held].
  replace ({[Lproc p]} ∖ {[Lproc p]} : gset lock) with (∅ : gset lock) by (clear; set_solver).
  replace (set_k_held ∅ (set_k_held {[Lproc p]} s)) with s by (rewrite <- Hh; by destruct s). apply runs_ret.
Qed.

(** C7: wait.  When a child of the process has exited, wait takes the first one in the
    table: it returns its pid with its status stored where the parent asked for it, frees
    the slot, and gives its pages back: the free list has the trapframe, every page of the
    address space and every page of the page table once more, and no page is lost or
    twice in it.  When the status cannot be stored it returns -1, the child stays as it
    was, and no lock is left held in either case. *)

Theorem wait_reaps s p pr np q addr l T L Tp Lp :
  waiter s p pr -> list_find (zombie_of p) (k_procs s) = Some (np, q) ->
  addr_space s l (p_pagetable q) (p_sz q) T L -> freeable (p_tf q :: frames L 0 (size_pages (p_sz q))) l T ->
  p_pagetable q <> 0 -> 0 < p_sz q ->
  pt (k_mem s) (p_pagetable pr) Tp Lp -> user_ok Tp Lp -> user_frames Lp ## list_to_set l ∪ tables T -> 0 <= addr < 2 ^ 64 ->
  let w := status_copied Lp (k_mem s) addr (p_xstate q) in
  if w.1 <? 0 then runs (wait addr) s (-1) (set_k_mem w.2 s)
  else exists s' l', runs (wait addr) s (p_pid q) s' /\ kstep (with_proc np (freed_proc q) (set_k_mem w.2 s)) s' /\
    alloc_ok s' l' /\ l' ≡ₚ pages_of T L (p_tf q) (p_sz q) ++ l /\
    same_except (list_to_set (pages_of T L (p_tf q) (p_sz q))) w.2 (k_mem s').
Proof.
  intros W Hfind Him Hfr Hroot Hpos Hpt Hu Hd Ha w. pose proof Hfind as (Hq & [Hch Hz] & _)%list_find_Some. pose proof W as [Hst Hcur Hpr Hlen Hh Hpar].
  assert (Hne : p <> np) by (intros ->; rewrite Hpr in Hq; injection Hq as ->; done).
  pose proof (fun v s' => runs_wait_zombie s p pr np q addr Tp Lp v s' W Hfind Hpt Hu Ha) as Hw. cbv zeta in Hw. fold w in Hw.
  set (s3 := locked_both p np w.2 s) in *. destruct (w.1 <? 0).
  - apply Hw. replace (set_k_mem w.2 s) with (set_k_held ∅ s3) by (unfold s3, locked_both; rewrite <- Hh; by destruct s).
    by apply runs_release_both.
  - assert (Him3 : addr_space s3 l (p_pagetable q) (p_sz q) T L).
    { apply (image_mem s _ _ _ _ _ _ _ (user_frames Lp)); [done|clear; set_solver..|by eapply same_status|set_solver]. }
    destruct (runs_freeproc s3 l np q T L Him3 Hfr Hroot Hq) as (s4 & l' & R4 & S4 & A4 & P4 & M4).
    exists (set_k_held ∅ s4), l'. split_and!.
    + apply Hw. eapply runs_bind; [exact R4|]. apply runs_release_both; [done|]. by rewrite (proj2 S4).
    + split; [|by rewrite <- Hh]. transitivity s4; [|apply kframe_held]. etransitivity; [|exact (proj1 S4)].
      exact (kframe_held (with_proc np (freed_proc q) (set_k_mem w.2 s)) ({[Lproc np]} ∪ {[Lproc p]})).
    + apply alloc_ok_held; [done|clear; set_solver..].
    + rewrite P4. unfold given_back. destruct (Z.ltb_spec 0 (p_sz q)); [done|lia].
    + exact M4.
Qed.

End Free.
