(* ===== verification/Forkspec.v ===== *)
(** * The beginning of a process

    allocproc takes a slot of the process table and gives it a trapframe and a page table
    with the trampoline; fork fills it with a copy of the process that calls it. *)

From S2P Require Import Prelude Monad Riscv Kstring Kstate Spinlock Printf Bio Fs Inodespec File.
From S2P Require Import Kalloc Vm Pagetable Uvm Ucopy Sched Schedspec Proc Procspec.

Section Fork.
Context `{KI : KernelImage}.

(** ** The page table of a new process *)

Definition trampoline_leaf : Z := pte_for trampoline (Z.lor PTE_R PTE_X).

Definition trapframe_leaf (tf : Z) : Z := pte_for tf (Z.lor PTE_R PTE_W).

(** The two pages that every process has. *)

Definition high_leaves (tf : Z) : gmap Z Z := <[TRAPFRAME := trapframe_leaf tf]> {[TRAMPOLINE := trampoline_leaf]}.

Lemma high_leaves_low tf va : va < TRAPFRAME -> high_leaves tf !! va = None.
Proof.
  intros H. unfold high_leaves. rewrite lookup_insert_ne by lia. apply lookup_singleton_ne.
  change TRAMPOLINE with (TRAPFRAME + 4096). lia.
Qed.

Lemma trampoline_phys : 0 < trampoline < 2 ^ 32.
Proof. pose proof trampoline_range. pose proof etext_range. pose proof kend_range. unfold PHYSTOP, KERNBASE in *. lia. Qed.

(** One of the two pages is mapped, when there are pages for the tables. *)

Lemma vm_map_high s root T L l a pa perm :
  vm s root T L l -> a = TRAMPOLINE \/ a = TRAPFRAME -> L !! a = None -> 0 < pa < 2 ^ 32 -> leaf_perm perm -> ~ scarce 2 s l ->
  exists s' T' l', runs (mappages root a PGSIZE pa perm) s 0 s' /\ vm s' root T' (<[a := pte_for pa perm]> L) l' /\
    grows s T l s' T' l' /\ spent_upto 2 s l s' l'.
Proof.
  intros Hvm Ha HL Hpa Hperm Hsc. destruct (high_page a Ha) as (H1 & H2 & H3 & H4 & H5).
  destruct (vm_mappages s root T L l a PGSIZE pa perm Hvm) as (r & s' & T' & l' & k & Hr & Hvm' & Hg & Hres); [done|done|done|lia| |done| |].
  - change (2 ^ 56) with (2 ^ 32 * 2 ^ 24). unfold PGSIZE. lia.
  - rewrite H4, H5. intros i Hi. assert (i = 0) as -> by lia. by rewrite Z.add_0_r.
  - rewrite H4, H5 in *. destruct Hres as [(-> & -> & Hsp)|(_ & _ & Hsc')]; [|done]. by exists s', T', l'.
Qed.

(** A state between two steps: [n] pages at most have been spent since [s], from the free
    list [l]. *)

Record later (n : nat) (s : kst) (l : list Z) (s' : kst) (l' : list Z) : Prop := {
  lt_step : kstep s s';
  lt_mem : same_except (list_to_set l) (k_mem s) (k_mem s');
  lt_spent : spent_upto n s l s' l';
}.

Lemma vm_uvmcreate s l :
  alloc_ok s l -> ~ scarce 1 s l ->
  exists root l' s', l = root :: l' /\ page_ok root /\ runs uvmcreate s root s' /\ vm s' root {[[] := root]} ∅ l' /\ later 1 s l s' l'.
Proof.
  intros Hok Hsc. destruct (kalloc_cases s l Hok) as [(Hex & _)|(a & l' & s1 & -> & R1 & S1 & M1 & A1 & Sp1)].
  { exfalso. by apply Hsc, exhausted_scarce. }
  assert (page_ok a) as Ha by (eapply freelist_page; [apply Hok|left]). pose proof (page_phys a Ha) as [? Hal].
  assert (a ∉ l') as Hn by (destruct Hok as (_ & (_ & [? _]%NoDup_cons & _) & _); done).
  pose proof (same_memset (k_mem s) a 5 Hal) as Hm1. rewrite <- M1 in Hm1. pose proof (same_memset (k_mem s1) a 0 Hal) as Hm2.
  exists a, l', (set_k_mem (memset (k_mem s1) a 0 PGSIZE) s1). split_and!; [done|done| | |].
  - eapply runs_bind; [exact R1|]. destruct (Z.eqb_spec a 0); [lia|]. eapply runs_bind; [apply runs_mmemset|apply runs_ret].
  - split; [apply (alloc_ok_mem _ _ _ {[a]}); [done|done|clear - Hn; set_solver]| |].
    + apply pt_empty; [done|]. intros x Hx. cbn. rewrite memset_lookup by (unfold PGSIZE; lia). zcase; done.
    + unfold tables. rewrite map_img_singleton_L. clear - Hn. set_solver.
  - split; [etransitivity; [exact S1|apply kstep_mem]| |exists 1%nat; split; [done|by apply spent_mem]].
    eapply same_except_trans; [exact Hm1|exact Hm2|clear; set_solver..].
Qed.

Lemma not_scarce_later n m s l s' l' : alloc_ok s l -> ~ scarce (n + m) s l -> spent_upto n s l s' l' -> ~ scarce m s' l'.
Proof. intros Hok Hsc Hsp H. apply Hsc. by eapply scarce_later. Qed.

Lemma vm_proc_pagetable s l tf :
  alloc_ok s l -> 0 < tf < 2 ^ 32 -> ~ scarce 5 s l ->
  exists root T l' s', runs (proc_pagetable tf) s root s' /\ page_ok root /\ vm s' root T (high_leaves tf) l' /\ later 5 s l s' l' /\
    list_to_set l' ∪ tables T =@{gset Z} list_to_set l.
Proof.
  intros Hok Htf Hsc. destruct (vm_uvmcreate s l Hok) as (root & l1 & s1 & El & Hroot & R1 & V1 & [S1 M1 Sp1]).
  { intros H. apply Hsc. eapply scarce_mono; [|exact H]. lia. }
  assert (Hsc1 : ~ scarce 4 s1 l1) by (by apply (not_scarce_later 1 4 s l)).
  destruct (vm_map_high s1 root _ _ l1 TRAMPOLINE trampoline (Z.lor PTE_R PTE_X) V1) as (s2 & T2 & l2 & R2 & V2 & [S2 M2 _ P2] & Sp2);
    [by left|done|apply trampoline_phys|done|intros H; apply Hsc1; eapply scarce_mono; [|exact H]; lia|].
  assert (Hsc2 : ~ scarce 2 s2 l2) by (apply (not_scarce_later 2 2 s1 l1); [apply V1|done|done]).
  destruct (vm_map_high s2 root _ _ l2 TRAPFRAME tf (Z.lor PTE_R PTE_W) V2) as (s3 & T3 & l3 & R3 & V3 & [S3 M3 _ P3] & Sp3);
    [by right|done|done|done|done|].
  assert (Hp1 : list_to_set l1 ∪ tables {[[] := root]} =@{gset Z} list_to_set l).
  { subst l. unfold tables. rewrite map_img_singleton_L. clear. set_solver. }
  rewrite P2, Hp1 in *. exists root, T3, l3, s3. split_and!; [|done|exact V3| |done].
  - unfold proc_pagetable. eapply runs_bind; [exact R1|]. eapply runs_bind; [exact R2|]. eapply runs_bind; [exact R3|apply runs_ret].
  - split; [transitivity s1; [done|by transitivity s2]|transitivity (k_mem s1); [done|by transitivity (k_mem s2)]|].
    apply (spent_upto_trans 1 4 _ _ s1 l1); [done|]. by apply (spent_upto_trans 2 2 _ _ s2 l2).
Qed.

(** ** Changes that the allocator does not see

    [p] is the process that runs. *)

Record neutral (p : nat) (g : kst -> kst) : Prop := {
  nt_comm : forall s m f cs o h, g (set_k_mem m (set_k_freelist f (set_k_conts cs (set_k_out o (set_k_held h s))))) =
    set_k_mem m (set_k_freelist f (set_k_conts cs (set_k_out o (set_k_held h (g s)))));
  nt_cur : forall s, k_cur (g s) = k_cur s;
  nt_started : forall s, k_started (g s) = k_started s;
  nt_mem : forall s, k_mem (g s) = k_mem s;
  nt_free : forall s, k_freelist (g s) = k_freelist s;
  nt_held : forall s, k_held (g s) = k_held s;
  nt_conts : forall s, k_conts (g s) = k_conts s;
  nt_proc : forall s, k_procs (g s) !! p = k_procs s !! p;
}.

Lemma neutral_kstep p g s s' : neutral p g -> kstep s s' -> kstep (g s) (g s').
Proof.
  intros G [(m & f & cs & o & h & -> & Hc) Hh]. split.
  - exists m, f, cs, o, h. split; [apply (nt_comm p g G)|by rewrite (nt_conts p g G)].
  - by rewrite !(nt_held p g G).
Qed.

Lemma neutral_cont p g s ci c : neutral p g -> k_cur s = Some p -> cur_cont s ci c -> cur_cont (g s) ci c.
Proof.
  intros G Hp (i & pr & H1 & H2 & H3 & H4). rewrite Hp in H1. injection H1 as <-.
  exists p, pr. rewrite (nt_cur p g G), (nt_proc p g G), (nt_conts p g G). done.
Qed.

Lemma neutral_alloc p g s l : neutral p g -> k_cur s = Some p -> alloc_ok s l -> alloc_ok (g s) l.
Proof.
  intros G Hp (Hc & Hf & Hk). split; [|split].
  - rewrite (nt_started p g G). destruct Hc as [?|(ci & c & Hc)]; [by left|right]. exists ci, c. by eapply neutral_cont.
  - unfold freelist in *. by rewrite (nt_mem p g G), (nt_free p g G).
  - by rewrite (nt_held p g G).
Qed.

Lemma neutral_spent p g s l : neutral p g -> k_cur s = Some p -> spent 0 s l (g s) l.
Proof.
  intros G Hp. split; [done|]. split; [apply (nt_started p g G)|]. intros _ ci c Hc.
  replace (set_c_memused _ c) with c by (by destruct c). by eapply neutral_cont.
Qed.

Lemma neutral_with_proc p np q : p <> np -> neutral p (with_proc np q).
Proof. intros Hne. split; try done. intros s. cbn. by rewrite list_lookup_insert_ne. Qed.

Lemma neutral_nextpid p v : neutral p (set_k_nextpid v).
Proof. done. Qed.

Lemma neutral_ftable p v : neutral p (set_k_ftable v).
Proof. done. Qed.

Lemma neutral_icache p v : neutral p (set_k_icache v).
Proof. done. Qed.

(** ** The steps of fork

    [b] is the state [s] but for what fork has recorded; in [s1] it has, besides, taken at
    most [n] pages off the free list [l]. *)

Record stage (p : nat) (s : kst) (l : list Z) (n : nat) (b s1 : kst) (l1 : list Z) : Prop := {
  sg_step : kstep b s1;
  sg_cur : k_cur s1 = Some p;
  sg_alloc : alloc_ok s1 l1;
  sg_mem : same_except (list_to_set l) (k_mem s) (k_mem s1);
  sg_spent : spent_upto n s l s1 l1;
}.

Lemma stage_neutral p s l n b s1 l1 g : stage p s l n b s1 l1 -> neutral p g -> stage p s l n (g b) (g s1) l1.
Proof.
  intros [H1 H2 H3 H4 H5] G. split; [by eapply neutral_kstep|by rewrite (nt_cur p g G)|by eapply neutral_alloc|by rewrite (nt_mem p g G)|].
  rewrite <- (Nat.add_0_r n). eapply spent_upto_trans; [exact H5|]. exists 0%nat. split; [done|by eapply neutral_spent].
Qed.

Lemma stage_later p s l n m b s1 l1 s2 l2 :
  stage p s l n b s1 l1 -> kstep s1 s2 -> spent_upto m s1 l1 s2 l2 -> alloc_ok s2 l2 ->
  same_except (list_to_set l) (k_mem s1) (k_mem s2) -> stage p s l (n + m) b s2 l2.
Proof.
  intros [H1 H2 H3 H4 H5] S Sp A M. split; [by transitivity s1|by rewrite (kframe_cur _ _ (proj1 S))|done|by transitivity (k_mem s1)|].
  by eapply spent_upto_trans.
Qed.

Lemma stage_procs p s l n b s1 l1 : stage p s l n b s1 l1 -> k_procs s1 = k_procs b.
Proof. intros H. exact (kframe_procs _ _ (proj1 (sg_step _ _ _ _ _ _ _ H))). Qed.

Lemma stage_mod_proc p np s l n b s1 l1 q f :
  stage p s l n b s1 l1 -> p <> np -> k_procs b !! np = Some q ->
  runs (mod_proc np f) s1 tt (with_proc np (f q) s1) /\ stage p s l n (with_proc np (f q) b) (with_proc np (f q) s1) l1.
Proof.
  intros H Hne Hq. split; [apply runs_mod_proc_to; by rewrite (stage_procs _ _ _ _ _ _ _ H)|].
  by apply stage_neutral; [|apply neutral_with_proc].
Qed.

(** A page for the process. *)

Lemma stage_kalloc p s l n b s1 l1 :
  alloc_ok s l -> stage p s l n b s1 l1 -> ~ scarce (n + 1) s l -> list_to_set l1 ⊆@{gset Z} list_to_set l ->
  exists a l2 s2, l1 = a :: l2 /\ page_ok a /\ a ∉ l2 /\ runs kalloc s1 a s2 /\ stage p s l (n + 1) b s2 l2.
Proof.
  intros Hok St Hsc Hsub. pose proof (sg_alloc _ _ _ _ _ _ _ St) as Hok1. destruct (kalloc_cases s1 l1 Hok1) as [(Hex & _)|(a & l2 & s2 & -> & R & S & M & A & Sp)].
  { exfalso. apply Hsc. eapply scarce_later; [exact Hok|apply St|by apply exhausted_scarce]. }
  assert (page_ok a) as Ha by (eapply freelist_page; [apply Hok1|left]).
  exists a, l2, s2. split_and!; [done|done|by destruct Hok1 as (_ & (_ & [? _]%NoDup_cons & _) & _)|exact R|].
  eapply stage_later; [exact St|exact S|exists 1%nat; split; [lia|exact Sp]|exact A|]. rewrite M.
  apply (same_except_mono {[a]}); [clear - Hsub; set_solver|]. by apply same_memset, page_phys.
Qed.

(** ** allocproc *)

Lemma runs_release_back k s : k ∉ k_held s -> runs (release k) (set_k_held ({[k]} ∪ k_held s) s) tt s.
Proof. intros H. eapply runs_release_to; [apply held_in|]. cbn. rewrite held_release by done. by destruct s. Qed.

Definition unused (q : proc) : Prop := p_state q = UNUSED.

#[export] Instance unused_dec q : Decision (unused q).
Proof. unfold unused. apply _. Defined.

Lemma runs_find_unused s np q :
  length (k_procs s) = NPROC -> k_held s = ∅ -> list_find unused (k_procs s) = Some (np, q) ->
  runs find_unused s (Some np) (set_k_held {[Lproc np]} s).
Proof.
  intros Hlen Hh (Hq & Hu & Hfirst)%list_find_Some. pose proof (lookup_lt_Some _ _ _ Hq) as Hlt. rewrite Hlen in Hlt. unfold find_unused.
  assert (Ep : procs = seq 0 np ++ np :: seq (S np) (NPROC - S np)).
  { unfold procs. replace NPROC with (np + S (NPROC - S np))%nat at 1 by lia. by rewrite seq_app. }
  assert (Hl : forall i, Lproc i ∉ k_held s) by (intros i; rewrite Hh; apply not_elem_of_empty).
  rewrite Ep. apply runs_for_ret_first.
  - intros j Hj%elem_of_seq. destruct (lookup_lt_is_Some_2 (k_procs s) j) as [q' Hq']; [lia|].
    eapply runs_bind; [by apply runs_acquire|]. eapply runs_bind; [by apply runs_get_proc|].
    rewrite (bool_decide_false (p_state q' = UNUSED)) by (apply (Hfirst j q' Hq'); lia).
    eapply runs_bind; [by apply runs_release_back|apply runs_ret].
  - eapply runs_bind; [by apply runs_acquire|]. rewrite Hh, (right_id_L ∅ (∪)). eapply runs_bind; [by apply runs_get_proc|].
    rewrite (bool_decide_true (p_state q = UNUSED)) by done. apply runs_ret.
Qed.

Lemma runs_allocpid s : Lpid ∉ k_held s -> runs allocpid s (k_nextpid s) (set_k_nextpid (i32 (k_nextpid s + 1)) s).
Proof.
  intros Hl. unfold allocpid. eapply runs_bind; [by apply runs_acquire|]. eapply runs_bind; [apply runs_gets|].
  eapply runs_bind; [apply runs_modify|]. eapply runs_bind; [|apply runs_ret].
  eapply runs_release_to; [apply held_in|]. cbn. rewrite held_release by done. by destruct s.
Qed.

(** The slot that allocproc hands out, and the state of the process table with it. *)

Definition new_slot (pid tf root : Z) (q : proc) : proc :=
  set_p_context (mk_context forkret_addr (p_kstack q + PGSIZE) 0 0 0 0 0 0 0 0 0 0 0 0) (set_p_pagetable root (set_p_tf tf (set_p_pid pid q))).

Definition with_slot (np : nat) (q : proc) (s : kst) : kst :=
  with_proc np q (set_k_nextpid (i32 (k_nextpid s + 1)) (set_k_held {[Lproc np]} s)).

(** The process that calls fork, and the slot for its child. *)

Record forker (s : kst) (p : nat) (pr : proc) (np : nat) (q : proc) : Prop := {
  fk_started : k_started s <> 0;
  fk_cur : k_cur s = Some p;
  fk_proc : k_procs s !! p = Some pr;
  fk_running : ~ unused pr;
  fk_procs : length (k_procs s) = NPROC;
  fk_held : k_held s = ∅;
  fk_slot : list_find unused (k_procs s) = Some (np, q);
}.

Lemma forker_ne s p pr np q : forker s p pr np q -> p <> np /\ k_procs s !! np = Some q.
Proof.
  intros F. destruct (fk_slot _ _ _ _ _ F) as []. pose proof (fk_slot _ _ _ _ _ F) as (Hq & Hu & _)%list_find_Some. split; [|done].
  intros ->. apply (fk_running _ _ _ _ _ F). pose proof (fk_proc _ _ _ _ _ F). by simplify_eq.
Qed.

Lemma with_slot_twice np q q' s : with_proc np q' (with_slot np q s) = with_slot np q' s.
Proof. apply with_proc_twice. Qed.

Lemma stage_allocproc s l p pr np q :
  forker s p pr np q -> alloc_ok s l -> ~ scarce 6 s l ->
  exists tf root T l1 s1, runs allocproc s (Some np) s1 /\ page_ok tf /\ page_ok root /\
    stage p s l 6 (with_slot np (new_slot (k_nextpid s) tf root q) s) s1 l1 /\
    vm s1 root T (high_leaves tf) l1 /\ tf ∉ l1 /\ tf ∉ tables T /\
    {[tf]} ∪ list_to_set l1 ∪ tables T =@{gset Z} list_to_set l.
Proof.
  intros F Hok Hsc. destruct (forker_ne _ _ _ _ _ F) as [Hne Hq]. pose proof F as [Hst Hcur Hpr Hrun Hlen Hh Hslot].
  set (q1 := set_p_pid (k_nextpid s) q). assert (Hl : forall q', k_procs (with_slot np q' s) !! np = Some q') by (intros q'; by eapply (lookup_with_proc np q)).
  assert (St1 : stage p s l 0 (with_slot np q1 s) (with_slot np q1 s) l).
  { apply (stage_neutral p s l 0 (set_k_nextpid _ (set_k_held _ s)) _ l (with_proc np q1)); [|by apply neutral_with_proc].
    apply (stage_neutral p s l 0 (set_k_held {[Lproc np]} s) _ l (set_k_nextpid _)); [|apply neutral_nextpid].
    split; [reflexivity|done|apply alloc_ok_held; [done|clear; set_solver..]|reflexivity|]. exists 0%nat. split; [done|].
    split; [done|]. split; [done|]. intros _ ci c Hc. by destruct c. }
  destruct (stage_kalloc p s l 0 _ _ l Hok St1) as (tf & l2 & s2 & El & Htf & Htfl & R2 & St2).
  { intros H. apply Hsc. eapply scarce_mono; [|exact H]. lia. }
  { done. }
  destruct (stage_mod_proc p np s l 1 _ s2 l2 q1 (set_p_tf tf) St2 Hne) as [R3 St3]; [apply Hl|].
  rewrite with_slot_twice in St3. set (s3 := with_proc np _ s2) in *.
  destruct (vm_proc_pagetable s3 l2 tf) as (root & T & l4 & s4 & R4 & Hroot & V4 & [S4 M4 Sp4] & P4).
  { apply St3. }
  { by apply page_phys. }
  { apply (not_scarce_later 1 5 s l); [done|done|apply St3]. }
  assert (St4 : stage p s l 6 (with_slot np (set_p_tf tf q1) s) s4 l4).
  { eapply (stage_later p s l 1 5); [exact St3|done|done|apply V4|]. eapply same_except_mono; [|exact M4]. subst l. clear. set_solver. }
  destruct (stage_mod_proc p np s l 6 _ s4 l4 _ (set_p_pagetable root) St4 Hne (Hl _)) as [R5 St5]. rewrite with_slot_twice in St5.
  set (q5 := set_p_pagetable root (set_p_tf tf q1)) in *. set (s5 := with_proc np q5 s4) in *.
  destruct (stage_mod_proc p np s l 6 _ s5 l4 _ (set_p_context (mk_context forkret_addr (p_kstack q5 + PGSIZE) 0 0 0 0 0 0 0 0 0 0 0 0)) St5 Hne (Hl _)) as [R6 St6].
  rewrite with_slot_twice in St6. set (s6 := with_proc np _ s5) in *.
  exists tf, root, T, l4, s6. split_and!; [|done|done|exact St6| | | |].
  - unfold allocproc. eapply runs_bind; [by eapply runs_find_unused|].
    eapply runs_bind; [apply runs_allocpid; cbn; clear; set_solver|]. eapply runs_bind; [apply runs_mod_proc_to; exact Hq|].
    eapply runs_bind; [exact R2|]. eapply runs_bind; [exact R3|]. destruct (Z.eqb_spec tf 0) as [E|_]; [pose proof (page_ok_pos tf Htf); lia|].
    eapply runs_bind; [exact R4|]. eapply runs_bind; [exact R5|].
    eapply runs_bind; [apply runs_get_proc; rewrite (stage_procs _ _ _ _ _ _ _ St5); apply Hl|]. eapply runs_bind; [exact R6|apply runs_ret].
  - split; [apply St6|apply V4|apply V4].
  - intros Hin. apply Htfl. apply (elem_of_list_to_set (C := gset Z)). rewrite <- P4. clear - Hin. set_solver.
  - intros Hin. apply Htfl. apply (elem_of_list_to_set (C := gset Z)). rewrite <- P4. clear - Hin. set_solver.
  - rewrite <- (assoc_L (∪)), P4, El. done.
Qed.

(** ** The memory of the child *)

(** In [s'] the table [T], [L] at [root], with the trapframe [tf], is a copy of the address
    space of size [sz] that [Lo] gives in [s]: the pages are mapped with the same flags and
    hold the same bytes; they come out of the free list [l], with the tables and the
    trapframe, and [l'] is what is left of it. *)

Record cloned (s : kst) (l : list Z) (Lo : gmap Z Z) (sz : Z) (s' : kst) (l' : list Z) (root tf : Z) (T : gmap (list Z) Z) (L : gmap Z Z) : Prop := {
  cl_space : addr_space s' l' root sz T L;
  cl_free : freeable (tf :: frames L 0 (size_pages sz)) l' T;
  cl_pool : list_to_set (tf :: frames L 0 (size_pages sz)) ∪ list_to_set l' ∪ tables T =@{gset Z} list_to_set l;
  cl_high : L !! TRAMPOLINE = Some trampoline_leaf /\ L !! TRAPFRAME = Some (trapframe_leaf tf);
  cl_flags : forall i, 0 <= i < Z.of_nat (size_pages sz) -> PTE_FLAGS (L !!! (i * PGSIZE)) = PTE_FLAGS (Lo !!! (i * PGSIZE));
  cl_bytes : forall i off, 0 <= i < Z.of_nat (size_pages sz) -> 0 <= off < PGSIZE ->
    k_mem s' !!! (PTE2PA (L !!! (i * PGSIZE)) + off) = k_mem s !!! (PTE2PA (Lo !!! (i * PGSIZE)) + off);
}.

(** What happens in the trapframe does not matter to the rest. *)

Lemma cloned_to s l Lo sz s' l' root tf T L s'' :
  cloned s l Lo sz s' l' root tf T L -> alloc_ok s'' l' -> same_except {[tf]} (k_mem s') (k_mem s'') ->
  cloned s l Lo sz s'' l' root tf T L.
Proof.
  intros [[[Hok Hpt Hd] H2 H3 H4 H5 H6] Hf Hp Hh Hfl Hb] Hok' Hm. destruct (freeable_cons _ _ _ _ Hf) as ((Ht1 & Ht2 & Ht3) & _).
  split; try done.
  - split; try done. split; [done| |done]. apply (pt_ext (k_mem s') _ _ _ _ {[tf]}); [done|done|clear - Ht3; set_solver].
  - intros i off Hi Hoff. rewrite <- Hb by done. apply Hm. pose proof (elem_of_frames L 0 (size_pages sz) i Hi) as He. rewrite Z.add_0_l in He.
    rewrite (pg_in (PTE2PA (L !!! (i * PGSIZE)))) by (apply PTE2PA_aligned || lia).
    destruct Hf as ((Hn & _)%NoDup_cons & _). clear - He Hn. set_solver.
Qed.

(** The entries of a copy. *)

Lemma copy_words_leaf L Lo fs i f :
  fs !! i = Some f -> map_words L 0 (copy_words Lo fs) !! (Z.of_nat i * PGSIZE) = Some (pte_for f (PTE_FLAGS (Lo !!! (Z.of_nat i * PGSIZE)))).
Proof.
  intros Hf. pose proof (lookup_lt_Some _ _ _ Hf) as Hlt. rewrite map_words_lookup by done. unfold copy_words. rewrite length_imap, Z.sub_0_r, Z.add_0_l.
  rewrite bool_decide_true by (unfold PGSIZE; dlia). rewrite Z.div_mul by done. by rewrite Nat2Z.id, list_lookup_imap, Hf.
Qed.

Lemma leaf_valid w : Z.land w PTE_V <> 0 -> Z.lor (PTE_FLAGS w) PTE_V = PTE_FLAGS w.
Proof.
  intros Hv. assert (Hb : Z.testbit w 0 = true).
  { destruct (Z.testbit w 0) eqn:E; [done|]. exfalso. apply Hv. apply Z.bits_inj'. intros n Hn. rewrite Z.land_spec, Z.bits_0.
    destruct (Z.eq_dec n 0) as [->|]; [by rewrite E|]. change PTE_V with (2 ^ 0). rewrite Z.pow2_bits_false by lia. apply andb_false_r. }
  apply Z.bits_inj'. intros n Hn. rewrite Z.lor_spec. destruct (Z.eq_dec n 0) as [->|].
  - unfold PTE_FLAGS. by rewrite Z.land_spec, Hb.
  - change PTE_V with (2 ^ 0). rewrite Z.pow2_bits_false by lia. apply orb_false_r.
Qed.

Lemma leaf_flags_kept f w : 0 <= f < 2 ^ 56 -> leaf_pte w -> PTE_FLAGS (pte_for f (PTE_FLAGS w)) = PTE_FLAGS w.
Proof.
  intros Hf Hw. destruct (leaf_flags w Hw) as [Hr _]. destruct Hw as (_ & Hv & _).
  rewrite pte_for_eq, PTE_FLAGS_make, leaf_valid by (done || by apply lor_1024). done.
Qed.

(** What uvmcopy leaves is the address space of the child. *)

Lemma copy_space s l Lo sz s1 T1 l1 root tf s2 T2 l2 fs :
  let L := map_words (high_leaves tf) 0 (copy_words Lo fs) in
  copy_inv s1 T1 l1 root (high_leaves tf) Lo s2 T2 l2 fs -> length fs = size_pages sz -> 0 <= sz <= TRAPFRAME -> mapped Lo 0 (size_pages sz) ->
  (forall va w, Lo !! va = Some w -> leaf_pte w) -> page_ok tf -> tf ∉ l1 -> tf ∉ tables T1 ->
  {[tf]} ∪ list_to_set l1 ∪ tables T1 =@{gset Z} list_to_set l ->
  (forall i off, 0 <= i < Z.of_nat (size_pages sz) -> 0 <= off < PGSIZE ->
     k_mem s1 !!! (PTE2PA (Lo !!! (i * PGSIZE)) + off) = k_mem s !!! (PTE2PA (Lo !!! (i * PGSIZE)) + off)) ->
  cloned s l Lo sz s2 l2 root tf T2 L.
Proof.
  intros L (Hvm & Had & _ & Hc) Hlen Hsz Hmap Hleaf Htf Htl Htt Hpool Hold. pose proof (size_pages_high sz Hsz) as Hhigh.
  pose proof (ad_free _ _ _ _ _ _ _ Had) as Hfree. pose proof (ad_pool _ _ _ _ _ _ _ Had) as Hp. pose proof Hfree as (Hnd & Hpf & Hdf).
  assert (Hfr : frames L 0 (size_pages sz) = fs).
  { unfold L. rewrite <- Hlen. replace (length fs) with (length (copy_words Lo fs)) by apply length_imap. rewrite frames_words by done.
    eapply (frames_copy Lo fs (size_pages sz)); [done|lia|done|done]. }
  assert (Htn : tf ∉ fs /\ tf ∉ l2 /\ tf ∉ tables T2) by (clear - Hp Htl Htt; set_solver). destruct Htn as (Ht1 & Ht2 & Ht3).
  assert (HL : forall va, ~ va < Z.of_nat (size_pages sz) * PGSIZE -> L !! va = high_leaves tf !! va).
  { intros va Hva. unfold L. rewrite map_words_lookup by done. unfold copy_words. rewrite length_imap, Hlen, bool_decide_false by lia. done. }
  assert (Hpt : L !! TRAMPOLINE = Some trampoline_leaf /\ L !! TRAPFRAME = Some (trapframe_leaf tf)).
  { rewrite !HL by (change TRAMPOLINE with (TRAPFRAME + 4096); lia). by split. }
  assert (Hpage : forall i, 0 <= i < Z.of_nat (size_pages sz) -> exists f w, fs !! Z.to_nat i = Some f /\ Lo !!! (i * PGSIZE) = w /\ leaf_pte w /\
    page_ok f /\ L !!! (i * PGSIZE) = pte_for f (PTE_FLAGS w)).
  { intros i Hi. destruct (lookup_lt_is_Some_2 fs (Z.to_nat i)) as [f Hf]; [lia|]. destruct (Hmap i Hi) as [w Hw]. rewrite Z.add_0_l in Hw.
    assert (Hlw : Lo !!! (i * PGSIZE) = w) by (by rewrite lookup_total_alt, Hw). exists f, w. split_and!; [done|done|by eapply Hleaf|by eapply Forall_lookup_1|].
    pose proof (copy_words_leaf (high_leaves tf) Lo fs (Z.to_nat i) f Hf) as He. rewrite Z2Nat.id, Hlw in He by lia. fold L in He. by rewrite lookup_total_alt, He. }
  split; rewrite ?Hfr.
  - split; [exact Hvm|done| |split; eexists; apply Hpt| |by rewrite Hfr].
    + intros i Hi. rewrite Z.add_0_l. unfold L. destruct (lookup_lt_is_Some_2 fs (Z.to_nat i)) as [f Hf]; [lia|].
      pose proof (copy_words_leaf (high_leaves tf) Lo fs (Z.to_nat i) f Hf) as He. rewrite Z2Nat.id in He by lia. by eexists.
    + intros va [w Hw] Hlt. destruct (decide (va < Z.of_nat (size_pages sz) * PGSIZE)) as [|Hn]; [done|]. rewrite HL, high_leaves_low in Hw by done. done.
  - split; [apply NoDup_cons; split; [rewrite elem_of_app; by intros [?|?]|done]|]. split; [by constructor|clear - Hdf Ht3; set_solver].
  - rewrite <- Hpool, <- (assoc_L (∪) {[tf]}), <- Hp. clear. set_solver.
  - exact Hpt.
  - intros i Hi. destruct (Hpage i Hi) as (f & w & _ & -> & Hw & Hf & ->). apply leaf_flags_kept; [apply page_phys in Hf as [? _]; lia|done].
  - intros i off Hi Hoff. rewrite <- Hold by done. destruct (Hpage i Hi) as (f & w & Hfi & Hlw & Hw & Hf & ->).
    pose proof (Hc _ _ Hfi off Hoff) as He. rewrite Z2Nat.id in He by lia. rewrite <- He. f_equal. f_equal.
    apply page_phys in Hf as [? ?]. apply pte_for_pa; [lia|done|]. apply (leaf_flags w Hw).
Qed.

(** uvmcopy into the page table that allocproc has made. *)

Lemma stage_uvmcopy s l p pr To Lo b s1 l1 root tf T1 :
  let n := size_pages (p_sz pr) in
  addr_space s l (p_pagetable pr) (p_sz pr) To Lo -> stage p s l 6 b s1 l1 -> vm s1 root T1 (high_leaves tf) l1 ->
  page_ok tf -> tf ∉ l1 -> tf ∉ tables T1 -> {[tf]} ∪ list_to_set l1 ∪ tables T1 =@{gset Z} list_to_set l -> ~ scarce (6 + 3 * n) s l ->
  exists s2 l2 T L, runs (uvmcopy (p_pagetable pr) root (p_sz pr)) s1 0 s2 /\ stage p s l (6 + 3 * n) b s2 l2 /\
    cloned s l Lo (p_sz pr) s2 l2 root tf T L.
Proof.
  intros n [[Hok Hpt Hd] Hsz Hus Hh Hon (Hnd & Hpf & Hdf)] St Hvm Htf Htl Htt Hpool Hsc. pose proof (size_pages_high _ Hsz) as Hhigh. fold n in Hhigh, Hus.
  assert (HTr : TRAPFRAME <= MAXVA) by done. set (sz := p_sz pr) in *.
  assert (Hsub : list_to_set l1 ∪ tables T1 ⊆@{gset Z} list_to_set l) by (rewrite <- Hpool; clear; set_solver).
  assert (Hdis : (list_to_set (frames Lo 0 n) : gset Z) ## list_to_set l).
  { apply NoDup_app in Hnd as (_ & Hn & _). intros x Hx Hx'. apply elem_of_list_to_set in Hx, Hx'. by apply (Hn x). }
  assert (Hpt1 : pt (k_mem s1) (p_pagetable pr) To Lo).
  { apply (pt_ext (k_mem s) _ _ _ _ (list_to_set l)); [done|apply St|done]. }
  assert (Hog : original s1 T1 l1 (p_pagetable pr) To Lo n).
  { split; [done|done|clear - Hd Hsub; set_solver|clear - Hdis Hsub; set_solver]. }
  assert (Hun : unmapped (high_leaves tf) 0 n).
  { intros i Hi. apply high_leaves_low. unfold PGSIZE in *. lia. }
  assert (Hsc1 : ~ scarce (3 * n) s1 l1) by (eapply not_scarce_later; [exact Hok|exact Hsc|apply St]).
  destruct (vm_uvmcopy s1 (p_pagetable pr) To Lo root T1 (high_leaves tf) l1 sz Hvm Hog Hun) as [(s2 & T2 & l2 & fs & R & Hlen & Hinv)|[(s2 & T2 & l2 & Hs & _)|(msg & Hs & Hn & _)]]; [lia| |done|].
  2:{ exfalso. apply Hsc1. eapply scarce_mono; [|exact Hs]. fold n in Hn. lia. }
  pose proof Hinv as (V2 & [S2 M2 _ F2 P2] & Sp2 & _). rewrite Hlen in Sp2. eexists s2, l2, T2, _. split_and!; [exact R| |].
  - eapply stage_later; [exact St|exact S2|exact Sp2|apply V2|by eapply same_except_mono].
  - eapply copy_space; try done. 
    + intros va w Hw. by apply (pt_dom _ _ _ _ Hpt va w Hw).
    + intros i off Hi Hoff. apply (sg_mem _ _ _ _ _ _ _ St).
      rewrite (pg_in (PTE2PA (Lo !!! (i * PGSIZE)))) by (apply PTE2PA_aligned || lia).
      pose proof (elem_of_frames Lo 0 n i Hi) as He. rewrite Z.add_0_l in He. clear - He Hdis. set_solver.
Qed.

(** ** Open files *)

(** A descriptor of the child: that of the parent, or the one that the slot had. *)

Definition inherit (a b : list (option nat)) : list (option nat) := zip_with (fun x y => match x with Some f => Some f | None => y end) a b.

(** Each open file has one more reference for every descriptor of it. *)

Definition dup_refs (fds : list (option nat)) (fs : list file) : list file :=
  imap (fun f x => set_f_ref (f_ref x + Z.of_nat (length (filter (fun o => o = Some f) fds))) x) fs.

Lemma dup_refs_lookup fds fs f :
  dup_refs fds fs !! f = (fun x => set_f_ref (f_ref x + Z.of_nat (length (filter (fun o => o = Some f) fds))) x) <$> fs !! f.
Proof. apply list_lookup_imap. Qed.

Lemma set_f_ref_id x : set_f_ref (f_ref x + Z.of_nat 0) x = x.
Proof. rewrite Z.add_0_r. by destruct x. Qed.

Lemma dup_refs_nil fs : dup_refs [] fs = fs.
Proof. apply list_eq. intros f. rewrite dup_refs_lookup. cbn. destruct (fs !! f); [|done]. cbn. by rewrite set_f_ref_id. Qed.

Lemma dup_refs_none fds fs : dup_refs (None :: fds) fs = dup_refs fds fs.
Proof. done. Qed.

Lemma dup_refs_some f x fds fs :
  fs !! f = Some x -> dup_refs (Some f :: fds) fs = dup_refs fds (<[f := set_f_ref (f_ref x + 1) x]> fs).
Proof.
  intros Hx. apply list_eq. intros g. rewrite !dup_refs_lookup. destruct (decide (f = g)) as [<-|Hne].
  - rewrite list_lookup_insert_eq by (by eapply lookup_lt_Some). rewrite Hx. cbn [fmap option_fmap option_map]. rewrite filter_cons_True by done.
    f_equal.
    change (set_f_ref ?a (set_f_ref ?b x)) with (set_f_ref a x). f_equal. cbn [f_ref set_f_ref length]. lia.
  - rewrite list_lookup_insert_ne by done. rewrite filter_cons_False by congruence. done.
Qed.

Lemma runs_filedup f x s :
  Lftable ∉ k_held s -> k_ftable s !! f = Some x -> 1 <= f_ref x < 2 ^ 31 - 1 ->
  runs (filedup f) s f (set_k_ftable (<[f := set_f_ref (f_ref x + 1) x]> (k_ftable s)) s).
Proof.
  intros Hl Hx Hr. assert (Hget : forall s, k_ftable s !! f = Some x -> runs (get_file f) s x s)
    by (intros s1 H1; eapply runs_bind; [apply runs_gets|by apply runs_valid]).
  unfold filedup. eapply runs_bind; [by apply runs_acquire|]. eapply runs_bind; [by apply Hget|].
  destruct (Z.ltb_spec (f_ref x) 1); [lia|]. rewrite i32_small by lia. eapply runs_bind.
  - eapply runs_bind; [by apply Hget|]. apply (runs_modify (fun s => set_k_ftable (<[f := set_f_ref (f_ref x + 1) x]> (k_ftable s)) s)).
  - eapply runs_bind; [|apply runs_ret]. eapply runs_release_to; [apply held_in|]. cbn. rewrite held_release by done. by destruct s.
Qed.

(** The files of the parent can be duplicated. *)

Definition files_ok (fds : list (option nat)) (fs : list file) : Prop :=
  forall f, Some f ∈ fds -> exists x, fs !! f = Some x /\ 1 <= f_ref x /\ f_ref x + Z.of_nat (length fds) < 2 ^ 31.

Lemma files_ok_next f x fds fs :
  files_ok (Some f :: fds) fs -> fs !! f = Some x -> files_ok fds (<[f := set_f_ref (f_ref x + 1) x]> fs).
Proof.
  intros H Hx g Hg. destruct (H g ltac:(by right)) as (y & Hy & Hy1 & Hy2). cbn [length] in Hy2. destruct (decide (f = g)) as [<-|Hne].
  - rewrite list_lookup_insert_eq by (by eapply lookup_lt_Some). eexists. split; [done|]. simplify_eq. cbn. lia.
  - rewrite list_lookup_insert_ne by done. exists y. split; [done|]. lia.
Qed.

Lemma runs_dup_none p np pr fd s : k_procs s !! p = Some pr -> p_ofile pr !! fd = Some None -> runs (dup_file p np fd) s tt s.
Proof. intros Hp Ho. eapply runs_bind; [by apply runs_get_proc|]. eapply runs_bind; [by apply runs_valid|]. apply runs_ret. Qed.

Lemma runs_dup_some p np pr q fd f x s :
  k_procs s !! p = Some pr -> k_procs s !! np = Some q -> p_ofile pr !! fd = Some (Some f) ->
  Lftable ∉ k_held s -> k_ftable s !! f = Some x -> 1 <= f_ref x < 2 ^ 31 - 1 ->
  runs (dup_file p np fd) s tt
    (with_proc np (set_p_ofile (<[fd := Some f]> (p_ofile q)) q) (set_k_ftable (<[f := set_f_ref (f_ref x + 1) x]> (k_ftable s)) s)).
Proof.
  intros Hp Hq Ho Hl Hx Hr. unfold dup_file. eapply runs_bind; [by apply runs_get_proc|]. eapply runs_bind; [by apply runs_valid|].
  eapply runs_bind; [by apply (runs_filedup f x)|].
  exact (runs_mod_proc_to np (fun q => set_p_ofile (<[fd := Some f]> (p_ofile q)) q) q (set_k_ftable _ s) Hq).
Qed.

(** The descriptors of the child once those from [n] on have been gone through. *)

Definition inherit_from (n : nat) (rest b : list (option nat)) : list (option nat) := take n b ++ inherit rest (drop n b).

Lemma inherit_from_some n f rest b :
  (n < length b)%nat -> inherit_from (S n) rest (<[n := Some f]> b) = inherit_from n (Some f :: rest) b.
Proof.
  intros Hn. destruct (lookup_lt_is_Some_2 b n Hn) as [o Ho]. unfold inherit_from.
  rewrite (take_S_r _ _ (Some f)) by (by apply list_lookup_insert_eq). rewrite take_insert_ge by lia.
  rewrite drop_insert_lt by lia. rewrite (drop_S b o n Ho). cbn [inherit zip_with]. by rewrite <- app_assoc.
Qed.

Lemma inherit_from_none n rest b : (n < length b)%nat -> inherit_from (S n) rest b = inherit_from n (None :: rest) b.
Proof.
  intros Hn. destruct (lookup_lt_is_Some_2 b n Hn) as [o Ho]. unfold inherit_from.
  rewrite (take_S_r _ _ o Ho), (drop_S b o n Ho). cbn [inherit zip_with]. by rewrite <- app_assoc.
Qed.

Lemma runs_dup_from p np pr : forall rest pre s q,
  p <> np -> Lftable ∉ k_held s -> k_procs s !! p = Some pr -> k_procs s !! np = Some q ->
  p_ofile pr = pre ++ rest -> length (p_ofile q) = length (p_ofile pr) -> files_ok rest (k_ftable s) ->
  runs (for_each (seq (length pre) (length rest)) (dup_file p np)) s tt
    (set_k_ftable (dup_refs rest (k_ftable s)) (with_proc np (set_p_ofile (inherit_from (length pre) rest (p_ofile q)) q) s)).
Proof.
  induction rest as [|o rest IH]; intros pre s q Hne Hl Hp Hq Hof Hlen Hfs.
  - rewrite dup_refs_nil. rewrite app_nil_r in Hof. subst pre. unfold inherit_from. cbn [inherit zip_with]. rewrite app_nil_r, take_ge by lia.
    replace (set_p_ofile (p_ofile q) q) with q by (by destruct q).
    replace (set_k_ftable _ _) with s; [apply runs_ret|]. unfold with_proc. rewrite list_insert_id by done. by destruct s.
  - assert (Hfd : p_ofile pr !! length pre = Some o) by (rewrite Hof; by apply list_lookup_middle).
    assert (Hof' : p_ofile pr = (pre ++ [o]) ++ rest) by (rewrite Hof; by rewrite <- app_assoc).
    assert (Hl' : length (pre ++ [o]) = S (length pre)) by (rewrite length_app; cbn; lia).
    assert (Hlt : (length pre < length (p_ofile q))%nat) by (rewrite Hlen; by eapply lookup_lt_Some).
    cbn [length seq]. destruct o as [f|].
    + destruct (Hfs f ltac:(left)) as (x & Hx & Hx1 & Hx2). cbn [length] in Hx2.
      eapply runs_for_each_cons; [apply (runs_dup_some p np pr q (length pre) f x s); try done; lia|].
      set (q1 := set_p_ofile _ q). set (s1 := set_k_ftable _ s).
      pose proof (IH (pre ++ [Some f]) (with_proc np q1 s1) q1 Hne Hl) as R2. rewrite Hl' in R2. rewrite (dup_refs_some f x) by done.
      cbn [p_ofile set_p_ofile q1] in R2. rewrite inherit_from_some in R2 by done.
      change (set_p_ofile ?z q1) with (set_p_ofile z q) in R2. rewrite with_proc_twice in R2. apply R2; [..|by apply files_ok_next].
      * cbn. by rewrite list_lookup_insert_ne.
      * by eapply (lookup_with_proc np q).
      * done.
      * by rewrite length_insert.
    + pose proof (IH (pre ++ [None]) s q Hne Hl Hp Hq Hof' Hlen) as R2. rewrite Hl', inherit_from_none in R2 by done.
      eapply runs_for_each_cons; [by eapply runs_dup_none|rewrite dup_refs_none]. apply R2.
      intros g Hg. destruct (Hfs g ltac:(by right)) as (x & ? & ? & ?). exists x. cbn [length] in *. split; [done|]. lia.
Qed.

Lemma runs_dup_files p np pr q s :
  p <> np -> Lftable ∉ k_held s -> k_procs s !! p = Some pr -> k_procs s !! np = Some q ->
  length (p_ofile pr) = NOFILE -> length (p_ofile q) = NOFILE -> files_ok (p_ofile pr) (k_ftable s) ->
  runs (dup_files p np) s tt
    (set_k_ftable (dup_refs (p_ofile pr) (k_ftable s)) (with_proc np (set_p_ofile (inherit (p_ofile pr) (p_ofile q)) q) s)).
Proof.
  intros Hne Hl Hp Hq H1 H2 Hfs. pose proof (runs_dup_from p np pr (p_ofile pr) [] s q Hne Hl Hp Hq eq_refl ltac:(lia) Hfs) as R.
  rewrite H1 in R. exact R.
Qed.

(** ** The name and the trapframe of the child *)

(** safestrcpy copies the string up to its NUL, or what there is room for. *)

Lemma safestrcpy_text n : forall s t, (n < length s)%nat -> (n <= length t)%nat ->
  exists r, safestrcpy_from s t n = Some r /\ length r = length s /\ cstring r = cstring (take n t).
Proof.
  induction n as [|n IH]; intros [|a s] t Hs Ht; cbn [length] in *; try lia; cbn [safestrcpy_from]; [by eexists|].
  destruct t as [|c t]; cbn [length] in *; [lia|]. cbn [take cstring]. destruct (Z.eqb_spec c 0) as [->|Hc].
  - destruct s as [|b s]; cbn [length] in *; [lia|]. by eexists.
  - destruct (IH s t) as (r & -> & Hl & Hr); [lia|lia|]. eexists. split; [done|]. cbn [length cstring]. split; [lia|].
    destruct (Z.eqb_spec c 0); [done|]. by rewrite Hr.
Qed.

Lemma store_zero n : forall m a x, a <= x < a + Z.of_nat n -> store n m a 0 !!! x = 0.
Proof.
  induction n as [|n IH]; intros m a x Hx; [lia|]. change (store (S n) m a 0) with (store n (<[a := 0]> m) (a + 1) 0). destruct (Z.eq_dec x a) as [->|].
  - rewrite store_other by lia. apply lookup_total_insert_eq.
  - apply IH. lia.
Qed.

(** The registers of the process in [m], at [ptf], are in [m'] at [tf], but for a0, which
    is 0. *)

Definition trapframe_copied (m : mem) (ptf : Z) (m' : mem) (tf : Z) : Prop :=
  forall off, 0 <= off < sizeof_trapframe ->
    m' !!! (tf + off) = if (TF_a 0 <=? off) && (off <? TF_a 0 + 8) then 0 else m !!! (ptf + off).

Definition trapframe_mem (m : mem) (ptf tf : Z) : mem := store64 (memmove m tf ptf sizeof_trapframe) (tf + TF_a 0) 0.

Lemma trapframe_mem_copied m0 m ptf tf :
  (forall off, 0 <= off < PGSIZE -> m !!! (ptf + off) = m0 !!! (ptf + off)) -> trapframe_copied m0 ptf (trapframe_mem m ptf tf) tf.
Proof.
  intros H off Hoff. unfold trapframe_mem. change sizeof_trapframe with 288 in *. change (TF_a 0) with 112 in *.
  destruct ((112 <=? off) && (off <? 112 + 8)) eqn:E.
  - apply store_zero. apply andb_true_iff in E as [?%Z.leb_le ?%Z.ltb_lt]. lia.
  - apply andb_false_iff in E. rewrite store_other by (destruct E as [?%Z.leb_gt|?%Z.ltb_ge]; lia).
    rewrite memmove_lookup by lia. destruct (Z.leb_spec tf (tf + off)); [|lia]. destruct (Z.ltb_spec (tf + off) (tf + 288)); [|lia]. cbn [andb].
    replace (ptf + (tf + off - tf)) with (ptf + off) by lia. apply H. unfold PGSIZE. lia.
Qed.

Lemma same_trapframe m ptf tf : tf mod PGSIZE = 0 -> same_except {[tf]} m (trapframe_mem m ptf tf).
Proof.
  intros Ha x Hx. pose proof (pg_out tf x Ha ltac:(clear - Hx; set_solver)) as Ho. unfold PGSIZE in Ho. unfold trapframe_mem. change sizeof_trapframe with 288.
  change (TF_a 0) with 112. rewrite store_other by lia. rewrite memmove_lookup by lia.
  destruct (Z.leb_spec tf x), (Z.ltb_spec x (tf + 288)); cbn [andb]; [lia|done..].
Qed.

(** ** The processes of a container *)

Definition member (c : ptr) (q : proc) : Prop := p_state q <> UNUSED /\ ptr_of (p_container q) = c.

#[export] Instance member_dec c q : Decision (member c q).
Proof. unfold member. apply _. Defined.

Definition members (ci : nat) (ps : list proc) : Z := Z.of_nat (length (filter (member (At ci)) ps)).

Lemma runs_numproc ci s : length (k_procs s) = NPROC -> runs (numproc (At ci)) s (members ci (k_procs s)) s.
Proof.
  intros H. unfold numproc. eapply runs_bind; [apply runs_gets|]. rewrite take_ge by lia. unfold members. 
  apply runs_ret.
Qed.

Lemma members_insert ci ps i q q' :
  p_state q = p_state q' -> p_container q = p_container q' -> members ci (<[i := q]> ps) = members ci (<[i := q']> ps).
Proof.
  intros Hs Hc. unfold members. f_equal. revert i. induction ps as [|y ps IH]; intros [|i]; cbn [insert list_insert]; try done.
  - rewrite !filter_cons. assert (Hm : member (At ci) q <-> member (At ci) q') by (unfold member; by rewrite Hs, Hc).
    destruct (decide (member (At ci) q)), (decide (member (At ci) q')); cbn [length]; tauto.
  - rewrite !filter_cons. destruct (decide (member (At ci) y)); cbn [length]; [f_equal|]; apply IH.
Qed.

(** ** fork *)

(** What the process that calls fork has: a container, open files, a current directory, a
    name; the slot of the child has room for them. *)

Record forkable (s : kst) (pr q : proc) (ci : nat) (c : container) (cwd : nat) (x : inode) : Prop := {
  fb_cont : p_container pr = Some ci /\ k_conts s !! ci = Some c;
  fb_ofile : length (p_ofile pr) = NOFILE /\ length (p_ofile q) = NOFILE /\ files_ok (p_ofile pr) (k_ftable s);
  fb_cwd : p_cwd pr = Some cwd /\ k_icache s !! cwd = Some x /\ 0 <= i_ref x < 2 ^ 31 - 1;
  fb_name : length (p_name pr) = 16%nat /\ length (p_name q) = 16%nat;
}.

(** The child before its container is known, in the slot [q]. *)

Definition child_of_fork (p : nat) (pr q : proc) (pid tf root : Z) (nm : list Z) : proc :=
  set_p_state RUNNABLE (set_p_name nm (set_p_cwd (p_cwd pr) (set_p_ofile (inherit (p_ofile pr) (p_ofile q))
    (set_p_parent (Some p) (set_p_sz (p_sz pr) (new_slot pid tf root q)))))).

(** The files and the directory have one more reference. *)

Definition referenced (pr : proc) (cwd : nat) (x : inode) (s : kst) : kst :=
  with_inode cwd (set_i_ref (i_ref x + 1) x) (set_k_ftable (dup_refs (p_ofile pr) (k_ftable s)) s).

(** fork from the point where it compares the number of processes with the limit. *)

Definition fork_end (np ci : nat) (ct : container) (n pid : Z) : K Z :=
  if c_maxproc ct <=? n then
    freeproc np ;; release (Lproc np) ;; printf max_proc_msg [VStr (Some (c_name ct))] ;; ret (-1)
  else
    mod_proc np (set_p_container (Some ci)) ;; vpid <- allocvpid ci ;; mod_proc np (set_p_vpid vpid) ;; release (Lproc np) ;; ret pid.

(** The part of fork after uvmcopy. *)

Definition fork_fill (p np : nat) (pr nq : proc) : K Z :=
  mod_proc np (set_p_sz (p_sz pr)) ;;
  mod_proc np (set_p_parent (Some p)) ;;
  mmemmove (p_tf nq) (p_tf pr) sizeof_trapframe ;;
  mstore64 (p_tf nq + TF_a 0) 0 ;;
  dup_files p np ;;
  cwd <- valid (p_cwd pr) ;;
  cwd <- idup cwd ;;
  mod_proc np (set_p_cwd (Some cwd)) ;;
  nm <- valid (safestrcpy (p_name nq) (p_name pr) 16) ;;
  mod_proc np (set_p_name nm) ;;
  let pid := p_pid nq in
  mod_proc np (set_p_state RUNNABLE) ;;
  let c := ptr_of (p_container pr) in
  n <- numproc c ;;
  ci <- deref c ;;
  ct <- get_cont ci ;;
  fork_end np ci ct n pid.

Lemma runs_fork s p np pr nq s1 s2 r s' :
  runs cur_proc s p s -> runs allocproc s (Some np) s1 -> k_procs s1 !! p = Some pr -> k_procs s1 !! np = Some nq ->
  runs (uvmcopy (p_pagetable pr) (p_pagetable nq) (p_sz pr)) s1 0 s2 -> runs (fork_fill p np pr nq) s2 r s' -> runs fork s r s'.
Proof.
  intros R1 R2 H1 H2 R3 R4. unfold fork. eapply runs_bind; [exact R1|]. eapply runs_bind; [exact R2|].
  eapply runs_bind; [by apply runs_get_proc|]. eapply runs_bind; [by apply runs_get_proc|]. eapply runs_bind; [exact R3|]. exact R4.
Qed.

(** The state once the files and the directory are referenced and the slot holds [q']. *)

Definition filled (pr : proc) (cwd : nat) (x : inode) (np : nat) (q' : proc) (s : kst) : kst := referenced pr cwd x (with_slot np q' s).

Lemma filled_twice pr cwd x np q q' s : with_proc np q' (filled pr cwd x np q s) = filled pr cwd x np q' s.
Proof. unfold filled, referenced, with_inode, with_slot, with_proc. cbn. by rewrite list_insert_insert_eq. Qed.

Lemma kframe_ftable s s' : kframe s s' -> k_ftable s' = k_ftable s.
Proof. by intros (m & f & c & o & h & -> & H). Qed.

Lemma kframe_icache s s' : kframe s s' -> k_icache s' = k_icache s.
Proof. by intros (m & f & c & o & h & -> & H). Qed.

(** The size and the parent are set, and the registers copied. *)

Lemma stage_registers s l n p pr np q nq s2 l2 :
  forker s p pr np q -> stage p s l n (with_slot np nq s) s2 l2 -> page_ok (p_tf nq) -> p_tf nq ∈ l -> p_tf nq ∉ l2 ->
  let q3 := set_p_parent (Some p) (set_p_sz (p_sz pr) nq) in
  exists s3, stage p s l n (with_slot np q3 s) s3 l2 /\ k_mem s3 = trapframe_mem (k_mem s2) (p_tf pr) (p_tf nq) /\
    forall (k : K Z) r s', runs k s3 r s' ->
      runs (mod_proc np (set_p_sz (p_sz pr)) ;; mod_proc np (set_p_parent (Some p)) ;;
            mmemmove (p_tf nq) (p_tf pr) sizeof_trapframe ;; mstore64 (p_tf nq + TF_a 0) 0 ;; k) s2 r s'.
Proof.
  intros F St Htf Hin Hout q3. destruct (forker_ne _ _ _ _ _ F) as [Hne Hq].
  assert (Hl : forall q', k_procs (with_slot np q' s) !! np = Some q') by (intros q'; by eapply (lookup_with_proc np q)).
  destruct (stage_mod_proc p np s l n _ s2 l2 nq (set_p_sz (p_sz pr)) St Hne (Hl _)) as [R3 St3]. rewrite with_slot_twice in St3.
  destruct (stage_mod_proc p np s l n _ _ l2 _ (set_p_parent (Some p)) St3 Hne (Hl _)) as [R4 St4]. rewrite with_slot_twice in St4. fold q3 in R4, St4.
  set (s4 := with_proc np q3 _) in *. set (m := trapframe_mem (k_mem s2) (p_tf pr) (p_tf nq)). pose proof (page_phys _ Htf) as [_ Hal].
  assert (Hm : same_except {[p_tf nq]} (k_mem s4) m) by (by apply same_trapframe).
  exists (set_k_mem m s4). split_and!; [|done|].
  - rewrite <- (Nat.add_0_r n). eapply stage_later; [exact St4|apply kstep_mem| | |].
    + exists 0%nat. split; [done|]. apply spent_mem, spent_refl.
    + apply (alloc_ok_mem _ _ _ {[p_tf nq]}); [apply St4|done|clear - Hout; set_solver].
    + eapply same_except_mono; [|exact Hm]. clear - Hin. set_solver.
  - intros k r s' Rk. eapply runs_bind; [exact R3|]. eapply runs_bind; [exact R4|]. eapply runs_bind; [apply runs_mmemmove|].
    eapply runs_bind; [apply runs_mstore64|]. exact Rk.
Qed.

(** The open files and the current directory are shared. *)

Lemma stage_references s l n p pr np q ci c cwd x q3 s3 l2 :
  forker s p pr np q -> forkable s pr q ci c cwd x -> stage p s l n (with_slot np q3 s) s3 l2 -> p_ofile q3 = p_ofile q ->
  let q4 := set_p_cwd (Some cwd) (set_p_ofile (inherit (p_ofile pr) (p_ofile q)) q3) in
  exists s4, stage p s l n (filled pr cwd x np q4 s) s4 l2 /\ k_mem s4 = k_mem s3 /\
    forall (k : K Z) r s', runs k s4 r s' ->
      runs (dup_files p np ;; cwd <- valid (p_cwd pr) ;; cwd <- idup cwd ;; mod_proc np (set_p_cwd (Some cwd)) ;; k) s3 r s'.
Proof.
  intros F B St Ho q4. destruct (forker_ne _ _ _ _ _ F) as [Hne Hq]. pose proof B as [_ (Hn1 & Hn2 & Hfs) (Hcwd & Hx & Hr) _].
  assert (Hl : forall q', k_procs (with_slot np q' s) !! np = Some q') by (intros q'; by eapply (lookup_with_proc np q)).
  pose proof (sg_step _ _ _ _ _ _ _ St) as [Hf Hh]. pose proof (kframe_ftable _ _ Hf) as Eft. pose proof (kframe_icache _ _ Hf) as Eic. cbn in Hh, Eft, Eic.
  assert (Hp3 : k_procs s3 !! p = Some pr) by (rewrite (stage_procs _ _ _ _ _ _ _ St); cbn; rewrite list_lookup_insert_ne by done; apply F).
  assert (Hq3 : k_procs s3 !! np = Some q3) by (rewrite (stage_procs _ _ _ _ _ _ _ St); apply Hl).
  assert (R4 : runs (dup_files p np) s3 tt (set_k_ftable (dup_refs (p_ofile pr) (k_ftable s3)) (with_proc np (set_p_ofile (inherit (p_ofile pr) (p_ofile q3)) q3) s3))).
  { apply runs_dup_files; try done; [rewrite Hh; clear; set_solver|by rewrite Ho|by rewrite Eft]. }
  rewrite Eft, Ho in R4. set (ofs := inherit (p_ofile pr) (p_ofile q)) in *. set (s4 := set_k_ftable _ _) in R4.
  assert (St4 : stage p s l n (set_k_ftable (dup_refs (p_ofile pr) (k_ftable s)) (with_slot np (set_p_ofile ofs q3) s)) s4 l2).
  { apply (stage_neutral p s l n (with_slot np (set_p_ofile ofs q3) s) _ l2 (set_k_ftable _)); [|apply neutral_ftable].
    rewrite <- (with_slot_twice np q3). by apply stage_neutral; [|apply neutral_with_proc]. }
  assert (R5 : runs (idup cwd) s4 cwd (with_inode cwd (set_i_ref (i_ref x + 1) x) s4)).
  { apply runs_idup; [cbn; rewrite Hh; clear; set_solver|cbn; by rewrite Eic|done]. }
  assert (St5 : stage p s l n (filled pr cwd x np (set_p_ofile ofs q3) s) (with_inode cwd (set_i_ref (i_ref x + 1) x) s4) l2).
  { unfold filled, referenced, with_inode. cbn [k_icache set_k_ftable with_slot with_proc set_k_procs set_k_nextpid set_k_held]. cbn. rewrite Eic.
    exact (stage_neutral p s l n _ _ l2 (set_k_icache (<[cwd := set_i_ref (i_ref x + 1) x]> (k_icache s))) St4 (neutral_icache p _)). }
  destruct (stage_mod_proc p np s l n _ _ l2 (set_p_ofile ofs q3) (set_p_cwd (Some cwd)) St5 Hne) as [R6 St6]; [apply Hl|].
  rewrite filled_twice in St6. eexists. split_and!; [exact St6|done|].
  intros k r s' Rk. eapply runs_bind; [exact R4|]. eapply runs_bind; [by apply runs_valid|]. eapply runs_bind; [exact R5|].
  eapply runs_bind; [exact R6|]. exact Rk.
Qed.

(** The name, the state, and the comparison with the limit. *)

Lemma stage_named s l n p pr np q ci c cwd x q4 s4 l2 :
  forker s p pr np q -> forkable s pr q ci c cwd x -> stage p s l n (filled pr cwd x np q4 s) s4 l2 ->
  p_name q4 = p_name q -> p_container q4 = p_container q ->
  exists nm c' s6, safestrcpy (p_name q) (p_name pr) 16 = Some nm /\
    stage p s l n (filled pr cwd x np (set_p_state RUNNABLE (set_p_name nm q4)) s) s6 l2 /\ k_mem s6 = k_mem s4 /\
    k_conts s6 !! ci = Some c' /\ same_but_memused c c' /\
    forall pid r s', runs (fork_end np ci c' (members ci (<[np := set_p_state RUNNABLE q]> (k_procs s))) pid) s6 r s' ->
      runs (nm <- valid (safestrcpy (p_name q) (p_name pr) 16) ;; mod_proc np (set_p_name nm) ;; mod_proc np (set_p_state RUNNABLE) ;;
            n <- numproc (ptr_of (p_container pr)) ;; ci <- deref (ptr_of (p_container pr)) ;; ct <- get_cont ci ;; fork_end np ci ct n pid) s4 r s'.
Proof.
  intros F B St Hnm Hct. destruct (forker_ne _ _ _ _ _ F) as [Hne Hq]. pose proof B as [[Hci Hc] _ _ [Hn1 Hn2]].
  assert (Hl : forall q', k_procs (filled pr cwd x np q' s) !! np = Some q') by (intros q'; by eapply (lookup_with_proc np q)).
  destruct (safestrcpy_text 15 (p_name q) (p_name pr)) as (nm & Hcp & _); [lia|lia|].
  destruct (stage_mod_proc p np s l n _ s4 l2 q4 (set_p_name nm) St Hne (Hl _)) as [R5 St5]. rewrite filled_twice in St5.
  destruct (stage_mod_proc p np s l n _ _ l2 _ (set_p_state RUNNABLE) St5 Hne (Hl _)) as [R6 St6]. rewrite filled_twice in St6.
  set (s6 := with_proc np _ (with_proc np _ s4)) in *. pose proof (kframe_conts _ _ (proj1 (sg_step _ _ _ _ _ _ _ St6))) as Hcs.
  destruct (Forall2_lookup_l _ _ _ ci c Hcs Hc) as (c' & Hc' & Hsame).
  assert (Hps : k_procs s6 = <[np := set_p_state RUNNABLE (set_p_name nm q4)]> (k_procs s)) by exact (stage_procs _ _ _ _ _ _ _ St6).
  exists nm, c', s6. split_and!; [exact Hcp|exact St6|done|done|done|].
  intros pid r s' Re. eapply runs_bind; [by apply runs_valid|]. eapply runs_bind; [exact R5|]. eapply runs_bind; [exact R6|].
  rewrite Hci. eapply runs_bind; [apply runs_numproc; rewrite Hps, length_insert; apply F|]. eapply runs_bind; [apply runs_ret|].
  eapply runs_bind; [by apply runs_get_cont|]. rewrite Hps, (members_insert ci _ np _ (set_p_state RUNNABLE q)) by done. exact Re.
Qed.

Lemma fork_reaches s l p pr np q ci c cwd x To Lo :
  let n := (6 + 3 * size_pages (p_sz pr))%nat in
  forker s p pr np q -> forkable s pr q ci c cwd x -> addr_space s l (p_pagetable pr) (p_sz pr) To Lo ->
  page_ok (p_tf pr) -> p_tf pr ∉ l -> ~ scarce n s l ->
  exists tf root nm T L c' s6 l6, let child := child_of_fork p pr q (k_nextpid s) tf root nm in
    safestrcpy (p_name q) (p_name pr) 16 = Some nm /\ stage p s l n (filled pr cwd x np child s) s6 l6 /\
    cloned s l Lo (p_sz pr) s6 l6 root tf T L /\ trapframe_copied (k_mem s) (p_tf pr) (k_mem s6) tf /\ root <> 0 /\
    k_conts s6 !! ci = Some c' /\ same_but_memused c c' /\
    forall r s', runs (fork_end np ci c' (members ci (<[np := set_p_state RUNNABLE q]> (k_procs s))) (k_nextpid s)) s6 r s' -> runs fork s r s'.
Proof.
  intros n F B Him Hptf Hpl Hsc. destruct (forker_ne _ _ _ _ _ F) as [Hne Hq]. pose proof (vm_alloc _ _ _ _ _ (im_vm _ _ _ _ _ _ Him)) as Hok.
  destruct (stage_allocproc s l p pr np q F Hok) as (tf & root & T1 & l1 & s1 & R1 & Htf & Hroot & St1 & V1 & Ht1 & Ht2 & P1).
  { intros H. apply Hsc. eapply scarce_mono; [|exact H]. unfold n. lia. }
  set (nq := new_slot (k_nextpid s) tf root q) in *.
  destruct (stage_uvmcopy s l p pr To Lo _ s1 l1 root tf T1 Him St1 V1 Htf Ht1 Ht2 P1 Hsc) as (s2 & l2 & T & L & R2 & St2 & Cl2). fold n in St2.
  destruct (freeable_cons _ _ _ _ (cl_free _ _ _ _ _ _ _ _ _ _ Cl2)) as ((_ & Htl2 & _) & _).
  assert (Htl : tf ∈ l) by (apply (elem_of_list_to_set (C := gset Z)); rewrite <- P1; clear; set_solver).
  destruct (stage_registers s l n p pr np q nq s2 l2 F St2 Htf Htl Htl2) as (s3 & St3 & M3 & R3).
  destruct (stage_references s l n p pr np q ci c cwd x _ s3 l2 F B St3 eq_refl) as (s4 & St4 & M4 & R4).
  destruct (stage_named s l n p pr np q ci c cwd x _ s4 l2 F B St4 eq_refl eq_refl) as (nm & c' & s6 & Hnm & St6 & M6 & Hc' & Hsame & R6).
  rewrite <- (proj1 (fb_cwd _ _ _ _ _ _ _ B)) in St6. rewrite M4, M3 in M6. cbn [p_tf nq new_slot set_p_context set_p_pagetable set_p_tf] in M6.
  exists tf, root, nm, T, L, c', s6, l2. split_and!; [exact Hnm|exact St6| | | |done|done|].
  - apply (cloned_to _ _ _ _ s2); [done|apply St6|]. rewrite M6. by apply same_trapframe, page_phys.
  - rewrite M6. apply trapframe_mem_copied. intros off Hoff. apply (sg_mem _ _ _ _ _ _ _ St2). pose proof (page_phys _ Hptf) as [_ ?].
    rewrite (pg_in (p_tf pr)) by (done || lia). clear - Hpl. set_solver.
  - pose proof (page_ok_pos root Hroot). lia.
  - intros r s' Re. apply (runs_fork s p np pr nq s1 s2 r s'); [|exact R1| | |exact R2|].
    + destruct F as [Hst Hcur _ _ _ _ _]. eapply runs_bind; [by apply runs_myproc|]. rewrite Hcur. apply runs_ret.
    + rewrite (stage_procs _ _ _ _ _ _ _ St1). cbn. rewrite list_lookup_insert_ne by done. apply F.
    + rewrite (stage_procs _ _ _ _ _ _ _ St1). by eapply (lookup_with_proc np q).
    + unfold fork_fill. apply R3, R4. exact (R6 _ _ _ Re).
Qed.

(** The message and the release of the slot do not touch memory. *)

Lemma alloc_ok_conts s l ci c c' : alloc_ok s l -> k_conts s !! ci = Some c -> alloc_ok (set_k_conts (<[ci := c']> (k_conts s)) s) l.
Proof.
  intros (Hc & Hf & H1 & H2) Hci. split; [|by split]. destruct Hc as [?|(cj & cc & i & pr & Hi & Hp & Hpc & Hcc)]; [by left|right].
  destruct (decide (cj = ci)) as [->|Hne].
  - exists ci, c', i, pr. split_and!; try done. apply list_lookup_insert_eq. by eapply lookup_lt_Some.
  - exists cj, cc, i, pr. split_and!; try done. cbn. by rewrite list_lookup_insert_ne.
Qed.

Lemma runs_allocvpid ci c s :
  Lvpid ci ∉ k_held s -> k_conts s !! ci = Some c ->
  runs (allocvpid ci) s (c_nextvpid c) (set_k_conts (<[ci := set_c_nextvpid (i32 (c_nextvpid c + 1)) c]> (k_conts s)) s).
Proof.
  intros Hl Hc. unfold allocvpid. eapply runs_bind; [by apply runs_acquire|]. eapply runs_bind; [by apply runs_get_cont|].
  eapply runs_bind; [by apply (runs_mod_cont ci _ c)|]. eapply runs_bind; [|apply runs_ret].
  eapply runs_release_to; [apply held_in|]. cbn. rewrite held_release by done. by destruct s.
Qed.

(** The child and the state that a successful fork leaves, but for the memory. *)

Definition placed (ci : nat) (c : container) (q : proc) : proc := set_p_vpid (c_nextvpid c) (set_p_container (Some ci) q).

Definition forked (pr : proc) (ci : nat) (c : container) (cwd : nat) (x : inode) (np : nat) (child : proc) (s : kst) : kst :=
  set_k_conts (<[ci := set_c_nextvpid (i32 (c_nextvpid c + 1)) c]> (k_conts s))
    (referenced pr cwd x (with_proc np (placed ci c child) (set_k_nextpid (i32 (k_nextpid s + 1)) s))).

(** What the successful end of fork leaves of the state [s6]. *)

Definition admitted (np ci : nat) (c' : container) (child : proc) (s6 : kst) : kst :=
  set_k_held ∅ (with_proc np (placed ci c' child) (set_k_conts (<[ci := set_c_nextvpid (i32 (c_nextvpid c' + 1)) c']> (k_conts s6)) s6)).

Lemma runs_fork_admitted np ci c' n pid child s6 :
  k_held s6 = {[Lproc np]} -> k_conts s6 !! ci = Some c' -> k_procs s6 !! np = Some child -> n < c_maxproc c' ->
  runs (fork_end np ci c' n pid) s6 pid (admitted np ci c' child s6).
Proof.
  intros Hh Hc Hq Hn. unfold fork_end. destruct (Z.leb_spec (c_maxproc c') n); [lia|].
  eapply runs_bind; [by apply runs_mod_proc_to|]. eapply runs_bind; [apply (runs_allocvpid ci c'); [cbn; rewrite Hh; clear; set_solver|done]|].
  eapply runs_bind; [eapply runs_mod_proc_to; by eapply (lookup_with_proc np child)|]. eapply runs_bind; [|apply runs_ret].
  eapply runs_release_to; [cbn; rewrite Hh; by apply elem_of_singleton|]. unfold admitted, with_proc. cbn. rewrite Hh.
  rewrite list_insert_insert_eq. replace ({[Lproc np]} ∖ {[Lproc np]} : gset lock) with (∅ : gset lock) by (clear; set_solver). by destruct s6.
Qed.

Lemma kstep_admitted s pr ci c c' cwd x np child s6 :
  k_held s = ∅ -> kstep (filled pr cwd x np child s) s6 -> k_conts s !! ci = Some c -> k_conts s6 !! ci = Some c' -> same_but_memused c c' ->
  kstep (forked pr ci c cwd x np child s) (admitted np ci c' child s6).
Proof.
  intros Hh [(m & f & cs & o & h & -> & Hcs) Hhl] Hc Hc' Hsame. cbn in Hc', Hcs. split; [|cbn; by rewrite Hh].
  exists m, f, (<[ci := set_c_nextvpid (i32 (c_nextvpid c' + 1)) c']> cs), o, ∅. split.
  - unfold admitted, forked, filled, referenced, with_inode, with_slot, with_proc. cbn. rewrite list_insert_insert_eq. rewrite Hsame. done.
  - cbn. apply Forall2_insert; [done|]. unfold same_but_memused in *. rewrite Hsame. by destruct c.
Qed.

(** C5: fork.  When the process table has an unused slot, more pages can be had than a
    copy may need (a trapframe, five for the page table, three for each page), and the
    container is below its limit of processes, fork returns the new pid.  The first unused
    slot then holds the child: runnable, in the container of the parent under the next
    number there, with the size, the name, the files and the directory of the parent, each
    of which has one more reference.  Its pages come off the free list, are mapped with the
    same flags and hold the same bytes as those of the parent; its registers are those of
    the parent but for a0, which is 0.  Nothing else changes, and no lock is left held.
    A descriptor that is closed in the parent is in the child what the slot had left. *)
Theorem fork_child s l p pr np q ci c cwd x To Lo :
  forker s p pr np q -> forkable s pr q ci c cwd x -> addr_space s l (p_pagetable pr) (p_sz pr) To Lo ->
  page_ok (p_tf pr) -> p_tf pr ∉ l -> ~ scarce (6 + 3 * size_pages (p_sz pr)) s l ->
  members ci (<[np := set_p_state RUNNABLE q]> (k_procs s)) < c_maxproc c ->
  exists s' l' tf root nm T L, runs fork s (k_nextpid s) s' /\ cstring nm = cstring (take 15 (p_name pr)) /\
    kstep (forked pr ci c cwd x np (child_of_fork p pr q (k_nextpid s) tf root nm) s) s' /\
    same_except (list_to_set l) (k_mem s) (k_mem s') /\
    cloned s l Lo (p_sz pr) s' l' root tf T L /\ trapframe_copied (k_mem s) (p_tf pr) (k_mem s') tf.
Proof.
  intros F B Him Hptf Hpl Hsc Hlim. destruct (forker_ne _ _ _ _ _ F) as [Hne Hq].
  destruct (fork_reaches s l p pr np q ci c cwd x To Lo F B Him Hptf Hpl Hsc) as (tf & root & nm & T & L & c' & s6 & l6 & Hnm & St & Cl & Tf & _ & Hc' & Hsame & Hgo).
  set (child := child_of_fork p pr q (k_nextpid s) tf root nm) in *. pose proof (sg_step _ _ _ _ _ _ _ St) as S6.
  assert (Hq6 : k_procs s6 !! np = Some child) by (rewrite (stage_procs _ _ _ _ _ _ _ St); by eapply (lookup_with_proc np q)).
  assert (Hmax : c_maxproc c' = c_maxproc c) by (by rewrite Hsame).
  exists (admitted np ci c' child s6), l6, tf, root, nm, T, L. split_and!; [| | |apply St| |exact Tf].
  - apply Hgo. apply runs_fork_admitted; [by rewrite (proj2 S6)|done|done|lia].
  - destruct (fb_name _ _ _ _ _ _ _ B) as [Hn1 Hn2]. destruct (safestrcpy_text 15 (p_name q) (p_name pr)) as (nm' & Hcp & _ & Ht); [lia|lia|].
    change (safestrcpy (p_name q) (p_name pr) 16) with (safestrcpy_from (p_name q) (p_name pr) 15) in Hnm. rewrite Hnm in Hcp. by injection Hcp as <-.
  - apply kstep_admitted; [apply F|done|apply B|done|done].
  - apply (cloned_to _ _ _ _ s6); [exact Cl| |done]. apply alloc_ok_held; [|apply not_elem_of_empty..].
    apply (neutral_alloc p _ _ _ (neutral_with_proc p np _ Hne)); [apply St|]. eapply alloc_ok_conts; [apply St|done].
Qed.

#[local] Opaque pages_from.

(** The free list is what it was, in another order. *)

Lemma cloned_given_back s l Lo sz s' l' root tf T L l2 :
  cloned s l Lo sz s' l' root tf T L -> NoDup l -> NoDup l2 -> l2 ≡ₚ pages_of T L tf sz ++ l' -> l2 ≡ₚ l.
Proof.
  intros Cl Hl Hl2 Hp. apply NoDup_Permutation; [done|done|]. intros a. rewrite Hp. unfold pages_of.
  pose proof (pages_from_tables root T (pt_tree _ _ _ _ (vm_pt _ _ _ _ _ (im_vm _ _ _ _ _ _ (cl_space _ _ _ _ _ _ _ _ _ _ Cl))))) as HT.
  pose proof (cl_pool _ _ _ _ _ _ _ _ _ _ Cl) as Hpool. rewrite <- HT in Hpool. rewrite <- (elem_of_list_to_set (C := gset Z) a l), <- Hpool.
  rewrite !elem_of_union, !elem_of_list_to_set, elem_of_app, elem_of_cons, elem_of_app, elem_of_cons. tauto.
Qed.

(** The message can be printed. *)

Lemma printf_max_proc nm : exists msg, format (cstr max_proc_msg) [VStr (Some nm)] = Some msg.
Proof. by eexists. Qed.

(** C8: fork of a process whose container is at its limit of processes, the child counted
    by the container that its slot was used for last: it returns -1, with every page back in
    the free list and the slot unused; but the files and the directory of the parent keep
    the references that were added for the child, and the files stay in the slot, where the
    child of the next process that uses it finds them open. *)
Theorem fork_at_limit s l p pr np q ci c cwd x To Lo :
  forker s p pr np q -> forkable s pr q ci c cwd x -> addr_space s l (p_pagetable pr) (p_sz pr) To Lo ->
  page_ok (p_tf pr) -> p_tf pr ∉ l -> ~ scarce (6 + 3 * size_pages (p_sz pr)) s l -> 0 < p_sz pr -> Forall is_byte (c_name c) ->
  c_maxproc c <= members ci (<[np := set_p_state RUNNABLE q]> (k_procs s)) ->
  exists s' l' tf root nm, runs fork s (-1) s' /\ alloc_ok s' l' /\ l' ≡ₚ l /\ same_except (list_to_set l) (k_mem s) (k_mem s') /\
    kstep (referenced pr cwd x (with_proc np (freed_proc (child_of_fork p pr q (k_nextpid s) tf root nm))
      (set_k_nextpid (i32 (k_nextpid s + 1)) s))) s'.
Proof.
  intros F B Him Hptf Hpl Hsc Hpos Hbytes Hlim. destruct (forker_ne _ _ _ _ _ F) as [Hne Hq].
  destruct (fork_reaches s l p pr np q ci c cwd x To Lo F B Him Hptf Hpl Hsc) as (tf & root & nm & T & L & c' & s6 & l6 & Hnm & St & Cl & Tf & Hroot & Hc' & Hsame & Hgo).
  set (child := child_of_fork p pr q (k_nextpid s) tf root nm) in *. pose proof (sg_step _ _ _ _ _ _ _ St) as S6.
  assert (Hq6 : k_procs s6 !! np = Some child) by (rewrite (stage_procs _ _ _ _ _ _ _ St); by eapply (lookup_with_proc np q)).
  destruct (runs_freeproc s6 l6 np child T L) as (s7 & l7 & R7 & S7 & A7 & P7 & M7); [apply Cl|apply Cl|done|done|].
  destruct (printf_max_proc (c_name c')) as [msg Hmsg].
  assert (E7 : k_held s7 = {[Lproc np]}) by (rewrite (proj2 S7); cbn; by rewrite (proj2 S6)). set (s8 := set_k_held ∅ s7).
  assert (A8 : alloc_ok s8 l7) by (apply alloc_ok_held; [done|apply not_elem_of_empty..]).
  assert (Hl7 : l7 ≡ₚ l).
  { pose proof (vm_alloc _ _ _ _ _ (im_vm _ _ _ _ _ _ Him)) as (_ & (_ & Hnd & _) & _). destruct A7 as (_ & (_ & Hnd7 & _) & _).
    eapply cloned_given_back; [exact Cl|done|done|]. rewrite P7. unfold given_back. change (p_sz child) with (p_sz pr).
    rewrite (proj2 (Z.ltb_lt 0 (p_sz pr)) Hpos). reflexivity. }
  exists (emit msg s8), l7, tf, root, nm. split_and!.
  - apply Hgo. unfold fork_end. destruct (Z.leb_spec (c_maxproc c') (members ci (<[np := set_p_state RUNNABLE q]> (k_procs s)))) as [_|Hgt]; [|rewrite Hsame in Hgt; cbn in Hgt; lia].
    eapply runs_bind; [exact R7|]. eapply runs_bind; [eapply runs_release_to; [rewrite E7; by apply elem_of_singleton|]; rewrite E7, difference_diag_L; reflexivity|].
    eapply runs_bind; [|apply runs_ret]. apply runs_printf; [|exact Hmsg|intros _; apply not_elem_of_empty].
    repeat constructor. rewrite Hsame. exact Hbytes.
  - eapply kstep_alloc_ok; [split; [apply kframe_emit|done]|exact A8|apply A8].
  - exact Hl7.
  - transitivity (k_mem s6); [apply St|]. eapply same_except_mono; [|exact M7]. rewrite <- (cl_pool _ _ _ _ _ _ _ _ _ _ Cl). unfold pages_of.
    rewrite !list_to_set_cons, list_to_set_app_L.
    rewrite (pages_from_tables root T (pt_tree _ _ _ _ (vm_pt _ _ _ _ _ (im_vm _ _ _ _ _ _ (cl_space _ _ _ _ _ _ _ _ _ _ Cl))))). clear. set_solver.
  - split; [|cbn; by rewrite (fk_held _ _ _ _ _ F)]. transitivity s8; [|apply kframe_emit]. transitivity s7; [|apply kframe_held].
    transitivity (with_proc np (freed_proc child) s6); [|apply S7].
    transitivity (filled pr cwd x np (freed_proc child) s); [exact (kframe_held _ {[Lproc np]})|].
    rewrite <- (filled_twice pr cwd x np child). exact (proj1 (kstep_with_proc np (freed_proc child) _ _ S6)).
Qed.

(** fork when every slot is in use. *)

Lemma fork_full s p :
  k_started s <> 0 -> k_cur s = Some p -> length (k_procs s) = NPROC -> k_held s = ∅ ->
  (forall i q, k_procs s !! i = Some q -> ~ unused q) -> runs fork s (-1) s.
Proof.
  intros Hst Hcur Hlen Hh Hno. unfold fork. eapply runs_bind; [eapply runs_bind; [by apply runs_myproc|]; rewrite Hcur; apply runs_ret|].
  apply (runs_bind _ _ _ None s); [|apply runs_ret]. unfold allocproc. apply (runs_bind _ _ _ None s); [|apply runs_ret]. apply runs_for_ret_none.
  intros j Hj%elem_of_seq. destruct (lookup_lt_is_Some_2 (k_procs s) j) as [q' Hq']; [lia|].
  assert (Hl : Lproc j ∉ k_held s) by (rewrite Hh; apply not_elem_of_empty).
  eapply runs_bind; [by apply runs_acquire|]. eapply runs_bind; [by apply runs_get_proc|].
  rewrite (bool_decide_false (p_state q' = UNUSED)) by exact (Hno j q' Hq'). eapply runs_bind; [by apply runs_release_back|apply runs_ret].
Qed.

End Fork.
