(* ===== verification/Exitspec.v ===== *)
(** * The exit of a process

    A process that exits closes its files, leaves its directory, gives its children to
    init, wakes its parent and stays as a zombie until the parent waits for it. *)

From S2P Require Import Prelude Monad Riscv Kstring Kstate Spinlock Printf Bio Diskspec Log Fs Inodespec Dirspec File.
From S2P Require Import Kalloc Vm Pagetable Uvm Ucopy Sched Schedspec Proc Procspec Forkspec.

Section Exit.
Context `{KI : KernelImage}.

(** ** The log *)

(** No transaction is being committed and there is room for one more; one that ends
    leaves nothing to be written. *)

Record log_quiet (l : log) : Prop := {
  lq_committing : l_committing l = 0;
  lq_room : l_n l + (l_outstanding l + 1) * MAXOPBLOCKS <= LOGSIZE;
  lq_empty : l_outstanding l = 0 -> l_n l = 0;
}.

Lemma runs_begin_quiet s :
  Llog ∉ k_held s -> log_quiet (k_log s) -> runs begin_op s tt (set_k_log (set_l_outstanding (l_outstanding (k_log s) + 1) (k_log s)) s).
Proof.
  intros Hh [Hc Hr _]. unfold begin_op. eapply runs_bind; [by apply runs_acquire|]. apply runs_wait_stop. eapply runs_bind; [apply runs_gets|].
  cbn [k_log set_k_held]. rewrite Hc. change (negb (0 =? 0)) with false. cbv iota.
  destruct (Z.ltb_spec LOGSIZE (l_n (k_log s) + (l_outstanding (k_log s) + 1) * MAXOPBLOCKS)); [lia|].
  eapply runs_bind; [apply runs_modify|]. eapply runs_bind; [|apply runs_ret].
  eapply runs_release_to; [apply held_in|]. cbn. rewrite held_release by done. by destruct s.
Qed.

Lemma runs_end_quiet s l :
  k_held s = ∅ -> length (k_procs s) = NPROC -> log_quiet l -> k_log s = set_l_outstanding (l_outstanding l + 1) l ->
  runs end_op s tt (set_k_log l (set_k_procs (wake ChLog <$> k_procs s) s)).
Proof.
  intros Hh Hlen [Hc _ He] Hlog. assert (Hno : forall k, k ∉ k_held s) by (intros k; rewrite Hh; apply not_elem_of_empty).
  assert (Hl : set_l_outstanding (l_outstanding l + 1 - 1) (set_l_outstanding (l_outstanding l + 1) l) = l) by (rewrite Z.add_simpl_r; by destruct l).
  assert (Hnp : forall i, Lproc i ∉ {[Llog]} ∪ k_held s) by (intros i; rewrite Hh; set_solver).
  assert (Hd : ({[Llog]} ∪ k_held s) ∖ {[Llog]} = k_held s) by (by apply held_release).
  unfold end_op. eapply runs_bind; [by apply runs_acquire|]. eapply runs_bind; [apply runs_modify|]. eapply runs_bind; [apply runs_gets|].
  cbn [k_log set_k_log set_k_held]. rewrite Hlog. cbn [l_outstanding l_committing set_l_outstanding]. rewrite Hl, Z.add_simpl_r.
  replace (l_committing l) with 0 by done. change (negb (0 =? 0)) with false. cbv iota. set (s1 := set_k_log l _).
  destruct (Z.eqb_spec (l_outstanding l) 0) as [Ho|Ho].
  - eapply runs_bind; [eapply runs_bind; [apply runs_modify|apply runs_ret]|].
    eapply runs_bind; [apply runs_release; apply held_in|].
    eapply runs_bind; [unfold commit; eapply runs_bind; [apply runs_gets|]; cbn; rewrite (He Ho); apply runs_ret|].
    eapply runs_bind; [apply runs_acquire; cbn; rewrite Hd; done|]. eapply runs_bind; [apply runs_modify|].
    eapply runs_bind; [apply runs_wakeup; [done|intros i; cbn; rewrite Hd; apply Hnp]|].
    eapply runs_release_to; [cbn; rewrite Hd; apply held_in|]. cbn. rewrite !Hd. destruct s, l. cbn in *. by subst.
  - eapply runs_bind; [eapply runs_bind; [apply runs_wakeup; [done|exact Hnp]|apply runs_ret]|].
    eapply runs_bind; [|apply runs_ret]. eapply runs_release_to; [cbn; apply held_in|]. cbn. rewrite Hd. by destruct s.
Qed.

(** ** Waking one process, and giving children away *)

Lemma runs_wakeup1 i q s :
  Lproc i ∈ k_held s -> k_procs s !! i = Some q -> runs (wakeup1 i) s tt (set_k_procs (alter (wake (ChProc i)) i (k_procs s)) s).
Proof.
  intros Hh Hq. unfold wakeup1. eapply runs_bind; [apply runs_holding|]. rewrite bool_decide_true by done. cbn [negb].
  eapply runs_bind; [by apply runs_get_proc|]. rewrite <- (insert_is_alter (wake (ChProc i)) (k_procs s) i q Hq). unfold wake. rewrite andb_comm.
  destruct (bool_decide (p_state q = SLEEPING) && bool_decide (p_chan q = Some (ChProc i))); [by apply runs_mod_proc|].
  rewrite list_insert_id by done. rewrite set_k_procs_id. apply runs_ret.
Qed.

(** A child of [p] has init for its parent from now on. *)

Definition adopt (p init : nat) (q : proc) : proc := if bool_decide (p_parent q = Some p) then set_p_parent (Some init) q else q.

Lemma adopt_other p init q : p_parent q <> Some p -> adopt p init q = q.
Proof. intros H. unfold adopt. by rewrite bool_decide_false by done. Qed.

Lemma runs_reparent p init s :
  length (k_procs s) = NPROC -> k_initproc s = Some init -> init <> p ->
  (forall j q, k_procs s !! j = Some q -> child_of p q -> Lproc j ∉ k_held s) ->
  runs (reparent p) s tt (set_k_procs (adopt p init <$> k_procs s) s).
Proof.
  intros Hlen Hin Hne Hch. unfold reparent.
  set (I := fun s' : kst => length (k_procs s') = NPROC /\ k_held s' = k_held s /\ k_initproc s' = Some init /\
    forall j q, k_procs s' !! j = Some q -> child_of p q -> Lproc j ∉ k_held s).
  match goal with |- runs (for_each _ ?body) _ _ _ => destruct (runs_for_each_fold procs body (upd (adopt p init)) I s) as [Hr _] end.
  - by split_and!.
  - intros j s' Hj (Hl & Hh & Hi & Hc). apply elem_of_seq in Hj. destruct (lookup_lt_is_Some_2 (k_procs s') j) as [q Hq]; [lia|]. split.
    + eapply runs_bind; [by apply runs_get_proc|]. unfold upd. rewrite <- (insert_is_alter _ _ _ _ Hq). unfold adopt.
      destruct (decide (p_parent q = Some p)) as [E|E];
        [rewrite !(bool_decide_true (p_parent q = Some p)) by done|rewrite !(bool_decide_false (p_parent q = Some p)) by done; rewrite list_insert_id, set_k_procs_id by done; apply runs_ret].
      assert (Hn : Lproc j ∉ k_held s') by (rewrite Hh; by apply (Hc j q)).
      eapply runs_bind; [by apply runs_acquire|]. eapply runs_bind; [apply runs_gets|]. cbn [k_initproc set_k_held]. rewrite Hi.
      eapply runs_bind; [by apply (runs_mod_proc j _ q)|]. eapply runs_release_to; [cbn; apply held_in|]. cbn. rewrite held_release by done. by destruct s'.
    + split_and!; [cbn; by rewrite length_alter|done|done|]. intros k q' Hk Hcq. cbn in Hk. destruct (decide (j = k)) as [<-|Hjk].
      * rewrite list_lookup_alter_eq, Hq in Hk. injection Hk as <-. unfold child_of, adopt in Hcq. case_bool_decide as E; [|done]. cbn in Hcq. congruence.
      * rewrite list_lookup_alter_ne in Hk by done. by apply (Hc k q').
  - rewrite fold_upd in Hr. unfold procs in Hr. rewrite <- Hlen, foldl_alter, Hlen in Hr. exact Hr.
Qed.

Lemma wake_awake ch q : p_state q <> SLEEPING -> wake ch q = q.
Proof. intros H. unfold wake. by rewrite bool_decide_false by done. Qed.

(** ** What closing a file changes

    When nothing has to be waited for, and no inode is deleted with its last reference. *)

Definition wake_all (ch : chan) (s : kst) : kst := set_k_procs (wake ch <$> k_procs s) s.

(** iput in a transaction of its own; the processes that wait for the log are woken. *)

Definition put_inode (ip : nat) (s : kst) : option kst :=
  x ← k_icache s !! ip;
  if bool_decide (0 < i_ref x < 2 ^ 31 /\ (i_ref x <> 1 \/ i_valid x = 0 \/ i_nlink x <> 0))
  then Some (wake_all ChLog (with_inode ip (set_i_ref (i_ref x - 1) x) s)) else None.

Definition my_container (s : kst) : option (nat * container) :=
  i ← k_cur s; p ← k_procs s !! i; ci ← p_container p; c ← k_conts s !! ci; Some (ci, c).

(** An end of a pipe is closed; the page goes with the second end. *)

Definition close_pipe (pi writable : Z) (s : kst) : option kst :=
  x ← k_pipes s !! pi;
  let w := negb (writable =? 0) in
  let y := if w then set_pi_writeopen 0 x else set_pi_readopen 0 x in
  let s1 := wake_all (if w then ChPipeR pi else ChPipeW pi) s in
  if (pi_readopen y =? 0) && (pi_writeopen y =? 0) then
    '(ci, c) ← my_container s;
    if bool_decide (page_ok pi) then Some (freed pi (charge ci c (-1) (set_k_pipes (delete pi (k_pipes s)) s1))) else None
  else Some (set_k_pipes (<[pi := y]> (k_pipes s)) s1).

Definition drop_file (f : nat) (s : kst) : option kst :=
  x ← k_ftable s !! f;
  if f_ref x <? 1 then None else
  if 1 <? f_ref x then Some (set_k_ftable (<[f := set_f_ref (f_ref x - 1) x]> (k_ftable s)) s) else
  let s1 := set_k_ftable (<[f := set_f_type FD_NONE (set_f_ref 0 x)]> (k_ftable s)) s in
  match f_type x with
  | FD_PIPE => close_pipe (f_pipe x) (f_writable x) s1
  | FD_INODE | FD_DEVICE => ip ← f_ip x; put_inode ip s1
  | FD_NONE => Some s1
  end.

Fixpoint drop_files (fds : list (option nat)) (s : kst) : option kst :=
  match fds with
  | [] => Some s
  | None :: fds => drop_files fds s
  | Some f :: fds => s1 ← drop_file f s; drop_files fds s1
  end.

(** A thread of process [p] without locks, and a log that takes its transactions at once. *)

Record free_thread (p : nat) (pr : proc) (s : kst) : Prop := {
  ft_started : k_started s <> 0;
  ft_cur : k_cur s = Some p;
  ft_proc : k_procs s !! p = Some pr;
  ft_running : p_state pr = RUNNING;
  ft_procs : length (k_procs s) = NPROC;
  ft_held : k_held s = ∅;
  ft_log : log_quiet (k_log s);
}.

Lemma ft_free p pr s k : free_thread p pr s -> k ∉ k_held s.
Proof. intros H. rewrite (ft_held _ _ _ H). apply not_elem_of_empty. Qed.

Lemma free_wake p pr s ch : free_thread p pr s -> free_thread p pr (wake_all ch s).
Proof.
  intros []. split; try done; cbn; [|by rewrite length_fmap]. rewrite list_lookup_fmap, ft_proc0. cbn. by rewrite wake_awake by (by rewrite ft_running0).
Qed.

Lemma my_container_cur s ci c : my_container s = Some (ci, c) -> cur_cont s ci c.
Proof.
  unfold my_container. intros H. destruct (k_cur s) as [i|] eqn:E1; [|done]. cbn in H. destruct (k_procs s !! i) as [p|] eqn:E2; [|done]. cbn in H.
  destruct (p_container p) as [ci'|] eqn:E3; [|done]. cbn in H. destruct (k_conts s !! ci') as [c'|] eqn:E4; [|done]. injection H as -> ->. by exists i, p.
Qed.

Lemma runs_put_inode ip p pr s s' :
  free_thread p pr s -> put_inode ip s = Some s' ->
  free_thread p pr s' /\ exists s1 s2, runs begin_op s tt s1 /\ k_procs s1 = k_procs s /\ runs (iput ip) s1 tt s2 /\ runs end_op s2 tt s'.
Proof.
  intros F H. unfold put_inode in H. destruct (k_icache s !! ip) as [x|] eqn:Hx; [|done]. cbn in H. case_bool_decide as Hc; [|done]. injection H as <-.
  split; [apply free_wake; by destruct F|]. destruct Hc as [Hr Hd]. pose proof F as []. set (s1 := set_k_log (set_l_outstanding (l_outstanding (k_log s) + 1) (k_log s)) s).
  exists s1, (with_inode ip (set_i_ref (i_ref x - 1) x) s1). split_and!; [apply runs_begin_quiet; [by eapply ft_free|done]|done| |].
  - by apply (runs_iput 1 2 ltac:(done) ltac:(done) s1 ip x).
  - pose proof (runs_end_quiet (with_inode ip (set_i_ref (i_ref x - 1) x) s1) (k_log s) ft_held0 ft_procs0 ft_log0 eq_refl) as R.
    replace (wake_all ChLog _) with (set_k_log (k_log s) (set_k_procs (wake ChLog <$> k_procs s) (with_inode ip (set_i_ref (i_ref x - 1) x) s1))); [exact R|by destruct s].
Qed.

Lemma runs_pipe_end pi x s (w : bool) :
  k_pipes s !! pi = Some x -> length (k_procs s) = NPROC -> (forall i, Lproc i ∉ k_held s) ->
  let y := if w then set_pi_writeopen 0 x else set_pi_readopen 0 x in
  runs (if w then mod_pipe pi (set_pi_writeopen 0) ;; wakeup (ChPipeR pi) else mod_pipe pi (set_pi_readopen 0) ;; wakeup (ChPipeW pi)) s tt
    (set_k_pipes (<[pi := y]> (k_pipes s)) (wake_all (if w then ChPipeR pi else ChPipeW pi) s)).
Proof.
  intros Hx Hlen Hno y. assert (Hm : forall f, runs (mod_pipe pi f) s tt (set_k_pipes (<[pi := f x]> (k_pipes s)) s)).
  { intros f. eapply runs_bind; [eapply runs_bind; [apply runs_gets|by apply runs_valid]|exact (runs_modify (fun s => set_k_pipes (<[pi := f x]> (k_pipes s)) s) s)]. }
  destruct w; (eapply runs_bind; [apply Hm|]); apply runs_wakeup; done.
Qed.

Lemma runs_close_pipe pi writable p pr s s' :
  free_thread p pr s -> close_pipe pi writable s = Some s' -> runs (pipeclose pi writable) s tt s' /\ free_thread p pr s'.
Proof.
  intros F H. pose proof F as []. unfold close_pipe in H. destruct (k_pipes s !! pi) as [x|] eqn:Hx; [|done]. cbn [mbind option_bind] in H.
  set (w := negb (writable =? 0)) in *. set (y := if w then set_pi_writeopen 0 x else set_pi_readopen 0 x) in *. set (ch := if w then ChPipeR pi else ChPipeW pi) in *.
  set (s0 := set_k_held ({[Lpipe pi]} ∪ k_held s) s). set (s1 := set_k_pipes (<[pi := y]> (k_pipes s)) (wake_all ch s)).
  assert (Hno : forall i, Lproc i ∉ k_held s0) by (intros i; cbn; rewrite ft_held0; set_solver).
  pose proof (runs_pipe_end pi x s0 w Hx ft_procs0 Hno) as R. cbv zeta in R. fold y ch in R.
  assert (Hrel : runs (release (Lpipe pi)) (set_k_pipes (<[pi := y]> (k_pipes s0)) (wake_all ch s0)) tt s1).
  { eapply runs_release_to; [cbn; apply held_in|]. cbn. rewrite held_release by (by eapply ft_free). by destruct s. }
  assert (F1 : free_thread p pr (wake_all ch s)) by (by apply free_wake).
  assert (Hpre : forall v, runs (if (pi_readopen y =? 0) && (pi_writeopen y =? 0) then
      release (Lpipe pi) ;; modify (fun s => set_k_pipes (delete pi (k_pipes s)) s) ;; kfree pi else release (Lpipe pi))
      (set_k_pipes (<[pi := y]> (k_pipes s0)) (wake_all ch s0)) tt v -> runs (pipeclose pi writable) s tt v).
  { intros v Hv. unfold pipeclose. eapply runs_bind; [apply runs_acquire; by eapply ft_free|]. fold w s0. eapply runs_bind; [exact R|].
    eapply runs_bind; [eapply runs_bind; [apply runs_gets|apply runs_valid; cbn; apply lookup_insert_eq]|exact Hv]. }
  destruct ((pi_readopen y =? 0) && (pi_writeopen y =? 0)).
  - destruct (my_container s) as [[ci c]|] eqn:Hc; [|done]. cbn in H. case_bool_decide as Hpa; [|done]. injection H as <-.
    apply my_container_cur in Hc as (i & q & Hi & Hq & Hci & Hcc). assert (i = p) as -> by congruence. assert (q = pr) as -> by congruence.
    split; [|by destruct F1]. apply Hpre. eapply runs_bind; [exact Hrel|]. eapply runs_bind; [apply runs_modify|]. cbn [k_pipes set_k_pipes s1].
    set (s2 := set_k_pipes _ s1). assert (E2 : s2 = set_k_pipes (delete pi (k_pipes s)) (wake_all ch s)) by (unfold s2, s1; cbn; by rewrite delete_insert_eq).
    rewrite E2. assert (Hcur : cur_cont (set_k_pipes (delete pi (k_pipes s)) (wake_all ch s)) ci c) by (exists p, pr; split_and!; try done; by destruct F1).
    unfold kfree. eapply runs_bind; [by eapply runs_mycont|]. eapply runs_bind; [by apply runs_discharge|]. apply runs_kfree_put; [done|exact (ft_free p pr s Lkmem F)].
  - injection H as <-. split; [by apply Hpre|by destruct F1].
Qed.

Lemma runs_drop_file f p pr s s' : free_thread p pr s -> drop_file f s = Some s' -> runs (fileclose f) s tt s' /\ free_thread p pr s'.
Proof.
  intros F H. unfold drop_file in H. destruct (k_ftable s !! f) as [x|] eqn:Hx; [|done]. cbn [mbind option_bind] in H.
  assert (Hlt : (f < length (k_ftable s))%nat) by (by eapply lookup_lt_Some).
  assert (Hget : forall y s, k_ftable s !! f = Some y -> runs (get_file f) s y s) by (intros y s2 H2; eapply runs_bind; [apply runs_gets|by apply runs_valid]).
  assert (Hmod : forall g y s, k_ftable s !! f = Some y -> runs (mod_file f g) s tt (set_k_ftable (<[f := g y]> (k_ftable s)) s)).
  { intros g y s2 H2. eapply runs_bind; [by apply Hget|]. exact (runs_modify (fun s => set_k_ftable (<[f := g y]> (k_ftable s)) s) s2). }
  unfold fileclose. destruct (Z.ltb_spec (f_ref x) 1) as [|Hr1]; [done|].
  set (s0 := set_k_held ({[Lftable]} ∪ k_held s) s). set (x1 := set_f_ref (f_ref x - 1) x).
  assert (Hpre : forall v, runs (if 0 <? f_ref x - 1 then release Lftable else
      ff <- get_file f ;; mod_file f (set_f_ref 0) ;; mod_file f (set_f_type FD_NONE) ;; release Lftable ;;
      match f_type ff with FD_PIPE => pipeclose (f_pipe ff) (f_writable ff)
      | FD_INODE | FD_DEVICE => begin_op ;; ip <- valid (f_ip ff) ;; iput ip ;; end_op | FD_NONE => ret tt end)
      (set_k_ftable (<[f := x1]> (k_ftable s0)) s0) tt v -> runs (fileclose f) s tt v).
  { intros v Hv. unfold fileclose. eapply runs_bind; [apply runs_acquire; by eapply ft_free|]. eapply runs_bind; [by apply (Hget x)|]. destruct (Z.ltb_spec (f_ref x) 1); [lia|].
    eapply runs_bind; [by apply (Hmod _ x)|exact Hv]. }
  assert (Hback : forall fs, set_k_held (({[Lftable]} ∪ k_held s) ∖ {[Lftable]}) (set_k_ftable fs s0) = set_k_ftable fs s).
  { intros fs. cbn. rewrite held_release by (by eapply ft_free). by destruct s. }
  destruct (Z.ltb_spec 1 (f_ref x)) as [Hr2|Hr2].
  - injection H as <-. split; [|by destruct F]. apply Hpre. destruct (Z.ltb_spec 0 (f_ref x - 1)); [|lia]. eapply runs_release_to; [cbn; apply held_in|apply Hback].
  - set (s1 := set_k_ftable _ s) in H. assert (F1 : free_thread p pr s1) by (by destruct F).
    assert (Hend : forall v, runs (match f_type x with FD_PIPE => pipeclose (f_pipe x) (f_writable x)
      | FD_INODE | FD_DEVICE => begin_op ;; ip <- valid (f_ip x) ;; iput ip ;; end_op | FD_NONE => ret tt end) s1 tt v -> runs (fileclose f) s tt v).
    { intros v Hv. apply Hpre. destruct (Z.ltb_spec 0 (f_ref x - 1)); [lia|]. eapply runs_bind; [apply (Hget x1); by apply list_lookup_insert_eq|].
      eapply runs_bind; [apply (Hmod _ x1); by apply list_lookup_insert_eq|].
      eapply runs_bind; [apply (Hmod _ (set_f_ref 0 x1)); cbn; rewrite list_insert_insert_eq; by apply list_lookup_insert_eq|].
      eapply runs_bind; [eapply runs_release_to; [cbn; apply held_in|]|exact Hv]. cbn [k_ftable set_k_ftable]. rewrite !list_insert_insert_eq. apply Hback. }
    destruct (f_type x) eqn:Ety.
    + injection H as <-. split; [|done]. apply Hend, runs_ret.
    + destruct (runs_close_pipe _ _ p pr s1 s' F1 H) as [R F']. split; [by apply Hend|done].
    + destruct (f_ip x) as [ip|] eqn:Eip; [|done]. cbn in H. destruct (runs_put_inode ip p pr s1 s' F1 H) as (F' & t1 & t2 & R1 & _ & R2 & R3). split; [|done]. apply Hend.
      eapply runs_bind; [exact R1|]. eapply runs_bind; [by apply runs_valid|]. by eapply runs_bind.
    + destruct (f_ip x) as [ip|] eqn:Eip; [|done]. cbn in H. destruct (runs_put_inode ip p pr s1 s' F1 H) as (F' & t1 & t2 & R1 & _ & R2 & R3). split; [|done]. apply Hend.
      eapply runs_bind; [exact R1|]. eapply runs_bind; [by apply runs_valid|]. by eapply runs_bind.
Qed.

(** The entry of the process itself does not matter to it. *)

Lemma wake_all_with p q ch s : p_state q = RUNNING -> wake_all ch (with_proc p q s) = with_proc p q (wake_all ch s).
Proof. intros Hq. unfold wake_all, with_proc. cbn. rewrite list_fmap_insert, wake_awake by (by rewrite Hq). by destruct s. Qed.

Lemma put_inode_with p q ip s s' : p_state q = RUNNING -> put_inode ip s = Some s' -> put_inode ip (with_proc p q s) = Some (with_proc p q s').
Proof.
  intros Hq H. unfold put_inode in *. change (k_icache (with_proc p q s)) with (k_icache s). destruct (k_icache s !! ip) as [x|]; [|done]. cbn in *.
  case_bool_decide; [|done]. injection H as <-. f_equal. rewrite <- wake_all_with by done. done.
Qed.

Lemma my_container_with p pr q s : k_cur s = Some p -> k_procs s !! p = Some pr -> p_container q = p_container pr -> my_container (with_proc p q s) = my_container s.
Proof.
  intros Hc Hp Hq. unfold my_container. cbn. rewrite Hc. cbn. rewrite list_lookup_insert_eq by (by eapply lookup_lt_Some). rewrite Hp. cbn. by rewrite Hq.
Qed.

Lemma close_pipe_with p pr q pi w s s' :
  free_thread p pr s -> p_state q = RUNNING -> p_container q = p_container pr -> close_pipe pi w s = Some s' ->
  close_pipe pi w (with_proc p q s) = Some (with_proc p q s').
Proof.
  intros F Hq Hc H. unfold close_pipe in *. rewrite (my_container_with p pr q s (ft_cur _ _ _ F) (ft_proc _ _ _ F) Hc).
  change (k_pipes (with_proc p q s)) with (k_pipes s). destruct (k_pipes s !! pi) as [x|]; [|done]. cbn [mbind option_bind] in *. rewrite wake_all_with by done.
  destruct (_ && _); [|by injection H as <-]. destruct (my_container s) as [[ci c]|]; [|done]. cbn in *. case_bool_decide; [|done]. by injection H as <-.
Qed.

Lemma drop_file_with p pr q f s s' :
  free_thread p pr s -> p_state q = RUNNING -> p_container q = p_container pr -> drop_file f s = Some s' -> drop_file f (with_proc p q s) = Some (with_proc p q s').
Proof.
  intros F Hq Hc H. unfold drop_file in *. change (k_ftable (with_proc p q s)) with (k_ftable s). destruct (k_ftable s !! f) as [x|]; [|done]. cbn [mbind option_bind] in *.
  destruct (f_ref x <? 1); [done|]. destruct (1 <? f_ref x); [by injection H as <-|]. set (s1 := set_k_ftable _ s) in H. assert (F1 : free_thread p pr s1) by (by destruct F).
  change (set_k_ftable ?a (with_proc p q s)) with (with_proc p q s1). destruct (f_type x).
  - by injection H as <-.
  - by apply (close_pipe_with p pr).
  - destruct (f_ip x) as [ip|]; [|done]. by apply put_inode_with.
  - destruct (f_ip x) as [ip|]; [|done]. by apply put_inode_with.
Qed.

Lemma drop_files_with p pr q fds : forall s s',
  free_thread p pr s -> p_state q = RUNNING -> p_container q = p_container pr -> drop_files fds s = Some s' ->
  drop_files fds (with_proc p q s) = Some (with_proc p q s') /\ free_thread p pr s'.
Proof.
  induction fds as [|[f|] fds IH]; intros s s' F Hq Hc H; cbn [drop_files] in *; [by injection H as <-| |by apply IH].
  destruct (drop_file f s) as [s1|] eqn:E; [|done]. cbn in H. destruct (runs_drop_file f p pr s s1 F E) as [_ F1].
  rewrite (drop_file_with p pr q f s s1 F Hq Hc E). cbn. by apply IH.
Qed.

Lemma free_with p pr q s : free_thread p pr s -> p_state q = RUNNING -> free_thread p q (with_proc p q s).
Proof. intros [] Hq. split; try done; cbn; [by apply list_lookup_insert_eq, (lookup_lt_Some _ _ _ ft_proc0)|by rewrite length_insert]. Qed.

Lemma runs_close_from p : forall rest pre s pr s',
  free_thread p pr s -> p_ofile pr = pre ++ rest -> drop_files rest s = Some s' ->
  runs (for_each (seq (length pre) (length rest)) (close_file p)) s tt (with_proc p (set_p_ofile (pre ++ replicate (length rest) None) pr) s').
Proof.
  induction rest as [|o rest IH]; intros pre s pr s' F Hof H.
  - injection H as <-. cbn [length replicate]. rewrite <- Hof. replace (set_p_ofile (p_ofile pr) pr) with pr by (by destruct pr).
    replace (with_proc p pr s) with s; [apply runs_ret|]. unfold with_proc. rewrite list_insert_id by (by destruct F). by destruct s.
  - assert (Hfd : p_ofile pr !! length pre = Some o) by (rewrite Hof; by apply list_lookup_middle).
    assert (Hl' : length (pre ++ [None : option nat]) = S (length pre)) by (rewrite length_app; cbn; lia).
    assert (He : pre ++ replicate (length (o :: rest)) None = (pre ++ [None]) ++ replicate (length rest) (None : option nat)) by (by rewrite <- app_assoc).
    rewrite He. cbn [length seq]. destruct o as [f|]; cbn [drop_files] in H.
    + destruct (drop_file f s) as [s1|] eqn:E; [|done]. cbn in H. destruct (runs_drop_file f p pr s s1 F E) as [R1 F1].
      set (q1 := set_p_ofile (<[length pre := None]> (p_ofile pr)) pr). eapply runs_for_each_cons.
      { unfold close_file. eapply runs_bind; [apply runs_get_proc; by destruct F|]. eapply runs_bind; [by apply runs_valid|].
        eapply runs_bind; [exact R1|]. apply (runs_mod_proc_to p _ pr). by destruct F1. }
      destruct (drop_files_with p pr q1 rest s1 s' F1 (ft_running _ _ _ F) eq_refl H) as [H' _].
      pose proof (IH (pre ++ [None]) (with_proc p q1 s1) q1 (with_proc p q1 s') (free_with p pr q1 s1 F1 (ft_running _ _ _ F))) as R2.
      rewrite Hl', with_proc_twice in R2. apply R2; [|exact H']. cbn. rewrite Hof. rewrite insert_app_r_alt, Nat.sub_diag by lia. cbn. by rewrite <- app_assoc.
    + eapply runs_for_each_cons; [eapply runs_bind; [apply runs_get_proc; by destruct F|]; eapply runs_bind; [by apply runs_valid|]; apply runs_ret|].
      pose proof (IH (pre ++ [None]) s pr s' F) as R2. rewrite Hl' in R2. apply R2; [rewrite Hof; by rewrite <- app_assoc|done].
Qed.

(** ** The first half of exit

    The files are closed and the directory is left. *)

Definition leave (p : nat) : K unit :=
  close_files p ;; begin_op ;; pr <- get_proc p ;; cwd <- valid (p_cwd pr) ;; iput cwd ;; end_op ;; mod_proc p (set_p_cwd None).

Definition left_proc (pr : proc) : proc := set_p_cwd None (set_p_ofile (replicate NOFILE None) pr).

(** What it changes when nothing is waited for or deleted. *)

Definition let_go (p : nat) (pr : proc) (s : kst) : option kst :=
  s1 ← drop_files (p_ofile pr) s; cwd ← p_cwd pr; s2 ← put_inode cwd s1; Some (with_proc p (left_proc pr) s2).

Lemma runs_leave p pr s s' :
  free_thread p pr s -> length (p_ofile pr) = NOFILE -> let_go p pr s = Some s' -> runs (leave p) s tt s' /\ free_thread p (left_proc pr) s'.
Proof.
  intros F Hlen H. unfold let_go in H. destruct (drop_files (p_ofile pr) s) as [s1|] eqn:E1; [|done]. cbn in H. destruct (p_cwd pr) as [cwd|] eqn:Hc; [|done]. cbn in H.
  destruct (put_inode cwd s1) as [s2|] eqn:E2; [|done]. injection H as <-. set (pr1 := set_p_ofile (replicate NOFILE None) pr). pose proof (ft_running _ _ _ F) as Hrun.
  destruct (drop_files_with p pr pr (p_ofile pr) s s1 F Hrun eq_refl E1) as [_ F1].
  pose proof (runs_close_from p (p_ofile pr) [] s pr s1 F eq_refl E1) as R1. rewrite Hlen in R1. cbn [length app] in R1. fold pr1 in R1.
  assert (F1' : free_thread p pr1 (with_proc p pr1 s1)) by (by eapply free_with).
  destruct (runs_put_inode cwd p pr1 _ _ F1' (put_inode_with p pr1 cwd s1 s2 Hrun E2)) as (F2 & t1 & t2 & R2 & Hp & R3 & R4).
  split.
  - unfold leave. eapply runs_bind; [exact R1|]. eapply runs_bind; [exact R2|]. eapply runs_bind; [apply (runs_get_proc p pr1); rewrite Hp; by destruct F1'|].
    eapply runs_bind; [by apply runs_valid|]. eapply runs_bind; [exact R3|]. eapply runs_bind; [exact R4|].
    rewrite <- (with_proc_twice p (left_proc pr) pr1 s2). apply (runs_mod_proc_to p _ pr1). by destruct F2.
  - rewrite <- (with_proc_twice p (left_proc pr) pr1 s2). by apply (free_with p pr1).
Qed.

(** Nobody gets another parent by it. *)

Definition same_family (s s' : kst) : Prop :=
  k_initproc s' = k_initproc s /\ forall j, p_parent <$> k_procs s' !! j = p_parent <$> k_procs s !! j.

Lemma family_trans s1 s2 s3 : same_family s1 s2 -> same_family s2 s3 -> same_family s1 s3.
Proof. intros [H1 H2] [H3 H4]. split; [congruence|]. intros j. by rewrite H4, H2. Qed.

Lemma family_wake ch s : same_family s (wake_all ch s).
Proof. split; [done|]. intros j. cbn. rewrite list_lookup_fmap. destruct (k_procs s !! j) as [q|]; [|done]. cbn. unfold wake. by destruct (_ && _). Qed.

Lemma family_put ip s s' : put_inode ip s = Some s' -> same_family s s'.
Proof. unfold put_inode. intros H. destruct (k_icache s !! ip) as [x|]; [|done]. cbn in H. case_bool_decide; [|done]. injection H as <-. exact (family_wake ChLog (with_inode ip (set_i_ref (i_ref x - 1) x) s)). Qed.

Lemma family_drop f s s' : drop_file f s = Some s' -> same_family s s'.
Proof.
  unfold drop_file. intros H. destruct (k_ftable s !! f) as [x|]; [|done]. cbn [mbind option_bind] in H. destruct (f_ref x <? 1); [done|].
  destruct (1 <? f_ref x); [by injection H as <-|]. set (s1 := set_k_ftable _ s) in H. destruct (f_type x).
  - by injection H as <-.
  - unfold close_pipe in H. destruct (k_pipes s1 !! f_pipe x) as [y|]; [|done]. cbn [mbind option_bind] in H. set (ch := if negb _ then ChPipeR _ else _) in H.
    pose proof (family_wake ch s1) as Hw. destruct (_ && _); [|by injection H as <-]. destruct (my_container s1) as [[ci c]|]; [|done]. cbn in H. case_bool_decide; [|done]. by injection H as <-.
  - destruct (f_ip x) as [ip|]; [|done]. by apply (family_put ip s1).
  - destruct (f_ip x) as [ip|]; [|done]. by apply (family_put ip s1).
Qed.

Lemma family_drops fds : forall s s', drop_files fds s = Some s' -> same_family s s'.
Proof.
  induction fds as [|[f|] fds IH]; intros s s' H; cbn [drop_files] in H; [by injection H as <-| |by apply IH].
  destruct (drop_file f s) as [s1|] eqn:E; [|done]. cbn in H. eapply family_trans; [by eapply family_drop|by apply IH].
Qed.

Lemma family_let_go p pr s s' : k_procs s !! p = Some pr -> let_go p pr s = Some s' -> same_family s s'.
Proof.
  intros Hp H. unfold let_go in H. destruct (drop_files (p_ofile pr) s) as [s1|] eqn:E1; [|done]. cbn in H. destruct (p_cwd pr) as [cwd|]; [|done]. cbn in H.
  destruct (put_inode cwd s1) as [s2|] eqn:E2; [|done]. injection H as <-. assert (Hf : same_family s s2) by (eapply family_trans; [by eapply family_drops|by eapply family_put]).
  destruct Hf as [Hf1 Hf2]. split; [done|]. intros j. rewrite <- Hf2. cbn. destruct (decide (j = p)) as [->|Hne]; [|by rewrite list_lookup_insert_ne].
  specialize (Hf2 p). rewrite Hp in Hf2. destruct (k_procs s2 !! p) as [q|] eqn:E; [|done]. injection Hf2 as Hf2.
  rewrite list_lookup_insert_eq by (by eapply lookup_lt_Some). cbn. by rewrite Hf2.
Qed.

(** ** The second half *)

(** The second half, up to the switch to the scheduler: [ps] is the process table with the
    process [q] in its slot. *)

Definition exit_rest (status : Z) (p init : nat) : K unit :=
  acquire (Lproc init) ;; wakeup1 init ;; release (Lproc init) ;;
  acquire (Lproc p) ;; pr <- get_proc p ;; let original_parent := p_parent pr in release (Lproc p) ;;
  pp <- valid original_parent ;; acquire (Lproc pp) ;; acquire (Lproc p) ;; reparent p ;; wakeup1 pp ;;
  mod_proc p (set_p_xstate status) ;; mod_proc p (set_p_state ZOMBIE) ;; release (Lproc pp) ;; sched ;; panic "zombie exit".

Definition left_behind (status : Z) (p init pp : nat) (q : proc) (ps : list proc) : list proc :=
  <[p := set_p_state ZOMBIE (set_p_xstate status q)]>
    (alter (wake (ChProc pp)) pp (adopt p init <$> alter (wake (ChProc init)) init ps)).

(** The children of the process are not locked. *)

Lemma exit_children_free s init pp p :
  k_held s = ∅ -> (forall j r, k_procs s !! j = Some r -> child_of p r -> j <> pp) -> (forall r, k_procs s !! p = Some r -> ~ child_of p r) ->
  forall j r, alter (wake (ChProc init)) init (k_procs s) !! j = Some r -> child_of p r -> Lproc j ∉ {[Lproc p]} ∪ ({[Lproc pp]} ∪ k_held s).
Proof.
  intros Hh Hch Hp j r Hj Hc. assert (exists r', k_procs s !! j = Some r' /\ child_of p r') as (r' & Hr' & Hc').
  { destruct (decide (init = j)) as [->|Hne]; [|rewrite list_lookup_alter_ne in Hj by done; eauto].
    rewrite list_lookup_alter_eq in Hj. destruct (k_procs s !! j) as [r'|]; [|done]. injection Hj as <-. exists r'. split; [done|].
    unfold child_of, wake in *. by destruct (_ && _). }
  rewrite Hh. pose proof (Hch j r' Hr' Hc'). assert (j <> p) by (intros ->; by apply (Hp r')). clear - H H0. set_solver.
Qed.

Lemma exit_rest_sched status p init pp q s e :
  k_held s = ∅ -> length (k_procs s) = NPROC -> k_initproc s = Some init -> init <> p -> (init < NPROC)%nat ->
  k_procs s !! p = Some q -> p_parent q = Some pp -> pp <> p -> (pp < NPROC)%nat ->
  (forall j r, k_procs s !! j = Some r -> child_of p r -> j <> pp) ->
  exit_rest status p init e s =
    (sched ;; panic "zombie exit") e (set_k_held {[Lproc p]} (set_k_procs (left_behind status p init pp q (k_procs s)) s)).
Proof.
  intros Hh Hlen Hin Hne Hi Hq Hpar Hpp Hlt Hch. unfold exit_rest.
  assert (Hno : forall k, k ∉ k_held s) by (intros k; rewrite Hh; apply not_elem_of_empty).
  destruct (lookup_lt_is_Some_2 (k_procs s) init) as [qi Hqi]; [lia|].
  rewrite (bind_runs _ _ _ _ _ e (runs_acquire _ s (Hno (Lproc init)))). set (s1 := set_k_held _ s).
  rewrite (bind_runs _ _ _ _ _ e (runs_wakeup1 init qi s1 (held_in _ _) Hqi)). set (ps1 := alter (wake (ChProc init)) init (k_procs s)).
  set (s2 := set_k_procs ps1 s).
  assert (R2 : runs (release (Lproc init)) (set_k_procs ps1 s1) tt s2).
  { eapply runs_release_to; [apply held_in|]. cbn. rewrite held_release by done. by destruct s. }
  change (k_procs s1) with (k_procs s). fold ps1. rewrite (bind_runs _ _ _ _ _ e R2).
  assert (Hq2 : k_procs s2 !! p = Some q) by (cbn; unfold ps1; by rewrite list_lookup_alter_ne).
  rewrite (bind_runs _ _ _ _ _ e (runs_acquire (Lproc p) s2 (Hno _))).
  set (s2' := set_k_held _ s2). rewrite (bind_runs _ _ _ _ _ e (runs_get_proc p q s2' Hq2)). cbv zeta.
  rewrite (bind_runs _ _ _ _ _ e (runs_release_back (Lproc p) s2 (Hno _))). rewrite (bind_runs _ _ _ _ _ e (runs_valid (p_parent q) pp s2 Hpar)).
  rewrite (bind_runs _ _ _ _ _ e (runs_acquire (Lproc pp) s2 (Hno _))). set (s3 := set_k_held _ s2).
  assert (Hp3 : Lproc p ∉ k_held s3) by (cbn; rewrite Hh; clear - Hpp; set_solver).
  rewrite (bind_runs _ _ _ _ _ e (runs_acquire (Lproc p) s3 Hp3)). set (s4 := set_k_held _ s3).
  assert (Hl4 : length (k_procs s4) = NPROC) by (cbn; unfold ps1; by rewrite length_alter).
  assert (Hc4 : forall j r, k_procs s4 !! j = Some r -> child_of p r -> Lproc j ∉ k_held s4) by (apply (exit_children_free s init pp p Hh Hch); intros r Hr; unfold child_of; congruence).
  rewrite (bind_runs _ _ _ _ _ e (runs_reparent p init s4 Hl4 Hin Hne Hc4)). set (ps2 := adopt p init <$> k_procs s4). set (s5 := set_k_procs ps2 s4).
  assert (Hq5 : k_procs s5 !! p = Some q) by (cbn; unfold ps2; rewrite list_lookup_fmap; change (k_procs s4) with ps1; change ps1 with (k_procs s2); rewrite Hq2; cbn; rewrite adopt_other by congruence; done).
  destruct (lookup_lt_is_Some_2 (k_procs s5) pp) as [qp Hqp]; [change (k_procs s5) with ps2; unfold ps2; rewrite length_fmap, Hl4; done|].
  rewrite (bind_runs _ _ _ _ _ e (runs_wakeup1 pp qp s5 ltac:(cbn; clear; set_solver) Hqp)). set (ps3 := alter (wake (ChProc pp)) pp (k_procs s5)).
  set (s6 := set_k_procs ps3 s5). assert (Hq6 : k_procs s6 !! p = Some q) by (cbn; unfold ps3; by rewrite list_lookup_alter_ne).
  rewrite (bind_runs _ _ _ _ _ e (runs_mod_proc_to p (set_p_xstate status) q s6 Hq6)). set (s7 := with_proc p _ s6).
  assert (Hq7 : k_procs s7 !! p = Some (set_p_xstate status q)) by (by eapply (lookup_with_proc p q)).
  rewrite (bind_runs _ _ _ _ _ e (runs_mod_proc_to p (set_p_state ZOMBIE) _ s7 Hq7)). set (s8 := with_proc p _ s7).
  assert (R9 : runs (release (Lproc pp)) s8 tt (set_k_held {[Lproc p]} (set_k_procs (left_behind status p init pp q (k_procs s)) s))).
  { eapply runs_release_to; [cbn; clear; set_solver|]. unfold s8, s7. rewrite with_proc_twice. unfold with_proc. cbn. rewrite Hh.
    replace (({[Lproc p]} ∪ ({[Lproc pp]} ∪ ∅)) ∖ {[Lproc pp]} : gset lock) with ({[Lproc p]} : gset lock) by (clear - Hpp; set_solver). by destruct s. }
  by rewrite (bind_runs _ _ _ _ _ e R9).
Qed.

(** Process [p] has closed its files: its entry is [q], its parent [pp]. *)

Record leaving (p : nat) (q : proc) (init pp : nat) (s : kst) : Prop := {
  lv_started : k_started s <> 0;
  lv_cur : k_cur s = Some p;
  lv_held : k_held s = ∅;
  lv_procs : length (k_procs s) = NPROC;
  lv_proc : k_procs s !! p = Some q;
  lv_init : k_initproc s = Some init /\ init <> p /\ (init < NPROC)%nat;
  lv_parent : p_parent q = Some pp /\ pp <> p /\ (pp < NPROC)%nat;
  lv_children : forall j r, k_procs s !! j = Some r -> child_of p r -> j <> pp;
}.

(** The state in which it gives the CPU up. *)

Definition exited (status : Z) (p : nat) (q : proc) (init pp : nat) (s : kst) : kst :=
  set_k_held {[Lproc p]} (set_k_procs (left_behind status p init pp q (k_procs s)) s).

Lemma exit_rest_ends status p q init pp s e :
  leaving p q init pp s ->
  exit_rest status p init e s = match e with [] => Blocked (exited status p q init pp s) | _ :: _ => Panic "zombie exit" end.
Proof.
  intros [H1 H2 H3 H4 H5 (H6 & H6' & H6'') (H7 & H7' & H7'') H8]. rewrite (exit_rest_sched status p init pp q s e) by done.
  unfold bind. rewrite (sched_eq p (set_p_state ZOMBIE (set_p_xstate status q))); try done; [by destruct e|].
  cbn. unfold left_behind. apply list_lookup_insert_eq. rewrite length_alter, length_fmap, length_alter. by eapply lookup_lt_Some.
Qed.

(** exit is the one and then the other. *)

Lemma exit_halves status p init e s :
  k_started s <> 0 -> k_cur s = Some p -> k_initproc s = Some init -> init <> p ->
  exit status e s = (leave p ;; exit_rest status p init) e s.
Proof.
  intros Hst Hcur Hin Hne. unfold exit. assert (R : runs cur_proc s p s) by (eapply runs_bind; [by apply runs_myproc|]; rewrite Hcur; apply runs_ret).
  rewrite (bind_runs _ _ _ _ _ e R). rewrite (bind_runs _ _ _ _ _ e (runs_gets k_initproc s)). rewrite Hin, bool_decide_false by congruence.
  unfold leave, bind. destruct (close_files p e s) as [a0 e0 s0| | | |]; [|done..]. destruct (begin_op e0 s0) as [a1 e1 s1| | | |]; [|done..].
  destruct (get_proc p e1 s1) as [a2 e2 s2| | | |]; [|done..]. destruct (valid (p_cwd a2) e2 s2) as [a3 e3 s3| | | |]; [|done..].
  destruct (iput a3 e3 s3) as [a4 e4 s4| | | |]; [|done..]. destruct (end_op e4 s4) as [a5 e5 s5| | | |]; [|done..].
  by destruct (mod_proc p (set_p_cwd None) e5 s5) as [a6 e6 s6| | | |].
Qed.

(** It does not return. *)

Lemma never_bind {A B} (m : K A) (k : A -> K B) e s :
  (forall a e s b e' s', k a e s <> Ok b e' s') -> forall b e' s', bind m k e s <> Ok b e' s'.
Proof. intros H b e' s'. unfold bind. destruct (m e s); [apply H|done..]. Qed.

Lemma exit_never status e s b e' s' : exit status e s <> Ok b e' s'.
Proof.
  unfold exit. apply never_bind. intros p e1 s1 b1 e1' s1'. apply never_bind. intros ip e2 s2 b2 e2' s2'. destruct (bool_decide _); [done|].
  do 23 (apply never_bind; clear; intros). done.
Qed.

(** C6: exit, of a process other than init, never returns.  First it closes its files and leaves its
    directory.  Whatever this takes, waits and disk writes included: once it is done with no
    lock held, and with a parent that is neither the process nor a child of it, exit gives the
    CPU up (and panics if it is ever resumed) with no lock but that of the process, which is a zombie with its status; its children have init for their parent, and its parent
    and init have been woken if they were waiting; nothing else changes.  When the log takes
    the transactions at once and no inode is deleted with its last reference, the first part
    is done without waiting: each file loses one reference for every descriptor, and with the
    last one an inode or a device gives back its reference to the inode, and a pipe closes its
    end, wakes the other one and frees the page when that is closed too; the directory loses
    its reference, those who wait for the log are woken, and nothing else changes. *)
Theorem exit_zombie status p init s :
  k_started s <> 0 -> k_cur s = Some p -> k_initproc s = Some init -> init <> p ->
  (forall e b e' s', exit status e s <> Ok b e' s') /\
  (forall e e1 s1 q pp, leave p e s = Ok tt e1 s1 -> leaving p q init pp s1 ->
     exit status e s = match e1 with [] => Blocked (exited status p q init pp s1) | _ :: _ => Panic "zombie exit" end) /\
  (forall pr pp s1, free_thread p pr s -> length (p_ofile pr) = NOFILE -> (init < NPROC)%nat -> p_parent pr = Some pp -> pp <> p -> (pp < NPROC)%nat ->
     (forall j r, k_procs s !! j = Some r -> child_of p r -> j <> pp) -> let_go p pr s = Some s1 ->
     exit status [] s = Blocked (exited status p (left_proc pr) init pp s1) /\ (forall f e, exit status (f :: e) s = Panic "zombie exit")).
Proof.
  intros Hst Hcur Hin Hne. assert (H1 : forall e e1 s1 q pp, leave p e s = Ok tt e1 s1 -> leaving p q init pp s1 ->
     exit status e s = match e1 with [] => Blocked (exited status p q init pp s1) | _ :: _ => Panic "zombie exit" end).
  { intros e e1 s1 q pp Hl Ha. rewrite (exit_halves status p init e s) by done. unfold bind. rewrite Hl. by apply exit_rest_ends. }
  split; [intros e b e' s'; apply exit_never|]. split; [exact H1|]. intros pr pp s1 F Hlen Hi Hpar Hpp Hlt Hch Hgo. destruct (runs_leave p pr s s1 F Hlen Hgo) as [R F1].
  destruct (family_let_go p pr s s1 (ft_proc _ _ _ F) Hgo) as [Hf1 Hf2].
  assert (Ha : leaving p (left_proc pr) init pp s1).
  { destruct F1. split; try done; [split_and!; congruence|]. intros j r Hj Hc. specialize (Hf2 j). rewrite Hj in Hf2. destruct (k_procs s !! j) as [r'|] eqn:E; [|done].
    injection Hf2 as Hf2. apply (Hch j r' E). unfold child_of in *. congruence. }
  split; [|intros f e]; by rewrite (H1 _ _ s1 (left_proc pr) pp (R _) Ha).
Qed.

End Exit.
