(* ===== verification/Growspec.v ===== *)
(** * The size of a process

    growproc changes the size of a process: the address space stays well formed, the pages
    that it keeps hold what they held, and no page is lost. *)

From S2P Require Import Prelude Monad Riscv Kstring Kstate Spinlock Printf Kalloc Vm Pagetable Uvm Ucopy Sched Schedspec Proc Procspec.

Section Grow.
Context `{KI : KernelImage}.

(** ** Sizes and pages *)

Lemma PGROUNDUP_pages sz : 0 <= sz <= TRAPFRAME -> PGROUNDUP sz = Z.of_nat (size_pages sz) * PGSIZE.
Proof.
  intros H. assert (HT : TRAPFRAME = 2 ^ 38 - 2 * 4096) by reflexivity. rewrite PGROUNDUP_eq by (unfold PGSIZE; lia).
  unfold size_pages, PGSIZE. dlia.
Qed.

Lemma size_pages_mono a b : a <= b -> (size_pages a <= size_pages b)%nat.
Proof. intros H. unfold size_pages, PGSIZE. dlia. Qed.

Lemma grow_pages_size a b : 0 <= a <= b -> b <= TRAPFRAME -> size_pages b = (size_pages a + grow_pages a b)%nat.
Proof.
  intros H Hb. assert (HT : TRAPFRAME = 2 ^ 38 - 2 * 4096) by reflexivity. unfold grow_pages. rewrite PGROUNDUP_pages by lia.
  unfold size_pages, PGSIZE. dlia.
Qed.

Lemma frames_app L j : forall a k, frames L a (j + k) = frames L a j ++ frames L (a + Z.of_nat j * PGSIZE) k.
Proof.
  induction j as [|j IH]; intros a k; [cbn; by rewrite Z.add_0_r|]. cbn [Nat.add frames app]. f_equal. rewrite IH. f_equal. f_equal. lia.
Qed.

(** ** Two address spaces of a process

    [L'] of size [sz'] comes from [L] of size [sz]: the pages of both are the same and have
    the same contents, those of [L'] only are zeroed, and the pages and tables together
    with the free pages are those that were. *)

Record resized (s : kst) (l : list Z) (sz : Z) (T : gmap (list Z) Z) (L : gmap Z Z)
    (s' : kst) (l' : list Z) (root sz' : Z) (T' : gmap (list Z) Z) (L' : gmap Z Z) : Prop := {
  rs_space : addr_space s' l' root sz' T' L';
  rs_pool : list_to_set (frames L' 0 (size_pages sz')) ∪ list_to_set l' ∪ tables T' =@{gset Z}
            list_to_set (frames L 0 (size_pages sz)) ∪ list_to_set l ∪ tables T;
  rs_keep : forall i, 0 <= i < Z.of_nat (size_pages sz) -> i < Z.of_nat (size_pages sz') ->
    L' !! (i * PGSIZE) = L !! (i * PGSIZE) /\
    forall off, 0 <= off < PGSIZE -> k_mem s' !!! (PTE2PA (L !!! (i * PGSIZE)) + off) = k_mem s !!! (PTE2PA (L !!! (i * PGSIZE)) + off);
  rs_new : forall i, Z.of_nat (size_pages sz) <= i < Z.of_nat (size_pages sz') ->
    exists f, L' !! (i * PGSIZE) = Some (pte_for f urwx) /\ zero_page (k_mem s') f;
}.

(** The bytes of the pages of a process do not change where other pages do. *)

Lemma user_bytes_kept (L : gmap Z Z) (n : nat) P m m' i off :
  same_except P m m' -> 0 <= i < Z.of_nat n -> 0 <= off < PGSIZE -> PTE2PA (L !!! (i * PGSIZE)) ∉ P ->
  m' !!! (PTE2PA (L !!! (i * PGSIZE)) + off) = m !!! (PTE2PA (L !!! (i * PGSIZE)) + off).
Proof.
  intros Hm Hi Hoff HP. apply Hm. by rewrite (pg_in (PTE2PA (L !!! (i * PGSIZE)))) by (apply PTE2PA_aligned || lia).
Qed.

Lemma frames_pool s l root sz T L : addr_space s l root sz T L -> (list_to_set (frames L 0 (size_pages sz)) : gset Z) ## list_to_set l ∪ tables T.
Proof.
  intros [_ _ _ _ _ ((_ & Hn & _)%NoDup_app & _ & Hd)]. apply disjoint_union_r. split; [|done].
  intros a Ha Ha'. apply elem_of_list_to_set in Ha, Ha'. by apply (Hn a).
Qed.

(** Nothing is added to the address space; tables may be. *)

Lemma resized_same s l root sz T L s' l' T' :
  addr_space s l root sz T L -> vm s' root T' L l' -> added s T l s' T' l' [] -> resized s l sz T L s' l' root sz T' L.
Proof.
  intros Him Hvm Had. pose proof (frames_pool _ _ _ _ _ _ Him) as Hd. destruct Him as [Hvm0 Hsz Hus Hh Hon (Hnd & Hpf & Hdf)].
  pose proof (ad_pool _ _ _ _ _ _ _ Had) as Hp. rewrite list_to_set_nil, (left_id_L ∅ (∪)) in Hp. pose proof (ad_mem _ _ _ _ _ _ _ Had) as Hm.
  assert (Hnd' : NoDup l') by (by destruct (vm_alloc _ _ _ _ _ Hvm) as (_ & (_ & ? & _) & _)).
  split.
  - split; try done. split; [|split; [done|]]; rewrite <- Hp in Hd.
    + apply NoDup_app. apply NoDup_app in Hnd as (? & _ & _). split; [done|]. split; [|done]. intros a Ha Ha'. clear - Hd Ha Ha'. set_solver.
    + clear - Hd. set_solver.
  - by rewrite <- !(assoc_L (∪)), Hp.
  - intros i Hi _. split; [done|]. intros off Hoff. apply (user_bytes_kept L _ _ _ _ i off Hm Hi Hoff).
    pose proof (elem_of_frames L 0 _ i Hi) as He. rewrite Z.add_0_l in He. clear - Hd He. set_solver.
  - intros i Hi. lia.
Qed.

(** The pages that uvmalloc adds. *)

Lemma resized_grown s l root sz newsz T L s' l' T' fs :
  let a := Z.of_nat (size_pages sz) * PGSIZE in
  addr_space s l root sz T L -> sz <= newsz <= TRAPFRAME -> length fs = grow_pages sz newsz ->
  vm s' root T' (map_words L a ((fun f => pte_for f urwx) <$> fs)) l' -> added s T l s' T' l' fs -> Forall (zero_page (k_mem s')) fs ->
  resized s l sz T L s' l' root newsz T' (map_words L a ((fun f => pte_for f urwx) <$> fs)).
Proof.
  intros a Him Hnew Hlen Hvm Had Hz. pose proof (frames_pool _ _ _ _ _ _ Him) as Hd. destruct Him as [Hvm0 Hsz Hus [Hh1 Hh2] Hon (Hnd & Hpf & Hdf)].
  pose proof (ad_pool _ _ _ _ _ _ _ Had) as Hp. pose proof (ad_mem _ _ _ _ _ _ _ Had) as Hm. pose proof (ad_free _ _ _ _ _ _ _ Had) as (Hndf & Hpff & Hdff).
  set (ws := (fun f => pte_for f urwx) <$> fs) in *. assert (Hws : length ws = grow_pages sz newsz) by (unfold ws; by rewrite length_fmap).
  set (L' := map_words L a ws) in *. pose proof (grow_pages_size sz newsz ltac:(lia) ltac:(lia)) as Hn. set (n := size_pages sz) in *. set (g := grow_pages sz newsz) in *.
  pose proof (size_pages_high newsz ltac:(lia)) as Hhigh. assert (Hal : a mod PGSIZE = 0) by (unfold a; by rewrite Z.mod_mul).
  assert (HL : forall va, va < a \/ a + Z.of_nat g * PGSIZE <= va -> L' !! va = L !! va).
  { intros va Hva. unfold L'. rewrite map_words_lookup, Hws, bool_decide_false by (done || lia). done. }
  assert (HL' : forall i, Z.of_nat n <= i < Z.of_nat (size_pages newsz) -> exists f, f ∈ fs /\ L' !! (i * PGSIZE) = Some (pte_for f urwx)).
  { intros i Hi. destruct (lookup_lt_is_Some_2 fs (Z.to_nat i - n)) as [f Hf]; [lia|]. exists f. split; [by eapply list_elem_of_lookup_2|].
    unfold L'. rewrite map_words_lookup, Hws by done. rewrite bool_decide_true by (unfold a, PGSIZE; dlia).
    replace (Z.to_nat ((i * PGSIZE - a) / PGSIZE)) with (Z.to_nat i - n)%nat by (unfold a, PGSIZE; dlia). unfold ws. by rewrite list_lookup_fmap, Hf. }
  assert (Hfr : frames L' 0 (size_pages newsz) = frames L 0 n ++ fs).
  { rewrite Hn, frames_app. f_equal.
    - apply frames_ext. intros i Hi. apply HL. left. unfold a, PGSIZE. lia.
    - rewrite Z.add_0_l. fold a. rewrite <- Hws. unfold L'. rewrite frames_words by done. by apply frames_urwx. }
  split.
  - split; [exact Hvm|lia| | | |].
    + intros i Hi. rewrite Z.add_0_l. destruct (decide (i < Z.of_nat n)) as [Hlt|Hge].
      * rewrite HL by (left; unfold a, PGSIZE; lia). apply Hus. lia.
      * destruct (HL' i ltac:(lia)) as (f & _ & ->). by eexists.
    + assert (Hhi : forall va, TRAPFRAME <= va -> L' !! va = L !! va) by (intros va Hva; apply HL; right; unfold a; lia).
      rewrite !Hhi by (change TRAMPOLINE with (TRAPFRAME + 4096); lia). done.
    + intros va Hva Hlt. destruct (decide (va < Z.of_nat (size_pages newsz) * PGSIZE)) as [|Hge]; [done|]. rewrite HL in Hva by (right; unfold a; lia).
      pose proof (Hon va Hva Hlt). unfold PGSIZE in *. lia.
    + rewrite Hfr. split; [|split; [by apply Forall_app|]].
      * rewrite <- app_assoc. apply NoDup_app. split; [by apply NoDup_app in Hnd as (? & _)|]. split; [|done].
        intros b Hb Hb'. rewrite <- Hp in Hd. clear - Hd Hb Hb'. set_solver.
      * rewrite list_to_set_app_L. rewrite <- Hp in Hd. clear - Hd Hdff. set_solver.
  - rewrite Hfr, list_to_set_app_L, <- !(assoc_L (∪)). by rewrite (assoc_L (∪) (list_to_set fs)), Hp.
  - intros i Hi _. rewrite HL by (left; unfold a, PGSIZE; lia). split; [done|]. intros off Hoff. apply (user_bytes_kept L _ _ _ _ i off Hm Hi Hoff).
    pose proof (elem_of_frames L 0 _ i Hi) as He. rewrite Z.add_0_l in He. clear - Hd He. set_solver.
  - intros i Hi. destruct (HL' i Hi) as (f & Hf & E). exists f. split; [done|]. rewrite Forall_forall in Hz. by apply Hz.
Qed.

(** The pages that uvmdealloc takes away. *)

Lemma resized_shrunk s l root sz newsz T L s' :
  let n := size_pages newsz in let k := (size_pages sz - size_pages newsz)%nat in let a := Z.of_nat n * PGSIZE in
  addr_space s l root sz T L -> 0 <= newsz <= sz ->
  vm s' root T (unmap_pages L a k) (reverse (frames L a k) ++ l) ->
  same_except (list_to_set (frames L a k) ∪ tables T) (k_mem s) (k_mem s') ->
  resized s l sz T L s' (reverse (frames L a k) ++ l) root newsz T (unmap_pages L a k).
Proof.
  intros n k a Him Hnew Hvm Hm. pose proof (frames_pool _ _ _ _ _ _ Him) as Hd. destruct Him as [Hvm0 Hsz Hus [Hh1 Hh2] Hon (Hnd & Hpf & Hdf)].
  pose proof (size_pages_mono newsz sz ltac:(lia)) as Hmono. pose proof (size_pages_high sz ltac:(lia)) as Hhigh.
  assert (Hnk : size_pages sz = (n + k)%nat) by (unfold n, k; lia). assert (Hal : a mod PGSIZE = 0) by (unfold a; by rewrite Z.mod_mul).
  rewrite Hnk, frames_app, Z.add_0_l in Hnd, Hpf, Hdf, Hd. fold a in Hnd, Hpf, Hdf, Hd. set (fs := frames L a k) in *. set (L' := unmap_pages L a k) in *.
  assert (HL : forall va, va < a \/ a + Z.of_nat k * PGSIZE <= va -> L' !! va = L !! va).
  { intros va Hva. unfold L'. rewrite unmap_pages_lookup, bool_decide_false by (done || lia). done. }
  assert (Hlow : forall i, 0 <= i < Z.of_nat n -> L' !! (i * PGSIZE) = L !! (i * PGSIZE)) by (intros i Hi; apply HL; left; unfold a, PGSIZE; lia).
  assert (Hfr : frames L' 0 n = frames L 0 n) by (apply frames_ext; intros i Hi; rewrite Z.add_0_l; by apply Hlow).
  apply Forall_app in Hpf as [Hpf Hpf2]. rewrite <- app_assoc in Hnd. rewrite list_to_set_app_L in Hd, Hdf.
  split; fold n; rewrite ?Hfr.
  - split; [exact Hvm|lia| | | |].
    + intros i Hi. rewrite Z.add_0_l. fold n in Hi. rewrite Hlow by done. apply Hus. lia.
    + assert (Hhi : forall va, TRAPFRAME <= va -> L' !! va = L !! va) by (intros va Hva; apply HL; right; unfold a, PGSIZE in *; lia).
      rewrite !Hhi by (change TRAMPOLINE with (TRAPFRAME + 4096); lia). done.
    + intros va [w Hw] Hlt. fold n a. destruct (decide (va < a)) as [|Hge]; [done|]. exfalso.
      destruct (pt_dom _ _ _ _ (vm_pt _ _ _ _ _ Hvm) va w Hw) as (Hva & _).
      assert (Hlim : va < Z.of_nat (size_pages sz) * PGSIZE).
      { apply Hon; [|done]. unfold L' in Hw. rewrite unmap_pages_lookup in Hw by done. case_bool_decide; [done|by eexists]. }
      unfold L' in Hw. rewrite unmap_pages_lookup, bool_decide_true in Hw by (done || (split; [unfold a in *; rewrite Hnk in Hlim; lia|done])). done.
    + fold n. rewrite Hfr. split; [|split; [done|clear - Hdf; set_solver]]. rewrite (reverse_Permutation fs). exact Hnd.
  - rewrite list_to_set_app_L, (list_to_set_perm_L (reverse fs) fs) by apply reverse_Permutation.
    rewrite Hnk, frames_app, list_to_set_app_L, Z.add_0_l. fold a fs. clear. set_solver.
  - intros i Hi Hi'. rewrite Hlow by lia. split; [done|]. intros off Hoff. apply (user_bytes_kept L _ _ _ _ i off Hm Hi Hoff).
    pose proof (elem_of_frames L 0 n i ltac:(lia)) as He. rewrite Z.add_0_l in He. apply NoDup_app in Hnd as (_ & Hx & _).
    specialize (Hx _ He). clear - Hx Hd He. set_solver.
  - intros i Hi. lia.
Qed.

(** uvmdealloc to a smaller size. *)

Lemma vm_uvmdealloc s l root sz newsz T L :
  addr_space s l root sz T L -> 0 <= newsz < sz ->
  exists s' l' L', runs (uvmdealloc root sz newsz) s newsz s' /\ kstep s s' /\ resized s l sz T L s' l' root newsz T L'.
Proof.
  intros Him Hnew. pose proof Him as [Hvm Hsz Hus _ _ Hfree]. assert (HT : TRAPFRAME = 2 ^ 38 - 2 * 4096) by reflexivity. assert (HM : MAXVA = 2 ^ 38) by reflexivity.
  pose proof (size_pages_mono newsz sz ltac:(lia)) as Hmono. set (n := size_pages newsz) in *. set (k := (size_pages sz - n)%nat).
  unfold uvmdealloc. destruct (Z.leb_spec sz newsz); [lia|]. cbv zeta. rewrite !PGROUNDUP_pages by lia. fold n. set (a := Z.of_nat n * PGSIZE).
  destruct (Z.ltb_spec a (Z.of_nat (size_pages sz) * PGSIZE)) as [Hlt|Hge].
  - assert (Hap : a < sz) by (unfold a, n, size_pages, PGSIZE in *; dlia). assert (Ha0 : 0 <= a) by (unfold a, PGSIZE; lia). rewrite u64_small by lia.
    assert (Hal : a mod PGSIZE = 0) by (unfold a; by rewrite Z.mod_mul). assert (Hpd : PGROUNDDOWN a = a) by (apply PGROUNDDOWN_id; [lia|done]).
    assert (Hpc : page_count a (sz - a) = k).
    { destruct (page_count_spec a (sz - a)) as (c & Hc & _ & _ & _ & _ & _ & Hb); [lia|lia|lia|]. rewrite Hpd in Hb. rewrite Hc.
      unfold k, a, n, size_pages, PGSIZE in *. dlia. }
    assert (Hfr : frames L 0 (size_pages sz) = frames L 0 n ++ frames L a k) by (replace (size_pages sz) with (n + k)%nat by (unfold k; lia); rewrite frames_app, Z.add_0_l; done).
    destruct (vm_unmap s root T L l a (sz - a) true Hvm) as (s' & R & V & S & M); [lia|lia|lia| | |].
    { rewrite Hpd, Hpc. intros i Hi. replace (a + i * PGSIZE) with (0 + (Z.of_nat n + i) * PGSIZE) by (unfold a; lia). apply Hus. unfold k in Hi. lia. }
    { intros _. rewrite Hpd, Hpc. rewrite Hfr in Hfree. destruct Hfree as (F1 & F2 & F3). split; [|split].
      - rewrite <- app_assoc in F1. by apply NoDup_app in F1 as (_ & _ & ?).
      - by apply Forall_app in F2 as [_ ?].
      - rewrite list_to_set_app_L in F3. clear - F3. set_solver. }
    rewrite Hpd, Hpc in V, M. eexists s', _, _. split_and!; [eapply runs_bind; [exact R|apply runs_ret]|exact S|].
    apply (resized_shrunk s l root sz newsz T L s' Him ltac:(lia) V M).
  - eexists s, l, L. split_and!; [eapply runs_bind; [apply runs_ret|apply runs_ret]|reflexivity|].
    assert (Hk : k = 0%nat) by (unfold k, a, PGSIZE in *; lia).
    pose proof (resized_shrunk s l root sz newsz T L s Him ltac:(lia)) as Hr. cbv zeta in Hr. fold n k a in Hr. rewrite Hk in Hr. cbn in Hr. apply Hr; done.
Qed.

(** ** growproc *)

Lemma resized_proc s l sz T L s' l' root sz' T' L' i q q' :
  resized s l sz T L s' l' root sz' T' L' -> k_procs s' !! i = Some q -> p_container q' = p_container q ->
  resized s l sz T L (with_proc i q' s') l' root sz' T' L'.
Proof.
  intros [[[Hok Hpt Hd] H2 H3 H4 H5 H6] H7 H8 H9] Hq Hc. split; try done. split; try done. split; try done. by eapply alloc_ok_proc.
Qed.

Lemma unmapped_above s l root sz newsz T L :
  addr_space s l root sz T L -> sz <= newsz <= TRAPFRAME -> unmapped L (PGROUNDUP sz) (grow_pages sz newsz).
Proof.
  intros [_ Hsz _ _ Hon _] Hnew i Hi. rewrite PGROUNDUP_pages by lia. pose proof (grow_pages_size sz newsz ltac:(lia) ltac:(lia)) as Hn.
  pose proof (size_pages_high newsz ltac:(lia)) as Hh. destruct (L !! _) as [w|] eqn:E; [|done]. exfalso.
  pose proof (Hon _ (ex_intro _ w E)) as Ho. unfold PGSIZE in *. lia.
Qed.

(** uvmalloc to a larger size. *)

Lemma vm_grow s l root sz newsz T L :
  addr_space s l root sz T L -> sz <= newsz <= TRAPFRAME -> 0 < newsz ->
  exists r s' l' T' L' sz', runs (uvmalloc root sz newsz) s r s' /\ kstep s s' /\ resized s l sz T L s' l' root sz' T' L' /\
    (r = newsz /\ sz' = newsz \/ r = 0 /\ sz' = sz /\ scarce (3 * grow_pages sz newsz) s l).
Proof.
  intros Him Hnew Hpos. assert (HT : TRAPFRAME <= MAXVA) by done. pose proof (im_size _ _ _ _ _ _ Him) as Hsz.
  destruct (vm_uvmalloc s root T L l sz newsz (im_vm _ _ _ _ _ _ Him) ltac:(lia) ltac:(lia) (unmapped_above _ _ _ _ _ _ _ Him Hnew)) as (r & s' & R & Hto).
  rewrite PGROUNDUP_pages in Hto by lia. destruct Hto as [(-> & T' & l' & fs & Hlen & V & Ad & Hz)|(-> & Hsc & T' & l' & V & Ad)].
  - eexists newsz, s', l', T', _, newsz. split_and!; [exact R|apply Ad| |by left]. by apply resized_grown.
  - exists 0, s', l', T', L, sz. split_and!; [exact R|apply Ad|by apply resized_same|by right].
Qed.

(** The new size that growproc computes, none when there is no memory. *)

Definition resize (pagetable sz n : Z) : K (option Z) :=
  if 0 <? n then
    sz <- uvmalloc pagetable sz (u32 (sz + n)) ;;
    let sz := u32 sz in
    ret (if sz =? 0 then None else Some sz)
  else if n <? 0 then
    sz <- uvmdealloc pagetable sz (u32 (sz + n)) ;;
    ret (Some (u32 sz))
  else ret (Some sz).

Lemma runs_growproc s p pr n r s1 v s' :
  k_started s <> 0 -> k_cur s = Some p -> k_procs s !! p = Some pr -> 0 <= p_sz pr < 2 ^ 32 ->
  runs (resize (p_pagetable pr) (p_sz pr) n) s r s1 ->
  runs (match r with None => ret (-1) | Some sz => mod_proc p (set_p_sz sz) ;; ret 0 end) s1 v s' -> runs (growproc n) s v s'.
Proof.
  intros Hst Hcur Hp Hsz R1 R2. unfold growproc. eapply runs_bind; [by apply runs_myproc|]. rewrite Hcur. eapply runs_bind; [apply runs_ret|].
  eapply runs_bind; [by apply runs_get_proc|]. cbv zeta. rewrite (u32_small (p_sz pr)) by lia. eapply runs_bind; [exact R1|exact R2].
Qed.

Lemma vm_resize s l root sz T L n :
  addr_space s l root sz T L -> sz < 2 ^ 31 -> - 2 ^ 31 <= n < 2 ^ 31 ->
  exists r s' l' T' L' sz', runs (resize root sz n) s r s' /\ kstep s s' /\ resized s l sz T L s' l' root sz' T' L' /\
    (r = Some sz' /\ sz' = (if sz + n <? 0 then sz else sz + n) \/
     r = None /\ sz' = sz /\ 0 < n /\ scarce (3 * grow_pages sz (sz + n)) s l).
Proof.
  intros Him Hmax Hn. pose proof (im_size _ _ _ _ _ _ Him) as Hsz. assert (HT : 2 ^ 32 <= TRAPFRAME) by done. unfold resize.
  destruct (Z.ltb_spec 0 n) as [Hpos|Hneg]; [|destruct (Z.ltb_spec n 0) as [Hlt|H0]].
  - rewrite (u32_small (sz + n)) by lia. destruct (vm_grow s l root sz (sz + n) T L Him) as (r & s' & l' & T' & L' & sz' & R & S & Hr & Hres); [lia|lia|].
    eexists _, s', l', T', L', sz'. split_and!; [eapply runs_bind; [exact R|apply runs_ret]|done|done|].
    destruct Hres as [[-> ->]|(-> & -> & Hsc)]; [left|by right]. rewrite u32_small by lia.
    destruct (Z.eqb_spec (sz + n) 0); [lia|]. destruct (Z.ltb_spec (sz + n) 0); [lia|done].
  - destruct (Z.ltb_spec (sz + n) 0) as [Hb|Hb].
    + assert (E : u32 (sz + n) = sz + n + 2 ^ 32) by (unfold u32; rewrite <- (Z.mod_small (sz + n + 2 ^ 32) (2 ^ 32)) by lia; by rewrite <- (Z.mod_add _ 1) by lia).
      exists (Some sz), s, l, T, L, sz. split_and!; [|done|apply resized_same; [done|apply Him|by eapply added_refl, Him]|by left].
      unfold uvmdealloc. rewrite E. destruct (Z.leb_spec sz (sz + n + 2 ^ 32)); [|lia]. eapply runs_bind; [apply runs_ret|]. rewrite u32_small by lia. apply runs_ret.
    + rewrite (u32_small (sz + n)) by lia. destruct (vm_uvmdealloc s l root sz (sz + n) T L Him) as (s' & l' & L' & R & S & Hr); [lia|].
      exists (Some (sz + n)), s', l', T, L', (sz + n). split_and!; [|done|done|by left].
      eapply runs_bind; [exact R|]. rewrite u32_small by lia. apply runs_ret.
  - assert (n = 0) as -> by lia. rewrite Z.add_0_r. exists (Some sz), s, l, T, L, sz.
    split_and!; [apply runs_ret|done|apply resized_same; [done|apply Him|by eapply added_refl, Him]|]. left. destruct (Z.ltb_spec sz 0); [lia|done].
Qed.

(** growproc keeps the address space of the process well formed.  It returns 0 with the
    size changed by [n], or as it was when that would be negative, or it returns -1 and the
    size is as it was, which happens only when memory is asked for and no more pages are
    free, or left in the quota, than the three per page it may need.  The pages that stay
    are mapped as before and hold the same bytes, new ones are zeroed and accessible, and
    no page is lost: those of the process, of its page table and of the free list are the
    ones that were. *)
Theorem growproc_space s l p pr T L n :
  k_started s <> 0 -> k_cur s = Some p -> k_procs s !! p = Some pr ->
  addr_space s l (p_pagetable pr) (p_sz pr) T L -> p_sz pr < 2 ^ 31 -> - 2 ^ 31 <= n < 2 ^ 31 ->
  exists r s' l' T' L' sz', runs (growproc n) s r s' /\ kstep (with_proc p (set_p_sz sz' pr) s) s' /\
    resized s l (p_sz pr) T L s' l' (p_pagetable pr) sz' T' L' /\
    (r = 0 /\ sz' = (if p_sz pr + n <? 0 then p_sz pr else p_sz pr + n) \/
     r = -1 /\ sz' = p_sz pr /\ 0 < n /\ scarce (3 * grow_pages (p_sz pr) (p_sz pr + n)) s l).
Proof.
  intros Hst Hcur Hp Him Hmax Hn. pose proof (im_size _ _ _ _ _ _ Him) as Hsz.
  destruct (vm_resize s l (p_pagetable pr) (p_sz pr) T L n Him Hmax Hn) as (r & s1 & l' & T' & L' & sz' & R & S & Hr & Hres).
  assert (Hp1 : k_procs s1 !! p = Some pr) by (by rewrite (kframe_procs _ _ (proj1 S))).
  destruct Hres as [[-> Hs]|(-> & -> & Hpos & Hsc)].
  - exists 0, (with_proc p (set_p_sz sz' pr) s1), l', T', L', sz'. split_and!; [|by apply kstep_with_proc|by eapply resized_proc|by left].
    eapply runs_growproc; [done|done|done|lia|exact R|]. eapply runs_bind; [by apply runs_mod_proc_to|apply runs_ret].
  - exists (-1), s1, l', T', L', (p_sz pr). split_and!; [|by replace (with_proc p _ s) with s by (unfold with_proc; replace (set_p_sz (p_sz pr) pr) with pr by (by destruct pr); rewrite list_insert_id by done; by destruct s)|done|by right].
    eapply runs_growproc; [done|done|done|lia|exact R|apply runs_ret].
Qed.

End Grow.
