(* ===== verification/Examples.v ===== *)
(** * Concrete kernels

    A kernel image, a small machine state with a process of a container, free
    pages and page tables, and for the theorems of the development that have
    hypotheses an instance each on these, which shows that the hypotheses hold
    of a kernel that can run. *)

From S2P Require Import Prelude Monad Riscv Kstring Kstate Spinlock Printf Kalloc Vm.
From S2P Require Import Pagetable Uvm Ucopy Sched Schedspec.

(** ** The image *)

#[export] Instance image : KernelImage.
Proof.
  refine {| kend := KERNBASE + 0x100000; etext := KERNBASE + 0x8000;
            trampoline := KERNBASE + 0x7000; forkret_addr := KERNBASE + 0x1000;
            initcode_addr := KERNBASE + 0x8000; buf0_off := 0; hdr_off := 0 |};
    vm_compute; split; congruence || reflexivity.
Defined.

Definition page (i : Z) : Z := KERNBASE + 0x100000 + i * PGSIZE.

(** ** The tables of processes and containers: slot 0 is init in the root
    container, slots 1 and 2 are processes of container 1 and 2, with the same
    vpid; the others are unused. *)

Definition no_context : context := mk_context 0 0 0 0 0 0 0 0 0 0 0 0 0 0.

Definition a_proc (st : procstate) (pid : Z) (ci : option nat) (vpid sz : Z) (pagetable : Z) : proc :=
  mk_proc st None None 0 0 pid 0 sz pagetable 0 no_context (replicate NOFILE None) None
    (replicate 16 0) 0 ci vpid.

Definition some_procs : list proc :=
  a_proc RUNNABLE 1 (Some 0%nat) 1 0 0 :: a_proc RUNNING 2 (Some 1%nat) 1 PGSIZE (page 0) ::
  a_proc RUNNABLE 3 (Some 2%nat) 7 0 0 :: a_proc RUNNABLE 4 (Some 1%nat) 7 0 0 ::
  replicate 60 (a_proc UNUSED 0 None 0 0 0).

Definition a_container (name : string) (st : containerstate) (memused : Z) : container :=
  mk_container (cstr name) None (cstr "/") 8 5 memused 10 0 10 st.

Definition some_conts : list container :=
  [a_container "root" CRUNNING 0; a_container "one" CRUNNING 2; a_container "two" CSUSPENDED 0;
   a_container "" CUNUSED 0; a_container "" CUNUSED 0].

Definition no_disk : vdisk := mk_vdisk [] 0 [] 0 [] [] 0 [] [].

Definition state_of (m : mem) (fl : Z) (held : gset lock) (cur : nat) (conts : list container) : kst :=
  mk_kst m held (Some cur) fl 0 1 some_procs conts (Some 0%nat) 5 0 1 [] [] 1 [] [] ∅ []
    (mk_superblock 0 0 0 0 0 0 0 0) (mk_log 0 0 0 0 0 0 []) [] no_disk 0.

(** ** The memory: pages 10, 11 and 12 are free; pages 0, 1 and 2 are the page
    table of a process whose page at address 0 is page 3; page 4 is an empty
    page table. *)

Definition zero_mem : mem := memset (memset ∅ (page 0) 0 PGSIZE) (page 4) 0 PGSIZE.
Definition free_mem : mem :=
  store64 (store64 (store64 zero_mem (page 10) (page 11)) (page 11) (page 12)) (page 12) 0.
Definition mem1 : mem :=
  store64 (memset free_mem (page 1) 0 PGSIZE) (pte_at (page 0) 0) (node_pte (page 1)).
Definition mem2 : mem :=
  store64 (memset mem1 (page 2) 0 PGSIZE) (pte_at (page 1) 0) (node_pte (page 2)).
Definition the_pte : Z := pte_for (page 3) urwx.
Definition the_mem : mem := store64 mem2 (pte_at (page 2) (PX 0 0)) the_pte.

Definition the_free : list Z := [page 10; page 11; page 12].
Definition the_tables : gmap (list Z) Z := <[[0; 0] := page 2]> (<[[0] := page 1]> {[[] := page 0]}).
Definition the_leaves : gmap Z Z := {[0 := the_pte]}.
Definition child_tables : gmap (list Z) Z := {[[] := page 4]}.

Definition the_state : kst := state_of the_mem (page 10) ∅ 1 some_conts.

Definition over_conts : list container := <[1%nat := a_container "one" CRUNNING 10]> some_conts.
Definition over_state : kst := state_of the_mem (page 10) ∅ 1 over_conts.

(** ** Lemmas *)

Lemma page_page_ok i : 0 <= i < 100 -> page_ok (page i).
Proof.
  intros H. unfold page_ok, page. change kend with (KERNBASE + 0x100000).
  unfold PHYSTOP, KERNBASE, PGSIZE. dlia.
Qed.

(** Is every byte of the page at [a] zero? *)

Definition zeroes (m : mem) (a : Z) : bool := forallb (fun i => m !!! (a + i) =? 0) (seqZ 0 PGSIZE).

Lemma zeroes_spec m a : zeroes m a = true -> forall x, a <= x < a + PGSIZE -> m !!! x = 0.
Proof.
  intros H x Hx. unfold zeroes in H. rewrite forallb_forall in H.
  replace x with (a + (x - a)) by lia. apply Z.eqb_eq, H.
  apply list_elem_of_In, elem_of_seqZ. lia.
Qed.

Lemma the_pt : pt the_mem (page 0) the_tables the_leaves.
Proof.
  assert (pt free_mem (page 0) {[[] := page 0]} ∅) as H0.
  { apply pt_empty; [by apply page_page_ok|apply zeroes_spec; vm_compute; reflexivity]. }
  assert (pt mem1 (page 0) (<[[0] := page 1]> {[[] := page 0]}) ∅) as H1.
  { apply (pt_extend free_mem _ _ _ [] (page 0) 0 (page 1) H0);
      [done|simpl; lia|done|done|by apply page_page_ok|by apply (bool_decide_unpack _)]. }
  assert (pt mem2 (page 0) the_tables ∅) as H2.
  { apply (pt_extend mem1 _ _ _ [0] (page 1) 0 (page 2) H1);
      [done|simpl; lia|done|done|by apply page_page_ok|by apply (bool_decide_unpack _)]. }
  apply (pt_set_leaf mem2 _ _ _ 0 (page 2) (Some the_pte) H2); [done|done|done|].
  intros w [= <-]. split; [done|]. split; done.
Qed.

Lemma the_child : pt the_mem (page 4) child_tables ∅.
Proof.
  apply pt_empty; [by apply page_page_ok|]. apply zeroes_spec. vm_compute. reflexivity.
Qed.

Lemma the_freelist : freelist the_state the_free.
Proof.
  split; [vm_compute; done|]. split; [apply (bool_decide_unpack _); vm_compute; done|].
  repeat constructor; by apply page_page_ok.
Qed.

Lemma the_cur : cur_cont the_state 1 (a_container "one" CRUNNING 2).
Proof. by exists 1%nat, (a_proc RUNNING 2 (Some 1%nat) 1 PGSIZE (page 0)). Qed.

Lemma the_alloc : alloc_ok the_state the_free.
Proof.
  split; [right; eexists _, _; apply the_cur|]. split; [apply the_freelist|].
  split; apply not_elem_of_empty.
Qed.

(** The address space of the process, and the empty one of its child. *)

Lemma the_vm : vm the_state (page 0) the_tables the_leaves the_free.
Proof.
  split; [apply the_alloc|apply the_pt|]. apply (bool_decide_unpack _). vm_compute. done.
Qed.

Lemma child_vm : vm the_state (page 4) child_tables ∅ the_free.
Proof.
  split; [apply the_alloc|apply the_child|]. apply (bool_decide_unpack _). vm_compute. done.
Qed.

Lemma the_original : original the_state child_tables the_free (page 0) the_tables the_leaves 1.
Proof.
  split; [apply the_pt| |apply (bool_decide_unpack _); vm_compute; done
         |apply (bool_decide_unpack _); vm_compute; done].
  intros i Hi. assert (i = 0) as -> by lia. by exists the_pte.
Qed.

(** ** Spin locks: hart 1 holds pid_lock *)

Definition two_harts : Smp.smp :=
  Smp.mk_smp {[Lpid := Smp.mk_spinlock 1 (Some 1%nat)]}
    (<[0%nat := Smp.mk_cpu 0 0]> {[1%nat := Smp.mk_cpu 1 1]})
    (<[0%nat := true]> {[1%nat := false]}).

Definition holder : kst := state_of ∅ 0 {[Lpid]} 1 some_conts.

Lemma hart1_owns : Smp.own 1 {[Lpid]} 1 two_harts.
Proof.
  split; [|done]. intros l. unfold Smp.held_by. simpl. split.
  - intros ->%elem_of_singleton. by rewrite lookup_total_singleton_eq.
  - intros [H _]. destruct (decide (l = Lpid)) as [->|Hne]; [by apply elem_of_singleton|].
    rewrite lookup_total_singleton_ne in H by done. by exfalso.
Qed.

Lemma acquire_mutual_exclusion_witness :
  Smp.held_by two_harts 1 Lpid /\
  match Smp.acquire 3 0 Lpid [id; id] two_harts with
  | Blocked s' => Smp.held_by s' 1 Lpid
  | Spin => True
  | _ => False
  end.
Proof.
  split; [done|].
  apply (Smp.acquire_mutual_exclusion 3 0 1 Lpid [id; id] two_harts); [done|done|done|].
  do 2 (apply Forall_cons_2; [done|]). apply Forall_nil_2.
Defined.

Lemma acquire_refines_witness :
  match Smp.acquire 2 1 Lkmem [] two_harts, Spinlock.acquire Lkmem [] holder with
  | Ok _ _ s', Ok _ _ k' => Smp.own 1 (k_held k') (Z.of_nat (size (k_held k'))) s'
  | Panic msg, Panic msg' => msg = msg'
  | Blocked _, Ok _ _ _ | Spin, Ok _ _ _ => Smp.lk_locked (Smp.locks two_harts !!! Lkmem) <> 0
  | _, _ => False
  end.
Proof.
  apply (Smp.acquire_refines 1 1 Lkmem [] two_harts holder); [|constructor].
  change (Z.of_nat (size (k_held holder))) with 1. apply hart1_owns.
Defined.

Lemma release_refines_witness :
  match Smp.release 1 Lpid [] two_harts, Spinlock.release Lpid [] holder with
  | Ok _ _ s', Ok _ _ k' =>
      Smp.own 1 (k_held k') (Z.of_nat (size (k_held k'))) s' /\
      Smp.lk_locked (Smp.locks s' !!! Lpid) = 0
  | Panic msg, Panic msg' => msg = msg'
  | _, _ => False
  end.
Proof.
  apply (Smp.release_refines 1 Lpid [] two_harts holder).
  change (Z.of_nat (size (k_held holder))) with 1. apply hart1_owns.
Defined.

Lemma push_pop_nest_witness :
  exists s', runs (Smp.nest 0 5) two_harts tt s' /\ Smp.locks s' = Smp.locks two_harts /\
    Smp.cpu_ok s' 0 /\ Smp.noff (Smp.cpus s' !!! 0%nat) = Smp.noff (Smp.cpus two_harts !!! 0%nat) /\
    Smp.sie s' !!! 0%nat = Smp.sie two_harts !!! 0%nat /\
    (0 < Smp.noff (Smp.cpus two_harts !!! 0%nat) ->
     Smp.intena (Smp.cpus s' !!! 0%nat) = Smp.intena (Smp.cpus two_harts !!! 0%nat)).
Proof. apply (Smp.push_pop_nest 0 5 two_harts). done. Defined.

(** ** The allocator *)

Lemma kalloc_spec_witness :
  runs kalloc the_state (page 10) (taken the_free (charge 1 (a_container "one" CRUNNING 2) 1 the_state)) /\
  freelist (taken the_free (charge 1 (a_container "one" CRUNNING 2) 1 the_state)) [page 11; page 12].
Proof.
  apply (kalloc_spec the_state the_free 1 (a_container "one" CRUNNING 2));
    [done|apply the_cur|apply the_freelist|apply not_elem_of_empty|apply not_elem_of_empty].
Defined.

Lemma kfree_spec_witness :
  runs (kfree (page 13)) the_state tt
    (freed (page 13) (charge 1 (a_container "one" CRUNNING 2) (-1) the_state)) /\
  freelist (freed (page 13) (charge 1 (a_container "one" CRUNNING 2) (-1) the_state))
    (page 13 :: the_free).
Proof.
  assert (page 13 ∉ the_free) as Hn by (apply (bool_decide_unpack _); vm_compute; done).
  pose proof (kfree_spec the_state the_free 1 (a_container "one" CRUNNING 2) (page 13) []
    ltac:(done) the_cur the_freelist Hn (not_elem_of_empty _)) as H.
  rewrite bool_decide_true in H by (by apply page_page_ok). exact H.
Defined.

(** ** Address spaces *)

Lemma uvmalloc_spec_witness :
  exists r s', runs (uvmalloc (page 0) PGSIZE (2 * PGSIZE)) the_state r s' /\
    grown_to the_state (page 0) the_tables the_leaves the_free (PGROUNDUP PGSIZE)
      (grow_pages PGSIZE (2 * PGSIZE)) (2 * PGSIZE) r s'.
Proof.
  apply (uvmalloc_spec the_state (page 0) the_tables the_leaves the_free PGSIZE (2 * PGSIZE) the_vm);
    [done|done|].
  change (grow_pages PGSIZE (2 * PGSIZE)) with 1%nat. change (PGROUNDUP PGSIZE) with PGSIZE.
  intros i Hi. assert (i = 0) as -> by lia. done.
Defined.

Lemma uvmcopy_spec_witness :
  (exists s' T' l' fs, runs (uvmcopy (page 0) (page 4) PGSIZE) the_state 0 s' /\
     length fs = size_pages PGSIZE /\ copy_inv the_state child_tables the_free (page 4) ∅ the_leaves s' T' l' fs) \/
  (exists s' T' l', scarce (3 * size_pages PGSIZE) the_state the_free /\ runs (uvmcopy (page 0) (page 4) PGSIZE) the_state (-1) s' /\
     vm s' (page 4) T' ∅ l' /\ added the_state child_tables the_free s' T' l' []) \/
  (exists msg, scarce 3 the_state the_free /\ (0 < size_pages PGSIZE)%nat /\ panics (uvmcopy (page 0) (page 4) PGSIZE) the_state msg).
Proof.
  apply (uvmcopy_spec the_state (page 0) the_tables the_leaves (page 4) child_tables ∅ the_free PGSIZE
           child_vm the_original); [|done].
  intros i Hi. apply lookup_empty.
Defined.

(** The container of the process is at its memory limit. *)

Lemma uvmcopy_exhausted_panics_witness :
  panics (uvmcopy (page 0) (page 4) PGSIZE) over_state "uvmunmap: walk".
Proof.
  assert (alloc_ok over_state the_free) as Ha.
  { split; [right; exists 1%nat, (a_container "one" CRUNNING 10);
            by exists 1%nat, (a_proc RUNNING 2 (Some 1%nat) 1 PGSIZE (page 0))|].
    split; [|split; apply not_elem_of_empty]. split; [apply the_freelist|]. apply the_freelist. }
  apply (uvmcopy_exhausted_panics over_state (page 0) the_tables the_leaves (page 4) child_tables ∅
           the_free PGSIZE).
  - split; [exact Ha|apply the_child|]. apply (bool_decide_unpack _). vm_compute. done.
  - destruct the_original as [H1 H2 H3 H4]. by split.
  - intros i Hi. apply lookup_empty.
  - done.
  - done.
  - right. split; [done|]. exists 1%nat, (a_container "one" CRUNNING 10). split; [|done].
    by exists 1%nat, (a_proc RUNNING 2 (Some 1%nat) 1 PGSIZE (page 0)).
Defined.

Lemma the_user_ok : user_ok the_tables the_leaves.
Proof.
  intros va w H _. unfold the_leaves in H. apply lookup_singleton_Some in H as [<- <-].
  split; [vm_compute; done|].
  apply (bool_decide_unpack _). vm_compute. done.
Qed.

Lemma the_user_inj : user_inj the_leaves.
Proof.
  assert (forall v pa, utrans the_leaves v = Some pa -> v = pa - page 3) as H.
  { intros v pa. unfold utrans, the_leaves. rewrite lookup_singleton. case_decide as E; [|done].
    cbn [mbind option_bind]. change (Z.land the_pte PTE_U =? 0) with false. cbv iota.
    change (PTE2PA the_pte) with (page 3). intros [= <-]. unfold pg, PGSIZE in *. dlia. }
  intros v v' pa H1%H H2%H. lia.
Qed.

Definition hello : list Z := bytes_of_string "hello".

Lemma copies_bytewise_witness :
  (let w := write_user the_leaves the_mem 8 hello in
   runs (copyout (page 0) 8 (KVal hello) (Z.of_nat (length hello))) the_state
     w.1 (set_k_mem w.2 the_state)) /\
  (let r := read_user the_leaves the_mem 8 (length hello) in
   runs (copyin (page 0) (KVal hello) 8 (Z.of_nat (length hello))) the_state
     (r.1, KVal (list_inserts 0 r.2 hello)) the_state).
Proof.
  assert (0 <= 8 < 2 ^ 64) as H8 by lia.
  exact (copies_bytewise the_state (page 0) the_tables the_leaves 8 hello the_pt the_user_ok H8).
Defined.

Lemma copyin_copyout_witness :
  let s' := set_k_mem (write_user the_leaves the_mem 8 hello).2 the_state in
  runs (copyin (page 0) (KVal (replicate 5 0)) 8 (Z.of_nat (length hello))) s' (0, KVal hello) s'.
Proof.
  assert (0 <= 8 < 2 ^ 64) as H8 by lia.
  pose proof (runs_copyout the_state (page 0) the_tables the_leaves 8 hello the_pt the_user_ok H8) as H.
  cbv zeta in H. assert ((write_user the_leaves (k_mem the_state) 8 hello).1 = 0) as E by (vm_compute; done).
  rewrite E in H.
  exact (copyin_copyout the_state (page 0) the_tables the_leaves 8 hello (replicate 5 0) _
    the_pt the_user_ok the_user_inj H8 eq_refl H).
Defined.

(** A second page is mapped, at address 4096. *)

Definition mapped_state : kst :=
  set_k_mem (store64 the_mem (page 2 + 8) (pte_for (page 5) urwx)) the_state.

Lemma walk_runs : runs (walk (page 0) PGSIZE true) the_state (page 2 + 8) the_state.
Proof.
  unfold walk. change (MAXVA <=? PGSIZE) with false. cbv iota. cbn [walk_from].
  eapply runs_bind; [apply runs_mload64|].
  replace (load64 (k_mem the_state) (pte_at (page 0) (PX 2 PGSIZE))) with (node_pte (page 1))
    by (vm_compute; done).
  change (Z.land (node_pte (page 1)) PTE_V =? 0) with false. cbn [negb].
  change (PTE2PA (node_pte (page 1))) with (page 1).
  eapply runs_bind; [apply runs_mload64|].
  replace (load64 (k_mem the_state) (pte_at (page 1) (PX 1 PGSIZE))) with (node_pte (page 2))
    by (vm_compute; done).
  change (Z.land (node_pte (page 2)) PTE_V =? 0) with false. cbn [negb].
  change (PTE2PA (node_pte (page 2))) with (page 2). apply runs_ret.
Qed.

Lemma mappages_runs : runs (mappages (page 0) PGSIZE PGSIZE (page 5) urwx) the_state 0 mapped_state.
Proof.
  unfold mappages. cbv zeta. apply runs_loopz, runs_loop_stop. unfold mappages_round.
  change (PGROUNDDOWN PGSIZE) with PGSIZE.
  eapply runs_bind; [apply walk_runs|]. change (page 2 + 8 =? 0) with false. cbv iota.
  eapply runs_bind; [apply runs_mload64|].
  replace (load64 (k_mem the_state) (page 2 + 8)) with 0 by (vm_compute; done).
  eapply runs_bind; [apply runs_mstore64|]. apply runs_ret.
Qed.

Lemma mappages_walkaddr_witness :
  runs (walkaddr (page 0) (PGROUNDDOWN 5000)) mapped_state
    (if Z.land urwx PTE_U =? 0 then 0 else page 5 + (PGROUNDDOWN 5000 - PGROUNDDOWN PGSIZE)) mapped_state.
Proof.
  assert (unmapped the_leaves (PGROUNDDOWN PGSIZE) (page_count PGSIZE PGSIZE)) as Hun.
  { intros i Hi. change (page_count PGSIZE PGSIZE) with 1%nat in Hi. assert (i = 0) as -> by lia. done. }
  destruct (mappages_walkaddr the_state (page 0) the_tables the_leaves the_free PGSIZE PGSIZE (page 5)
    urwx the_vm ltac:(done) ltac:(done) ltac:(done) ltac:(done) ltac:(done) ltac:(done) ltac:(done) Hun)
    as (r & s' & Hr & Hres).
  destruct (runs_det _ _ _ _ _ _ mappages_runs Hr) as [<- <-].
  destruct Hres as [[_ Hw]|[? _]]; [by apply Hw|done].
Defined.

(** ** Scheduling *)

Definition idle_state : kst := state_of ∅ 0 ∅ 0 some_conts.

Lemma get_next_active_container_spec_witness :
  (exists d, (1 <= d <= NCONTS)%nat /\ running idle_state (after 1 d) = true /\
     (forall j, (1 <= j < d)%nat -> running idle_state (after 1 j) = false) /\
     runs (get_next_active_container 1) idle_state (after 1 d) idle_state) \/
  ((forall ci, running idle_state ci = false) /\ get_next_active_container 1 [] idle_state = Spin).
Proof. apply (get_next_active_container_spec idle_state 1 []). done. Defined.

Definition kill_state : kst := set_k_cur (Some 1%nat) idle_state.

Lemma kill_cur : cur_cont kill_state 1 (a_container "one" CRUNNING 2).
Proof. by exists 1%nat, (a_proc RUNNING 2 (Some 1%nat) 1 PGSIZE (page 0)). Qed.

Lemma kill_isolation_witness :
  exists r s', runs (kill 1) kill_state r s' /\
    (forall j p, k_procs kill_state !! j = Some p -> p_container p <> Some 1%nat ->
       k_procs s' !! j = Some p) /\
    (r = 0 -> exists j p, k_procs kill_state !! j = Some p /\ p_container p = Some 1%nat /\
       p_vpid p = 1 /\ k_procs s' !! j = Some (kill_proc p)).
Proof.
  apply (kill_isolation kill_state 1 (a_container "one" CRUNNING 2) 1);
    [done|apply kill_cur|done| |done].
  intros i. apply not_elem_of_empty.
Defined.

(** Process 4, of container 1, has vpid 7, but so has process 3, of container 2,
    in an earlier slot. *)

Lemma kill_shadowed_witness : runs (kill 7) kill_state (-1) kill_state.
Proof.
  apply (kill_shadowed kill_state 1 (a_container "one" CRUNNING 2) 7
           2 (a_proc RUNNABLE 3 (Some 2%nat) 7 0 0) 3 (a_proc RUNNABLE 4 (Some 1%nat) 7 0 0));
    try done; [apply kill_cur|].
  intros [|[|i]] r Hi; [intros [= <-]; done..|lia].
Defined.
