(* ===== verification/Procexamples.v ===== *)
(** * Processes that have exited, fork, growth and exit

    On the machine of Examples.v a child of the current process, with one page, a page
    table and a trapframe, that has exited; the same memory as that of a process that
    forks, grows, and then exits; on them the instances of the theorems on the end and the
    beginning of a process. *)

From S2P Require Import Prelude Monad Riscv Kstring Kstate Spinlock Printf Kalloc Vm.
From S2P Require Import Pagetable Uvm Ucopy Sched Schedspec Proc Procspec Forkspec Exitspec Growspec Examples.

(** ** The memory of the child: the page table in pages 20 to 24, the page 25, the
    trapframe in page 26. *)

Definition add_table (a i b : Z) (m : mem) : mem := store64 (memset m b 0 PGSIZE) (pte_at a i) (node_pte b).

Definition add_leaf (a va w : Z) (m : mem) : mem := store64 m (pte_at a (PX 0 va)) w.

Definition tables_mem : mem :=
  add_table (page 23) 511 (page 24) (add_table (page 20) 255 (page 23)
    (add_table (page 21) 0 (page 22) (add_table (page 20) 0 (page 21) (memset the_mem (page 20) 0 PGSIZE)))).

Definition zombie_pte : Z := pte_for (page 25) urwx.
Definition trampoline_pte : Z := pte_for trampoline (Z.lor PTE_R PTE_X).
Definition trapframe_pte : Z := pte_for (page 26) (Z.lor PTE_R PTE_W).

Definition zombie_mem : mem :=
  add_leaf (page 24) TRAPFRAME trapframe_pte (add_leaf (page 24) TRAMPOLINE trampoline_pte (add_leaf (page 22) 0 zombie_pte tables_mem)).

Definition zombie_tables : gmap (list Z) Z :=
  <[[255; 511] := page 24]> (<[[255] := page 23]> (<[[0; 0] := page 22]> (<[[0] := page 21]> {[[] := page 20]}))).

Definition zombie_leaves : gmap Z Z := <[TRAPFRAME := trapframe_pte]> (<[TRAMPOLINE := trampoline_pte]> {[0 := zombie_pte]}).

Definition zombie : proc :=
  set_p_parent (Some 1%nat) (set_p_tf (page 26) (set_p_xstate 7 (a_proc ZOMBIE 5 (Some 1%nat) 2 PGSIZE (page 20)))).

Definition parent : proc := a_proc RUNNING 2 (Some 1%nat) 1 PGSIZE (page 0).

Definition wait_state : kst := set_k_procs (<[4%nat := zombie]> some_procs) (set_k_mem zombie_mem the_state).

(** ** Lemmas *)

Lemma keep_leaf P m m' a va w :
  a mod PGSIZE = 0 -> a ∈ P -> 0 <= PX 0 va < 512 -> same_except P m m' -> same_except P m (add_leaf a va w m').
Proof.
  intros Ha HP Hi Hm. transitivity m'; [done|]. apply (same_except_mono {[a]}); [set_solver|]. by apply same_store.
Qed.

Lemma keep_table P m m' a i b :
  a mod PGSIZE = 0 -> b mod PGSIZE = 0 -> a ∈ P -> b ∈ P -> 0 <= i < 512 -> same_except P m m' -> same_except P m (add_table a i b m').
Proof.
  intros Ha Hb HP HP' Hi Hm. transitivity m'; [done|]. transitivity (memset m' b 0 PGSIZE).
  - apply (same_except_mono {[b]}); [set_solver|]. by apply same_memset.
  - apply (same_except_mono {[a]}); [set_solver|]. by apply same_store.
Qed.

Definition zombie_pages : gset Z := list_to_set (page <$> [20; 21; 22; 23; 24]).

Lemma zombie_same : same_except zombie_pages the_mem zombie_mem.
Proof.
  assert (Hin : forall i, bool_decide (page i ∈ zombie_pages) = true -> page i ∈ zombie_pages) by (intros i H; by apply bool_decide_eq_true in H).
  assert (Hal : forall i, page i mod PGSIZE = 0) by (intros i; unfold page, KERNBASE, PGSIZE; dlia).
  unfold zombie_mem, tables_mem.
  do 3 (apply keep_leaf; [apply Hal|apply Hin; vm_compute; reflexivity|done|]).
  do 4 (apply keep_table; [apply Hal|apply Hal|apply Hin; vm_compute; reflexivity|apply Hin; vm_compute; reflexivity|done|]).
  apply (same_except_mono {[page 20]}); [|apply same_memset, Hal]. intros x ->%elem_of_singleton. apply Hin. vm_compute. reflexivity.
Qed.

Lemma zombie_pt : pt zombie_mem (page 20) zombie_tables zombie_leaves.
Proof.
  assert (pt (memset the_mem (page 20) 0 PGSIZE) (page 20) {[[] := page 20]} ∅) as H0.
  { apply pt_empty; [by apply page_page_ok|apply zeroes_spec; vm_compute; reflexivity]. }
  apply (pt_extend _ _ _ _ [] (page 20) 0 (page 21)) in H0;
    [|vm_compute; reflexivity|simpl; lia|lia|vm_compute; reflexivity|by apply page_page_ok|apply (bool_decide_unpack _); vm_compute; exact I].
  apply (pt_extend _ _ _ _ [0] (page 21) 0 (page 22)) in H0;
    [|vm_compute; reflexivity|simpl; lia|lia|vm_compute; reflexivity|by apply page_page_ok|apply (bool_decide_unpack _); vm_compute; exact I].
  apply (pt_extend _ _ _ _ [] (page 20) 255 (page 23)) in H0;
    [|vm_compute; reflexivity|simpl; lia|lia|vm_compute; reflexivity|by apply page_page_ok|apply (bool_decide_unpack _); vm_compute; exact I].
  apply (pt_extend _ _ _ _ [255] (page 23) 511 (page 24)) in H0;
    [|vm_compute; reflexivity|simpl; lia|lia|vm_compute; reflexivity|by apply page_page_ok|apply (bool_decide_unpack _); vm_compute; exact I].
  apply (pt_set_leaf _ _ _ _ 0 (page 22) (Some zombie_pte)) in H0; [|vm_compute; reflexivity|done|done|intros w [= <-]; apply (bool_decide_unpack _); vm_compute; exact I].
  apply (pt_set_leaf _ _ _ _ TRAMPOLINE (page 24) (Some trampoline_pte)) in H0; [|vm_compute; reflexivity|done|done|intros w [= <-]; apply (bool_decide_unpack _); vm_compute; exact I].
  apply (pt_set_leaf _ _ _ _ TRAPFRAME (page 24) (Some trapframe_pte)) in H0; [|vm_compute; reflexivity|done|done|intros w [= <-]; apply (bool_decide_unpack _); vm_compute; exact I].
  exact H0.
Qed.

Lemma wait_cur : cur_cont wait_state 1 (a_container "one" CRUNNING 2).
Proof. by exists 1%nat, parent. Qed.

Lemma wait_alloc : alloc_ok wait_state the_free.
Proof.
  split; [right; eexists _, _; apply wait_cur|]. split; [|split; apply not_elem_of_empty].
  split; [vm_compute; done|]. split; [apply (bool_decide_unpack _); vm_compute; done|]. repeat constructor; by apply page_page_ok.
Qed.

Lemma zombie_space : addr_space wait_state the_free (page 20) PGSIZE zombie_tables zombie_leaves.
Proof.
  split; [split; [apply wait_alloc|apply zombie_pt|apply (bool_decide_unpack _); vm_compute; done]|by split| | | |].
  - intros i Hi. change (Z.of_nat (size_pages PGSIZE)) with 1 in Hi. assert (i = 0) as -> by lia. by exists zombie_pte.
  - split; by eexists.
  - change (Z.of_nat (size_pages PGSIZE) * PGSIZE) with 4096. intros va [w Hw] Hlt. unfold zombie_leaves in Hw.
    rewrite lookup_insert_ne in Hw by lia. rewrite lookup_insert_ne in Hw by (change TRAMPOLINE with (TRAPFRAME + 4096); lia).
    apply lookup_singleton_Some in Hw as [<- _]. lia.
  - split; [apply (bool_decide_unpack _); vm_compute; done|]. split; [|apply (bool_decide_unpack _); vm_compute; done].
    change (frames zombie_leaves 0 (size_pages PGSIZE)) with [page 25]. constructor; [by apply page_page_ok|constructor].
Qed.

Lemma zombie_freeable : freeable [page 26; page 25] the_free zombie_tables.
Proof.
  split; [apply (bool_decide_unpack _); vm_compute; done|]. split; [|apply (bool_decide_unpack _); vm_compute; done].
  repeat constructor; by apply page_page_ok.
Qed.

Lemma parent_pt : pt zombie_mem (page 0) the_tables the_leaves.
Proof. apply (pt_ext the_mem _ _ _ _ zombie_pages); [apply the_pt|apply zombie_same|apply (bool_decide_unpack _); vm_compute; done]. Qed.

Lemma parent_user : user_ok the_tables the_leaves.
Proof.
  intros va w Hw _. unfold the_leaves in Hw. apply lookup_singleton_Some in Hw as [<- <-]. split; [done|]. apply (bool_decide_unpack _). vm_compute. done.
Qed.

Lemma the_waiter : waiter wait_state 1 parent.
Proof. by split. Qed.

(** ** Instances *)

(** The child is reaped; its status is at address 8 of the parent, in page 3. *)

Lemma wait_reaps_witness :
  exists s' l', runs (wait 8) wait_state 5 s' /\
    kstep (with_proc 4 (freed_proc zombie) (set_k_mem (status_copied the_leaves zombie_mem 8 7).2 wait_state)) s' /\
    alloc_ok s' l' /\ l' ≡ₚ pages_of zombie_tables zombie_leaves (page 26) PGSIZE ++ the_free /\
    same_except (list_to_set (pages_of zombie_tables zombie_leaves (page 26) PGSIZE)) (status_copied the_leaves zombie_mem 8 7).2 (k_mem s').
Proof.
  assert (E : (status_copied the_leaves (k_mem wait_state) 8 (p_xstate zombie)).1 <? 0 = false) by (vm_compute; reflexivity).
  pose proof (wait_reaps wait_state 1 parent 4 zombie 8 the_free zombie_tables zombie_leaves the_tables the_leaves the_waiter
    ltac:(vm_compute; reflexivity) zombie_space zombie_freeable ltac:(done) ltac:(done) parent_pt parent_user
    ltac:(apply (bool_decide_unpack _); vm_compute; done) ltac:(done)) as H.
  cbv zeta in H. rewrite E in H. exact H.
Defined.

(** ** A process that forks

    It has the address space of the child above, a free list of ten pages, an open file at
    descriptor 1 and a current directory; its container may use 100 pages. *)

Fixpoint link_pages (l : list Z) (m : mem) : mem :=
  match l with [] => m | a :: r => store64 (link_pages r m) a (hd 0 r) end.

Definition fork_free : list Z := page <$> seqZ 30 10.

Definition fork_mem : mem := link_pages fork_free zombie_mem.

Definition forking : proc :=
  set_p_name (cstr "sh" ++ replicate 13 0) (set_p_cwd (Some 0%nat) (set_p_ofile (<[1%nat := Some 0%nat]> (replicate NOFILE None))
    (set_p_tf (page 26) (a_proc RUNNING 2 (Some 1%nat) 1 PGSIZE (page 20))))).

Definition free_slot : proc := a_proc UNUSED 0 None 0 0 0.

Definition fork_container (maxproc : Z) : container := set_c_maxproc maxproc (set_c_memlimit 100 (a_container "one" CRUNNING 2)).

Definition fork_file : file := mk_file FD_INODE 1 1 1 0 (Some 0%nat) 0 0.

Definition fork_inode : inode := mk_inode 1 1 2 (mk_sleeplock 0 0) 1 1 0 0 1 0 [].

Definition fork_state (maxproc : Z) : kst :=
  set_k_icache [fork_inode] (set_k_ftable [fork_file] (set_k_procs (<[1%nat := forking]> some_procs)
    (set_k_conts (<[1%nat := fork_container maxproc]> some_conts) (set_k_freelist (page 30) (set_k_mem fork_mem the_state))))).

Lemma link_same l m : Forall page_ok l -> same_except (list_to_set l) m (link_pages l m).
Proof.
  induction 1 as [|a l Ha _ IH]; [done|]. cbn [link_pages]. apply page_phys in Ha as [_ Ha].
  eapply same_except_trans; [exact IH|by apply same_store0|set_solver..].
Qed.

Lemma fork_pages : Forall page_ok fork_free.
Proof. apply Forall_forall. intros a (i & -> & Hi)%list_elem_of_fmap. apply elem_of_seqZ in Hi. apply page_page_ok. lia. Qed.

Lemma fork_cur maxproc : cur_cont (fork_state maxproc) 1 (fork_container maxproc).
Proof. by exists 1%nat, forking. Qed.

Lemma fork_alloc maxproc : alloc_ok (fork_state maxproc) fork_free.
Proof.
  split; [right; eexists _, _; apply fork_cur|]. split; [|split; apply not_elem_of_empty].
  split; [vm_compute; done|]. split; [apply (bool_decide_unpack _); vm_compute; done|]. apply fork_pages.
Qed.

Lemma fork_space maxproc : addr_space (fork_state maxproc) fork_free (page 20) PGSIZE zombie_tables zombie_leaves.
Proof.
  destruct zombie_space as [_ H2 H3 H4 H5 H6]. split; [split; [apply fork_alloc| |apply (bool_decide_unpack _); vm_compute; done]|done|done|done|done|].
  - apply (pt_ext zombie_mem _ _ _ _ (list_to_set fork_free)); [apply zombie_pt|apply link_same, fork_pages|apply (bool_decide_unpack _); vm_compute; done].
  - split; [apply (bool_decide_unpack _); vm_compute; done|]. split; [apply H6|apply H6].
Qed.

Lemma fork_forker maxproc : forker (fork_state maxproc) 1 forking 4 free_slot.
Proof. by split. Qed.

Lemma fork_forkable maxproc : forkable (fork_state maxproc) forking free_slot 1 (fork_container maxproc) 0 fork_inode.
Proof.
  split; [done| |by split_and!|done]. split; [done|]. split; [done|]. intros f Hf.
  assert (f = 0%nat) as -> by (cbn in Hf; set_solver). by exists fork_file.
Qed.

Lemma fork_pages_enough maxproc : ~ scarce (6 + 3 * size_pages PGSIZE) (fork_state maxproc) fork_free.
Proof.
  change (6 + 3 * size_pages PGSIZE)%nat with 9%nat. intros [H|(_ & ci & c & k & Hk & Hc & Hov)].
  - vm_compute in H. lia.
  - destruct (cur_cont_unique _ _ _ _ _ Hc (fork_cur maxproc)) as [-> ->].
    do 10 (destruct k as [|k]; [vm_compute in Hov; done|]). lia.
Qed.

(** The parent has two processes in a container for five: the child is the third. *)

Lemma fork_child_witness :
  exists s' l' tf root nm T L, runs fork (fork_state 5) 5 s' /\ cstring nm = cstring (take 15 (p_name forking)) /\
    kstep (forked forking 1 (fork_container 5) 0 fork_inode 4 (child_of_fork 1 forking free_slot 5 tf root nm) (fork_state 5)) s' /\
    same_except (list_to_set fork_free) fork_mem (k_mem s') /\
    cloned (fork_state 5) fork_free zombie_leaves PGSIZE s' l' root tf T L /\ trapframe_copied fork_mem (page 26) (k_mem s') tf.
Proof.
  apply (fork_child (fork_state 5) fork_free 1 forking 4 free_slot 1 (fork_container 5) 0 fork_inode zombie_tables zombie_leaves
    (fork_forker 5) (fork_forkable 5) (fork_space 5)); [by apply page_page_ok|apply (bool_decide_unpack _); vm_compute; done|apply fork_pages_enough|vm_compute; done].
Defined.

(** A container for two: fork fails, and file 0 has two references, one of them from the
    unused slot. *)

Lemma fork_at_limit_witness :
  exists s' l' tf root nm, runs fork (fork_state 2) (-1) s' /\ alloc_ok s' l' /\ l' ≡ₚ fork_free /\
    same_except (list_to_set fork_free) fork_mem (k_mem s') /\
    kstep (referenced forking 0 fork_inode (with_proc 4 (freed_proc (child_of_fork 1 forking free_slot 5 tf root nm))
      (set_k_nextpid 6 (fork_state 2)))) s'.
Proof.
  apply (fork_at_limit (fork_state 2) fork_free 1 forking 4 free_slot 1 (fork_container 2) 0 fork_inode zombie_tables zombie_leaves
    (fork_forker 2) (fork_forkable 2) (fork_space 2)); [by apply page_page_ok|apply (bool_decide_unpack _); vm_compute; done|apply fork_pages_enough|done|
    apply (bool_decide_unpack _); vm_compute; done|vm_compute; done].
Defined.

(** ** A process that asks for 5000 bytes more

    There are pages enough, so that it gets them. *)

Lemma growproc_space_witness :
  exists s' l' T' L', runs (growproc 5000) (fork_state 5) 0 s' /\ kstep (with_proc 1 (set_p_sz 9096 forking) (fork_state 5)) s' /\
    resized (fork_state 5) fork_free PGSIZE zombie_tables zombie_leaves s' l' (page 20) 9096 T' L'.
Proof.
  destruct (growproc_space (fork_state 5) fork_free 1 forking zombie_tables zombie_leaves 5000 ltac:(done) eq_refl eq_refl (fork_space 5))
    as (r & s' & l' & T' & L' & sz' & R & S & Hr & [[-> ->]|(_ & _ & _ & Hsc)]); [done|done|by exists s', l', T', L'|].
  destruct (fork_pages_enough 5). eapply scarce_mono; [|exact Hsc]. vm_compute. lia.
Defined.

(** ** A process that exits

    Its parent is init, which waits, and it has a child in slot 3.  Its files are one that
    others have open too, one that only it has open, and the write end of a pipe whose other
    end is closed; others are in its directory. *)

Definition dying : proc :=
  set_p_ofile (list_inserts 1 [Some 0%nat; Some 1%nat; Some 2%nat; Some 0%nat] (replicate NOFILE None)) (set_p_parent (Some 0%nat) forking).

Definition waiting : proc := set_p_chan (Some (ChProc 0)) (a_proc SLEEPING 1 (Some 0%nat) 1 0 0).

Definition its_child : proc := set_p_parent (Some 1%nat) (a_proc RUNNABLE 4 (Some 1%nat) 7 0 0).

Definition half_pipe : pipe := mk_pipe (replicate 512 5) 0 0 0 1.

Definition exit_state : kst :=
  set_k_ftable [set_f_ref 3 fork_file; fork_file; mk_file FD_PIPE 1 0 1 (page 27) None 0 0] (set_k_pipes {[page 27 := half_pipe]}
    (set_k_icache [set_i_ref 4 fork_inode] (set_k_procs (<[0%nat := waiting]> (<[1%nat := dying]> (<[3%nat := its_child]> some_procs))) (fork_state 5)))).

Lemma exit_free : free_thread 1 dying exit_state.
Proof. by split. Qed.

(** What is left: two references to the directory's inode, none to the files of its own, no
    pipe, a page more on the free list; init is woken, and has a zombie and one more child. *)

Definition exit_left (s : kst) : bool :=
  bool_decide (f_ref <$> k_ftable s = [1; 0; 0]) && bool_decide (i_ref <$> k_icache s = [2]) && bool_decide (k_pipes s = ∅) &&
  bool_decide (k_freelist s = page 27) && bool_decide (p_state <$> k_procs s !! 0%nat = Some RUNNABLE) &&
  bool_decide (p_state <$> k_procs s !! 1%nat = Some ZOMBIE) && bool_decide (p_parent <$> k_procs s !! 3%nat = Some (Some 0%nat)).

Lemma exit_zombie_witness :
  exists s1, let_go 1 dying exit_state = Some s1 /\ exit_left (exited 3 1 (left_proc dying) 0 0 s1) = true /\
    exit 3 [] exit_state = Blocked (exited 3 1 (left_proc dying) 0 0 s1) /\ (forall f e, exit 3 (f :: e) exit_state = Panic "zombie exit").
Proof.
  assert (H : match let_go 1 dying exit_state with Some s1 => exit_left (exited 3 1 (left_proc dying) 0 0 s1) | None => false end = true) by (vm_compute; done).
  destruct (let_go 1 dying exit_state) as [s1|] eqn:E; [|done]. exists s1. split; [done|]. split; [exact H|].
  destruct (exit_zombie 3 1 0 exit_state ltac:(done) eq_refl eq_refl ltac:(done)) as (_ & _ & H2).
  apply (H2 dying 0%nat s1 exit_free); [done|unfold NPROC; lia|done|done|unfold NPROC; lia| |exact E].
  intros j q Hj Hc ->. cbn in Hj. injection Hj as <-. done.
Defined.
