(* ===== verification/Ioexamples.v ===== *)
(** * Concrete kernels: pipes and consoles

    Instances of the theorems on the devices and pipes, on the machine of
    Examples.v with a pipe in page 20 and five consoles. *)

From S2P Require Import Prelude Monad Ring Riscv Kstring Kstate Spinlock Printf Kalloc Vm.
From S2P Require Import Pagetable Uvm Ucopy Sched Schedspec Bio Log Fs Console File Pipespec Consolespec.
From S2P Require Import Examples.

(** ** Numbers *)

Lemma printint_numeral_witness :
  exists t, runs (printint (- 2 ^ 31) 10 1) the_state tt (emit t the_state) /\ numeral 10 t = - 2 ^ 31.
Proof. apply (printint_numeral (- 2 ^ 31) 10 the_state); [lia|by left]. Defined.

(** ** Pipes: the counters of the pipe are about to wrap around, and the ring
    holds "hello" *)

Definition the_pipe : pipe :=
  mk_pipe (list_inserts 510 (bytes_of_string "he") (list_inserts 0 (bytes_of_string "llo") (replicate 512 0)))
    (2 ^ 32 - 2) 3 1 1.

Definition pipe_state : kst := set_k_pipes {[page 20 := the_pipe]} the_state.

Definition the_proc : proc := a_proc RUNNING 2 (Some 1%nat) 1 PGSIZE (page 0).

(** The process of slot 1 in a system call, whatever the rest of the state. *)

Lemma caller_at s :
  k_started s = 1 -> k_cur s = Some 1%nat -> k_procs s = some_procs -> k_held s = ∅ -> k_mem s = the_mem ->
  caller s 1 the_proc the_tables the_leaves.
Proof.
  intros Hst Hc Hp Hh Hm. split; rewrite ?Hst, ?Hc, ?Hp, ?Hh, ?Hm;
    [discriminate|reflexivity|reflexivity|reflexivity|reflexivity|exact the_pt|exact the_user_ok].
Qed.

Lemma pipe_caller : caller pipe_state 1 the_proc the_tables the_leaves.
Proof. apply caller_at; reflexivity. Qed.

Lemma the_pipe_ok : pipe_ok the_pipe.
Proof. split; vm_compute; done. Qed.

Lemma the_queue : queue the_pipe = hello.
Proof. vm_compute. done. Qed.

Lemma pipewrite_spec_witness :
  exists x', pipe_ok x' /\
    queue x' = queue the_pipe ++ (read_user the_leaves (k_mem pipe_state) 8 (Z.to_nat 3)).2 /\
    runs (pipewrite (page 20) 8 3) pipe_state 3
      (set_k_procs (wake (ChPipeR (page 20)) <$> k_procs pipe_state) (with_pipe (page 20) x' pipe_state)).
Proof.
  exact (pipewrite_spec pipe_state 1 the_proc the_tables the_leaves (page 20) the_pipe 8 3
    pipe_caller eq_refl the_pipe_ok ltac:(lia) ltac:(vm_compute; congruence) ltac:(lia) ltac:(lia)).
Defined.

Lemma piperead_spec_witness :
  let bs := take (Z.to_nat 4) (queue the_pipe) in
  let w := write_user the_leaves (k_mem pipe_state) 8 bs in
  exists x', pipe_ok x' /\ queue the_pipe = bs ++ queue x' /\
    runs (piperead (page 20) 8 4) pipe_state (Z.of_nat (length bs))
      (set_k_procs (wake (ChPipeW (page 20)) <$> k_procs pipe_state)
        (with_pipe (page 20) x' (set_k_mem w.2 pipe_state))).
Proof.
  assert ((write_user the_leaves (k_mem pipe_state) 8 (take (Z.to_nat 4) (queue the_pipe))).1 = 0) as Hw
    by (vm_compute; done).
  exact (piperead_spec pipe_state 1 the_proc the_tables the_leaves (page 20) the_pipe 8 4
    pipe_caller eq_refl the_pipe_ok ltac:(left; vm_compute; done) ltac:(lia) ltac:(lia) ltac:(lia) Hw).
Defined.

(** ** Consoles: the active one has a line and the start of another *)

Definition the_console : input :=
  mk_input (list_inserts 0 (bytes_of_string "ls" ++ [10] ++ bytes_of_string "ca") (replicate 128 0)) 0 3 5.

Definition console_state : kst :=
  set_k_consoles (the_console :: replicate 4 (mk_input (replicate 128 0) 0 0 0)) the_state.

Lemma the_console_ok : cons_ok the_console.
Proof.
  split; try (vm_compute; done). apply (bool_decide_unpack _). vm_compute. done.
Qed.

Lemma consoleintr_edits_witness :
  let d := edit (committed the_console) (line the_console) 116 in
  ed_line d = bytes_of_string "cat" /\
  exists x', cons_ok x' /\ committed x' = ed_committed d /\ line x' = ed_line d /\
    runs (consoleintr 116) console_state tt
      (woken (ed_wake d) (ChCons (Z.to_nat (k_active console_state - 1)))
        (emit (ed_echo d) (with_cons (Z.to_nat (k_active console_state - 1)) x' console_state))).
Proof.
  split; [vm_compute; done|].
  exact (consoleintr_edits console_state the_console 116 ltac:(vm_compute; congruence) eq_refl the_console_ok
    eq_refl (not_elem_of_empty _) (fun j => not_elem_of_empty _) ltac:(lia) ltac:(discriminate)
    ltac:(discriminate)).
Defined.

Lemma consoleread_line_witness :
  let w := write_user the_leaves (k_mem console_state) 8 (bytes_of_string "ls" ++ [10]) in
  exists x', cons_ok x' /\ committed x' = [] /\ line x' = line the_console /\
    runs (consoleread 1 (PUser 8) 100) console_state (Z.of_nat (length (bytes_of_string "ls" ++ [10])), PUser 8)
      (with_cons (Z.to_nat (1 - 1)) x' (set_k_mem w.2 console_state)).
Proof.
  assert (caller console_state 1 the_proc the_tables the_leaves) as Hc.
  { apply caller_at; reflexivity. }
  assert ((write_user the_leaves (k_mem console_state) 8 (bytes_of_string "ls" ++ [10])).1 = 0) as Hw
    by (vm_compute; done).
  exact (consoleread_line console_state 1 the_proc the_tables the_leaves 1 the_console 8 100
    (bytes_of_string "ls" ++ [10]) [] Hc ltac:(lia) eq_refl the_console_ok ltac:(lia) ltac:(lia) ltac:(lia)
    ltac:(vm_compute; done) Hw).
Defined.

Lemma console_switch_overflow_witness :
  let s := set_k_active 5 console_state in
  exists t, runs (consoleintr C_T) s tt t /\ k_active t = Z.of_nat NCONS + 1 /\
    (forall e, consoleintr 65 e t = Fault) /\ (forall e, consolewrite 1 (PObj hello) 5 e t = Fault).
Proof.
  exact (console_switch_overflow (set_k_active 5 console_state) 65 1 (PObj hello) 5 eq_refl eq_refl eq_refl).
Defined.
