(* ===== verification/Uexamples.v ===== *)
(** * The user programs on concrete inputs *)

From S2P Require Import Prelude Monad Kstring Printf Uprog Ulib Grep Umalloc Uprogs Usertests Sh.

(** The answer of a system call that fails. *)

Definition refuse {R} (c : sys R) : R :=
  match c in sys R return R with
  | Sread _ _ => (-1, [])
  | Swait => (-1, 0)
  | Spipe => (-1, (0, 0))
  | Sfstat _ => (-1, mk_stat 0 0 0 0 0)
  | Spsinfo => (-1, [])
  | Scinfo => (-1, [])
  | Smalloc _ => 0
  | Sfree _ => tt
  | Sload _ _ => None
  | Sstore _ _ _ => None
  | _ => -1
  end.

(** A world with one file, open for reading and writing: what is left of it, and what
    has been written.  Every other system call fails. *)

Definition one_file : kernel (list Z * list Z) := fun R c =>
  match c in sys R return list Z * list Z -> R * (list Z * list Z) with
  | Sread _ n => fun w =>
      let k := Nat.min (Z.to_nat n) (length w.1) in
      ((Z.of_nat k, take k w.1), (drop k w.1, w.2))
  | Swrite _ bs => fun w => (Z.of_nat (length bs), (w.1, w.2 ++ bs))
  | c => fun w => (refuse c, w)
  end.

(** A world of children that end with the statuses that are left. *)

Definition children : kernel (list Z * list Z) := fun R c =>
  match c in sys R return list Z * list Z -> R * (list Z * list Z) with
  | Sfork => fun w => (7, w)
  | Swait => fun w => match w.1 with x :: l => ((7, x), (l, w.2)) | [] => (refuse Swait, w) end
  | Swrite _ bs => fun w => (Z.of_nat (length bs), (w.1, w.2 ++ bs))
  | c => fun w => (refuse c, w)
  end.

Lemma children_ok : test_kernel children fst snd.
Proof.
  split.
  - intros bs w. by eexists.
  - intros w. by exists 7, w.
  - intros [l o] x l' E. cbn in E. subst l. by exists 7, (l', o).
  - intros w path mode. by exists (-1), w.
  - intros w fd. by exists (-1), w.
Qed.

Lemma one_file_ok : file_kernel one_file 0 fst snd.
Proof.
  split.
  - intros n [r o] Hn Hr. cbn [fst snd] in *. assert (0 < length r)%nat by (destruct r; [done|cbn; lia]).
    exists (Nat.min (Z.to_nat n) (length r)). eexists. split; [lia|]. split; [lia|]. done.
  - intros n [r o] Hn. cbn [fst snd] in *. exists (r, o). cbn.
    assert (Nat.min (Z.to_nat n) (length r) = 0%nat) as -> by (destruct Hn as [Hn| ->]; cbn; lia).
    rewrite drop_0. done.
  - intros bs [r o]. cbn. by eexists.
Qed.

(** ** grep *)

Definition two_lines : list Z := bytes_of_string "hello
world
".

Lemma grep_prints_witness :
  exists w', prun one_file (grep 13 (bytes_of_string "^wor") 0) (two_lines, []) = RDone tt w' /\
    w'.1 = [] /\ w'.2 = [] ++ printed (bytes_of_string "^wor") (lines two_lines).1.
Proof.
  apply (grep_prints one_file 0 fst snd (bytes_of_string "^wor") (two_lines, [])).
  - exact one_file_ok.
  - repeat constructor; done.
  - split; [repeat constructor|]; done.
Defined.

Lemma grep_long_line_witness :
  exists w', prun one_file (grep 1024 (bytes_of_string "a") 0) (replicate 1024 97 ++ [10], []) = RDone tt w' /\
    w'.1 = drop 1023 (replicate 1024 97 ++ [10]) /\ w'.2 = [].
Proof.
  apply (grep_long_line one_file 0 fst snd (bytes_of_string "a") (replicate 1024 97 ++ [10], [])).
  - exact one_file_ok.
  - cbn [fst]. rewrite length_app, length_replicate. lia.
  - cbn [fst]. rewrite take_app_le by (rewrite length_replicate; lia).
    rewrite take_replicate. apply Forall_replicate. done.
Defined.

(** ** cat and wc *)

Lemma cat_copies_witness :
  exists w', prun one_file (cat 13 0) (two_lines, []) = RDone tt w' /\ w'.1 = [] /\ w'.2 = [] ++ two_lines.
Proof. exact (cat_copies one_file 0 fst snd (two_lines, []) one_file_ok). Defined.

Lemma wc_counts_witness :
  exists w' tl tn tc,
    prun one_file (wc 13 0 [120]) (two_lines, []) = RDone tt w' /\ w'.1 = [] /\
    w'.2 = [] ++ tl ++ [32] ++ tn ++ [32] ++ tc ++ [32] ++ [120] ++ [10] /\
    numeral 10 tl = i32 (newlines two_lines) /\
    numeral 10 tn = i32 (Z.of_nat (length (fields two_lines))) /\
    numeral 10 tc = i32 (Z.of_nat (length two_lines)).
Proof.
  apply (wc_counts one_file 0 fst snd [120] (two_lines, []) one_file_ok).
  repeat constructor; done.
Defined.

(** ** The shell *)

Definition some_line : list Z := bytes_of_string "(ls; cat<f | wc)>g & echo a".

Lemma parsecmd_words_witness :
  match parsecmd some_line with
  | Cmd c buf => strings buf c = with_strings (text some_line) c /\ Forall (word_ok some_line) (words c)
  | Leftovers l => l `suffix_of` some_line /\ l <> []
  | Panicked _ => True
  | Unfinished => False
  end.
Proof. apply (parsecmd_words some_line). repeat constructor; done. Defined.

Definition some_cmd : cmd (list Z) :=
  BACK (LIST (PIPE (REDIR (EXEC [[97]; [98]]) [99] O_RDONLY 0) (EXEC [[100]]))
             (REDIR (BACK (EXEC [[101]])) [102] (Z.lor O_WRONLY O_CREATE) 1)).

Lemma parsecmd_print_witness :
  exists t buf, parsecmd (print 0%nat some_cmd) = Cmd t buf /\ strings buf t = some_cmd.
Proof.
  apply (parsecmd_print some_cmd). cbn. unfold MAXARGS.
  split_and!; try (by repeat constructor); try lia; try (by left); try (by right).
Defined.

Lemma run_line_exits_witness :
  exists status w', prun one_file (run_line some_line) ([], []) = RExit status w'.
Proof. apply (run_line_exits one_file some_line). repeat constructor; done. Defined.

(** ** The allocator *)

Definition some_grants (brk n : Z) : bool := (0 <=? n) && (brk + n <=? 2 ^ 27).

Definition fresh_heap : heap := mk_heap ∅ 0 8192.

Lemma fresh_arena : arena 4096 8192 fresh_heap [] ∅.
Proof.
  split.
  - by left.
  - cbn. lia.
  - cbn. unfold sizeof_Header. lia.
  - constructor.
  - intros b n H. by rewrite lookup_empty in H.
  - intros b n H. by rewrite lookup_empty in H.
  - intros b n c k H. by rewrite lookup_empty in H.
  - reflexivity.
Qed.

Lemma malloc_spec_witness :
  100 <= sizeof_Header * (malloc_units 100 - 1) /\
  ((exists s', runs (malloc 4096 8192 some_grants 100) fresh_heap 0 s' /\ arena 4096 8192 s' [] ∅ /\
      some_grants 8192 (core_units (malloc_units 100) * sizeof_Header) = false) \/
   (exists s' fl' c, runs (malloc 4096 8192 some_grants 100) fresh_heap (hdr_add c 1) s' /\
      (∅ : gmap Z Z) !! c = None /\ arena 4096 8192 s' fl' (<[c := malloc_units 100]> ∅))).
Proof.
  apply (malloc_spec 4096 8192 some_grants).
  - unfold some_grants. intros brk n H. apply andb_prop in H as [H1%Z.leb_le H2%Z.leb_le]. lia.
  - exact fresh_arena.
  - lia.
Defined.

Lemma malloc_truncated_witness :
  exists s', runs (malloc 4096 8192 some_grants (2 ^ 32 - 15)) fresh_heap (hp_brk s') s' /\
    hp_brk s' = 8192 + 16.
Proof.
  apply (malloc_truncated 4096 8192 some_grants fresh_heap).
  - exact fresh_arena.
  - reflexivity.
  - reflexivity.
Defined.

(** A heap of 4096 units, with a block of 2 units at its end. *)

Definition used_heap : heap :=
  mk_heap (<[4096 := mk_header 8192 0]> (<[8192 := mk_header 4096 4094]>
          (<[73696 := mk_header 0 2]> ∅))) 4096 73728.

Lemma used_arena : arena 4096 8192 used_heap [(8192, 4094)] {[73696 := 2]}.
Proof.
  split.
  - right. split; [|left]. split; [reflexivity|]. split; [reflexivity|exact I].
  - cbn. unfold hdr_add, sizeof_Header. lia.
  - cbn. unfold sizeof_Header. lia.
  - repeat constructor; cbn; lia.
  - intros b n [<- <-]%lookup_singleton_Some. cbn. unfold hdr_add, sizeof_Header.
    split_and!; [lia..|reflexivity].
  - intros b n [<- <-]%lookup_singleton_Some. constructor; [|constructor]. right. cbn. unfold hdr_add, sizeof_Header. lia.
  - intros b n c k [<- _]%lookup_singleton_Some [<- _]%lookup_singleton_Some. done.
  - reflexivity.
Qed.

Lemma free_spec_witness :
  exists s' fl', runs (free 4096 8192 (hdr_add 73696 1)) used_heap tt s' /\
    arena 4096 8192 s' fl' (delete 73696 {[73696 := 2]}) /\
    units fl' = units [(8192, 4094)] + 2 /\ hp_brk s' = hp_brk used_heap.
Proof.
  apply (free_spec 4096 8192 some_grants used_heap [(8192, 4094)] {[73696 := 2]} 73696 2).
  - exact used_arena.
  - apply lookup_singleton_eq.
Defined.

Lemma tests_main_reports_witness :
  exists w', prun children (usertests_main 9 0 0 0 [chars "usertests"; chars "iput"]) ([1], []) = RExit 1 w' /\
    w'.2 = [] ++ chars "usertests starting
" ++ concat (zip_with report (selected (Some (chars "iput")) (tests 9 0 0 0).*2) [1]) ++ verdict [1].
Proof.
  apply (tests_main_reports children fst snd (tests 9 0 0 0) [chars "usertests"; chars "iput"] ([1], []) [1]);
    [exact children_ok| |reflexivity|reflexivity].
  apply (bool_decide_unpack _). vm_compute. exact I.
Defined.
