(* ===== verification/Diskexamples.v ===== *)
(** * A concrete disk

    A device that follows the law of [VirtioDevice], a process on the machine of
    Examples.v with an empty buffer cache, and a file system of 1000 blocks whose log
    starts at block 2 and whose bitmap is block 45; on these an instance each of the
    theorems on the cache, the log and transactions. *)

From S2P Require Import Prelude Monad Riscv Kstring Kstate Spinlock Printf Kalloc Vm Sched Schedspec.
From S2P Require Import Bio Log Diskspec Cachespec Logspec Fs Txnspec Examples.

(** ** The device *)

Definition serve (d : disk) (s : kst) : kst * disk :=
  match pending (k_vdisk s) with
  | Some r =>
      match k_bufs s !! rq_buf r with
      | Some b =>
          if rq_type r =? VIRTIO_BLK_T_OUT
          then (set_k_vdisk (used_up r (k_vdisk s)) s, write_block d (rq_block r) (b_data b))
          else (set_k_vdisk (used_up r (k_vdisk s))
                  (set_k_bufs (<[rq_buf r := set_b_data (d (rq_block r)) b]> (k_bufs s)) s), d)
      | None => (s, d)
      end
  | None => (s, d)
  end.

#[export] Instance ideal_disk : VirtioDevice.
Proof.
  refine {| device := serve |}; intros d s r b Hr Ht Hb; unfold serve; rewrite Hr, Hb, Ht; reflexivity.
Defined.

(** ** The machine *)

Definition ring_buf (b : nat) : buf :=
  mk_buf 0 0 0 0 (mk_sleeplock 0 0) 0 (if (b =? 30)%nat then 0%nat else S b)
    (if (b =? 0)%nat then 30%nat else Nat.pred b) (replicate 1024 0).

Definition ring_bufs : list buf := ring_buf <$> seq 0 (S NBUF).

Definition idle_vdisk : vdisk :=
  mk_vdisk (replicate NUM (mk_vdesc ANull 0 0 0)) 0 (replicate NUM 0) 0 (replicate NUM 0) (replicate NUM 1) 0
    (replicate NUM None) (replicate NUM 0).

Definition the_sb : superblock := mk_superblock FSMAGIC 1000 954 200 30 2 32 45.

Definition the_log : log := mk_log 2 30 0 0 1 0 (replicate (Z.to_nat LOGSIZE) 0).

Definition disk_state : kst :=
  set_k_vdisk idle_vdisk (set_k_bufs ring_bufs (set_k_log the_log (set_k_sb the_sb
    (set_k_kpagetable (page 0) the_state)))).

Lemma ring_lru : lru ring_bufs (rev (seq 0 NBUF)).
Proof.
  split; [reflexivity|by rewrite <- Permutation_rev|]. vm_compute. repeat split.
Qed.

Lemma ring_blank b x : (b < NBUF)%nat -> cores ring_bufs !! b = Some x -> blank 1 x /\ unlocked x.
Proof.
  intros Hb Hx. unfold cores, ring_bufs in Hx. rewrite !list_lookup_fmap, lookup_seq_lt in Hx by lia.
  injection Hx as <-. by repeat split.
Qed.

Lemma disk_in_proc : in_proc 1 2 0 disk_state.
Proof.
  split; [discriminate|reflexivity|reflexivity|..|reflexivity|vm_compute; reflexivity].
  eexists. split; [reflexivity|]. by repeat split.
Qed.

Lemma disk_idle : vd_idle (k_vdisk disk_state).
Proof. by split. Qed.

Lemma empty_cache d : acache 1 2 0 1 disk_state d ∅ ∅.
Proof. eapply acache_blank; [reflexivity|exact ring_lru|exact ring_blank|exact disk_in_proc|exact disk_idle]. Qed.

(** ** The disk: blocks 0 to 49 are in use *)

Definition the_bitmap : list Z := replicate 6 255 ++ [3] ++ replicate 1017 0.

Definition the_disk : disk := fun n => if n =? 45 then the_bitmap else replicate 1024 0.

Lemma log_range : 0 <= 2 /\ 2 + LOGSIZE < 2 ^ 31.
Proof. by split. Qed.

Lemma disk_state_idle : idle 1 2 0 1 2 disk_state the_disk.
Proof. split; [by split|done|done|done|reflexivity|reflexivity|apply empty_cache]. Qed.

Lemma bblock b : 0 <= b < 1000 -> BBLOCK b the_sb = 45.
Proof. intros Hb. unfold BBLOCK. change BPB with 8192. rewrite Z.div_small by lia. reflexivity. Qed.

Lemma the_layout : layout 2 the_sb the_disk.
Proof.
  split; [done|done|]. intros b Hb. rewrite bblock by done. split; [by split; [|intros [? ?]]|].
  split; [reflexivity|]. apply Forall_forall. intros x Hx.
  assert (H : forallb (fun x => (0 <=? x) && (x <? 256)) (the_disk 45) = true) by reflexivity.
  rewrite forallb_forall in H. apply list_elem_of_In, H in Hx. lia.
Qed.

Lemma the_first_free : first_free 2 the_sb the_disk 50.
Proof.
  split; [done|reflexivity| |by split; [|intros [? ?]]| |reflexivity].
  - intros b Hb. assert (H : forallb (used the_sb the_disk) (seqZ 0 50) = true) by reflexivity.
    rewrite forallb_forall in H. apply H. apply list_elem_of_In, elem_of_seqZ. lia.
  - intros b Hb. by rewrite bblock.
Qed.

Lemma begun_txn : runs begin_op disk_state tt (begun disk_state) /\ txn 1 2 0 1 2 (begun disk_state) the_disk the_disk [].
Proof. by apply runs_begin_op, disk_state_idle. Qed.

(** A disk whose log holds one committed block, block 60. *)

Definition logged_disk : disk :=
  do_writes the_disk [(3, replicate 1024 7); (2, put_header [60] (replicate 1024 0))].

Lemma logged_ok : log_ok 2 logged_disk.
Proof.
  assert (E : hdr_blocks (logged_disk 2) = [60]) by reflexivity.
  split; [reflexivity|by vm_compute|rewrite E; apply NoDup_singleton|rewrite E].
  constructor; [by split; [|intros [? ?]]|constructor].
Qed.

(** ** Instances *)

Lemma binit_wellformed_witness :
  exists bufs, runs binit disk_state tt (set_k_bufs bufs disk_state) /\ lru bufs (rev (seq 0 NBUF)) /\
    forall t d, k_bufs t = bufs -> in_proc 1 2 0 t -> vd_idle (k_vdisk t) -> acache 1 2 0 1 t d ∅ ∅.
Proof.
  apply (binit_wellformed 1 2 0 1 disk_state); [reflexivity|].
  apply Forall_fmap, Forall_true. intros b. by repeat split.
Defined.

Lemma cache_refines_witness :
  exists b s' ds, let st' := effect (mk_acst the_disk ∅ ∅) (ORead 45) b in
    drun 1 (op_code 1 (mk_acst the_disk ∅ ∅) (ORead 45)) disk_state the_disk ds b s' /\ disk_frame disk_state s' /\
    acache 1 2 0 1 s' (ac_disk st') (ac_pins st') (ac_locked st') /\
    final the_disk ds = ac_disk st' /\ Forall (fun x => x = the_disk \/ x = ac_disk st') ds.
Proof.
  apply (cache_refines 1 2 0 1 disk_state (mk_acst the_disk ∅ ∅) (ORead 45)); [apply empty_cache|].
  split; [done|set_solver|apply map_Forall_empty|done|right; cbn [ac_pins]; rewrite map_size_empty; unfold NBUF, MAXOPBLOCKS; lia].
Defined.

(** begin_op, bzero of block 100 and end_op. *)

Lemma end_op_atomic_witness :
  exists s w s', runs begin_op disk_state tt (begun disk_state) /\
    wrun 1 (bzero 1 100) (begun disk_state) the_disk [] tt s /\ wrun 1 end_op s the_disk w tt s' /\
    let D := write_block the_disk 100 zero_block in
    idle 1 2 0 1 2 s' (do_writes the_disk w) /\ same_home 2 (do_writes the_disk w) D /\
    forall k, let x := do_writes the_disk (take k w) in log_ok 2 x /\
      (same_home 2 (view 2 x) the_disk \/ same_home 2 (view 2 x) D).
Proof.
  destruct begun_txn as [Hb Ht].
  destruct (wrun_bzero 1 2 0 1 2 ltac:(done) log_range _ _ _ _ ∅ 100 Ht) as (s & Hz & _ & Ht');
    [by split; [|intros [? ?]]|done|reflexivity|rewrite map_size_empty; done|].
  destruct (end_op_atomic 1 2 0 1 2 ltac:(done) log_range _ _ _ _ Ht') as (w & s' & H). by exists s, w, s'.
Defined.

Lemma initlog_recovers_witness :
  exists w s' m, wrun 1 (initlog 1 the_sb) disk_state logged_disk w tt s' /\
    (forall k, let x := do_writes logged_disk (take k w) in
      log_ok 2 x /\ same_home 2 (view 2 x) (view 2 logged_disk)) /\
    same_home 2 (do_writes logged_disk w) (view 2 logged_disk) /\ hdr_n (do_writes logged_disk w 2) = 0 /\
    log_at 1 2 [] (k_log s') /\ leaked (hdr_blocks (logged_disk 2)) m /\
    acache 1 2 0 1 s' (do_writes logged_disk w) m ∅.
Proof.
  apply (initlog_recovers 1 2 0 1 2 log_range disk_state logged_disk the_sb);
    [lia|reflexivity|reflexivity|apply empty_cache|exact logged_ok].
Defined.

Lemma the_cur_cont : cur_cont (begun disk_state) 1 (a_container "one" CRUNNING 2).
Proof. eexists 1%nat, _. by repeat split. Qed.

Lemma balloc_first_free_witness :
  exists s' D' bns', wrun 1 (balloc 1) (begun disk_state) the_disk [] 50 s' /\
    txn 1 2 0 1 2 s' the_disk D' bns' /\ layout 2 the_sb D' /\ D' 50 = zero_block /\
    (forall b, 0 <= b < sb_size the_sb -> used the_sb D' b = (50 =? b) || used the_sb the_disk b) /\
    (forall n, n <> 50 -> n <> BBLOCK 50 the_sb -> D' n = the_disk n).
Proof.
  apply (balloc_first_free 1 2 0 1 2 ltac:(done) log_range _ _ _ [] the_sb 50 1 (a_container "one" CRUNNING 2));
    [apply begun_txn|reflexivity|exact the_layout|exact the_first_free|done|exact the_cur_cont|by right].
Defined.

Lemma bfree_clears_witness :
  exists s' D' bns', wrun 1 (bfree 1 49) (begun disk_state) the_disk [] tt s' /\
    txn 1 2 0 1 2 s' the_disk D' bns' /\ layout 2 the_sb D' /\
    (forall b, 0 <= b < sb_size the_sb -> used the_sb D' b = negb (49 =? b) && used the_sb the_disk b) /\
    (forall n, n <> BBLOCK 49 the_sb -> D' n = the_disk n).
Proof.
  apply (bfree_clears 1 2 0 1 2 ltac:(done) log_range _ _ _ [] the_sb 49 1 (a_container "one" CRUNNING 2));
    [apply begun_txn|reflexivity|exact the_layout|done|reflexivity|done|exact the_cur_cont].
Defined.
