(* ===== verification/Fsexamples.v ===== *)
(** * A concrete file system

    The disk of Diskexamples.v with the layout that mkfs gives it (a log of thirty blocks
    from block 2 on, inodes from block 32, the bitmap in block 45), a root directory
    (inode 1, block 46), a file of five bytes (inode 2, block 47), both in the inode
    cache, and a directory d (inode 3, block 48) with the file; on these an instance each
    of the theorems on inodes, directories and paths. *)

From S2P Require Import Prelude Monad Riscv Kstring Kstate Spinlock Printf Kalloc Vm Sched Schedspec.
From S2P Require Import Bio Log Diskspec Cachespec Logspec Fs Txnspec Inodespec Dirspec Pathspec Examples Diskexamples.

(** ** Inodes *)

Definition zero_addrs (l : list Z) : list Z := l ++ replicate (13 - length l) 0.

Definition no_lock : sleeplock := mk_sleeplock 0 0.

Definition empty_inode : inode := mk_inode 0 0 0 no_lock 0 0 0 0 0 0 (replicate 13 0).

Definition root_inode : inode := mk_inode 1 1 2 (mk_sleeplock 1 2) 1 T_DIR 0 0 1 64 (zero_addrs [46]).

Definition a_file : inode := mk_inode 1 2 1 (mk_sleeplock 1 2) 1 T_FILE 0 0 1 5 (zero_addrs [47]).

Definition sub_inode : inode := mk_inode 1 3 2 no_lock 1 T_DIR 0 0 1 48 (zero_addrs [48]).

Definition some_icache : list inode := [root_inode; a_file] ++ replicate 48 empty_inode.

(** ** The disk *)

Definition an_entry (inum : Z) (name : string) : list Z :=
  le_bytes 2 inum ++ take 14 (bytes_of_string name ++ replicate 14 0).

Definition padded (l : list Z) : list Z := l ++ replicate (1024 - length l) 0.

Definition root_block : list Z := padded (an_entry 1 "." ++ an_entry 1 ".." ++ an_entry 0 "" ++ an_entry 3 "d").

Definition sub_block : list Z := padded (an_entry 3 "." ++ an_entry 1 ".." ++ an_entry 2 "hello").

Definition hello_block : list Z := padded (bytes_of_string "hello").

Definition inodes_block : list Z := padded (replicate 64 0 ++ dinode_bytes root_inode ++ dinode_bytes a_file ++ dinode_bytes sub_inode).

Definition fs_disk : disk := fun n =>
  if n =? 45 then the_bitmap else if n =? 32 then inodes_block else if n =? 46 then root_block
  else if n =? 47 then hello_block else if n =? 48 then sub_block else replicate 1024 0.

Definition fs_state : kst := set_k_icache some_icache (begun disk_state).

(** ** Lemmas *)

Lemma bytes_check l : (length l =? 1024)%nat && forallb (fun x => (0 <=? x) && (x <? 256)) l = true -> bytes l.
Proof.
  intros [Hl H]%andb_prop. split; [by apply Nat.eqb_eq in Hl|]. apply Forall_forall. intros x Hx. rewrite forallb_forall in H.
  apply list_elem_of_In, H in Hx. lia.
Qed.

Lemma fs_disk_bytes n : bytes (fs_disk n).
Proof. unfold fs_disk. repeat case_match; apply bytes_check; vm_compute; reflexivity. Qed.

Lemma fs_txn : txn 1 2 0 1 2 fs_state fs_disk fs_disk [].
Proof.
  assert (Hi : idle 1 2 0 1 2 disk_state fs_disk)
    by (split; [by split|done|done|done|reflexivity|reflexivity|apply empty_cache]).
  apply intxn_set_icache. by apply runs_begin_op.
Qed.

Lemma outside_log n : 32 <= n < 1000 -> home 2 n.
Proof. intros H. split; [lia|]. change LOGSIZE with 30. lia. Qed.

Lemma iblock inum : 0 <= inum < 200 -> 32 <= IBLOCK inum the_sb <= 44.
Proof. intros H. unfold IBLOCK. change (sb_inodestart the_sb) with 32. change IPB with 16. rewrite u32_small by dlia. dlia. Qed.

Lemma fs_used b : 0 <= b < 1000 -> used the_sb fs_disk b = used the_sb the_disk b.
Proof. intros Hb. unfold used. by rewrite bblock. Qed.

Lemma low_used b : 0 <= b < 50 -> used the_sb fs_disk b = true.
Proof. intros Hb. rewrite fs_used by lia. apply the_first_free. lia. Qed.

Lemma is_spare a : 46 <= a < 1000 -> spare 2 the_sb fs_disk a.
Proof.
  intros Ha. split; [change (sb_size the_sb) with 1000; lia|apply outside_log; lia|apply fs_disk_bytes| |].
  - intros b Hb. rewrite bblock by done. lia.
  - intros inum Hi. pose proof (iblock inum Hi). lia.
Qed.

Lemma fs_disk_ok : fs_ok 2 the_sb fs_disk.
Proof.
  split; [split; [done|done|]| | | |by split].
  - intros b Hb. rewrite bblock by done. split; [by apply outside_log|apply fs_disk_bytes].
  - intros inum Hi. pose proof (iblock inum Hi). split; [apply outside_log; lia|apply fs_disk_bytes].
  - intros inum b Hi Hb. rewrite bblock by done. pose proof (iblock inum Hi). lia.
  - intros a Ha Hu. change (sb_size the_sb) with 1000 in Ha. apply is_spare. destruct (decide (46 <= a)); [lia|]. rewrite low_used in Hu by lia. done.
Qed.

(** A file of one block. *)

Lemma one_block_ok a size : 46 <= a < 50 -> 0 < size <= 1024 -> file_ok 2 the_sb fs_disk (zero_addrs [a]) size.
Proof.
  intros Ha Hs. assert (Hfa : forall bn, 0 <= bn < MAXFILE -> file_addr fs_disk (zero_addrs [a]) bn = if bn =? 0 then a else 0).
  { intros bn Hbn. unfold file_addr. change (addr_at (zero_addrs [a]) NDIRECT) with 0. cbn [Z.eqb].
    destruct (Z.ltb_spec bn NDIRECT) as [Hlt|]; [|destruct (Z.eqb_spec bn 0) as [->|]; [done|done]].
    change NDIRECT with 12 in Hlt. assert (H : bn = 0 \/ 0 < bn < 12) by lia. destruct H as [->|H]; [done|].
    destruct (Z.eqb_spec bn 0); [lia|]. unfold addr_at, zero_addrs.
    rewrite lookup_app_r by (cbn; lia). rewrite lookup_replicate_2; [done|]. cbn. lia. }
  change MAXFILE with 268 in Hfa. split; [done|change (MAXFILE * BSIZE) with 274432; lia|..]; change MAXFILE with 268; change BSIZE with 1024.
  - intros bn H0 Hlt. assert (bn = 0) as -> by lia. rewrite Hfa by lia. cbn. lia.
  - intros bn Hbn. rewrite Hfa by done. destruct (bn =? 0); [|done]. intros _. split; [apply is_spare; lia|apply low_used; lia].
  - done.
  - intros bn bn' Hb Hb'. rewrite !Hfa by done. destruct (Z.eqb_spec bn 0), (Z.eqb_spec bn' 0); lia.
  - intros bn Hb. rewrite Hfa by done. change (addr_at (zero_addrs [a]) NDIRECT) with 0. done.
Qed.

Lemma root_dir : is_dir 1 2 the_sb fs_disk root_inode.
Proof. split; [done|done|by apply one_block_ok|by exists 4]. Qed.

Lemma a_file_ok : file_ok 2 the_sb fs_disk (i_addrs a_file) (i_size a_file).
Proof. by apply one_block_ok. Qed.

Lemma fs_cur_cont : cur_cont fs_state 1 (a_container "one" CRUNNING 2).
Proof. eexists 1%nat, _. by repeat split. Qed.

Lemma fs_room : room the_sb fs_disk [] 1 (a_container "one" CRUNNING 2) 1.
Proof. split; [done|vm_compute; discriminate|right; done]. Qed.

Lemma some_icache_lookup k y : some_icache !! k = Some y -> y = root_inode /\ k = 0%nat \/ y = a_file /\ k = 1%nat \/ y = empty_inode.
Proof.
  destruct k as [|[|k]]; [intros [= <-]; auto..|]. unfold some_icache. cbn [app]. rewrite !lookup_cons_ne_0 by lia.
  intros [-> _]%lookup_replicate. auto.
Qed.

Lemma some_icache_ok : icache_ok some_icache.
Proof.
  split; [reflexivity| |].
  - apply Forall_lookup. intros k y [[-> _]|[[-> _]| ->]]%some_icache_lookup; done.
  - intros j k x y [[-> ->]|[[-> ->]| ->]]%some_icache_lookup [[-> ->]|[[-> ->]| ->]]%some_icache_lookup; done.
Qed.

Lemma some_icache_refs : Forall (fun x => i_ref x < 2 ^ 31 - 2) some_icache.
Proof. apply Forall_lookup. intros k y [[-> _]|[[-> _]| ->]]%some_icache_lookup; done. Qed.

Lemma some_slot k : slot_for 1 fs_disk root_inode k some_icache.
Proof. intros inum _. apply Exists_exists. exists empty_inode. split; [|by right]. do 2 right. left. Qed.

(** ** Instances *)

Lemma iget_shares_witness :
  (exists x, x ∈ some_icache /\ (cached_as 1 1 x = true \/ i_ref x = 0)) /\
  (exists ip x, runs (iget 1 1) fs_state ip (with_inode ip x fs_state) /\ icache_ok (<[ip := x]> some_icache) /\
    i_dev x = 1 /\ i_inum x = 1 /\ 0 < i_ref x /\
    (forall dev' inum', refs_to dev' inum' (<[ip := x]> some_icache) =
      refs_to dev' inum' some_icache + (if decide (dev' = 1 /\ inum' = 1) then 1 else 0)) /\
    (forall y, some_icache !! ip = Some y -> 0 < i_ref y -> x = set_i_ref (i_ref y + 1) y)) \/
  Forall (fun x => cached_as 1 1 x = false /\ i_ref x <> 0) some_icache /\ panics (iget 1 1) fs_state "iget: no inodes".
Proof. apply (iget_shares 1 1 fs_state); [reflexivity|exact some_icache_ok|exact some_icache_refs]. Defined.

Lemma readi_content_witness :
  exists s', fs_frame fs_state s' /\ txn 1 2 0 1 2 s' fs_disk fs_disk [] /\
    wrun 1 (readi 1 (PObj (replicate 4 0)) 3 4) fs_state fs_disk [] (2, PObj (bytes_of_string "lo" ++ [0; 0])) s'.
Proof.
  pose proof (readi_content 1 2 0 1 2 ltac:(done) log_range the_sb fs_state fs_disk fs_disk [] 1 a_file 3 4 (replicate 4 0)
    fs_txn eq_refl eq_refl a_file_ok ltac:(done) ltac:(done) ltac:(done)) as H.
  vm_compute content in H. exact H.
Defined.

Lemma iupdate_ilock_witness :
  exists s' D' bns', wrun 1 (iupdate 1) fs_state fs_disk [] tt s' /\ txn 1 2 0 1 2 s' fs_disk D' bns' /\
    (forall n, n <> IBLOCK 2 the_sb -> D' n = fs_disk n) /\
    (forall j, (j < Z.to_nat (dinode_off 2) \/ Z.to_nat (dinode_off 2) + 64 <= j)%nat ->
      D' (IBLOCK 2 the_sb) !! j = fs_disk (IBLOCK 2 the_sb) !! j) /\
    forall t d2 D2 bns2 jp z, txn 1 2 0 1 2 t d2 D2 bns2 -> k_sb t = the_sb -> D2 (IBLOCK 2 the_sb) = D' (IBLOCK 2 the_sb) ->
      k_icache t !! jp = Some z -> i_dev z = 1 -> i_inum z = 2 -> 1 <= i_ref z -> sl_locked (i_lock z) = 0 ->
      i_valid z = 0 -> length (i_addrs z) = 13%nat ->
      exists t', wrun 1 (ilock (Some jp)) t d2 [] tt t' /\ txn 1 2 0 1 2 t' d2 D2 bns2 /\ k_icache t' !! jp = Some (loaded 2 z a_file).
Proof.
  apply (iupdate_ilock 1 2 0 1 2 ltac:(done) log_range fs_state fs_disk fs_disk [] the_sb 1 a_file);
    [exact fs_txn|reflexivity|reflexivity|reflexivity| |done| |done].
  - split; [done..|]. apply (bool_decide_unpack _). vm_compute. exact I.
  - apply fs_disk_ok. done.
Defined.

Lemma writei_splices_witness :
  exists s' D' bns' x', wrun 1 (writei 1 (PObj (bytes_of_string "p!")) 4 2) fs_state fs_disk [] 2 s' /\
    txn 1 2 0 1 2 s' fs_disk D' bns' /\ k_icache s' !! 1%nat = Some x' /\ i_size x' = 6 /\
    contents D' x' = bytes_of_string "hellp!" /\ fs_ok 2 the_sb D' /\ file_ok 2 the_sb D' (i_addrs x') (i_size x') /\
    on_disk the_sb D' 2 x' /\
    (forall b, data_block 2 the_sb fs_disk b -> ~ in_file fs_disk (i_addrs a_file) b -> D' b = fs_disk b) /\
    (forall inum y, 0 <= inum < sb_ninodes the_sb -> inum <> i_inum a_file -> on_disk the_sb fs_disk inum y -> on_disk the_sb D' inum y) /\
    exists s2, wrun 1 (readi 1 (PObj (replicate 2 0)) 4 2) s' fs_disk [] (2, PObj (bytes_of_string "p!")) s2.
Proof.
  assert (E : splice 4 (bytes_of_string "p!") (contents fs_disk a_file) = bytes_of_string "hellp!") by (vm_compute; reflexivity).
  rewrite <- E. clear E.
  apply (writei_splices 1 2 0 1 2 ltac:(done) log_range the_sb fs_state fs_disk fs_disk [] 1 a_file 1 (a_container "one" CRUNNING 2) 4
    (bytes_of_string "p!") fs_txn eq_refl eq_refl eq_refl ltac:(done) fs_disk_ok a_file_ok);
    [by split|done|done| |exact fs_cur_cont|exact fs_room].
  apply (bool_decide_unpack _). vm_compute. exact I.
Defined.

Lemma dirlookup_finds_witness :
  exists r s', wrun 1 (dirlookup 0 (cstr "..")) fs_state fs_disk [] r s' /\ txn 1 2 0 1 2 s' fs_disk fs_disk [] /\
    match r with
    | None => dir_lookup (contents fs_disk root_inode) [46; 46] = None /\ k_icache s' = some_icache
    | Some (ip, off) => exists j e y, off = 16 * Z.of_nat j /\ entries (contents fs_disk root_inode) !! j = Some e /\ named [46; 46] e /\
        dir_lookup (contents fs_disk root_inode) [46; 46] = Some (de_inum e) /\ k_icache s' = <[ip := y]> some_icache /\
        icache_ok (k_icache s') /\ i_dev y = 1 /\ i_inum y = de_inum e /\ 0 < i_ref y
    end.
Proof.
  apply (dirlookup_finds 1 2 0 1 2 ltac:(done) log_range the_sb fs_state fs_disk fs_disk [] 0 root_inode 1 (a_container "one" CRUNNING 2)
    (cstr "..") [46; 46] fs_txn eq_refl root_dir some_icache_ok some_icache_refs fs_cur_cont);
    [by eexists|reflexivity|apply some_slot].
Defined.

Lemma dirlink_adds_witness :
  exists s' D' bns' x', wrun 1 (dirlink 0 (cstr "a") 2) fs_state fs_disk [] 0 s' /\ txn 1 2 0 1 2 s' fs_disk D' bns' /\
    k_icache s' = <[0%nat := x']> some_icache /\ is_dir 1 2 the_sb D' x' /\ fs_ok 2 the_sb D' /\ on_disk the_sb D' 1 x' /\
    (forall k', dir_lookup (contents D' x') k' = if decide (k' = [97]) then Some 2 else dir_lookup (contents fs_disk root_inode) k') /\
    (forall b, data_block 2 the_sb fs_disk b -> ~ in_file fs_disk (i_addrs root_inode) b -> D' b = fs_disk b) /\
    (forall j y, 0 <= j < sb_ninodes the_sb -> j <> i_inum root_inode -> on_disk the_sb fs_disk j y -> on_disk the_sb D' j y).
Proof.
  apply (dirlink_adds 1 2 0 1 2 ltac:(done) log_range the_sb fs_state fs_disk fs_disk [] 0 root_inode 1 (a_container "one" CRUNNING 2)
    (cstr "a") [97] 2 fs_txn eq_refl eq_refl root_dir fs_disk_ok ltac:(done) some_icache_ok fs_cur_cont eq_refl eq_refl);
    [|done|vm_compute; reflexivity|done|exact fs_room].
  apply (bool_decide_unpack _). vm_compute. exact I.
Defined.

Lemma dirlink_exists_witness :
  exists s', wrun 1 (dirlink 0 (cstr ".") 2) fs_state fs_disk [] (-1) s' /\ txn 1 2 0 1 2 s' fs_disk fs_disk [] /\
    icache_ok (k_icache s') /\
    forall dev' inum', refs_to dev' inum' (k_icache s') = refs_to dev' inum' some_icache.
Proof.
  apply (dirlink_exists 1 2 0 1 2 ltac:(done) log_range the_sb fs_state fs_disk fs_disk [] 0 root_inode 1 (a_container "one" CRUNNING 2)
    (cstr ".") [46] 2 1 fs_txn eq_refl root_dir some_icache_ok some_icache_refs fs_cur_cont);
    [by eexists|reflexivity|apply some_slot|vm_compute; reflexivity].
Defined.

Lemma file_bounds_witness :
  runs (writei 1 (PObj [0]) 6 1) fs_state (-1) fs_state /\ runs (writei 1 (PObj [0]) 5 274430) fs_state (-1) fs_state.
Proof.
  split.
  - destruct (file_bounds fs_state 1 a_file 6 1 (PObj [0]) (PObj [0])) as [H _]; [reflexivity|done|done|]. by apply H; left.
  - apply (file_bounds fs_state 1 a_file 5 274430 (PObj [0]) (PObj [0])); [reflexivity|done|done|done].
Defined.

(** ** A walk

    A process in a container whose root is the directory d, with the root directory as
    its current one; d is cached and has not been read yet. *)

Definition confined_container : container := set_c_root (Some 2%nat) (a_container "one" CRUNNING 2).

Definition walk_base : kst :=
  set_k_conts (<[1%nat := confined_container]> some_conts)
    (set_k_procs (<[1%nat := set_p_cwd (Some 0%nat) (a_proc RUNNING 2 (Some 1%nat) 1 PGSIZE (page 0))]> some_procs) disk_state).

Definition walk_icache : list inode :=
  [set_i_lock no_lock root_inode; set_i_lock no_lock a_file; set_i_valid 0 sub_inode] ++ replicate 47 empty_inode.

Definition walk_state : kst := set_k_icache walk_icache (begun walk_base).

Definition the_tree : gmap Z inode := {[1 := root_inode; 2 := a_file; 3 := sub_inode]}.

Lemma walk_txn : txn 1 2 0 1 2 walk_state fs_disk fs_disk [].
Proof.
  assert (Hp : in_proc 1 2 0 walk_base).
  { split; [discriminate|reflexivity|reflexivity|..|reflexivity|vm_compute; reflexivity]. eexists. split; [reflexivity|]. by repeat split. }
  assert (Hc : acache 1 2 0 1 walk_base fs_disk ∅ ∅)
    by (eapply acache_blank; [reflexivity|exact ring_lru|exact ring_blank|exact Hp|exact disk_idle]).
  assert (Hi : idle 1 2 0 1 2 walk_base fs_disk) by (split; [by split|done|done|done|reflexivity|reflexivity|done]).
  apply intxn_set_icache. by apply runs_begin_op.
Qed.

Lemma walk_cur_cont : cur_cont walk_state 1 confined_container.
Proof. eexists 1%nat, _. by repeat split. Qed.

Lemma the_tree_lookup n y : the_tree !! n = Some y -> n = 1 /\ y = root_inode \/ n = 2 /\ y = a_file \/ n = 3 /\ y = sub_inode.
Proof.
  unfold the_tree. intros [[<- <-]|[_ [[<- <-]|[_ [<- <-]%lookup_singleton_Some]]%lookup_insert_Some]]%lookup_insert_Some; auto.
Qed.

Lemma inode_typed x :
  bool_decide (- 2 ^ 15 <= i_type x < 2 ^ 15 /\ - 2 ^ 15 <= i_major x < 2 ^ 15 /\ - 2 ^ 15 <= i_minor x < 2 ^ 15 /\
    - 2 ^ 15 <= i_nlink x < 2 ^ 15 /\ 0 <= i_size x < 2 ^ 32 /\ length (i_addrs x) = 13%nat /\ Forall (fun a => 0 <= a < 2 ^ 32) (i_addrs x)) = true ->
  dinode_typed x.
Proof. intros (? & ? & ? & ? & ? & ? & ?)%bool_decide_eq_true. by split. Qed.

(** The entries of the two directories lead into the tree. *)

Lemma entries_closed cs k m :
  forallb (fun e => (de_inum e =? 0) || bool_decide (is_Some (the_tree !! de_inum e))) (entries cs) = true ->
  dir_lookup cs k = Some m -> is_Some (the_tree !! m).
Proof.
  intros H Hk. unfold dir_lookup in Hk. destruct (list_find (named k) (entries cs)) as [[j e]|] eqn:E; [|done]. injection Hk as <-.
  apply list_find_Some in E as (He & [Hn _] & _). rewrite forallb_forall in H.
  specialize (H e (proj1 (list_elem_of_In _ _) (list_elem_of_lookup_2 _ _ _ He))). apply orb_prop in H as [H|H]; [lia|].
  by apply bool_decide_eq_true in H.
Qed.

Lemma the_tree_ok : tree 2 the_sb fs_disk the_tree.
Proof.
  split.
  - intros n y [[-> ->]|[[-> ->]|[-> ->]]]%the_tree_lookup; (split; [by apply fs_disk_ok|vm_compute; reflexivity]).
  - intros n y [[-> ->]|[[-> ->]|[-> ->]]]%the_tree_lookup; (split; [by apply inode_typed; vm_compute|done]).
  - intros n y [[-> ->]|[[-> ->]|[-> ->]]]%the_tree_lookup Hd; [| |]; try done;
      (split; [by apply one_block_ok|by apply Z.mod_divide]).
  - intros n y k m [[-> ->]|[[-> ->]|[-> ->]]]%the_tree_lookup Hd; try done; apply entries_closed; vm_compute; reflexivity.
Qed.

Lemma walk_icache_lookup k y :
  walk_icache !! k = Some y -> y = set_i_lock no_lock root_inode /\ k = 0%nat \/ y = set_i_lock no_lock a_file /\ k = 1%nat \/
    y = set_i_valid 0 sub_inode /\ k = 2%nat \/ y = empty_inode.
Proof.
  destruct k as [|[|[|k]]]; [intros [= <-]; auto..|]. unfold walk_icache. cbn [app]. rewrite !lookup_cons_ne_0 by lia.
  intros [-> _]%lookup_replicate. auto.
Qed.

Lemma walk_coherent : coherent 1 the_tree walk_icache.
Proof.
  split; [split; [reflexivity| |]|].
  - apply Forall_lookup. intros k y [[-> _]|[[-> _]|[[-> _]| ->]]]%walk_icache_lookup; done.
  - intros j k x y [[-> ->]|[[-> ->]|[[-> ->]| ->]]]%walk_icache_lookup [[-> ->]|[[-> ->]|[[-> ->]| ->]]]%walk_icache_lookup; done.
  - apply Forall_lookup. intros k y [[-> _]|[[-> _]|[[-> _]| ->]]]%walk_icache_lookup; (split; [done|done|]); intros; try (by left).
    + right. exists root_inode. by split.
    + right. exists a_file. by split.
Qed.

Lemma walk_spacious : spacious 1 1 confined_container (Some 3) walk_icache.
Proof.
  split.
  - exists 3%nat, 4%nat, empty_inode, empty_inode. by repeat split.
  - apply Forall_lookup. intros k y [[-> _]|[[-> _]|[[-> _]| ->]]]%walk_icache_lookup; done.
  - split; [done|]. by exists 2%nat, (set_i_valid 0 sub_inode).
Qed.

Lemma walk_spacious_root : spacious 1 1 confined_container (Some 3) (unref 2 walk_icache).
Proof.
  destruct walk_spacious as [_ H _]. split.
  - exists 3%nat, 4%nat, empty_inode, empty_inode. by repeat split.
  - rewrite (unref_lookup 2 (set_i_valid 0 sub_inode)) by done. by apply Forall_insert.
  - split; [done|]. by eexists 2%nat, _.
Qed.

(** From the root directory through d, which is the container's root and its own parent,
    to the file. *)

Lemma namex_resolves_witness :
  exists o name' s', wrun 1 (namex (cstr "d/../hello") false uninit_name) walk_state fs_disk [] (o, name') s' /\
    answered 1 2 0 1 2 fs_disk fs_disk [] the_tree walk_icache [[100]; [46; 46]; bytes_of_string "hello"] uninit_name (Some 2) o name' s'.
Proof.
  assert (E : resolve fs_disk the_tree (Some 3) false 1 (path_elements (bytes_of_string "d/../hello")) = Some 2) by (vm_compute; reflexivity).
  rewrite <- E. clear E.
  apply (namex_resolves 1 2 0 1 2 ltac:(done) log_range the_sb fs_disk fs_disk [] the_tree 1 confined_container (Some 3) the_tree_ok walk_state
    (bytes_of_string "d/../hello") [] false uninit_name 1 root_inode walk_txn eq_refl walk_cur_cont walk_coherent walk_spacious).
  - vm_compute decide. eexists _, 0%nat, _. by repeat split.
  - done.
  - apply (bool_decide_unpack _). vm_compute. exact I.
  - done.
Defined.

Lemma namex_container_root_witness :
  exists o name' s', wrun 1 (namex (cstr "/../none") false uninit_name) walk_state fs_disk [] (o, name') s' /\
    answered 1 2 0 1 2 fs_disk fs_disk [] the_tree (unref 2 walk_icache) [[46; 46]; bytes_of_string "none"] uninit_name None o name' s' /\
    (forall dev' inum', refs_to dev' inum' (unref 2 walk_icache) =
      refs_to dev' inum' walk_icache - (if decide (dev' = 1 /\ inum' = 3) then 1 else 0)).
Proof.
  assert (E : resolve fs_disk the_tree (Some 3) false 3 (path_elements (bytes_of_string "/../none")) = None) by (vm_compute; reflexivity).
  rewrite <- E. clear E.
  apply (namex_container_root 1 2 0 1 2 ltac:(done) log_range the_sb fs_disk fs_disk [] the_tree 1 confined_container (Some 3) the_tree_ok walk_state
    (bytes_of_string "/../none") [] false uninit_name 2 3 (set_i_valid 0 sub_inode) sub_inode walk_txn eq_refl walk_cur_cont walk_coherent
    ltac:(done) eq_refl eq_refl eq_refl eq_refl ltac:(done) walk_spacious_root eq_refl eq_refl); [|done].
  apply (bool_decide_unpack _). vm_compute. exact I.
Defined.
