(* ===== verification/Hartexamples.v ===== *)
(** * A concrete hart

    A hart whose page tables map the trapframe of a process at TRAPFRAME and everything
    else at its own address; on it an instance each of the theorems on the assembly and
    the start-up code. *)

From S2P Require Import Prelude Monad Riscv Kstring Kstate Hart Hartspec.

Definition the_tf : Z := 0x80200000.
Definition the_satp : Z := MAKE_SATP 0x80300000.

Definition tf_translate (satp va : Z) : Z :=
  if bool_decide (TRAPFRAME <= va < TRAPFRAME + PGSIZE) then va - TRAPFRAME + the_tf else va.

Definition no_csrs : csr -> Z := fun _ => 0.
Definition some_regs : reg -> Z := fun r => if decide (r = Sp) then 0x80400000 else 7.

Definition user_hart : hart :=
  mk_hart some_regs (put (put no_csrs Sscratch TRAPFRAME) Satp the_satp) ∅ Supervisor 0.

Definition returning (h : hart) : hart := set_reg A0 TRAPFRAME (set_reg A1 the_satp h).

Lemma some_regs_ok r : 0 <= some_regs r < 2 ^ 64.
Proof. unfold some_regs. destruct (decide _); lia. Qed.

Lemma user_hart_trap : user_trap tf_translate user_hart the_tf.
Proof.
  split; [done|done| |exact some_regs_ok]. split; [vm_compute; discriminate|].
  intros o Ho. unfold tf_translate. rewrite bool_decide_true by (unfold PGSIZE; lia). lia.
Qed.

Lemma returning_mem h : h_mem (returning h) = h_mem h.
Proof. done. Qed.

Lemma put_csr_mem c v h : h_mem (put_csr c v h) = h_mem h.
Proof. done. Qed.

Lemma trampoline_roundtrip_witness :
  get_reg S5 (exec tf_translate userret (returning (exec tf_translate uservec user_hart))) = 7.
Proof.
  destruct (trampoline_roundtrip tf_translate user_hart (returning (exec tf_translate uservec user_hart)) the_tf
    user_hart_trap) as (_ & _ & H & _);
    [vm_compute; reflexivity..|intros r o _; by rewrite returning_mem|].
  rewrite H by discriminate. reflexivity.
Defined.

(** Two kernel threads with their contexts at 0x80500000 and 0x80500100. *)

Definition thread_hart : hart :=
  mk_hart (put (put some_regs A0 0x80500000) A1 0x80500100) (put no_csrs Satp the_satp) ∅ Supervisor 0.

Definition other_thread : hart :=
  mk_hart (put (put some_regs A0 0x80500100) A1 0x80500000) (put no_csrs Satp the_satp)
    (h_mem (exec tf_translate swtch thread_hart)) Supervisor 0.

Lemma kernel_identity m c f b l :
  0 <= b < 2 ^ 37 -> Forall (fun x : reg * Z => 0 <= x.2 < 256) l ->
  window tf_translate (mk_hart f (put no_csrs Satp the_satp) m Supervisor c) b b l.
Proof.
  intros Hb Hl [r o] Hin. rewrite Forall_forall in Hl. specialize (Hl _ Hin). cbn [snd] in *.
  rewrite u64_small by lia. unfold phys. cbn [h_mode h_csrs]. unfold tf_translate.
  assert (E : TRAPFRAME = 2 ^ 38 - 8192) by reflexivity. rewrite bool_decide_false by lia. by destruct (_ =? 0).
Qed.

Lemma put_regs_ok (f : reg -> Z) r v : (forall r, 0 <= f r < 2 ^ 64) -> 0 <= v < 2 ^ 64 -> forall r', 0 <= put f r v r' < 2 ^ 64.
Proof. intros Hf Hv r'. unfold put. by destruct (decide _). Qed.

Lemma thread_switch a b m :
  0 <= a < 2 ^ 37 -> 0 <= b < 2 ^ 37 -> a + 112 <= b \/ b + 112 <= a ->
  switching tf_translate (mk_hart (put (put some_regs A0 a) A1 b) (put no_csrs Satp the_satp) m Supervisor 0) a b.
Proof.
  intros Ha Hb Hab. assert (Hc : Forall (fun x : reg * Z => 0 <= x.2 < 256) context_slots).
  { apply (bool_decide_unpack _). vm_compute. exact I. }
  split; [done|done|by apply kernel_identity..|done|].
  intros r. cbn [h_regs]. apply put_regs_ok; [|lia]. apply put_regs_ok; [|lia]. exact some_regs_ok.
Qed.

Lemma ctx_s3_of h : ctx_s3 (context_of h) = get_reg S3 h.
Proof. done. Qed.

Lemma swtch_roundtrip_witness : get_reg S3 (exec tf_translate swtch other_thread) = 7.
Proof.
  destruct (swtch_roundtrip tf_translate thread_hart other_thread 0x80500000 0x80500100 0x80500100) as (_ & _ & _ & H & _);
    [apply thread_switch; lia|apply thread_switch; lia|vm_compute; reflexivity|].
  apply (f_equal ctx_s3) in H. rewrite !ctx_s3_of in H. rewrite H. reflexivity.
Defined.

Lemma kernelvec_transparent_witness :
  get_reg T2 (exec tf_translate kernelvec_restore
    (put_csr Mstatus 256 (exec tf_translate kernelvec_save thread_hart))) = 7.
Proof.
  destruct (kernelvec_transparent tf_translate thread_hart (put_csr Mstatus 256 (exec tf_translate kernelvec_save thread_hart))
    (0x80400000 - 256)) as (H & _);
    [| |vm_compute; reflexivity..|intros r o _; by rewrite put_csr_mem|vm_compute; reflexivity|].
  - intros r. cbn [h_regs thread_hart]. apply put_regs_ok; [|lia]. apply put_regs_ok; [|lia]. exact some_regs_ok.
  - apply kernel_identity; [vm_compute; split; congruence|]. apply (bool_decide_unpack _). vm_compute. exact I.
  - rewrite H by discriminate. reflexivity.
Defined.

(** The first hart, in machine mode, with its scratch area at 0x80600000. *)

Definition boot_hart : hart := mk_hart some_regs no_csrs ∅ Machine 0x80000000.

Lemma start_enters_main_witness :
  exists h', runs (start 0x80001000 0x80002000 0x80600000) (exec tf_translate (entry 0x80008000) boot_hart) tt h' /\
    h_mode h' = Supervisor /\ get_reg Sp h' = 0x80009000.
Proof.
  destruct (start_enters_main tf_translate 0x80001000 0x80002000 0x80600000 0x80008000 boot_hart 0)
    as (h' & H1 & H2 & _ & _ & _ & H3 & _); [done|done|done|done|done|done|]. exists h'. by rewrite H3.
Defined.

Definition timer_mem : mem :=
  store64 (store64 (store64 ∅ (CLINT_MTIMECMP 0) 0) (0x80600000 + 32) (CLINT_MTIMECMP 0)) (0x80600000 + 40) 1000000.

Definition timer_hart : hart :=
  mk_hart some_regs (put (put no_csrs Mscratch 0x80600000) Mideleg 0x222) timer_mem Machine 0.

Lemma timervec_ticks_witness : load64 (h_mem (exec tf_translate timervec timer_hart)) (CLINT_MTIMECMP 0) = 1000000.
Proof.
  destruct (timervec_ticks tf_translate timer_hart 0x80600000 (CLINT_MTIMECMP 0) 1000000) as (_ & _ & H & _);
    [done|exact some_regs_ok| |done|].
  - split; [done|vm_compute; reflexivity|vm_compute; reflexivity|vm_compute; intuition congruence|vm_compute; left; congruence].
  - rewrite H. vm_compute. reflexivity.
Defined.
