(* ===== verification/Smpexamples.v ===== *)
(** * Runs of several harts

    Two or three harts with two processes; on them the instances of the theorems of
    Smpspec.v, and runs that show what can happen besides: a wakeup that arrives, a container
    that is run after it has been suspended, and a process that suspend and kill give to two
    harts. *)

From S2P Require Import Prelude Monad Riscv Kstring Kstate Sched Smpsched Smpproto Smpspec Examples.

Import Harts.

(** ** Machines *)

Definition root_only : list container := a_container "root" CRUNNING 1 :: replicate 4 (a_container "" CUNUSED 1).
Definition two_running : list container := a_container "root" CRUNNING 1 :: a_container "one" CRUNNING 1 :: replicate 3 (a_container "" CUNUSED 1).

Definition table (ps : list proc) : list proc := ps ++ replicate (NPROC - length ps) (a_proc UNUSED 0 None 0 0 0).

Definition runnable (pid : Z) (ci : nat) : proc := a_proc RUNNABLE pid (Some ci) pid 0 0.

Definition free_slocks (_ : slock) : sleeplock := mk_sleeplock 0 0.

Definition steps (h n : nat) : list event := replicate n (Step h).

(** What is so in the state that a run ends in. *)

Definition ends (evs : list event) (m : mach) (P : mach -> bool) : bool := match play evs m with Some m' => P m' | None => false end.

Lemma ends_play evs m P : ends evs m P = true -> exists m', play evs m = Some m' /\ P m' = true.
Proof. unfold ends. destruct (play evs m) as [m'|]; [|done]. by exists m'. Qed.

Definition state_is (i : nat) (st : procstate) (m : mach) : bool := bool_decide (p_state <$> m_procs m !! i = Some st).
Definition runs_proc (h i : nat) (m : mach) : bool := bool_decide (h_proc <$> m_harts m !! h = Some (Some i)).

(** ** Two processes and a sleep lock *)

Definition contend (i : nat) : list call :=
  match i with
  | 0%nat => [Cacquiresleep (SBuf 0); Creleasesleep (SBuf 0)]
  | 1%nat => [Cacquiresleep (SBuf 0)]
  | _ => []
  end.

Definition contended : mach := boot 20 2 (table [runnable 1 0; runnable 2 0]) root_only free_slocks contend.

Lemma contended_ok : bootable (table [runnable 1 0; runnable 2 0]) root_only contend.
Proof.
  split; [done|done|apply (bool_decide_unpack _); vm_compute; done|]. intros [|[|i]]; repeat constructor.
Qed.

(** Process 0 has the lock on hart 0, process 1 sleeps for it. *)

Definition one_sleeps : list event := steps 0 20 ++ steps 1 45.

Lemma sleep_no_lost_wakeup_witness :
  exists m, play one_sleeps contended = Some m /\ asleep_for m (SBuf 0) 1 /\ sl_locked (m_sleep m (SBuf 0)) <> 0.
Proof.
  destruct (ends_play one_sleeps contended (fun m => bool_decide (m_locks m !! Lsleep (SBuf 0) = None) &&
    bool_decide ((fun p => (p_state p, p_chan p)) <$> m_procs m !! 1%nat = Some (SLEEPING, Some (ChSleep (SBuf 0)))))) as (m & Hp & Hm); [vm_compute; done|].
  apply andb_true_iff in Hm as [Hl%bool_decide_eq_true Hs%bool_decide_eq_true].
  assert (Ha : asleep_for m (SBuf 0) 1) by (clear Hp; destruct (m_procs m !! 1%nat) as [p|] eqn:E; [injection Hs as ? ?; by exists p|done]).
  exists m. split; [exact Hp|]. split; [exact Ha|].
  exact (sleep_no_lost_wakeup 20 2 _ root_only free_slocks contend one_sleeps m (SBuf 0) 1 contended_ok Hp Hl Ha).
Defined.

(** Hart 0 releases the lock: process 1 is awake, and the scheduler of hart 1 takes it up. *)

Lemma sleeper_woken : ends (one_sleeps ++ steps 0 12) contended (state_is 1 RUNNABLE) = true.
Proof. vm_compute. done. Qed.

(** With an interrupt of hart 1, both harts run a process each. *)

Definition both_run : list event := steps 0 20 ++ [Interrupt 1] ++ steps 1 18.

Lemma process_on_one_hart_witness :
  exists m, play both_run contended = Some m /\ runs_proc 0 0 m = true /\ runs_proc 1 1 m = true /\
    (forall h h' x x' j, m_harts m !! h = Some x -> m_harts m !! h' = Some x' -> h_proc x = Some j -> h_proc x' = Some j -> h = h') /\
    (forall h x j, m_harts m !! h = Some x -> h_proc x = Some j ->
       exists ci, table [runnable 1 0; runnable 2 0] !! j ≫= p_container = Some ci /\ was_running contended both_run ci) /\
    (forall ev msg, happens ev m <> Stops msg).
Proof.
  destruct (ends_play both_run contended (fun m => runs_proc 0 0 m && runs_proc 1 1 m)) as (m & Hp & Hm); [vm_compute; done|].
  apply andb_true_iff in Hm as [H0 H1]. exists m. split; [exact Hp|]. split; [exact H0|]. split; [exact H1|].
  exact (process_on_one_hart 20 2 _ root_only free_slocks contend both_run m contended_ok Hp).
Defined.

(** ** A container that is suspended

    The scheduler of hart 2 has found container 1 running when process 0 suspends it, on
    hart 1; hart 2 goes on to run process 1 of this container. *)

Definition pause (i : nat) : list call := match i with 0%nat => [Ccstate 1 CSUSPENDED] | 1%nat => [Cyield] | _ => [] end.

Definition pausing : mach := boot 20 3 (table [runnable 1 0; runnable 2 1]) two_running free_slocks pause.

Lemma suspended_still_runs :
  ends (steps 2 2 ++ steps 0 12 ++ steps 1 205 ++ steps 0 15 ++ steps 1 1) pausing
    (fun m => bool_decide (c_state <$> m_conts m !! 1%nat = Some CSUSPENDED) && negb (runs_proc 2 1 m)) = true /\
  ends (steps 2 2 ++ steps 0 12 ++ steps 1 205 ++ steps 0 15 ++ steps 1 1 ++ steps 2 8) pausing (runs_proc 2 1) = true.
Proof. split; vm_compute; done. Qed.

(** ** suspend and kill

    Process 0 runs on hart 0.  Process 1 suspends it, which hart 0 does not notice, and kills
    it, which makes it runnable; hart 2 then runs it too. *)

Definition meddle (i : nat) : list call := match i with 1%nat => [Csuspend 1; Ckill 1] | _ => [] end.

Definition meddling : mach := boot 20 3 (table [runnable 1 0; runnable 2 0]) root_only free_slocks meddle.

Lemma suspend_kill_two_harts :
  ends (steps 0 13 ++ steps 1 28 ++ steps 2 13) meddling (fun m => runs_proc 0 0 m && runs_proc 2 0 m) = true.
Proof. vm_compute. done. Qed.
